(* ===== verification/_CoqProject ===== *)
-Q . S2P
Prelude.v
DList.v
CString.v
Sched.v
Lock.v
Exclusion.v
BCache.v
FsLayout.v
Fs.v
FsFacts.v
FsDir.v
FsFile.v
FsWitness.v
PageTable.v
Mm.v
MmFacts.v
MmWitness.v
UserMem.v
Process.v
ProcessFacts.v
ProcessWitness.v
Exec.v
ExecWitness.v
Load.v
Printk.v
Screen.v
Syscall.v
Trap.v
Smp.v
Net.v
NetFacts.v
Plic.v
Bios.v
Boot.v
IoMap.v
Start.v
StartFacts.v
StartWitness.v
Image.v
ImageFacts.v
Program.v
Malloc.v
Printf.v
Ulib.v
