(* ===== verification/Prelude.v ===== *)
(** * A verification development for the UCAS OSLAB kernel (RISC-V, C)

    The program is a teaching kernel for 64-bit RISC-V: a round-robin scheduler
    with sleeping and blocking, mutexes, barriers, condition variables and
    mailboxes, Sv39 paging with swapping, shared pages and protection, processes
    and threads, a file system behind a buffer cache, formatted output on a VT100
    terminal and a driver for a network card, with the library of user programs and
    the tool that makes the disk image.  This file is the root of the library: the
    outcomes of C code, the state monad, machine integers and the lemmas every
    component uses.

    ** Parts, and the file that models each

    - [DList]: the circular doubly linked lists (sched.c, os/mm.h, fs.c) on a heap
      of link fields, each routine as its sequence of pointer assignments, and the
      representation predicate that relates a heap to the list of its members.
    - [CString]: libs/string.c (tiny_libc/string.c has the same text).
    - [Sched]: kernel/sched/sched.c and time.c: PCBs, queues, [do_scheduler].
    - [Lock]: kernel/locking/lock.c, on the queues of [Sched].  [Exclusion]: the
      mutexes as a transition system over every operation that changes them.
    - [BCache]: the sector cache (fs.c 28-143); the class [BlockDevice] is the
      card, the class [SectorStore] is what the cache promises to the file system.
    - [FsLayout], [Fs]: include/os/fs.h and the rest of fs.c, with the static
      buffers of the source as state.  [FsFacts] (bitmaps, inodes, entries against
      the laws of [SectorStore]), [FsDir] (lookup, touch, mkdir, cd), [FsFile]
      (blocks, inodes, descriptors, reading and writing), [FsWitness] (a disk made
      by [do_mkfs]).
    - [PageTable], [Mm]: pgtable.h, mm.c, os/mm.h, ioremap.c; the class [SwapDevice]
      is the card as a store of pages; [MmFacts] has the
      invariant of the page nodes and the theorems, [MmWitness] concrete states.
    - [UserMem], [Process]: memory as bytes, exec, kill, exit, waitpid, threads
      (sched.c) and loader.c over the joint state of [Sched], [Lock] and [Mm];
      [ProcessFacts] and [ProcessWitness]; [Exec] (the stack of a new process) and
      [ExecWitness]; [Load] (the loader).
    - [Printk]: libs/printk.c.  [Screen]: drivers/screen.c, which [printk] uses.
    - [Syscall]: the numbers on both sides, the table of init/main.c,
      [handle_syscall] and every wrapper of tiny_libc/syscall.c.  [Trap]: the tables
      and the dispatcher of kernel/irq/irq.c and the clock interrupt.
    - [Smp]: the big kernel lock of kernel/smp/smp.c as steps of several harts.
    - [Net]: drivers/e1000.c and kernel/net/net.c, with the descriptor rings and the
      registers; [NetFacts].  [Plic]: drivers/plic.c and the external interrupt.
    - [Boot]: arch/riscv/kernel/boot.c and the parts of init/main.c that change page
      tables and PCBs, on physical memory; [Bios]: the jump table and the wrappers of
      the firmware (os/kernel.h, arch/riscv/bios/common.c).
    - [IoMap]: what [ioremap] does to the table of the kernel.  [Start]: the state of
      the whole kernel and [main] of init/main.c, composed of the initialisers of all
      parts; [StartFacts] and [StartWitness].
    - [Image]: tools/createimage.c; [ImageFacts] relates the image to what the boot
      code, the loader of [Process] and the swap area of [Mm] read; [Program] follows a
      program from its file through image and loader into its process.
    - [Malloc], [Printf], [Ulib]: tiny_libc (malloc.c; printf.c; atoi.c, itoa.c,
      rand.c, mailbox.c, pthread.c, time.c, ctype.h).  The class [ProgramBreak] of
      [Malloc] is what the allocator needs of the kernel; [do_sbrk] has it.

    A definition has the name of the C function it translates.  A part of a
    function that has a name of its own here (a loop, a branch) is listed beside
    it.  Field names are those of the C structures.

    ** How the code is modelled

    An operation is a function of the state monad [M S] with the outcomes of
    [error]; the state of a component is a record of its globals.  Integers keep
    the width of their C type: the reductions [u8] ... [i64] stand where the
    result of an operation may leave the range.  Array accesses without a bounds
    check in the source are a [Fault] when out of range.  Firmware (the SD card,
    the clock, the serial port) is not part of the sources: the card is a
    parameter with the laws of a block store, instantiated by a concrete card in
    the witnesses; the clock is a function; the serial port is a list of bytes.
    The kernel runs under one lock (entry.S takes it on each trap), so operations
    are sequential; where one gives up the processor its model is cut at
    [do_scheduler], and interleavings are sequences of such pieces.

    ** What the theorems show

    - Refinement: queue operations implement lists of PCBs; the cache is
      transparent (any sequence of reads, writes and flushes gives what a flat
      disk gives); [find_inode] is path resolution in the directories as the kernel
      sees them, and on the disk alone unless a stale slot of [dentry_buffer] has
      the name; the transmit ring of the card is a queue.
    - Start: the address space after [boot_kernel] and after [cancel_temp_pgdir]; that
      [main] comes to the shell with the invariants of scheduler, locks and memory
      established, which the theorems on running processes assume; the devices mapped
      page by page; the interrupts the controller delivers, and that the image holds kernel, table and
      programs where they are looked for.
    - Calls: every wrapper that makes a call reaches the kernel function of its name
      with its arguments, and one hart at a time is in the kernel.
    - Durability: the clock interrupt writes the cache back within
      [write_back_freq * 100] interrupts, as long as [do_vmflush] does not change the
      frequency.
    - Network: [do_net_recv] delivers the frames of the protocol in order.
    - User library: blocks of [malloc] are separate, [free] joins neighbours, [printf]
      agrees with [printk].
    - Scheduling and locking: dispatch, no starvation, wake-up of sleepers; no
      process waits for a free mutex whatever the programs do, and mutual exclusion
      for programs that follow the discipline the kernel does not check (a release
      takes any mutex from any process, and the end of a thread releases those of
      its whole process); barrier generations, conditions first come, first served
      without lost wake-ups, mailboxes as FIFO byte streams.
    - File system: creation and entering of directories, allocation and release of
      blocks and inodes, [free_inode] freeing exactly the blocks of a file without
      indirect blocks, descriptors, seeking, and
      reading back what was written.
    - Memory: a page is mapped where it should be and nowhere else changes, second
      chance, swapping out and in gives the contents back, release of exactly the
      pages of a process, protection, the break.
    - Processes: [do_kill] removes a process from every component; a new process finds
      the arguments of [do_exec] on its stack and in its registers, and the bytes of its
      file, as createimage put them on the card, at its entry point.
    - Output: numbers read back as their value, buffers are not overrun, and the
      incremental refresh of the screen leaves the terminal as a full redraw does.
    - Defects, each shown on the code as it is: [rmdir] of one directory removing
      another, kernel pages taken from the user pool, shared pages freed while
      mapped, writing below the screen, overlong components and fields, a transmit
      ring that stops when it is full, frames whose length is not a multiple of 8,
      traps and system calls through empty table entries.

    ** Fuel

    Loops over a list of the heap run at most [size] of the heap turns (each node
    is visited once), [second_chance] one more (each turn clears an accessed bit or
    ends), [do_kill] one turn per PCB and one more (each turn ends a PCB of the
    pid), [free_inode] [nblocks] turns, [mini_itoa] 64 turns (a 64-bit number has
    at most 64 digits in any radix from 2 on), the format interpreter one turn per
    character, counted loops their count; [e1000_poll] one turn per descriptor and
    one more (each turn gives a descriptor back or waits), [mymemcpy] one per byte of
    the destination and one more, the allocator's walks twice the number of headers
    and one more, [itoa] 33.  [OutOfFuel] is an error of its own, and
    a theorem that states a result excludes it.

    ** Not modelled

    Assembly (trap entry, [switch_to], the boot block, crt0; [Smp] takes from entry.S
    that a trap takes the kernel lock and the return releases it, and starts after the
    code [main] runs on both harts without it), the shell and the test
    programs, and the lines [main] prints while it starts.  The firmware is a parameter
    of [Bios] and of [Start]; the network card and the interrupt controller act by their
    data sheets.  Fences, cache flushes and the control registers are hardware state
    without a counterpart here; [satp] is part of [Boot] only. *)
From stdpp Require Export base tactics option list gmap sets.
From Stdlib Require Export ZArith Lia.

(** ** Outcomes of C code

    [Fault]: a dereference of NULL or of an address outside the object the
    code indexes.  [Panic]: a failed [assert] (include/assert.h spins
    forever).  [OutOfFuel]: a loop was cut off by the model's fuel; every
    theorem about a loop shows that this does not happen. *)
Inductive error := Fault | Panic | OutOfFuel.

Inductive res (A : Type) : Type :=
| Ok (a : A)
| Err (e : error).
Arguments Ok {A} a.
Arguments Err {A} e.

#[global] Instance error_eq_dec : EqDecision error.
Proof. solve_decision. Defined.
#[global] Instance res_eq_dec {A} `{EqDecision A} : EqDecision (res A).
Proof. solve_decision. Defined.

#[global] Instance res_ret : MRet res := @Ok.
#[global] Instance res_bind : MBind res :=
  fun A B f m => match m with Ok a => f a | Err e => Err e end.

Definition of_option {A} (e : error) (o : option A) : res A :=
  match o with Some a => Ok a | None => Err e end.

(** ** Stateful code: explicit state passing with an error outcome *)
Definition M (S A : Type) : Type := S -> res (A * S).

#[global] Instance M_ret {S} : MRet (M S) := fun A a s => Ok (a, s).
#[global] Instance M_bind {S} : MBind (M S) :=
  fun A B f m s => match m s with Ok (a, s') => f a s' | Err e => Err e end.

Section StateOps.
Context {S : Type}.

Definition get_st : M S S := fun s => Ok (s, s).
Definition put_st (s : S) : M S unit := fun _ => Ok (tt, s).
Definition gets {A} (f : S -> A) : M S A := fun s => Ok (f s, s).
Definition modify (f : S -> S) : M S unit := fun s => Ok (tt, f s).
Definition fail {A} (e : error) : M S A := fun _ => Err e.
Definition lift {A} (m : res A) : M S A :=
  fun s => match m with Ok a => Ok (a, s) | Err e => Err e end.

(** Run a computation of a component on the part of a larger state that
    holds the component. *)
Definition zoom {T A} (get : S -> T) (set : T -> S -> S) (m : M T A) : M S A :=
  fun s => match m (get s) with
           | Ok (a, t) => Ok (a, set t s)
           | Err e => Err e
           end.

(** [for (i = lo; i < lo + n; i++) body(i)] *)
Fixpoint for_loop (n : nat) (i : Z) (body : Z -> M S unit) : M S unit :=
  match n with
  | O => mret tt
  | Datatypes.S n' => body i ;; for_loop n' (i + 1)%Z body
  end.

Lemma bind_ok {A B} (m : M S A) (f : A -> M S B) s a s' :
  m s = Ok (a, s') -> (m ≫= f) s = f a s'.
Proof. intros E. unfold mbind, M_bind. by rewrite E. Qed.

Lemma bind_inv {A B} (m : M S A) (f : A -> M S B) s r :
  (m ≫= f) s = Ok r -> exists a s', m s = Ok (a, s') /\ f a s' = Ok r.
Proof.
  unfold mbind, M_bind. destruct (m s) as [[a s']|e] eqn:E; [|done]. eauto.
Qed.
Lemma bind_bind {A B C} (m : M S A) (f : A -> M S B) (g : B -> M S C) s :
  ((m ≫= f) ≫= g) s = (m ≫= fun a => f a ≫= g) s.
Proof. unfold mbind, M_bind. by destruct (m s) as [[]|]. Qed.

Lemma bind_err {A B} (m : M S A) (f : A -> M S B) s e : m s = Err e -> (m ≫= f) s = Err e.
Proof. intros E. unfold mbind, M_bind. by rewrite E. Qed.
Lemma gets_bind {A B} (f : S -> A) (g : A -> M S B) s : (gets f ≫= g) s = g (f s) s.
Proof. done. Qed.
Lemma modify_bind {B} (f : S -> S) (g : unit -> M S B) s : (modify f ≫= g) s = g tt (f s).
Proof. done. Qed.

(** A loop whose body keeps an invariant runs to its end. *)
Lemma for_loop_inv (I : Z -> S -> Prop) (body : Z -> M S unit) n lo s :
  (forall i t, (lo <= i < lo + Z.of_nat n)%Z -> I i t -> exists t', body i t = Ok (tt, t') /\ I (i + 1)%Z t') ->
  I lo s -> exists s', for_loop n lo body s = Ok (tt, s') /\ I (lo + Z.of_nat n)%Z s'.
Proof.
  revert lo s; induction n as [|n IH]; intros lo s Hb Hs.
  - exists s. split; [done|]. by rewrite Z.add_0_r.
  - destruct (Hb lo s ltac:(lia) Hs) as (t & E & Ht).
    destruct (IH (lo + 1)%Z t) as (s' & E' & Hs'); [intros; apply Hb; [lia|done]|done|].
    exists s'. split; [cbn [for_loop]; by rewrite (bind_ok _ _ _ _ _ E)|]. by replace (lo + Z.of_nat (Datatypes.S n))%Z with (lo + 1 + Z.of_nat n)%Z by lia.
Qed.
End StateOps.

Lemma res_bind_inv {A B} (m : res A) (f : A -> res B) r :
  (m ≫= f) = Ok r -> exists a, m = Ok a /\ f a = Ok r.
Proof. destruct m; simpl; [eauto | done]. Qed.

Ltac res_inv :=
  repeat match goal with
  | H : @mbind _ _ _ _ _ _ _ = Ok _ |- _ =>
      let a := fresh "a" in let s := fresh "s" in let E := fresh "E" in
      apply bind_inv in H as (a & s & E & H)
  | H : @mbind _ _ _ _ _ _ = Ok _ |- _ =>
      let a := fresh "a" in let E := fresh "E" in
      apply res_bind_inv in H as (a & E & H)
  end.

(** ** What a computation keeps

    [keeps R m]: whenever [m] succeeds, the states before and after are related
    by [R].  For a preorder the property is compositional, and [keeps_tac]
    follows the structure of a program. *)
Definition keeps {S A} (R : relation S) (m : M S A) : Prop :=
  forall s a s', m s = Ok (a, s') -> R s s'.

Section Keeps.
Context {S : Type} (R : relation S) `{!PreOrder R}.

Lemma keeps_ret {A} (a : A) : keeps R (mret a).
Proof. intros s b s' [= _ <-]. reflexivity. Qed.
Lemma keeps_fail {A} e : keeps R (fail e : M S A).
Proof. intros s b s' [=]. Qed.
Lemma keeps_gets {A} (f : S -> A) : keeps R (gets f).
Proof. intros s b s' [= _ <-]. reflexivity. Qed.
Lemma keeps_lift {A} (r : res A) : keeps R (lift r).
Proof. intros s b s'. unfold lift. destruct r; intros [= _ <-]. reflexivity. Qed.
Lemma keeps_modify (f : S -> S) : (forall s, R s (f s)) -> keeps R (modify f).
Proof. intros Hf s b s' [= _ <-]. apply Hf. Qed.
Lemma keeps_bind {A B} (m : M S A) (f : A -> M S B) :
  keeps R m -> (forall a, keeps R (f a)) -> keeps R (m ≫= f).
Proof. intros Hm Hf s b s' (a & s1 & E1 & E2)%bind_inv. etrans; [by eapply Hm | by eapply Hf]. Qed.
Lemma keeps_for n i (body : Z -> M S unit) :
  (forall i, keeps R (body i)) -> keeps R (for_loop n i body).
Proof.
  intros Hb. revert i; induction n as [|n IH]; intros i; [apply keeps_ret|].
  apply keeps_bind; auto.
Qed.
End Keeps.

Create HintDb keeps discriminated.
#[export] Hint Resolve keeps_ret keeps_fail keeps_gets keeps_lift : keeps.
#[export] Hint Extern 1 (PreOrder _) => apply _ : keeps.

Ltac keeps_tac :=
  repeat match goal with
  | |- keeps _ (@mbind _ _ _ _ _ _) => apply keeps_bind; [apply _ | | intros ?]
  | |- keeps _ (for_loop _ _ _) => apply keeps_for; [apply _ | intros ?]
  | |- keeps _ (match ?x with _ => _ end) => destruct x
  | |- keeps _ (let _ := _ in _) => cbv zeta
  end; eauto with keeps.

(** A decidable statement about closed terms. *)
Ltac by_computation := apply (bool_decide_unpack _); vm_compute; exact I.

(** ** Machine integers

    A w-bit unsigned integer is a [Z] reduced modulo 2^w after every operation
    whose result may leave the range; a signed one is reduced to
    [-2^(w-1), 2^(w-1)). *)
Open Scope Z_scope.

Definition u8 (z : Z) : Z := z mod 2 ^ 8.
Definition u16 (z : Z) : Z := z mod 2 ^ 16.
Definition u32 (z : Z) : Z := z mod 2 ^ 32.
Definition u64 (z : Z) : Z := z mod 2 ^ 64.
Definition i32 (z : Z) : Z := (z + 2 ^ 31) mod 2 ^ 32 - 2 ^ 31.
Definition i64 (z : Z) : Z := (z + 2 ^ 63) mod 2 ^ 64 - 2 ^ 63.

Lemma u32_small z : 0 <= z < 2 ^ 32 -> u32 z = z.
Proof. apply Z.mod_small. Qed.
Lemma u64_small z : 0 <= z < 2 ^ 64 -> u64 z = z.
Proof. apply Z.mod_small. Qed.
Lemma u32_range z : 0 <= u32 z < 2 ^ 32.
Proof. by apply Z.mod_pos_bound. Qed.
Lemma u64_range z : 0 <= u64 z < 2 ^ 64.
Proof. by apply Z.mod_pos_bound. Qed.
Lemma i32_small z : - 2 ^ 31 <= z < 2 ^ 31 -> i32 z = z.
Proof. intros H. unfold i32. rewrite Z.mod_small; lia. Qed.
Lemma i64_small z : - 2 ^ 63 <= z < 2 ^ 63 -> i64 z = z.
Proof. intros H. unfold i64. rewrite Z.mod_small; lia. Qed.
Lemma i64_range z : - 2 ^ 63 <= i64 z < 2 ^ 63.
Proof. unfold i64. pose proof (Z.mod_pos_bound (z + 2 ^ 63) (2 ^ 64) ltac:(lia)). lia. Qed.

(** ** Arrays, searches, comparisons *)

(** [a[i]] for an [int] index: no bounds check in the source, a fault here. *)
Definition idx {B} (l : list B) (i : Z) : res B :=
  if 0 <=? i then of_option Fault (l !! Z.to_nat i) else Err Fault.

Lemma idx_ok {B} (l : list B) (i : nat) x : l !! i = Some x -> idx l (Z.of_nat i) = Ok x.
Proof. intros E. unfold idx. rewrite (proj2 (Z.leb_le _ _)) by lia. by rewrite Nat2Z.id, E. Qed.

Lemma lift_ok {S A} (r : res A) (s : S) a : r = Ok a -> lift r s = Ok (a, s).
Proof. by intros ->. Qed.

(** First index from [i] on, below the end of the list, that satisfies [f]. *)
Fixpoint first_index {B} (f : B -> bool) (l : list B) (i : Z) : Z :=
  match l with
  | [] => i
  | x :: l' => if f x then i else first_index f l' (i + 1)
  end.

Lemma first_index_spec {B} (f : B -> bool) l i :
  (Forall (fun x => f x = false) l /\ first_index f l i = i + Z.of_nat (length l)) \/
  (exists k x, l !! k = Some x /\ f x = true /\ first_index f l i = i + Z.of_nat k).
Proof.
  revert i; induction l as [|x l IH]; intros i; simpl; [left; split; [done|lia]|].
  destruct (f x) eqn:E; [right; exists O, x; simpl; split; [done|]; split; [done|lia]|].
  destruct (IH (i + 1)) as [[Hf ->]|(k & y & Hk & Hy & ->)].
  - left. split; [by constructor|lia].
  - right. exists (S k), y. split; [done|]. split; [done|lia].
Qed.

Lemma first_index_here {B} (f : B -> bool) l i k x :
  l !! k = Some x -> f x = true -> (forall j y, (j < k)%nat -> l !! j = Some y -> f y = false) ->
  first_index f l i = i + Z.of_nat k.
Proof.
  revert i k; induction l as [|y l IH]; intros i k Hk Hx Hj; [done|]. simpl.
  destruct k as [|k]; simpl in Hk.
  - simplify_eq. rewrite Hx. lia.
  - rewrite (Hj 0%nat y) by (done || lia). 
    rewrite (IH _ k Hk Hx); [lia|]. intros j z ? ?. apply (Hj (S j) z); [lia|done].
Qed.

Lemma first_index_least {B} (f : B -> bool) l i :
  (Forall (fun x => f x = false) l /\ first_index f l i = i + Z.of_nat (length l)) \/
  (exists k x, l !! k = Some x /\ f x = true /\
     (forall j y, (j < k)%nat -> l !! j = Some y -> f y = false) /\ first_index f l i = i + Z.of_nat k).
Proof.
  revert i; induction l as [|x l IH]; intros i; simpl; [left; split; [done|lia]|].
  destruct (f x) eqn:E.
  { right. exists O, x. split; [done|]. split; [done|]. split; [intros; lia|lia]. }
  destruct (IH (i + 1)) as [[Hf ->]|(k & y & Hk & Hy & Hl & ->)].
  - left. split; [by constructor|lia].
  - right. exists (S k), y. split; [done|]. split; [done|]. split; [|lia].
    intros [|j] z Hj Hz; [by simplify_eq/=|]. apply (Hl j); [lia|done].
Qed.

Lemma geb_lt a b : (a >=? b) = false <-> a < b.
Proof. rewrite Z.geb_leb. apply Z.leb_gt. Qed.

Lemma geb_le a b : (a >=? b) = true <-> b <= a.
Proof. rewrite Z.geb_leb. apply Z.leb_le. Qed.

