(* ===== verification/DList.v ===== *)
(** * Circular doubly-linked lists

    The kernel threads three kinds of objects on circular doubly-linked lists
    with a sentinel head: PCBs on the ready, sleep and wait queues
    (include/os/list.h, kernel/sched/sched.c), page nodes (include/os/mm.h) and
    the buffers of the file cache (kernel/fs/fs.c).  This file models the link
    fields as a heap of nodes, translates the pointer assignments of each of
    these routines in the order the C code performs them, and proves that they
    implement the operations on the list of the queue's members. *)
From S2P Require Import Prelude.

Section Links.
Context {A : Type} `{Countable A}.

(** [struct list_node { struct list_node *next, *prev; }]; [None] is NULL. *)
Record node := Node { next : option A; prev : option A }.

Implicit Types (h : gmap A node) (p q hd : A) (l : list A).

(** [p->next], [p->prev]: a fault on NULL and on unmapped addresses. *)
Definition ld_next h (p : option A) : res (option A) :=
  a ← of_option Fault p; n ← of_option Fault (h !! a); Ok (next n).
Definition ld_prev h (p : option A) : res (option A) :=
  a ← of_option Fault p; n ← of_option Fault (h !! a); Ok (prev n).
(** [p->next = v], [p->prev = v] *)
Definition st_next h (p : option A) (v : option A) : res (gmap A node) :=
  a ← of_option Fault p; n ← of_option Fault (h !! a); Ok (<[a := Node v (prev n)]> h).
Definition st_prev h (p : option A) (v : option A) : res (gmap A node) :=
  a ← of_option Fault p; n ← of_option Fault (h !! a); Ok (<[a := Node (next n) v]> h).

(** ** Routines of kernel/sched/sched.c *)

(** The pointer part of [do_block] and of [add_readyqueue]: append [p] at the
    tail of the queue [hd]. *)
Definition enqueue h p hd : res (gmap A node) :=
  tail ← ld_prev h (Some hd);
  h ← st_next h tail (Some p);
  h ← st_prev h (Some p) tail;
  h ← st_prev h (Some hd) (Some p);
  st_next h (Some p) (Some hd).

(** The pointer part of [do_unblock], [remove_readyqueue] and
    [remove_pcb_queue]: unlink [p] and clear its own links. *)
Definition dequeue h p : res (gmap A node) :=
  next_node ← ld_next h (Some p);
  prev_node ← ld_prev h (Some p);
  h ← st_next h (Some p) None;
  h ← st_prev h (Some p) None;
  h ← st_prev h next_node prev_node;
  st_next h prev_node next_node.

(** ** Routines of include/os/mm.h (page nodes) *)

Definition init_list_head h hd : res (gmap A node) :=
  h ← st_next h (Some hd) (Some hd);
  st_prev h (Some hd) (Some hd).

Definition delete_list_node h p : res (gmap A node) :=
  pp ← ld_prev h (Some p);
  pn ← ld_next h (Some p);
  h ← st_next h pp pn;
  pn ← ld_next h (Some p);
  pp ← ld_prev h (Some p);
  h ← st_prev h pn pp;
  h ← st_next h (Some p) None;
  st_prev h (Some p) None.

Definition insert_list_tail h p hd : res (gmap A node) :=
  h ← st_next h (Some p) (Some hd);
  hp ← ld_prev h (Some hd);
  h ← st_prev h (Some p) hp;
  hp ← ld_prev h (Some hd);
  h ← st_next h hp (Some p);
  st_prev h (Some hd) (Some p).

Definition forward_list_head h hd : res (gmap A node) :=
  hn ← ld_next h (Some hd);
  if decide (hn = Some hd) then Ok h else
  hnn ← ld_next h hn;
  if decide (hnn = Some hd) then Ok h else
  node1 ← ld_prev h (Some hd);
  let node2 := hn in
  let node3 := hnn in
  h ← st_next h (Some hd) node3;
  h ← st_prev h node3 (Some hd);
  h ← st_prev h (Some hd) node2;
  h ← st_next h node2 (Some hd);
  h ← st_prev h node2 node1;
  st_next h node1 node2.

(** ** Routines of kernel/fs/fs.c (buffer cache) *)

(** [brefill], lines 102-105: insert [p] right after the head. *)
Definition insert_head h p hd : res (gmap A node) :=
  hn ← ld_next h (Some hd);
  h ← st_next h (Some p) hn;
  h ← st_prev h (Some p) (Some hd);
  hn ← ld_next h (Some hd);
  h ← st_prev h hn (Some p);
  st_next h (Some hd) (Some p).

(** [find_free_buf], lines 72-75: unlink [p], then clear its links. *)
Definition unlink_clear h p : res (gmap A node) :=
  pn ← ld_next h (Some p);
  pp ← ld_prev h (Some p);
  h ← st_prev h pn pp;
  pp ← ld_prev h (Some p);
  pn ← ld_next h (Some p);
  h ← st_next h pp pn;
  h ← st_next h (Some p) None;
  st_prev h (Some p) None.

(** ** Traversal

    The loop [p = hd->next; while (p != hd) { if (f(p)) return p; p = p->next; }]
    of [search_buf], [search_list_node] and [get_next_running], entered at [p].
    The fuel bounds the number of nodes visited; callers pass the number of
    mapped nodes, which [list_search_dll] shows to be enough. *)
Fixpoint list_search (fuel : nat) h hd (p : option A) (f : A -> bool) : res (option A) :=
  match fuel with
  | O => Err OutOfFuel
  | S fuel' =>
    a ← of_option Fault p;
    if decide (a = hd) then Ok None
    else if f a then Ok (Some a)
    else pn ← ld_next h (Some a); list_search fuel' h hd pn f
  end.

(** ** The list a head stands for *)

Definition nxt h p : option (option A) := next <$> h !! p.
Definition prv h p : option (option A) := prev <$> h !! p.

Definition linked h p q : Prop := nxt h p = Some (Some q) /\ prv h q = Some (Some p).

(** [chain h p l q]: following [next] from [p] visits exactly [l] and then
    reaches [q], and the [prev] fields go back the same way. *)
Fixpoint chain h p l q : Prop :=
  match l with
  | [] => linked h p q
  | r :: l' => linked h p r /\ chain h r l' q
  end.

(** [is_dll h hd l]: the sentinel [hd] heads the circular list of members [l]. *)
Definition is_dll h hd l : Prop := NoDup (hd :: l) /\ chain h hd l hd.

(** A node that is on no list: mapped, both links NULL or stale. *)
Definition mapped h p : Prop := is_Some (h !! p).

(** What lies outside [ps] is untouched, and no address appears or vanishes. *)
Definition frame_except (ps : list A) h h' : Prop :=
  (forall q, q ∉ ps -> h' !! q = h !! q) /\ (forall q, mapped h q <-> mapped h' q).

(** ** Field updates *)

Lemma st_next_spec h a v :
  mapped h a ->
  exists h', st_next h (Some a) v = Ok h' /\
    (forall q, nxt h' q = if decide (q = a) then Some v else nxt h q) /\
    (forall q, prv h' q = prv h q) /\ frame_except [a] h h'.
Proof.
  intros [n Hn]. exists (<[a := Node v (prev n)]> h).
  unfold st_next, nxt, prv, frame_except, mapped. simpl. rewrite Hn. simpl.
  split_and!; [done|..]; intros q; rewrite ?lookup_insert;
    repeat case_decide; simplify_eq; rewrite ?Hn; naive_solver set_solver.
Qed.

Lemma st_prev_spec h a v :
  mapped h a ->
  exists h', st_prev h (Some a) v = Ok h' /\
    (forall q, prv h' q = if decide (q = a) then Some v else prv h q) /\
    (forall q, nxt h' q = nxt h q) /\ frame_except [a] h h'.
Proof.
  intros [n Hn]. exists (<[a := Node (next n) v]> h).
  unfold st_prev, nxt, prv, frame_except, mapped. simpl. rewrite Hn. simpl.
  split_and!; [done|..]; intros q; rewrite ?lookup_insert;
    repeat case_decide; simplify_eq; rewrite ?Hn; naive_solver set_solver.
Qed.

Lemma ld_next_spec h a v : nxt h a = Some v -> ld_next h (Some a) = Ok v.
Proof. unfold nxt, ld_next. simpl. destruct (h !! a); naive_solver. Qed.
Lemma ld_prev_spec h a v : prv h a = Some v -> ld_prev h (Some a) = Ok v.
Proof. unfold prv, ld_prev. simpl. destruct (h !! a); naive_solver. Qed.

Lemma nxt_mapped h a v : nxt h a = Some v -> mapped h a.
Proof. unfold nxt, mapped. destruct (h !! a); naive_solver. Qed.
Lemma prv_mapped h a v : prv h a = Some v -> mapped h a.
Proof. unfold prv, mapped. destruct (h !! a); naive_solver. Qed.

Lemma frame_mapped ps h h' q : frame_except ps h h' -> mapped h q -> mapped h' q.
Proof. intros [_ Hm]. apply Hm. Qed.

Lemma frame_trans ps1 ps2 ps h1 h2 h3 :
  frame_except ps1 h1 h2 -> frame_except ps2 h2 h3 ->
  (forall q, q ∈ ps1 -> q ∈ ps) -> (forall q, q ∈ ps2 -> q ∈ ps) ->
  frame_except ps h1 h3.
Proof.
  intros [F1 M1] [F2 M2] S1 S2. split.
  - intros q Hq. rewrite F2, F1; naive_solver.
  - intros q. rewrite M1. apply M2.
Qed.

Lemma frame_weaken ps ps' h h' :
  frame_except ps h h' -> (forall q, q ∈ ps -> q ∈ ps') -> frame_except ps' h h'.
Proof. intros [F Hm] Hs. split; [|done]. intros q Hq. apply F. naive_solver. Qed.

(** ** Chains *)

Lemma chain_app h p l1 q l2 r :
  chain h p (l1 ++ q :: l2) r <-> chain h p l1 q /\ chain h q l2 r.
Proof. revert p; induction l1 as [|x l1 IH]; intros p; simpl; [done|]. rewrite IH. tauto. Qed.

(** A chain reads the [next] fields of its sources and the [prev] fields of
    its targets only. *)
Lemma chain_frame h h' p l q :
  (forall x, x ∈ p :: l -> nxt h' x = nxt h x) ->
  (forall x, x ∈ l ++ [q] -> prv h' x = prv h x) ->
  chain h p l q -> chain h' p l q.
Proof.
  revert p; induction l as [|y l IH]; intros p Hn Hp; simpl.
  - intros [? ?]. split; [rewrite Hn | rewrite Hp]; set_solver.
  - intros [[? ?] Hc]. split; [split; [rewrite Hn | rewrite Hp]; set_solver|].
    apply IH; set_solver.
Qed.

Lemma chain_mapped h p l q x : chain h p l q -> x ∈ p :: l -> mapped h x.
Proof.
  revert p; induction l as [|y l IH]; intros p; simpl.
  - intros [? ?] Hx. apply list_elem_of_singleton in Hx as ->. eauto using nxt_mapped.
  - intros [[? ?] Hc] [->|Hx]%elem_of_cons; eauto using nxt_mapped.
Qed.

Lemma is_dll_mapped h hd l x : is_dll h hd l -> x ∈ hd :: l -> mapped h x.
Proof. intros [_ Hc]. by apply chain_mapped with hd. Qed.

Lemma is_dll_frame ps h h' hd l :
  frame_except ps h h' -> (forall x, x ∈ hd :: l -> x ∉ ps) ->
  is_dll h hd l -> is_dll h' hd l.
Proof.
  intros [F _] Hd [Hnd Hc]. split; [done|].
  eapply chain_frame, Hc; intros x Hx; unfold nxt, prv; rewrite F; set_solver.
Qed.

Lemma is_dll_nil h hd :
  nxt h hd = Some (Some hd) -> prv h hd = Some (Some hd) -> is_dll h hd [].
Proof. intros. split; [apply NoDup_singleton | done]. Qed.

(** The first and the last member, as the head's links show them. *)
Lemma is_dll_next h hd l :
  is_dll h hd l -> nxt h hd = Some (Some (List.hd hd l)).
Proof. intros [_ Hc]. destruct l; simpl in *; [|destruct Hc as [Hc _]]; apply Hc. Qed.

Lemma is_dll_prev h hd l :
  is_dll h hd l -> prv h hd = Some (Some (List.last l hd)).
Proof.
  intros [_ Hc]. destruct l as [|t l0 _] using rev_ind; [apply Hc|].
  apply chain_app in Hc as [_ Hc]. rewrite last_last. apply Hc.
Qed.

(** ** Net effect of the routines on the link fields *)

(** [p] appended between [t] and [hd]. *)
Definition appended h h' p t hd : Prop :=
  (forall q, nxt h' q = if decide (q = p) then Some (Some hd)
                        else if decide (q = t) then Some (Some p) else nxt h q) /\
  (forall q, prv h' q = if decide (q = p) then Some (Some t)
                        else if decide (q = hd) then Some (Some p) else prv h q) /\
  frame_except [p; t; hd] h h'.

(** [p] removed from between [a] and [b]. *)
Definition removed h h' p a b : Prop :=
  (forall q, nxt h' q = if decide (q = p) then Some None
                        else if decide (q = a) then Some (Some b) else nxt h q) /\
  (forall q, prv h' q = if decide (q = p) then Some None
                        else if decide (q = b) then Some (Some a) else prv h q) /\
  frame_except [p; a; b] h h'.

Ltac fld :=
  repeat match goal with
  | E : forall q, nxt ?h q = _ |- context [nxt ?h _] => rewrite E
  | E : forall q, prv ?h q = _ |- context [prv ?h _] => rewrite E
  end;
  repeat case_decide; simplify_eq; try done; try congruence.

Ltac fmap_ :=
  match goal with
  | |- mapped ?h ?q =>
    repeat match goal with
    | F : frame_except _ ?h1 ?h |- mapped ?h _ => apply (frame_mapped _ _ _ _ F)
    end; eauto using nxt_mapped, prv_mapped
  end.

Ltac st_step :=
  let h := fresh "h" in let E := fresh "E" in
  match goal with
  | |- context [st_next ?hh (Some ?a) ?v] =>
    destruct (st_next_spec hh a v) as (h & E & ? & ? & ?); [fmap_ | rewrite E; simpl]
  | |- context [st_prev ?hh (Some ?a) ?v] =>
    destruct (st_prev_spec hh a v) as (h & E & ? & ? & ?); [fmap_ | rewrite E; simpl]
  end.

Ltac ld_step v :=
  match goal with
  | |- context [ld_next ?hh (Some ?a)] => rewrite (ld_next_spec hh a v) by fld; simpl
  | |- context [ld_prev ?hh (Some ?a)] => rewrite (ld_prev_spec hh a v) by fld; simpl
  end.

Ltac frame_all :=
  repeat match goal with
  | F1 : frame_except ?p1 ?h1 ?h2, F2 : frame_except ?p2 ?h2 ?h3 |- _ =>
    pose proof (frame_trans _ _ (p1 ++ p2) _ _ _ F1 F2 ltac:(set_solver) ltac:(set_solver));
    clear F1 F2
  end;
  match goal with
  | F : frame_except ?ps ?h ?h' |- frame_except ?ps' ?h ?h' =>
    apply (frame_weaken _ _ _ _ F); set_solver
  end.

Lemma enqueue_net h p t hd :
  mapped h p -> prv h hd = Some (Some t) -> mapped h t -> p <> t -> p <> hd ->
  exists h', enqueue h p hd = Ok h' /\ appended h h' p t hd.
Proof.
  intros. unfold enqueue. ld_step (Some t). repeat st_step.
  eexists; split; [done|]. split_and!; [intros q; fld .. | frame_all].
Qed.

Lemma insert_list_tail_net h p t hd :
  mapped h p -> prv h hd = Some (Some t) -> mapped h t -> p <> t -> p <> hd ->
  exists h', insert_list_tail h p hd = Ok h' /\ appended h h' p t hd.
Proof.
  intros. unfold insert_list_tail. st_step. ld_step (Some t). st_step.
  ld_step (Some t). repeat st_step.
  eexists; split; [done|]. split_and!; [intros q; fld .. | frame_all].
Qed.

Lemma insert_head_net h p b hd :
  mapped h p -> nxt h hd = Some (Some b) -> mapped h b -> p <> b -> p <> hd ->
  exists h', insert_head h p hd = Ok h' /\ appended h h' p hd b.
Proof.
  intros. unfold insert_head. ld_step (Some b). repeat st_step.
  ld_step (Some b). repeat st_step.
  eexists; split; [done|]. split_and!; [intros q; fld .. | frame_all].
Qed.

Lemma dequeue_net h p a b :
  nxt h p = Some (Some b) -> prv h p = Some (Some a) -> mapped h a -> mapped h b ->
  p <> a -> p <> b ->
  exists h', dequeue h p = Ok h' /\ removed h h' p a b.
Proof.
  intros. unfold dequeue. ld_step (Some b). ld_step (Some a). repeat st_step.
  eexists; split; [done|]. split_and!; [intros q; fld .. | frame_all].
Qed.

Lemma delete_list_node_net h p a b :
  nxt h p = Some (Some b) -> prv h p = Some (Some a) -> mapped h a -> mapped h b ->
  p <> a -> p <> b ->
  exists h', delete_list_node h p = Ok h' /\ removed h h' p a b.
Proof.
  intros. unfold delete_list_node. ld_step (Some a). ld_step (Some b). st_step.
  ld_step (Some b). ld_step (Some a). repeat st_step.
  eexists; split; [done|]. split_and!; [intros q; fld .. | frame_all].
Qed.

Lemma unlink_clear_net h p a b :
  nxt h p = Some (Some b) -> prv h p = Some (Some a) -> mapped h a -> mapped h b ->
  p <> a -> p <> b ->
  exists h', unlink_clear h p = Ok h' /\ removed h h' p a b.
Proof.
  intros. unfold unlink_clear. ld_step (Some b). ld_step (Some a). st_step.
  ld_step (Some a). ld_step (Some b). repeat st_step.
  eexists; split; [done|]. split_and!; [intros q; fld .. | frame_all].
Qed.

(** ** The routines implement the list operations *)

Ltac nodup_facts :=
  repeat match goal with
  | E : NoDup (_ :: _) |- _ => apply NoDup_cons in E as [? ?]
  | E : NoDup (_ ++ _) |- _ => apply NoDup_app in E as (? & ? & ?)
  | |- NoDup (_ :: _) => apply NoDup_cons; split
  | |- NoDup (_ ++ _) => apply NoDup_app; split_and!
  end.

Ltac field_out :=
  let x := fresh "x" in let Hx := fresh "Hx" in
  intros x Hx; fld; exfalso; set_solver.

Ltac link_out := split; fld; exfalso; set_solver.

Lemma appended_dll h h' hd l1 l2 p :
  is_dll h hd (l1 ++ l2) -> p ∉ hd :: l1 ++ l2 ->
  appended h h' p (List.last l1 hd) (List.hd hd l2) ->
  is_dll h' hd (l1 ++ p :: l2).
Proof.
  intros [Hnd Hc] Hp (Hn & Hpv & _).
  split; [nodup_facts; set_solver|].
  apply chain_app.
  destruct l1 as [|a l1 _] using rev_ind; destruct l2 as [|b l2];
    rewrite ?last_last, ?app_nil_r, <- ?app_assoc in *; simpl in *; nodup_facts.
  - split; link_out.
  - destruct Hc as [[Hb1 Hb2] Hc]. split; [link_out|]. split; [link_out|].
    eapply chain_frame, Hc; field_out.
  - apply chain_app in Hc as [Hc [Ha1 Ha2]]. split; [|link_out].
    apply chain_app. split; [|link_out].
    eapply chain_frame, Hc; field_out.
  - apply chain_app in Hc as [Hc1 [[Hb1 Hb2] Hc2]].
    split; [apply chain_app; split; [|link_out] | split; [link_out|]].
    + eapply chain_frame, Hc1; field_out.
    + eapply chain_frame, Hc2; field_out.
Qed.

Lemma removed_dll h h' hd l1 l2 p :
  is_dll h hd (l1 ++ p :: l2) ->
  removed h h' p (List.last l1 hd) (List.hd hd l2) ->
  is_dll h' hd (l1 ++ l2).
Proof.
  intros [Hnd Hc] (Hn & Hpv & _).
  split; [nodup_facts; set_solver|].
  apply chain_app in Hc as [Hc1 Hc2].
  destruct l1 as [|a l1 _] using rev_ind; destruct l2 as [|b l2];
    rewrite ?last_last, ?app_nil_r, <- ?app_assoc in *; simpl in *; nodup_facts.
  - link_out.
  - destruct Hc2 as [_ Hc2]. split; [link_out|]. eapply chain_frame, Hc2; field_out.
  - apply chain_app in Hc1 as [Hc1 _].
    apply chain_app. split; [|link_out].
    eapply chain_frame, Hc1; field_out.
  - apply chain_app in Hc1 as [Hc1 _]. destruct Hc2 as [_ Hc2].
    apply chain_app; split; [|split; [link_out|]].
    + eapply chain_frame, Hc1; field_out.
    + eapply chain_frame, Hc2; field_out.
Qed.

Lemma is_dll_elem h hd l1 p l2 :
  is_dll h hd (l1 ++ p :: l2) ->
  nxt h p = Some (Some (List.hd hd l2)) /\ prv h p = Some (Some (List.last l1 hd)) /\
  mapped h (List.hd hd l2) /\ mapped h (List.last l1 hd) /\
  p <> List.last l1 hd /\ p <> List.hd hd l2.
Proof.
  intros Hd. pose proof (fun x => is_dll_mapped h hd _ x Hd) as Hm.
  destruct Hd as [Hnd [Hc1 Hc2]%chain_app].
  assert (nxt h p = Some (Some (List.hd hd l2))) as Hnx
    by (destruct l2; [apply Hc2 | apply (proj1 Hc2)]).
  assert (prv h p = Some (Some (List.last l1 hd))) as Hpv.
  { destruct l1 as [|a l1 _] using rev_ind; [apply Hc1|].
    apply chain_app in Hc1 as [_ Hc1]. rewrite last_last. apply Hc1. }
  split_and!; [done|done| | |..].
  - apply Hm. destruct l2; set_solver.
  - apply Hm. destruct l1 as [|a l1 _] using rev_ind; rewrite ?last_last; set_solver.
  - destruct l1 as [|a l1 _] using rev_ind; rewrite ?last_last; nodup_facts; set_solver.
  - destruct l2; nodup_facts; set_solver.
Qed.

Lemma last_elem l hd : List.last l hd ∈ hd :: l.
Proof. destruct l as [|a l _] using rev_ind; rewrite ?last_last; set_solver. Qed.
Lemma hd_elem l hd : List.hd hd l ∈ hd :: l.
Proof. destruct l; set_solver. Qed.

Lemma enqueue_dll h hd l p :
  is_dll h hd l -> p ∉ hd :: l -> mapped h p ->
  exists h', enqueue h p hd = Ok h' /\ is_dll h' hd (l ++ [p]) /\
    frame_except (p :: hd :: l) h h'.
Proof.
  intros Hd Hp Hm. pose proof (last_elem l hd).
  destruct (enqueue_net h p (List.last l hd) hd) as (h' & E & Ha);
    [done | by apply is_dll_prev | by eapply is_dll_mapped | set_solver .. |].
  exists h'. split_and!; [done | |].
  - apply (appended_dll h h' hd l []); by rewrite ?app_nil_r.
  - destruct Ha as (_ & _ & F). eapply frame_weaken; [exact F | set_solver].
Qed.

Lemma insert_list_tail_dll h hd l p :
  is_dll h hd l -> p ∉ hd :: l -> mapped h p ->
  exists h', insert_list_tail h p hd = Ok h' /\ is_dll h' hd (l ++ [p]) /\
    frame_except (p :: hd :: l) h h'.
Proof.
  intros Hd Hp Hm. pose proof (last_elem l hd).
  destruct (insert_list_tail_net h p (List.last l hd) hd) as (h' & E & Ha);
    [done | by apply is_dll_prev | by eapply is_dll_mapped | set_solver .. |].
  exists h'. split_and!; [done | |].
  - apply (appended_dll h h' hd l []); by rewrite ?app_nil_r.
  - destruct Ha as (_ & _ & F). eapply frame_weaken; [exact F | set_solver].
Qed.

Lemma insert_head_dll h hd l p :
  is_dll h hd l -> p ∉ hd :: l -> mapped h p ->
  exists h', insert_head h p hd = Ok h' /\ is_dll h' hd (p :: l) /\
    frame_except (p :: hd :: l) h h'.
Proof.
  intros Hd Hp Hm. pose proof (hd_elem l hd).
  destruct (insert_head_net h p (List.hd hd l) hd) as (h' & E & Ha);
    [done | by apply is_dll_next | by eapply is_dll_mapped | set_solver .. |].
  exists h'. split_and!; [done | |].
  - by apply (appended_dll h h' hd [] l).
  - destruct Ha as (_ & _ & F). eapply frame_weaken; [exact F | set_solver].
Qed.

(** The three unlinking routines share their specification. *)
Definition unlinks (f : gmap A node -> A -> res (gmap A node)) : Prop :=
  forall h hd l1 p l2,
    is_dll h hd (l1 ++ p :: l2) ->
    exists h', f h p = Ok h' /\ is_dll h' hd (l1 ++ l2) /\
      nxt h' p = Some None /\ prv h' p = Some None /\
      frame_except (hd :: l1 ++ p :: l2) h h'.

Lemma unlinks_of_net f :
  (forall h p a b,
     nxt h p = Some (Some b) -> prv h p = Some (Some a) -> mapped h a -> mapped h b ->
     p <> a -> p <> b -> exists h', f h p = Ok h' /\ removed h h' p a b) ->
  unlinks f.
Proof.
  intros Hf h hd l1 p l2 Hd.
  destruct (is_dll_elem _ _ _ _ _ Hd) as (? & ? & ? & ? & ? & ?).
  destruct (Hf h p (List.last l1 hd) (List.hd hd l2)) as (h' & E & Hr); try done.
  pose proof (last_elem l1 hd). pose proof (hd_elem l2 hd).
  exists h'. pose proof Hr as (Hn & Hpv & F).
  split_and!; [done | by eapply removed_dll | rewrite Hn; by case_decide
              | rewrite Hpv; by case_decide | eapply frame_weaken; [exact F|set_solver]].
Qed.

Lemma dequeue_dll : unlinks dequeue.
Proof. apply unlinks_of_net, dequeue_net. Qed.
Lemma delete_list_node_dll : unlinks delete_list_node.
Proof. apply unlinks_of_net, delete_list_node_net. Qed.
Lemma unlink_clear_dll : unlinks unlink_clear.
Proof. apply unlinks_of_net, unlink_clear_net. Qed.

(** ** Traversal *)

Lemma is_dll_fuel h hd l : is_dll h hd l -> (length l < size h)%nat.
Proof.
  intros Hd. pose proof Hd as [Hnd _].
  assert (list_to_set (hd :: l) ⊆ dom h) as Hs.
  { intros x Hx. apply elem_of_list_to_set in Hx. apply elem_of_dom.
    by apply is_dll_mapped with hd l. }
  apply subseteq_size in Hs. rewrite size_list_to_set, size_dom in Hs by done.
  simpl in Hs. lia.
Qed.

Lemma list_search_from h hd l1 l2 f fuel :
  is_dll h hd (l1 ++ l2) -> (length l2 < fuel)%nat ->
  list_search fuel h hd (Some (List.hd hd l2)) f = Ok (List.find f l2).
Proof.
  revert l1 fuel; induction l2 as [|a l2 IH]; intros l1 [|fuel] Hd Hf; simpl in *; try lia.
  - by rewrite decide_True.
  - destruct (is_dll_elem _ _ _ _ _ Hd) as (Hn & _).
    destruct Hd as [Hnd Hc]. rewrite decide_False by (nodup_facts; set_solver).
    destruct (f a); [done|]. rewrite (ld_next_spec _ _ _ Hn). simpl.
    apply (IH (l1 ++ [a])); [|lia]. rewrite <- app_assoc. done.
Qed.

Lemma list_search_dll h hd l f :
  is_dll h hd l ->
  list_search (size h) h hd (Some (List.hd hd l)) f = Ok (List.find f l).
Proof. intros Hd. apply (list_search_from h hd []); [done | eapply is_dll_fuel; exact Hd]. Qed.

(** ** Moving the head forward *)

Lemma forward_list_head_short h hd l :
  is_dll h hd l -> (length l <= 1)%nat -> forward_list_head h hd = Ok h.
Proof.
  intros Hd Hl. unfold forward_list_head.
  rewrite (ld_next_spec _ _ _ (is_dll_next _ _ _ Hd)). simpl.
  destruct l as [|a [|]]; simpl in *; try lia; [by rewrite decide_True|].
  case_decide; [done|].
  destruct (is_dll_elem h hd [] a [] Hd) as (Hn & _).
  rewrite (ld_next_spec _ _ _ Hn). simpl. by rewrite decide_True.
Qed.

Lemma forward_list_head_rotate h hd a b l :
  is_dll h hd (a :: b :: l) ->
  exists h', forward_list_head h hd = Ok h' /\ is_dll h' hd (b :: l ++ [a]) /\
    frame_except (hd :: a :: b :: l) h h'.
Proof.
  intros Hd. pose proof (fun x => is_dll_mapped h hd _ x Hd) as Hm.
  pose proof (is_dll_next _ _ _ Hd) as Hhn. pose proof (is_dll_prev _ _ _ Hd) as Hhp.
  destruct (is_dll_elem h hd [] a (b :: l) Hd) as (Han & Hap & _).
  pose proof Hd as [Hnd Hc].
  destruct (exists_last (l := b :: l)) as (l0 & t & El); [done|].
  change (a :: b :: l) with ([a] ++ (b :: l)) in Hhp. rewrite El, app_assoc, last_last in Hhp.
  assert (t ∈ b :: l) as Ht by (rewrite El; set_solver).
  simpl in *.
  assert (hd <> a /\ a <> b /\ hd <> b /\ hd <> t /\ a <> t) as (? & ? & ? & ? & ?)
    by (nodup_facts; set_solver).
  assert (mapped h hd /\ mapped h a /\ mapped h b /\ mapped h t) as (? & ? & ? & ?)
    by (split_and!; apply Hm; set_solver).
  assert (NoDup (hd :: b :: l ++ [a])) as Hnd'
    by (clear -Hnd; nodup_facts; try apply NoDup_nil; set_solver).
  clear Hm Hd.
  unfold forward_list_head. ld_step (Some a). rewrite decide_False by congruence.
  ld_step (Some b). rewrite decide_False by congruence. ld_step (Some t).
  repeat st_step. eexists; split; [done|]. split; [|frame_all].
  split; [done|].
  destruct Hc as (_ & [? ?] & Hc). change (b :: l ++ [a]) with ((b :: l) ++ [a]).
  apply chain_app. split; [|link_out]. split; [link_out|].
  destruct l0 as [|y l0]; simplify_eq/=; [link_out|].
  apply chain_app in Hc as [Hc [? ?]]. apply chain_app. nodup_facts.
  split; [|link_out]. eapply chain_frame, Hc; field_out.
Qed.

End Links.
