(* ===== verification/CString.v ===== *)
(** * Strings and memory blocks (libs/string.c, tiny_libc/string.c)

    A [char *] or [uint8_t *] argument is the list of the bytes from the pointer
    to the end of the object it points into; running off the end is a [Fault].
    [char] is unsigned on RISC-V, so a byte is a [Z] in [0, 256).  The kernel's
    and the user library's copies of these routines have the same text. *)
From S2P Require Import Prelude.

Implicit Types (d s l : list Z) (n : nat).

Fixpoint memcpy d s n {struct n} : res (list Z) :=
  match n with
  | O => Ok d
  | S n' => match d, s with
            | _ :: d', c :: s' => r ← memcpy d' s' n'; Ok (c :: r)
            | _, _ => Err Fault
            end
  end.

(** [memcpy] inside one object, from offset [src] to offset [dst]: byte by byte,
    upwards, so that a byte already written may be read again. *)
Fixpoint memcpy_within (mem : list Z) (dst src n : nat) {struct n} : res (list Z) :=
  match n with
  | O => Ok mem
  | S n' =>
    c ← of_option Fault (mem !! src);
    if decide (dst < length mem)%nat
    then memcpy_within (<[dst := c]> mem) (S dst) (S src) n'
    else Err Fault
  end.

Fixpoint memset d (val : Z) n {struct n} : res (list Z) :=
  match n with
  | O => Ok d
  | S n' => match d with
            | _ :: d' => r ← memset d' val n'; Ok (u8 val :: r)
            | [] => Err Fault
            end
  end.

Definition bzero d n : res (list Z) := memset d 0 n.

Fixpoint strlen s : res Z :=
  match s with
  | [] => Err Fault
  | c :: s' => if c =? 0 then Ok 0 else k ← strlen s'; Ok (k + 1)
  end.

Fixpoint strcmp (str1 str2 : list Z) : res Z :=
  match str1, str2 with
  | c1 :: s1, c2 :: s2 =>
    if (c1 =? 0) || (c2 =? 0) then Ok (c1 - c2)
    else if c1 =? c2 then strcmp s1 s2 else Ok (c1 - c2)
  | _, _ => Err Fault
  end.

Fixpoint strncmp (str1 str2 : list Z) n {struct n} : res Z :=
  match n with
  | O => Ok 0
  | S n' =>
    match str1, str2 with
    | c1 :: s1, c2 :: s2 =>
      if (c1 =? 0) || negb (c1 =? c2) then Ok (c1 - c2) else strncmp s1 s2 n'
    | _, _ => Err Fault
    end
  end.

Fixpoint strcpy d s {struct s} : res (list Z) :=
  match s, d with
  | c :: s', _ :: d' =>
    if c =? 0 then Ok (0 :: d') else r ← strcpy d' s'; Ok (c :: r)
  | _, _ => Err Fault
  end.

(** The padding loop of [strncpy]. *)
Fixpoint pad_zero d n {struct n} : res (list Z) :=
  match n with
  | O => Ok d
  | S n' => match d with _ :: d' => r ← pad_zero d' n'; Ok (0 :: r) | [] => Err Fault end
  end.

Fixpoint strncpy d s n {struct s} : res (list Z) :=
  match s with
  | [] => Err Fault
  | c :: s' =>
    if c =? 0 then pad_zero d n
    else match n with
         | O => Ok d
         | S n' => match d with
                   | _ :: d' => r ← strncpy d' s' n'; Ok (c :: r)
                   | [] => Err Fault
                   end
         end
  end.

Fixpoint strcat d s : res (list Z) :=
  match d with
  | [] => Err Fault
  | c :: d' => if c =? 0 then strcpy d s else r ← strcat d' s; Ok (c :: r)
  end.

(** The swap loop of [strrev] (tiny_libc/string.c) on a string of length [len]:
    [i] counts up, [j] down, while [i < j]. *)
Fixpoint strrev_loop (fuel : nat) (str : list Z) (i j : Z) : res (list Z) :=
  match fuel with
  | O => Err OutOfFuel
  | S fuel' =>
    if i <? j then
      tmp ← of_option Fault (str !! Z.to_nat i);
      cj ← of_option Fault (str !! Z.to_nat j);
      strrev_loop fuel' (<[Z.to_nat j := tmp]> (<[Z.to_nat i := cj]> str)) (i + 1) (j - 1)
    else Ok str
  end.
Definition strrev (str : list Z) : res (list Z) :=
  len ← strlen str; strrev_loop (S (Z.to_nat len)) str 0 (len - 1).

(** ** Specifications *)

(** The string in an object: the bytes before the first NUL. *)
Fixpoint c_str l : list Z :=
  match l with
  | [] => []
  | c :: l' => if c =? 0 then [] else c :: c_str l'
  end.
Definition terminated l : Prop := 0 ∈ l.

Lemma terminated_cons c l : c <> 0 -> terminated (c :: l) -> terminated l.
Proof. intros ? [?|?]%elem_of_cons; [congruence|done]. Qed.

Lemma c_str_split l : terminated l -> exists t, l = c_str l ++ 0 :: t.
Proof.
  induction l as [|c l IH]; intros Ht; [by apply not_elem_of_nil in Ht|]. simpl.
  destruct (Z.eqb_spec c 0) as [->|Hc]; [by exists l|].
  destruct IH as [t Et]; [by eapply terminated_cons|]. exists t. simpl. by rewrite <- Et.
Qed.

Lemma c_str_nonzero l : 0 ∉ c_str l.
Proof.
  induction l as [|c l IH]; simpl; [apply not_elem_of_nil|].
  destruct (Z.eqb_spec c 0); set_solver.
Qed.

Lemma c_str_app l t : 0 ∉ l -> c_str (l ++ 0 :: t) = l.
Proof.
  induction l as [|c l IH]; intros Hl; simpl; [done|].
  destruct (Z.eqb_spec c 0) as [->|]; [set_solver|]. rewrite IH; set_solver.
Qed.

Lemma memcpy_ok d s n :
  (n <= length d)%nat -> (n <= length s)%nat -> memcpy d s n = Ok (take n s ++ drop n d).
Proof.
  revert d s; induction n as [|n IH]; intros [|x d] [|c s] Hd Hs; simpl in *; try done; try lia.
  by rewrite IH by lia.
Qed.

Lemma memset_ok d v n :
  (n <= length d)%nat -> memset d v n = Ok (replicate n (u8 v) ++ drop n d).
Proof.
  revert d; induction n as [|n IH]; intros [|x d] Hd; simpl in *; try done; try lia.
  by rewrite IH by lia.
Qed.

Lemma bzero_ok d n :
  (n <= length d)%nat -> bzero d n = Ok (replicate n 0 ++ drop n d).
Proof. apply memset_ok. Qed.

Lemma strlen_ok s : terminated s -> strlen s = Ok (Z.of_nat (length (c_str s))).
Proof.
  induction s as [|c s IH]; intros Ht; [by apply not_elem_of_nil in Ht|]. simpl.
  destruct (Z.eqb_spec c 0); [done|]. rewrite IH by (by eapply terminated_cons).
  simpl. f_equal. lia.
Qed.

Lemma strcmp_ok s1 s2 :
  terminated s1 -> terminated s2 ->
  exists v, strcmp s1 s2 = Ok v /\ (v = 0 <-> c_str s1 = c_str s2).
Proof.
  revert s2; induction s1 as [|c1 s1 IH]; intros [|c2 s2] H1 H2;
    try (by apply not_elem_of_nil in H1); try (by apply not_elem_of_nil in H2). simpl.
  destruct (Z.eqb_spec c1 0), (Z.eqb_spec c2 0); simpl;
    try (eexists; split; [done|]; split; intros; simplify_eq; (done || lia)).
  destruct (Z.eqb_spec c1 c2) as [<-|Hne].
  - destruct (IH s2) as (v & E & Hv); [by eapply terminated_cons ..|].
    exists v. rewrite E. split; [done|]. rewrite Hv. split; congruence.
  - eexists; split; [done|]. split; intros; simplify_eq; exfalso; lia.
Qed.

Lemma strncmp_ok s1 s2 n :
  terminated s1 -> terminated s2 ->
  exists v, strncmp s1 s2 n = Ok v /\ (v = 0 <-> take n (c_str s1) = take n (c_str s2)).
Proof.
  revert s1 s2; induction n as [|n IH]; intros s1 s2 H1 H2; [exists 0; split; [reflexivity|]; rewrite !take_0; tauto|].
  destruct s1 as [|c1 s1]; [by apply not_elem_of_nil in H1|].
  destruct s2 as [|c2 s2]; [by apply not_elem_of_nil in H2|]. simpl.
  destruct (Z.eqb_spec c1 0), (Z.eqb_spec c2 0), (Z.eqb_spec c1 c2); simpl; subst; try done;
    try (eexists; split; [done|]; split; intros; simplify_eq; (done || lia)).
  destruct (IH s1 s2) as (v & E & Hv); [by eapply terminated_cons ..|].
  exists v. rewrite E. split; [done|]. rewrite Hv. split; congruence.
Qed.

Lemma strcpy_ok d s :
  terminated s -> (length (c_str s) < length d)%nat ->
  strcpy d s = Ok (c_str s ++ 0 :: drop (S (length (c_str s))) d).
Proof.
  revert d; induction s as [|c s IH]; intros d Ht Hd; [by apply not_elem_of_nil in Ht|].
  simpl in *. destruct d as [|x d]; [simpl in Hd; lia|].
  destruct (Z.eqb_spec c 0); simpl in *; [by rewrite drop_0|].
  rewrite IH by (eauto using terminated_cons with lia). done.
Qed.

Lemma pad_zero_ok d n :
  (n <= length d)%nat -> pad_zero d n = Ok (replicate n 0 ++ drop n d).
Proof.
  revert d; induction n as [|n IH]; intros [|x d] Hd; simpl in *; try done; try lia.
  by rewrite IH by lia.
Qed.

Lemma strncpy_ok d s n :
  terminated s -> (n <= length d)%nat ->
  strncpy d s n = Ok (take n (c_str s ++ replicate n 0) ++ drop n d).
Proof.
  revert d n; induction s as [|c s IH]; intros d n Ht Hd; [by apply not_elem_of_nil in Ht|].
  simpl. destruct (Z.eqb_spec c 0) as [->|Hc]; simpl.
  - rewrite pad_zero_ok by done. by rewrite take_ge by (rewrite length_replicate; lia).
  - destruct n as [|n]; [done|]. destruct d as [|x d]; simpl in *; [lia|].
    rewrite IH by (eauto using terminated_cons with lia). simpl. do 3 f_equal.
    rewrite (replicate_cons_app n), (assoc_L (++)), (take_app_le (_ ++ _)); [done|].
    rewrite length_app, length_replicate. lia.
Qed.

Lemma strcat_ok d s :
  terminated d -> terminated s ->
  (length (c_str d) + length (c_str s) < length d)%nat ->
  strcat d s = Ok (c_str d ++ c_str s ++ 0 :: drop (S (length (c_str d) + length (c_str s))) d).
Proof.
  induction d as [|c d IH]; intros Hd Hs Hl; [by apply not_elem_of_nil in Hd|].
  cbn [strcat c_str]. destruct (Z.eqb_spec c 0) as [->|Hc].
  - by rewrite strcpy_ok by (simpl in *; done || lia).
  - simpl in Hl. destruct (Z.eqb_spec c 0); [done|]. simpl in Hl.
    rewrite IH by (eauto using terminated_cons with lia). done.
Qed.

(** [memcpy] towards lower addresses of the same object moves the block, also
    when source and destination overlap. *)
Lemma memcpy_within_ok mem dst src n :
  (dst <= src)%nat -> (src + n <= length mem)%nat ->
  memcpy_within mem dst src n =
  Ok (take dst mem ++ take n (drop src mem) ++ drop (dst + n) mem).
Proof.
  revert mem dst src; induction n as [|n IH]; intros mem dst src Hle Hn; simpl.
  - by rewrite Nat.add_0_r, take_drop.
  - destruct (lookup_lt_is_Some_2 mem src) as [c Hc]; [lia|]. rewrite Hc. simpl.
    rewrite decide_True by lia.
    rewrite IH by (rewrite ?length_insert; lia). f_equal.
    rewrite (drop_S mem c src Hc). simpl.
    rewrite !drop_insert_lt by lia.
    rewrite (take_S_r _ _ c) by (apply list_lookup_insert_eq; lia).
    rewrite take_insert_ge by lia. rewrite <- (assoc_L (++)). simpl.
    by rewrite Nat.add_succ_r.
Qed.

(** The swap loop reverses the segment it works on. *)
Lemma strrev_loop_ok fuel a m b :
  (length m < 2 * fuel)%nat ->
  strrev_loop fuel (a ++ m ++ b) (Z.of_nat (length a))
    (Z.of_nat (length a + length m) - 1) = Ok (a ++ reverse m ++ b).
Proof.
  revert a m b; induction fuel as [|fuel IH]; intros a m b Hf; [lia|]. simpl.
  destruct (Z.ltb_spec (Z.of_nat (length a)) (Z.of_nat (length a + length m) - 1)) as [Hlt|Hge].
  - destruct m as [|x m]; simpl in *; [lia|].
    destruct m as [|y m _] using rev_ind; simpl in *; [lia|].
    rewrite length_app in *; simpl in *.
    rewrite Nat2Z.id. rewrite (list_lookup_middle a _ x (length a)) by done. simpl.
    replace (Z.to_nat _) with (length (a ++ x :: m)) by (rewrite length_app; simpl; lia).
    replace (a ++ x :: (m ++ [y]) ++ b) with ((a ++ x :: m) ++ y :: b)
      by (by rewrite <- !app_assoc).
    rewrite (list_lookup_middle (a ++ x :: m) b y) by done. simpl.
    rewrite insert_app_l by (rewrite length_app; simpl; lia).
    rewrite (insert_app_r_alt a), Nat.sub_diag by done. simpl.
    rewrite insert_app_r_alt by (rewrite !length_app; simpl; lia).
    rewrite !length_app. simpl. rewrite Nat.sub_diag. simpl.
    specialize (IH (a ++ [y]) m (x :: b)). rewrite !length_app in IH. simpl in IH.
    rewrite reverse_cons, reverse_app. simpl.
    replace (_ - 1 - 1) with (Z.of_nat (length a + 1 + length m) - 1) by lia.
    replace (_ + 1) with (Z.of_nat (length a + 1)) by lia.
    rewrite <- !app_assoc in IH. simpl in IH. rewrite <- !app_assoc. simpl.
    rewrite <- IH by lia. done.
  - destruct m as [|x [|y m]]; simpl in *; [done | done | lia].
Qed.

Lemma strrev_ok s t :
  0 ∉ s -> strrev (s ++ 0 :: t) = Ok (reverse s ++ 0 :: t).
Proof.
  intros Hs. unfold strrev.
  rewrite strlen_ok by (unfold terminated; set_solver). rewrite c_str_app by done.
  cbn [mbind res_bind]. rewrite Nat2Z.id. apply (strrev_loop_ok _ [] s (0 :: t)). lia.
Qed.
