(* ===== verification/Sched.v ===== *)
(** * Process scheduling (kernel/sched/sched.c, kernel/sched/time.c)

    The process control blocks, the ready and sleep queues and the scheduler.
    Kernel code runs under the big kernel lock (arch/riscv/kernel/entry.S takes
    it on every trap), so an operation is a state transformer of the hart that
    executes it, up to the point where [do_scheduler] switches the stack: what
    follows a call of [do_scheduler] in the source runs when the caller is
    scheduled again. *)
From S2P Require Import Prelude DList.

(** ** Data (include/os/sched.h) *)

Inductive task_status_t := TASK_BLOCKED | TASK_RUNNING | TASK_READY | TASK_EXITED.
Inductive thread_type_t := MTHREAD | PTHREAD.

#[global] Instance task_status_eq_dec : EqDecision task_status_t.
Proof. solve_decision. Defined.

(** A [pcb_t *]: an element of the array [pcb], or one of the two idle PCBs. *)
Inductive pcbref := Pcb (i : nat) | MasterPid0 | SlavePid0.

#[global] Instance pcbref_eq_dec : EqDecision pcbref.
Proof. solve_decision. Defined.
#[global] Instance pcbref_countable : Countable pcbref.
Proof.
  refine (inj_countable' (fun r => match r with Pcb i => inl i | MasterPid0 => inr false
                           | SlavePid0 => inr true end)
                 (fun x => match x with inl i => Pcb i | inr false => MasterPid0
                           | inr true => SlavePid0 end) _).
  by intros [].
Defined.

(** A [list_node_t *]: the [list] field of a PCB, or a queue head: the ready and
    sleep queues, the [block_queue] of a PCB, the queues of the locks, barriers,
    conditions and mailboxes (kernel/locking/lock.c), the two queues of the
    network driver (kernel/net/net.c). *)
Inductive laddr :=
| PcbList (r : pcbref)
| ReadyQ | SleepQ | SendQ | RecvQ
| PcbWaitQ (r : pcbref)
| MutexQ (i : nat) | BarrierQ (i : nat) | CondQ (i : nat)
| MboxFullQ (i : nat) | MboxEmptyQ (i : nat).

#[global] Instance laddr_eq_dec : EqDecision laddr.
Proof. solve_decision. Defined.
#[global] Instance laddr_countable : Countable laddr.
Proof.
  refine (inj_countable'
    (fun a => match a with
       | PcbList r => inl (inl r) | PcbWaitQ r => inl (inr r)
       | ReadyQ => inr (0, 0)%nat | SleepQ => inr (1, 0)%nat
       | SendQ => inr (2, 0)%nat | RecvQ => inr (3, 0)%nat
       | MutexQ i => inr (4, i)%nat | BarrierQ i => inr (5, i)%nat
       | CondQ i => inr (6, i)%nat | MboxFullQ i => inr (7, i)%nat
       | MboxEmptyQ i => inr (8, i)%nat end)
    (fun x => match x with
       | inl (inl r) => PcbList r | inl (inr r) => PcbWaitQ r
       | inr (0, _)%nat => ReadyQ | inr (1, _)%nat => SleepQ
       | inr (2, _)%nat => SendQ | inr (3, _)%nat => RecvQ
       | inr (4, i)%nat => MutexQ i | inr (5, i)%nat => BarrierQ i
       | inr (6, i)%nat => CondQ i | inr (7, i)%nat => MboxFullQ i
       | inr (_, i)%nat => MboxEmptyQ i end) _).
  by intros [].
Defined.

(** [struct pcb], less the list nodes, which live in the heap of links, and
    [wait_list], which no code uses. *)
Record pcb_t := mkPcb {
  kernel_sp : Z; user_sp : Z; kernel_stack_base : Z; user_stack_base : Z;
  pid : Z; status : task_status_t;
  cursor_x : Z; cursor_y : Z; remain_length : Z;
  wakeup_time : Z; entry_point : Z; taskname : list Z;
  current_cpu_id : Z; cpu_mask : Z;
  pgdir : Z; thread_type : thread_type_t; pthread_id : Z; brk : Z }.

Definition set_status (v : task_status_t) (p : pcb_t) : pcb_t :=
  mkPcb (kernel_sp p) (user_sp p) (kernel_stack_base p) (user_stack_base p) (pid p) v
    (cursor_x p) (cursor_y p) (remain_length p) (wakeup_time p) (entry_point p) (taskname p)
    (current_cpu_id p) (cpu_mask p) (pgdir p) (thread_type p) (pthread_id p) (brk p).
Definition set_cursor (x y : Z) (p : pcb_t) : pcb_t :=
  mkPcb (kernel_sp p) (user_sp p) (kernel_stack_base p) (user_stack_base p) (pid p) (status p)
    x y (remain_length p) (wakeup_time p) (entry_point p) (taskname p)
    (current_cpu_id p) (cpu_mask p) (pgdir p) (thread_type p) (pthread_id p) (brk p).
Definition set_remain_length (v : Z) (p : pcb_t) : pcb_t :=
  mkPcb (kernel_sp p) (user_sp p) (kernel_stack_base p) (user_stack_base p) (pid p) (status p)
    (cursor_x p) (cursor_y p) v (wakeup_time p) (entry_point p) (taskname p)
    (current_cpu_id p) (cpu_mask p) (pgdir p) (thread_type p) (pthread_id p) (brk p).
Definition set_wakeup_time (v : Z) (p : pcb_t) : pcb_t :=
  mkPcb (kernel_sp p) (user_sp p) (kernel_stack_base p) (user_stack_base p) (pid p) (status p)
    (cursor_x p) (cursor_y p) (remain_length p) v (entry_point p) (taskname p)
    (current_cpu_id p) (cpu_mask p) (pgdir p) (thread_type p) (pthread_id p) (brk p).
Definition set_current_cpu_id (v : Z) (p : pcb_t) : pcb_t :=
  mkPcb (kernel_sp p) (user_sp p) (kernel_stack_base p) (user_stack_base p) (pid p) (status p)
    (cursor_x p) (cursor_y p) (remain_length p) (wakeup_time p) (entry_point p) (taskname p)
    v (cpu_mask p) (pgdir p) (thread_type p) (pthread_id p) (brk p).
Definition set_cpu_mask (v : Z) (p : pcb_t) : pcb_t :=
  mkPcb (kernel_sp p) (user_sp p) (kernel_stack_base p) (user_stack_base p) (pid p) (status p)
    (cursor_x p) (cursor_y p) (remain_length p) (wakeup_time p) (entry_point p) (taskname p)
    (current_cpu_id p) v (pgdir p) (thread_type p) (pthread_id p) (brk p).

Definition NUM_MAX_TASK : nat := 16.
Definition SCREEN_WIDTH : Z := 80.
Definition SCREEN_HEIGHT : Z := 50.

(** The scheduler's state as the executing hart sees it: the heap of list
    nodes, the PCBs, the register [tp] ([current_running]), the hart's id, the
    number of times the hardware clock was read, the counter of process ids. *)
Record sched := mkSched {
  links : gmap laddr (@node laddr);
  pcbs : gmap pcbref pcb_t;
  current_running : pcbref;
  hartid : Z;
  ticks : nat;
  process_id : Z }.

Definition with_links (h : gmap laddr (@node laddr)) (s : sched) : sched :=
  mkSched h (pcbs s) (current_running s) (hartid s) (ticks s) (process_id s).
Definition with_pcbs (m : gmap pcbref pcb_t) (s : sched) : sched :=
  mkSched (links s) m (current_running s) (hartid s) (ticks s) (process_id s).
Definition with_current (r : pcbref) (s : sched) : sched :=
  mkSched (links s) (pcbs s) r (hartid s) (ticks s) (process_id s).
Definition with_ticks (n : nat) (s : sched) : sched :=
  mkSched (links s) (pcbs s) (current_running s) (hartid s) n (process_id s).
Definition with_process_id (n : Z) (s : sched) : sched :=
  mkSched (links s) (pcbs s) (current_running s) (hartid s) (ticks s) n.

(** ** Access *)

(** [LIST_PCB(list)]: from the address of a PCB's [list] field to the PCB. *)
Definition LIST_PCB (a : laddr) : res pcbref :=
  match a with PcbList r => Ok r | _ => Err Fault end.

Definition read_pcb (r : pcbref) : M sched pcb_t :=
  fun s => match pcbs s !! r with Some p => Ok (p, s) | None => Err Fault end.
Definition upd_pcb (r : pcbref) (f : pcb_t -> pcb_t) : M sched unit :=
  fun s => match pcbs s !! r with
           | Some p => Ok (tt, with_pcbs (<[r := f p]> (pcbs s)) s)
           | None => Err Fault
           end.
Definition on_links (f : gmap laddr (@node laddr) -> res (gmap laddr (@node laddr))) :
    M sched unit :=
  fun s => match f (links s) with Ok h => Ok (tt, with_links h s) | Err e => Err e end.
Definition load_next (a : option laddr) : M sched (option laddr) :=
  fun s => match ld_next (links s) a with Ok v => Ok (v, s) | Err e => Err e end.

(** ** Queue management *)

Definition add_readyqueue (r : pcbref) : M sched unit :=
  upd_pcb r (set_status TASK_READY);;
  on_links (fun h => enqueue h (PcbList r) ReadyQ).

Definition remove_readyqueue (r : pcbref) : M sched unit :=
  on_links (fun h => dequeue h (PcbList r)).

Definition do_block (pcb_node queue : laddr) : M sched unit :=
  on_links (fun h => enqueue h pcb_node queue);;
  r ← lift (LIST_PCB pcb_node);
  upd_pcb r (set_status TASK_BLOCKED).

Definition do_unblock (pcb_node : laddr) : M sched unit :=
  on_links (fun h => dequeue h pcb_node);;
  r ← lift (LIST_PCB pcb_node);
  add_readyqueue r.

(** [remove_pcb_queue]: nothing to do for a PCB that is on no queue. *)
Definition remove_pcb_queue (r : pcbref) : M sched unit :=
  nx ← load_next (Some (PcbList r));
  match nx with
  | None => mret tt
  | Some _ => on_links (fun h => dequeue h (PcbList r))
  end.

(** The loop [while (q.next != &q) do_unblock(q.next);] of the wake-ups in
    sched.c, lock.c and net.c. *)
Fixpoint unblock_all_loop (fuel : nat) (q : laddr) : M sched unit :=
  match fuel with
  | O => fail OutOfFuel
  | S fuel' =>
    nx ← load_next (Some q);
    if decide (nx = Some q) then mret tt
    else a ← lift (of_option Fault nx); do_unblock a;; unblock_all_loop fuel' q
  end.
Definition unblock_all (q : laddr) : M sched unit :=
  n ← gets (fun s => size (links s)); unblock_all_loop n q.

Definition set_sche_workload (n : Z) : M sched unit :=
  c ← gets current_running; upd_pcb c (set_remain_length n).

Definition do_getpid : M sched Z :=
  c ← gets current_running; p ← read_pcb c; mret (pid p).

(** ** The clock

    [rdtime k] is the value the [k]-th execution of the instruction [rdtime]
    returns; [time_base] is the frequency the firmware reports. *)
Section Clock.
Variable rdtime : nat -> Z.
Variable time_base : Z.

Definition get_ticks : M sched Z :=
  n ← gets ticks; modify (with_ticks (S n));; mret (u64 (rdtime n)).
Definition get_timer : M sched Z := t ← get_ticks; mret (t / time_base).

Fixpoint check_sleeping_loop (fuel : nat) (p : option laddr) : M sched unit :=
  match fuel with
  | O => fail OutOfFuel
  | S fuel' =>
    a ← lift (of_option Fault p);
    if decide (a = SleepQ) then mret tt else
    pnext ← load_next (Some a);
    r ← lift (LIST_PCB a);
    c ← read_pcb r;
    t ← get_timer;
    (if wakeup_time c <=? t then do_unblock a else mret tt);;
    check_sleeping_loop fuel' pnext
  end.
Definition check_sleeping : M sched unit :=
  p ← load_next (Some SleepQ);
  n ← gets (fun s => size (links s));
  check_sleeping_loop n p.

(** ** The scheduler *)

Definition runs_on (c : pcb_t) (hart : Z) : bool :=
  negb (Z.land (cpu_mask c) (Z.shiftl 1 hart) =? 0).

Fixpoint next_running_loop (fuel : nat) (p : option laddr) : M sched Z :=
  match fuel with
  | O => fail OutOfFuel
  | S fuel' =>
    a ← lift (of_option Fault p);
    if decide (a = ReadyQ) then mret 0 else
    r ← lift (LIST_PCB a);
    c ← read_pcb r;
    hart ← gets hartid;
    if runs_on c hart then
      modify (with_current r);;
      remove_readyqueue r;;
      upd_pcb r (set_status TASK_RUNNING);;
      upd_pcb r (set_current_cpu_id hart);;
      mret 1
    else nx ← load_next (Some a); next_running_loop fuel' nx
  end.

Definition get_next_running : M sched Z :=
  cur ← gets current_running;
  c ← read_pcb cur;
  (if decide (status c = TASK_RUNNING) then add_readyqueue cur else mret tt);;
  p ← load_next (Some ReadyQ);
  n ← gets (fun s => size (links s));
  next_running_loop n p.

Definition clamp (v limit : Z) : Z :=
  if v >=? limit then limit - 1 else if v <? 0 then 0 else v.

(** drivers/screen.c, less the escape sequence it sends to the terminal. *)
Definition screen_move_cursor (x y : Z) : M sched unit :=
  c ← gets current_running;
  upd_pcb c (set_cursor (clamp x SCREEN_WIDTH) (clamp y SCREEN_HEIGHT)).

(** Up to [switch_to], which resumes the new [current_running]. *)
Definition do_scheduler : M sched unit :=
  check_sleeping;;
  found ← get_next_running;
  if found =? 0 then
    hart ← gets hartid;
    modify (with_current (if hart =? 0 then MasterPid0 else SlavePid0))
  else
    cur ← gets current_running;
    c ← read_pcb cur;
    screen_move_cursor (cursor_x c) (cursor_y c).

Definition do_sleep (sleep_time : Z) : M sched unit :=
  cur ← gets current_running;
  t ← get_timer;
  upd_pcb cur (set_wakeup_time (u64 (sleep_time + t)));;
  do_block (PcbList cur) SleepQ;;
  do_scheduler.

End Clock.

(** ** The queues as lists of PCBs

    [Q] maps every queue head to the PCBs queued there, first to last. *)
Implicit Types (Q : gmap laddr (list pcbref)) (h : gmap laddr (@node laddr)).

Definition is_head (a : laddr) : Prop := match a with PcbList _ => False | _ => True end.

Definition wf_queues h Q : Prop :=
  (forall hd l, Q !! hd = Some l -> is_head hd /\ is_dll h hd (PcbList <$> l)) /\
  (forall hd1 l1 hd2 l2 r,
     Q !! hd1 = Some l1 -> Q !! hd2 = Some l2 -> r ∈ l1 -> r ∈ l2 -> hd1 = hd2).

Definition unqueued Q (r : pcbref) : Prop := forall hd l, Q !! hd = Some l -> r ∉ l.

(** The status a PCB has while it is on the queue [hd]. *)
Definition queue_status (hd : laddr) : task_status_t :=
  match hd with ReadyQ => TASK_READY | _ => TASK_BLOCKED end.

(** The scheduler's invariant: the heap represents the queues [Q], every PCB has
    a mapped list node, the members of a queue have the queue's status, and the
    list node of a PCB on no queue is NULL (the test of [remove_pcb_queue]). *)
Record sched_inv (s : sched) Q : Prop := {
  inv_queues : wf_queues (links s) Q;
  inv_mapped : forall r, is_Some (pcbs s !! r) -> mapped (links s) (PcbList r);
  inv_status : forall hd l r, Q !! hd = Some l -> r ∈ l ->
                 exists p, pcbs s !! r = Some p /\ status p = queue_status hd;
  inv_free : forall r, is_Some (pcbs s !! r) -> unqueued Q r ->
               nxt (links s) (PcbList r) = Some None }.

Lemma fmap_PcbList_elem (l : list pcbref) r : PcbList r ∈ PcbList <$> l <-> r ∈ l.
Proof. rewrite list_elem_of_fmap. naive_solver. Qed.

Lemma head_not_member hd (l : list pcbref) : is_head hd -> hd ∉ PcbList <$> l.
Proof. intros Hh (r & -> & _)%list_elem_of_fmap. done. Qed.

(** Distinct queues share no address. *)
Lemma wf_queues_disjoint h Q hd1 l1 hd2 l2 :
  wf_queues h Q -> Q !! hd1 = Some l1 -> Q !! hd2 = Some l2 -> hd1 <> hd2 ->
  forall x, x ∈ hd1 :: (PcbList <$> l1) -> x ∉ hd2 :: (PcbList <$> l2).
Proof.
  intros [Hd Hs] H1 H2 Hne x Hx1 Hx2.
  destruct (Hd _ _ H1) as [Hh1 _], (Hd _ _ H2) as [Hh2 _].
  apply elem_of_cons in Hx1 as [->|(r1 & -> & Hr1)%list_elem_of_fmap];
    apply elem_of_cons in Hx2 as [Hx2|(r2 & Hx2 & Hr2)%list_elem_of_fmap]; subst; try done.
  simplify_eq. eauto.
Qed.

Lemma wf_enqueue h Q hd l r :
  wf_queues h Q -> Q !! hd = Some l -> unqueued Q r -> mapped h (PcbList r) ->
  exists h', enqueue h (PcbList r) hd = Ok h' /\ wf_queues h' (<[hd := l ++ [r]]> Q) /\
    (forall q, mapped h q <-> mapped h' q) /\
    (forall r', r' <> r -> unqueued Q r' -> nxt h' (PcbList r') = nxt h (PcbList r')).
Proof.
  intros Hwf Hl Hr Hm. pose proof Hwf as [Hd Hs]. destruct (Hd _ _ Hl) as [Hh Hdl].
  destruct (enqueue_dll h hd (PcbList <$> l) (PcbList r)) as (h' & E & Hd' & F); try done.
  { rewrite elem_of_cons, fmap_PcbList_elem. pose proof (Hr _ _ Hl). intros [<-|]; done. }
  exists h'. split; [done|]. split; [|split; [apply F|]].
  2:{ intros r' Hne Hu. unfold nxt. rewrite (proj1 F); [done|].
      rewrite !elem_of_cons, fmap_PcbList_elem. pose proof (Hu _ _ Hl).
      intros [?|[?|?]]; [congruence | by destruct hd | done]. }
  split.
  - intros hd' l' [[<- <-]|[Hne Hl']]%lookup_insert_Some.
    + by rewrite fmap_app.
    + destruct (Hd _ _ Hl') as [Hh' Hdl']. split; [done|].
      eapply is_dll_frame; [exact F| |done].
      intros x Hx Hx'. apply elem_of_cons in Hx' as [->|Hx'].
      * apply elem_of_cons in Hx as [<-|(r' & ? & ?)%list_elem_of_fmap]; [done|].
        simplify_eq. by eapply Hr.
      * by eapply (wf_queues_disjoint h Q hd' l' hd l).
  - intros hd1 l1 hd2 l2 x [[<- <-]|[? H1]]%lookup_insert_Some
      [[<- <-]|[? H2]]%lookup_insert_Some; try done; [|..].
    + intros [?|Hx]%elem_of_app ?; [eauto|]. apply list_elem_of_singleton in Hx as ->.
      exfalso. by eapply Hr.
    + intros ? [?|Hx]%elem_of_app; [eauto|]. apply list_elem_of_singleton in Hx as ->.
      exfalso. by eapply Hr.
    + eauto.
Qed.

Lemma wf_dequeue h Q hd l1 r l2 :
  wf_queues h Q -> Q !! hd = Some (l1 ++ r :: l2) ->
  exists h', dequeue h (PcbList r) = Ok h' /\ wf_queues h' (<[hd := l1 ++ l2]> Q) /\
    (forall q, mapped h q <-> mapped h' q) /\ nxt h' (PcbList r) = Some None /\
    (forall r', unqueued Q r' -> nxt h' (PcbList r') = nxt h (PcbList r')).
Proof.
  intros Hwf Hl. pose proof Hwf as [Hd Hs]. destruct (Hd _ _ Hl) as [Hh Hdl].
  rewrite fmap_app, fmap_cons in Hdl.
  destruct (dequeue_dll h hd _ _ _ Hdl) as (h' & E & Hd' & Hn & _ & F).
  exists h'. split; [done|]. split; [|split; [apply F|split; [done|]]].
  2:{ intros r' Hu. unfold nxt. rewrite (proj1 F); [done|].
      rewrite <- fmap_cons, <- fmap_app, elem_of_cons, fmap_PcbList_elem.
      pose proof (Hu _ _ Hl). intros [?|?]; [by destruct hd | done]. }
  split.
  - intros hd' l' [[<- <-]|[Hne Hl']]%lookup_insert_Some.
    + by rewrite fmap_app.
    + destruct (Hd _ _ Hl') as [Hh' Hdl']. split; [done|].
      eapply is_dll_frame; [exact F| |done]. intros x Hx Hx'.
      eapply (wf_queues_disjoint h Q hd' l' hd _ Hwf Hl' Hl); [done..|].
      by rewrite fmap_app, fmap_cons.
  - intros hd1 m1 hd2 m2 x [[<- <-]|[? H1]]%lookup_insert_Some
      [[<- <-]|[? H2]]%lookup_insert_Some; try done; intros; eapply Hs; eauto; set_solver.
Qed.

(** ** The operations keep the invariant and act on [Q] as intended *)

Definition put_pcb (r : pcbref) (p : pcb_t) (s : sched) : sched :=
  with_pcbs (<[r := p]> (pcbs s)) s.

Lemma inv_same s s' Q :
  links s' = links s -> pcbs s' = pcbs s -> sched_inv s Q -> sched_inv s' Q.
Proof. intros El Ep [H1 H2 H3 H4]. split; rewrite ?El, ?Ep; eauto. Qed.

Lemma inv_put s Q r p p' :
  sched_inv s Q -> pcbs s !! r = Some p ->
  unqueued Q r \/ status p' = status p -> sched_inv (put_pcb r p' s) Q.
Proof.
  intros [H1 H2 H3 H4] Hp Hu. split; simpl; [done| | |].
  - intros r' [x Hx]. apply H2. apply lookup_insert_Some in Hx as [[<- _]|[_ Hx]]; eauto.
  - intros hd l r' Hl Hr. destruct (decide (r = r')) as [<-|Hne].
    + rewrite lookup_insert_eq. eexists; split; [done|].
      destruct Hu as [Hu| ->]; [by destruct (Hu _ _ Hl)|].
      destruct (H3 _ _ _ Hl Hr) as (? & ? & ?). congruence.
    + rewrite lookup_insert_ne by done. eauto.
  - intros r' Hr'. apply H4. apply lookup_insert_is_Some in Hr' as [<-|[_ ?]]; eauto.
Qed.

Lemma inv_enqueue s Q hd l r p :
  sched_inv s Q -> Q !! hd = Some l -> unqueued Q r -> pcbs s !! r = Some p ->
  exists h', enqueue (links s) (PcbList r) hd = Ok h' /\
    forall p', status p' = queue_status hd ->
      sched_inv (put_pcb r p' (with_links h' s)) (<[hd := l ++ [r]]> Q).
Proof.
  intros [H1 H2 H3 H4] Hl Hu Hp.
  destruct (wf_enqueue _ _ _ _ _ H1 Hl Hu (H2 r ltac:(eauto))) as (h' & E & Hwf & Hm & Hn).
  exists h'. split; [done|]. intros p' Hst. split; simpl; [done| | |].
  - intros r' [x Hx]. apply Hm, H2.
    apply lookup_insert_Some in Hx as [[<- _]|[_ Hx]]; eauto.
  - intros hd' l' r' Hl' Hr'. destruct (decide (r = r')) as [<-|Hne].
    + rewrite lookup_insert_eq. eexists; split; [done|].
      apply lookup_insert_Some in Hl' as [[<- _]|[_ Hl']]; [done|].
      by destruct (Hu _ _ Hl').
    + rewrite lookup_insert_ne by done.
      apply lookup_insert_Some in Hl' as [[<- <-]|[_ Hl']]; [|by eauto].
      apply elem_of_app in Hr' as [?|?%list_elem_of_singleton]; [eauto|congruence].
  - intros r' Hr' Hu'. assert (r' <> r) as Hne.
    { intros ->. apply (Hu' hd (l ++ [r])); [apply lookup_insert_eq | set_solver]. }
    assert (unqueued Q r').
    { intros hd' l' Hl' Hin. destruct (decide (hd' = hd)) as [->|Hd].
      - simplify_eq. apply (Hu' hd (l ++ [r])); [apply lookup_insert_eq | set_solver].
      - apply (Hu' hd' l'); [by rewrite lookup_insert_ne | done]. }
    rewrite Hn by done. apply H4; [|done]. by rewrite lookup_insert_ne in Hr' by done.
Qed.

Lemma queue_nodup h Q hd l : wf_queues h Q -> Q !! hd = Some l -> NoDup l.
Proof.
  intros [Hd _] Hl. destruct (Hd _ _ Hl) as [_ [Hnd _]].
  apply NoDup_cons in Hnd as [_ Hnd]. by apply NoDup_fmap_1 in Hnd.
Qed.

Lemma unqueued_removed h Q hd l1 r l2 :
  wf_queues h Q -> Q !! hd = Some (l1 ++ r :: l2) -> unqueued (<[hd := l1 ++ l2]> Q) r.
Proof.
  intros Hwf Hl hd' l' [[<- <-]|[Hne Hl']]%lookup_insert_Some Hr.
  - apply (queue_nodup _ _ _ _ Hwf) in Hl.
    apply NoDup_app in Hl as (_ & Hd & [Hn _]%NoDup_cons). set_solver.
  - destruct Hwf as [_ Hs]. apply Hne. eapply Hs; eauto. set_solver.
Qed.

Lemma inv_dequeue s Q hd l1 r l2 :
  sched_inv s Q -> Q !! hd = Some (l1 ++ r :: l2) ->
  exists h', dequeue (links s) (PcbList r) = Ok h' /\
    sched_inv (with_links h' s) (<[hd := l1 ++ l2]> Q) /\
    unqueued (<[hd := l1 ++ l2]> Q) r /\ nxt h' (PcbList r) = Some None.
Proof.
  intros [H1 H2 H3 H4] Hl.
  destruct (wf_dequeue _ _ _ _ _ _ H1 Hl) as (h' & E & Hwf & Hm & Hn & Hn').
  exists h'. split_and!; [done| |by eapply unqueued_removed|done]. split; simpl; [done| | |].
  - intros r' Hr'. apply Hm. eauto.
  - intros hd' l' r' [[<- <-]|[Hne Hl']]%lookup_insert_Some Hr'; [|by eauto].
    eapply H3; [done|]. set_solver.
  - intros r' Hr' Hu'. destruct (decide (r' = r)) as [->|Hne]; [done|].
    assert (unqueued Q r').
    { intros hd' l' Hl' Hin. destruct (decide (hd' = hd)) as [->|Hd].
      - simplify_eq. apply (Hu' hd (l1 ++ l2)); [apply lookup_insert_eq | set_solver].
      - apply (Hu' hd' l'); [by rewrite lookup_insert_ne | done]. }
    rewrite Hn' by done. by apply H4.
Qed.

Lemma running_unqueued s Q r p :
  sched_inv s Q -> pcbs s !! r = Some p -> status p = TASK_RUNNING \/ status p = TASK_EXITED ->
  unqueued Q r.
Proof.
  intros [_ _ H3 _] Hp Hst hd l Hl Hr. destruct (H3 _ _ _ Hl Hr) as (p' & Hp' & Hst').
  simplify_eq. destruct hd; simpl in Hst'; destruct Hst; congruence.
Qed.

Lemma upd_pcb_ok r f s p :
  pcbs s !! r = Some p -> upd_pcb r f s = Ok (tt, put_pcb r (f p) s).
Proof. intros E. unfold upd_pcb. by rewrite E. Qed.
Lemma read_pcb_ok r s p : pcbs s !! r = Some p -> read_pcb r s = Ok (p, s).
Proof. intros E. unfold read_pcb. by rewrite E. Qed.
Lemma on_links_ok f s h : f (links s) = Ok h -> on_links f s = Ok (tt, with_links h s).
Proof. intros E. unfold on_links. by rewrite E. Qed.
Lemma load_next_ok a v s : nxt (links s) a = Some v -> load_next (Some a) s = Ok (v, s).
Proof. intros E. unfold load_next. by rewrite (ld_next_spec _ _ _ E). Qed.

Lemma queue_next s Q hd l :
  sched_inv s Q -> Q !! hd = Some l ->
  nxt (links s) hd = Some (Some (match l with [] => hd | r :: _ => PcbList r end)).
Proof.
  intros [[Hd _] _ _ _] Hl. destruct (Hd _ _ Hl) as [_ Hdl].
  rewrite (is_dll_next _ _ _ Hdl). by destruct l.
Qed.

Lemma queue_fuel s Q hd l :
  sched_inv s Q -> Q !! hd = Some l -> (length l < size (links s))%nat.
Proof.
  intros [[Hd _] _ _ _] Hl. destruct (Hd _ _ Hl) as [_ Hdl].
  apply is_dll_fuel in Hdl. by rewrite length_fmap in Hdl.
Qed.

Lemma add_readyqueue_ok s Q l r p :
  sched_inv s Q -> Q !! ReadyQ = Some l -> unqueued Q r -> pcbs s !! r = Some p ->
  exists h', let s' := put_pcb r (set_status TASK_READY p) (with_links h' s) in
    add_readyqueue r s = Ok (tt, s') /\ sched_inv s' (<[ReadyQ := l ++ [r]]> Q).
Proof.
  intros Hi Hl Hu Hp. destruct (inv_enqueue _ _ _ _ _ _ Hi Hl Hu Hp) as (h' & E & Hi').
  exists h'. split; [|by apply Hi'].
  unfold add_readyqueue. rewrite (bind_ok _ _ _ _ _ (upd_pcb_ok _ _ _ _ Hp)).
  by rewrite (on_links_ok _ _ h') by done.
Qed.

Lemma do_block_ok s Q hd l r p :
  sched_inv s Q -> Q !! hd = Some l -> unqueued Q r -> pcbs s !! r = Some p -> hd <> ReadyQ ->
  exists h', let s' := put_pcb r (set_status TASK_BLOCKED p) (with_links h' s) in
    do_block (PcbList r) hd s = Ok (tt, s') /\ sched_inv s' (<[hd := l ++ [r]]> Q).
Proof.
  intros Hi Hl Hu Hp Hne. destruct (inv_enqueue _ _ _ _ _ _ Hi Hl Hu Hp) as (h' & E & Hi').
  exists h'. split; [|apply Hi'; by destruct hd].
  unfold do_block. rewrite (bind_ok _ _ _ _ _ (on_links_ok _ _ h' E)). simpl.
  by rewrite (bind_ok _ _ _ _ _ eq_refl), (upd_pcb_ok _ _ _ p).
Qed.

(** [do_unblock] moves a waiting PCB from its queue to the tail of the ready
    queue and makes it ready. *)
Lemma do_unblock_ok s Q hd l1 r l2 rdy p :
  sched_inv s Q -> Q !! hd = Some (l1 ++ r :: l2) -> hd <> ReadyQ ->
  Q !! ReadyQ = Some rdy -> pcbs s !! r = Some p ->
  exists h', let s' := put_pcb r (set_status TASK_READY p) (with_links h' s) in
    do_unblock (PcbList r) s = Ok (tt, s') /\
    sched_inv s' (<[ReadyQ := rdy ++ [r]]> (<[hd := l1 ++ l2]> Q)).
Proof.
  intros Hi Hl Hne Hrdy Hp.
  destruct (inv_dequeue _ _ _ _ _ _ Hi Hl) as (h1 & E1 & Hi1 & Hu1 & _).
  destruct (add_readyqueue_ok _ _ rdy r p Hi1) as (h2 & E2 & Hi2);
    [by rewrite lookup_insert_ne | done | done |].
  exists h2. split; [|done].
  unfold do_unblock. rewrite (bind_ok _ _ _ _ _ (on_links_ok _ _ h1 E1)). simpl.
  rewrite (bind_ok _ _ _ _ _ eq_refl). exact E2.
Qed.

(** What an operation that only re-queues PCBs leaves alone. *)
Definition same_cpu (s s' : sched) : Prop :=
  current_running s' = current_running s /\ hartid s' = hartid s /\
  process_id s' = process_id s.

Definition readied (l : list pcbref) (m m' : gmap pcbref pcb_t) : Prop :=
  forall r, m' !! r = if decide (r ∈ l) then set_status TASK_READY <$> m !! r else m !! r.

Lemma readied_nil m : readied [] m m.
Proof. intros r. by rewrite decide_False by set_solver. Qed.

Lemma readied_cons r l m m' p :
  m !! r = Some p -> readied l (<[r := set_status TASK_READY p]> m) m' -> readied (r :: l) m m'.
Proof.
  intros Hp Hr x. rewrite Hr. destruct (decide (x = r)) as [->|Hne].
  - rewrite lookup_insert_eq, Hp. simpl. rewrite (decide_True (P := r ∈ r :: l)) by set_solver.
    by case_decide.
  - rewrite lookup_insert_ne by done.
    by destruct (decide (x ∈ l)), (decide (x ∈ r :: l)); try set_solver.
Qed.

Lemma unblock_all_loop_ok fuel l s Q q rdy :
  sched_inv s Q -> Q !! q = Some l -> q <> ReadyQ -> Q !! ReadyQ = Some rdy ->
  (length l < fuel)%nat ->
  exists s', unblock_all_loop fuel q s = Ok (tt, s') /\
    sched_inv s' (<[ReadyQ := rdy ++ l]> (<[q := []]> Q)) /\
    readied l (pcbs s) (pcbs s') /\ same_cpu s s' /\ ticks s' = ticks s.
Proof.
  revert l s Q rdy; induction fuel as [|fuel IH]; intros l s Q rdy Hi Hl Hne Hrdy Hf; [lia|].
  simpl. rewrite (bind_ok _ _ _ _ _ (load_next_ok _ _ _ (queue_next _ _ _ _ Hi Hl))).
  destruct l as [|r l].
  - rewrite decide_True by done. exists s. split; [done|].
    rewrite app_nil_r, (insert_id _ q []), (insert_id _ ReadyQ rdy) by done.
    split_and!; [done | apply readied_nil | done ..].
  - assert (is_head q) as Hh by (destruct Hi as [[Hd _] _ _ _]; by destruct (Hd _ _ Hl)).
    rewrite decide_False by (intros [= <-]; done). simpl.
    destruct (inv_status _ _ Hi _ _ r Hl) as (p & Hp & _); [set_solver|].
    destruct (do_unblock_ok s Q q [] r l rdy p Hi Hl Hne Hrdy Hp) as (h' & E & Hi').
    rewrite (bind_ok _ _ _ _ _ eq_refl), (bind_ok _ _ _ _ _ E). simpl in *.
    edestruct (IH l _ _ (rdy ++ [r]) Hi') as (s' & E' & Hi'' & Hr & Hc & Ht);
      [by rewrite lookup_insert_ne, lookup_insert_eq | done | by rewrite lookup_insert_eq
      | lia |].
    exists s'. split; [exact E'|].
    rewrite (insert_insert_ne _ q ReadyQ), !insert_insert_eq, <- app_assoc in Hi'' by done.
    split_and!; [exact Hi'' | by eapply readied_cons | apply Hc | apply Ht].
Qed.

Lemma unblock_all_ok s Q q l rdy :
  sched_inv s Q -> Q !! q = Some l -> q <> ReadyQ -> Q !! ReadyQ = Some rdy ->
  exists s', unblock_all q s = Ok (tt, s') /\
    sched_inv s' (<[ReadyQ := rdy ++ l]> (<[q := []]> Q)) /\
    readied l (pcbs s) (pcbs s') /\ same_cpu s s' /\ ticks s' = ticks s.
Proof.
  intros Hi Hl Hne Hrdy. unfold unblock_all. rewrite (bind_ok _ _ _ _ _ eq_refl).
  apply unblock_all_loop_ok; eauto using queue_fuel.
Qed.

(** ** No operation of the scheduler creates or destroys a PCB *)

Definition same_pcbs (s s' : sched) : Prop :=
  forall r, is_Some (pcbs s !! r) <-> is_Some (pcbs s' !! r).
#[global] Instance same_pcbs_preorder : PreOrder same_pcbs.
Proof. split; [by intros s r | intros s1 s2 s3 H1 H2 r; by rewrite (H1 r), (H2 r)]. Qed.

Lemma keeps_upd_pcb r f : keeps same_pcbs (upd_pcb r f).
Proof.
  intros s a s'. unfold upd_pcb. destruct (pcbs s !! r) eqn:E; intros [= _ <-].
  intros x. simpl. rewrite lookup_insert_is_Some'. naive_solver.
Qed.
Lemma keeps_read_pcb r : keeps same_pcbs (read_pcb r).
Proof. intros s a s'. unfold read_pcb. destruct (pcbs s !! r); intros [= _ <-]. reflexivity. Qed.
Lemma keeps_on_links f : keeps same_pcbs (on_links f).
Proof. intros s a s'. unfold on_links. destruct (f (links s)); intros [= _ <-]. by intros r. Qed.
Lemma keeps_load_next a : keeps same_pcbs (load_next a).
Proof. intros s b s'. unfold load_next. destruct (ld_next _ a); intros [= _ <-]. reflexivity. Qed.
Lemma keeps_with_current r : keeps same_pcbs (modify (with_current r)).
Proof. apply keeps_modify. by intros s x. Qed.
Lemma keeps_with_ticks n : keeps same_pcbs (modify (with_ticks n)).
Proof. apply keeps_modify. by intros s x. Qed.
#[export] Hint Resolve keeps_upd_pcb keeps_read_pcb keeps_on_links keeps_load_next
  keeps_with_current keeps_with_ticks : keeps.

Lemma keeps_do_unblock a : keeps same_pcbs (do_unblock a).
Proof. unfold do_unblock, add_readyqueue. keeps_tac. Qed.
Lemma keeps_do_block a q : keeps same_pcbs (do_block a q).
Proof. unfold do_block. keeps_tac. Qed.
#[export] Hint Resolve keeps_do_unblock keeps_do_block : keeps.

Lemma keeps_unblock_all q : keeps same_pcbs (unblock_all q).
Proof.
  unfold unblock_all. keeps_tac. generalize a as n. clear.
  induction n as [|n IH]; simpl; keeps_tac.
Qed.
Lemma keeps_do_scheduler rd tb : keeps same_pcbs (do_scheduler rd tb).
Proof.
  assert (forall n p, keeps same_pcbs (check_sleeping_loop rd tb n p)) as H1.
  { unfold get_timer, get_ticks. induction n as [|n IH]; intros p; simpl;
      unfold get_timer, get_ticks; keeps_tac. }
  assert (forall n p, keeps same_pcbs (next_running_loop n p)) as H2.
  { induction n as [|n IH]; intros p; simpl; unfold remove_readyqueue; keeps_tac. }
  unfold do_scheduler, check_sleeping, get_next_running, screen_move_cursor, add_readyqueue.
  keeps_tac.
Qed.
#[export] Hint Resolve keeps_unblock_all keeps_do_scheduler : keeps.

(** ** Waking sleepers, choosing the next process *)
Section ClockFacts.
Variable rdtime : nat -> Z.
Variable time_base : Z.

Lemma get_timer_ok s :
  get_timer rdtime time_base s =
  Ok (u64 (rdtime (ticks s)) / time_base, with_ticks (S (ticks s)) s).
Proof. done. Qed.

(** The specification of [check_sleeping]: sleeper number [i] is compared with
    the clock value of its own reading; returned are the sleepers to wake and
    those that stay, both in queue order. *)
Fixpoint split_sleepers (m : gmap pcbref pcb_t) (n : nat) (l : list pcbref) :
    list pcbref * list pcbref :=
  match l with
  | [] => ([], [])
  | r :: l' =>
    let wk := split_sleepers m (S n) l' in
    match m !! r with
    | Some p => if wakeup_time p <=? u64 (rdtime n) / time_base
                then (r :: wk.1, wk.2) else (wk.1, r :: wk.2)
    | None => wk
    end
  end.

Lemma split_sleepers_agree m m' n l :
  (forall r, r ∈ l -> m' !! r = m !! r) -> split_sleepers m' n l = split_sleepers m n l.
Proof.
  revert n; induction l as [|r l IH]; intros n Hm; simpl; [done|].
  rewrite (Hm r), IH by set_solver. done.
Qed.

Lemma split_sleepers_sub m n l r : r ∈ (split_sleepers m n l).1 -> r ∈ l.
Proof.
  revert n; induction l as [|x l IH]; intros n; simpl; [set_solver|].
  destruct (m !! x); [|set_solver]. case_match; set_solver.
Qed.

Lemma check_sleeping_loop_ok fuel kept l s Q rdy :
  sched_inv s Q -> Q !! SleepQ = Some (kept ++ l) -> Q !! ReadyQ = Some rdy ->
  (length l < fuel)%nat ->
  let wk := split_sleepers (pcbs s) (ticks s) l in
  exists s', check_sleeping_loop rdtime time_base fuel
      (Some (match l with [] => SleepQ | r :: _ => PcbList r end)) s = Ok (tt, s') /\
    sched_inv s' (<[ReadyQ := rdy ++ wk.1]> (<[SleepQ := kept ++ wk.2]> Q)) /\
    readied wk.1 (pcbs s) (pcbs s') /\ same_cpu s s'.
Proof.
  revert kept l s Q rdy; induction fuel as [|fuel IH]; intros kept l s Q rdy Hi Hl Hrdy Hf;
    [lia|]. simpl. rewrite (bind_ok _ _ _ _ _ eq_refl).
  destruct l as [|r l]; simpl in *.
  - exists s. split; [done|]. rewrite !app_nil_r in *.
    rewrite (insert_id _ SleepQ kept), (insert_id _ ReadyQ rdy) by done.
    split_and!; [done | apply readied_nil | done ..].
  - destruct (inv_status _ _ Hi _ _ r Hl) as (p & Hp & _); [set_solver|].
    assert (nxt (links s) (PcbList r) =
            Some (Some (match l with [] => SleepQ | r :: _ => PcbList r end))) as Hnx.
    { destruct Hi as [[Hd _] _ _ _]. destruct (Hd _ _ Hl) as [_ Hdl].
      rewrite fmap_app, fmap_cons in Hdl.
      destruct (is_dll_elem _ _ _ _ _ Hdl) as (-> & _). by destruct l. }
    rewrite (bind_ok _ _ _ _ _ (load_next_ok _ _ _ Hnx)), (bind_ok _ _ _ _ _ eq_refl),
      (bind_ok _ _ _ _ _ (read_pcb_ok _ _ _ Hp)), (bind_ok _ _ _ _ _ (get_timer_ok _)), Hp.
    set (s1 := with_ticks (S (ticks s)) s).
    assert (sched_inv s1 Q) as Hi1 by (by eapply inv_same, Hi).
    destruct (wakeup_time p <=? _) eqn:Et.
    + destruct (do_unblock_ok s1 Q SleepQ kept r l rdy p Hi1 Hl) as (h' & E & Hi'); [done..|].
      rewrite (bind_ok _ _ _ _ _ E). cbv zeta in Hi'.
      edestruct (IH kept l _ _ (rdy ++ [r]) Hi') as (s' & E' & Hi'' & Hr & Hc);
        [by rewrite lookup_insert_ne, lookup_insert_eq | by rewrite lookup_insert_eq | lia |].
      exists s'. split; [exact E'|]. simpl in *.
      rewrite (split_sleepers_agree (pcbs s)) in Hi'', Hr.
      2,3: intros x Hx; rewrite lookup_insert_ne; [done|]; intros <-;
           apply (queue_nodup _ _ _ _ (inv_queues _ _ Hi)) in Hl;
           apply NoDup_app in Hl as (_ & _ & [? _]%NoDup_cons); done.
      rewrite (insert_insert_ne _ SleepQ ReadyQ), !insert_insert_eq, <- app_assoc in Hi'' by done.
      split_and!; [exact Hi'' | by eapply readied_cons | apply Hc].
    + rewrite (bind_ok _ _ _ _ _ eq_refl).
      edestruct (IH (kept ++ [r]) l s1 Q rdy Hi1) as (s' & E' & Hi'' & Hr & Hc);
        [by rewrite <- app_assoc | done | lia |].
      exists s'. split; [exact E'|]. simpl in *. rewrite <- app_assoc in Hi''. done.
Qed.

Lemma check_sleeping_ok s Q sl rdy :
  sched_inv s Q -> Q !! SleepQ = Some sl -> Q !! ReadyQ = Some rdy ->
  let wk := split_sleepers (pcbs s) (ticks s) sl in
  exists s', check_sleeping rdtime time_base s = Ok (tt, s') /\
    sched_inv s' (<[ReadyQ := rdy ++ wk.1]> (<[SleepQ := wk.2]> Q)) /\
    readied wk.1 (pcbs s) (pcbs s') /\ same_cpu s s'.
Proof.
  intros Hi Hl Hrdy. unfold check_sleeping.
  rewrite (bind_ok _ _ _ _ _ (load_next_ok _ _ _ (queue_next _ _ _ _ Hi Hl))),
    (bind_ok _ _ _ _ _ eq_refl).
  apply (check_sleeping_loop_ok _ [] sl); eauto using queue_fuel.
Qed.

(** First element that satisfies [f], with the list it leaves behind. *)
Fixpoint pick (f : pcbref -> bool) (l : list pcbref) : option (pcbref * list pcbref) :=
  match l with
  | [] => None
  | r :: l' => if f r then Some (r, l')
               else match pick f l' with Some (x, k) => Some (x, r :: k) | None => None end
  end.

Definition eligible (m : gmap pcbref pcb_t) (hart : Z) (r : pcbref) : bool :=
  match m !! r with Some p => runs_on p hart | None => false end.

Lemma pick_ext f g l : (forall r, r ∈ l -> f r = g r) -> pick f l = pick g l.
Proof.
  induction l as [|r l IH]; intros E; simpl; [done|]. rewrite E, IH by set_solver. done.
Qed.

(** The dispatched process is running on the hart that dispatched it. *)
Definition dispatched (s s' : sched) (r : pcbref) : Prop :=
  current_running s' = r /\ hartid s' = hartid s /\
  exists p, pcbs s' !! r = Some p /\ status p = TASK_RUNNING /\ current_cpu_id p = hartid s.

Lemma next_running_loop_ok fuel l1 l2 s Q :
  sched_inv s Q -> Q !! ReadyQ = Some (l1 ++ l2) -> (length l2 < fuel)%nat ->
  let run := next_running_loop fuel
               (Some (match l2 with [] => ReadyQ | r :: _ => PcbList r end)) s in
  match pick (eligible (pcbs s) (hartid s)) l2 with
  | None => run = Ok (0, s)
  | Some (r, rest) => exists s', run = Ok (1, s') /\ dispatched s s' r /\
      sched_inv s' (<[ReadyQ := l1 ++ rest]> Q)
  end.
Proof.
  revert l1 l2; induction fuel as [|fuel IH]; intros l1 l2 Hi Hl Hf; [lia|].
  simpl. rewrite (bind_ok _ _ _ _ _ eq_refl).
  destruct l2 as [|r l2]; simpl in *; [done|].
  destruct (inv_status _ _ Hi _ _ r Hl) as (p & Hp & _); [set_solver|].
  rewrite (bind_ok _ _ _ _ _ eq_refl), (bind_ok _ _ _ _ _ (read_pcb_ok _ _ _ Hp)),
    (bind_ok _ _ _ _ _ eq_refl).
  unfold eligible at 1. rewrite Hp. destruct (runs_on p (hartid s)) eqn:Er.
  - destruct (inv_dequeue (with_current r s) Q ReadyQ l1 r l2) as (h' & E & Hi' & Hu & _);
      [by eapply inv_same, Hi | done |].
    rewrite (bind_ok _ _ _ _ _ eq_refl), (bind_ok (remove_readyqueue r) _ _ _ _ (on_links_ok _ _ h' E)).
    rewrite (bind_ok _ _ _ _ _ (upd_pcb_ok r _ (with_links h' (with_current r s)) p Hp)).
    erewrite (bind_ok (upd_pcb r _)) by (apply upd_pcb_ok, lookup_insert_eq).
    eexists; split; [done|]. split.
    + split_and!; [done..|]. simpl. rewrite lookup_insert_eq. eauto.
    + eapply inv_put; [eapply inv_put; [exact Hi' | exact Hp | by left]
                      | simpl; by rewrite lookup_insert_eq | by left].
  - assert (nxt (links s) (PcbList r) =
            Some (Some (match l2 with [] => ReadyQ | r :: _ => PcbList r end))) as Hnx.
    { destruct Hi as [[Hd _] _ _ _]. destruct (Hd _ _ Hl) as [_ Hdl].
      rewrite fmap_app, fmap_cons in Hdl.
      destruct (is_dll_elem _ _ _ _ _ Hdl) as (-> & _). by destruct l2. }
    rewrite (bind_ok _ _ _ _ _ (load_next_ok _ _ _ Hnx)).
    specialize (IH (l1 ++ [r]) l2). rewrite <- app_assoc in IH.
    specialize (IH Hi Hl ltac:(lia)). simpl in IH.
    destruct (pick _ l2) as [[x rest]|]; [|exact IH].
    destruct IH as (s' & E & Hd & Hi'). exists s'. by rewrite <- app_assoc in Hi'.
Qed.

Lemma get_next_running_ok s Q rdy c :
  sched_inv s Q -> Q !! ReadyQ = Some rdy -> pcbs s !! current_running s = Some c ->
  let rq := rdy ++ (if decide (status c = TASK_RUNNING) then [current_running s] else []) in
  exists s', match pick (eligible (pcbs s) (hartid s)) rq with
  | None => get_next_running s = Ok (0, s') /\ same_cpu s s' /\
      sched_inv s' (<[ReadyQ := rq]> Q)
  | Some (r, rest) => get_next_running s = Ok (1, s') /\ dispatched s s' r /\
      sched_inv s' (<[ReadyQ := rest]> Q)
  end.
Proof.
  intros Hi Hrdy Hc rq. unfold get_next_running.
  rewrite (bind_ok _ _ _ _ _ eq_refl), (bind_ok _ _ _ _ _ (read_pcb_ok _ _ _ Hc)).
  assert (exists s1, (if decide (status c = TASK_RUNNING)
             then add_readyqueue (current_running s) else mret tt) s = Ok (tt, s1) /\
    sched_inv s1 (<[ReadyQ := rq]> Q) /\ same_cpu s s1 /\
    (forall r, eligible (pcbs s1) (hartid s) r = eligible (pcbs s) (hartid s) r))
    as (s1 & E1 & Hi1 & Hs1 & He).
  { subst rq. case_decide as Hst.
    - destruct (add_readyqueue_ok s Q rdy (current_running s) c Hi Hrdy) as (h' & E & Hi');
        [by eapply running_unqueued; eauto | done |].
      eexists. split; [exact E|]. split; [exact Hi'|]. split; [done|].
      intros r. unfold eligible. simpl. rewrite lookup_insert. case_decide; [|done].
      subst. by rewrite Hc.
    - exists s. rewrite app_nil_r, insert_id by done. done. }
  rewrite (bind_ok _ _ _ _ _ E1).
  assert (<[ReadyQ := rq]> Q !! ReadyQ = Some rq) as Hl by apply lookup_insert_eq.
  rewrite (bind_ok _ _ _ _ _ (load_next_ok _ _ _ (queue_next _ _ _ _ Hi1 Hl))),
    (bind_ok _ _ _ _ _ eq_refl).
  pose proof (next_running_loop_ok _ [] rq s1 _ Hi1 Hl (queue_fuel _ _ _ _ Hi1 Hl)) as Hrun.
  destruct Hs1 as (Hs1c & Hs1h & Hs1p). rewrite Hs1h in Hrun.
  rewrite (pick_ext _ (eligible (pcbs s) (hartid s))) in Hrun by (intros; apply He).
  cbv zeta in Hrun. destruct (pick _ rq) as [[r rest]|].
  - destruct Hrun as (s' & E & Hd & Hi'). exists s'. rewrite insert_insert_eq in Hi'.
    split_and!; [exact E | | exact Hi'].
    destruct Hd as (? & ? & ?). unfold dispatched. rewrite Hs1h in *. done.
  - exists s1. done.
Qed.

Lemma readied_eligible l m m' hart r :
  readied l m m' -> eligible m' hart r = eligible m hart r.
Proof. intros Hr. unfold eligible. rewrite Hr. case_decide; [|done]. by destruct (m !! r). Qed.

Lemma set_cursor_inv s Q x y :
  sched_inv s Q -> is_Some (pcbs s !! current_running s) ->
  exists s', screen_move_cursor x y s = Ok (tt, s') /\ sched_inv s' Q /\ same_cpu s s' /\
    forall r, exists p p', pcbs s !! r = p /\ pcbs s' !! r = p' /\
      status <$> p' = status <$> p /\ current_cpu_id <$> p' = current_cpu_id <$> p.
Proof.
  intros Hi [p Hp]. unfold screen_move_cursor. rewrite (bind_ok _ _ _ _ _ eq_refl).
  rewrite (upd_pcb_ok _ _ _ p) by done. eexists; split; [done|].
  split; [by eapply inv_put; eauto|]. split; [done|].
  intros r. do 2 eexists; split_and!; [done|done|..]; simpl; rewrite lookup_insert;
    case_decide; subst; by rewrite ?Hp.
Qed.

(** [do_scheduler]: with the sleepers that are due moved to the ready queue and
    the preempted process appended to it, the first process allowed on this
    hart is dispatched, and the idle process when there is none. *)
Lemma do_scheduler_ok s Q sl rdy c :
  sched_inv s Q -> Q !! SleepQ = Some sl -> Q !! ReadyQ = Some rdy ->
  pcbs s !! current_running s = Some c ->
  let wk := split_sleepers (pcbs s) (ticks s) sl in
  let rq := rdy ++ wk.1 ++
            (if decide (status c = TASK_RUNNING) then [current_running s] else []) in
  exists s', do_scheduler rdtime time_base s = Ok (tt, s') /\
  match pick (eligible (pcbs s) (hartid s)) rq with
  | Some (r, rest) => dispatched s s' r /\
      sched_inv s' (<[ReadyQ := rest]> (<[SleepQ := wk.2]> Q))
  | None => current_running s' = (if hartid s =? 0 then MasterPid0 else SlavePid0) /\
      hartid s' = hartid s /\ sched_inv s' (<[ReadyQ := rq]> (<[SleepQ := wk.2]> Q))
  end.
Proof.
  intros Hi Hsl Hrdy Hc wk rq. unfold do_scheduler.
  destruct (check_sleeping_ok s Q sl rdy Hi Hsl Hrdy) as (s1 & E1 & Hi1 & Hr1 & Hcu & Hha & _).
  rewrite (bind_ok _ _ _ _ _ E1).
  fold wk in Hi1, Hr1. set (Q1 := <[ReadyQ := _]> _) in Hi1.
  assert (exists c1, pcbs s1 !! current_running s1 = Some c1 /\
    (status c1 = TASK_RUNNING <-> status c = TASK_RUNNING)) as (c1 & Hc1 & Hst).
  { rewrite Hcu, Hr1, Hc. case_decide as Hin; [|eauto].
    eexists; split; [done|]. split; [done|]. intros Hst. exfalso.
    pose proof (split_sleepers_sub _ _ _ _ Hin) as Hsub.
    exact (running_unqueued s Q _ c Hi Hc (or_introl Hst) SleepQ sl Hsl Hsub). }
  destruct (get_next_running_ok s1 Q1 (rdy ++ wk.1) c1 Hi1) as (s2 & Hrun);
    [apply lookup_insert_eq | done |].
  rewrite Hha, Hcu in Hrun. rewrite <- app_assoc in Hrun.
  assert ((if decide (status c1 = TASK_RUNNING) then [current_running s] else []) =
          (if decide (status c = TASK_RUNNING) then [current_running s] else [])) as Hif
    by (repeat case_decide; tauto).
  rewrite Hif in Hrun. fold rq in Hrun.
  rewrite (pick_ext _ (eligible (pcbs s) (hartid s))) in Hrun
    by (intros; by eapply readied_eligible).
  destruct (pick _ rq) as [[r rest]|].
  - destruct Hrun as (E2 & (Hd1 & Hd2 & p & Hp & Hps & Hpc) & Hi2).
    rewrite (bind_ok _ _ _ _ _ E2). simpl. rewrite (bind_ok _ _ _ _ _ eq_refl), Hd1.
    rewrite (bind_ok _ _ _ _ _ (read_pcb_ok _ _ _ Hp)).
    destruct (set_cursor_inv s2 _ (cursor_x p) (cursor_y p) Hi2) as (s3 & E3 & Hi3 & Hsame & Hpp);
      [rewrite Hd1; eauto|].
    exists s3. split; [exact E3|]. destruct Hsame as (Hs1 & Hs2 & _).
    destruct (Hpp r) as (o & o' & Ho & Ho' & Hos & Hoc). rewrite Hp in Ho. subst o.
    destruct o' as [p'|]; [|done]. simplify_eq/=.
    split; [|unfold Q1 in Hi3; by rewrite insert_insert_eq in Hi3].
    split; [congruence|]. split; [congruence|].
    exists p'. split; [done|]. split; congruence.
  - destruct Hrun as (E2 & (Hd1 & Hd2 & _) & Hi2). rewrite (bind_ok _ _ _ _ _ E2). simpl.
    rewrite (bind_ok _ _ _ _ _ eq_refl). eexists; split; [done|].
    rewrite Hd2, Hha. split; [done|]. split; [by simpl; rewrite Hd2|].
    unfold Q1 in Hi2. rewrite insert_insert_eq in Hi2. by eapply inv_same, Hi2.
Qed.

End ClockFacts.

(** ** Round robin *)

Definition same_masks (s s' : sched) : Prop :=
  hartid s' = hartid s /\
  forall r, cpu_mask <$> pcbs s' !! r = cpu_mask <$> pcbs s !! r.
#[global] Instance same_masks_preorder : PreOrder same_masks.
Proof.
  split; [done|]. intros s1 s2 s3 [E1 H1] [E2 H2]. split; [congruence|].
  intros r. by rewrite (H2 r), (H1 r).
Qed.

Lemma masks_upd_pcb r f :
  (forall p, cpu_mask (f p) = cpu_mask p) -> keeps same_masks (upd_pcb r f).
Proof.
  intros Hf s a s'. unfold upd_pcb. destruct (pcbs s !! r) eqn:E; intros [= _ <-].
  split; [done|]. intros x. simpl. rewrite lookup_insert. case_decide; [|done].
  subst. by rewrite E; simpl; rewrite Hf.
Qed.
Lemma masks_read_pcb r : keeps same_masks (read_pcb r).
Proof. intros s a s'. unfold read_pcb. destruct (pcbs s !! r); intros [= _ <-]. reflexivity. Qed.
Lemma masks_on_links f : keeps same_masks (on_links f).
Proof. intros s a s'. unfold on_links. destruct (f (links s)); intros [= _ <-]. done. Qed.
Lemma masks_load_next a : keeps same_masks (load_next a).
Proof. intros s b s'. unfold load_next. destruct (ld_next _ a); intros [= _ <-]. reflexivity. Qed.
Lemma masks_with_current r : keeps same_masks (modify (with_current r)).
Proof. apply keeps_modify. by intros s. Qed.
Lemma masks_with_ticks n : keeps same_masks (modify (with_ticks n)).
Proof. apply keeps_modify. by intros s. Qed.
#[export] Hint Resolve masks_read_pcb masks_on_links masks_load_next
  masks_with_current masks_with_ticks : keeps.
#[export] Hint Extern 1 (keeps same_masks (upd_pcb _ _)) => apply masks_upd_pcb; by intros [] : keeps.

Lemma masks_do_scheduler rd tb : keeps same_masks (do_scheduler rd tb).
Proof.
  assert (forall n p, keeps same_masks (check_sleeping_loop rd tb n p)) as H1.
  { induction n as [|n IH]; intros p; simpl;
      unfold get_timer, get_ticks, do_unblock, add_readyqueue; keeps_tac. }
  assert (forall n p, keeps same_masks (next_running_loop n p)) as H2.
  { induction n as [|n IH]; intros p; simpl; unfold remove_readyqueue; keeps_tac. }
  unfold do_scheduler, check_sleeping, get_next_running, screen_move_cursor, add_readyqueue.
  keeps_tac.
Qed.

Lemma same_masks_eligible s s' r :
  same_masks s s' -> eligible (pcbs s') (hartid s') r = eligible (pcbs s) (hartid s) r.
Proof.
  intros [-> H]. specialize (H r). unfold eligible, runs_on.
  destruct (pcbs s' !! r), (pcbs s !! r); simplify_eq/=; congruence.
Qed.

(** The number of PCBs of a list that may run on the hart. *)
Definition count (f : pcbref -> bool) (l : list pcbref) : nat := length (List.filter f l).

Lemma pick_app f l1 r l2 :
  f r = true ->
  pick f (l1 ++ r :: l2) = match pick f l1 with
                           | Some (x, k) => Some (x, k ++ r :: l2)
                           | None => Some (r, l1 ++ l2)
                           end.
Proof.
  intros Hr. induction l1 as [|x l1 IH]; simpl; [by rewrite Hr|].
  destruct (f x); [done|]. rewrite IH. by destruct (pick f l1) as [[]|].
Qed.

Lemma pick_count f l x k : pick f l = Some (x, k) -> count f l = S (count f k).
Proof.
  unfold count. revert k; induction l as [|y l IH]; intros k; simpl; [done|].
  destruct (f y) eqn:E; [by intros [= <- <-]|].
  destruct (pick f l) as [[]|]; [|done]. intros [= <- <-]. simpl. rewrite E. eauto.
Qed.

Lemma count_ext f g l : (forall r, f r = g r) -> count f l = count g l.
Proof. intros E. unfold count. by rewrite (List.filter_ext _ _ E). Qed.

Section Fairness.
Variable rdtime : nat -> Z.
Variable time_base : Z.

Lemma round_robin_aux n s Q sl l1 r l2 c :
  sched_inv s Q -> Q !! SleepQ = Some sl -> Q !! ReadyQ = Some (l1 ++ r :: l2) ->
  pcbs s !! current_running s = Some c -> eligible (pcbs s) (hartid s) r = true ->
  (count (eligible (pcbs s) (hartid s)) l1 <= n)%nat ->
  exists k s', (k <= n)%nat /\
    for_loop (S k) 0 (fun _ => do_scheduler rdtime time_base) s = Ok (tt, s') /\
    current_running s' = r /\ status <$> pcbs s' !! r = Some TASK_RUNNING.
Proof.
  generalize 0 as z. revert s Q sl l1 l2 c.
  induction n as [|n IH]; intros s Q sl l1 l2 c z Hi Hsl Hrdy Hc Hel Hn;
    destruct (do_scheduler_ok rdtime time_base s Q sl _ c Hi Hsl Hrdy Hc) as (s1 & E1 & Hp);
    rewrite <- app_assoc in Hp; simpl in Hp; rewrite pick_app in Hp by done.
  - destruct (pick _ l1) as [[x k]|] eqn:Ep; [apply pick_count in Ep; lia|].
    destruct Hp as [(? & _ & p & Hpp & Hst & _) _]. exists O, s1. split; [done|].
    simpl. rewrite (bind_ok _ _ _ _ _ E1). split; [done|]. split; [done|]. by rewrite Hpp; simpl; rewrite Hst.
  - destruct (pick _ l1) as [[x k]|] eqn:Ep.
    + destruct Hp as [(Hcu & _ & p & Hpp & Hst & _) Hi1].
      pose proof (masks_do_scheduler _ _ _ _ _ E1) as Hm.
      edestruct (fun sl' l2' => IH s1 _ sl' k l2' p (z + 1) Hi1) as (k' & s' & Hk & E & ? & ?).
      * by rewrite lookup_insert_ne, lookup_insert_eq.
      * by rewrite lookup_insert_eq.
      * by rewrite Hcu.
      * by rewrite (same_masks_eligible _ _ _ Hm).
      * rewrite (count_ext _ (eligible (pcbs s) (hartid s)))
          by (intros; by apply same_masks_eligible).
        apply pick_count in Ep. lia.
      * exists (S k'), s'. split; [lia|]. split; [|done].
        by simpl for_loop; rewrite (bind_ok _ _ _ _ _ E1).
    + destruct Hp as [(? & _ & p & Hpp & Hst & _) _]. exists O, s1. split; [lia|].
      simpl. rewrite (bind_ok _ _ _ _ _ E1). split; [done|]. split; [done|]. by rewrite Hpp; simpl; rewrite Hst.
Qed.
End Fairness.

(** ** Idle system

    The state with the queue heads [heads] empty and the PCBs [m] on no queue:
    what [init_pcb] and the static initialisers of the queue heads set up. *)
Definition idle_links (heads : list laddr) (m : gmap pcbref pcb_t) : gmap laddr (@node laddr) :=
  list_to_map (((fun a => (a, Node (Some a) (Some a))) <$> heads) ++
               ((fun r => (PcbList r, Node None None)) <$> (map_to_list m).*1)).
Definition idle_queues (heads : list laddr) : gmap laddr (list pcbref) :=
  list_to_map ((fun a => (a, [])) <$> heads).

Lemma idle_queues_lookup heads hd l :
  idle_queues heads !! hd = Some l -> hd ∈ heads /\ l = [].
Proof.
  intros E%elem_of_list_to_map_2. apply list_elem_of_fmap in E as (a & [= -> ->] & ?). done.
Qed.

Lemma idle_links_head heads m a :
  is_head a -> a ∈ heads -> idle_links heads m !! a = Some (Node (Some a) (Some a)).
Proof.
  unfold idle_links. intros Ha. induction heads as [|b heads IH]; simpl; [set_solver|].
  intros Hin. destruct (decide (a = b)) as [->|Hne]; [by rewrite lookup_insert_eq|].
  rewrite lookup_insert_ne by done. set_solver.
Qed.

Lemma idle_links_pcb heads m r :
  Forall is_head heads -> is_Some (m !! r) ->
  idle_links heads m !! PcbList r = Some (Node None None).
Proof.
  intros Hh [p Hp]. unfold idle_links. apply elem_of_map_to_list in Hp.
  induction Hh as [|a heads Ha _ IH]; simpl.
  - assert (r ∈ (map_to_list m).*1) as Hr by (rewrite list_elem_of_fmap; by exists (r, p)).
    clear Hp. induction ((map_to_list m).*1) as [|x l IH]; simpl; [set_solver|].
    destruct (decide (x = r)) as [->|Hne]; [by rewrite lookup_insert_eq|].
    rewrite lookup_insert_ne by congruence. set_solver.
  - rewrite lookup_insert_ne; [done|]. by intros ->.
Qed.

(** Any heap with empty queues at [heads] and list nodes of the PCBs that are NULL. *)
Lemma idle_heap_inv h heads m cur hart n k :
  Forall is_head heads -> (forall a, a ∈ heads -> h !! a = Some (Node (Some a) (Some a))) ->
  (forall r, is_Some (m !! r) -> h !! PcbList r = Some (Node None None)) ->
  sched_inv (mkSched h m cur hart n k) (idle_queues heads).
Proof.
  intros Hh Ha Hm. rewrite Forall_forall in Hh. split; simpl.
  - split.
    + intros hd l [Hin ->]%idle_queues_lookup. split; [eauto|]. simpl. split; [by apply NoDup_singleton|].
      simpl. unfold linked, nxt, prv. by rewrite Ha.
    + intros hd1 l1 hd2 l2 r [_ ->]%idle_queues_lookup. set_solver.
  - intros r Hr. unfold mapped. by rewrite Hm.
  - intros hd l r [_ ->]%idle_queues_lookup. set_solver.
  - intros r Hr _. unfold nxt. by rewrite Hm.
Qed.

Lemma idle_sched_inv heads m cur hart n k :
  Forall is_head heads ->
  sched_inv (mkSched (idle_links heads m) m cur hart n k) (idle_queues heads).
Proof.
  intros Hh. apply idle_heap_inv; [done| |].
  - intros a Ha. apply idle_links_head; [by eapply Forall_forall in Hh|done].
  - intros r Hr. by apply idle_links_pcb.
Qed.

(** ** The queues as an abstract machine

    The abstract machine moves names of PCBs between lists; the code splices
    pointers. *)
Inductive qop :=
| OpReady (r : pcbref)                (* add_readyqueue *)
| OpBlock (r : pcbref) (hd : laddr)   (* do_block *)
| OpUnblock (r : pcbref)              (* do_unblock *)
| OpWakeAll (hd : laddr)              (* while (q.next != &q) do_unblock(q.next) *)
| OpRemove (r : pcbref).              (* remove_pcb_queue *)

Definition run_qop (o : qop) : M sched unit :=
  match o with
  | OpReady r => add_readyqueue r
  | OpBlock r hd => do_block (PcbList r) hd
  | OpUnblock r => do_unblock (PcbList r)
  | OpWakeAll hd => unblock_all hd
  | OpRemove r => remove_pcb_queue r
  end.

Inductive qstep Q : qop -> gmap laddr (list pcbref) -> Prop :=
| Q_ready r rdy :
    unqueued Q r -> Q !! ReadyQ = Some rdy ->
    qstep Q (OpReady r) (<[ReadyQ := rdy ++ [r]]> Q)
| Q_block r hd l :
    unqueued Q r -> hd <> ReadyQ -> Q !! hd = Some l ->
    qstep Q (OpBlock r hd) (<[hd := l ++ [r]]> Q)
| Q_unblock r hd l1 l2 rdy :
    Q !! hd = Some (l1 ++ r :: l2) -> hd <> ReadyQ -> Q !! ReadyQ = Some rdy ->
    qstep Q (OpUnblock r) (<[ReadyQ := rdy ++ [r]]> (<[hd := l1 ++ l2]> Q))
| Q_wake_all hd l rdy :
    Q !! hd = Some l -> hd <> ReadyQ -> Q !! ReadyQ = Some rdy ->
    qstep Q (OpWakeAll hd) (<[ReadyQ := rdy ++ l]> (<[hd := []]> Q))
| Q_remove r hd l1 l2 :
    Q !! hd = Some (l1 ++ r :: l2) -> qstep Q (OpRemove r) (<[hd := l1 ++ l2]> Q)
| Q_remove_none r :
    unqueued Q r -> qstep Q (OpRemove r) Q.

Definition qop_pcb (o : qop) : option pcbref :=
  match o with
  | OpReady r | OpBlock r _ | OpUnblock r | OpRemove r => Some r
  | OpWakeAll _ => None
  end.

Inductive qsteps : gmap laddr (list pcbref) -> list qop -> gmap laddr (list pcbref) -> Prop :=
| Q_nil Q : qsteps Q [] Q
| Q_cons Q1 o Q2 os Q3 : qstep Q1 o Q2 -> qsteps Q2 os Q3 -> qsteps Q1 (o :: os) Q3.

Fixpoint run_qops (os : list qop) : M sched unit :=
  match os with [] => mret tt | o :: os' => run_qop o;; run_qops os' end.

Lemma remove_pcb_queue_ok s Q hd l1 r l2 :
  sched_inv s Q -> Q !! hd = Some (l1 ++ r :: l2) ->
  exists h', remove_pcb_queue r s = Ok (tt, with_links h' s) /\
    sched_inv (with_links h' s) (<[hd := l1 ++ l2]> Q) /\
    unqueued (<[hd := l1 ++ l2]> Q) r.
Proof.
  intros Hi Hl. destruct (inv_dequeue _ _ _ _ _ _ Hi Hl) as (h' & E & Hi' & Hu & _).
  exists h'. split; [|done]. unfold remove_pcb_queue.
  assert (exists a, nxt (links s) (PcbList r) = Some (Some a)) as [a Ha].
  { destruct Hi as [[Hd _] _ _ _]. destruct (Hd _ _ Hl) as [_ Hdl].
    rewrite fmap_app, fmap_cons in Hdl. destruct (is_dll_elem _ _ _ _ _ Hdl) as (-> & _). eauto. }
  rewrite (bind_ok _ _ _ _ _ (load_next_ok _ _ _ Ha)). by rewrite (on_links_ok _ _ _ E).
Qed.

Lemma remove_pcb_queue_none s Q r :
  sched_inv s Q -> is_Some (pcbs s !! r) -> unqueued Q r -> remove_pcb_queue r s = Ok (tt, s).
Proof.
  intros Hi Hp Hu. unfold remove_pcb_queue.
  by rewrite (bind_ok _ _ _ _ _ (load_next_ok _ _ _ (inv_free _ _ Hi r Hp Hu))).
Qed.

Lemma keeps_run_qop o : keeps same_pcbs (run_qop o).
Proof. destruct o; simpl; unfold add_readyqueue, remove_pcb_queue; keeps_tac. Qed.

Lemma qstep_ok s Q o Q' :
  sched_inv s Q -> qstep Q o Q' -> (forall r, qop_pcb o = Some r -> is_Some (pcbs s !! r)) ->
  exists s', run_qop o s = Ok (tt, s') /\ sched_inv s' Q'.
Proof.
  intros Hi Hs Hp. destruct Hs as [r rdy Hu Hl|r hd l Hu Hne Hl|r hd l1 l2 rdy Hl Hne Hr
                                  |hd l rdy Hl Hne Hr|r hd l1 l2 Hl|r Hu]; simpl in *.
  - destruct (Hp r eq_refl) as [p Hpp]. destruct (add_readyqueue_ok s Q rdy r p) as (h' & ? & ?); [done..|]. by eexists.
  - destruct (Hp r eq_refl) as [p Hpp]. destruct (do_block_ok s Q hd l r p) as (h' & ? & ?); [done..|]. by eexists.
  - destruct (Hp r eq_refl) as [p Hpp]. destruct (do_unblock_ok s Q hd l1 r l2 rdy p) as (h' & ? & ?); [done..|]. by eexists.
  - destruct (unblock_all_ok s Q hd l rdy) as (s' & ? & ? & _); [done..|]. by eexists.
  - destruct (remove_pcb_queue_ok s Q hd l1 r l2) as (h' & ? & ? & _); [done..|]. by eexists.
  - exists s. split; [|done]. eapply remove_pcb_queue_none; eauto.
Qed.

Lemma qsteps_ok s Q os Q' :
  sched_inv s Q -> qsteps Q os Q' ->
  (forall o r, o ∈ os -> qop_pcb o = Some r -> is_Some (pcbs s !! r)) ->
  exists s', run_qops os s = Ok (tt, s') /\ sched_inv s' Q'.
Proof.
  intros Hi Hs. revert s Hi. induction Hs as [Q|Q1 o Q2 os Q3 Ho _ IH]; intros s Hi Hp; simpl.
  - by exists s.
  - destruct (qstep_ok s Q1 o Q2 Hi Ho) as (s1 & E1 & Hi1); [set_solver|].
    destruct (IH s1 Hi1) as (s' & E' & Hi').
    { intros o' r Ho' Hr. apply (keeps_run_qop o s tt s1 E1). set_solver. }
    exists s'. by rewrite (bind_ok _ _ _ _ _ E1).
Qed.

(** ** Correctness of the scheduler *)

(** C2.  Refinement of the process queues: every sequence of queue operations the abstract
    machine can perform on the lists [Q] is performed by the pointer code
    without a fault or an endless loop, and the heap it leaves represents the
    abstract result: no PCB is lost, duplicated or put on two queues, the
    order is first in first out, and each member has the queue's status. *)
Theorem queue_ops_refine s Q os Q' :
  sched_inv s Q -> qsteps Q os Q' ->
  (forall o r, o ∈ os -> qop_pcb o = Some r -> is_Some (pcbs s !! r)) ->
  exists s', run_qops os s = Ok (tt, s') /\ sched_inv s' Q'.
Proof. apply qsteps_ok. Qed.

Section Properties.
Variable rdtime : nat -> Z.
Variable time_base : Z.

(** C21.  [do_scheduler] always reaches the context switch, and with the sleepers that
    are due and then the preempted process appended to the ready queue, the
    process it switches to is the first one whose [cpu_mask] allows this hart;
    that process is off the queue, running, and marked with the hart's id.
    When there is none, the hart's idle process is chosen and every process
    stays where it was. *)
Theorem scheduler_dispatch s Q sl rdy c :
  sched_inv s Q -> Q !! SleepQ = Some sl -> Q !! ReadyQ = Some rdy ->
  pcbs s !! current_running s = Some c ->
  let wk := split_sleepers rdtime time_base (pcbs s) (ticks s) sl in
  let rq := rdy ++ wk.1 ++
            (if decide (status c = TASK_RUNNING) then [current_running s] else []) in
  exists s', do_scheduler rdtime time_base s = Ok (tt, s') /\
  match pick (eligible (pcbs s) (hartid s)) rq with
  | Some (r, rest) => dispatched s s' r /\
      sched_inv s' (<[ReadyQ := rest]> (<[SleepQ := wk.2]> Q))
  | None => current_running s' = (if hartid s =? 0 then MasterPid0 else SlavePid0) /\
      hartid s' = hartid s /\ sched_inv s' (<[ReadyQ := rq]> (<[SleepQ := wk.2]> Q))
  end.
Proof. apply do_scheduler_ok. Qed.

(** C22.  Round robin: a ready process that may run on the hart is dispatched after at
    most as many further calls of [do_scheduler] as there are eligible
    processes ahead of it; sleepers that wake up and preempted processes never
    overtake it. *)
Theorem round_robin s Q sl l1 r l2 c :
  sched_inv s Q -> Q !! SleepQ = Some sl -> Q !! ReadyQ = Some (l1 ++ r :: l2) ->
  pcbs s !! current_running s = Some c -> eligible (pcbs s) (hartid s) r = true ->
  exists k s', (k <= count (eligible (pcbs s) (hartid s)) l1)%nat /\
    for_loop (S k) 0 (fun _ => do_scheduler rdtime time_base) s = Ok (tt, s') /\
    current_running s' = r /\ status <$> pcbs s' !! r = Some TASK_RUNNING.
Proof. intros Hi Hsl Hr Hc He. by eapply round_robin_aux. Qed.

(** What the hart's clock shows at its [n]-th reading, in seconds. *)
Definition clock (n : nat) : Z := u64 (rdtime n) / time_base.

Lemma split_sleepers_due m n l r p :
  (forall i j, (i <= j)%nat -> clock i <= clock j) ->
  r ∈ l -> m !! r = Some p -> wakeup_time p <= clock n ->
  r ∈ (split_sleepers rdtime time_base m n l).1.
Proof.
  intros Hmono. revert n; induction l as [|x l IH]; intros n Hr Hp Hw; simpl; [set_solver|].
  pose proof (Hmono n (S n) ltac:(lia)). apply elem_of_cons in Hr as [<-|Hr].
  - rewrite Hp, (proj2 (Z.leb_le _ _)) by done. set_solver.
  - specialize (IH (S n) Hr Hp ltac:(lia)). destruct (m !! x); [|done]. case_match; set_solver.
Qed.

Lemma split_sleepers_late m n l r p :
  (forall i j, (i <= j)%nat -> clock i <= clock j) ->
  m !! r = Some p -> clock (n + length l) < wakeup_time p ->
  r ∉ (split_sleepers rdtime time_base m n l).1.
Proof.
  intros Hmono Hp. revert n; induction l as [|x l IH]; intros n Hw; simpl; [set_solver|].
  simpl in Hw. pose proof (Hmono n (n + S (length l))%nat ltac:(lia)) as Hle.
  rewrite <- Nat.add_succ_comm in Hw. specialize (IH (S n) Hw).
  destruct (decide (x = r)) as [->|Hne].
  - rewrite Hp, (proj2 (Z.leb_gt _ _)); [done|]. rewrite Nat.add_succ_comm in Hw.
    unfold clock in *. lia.
  - destruct (m !! x); [|done]. case_match; set_solver.
Qed.

Lemma split_sleepers_cover m n l r p :
  r ∈ l -> m !! r = Some p ->
  r ∈ (split_sleepers rdtime time_base m n l).1 \/ r ∈ (split_sleepers rdtime time_base m n l).2.
Proof.
  revert n; induction l as [|x l IH]; intros n Hr Hp; simpl; [set_solver|].
  destruct (decide (r = x)) as [<-|Hne].
  - rewrite Hp. case_match; set_solver.
  - specialize (IH (S n) ltac:(set_solver) Hp). destruct (m !! x); [|done].
    case_match; set_solver.
Qed.

(**  Sleeping: for a clock that does not go back, [check_sleeping] moves every
    sleeper whose time had come before it started to the ready queue, behind
    the processes that were ready and in the order of the sleep queue, and
    leaves every sleeper asleep whose time comes only after the last reading. *)
Theorem check_sleeping_wakes s Q sl rdy :
  (forall i j, (i <= j)%nat -> clock i <= clock j) ->
  sched_inv s Q -> Q !! SleepQ = Some sl -> Q !! ReadyQ = Some rdy ->
  exists s' woken rest, check_sleeping rdtime time_base s = Ok (tt, s') /\
    sched_inv s' (<[ReadyQ := rdy ++ woken]> (<[SleepQ := rest]> Q)) /\
    readied woken (pcbs s) (pcbs s') /\
    forall r p, r ∈ sl -> pcbs s !! r = Some p ->
      (wakeup_time p <= clock (ticks s) -> r ∈ woken) /\
      (clock (ticks s + length sl) < wakeup_time p -> r ∉ woken /\ r ∈ rest).
Proof.
  intros Hmono Hi Hsl Hr.
  destruct (check_sleeping_ok rdtime time_base s Q sl rdy Hi Hsl Hr) as (s' & E & Hi' & Hrd & _).
  do 3 eexists. split; [exact E|]. split; [exact Hi'|]. split; [exact Hrd|].
  intros r p Hin Hp. split; [by eapply split_sleepers_due|]. intros Hw.
  pose proof (split_sleepers_late _ _ _ _ _ Hmono Hp Hw).
  destruct (split_sleepers_cover (pcbs s) (ticks s) sl r p Hin Hp); done.
Qed.
End Properties.

(** ** Sample states

    Three processes, the first one running on hart 0; in [sample_busy] the
    second sleeps until time 5 and the third is ready. *)
Definition sample_pcb (n : Z) (st : task_status_t) (wake : Z) : pcb_t :=
  mkPcb 0 0 0 0 n st 0 0 0 wake 0 [] 0 3 0 MTHREAD 0 0.
Definition sample_pcbs : gmap pcbref pcb_t :=
  list_to_map [(Pcb 0, sample_pcb 2 TASK_RUNNING 0); (Pcb 1, sample_pcb 3 TASK_EXITED 5);
               (Pcb 2, sample_pcb 4 TASK_EXITED 0);
               (MasterPid0, sample_pcb 0 TASK_BLOCKED 0); (SlavePid0, sample_pcb 1 TASK_BLOCKED 0)].
Definition sample_heads : list laddr :=
  [ReadyQ; SleepQ; SendQ; RecvQ; MutexQ 0; BarrierQ 0; CondQ 0; MboxFullQ 0; MboxEmptyQ 0;
   PcbWaitQ (Pcb 0); PcbWaitQ (Pcb 1); PcbWaitQ (Pcb 2)].
Definition sample_idle : sched :=
  mkSched (idle_links sample_heads sample_pcbs) sample_pcbs (Pcb 0) 0 0 4.
Definition sample_ops : list qop := [OpBlock (Pcb 1) SleepQ; OpReady (Pcb 2)].
Definition sample_busy : sched :=
  match run_qops sample_ops sample_idle with Ok (_, s) => s | Err _ => sample_idle end.
Definition sample_queues : gmap laddr (list pcbref) :=
  <[ReadyQ := [Pcb 2]]> (<[SleepQ := [Pcb 1]]> (idle_queues sample_heads)).

Lemma sample_idle_inv : sched_inv sample_idle (idle_queues sample_heads).
Proof. apply idle_sched_inv. by repeat constructor. Qed.

Lemma idle_unqueued heads r : unqueued (idle_queues heads) r.
Proof. intros hd l [_ ->]%idle_queues_lookup. set_solver. Qed.

Lemma unqueued_insert Q hd l r : unqueued Q r -> r ∉ l -> unqueued (<[hd := l]> Q) r.
Proof. intros Hu Hr hd' l' [[<- <-]|[_ Hl]]%lookup_insert_Some; [done | by eapply Hu]. Qed.

Lemma sample_steps : qsteps (idle_queues sample_heads) sample_ops sample_queues.
Proof.
  eapply Q_cons; [apply (Q_block _ _ _ []); [apply idle_unqueued | done | done]|].
  eapply Q_cons; [|apply Q_nil]. apply (Q_ready _ _ []); [|done].
  apply unqueued_insert; [apply idle_unqueued | set_solver].
Qed.

Lemma sample_ops_pcbs o r :
  o ∈ sample_ops -> qop_pcb o = Some r -> is_Some (pcbs sample_idle !! r).
Proof.
  intros Ho Hr. repeat (apply elem_of_cons in Ho as [->|Ho]; [injection Hr as <-; by eexists|]).
  by apply elem_of_nil in Ho.
Qed.

Lemma sample_busy_inv : sched_inv sample_busy sample_queues.
Proof.
  destruct (qsteps_ok _ _ _ _ sample_idle_inv sample_steps sample_ops_pcbs) as (s & E & Hi).
  unfold sample_busy. by rewrite E.
Qed.

Lemma queue_ops_refine_witness :
  exists s', run_qops sample_ops sample_idle = Ok (tt, s') /\ sched_inv s' sample_queues.
Proof.
  apply (queue_ops_refine sample_idle (idle_queues sample_heads)).
  - exact sample_idle_inv.
  - exact sample_steps.
  - exact sample_ops_pcbs.
Defined.

Lemma scheduler_dispatch_witness :
  exists s', do_scheduler (fun _ => 100) 10 sample_busy = Ok (tt, s') /\
    dispatched sample_busy s' (Pcb 2) /\
    sched_inv s' (<[ReadyQ := [Pcb 1; Pcb 0]]> (<[SleepQ := []]> sample_queues)).
Proof.
  destruct (scheduler_dispatch (fun _ => 100) 10 sample_busy sample_queues [Pcb 1] [Pcb 2]
              (sample_pcb 2 TASK_RUNNING 0) sample_busy_inv eq_refl eq_refl eq_refl)
    as (s' & E & H).
  exists s'. split; [exact E|]. exact H.
Defined.

Lemma round_robin_witness :
  exists k s', (k <= 0)%nat /\
    for_loop (S k) 0 (fun _ => do_scheduler (fun _ => 100) 10) sample_busy = Ok (tt, s') /\
    current_running s' = Pcb 2 /\ status <$> pcbs s' !! Pcb 2 = Some TASK_RUNNING.
Proof.
  exact (round_robin (fun _ => 100) 10 sample_busy sample_queues [Pcb 1] [] (Pcb 2) []
           (sample_pcb 2 TASK_RUNNING 0) sample_busy_inv eq_refl eq_refl eq_refl eq_refl).
Defined.

Lemma check_sleeping_wakes_witness :
  exists s' woken rest, check_sleeping (fun _ => 100) 10 sample_busy = Ok (tt, s') /\
    sched_inv s' (<[ReadyQ := [Pcb 2] ++ woken]> (<[SleepQ := rest]> sample_queues)) /\
    Pcb 1 ∈ woken.
Proof.
  destruct (check_sleeping_wakes (fun _ => 100) 10 sample_busy sample_queues
              [Pcb 1] [Pcb 2]) as (s' & w & rest & E & Hi & _ & Hw);
    [done | exact sample_busy_inv | reflexivity | reflexivity |].
  exists s', w, rest. split; [exact E|]. split; [exact Hi|].
  apply (Hw (Pcb 1) (sample_pcb 3 TASK_BLOCKED 5)); [apply list_elem_of_here | reflexivity | vm_compute; discriminate].
Defined.
