(* ===== verification/Lock.v ===== *)
(** * Synchronisation and communication (kernel/locking/lock.c)

    Mutex locks, barriers, condition variables and mailboxes, on top of the
    scheduler's queues.  An operation that may block is split where it calls
    [do_scheduler]: the definition named [_iter] is one turn of the source's
    [while (1)], and returns whether the source returns or goes round the loop
    again when the caller is next scheduled. *)
From S2P Require Import Prelude CString DList Sched.

(** ** Data (include/os/lock.h) *)

Inductive lock_status_t := UNLOCKED | LOCKED.
Inductive barrier_status_t := BAR_ACTIVE | BAR_INACTIVE.
Inductive condition_status_t := COND_ACTIVE | COND_INACTIVE.
Inductive mailbox_status_t := MBOX_ACTIVE | MBOX_INACTIVE.
Inductive mailbox_open_t := MBOX_OPEN | MBOX_CLOSE.

#[global] Instance lock_status_eq_dec : EqDecision lock_status_t.
Proof. solve_decision. Defined.
#[global] Instance barrier_status_eq_dec : EqDecision barrier_status_t.
Proof. solve_decision. Defined.
#[global] Instance condition_status_eq_dec : EqDecision condition_status_t.
Proof. solve_decision. Defined.
#[global] Instance mailbox_status_eq_dec : EqDecision mailbox_status_t.
Proof. solve_decision. Defined.

Definition LOCK_NUM : nat := 16.
Definition BARRIER_NUM : nat := 16.
Definition CONDITION_NUM : nat := 16.
Definition MBOX_NUM : nat := 16.
Definition MAX_MBOX_LENGTH : Z := 64.

(** The structures, less their queue heads, which live in the heap of links. *)
Record mutex_lock_t := mkMutex { m_status : lock_status_t; m_pid : Z; m_key : Z }.
Record barrier_t := mkBarrier {
  b_key : Z; b_goal : Z; b_counter : Z; b_status : barrier_status_t }.
Record condition_t := mkCondition { c_key : Z; c_status : condition_status_t }.
Record mailbox_t := mkMailbox {
  mb_status : mailbox_status_t; mb_open : mailbox_open_t; mb_name : list Z;
  mb_buffer : list Z; mb_buffer_idx : Z; mb_cite_num : Z }.

Record lockst := mkLockst {
  sch : sched;
  mlocks : list mutex_lock_t; last_lockid : Z;
  barrier : list barrier_t; condition : list condition_t; mailbox : list mailbox_t }.

Definition with_sch (v : sched) (s : lockst) : lockst :=
  mkLockst v (mlocks s) (last_lockid s) (barrier s) (condition s) (mailbox s).
Definition with_mlocks (v : list mutex_lock_t) (s : lockst) : lockst :=
  mkLockst (sch s) v (last_lockid s) (barrier s) (condition s) (mailbox s).
Definition with_last_lockid (v : Z) (s : lockst) : lockst :=
  mkLockst (sch s) (mlocks s) v (barrier s) (condition s) (mailbox s).
Definition with_barrier (v : list barrier_t) (s : lockst) : lockst :=
  mkLockst (sch s) (mlocks s) (last_lockid s) v (condition s) (mailbox s).
Definition with_condition (v : list condition_t) (s : lockst) : lockst :=
  mkLockst (sch s) (mlocks s) (last_lockid s) (barrier s) v (mailbox s).
Definition with_mailbox (v : list mailbox_t) (s : lockst) : lockst :=
  mkLockst (sch s) (mlocks s) (last_lockid s) (barrier s) (condition s) v.

(** A call of the scheduler's code. *)
Definition sys {A} (m : M sched A) : M lockst A := zoom sch with_sch m.

(** [a[i].f = ...] *)
Definition upd_mlock (i : Z) (f : mutex_lock_t -> mutex_lock_t) : M lockst unit :=
  l ← gets mlocks; m ← lift (idx l i); modify (with_mlocks (<[Z.to_nat i := f m]> l)).
Definition upd_barrier (i : Z) (f : barrier_t -> barrier_t) : M lockst unit :=
  l ← gets barrier; b ← lift (idx l i); modify (with_barrier (<[Z.to_nat i := f b]> l)).
Definition upd_condition (i : Z) (f : condition_t -> condition_t) : M lockst unit :=
  l ← gets condition; c ← lift (idx l i); modify (with_condition (<[Z.to_nat i := f c]> l)).
Definition upd_mailbox (i : Z) (f : mailbox_t -> mailbox_t) : M lockst unit :=
  l ← gets mailbox; b ← lift (idx l i); modify (with_mailbox (<[Z.to_nat i := f b]> l)).

(** The address of the queue head in element [i] of an array. *)
Definition qaddr (mk : nat -> laddr) (i : Z) : M lockst laddr :=
  if 0 <=? i then mret (mk (Z.to_nat i)) else fail Fault.

(** [while (a[i].q.next != &a[i].q) do_unblock(a[i].q.next);] *)
Definition wake_all (mk : nat -> laddr) (i : Z) : M lockst unit :=
  q ← qaddr mk i; sys (unblock_all q).

(** [do_block(&current_running->list, &a[i].q);] *)
Definition block_on (mk : nat -> laddr) (i : Z) : M lockst unit :=
  cur ← gets (fun s => current_running (sch s));
  q ← qaddr mk i;
  sys (do_block (PcbList cur) q).

(** [q.next = &q; q.prev = &q;] *)
Definition init_queue (q : laddr) : M lockst unit :=
  sys (on_links (fun h => init_list_head h q)).

(** ** Mutex locks *)

Definition spin_lock_init (i : Z) : M lockst unit :=
  upd_mlock i (fun m => mkMutex UNLOCKED (m_pid m) (m_key m)).

Definition init_locks : M lockst unit :=
  for_loop LOCK_NUM 0 (fun i =>
    init_queue (MutexQ (Z.to_nat i));;
    upd_mlock i (fun m => mkMutex (m_status m) 0 (m_key m));;
    spin_lock_init i).

Definition do_mutex_lock_init (key : Z) : M lockst Z :=
  l ← gets mlocks;
  n ← gets last_lockid;
  let i := first_index (fun m => m_key m =? key) (take (Z.to_nat n) l) 0 in
  if i =? n then
    if i >=? Z.of_nat LOCK_NUM then mret (-1)
    else upd_mlock n (fun m => mkMutex (m_status m) (m_pid m) key);;
         modify (with_last_lockid (n + 1));;
         mret i
  else mret i.

Section WithClock.
Variable rdtime : nat -> Z.
Variable time_base : Z.

Definition schedule : M lockst unit := sys (do_scheduler rdtime time_base).

(** One turn of the loop of [do_mutex_lock_acquire]: [true] if it returns. *)
Definition do_mutex_lock_acquire_iter (i : Z) : M lockst bool :=
  l ← gets mlocks;
  m ← lift (idx l i);
  if decide (m_status m = UNLOCKED) then
    upd_mlock i (fun m => mkMutex LOCKED (m_pid m) (m_key m));;
    p ← sys do_getpid;
    upd_mlock i (fun m => mkMutex (m_status m) p (m_key m));;
    mret true
  else
    block_on MutexQ i;;
    schedule;;
    mret false.

Definition do_mutex_lock_release (i : Z) : M lockst unit :=
  upd_mlock i (fun m => mkMutex UNLOCKED (m_pid m) (m_key m));;
  upd_mlock i (fun m => mkMutex (m_status m) 0 (m_key m));;
  wake_all MutexQ i.

Definition release_process_mutex (p : Z) : M lockst unit :=
  n ← gets last_lockid;
  for_loop (Z.to_nat n) 0 (fun i =>
    l ← gets mlocks;
    m ← lift (idx l i);
    if decide (m_status m = LOCKED) then
      if m_pid m =? p then
        upd_mlock i (fun m => mkMutex UNLOCKED (m_pid m) (m_key m));;
        upd_mlock i (fun m => mkMutex (m_status m) 0 (m_key m));;
        wake_all MutexQ i
      else mret tt
    else mret tt).

(** ** Barriers *)

Definition init_barriers : M lockst unit :=
  for_loop BARRIER_NUM 0 (fun i =>
    upd_barrier i (fun b => mkBarrier (b_key b) (b_goal b) (b_counter b) BAR_INACTIVE);;
    init_queue (BarrierQ (Z.to_nat i))).

Definition do_barrier_init (key goal : Z) : M lockst Z :=
  l ← gets barrier;
  let i := first_index (fun b => bool_decide (b_status b = BAR_INACTIVE)) l 0 in
  if i >=? Z.of_nat BARRIER_NUM then mret (-1) else
  upd_barrier i (fun _ => mkBarrier key goal 0 BAR_ACTIVE);;
  init_queue (BarrierQ (Z.to_nat i));;
  mret i.

(** [true] if the caller passes at once, [false] if it was blocked (and passes
    when it is scheduled again). *)
Definition do_barrier_wait (i : Z) : M lockst bool :=
  upd_barrier i (fun b => mkBarrier (b_key b) (b_goal b) (i32 (b_counter b + 1)) (b_status b));;
  l ← gets barrier;
  b ← lift (idx l i);
  if b_counter b >=? b_goal b then
    wake_all BarrierQ i;;
    upd_barrier i (fun b => mkBarrier (b_key b) (b_goal b) 0 (b_status b));;
    mret true
  else
    block_on BarrierQ i;;
    schedule;;
    mret false.

Definition do_barrier_destroy (i : Z) : M lockst unit :=
  wake_all BarrierQ i;;
  upd_barrier i (fun b => mkBarrier (b_key b) (b_goal b) (b_counter b) BAR_INACTIVE).

(** ** Condition variables *)

Definition init_conditions : M lockst unit :=
  for_loop CONDITION_NUM 0 (fun i =>
    init_queue (CondQ (Z.to_nat i));;
    upd_condition i (fun c => mkCondition (c_key c) COND_INACTIVE)).

Definition do_condition_init (key : Z) : M lockst Z :=
  l ← gets condition;
  let i := first_index (fun c => bool_decide (c_status c = COND_INACTIVE)) l 0 in
  if i >=? Z.of_nat CONDITION_NUM then mret (-1) else
  upd_condition i (fun _ => mkCondition key COND_ACTIVE);;
  init_queue (CondQ (Z.to_nat i));;
  mret i.

(** Up to the context switch; when the caller is scheduled again it goes on with
    [do_mutex_lock_acquire(mutex_idx)]. *)
Definition do_condition_wait (cond_idx mutex_idx : Z) : M lockst unit :=
  block_on CondQ cond_idx;;
  do_mutex_lock_release mutex_idx;;
  schedule.

Definition do_condition_signal (i : Z) : M lockst unit :=
  q ← qaddr CondQ i;
  nx ← sys (load_next (Some q));
  if decide (nx = Some q) then mret tt
  else a ← lift (of_option Fault nx); sys (do_unblock a).

Definition do_condition_broadcast (i : Z) : M lockst unit :=
  wake_all CondQ i.

Definition do_condition_destroy (i : Z) : M lockst unit :=
  do_condition_broadcast i;;
  upd_condition i (fun c => mkCondition (c_key c) COND_INACTIVE).

(** ** Mailboxes

    [check_uva_mem] brings the user's pages into memory before the kernel
    touches them; here [name] and [msg] are the user's bytes themselves. *)

Definition init_mbox : M lockst unit :=
  for_loop MBOX_NUM 0 (fun i =>
    upd_mailbox i (fun b => mkMailbox MBOX_INACTIVE MBOX_CLOSE (mb_name b) (mb_buffer b)
                              (mb_buffer_idx b) 0);;
    init_queue (MboxEmptyQ (Z.to_nat i));;
    init_queue (MboxFullQ (Z.to_nat i))).

Fixpoint mbox_search (l : list mailbox_t) (name : list Z) (i : Z) : res Z :=
  match l with
  | [] => Ok i
  | b :: l' =>
    if decide (mb_status b = MBOX_ACTIVE) then
      v ← strcmp (mb_name b) name; if v =? 0 then Ok i else mbox_search l' name (i + 1)
    else mbox_search l' name (i + 1)
  end.

Definition do_mbox_open (name : list Z) : M lockst Z :=
  l ← gets mailbox;
  i ← lift (mbox_search l name 0);
  let finish (i : Z) : M lockst Z :=
    upd_mailbox i (fun b => mkMailbox (mb_status b) MBOX_OPEN (mb_name b) (mb_buffer b)
                              (mb_buffer_idx b) (i32 (mb_cite_num b + 1)));;
    mret i in
  if i >=? Z.of_nat MBOX_NUM then
    let i := first_index (fun b => bool_decide (mb_status b = MBOX_INACTIVE)) l 0 in
    if i >=? Z.of_nat MBOX_NUM then mret (-1) else
    b ← lift (idx l i);
    nm ← lift (strcpy (mb_name b) name);
    upd_mailbox i (fun b => mkMailbox MBOX_ACTIVE (mb_open b) nm (mb_buffer b) 0 0);;
    init_queue (MboxEmptyQ (Z.to_nat i));;
    init_queue (MboxFullQ (Z.to_nat i));;
    finish i
  else finish i.

Definition do_mbox_close (i : Z) : M lockst unit :=
  upd_mailbox i (fun b => mkMailbox (mb_status b) MBOX_CLOSE (mb_name b) (mb_buffer b)
                            (mb_buffer_idx b) (i32 (mb_cite_num b - 1)));;
  l ← gets mailbox;
  b ← lift (idx l i);
  if mb_cite_num b <=? 0
  then upd_mailbox i (fun b => mkMailbox MBOX_INACTIVE (mb_open b) (mb_name b) (mb_buffer b)
                                 (mb_buffer_idx b) (mb_cite_num b))
  else mret tt.

(** One turn of the loop of [do_mbox_send]; the source returns the number of
    turns that blocked. *)
Definition do_mbox_send_iter (i : Z) (msg : list Z) (msg_length : Z) : M lockst bool :=
  l ← gets mailbox;
  b ← lift (idx l i);
  if i32 (mb_buffer_idx b + msg_length) <=? MAX_MBOX_LENGTH then
    let start := Z.to_nat (mb_buffer_idx b) in
    tl ← lift (memcpy (drop start (mb_buffer b)) msg (Z.to_nat (u32 msg_length)));
    upd_mailbox i (fun b => mkMailbox (mb_status b) (mb_open b) (mb_name b)
                              (take start (mb_buffer b) ++ tl)
                              (i32 (mb_buffer_idx b + msg_length)) (mb_cite_num b));;
    wake_all MboxEmptyQ i;;
    mret true
  else
    block_on MboxFullQ i;;
    schedule;;
    mret false.

(** One turn of the loop of [do_mbox_recv]: the new contents of the user's
    buffer when it returns. *)
Definition do_mbox_recv_iter (i : Z) (msg : list Z) (msg_length : Z) : M lockst (option (list Z)) :=
  l ← gets mailbox;
  b ← lift (idx l i);
  if i32 (mb_buffer_idx b - msg_length) >=? 0 then
    out ← lift (memcpy msg (mb_buffer b) (Z.to_nat (u32 msg_length)));
    let remain_length := i32 (mb_buffer_idx b - msg_length) in
    buf ← lift (memcpy_within (mb_buffer b) 0 (Z.to_nat msg_length)
                  (Z.to_nat (u32 remain_length)));
    upd_mailbox i (fun b => mkMailbox (mb_status b) (mb_open b) (mb_name b) buf
                              remain_length (mb_cite_num b));;
    wake_all MboxFullQ i;;
    mret (Some out)
  else
    block_on MboxEmptyQ i;;
    schedule;;
    mret None.

End WithClock.

(** ** The kernel invariant

    On top of the scheduler's invariant for the queues [Q]: all queues of this
    file exist, and a free mutex has no waiters. *)
Implicit Types (Q : gmap laddr (list pcbref)).

Record lock_inv (s : lockst) Q : Prop := {
  li_sched : sched_inv (sch s) Q;
  li_ready : is_Some (Q !! ReadyQ);
  li_sleep : is_Some (Q !! SleepQ);
  li_idle : is_Some (pcbs (sch s) !! MasterPid0) /\ is_Some (pcbs (sch s) !! SlavePid0);
  li_current : is_Some (pcbs (sch s) !! current_running (sch s));
  li_last : 0 <= last_lockid s <= Z.of_nat (length (mlocks s));
  li_mutex : forall i m, mlocks s !! i = Some m ->
    exists l, Q !! MutexQ i = Some l /\ (m_status m = UNLOCKED -> l = []);
  li_barrier : forall i, (i < length (barrier s))%nat -> is_Some (Q !! BarrierQ i);
  li_condition : forall i, (i < length (condition s))%nat -> is_Some (Q !! CondQ i);
  li_mailbox : forall i, (i < length (mailbox s))%nat ->
    is_Some (Q !! MboxFullQ i) /\ is_Some (Q !! MboxEmptyQ i) }.

(** The caller of a system call: a running process of the array [pcb]. *)
Definition caller (s : lockst) (r : pcbref) (p : pcb_t) : Prop :=
  current_running (sch s) = r /\ pcbs (sch s) !! r = Some p /\ status p = TASK_RUNNING.

Lemma sys_ok {A} (m : M sched A) s a t :
  m (sch s) = Ok (a, t) -> sys m s = Ok (a, with_sch t s).
Proof. intros E. unfold sys, zoom. by rewrite E. Qed.

Lemma upd_mlock_ok i f s m :
  mlocks s !! i = Some m ->
  upd_mlock (Z.of_nat i) f s = Ok (tt, with_mlocks (<[i := f m]> (mlocks s)) s).
Proof.
  intros E. unfold upd_mlock. rewrite (bind_ok _ _ _ _ _ eq_refl).
  rewrite (bind_ok _ _ _ _ _ (lift_ok _ _ _ (idx_ok _ _ _ E))). by rewrite Nat2Z.id.
Qed.
Lemma upd_barrier_ok i f s b :
  barrier s !! i = Some b ->
  upd_barrier (Z.of_nat i) f s = Ok (tt, with_barrier (<[i := f b]> (barrier s)) s).
Proof.
  intros E. unfold upd_barrier. rewrite (bind_ok _ _ _ _ _ eq_refl).
  rewrite (bind_ok _ _ _ _ _ (lift_ok _ _ _ (idx_ok _ _ _ E))). by rewrite Nat2Z.id.
Qed.
Lemma upd_mailbox_ok i f s b :
  mailbox s !! i = Some b ->
  upd_mailbox (Z.of_nat i) f s = Ok (tt, with_mailbox (<[i := f b]> (mailbox s)) s).
Proof.
  intros E. unfold upd_mailbox. rewrite (bind_ok _ _ _ _ _ eq_refl).
  rewrite (bind_ok _ _ _ _ _ (lift_ok _ _ _ (idx_ok _ _ _ E))). by rewrite Nat2Z.id.
Qed.

Lemma qaddr_ok mk i s : qaddr mk (Z.of_nat i) s = Ok (mk i, s).
Proof. unfold qaddr. rewrite (proj2 (Z.leb_le _ _)) by lia. by rewrite Nat2Z.id. Qed.

(** Two maps of queues that agree but for the ready queue and [hd]. *)
Definition only_changes (hds : list laddr) Q Q' : Prop :=
  forall hd, hd ∉ hds -> Q' !! hd = Q !! hd.

(** A new scheduler state whose queues differ from the old ones on [hds] only
    keeps the invariant, if the queues in [hds] are still there and no mutex
    queue is among those that grew. *)
Lemma lock_inv_sch s Q t Q' :
  lock_inv s Q -> sched_inv t Q' -> same_pcbs (sch s) t ->
  is_Some (pcbs t !! current_running t) ->
  (forall hd, is_Some (Q !! hd) -> is_Some (Q' !! hd)) ->
  (forall i, Q' !! MutexQ i = Q !! MutexQ i \/ Q' !! MutexQ i = Some []) ->
  lock_inv (with_sch t s) Q'.
Proof.
  intros [] Ht Hp Hc HQ Hm. split; simpl; eauto.
  - destruct li_idle0. split; by apply Hp.
  - intros i m E. destruct (li_mutex0 i m E) as (l & Hl & Hu).
    destruct (Hm i) as [-> | ->]; eauto.
  - intros i Hi. destruct (li_mailbox0 i Hi). eauto.
Qed.

Lemma insert_defined Q hd l q :
  is_Some (Q !! q) -> is_Some (<[hd := l]> Q !! q).
Proof. intros. rewrite lookup_insert_is_Some'. by right. Qed.

Lemma wake_all_ok mk i s Q l :
  (forall j, mk j <> ReadyQ) ->
  lock_inv s Q -> Q !! mk i = Some l ->
  exists t rdy, wake_all mk (Z.of_nat i) s = Ok (tt, with_sch t s) /\
    Q !! ReadyQ = Some rdy /\ same_cpu (sch s) t /\
    readied l (pcbs (sch s)) (pcbs t) /\
    lock_inv (with_sch t s) (<[ReadyQ := rdy ++ l]> (<[mk i := []]> Q)).
Proof.
  intros Hne Hi Hl. destruct (li_ready _ _ Hi) as [rdy Hrdy].
  destruct (unblock_all_ok (sch s) Q (mk i) l rdy (li_sched _ _ Hi) Hl (Hne i) Hrdy)
    as (t & E & Ht & Hr & Hc & _).
  exists t, rdy. unfold wake_all. rewrite (bind_ok _ _ _ _ _ (qaddr_ok _ _ _)).
  split; [by rewrite (sys_ok _ _ _ _ E)|].
  split; [done|]. split; [done|]. split; [done|].
  assert (same_pcbs (sch s) t) as Hp by exact (keeps_unblock_all _ _ _ _ E).
  apply lock_inv_sch with Q; try done.
  - destruct Hc as (-> & _). by apply Hp, (li_current _ _ Hi).
  - intros hd Hhd. by do 2 apply insert_defined.
  - intros j. rewrite lookup_insert_ne by done. rewrite lookup_insert.
    case_decide; [by right | by left].
Qed.

Section WithClockFacts.
Variable rdtime : nat -> Z.
Variable time_base : Z.

(** A context switch keeps the invariant and moves PCBs between the ready and
    the sleep queue only. *)
Lemma schedule_ok s Q :
  lock_inv s Q ->
  exists t Q', schedule rdtime time_base s = Ok (tt, with_sch t s) /\
    lock_inv (with_sch t s) Q' /\ only_changes [ReadyQ; SleepQ] Q Q'.
Proof.
  intros Hi. destruct (li_ready _ _ Hi) as [rdy Hrdy], (li_sleep _ _ Hi) as [sl Hsl],
    (li_current _ _ Hi) as [c Hc].
  destruct (do_scheduler_ok rdtime time_base (sch s) Q sl rdy c (li_sched _ _ Hi) Hsl Hrdy Hc)
    as (t & E & Ht).
  assert (same_pcbs (sch s) t) as Hp by exact (keeps_do_scheduler _ _ _ _ _ E).
  assert (exists Q', sched_inv t Q' /\ is_Some (pcbs t !! current_running t) /\
    exists l1 l2, Q' = <[ReadyQ := l1]> (<[SleepQ := l2]> Q)) as (Q' & Hsi & Hcur & l1 & l2 & ->).
  { destruct (pick _ _) as [[r rest]|].
    - destruct Ht as ((Hcu & _ & p & Hpt & _) & Hsi). eexists. split; [exact Hsi|].
      split; [rewrite Hcu, Hpt; eauto|]. eauto.
    - destruct Ht as (Hcu & _ & Hsi). eexists. split; [exact Hsi|]. split; [|eauto].
      rewrite Hcu. destruct (li_idle _ _ Hi) as [H0 H1]. apply (Hp _). by destruct (_ =? 0). }
  exists t, (<[ReadyQ := l1]> (<[SleepQ := l2]> Q)). split_and!.
  - unfold schedule. by rewrite (sys_ok _ _ _ _ E).
  - apply lock_inv_sch with Q; try done.
    + intros hd ?. by do 2 apply insert_defined.
    + intros i. left. by rewrite !lookup_insert_ne.
  - intros hd Hhd. by rewrite !lookup_insert_ne by set_solver.
Qed.

Lemma block_on_ok mk i s Q r p l :
  (forall j, mk j <> ReadyQ) ->
  lock_inv s Q -> caller s r p -> Q !! mk i = Some l ->
  (forall j m, MutexQ j = mk i -> mlocks s !! j = Some m -> m_status m = LOCKED) ->
  exists t, block_on mk (Z.of_nat i) s = Ok (tt, with_sch t s) /\
    lock_inv (with_sch t s) (<[mk i := l ++ [r]]> Q) /\ current_running t = r /\
    pcbs t = <[r := set_status TASK_BLOCKED p]> (pcbs (sch s)).
Proof.
  intros Hne Hi (Hcu & Hp & Hst) Hl Hlk. subst r.
  destruct (do_block_ok (sch s) Q (mk i) l (current_running (sch s)) p (li_sched _ _ Hi) Hl)
    as (h' & E & Ht); [by eapply running_unqueued; eauto using li_sched | done | done |].
  eexists. split.
  { unfold block_on. rewrite (bind_ok _ _ _ _ _ eq_refl), (bind_ok _ _ _ _ _ (qaddr_ok _ _ _)).
    by rewrite (sys_ok _ _ _ _ E). }
  split; [|done]. destruct Hi. split; simpl; eauto using insert_defined.
  - destruct li_idle0. split; rewrite lookup_insert_is_Some'; by right.
  - rewrite lookup_insert_is_Some'. by left.
  - intros j m E'. destruct (li_mutex0 j m E') as (l' & Hl' & Hu).
    rewrite lookup_insert. case_decide as Heq; [|eauto].
    eexists; split; [done|]. intros Hul. by rewrite (Hlk j m (eq_sym Heq) E') in Hul.
  - intros j Hj. destruct (li_mailbox0 j Hj). eauto using insert_defined.
Qed.

End WithClockFacts.

(** Changing a mutex keeps the invariant, unless it frees a mutex that has
    waiters. *)
Lemma lock_inv_mlock s Q i m m' :
  lock_inv s Q -> mlocks s !! i = Some m ->
  (m_status m' = UNLOCKED -> m_status m = UNLOCKED \/ Q !! MutexQ i = Some []) ->
  lock_inv (with_mlocks (<[i := m']> (mlocks s)) s) Q.
Proof.
  intros [] Em Hm. split; simpl; eauto.
  - by rewrite length_insert.
  - intros j x Hx. apply list_lookup_insert_Some in Hx as [(<- & -> & _)|(_ & Hx)]; [|eauto].
    destruct (li_mutex0 _ _ Em) as (l & Hl & Hu). exists l. split; [done|].
    intros Hf. destruct (Hm Hf) as [?|?]; [eauto|congruence].
Qed.

Lemma lock_inv_other s s' Q :
  lock_inv s Q -> sch s' = sch s -> mlocks s' = mlocks s -> last_lockid s' = last_lockid s ->
  length (barrier s') = length (barrier s) -> length (condition s') = length (condition s) ->
  length (mailbox s') = length (mailbox s) -> lock_inv s' Q.
Proof.
  intros [] E1 E2 E3 E4 E5 E6. split; rewrite ?E1, ?E2, ?E3, ?E4, ?E5, ?E6; eauto.
Qed.

Lemma wake_all_frame mk i s s' t :
  wake_all mk i s = Ok (tt, with_sch t s) -> sch s' = sch s ->
  wake_all mk i s' = Ok (tt, with_sch t s').
Proof.
  unfold wake_all, qaddr, sys, zoom. intros E Es. unfold mbind, M_bind in *.
  destruct (0 <=? i); [|done]. simpl in *. rewrite Es.
  destruct (unblock_all _ (sch s)) as [[[] u]|]; [|done]. by injection E as ->.
Qed.

Lemma getpid_ok s r p : caller s r p -> sys do_getpid s = Ok (pid p, s).
Proof.
  intros (Hc & Hp & _). unfold do_getpid.
  rewrite (sys_ok _ _ (pid p) (sch s)); [by destruct s|].
  rewrite (bind_ok _ _ _ _ _ eq_refl), Hc. by rewrite (bind_ok _ _ _ _ _ (read_pcb_ok _ _ _ Hp)).
Qed.

Section MutexFacts.
Variable rdtime : nat -> Z.
Variable time_base : Z.

Lemma acquire_free s Q i m r p :
  lock_inv s Q -> caller s r p -> mlocks s !! i = Some m -> m_status m = UNLOCKED ->
  let s' := with_mlocks (<[i := mkMutex LOCKED (pid p) (m_key m)]> (mlocks s)) s in
  do_mutex_lock_acquire_iter rdtime time_base (Z.of_nat i) s = Ok (true, s') /\ lock_inv s' Q.
Proof.
  intros Hi Hca Em Hu s'. split; [|by eapply lock_inv_mlock].
  unfold do_mutex_lock_acquire_iter. rewrite (bind_ok _ _ _ _ _ eq_refl).
  rewrite (bind_ok _ _ _ _ _ (lift_ok _ _ _ (idx_ok _ _ _ Em))), decide_True by done.
  rewrite (bind_ok _ _ _ _ _ (upd_mlock_ok _ _ _ _ Em)).
  erewrite (bind_ok (sys do_getpid)) by (by apply (getpid_ok _ r p)).
  erewrite bind_ok.
  2:{ apply upd_mlock_ok. simpl. apply list_lookup_insert_eq. by eapply lookup_lt_Some. }
  unfold mret, M_ret, s', with_mlocks. simpl. by rewrite list_insert_insert_eq.
Qed.

Lemma acquire_held s Q i m r p :
  lock_inv s Q -> caller s r p -> mlocks s !! i = Some m -> m_status m = LOCKED ->
  exists t Q' l, do_mutex_lock_acquire_iter rdtime time_base (Z.of_nat i) s =
      Ok (false, with_sch t s) /\
    lock_inv (with_sch t s) Q' /\ Q !! MutexQ i = Some l /\ Q' !! MutexQ i = Some (l ++ [r]) /\
    only_changes [ReadyQ; SleepQ; MutexQ i] Q Q'.
Proof.
  intros Hi Hca Em Hk. destruct (li_mutex _ _ Hi _ _ Em) as (l & Hl & _).
  destruct (block_on_ok MutexQ i s Q r p l) as (t1 & E1 & Hi1 & _); [done..| |].
  { intros j m' [= ->] Em'. congruence. }
  destruct (schedule_ok rdtime time_base _ _ Hi1) as (t & Q' & E2 & Hi2 & Hoc).
  exists t, Q', l. split.
  - unfold do_mutex_lock_acquire_iter. rewrite (bind_ok _ _ _ _ _ eq_refl).
    rewrite (bind_ok _ _ _ _ _ (lift_ok _ _ _ (idx_ok _ _ _ Em))), decide_False by congruence.
    by rewrite (bind_ok _ _ _ _ _ E1), (bind_ok _ _ _ _ _ E2).
  - split; [done|]. split; [done|]. split.
    + rewrite (Hoc (MutexQ i)) by set_solver. by rewrite lookup_insert_eq.
    + intros hd Hhd. rewrite (Hoc hd) by set_solver. rewrite lookup_insert_ne by set_solver. done.
Qed.

Lemma release_ok s Q i m :
  lock_inv s Q -> mlocks s !! i = Some m ->
  exists t rdy l,
    let s' := with_sch t (with_mlocks (<[i := mkMutex UNLOCKED 0 (m_key m)]> (mlocks s)) s) in
    do_mutex_lock_release (Z.of_nat i) s = Ok (tt, s') /\
    Q !! ReadyQ = Some rdy /\ Q !! MutexQ i = Some l /\
    lock_inv s' (<[ReadyQ := rdy ++ l]> (<[MutexQ i := []]> Q)) /\
    readied l (pcbs (sch s)) (pcbs t) /\ same_cpu (sch s) t.
Proof.
  intros Hi Em. destruct (li_mutex _ _ Hi _ _ Em) as (l & Hl & _).
  destruct (wake_all_ok MutexQ i s Q l) as (t & rdy & E & Hrdy & Hcpu & Hr & Hi'); [done..|].
  exists t, rdy, l. split; [|split; [done|]; split; [done|]; split; [|done]].
  - unfold do_mutex_lock_release. rewrite (bind_ok _ _ _ _ _ (upd_mlock_ok _ _ _ _ Em)).
    erewrite bind_ok.
    2:{ apply upd_mlock_ok. simpl. apply list_lookup_insert_eq. by eapply lookup_lt_Some. }
    simpl. rewrite list_insert_insert_eq. by rewrite (wake_all_frame _ _ _ _ _ E).
  - apply (lock_inv_mlock _ _ i m _ Hi' Em). right.
    rewrite lookup_insert_ne by done. by rewrite lookup_insert_eq.
Qed.

(** What happens between two operations of a process: the timer interrupt calls
    the scheduler, or the big kernel lock passes to the other hart, which has a
    process of its own. *)
Inductive env_step : lockst -> lockst -> Prop :=
| E_timer s s' : schedule rdtime time_base s = Ok (tt, s') -> env_step s s'
| E_hart s r h :
    is_Some (pcbs (sch s) !! r) ->
    env_step s (with_sch (mkSched (links (sch s)) (pcbs (sch s)) r h (ticks (sch s))
                            (process_id (sch s))) s).

Lemma env_step_ok s s' Q :
  lock_inv s Q -> env_step s s' ->
  exists t Q', s' = with_sch t s /\ lock_inv s' Q' /\ only_changes [ReadyQ; SleepQ] Q Q'.
Proof.
  intros Hi Hs. destruct Hs as [s s' E|s r h Hr].
  - destruct (schedule_ok rdtime time_base s Q Hi) as (t & Q' & E' & Hi' & Ho).
    rewrite E in E'. injection E' as ->. eauto.
  - do 2 eexists. split; [done|]. split; [|by intros hd].
    destruct Hi. split; simpl; eauto. by eapply inv_same, li_sched0.
Qed.

(** ** Barriers *)

Lemma barrier_wait_blocks s Q i b r p l :
  lock_inv s Q -> caller s r p -> barrier s !! i = Some b -> Q !! BarrierQ i = Some l ->
  0 <= b_counter b -> b_counter b + 1 < b_goal b < 2 ^ 31 ->
  exists t Q',
    let s' := with_sch t (with_barrier
      (<[i := mkBarrier (b_key b) (b_goal b) (b_counter b + 1) (b_status b)]> (barrier s)) s) in
    do_barrier_wait rdtime time_base (Z.of_nat i) s = Ok (false, s') /\
    lock_inv s' Q' /\ Q' !! BarrierQ i = Some (l ++ [r]).
Proof.
  intros Hi Hca Eb Hl H0 Hg.
  set (s1 := with_barrier
      (<[i := mkBarrier (b_key b) (b_goal b) (b_counter b + 1) (b_status b)]> (barrier s)) s).
  assert (lock_inv s1 Q) as Hi1 by (apply (lock_inv_other s); try done; simpl; by rewrite length_insert).
  destruct (block_on_ok BarrierQ i s1 Q r p l) as (t1 & E1 & Hi2 & _);
    [done..|].
  destruct (schedule_ok rdtime time_base _ _ Hi2) as (t & Q' & E2 & Hi3 & Hoc).
  exists t, Q'. split_and!; [|done|by rewrite (Hoc (BarrierQ i)), lookup_insert_eq by set_solver].
  unfold do_barrier_wait. rewrite (bind_ok _ _ _ _ _ (upd_barrier_ok _ _ _ _ Eb)).
  rewrite i32_small by lia. fold s1. rewrite (bind_ok _ _ _ _ _ eq_refl).
  erewrite bind_ok.
  2:{ apply lift_ok, idx_ok. simpl. apply list_lookup_insert_eq. by eapply lookup_lt_Some. }
  simpl. rewrite (proj2 (geb_lt _ _)) by lia.
  by rewrite (bind_ok _ _ _ _ _ E1), (bind_ok _ _ _ _ _ E2).
Qed.

Lemma barrier_wait_passes s Q i b l :
  lock_inv s Q -> barrier s !! i = Some b -> Q !! BarrierQ i = Some l ->
  b_counter b + 1 = b_goal b -> 0 < b_goal b < 2 ^ 31 ->
  exists t rdy,
    let s' := with_sch t (with_barrier
      (<[i := mkBarrier (b_key b) (b_goal b) 0 (b_status b)]> (barrier s)) s) in
    do_barrier_wait rdtime time_base (Z.of_nat i) s = Ok (true, s') /\
    Q !! ReadyQ = Some rdy /\ readied l (pcbs (sch s)) (pcbs t) /\
    lock_inv s' (<[ReadyQ := rdy ++ l]> (<[BarrierQ i := []]> Q)).
Proof.
  intros Hi Eb Hl Hc Hg.
  set (s1 := with_barrier
      (<[i := mkBarrier (b_key b) (b_goal b) (b_counter b + 1) (b_status b)]> (barrier s)) s).
  assert (lock_inv s1 Q) as Hi1 by (apply (lock_inv_other s); try done; simpl; by rewrite length_insert).
  destruct (wake_all_ok BarrierQ i s1 Q l) as (t & rdy & E & Hrdy & _ & Hr & Hi2); [done..|].
  assert (i < length (barrier s))%nat by (by eapply lookup_lt_Some).
  exists t, rdy. split_and!; [|done|done|].
  - unfold do_barrier_wait. rewrite (bind_ok _ _ _ _ _ (upd_barrier_ok _ _ _ _ Eb)).
    rewrite i32_small by lia. fold s1. rewrite (bind_ok _ _ _ _ _ eq_refl).
    erewrite bind_ok.
    2:{ apply lift_ok, idx_ok. simpl. by apply list_lookup_insert_eq. }
    simpl. rewrite (proj2 (geb_le _ _)) by lia.
    rewrite (bind_ok _ _ _ _ _ E). erewrite bind_ok.
    2:{ apply upd_barrier_ok. simpl. by apply list_lookup_insert_eq. }
    simpl. rewrite list_insert_insert_eq. done.
  - apply (lock_inv_other _ _ _ Hi2); simpl; rewrite ?length_insert; done.
Qed.

(** The system seen from barrier [i]: processes arrive, and the environment
    takes its steps; [n] counts the arrivals. *)
Inductive bstep (i : nat) : lockst * nat -> lockst * nat -> Prop :=
| B_arrive s s' n r p ret :
    caller s r p -> do_barrier_wait rdtime time_base (Z.of_nat i) s = Ok (ret, s') ->
    bstep i (s, n) (s', S n)
| B_env s s' n : env_step s s' -> bstep i (s, n) (s', n).

Definition barrier_inv (i : nat) (g : Z) (w : lockst * nat) : Prop :=
  exists Q b l, lock_inv w.1 Q /\ barrier w.1 !! i = Some b /\ Q !! BarrierQ i = Some l /\
    b_goal b = g /\ b_counter b = Z.of_nat w.2 mod g /\ Z.of_nat (length l) = Z.of_nat w.2 mod g.

Lemma mod_succ n g : 0 < g ->
  (n mod g + 1 < g /\ (n + 1) mod g = n mod g + 1) \/
  (n mod g + 1 = g /\ (n + 1) mod g = 0).
Proof.
  intros Hg. pose proof (Z.mod_pos_bound n g Hg). rewrite <- Zplus_mod_idemp_l.
  destruct (decide (n mod g + 1 < g)).
  - left. split; [done|]. apply Z.mod_small. lia.
  - right. assert (n mod g + 1 = g) as E by lia. split; [done|]. rewrite E. apply Z_mod_same_full.
Qed.

(** The next arrival at a barrier with [n] arrivals so far. *)
Lemma barrier_arrive i g s n r p :
  0 < g < 2 ^ 31 -> barrier_inv i g (s, n) -> caller s r p ->
  exists s', do_barrier_wait rdtime time_base (Z.of_nat i) s =
      Ok (bool_decide (Z.of_nat (S n) mod g = 0), s') /\ barrier_inv i g (s', S n).
Proof.
  intros Hg (Q & b & l & Hi & Eb & Hl & Hgo & Hc & Hn) Hca. simpl in *.
  assert (i < length (barrier s))%nat by (by eapply lookup_lt_Some).
  pose proof (Z.mod_pos_bound (Z.of_nat n) g (proj1 Hg)).
  replace (Z.of_nat (S n)) with (Z.of_nat n + 1) by lia.
  destruct (mod_succ (Z.of_nat n) g (proj1 Hg)) as [[H1 H2]|[H1 H2]]; rewrite H2.
  - destruct (barrier_wait_blocks s Q i b r p l) as (t & Q' & E & Hi' & Hl'); try done; [lia..|].
    rewrite bool_decide_false by lia. eexists. split; [exact E|].
    do 3 eexists. split; [exact Hi'|]. simpl. rewrite list_lookup_insert_eq by done.
    split; [done|]. split; [exact Hl'|]. simpl. rewrite length_app. simpl. split; [done|].
    replace (Z.of_nat (S n)) with (Z.of_nat n + 1) by lia. split; lia.
  - destruct (barrier_wait_passes s Q i b l) as (t & rdy & E & _ & _ & Hi'); try done; [lia..|].
    rewrite bool_decide_true by done. eexists. split; [exact E|].
    do 3 eexists. split; [exact Hi'|]. simpl. rewrite list_lookup_insert_eq by done.
    split; [done|]. rewrite lookup_insert_ne, lookup_insert_eq by done. split; [done|].
    split; [done|]. replace (Z.of_nat (S n)) with (Z.of_nat n + 1) by lia. simpl. lia.
Qed.

Lemma barrier_inv_steps i g w w' :
  0 < g < 2 ^ 31 -> barrier_inv i g w -> rtc (bstep i) w w' -> barrier_inv i g w'.
Proof.
  intros Hg Hw Hs. revert Hw. induction Hs as [w|w1 w2 w3 Hs _ IH]; intros Hw; [done|].
  apply IH. destruct Hs as [s s' n r p ret Hca E|s s' n E].
  - destruct (barrier_arrive i g s n r p Hg Hw Hca) as (s2 & E2 & ?).
    rewrite E in E2. by injection E2 as _ ->.
  - destruct Hw as (Q & b & l & Hi & Eb & Hl & Hr).
    destruct (env_step_ok s s' Q Hi E) as (t & Q' & -> & Hi' & Hoc).
    exists Q', b, l. split; [done|]. split; [done|].
    split; [|done]. by rewrite (Hoc (BarrierQ i)) by set_solver.
Qed.

(** ** Mailboxes *)

(** The bytes waiting in a mailbox. *)
Definition mbox_content (b : mailbox_t) : list Z :=
  take (Z.to_nat (mb_buffer_idx b)) (mb_buffer b).
Definition mbox_wf (b : mailbox_t) : Prop :=
  length (mb_buffer b) = Z.to_nat MAX_MBOX_LENGTH /\ 0 <= mb_buffer_idx b <= MAX_MBOX_LENGTH.

Lemma mbox_idx s i b :
  mailbox s !! i = Some b -> lift (idx (mailbox s) (Z.of_nat i)) s = Ok (b, s).
Proof. intros E. by apply lift_ok, idx_ok. Qed.

Lemma lock_inv_mailbox s Q i b : lock_inv s Q -> lock_inv (with_mailbox (<[i := b]> (mailbox s)) s) Q.
Proof. intros Hi. apply (lock_inv_other s); try done. simpl. apply length_insert. Qed.

(** The caller is queued on [mk i] and another process is scheduled. *)
Lemma block_and_schedule {A} mk i s Q r p l (ret : A) :
  (forall j, mk j <> ReadyQ) -> (forall j, mk j <> SleepQ) -> (forall j, MutexQ j <> mk i) ->
  lock_inv s Q -> caller s r p -> Q !! mk i = Some l ->
  exists t Q', (block_on mk (Z.of_nat i);; schedule rdtime time_base;; mret ret) s =
      Ok (ret, with_sch t s) /\
    lock_inv (with_sch t s) Q' /\ Q' !! mk i = Some (l ++ [r]).
Proof.
  intros H1 H2 H3 Hi Hca Hl.
  destruct (block_on_ok mk i s Q r p l) as (t1 & E1 & Hi1 & _); try done.
  { intros j m E. by destruct (H3 j). }
  destruct (schedule_ok rdtime time_base _ _ Hi1) as (t & Q' & E2 & Hi2 & Hoc).
  exists t, Q'. rewrite (bind_ok _ _ _ _ _ E1), (bind_ok _ _ _ _ _ E2).
  split; [done|]. split; [done|]. rewrite (Hoc (mk i)); [apply lookup_insert_eq|].
  rewrite !elem_of_cons, elem_of_nil. specialize (H1 i); specialize (H2 i). tauto.
Qed.

Lemma send_fits s Q i b msg n :
  lock_inv s Q -> mailbox s !! i = Some b -> mbox_wf b -> (n <= length msg)%nat ->
  mb_buffer_idx b + Z.of_nat n <= MAX_MBOX_LENGTH ->
  exists t b' rdy l,
    do_mbox_send_iter rdtime time_base (Z.of_nat i) msg (Z.of_nat n) s =
      Ok (true, with_sch t (with_mailbox (<[i := b']> (mailbox s)) s)) /\
    mbox_wf b' /\ mbox_content b' = mbox_content b ++ take n msg /\
    Q !! ReadyQ = Some rdy /\ Q !! MboxEmptyQ i = Some l /\
    lock_inv (with_sch t (with_mailbox (<[i := b']> (mailbox s)) s))
      (<[ReadyQ := rdy ++ l]> (<[MboxEmptyQ i := []]> Q)).
Proof.
  unfold MAX_MBOX_LENGTH. intros Hi Eb [Hlen Hix] Hn Hfit.
  unfold MAX_MBOX_LENGTH in *.
  set (st := Z.to_nat (mb_buffer_idx b)).
  set (b' := mkMailbox (mb_status b) (mb_open b) (mb_name b)
    (take st (mb_buffer b) ++ take n msg ++ drop n (drop st (mb_buffer b)))
    (mb_buffer_idx b + Z.of_nat n) (mb_cite_num b)).
  destruct (li_mailbox _ _ Hi i) as [_ [l Hl]]; [by eapply lookup_lt_Some|].
  pose proof (lock_inv_mailbox s Q i b' Hi) as Hi1.
  destruct (wake_all_ok MboxEmptyQ i _ Q l ltac:(done) Hi1 Hl) as (t & rdy & E & Hrdy & _ & _ & Hi2).
  exists t, b', rdy, l. split_and!; try done.
  - unfold do_mbox_send_iter. rewrite (bind_ok _ _ _ _ _ eq_refl), (bind_ok _ _ _ _ _ (mbox_idx _ _ _ Eb)).
    rewrite i32_small by lia. unfold MAX_MBOX_LENGTH. rewrite (proj2 (Z.leb_le _ _)) by lia.
    rewrite u32_small, Nat2Z.id by lia. erewrite bind_ok.
    2:{ apply lift_ok, memcpy_ok; [rewrite length_drop; lia | done]. }
    rewrite (bind_ok _ _ _ _ _ (upd_mailbox_ok _ _ _ _ Eb)), i32_small by lia.
    fold st. fold b'. by rewrite (bind_ok _ _ _ _ _ E).
  - unfold mbox_wf, MAX_MBOX_LENGTH. simpl.
    rewrite !length_app, !length_take, !length_drop. unfold st. lia.
  - unfold mbox_content. simpl. fold st.
    replace (Z.to_nat (mb_buffer_idx b + Z.of_nat n)) with (st + n)%nat by lia.
    rewrite (take_app_add' _ _ st) by (rewrite length_take; lia). f_equal.
    rewrite take_app_le by (rewrite length_take; lia). rewrite take_take. f_equal. lia.
Qed.

Lemma send_blocks s Q i b msg n r p :
  lock_inv s Q -> caller s r p -> mailbox s !! i = Some b -> mbox_wf b ->
  MAX_MBOX_LENGTH < mb_buffer_idx b + Z.of_nat n -> Z.of_nat n < 2 ^ 30 ->
  exists t Q' l,
    do_mbox_send_iter rdtime time_base (Z.of_nat i) msg (Z.of_nat n) s = Ok (false, with_sch t s) /\
    lock_inv (with_sch t s) Q' /\ Q !! MboxFullQ i = Some l /\ Q' !! MboxFullQ i = Some (l ++ [r]).
Proof.
  intros Hi Hca Eb [Hlen Hix] Hfit Hn. unfold MAX_MBOX_LENGTH in *.
  destruct (li_mailbox _ _ Hi i) as [[l Hl] _]; [by eapply lookup_lt_Some|].
  destruct (block_and_schedule MboxFullQ i s Q r p l false) as (t & Q' & E & Hi' & Hl'); try done.
  exists t, Q', l. split_and!; try done.
  unfold do_mbox_send_iter. rewrite (bind_ok _ _ _ _ _ eq_refl), (bind_ok _ _ _ _ _ (mbox_idx _ _ _ Eb)).
  rewrite i32_small by lia. unfold MAX_MBOX_LENGTH. by rewrite (proj2 (Z.leb_gt _ _)) by lia.
Qed.

Lemma recv_ready s Q i b msg n :
  lock_inv s Q -> mailbox s !! i = Some b -> mbox_wf b -> (n <= length msg)%nat ->
  Z.of_nat n <= mb_buffer_idx b ->
  exists t b' rdy l,
    do_mbox_recv_iter rdtime time_base (Z.of_nat i) msg (Z.of_nat n) s =
      Ok (Some (take n (mbox_content b) ++ drop n msg),
          with_sch t (with_mailbox (<[i := b']> (mailbox s)) s)) /\
    mbox_wf b' /\ mbox_content b' = drop n (mbox_content b) /\
    Q !! ReadyQ = Some rdy /\ Q !! MboxFullQ i = Some l /\
    lock_inv (with_sch t (with_mailbox (<[i := b']> (mailbox s)) s))
      (<[ReadyQ := rdy ++ l]> (<[MboxFullQ i := []]> Q)).
Proof.
  intros Hi Eb [Hlen Hix] Hn Hav. unfold MAX_MBOX_LENGTH in *.
  set (rem := Z.to_nat (mb_buffer_idx b - Z.of_nat n)).
  set (b' := mkMailbox (mb_status b) (mb_open b) (mb_name b)
    (take rem (drop n (mb_buffer b)) ++ drop rem (mb_buffer b))
    (mb_buffer_idx b - Z.of_nat n) (mb_cite_num b)).
  destruct (li_mailbox _ _ Hi i) as [[l Hl] _]; [by eapply lookup_lt_Some|].
  pose proof (lock_inv_mailbox s Q i b' Hi) as Hi1.
  destruct (wake_all_ok MboxFullQ i _ Q l ltac:(done) Hi1 Hl) as (t & rdy & E & Hrdy & _ & _ & Hi2).
  exists t, b', rdy, l. split_and!; try done.
  - unfold do_mbox_recv_iter. rewrite (bind_ok _ _ _ _ _ eq_refl), (bind_ok _ _ _ _ _ (mbox_idx _ _ _ Eb)).
    rewrite i32_small by lia. rewrite (proj2 (geb_le _ _)) by lia.
    rewrite (u32_small (Z.of_nat n)), Nat2Z.id, u32_small by lia. erewrite bind_ok.
    2:{ apply lift_ok, memcpy_ok; lia. } erewrite bind_ok.
    2:{ apply lift_ok, memcpy_within_ok; lia. }
    rewrite (bind_ok _ _ _ _ _ (upd_mailbox_ok _ _ _ _ Eb)).
    simpl. fold rem. fold b'. rewrite (bind_ok _ _ _ _ _ E). unfold mbox_content.
    rewrite take_take. by replace (n `min` _)%nat with n by lia.
  - unfold mbox_wf, MAX_MBOX_LENGTH. simpl.
    rewrite !length_app, !length_take, !length_drop. unfold rem. lia.
  - unfold mbox_content. simpl. fold rem.
    rewrite take_app_le by (rewrite length_take, length_drop; lia).
    rewrite take_take, skipn_firstn_comm. f_equal; lia.
Qed.

Lemma recv_blocks s Q i b msg n r p :
  lock_inv s Q -> caller s r p -> mailbox s !! i = Some b -> mbox_wf b ->
  mb_buffer_idx b < Z.of_nat n < 2 ^ 31 ->
  exists t Q' l,
    do_mbox_recv_iter rdtime time_base (Z.of_nat i) msg (Z.of_nat n) s = Ok (None, with_sch t s) /\
    lock_inv (with_sch t s) Q' /\ Q !! MboxEmptyQ i = Some l /\ Q' !! MboxEmptyQ i = Some (l ++ [r]).
Proof.
  intros Hi Hca Eb [Hlen Hix] Hav. unfold MAX_MBOX_LENGTH in *.
  destruct (li_mailbox _ _ Hi i) as [_ [l Hl]]; [by eapply lookup_lt_Some|].
  destruct (block_and_schedule MboxEmptyQ i s Q r p l (None : option (list Z)))
    as (t & Q' & E & Hi' & Hl'); try done.
  exists t, Q', l. split_and!; try done.
  unfold do_mbox_recv_iter. rewrite (bind_ok _ _ _ _ _ eq_refl), (bind_ok _ _ _ _ _ (mbox_idx _ _ _ Eb)).
  rewrite i32_small by lia. by rewrite (proj2 (geb_lt _ _)) by lia.
Qed.

(** The system seen from mailbox [i]: what was sent and what was received so
    far, through any interleaving of senders, receivers and the environment. *)
Record mworld := mkMworld { mst : lockst; sent : list Z; received : list Z }.

Inductive mstep (i : nat) : mworld -> mworld -> Prop :=
| M_send s s' msg n done' snt rcv r p :
    caller s r p -> (n <= length msg)%nat -> Z.of_nat n < 2 ^ 30 ->
    do_mbox_send_iter rdtime time_base (Z.of_nat i) msg (Z.of_nat n) s = Ok (done', s') ->
    mstep i (mkMworld s snt rcv)
      (mkMworld s' (if done' : bool then snt ++ take n msg else snt) rcv)
| M_recv s s' msg n out snt rcv r p :
    caller s r p -> (n <= length msg)%nat -> Z.of_nat n < 2 ^ 30 ->
    do_mbox_recv_iter rdtime time_base (Z.of_nat i) msg (Z.of_nat n) s = Ok (out, s') ->
    mstep i (mkMworld s snt rcv)
      (mkMworld s' snt (match out with Some bytes => rcv ++ take n bytes | None => rcv end))
| M_env s s' snt rcv :
    env_step s s' -> mstep i (mkMworld s snt rcv) (mkMworld s' snt rcv).

Definition mailbox_inv (i : nat) (w : mworld) : Prop :=
  (exists Q, lock_inv (mst w) Q) /\
  exists b, mailbox (mst w) !! i = Some b /\ mbox_wf b /\ sent w = received w ++ mbox_content b.

Lemma mailbox_inv_step i w w' : mailbox_inv i w -> mstep i w w' -> mailbox_inv i w'.
Proof.
  intros [[Q Hi] (b & Eb & Hwf & Hc)] Hs.
  destruct Hs as [s s' msg n d snt rcv r p Hca Hn Hm E|s s' msg n out snt rcv r p Hca Hn Hm E
                 |s s' snt rcv E]; simpl in *;
    assert (i < length (mailbox s))%nat as Hlt by (by eapply lookup_lt_Some).
  - destruct (decide (mb_buffer_idx b + Z.of_nat n <= MAX_MBOX_LENGTH)) as [Hf|Hf].
    + destruct (send_fits s Q i b msg n Hi Eb Hwf Hn Hf) as (t & b' & rdy & l & E' & Hwf' & Hc' & _ & _ & Hi').
      rewrite E in E'. injection E' as -> ->. split; [eauto|]. exists b'. simpl.
      rewrite list_lookup_insert_eq by done. split; [done|]. split; [done|].
      by rewrite Hc', Hc, assoc_L by apply _.
    + destruct (send_blocks s Q i b msg n r p) as (t & Q' & l & E' & Hi' & _); try done; [lia|].
      rewrite E in E'. injection E' as -> ->. split; [eauto|]. by exists b.
  - destruct (decide (Z.of_nat n <= mb_buffer_idx b)) as [Hf|Hf].
    + destruct (recv_ready s Q i b msg n Hi Eb Hwf Hn Hf) as (t & b' & rdy & l & E' & Hwf' & Hc' & _ & _ & Hi').
      rewrite E in E'. injection E' as -> ->. split; [eauto|]. exists b'. simpl.
      rewrite list_lookup_insert_eq by done. split; [done|]. split; [done|].
      rewrite Hc', Hc. rewrite <- (assoc_L (++)). f_equal.
      assert (length (mbox_content b) = Z.to_nat (mb_buffer_idx b)).
      { destruct Hwf as [Hl Hx]. unfold MAX_MBOX_LENGTH in *. unfold mbox_content.
        rewrite length_take. lia. }
      rewrite take_app_le by (rewrite length_take; lia).
      rewrite take_take, Nat.min_id. by rewrite take_drop.
    + destruct (recv_blocks s Q i b msg n r p) as (t & Q' & l & E' & Hi' & _); try done; [lia|].
      rewrite E in E'. injection E' as -> ->. split; [eauto|]. by exists b.
  - destruct (env_step_ok s s' Q Hi E) as (t & Q' & -> & Hi' & _). split; [eauto|]. by exists b.
Qed.

Lemma mailbox_inv_steps i w w' : mailbox_inv i w -> rtc (mstep i) w w' -> mailbox_inv i w'.
Proof. intros Hw Hs. induction Hs; eauto using mailbox_inv_step. Qed.

(** ** Condition variables *)

(** [do_condition_wait] up to the context switch. *)
Lemma condition_wait_ok s Q c i cv m r p l :
  lock_inv s Q -> caller s r p -> condition s !! c = Some cv -> mlocks s !! i = Some m ->
  Q !! CondQ c = Some l ->
  exists t Q',
    let s' := with_sch t (with_mlocks (<[i := mkMutex UNLOCKED 0 (m_key m)]> (mlocks s)) s) in
    do_condition_wait rdtime time_base (Z.of_nat c) (Z.of_nat i) s = Ok (tt, s') /\
    lock_inv s' Q' /\ Q' !! CondQ c = Some (l ++ [r]) /\ Q' !! MutexQ i = Some [].
Proof.
  intros Hi Hca Ec Em Hl.
  destruct (block_on_ok CondQ c s Q r p l) as (t1 & E1 & Hi1 & _); [done..|].
  destruct (release_ok _ _ i m Hi1 Em) as (t2 & rdy & lm & E2 & _ & _ & Hi2 & _).
  destruct (schedule_ok rdtime time_base _ _ Hi2) as (t & Q' & E3 & Hi3 & Hoc).
  exists t, Q'. split; [|split; [exact Hi3|]].
  - unfold do_condition_wait. rewrite (bind_ok _ _ _ _ _ E1), (bind_ok _ _ _ _ _ E2).
    exact E3.
  - rewrite !Hoc by set_solver. rewrite !(lookup_insert_ne _ ReadyQ), lookup_insert_eq by done.
    by rewrite lookup_insert_ne, lookup_insert_eq by done.
Qed.

Lemma condition_signal_ok s Q c r l :
  lock_inv s Q -> Q !! CondQ c = Some (r :: l) ->
  exists t rdy, do_condition_signal (Z.of_nat c) s = Ok (tt, with_sch t s) /\
    Q !! ReadyQ = Some rdy /\
    lock_inv (with_sch t s) (<[ReadyQ := rdy ++ [r]]> (<[CondQ c := l]> Q)) /\
    status <$> pcbs t !! r = Some TASK_READY.
Proof.
  intros Hi Hl. destruct (li_ready _ _ Hi) as [rdy Hrdy].
  destruct (inv_status _ _ (li_sched _ _ Hi) _ _ r Hl) as (p & Hp & _); [set_solver|].
  destruct (do_unblock_ok (sch s) Q (CondQ c) [] r l rdy p (li_sched _ _ Hi) Hl) as (h' & E & Hi');
    [done..|].
  pose proof (queue_next _ _ _ _ (li_sched _ _ Hi) Hl) as Hn. simpl in Hn.
  eexists _, rdy. split; [|split; [done|split]].
  - unfold do_condition_signal. rewrite (bind_ok _ _ _ _ _ (qaddr_ok _ _ _)).
    erewrite (bind_ok (sys _)) by (apply sys_ok, load_next_ok, Hn).
    rewrite decide_False by done. rewrite (bind_ok _ _ _ _ _ eq_refl).
    by rewrite (sys_ok _ (with_sch (sch s) s) _ _ E).
  - apply lock_inv_sch with Q; try done.
    + by apply (keeps_do_unblock (PcbList r) (sch s) tt).
    + simpl. destruct (li_current _ _ Hi). rewrite lookup_insert. case_decide; eauto.
    + intros hd ?. by do 2 apply insert_defined.
    + intros j. left. by rewrite !lookup_insert_ne.
  - simpl. by rewrite lookup_insert_eq.
Qed.

(** Code that leaves [r] in the queue of condition [c] and puts no process ahead
    of it. *)
Definition spares (c : nat) (r : pcbref) (s s' : lockst) : Prop :=
  forall Q l1 l2, lock_inv s Q -> Q !! CondQ c = Some (l1 ++ r :: l2) ->
    exists Q' l1' l2', lock_inv s' Q' /\ Q' !! CondQ c = Some (l1' ++ r :: l2') /\
      (length l1' <= length l1)%nat.

Lemma spares_keeps c r s s' :
  (forall Q, lock_inv s Q -> exists Q', lock_inv s' Q' /\ Q' !! CondQ c = Q !! CondQ c) ->
  spares c r s s'.
Proof. intros H Q l1 l2 Hi Hl. destruct (H Q Hi) as (Q' & Hi' & E). exists Q', l1, l2. by rewrite E. Qed.

(** The kernel while [r] waits for condition [c]: signals, which the second
    component counts, waits of other processes for the same condition, mutex
    operations, clock interrupts, harts and all code that leaves [r] waiting
    (a kill of a process ahead of it, say).  The last component records whether
    a signal made [r] ready. *)
Definition readies (r : pcbref) (s s' : lockst) : bool :=
  bool_decide (status <$> pcbs (sch s) !! r = Some TASK_BLOCKED /\
               status <$> pcbs (sch s') !! r = Some TASK_READY).

Inductive cstep (c : nat) (r : pcbref) : lockst * nat * bool -> lockst * nat * bool -> Prop :=
| C_signal s s' n woken :
    do_condition_signal (Z.of_nat c) s = Ok (tt, s') ->
    cstep c r (s, n, woken) (s', S n, woken || readies r s s')
| C_wait s s' n woken i r' p' :
    caller s r' p' -> (c < length (condition s))%nat -> (i < length (mlocks s))%nat ->
    do_condition_wait rdtime time_base (Z.of_nat c) (Z.of_nat i) s = Ok (tt, s') ->
    cstep c r (s, n, woken) (s', n, woken)
| C_acquire s s' n woken i r' p' ret :
    caller s r' p' -> (i < length (mlocks s))%nat ->
    do_mutex_lock_acquire_iter rdtime time_base (Z.of_nat i) s = Ok (ret, s') ->
    cstep c r (s, n, woken) (s', n, woken)
| C_release s s' n woken i :
    (i < length (mlocks s))%nat -> do_mutex_lock_release (Z.of_nat i) s = Ok (tt, s') ->
    cstep c r (s, n, woken) (s', n, woken)
| C_env s s' n woken :
    env_step s s' -> cstep c r (s, n, woken) (s', n, woken)
| C_other s s' n woken :
    spares c r s s' -> cstep c r (s, n, woken) (s', n, woken).

(** [r] was made ready, or it waits and at most [k] less the signals so far are
    ahead of it. *)
Definition cond_inv (c : nat) (r : pcbref) (k : nat) (w : lockst * nat * bool) : Prop :=
  w.2 = true \/
  exists Q l1 l2, lock_inv w.1.1 Q /\ Q !! CondQ c = Some (l1 ++ r :: l2) /\
    (length l1 + w.1.2 <= k)%nat.

Lemma cond_inv_spares c r k s s' n woken :
  cond_inv c r k (s, n, woken) -> spares c r s s' -> cond_inv c r k (s', n, woken).
Proof.
  intros [H|(Q & l1 & l2 & Hi & Hl & Hk)] Hs; [by left|right]. simpl in *.
  destruct (Hs Q l1 l2 Hi Hl) as (Q' & l1' & l2' & Hi' & Hl' & Hle).
  exists Q', l1', l2'. split; [done|]. split; [done|]. simpl. lia.
Qed.

Lemma wait_spares c r s s' i r' p' :
  caller s r' p' -> (c < length (condition s))%nat -> (i < length (mlocks s))%nat ->
  do_condition_wait rdtime time_base (Z.of_nat c) (Z.of_nat i) s = Ok (tt, s') -> spares c r s s'.
Proof.
  intros Hca [cv Ec]%lookup_lt_is_Some [m Em]%lookup_lt_is_Some E Q l1 l2 Hi Hl.
  destruct (condition_wait_ok s Q c i cv m r' p' _ Hi Hca Ec Em Hl) as (t & Q' & E' & Hi' & Hl' & _).
  rewrite E in E'. injection E' as ->. exists Q', l1, (l2 ++ [r']). split; [done|]. split; [|done].
  rewrite Hl'. by rewrite <- (assoc_L (++)).
Qed.
Lemma acquire_spares c r s s' i r' p' ret :
  caller s r' p' -> (i < length (mlocks s))%nat ->
  do_mutex_lock_acquire_iter rdtime time_base (Z.of_nat i) s = Ok (ret, s') -> spares c r s s'.
Proof.
  intros Hca [m Em]%lookup_lt_is_Some E. apply spares_keeps. intros Q Hi.
  destruct (m_status m) eqn:Es.
  - destruct (acquire_free s Q i m r' p') as [E' Hi']; [done..|]. rewrite E in E'. injection E' as _ ->. eauto.
  - destruct (acquire_held s Q i m r' p') as (t & Q' & l & E' & Hi' & _ & _ & Ho); [done..|].
    rewrite E in E'. injection E' as _ ->. exists Q'. split; [done|]. apply Ho. set_solver.
Qed.
Lemma release_spares c r s s' i :
  (i < length (mlocks s))%nat -> do_mutex_lock_release (Z.of_nat i) s = Ok (tt, s') -> spares c r s s'.
Proof.
  intros [m Em]%lookup_lt_is_Some E. apply spares_keeps. intros Q Hi.
  destruct (release_ok s Q i m Hi Em) as (t & rdy & l & E' & _ & _ & Hi' & _).
  rewrite E in E'. injection E' as ->. eexists. split; [exact Hi'|]. by rewrite !lookup_insert_ne.
Qed.
Lemma env_spares c r s s' : env_step s s' -> spares c r s s'.
Proof.
  intros E. apply spares_keeps. intros Q Hi.
  destruct (env_step_ok s s' Q Hi E) as (t & Q' & -> & Hi' & Ho). exists Q'. split; [done|]. apply Ho. set_solver.
Qed.

Lemma blocked_on s Q c r l :
  lock_inv s Q -> Q !! CondQ c = Some l -> r ∈ l -> status <$> pcbs (sch s) !! r = Some TASK_BLOCKED.
Proof.
  intros Hi Hl Hr. destruct (inv_status _ _ (li_sched _ _ Hi) _ _ r Hl Hr) as (p & -> & Hs).
  simpl. by rewrite Hs.
Qed.

(** A signal: it wakes [r] if it is at the head, and brings it forward if not. *)
Lemma cond_inv_signal c r k s s' n woken :
  cond_inv c r k (s, n, woken) -> do_condition_signal (Z.of_nat c) s = Ok (tt, s') ->
  cond_inv c r k (s', S n, woken || readies r s s').
Proof.
  intros [H|(Q & l1 & l2 & Hi & Hl & Hk)] E; [left; simpl in *; by rewrite H|]. simpl in *.
  destruct l1 as [|r1 l1]; simpl in Hl;
    destruct (condition_signal_ok s Q c _ _ Hi Hl) as (t & rdy & E' & _ & Hi' & Hst);
    rewrite E in E'; injection E' as ->.
  - left. simpl. unfold readies. rewrite bool_decide_true; [by destruct woken|].
    split; [|done]. eapply blocked_on; [done|done|set_solver].
  - right. simpl in *. eexists _, l1, l2. split; [exact Hi'|].
    rewrite lookup_insert_ne, lookup_insert_eq by done. split; [done|lia].
Qed.

Lemma cond_inv_steps c r k w w' : cond_inv c r k w -> rtc (cstep c r) w w' -> cond_inv c r k w'.
Proof.
  intros Hw Hs. induction Hs as [|w1 w2 w3 Hs _ IH]; [done|]. apply IH. clear IH.
  destruct Hs; eauto using cond_inv_signal, cond_inv_spares, wait_spares, acquire_spares, release_spares, env_spares.
Qed.

Lemma broadcast_readies s Q c r l :
  lock_inv s Q -> Q !! CondQ c = Some l -> r ∈ l ->
  exists s', do_condition_broadcast (Z.of_nat c) s = Ok (tt, s') /\
    status <$> pcbs (sch s') !! r = Some TASK_READY.
Proof.
  intros Hi Hl Hr. destruct (wake_all_ok CondQ c s Q l ltac:(done) Hi Hl) as (t & rdy & E & _ & _ & Hrd & _).
  eexists. split; [exact E|]. simpl. rewrite Hrd, decide_True by done.
  destruct (inv_status _ _ (li_sched _ _ Hi) _ _ r Hl Hr) as (p & -> & _). done.
Qed.

(** ** Correctness of the synchronisation primitives *)




End MutexFacts.

(** ** The table of mutexes *)

Definition keys (s : lockst) : list Z := m_key <$> take (Z.to_nat (last_lockid s)) (mlocks s).

Record table_wf (s : lockst) : Prop := {
  tw_length : length (mlocks s) = LOCK_NUM;
  tw_last : 0 <= last_lockid s <= Z.of_nat LOCK_NUM;
  tw_keys : NoDup (keys s) }.

Lemma keys_lookup s (k : nat) key :
  keys s !! k = Some key <->
  exists m, mlocks s !! k = Some m /\ m_key m = key /\ (k < Z.to_nat (last_lockid s))%nat.
Proof.
  unfold keys. rewrite list_lookup_fmap, fmap_Some. split.
  - intros (m & Hm & ->). apply lookup_take_Some in Hm as [? ?]. eauto.
  - intros (m & Hm & <- & ?). exists m. split; [|done]. apply lookup_take_Some. done.
Qed.

(** A known key: its index, and nothing changes. *)
Lemma mutex_init_known s (k : nat) key :
  table_wf s -> keys s !! k = Some key -> do_mutex_lock_init key s = Ok (Z.of_nat k, s).
Proof.
  intros [Hlen Hlast Hnd] Hk. apply keys_lookup in Hk as (m & Hm & Hkey & Hlt).
  unfold do_mutex_lock_init. rewrite !(bind_ok _ _ _ _ _ eq_refl).
  rewrite (first_index_here _ _ 0 k m).
  - rewrite Z.add_0_l, (proj2 (Z.eqb_neq _ _)) by lia. done.
  - by apply lookup_take_Some.
  - by apply Z.eqb_eq.
  - intros j y Hj Hy. apply Z.eqb_neq. intros Hyk. apply lookup_take_Some in Hy as [Hy ?].
    assert (j = k); [|lia]. eapply (NoDup_lookup _ _ _ key Hnd); apply keys_lookup; eauto.
Qed.

(** A new key takes the next free entry. *)
Lemma mutex_init_new s key :
  table_wf s -> key ∉ keys s ->
  if decide (last_lockid s < Z.of_nat LOCK_NUM)
  then exists s', do_mutex_lock_init key s = Ok (last_lockid s, s') /\ table_wf s' /\
         last_lockid s' = last_lockid s + 1 /\ keys s' = keys s ++ [key]
  else do_mutex_lock_init key s = Ok (-1, s).
Proof.
  intros Hwf Hk. pose proof Hwf as [Hlen Hlast Hnd].
  set (n := Z.to_nat (last_lockid s)).
  assert (first_index (fun m => m_key m =? key) (take n (mlocks s)) 0 = last_lockid s) as Ef.
  { destruct (first_index_spec (fun m => m_key m =? key) (take n (mlocks s)) 0)
      as [[_ ->]|(k & m & Hm & Hkey & _)].
    - rewrite length_take. lia.
    - exfalso. apply Hk. apply Z.eqb_eq in Hkey as <-. unfold keys.
      apply list_elem_of_fmap. exists m. split; [done|]. by eapply list_elem_of_lookup_2. }
  unfold do_mutex_lock_init. rewrite !(bind_ok _ _ _ _ _ eq_refl). fold n.
  rewrite Ef, Z.eqb_refl. case_decide as Hlt.
  - rewrite (proj2 (geb_lt _ _)) by done.
    destruct (lookup_lt_is_Some_2 (mlocks s) n) as [m Hm]; [lia|].
    assert (last_lockid s = Z.of_nat n) as Hn by lia. rewrite Hn.
    rewrite (bind_ok _ _ _ _ _ (upd_mlock_ok _ _ _ _ Hm)), (bind_ok _ _ _ _ _ eq_refl).
    eexists. split; [done|].
    match goal with |- table_wf ?s' /\ _ =>
      assert (keys s' = keys s ++ [key]) as Hkeys end.
    { unfold keys. simpl. replace (Z.to_nat (Z.of_nat n + 1)) with (S n) by lia.
      erewrite take_S_r by (apply list_lookup_insert_eq; lia).
      rewrite take_insert_ge by lia. by rewrite fmap_app. }
    split; [|done]. split; [simpl; by rewrite length_insert | simpl; lia |].
    rewrite Hkeys. apply NoDup_app. split; [done|]. split; [|apply NoDup_singleton].
    intros x Hx ->%list_elem_of_singleton. done.
  - by rewrite (proj2 (geb_le _ _)) by lia.
Qed.

(** C37.  The table of mutexes: [do_mutex_lock_init] gives equal keys the same index and
    different keys different indices, for ever (a later call with the key finds
    the same entry), and it returns -1, changing nothing, only for a new key
    when all [LOCK_NUM] mutexes are in use. *)
Theorem mutex_init_table s key :
  table_wf s ->
  exists id s', do_mutex_lock_init key s = Ok (id, s') /\ table_wf s' /\
    (forall k key', keys s !! k = Some key' -> keys s' !! k = Some key') /\
    ((id = -1 /\ s' = s /\ last_lockid s = Z.of_nat LOCK_NUM /\ key ∉ keys s) \/
     (0 <= id < Z.of_nat LOCK_NUM /\ keys s' !! Z.to_nat id = Some key /\
      do_mutex_lock_init key s' = Ok (id, s'))).
Proof.
  intros Hwf. destruct (decide (key ∈ keys s)) as [[k Hk]%list_elem_of_lookup|Hk].
  - exists (Z.of_nat k), s. pose proof (mutex_init_known s k key Hwf Hk) as E.
    split; [done|]. split; [done|]. split; [done|]. right. rewrite Nat2Z.id.
    split; [|done]. apply keys_lookup in Hk as (m & Hm & _ & _).
    apply lookup_lt_Some in Hm. rewrite (tw_length _ Hwf) in Hm. lia.
  - pose proof (mutex_init_new s key Hwf Hk) as Hn. pose proof (tw_last _ Hwf).
    case_decide as Hlt.
    + destruct Hn as (s' & E & Hwf' & Hl & Hkeys). exists (last_lockid s), s'.
      split; [done|]. split; [done|].
      assert (keys s' !! Z.to_nat (last_lockid s) = Some key) as Hkk.
      { rewrite Hkeys. apply list_lookup_middle. unfold keys.
        rewrite length_fmap, length_take, (tw_length _ Hwf). lia. }
      split; [intros k key' Hk'; rewrite Hkeys; by apply lookup_app_l_Some|].
      right. split; [lia|]. split; [done|].
      rewrite (mutex_init_known s' _ key Hwf' Hkk). by rewrite Z2Nat.id by lia.
    + exists (-1), s. split; [done|]. split; [done|]. split; [done|]. left. split_and!; try done. lia.
Qed.

(** ** Sample state: one object of each kind over the scheduler's sample *)

Definition sample_box : mailbox_t :=
  mkMailbox MBOX_ACTIVE MBOX_OPEN [] (replicate 64 0) 0 1.
Definition sample_locks : lockst :=
  mkLockst sample_busy [mkMutex UNLOCKED 0 7] 1 [mkBarrier 1 2 0 BAR_ACTIVE]
    [mkCondition 1 COND_ACTIVE] [sample_box].

Lemma sample_locks_inv : lock_inv sample_locks sample_queues.
Proof.
  split.
  - exact sample_busy_inv.
  - by_computation.
  - by_computation.
  - split; by_computation.
  - by_computation.
  - by_computation.
  - intros [|i] m E; [|done]. exists []. split; [by_computation | done].
  - intros [|i] Hi; [by_computation | apply Nat.succ_lt_mono in Hi; by apply Nat.nlt_0_r in Hi].
  - intros [|i] Hi; [by_computation | apply Nat.succ_lt_mono in Hi; by apply Nat.nlt_0_r in Hi].
  - intros [|i] Hi; [split; by_computation | apply Nat.succ_lt_mono in Hi; by apply Nat.nlt_0_r in Hi].
Qed.

Lemma sample_caller : caller sample_locks (Pcb 0) (sample_pcb 2 TASK_RUNNING 0).
Proof. split; [reflexivity|]. split; vm_compute; reflexivity. Qed.

Definition after {A} (m : M lockst A) (s : lockst) : lockst :=
  match m s with Ok (_, s') => s' | Err _ => s end.




Lemma mutex_init_table_witness :
  let s := mkLockst sample_busy (replicate 16 (mkMutex UNLOCKED 0 7)) 1 [] [] [] in
  exists id s', do_mutex_lock_init 9 s = Ok (id, s') /\ do_mutex_lock_init 9 s' = Ok (id, s').
Proof.
  intros s. destruct (mutex_init_table s 9) as (id & s' & E & _ & _ & H).
  - split; [reflexivity | by_computation | apply NoDup_singleton].
  - exists id, s'. split; [exact E|]. destruct H as [(_ & _ & H & _)|(_ & _ & H)]; [|exact H].
    discriminate H.
Defined.
