(* ===== verification/Exclusion.v ===== *)
(** * Mutual exclusion

    The mutexes of kernel/locking/lock.c as a transition system over every
    operation that changes them, the release of the mutexes of a process that
    ends (kernel/sched/sched.c) included. *)
From stdpp Require Import gmap sets.
From S2P Require Import Prelude DList Sched Lock.

(** ** Wake-ups

    What a wake-up does to the scheduler: blocked processes become ready, a
    process is on a queue after it if it was before. *)
Record woke (s : sched) (Q : gmap laddr (list pcbref)) (s' : sched) (Q' : gmap laddr (list pcbref)) : Prop := {
  wk_pcbs : forall r, pcbs s' !! r = pcbs s !! r \/
    exists p, pcbs s !! r = Some p /\ status p = TASK_BLOCKED /\ pcbs s' !! r = Some (set_status TASK_READY p);
  wk_cpu : same_cpu s s';
  wk_dom : forall hd, is_Some (Q !! hd) -> is_Some (Q' !! hd);
  wk_queued : forall r, unqueued Q r <-> unqueued Q' r }.

Lemma woke_refl s Q : woke s Q s Q.
Proof. split; [by left|done|done|done]. Qed.
Lemma woke_trans s1 Q1 s2 Q2 s3 Q3 : woke s1 Q1 s2 Q2 -> woke s2 Q2 s3 Q3 -> woke s1 Q1 s3 Q3.
Proof.
  intros [A1 A2 A3 A4] [B1 B2 B3 B4]. split.
  - intros r. destruct (B1 r) as [->|(p & E & Hs & E')]; [done|]. right.
    destruct (A1 r) as [Ea|(q & Eq & _ & Eq')]; [rewrite Ea in E; by exists p|].
    rewrite Eq' in E. injection E as <-. by destruct q.
  - unfold same_cpu in *. destruct_and!. split_and!; congruence.
  - auto.
  - intros r. by rewrite A4.
Qed.

Lemma woke_readied s s' Q q l rdy :
  sched_inv s Q -> Q !! q = Some l -> q <> ReadyQ -> Q !! ReadyQ = Some rdy ->
  readied l (pcbs s) (pcbs s') -> same_cpu s s' ->
  woke s Q s' (<[ReadyQ := rdy ++ l]> (<[q := []]> Q)).
Proof.
  intros Hi Hl Hne Hrdy Hr Hc. split; [|done| |].
  - intros r. rewrite Hr. case_decide as Hin; [|by left]. right.
    destruct (inv_status _ _ Hi _ _ _ Hl Hin) as (p & Ep & Hs). exists p. rewrite Ep.
    split; [done|]. split; [|done]. rewrite Hs. by destruct q.
  - intros hd Hhd. rewrite !lookup_insert_is_Some'. tauto.
  - intros r. unfold unqueued. split.
    + intros Hu hd l' Hl'. apply lookup_insert_Some in Hl' as [[<- <-]|[H1 Hl']].
      * rewrite elem_of_app. intros [Hx|Hx]; [by apply (Hu _ _ Hrdy)|by apply (Hu _ _ Hl)].
      * apply lookup_insert_Some in Hl' as [[<- <-]|[H2 Hl']]; [apply not_elem_of_nil|by apply (Hu hd)].
    + intros Hu a l' Hl' Hx. destruct (decide (a = ReadyQ)) as [->|H1].
      { apply (Hu ReadyQ (rdy ++ l)); [apply lookup_insert_eq|]. rewrite Hrdy in Hl'. simplify_eq. set_solver. }
      destruct (decide (a = q)) as [->|H2].
      { apply (Hu ReadyQ (rdy ++ l)); [apply lookup_insert_eq|]. rewrite Hl in Hl'. simplify_eq. set_solver. }
      apply (Hu a l'); [|done]. by rewrite !lookup_insert_ne by congruence.
Qed.

Definition held_by (p : Z) (m : mutex_lock_t) : Prop := m_status m = LOCKED /\ m_pid m = p.

(** Mutexes only change from held by process [p] to free. *)
Record released_only (p : Z) (s s' : lockst) : Prop := {
  ro_length : length (mlocks s') = length (mlocks s);
  ro_last : last_lockid s' = last_lockid s;
  ro_locked : forall j m, mlocks s' !! j = Some m -> m_status m = LOCKED -> mlocks s !! j = Some m;
  ro_others : forall j m, mlocks s !! j = Some m -> mlocks s' !! j = Some m \/ held_by p m }.

Lemma released_only_same p s s' :
  mlocks s' = mlocks s -> last_lockid s' = last_lockid s -> released_only p s s'.
Proof. intros E1 E2. split; rewrite ?E1, ?E2; auto. Qed.
Lemma released_only_trans p s1 s2 s3 :
  released_only p s1 s2 -> released_only p s2 s3 -> released_only p s1 s3.
Proof.
  intros [A1 A2 A3 A4] [B1 B2 B3 B4]. split; [congruence|congruence|auto|].
  intros j m E. destruct (A4 j m E); auto.
Qed.
Lemma released_only_release p s t i m :
  mlocks s !! i = Some m -> held_by p m ->
  released_only p s (with_sch t (with_mlocks (<[i := mkMutex UNLOCKED 0 (m_key m)]> (mlocks s)) s)).
Proof.
  intros Em Hm. split; simpl; [by rewrite length_insert|done| |]; intros j m' E.
  - by apply list_lookup_insert_Some in E as [(_ & <- & _)|[_ ?]].
  - destruct (decide (i = j)) as [<-|Hne]; [right; congruence|left]. by rewrite list_lookup_insert_ne.
Qed.

(** Releasing the locks of a process. *)
Lemma release_mutex_loop p n : forall i s Q,
  lock_inv s Q -> (i + n <= length (mlocks s))%nat ->
  exists s' Q', for_loop n (Z.of_nat i) (fun i =>
      l ← gets mlocks;
      m ← lift (idx l i);
      if decide (m_status m = LOCKED) then
        if m_pid m =? p then
          upd_mlock i (fun m => mkMutex UNLOCKED (m_pid m) (m_key m));;
          upd_mlock i (fun m => mkMutex (m_status m) 0 (m_key m));;
          wake_all MutexQ i
        else mret tt
      else mret tt) s = Ok (tt, s') /\
    lock_inv s' Q' /\ woke (sch s) Q (sch s') Q' /\ released_only p s s' /\
    forall j m, (i <= j < i + n)%nat -> mlocks s' !! j = Some m -> ~ held_by p m.
Proof.
  induction n as [|n IH]; intros i s Q Hi Hn.
  { exists s, Q. split; [done|]. split; [done|]. split; [apply woke_refl|]. split; [by apply released_only_same|]. intros; lia. }
  destruct (lookup_lt_is_Some_2 (mlocks s) i ltac:(lia)) as [m Em].
  assert (exists s1 Q1, (if decide (m_status m = LOCKED) then
            if m_pid m =? p then do_mutex_lock_release (Z.of_nat i) else mret tt else mret tt) s = Ok (tt, s1) /\
          lock_inv s1 Q1 /\ woke (sch s) Q (sch s1) Q1 /\ released_only p s s1 /\
          forall m1, mlocks s1 !! i = Some m1 -> ~ held_by p m1) as (s1 & Q1 & E1 & Hi1 & W1 & R1 & H1).
  { destruct (decide (m_status m = LOCKED)) as [Hl|Hl]; [destruct (Z.eqb_spec (m_pid m) p) as [Hp|Hp]|].
    - destruct (release_ok s Q i m Hi Em) as (t & rdy & l & E & Hrdy & Hl' & Hi' & Hr & Hc).
      eexists _, _. split; [exact E|]. split; [exact Hi'|]. simpl. split; [|split].
      + by apply (woke_readied _ _ _ (MutexQ i)); [apply Hi|..].
      + by apply released_only_release.
      + intros m1. rewrite list_lookup_insert_eq by (by eapply lookup_lt_Some). intros [= <-] [? _]. done.
    - exists s, Q. split; [done|]. split; [done|]. split; [apply woke_refl|]. split; [by apply released_only_same|].
      intros m1 E1 [_ Hm]. congruence.
    - exists s, Q. split; [done|]. split; [done|]. split; [apply woke_refl|]. split; [by apply released_only_same|].
      intros m1 E1 [Hm _]. congruence. }
  destruct (IH (S i) s1 Q1 Hi1) as (s2 & Q2 & E2 & Hi2 & W2 & R2 & H2); [rewrite (ro_length _ _ _ R1); lia|].
  exists s2, Q2. split; [|split; [done|split; [by eapply woke_trans|split; [by eapply released_only_trans|]]]].
  - cbn [for_loop]. erewrite bind_ok.
    2:{ erewrite bind_ok by done. erewrite bind_ok by (apply lift_ok, idx_ok; exact Em). exact E1. }
    replace (Z.of_nat i + 1) with (Z.of_nat (S i)) by lia. exact E2.
  - intros j m2 Hj E [Hs Hp]. destruct (decide (j = i)) as [->|Hne].
    + apply (H1 m2); [by apply (ro_locked _ _ _ R2)|done].
    + apply (H2 j m2); [lia|done|done].
Qed.

Lemma release_process_mutex_ok p s Q :
  lock_inv s Q ->
  exists s' Q', release_process_mutex p s = Ok (tt, s') /\ lock_inv s' Q' /\ woke (sch s) Q (sch s') Q' /\
    released_only p s s' /\
    forall j m, Z.of_nat j < last_lockid s -> mlocks s' !! j = Some m -> ~ held_by p m.
Proof.
  intros Hi. pose proof (li_last _ _ Hi) as Hl.
  destruct (release_mutex_loop p (Z.to_nat (last_lockid s)) 0 s Q Hi) as (s' & Q' & E & Hi' & W & R & H); [lia|].
  exists s', Q'. split; [|split; [done|split; [done|split; [done|]]]].
  - unfold release_process_mutex. by erewrite bind_ok by done.
  - intros j m Hj. apply H. lia.
Qed.


(** ** The transition system

    [holds w i] records who has returned from [do_mutex_lock_acquire(i)] and not
    given the mutex back since: the PCB and the pid it had then. *)
Record world := mkWorld { kst : lockst; holds : nat -> gset (pcbref * Z) }.

Definition hold (i : nat) (X : gset (pcbref * Z)) (f : nat -> gset (pcbref * Z)) :
    nat -> gset (pcbref * Z) :=
  fun j => if decide (j = i) then X else f j.
Definition drop_pcbs (R : gset pcbref) (X : gset (pcbref * Z)) : gset (pcbref * Z) :=
  filter (fun x => x.1 ∉ R) X.

(** What can happen to the mutexes.  [End R p]: the processes in [R] end, by
    [do_exit] or [do_kill], which call [release_process_mutex(p)].  [Other] is
    any code of the kernel that leaves [mlocks] and [last_lockid] alone and keeps
    the invariant of the queues ([quiet]). *)
Inductive action :=
| Acquire (r : pcbref) (i : nat)
| Release (r : pcbref) (i : nat)
| CondWait (r : pcbref) (c i : nat)
| MutexInit (key : Z)
| End (R : gset pcbref) (p : Z)
| Signal (c : nat)
| Broadcast (c : nat)
| Clock
| Other.

Definition quiet (s s' : lockst) : Prop :=
  mlocks s' = mlocks s /\ last_lockid s' = last_lockid s /\
  forall Q, lock_inv s Q -> exists Q', lock_inv s' Q'.

Inductive end_step (p : Z) : lockst -> lockst -> Prop :=
| End_release s s' : release_process_mutex p s = Ok (tt, s') -> end_step p s s'
| End_quiet s s' : quiet s s' -> end_step p s s'.

Section Steps.
Variable rdtime : nat -> Z.
Variable time_base : Z.

(** The steps.  [do_mutex_lock_release] checks nothing: any process may call it
    on any mutex.  While processes end, [release_process_mutex(p)] is called at
    least once ([do_kill] calls it for every PCB of the pid), between other
    work of the kernel on queues and memory. *)
Inductive kstep : action -> world -> world -> Prop :=
| K_acquired r i s s' f p :
    caller s r p -> (i < length (mlocks s))%nat ->
    do_mutex_lock_acquire_iter rdtime time_base (Z.of_nat i) s = Ok (true, s') ->
    kstep (Acquire r i) (mkWorld s f) (mkWorld s' (hold i ({[(r, pid p)]} ∪ f i) f))
| K_waits r i s s' f p :
    caller s r p -> (i < length (mlocks s))%nat ->
    do_mutex_lock_acquire_iter rdtime time_base (Z.of_nat i) s = Ok (false, s') ->
    kstep (Acquire r i) (mkWorld s f) (mkWorld s' f)
| K_release r i s s' f p :
    caller s r p -> (i < length (mlocks s))%nat ->
    do_mutex_lock_release (Z.of_nat i) s = Ok (tt, s') ->
    kstep (Release r i) (mkWorld s f) (mkWorld s' (hold i (drop_pcbs {[r]} (f i)) f))
| K_cond_wait r c i s s' f p :
    caller s r p -> (i < length (mlocks s))%nat -> (c < length (condition s))%nat ->
    do_condition_wait rdtime time_base (Z.of_nat c) (Z.of_nat i) s = Ok (tt, s') ->
    kstep (CondWait r c i) (mkWorld s f) (mkWorld s' (hold i (drop_pcbs {[r]} (f i)) f))
| K_init key v s s' f :
    do_mutex_lock_init key s = Ok (v, s') ->
    kstep (MutexInit key) (mkWorld s f) (mkWorld s' f)
| K_end R p s s1 s2 s' f :
    rtc (end_step p) s s1 -> release_process_mutex p s1 = Ok (tt, s2) -> rtc (end_step p) s2 s' ->
    kstep (End R p) (mkWorld s f) (mkWorld s' (fun i => drop_pcbs R (f i)))
| K_signal c s s' f :
    (c < length (condition s))%nat -> do_condition_signal (Z.of_nat c) s = Ok (tt, s') ->
    kstep (Signal c) (mkWorld s f) (mkWorld s' f)
| K_broadcast c s s' f :
    (c < length (condition s))%nat -> do_condition_broadcast (Z.of_nat c) s = Ok (tt, s') ->
    kstep (Broadcast c) (mkWorld s f) (mkWorld s' f)
| K_clock s s' f :
    env_step rdtime time_base s s' -> kstep Clock (mkWorld s f) (mkWorld s' f)
| K_other s s' f :
    quiet s s' -> kstep Other (mkWorld s f) (mkWorld s' f).

(** The discipline the kernel leaves to the programs: a process acquires
    mutexes it got from [do_mutex_lock_init], gives back (by a release or by
    waiting for a condition) only a mutex it holds, and when processes end, no
    process outside the ones that end holds a mutex under their pid, as another
    thread of a process that calls [do_exit] would. *)
Definition disciplined (a : action) (w : world) : Prop :=
  match a with
  | Acquire _ i => Z.of_nat i < last_lockid (kst w)
  | Release r i | CondWait r _ i => exists p, (r, p) ∈ holds w i
  | End R p => forall i x, x ∈ holds w i -> (x.1 ∈ R <-> x.2 = p)
  | _ => True
  end.

Definition step (w w' : world) : Prop := exists a, kstep a w w'.
Definition proper_step (w w' : world) : Prop := exists a, disciplined a w /\ kstep a w w'.

(** What a step does to the mutexes. *)
Definition unchanged (w w' : world) : Prop :=
  mlocks (kst w') = mlocks (kst w) /\ last_lockid (kst w') = last_lockid (kst w) /\ holds w' = holds w.
Definition taken (r : pcbref) (i : nat) (w w' : world) : Prop := exists m p,
  mlocks (kst w) !! i = Some m /\ m_status m = UNLOCKED /\
  mlocks (kst w') = <[i := mkMutex LOCKED p (m_key m)]> (mlocks (kst w)) /\
  last_lockid (kst w') = last_lockid (kst w) /\ holds w' = hold i ({[(r, p)]} ∪ holds w i) (holds w).
Definition freed (r : pcbref) (i : nat) (w w' : world) : Prop := exists m,
  mlocks (kst w) !! i = Some m /\
  mlocks (kst w') = <[i := mkMutex UNLOCKED 0 (m_key m)]> (mlocks (kst w)) /\
  last_lockid (kst w') = last_lockid (kst w) /\ holds w' = hold i (drop_pcbs {[r]} (holds w i)) (holds w).
Definition effect (a : action) (w w' : world) : Prop :=
  match a with
  | Acquire r i => taken r i w w' \/ unchanged w w'
  | Release r i | CondWait r _ i => freed r i w w'
  | MutexInit _ =>
      (forall j m', mlocks (kst w') !! j = Some m' -> exists m, mlocks (kst w) !! j = Some m /\
        m_status m' = m_status m /\ m_pid m' = m_pid m) /\
      last_lockid (kst w) <= last_lockid (kst w') /\ holds w' = holds w
  | End R p =>
      released_only p (kst w) (kst w') /\
      (forall j m, Z.of_nat j < last_lockid (kst w) -> mlocks (kst w') !! j = Some m -> ~ held_by p m) /\
      holds w' = (fun i => drop_pcbs R (holds w i))
  | _ => unchanged w w'
  end.

Lemma init_effect s Q key v s' :
  lock_inv s Q -> do_mutex_lock_init key s = Ok (v, s') ->
  lock_inv s' Q /\ last_lockid s <= last_lockid s' /\
  forall j m', mlocks s' !! j = Some m' -> exists m, mlocks s !! j = Some m /\
    m_status m' = m_status m /\ m_pid m' = m_pid m.
Proof.
  intros Hi E. unfold do_mutex_lock_init in E. rewrite !(bind_ok _ _ _ _ _ eq_refl) in E.
  assert (lock_inv s Q /\ last_lockid s <= last_lockid s /\
    forall j m', mlocks s !! j = Some m' -> exists m, mlocks s !! j = Some m /\
      m_status m' = m_status m /\ m_pid m' = m_pid m) as Hsame by (split; [done|split; [lia|eauto]]).
  destruct (first_index _ _ 0 =? last_lockid s); [|by injection E as _ <-].
  destruct (_ >=? _); [by injection E as _ <-|].
  destruct (mlocks s !! Z.to_nat (last_lockid s)) as [m|] eqn:Em.
  2:{ unfold upd_mlock, idx, lift, mbind, M_bind, gets in E. simpl in E. rewrite Em in E. by destruct (0 <=? _). }
  pose proof (li_last _ _ Hi) as Hl. pose proof (lookup_lt_Some _ _ _ Em).
  rewrite <- (Z2Nat.id (last_lockid s)) in E at 1 by lia.
  rewrite (bind_ok _ _ _ _ _ (upd_mlock_ok _ _ _ _ Em)) in E. injection E as _ <-. simpl.
  split; [|split; [lia|]].
  - pose proof (lock_inv_mlock s Q _ m (mkMutex (m_status m) (m_pid m) key) Hi Em) as Hx.
    destruct Hx; [by left|]. split; simpl in *; eauto. rewrite length_insert. lia.
  - intros j m' [(<- & <- & _)|[_ ?]]%list_lookup_insert_Some; eauto.
Qed.

Lemma end_step_ok p s s' Q :
  lock_inv s Q -> end_step p s s' -> (exists Q', lock_inv s' Q') /\ released_only p s s'.
Proof.
  intros Hi Hs. revert Q Hi. destruct Hs as [s1 s2 E|s1 s2 (E1 & E2 & H)]; intros Q Hi.
  - destruct (release_process_mutex_ok p s1 Q Hi) as (s3 & Q' & E' & Hi' & _ & Hr & _).
    rewrite E in E'. injection E' as <-. eauto.
  - split; [eauto|by apply released_only_same].
Qed.
Lemma end_steps_ok p s s' Q :
  lock_inv s Q -> rtc (end_step p) s s' -> (exists Q', lock_inv s' Q') /\ released_only p s s'.
Proof.
  intros Hi Hs. revert Q Hi. induction Hs as [s|s1 s2 s3 Hs _ IH]; intros Q Hi.
  - split; [eauto|by apply released_only_same].
  - destruct (end_step_ok _ _ _ _ Hi Hs) as [[Q2 Hi2] R1]. destruct (IH Q2 Hi2) as [H3 R2].
    split; [done|]. by eapply released_only_trans.
Qed.

Lemma signal_frame s Q c s' :
  lock_inv s Q -> (c < length (condition s))%nat -> do_condition_signal (Z.of_nat c) s = Ok (tt, s') ->
  exists t Q', s' = with_sch t s /\ lock_inv s' Q'.
Proof.
  intros Hi Hc E. destruct (li_condition _ _ Hi c Hc) as [[|r l] Hl].
  - pose proof (queue_next _ _ _ _ (li_sched _ _ Hi) Hl) as Hn. simpl in Hn.
    unfold do_condition_signal in E. rewrite (bind_ok _ _ _ _ _ (qaddr_ok _ _ _)) in E.
    erewrite (bind_ok (sys _)) in E by (apply sys_ok, load_next_ok, Hn).
    rewrite decide_True in E by done. injection E as <-. exists (sch s), Q. by destruct s.
  - destruct (condition_signal_ok rdtime s Q c r l Hi Hl) as (t & rdy & E' & _ & Hi' & _).
    rewrite E in E'. injection E' as ->. eauto.
Qed.

(** Every step keeps the kernel's invariant and has the effect stated. *)
Lemma kstep_effect a w w' Q :
  lock_inv (kst w) Q -> kstep a w w' -> (exists Q', lock_inv (kst w') Q') /\ effect a w w'.
Proof.
  intros Hi Hs.
  destruct Hs as [r i s s' f p Hc [m Em]%lookup_lt_is_Some E
                 |r i s s' f p Hc [m Em]%lookup_lt_is_Some E
                 |r i s s' f p Hc [m Em]%lookup_lt_is_Some E
                 |r c i s s' f p Hca [m Em]%lookup_lt_is_Some Hc E
                 |key v s s' f E|R p s s1 s2 s' f E1 E E2|c s s' f Hc E|c s s' f Hc E|s s' f E|s s' f (E1 & E2 & H)];
    simpl in *; unfold unchanged; simpl.
  - destruct (m_status m) eqn:Est; [|edestruct (acquire_held rdtime time_base) as (? & ? & ? & E' & _); eauto; congruence].
    edestruct (acquire_free rdtime time_base) as [E' Hi']; [done..|]. rewrite E in E'. injection E' as ->.
    split; [eauto|]. left. by exists m, (pid p).
  - destruct (m_status m) eqn:Est; [edestruct (acquire_free rdtime time_base) as [E' _]; eauto; congruence|].
    edestruct (acquire_held rdtime time_base) as (t & Q' & l & E' & Hi' & _); [done..|].
    rewrite E in E'. injection E' as ->. split; [eauto|by right].
  - edestruct release_ok as (t & rdy & l & E' & _ & _ & Hi' & _); [done..|].
    rewrite E in E'. injection E' as ->. split; [eauto|by exists m].
  - destruct (li_condition _ _ Hi c Hc) as [l Hl], (lookup_lt_is_Some_2 _ _ Hc) as [cv Ec].
    destruct (condition_wait_ok rdtime time_base s Q c i cv m r p l Hi Hca Ec Em Hl) as (t & Q' & E' & Hi' & _).
    rewrite E in E'. injection E' as ->. split; [eauto|by exists m].
  - destruct (init_effect _ _ _ _ _ Hi E) as (Hi' & Hl & Hm). split; [eauto|done].
  - destruct (end_steps_ok _ _ _ _ Hi E1) as [[Q1 Hi1] R1].
    destruct (release_process_mutex_ok p s1 Q1 Hi1) as (s3 & Q2 & E' & Hi2 & _ & R2 & H2).
    rewrite E in E'. injection E' as <-. destruct (end_steps_ok _ _ _ _ Hi2 E2) as [Hi3 R3].
    split; [done|]. split; [|split; [|done]].
    + eauto using released_only_trans.
    + intros j m' Hj Em Hh. apply (H2 j m'); [by rewrite (ro_last _ _ _ R1)| |done].
      apply (ro_locked _ _ _ R3); [done|apply Hh].
  - destruct (signal_frame _ _ _ _ Hi Hc E) as (t & Q' & -> & Hi'). eauto.
  - destruct (li_condition _ _ Hi c Hc) as [l Hl].
    destruct (wake_all_ok CondQ c s Q l ltac:(done) Hi Hl) as (t & rdy & E' & _ & _ & _ & Hi').
    unfold do_condition_broadcast in E. rewrite E in E'. injection E' as ->. eauto.
  - destruct (env_step_ok rdtime time_base s s' Q Hi E) as (t & Q' & -> & Hi' & _). eauto.
  - split; [eauto|done].
Qed.

(** A disciplined program: [holds] and the table of mutexes agree. *)
Definition mutex_ok (w : world) (i : nat) (m : mutex_lock_t) : Prop :=
  match m_status m with
  | UNLOCKED => holds w i = ∅
  | LOCKED => (exists r, holds w i = {[(r, m_pid m)]}) /\ Z.of_nat i < last_lockid (kst w)
  end.
Definition table_ok (w : world) : Prop := forall i m, mlocks (kst w) !! i = Some m -> mutex_ok w i m.
Definition mutex_inv (w : world) : Prop :=
  (exists Q, lock_inv (kst w) Q) /\ table_ok w.

Lemma mutex_ok_frame w w' i m m' :
  mutex_ok w i m -> m_status m' = m_status m -> m_pid m' = m_pid m -> holds w' i = holds w i ->
  last_lockid (kst w) <= last_lockid (kst w') -> mutex_ok w' i m'.
Proof.
  unfold mutex_ok. intros H Es Ep Eh Hl. rewrite Es, Ep, Eh. destruct (m_status m); [done|].
  destruct H. split; [done|lia].
Qed.

Lemma drop_all R x : x.1 ∈ R -> drop_pcbs R {[x]} = (∅ : gset (pcbref * Z)).
Proof. intros H. unfold drop_pcbs. apply set_eq. intros y. rewrite elem_of_filter. set_solver. Qed.
Lemma drop_none R x : x.1 ∉ R -> drop_pcbs R {[x]} = ({[x]} : gset (pcbref * Z)).
Proof. intros H. unfold drop_pcbs. apply set_eq. intros y. rewrite elem_of_filter. set_solver. Qed.
Lemma drop_empty R : drop_pcbs R ∅ = ∅.
Proof. unfold drop_pcbs. apply set_eq. intros y. rewrite elem_of_filter. set_solver. Qed.

Lemma table_ok_unchanged w w' : table_ok w -> unchanged w w' -> table_ok w'.
Proof.
  intros Hok (E1 & E2 & E3) i m E. rewrite E1 in E.
  apply (mutex_ok_frame w w' i m m); auto; [congruence|lia].
Qed.
(** One mutex changes, and so do its holders. *)
Lemma table_ok_insert w w' i m X :
  table_ok w -> mlocks (kst w') = <[i := m]> (mlocks (kst w)) ->
  last_lockid (kst w') = last_lockid (kst w) -> holds w' = hold i X (holds w) ->
  mutex_ok w' i m -> table_ok w'.
Proof.
  intros Hok E1 E2 E3 Hm j x E. rewrite E1 in E.
  apply list_lookup_insert_Some in E as [(<- & <- & _)|[Hne E]]; [done|].
  apply (mutex_ok_frame w w' j x x); auto; [|lia]. rewrite E3. unfold hold. by rewrite decide_False.
Qed.
Lemma table_ok_taken r i w w' :
  table_ok w -> Z.of_nat i < last_lockid (kst w) -> taken r i w w' -> table_ok w'.
Proof.
  intros Hok Hd (m & p & Em & Hu & E1 & E2 & E3). apply (table_ok_insert _ _ _ _ _ Hok E1 E2 E3).
  unfold mutex_ok. simpl. rewrite E3, E2. unfold hold. rewrite decide_True by done.
  specialize (Hok i m Em). unfold mutex_ok in Hok. rewrite Hu in Hok. rewrite Hok.
  split; [|done]. exists r. set_solver.
Qed.
Lemma table_ok_freed r i w w' :
  table_ok w -> (exists p, (r, p) ∈ holds w i) -> freed r i w w' -> table_ok w'.
Proof.
  intros Hok [p Hp] (m & Em & E1 & E2 & E3). apply (table_ok_insert _ _ _ _ _ Hok E1 E2 E3).
  unfold mutex_ok. simpl. rewrite E3. unfold hold. rewrite decide_True by done.
  specialize (Hok i m Em). unfold mutex_ok in Hok. destruct (m_status m); [set_solver|].
  destruct Hok as [[r' Hr'] _]. rewrite Hr' in *. apply elem_of_singleton in Hp as [= <- <-].
  apply drop_all. set_solver.
Qed.
Lemma table_ok_ended R p w w' :
  table_ok w -> (forall i x, x ∈ holds w i -> (x.1 ∈ R <-> x.2 = p)) -> effect (End R p) w w' ->
  table_ok w'.
Proof.
  intros Hok Hd (Hro & Hfree & Eh) j m' E. unfold mutex_ok. rewrite Eh, (ro_last _ _ _ Hro).
  destruct (m_status m') eqn:Es.
  - destruct (lookup_lt_is_Some_2 (mlocks (kst w)) j) as [m Em].
    { rewrite <- (ro_length _ _ _ Hro). by eapply lookup_lt_Some. }
    specialize (Hok j m Em). unfold mutex_ok in Hok.
    destruct (ro_others _ _ _ Hro j m Em) as [E'|[Es' Ep]].
    + rewrite E' in E. injection E as ->. rewrite Es in Hok. rewrite Hok. apply drop_empty.
    + rewrite Es' in Hok. destruct Hok as [[r Hr] _]. rewrite Hr. apply drop_all.
      apply (Hd j (r, m_pid m)); [rewrite Hr; set_solver|done].
  - pose proof (ro_locked _ _ _ Hro j m' E Es) as Em. specialize (Hok j m' Em). unfold mutex_ok in Hok.
    rewrite Es in Hok. destruct Hok as [[r Hr] Hl]. split; [|done]. exists r. rewrite Hr. apply drop_none.
    intros Hin. apply (Hfree j m' Hl E). split; [done|].
    apply (Hd j (r, m_pid m')); [rewrite Hr; set_solver|done].
Qed.

(** A disciplined step keeps the agreement. *)
Lemma mutex_inv_step w w' : mutex_inv w -> proper_step w w' -> mutex_inv w'.
Proof.
  intros [[Q Hi] Hok] (a & Hd & Hs).
  destruct (kstep_effect a w w' Q Hi Hs) as [Hi' He]. split; [done|]. change (table_ok w').
  destruct a; simpl in Hd; eauto using table_ok_freed, table_ok_ended, table_ok_unchanged.
  - destruct He; eauto using table_ok_taken, table_ok_unchanged.
  - destruct He as (Hm & Hl & Eh). intros j m' E. destruct (Hm j m' E) as (m & Em & Es & Ep).
    apply (mutex_ok_frame w w' j m m'); auto. by rewrite Eh.
Qed.

Definition start (s : lockst) : world := mkWorld s (fun _ => ∅).

(** C3.  Mutexes, through any interleaving of acquisitions, releases, waits for
    conditions, signals, new mutexes, ends of processes, clock interrupts, harts
    and other work of the kernel (that keeps the queues well formed), from a state in which all mutexes are free.
    Whatever the programs do - a release by a process that does not hold the
    mutex included - no process waits for a mutex that is free, and acquiring
    returns at once exactly when the mutex is free.  If the programs are
    [disciplined], a mutex is [LOCKED] exactly while a process holds it, and at
    most one process does. *)
Theorem mutual_exclusion s0 Q0 w :
  lock_inv s0 Q0 -> (forall i m, mlocks s0 !! i = Some m -> m_status m = UNLOCKED) ->
  (rtc step (start s0) w ->
    (exists Q, lock_inv (kst w) Q /\
      forall i m, mlocks (kst w) !! i = Some m -> m_status m = UNLOCKED -> Q !! MutexQ i = Some []) /\
    forall r p i m, caller (kst w) r p -> mlocks (kst w) !! i = Some m -> exists s',
      do_mutex_lock_acquire_iter rdtime time_base (Z.of_nat i) (kst w) =
        Ok (bool_decide (m_status m = UNLOCKED), s')) /\
  (rtc proper_step (start s0) w ->
    forall i m, mlocks (kst w) !! i = Some m ->
      (m_status m = LOCKED <-> exists x, x ∈ holds w i) /\
      (forall x y, x ∈ holds w i -> y ∈ holds w i -> x = y)).
Proof.
  intros Hi Hu. split; intros Hs.
  - assert (exists Q, lock_inv (kst w) Q) as [Q HQ].
    { remember (start s0) as w0 eqn:E0. assert (exists Q, lock_inv (kst w0) Q) as H0 by (subst; eauto).
      clear -Hs H0. induction Hs as [|w1 w2 w3 [a Ha] _ IH]; [done|]. apply IH.
      destruct H0 as [Q HQ]. by destruct (kstep_effect a w1 w2 Q HQ Ha). }
    split.
    + exists Q. split; [done|]. intros i m Em Hf. destruct (li_mutex _ _ HQ i m Em) as (l & -> & Hl). f_equal. auto.
    + intros r p i m Hc Em. destruct (m_status m) eqn:Es.
      * eexists. by apply (acquire_free rdtime time_base (kst w) Q i m r p).
      * destruct (acquire_held rdtime time_base (kst w) Q i m r p) as (t & Q' & l & E & _); eauto.
  - assert (mutex_inv w) as [_ Hok].
    { remember (start s0) as w0 eqn:E0. assert (mutex_inv w0) as H0.
      { subst. split; [by exists Q0|]. intros j x Hx. unfold mutex_ok. by rewrite (Hu j x Hx). }
      clear -Hs H0. induction Hs; eauto using mutex_inv_step. }
    intros i m Em. specialize (Hok i m Em). unfold mutex_ok in Hok.
    destruct (m_status m); [rewrite Hok|destruct Hok as [[r ->] _]]; set_solver.
Qed.

End Steps.

Lemma mutual_exclusion_witness :
  let w := mkWorld (after (do_mutex_lock_acquire_iter (fun _ => 100) 10 0) sample_locks)
             (hold 0 ({[(Pcb 0, 2)]} ∪ ∅) (fun _ => ∅)) in
  mlocks (kst w) !! 0%nat = Some (mkMutex LOCKED 2 7) /\
  (exists Q, lock_inv (kst w) Q) /\ forall x y, x ∈ holds w 0 -> y ∈ holds w 0 -> x = y.
Proof.
  intros w.
  assert (kstep (fun _ => 100) 10 (Acquire (Pcb 0) 0) (start sample_locks) w) as Hk.
  { refine (K_acquired _ _ (Pcb 0) 0 sample_locks _ (fun _ => ∅) (sample_pcb 2 TASK_RUNNING 0) _ _ _);
      [exact sample_caller | apply Nat.lt_0_1 | vm_compute; reflexivity]. }
  destruct (mutual_exclusion (fun _ => 100) 10 sample_locks sample_queues w) as [H1 H2].
  - exact sample_locks_inv.
  - intros [|i] m E; [by injection E as <-|done].
  - split; [reflexivity|]. split.
    + destruct H1 as [(Q & HQ & _) _]; [|by exists Q]. apply rtc_once. by eexists.
    + apply (H2 ltac:(apply rtc_once; eexists; split; [|exact Hk]; reflexivity) 0%nat _ eq_refl).
Defined.
