(* ===== verification/BCache.v ===== *)
(** * The buffer cache (kernel/fs/fs.c, lines 28-143)

    The cache of disk sectors between the file system and the SD card: an array
    of buffers, those in use on a circular list with the most recently filled
    one first.  The SD card is reached through the BIOS; it is the parameter
    [D] of this file, with the laws of a block device.  The file system sees
    the cache through the class [SectorStore], whose laws the cache satisfies. *)
From S2P Require Import Prelude DList CString.

Definition SECTOR_SIZE : nat := 512.
Definition BWRITE_BACK : Z := 0.
Definition BWRITE_THROUGH : Z := 1.

(** ** The block device: [bios_sd_read] and [bios_sd_write] of one sector *)
Class BlockDevice (D : Type) := {
  sd_read : D -> Z -> list Z;
  sd_write : D -> Z -> list Z -> D;
  sd_length d i : length (sd_read d i) = SECTOR_SIZE;
  sd_read_write d i v :
    length v = SECTOR_SIZE -> sd_read (sd_write d i v) i = v;
  sd_read_write_ne d i j v : i <> j -> sd_read (sd_write d i v) j = sd_read d j }.

(** A device that keeps its sectors in a finite map. *)

#[global, refine] Instance ramdisk_device : BlockDevice (gmap Z (list Z)) := {
  sd_read d i := resize SECTOR_SIZE 0 (default [] (d !! i));
  sd_write d i v := <[i := v]> d }.
Proof.
  - intros. apply length_resize.
  - intros d i v Hv. rewrite lookup_insert_eq. simpl. by apply resize_all_alt.
  - intros d i j v Hne. by rewrite lookup_insert_ne.
Defined.

(** ** Data (include/os/fs.h) *)

(** [struct buf], less the links. *)
Record buf_t := mkBuf { valid : Z; dirty : Z; sectorid : Z; data : list Z }.

(** A [buf_t *]: an element of the array, or the list head. *)
Inductive baddr := BufA (i : nat) | HeadA.
#[global] Instance baddr_eq_dec : EqDecision baddr.
Proof. solve_decision. Defined.
#[global] Instance baddr_countable : Countable baddr.
Proof.
  refine (inj_countable' (fun a => match a with BufA i => Some i | HeadA => None end)
                         (fun o => match o with Some i => BufA i | None => HeadA end) _).
  by intros [].
Defined.

Section Cache.
Context {D : Type} `{!BlockDevice D}.

(** [bcache], [page_cache_policy] and the device.  The array has [NBUF] =
    0x5000 elements in the source; nothing below depends on the number. *)
Record cache := mkCache {
  bufs : list buf_t;
  blinks : gmap baddr (@node baddr);
  page_cache_policy : Z;
  disk : D }.

Definition with_bufs (v : list buf_t) (c : cache) : cache :=
  mkCache v (blinks c) (page_cache_policy c) (disk c).
Definition with_blinks (v : gmap baddr (@node baddr)) (c : cache) : cache :=
  mkCache (bufs c) v (page_cache_policy c) (disk c).
Definition with_disk (v : D) (c : cache) : cache :=
  mkCache (bufs c) (blinks c) (page_cache_policy c) v.
Definition with_policy (v : Z) (c : cache) : cache :=
  mkCache (bufs c) (blinks c) v (disk c).

Definition read_buf (i : nat) : M cache buf_t :=
  fun c => match bufs c !! i with Some b => Ok (b, c) | None => Err Fault end.
Definition upd_buf (i : nat) (f : buf_t -> buf_t) : M cache unit :=
  fun c => match bufs c !! i with
           | Some b => Ok (tt, with_bufs (<[i := f b]> (bufs c)) c)
           | None => Err Fault
           end.
Definition on_blinks (f : gmap baddr (@node baddr) -> res (gmap baddr (@node baddr))) :
    M cache unit :=
  fun c => match f (blinks c) with Ok h => Ok (tt, with_blinks h c) | Err e => Err e end.

(** [bios_sd_write(kva2pa(buf->data), 1, sid)] and the read back. *)
Definition bios_sd_write (i : nat) (sid : Z) : M cache unit :=
  b ← read_buf i; modify (fun c => with_disk (sd_write (disk c) sid (data b)) c).
Definition bios_sd_read (i : nat) (sid : Z) : M cache unit :=
  d ← gets disk;
  upd_buf i (fun b => mkBuf (valid b) (dirty b) (sectorid b) (sd_read d sid)).

Definition set_valid (v : Z) (b : buf_t) : buf_t := mkBuf v (dirty b) (sectorid b) (data b).
Definition set_dirty (v : Z) (b : buf_t) : buf_t := mkBuf (valid b) v (sectorid b) (data b).
Definition set_sectorid (v : Z) (b : buf_t) : buf_t := mkBuf (valid b) (dirty b) v (data b).
Definition set_data (v : list Z) (b : buf_t) : buf_t := mkBuf (valid b) (dirty b) (sectorid b) v.

(** ** Operations *)

Definition init_bcache : M cache unit :=
  on_blinks (fun h => h ← st_prev h (Some HeadA) (Some HeadA);
                      st_next h (Some HeadA) (Some HeadA));;
  modify (fun c => with_bufs (set_valid 0 <$> bufs c) c).

Definition find_free_buf : M cache (option nat) :=
  l ← gets bufs;
  let i := first_index (fun b => valid b =? 0) l 0 in
  if i <? Z.of_nat (length l) then mret (Some (Z.to_nat i)) else
  h ← gets blinks;
  tail ← lift (ld_prev h (Some HeadA));
  match tail with
  | None => fail Fault
  | Some HeadA => mret None
  | Some (BufA j) =>
    b ← read_buf j;
    (if negb (dirty b =? 0) then
       bios_sd_write j (sectorid b);; upd_buf j (set_dirty 0)
     else mret tt);;
    upd_buf j (set_valid 0);;
    upd_buf j (set_sectorid 0);;
    on_blinks (fun h => unlink_clear h (BufA j));;
    mret (Some j)
  end.

(** The test of [search_buf] on the buffer at an address. *)
Definition buf_holds (l : list buf_t) (sid : Z) (a : baddr) : bool :=
  match a with
  | BufA i => match l !! i with
              | Some b => (valid b =? 1) && (sectorid b =? sid)
              | None => false
              end
  | HeadA => false
  end.

Definition search_buf (sid : Z) : M cache (option nat) :=
  l ← gets bufs;
  h ← gets blinks;
  first ← lift (ld_next h (Some HeadA));
  r ← lift (list_search (size h) h HeadA first (buf_holds l sid));
  match r with
  | Some (BufA i) => mret (Some i)
  | _ => mret None
  end.

Definition brefill (sid : Z) : M cache (option nat) :=
  r ← find_free_buf;
  match r with
  | None => mret None
  | Some i =>
    upd_buf i (set_valid 1);;
    upd_buf i (set_sectorid sid);;
    upd_buf i (set_dirty 0);;
    bios_sd_read i sid;;
    on_blinks (fun h => insert_head h (BufA i) HeadA);;
    mret (Some i)
  end.

(** [buf = search_buf(sid); if (buf == NULL) buf = brefill(sid);] and the
    dereference of [buf] that follows. *)
Definition get_buf (sid : Z) : M cache nat :=
  r ← search_buf sid;
  r ← (match r with Some i => mret (Some i) | None => brefill sid end);
  lift (of_option Fault r).

(** One turn of the loop of [bwrite]; the source never advances [mem_va]. *)
Definition bwrite_sector (mem : list Z) (sid : Z) : M cache unit :=
  i ← get_buf sid;
  b ← read_buf i;
  v ← lift (memcpy (data b) mem SECTOR_SIZE);
  upd_buf i (set_data v);;
  pol ← gets page_cache_policy;
  if pol =? BWRITE_THROUGH then bios_sd_write i sid else upd_buf i (set_dirty 1).

Definition bwrite (mem : list Z) (nsectors sid : Z) : M cache unit :=
  for_loop (Z.to_nat nsectors) 0 (fun i => bwrite_sector mem (u32 (sid + i))).

(** One turn of the loop of [bread]: the memory at [mem_va] afterwards. *)
Definition bread_sector (mem : list Z) (sid : Z) : M cache (list Z) :=
  i ← get_buf sid;
  b ← read_buf i;
  lift (memcpy mem (data b) SECTOR_SIZE).

Fixpoint bread_loop (n : nat) (i : Z) (mem : list Z) (sid : Z) : M cache (list Z) :=
  match n with
  | O => mret mem
  | S n' => mem ← bread_sector mem (u32 (sid + i)); bread_loop n' (i + 1) mem sid
  end.
Definition bread (mem : list Z) (nsectors sid : Z) : M cache (list Z) :=
  bread_loop (Z.to_nat nsectors) 0 mem sid.

Fixpoint bflush_loop (fuel : nat) (p : option baddr) : M cache unit :=
  match fuel with
  | O => fail OutOfFuel
  | S fuel' =>
    match p with
    | None => fail Fault
    | Some HeadA => mret tt
    | Some (BufA i) =>
      b ← read_buf i;
      (if negb (dirty b =? 0) then
         bios_sd_write i (sectorid b);; upd_buf i (set_dirty 0)
       else mret tt);;
      h ← gets blinks;
      nx ← lift (ld_next h (Some (BufA i)));
      bflush_loop fuel' nx
    end
  end.
Definition bflush : M cache unit :=
  h ← gets blinks;
  first ← lift (ld_next h (Some HeadA));
  bflush_loop (size h) first.

(** ** Invariant and abstraction

    [l]: the buffers in use, the most recently filled first. *)
Record cache_inv (c : cache) (l : list nat) : Prop := {
  ci_dll : is_dll (blinks c) HeadA (BufA <$> l);
  ci_mapped : forall i, (i < length (bufs c))%nat -> mapped (blinks c) (BufA i);
  ci_valid : forall i b, bufs c !! i = Some b ->
    (valid b = 1 /\ i ∈ l) \/ (valid b = 0 /\ i ∉ l);
  ci_range : forall i, i ∈ l -> is_Some (bufs c !! i);
  ci_unique : forall i j b b', i ∈ l -> j ∈ l -> bufs c !! i = Some b -> bufs c !! j = Some b' ->
    sectorid b = sectorid b' -> i = j;
  ci_clean : forall i b, i ∈ l -> bufs c !! i = Some b -> dirty b = 0 ->
    data b = sd_read (disk c) (sectorid b);
  ci_data : forall i b, bufs c !! i = Some b -> length (data b) = SECTOR_SIZE }.

(** What a reader of sector [sid] sees. *)
Definition view (c : cache) (sid : Z) : list Z :=
  match List.find (fun b => (valid b =? 1) && (sectorid b =? sid)) (bufs c) with
  | Some b => data b
  | None => sd_read (disk c) sid
  end.

(** Sector [sid] is in none of the buffers [l]. *)
Definition uncached (c : cache) (l : list nat) (sid : Z) : Prop :=
  forall i b, i ∈ l -> bufs c !! i = Some b -> sectorid b <> sid.

Lemma holds_spec b sid : (valid b =? 1) && (sectorid b =? sid) = true <-> valid b = 1 /\ sectorid b = sid.
Proof. rewrite andb_true_iff, !Z.eqb_eq. done. Qed.

Lemma in_use c l i b : cache_inv c l -> bufs c !! i = Some b -> valid b = 1 <-> i ∈ l.
Proof. intros Hi E. destruct (ci_valid _ _ Hi i b E) as [[? ?]|[? ?]]; split; try done; lia. Qed.

Lemma view_hit c l i b :
  cache_inv c l -> i ∈ l -> bufs c !! i = Some b -> view c (sectorid b) = data b.
Proof.
  intros Hi Hl E. unfold view.
  destruct (List.find _ _) as [b'|] eqn:Ef.
  - apply List.find_some in Ef as [Hin Hh]. apply holds_spec in Hh as [Hv Hs].
    apply list_elem_of_In, list_elem_of_lookup in Hin as [j Ej].
    apply (in_use _ _ _ _ Hi Ej) in Hv.
    assert (i = j) as <- by (eapply ci_unique; eauto). by simplify_eq.
  - eapply List.find_none in Ef; [|by eapply list_elem_of_In, list_elem_of_lookup_2].
    apply (in_use _ _ _ _ Hi E) in Hl.
    apply not_true_iff_false in Ef. destruct Ef. by apply holds_spec.
Qed.

Lemma view_miss c l sid :
  cache_inv c l -> uncached c l sid -> view c sid = sd_read (disk c) sid.
Proof.
  intros Hi Hu. unfold view. destruct (List.find _ _) as [b'|] eqn:Ef; [|done].
  apply List.find_some in Ef as [Hin Hh]. apply holds_spec in Hh as [Hv Hs].
  apply list_elem_of_In, list_elem_of_lookup in Hin as [j Ej].
  apply (in_use _ _ _ _ Hi Ej) in Hv. by destruct (Hu j b').
Qed.

Lemma cached_dec c l sid :
  cache_inv c l ->
  (exists i b, i ∈ l /\ bufs c !! i = Some b /\ sectorid b = sid) \/ uncached c l sid.
Proof.
  intros _. destruct (decide (Exists (fun i => sectorid <$> bufs c !! i = Some sid) l))
    as [(i & Hl & E)%Exists_exists|Hn].
  - left. apply fmap_Some in E as (b & ? & ?). eauto.
  - right. intros i b Hl E Hs. apply Hn, Exists_exists. exists i. split; [done|].
    rewrite E. simpl. congruence.
Qed.

Lemma view_length c l sid : cache_inv c l -> length (view c sid) = SECTOR_SIZE.
Proof.
  intros Hi. destruct (cached_dec c l sid Hi) as [(i & b & Hl & E & <-)|Hu].
  - rewrite (view_hit _ _ _ _ Hi Hl E). by eapply ci_data.
  - rewrite (view_miss _ _ _ Hi Hu). apply sd_length.
Qed.

(** Rewriting the contents of a buffer in use, with or without the disk. *)
Lemma inv_store c l i b b' d' :
  cache_inv c l -> i ∈ l -> bufs c !! i = Some b ->
  valid b' = 1 -> sectorid b' = sectorid b -> length (data b') = SECTOR_SIZE ->
  (forall s, s <> sectorid b -> sd_read d' s = sd_read (disk c) s) ->
  (dirty b' = 0 -> data b' = sd_read d' (sectorid b)) ->
  let c' := mkCache (<[i := b']> (bufs c)) (blinks c) (page_cache_policy c) d' in
  cache_inv c' l /\
  forall s, view c' s = if decide (s = sectorid b) then data b' else view c s.
Proof.
  intros Hi Hl E Hv Hs Hd Hdk Hcl c'.
  assert (i < length (bufs c))%nat as Hlt by (by eapply lookup_lt_Some).
  assert (cache_inv c' l) as Hi'.
  { pose proof Hi as [H1 H2 H3 H4 H5 H6 H7]. split; simpl; rewrite ?length_insert; try done.
    - intros j x [(<- & <- & _)|[_ Hx]]%list_lookup_insert_Some; [by left | eauto].
    - intros j Hj. destruct (decide (i = j)) as [<-|]; [by rewrite list_lookup_insert_eq|].
      rewrite list_lookup_insert_ne by done. eauto.
    - intros j k x y Hj Hk [(<- & <- & _)|[? Hx]]%list_lookup_insert_Some
        [(<- & <- & _)|[? Hy]]%list_lookup_insert_Some Hxy; try done; [| |by eauto].
      + rewrite Hs in Hxy. by eapply (H5 i k b y).
      + rewrite Hs in Hxy. by eapply (H5 j i x b).
    - intros j x Hj [(<- & <- & _)|[Hne Hx]]%list_lookup_insert_Some Hdx; [rewrite Hs; auto|].
      rewrite Hdk; [by eauto|]. intros Heq. apply Hne. symmetry. eapply (H5 j i); eauto.
    - intros j x [(<- & <- & _)|[_ Hx]]%list_lookup_insert_Some; eauto. }
  split; [done|]. intros s. case_decide as Hs'.
  - subst s. rewrite <- Hs. eapply view_hit; [done..|]. simpl. by apply list_lookup_insert_eq.
  - destruct (cached_dec c l s Hi) as [(j & x & Hj & Ex & <-)|Hu].
    + assert (i <> j) by congruence.
      rewrite (view_hit c l j x Hi Hj Ex). eapply view_hit; [done..|]. simpl.
      by rewrite list_lookup_insert_ne.
    + rewrite (view_miss c l s Hi Hu), (view_miss c' l s Hi'); [by apply Hdk|].
      intros j x Hj [(<- & <- & _)|[_ Hx]]%list_lookup_insert_Some; [congruence | by eapply Hu].
Qed.

(** Filling a free buffer. *)
Lemma inv_fill c l i b sid h' :
  cache_inv c l -> i ∉ l -> bufs c !! i = Some b -> uncached c l sid ->
  is_dll h' HeadA (BufA <$> i :: l) -> (forall a, mapped (blinks c) a <-> mapped h' a) ->
  let c' := mkCache (<[i := mkBuf 1 0 sid (sd_read (disk c) sid)]> (bufs c)) h'
              (page_cache_policy c) (disk c) in
  cache_inv c' (i :: l) /\ forall s, view c' s = view c s.
Proof.
  intros Hi Hl E Hu Hd Hm c'.
  assert (i < length (bufs c))%nat as Hlt by (by eapply lookup_lt_Some).
  assert (cache_inv c' (i :: l)) as Hi'.
  { pose proof Hi as [H1 H2 H3 H4 H5 H6 H7]. split; simpl; rewrite ?length_insert; try done.
    - intros j Hj. apply Hm; eauto.
    - intros j x [(<- & <- & _)|[Hne Hx]]%list_lookup_insert_Some; [left; set_solver|].
      destruct (H3 j x Hx); set_solver.
    - intros j [->|Hj]%elem_of_cons; [by rewrite list_lookup_insert_eq|].
      rewrite list_lookup_insert_ne by set_solver. eauto.
    - intros j k x y Hj Hk [(<- & <- & _)|[? Hx]]%list_lookup_insert_Some
        [(<- & <- & _)|[? Hy]]%list_lookup_insert_Some Hxy; try done; simpl in *.
      + apply elem_of_cons in Hk as [->|Hk]; [done|]. by destruct (Hu k y).
      + apply elem_of_cons in Hj as [->|Hj]; [done|]. by destruct (Hu j x).
      + apply elem_of_cons in Hj as [->|Hj], Hk as [->|Hk]; try done. eauto.
    - intros j x Hj [(<- & <- & _)|[Hne Hx]]%list_lookup_insert_Some Hdx; [done|].
      apply elem_of_cons in Hj as [->|Hj]; [done|]. eauto.
    - intros j x [(<- & <- & _)|[_ Hx]]%list_lookup_insert_Some; [apply sd_length | eauto]. }
  split; [done|]. intros s. destruct (cached_dec c l s Hi) as [(j & x & Hj & Ex & <-)|Hus].
  - rewrite (view_hit c l j x Hi Hj Ex). apply (view_hit c' (i :: l) j x); [done|set_solver|].
    simpl. rewrite list_lookup_insert_ne; [done|]. by intros ->.
  - rewrite (view_miss c l s Hi Hus). destruct (decide (s = sid)) as [->|Hne].
    + apply (view_hit c' (i :: l) i (mkBuf 1 0 sid (sd_read (disk c) sid))); [done|set_solver|].
      by apply list_lookup_insert_eq.
    + rewrite (view_miss c' (i :: l) s Hi'); [done|].
      intros j x Hj [(<- & <- & _)|[? Hx]]%list_lookup_insert_Some; [simpl; congruence|].
      apply (Hus j x); [set_solver|done].
Qed.

(** Evicting the last buffer of the list, written back if it is dirty. *)
Lemma inv_evict c l i b h' d' :
  cache_inv c (l ++ [i]) -> bufs c !! i = Some b ->
  is_dll h' HeadA (BufA <$> l) -> (forall a, mapped (blinks c) a <-> mapped h' a) ->
  (forall s, s <> sectorid b -> sd_read d' s = sd_read (disk c) s) ->
  sd_read d' (sectorid b) = data b ->
  let c' := mkCache (<[i := mkBuf 0 0 0 (data b)]> (bufs c)) h' (page_cache_policy c) d' in
  cache_inv c' l /\ forall s, view c' s = view c s.
Proof.
  intros Hi E Hd Hm Hdk Hdb c'.
  assert (i < length (bufs c))%nat as Hlt by (by eapply lookup_lt_Some).
  assert (i ∉ l) as Hil.
  { destruct (ci_dll _ _ Hi) as [Hnd _]. apply NoDup_cons in Hnd as [_ Hnd].
    apply NoDup_fmap_1 in Hnd. apply NoDup_app in Hnd as (_ & Hn & _). set_solver. }
  assert (cache_inv c' l) as Hi'.
  { pose proof Hi as [H1 H2 H3 H4 H5 H6 H7]. split; simpl; rewrite ?length_insert; try done.
    - intros j Hj. apply Hm; eauto.
    - intros j x [(<- & <- & _)|[Hne Hx]]%list_lookup_insert_Some; [right; set_solver|].
      destruct (H3 j x Hx); set_solver.
    - intros j Hj. rewrite list_lookup_insert_ne by set_solver. apply H4. set_solver.
    - intros j k x y Hj Hk [(<- & <- & _)|[? Hx]]%list_lookup_insert_Some
        [(<- & <- & _)|[? Hy]]%list_lookup_insert_Some; try done.
      eapply H5; eauto; set_solver.
    - intros j x Hj [(<- & <- & _)|[Hne Hx]]%list_lookup_insert_Some Hdx; [done|].
      rewrite Hdk; [apply H6 with j; set_solver|]. intros Heq. apply Hne. symmetry.
      eapply (H5 j i); eauto; set_solver.
    - intros j x [(<- & <- & _)|[_ Hx]]%list_lookup_insert_Some; simpl; eauto. }
  split; [done|]. intros s. destruct (decide (s = sectorid b)) as [->|Hne].
  - rewrite (view_hit c _ i b Hi) by set_solver. rewrite (view_miss c' l _ Hi'); [done|].
    intros j x Hj [(<- & <- & _)|[Hne Hx]]%list_lookup_insert_Some Hxs; [done|].
    apply Hne. symmetry. eapply (ci_unique _ _ Hi j i); eauto; set_solver.
  - destruct (cached_dec c _ s Hi) as [(j & x & Hj & Ex & <-)|Hus].
    + rewrite (view_hit c _ j x Hi Hj Ex). assert (i <> j) by congruence.
      apply (view_hit c' l j x); [done|set_solver|]. simpl. by rewrite list_lookup_insert_ne.
    + rewrite (view_miss c _ s Hi Hus), (view_miss c' l s Hi'); [by apply Hdk|].
      intros j x Hj [(<- & <- & _)|[? Hx]]%list_lookup_insert_Some; [done|].
      apply (Hus j x); [set_solver|done].
Qed.

(** ** The operations *)

Lemma read_buf_ok i c b : bufs c !! i = Some b -> read_buf i c = Ok (b, c).
Proof. intros E. unfold read_buf. by rewrite E. Qed.
Lemma upd_buf_ok i f c b :
  bufs c !! i = Some b -> upd_buf i f c = Ok (tt, with_bufs (<[i := f b]> (bufs c)) c).
Proof. intros E. unfold upd_buf. by rewrite E. Qed.
Lemma on_blinks_ok f c h : f (blinks c) = Ok h -> on_blinks f c = Ok (tt, with_blinks h c).
Proof. intros E. unfold on_blinks. by rewrite E. Qed.
Lemma bios_sd_write_ok i sid c b :
  bufs c !! i = Some b ->
  bios_sd_write i sid c = Ok (tt, with_disk (sd_write (disk c) sid (data b)) c).
Proof. intros E. unfold bios_sd_write. by rewrite (bind_ok _ _ _ _ _ (read_buf_ok _ _ _ E)). Qed.
Lemma bios_sd_read_ok i sid c b :
  bufs c !! i = Some b ->
  bios_sd_read i sid c =
  Ok (tt, with_bufs (<[i := mkBuf (valid b) (dirty b) (sectorid b) (sd_read (disk c) sid)]> (bufs c)) c).
Proof. intros E. unfold bios_sd_read. rewrite (bind_ok _ _ _ _ _ eq_refl). by rewrite (upd_buf_ok _ _ _ _ E). Qed.

Lemma find_holds c l sid :
  cache_inv c l ->
  match List.find (buf_holds (bufs c) sid) (BufA <$> l) with
  | Some (BufA i) => exists b, i ∈ l /\ bufs c !! i = Some b /\ sectorid b = sid
  | Some HeadA => False
  | None => uncached c l sid
  end.
Proof.
  intros Hi. destruct (List.find _ _) as [a|] eqn:Ef.
  - apply List.find_some in Ef as [Hin Hh]. apply list_elem_of_In, list_elem_of_fmap in Hin as (i & -> & Hl).
    simpl in Hh. destruct (bufs c !! i) as [b|] eqn:E; [|done].
    apply holds_spec in Hh as [_ Hs]. eauto.
  - intros i b Hl E Hs. pose proof (List.find_none _ _ Ef (BufA i)) as Hf. simpl in Hf.
    rewrite E in Hf. assert ((valid b =? 1) && (sectorid b =? sid) = true) as Ht.
    { apply holds_spec. split; [by apply (in_use c l i b Hi E) | done]. }
    rewrite Hf in Ht; [done|]. apply list_elem_of_In, list_elem_of_fmap. eauto.
Qed.

Lemma search_buf_ok c l sid :
  cache_inv c l ->
  (exists i b, search_buf sid c = Ok (Some i, c) /\ i ∈ l /\ bufs c !! i = Some b /\ sectorid b = sid) \/
  (search_buf sid c = Ok (None, c) /\ uncached c l sid).
Proof.
  intros Hi. pose proof (find_holds c l sid Hi) as Hf. unfold search_buf.
  rewrite !(bind_ok _ _ _ _ _ eq_refl).
  rewrite (bind_ok _ _ _ _ _ (lift_ok _ _ _ (ld_next_spec _ _ _ (is_dll_next _ _ _ (ci_dll _ _ Hi))))).
  rewrite (bind_ok _ _ _ _ _ (lift_ok _ _ _ (list_search_dll _ _ _ _ (ci_dll _ _ Hi)))).
  destruct (List.find _ _) as [[i|]|]; [|done|right; done].
  left. destruct Hf as (b & ? & ? & ?). by exists i, b.
Qed.

Lemma first_free c :
  (exists i b, bufs c !! i = Some b /\ valid b = 0 /\
     first_index (fun b => valid b =? 0) (bufs c) 0 = Z.of_nat i /\ (i < length (bufs c))%nat) \/
  ((forall i b, bufs c !! i = Some b -> valid b <> 0) /\
   first_index (fun b => valid b =? 0) (bufs c) 0 = Z.of_nat (length (bufs c))).
Proof.
  destruct (first_index_spec (fun b => valid b =? 0) (bufs c) 0) as [[Hf ->]|(i & b & E & Hv & ->)].
  - right. split; [|done]. intros i b E. rewrite Forall_lookup in Hf. apply Hf in E.
    by apply Z.eqb_neq.
  - left. exists i, b. apply Z.eqb_eq in Hv. split_and!; try done. by eapply lookup_lt_Some.
Qed.

(** [find_free_buf] yields a buffer that is on no list; readers see no change.
    The buffer is an unused one, or the last of the list. *)
Lemma find_free_buf_ok c l :
  cache_inv c l -> bufs c <> [] ->
  exists i c' l', find_free_buf c = Ok (Some i, c') /\ cache_inv c' l' /\ i ∉ l' /\
    is_Some (bufs c' !! i) /\ (l' = l \/ l = l' ++ [i]) /\
    length (bufs c') = length (bufs c) /\ page_cache_policy c' = page_cache_policy c /\
    (forall s, view c' s = view c s) /\ (forall s, uncached c l s -> uncached c' l' s) /\
    (forall k x, k ∈ l' -> bufs c' !! k = Some x -> k ∈ l /\ bufs c !! k = Some x).
Proof.
  intros Hi Hne. unfold find_free_buf. rewrite (bind_ok _ _ _ _ _ eq_refl).
  destruct (first_free c) as [(i & b & E & Hv & -> & Hlt)|[Hall ->]].
  - rewrite (proj2 (Z.ltb_lt _ _)), Nat2Z.id by lia. exists i, c, l. split_and!; try done; [|by left].
    intros Hl. apply (in_use c l i b Hi E) in Hl. lia.
  - rewrite (proj2 (Z.ltb_ge _ _)) by lia. rewrite (bind_ok _ _ _ _ _ eq_refl).
    rewrite (bind_ok _ _ _ _ _ (lift_ok _ _ _ (ld_prev_spec _ _ _ (is_dll_prev _ _ _ (ci_dll _ _ Hi))))).
    destruct l as [|j l _] using rev_ind.
    { exfalso. destruct (bufs c) as [|b r] eqn:Eb; [done|].
      destruct (ci_valid _ _ Hi 0%nat b) as [[_ H]|[H _]]; [by rewrite Eb | set_solver |].
      apply (Hall 0%nat b); [done|done]. }
    rewrite fmap_app. simpl. rewrite last_last.
    destruct (ci_range _ _ Hi j) as [b E]; [set_solver|].
    assert (j < length (bufs c))%nat as Hlt by (by eapply lookup_lt_Some).
    pose proof (ci_dll _ _ Hi) as Hd. rewrite fmap_app in Hd. simpl in Hd.
    destruct (unlink_clear_dll _ _ _ _ _ Hd) as (h' & Eh & Hd' & _ & _ & [_ Hm]).
    rewrite app_nil_r in Hd'.
    set (d' := if dirty b =? 0 then disk c else sd_write (disk c) (sectorid b) (data b)).
    destruct (inv_evict c l j b h' d') as [Hi' Hview]; try done.
    { intros s Hs. unfold d'. case_match; [done|]. by apply sd_read_write_ne. }
    { unfold d'. destruct (Z.eqb_spec (dirty b) 0) as [Hz|]; [|apply sd_read_write; by eapply ci_data].
      symmetry. eapply ci_clean; eauto. set_solver. }
    eexists j, _, l. split; [|split; [exact Hi'|]].
    { rewrite (bind_ok _ _ _ _ _ (read_buf_ok _ _ _ E)). unfold d'.
      destruct (Z.eqb_spec (dirty b) 0) as [Hz|Hz]; simpl.
      - rewrite (bind_ok _ _ _ _ _ eq_refl). rewrite (bind_ok _ _ _ _ _ (upd_buf_ok _ _ _ _ E)).
        erewrite (bind_ok (upd_buf j _)) by (apply upd_buf_ok, list_lookup_insert_eq; simpl; by rewrite ?length_insert).
        simpl. rewrite list_insert_insert_eq. erewrite bind_ok by (by apply on_blinks_ok).
        unfold set_sectorid, set_valid, with_blinks, with_bufs. simpl. by rewrite Hz.
      - rewrite bind_bind. rewrite (bind_ok _ _ _ _ _ (bios_sd_write_ok _ _ _ _ E)).
        rewrite (bind_ok _ _ _ _ _ (upd_buf_ok _ _ (with_disk _ c) _ E)).
        do 2 (erewrite (bind_ok (upd_buf j _)) by (apply upd_buf_ok, list_lookup_insert_eq; simpl; by rewrite ?length_insert)).
        simpl. rewrite !list_insert_insert_eq. erewrite bind_ok by (by apply on_blinks_ok).
        done. }
    assert (j ∉ l) as Hjl.
    { destruct Hd as [Hnd _]. apply NoDup_cons in Hnd as [_ Hnd].
      apply NoDup_app in Hnd as (_ & Hn & _). intros Hj. apply (Hn (BufA j)); [|set_solver].
      apply list_elem_of_fmap. eauto. }
    split; [done|]. simpl. rewrite list_lookup_insert_eq, length_insert by done.
    split_and!; try done; [by right| |].
    + intros s Hu k x Hk [(<- & <- & _)|[_ Hx]]%list_lookup_insert_Some; [done|].
      apply (Hu k x); [set_solver|done].
    + intros k x Hk [(<- & <- & _)|[_ Hx]]%list_lookup_insert_Some; [done|]. set_solver.
Qed.


(** The part of [brefill] after [find_free_buf]. *)
Lemma fill_ok c1 l1 i b sid :
  cache_inv c1 l1 -> i ∉ l1 -> bufs c1 !! i = Some b -> uncached c1 l1 sid ->
  exists c', ((upd_buf i (set_valid 1);; upd_buf i (set_sectorid sid);; upd_buf i (set_dirty 0);;
      bios_sd_read i sid;; on_blinks (fun h => insert_head h (BufA i) HeadA);; mret (Some i))
      ≫= fun r => lift (of_option Fault r)) c1 = Ok (i, c') /\
    cache_inv c' (i :: l1) /\ bufs c' !! i = Some (mkBuf 1 0 sid (sd_read (disk c1) sid)) /\
    length (bufs c') = length (bufs c1) /\ page_cache_policy c' = page_cache_policy c1 /\
    (forall s, view c' s = view c1 s) /\
    (forall k, k <> i -> bufs c' !! k = bufs c1 !! k).
Proof.
  intros Hi1 Hil Eb Hu.
  destruct (insert_head_dll (blinks c1) HeadA (BufA <$> l1) (BufA i)) as (h' & Eh & Hd & [_ Hm]).
  { apply Hi1. } { rewrite elem_of_cons. intros [|(? & [= ->] & ?)%list_elem_of_fmap]; done. }
  { apply (ci_mapped _ _ Hi1). by eapply lookup_lt_Some. }
  destruct (inv_fill c1 l1 i b sid h') as [Hi2 Hv2]; [by auto ..|].
  assert (i < length (bufs c1))%nat as Hlt by (by eapply lookup_lt_Some).
  eexists. split; [|split; [exact Hi2|]].
  - rewrite !bind_bind. rewrite (bind_ok _ _ _ _ _ (upd_buf_ok _ _ _ _ Eb)).
    do 2 (rewrite !bind_bind; erewrite (bind_ok (upd_buf i _))
            by (apply upd_buf_ok, list_lookup_insert_eq; simpl; by rewrite ?length_insert)).
    rewrite !bind_bind. erewrite (bind_ok (bios_sd_read i _))
      by (apply bios_sd_read_ok, list_lookup_insert_eq; simpl; by rewrite ?length_insert).
    simpl. rewrite !list_insert_insert_eq. rewrite !bind_bind.
    erewrite bind_ok by (by apply on_blinks_ok). done.
  - simpl. rewrite length_insert, list_lookup_insert_eq by done. split_and!; try done.
    intros k Hk. by rewrite list_lookup_insert_ne.
Qed.

(** [get_buf]: afterwards a buffer in use holds what readers of the sector see;
    every other buffer in use was so before, unchanged. *)
Lemma get_buf_ok c l sid :
  cache_inv c l -> bufs c <> [] ->
  exists i c' l' b, get_buf sid c = Ok (i, c') /\ cache_inv c' l' /\ i ∈ l' /\
    bufs c' !! i = Some b /\ sectorid b = sid /\ data b = view c sid /\
    length (bufs c') = length (bufs c) /\ page_cache_policy c' = page_cache_policy c /\
    (forall s, view c' s = view c s) /\
    (forall k x, k ∈ l' -> bufs c' !! k = Some x -> (k ∈ l /\ bufs c !! k = Some x) \/ dirty x = 0).
Proof.
  intros Hi Hne. unfold get_buf.
  destruct (search_buf_ok c l sid Hi) as [(i & b & Es & Hl & E & Hs)|[Es Hu]];
    rewrite (bind_ok _ _ _ _ _ Es).
  - rewrite (bind_ok _ _ _ _ _ eq_refl). exists i, c, l, b. split_and!; try done; [|by left].
    subst sid. symmetry. by eapply view_hit.
  - destruct (find_free_buf_ok c l Hi Hne)
      as (i & c1 & l1 & E1 & Hi1 & Hil & [b Eb] & _ & Hlen & Hpol & Hv1 & Hu1 & Hk1).
    destruct (fill_ok c1 l1 i b sid) as (c' & E & Hi2 & Eb' & Hl2 & Hp2 & Hv2 & Hk2); try done; [by auto|].
    exists i, c', (i :: l1), (mkBuf 1 0 sid (sd_read (disk c1) sid)).
    split; [unfold brefill; rewrite bind_bind, (bind_ok _ _ _ _ _ E1); exact E|].
    split_and!; try done; [set_solver| |congruence|congruence| |].
    + rewrite <- Hv1. symmetry. by apply (view_miss c1 l1), Hu1.
    + intros s. rewrite <- Hv1. apply Hv2.
    + intros k x Hk Hx. destruct (decide (k = i)) as [->|Hne'].
      * rewrite Eb' in Hx. simplify_eq. by right.
      * rewrite Hk2 in Hx by done. left. apply Hk1; [set_solver|done].
Qed.

Definition store_ok (c : cache) : Prop := bufs c <> [] /\ exists l, cache_inv c l.

Lemma length_nonempty {B} (l l' : list B) : length l' = length l -> l <> [] -> l' <> [].
Proof. destruct l, l'; naive_solver. Qed.

Lemma bread_sector_ok c mem sid :
  store_ok c -> (SECTOR_SIZE <= length mem)%nat ->
  exists c', bread_sector mem sid c = Ok (view c sid ++ drop SECTOR_SIZE mem, c') /\ store_ok c' /\
    forall s, view c' s = view c s.
Proof.
  intros [Hne [l Hi]] Hm.
  destruct (get_buf_ok c l sid Hi Hne) as (i & c' & l' & b & E & Hi' & Hl & Eb & _ & Hd & Hlen & _ & Hv & _).
  exists c'. split; [|split; [split; [by eapply length_nonempty|by exists l'] | done]].
  unfold bread_sector. rewrite (bind_ok _ _ _ _ _ E), (bind_ok _ _ _ _ _ (read_buf_ok _ _ _ Eb)).
  pose proof (ci_data _ _ Hi' _ _ Eb) as Hdl.
  rewrite (lift_ok _ _ _ (memcpy_ok _ _ _ Hm (Nat.eq_le_incl _ _ (eq_sym Hdl)))).
  rewrite firstn_all2 by (rewrite Hdl; lia). by rewrite Hd.
Qed.

Definition written (mem : list Z) (sid : Z) (f : Z -> list Z) (s : Z) : list Z :=
  if decide (s = sid) then take SECTOR_SIZE mem else f s.

(** Buffers in use that are not dirty. *)
Definition clean (c : cache) (l : list nat) : Prop :=
  forall k x, k ∈ l -> bufs c !! k = Some x -> dirty x = 0.

Lemma clean_view c l s : cache_inv c l -> clean c l -> sd_read (disk c) s = view c s.
Proof.
  intros Hi Hc. destruct (cached_dec c l s Hi) as [(i & b & Hl & E & <-)|Hu].
  - rewrite (view_hit _ _ _ _ Hi Hl E). symmetry. eapply ci_clean; eauto.
  - by rewrite (view_miss _ _ _ Hi Hu).
Qed.

Lemma bwrite_sector_inv c l mem sid :
  cache_inv c l -> bufs c <> [] -> (SECTOR_SIZE <= length mem)%nat ->
  exists c' l', bwrite_sector mem sid c = Ok (tt, c') /\ cache_inv c' l' /\
    length (bufs c') = length (bufs c) /\ page_cache_policy c' = page_cache_policy c /\
    (forall s, view c' s = written mem sid (view c) s) /\
    (page_cache_policy c = BWRITE_THROUGH -> clean c l -> clean c' l').
Proof.
  intros Hi Hne Hm.
  destruct (get_buf_ok c l sid Hi Hne)
    as (i & c1 & l1 & b & E & Hi1 & Hl & Eb & Hs & _ & Hlen & Hpol & Hv & Hk).
  assert (i < length (bufs c1))%nat as Hlt by (by eapply lookup_lt_Some).
  pose proof (ci_data _ _ Hi1 _ _ Eb) as Hdl.
  assert (valid b = 1) as Hvb by (by apply (in_use c1 l1 i b Hi1 Eb)).
  set (v := take SECTOR_SIZE mem).
  assert (length v = SECTOR_SIZE) as Hvl by (unfold v; rewrite length_take; lia).
  set (thr := page_cache_policy c =? BWRITE_THROUGH).
  set (b' := set_dirty (if thr then dirty b else 1) (set_data v b)).
  set (d' := if thr then sd_write (disk c1) sid v else disk c1).
  destruct (inv_store c1 l1 i b b' d') as [Hi2 Hv2]; try done.
  { intros s Hs'. unfold d'. destruct thr; [|done]. apply sd_read_write_ne. congruence. }
  { unfold b', d'. destruct thr; [|done]. intros _. simpl. rewrite Hs. symmetry. by apply sd_read_write. }
  eexists _, l1. split; [|split; [exact Hi2|split; [simpl; by rewrite length_insert|]]].
  { unfold bwrite_sector. rewrite (bind_ok _ _ _ _ _ E), (bind_ok _ _ _ _ _ (read_buf_ok _ _ _ Eb)).
    erewrite bind_ok by (apply lift_ok, memcpy_ok; [by rewrite Hdl|done]). fold v.
    rewrite (drop_ge (data b)), app_nil_r by (rewrite Hdl; done).
    rewrite (bind_ok _ _ _ _ _ (upd_buf_ok _ _ _ _ Eb)), (bind_ok _ _ _ _ _ eq_refl). simpl.
    rewrite Hpol. fold thr. unfold b', d'. destruct thr.
    - rewrite (bios_sd_write_ok _ _ _ (set_data v b)) by (by apply list_lookup_insert_eq).
      unfold with_disk, with_bufs. simpl. by rewrite Hpol.
    - rewrite (upd_buf_ok _ _ _ (set_data v b)) by (by apply list_lookup_insert_eq).
      unfold with_bufs. simpl. by rewrite list_insert_insert_eq, Hpol. }
  split; [done|]. split.
  - intros s. rewrite Hv2, Hs, Hv. done.
  - intros Hthr Hc k x Hk' [(<- & <- & _)|[_ Hx]]%list_lookup_insert_Some.
    + unfold b', thr. rewrite Hthr. simpl. destruct (Hk i b Hl Eb) as [[? ?]|?]; eauto.
    + destruct (Hk k x Hk' Hx) as [[? ?]|?]; eauto.
Qed.

(** ** Several sectors *)

Lemma bread_loop_ok n i c mem sid :
  store_ok c -> (SECTOR_SIZE <= length mem)%nat ->
  exists c', bread_loop n i mem sid c =
      Ok (match n with O => mem
          | S n' => view c (u32 (sid + i + Z.of_nat n')) ++ drop SECTOR_SIZE mem end, c') /\
    store_ok c' /\ forall s, view c' s = view c s.
Proof.
  revert i c mem; induction n as [|n IH]; intros i c mem Hc Hm; simpl; [by exists c|].
  destruct (bread_sector_ok c mem (u32 (sid + i)) Hc Hm) as (c1 & E1 & Hc1 & Hv1).
  rewrite (bind_ok _ _ _ _ _ E1).
  assert (length (view c (u32 (sid + i))) = SECTOR_SIZE) as Hl
    by (destruct Hc as [_ [l Hi]]; by eapply view_length).
  edestruct (IH (i + 1) c1) as (c' & E' & Hc' & Hv'); [done | |].
  { rewrite length_app, Hl, length_drop. lia. }
  exists c'. rewrite E'. split; [|split; [done|]; intros s; by rewrite Hv', Hv1].
  destruct n as [|n]; [by rewrite Z.add_0_r|].
  rewrite Hv1, (drop_app_length' _ _ SECTOR_SIZE) by done.
  by replace (sid + (i + 1) + Z.of_nat n) with (sid + i + Z.of_nat (S n)) by lia.
Qed.

Lemma bread_ok c mem n sid :
  store_ok c -> (SECTOR_SIZE <= length mem)%nat -> 0 < n ->
  exists c', bread mem n sid c = Ok (view c (u32 (sid + n - 1)) ++ drop SECTOR_SIZE mem, c') /\
    store_ok c' /\ forall s, view c' s = view c s.
Proof.
  intros Hc Hm Hn. destruct (bread_loop_ok (Z.to_nat n) 0 c mem sid Hc Hm) as (c' & E & H).
  exists c'. split; [|done]. unfold bread. rewrite E.
  destruct (Z.to_nat n) as [|k] eqn:Ek; [lia|].
  by replace (sid + 0 + Z.of_nat k) with (sid + n - 1) by lia.
Qed.

(** The sectors [sid, sid + n) all hold the first [SECTOR_SIZE] bytes of [mem]. *)
Definition written_range (mem : list Z) (n sid : Z) (f : Z -> list Z) (s : Z) : list Z :=
  if decide (sid <= s < sid + n) then take SECTOR_SIZE mem else f s.

Lemma bwrite_loop_inv n i c l mem sid :
  cache_inv c l -> bufs c <> [] -> (SECTOR_SIZE <= length mem)%nat ->
  0 <= sid + i -> sid + i + Z.of_nat n <= 2 ^ 32 ->
  exists c' l', for_loop n i (fun i => bwrite_sector mem (u32 (sid + i))) c = Ok (tt, c') /\
    cache_inv c' l' /\ bufs c' <> [] /\ page_cache_policy c' = page_cache_policy c /\
    (forall s, view c' s = written_range mem (Z.of_nat n) (sid + i) (view c) s) /\
    (page_cache_policy c = BWRITE_THROUGH -> clean c l -> clean c' l').
Proof.
  revert i c l; induction n as [|n IH]; intros i c l Hi Hne Hm H0 Hn; simpl.
  - exists c, l. split_and!; try done. intros s. unfold written_range.
    rewrite decide_False; [done|lia].
  - rewrite u32_small by lia.
    destruct (bwrite_sector_inv c l mem (sid + i) Hi Hne Hm) as (c1 & l1 & E1 & Hi1 & Hl1 & Hp1 & Hv1 & Hc1).
    rewrite (bind_ok _ _ _ _ _ E1).
    destruct (IH (i + 1) c1 l1) as (c' & l' & E' & Hi' & Hne' & Hp' & Hv' & Hc'); try done; try lia.
    { by eapply length_nonempty. }
    exists c', l'. split_and!; try done; [congruence| |].
    + intros s. rewrite Hv'. unfold written_range. rewrite Hv1. unfold written.
      repeat case_decide; try done; lia.
    + intros Ht Hc. apply Hc'; [congruence|]. by apply Hc1.
Qed.

Lemma bwrite_inv c l mem n sid :
  cache_inv c l -> bufs c <> [] -> (SECTOR_SIZE <= length mem)%nat ->
  0 <= n -> 0 <= sid -> sid + n <= 2 ^ 32 ->
  exists c' l', bwrite mem n sid c = Ok (tt, c') /\
    cache_inv c' l' /\ bufs c' <> [] /\ page_cache_policy c' = page_cache_policy c /\
    (forall s, view c' s = written_range mem n sid (view c) s) /\
    (page_cache_policy c = BWRITE_THROUGH -> clean c l -> clean c' l').
Proof.
  intros Hi Hne Hm Hn Hs Hb.
  destruct (bwrite_loop_inv (Z.to_nat n) 0 c l mem sid) as (c' & l' & H); try done; try lia.
  exists c', l'. by rewrite Z2Nat.id, Z.add_0_r in H.
Qed.

Lemma bwrite_ok c mem n sid :
  store_ok c -> (SECTOR_SIZE <= length mem)%nat -> 0 <= n -> 0 <= sid -> sid + n <= 2 ^ 32 ->
  exists c', bwrite mem n sid c = Ok (tt, c') /\ store_ok c' /\
    forall s, view c' s = written_range mem n sid (view c) s.
Proof.
  intros [Hne [l Hi]] Hm Hn Hs Hb.
  destruct (bwrite_inv c l mem n sid) as (c' & l' & E & Hi' & Hne' & _ & Hv & _); try done.
  exists c'. split; [done|]. split; [|done]. split; [done|by exists l'].
Qed.

(** ** Flushing *)

Lemma bflush_loop_ok fuel c l1 l2 :
  cache_inv c (l1 ++ l2) -> clean c l1 -> (length l2 < fuel)%nat ->
  exists c', bflush_loop fuel (Some (match l2 with [] => HeadA | i :: _ => BufA i end)) c = Ok (tt, c') /\
    cache_inv c' (l1 ++ l2) /\ clean c' (l1 ++ l2) /\ (forall s, view c' s = view c s) /\
    length (bufs c') = length (bufs c).
Proof.
  revert c l1 l2; induction fuel as [|fuel IH]; intros c l1 l2 Hi Hc Hf; [lia|].
  destruct l2 as [|i l2]; simpl.
  { exists c. rewrite app_nil_r in *. done. }
  destruct (ci_range _ _ Hi i) as [b E]; [set_solver|].
  assert (i ∈ l1 ++ i :: l2) as Hil by set_solver.
  assert (i < length (bufs c))%nat as Hlt by (by eapply lookup_lt_Some).
  rewrite (bind_ok _ _ _ _ _ (read_buf_ok _ _ _ E)).
  assert (exists c1, (if negb (dirty b =? 0)
       then bios_sd_write i (sectorid b);; upd_buf i (set_dirty 0) else mret tt) c = Ok (tt, c1) /\
    cache_inv c1 (l1 ++ i :: l2) /\ clean c1 (l1 ++ [i]) /\ blinks c1 = blinks c /\
    (forall s, view c1 s = view c s) /\ length (bufs c1) = length (bufs c))
    as (c1 & E1 & Hi1 & Hc1 & Hb1 & Hv1 & Hl1).
  { destruct (Z.eqb_spec (dirty b) 0) as [Hz|Hz]; simpl.
    - exists c. split_and!; try done.
      intros k x [Hk|Hk%list_elem_of_singleton]%elem_of_app Hx; [eauto|congruence].
    - pose proof (ci_data _ _ Hi _ _ E) as Hdl.
      destruct (inv_store c _ i b (set_dirty 0 b) (sd_write (disk c) (sectorid b) (data b)) Hi Hil E)
        as [Hi' Hv']; try done.
      { by apply (in_use c _ i b Hi E). } { intros s Hs. by apply sd_read_write_ne. }
      { intros _. symmetry. by apply sd_read_write. }
      eexists. split; [|split; [exact Hi'|]].
      { rewrite (bind_ok _ _ _ _ _ (bios_sd_write_ok _ _ _ _ E)).
        by rewrite (upd_buf_ok _ _ (with_disk _ c) _ E). }
      split_and!; try done; simpl; rewrite ?length_insert; try done.
      + intros k x Hk [(<- & <- & _)|[Hne Hx]]%list_lookup_insert_Some; [done|].
        apply elem_of_app in Hk as [Hk|Hk%list_elem_of_singleton]; [eauto|congruence].
      + intros s. rewrite Hv'. case_decide as Hs; [|done].
        rewrite Hs. symmetry. exact (view_hit c _ i b Hi Hil E). }
  rewrite (bind_ok _ _ _ _ _ E1), (bind_ok _ _ _ _ _ eq_refl).
  pose proof (ci_dll _ _ Hi1) as Hd. rewrite fmap_app, fmap_cons in Hd.
  destruct (is_dll_elem _ _ _ _ _ Hd) as (Hn & _).
  rewrite (bind_ok _ _ _ _ _ (lift_ok _ _ _ (ld_next_spec _ _ _ Hn))).
  rewrite cons_middle, (assoc_L (++)) in Hi1 |- *.
  destruct (IH c1 (l1 ++ [i]) l2 Hi1 Hc1) as (c' & E' & Hi' & Hc' & Hv' & Hl'); [simpl in Hf; lia|].
  exists c'. split; [|split; [done|]; split; [done|]; split; [|congruence]; intros s; by rewrite Hv', Hv1].
  by destruct l2.
Qed.

Lemma bflush_ok c l :
  cache_inv c l ->
  exists c', bflush c = Ok (tt, c') /\ cache_inv c' l /\ clean c' l /\
    (forall s, view c' s = view c s) /\ length (bufs c') = length (bufs c).
Proof.
  intros Hi. unfold bflush. rewrite (bind_ok _ _ _ _ _ eq_refl).
  pose proof (ci_dll _ _ Hi) as Hd.
  rewrite (bind_ok _ _ _ _ _ (lift_ok _ _ _ (ld_next_spec _ _ _ (is_dll_next _ _ _ Hd)))).
  destruct (bflush_loop_ok (size (blinks c)) c [] l Hi) as (c' & E & H).
  { intros k x Hk. set_solver. }
  { apply is_dll_fuel in Hd. by rewrite length_fmap in Hd. }
  exists c'. split; [|done]. rewrite <- E. by destruct l.
Qed.

(** [init_bcache] empties the cache, whatever it held. *)
Lemma init_bcache_ok c :
  (forall a, (exists i, a = BufA i /\ (i < length (bufs c))%nat) \/ a = HeadA -> mapped (blinks c) a) ->
  (forall i b, bufs c !! i = Some b -> length (data b) = SECTOR_SIZE) ->
  exists c', init_bcache c = Ok (tt, c') /\ cache_inv c' [] /\ disk c' = disk c /\
    length (bufs c') = length (bufs c) /\ (forall s, view c' s = sd_read (disk c) s).
Proof.
  intros Hm Hd. unfold init_bcache.
  destruct (st_prev_spec (blinks c) HeadA (Some HeadA)) as (h1 & E1 & Hp1 & Hn1 & F1).
  { apply Hm. by right. }
  destruct (st_next_spec h1 HeadA (Some HeadA)) as (h2 & E2 & Hn2 & Hp2 & F2).
  { eapply frame_mapped; [exact F1|]. apply Hm. by right. }
  set (c' := with_bufs (set_valid 0 <$> bufs c) (with_blinks h2 c)).
  assert (cache_inv c' []) as Hi.
  { split; simpl.
    - apply is_dll_nil; [rewrite Hn2; by case_decide | rewrite Hp2, Hp1; by case_decide].
    - intros i Hi. rewrite length_fmap in Hi. eapply frame_mapped; [exact F2|].
      eapply frame_mapped; [exact F1|]. apply Hm. eauto.
    - intros i b. rewrite list_lookup_fmap, fmap_Some. intros (b0 & E & ->). right. split; [done|]. apply not_elem_of_nil.
    - intros i []%elem_of_nil.
    - intros i j b b' []%elem_of_nil.
    - intros i b []%elem_of_nil.
    - intros i b. rewrite list_lookup_fmap, fmap_Some. intros (b0 & E & ->). simpl. eauto. }
  exists c'. split.
  { rewrite (bind_ok _ _ c tt (with_blinks h2 c)); [done|]. apply on_blinks_ok. by rewrite E1. }
  split; [done|]. split; [done|]. split; [simpl; by rewrite length_fmap|].
  intros s. apply (view_miss c' [] s Hi). intros i b []%elem_of_nil.
Qed.

(** ** The cache as a flat array of sectors *)

Inductive cop :=
| OpRead (mem : list Z) (n sid : Z)
| OpWrite (mem : list Z) (n sid : Z)
| OpFlush.

Definition cop_wf (o : cop) : Prop :=
  match o with
  | OpRead mem n sid => (SECTOR_SIZE <= length mem)%nat /\ 0 < n /\ 0 <= sid /\ sid + n <= 2 ^ 32
  | OpWrite mem n sid => (SECTOR_SIZE <= length mem)%nat /\ 0 <= n /\ 0 <= sid /\ sid + n <= 2 ^ 32
  | OpFlush => True
  end.

(** Run the operations, collecting what the reads return. *)
Fixpoint run_cops (os : list cop) : M cache (list (list Z)) :=
  match os with
  | [] => mret []
  | OpRead mem n sid :: os' => r ← bread mem n sid; rs ← run_cops os'; mret (r :: rs)
  | OpWrite mem n sid :: os' => bwrite mem n sid;; run_cops os'
  | OpFlush :: os' => bflush;; run_cops os'
  end.

(** The same on a map of sectors, without any cache: a read of [n] sectors
    leaves the last of them at the start of the memory, a write of [n] sectors
    stores the first [SECTOR_SIZE] bytes in each. *)
Fixpoint flat_cops (os : list cop) (f : Z -> list Z) : list (list Z) * (Z -> list Z) :=
  match os with
  | [] => ([], f)
  | OpRead mem n sid :: os' =>
    let r := flat_cops os' f in ((f (sid + n - 1) ++ drop SECTOR_SIZE mem) :: r.1, r.2)
  | OpWrite mem n sid :: os' => flat_cops os' (written_range mem n sid f)
  | OpFlush :: os' => flat_cops os' f
  end.

Lemma flat_cops_ext os f g :
  (forall s, f s = g s) ->
  (flat_cops os f).1 = (flat_cops os g).1 /\ forall s, (flat_cops os f).2 s = (flat_cops os g).2 s.
Proof.
  revert f g; induction os as [|[mem n sid|mem n sid|] os IH]; intros f g Hfg; simpl; [done| | |].
  - destruct (IH f g Hfg) as [-> H2]. by rewrite Hfg.
  - apply IH. intros s. unfold written_range. by rewrite Hfg.
  - by apply IH.
Qed.

Lemma run_cops_ok os c :
  Forall cop_wf os -> store_ok c ->
  exists outs c', run_cops os c = Ok (outs, c') /\ store_ok c' /\
    outs = (flat_cops os (view c)).1 /\ forall s, view c' s = (flat_cops os (view c)).2 s.
Proof.
  intros Hwf. revert c; induction Hwf as [|o os Ho _ IH]; intros c Hc; simpl; [by exists [], c|].
  destruct o as [mem n sid|mem n sid|]; simpl in Ho.
  - destruct Ho as (Hm & Hn & Hs & Hb).
    destruct (bread_ok c mem n sid Hc Hm Hn) as (c1 & E1 & Hc1 & Hv1).
    destruct (IH c1 Hc1) as (outs & c' & E & Hc' & Ho & Hv).
    destruct (flat_cops_ext os (view c1) (view c) Hv1) as [H1 H2].
    rewrite u32_small in E1 by lia.
    eexists _, c'. rewrite (bind_ok _ _ _ _ _ E1), (bind_ok _ _ _ _ _ E). split; [done|].
    split; [done|]. simpl. rewrite Ho, H1. split; [done|]. intros s. by rewrite Hv, H2.
  - destruct Ho as (Hm & Hn & Hs & Hb).
    destruct (bwrite_ok c mem n sid Hc Hm Hn Hs Hb) as (c1 & E1 & Hc1 & Hv1).
    destruct (IH c1 Hc1) as (outs & c' & E & Hc' & Ho & Hv).
    destruct (flat_cops_ext os (view c1) (written_range mem n sid (view c)) Hv1) as [H1 H2].
    exists outs, c'. rewrite (bind_ok _ _ _ _ _ E1), E. split; [done|].
    split; [done|]. rewrite Ho, H1. split; [done|]. intros s. by rewrite Hv, H2.
  - clear Ho. destruct Hc as [Hne [l Hi]]. destruct (bflush_ok c l Hi) as (c1 & E1 & Hi1 & _ & Hv1 & Hl1).
    destruct (IH c1) as (outs & c' & E & Hc' & Ho & Hv).
    { split; [by eapply length_nonempty | by exists l]. }
    destruct (flat_cops_ext os (view c1) (view c) Hv1) as [H1 H2].
    exists outs, c'. rewrite (bind_ok _ _ _ _ _ E1), E. split; [done|].
    split; [done|]. rewrite Ho, H1. split; [done|]. intros s. by rewrite Hv, H2.
Qed.

(** ** Correctness of the cache *)

(** C1.  Transparency: for any sequence of reads, writes and flushes, whatever is
    cached, filled, evicted or written back on the way, under both policies, the
    cache returns what a plain array of sectors would return and ends in the
    state that array would be in; no operation fails. *)
Theorem cache_transparent os c :
  Forall cop_wf os -> store_ok c ->
  exists outs c', run_cops os c = Ok (outs, c') /\ store_ok c' /\
    outs = (flat_cops os (view c)).1 /\ forall s, view c' s = (flat_cops os (view c)).2 s.
Proof. apply run_cops_ok. Qed.

(**  [bflush] makes the disk agree with what readers see, in every sector, and
    changes nothing for readers; it terminates on every well-formed cache. *)
Theorem bflush_durable c :
  store_ok c ->
  exists c', bflush c = Ok (tt, c') /\ store_ok c' /\
    forall s, sd_read (disk c') s = view c s /\ view c' s = view c s.
Proof.
  intros [Hne [l Hi]]. destruct (bflush_ok c l Hi) as (c' & E & Hi' & Hc & Hv & Hl).
  exists c'. split; [done|]. split; [split; [by eapply length_nonempty | by exists l]|].
  intros s. split; [|done]. rewrite <- Hv. by eapply clean_view.
Qed.

(**  Under the write-through policy a write is on the disk when [bwrite] returns:
    the disk agrees with the readers' view afterwards if it did before. *)
Theorem write_through_durable c l mem n sid :
  cache_inv c l -> clean c l -> bufs c <> [] -> page_cache_policy c = BWRITE_THROUGH ->
  (SECTOR_SIZE <= length mem)%nat -> 0 <= n -> 0 <= sid -> sid + n <= 2 ^ 32 ->
  exists c' l', bwrite mem n sid c = Ok (tt, c') /\ cache_inv c' l' /\ clean c' l' /\
    forall s, sd_read (disk c') s = written_range mem n sid (view c) s.
Proof.
  intros Hi Hc Hne Hp Hm Hn Hs Hb.
  destruct (bwrite_inv c l mem n sid) as (c' & l' & E & Hi' & _ & _ & Hv & Hcl); try done.
  exists c', l'. split; [done|]. split; [done|]. split; [by apply Hcl|].
  intros s. rewrite <- Hv. eapply clean_view; [done|]. by apply Hcl.
Qed.

(**  Replacement is first in, first out: a hit changes nothing at all, and when all
    buffers are in use a miss evicts the buffer that was filled longest ago,
    however recently it was used. *)
Theorem replacement_fifo c l sid :
  cache_inv c l -> bufs c <> [] ->
  (forall i b, bufs c !! i = Some b -> valid b = 1) ->
  (exists i, get_buf sid c = Ok (i, c)) \/
  (exists j l' c' b', l = l' ++ [j] /\ get_buf sid c = Ok (j, c') /\ cache_inv c' (j :: l') /\
     bufs c' !! j = Some b' /\ sectorid b' = sid).
Proof.
  intros Hi Hne Hall. unfold get_buf.
  destruct (search_buf_ok c l sid Hi) as [(i & b & Es & _)|[Es Hu]];
    rewrite (bind_ok _ _ _ _ _ Es); [left; by exists i|right].
  destruct (find_free_buf_ok c l Hi Hne)
    as (i & c1 & l1 & E1 & Hi1 & Hil & [b Eb] & Hl & Hlen & Hpol & Hv1 & Hu1 & Hk1).
  destruct (fill_ok c1 l1 i b sid) as (c' & E & Hi' & Hb'); try done; [by apply Hu1|].
  exists i, l1, c', (mkBuf 1 0 sid (sd_read (disk c1) sid)). split_and!; try done.
  - destruct Hl as [->|Hl]; [|done]. exfalso. apply Hil.
    destruct (lookup_lt_is_Some_2 (bufs c) i) as [x Ex];
      [rewrite <- Hlen; by eapply lookup_lt_Some|].
    apply (in_use c l i x Hi Ex). eauto.
  - unfold brefill. rewrite bind_bind, (bind_ok _ _ _ _ _ E1). exact E.
  - apply Hb'.
Qed.

(**  A block of [n] sectors written and read back: only the first sector of the
    memory comes back, since neither loop advances the memory address; the rest
    of the reader's memory is left as it was. *)
Theorem block_roundtrip c mem mem' n sid :
  store_ok c -> (SECTOR_SIZE <= length mem)%nat -> (SECTOR_SIZE <= length mem')%nat ->
  0 < n -> 0 <= sid -> sid + n <= 2 ^ 32 ->
  exists c', (bwrite mem n sid;; bread mem' n sid) c =
    Ok (take SECTOR_SIZE mem ++ drop SECTOR_SIZE mem', c').
Proof.
  intros Hc Hm Hm' Hn Hs Hb.
  destruct (bwrite_ok c mem n sid) as (c1 & E1 & Hc1 & Hv1); try done; try lia.
  destruct (bread_ok c1 mem' n sid Hc1 Hm' Hn) as (c2 & E2 & _).
  exists c2. rewrite (bind_ok _ _ _ _ _ E1), E2. rewrite u32_small by lia.
  rewrite Hv1. unfold written_range. by rewrite decide_True by lia.
Qed.

End Cache.

(** ** The interface the file system is written against

    [s_view]: the contents of the sectors.  A multi-sector transfer has the
    behaviour of the source's loops. *)
Class SectorStore (St : Type) := {
  s_ok : St -> Prop;
  s_view : St -> Z -> list Z;
  s_bread : list Z -> Z -> Z -> M St (list Z);
  s_bwrite : list Z -> Z -> Z -> M St unit;
  s_flush : M St unit;
  s_init : M St unit;
  s_set_policy : Z -> M St unit;
  s_view_length st s : s_ok st -> length (s_view st s) = SECTOR_SIZE;
  s_bread_ok st mem n sid :
    s_ok st -> (SECTOR_SIZE <= length mem)%nat -> 0 < n -> 0 <= sid -> sid + n <= 2 ^ 32 ->
    exists st', s_bread mem n sid st = Ok (s_view st (sid + n - 1) ++ drop SECTOR_SIZE mem, st') /\
      s_ok st' /\ forall s, s_view st' s = s_view st s;
  s_bread_total st mem n sid :
    s_ok st -> (SECTOR_SIZE <= length mem)%nat -> 0 < n ->
    exists v st', s_bread mem n sid st = Ok (v, st') /\ s_ok st' /\ length v = length mem;
  s_bwrite_ok st mem n sid :
    s_ok st -> (SECTOR_SIZE <= length mem)%nat -> 0 <= n -> 0 <= sid -> sid + n <= 2 ^ 32 ->
    exists st', s_bwrite mem n sid st = Ok (tt, st') /\ s_ok st' /\
      forall s, s_view st' s = written_range mem n sid (s_view st) s;
  s_flush_ok st :
    s_ok st -> exists st', s_flush st = Ok (tt, st') /\ s_ok st' /\
      forall s, s_view st' s = s_view st s;
  s_init_ok st : s_ok st -> exists st', s_init st = Ok (tt, st') /\ s_ok st';
  s_set_policy_ok st v :
    s_ok st -> exists st', s_set_policy v st = Ok (tt, st') /\ s_ok st' /\
      forall s, s_view st' s = s_view st s }.

#[global, refine] Instance cache_store {D} `{!BlockDevice D} : SectorStore (@cache D) := {
  s_ok := store_ok; s_view := view; s_bread := bread; s_bwrite := bwrite;
  s_flush := bflush; s_init := init_bcache; s_set_policy v := modify (with_policy v) }.
Proof.
  - intros st s [_ [l Hi]]. by eapply view_length.
  - intros st mem n sid Hc Hm Hn Hs Hb. destruct (bread_ok st mem n sid Hc Hm Hn) as (c' & E & H).
    exists c'. rewrite u32_small in E by lia. done.
  - intros st mem n sid Hc Hm Hn. destruct (bread_ok st mem n sid Hc Hm Hn) as (c' & E & Hc' & _).
    eexists _, c'. split; [exact E|]. split; [done|]. rewrite length_app, length_drop.
    destruct Hc as [_ [l Hi]]. rewrite (view_length _ _ _ Hi). lia.
  - intros. by apply bwrite_ok.
  - intros st [Hne [l Hi]]. destruct (bflush_ok st l Hi) as (c' & E & Hi' & _ & Hv & Hl).
    exists c'. split; [done|]. split; [|done]. split; [by eapply length_nonempty | by exists l].
  - intros st [Hne [l Hi]]. destruct (init_bcache_ok st) as (c' & E & Hi' & _ & Hl & _).
    + intros a [(i & -> & Hlt)| ->]; [by eapply ci_mapped|].
      eapply is_dll_mapped; [apply Hi | set_solver].
    + intros i b. by apply (ci_data _ _ Hi).
    + exists c'. split; [done|]. split; [by eapply length_nonempty | by exists []].
  - intros st v [Hne [l Hi]]. exists (with_policy v st). split; [done|].
    split; [|done]. split; [done|]. exists l. by destruct Hi.
Defined.

(** ** A small cache: two buffers in front of a memory disk *)

Definition small_cache (pol : Z) (d : gmap Z (list Z)) : @cache (gmap Z (list Z)) :=
  mkCache (replicate 2 (mkBuf 0 0 0 (replicate SECTOR_SIZE 0)))
    (list_to_map [(HeadA, Node (Some HeadA) (Some HeadA)); (BufA 0, Node None None);
                  (BufA 1, Node None None)]) pol d.

Lemma small_cache_inv pol d : cache_inv (small_cache pol d) [].
Proof.
  split.
  - apply is_dll_nil; reflexivity.
  - intros [|[|i]] Hi; [by eexists | by eexists |]. simpl in Hi. lia.
  - intros i b [-> _]%lookup_replicate. right. split; [done|]. apply not_elem_of_nil.
  - intros i []%elem_of_nil.
  - intros i j b b' []%elem_of_nil.
  - intros i b []%elem_of_nil.
  - intros i b [-> _]%lookup_replicate. apply length_replicate.
Qed.

Lemma small_cache_ok pol d : store_ok (small_cache pol d).
Proof. split; [done|]. exists []. apply small_cache_inv. Qed.

Definition sector (v : Z) : list Z := replicate SECTOR_SIZE v.
Lemma sector_length v : (SECTOR_SIZE <= length (sector v))%nat.
Proof. unfold sector. by rewrite length_replicate. Qed.

Lemma cache_transparent_witness :
  let os := [OpWrite (sector 7) 1 5; OpWrite (sector 8) 1 6; OpWrite (sector 9) 1 7;
             OpFlush; OpRead (sector 0) 1 5] in
  exists outs c', run_cops os (small_cache BWRITE_BACK ∅) = Ok (outs, c') /\ store_ok c' /\
    outs = (flat_cops os (view (small_cache BWRITE_BACK ∅))).1 /\
    forall s, view c' s = (flat_cops os (view (small_cache BWRITE_BACK ∅))).2 s.
Proof.
  intros os. apply (cache_transparent os).
  - repeat constructor; simpl; try lia; apply sector_length.
  - apply small_cache_ok.
Defined.

Lemma bflush_durable_witness :
  exists c', bflush (small_cache BWRITE_BACK ∅) = Ok (tt, c') /\ store_ok c' /\
    forall s, sd_read (disk c') s = view (small_cache BWRITE_BACK ∅) s /\
      view c' s = view (small_cache BWRITE_BACK ∅) s.
Proof. apply (bflush_durable (small_cache BWRITE_BACK ∅)). apply small_cache_ok. Defined.

Lemma write_through_durable_witness :
  exists c' l', bwrite (sector 7) 2 5 (small_cache BWRITE_THROUGH ∅) = Ok (tt, c') /\
    cache_inv c' l' /\ clean c' l' /\
    forall s, sd_read (disk c') s =
      written_range (sector 7) 2 5 (view (small_cache BWRITE_THROUGH ∅)) s.
Proof.
  apply (write_through_durable (small_cache BWRITE_THROUGH ∅) []);
    [apply small_cache_inv | intros k x []%elem_of_nil | done | done | apply sector_length | lia..].
Defined.

Definition full_cache : @cache (gmap Z (list Z)) :=
  match (bread (sector 0) 2 5) (small_cache BWRITE_BACK ∅) with
  | Ok (_, c) => c | Err _ => small_cache BWRITE_BACK ∅ end.

Lemma full_cache_inv : exists l, cache_inv full_cache l /\ bufs full_cache <> [].
Proof.
  destruct (bread_ok (small_cache BWRITE_BACK ∅) (sector 0) 2 5 (small_cache_ok _ _) (sector_length 0))
    as (c & E & [Hne [l Hi]] & _); [lia|].
  exists l. unfold full_cache. by rewrite E.
Qed.

Lemma replacement_fifo_witness :
  exists l, (exists i, get_buf 9 full_cache = Ok (i, full_cache)) \/
  (exists j l' c' b', l = l' ++ [j] /\ get_buf 9 full_cache = Ok (j, c') /\ cache_inv c' (j :: l') /\
     bufs c' !! j = Some b' /\ sectorid b' = 9).
Proof.
  destruct full_cache_inv as (l & Hi & Hne). exists l.
  apply (replacement_fifo full_cache l 9); [exact Hi | exact Hne |].
  intros [|[|i]] b E; vm_compute in E; [by injection E as <- | by injection E as <- | discriminate E].
Defined.

Lemma block_roundtrip_witness :
  exists c', (bwrite (sector 1 ++ sector 2) 2 8;; bread (sector 3 ++ sector 4) 2 8)
      (small_cache BWRITE_BACK ∅) =
    Ok (take SECTOR_SIZE (sector 1 ++ sector 2) ++ drop SECTOR_SIZE (sector 3 ++ sector 4), c').
Proof.
  apply block_roundtrip; [apply small_cache_ok | | | lia..];
    rewrite length_app; unfold sector; rewrite !length_replicate; lia.
Defined.
