(* ===== verification/FsLayout.v ===== *)
(** * On-disk layout of the file system (include/os/fs.h)

    The regions of the disk, the encoding of inodes, directory entries and the
    superblock as bytes, and the allocation bitmaps. *)
From Stdlib Require String Ascii.
From S2P Require Import Prelude CString BCache.

(** ** Constants *)

Definition SUPERBLOCK_MAGIC : Z := 0xDF4C4459.
Definition NUM_FDESCS : nat := 16.
Definition BLOCK_SIZE : nat := 4096.
Definition BLOCK_SECTORS : Z := 8.       (* BLOCK_SIZE / SECTOR_SIZE *)
Definition FS_NUM_SECTORS : Z := 2 ^ 20.
Definition FS_START_SECTOR : Z := 0x100.
Definition BLOCK_MAP_SIZE : Z := 32.
Definition INODE_MAP_SIZE : Z := 1.
Definition INODE_SIZE : Z := 512.
Definition BLOCK_MAP_OFFSET : Z := 1.
Definition INODE_MAP_OFFSET : Z := BLOCK_MAP_OFFSET + BLOCK_MAP_SIZE.
Definition INODE_OFFSET : Z := INODE_MAP_OFFSET + INODE_MAP_SIZE.
Definition DATA_OFFSET : Z := INODE_OFFSET + INODE_SIZE.
Definition DATA_SIZE : Z := FS_NUM_SECTORS - DATA_OFFSET.
Definition IT_DIR : Z := 1.
Definition IT_FILE : Z := 2.
Definition MAX_PATHNAME_LEN : nat := 27.
Definition DIRECT_BLOCK_NUM : Z := 7.
Definition NBLOCK_LV1 : Z := 1024.       (* BLOCK_SIZE / sizeof(uint32_t) *)
Definition NBLOCK_LV2 : Z := NBLOCK_LV1 * NBLOCK_LV1.
Definition NBLOCK_LV3 : Z := NBLOCK_LV2 * NBLOCK_LV1.
Definition O_RDONLY : Z := 1.
Definition O_WRONLY : Z := 2.
Definition O_RDWR : Z := 3.
Definition SEEK_SET : Z := 0.
Definition SEEK_CUR : Z := 1.
Definition SEEK_END : Z := 2.
Definition INODE_BYTES : nat := 64.      (* sizeof(inode_t) *)
Definition DENTRY_BYTES : nat := 32.     (* sizeof(dentry_t) *)
Definition DENTRIES : nat := 128.        (* BLOCK_SIZE / sizeof(dentry_t) *)
(** [(uint32_t) -1] *)
Definition MINUS1 : Z := 2 ^ 32 - 1.

Definition SECTOR2BLOCK (s : Z) : Z := s / 8.
Definition BLOCK2SECTOR (b : Z) : Z := b * 8.

(** [ROUND] and [ROUNDDOWN] (include/os/mm.h), for a power of two [n]. *)
Definition ROUNDDOWN (a n : Z) : Z := Z.land a (Z.lnot (n - 1)).
Definition ROUND (a n : Z) : Z := Z.land (u64 (a + n - 1)) (Z.lnot (n - 1)).

Definition inodeidx2sector (inode_idx : Z) : Z :=
  u32 (FS_START_SECTOR + INODE_OFFSET + ROUNDDOWN (inode_idx * 64) 512 / 512).
Definition inodeidx2offset (inode_idx : Z) : Z := inode_idx mod 8.

(** A string literal as it lies in memory. *)
Fixpoint codes (s : String.string) : list Z :=
  match s with
  | String.EmptyString => []
  | String.String a s' => Z.of_N (Ascii.N_of_ascii a) :: codes s'
  end.
Definition cstr (s : String.string) : list Z := codes s ++ [0].

(** ** Little-endian integers *)

Fixpoint le_bytes (n : nat) (v : Z) : list Z :=
  match n with
  | O => []
  | S n' => v mod 256 :: le_bytes n' (v / 256)
  end.
Fixpoint le_val (l : list Z) : Z :=
  match l with
  | [] => 0
  | b :: l' => b + 256 * le_val l'
  end.

(** [slice off n l]: the [n] bytes of [l] at [off]; [splice off v l]: [l] with
    [v] stored at [off]. *)
Definition slice (off n : nat) (l : list Z) : list Z := take n (drop off l).
Definition splice (off : nat) (v l : list Z) : list Z :=
  take off l ++ v ++ drop (off + length v) l.

(** [((uint32_t * ) buf)[i]] and the store to it. *)
Definition u32_at (buf : list Z) (i : Z) : Z := le_val (slice (4 * Z.to_nat i) 4 buf).
Definition set_u32_at (buf : list Z) (i v : Z) : list Z :=
  splice (4 * Z.to_nat i) (le_bytes 4 v) buf.

(** ** Inodes, directory entries, superblock *)

Record inode_t := mkInode {
  i_mode : Z; i_type : Z; i_nlink : Z; i_ino : Z; i_size : Z;
  i_atime : Z; i_mtime : Z; i_ctime : Z; i_blocks : list Z }.

Definition encode_inode (i : inode_t) : list Z :=
  le_bytes 1 (i_mode i) ++ le_bytes 1 (i_type i) ++ le_bytes 2 (i_nlink i) ++
  le_bytes 4 (i_ino i) ++ le_bytes 4 (i_size i) ++ le_bytes 4 (i_atime i) ++
  le_bytes 4 (i_mtime i) ++ le_bytes 4 (i_ctime i) ++ mjoin (le_bytes 4 <$> i_blocks i).

Definition decode_inode (l : list Z) : inode_t :=
  mkInode (le_val (slice 0 1 l)) (le_val (slice 1 1 l)) (le_val (slice 2 2 l))
    (le_val (slice 4 4 l)) (le_val (slice 8 4 l)) (le_val (slice 12 4 l))
    (le_val (slice 16 4 l)) (le_val (slice 20 4 l))
    ((fun k => le_val (slice (24 + 4 * k) 4 l)) <$> seq 0 10).

Record dentry_t := mkDentry { d_name : list Z; d_type : Z; d_ino : Z }.

Definition encode_dentry (d : dentry_t) : list Z :=
  d_name d ++ le_bytes 1 (d_type d) ++ le_bytes 4 (d_ino d).
Definition decode_dentry (l : list Z) : dentry_t :=
  mkDentry (slice 0 27 l) (le_val (slice 27 1 l)) (le_val (slice 28 4 l)).

Record superblock_t := mkSuper {
  sb_magic : Z; sb_fs_start_sec : Z; sb_block_map_offset : Z; sb_inode_map_offset : Z;
  sb_inode_offset : Z; sb_data_offset : Z; sb_fs_size : Z; sb_block_map_size : Z;
  sb_inode_map_size : Z; sb_inode_size : Z; sb_data_size : Z;
  sb_inode_entry_size : Z; sb_dir_entry_size : Z }.

Definition encode_super (s : superblock_t) : list Z :=
  mjoin (le_bytes 4 <$> [sb_magic s; sb_fs_start_sec s; sb_block_map_offset s;
    sb_inode_map_offset s; sb_inode_offset s; sb_data_offset s; sb_fs_size s;
    sb_block_map_size s; sb_inode_map_size s; sb_inode_size s; sb_data_size s;
    sb_inode_entry_size s; sb_dir_entry_size s]).

(** The fields have the widths of the source. *)
Definition u32_range_list (l : list Z) : Prop := Forall (fun v => 0 <= v < 2 ^ 32) l.
Definition inode_wf (i : inode_t) : Prop :=
  0 <= i_mode i < 2 ^ 8 /\ 0 <= i_type i < 2 ^ 8 /\ 0 <= i_nlink i < 2 ^ 16 /\
  u32_range_list [i_ino i; i_size i; i_atime i; i_mtime i; i_ctime i] /\
  u32_range_list (i_blocks i) /\ length (i_blocks i) = 10%nat.
Definition dentry_wf (d : dentry_t) : Prop :=
  length (d_name d) = MAX_PATHNAME_LEN /\ Forall (fun b => 0 <= b < 2 ^ 8) (d_name d) /\
  0 <= d_type d < 2 ^ 8 /\ 0 <= d_ino d < 2 ^ 32.

Lemma length_le_bytes n v : length (le_bytes n v) = n.
Proof. revert v; induction n; intros v; simpl; [done|]. by rewrite IHn. Qed.

Lemma le_val_bytes n v : 0 <= v < 2 ^ (8 * Z.of_nat n) -> le_val (le_bytes n v) = v.
Proof.
  revert v; induction n as [|n IH]; intros v Hv; simpl.
  - simpl in Hv. lia.
  - rewrite IH.
    + pose proof (Z.div_mod v 256 ltac:(lia)). lia.
    + replace (8 * Z.of_nat (S n)) with (8 + 8 * Z.of_nat n) in Hv by lia.
      rewrite Z.pow_add_r in Hv by lia. change (2 ^ 8) with 256 in Hv.
      split; [apply Z.div_pos; lia|]. apply Z.div_lt_upper_bound; lia.
Qed.

Lemma le_bytes_val l :
  Forall (fun b => 0 <= b < 2 ^ 8) l -> le_bytes (length l) (le_val l) = l.
Proof.
  induction 1 as [|b l Hb _ IH]; simpl; [done|]. change (2 ^ 8) with 256 in Hb.
  replace ((b + 256 * le_val l) mod 256) with b.
  - replace ((b + 256 * le_val l) / 256) with (le_val l); [by rewrite IH|].
    rewrite (Z.mul_comm 256), Z.div_add by lia. rewrite Z.div_small by lia. lia.
  - rewrite (Z.mul_comm 256), Z.mod_add by lia. by rewrite Z.mod_small.
Qed.

Lemma le_val1 v : 0 <= v < 2 ^ 8 -> le_val (le_bytes 1 v) = v.
Proof. apply (le_val_bytes 1). Qed.
Lemma le_val2 v : 0 <= v < 2 ^ 16 -> le_val (le_bytes 2 v) = v.
Proof. apply (le_val_bytes 2). Qed.
Lemma le_val4 v : 0 <= v < 2 ^ 32 -> le_val (le_bytes 4 v) = v.
Proof. apply (le_val_bytes 4). Qed.

(** ** Slices *)

Lemma slice_app_here (a b : list Z) n off :
  length a = off -> length b = n -> slice off n (a ++ b) = b.
Proof.
  intros Ha Hb. unfold slice. rewrite drop_app_length' by done. apply firstn_all2. lia.
Qed.

Lemma slice_app_l (a b c : list Z) off n :
  length a = off -> length b = n -> slice off n (a ++ b ++ c) = b.
Proof.
  intros Ha Hb. unfold slice. rewrite drop_app_length' by done. by apply take_app_length'.
Qed.

Lemma length_splice off v l :
  (off + length v <= length l)%nat -> length (splice off v l) = length l.
Proof.
  intros H. unfold splice. rewrite !length_app, length_take, length_drop. lia.
Qed.

Lemma slice_splice_eq off v l :
  (off + length v <= length l)%nat -> slice off (length v) (splice off v l) = v.
Proof. intros H. unfold splice. apply slice_app_l; [rewrite length_take; lia | done]. Qed.

Lemma slice_splice_ne off off' n v l :
  (off + length v <= length l)%nat -> (off' + n <= off)%nat \/ (off + length v <= off')%nat ->
  slice off' n (splice off v l) = slice off' n l.
Proof.
  intros H [Ho|Ho]; unfold slice, splice.
  - rewrite drop_app_le by (rewrite length_take; lia).
    rewrite take_app_le by (rewrite length_drop, length_take; lia).
    rewrite skipn_firstn_comm, take_take. f_equal. lia.
  - rewrite (assoc_L (++)), drop_app_ge by (rewrite length_app, length_take; lia).
    rewrite length_app, length_take, drop_drop. f_equal. f_equal. lia.
Qed.

Lemma slice_splice_eq' off n v l :
  length v = n -> (off + n <= length l)%nat -> slice off n (splice off v l) = v.
Proof. intros <-. apply slice_splice_eq. Qed.

Lemma slice_splice_prefix off n v l :
  (off + length v <= length l)%nat -> (length v <= n)%nat ->
  slice off n (splice off v l) = v ++ slice (off + length v) (n - length v) l.
Proof.
  intros H Hn. unfold slice, splice. rewrite drop_app_length' by (rewrite length_take; lia).
  rewrite take_app_ge by done. done.
Qed.

Lemma length_slice off n l : (off + n <= length l)%nat -> length (slice off n l) = n.
Proof. intros H. unfold slice. rewrite length_take, length_drop. lia. Qed.

Lemma slice_slice off n off' n' l :
  (off' + n' <= n)%nat -> slice off' n' (slice off n l) = slice (off + off') n' l.
Proof.
  intros H. unfold slice. rewrite skipn_firstn_comm, take_take, drop_drop. f_equal. lia.
Qed.

Lemma slice_app_prefix off n (a b : list Z) :
  (off + n <= length a)%nat -> slice off n (a ++ b) = slice off n a.
Proof.
  intros H. unfold slice. rewrite drop_app_le by lia. rewrite take_app_le; [done|].
  rewrite length_drop. lia.
Qed.

(** ** Round trips *)

Lemma decode_encode_inode i : inode_wf i -> decode_inode (encode_inode i) = i.
Proof.
  destruct i as [mo ty nl ino sz at' mt ct bl]. intros (H1 & H2 & H3 & H4 & H5 & H6). simpl in *.
  do 10 (destruct bl as [|? bl]; [done|]). destruct bl; [|done].
  transitivity (mkInode (le_val (le_bytes 1 mo)) (le_val (le_bytes 1 ty)) (le_val (le_bytes 2 nl))
    (le_val (le_bytes 4 ino)) (le_val (le_bytes 4 sz)) (le_val (le_bytes 4 at'))
    (le_val (le_bytes 4 mt)) (le_val (le_bytes 4 ct))
    (le_val <$> (le_bytes 4 <$> [z; z0; z1; z2; z3; z4; z5; z6; z7; z8]))); [reflexivity|].
  unfold u32_range_list in *. rewrite !Forall_cons in H4. rewrite !Forall_cons in H5.
  destruct H4 as (? & ? & ? & ? & ? & _), H5 as (? & ? & ? & ? & ? & ? & ? & ? & ? & ? & _).
  rewrite !fmap_cons, !le_val1, le_val2, !le_val4 by done. done.
Qed.

Lemma length_join_u32 l : length (mjoin (le_bytes 4 <$> l)) = (4 * length l)%nat.
Proof.
  induction l as [|x l IH]; [done|]. rewrite fmap_cons.
  change (length (le_bytes 4 x ++ mjoin (le_bytes 4 <$> l)) = (4 * length (x :: l))%nat).
  rewrite length_app, IH, length_le_bytes. simpl. lia.
Qed.

Lemma length_encode_inode i : length (i_blocks i) = 10%nat -> length (encode_inode i) = INODE_BYTES.
Proof.
  intros Hb. unfold encode_inode. by rewrite !length_app, !length_le_bytes, length_join_u32, Hb.
Qed.

Lemma decode_encode_dentry d : dentry_wf d -> decode_dentry (encode_dentry d) = d.
Proof.
  intros (Hn & _ & Ht & Hi). destruct d as [nm ty ino]. unfold decode_dentry, encode_dentry.
  cbn [d_name d_type d_ino] in *.
  f_equal.
  - unfold slice. rewrite drop_0. by apply take_app_length'.
  - rewrite slice_app_l by (rewrite ?length_le_bytes; done). by apply le_val1.
  - rewrite (assoc_L (++)). rewrite slice_app_here.
    + by apply le_val4.
    + by rewrite length_app, length_le_bytes, Hn.
    + apply length_le_bytes.
Qed.

Lemma length_encode_dentry d :
  length (d_name d) = MAX_PATHNAME_LEN -> length (encode_dentry d) = DENTRY_BYTES.
Proof. intros Hn. unfold encode_dentry. by rewrite !length_app, !length_le_bytes, Hn. Qed.

Lemma u32_at_set_eq buf i v :
  0 <= i -> 0 <= v < 2 ^ 32 -> (4 * Z.to_nat i + 4 <= length buf)%nat ->
  u32_at (set_u32_at buf i v) i = v.
Proof.
  intros Hi Hv Hl. unfold u32_at, set_u32_at.
  rewrite (slice_splice_eq _ (le_bytes 4 v)) by (by rewrite length_le_bytes).
  by apply le_val4.
Qed.

Lemma u32_at_set_ne buf i j v :
  0 <= i -> 0 <= j -> i <> j -> (4 * Z.to_nat i + 4 <= length buf)%nat ->
  u32_at (set_u32_at buf i v) j = u32_at buf j.
Proof.
  intros Hi Hj Hne Hl. unfold u32_at, set_u32_at.
  rewrite slice_splice_ne; [done | by rewrite length_le_bytes | rewrite length_le_bytes; lia].
Qed.

(** ** Where inodes and blocks are *)

Lemma rounddown_pow2 a k : 0 <= k -> ROUNDDOWN a (2 ^ k) = a - a mod 2 ^ k.
Proof.
  intros Hk. unfold ROUNDDOWN.
  replace (2 ^ k - 1) with (Z.ones k) by (rewrite Z.ones_equiv; lia).
  rewrite <- Z.ldiff_land, Z.ldiff_ones_r by done.
  rewrite Z.shiftl_mul_pow2, Z.shiftr_div_pow2 by done.
  pose proof (Z.div_mod a (2 ^ k) ltac:(lia)). lia.
Qed.

Lemma inodeidx2sector_spec k :
  0 <= k < 2 ^ 32 -> inodeidx2sector k = FS_START_SECTOR + INODE_OFFSET + k / 8.
Proof.
  intros Hk. unfold inodeidx2sector. change 512 with (2 ^ 9).
  rewrite rounddown_pow2 by lia.
  assert ((k * 64 - (k * 64) mod 2 ^ 9) / 2 ^ 9 = k / 8) as ->.
  { change (2 ^ 9) with (64 * 8). rewrite (Z.mul_comm k 64), Z.mul_mod_distr_l by lia.
    rewrite <- Z.mul_sub_distr_l, Z.div_mul_cancel_l by lia.
    pose proof (Z.div_mod k 8 ltac:(lia)).
    replace (k - k mod 8) with (k / 8 * 8) by lia. by rewrite Z.div_mul by lia. }
  pose proof (Z.div_pos k 8 ltac:(lia) ltac:(lia)).
  pose proof (Z.div_lt_upper_bound k 8 (2 ^ 29) ltac:(lia) ltac:(lia)).
  apply u32_small. unfold FS_START_SECTOR, INODE_OFFSET, INODE_MAP_OFFSET, BLOCK_MAP_OFFSET,
    BLOCK_MAP_SIZE, INODE_MAP_SIZE. lia.
Qed.

(** ** Bitmaps

    The search loops of [find_free_inode] and [find_free_block]: bytes in order,
    and in a byte that is not 0xFF its bits in order.  [limit] is
    [data_block_num] in the latter; reaching it gives up. *)
Definition bit_clear (b bit : Z) : bool := Z.land b (Z.shiftl 1 bit) =? 0.

(** [None]: no bit is free, go on with the next byte; [Some r]: return [r]. *)
Fixpoint scan_bits (n : nat) (b byte_idx bit : Z) (limit : option Z) : option (option Z) :=
  match n with
  | O => None
  | S n' =>
    if (match limit with Some m => byte_idx * 8 + bit >=? m | None => false end)
    then Some None
    else if bit_clear b bit then Some (Some (byte_idx * 8 + bit))
    else scan_bits n' b byte_idx (bit + 1) limit
  end.

Fixpoint scan_bytes (l : list Z) (byte_idx : Z) (limit : option Z) : option Z :=
  match l with
  | [] => None
  | b :: l' =>
    if b =? 0xFF then scan_bytes l' (byte_idx + 1) limit
    else match scan_bits 8 b byte_idx 0 limit with
         | Some r => r
         | None => scan_bytes l' (byte_idx + 1) limit
         end
  end.

(** [map[k / 8] |= (1 << k % 8)] and [map[k / 8] &= ~(1 << k % 8)] *)
Definition set_bit (l : list Z) (k : Z) : list Z :=
  alter (fun b => u8 (Z.lor b (Z.shiftl 1 (k mod 8)))) (Z.to_nat (k / 8)) l.
Definition clear_bit (l : list Z) (k : Z) : list Z :=
  alter (fun b => u8 (Z.land b (Z.lnot (Z.shiftl 1 (k mod 8))))) (Z.to_nat (k / 8)) l.

(** Bit [k] of a bitmap. *)
Definition bit (l : list Z) (k : Z) : bool :=
  Z.testbit (default 0 (l !! Z.to_nat (k / 8))) (k mod 8).

Definition is_bytes (l : list Z) : Prop := Forall (fun b => 0 <= b < 2 ^ 8) l.

Lemma testbit_pow2 k j : 0 <= k -> Z.testbit (Z.shiftl 1 k) j = bool_decide (j = k).
Proof.
  intros Hk. rewrite Z.shiftl_1_l. case_bool_decide as E.
  - subst. by apply Z.pow2_bits_true.
  - by apply Z.pow2_bits_false.
Qed.

Lemma bit_clear_spec b k : 0 <= k -> bit_clear b k = negb (Z.testbit b k).
Proof.
  intros Hk. unfold bit_clear. destruct (Z.testbit b k) eqn:E; simpl.
  - apply Z.eqb_neq. intros H0.
    assert (Z.testbit (Z.land b (Z.shiftl 1 k)) k = true) as Ht.
    { rewrite Z.land_spec, E, testbit_pow2 by done. by rewrite bool_decide_true. }
    by rewrite H0, Z.bits_0 in Ht.
  - apply Z.eqb_eq. apply Z.bits_inj_0. intros j. rewrite Z.land_spec, testbit_pow2 by done.
    case_bool_decide; [subst; by rewrite E | by rewrite andb_false_r].
Qed.

Lemma scan_bits_spec n b i k limit :
  0 <= k ->
  match scan_bits n b i k limit with
  | Some (Some r) => exists j, r = i * 8 + j /\ k <= j < k + Z.of_nat n /\ Z.testbit b j = false /\
      (forall j', k <= j' < j -> Z.testbit b j' = true) /\
      (forall m, limit = Some m -> r < m)
  | Some None => exists j m, limit = Some m /\ k <= j < k + Z.of_nat n /\ m <= i * 8 + j /\
      (forall j', k <= j' < j -> Z.testbit b j' = true)
  | None => forall j, k <= j < k + Z.of_nat n -> Z.testbit b j = true
  end.
Proof.
  revert k; induction n as [|n IH]; intros k Hk; simpl; [intros j Hj; lia|].
  destruct (match limit with Some m => i * 8 + k >=? m | None => false end) eqn:El.
  { destruct limit as [m|]; [|done]. apply geb_le in El.
    exists k, m. split_and!; try done; try lia. }
  assert (forall m, limit = Some m -> i * 8 + k < m) as Hm.
  { intros m ->. by apply geb_lt. }
  rewrite bit_clear_spec by done. destruct (Z.testbit b k) eqn:Eb; simpl.
  - specialize (IH (k + 1) ltac:(lia)).
    destruct (scan_bits n b i (k + 1) limit) as [[r|]|].
    + destruct IH as (j & -> & Hj & Ht & Hall & Hlim). exists j. split_and!; try done; try lia.
      intros j' Hj'. destruct (decide (j' = k)) as [->|]; [done|]. apply Hall. lia.
    + destruct IH as (j & m & Hlim & Hj & Hmj & Hall). exists j, m. split_and!; try done; try lia.
      intros j' Hj'. destruct (decide (j' = k)) as [->|]; [done|]. apply Hall. lia.
    + intros j Hj. destruct (decide (j = k)) as [->|]; [done|]. apply IH. lia.
  - exists k. split_and!; try done; try lia.
Qed.

Lemma div8_decompose k : 0 <= k -> exists q r, k = q * 8 + r /\ 0 <= q /\ 0 <= r < 8 /\ k / 8 = q /\ k mod 8 = r.
Proof.
  intros Hk. exists (k / 8), (k mod 8). pose proof (Z.div_mod k 8 ltac:(lia)).
  pose proof (Z.mod_pos_bound k 8 ltac:(lia)). pose proof (Z.div_pos k 8 Hk ltac:(lia)). lia.
Qed.

Lemma bit_at l (q : nat) r b : 0 <= r < 8 -> l !! q = Some b -> bit l (Z.of_nat q * 8 + r) = Z.testbit b r.
Proof.
  intros Hr E. unfold bit. rewrite Z.div_add_l, (Z.div_small r) by lia.
  rewrite Z.add_0_r, Nat2Z.id, E. rewrite (Z.add_comm _ r), Z.mod_add, Z.mod_small by lia. done.
Qed.

(** The scan returns the least free bit below the limit, and gives up only when
    there is none. *)
Lemma scan_bytes_spec pre l limit :
  is_bytes (pre ++ l) ->
  (forall j, 0 <= j < 8 * Z.of_nat (length pre) -> bit (pre ++ l) j = true) ->
  match scan_bytes l (Z.of_nat (length pre)) limit with
  | Some k => 0 <= k < 8 * Z.of_nat (length (pre ++ l)) /\ bit (pre ++ l) k = false /\
      (forall j, 0 <= j < k -> bit (pre ++ l) j = true) /\ (forall m, limit = Some m -> k < m)
  | None => forall j, 0 <= j < 8 * Z.of_nat (length (pre ++ l)) ->
      (forall m, limit = Some m -> j < m) -> bit (pre ++ l) j = true
  end.
Proof.
  revert pre; induction l as [|b l IH]; intros pre Hb Hpre; cbn [scan_bytes].
  { rewrite app_nil_r in *. intros j Hj _. by apply Hpre. }
  assert ((pre ++ b :: l) !! length pre = Some b) as Eb by (by apply list_lookup_middle).
  assert (forall r, 0 <= r < 8 -> bit (pre ++ b :: l) (Z.of_nat (length pre) * 8 + r) = Z.testbit b r) as Hbit
    by (intros; by apply bit_at).
  assert ((forall r, 0 <= r < 8 -> Z.testbit b r = true) ->
    match scan_bytes l (Z.of_nat (length pre) + 1) limit with
    | Some k => 0 <= k < 8 * Z.of_nat (length (pre ++ b :: l)) /\ bit (pre ++ b :: l) k = false /\
        (forall j, 0 <= j < k -> bit (pre ++ b :: l) j = true) /\ (forall m, limit = Some m -> k < m)
    | None => forall j, 0 <= j < 8 * Z.of_nat (length (pre ++ b :: l)) ->
        (forall m, limit = Some m -> j < m) -> bit (pre ++ b :: l) j = true
    end) as Hnext.
  { intros Hall. specialize (IH (pre ++ [b])). rewrite <- app_assoc in IH. simpl in IH.
    replace (Z.of_nat (length pre) + 1) with (Z.of_nat (length (pre ++ [b])))
      by (rewrite length_app; simpl; lia).
    apply IH; [done|]. intros j Hj. rewrite length_app in Hj. simpl in Hj.
    destruct (decide (j < 8 * Z.of_nat (length pre))); [apply Hpre; lia|].
    replace j with (Z.of_nat (length pre) * 8 + (j - 8 * Z.of_nat (length pre))) by lia.
    rewrite Hbit by lia. apply Hall. lia. }
  destruct (Z.eqb_spec b 255) as [->|Hne].
  { apply Hnext. intros r Hr. assert (255 = Z.ones 8) as -> by done. by apply Z.ones_spec_low. }
  pose proof (scan_bits_spec 8 b (Z.of_nat (length pre)) 0 limit ltac:(lia)) as Hs.
  destruct (scan_bits 8 b (Z.of_nat (length pre)) 0 limit) as [[k|]|].
  - destruct Hs as (j & -> & Hj & Ht & Hall & Hlim). rewrite length_app. simpl length.
    split_and!; try lia; [by rewrite Hbit| |done].
    intros j' Hj'. destruct (decide (j' < 8 * Z.of_nat (length pre))); [apply Hpre; lia|].
    replace j' with (Z.of_nat (length pre) * 8 + (j' - 8 * Z.of_nat (length pre))) by lia.
    rewrite Hbit by lia. apply Hall. lia.
  - destruct Hs as (j & m & Hlim & Hj & Hmj & Hall). intros j' Hj' Hm.
    specialize (Hm m Hlim). destruct (decide (j' < 8 * Z.of_nat (length pre))); [apply Hpre; lia|].
    replace j' with (Z.of_nat (length pre) * 8 + (j' - 8 * Z.of_nat (length pre))) by lia.
    rewrite Hbit by lia. apply Hall. lia.
  - apply Hnext. intros r Hr. apply Hs. lia.
Qed.

Lemma testbit_u8 b r : 0 <= r < 8 -> Z.testbit (u8 b) r = Z.testbit b r.
Proof. intros Hr. unfold u8. apply Z.mod_pow2_bits_low. lia. Qed.

Lemma is_bytes_alter l f k : is_bytes l -> is_bytes (alter (fun b => u8 (f b)) k l).
Proof.
  intros Hl. apply Forall_lookup. intros i b. rewrite list_lookup_alter.
  rewrite fmap_Some || case_decide; [|intros E; by eapply Forall_lookup_1 in Hl].
  rewrite fmap_Some. intros (x & _ & ->). unfold u8. apply Z.mod_pos_bound. lia.
Qed.

Lemma bit_alter l f k j :
  0 <= k -> 0 <= j -> (k < 8 * Z.of_nat (length l)) ->
  bit (alter (fun b => u8 (f b)) (Z.to_nat (k / 8)) l) j =
  if decide (j / 8 = k / 8) then Z.testbit (f (default 0 (l !! Z.to_nat (k / 8)))) (j mod 8)
  else bit l j.
Proof.
  intros Hk Hj Hl. pose proof (Z.div_pos k 8 Hk ltac:(lia)). pose proof (Z.div_pos j 8 Hj ltac:(lia)).
  unfold bit. case_decide as E.
  - rewrite E, list_lookup_alter_eq.
    destruct (lookup_lt_is_Some_2 l (Z.to_nat (k / 8))) as [b Eb].
    { pose proof (Z.div_lt_upper_bound k 8 (Z.of_nat (length l)) ltac:(lia) ltac:(lia)). lia. }
    rewrite Eb. simpl. apply testbit_u8. apply Z.mod_pos_bound. lia.
  - by rewrite list_lookup_alter_ne by lia.
Qed.

Lemma same_div_mod j k : j / 8 = k / 8 -> j <> k -> j mod 8 <> k mod 8.
Proof.
  intros Hd Hne Hm. apply Hne. rewrite (Z.div_mod j 8), (Z.div_mod k 8) by lia. lia.
Qed.

Lemma bit_set l k j :
  0 <= k < 8 * Z.of_nat (length l) -> 0 <= j ->
  bit (set_bit l k) j = if decide (j = k) then true else bit l j.
Proof.
  intros Hk Hj. pose proof (Z.mod_pos_bound k 8 ltac:(lia)). unfold set_bit.
  rewrite bit_alter by lia. case_decide as E.
  - rewrite Z.lor_spec, testbit_pow2 by lia. destruct (decide (j = k)) as [->|Hne].
    + rewrite bool_decide_true by done. by rewrite orb_true_r.
    + rewrite bool_decide_false by (by apply same_div_mod). rewrite orb_false_r.
      unfold bit. by rewrite E.
  - destruct (decide (j = k)) as [->|]; [done|done].
Qed.

Lemma bit_unset l k j :
  0 <= k < 8 * Z.of_nat (length l) -> 0 <= j ->
  bit (clear_bit l k) j = if decide (j = k) then false else bit l j.
Proof.
  intros Hk Hj. pose proof (Z.mod_pos_bound k 8 ltac:(lia)).
  pose proof (Z.mod_pos_bound j 8 ltac:(lia)). unfold clear_bit.
  rewrite bit_alter by lia. case_decide as E.
  - rewrite Z.land_spec, Z.lnot_spec, testbit_pow2 by lia. destruct (decide (j = k)) as [->|Hne].
    + rewrite bool_decide_true by done. by rewrite andb_false_r.
    + rewrite bool_decide_false by (by apply same_div_mod). rewrite andb_true_r.
      unfold bit. by rewrite E.
  - destruct (decide (j = k)) as [->|]; [done|done].
Qed.

Lemma length_set_bit l k : length (set_bit l k) = length l.
Proof. apply length_alter. Qed.
Lemma length_clear_bit l k : length (clear_bit l k) = length l.
Proof. apply length_alter. Qed.

(** ** Directory blocks *)

(** The name in entry [j] of a directory block, as [strcmp] sees it, provided it
    is terminated inside the name field. *)
Definition entry_name (m : list Z) (j : nat) : list Z := c_str (slice (32 * j) 27 m).
Definition entry_ino (m : list Z) (j : nat) : Z := le_val (slice (32 * j + 28) 4 m).
Definition entry_type (m : list Z) (j : nat) : Z := le_val (slice (32 * j + 27) 1 m).
Definition entries_wf (m : list Z) (n : nat) : Prop :=
  forall j, (j < n)%nat -> terminated (slice (32 * j) 27 m).

Lemma c_str_prefix a b : terminated a -> c_str (a ++ b) = c_str a /\ terminated (a ++ b).
Proof.
  intros Ha. split; [|by apply elem_of_app; left].
  destruct (c_str_split a Ha) as [t Et]. rewrite Et at 1. rewrite <- app_assoc. simpl.
  apply c_str_app, c_str_nonzero.
Qed.

Lemma entry_name_drop m j :
  terminated (slice (32 * j) 27 m) ->
  c_str (drop (32 * j) m) = entry_name m j /\ terminated (drop (32 * j) m).
Proof.
  intros Ht. unfold entry_name, slice in *. rewrite <- (take_drop 27 (drop (32 * j) m)) at 1 3.
  by apply c_str_prefix.
Qed.

Lemma decode_entry m j :
  (32 * j + 32 <= length m)%nat ->
  let d := decode_dentry (slice (32 * j) 32 m) in
  d_name d = slice (32 * j) 27 m /\ d_type d = entry_type m j /\ d_ino d = entry_ino m j.
Proof.
  intros Hm. unfold decode_dentry, entry_type, entry_ino. cbn [d_name d_type d_ino].
  rewrite !slice_slice by lia. by rewrite Nat.add_0_r.
Qed.

(** An entry stored by [strcpy] and the two field assignments. *)
Definition put_entry (m : list Z) (j : nat) (nm : list Z) (ino ty : Z) : list Z :=
  splice (32 * j + 27) (le_bytes 1 ty)
    (splice (32 * j + 28) (le_bytes 4 ino) (splice (32 * j) (nm ++ [0]) m)).

Section PutEntry.
Context (m : list Z) (j : nat) (nm : list Z) (ino ty : Z).
Hypothesis (Hm : (32 * j + 32 <= length m)%nat) (Hnm : (length nm < 27)%nat) (Hz : 0 ∉ nm).
Hypothesis (Hino : 0 <= ino < 2 ^ 32) (Hty : 0 <= ty < 2 ^ 8).

Local Ltac len := rewrite ?length_splice; rewrite ?length_app, ?length_le_bytes; simpl length;
  rewrite ?length_splice; rewrite ?length_app, ?length_le_bytes; simpl length; lia.

Lemma put_entry_length : length (put_entry m j nm ino ty) = length m.
Proof. unfold put_entry. rewrite !length_splice; [done|len..]. Qed.

Lemma put_entry_name : entry_name (put_entry m j nm ino ty) j = nm /\
  terminated (slice (32 * j) 27 (put_entry m j nm ino ty)).
Proof.
  unfold entry_name, put_entry. rewrite slice_splice_ne by len. rewrite slice_splice_ne by len.
  rewrite slice_splice_prefix by len. rewrite <- app_assoc. simpl.
  split; [by apply c_str_app|]. unfold terminated. set_solver.
Qed.

Lemma put_entry_ino : entry_ino (put_entry m j nm ino ty) j = ino.
Proof.
  unfold entry_ino, put_entry. rewrite slice_splice_ne by len.
  rewrite slice_splice_eq' by len. by apply le_val4.
Qed.

Lemma put_entry_type : entry_type (put_entry m j nm ino ty) j = ty.
Proof.
  unfold entry_type, put_entry.
  rewrite slice_splice_eq' by len. by apply le_val1.
Qed.

Lemma put_entry_other j' n off :
  j' <> j -> (off + n <= 32)%nat ->
  slice (32 * j' + off) n (put_entry m j nm ino ty) = slice (32 * j' + off) n m.
Proof.
  intros Hne Hn. unfold put_entry. rewrite !slice_splice_ne by len. done.
Qed.
End PutEntry.
