(* ===== verification/Fs.v ===== *)
(** * The file system (kernel/fs/fs.c, lines 145-1482)

    Every function of the file system, written against a [SectorStore].  The
    static buffers of the source are part of the state: what a multi-sector read
    leaves in the rest of a buffer, and what a pointer into [inode_buffer] shows
    after the buffer was reloaded, is as in the source.  Diagnostic messages are
    not modelled; the output of [ls], [pwd] and [cat] is. *)
From Stdlib Require String.
From S2P Require Import Prelude CString BCache FsLayout.
Import String.StringSyntax.
Delimit Scope string_scope with string.

(** ** State *)

Record fdesc_t := mkFdesc {
  f_mode : Z; f_valid : Z; f_ino : Z; f_read_pos : Z; f_write_pos : Z }.

(** The static buffers. *)
Record buffers := mkBuffers {
  superblock_buffer : list Z; inode_map : list Z; block_map : list Z;
  inode_buffer : list Z; dentry_buffer : list Z;
  rdata_buffer : list Z; wdata_buffer : list Z }.
Inductive bname := SUPER | IMAP | BMAP | IBUF | DBUF | RBUF | WBUF.
#[global] Instance bname_eq_dec : EqDecision bname.
Proof. solve_decision. Defined.

Definition getb (b : bname) (m : buffers) : list Z :=
  match b with
  | SUPER => superblock_buffer m | IMAP => inode_map m | BMAP => block_map m
  | IBUF => inode_buffer m | DBUF => dentry_buffer m
  | RBUF => rdata_buffer m | WBUF => wdata_buffer m
  end.
Definition setb (b : bname) (v : list Z) (m : buffers) : buffers :=
  let '(mkBuffers sb im bm ib db rb wb) := m in
  match b with
  | SUPER => mkBuffers v im bm ib db rb wb | IMAP => mkBuffers sb v bm ib db rb wb
  | BMAP => mkBuffers sb im v ib db rb wb | IBUF => mkBuffers sb im bm v db rb wb
  | DBUF => mkBuffers sb im bm ib v rb wb | RBUF => mkBuffers sb im bm ib db v wb
  | WBUF => mkBuffers sb im bm ib db rb v
  end.

#[global] Arguments getb : simpl never.
#[global] Arguments setb : simpl never.

(** What the commands print: raw bytes, or a line of [ls -l]. *)
Inductive cmsg := CBytes (l : list Z) | CLong (i : inode_t) (name : list Z).

(** An [inode_t *]: into [inode_buffer], [&wd_inode], or a local variable. *)
Inductive iptr := PBuf (off : Z) | PWd | PVal (i : inode_t).

Section Fs.
Context {St : Type} `{!SectorStore St}.
(** The value of the [k]-th call of [get_timer]. *)
Variable timer : nat -> Z.

Record fsst := mkFs {
  store : St; fdesc_array : list fdesc_t; mem : buffers; wd_inode : inode_t;
  root_ino : Z; write_back_freq : Z; fticks : nat; console : list cmsg }.

Definition with_store (v : St) (s : fsst) : fsst :=
  mkFs v (fdesc_array s) (mem s) (wd_inode s) (root_ino s) (write_back_freq s) (fticks s) (console s).
Definition with_fdescs (v : list fdesc_t) (s : fsst) : fsst :=
  mkFs (store s) v (mem s) (wd_inode s) (root_ino s) (write_back_freq s) (fticks s) (console s).
Definition with_mem (v : buffers) (s : fsst) : fsst :=
  mkFs (store s) (fdesc_array s) v (wd_inode s) (root_ino s) (write_back_freq s) (fticks s) (console s).
Definition with_wd (v : inode_t) (s : fsst) : fsst :=
  mkFs (store s) (fdesc_array s) (mem s) v (root_ino s) (write_back_freq s) (fticks s) (console s).
Definition with_root (v : Z) (s : fsst) : fsst :=
  mkFs (store s) (fdesc_array s) (mem s) (wd_inode s) v (write_back_freq s) (fticks s) (console s).
Definition with_freq (v : Z) (s : fsst) : fsst :=
  mkFs (store s) (fdesc_array s) (mem s) (wd_inode s) (root_ino s) v (fticks s) (console s).
Definition with_fticks (v : nat) (s : fsst) : fsst :=
  mkFs (store s) (fdesc_array s) (mem s) (wd_inode s) (root_ino s) (write_back_freq s) v (console s).
Definition with_console (v : list cmsg) (s : fsst) : fsst :=
  mkFs (store s) (fdesc_array s) (mem s) (wd_inode s) (root_ino s) (write_back_freq s) (fticks s) v.

Abbreviation F := (M fsst).

Definition on_store {A} (m : M St A) : F A := zoom store with_store m.
Definition buf (b : bname) : F (list Z) := gets (fun s => getb b (mem s)).
Definition put_buf (b : bname) (v : list Z) : F unit :=
  modify (fun s => with_mem (setb b v (mem s)) s).
Definition print (c : cmsg) : F unit := modify (fun s => with_console (console s ++ [c]) s).
Definition get_timer : F Z :=
  n ← gets fticks; modify (with_fticks (S n));; mret (u64 (timer n)).

(** [bread(buffer, n, sid)] and [bwrite(buffer, n, sid)] *)
Definition bread (b : bname) (n sid : Z) : F unit :=
  m ← buf b; v ← on_store (s_bread m n sid); put_buf b v.
Definition bwrite (b : bname) (n sid : Z) : F unit :=
  m ← buf b; on_store (s_bwrite m n sid).
Definition bzero_buf (b : bname) (n : nat) : F unit :=
  m ← buf b; v ← lift (bzero m n); put_buf b v.

(** [inode_buffer[off]] *)
Definition get_inode (off : Z) : F inode_t :=
  m ← buf IBUF; mret (decode_inode (slice (INODE_BYTES * Z.to_nat off) INODE_BYTES m)).
Definition set_inode (off : Z) (i : inode_t) : F unit :=
  m ← buf IBUF; put_buf IBUF (splice (INODE_BYTES * Z.to_nat off) (encode_inode i) m).

Definition deref (p : iptr) : F inode_t :=
  match p with
  | PBuf off => get_inode off
  | PWd => gets wd_inode
  | PVal i => mret i
  end.
(** A store through the pointer; no code stores through a pointer to a local. *)
Definition store_inode (p : iptr) (i : inode_t) : F unit :=
  match p with
  | PBuf off => set_inode off i
  | PWd => modify (with_wd i)
  | PVal _ => fail Fault
  end.

(** [dentry_buffer[j]] and its fields *)
Definition get_dentry (j : nat) : F dentry_t :=
  m ← buf DBUF; mret (decode_dentry (slice (DENTRY_BYTES * j) DENTRY_BYTES m)).
Definition set_dentry_name (j : nat) (name : list Z) : F unit :=
  m ← buf DBUF;
  v ← lift (strcpy (drop (DENTRY_BYTES * j) m) name);
  put_buf DBUF (take (DENTRY_BYTES * j) m ++ v).
Definition set_dentry_ino (j : nat) (ino : Z) : F unit :=
  m ← buf DBUF; put_buf DBUF (splice (DENTRY_BYTES * j + 28) (le_bytes 4 ino) m).
Definition set_dentry_type (j : nat) (ty : Z) : F unit :=
  m ← buf DBUF; put_buf DBUF (splice (DENTRY_BYTES * j + 27) (le_bytes 1 ty) m).
Definition set_dentry_name0 (j : nat) (c : Z) : F unit :=
  m ← buf DBUF; put_buf DBUF (splice (DENTRY_BYTES * j) [c] m).

(** The loops [for (j = 0; j < 128; j++) if (strcmp(dentry_buffer[j].name, s) == 0)]. *)
Fixpoint find_name (n j : nat) (m name : list Z) : res (option nat) :=
  match n with
  | O => Ok None
  | S n' =>
    v ← strcmp (drop (DENTRY_BYTES * j) m) name;
    if v =? 0 then Ok (Some j) else find_name n' (S j) m name
  end.
Definition dentry_named (name : list Z) : F (option nat) :=
  m ← buf DBUF; lift (find_name DENTRIES 0 m name).

(** First entry that satisfies a test on its fields. *)
Fixpoint find_entry (n j : nat) (m : list Z) (f : dentry_t -> bool) : option nat :=
  match n with
  | O => None
  | S n' =>
    if f (decode_dentry (slice (DENTRY_BYTES * j) DENTRY_BYTES m)) then Some j
    else find_entry n' (S j) m f
  end.
Definition name0 (d : dentry_t) : Z := List.hd 0 (d_name d).
Definition no_name (d : dentry_t) : bool := name0 d =? 0.
Definition unused (d : dentry_t) : bool := (d_ino d =? 0) && (name0 d =? 0).
Definition has_ino (ino : Z) (d : dentry_t) : bool := d_ino d =? ino.
Definition dentry_that (f : dentry_t -> bool) : F (option nat) :=
  m ← buf DBUF; mret (find_entry DENTRIES 0 m f).

(** The [k]-th block pointer of an inode. *)
Definition block_ptr (i : inode_t) (k : Z) : F Z := lift (idx (i_blocks i) k).

(** ** Allocation *)

Definition find_free_inode : F Z :=
  bread IMAP INODE_MAP_SIZE (INODE_MAP_OFFSET + FS_START_SECTOR);;
  m ← buf IMAP;
  match scan_bytes m 0 None with
  | Some k =>
    put_buf IMAP (set_bit m k);;
    bwrite IMAP INODE_MAP_SIZE (INODE_MAP_OFFSET + FS_START_SECTOR);;
    mret k
  | None => mret MINUS1
  end.

Definition find_free_block : F Z :=
  bread BMAP BLOCK_MAP_SIZE (BLOCK_MAP_OFFSET + FS_START_SECTOR);;
  m ← buf BMAP;
  match scan_bytes m 0 (Some (SECTOR2BLOCK DATA_SIZE)) with
  | Some k =>
    put_buf BMAP (set_bit m k);;
    bwrite BMAP BLOCK_MAP_SIZE (BLOCK_MAP_OFFSET + FS_START_SECTOR);;
    let block_sector := BLOCK2SECTOR k + DATA_OFFSET + FS_START_SECTOR in
    bzero_buf RBUF BLOCK_SIZE;;
    bwrite RBUF BLOCK_SECTORS block_sector;;
    mret block_sector
  | None => mret MINUS1
  end.

Definition free_block (block_sector : Z) : F unit :=
  if block_sector <? DATA_OFFSET + FS_START_SECTOR then fail Panic else
  bread BMAP BLOCK_MAP_SIZE (BLOCK_MAP_OFFSET + FS_START_SECTOR);;
  let block_idx := SECTOR2BLOCK (block_sector - DATA_OFFSET - FS_START_SECTOR) in
  m ← buf BMAP;
  (if block_idx / 8 <? Z.of_nat (length m) then put_buf BMAP (clear_bit m block_idx)
   else fail Fault);;
  bwrite BMAP BLOCK_MAP_SIZE (BLOCK_MAP_OFFSET + FS_START_SECTOR).

(** [if (sec != 0) free_block(sec);] *)
Definition free_block_if (sec : Z) : F unit := if sec =? 0 then mret tt else free_block sec.

(** [bread(rdata_buffer, 8, sec); ((uint32_t * ) rdata_buffer)[k]] *)
Definition read_ptr (sec k : Z) : F Z :=
  bread RBUF BLOCK_SECTORS sec;; m ← buf RBUF; mret (u32_at m k).

(** One turn of the loop of [free_inode]: the value of [i] it leaves. *)
Definition free_inode_step (inode : inode_t) (i : Z) : F Z :=
  let lv1_base := DIRECT_BLOCK_NUM in
  let lv2_base := DIRECT_BLOCK_NUM + NBLOCK_LV1 in
  let lv3_base := DIRECT_BLOCK_NUM + NBLOCK_LV1 + NBLOCK_LV2 in
  if i <? DIRECT_BLOCK_NUM then
    sec ← block_ptr inode i; free_block_if sec;; mret i
  else if i <? lv1_base + NBLOCK_LV1 then
    let index := i - lv1_base in
    lv1 ← block_ptr inode DIRECT_BLOCK_NUM;
    if lv1 =? 0 then mret (i - index) else
    sec ← read_ptr lv1 index;
    free_block_if sec;;
    (if index mod NBLOCK_LV1 =? 0 then free_block lv1 else mret tt);;
    mret i
  else if i <? lv2_base + NBLOCK_LV2 then
    let index := i - lv2_base in
    let idx2 := index / NBLOCK_LV1 in
    let idx1 := index mod NBLOCK_LV1 in
    lv2 ← block_ptr inode (DIRECT_BLOCK_NUM + 1);
    if lv2 =? 0 then mret (i - index) else
    lv1 ← read_ptr lv2 idx2;
    i' ← (if lv1 =? 0 then mret (i - index mod NBLOCK_LV1)
          else
            sec ← read_ptr lv1 idx1;
            free_block_if sec;;
            (if index mod NBLOCK_LV1 =? 0 then free_block lv1 else mret tt);;
            mret i);
    (if (i' - lv2_base) mod NBLOCK_LV2 =? 0 then free_block lv2 else mret tt);;
    mret i'
  else if i <? lv3_base + NBLOCK_LV3 then
    let index := i - lv3_base in
    let idx3 := index / NBLOCK_LV2 in
    let idx2 := (index - idx3 * NBLOCK_LV1 * NBLOCK_LV1) / NBLOCK_LV1 in
    let idx1 := index mod NBLOCK_LV1 in
    lv3 ← block_ptr inode (DIRECT_BLOCK_NUM + 2);
    if lv3 =? 0 then mret (i - index) else
    lv2 ← read_ptr lv3 idx3;
    i' ← (if lv2 =? 0 then mret (i - index mod NBLOCK_LV2)
          else
            lv1 ← read_ptr lv2 idx2;
            i' ← (if lv1 =? 0 then mret (i - index mod NBLOCK_LV1)
                  else
                    sec ← read_ptr lv1 idx1;
                    free_block_if sec;;
                    (if index mod NBLOCK_LV1 =? 0 then free_block lv1 else mret tt);;
                    mret i);
            (if (i' - lv3_base) mod NBLOCK_LV2 =? 0 then free_block lv2 else mret tt);;
            mret i');
    (if (i' - lv3_base) mod NBLOCK_LV3 =? 0 then free_block lv3 else mret tt);;
    mret i'
  else mret i.

Fixpoint free_inode_loop (fuel : nat) (p : iptr) (i : Z) : F unit :=
  if i <? 0 then mret tt else
  match fuel with
  | O => fail OutOfFuel
  | S fuel' =>
    inode ← deref p;
    i' ← free_inode_step inode i;
    free_inode_loop fuel' p (i' - 1)
  end.

Definition free_inode (inode_idx : Z) : F unit :=
  let sector := inodeidx2sector inode_idx in
  let off := inodeidx2offset inode_idx in
  bread IBUF 1 sector;;
  inode ← get_inode off;
  let nblocks := u32 (ROUND (i_size inode) 4096 / 4096) in
  free_inode_loop (Z.to_nat nblocks) (PBuf off) (nblocks - 1);;
  (m ← buf IBUF; put_buf IBUF (splice (INODE_BYTES * Z.to_nat off) (replicate INODE_BYTES 0) m));;
  bwrite IBUF 1 sector;;
  bread IMAP INODE_MAP_SIZE (INODE_MAP_OFFSET + FS_START_SECTOR);;
  m ← buf IMAP;
  (if inode_idx / 8 <? Z.of_nat (length m) then put_buf IMAP (clear_bit m inode_idx)
   else fail Fault);;
  bwrite IMAP INODE_MAP_SIZE (INODE_MAP_OFFSET + FS_START_SECTOR).

(** ** Block pointers *)

Definition blockid2sector (block_id : Z) (p : iptr) : F Z :=
  inode ← deref p;
  if block_id <? DIRECT_BLOCK_NUM then block_ptr inode block_id
  else if block_id <? DIRECT_BLOCK_NUM + NBLOCK_LV1 then
    lv1 ← block_ptr inode DIRECT_BLOCK_NUM;
    if lv1 =? 0 then mret 0 else read_ptr lv1 (block_id - DIRECT_BLOCK_NUM)
  else if block_id <? DIRECT_BLOCK_NUM + NBLOCK_LV1 + NBLOCK_LV2 then
    let index := block_id - DIRECT_BLOCK_NUM - NBLOCK_LV1 in
    lv2 ← block_ptr inode (DIRECT_BLOCK_NUM + 1);
    if lv2 =? 0 then mret 0 else
    lv1 ← read_ptr lv2 (index / NBLOCK_LV1);
    if lv1 =? 0 then mret 0 else read_ptr lv1 (index mod NBLOCK_LV1)
  else if block_id <? DIRECT_BLOCK_NUM + NBLOCK_LV1 + NBLOCK_LV2 + NBLOCK_LV3 then
    let index := block_id - DIRECT_BLOCK_NUM - NBLOCK_LV1 - NBLOCK_LV2 in
    lv3 ← block_ptr inode (DIRECT_BLOCK_NUM + 2);
    if lv3 =? 0 then mret 0 else
    let lv3_idx := index / NBLOCK_LV2 in
    lv2 ← read_ptr lv3 lv3_idx;
    if lv2 =? 0 then mret 0 else
    lv1 ← read_ptr lv2 ((index - lv3_idx * NBLOCK_LV2) / NBLOCK_LV1);
    if lv1 =? 0 then mret 0 else read_ptr lv1 (index mod NBLOCK_LV1)
  else mret MINUS1.

(** [inode->blocks[k] = v;] *)
Definition set_block_ptr (p : iptr) (k v : Z) : F unit :=
  i ← deref p;
  store_inode p (mkInode (i_mode i) (i_type i) (i_nlink i) (i_ino i) (i_size i) (i_atime i)
    (i_mtime i) (i_ctime i) (<[Z.to_nat k := v]> (i_blocks i))).

(** [if (inode->blocks[k] == 0) inode->blocks[k] = find_free_block();] and the
    pointer afterwards *)
Definition ensure_ptr (p : iptr) (k : Z) : F Z :=
  i ← deref p;
  v ← block_ptr i k;
  if v =? 0 then b ← find_free_block; set_block_ptr p k b;; mret b else mret v.

(** [bread(rdata_buffer, 8, sec); if (ptrs[k] == 0) { ptrs[k] = find_free_block(); ... }]:
    the pointer in slot [k] of the pointer block [sec], allocated if it was 0. *)
Definition ensure_slot (sec k : Z) : F Z :=
  v ← read_ptr sec k;
  if v =? 0 then
    b ← find_free_block;
    bread RBUF BLOCK_SECTORS sec;;
    (m ← buf RBUF; put_buf RBUF (set_u32_at m k b));;
    bwrite RBUF BLOCK_SECTORS sec;;
    m ← buf RBUF; mret (u32_at m k)
  else mret v.

(** Allocate a data block and store it in slot [k] of the pointer block [sec]. *)
Definition fill_slot (sec k : Z) : F unit :=
  b ← find_free_block;
  bread RBUF BLOCK_SECTORS sec;;
  (m ← buf RBUF; put_buf RBUF (set_u32_at m k b));;
  bwrite RBUF BLOCK_SECTORS sec.

Definition alloc_inode_block (block_idx : Z) (p : iptr) : F Z :=
  if block_idx <? DIRECT_BLOCK_NUM then
    b ← find_free_block; set_block_ptr p block_idx b;; mret 0
  else if block_idx <? DIRECT_BLOCK_NUM + NBLOCK_LV1 then
    lv1 ← ensure_ptr p DIRECT_BLOCK_NUM;
    fill_slot lv1 (block_idx - DIRECT_BLOCK_NUM);;
    mret 0
  else if block_idx <? DIRECT_BLOCK_NUM + NBLOCK_LV1 + NBLOCK_LV2 then
    let index := block_idx - DIRECT_BLOCK_NUM - NBLOCK_LV1 in
    lv2 ← ensure_ptr p (DIRECT_BLOCK_NUM + 1);
    lv1 ← ensure_slot lv2 (index / NBLOCK_LV1);
    fill_slot lv1 (index mod NBLOCK_LV1);;
    mret 0
  else if block_idx <? DIRECT_BLOCK_NUM + NBLOCK_LV1 + NBLOCK_LV2 + NBLOCK_LV3 then
    let index := block_idx - DIRECT_BLOCK_NUM - NBLOCK_LV1 - NBLOCK_LV2 in
    let idx3 := index / NBLOCK_LV2 in
    lv3 ← ensure_ptr p (DIRECT_BLOCK_NUM + 2);
    lv2 ← ensure_slot lv3 idx3;
    lv1 ← ensure_slot lv2 ((index - idx3 * NBLOCK_LV2) / NBLOCK_LV1);
    fill_slot lv1 (index mod NBLOCK_LV1);;
    mret 0
  else mret (-1).

(** ** Path names *)

(** [while (path[i] != '/' && path[i] != 0) dir[j++] = path[i++]; dir[j] = 0;]
    from position [j] of [dir] on: [dir], and the path from where it stopped. *)
Fixpoint copy_component (path dir : list Z) (j : nat) : res (list Z * list Z) :=
  match path with
  | [] => Err Fault
  | c :: path' =>
    if decide (j < length dir)%nat then
      if (c =? 47) || (c =? 0) then Ok (<[j := 0]> dir, path)
      else copy_component path' (<[j := c]> dir) (S j)
    else Err Fault
  end.

Definition parse_path (path dir1 dir2 dir3 : list Z) : res (list Z * list Z * list Z) :=
  '(dir1, rest) ← copy_component path dir1 0;
  if List.hd 0 rest =? 0 then Ok (dir1, <[0%nat := 0]> dir2, <[0%nat := 0]> dir3) else
  '(dir2, rest) ← copy_component (List.tl rest) dir2 0;
  if List.hd 0 rest =? 0 then Ok (dir1, dir2, <[0%nat := 0]> dir3) else
  '(dir3, _) ← copy_component (List.tl rest) dir3 0;
  Ok (dir1, dir2, dir3).

Definition new_dir : list Z := replicate MAX_PATHNAME_LEN 0.

(** One level of [find_inode]: search the directory block [blk] for [name] and
    load the inode it names; the inode's offset in [inode_buffer]. *)
Definition lookup_level (blk : Z) (name : list Z) : F (option Z) :=
  bread DBUF BLOCK_SECTORS blk;;
  r ← dentry_named name;
  match r with
  | None => mret None
  | Some j =>
    d ← get_dentry j;
    bread IBUF 1 (inodeidx2sector (d_ino d));;
    mret (Some (inodeidx2offset (d_ino d)))
  end.

Definition find_inode (path : list Z) (parent : iptr) : F (option iptr) :=
  if List.hd 0 path =? 0 then mret (Some parent) else
  '(dir1, dir2, dir3) ← lift (parse_path path new_dir new_dir new_dir);
  pi ← deref parent;
  blk ← block_ptr pi 0;
  r ← lookup_level blk dir1;
  match r with
  | None => mret None
  | Some off1 =>
    i1 ← get_inode off1;
    if List.hd 0 dir2 =? 0 then mret (Some (PBuf off1)) else
    blk ← block_ptr i1 0;
    r ← lookup_level blk dir2;
    match r with
    | None => mret None
    | Some off2 =>
      i2 ← get_inode off2;
      if List.hd 0 dir3 =? 0 then mret (Some (PBuf off2)) else
      blk ← block_ptr i2 0;
      r ← lookup_level blk dir3;
      match r with
      | None => mret None
      | Some off3 => mret (Some (PBuf off3))
      end
    end
  end.

(** ** Directories *)

Definition set_nlink_size_mtime (nlink size mtime : Z) (i : inode_t) : inode_t :=
  mkInode (i_mode i) (i_type i) nlink (i_ino i) size (i_atime i) mtime (i_ctime i) (i_blocks i).
Definition set_nlink (nlink : Z) (i : inode_t) : inode_t :=
  mkInode (i_mode i) (i_type i) nlink (i_ino i) (i_size i) (i_atime i) (i_mtime i) (i_ctime i)
    (i_blocks i).

(** Store [wd_inode] in its place on the disk. *)
Definition flush_wd : F unit :=
  w ← gets wd_inode;
  bread IBUF 1 (inodeidx2sector (i_ino w));;
  set_inode (inodeidx2offset (i_ino w)) w;;
  bwrite IBUF 1 (inodeidx2sector (i_ino w)).

(** A fresh inode at [inode_idx], as [do_mkdir], [do_touch] and [do_mkfs] fill it. *)
Definition fresh_inode (inode_idx ty size t : Z) (blk : Z) : inode_t :=
  mkInode O_RDWR ty 1 inode_idx size (u32 t) (u32 t) (u32 t) (blk :: replicate 9 0).

(** The entries [.] and [..] of a new directory, in [dentry_buffer]. *)
Definition init_dentries (self parent : Z) : F unit :=
  bzero_buf DBUF BLOCK_SIZE;;
  set_dentry_name 0 (cstr "."%string);; set_dentry_ino 0 self;; set_dentry_type 0 IT_DIR;;
  set_dentry_name 1 (cstr ".."%string);; set_dentry_ino 1 parent;; set_dentry_type 1 IT_DIR.

Definition do_cd (path : list Z) : F Z :=
  r ← find_inode path PWd;
  match r with
  | None => mret (-1)
  | Some p =>
    i ← deref p;
    if negb (i_type i =? IT_DIR) then mret (-1)
    else modify (with_wd i);; mret 0
  end.

Definition do_mkdir (path : list Z) : F Z :=
  n ← lift (strlen path);
  if n >=? 27 then mret (-1) else
  w ← gets wd_inode;
  blk ← block_ptr w 0;
  bread DBUF BLOCK_SECTORS blk;;
  r ← dentry_named path;
  match r with
  | Some _ => mret (-1)
  | None =>
    inode_idx ← find_free_inode;
    if inode_idx =? MINUS1 then mret (-1) else
    new_block ← find_free_block;
    if new_block =? MINUS1 then mret (-1) else
    bread IBUF 1 (inodeidx2sector inode_idx);;
    t ← get_timer;
    set_inode (inodeidx2offset inode_idx) (fresh_inode inode_idx IT_DIR 64 t new_block);;
    bwrite IBUF 1 (inodeidx2sector inode_idx);;
    bread DBUF BLOCK_SECTORS blk;;
    r ← dentry_that no_name;
    match r with
    | None => mret (-1)
    | Some j =>
      set_dentry_name j path;; set_dentry_ino j inode_idx;; set_dentry_type j IT_DIR;;
      bwrite DBUF BLOCK_SECTORS blk;;
      t ← get_timer;
      modify (fun s => with_wd (set_nlink_size_mtime (u16 (i_nlink (wd_inode s) + 1))
                (u32 (i_size (wd_inode s) + 32)) (u32 t) (wd_inode s)) s);;
      flush_wd;;
      w ← gets wd_inode;
      init_dentries inode_idx (i_ino w);;
      bwrite DBUF BLOCK_SECTORS new_block;;
      mret 0
    end
  end.

(** The recursion is bounded by the depth of the tree: [fuel]. *)
Fixpoint nest_rmdir (fuel : nat) (dir_inode : inode_t) : F unit :=
  match fuel with
  | O => fail OutOfFuel
  | S fuel' =>
    for_loop (DENTRIES - 2) 2 (fun j =>
      blk ← block_ptr dir_inode 0;
      bread DBUF BLOCK_SECTORS blk;;
      d ← get_dentry (Z.to_nat j);
      if name0 d =? 0 then mret tt else
      bread IBUF 1 (inodeidx2sector (d_ino d));;
      child ← get_inode (inodeidx2offset (d_ino d));
      if i_type child =? IT_DIR then
        nest_rmdir fuel' child;; free_inode (i_ino child)
      else
        let child := set_nlink (u16 (i_nlink child - 1)) child in
        if i_nlink child =? 0 then free_inode (i_ino child)
        else
          bread IBUF 1 (inodeidx2sector (i_ino child));;
          set_inode (inodeidx2offset (i_ino child)) child;;
          bwrite IBUF 1 (inodeidx2sector (i_ino child)))
  end.

(** [for (j ...) if (dentry_buffer[j].ino == ino) { clear the entry; bwrite; break; }] *)
Definition clear_dentry_of (ino blk : Z) : F unit :=
  r ← dentry_that (has_ino ino);
  match r with
  | None => mret tt
  | Some j =>
    set_dentry_name0 j 0;; set_dentry_ino j 0;; set_dentry_type j 0;;
    bwrite DBUF BLOCK_SECTORS blk
  end.

(** [d_inode_p] is read again through the pointer after [inode_buffer] was
    reloaded. *)
Definition do_rmdir (fuel : nat) (path : list Z) : F Z :=
  r ← find_inode path PWd;
  c1 ← lift (strcmp path (cstr "."%string));
  c2 ← lift (if c1 =? 0 then Ok 0 else strcmp path (cstr ".."%string));
  if (c1 =? 0) || (c2 =? 0) then mret (-1) else
  match r with
  | None => mret (-1)
  | Some p =>
    i ← deref p;
    if negb (i_type i =? IT_DIR) then mret (-1) else
    if negb (i_nlink i =? 1) then mret (-1) else
    nest_rmdir fuel i;;
    t ← get_timer;
    modify (fun s => with_wd (set_nlink_size_mtime (u16 (i_nlink (wd_inode s) - 1))
              (i_size (wd_inode s)) (u32 t) (wd_inode s)) s);;
    flush_wd;;
    w ← gets wd_inode;
    blk ← block_ptr w 0;
    bread DBUF BLOCK_SECTORS blk;;
    i ← deref p;
    clear_dentry_of (i_ino i) blk;;
    t ← get_timer;
    modify (fun s => with_wd (set_nlink_size_mtime (u16 (i_nlink (wd_inode s) - 1))
              (u32 (i_size (wd_inode s) - 32)) (u32 t) (wd_inode s)) s);;
    flush_wd;;
    i ← deref p;
    free_inode (i_ino i);;
    mret 0
  end.

Definition do_ls (path : list Z) (option : Z) : F Z :=
  r ← find_inode path PWd;
  match r with
  | None => mret (-1)
  | Some p =>
    d_inode ← deref p;
    if negb (i_type d_inode =? IT_DIR) then mret (-1) else
    blk ← block_ptr d_inode 0;
    bread DBUF BLOCK_SECTORS blk;;
    for_loop DENTRIES 0 (fun j =>
      d ← get_dentry (Z.to_nat j);
      if name0 d =? 0 then mret tt else
      if option =? 0 then print (CBytes (c_str (d_name d) ++ [10]))
      else
        m ← buf DBUF;
        q ← find_inode (drop (DENTRY_BYTES * Z.to_nat j) m) (PVal d_inode);
        match q with
        | None => fail Panic
        | Some q =>
          i ← deref q;
          d ← get_dentry (Z.to_nat j);
          print (CLong i (c_str (d_name d)))
        end);;
    mret 0
  end.

(** The recursion follows [..] to the root: [fuel] bounds the depth. *)
Fixpoint nest_pwd (fuel : nat) (dir_inode : inode_t) : F unit :=
  match fuel with
  | O => fail OutOfFuel
  | S fuel' =>
    if i_ino dir_inode =? 0 then print (CBytes [47]) else
    blk ← block_ptr dir_inode 0;
    bread DBUF BLOCK_SECTORS blk;;
    d ← get_dentry 1;
    bread IBUF 1 (inodeidx2sector (d_ino d));;
    parent ← get_inode (inodeidx2offset (d_ino d));
    nest_pwd fuel' parent;;
    blk ← block_ptr parent 0;
    bread DBUF BLOCK_SECTORS blk;;
    r ← dentry_that (has_ino (i_ino dir_inode));
    match r with
    | None => mret tt
    | Some j => d ← get_dentry j; print (CBytes (c_str (d_name d) ++ [47]))
    end
  end.
Definition do_pwd (fuel : nat) : F Z :=
  w ← gets wd_inode; nest_pwd fuel w;; print (CBytes [10]);; mret 0.

(** ** File descriptors *)

(** [fdesc_array[fd]], without a bounds check. *)
Definition get_fd (fd : Z) : F fdesc_t := l ← gets fdesc_array; lift (idx l fd).
Definition set_fd (fd : Z) (f : fdesc_t -> fdesc_t) : F unit :=
  l ← gets fdesc_array;
  d ← lift (idx l fd);
  modify (with_fdescs (<[Z.to_nat fd := f d]> l)).

(** [fd < 0 || fd >= NUM_FDESCS || fdesc_array[fd].valid == 0] *)
Definition bad_fd (fd : Z) : F bool :=
  if (fd <? 0) || (fd >=? Z.of_nat NUM_FDESCS) then mret true
  else d ← get_fd fd; mret (f_valid d =? 0).

Definition do_open (path : list Z) (mode : Z) : F Z :=
  r ← find_inode path PWd;
  match r with
  | None => mret (-1)
  | Some p =>
    i ← deref p;
    if i_type i =? IT_DIR then mret (-1) else
    l ← gets fdesc_array;
    let fd := first_index (fun d => f_valid d =? 0) l 0 in
    if fd >=? Z.of_nat (length l) then mret (-1) else
    set_fd fd (fun _ => mkFdesc (u8 mode) 1 (i_ino i) 0 0);;
    mret fd
  end.

Definition do_close (fd : Z) : F Z :=
  set_fd fd (fun d => mkFdesc (f_mode d) 0 (f_ino d) (f_read_pos d) (f_write_pos d));; mret 0.

(** The loop of [do_read]; [inode] is a local copy. *)
Fixpoint read_loop (n : nat) (i : nat) (fd : Z) (inode : inode_t) (buff : list Z) : F (list Z) :=
  match n with
  | O => mret buff
  | S n' =>
    d ← get_fd fd;
    (if f_read_pos d mod 4096 =? 0 then
       sec ← blockid2sector (f_read_pos d / 4096) (PVal inode);
       bread RBUF BLOCK_SECTORS sec
     else mret tt);;
    m ← buf RBUF;
    c ← lift (idx m (f_read_pos d mod 4096));
    (if decide (i < length buff)%nat then mret tt else fail Fault);;
    set_fd fd (fun d => mkFdesc (f_mode d) (f_valid d) (f_ino d) (u32 (f_read_pos d + 1)) (f_write_pos d));;
    read_loop n' (S i) fd inode (<[i := c]> buff)
  end.

(** The returned value and the contents of the caller's buffer. *)
Definition do_read (fd : Z) (buff : list Z) (length : Z) : F (Z * list Z) :=
  bad ← bad_fd fd;
  if bad : bool then mret (-1, buff) else
  d ← get_fd fd;
  if f_mode d =? O_WRONLY then mret (-1, buff) else
  bread IBUF 1 (inodeidx2sector (f_ino d));;
  inode ← get_inode (inodeidx2offset (f_ino d));
  sec ← blockid2sector (f_read_pos d / 4096) (PVal inode);
  bread RBUF 1 sec;;
  buff ← read_loop (Z.to_nat length) 0 fd inode buff;
  t ← get_timer;
  set_inode (inodeidx2offset (f_ino d))
    (mkInode (i_mode inode) (i_type inode) (i_nlink inode) (i_ino inode) (i_size inode) (u32 t)
       (i_mtime inode) (i_ctime inode) (i_blocks inode));;
  bwrite IBUF 1 (inodeidx2sector (f_ino d));;
  mret (length, buff).

(** The sector of a block of the file, allocated if there is none. *)
Definition ensure_block (block_id : Z) (p : iptr) : F Z :=
  sec ← blockid2sector block_id p;
  if sec =? 0 then alloc_inode_block block_id p;; blockid2sector block_id p else mret sec.

Fixpoint write_loop (n i : nat) (fd : Z) (p : iptr) (buff : list Z) : F unit :=
  match n with
  | O => mret tt
  | S n' =>
    d ← get_fd fd;
    (if f_write_pos d mod 4096 =? 0 then
       sec ← ensure_block (f_write_pos d / 4096) p;
       bread WBUF BLOCK_SECTORS sec
     else mret tt);;
    let offset := f_write_pos d mod 4096 in
    c ← lift (of_option Fault (buff !! i));
    (m ← buf WBUF; put_buf WBUF (<[Z.to_nat offset := c]> m));;
    (if offset =? 4095 then
       sec ← blockid2sector (f_write_pos d / 4096) p; bwrite WBUF BLOCK_SECTORS sec
     else mret tt);;
    set_fd fd (fun d => mkFdesc (f_mode d) (f_valid d) (f_ino d) (f_read_pos d) (u32 (f_write_pos d + 1)));;
    write_loop n' (S i) fd p buff
  end.

Definition do_write (fd : Z) (buff : list Z) (length : Z) : F Z :=
  d ← get_fd fd;
  let sector := inodeidx2sector (f_ino d) in
  let p := PBuf (inodeidx2offset (f_ino d)) in
  bread IBUF 1 sector;;
  sec ← ensure_block (f_write_pos d / 4096) p;
  bread WBUF BLOCK_SECTORS sec;;
  write_loop (Z.to_nat length) 0 fd p buff;;
  d ← get_fd fd;
  (if negb (f_write_pos d mod 4096 =? 0) then
     sec ← blockid2sector (f_write_pos d / 4096) p; bwrite WBUF BLOCK_SECTORS sec
   else mret tt);;
  i ← deref p;
  t ← get_timer;
  store_inode p (mkInode (i_mode i) (i_type i) (i_nlink i) (i_ino i)
    (if f_write_pos d >? i_size i then f_write_pos d else i_size i) (u32 t) (u32 t) (i_ctime i)
    (i_blocks i));;
  bwrite IBUF BLOCK_SECTORS sector;;
  mret length.

Definition do_lseek (fd offset whence : Z) : F Z :=
  bad ← bad_fd fd;
  if bad : bool then mret (-1) else
  d ← get_fd fd;
  bread IBUF 1 (inodeidx2sector (f_ino d));;
  inode ← get_inode (inodeidx2offset (f_ino d));
  let set (r w : Z) : F Z :=
    set_fd fd (fun d => mkFdesc (f_mode d) (f_valid d) (f_ino d) (u32 r) (u32 w));; mret 0 in
  if whence =? SEEK_SET then set offset offset
  else if whence =? SEEK_CUR then set (f_read_pos d + offset) (f_write_pos d + offset)
  else if whence =? SEEK_END then set (i_size inode + offset) (i_size inode + offset)
  else mret (-1).

(** ** Creating, linking and removing files *)

Definition do_touch (path : list Z) : F Z :=
  n ← lift (strlen path);
  if n >=? 27 then mret (-1) else
  w ← gets wd_inode;
  blk ← block_ptr w 0;
  bread DBUF BLOCK_SECTORS blk;;
  r ← dentry_named path;
  match r with
  | Some _ => mret (-1)
  | None =>
    inode_idx ← find_free_inode;
    if inode_idx =? MINUS1 then mret (-1) else
    bread IBUF 1 (inodeidx2sector inode_idx);;
    t ← get_timer;
    set_inode (inodeidx2offset inode_idx) (fresh_inode inode_idx IT_FILE 0 t 0);;
    bwrite IBUF 1 (inodeidx2sector inode_idx);;
    r ← dentry_that unused;
    match r with
    | None => mret (-1)
    | Some j =>
      set_dentry_name j path;; set_dentry_ino j inode_idx;; set_dentry_type j IT_FILE;;
      bwrite DBUF BLOCK_SECTORS blk;;
      t ← get_timer;
      modify (fun s => with_wd (set_nlink_size_mtime (u16 (i_nlink (wd_inode s) + 1))
                (u32 (i_size (wd_inode s) + 32)) (u32 t) (wd_inode s)) s);;
      flush_wd;;
      mret 0
    end
  end.

(** Store an entry for [ino] in the first unused slot of the directory block. *)
Definition put_dentry (blk : Z) (name : list Z) (ino : Z) : F unit :=
  bread DBUF BLOCK_SECTORS blk;;
  r ← dentry_that unused;
  match r with
  | None => mret tt
  | Some j =>
    set_dentry_name j name;; set_dentry_ino j ino;; set_dentry_type j IT_FILE;;
    bwrite DBUF BLOCK_SECTORS blk
  end.

(** One directory level of [add_file_dentry]: the first data block of the
    subdirectory [name], if there is one. *)
Definition enter_dir (blk : Z) (name : list Z) : F (option Z) :=
  bread DBUF BLOCK_SECTORS blk;;
  r ← dentry_named name;
  match r with
  | None => mret None
  | Some j =>
    d ← get_dentry j;
    if negb (d_type d =? IT_DIR) then mret None else
    bread IBUF 1 (inodeidx2sector (d_ino d));;
    i ← get_inode (inodeidx2offset (d_ino d));
    b ← block_ptr i 0;
    mret (Some b)
  end.

Definition add_file_dentry (parent : iptr) (path : list Z) (ino : Z) : F unit :=
  '(dir1, dir2, dir3) ← lift (parse_path path new_dir new_dir new_dir);
  pi ← deref parent;
  blk ← block_ptr pi 0;
  if List.hd 0 dir2 =? 0 then put_dentry blk dir1 ino else
  r ← enter_dir blk dir1;
  match r with
  | None => mret tt
  | Some blk1 =>
    if List.hd 0 dir3 =? 0 then put_dentry blk1 dir2 ino else
    r ← enter_dir blk1 dir2;
    match r with
    | None => mret tt
    | Some blk2 => put_dentry blk2 dir3 ino
    end
  end.

Definition do_ln (src_path dst_path : list Z) : F Z :=
  r ← find_inode src_path PWd;
  match r with
  | None => mret (-1)
  | Some p =>
    src ← deref p;
    if i_type src =? IT_DIR then mret (-1) else
    add_file_dentry PWd dst_path (i_ino src);;
    bread IBUF 1 (inodeidx2sector (i_ino src));;
    i ← get_inode (inodeidx2offset (i_ino src));
    set_inode (inodeidx2offset (i_ino src)) (set_nlink (u16 (i_nlink i + 1)) i);;
    bwrite IBUF 1 (inodeidx2sector (i_ino src));;
    mret 0
  end.

Definition do_rm (path : list Z) : F Z :=
  r ← find_inode path PWd;
  match r with
  | None => mret (-1)
  | Some p =>
    inode ← deref p;
    if i_type inode =? IT_DIR then mret (-1) else
    w ← gets wd_inode;
    blk ← block_ptr w 0;
    bread DBUF BLOCK_SECTORS blk;;
    clear_dentry_of (i_ino inode) blk;;
    t ← get_timer;
    modify (fun s => with_wd (set_nlink_size_mtime (u16 (i_nlink (wd_inode s) - 1))
              (u32 (i_size (wd_inode s) - 32)) (u32 t) (wd_inode s)) s);;
    flush_wd;;
    let inode := set_nlink (u16 (i_nlink inode - 1)) inode in
    (if i_nlink inode =? 0 then free_inode (i_ino inode)
     else
       bread IBUF 1 (inodeidx2sector (i_ino inode));;
       set_inode (inodeidx2offset (i_ino inode)) inode;;
       bwrite IBUF 1 (inodeidx2sector (i_ino inode)));;
    mret 0
  end.

Definition do_cat (path : list Z) : F Z :=
  r ← find_inode path PWd;
  match r with
  | None => mret (-1)
  | Some p =>
    i ← deref p;
    if i_type i =? IT_DIR then mret (-1) else
    let max_len := if i_size i >? 200 then 200 else i_size i in
    for_loop (Z.to_nat max_len) 0 (fun k =>
      (if k mod 4096 =? 0 then
         sec ← blockid2sector (k / 4096) p; bread RBUF BLOCK_SECTORS sec
       else mret tt);;
      m ← buf RBUF;
      c ← lift (idx m (k mod 4096));
      print (CBytes [c]));;
    mret 0
  end.

(** ** The whole file system *)

(** [while (line[i] != end ...) dst[j++] = line[i++]; dst[j] = 0;] with the
    bytes that end a line. *)
Fixpoint copy_line (line : list Z) (ends : list Z) (dst : list Z) (j : nat) : res (list Z * list Z) :=
  match line with
  | [] => Err Fault
  | c :: line' =>
    if decide (j < length dst)%nat then
      if bool_decide (c ∈ ends) then Ok (<[j := 0]> dst, line)
      else copy_line line' ends (<[j := c]> dst) (S j)
    else Err Fault
  end.

(** [for (k = 18; line2[k] != 0; k++) freq = freq * 10 + line2[k] - '0';] *)
Fixpoint parse_freq (l : list Z) (freq : Z) : res Z :=
  match l with
  | [] => Err Fault
  | c :: l' => if c =? 0 then Ok freq else parse_freq l' (i32 (freq * 10 + c - 48))
  end.

Definition set_policy (v : Z) : F unit := on_store (s_set_policy v).

Definition do_vmflush : F Z :=
  on_store s_flush;;
  rino ← gets root_ino;
  bread IBUF 1 (inodeidx2sector rino);;
  root ← get_inode (inodeidx2offset rino);
  r ← find_inode (cstr "proc/sys/vm"%string) (PVal root);
  match r with
  | None => mret (-1)
  | Some p =>
    i ← deref p;
    sec ← block_ptr i 0;
    bread RBUF BLOCK_SECTORS sec;;
    m ← buf RBUF;
    '(line1, rest) ← lift (copy_line m [10] (replicate 64 0) 0);
    '(line2, _) ← lift (copy_line (List.tl rest) [10; 0] (replicate 64 0) 0);
    c1 ← lift (strcmp line1 (cstr "page_cache_policy = write back"%string));
    c2 ← lift (strcmp line1 (cstr "page_cache_policy = write through"%string));
    (if c1 =? 0 then set_policy BWRITE_BACK
     else if c2 =? 0 then set_policy BWRITE_THROUGH else mret tt);;
    if negb (c1 =? 0) && negb (c2 =? 0) then mret (-1) else
    c3 ← lift (strncmp line2 (cstr "write_back_freq = "%string) 18);
    if c3 =? 0 then
      freq ← lift (parse_freq (drop 18 line2) 0);
      modify (with_freq freq);;
      mret 0
    else mret (-1)
  end.

Definition init_bcache_policy : F unit :=
  do_mkdir (cstr "proc"%string);;
  do_cd (cstr "proc"%string);;
  do_mkdir (cstr "sys"%string);;
  do_cd (cstr "sys"%string);;
  do_touch (cstr "vm"%string);;
  fd ← do_open (cstr "vm"%string) O_RDWR;
  do_write fd (codes "page_cache_policy = write back"%string ++ [10; 0]) 31;;
  do_write fd (codes "write_back_freq = 30"%string ++ [10; 0]) 22;;
  do_close fd;;
  do_cd (cstr "../.."%string);;
  set_policy BWRITE_BACK;;
  modify (with_freq 30).

Definition superblock : superblock_t :=
  mkSuper SUPERBLOCK_MAGIC FS_START_SECTOR BLOCK_MAP_OFFSET INODE_MAP_OFFSET INODE_OFFSET
    DATA_OFFSET FS_NUM_SECTORS BLOCK_MAP_SIZE INODE_MAP_SIZE INODE_SIZE DATA_SIZE
    (Z.of_nat INODE_BYTES) (Z.of_nat DENTRY_BYTES).

Definition do_mkfs : F Z :=
  on_store s_init;;
  (m ← buf SUPER; put_buf SUPER (splice 0 (encode_super superblock) m));;
  bwrite SUPER 1 FS_START_SECTOR;;
  bzero_buf BMAP (Z.to_nat BLOCK_MAP_SIZE * SECTOR_SIZE);;
  bwrite BMAP BLOCK_MAP_SIZE (BLOCK_MAP_OFFSET + FS_START_SECTOR);;
  bzero_buf IMAP (Z.to_nat INODE_MAP_SIZE * SECTOR_SIZE);;
  bwrite IMAP INODE_MAP_SIZE (INODE_MAP_OFFSET + FS_START_SECTOR);;
  idx ← find_free_inode;
  modify (with_root idx);;
  bzero_buf IBUF SECTOR_SIZE;;
  t ← get_timer;
  blk ← find_free_block;
  let root := fresh_inode idx IT_DIR 64 t blk in
  set_inode (inodeidx2offset idx) root;;
  bwrite IBUF 1 (inodeidx2sector idx);;
  modify (with_wd root);;
  init_dentries idx idx;;
  bwrite DBUF BLOCK_SECTORS blk;;
  init_bcache_policy;;
  mret 0.

(** The number of used bits [do_statfs] counts in a bitmap. *)
Fixpoint count_bits (n : nat) (b byte_idx bit : Z) (limit : option Z) : Z :=
  match n with
  | O => 0
  | S n' =>
    if (match limit with Some m => byte_idx * 8 + bit >=? m | None => false end) then 0
    else (if bit_clear b bit then 0 else 1) + count_bits n' b byte_idx (bit + 1) limit
  end.
Fixpoint count_used (l : list Z) (byte_idx : Z) (limit : option Z) : Z :=
  match l with
  | [] => 0
  | b :: l' =>
    (if b =? 0 then 0 else count_bits 8 b byte_idx 0 limit) + count_used l' (byte_idx + 1) limit
  end.

(** The result, and the numbers of used blocks and inodes it prints. *)
Definition do_statfs : F (Z * Z * Z) :=
  bread SUPER 1 FS_START_SECTOR;;
  m ← buf SUPER;
  if negb (u32_at m 0 =? SUPERBLOCK_MAGIC) then mret (-1, 0, 0) else
  bread BMAP BLOCK_MAP_SIZE (BLOCK_MAP_OFFSET + FS_START_SECTOR);;
  bm ← buf BMAP;
  let used_blocks := count_used bm 0 (Some (SECTOR2BLOCK DATA_SIZE)) in
  bread IMAP INODE_MAP_SIZE (INODE_MAP_OFFSET + FS_START_SECTOR);;
  im ← buf IMAP;
  mret (0, used_blocks, count_used im 0 None).

Definition init_fs : F unit :=
  on_store s_init;;
  bread SUPER 1 FS_START_SECTOR;;
  m ← buf SUPER;
  (if u32_at m 0 =? SUPERBLOCK_MAGIC then mret tt else do_mkfs;; mret tt);;
  bread IBUF 1 (inodeidx2sector 0);;
  root ← get_inode 0;
  modify (with_wd root);;
  do_vmflush;;
  mret tt.

End Fs.
