(* ===== verification/FsFacts.v ===== *)
(** * Facts about the file system

    Proved against the laws of [SectorStore], so that they hold over the buffer
    cache and any block device. *)
From Stdlib Require String.
From S2P Require Import Prelude CString BCache FsLayout Fs.
Import String.StringSyntax.
Delimit Scope string_scope with string.

Section Facts.
Context {St : Type} `{!SectorStore St}.

Abbreviation fsst := (@fsst St).
Implicit Types s : fsst.

(** The sizes of the static buffers. *)
Definition buf_size (b : bname) : nat :=
  match b with
  | SUPER | IMAP | IBUF => SECTOR_SIZE
  | BMAP => 32 * SECTOR_SIZE
  | DBUF | RBUF | WBUF => BLOCK_SIZE
  end.

Definition fs_ok s : Prop :=
  s_ok (store s) /\ forall b, length (getb b (mem s)) = buf_size b.

(** What is on sector [sid]. *)
Definition vw s (sid : Z) : list Z := s_view (store s) sid.

Lemma getb_setb b b' v m : getb b (setb b' v m) = if decide (b = b') then v else getb b m.
Proof. destruct m, b, b'; done. Qed.
Lemma getb_setb_eq b v m : getb b (setb b v m) = v.
Proof. rewrite getb_setb. by rewrite decide_True. Qed.
Lemma getb_setb_ne b b' v m : b <> b' -> getb b (setb b' v m) = getb b m.
Proof. intros. rewrite getb_setb. by rewrite decide_False. Qed.

Lemma sector_le_buf b : (SECTOR_SIZE <= buf_size b)%nat.
Proof. destruct b; unfold buf_size, SECTOR_SIZE, BLOCK_SIZE; lia. Qed.

Lemma fs_ok_put s b v : fs_ok s -> length v = buf_size b -> fs_ok (with_mem (setb b v (mem s)) s).
Proof.
  intros [Hs Hb] Hv. split; [done|]. intros b'. simpl. rewrite getb_setb. case_decide; [by subst|done].
Qed.

Lemma vw_length s sid : fs_ok s -> length (vw s sid) = SECTOR_SIZE.
Proof. intros [Hs _]. by apply s_view_length. Qed.

(** [s'] differs from [s] in the buffers [bs], the device and the clock at most. *)
Definition frame (bs : list bname) s s' : Prop :=
  wd_inode s' = wd_inode s /\ fdesc_array s' = fdesc_array s /\ console s' = console s /\
  root_ino s' = root_ino s /\ forall b, b ∉ bs -> getb b (mem s') = getb b (mem s).

Lemma frame_refl bs s : frame bs s s.
Proof. done. Qed.
Lemma fs_frame_trans bs s1 s2 s3 : frame bs s1 s2 -> frame bs s2 s3 -> frame bs s1 s3.
Proof.
  intros (H1 & H2 & H3 & H4 & H5) (K1 & K2 & K3 & K4 & K5). split_and!; try congruence.
  intros b Hb. by rewrite K5, H5.
Qed.
Lemma fs_frame_weaken bs bs' s s' : frame bs s s' -> Forall (fun b => b ∈ bs') bs -> frame bs' s s'.
Proof.
  intros (H1 & H2 & H3 & H4 & H5) Hb. rewrite Forall_forall in Hb.
  split_and!; try done. intros b Hn. apply H5. auto.
Qed.
Lemma frame_step bs bs' s1 s2 s3 :
  frame bs' s1 s2 -> frame bs s2 s3 -> Forall (fun b => b ∈ bs') bs -> frame bs' s1 s3.
Proof. intros H1 H2 Hb. eapply fs_frame_trans; [exact H1|]. by eapply fs_frame_weaken. Qed.
Lemma frame_get bs s s' b : frame bs s s' -> b ∉ bs -> getb b (mem s') = getb b (mem s).
Proof. intros (_ & _ & _ & _ & H). apply H. Qed.

(** A frame between a state and one built from it by [with_mem] and [with_store]. *)
Local Ltac frame_explicit :=
  split; [reflexivity|]; do 3 (split; [reflexivity|]);
  let b := fresh "b" in let Hb := fresh "Hb" in
  intros b Hb; simpl; rewrite ?getb_setb_ne; [reflexivity|..];
  intros ->; apply Hb; by_computation.

(** A sector number range the device has. *)
Definition in_range (sid n : Z) : Prop := 0 <= sid /\ sid + n <= 2 ^ 32.

(** [bread] leaves the last of the sectors at the start of the buffer. *)
Lemma fs_bread_ok s b n sid :
  fs_ok s -> 0 < n -> in_range sid n ->
  exists st, let s' := with_store st (with_mem
      (setb b (vw s (sid + n - 1) ++ drop SECTOR_SIZE (getb b (mem s))) (mem s)) s) in
    Fs.bread b n sid s = Ok (tt, s') /\ fs_ok s' /\ forall x, vw s' x = vw s x.
Proof.
  intros Hok Hn [Hs Hb]. pose proof Hok as [Hst Hl].
  destruct (s_bread_ok (store s) (getb b (mem s)) n sid Hst) as (st & E & Hst' & Hv); try done.
  { rewrite Hl. apply sector_le_buf. }
  exists st. split; [|split; [split|]].
  - unfold Fs.bread. rewrite (bind_ok _ _ _ _ _ eq_refl). unfold on_store, zoom.
    erewrite bind_ok by (by rewrite E). done.
  - done.
  - intros b'. simpl. rewrite getb_setb. case_decide; [subst|apply Hl].
    rewrite length_app, length_drop, Hl. unfold vw. rewrite s_view_length by done.
    pose proof (sector_le_buf b). lia.
  - intros x. apply Hv.
Qed.

Lemma fs_bwrite_ok s b n sid :
  fs_ok s -> 0 <= n -> in_range sid n ->
  exists st, let s' := with_store st s in
    Fs.bwrite b n sid s = Ok (tt, s') /\ fs_ok s' /\
    forall x, vw s' x = written_range (getb b (mem s)) n sid (vw s) x.
Proof.
  intros Hok Hn [Hs Hb]. pose proof Hok as [Hst Hl].
  destruct (s_bwrite_ok (store s) (getb b (mem s)) n sid Hst) as (st & E & Hst' & Hv); try done.
  { rewrite Hl. apply sector_le_buf. }
  exists st. split_and!; try done.
  unfold Fs.bwrite. rewrite (bind_ok _ _ _ _ _ eq_refl). unfold on_store, zoom. by rewrite E.
Qed.

Lemma bzero_buf_ok s b n :
  (n <= length (getb b (mem s)))%nat ->
  bzero_buf b n s =
  Ok (tt, with_mem (setb b (replicate n 0 ++ drop n (getb b (mem s))) (mem s)) s).
Proof.
  intros Hn. unfold bzero_buf. rewrite (bind_ok _ _ _ _ _ eq_refl).
  by rewrite (bind_ok _ _ _ _ _ (lift_ok _ _ _ (bzero_ok _ _ Hn))).
Qed.

(** ** Allocation of inodes *)

Definition IMAP_SECTOR : Z := INODE_MAP_OFFSET + FS_START_SECTOR.
Definition BMAP_SECTOR : Z := BLOCK_MAP_OFFSET + FS_START_SECTOR.

Ltac in_range :=
  unfold in_range, IMAP_SECTOR, BMAP_SECTOR, INODE_MAP_OFFSET, INODE_MAP_SIZE, BLOCK_MAP_OFFSET,
    BLOCK_MAP_SIZE, INODE_OFFSET, INODE_SIZE, DATA_OFFSET, FS_START_SECTOR, BLOCK_SECTORS in *; lia.

Lemma find_free_inode_ok s :
  fs_ok s -> is_bytes (vw s IMAP_SECTOR) ->
  exists r s', find_free_inode s = Ok (r, s') /\ fs_ok s' /\
    frame [IMAP] s s' /\ fticks s' = fticks s /\
    ((r = MINUS1 /\ (forall x, vw s' x = vw s x) /\
      forall j, 0 <= j < 4096 -> bit (vw s IMAP_SECTOR) j = true) \/
     (0 <= r < 4096 /\ bit (vw s IMAP_SECTOR) r = false /\
      (forall j, 0 <= j < r -> bit (vw s IMAP_SECTOR) j = true) /\
      vw s' IMAP_SECTOR = set_bit (vw s IMAP_SECTOR) r /\
      forall x, x <> IMAP_SECTOR -> vw s' x = vw s x)).
Proof.
  intros Hok Hby.
  destruct (fs_bread_ok s IMAP INODE_MAP_SIZE IMAP_SECTOR Hok) as (st & E & Hok1 & Hv1); [done|in_range|].
  set (s1 := with_store _ _) in *.
  assert (getb IMAP (mem s1) = vw s IMAP_SECTOR) as Hm.
  { simpl. rewrite getb_setb_eq. unfold INODE_MAP_SIZE.
    replace (IMAP_SECTOR + 1 - 1) with IMAP_SECTOR by lia.
    rewrite drop_ge, app_nil_r; [done|]. destruct Hok as [_ Hl]. by rewrite (Hl IMAP). }
  unfold find_free_inode. fold IMAP_SECTOR. rewrite (bind_ok _ _ _ _ _ E).
  rewrite (bind_ok _ _ _ (vw s IMAP_SECTOR) s1) by (unfold buf, gets; by rewrite Hm).
  pose proof (vw_length s IMAP_SECTOR Hok) as Hlen.
  pose proof (scan_bytes_spec [] (vw s IMAP_SECTOR) None Hby) as Hscan. simpl app in Hscan.
  rewrite Hlen in Hscan. change (8 * Z.of_nat SECTOR_SIZE) with 4096 in Hscan.
  specialize (Hscan ltac:(simpl; lia)). simpl length in Hscan. change (Z.of_nat 0) with 0 in Hscan.
  destruct (scan_bytes (vw s IMAP_SECTOR) 0 None) as [k|].
  - destruct Hscan as (Hk & Hbit & Hleast & _). rewrite (bind_ok _ _ _ _ _ eq_refl).
    set (s2 := with_mem (setb IMAP (set_bit (vw s IMAP_SECTOR) k) (mem s1)) s1).
    assert (fs_ok s2) as Hok2 by (apply fs_ok_put; [done|]; rewrite length_set_bit; by rewrite Hlen).
    destruct (fs_bwrite_ok s2 IMAP INODE_MAP_SIZE IMAP_SECTOR Hok2) as (st3 & E3 & Hok3 & Hv3);
      [done|in_range|].
    rewrite (bind_ok _ _ _ _ _ E3). eexists k, _. split; [done|]. split; [exact Hok3|].
    split; [|split; [done|]].
    + frame_explicit.
    + right. split_and!; try done; try lia.
      * rewrite Hv3. unfold written_range. rewrite decide_True by (unfold INODE_MAP_SIZE; lia).
        simpl. rewrite getb_setb_eq. apply firstn_all2. rewrite length_set_bit, Hlen. lia.
      * intros x Hx. rewrite Hv3. unfold written_range.
        rewrite decide_False by (unfold INODE_MAP_SIZE; lia). apply Hv1.
  - eexists MINUS1, _. split; [done|]. split; [exact Hok1|].
    split; [frame_explicit|]. split; [done|].
    left. split_and!; try done. intros j Hj. apply Hscan; [lia|done].
Qed.

(** ** Allocation of blocks

    The bitmap the allocator works on: a read of the 32 sectors of the block map
    refreshes the first [SECTOR_SIZE] bytes of [block_map] only. *)
Definition block_bits s : list Z :=
  vw s (BMAP_SECTOR + 31) ++ drop SECTOR_SIZE (getb BMAP (mem s)).

Definition DATA_BLOCKS : Z := SECTOR2BLOCK DATA_SIZE.
(** The first sector of data block [k]. *)
Definition block_sector (k : Z) : Z := BLOCK2SECTOR k + DATA_OFFSET + FS_START_SECTOR.

Lemma DATA_BLOCKS_val : DATA_BLOCKS = 131003.
Proof. reflexivity. Qed.
Lemma block_sector_val k : block_sector k = 8 * k + 802.
Proof. unfold block_sector, BLOCK2SECTOR. change DATA_OFFSET with 546. change FS_START_SECTOR with 256. lia. Qed.
Lemma BMAP_SECTOR_val : BMAP_SECTOR = 257.
Proof. reflexivity. Qed.

Lemma block_bits_length s : fs_ok s -> length (block_bits s) = (32 * SECTOR_SIZE)%nat.
Proof.
  intros Hok. unfold block_bits. rewrite length_app, length_drop, vw_length by done.
  destruct Hok as [_ Hl]. rewrite (Hl BMAP). simpl buf_size. unfold SECTOR_SIZE. lia.
Qed.

(** Reading the block map puts [block_bits] into [block_map]. *)
Lemma bread_bmap s :
  fs_ok s ->
  exists st, let s' := with_store st (with_mem (setb BMAP (block_bits s) (mem s)) s) in
    Fs.bread BMAP BLOCK_MAP_SIZE BMAP_SECTOR s = Ok (tt, s') /\ fs_ok s' /\
    forall x, vw s' x = vw s x.
Proof.
  intros Hok. destruct (fs_bread_ok s BMAP BLOCK_MAP_SIZE BMAP_SECTOR Hok) as (st & H); [done|in_range|].
  exists st. replace (BMAP_SECTOR + BLOCK_MAP_SIZE - 1) with (BMAP_SECTOR + 31) in H
    by (unfold BLOCK_MAP_SIZE; lia). exact H.
Qed.

(** Writing the block map back. *)
Lemma bwrite_bmap s :
  fs_ok s ->
  exists st, let s' := with_store st s in
    Fs.bwrite BMAP BLOCK_MAP_SIZE BMAP_SECTOR s = Ok (tt, s') /\ fs_ok s' /\
    block_bits s' = getb BMAP (mem s) /\
    forall x, ~ (BMAP_SECTOR <= x < BMAP_SECTOR + 32) -> vw s' x = vw s x.
Proof.
  intros Hok. destruct (fs_bwrite_ok s BMAP BLOCK_MAP_SIZE BMAP_SECTOR Hok) as (st & E & Hok' & Hv);
    [done|in_range|].
  exists st. split; [done|]. split; [done|]. split.
  - unfold block_bits. rewrite Hv. unfold written_range.
    rewrite decide_True by (unfold BLOCK_MAP_SIZE; lia). simpl. apply take_drop.
  - intros x Hx. rewrite Hv. unfold written_range, BLOCK_MAP_SIZE. by rewrite decide_False.
Qed.

Definition zero_sector : list Z := replicate SECTOR_SIZE 0.

Lemma find_free_block_ok s :
  fs_ok s -> is_bytes (block_bits s) ->
  exists r s', find_free_block s = Ok (r, s') /\ fs_ok s' /\
    frame [BMAP; RBUF] s s' /\ fticks s' = fticks s /\
    ((r = MINUS1 /\ (forall x, vw s' x = vw s x) /\ block_bits s' = block_bits s /\
      forall j, 0 <= j < DATA_BLOCKS -> bit (block_bits s) j = true) \/
     (exists k, 0 <= k < DATA_BLOCKS /\ r = block_sector k /\ bit (block_bits s) k = false /\
      (forall j, 0 <= j < k -> bit (block_bits s) j = true) /\
      block_bits s' = set_bit (block_bits s) k /\
      getb RBUF (mem s') = replicate BLOCK_SIZE 0 /\
      (forall x, r <= x < r + 8 -> vw s' x = zero_sector) /\
      forall x, ~ (BMAP_SECTOR <= x < BMAP_SECTOR + 32) -> ~ (r <= x < r + 8) -> vw s' x = vw s x)).
Proof.
  intros Hok Hby. destruct (bread_bmap s Hok) as (st & E & Hok1 & Hv1).
  set (s1 := with_store _ _) in *. unfold find_free_block. fold BMAP_SECTOR DATA_BLOCKS.
  rewrite (bind_ok _ _ _ _ _ E).
  rewrite (bind_ok _ _ _ (block_bits s) s1) by (unfold buf, gets; simpl; by rewrite getb_setb_eq).
  pose proof (block_bits_length s Hok) as Hlen.
  pose proof (scan_bytes_spec [] (block_bits s) (Some DATA_BLOCKS) Hby) as Hscan. simpl app in Hscan.
  rewrite Hlen in Hscan. change (8 * Z.of_nat (32 * SECTOR_SIZE)) with 131072 in Hscan.
  specialize (Hscan ltac:(simpl; lia)). simpl length in Hscan. change (Z.of_nat 0) with 0 in Hscan.
  pose proof DATA_BLOCKS_val as HDB.
  destruct (scan_bytes (block_bits s) 0 (Some DATA_BLOCKS)) as [k|].
  - destruct Hscan as (Hk & Hbit & Hleast & Hlim). specialize (Hlim _ eq_refl).
    rewrite (bind_ok _ _ _ _ _ eq_refl).
    set (s2 := with_mem (setb BMAP (set_bit (block_bits s) k) (mem s1)) s1).
    assert (fs_ok s2) as Hok2 by (apply fs_ok_put; [done|]; by rewrite length_set_bit).
    destruct (bwrite_bmap s2 Hok2) as (st3 & E3 & Hok3 & Hbb3 & Hv3).
    rewrite (bind_ok _ _ _ _ _ E3). set (s3 := with_store st3 s2) in *.
    erewrite (bind_ok (bzero_buf _ _)) by (apply bzero_buf_ok; destruct Hok3 as [_ Hl]; by rewrite (Hl RBUF)).
    assert (drop BLOCK_SIZE (getb RBUF (mem s3)) = []) as ->
      by (apply drop_ge; destruct Hok3 as [_ Hl]; by rewrite (Hl RBUF)).
    rewrite app_nil_r. set (s4 := with_mem (setb RBUF _ _) s3).
    assert (fs_ok s4) as Hok4 by (apply fs_ok_put; [done|]; apply length_replicate).
    fold (block_sector k). pose proof (block_sector_val k) as Hbs. pose proof BMAP_SECTOR_val as HBM.
    destruct (fs_bwrite_ok s4 RBUF BLOCK_SECTORS (block_sector k) Hok4) as (st5 & E5 & Hok5 & Hv5);
      [done | rewrite Hbs; unfold in_range, BLOCK_SECTORS; lia |].
    rewrite (bind_ok _ _ _ _ _ E5). eexists _, _. split; [done|]. split; [exact Hok5|].
    split; [|split; [done|]].
    { frame_explicit. }
    right. exists k. split; [lia|]. split; [done|]. split; [done|]. split; [done|].
    split; [|split; [|split]].
    + unfold block_bits. rewrite Hv5. unfold written_range, BLOCK_SECTORS.
      rewrite decide_False by lia. simpl. rewrite getb_setb_ne by done.
      change (block_bits s3 = set_bit (block_bits s) k). rewrite Hbb3. simpl. apply getb_setb_eq.
    + simpl. apply getb_setb_eq.
    + intros x Hx. rewrite Hv5. unfold written_range, BLOCK_SECTORS. rewrite decide_True by lia.
      cbn [mem with_mem s4]. rewrite getb_setb_eq. reflexivity.
    + intros x Hx1 Hx2. rewrite Hv5. unfold written_range, BLOCK_SECTORS. rewrite decide_False by lia.
      change (vw s3 x = vw s x). rewrite Hv3 by done. apply Hv1.
  - eexists MINUS1, _. split; [done|]. split; [exact Hok1|].
    split; [frame_explicit|]. split; [done|].
    left. split; [done|]. split; [done|]. split.
    + unfold block_bits at 1. rewrite Hv1. simpl. rewrite getb_setb_eq. unfold block_bits.
      rewrite drop_app_length' by (symmetry; by apply vw_length). done.
    + intros j Hj. apply Hscan; [lia|]. intros m [= <-]. lia.
Qed.

Lemma free_block_ok s k :
  fs_ok s -> 0 <= k < DATA_BLOCKS ->
  exists s', free_block (block_sector k) s = Ok (tt, s') /\ fs_ok s' /\
    frame [BMAP] s s' /\ fticks s' = fticks s /\
    block_bits s' = clear_bit (block_bits s) k /\
    forall x, ~ (BMAP_SECTOR <= x < BMAP_SECTOR + 32) -> vw s' x = vw s x.
Proof.
  intros Hok Hk. pose proof (block_sector_val k) as Hbs. pose proof DATA_BLOCKS_val as HDB.
  unfold free_block. rewrite (proj2 (Z.ltb_ge _ _)).
  2:{ rewrite Hbs. change (DATA_OFFSET + FS_START_SECTOR) with 802. lia. }
  fold BMAP_SECTOR. destruct (bread_bmap s Hok) as (st & E & Hok1 & Hv1).
  rewrite (bind_ok _ _ _ _ _ E). set (s1 := with_store _ _) in *.
  rewrite (bind_ok _ _ _ (block_bits s) s1) by (unfold buf, gets; simpl; by rewrite getb_setb_eq).
  assert (SECTOR2BLOCK (block_sector k - DATA_OFFSET - FS_START_SECTOR) = k) as ->.
  { rewrite Hbs. change DATA_OFFSET with 546. change FS_START_SECTOR with 256. unfold SECTOR2BLOCK.
    replace (8 * k + 802 - 546 - 256) with (k * 8) by lia. apply Z.div_mul. lia. }
  pose proof (block_bits_length s Hok) as Hlen.
  rewrite (proj2 (Z.ltb_lt _ _)).
  2:{ rewrite Hlen. change (Z.of_nat (32 * SECTOR_SIZE)) with 16384.
      apply Z.div_lt_upper_bound; lia. }
  rewrite (bind_ok _ _ _ _ _ eq_refl).
  set (s2 := with_mem (setb BMAP (clear_bit (block_bits s) k) (mem s1)) s1).
  assert (fs_ok s2) as Hok2 by (apply fs_ok_put; [done|]; by rewrite length_clear_bit).
  destruct (bwrite_bmap s2 Hok2) as (st3 & E3 & Hok3 & Hbb3 & Hv3).
  eexists. split; [exact E3|]. split; [done|]. split; [|split; [done|split]].
  - frame_explicit.
  - rewrite Hbb3. simpl. apply getb_setb_eq.
  - intros x Hx. rewrite Hv3 by done. apply Hv1.
Qed.

Lemma is_bytes_set_bit l k : is_bytes l -> is_bytes (set_bit l k).
Proof. apply is_bytes_alter. Qed.
Lemma is_bytes_clear_bit l k : is_bytes l -> is_bytes (clear_bit l k).
Proof. apply is_bytes_alter. Qed.

(** ** Searching a directory block *)

Lemma find_name_ok n j m name :
  terminated name -> (forall k, (j <= k < j + n)%nat -> terminated (slice (32 * k) 27 m)) ->
  match find_name n j m name with
  | Ok (Some k) => (j <= k < j + n)%nat /\ entry_name m k = c_str name /\
      forall i, (j <= i < k)%nat -> entry_name m i <> c_str name
  | Ok None => forall i, (j <= i < j + n)%nat -> entry_name m i <> c_str name
  | Err _ => False
  end.
Proof.
  intros Hn. revert j; induction n as [|n IH]; intros j Hwf; cbn [find_name]; [lia|].
  destruct (entry_name_drop m j) as [Hc Ht]; [apply Hwf; lia|].
  unfold DENTRY_BYTES. destruct (strcmp_ok (drop (32 * j) m) name Ht Hn) as (v & -> & Hv).
  rewrite Hc in Hv. cbn [mbind res_bind]. destruct (Z.eqb_spec v 0) as [Hz|Hz].
  - split; [lia|]. split; [by apply Hv|]. intros i ?. lia.
  - specialize (IH (S j)). destruct (find_name n (S j) m name) as [[k|]|e].
    + destruct IH as (? & ? & Hall); [intros; apply Hwf; lia|]. split; [lia|]. split; [done|].
      intros i Hi. destruct (decide (i = j)) as [->|]; [by rewrite <- Hv|]. apply Hall. lia.
    + intros i Hi. destruct (decide (i = j)) as [->|]; [by rewrite <- Hv|].
      apply IH; [intros; apply Hwf; lia|lia].
    + apply IH. intros; apply Hwf; lia.
Qed.

Lemma find_entry_ok n j m f :
  match find_entry n j m f with
  | Some k => (j <= k < j + n)%nat /\ f (decode_dentry (slice (32 * k) 32 m)) = true /\
      forall i, (j <= i < k)%nat -> f (decode_dentry (slice (32 * i) 32 m)) = false
  | None => forall i, (j <= i < j + n)%nat -> f (decode_dentry (slice (32 * i) 32 m)) = false
  end.
Proof.
  revert j; induction n as [|n IH]; intros j; cbn [find_entry]; [lia|]. unfold DENTRY_BYTES.
  destruct (f (decode_dentry (slice (32 * j) 32 m))) eqn:E; [split; [lia|]; split; [done|]; lia|].
  specialize (IH (S j)). destruct (find_entry n (S j) m f) as [k|].
  - destruct IH as (? & ? & Hall). split; [lia|]. split; [done|].
    intros i Hi. destruct (decide (i = j)) as [->|]; [done|]. apply Hall. lia.
  - intros i Hi. destruct (decide (i = j)) as [->|]; [done|]. apply IH. lia.
Qed.

(** ** Path names *)

(** A path component: no separator and no NUL in it. *)
Definition component (c : list Z) : Prop := 47 ∉ c /\ 0 ∉ c.

Lemma copy_component_ok c d rest dir j :
  component c -> d = 47 \/ d = 0 -> (j + length c < length dir)%nat ->
  copy_component (c ++ d :: rest) dir j =
  Ok (take j dir ++ c ++ 0 :: drop (S (j + length c)) dir, d :: rest).
Proof.
  intros [Hs Hz] Hd. revert dir j. induction c as [|x c IH]; intros dir j Hl; simpl.
  - rewrite decide_True by (simpl in Hl; lia).
    assert ((d =? 47) || (d =? 0) = true) as -> by (destruct Hd as [->| ->]; done).
    rewrite Nat.add_0_r. simpl in Hl. rewrite insert_take_drop by lia. done.
  - simpl in Hl. rewrite decide_True by lia.
    destruct (Z.eqb_spec x 47); [set_solver|]. destruct (Z.eqb_spec x 0); [set_solver|]. simpl.
    rewrite IH; [|set_solver|set_solver|rewrite length_insert; lia].
    rewrite (take_S_r _ _ x) by (apply list_lookup_insert_eq; lia).
    rewrite take_insert_ge by lia. rewrite drop_insert_lt by lia.
    rewrite <- app_assoc. simpl. by rewrite Nat.add_succ_r.
Qed.

(** A component that does not fit is written past the end of the array. *)
Lemma copy_component_overflow c d rest dir j :
  component c -> (j <= length dir)%nat -> (length dir <= j + length c)%nat ->
  copy_component (c ++ d :: rest) dir j = Err Fault.
Proof.
  intros [Hs Hz]. revert dir j. induction c as [|x c IH]; intros dir j Hj Hl; simpl in *.
  - by rewrite decide_False by lia.
  - case_decide; [|done].
    destruct (Z.eqb_spec x 47); [set_solver|]. destruct (Z.eqb_spec x 0); [set_solver|]. simpl.
    apply IH; [set_solver|set_solver|rewrite length_insert; lia..].
Qed.

(** The components of a path, joined by ['/']. *)
Fixpoint join_path (cs : list (list Z)) : list Z :=
  match cs with
  | [] => []
  | [c] => c
  | c :: cs' => c ++ 47 :: join_path cs'
  end.

Lemma join_path_cons c c' cs : join_path (c :: c' :: cs) = c ++ 47 :: join_path (c' :: cs).
Proof. done. Qed.

Lemma dir_string c (dir : list Z) : 0 ∉ c -> c_str ([] ++ c ++ 0 :: dir) = c.
Proof. apply c_str_app. Qed.

Lemma new_dir_length : length new_dir = 27%nat.
Proof. reflexivity. Qed.

Lemma parse_path_ok cs t :
  cs <> [] -> Forall (fun c => component c /\ (length c < 27)%nat) cs ->
  exists d1 d2 d3, parse_path (join_path cs ++ 0 :: t) new_dir new_dir new_dir = Ok (d1, d2, d3) /\
    c_str d1 = default [] (cs !! 0%nat) /\ c_str d2 = default [] (cs !! 1%nat) /\
    c_str d3 = default [] (cs !! 2%nat) /\ terminated d1 /\ terminated d2 /\ terminated d3.
Proof.
  assert (forall x (y : list Z), terminated (x ++ 0 :: y)) as Hterm
    by (intros; unfold terminated; set_solver).
  intros Hne Hcs. destruct cs as [|c1 [|c2 [|c3 cs]]]; [done|..]; rewrite ?Forall_cons in Hcs.
  - destruct Hcs as [[H1 L1] _]. unfold parse_path. simpl join_path.
    rewrite copy_component_ok by (try done; by right). simpl.
    do 3 eexists. split; [done|]. split; [by apply c_str_app, H1|]. split; [done|]. split; [done|].
    split; [apply Hterm|]. split; unfold terminated; set_solver.
  - destruct Hcs as [[H1 L1] [[H2 L2] _]]. unfold parse_path.
    rewrite join_path_cons, <- app_assoc. simpl app.
    rewrite copy_component_ok by (try done; by left). simpl.
    rewrite copy_component_ok by (try done; by right). simpl.
    do 3 eexists. split; [done|]. split; [by apply c_str_app, H1|]. split; [by apply c_str_app, H2|].
    split; [done|]. split; [apply Hterm|]. split; [apply Hterm|unfold terminated; set_solver].
  - destruct Hcs as [[H1 L1] [[H2 L2] [[H3 L3] Hcs]]]. unfold parse_path.
    rewrite join_path_cons, <- app_assoc. simpl app.
    rewrite copy_component_ok by (try done; by left). simpl.
    rewrite <- app_assoc. simpl app. rewrite copy_component_ok by (try done; by left). simpl.
    assert (exists d rest, (match cs with [] => c3 | _ => c3 ++ 47 :: join_path cs end) ++ 0 :: t =
              c3 ++ d :: rest /\ (d = 47 \/ d = 0)) as (d & rest & -> & Hd).
    { destruct cs; [exists 0, t; by split; [|right]|]. rewrite <- app_assoc. simpl.
      eexists 47, _. split; [done|by left]. }
    rewrite copy_component_ok by done. simpl.
    do 3 eexists. split; [done|]. split; [by apply c_str_app, H1|]. split; [by apply c_str_app, H2|].
    split; [by apply c_str_app, H3|]. split; [apply Hterm|]. split; apply Hterm.
Qed.

(** ** Looking up names *)

(** A directory as the kernel sees it, which is not what the disk holds: reading
    block [blk] puts all its sectors at the start of [dentry_buffer], so that the
    buffer ends with 16 entries of the last sector and, in the slots from 16 on,
    whatever this static buffer held before. *)
Definition dir_view s (blk : Z) : list Z :=
  vw s (blk + 7) ++ drop SECTOR_SIZE (getb DBUF (mem s)).

Lemma dir_view_length s blk : fs_ok s -> length (dir_view s blk) = BLOCK_SIZE.
Proof.
  intros Hok. unfold dir_view. rewrite length_app, length_drop, vw_length by done.
  destruct Hok as [_ Hl]. rewrite (Hl DBUF). simpl buf_size. unfold SECTOR_SIZE, BLOCK_SIZE. lia.
Qed.

Lemma bread_dir s blk :
  fs_ok s -> in_range blk 8 ->
  exists s', Fs.bread DBUF BLOCK_SECTORS blk s = Ok (tt, s') /\ fs_ok s' /\
    getb DBUF (mem s') = dir_view s blk /\ frame [DBUF] s s' /\ fticks s' = fticks s /\
    forall x, vw s' x = vw s x.
Proof.
  intros Hok Hr. destruct (fs_bread_ok s DBUF BLOCK_SECTORS blk Hok) as (st & E & Hok' & Hv); [done..|].
  replace (blk + BLOCK_SECTORS - 1) with (blk + 7) in * by (unfold BLOCK_SECTORS; lia).
  eexists. split; [exact E|]. split; [done|]. simpl. rewrite getb_setb_eq. split; [done|].
  split; [|by split]. split_and!; try done. intros b Hb. simpl. rewrite getb_setb_ne; [done|]. intros ->. apply Hb, list_elem_of_here.
Qed.

Lemma bread_inode s k :
  fs_ok s ->
  exists s', Fs.bread IBUF 1 (inodeidx2sector k) s = Ok (tt, s') /\ fs_ok s' /\
    getb IBUF (mem s') = vw s (inodeidx2sector k) /\ frame [IBUF] s s' /\ fticks s' = fticks s /\
    forall x, vw s' x = vw s x.
Proof.
  intros Hok. destruct (fs_bread_ok s IBUF 1 (inodeidx2sector k) Hok) as (st & E & Hok' & Hv).
  { done. } { unfold in_range, inodeidx2sector. pose proof (u32_range
      (FS_START_SECTOR + INODE_OFFSET + ROUNDDOWN (k * 64) 512 / 512)). lia. }
  replace (inodeidx2sector k + 1 - 1) with (inodeidx2sector k) in * by lia.
  eexists. split; [exact E|]. split; [done|]. simpl. rewrite getb_setb_eq. split.
  { rewrite drop_ge, app_nil_r; [done|]. destruct Hok as [_ Hl]. by rewrite (Hl IBUF). }
  split; [|by split]. split_and!; try done. intros b Hb. simpl. rewrite getb_setb_ne; [done|]. intros ->. apply Hb, list_elem_of_here.
Qed.

(** The inode with number [k] on the disk. *)
Definition disk_inode s (k : Z) : inode_t :=
  decode_inode (slice (INODE_BYTES * Z.to_nat (inodeidx2offset k)) INODE_BYTES (vw s (inodeidx2sector k))).

Definition dir_ok s (blk : Z) : Prop := in_range blk 8 /\ entries_wf (dir_view s blk) DENTRIES.

(** The first entry of a directory block with the name [nm]. *)
Definition first_named (m nm : list Z) (j : nat) : Prop :=
  (j < DENTRIES)%nat /\ entry_name m j = nm /\ forall i, (i < j)%nat -> entry_name m i <> nm.
Definition absent (m nm : list Z) : Prop :=
  forall i, (i < DENTRIES)%nat -> entry_name m i <> nm.

Lemma lookup_level_ok s blk name :
  fs_ok s -> dir_ok s blk -> terminated name ->
  exists r s', lookup_level blk name s = Ok (r, s') /\ fs_ok s' /\ frame [DBUF; IBUF] s s' /\
    getb DBUF (mem s') = dir_view s blk /\ (forall x, vw s' x = vw s x) /\
    match r with
    | None => absent (dir_view s blk) (c_str name)
    | Some off => exists j, first_named (dir_view s blk) (c_str name) j /\
        off = inodeidx2offset (entry_ino (dir_view s blk) j) /\
        getb IBUF (mem s') = vw s (inodeidx2sector (entry_ino (dir_view s blk) j))
    end.
Proof.
  intros Hok [Hr Hwf] Hn. unfold lookup_level.
  destruct (bread_dir s blk Hok Hr) as (s1 & E1 & Hok1 & Hb1 & Hf1 & _ & Hv1).
  rewrite (bind_ok _ _ _ _ _ E1).
  pose proof (find_name_ok DENTRIES 0 (dir_view s blk) name Hn) as Hfind.
  destruct (find_name DENTRIES 0 (dir_view s blk) name) as [o|e] eqn:Ef;
    [|by destruct Hfind; intros; apply Hwf; lia].
  assert (dentry_named name s1 = Ok (o, s1)) as E2.
  { unfold dentry_named, buf. rewrite (bind_ok _ _ _ _ _ eq_refl). rewrite Hb1, Ef. done. }
  rewrite (bind_ok _ _ _ _ _ E2).
  destruct o as [j|].
  - destruct Hfind as (Hj & Hname & Hfirst); [intros; apply Hwf; lia|].
    unfold get_dentry, buf. rewrite bind_bind. rewrite (bind_ok _ _ _ _ _ eq_refl).
    rewrite Hb1, (bind_ok _ _ _ _ _ eq_refl). unfold DENTRY_BYTES, DENTRIES in *.
    destruct (decode_entry (dir_view s blk) j) as (_ & _ & Hino).
    { rewrite dir_view_length by done. unfold BLOCK_SIZE. lia. }
    rewrite Hino.
    destruct (bread_inode s1 (entry_ino (dir_view s blk) j) Hok1) as (s2 & E3 & Hok2 & Hb2 & Hf2 & _ & Hv2).
    rewrite (bind_ok _ _ _ _ _ E3). eexists _, s2. split; [done|]. split; [done|]. split.
    { eapply frame_step; [eapply fs_frame_weaken; [exact Hf1|by_computation] | exact Hf2 | by_computation]. }
    split. { rewrite (frame_get _ _ _ _ Hf2) by by_computation. done. }
    split. { intros x. by rewrite Hv2. }
    exists j. split; [|split; [done|by rewrite Hb2, Hv1]].
    split; [unfold DENTRIES; lia|]. split; [done|]. intros i Hi. apply Hfirst. lia.
  - eexists None, s1. split; [done|]. split; [done|]. split.
    { eapply fs_frame_weaken; [exact Hf1|by_computation]. }
    split; [done|]. split; [done|]. intros i Hi. apply Hfind; [intros; apply Hwf; lia|lia].
Qed.

(** ** Storing inodes and directory entries *)

Lemma inode_sector_val k : 0 <= k < 2 ^ 32 -> inodeidx2sector k = 290 + k / 8.
Proof. intros Hk. rewrite inodeidx2sector_spec by done. reflexivity. Qed.

Lemma inode_offset_range k : (0 <= Z.to_nat (inodeidx2offset k) < 8)%nat.
Proof. unfold inodeidx2offset. pose proof (Z.mod_pos_bound k 8 ltac:(lia)). lia. Qed.

Lemma store_inode_ok s k i :
  fs_ok s -> 0 <= k < 2 ^ 32 -> inode_wf i -> getb IBUF (mem s) = vw s (inodeidx2sector k) ->
  exists s1 s2, set_inode (inodeidx2offset k) i s = Ok (tt, s1) /\
    Fs.bwrite IBUF 1 (inodeidx2sector k) s1 = Ok (tt, s2) /\ fs_ok s2 /\ frame [IBUF] s s2 /\
    fticks s2 = fticks s /\ disk_inode s2 k = i /\
    (forall k', 0 <= k' < 2 ^ 32 -> k' <> k -> disk_inode s2 k' = disk_inode s k') /\
    (forall x, x <> inodeidx2sector k -> vw s2 x = vw s x).
Proof.
  intros Hok Hk Hi Hb. pose proof (inode_offset_range k) as Ho.
  pose proof (length_encode_inode i ltac:(apply Hi)) as Hle.
  pose proof (vw_length s (inodeidx2sector k) Hok) as Hvl.
  set (v := splice (INODE_BYTES * Z.to_nat (inodeidx2offset k)) (encode_inode i) (vw s (inodeidx2sector k))).
  assert (INODE_BYTES * Z.to_nat (inodeidx2offset k) + length (encode_inode i) <=
          length (vw s (inodeidx2sector k)))%nat as Hfit
    by (rewrite Hle, Hvl; unfold INODE_BYTES, SECTOR_SIZE; lia).
  assert (length v = SECTOR_SIZE) as Hv by (unfold v; by rewrite length_splice).
  set (s1 := with_mem (setb IBUF v (mem s)) s).
  assert (fs_ok s1) as Hok1 by (by apply fs_ok_put).
  destruct (fs_bwrite_ok s1 IBUF 1 (inodeidx2sector k) Hok1) as (st & E & Hok2 & Hv2).
  { done. } { rewrite inode_sector_val by done. unfold in_range.
    pose proof (Z.div_pos k 8 ltac:(lia) ltac:(lia)).
    pose proof (Z.div_lt_upper_bound k 8 (2 ^ 29) ltac:(lia) ltac:(lia)). lia. }
  assert (getb IBUF (mem s1) = v) as Hg by (simpl; apply getb_setb_eq).
  assert (vw (with_store st s1) (inodeidx2sector k) = v) as Hvk.
  { rewrite Hv2. unfold written_range. rewrite decide_True by lia. rewrite Hg.
    apply firstn_all2. rewrite Hv. lia. }
  assert (forall x, x <> inodeidx2sector k -> vw (with_store st s1) x = vw s x) as Hvx.
  { intros x Hx. rewrite Hv2. unfold written_range. by rewrite decide_False by lia. }
  exists s1, (with_store st s1). split.
  { unfold set_inode, buf. rewrite (bind_ok _ _ _ _ _ eq_refl). rewrite Hb. done. }
  split; [done|]. split; [done|]. split.
  { split_and!; try done. intros b Hnb. simpl. rewrite getb_setb_ne; [done|].
    intros ->. apply Hnb, list_elem_of_here. }
  split; [done|]. split; [|split; [|done]].
  - unfold disk_inode. rewrite Hvk. unfold v. rewrite slice_splice_eq' by (rewrite ?Hle, ?Hvl;
      unfold INODE_BYTES, SECTOR_SIZE in *; lia). by apply decode_encode_inode.
  - intros k' Hk' Hne. unfold disk_inode.
    destruct (decide (inodeidx2sector k' = inodeidx2sector k)) as [Heq|Heq].
    + rewrite Heq, Hvk. unfold v. f_equal. apply slice_splice_ne; [done|]. rewrite Hle.
      rewrite !inode_sector_val in Heq by done. pose proof (inode_offset_range k').
      assert (k' mod 8 <> k mod 8) by (apply same_div_mod; [lia|done]).
      unfold inodeidx2offset, INODE_BYTES in *. pose proof (Z.mod_pos_bound k 8 ltac:(lia)).
      pose proof (Z.mod_pos_bound k' 8 ltac:(lia)). lia.
    + by rewrite Hvx.
Qed.

(** Filling slot [j] of the directory block in [dentry_buffer]. *)
Lemma set_entry_ok s j path nm t ino ty :
  fs_ok s -> (j < DENTRIES)%nat -> path = nm ++ 0 :: t -> (length nm < 27)%nat -> 0 ∉ nm ->
  exists s1 s2, set_dentry_name j path s = Ok (tt, s1) /\ set_dentry_ino j ino s1 = Ok (tt, s2) /\
    let s3 := with_mem (setb DBUF (put_entry (getb DBUF (mem s)) j nm ino ty) (mem s2)) s2 in
    set_dentry_type j ty s2 = Ok (tt, s3) /\ fs_ok s3 /\ frame [DBUF] s s3 /\
    fticks s3 = fticks s /\ store s3 = store s /\
    getb DBUF (mem s3) = put_entry (getb DBUF (mem s)) j nm ino ty.
Proof.
  intros Hok Hj -> Hnm Hz. set (m := getb DBUF (mem s)).
  assert (length m = BLOCK_SIZE) as Hm by apply Hok.
  assert (32 * j + 32 <= length m)%nat as Hfit by (rewrite Hm; unfold DENTRIES, BLOCK_SIZE in *; lia).
  set (m1 := splice (32 * j) (nm ++ [0]) m).
  set (m2 := splice (32 * j + 28) (le_bytes 4 ino) m1).
  set (s1 := with_mem (setb DBUF m1 (mem s)) s).
  set (s2 := with_mem (setb DBUF m2 (mem s1)) s1).
  exists s1, s2. split; [|split; [|split; [|split; [|split; [|split; [done|split; [done|]]]]]]].
  - unfold set_dentry_name, buf. rewrite (bind_ok _ _ _ _ _ eq_refl). fold m.
    erewrite bind_ok.
    2:{ apply lift_ok, strcpy_ok; [unfold terminated; set_solver|].
        rewrite c_str_app by done. rewrite length_drop. unfold DENTRY_BYTES. lia. }
    rewrite c_str_app by done. unfold DENTRY_BYTES.
    assert (take (32 * j) m ++ nm ++ 0 :: drop (S (length nm)) (drop (32 * j) m) = m1) as ->; [|done].
    unfold m1, splice. rewrite drop_drop, length_app, <- app_assoc. cbn [length app].
    do 4 f_equal. lia.
  - unfold set_dentry_ino, buf. rewrite (bind_ok _ _ _ _ _ eq_refl). simpl.
    by rewrite getb_setb_eq.
  - unfold set_dentry_type, buf. rewrite (bind_ok _ _ _ _ _ eq_refl). simpl.
    by rewrite getb_setb_eq.
  - destruct Hok as [Hs Hl]. split; [done|]. intros b. simpl.
    rewrite getb_setb. case_decide; [subst; by rewrite put_entry_length|].
    rewrite !getb_setb_ne by done. apply Hl.
  - split; [done|]. do 3 (split; [done|]). intros b Hnb. simpl.
    rewrite !getb_setb_ne; [done|..]; intros ->; apply Hnb, list_elem_of_here.
  - simpl. apply getb_setb_eq.
Qed.

(** Storing the block in [dentry_buffer]. *)
Lemma store_dir_ok s blk :
  fs_ok s -> in_range blk 8 ->
  exists s', Fs.bwrite DBUF BLOCK_SECTORS blk s = Ok (tt, s') /\ fs_ok s' /\ frame [] s s' /\
    mem s' = mem s /\ fticks s' = fticks s /\ dir_view s' blk = getb DBUF (mem s) /\
    (forall x, ~ (blk <= x < blk + 8) -> vw s' x = vw s x).
Proof.
  intros Hok Hr. destruct (fs_bwrite_ok s DBUF BLOCK_SECTORS blk Hok) as (st & E & Hok4 & Hv4); [done|done|].
  exists (with_store st s). split; [done|]. split; [done|]. split; [done|]. split; [done|]. split; [done|].
  split.
  - unfold dir_view. rewrite Hv4. unfold written_range, BLOCK_SECTORS. rewrite decide_True by lia.
    apply take_drop.
  - intros x Hx. rewrite Hv4. unfold written_range, BLOCK_SECTORS. by rewrite decide_False.
Qed.

(** Storing an entry in slot [j] of the directory block in [dentry_buffer]. *)
Lemma store_dentry_ok s blk j path nm t ino ty :
  fs_ok s -> in_range blk 8 -> (j < DENTRIES)%nat -> path = nm ++ 0 :: t ->
  (length nm < 27)%nat -> 0 ∉ nm ->
  exists s1 s2 s3 s4, set_dentry_name j path s = Ok (tt, s1) /\
    set_dentry_ino j ino s1 = Ok (tt, s2) /\ set_dentry_type j ty s2 = Ok (tt, s3) /\
    Fs.bwrite DBUF BLOCK_SECTORS blk s3 = Ok (tt, s4) /\ fs_ok s4 /\ frame [DBUF] s s4 /\
    fticks s4 = fticks s /\ dir_view s4 blk = put_entry (getb DBUF (mem s)) j nm ino ty /\
    getb DBUF (mem s4) = put_entry (getb DBUF (mem s)) j nm ino ty /\
    (forall x, ~ (blk <= x < blk + 8) -> vw s4 x = vw s x).
Proof.
  intros Hok Hr Hj Hp Hnm Hz.
  destruct (set_entry_ok s j path nm t ino ty Hok Hj Hp Hnm Hz)
    as (s1 & s2 & E1 & E2 & E3 & Hok3 & Hf3 & Ht3 & Hst3 & Hg3).
  destruct (store_dir_ok _ blk Hok3 Hr) as (s4 & E4 & Hok4 & Hf4 & Hm4 & Ht4 & Hd4 & Hv4).
  eexists s1, s2, _, s4. do 3 (split; [done|]). split; [exact E4|]. split; [done|].
  split; [eapply frame_step; [exact Hf3|exact Hf4|by_computation]|].
  split; [congruence|]. split; [by rewrite Hd4|]. split; [by rewrite Hm4|].
  intros x Hx. rewrite Hv4 by done. unfold vw. by rewrite Hst3.
Qed.

Lemma flush_wd_ok s :
  fs_ok s -> 0 <= i_ino (wd_inode s) < 2 ^ 32 -> inode_wf (wd_inode s) ->
  exists s', flush_wd s = Ok (tt, s') /\ fs_ok s' /\ frame [IBUF] s s' /\ fticks s' = fticks s /\
    disk_inode s' (i_ino (wd_inode s)) = wd_inode s /\
    (forall k, 0 <= k < 2 ^ 32 -> k <> i_ino (wd_inode s) -> disk_inode s' k = disk_inode s k) /\
    (forall x, x <> inodeidx2sector (i_ino (wd_inode s)) -> vw s' x = vw s x).
Proof.
  intros Hok Hk Hwf. unfold flush_wd. rewrite (bind_ok _ _ _ _ _ eq_refl).
  destruct (bread_inode s (i_ino (wd_inode s)) Hok) as (s1 & E1 & Hok1 & Hb1 & Hf1 & Ht1 & Hv1).
  rewrite (bind_ok _ _ _ _ _ E1).
  destruct (store_inode_ok s1 (i_ino (wd_inode s)) (wd_inode s) Hok1 Hk Hwf)
    as (s2 & s3 & E2 & E3 & Hok3 & Hf3 & Ht3 & Hd3 & Hdo3 & Hv3); [by rewrite Hv1|].
  rewrite (bind_ok _ _ _ _ _ E2). exists s3. split; [done|]. split; [done|].
  split; [eapply fs_frame_trans; eassumption|]. split; [congruence|]. split; [done|]. split.
  - intros k Hk' Hne. rewrite Hdo3 by done. unfold disk_inode. by rewrite Hv1.
  - intros x Hx. by rewrite Hv3, Hv1.
Qed.

Lemma disk_inode_view s s' k :
  vw s' (inodeidx2sector k) = vw s (inodeidx2sector k) -> disk_inode s' k = disk_inode s k.
Proof. intros E. unfold disk_inode. by rewrite E. Qed.

(** The working directory: a directory whose inode is allocated and whose block
    lies in the data region, with all names terminated. *)
Record wd_ok s (blk : Z) : Prop := {
  wd_fs : fs_ok s;
  wd_imap : is_bytes (vw s IMAP_SECTOR);
  wd_ino : 0 <= i_ino (wd_inode s) < 4096;
  wd_bit : bit (vw s IMAP_SECTOR) (i_ino (wd_inode s)) = true;
  wd_wf : inode_wf (wd_inode s);
  wd_block : i_blocks (wd_inode s) !! 0%nat = Some blk;
  wd_data : exists k, 0 <= k < DATA_BLOCKS /\ blk = block_sector k;
  wd_names : entries_wf (dir_view s blk) DENTRIES }.

(** The file name passed to [touch] and [mkdir]. *)
Definition file_name (path nm : list Z) : Prop :=
  exists t, path = nm ++ 0 :: t /\ component nm /\ (0 < length nm < 27)%nat.

Lemma file_name_cstr path nm : file_name path nm ->
  c_str path = nm /\ terminated path /\ List.hd 0 path <> 0.
Proof.
  intros (t & -> & [Hs Hz] & Hl). split; [by apply c_str_app|]. split; [unfold terminated; set_solver|].
  destruct nm as [|c nm]; simpl in *; [lia|]. set_solver.
Qed.

Lemma data_block_range s blk : wd_ok s blk -> in_range blk 8 /\ 802 <= blk.
Proof.
  intros Hw. destruct (wd_data _ _ Hw) as (k & Hk & ->). rewrite block_sector_val.
  pose proof DATA_BLOCKS_val. unfold in_range. lia.
Qed.

Lemma inode_sector_range k : 0 <= k < 4096 -> 290 <= inodeidx2sector k < 802.
Proof.
  intros Hk. rewrite inode_sector_val by lia.
  pose proof (Z.div_pos k 8 ltac:(lia) ltac:(lia)).
  pose proof (Z.div_lt_upper_bound k 8 512 ltac:(lia) ltac:(lia)). lia.
Qed.

Lemma dentry_named_absent s m path nm :
  getb DBUF (mem s) = m -> entries_wf m DENTRIES -> c_str path = nm -> terminated path ->
  absent m nm -> dentry_named path s = Ok (None, s).
Proof.
  intros Hm Hwf Hc Ht Ha. unfold dentry_named, buf. rewrite (bind_ok _ _ _ _ _ eq_refl). rewrite Hm.
  pose proof (find_name_ok DENTRIES 0 m path Ht) as Hf. rewrite Hc in Hf.
  destruct (find_name DENTRIES 0 m path) as [[j|]|e].
  - destruct Hf as (Hj & Hn & _); [intros; apply Hwf; lia|]. exfalso. apply (Ha j); [lia|done].
  - done.
  - exfalso. apply Hf. intros; apply Hwf; lia.
Qed.

Definition free_inode_left s : Prop := exists j, 0 <= j < 4096 /\ bit (vw s IMAP_SECTOR) j = false.
Definition unused_slot (m : list Z) (j : nat) : Prop :=
  (j < DENTRIES)%nat /\ entry_ino m j = 0 /\ List.hd 0 (slice (32 * j) 27 m) = 0.

Lemma unused_spec m i :
  (i < DENTRIES)%nat -> length m = BLOCK_SIZE ->
  unused (decode_dentry (slice (32 * i) 32 m)) = true <->
  entry_ino m i = 0 /\ List.hd 0 (slice (32 * i) 27 m) = 0.
Proof.
  intros Hi Hm. destruct (decode_entry m i) as (Hn & _ & Hino).
  { rewrite Hm. unfold DENTRIES, BLOCK_SIZE in *. lia. }
  unfold unused, name0. rewrite Hn, Hino, andb_true_iff, !Z.eqb_eq. done.
Qed.

Lemma dentry_unused s m :
  getb DBUF (mem s) = m -> length m = BLOCK_SIZE -> (exists j, unused_slot m j) ->
  exists j, unused_slot m j /\ (forall i, (i < j)%nat -> ~ unused_slot m i) /\
    dentry_that unused s = Ok (Some j, s).
Proof.
  intros Hm Hlen (j0 & Hj0 & Hu0). unfold dentry_that, buf. rewrite (bind_ok _ _ _ _ _ eq_refl). rewrite Hm.
  pose proof (find_entry_ok DENTRIES 0 m unused) as Hf.
  destruct (find_entry DENTRIES 0 m unused) as [j|].
  - destruct Hf as (Hj & Hu & Hfirst). exists j. split; [|split; [|done]].
    + split; [lia|]. by apply unused_spec; [lia|..].
    + intros i Hi (Hi' & Hui). apply (unused_spec m i) in Hui; [|done|done].
      rewrite Hfirst in Hui by lia. done.
  - exfalso. apply (unused_spec m j0) in Hu0; [|done|done]. rewrite Hf in Hu0 by lia. done.
Qed.

(** The working directory's inode after a new entry. *)
Definition wd_grown s (t : Z) : inode_t :=
  set_nlink_size_mtime (u16 (i_nlink (wd_inode s) + 1)) (u32 (i_size (wd_inode s) + 32)) (u32 t)
    (wd_inode s).

Lemma wd_grown_wf s t : inode_wf (wd_inode s) -> inode_wf (wd_grown s t).
Proof.
  intros (H1 & H2 & H3 & H4 & H5 & H6). unfold wd_grown, set_nlink_size_mtime, inode_wf, u32_range_list in *.
  simpl. rewrite !Forall_cons in *. destruct H4 as (? & ? & ? & ? & ? & _).
  pose proof (u32_range (i_size (wd_inode s) + 32)). pose proof (u32_range t).
  assert (0 <= u16 (i_nlink (wd_inode s) + 1) < 2 ^ 16) by (unfold u16; apply Z.mod_pos_bound; lia).
  split_and!; try lia; try done; by constructor.
Qed.

Lemma fresh_inode_wf k ty size t blk :
  0 <= k < 2 ^ 32 -> 0 <= ty < 2 ^ 8 -> 0 <= size < 2 ^ 32 -> 0 <= blk < 2 ^ 32 ->
  inode_wf (fresh_inode k ty size t blk).
Proof.
  intros Hk Hty Hs Hb. unfold fresh_inode, inode_wf, u32_range_list, O_RDWR. simpl.
  rewrite !Forall_cons. pose proof (u32_range t). repeat split; try lia; by constructor.
Qed.

Lemma strlen_name path nm : file_name path nm -> strlen path = Ok (Z.of_nat (length nm)).
Proof.
  intros Hp. destruct (file_name_cstr _ _ Hp) as (Hc & Ht & _).
  rewrite strlen_ok by done. by rewrite Hc.
Qed.

Lemma block_ptr_ok s i k blk :
  i_blocks i !! k = Some blk -> block_ptr i (Z.of_nat k) s = Ok (blk, s).
Proof. intros E. unfold block_ptr. by apply lift_ok, idx_ok. Qed.

(** The common beginning of [do_touch] and [do_mkdir]: the name is new, and an
    inode is allocated. *)
Lemma new_name_ok s blk path nm :
  wd_ok s blk -> file_name path nm -> absent (dir_view s blk) nm -> free_inode_left s ->
  exists s1 k s2, Fs.bread DBUF BLOCK_SECTORS blk s = Ok (tt, s1) /\
    dentry_named path s1 = Ok (None, s1) /\ find_free_inode s1 = Ok (k, s2) /\
    fs_ok s2 /\ frame [DBUF; IMAP] s s2 /\ fticks s2 = fticks s /\
    getb DBUF (mem s2) = dir_view s blk /\
    0 <= k < 4096 /\ bit (vw s IMAP_SECTOR) k = false /\ k <> i_ino (wd_inode s) /\
    vw s2 IMAP_SECTOR = set_bit (vw s IMAP_SECTOR) k /\
    (forall x, x <> IMAP_SECTOR -> vw s2 x = vw s x).
Proof.
  intros Hw Hp Ha (j & Hj & Hbj). destruct (data_block_range _ _ Hw) as [Hr Hd].
  destruct (file_name_cstr _ _ Hp) as (Hc & Ht & _).
  destruct (bread_dir s blk (wd_fs _ _ Hw) Hr) as (s1 & E1 & Hok1 & Hb1 & Hf1 & Ht1 & Hv1).
  assert (is_bytes (vw s1 IMAP_SECTOR)) as Hby by (rewrite Hv1; apply Hw).
  destruct (find_free_inode_ok s1 Hok1 Hby) as (k & s2 & E2 & Hok2 & Hf2 & Htk & Hres).
  destruct Hres as [(_ & _ & Hall)|(Hk & Hkb & _ & Hvi & Hvo)].
  { rewrite Hv1 in Hall. rewrite Hall in Hbj by lia. done. }
  exists s1, k, s2. rewrite Hv1 in *. split; [done|]. split.
  { eapply dentry_named_absent; [exact Hb1 | apply Hw | done | done | done]. }
  split; [done|]. split; [done|]. split.
  { eapply frame_step; [eapply fs_frame_weaken; [exact Hf1|by_computation] | exact Hf2 | by_computation]. }
  split; [congruence|]. split; [by rewrite (frame_get _ _ _ _ Hf2) by by_computation|].
  split; [done|]. split; [done|]. split; [intros ->; by rewrite (wd_bit _ _ Hw) in Hkb|].
  split; [done|]. intros x Hx. by rewrite Hvo, Hv1.
Qed.

Section Clock.
Variable timer : nat -> Z.

Lemma fs_timer_ok s :
  Fs.get_timer timer s = Ok (u64 (timer (fticks s)), with_fticks (S (fticks s)) s).
Proof. done. Qed.

Lemma frame_ticks bs s n : frame bs s (with_fticks n s).
Proof. done. Qed.
Lemma fs_ok_ticks s n : fs_ok s -> fs_ok (with_fticks n s).
Proof. done. Qed.
Lemma fs_ok_wd s i : fs_ok s -> fs_ok (with_wd i s).
Proof. done. Qed.

(** The common end of [do_touch] and [do_mkdir]: entry [j] of the block in
    [dentry_buffer] is stored and the working directory's inode updated. *)
Lemma add_entry_ok s blk j path nm k ty :
  fs_ok s -> in_range blk 8 -> 802 <= blk -> (j < DENTRIES)%nat -> file_name path nm ->
  0 <= i_ino (wd_inode s) < 4096 -> inode_wf (wd_inode s) ->
  exists s1 s2 s3 s4 s5, set_dentry_name j path s = Ok (tt, s1) /\
    set_dentry_ino j k s1 = Ok (tt, s2) /\ set_dentry_type j ty s2 = Ok (tt, s3) /\
    Fs.bwrite DBUF BLOCK_SECTORS blk s3 = Ok (tt, s4) /\ fticks s4 = fticks s /\
    wd_inode s4 = wd_inode s /\
    let s4' := with_wd (wd_grown s (u64 (timer (fticks s)))) (with_fticks (S (fticks s)) s4) in
    flush_wd s4' = Ok (tt, s5) /\ fs_ok s5 /\
    wd_inode s5 = wd_grown s (u64 (timer (fticks s))) /\
    fdesc_array s5 = fdesc_array s /\
    dir_view s5 blk = put_entry (getb DBUF (mem s)) j nm k ty /\
    (forall b, b <> DBUF -> b <> IBUF -> getb b (mem s5) = getb b (mem s)) /\
    fticks s5 = S (fticks s) /\
    disk_inode s5 (i_ino (wd_inode s)) = wd_inode s5 /\
    (forall k', 0 <= k' < 4096 -> k' <> i_ino (wd_inode s) -> disk_inode s5 k' = disk_inode s k') /\
    (forall x, ~ (blk <= x < blk + 8) -> ~ (290 <= x < 802) -> vw s5 x = vw s x).
Proof.
  intros Hok Hr Hd Hj (t & Hp & [Hsl Hz] & Hl) Hino Hwf.
  destruct (store_dentry_ok s blk j path nm t k ty Hok Hr Hj Hp ltac:(lia) Hz)
    as (s1 & s2 & s3 & s4 & E1 & E2 & E3 & E4 & Hok4 & Hf4 & Ht4 & Hdv4 & Hdb4 & Hv4).
  destruct Hf4 as (Hwd4 & Hfd4 & _ & _ & Hbuf4).
  set (s4' := with_wd (wd_grown s (u64 (timer (fticks s)))) (with_fticks (S (fticks s)) s4)).
  destruct (flush_wd_ok s4') as (s5 & E5 & Hok5 & Hf5 & Ht5 & Hdi5 & Hdo5 & Hv5).
  { done. } { simpl. lia. } { simpl. by apply wd_grown_wf. }
  destruct Hf5 as (Hwd5 & Hfd5 & _ & _ & Hbuf5). change (i_ino (wd_inode s4')) with (i_ino (wd_inode s)) in *.
  assert (290 <= inodeidx2sector (i_ino (wd_inode s)) < 802) as Hsec by (by apply inode_sector_range).
  exists s1, s2, s3, s4, s5. do 6 (split; [done|]). split; [done|]. split; [done|]. split; [done|].
  split; [by rewrite Hfd5|]. split; [|split; [|split; [by rewrite Ht5|split; [by rewrite Hdi5|split]]]].
  - unfold dir_view. rewrite Hv5 by lia. rewrite Hbuf5 by by_computation. exact Hdv4.
  - intros b Hb1 Hb2. rewrite Hbuf5 by (rewrite list_elem_of_singleton; done).
    apply Hbuf4. rewrite list_elem_of_singleton. done.
  - intros k' Hk' Hne. rewrite Hdo5 by (done || lia). apply disk_inode_view. apply Hv4.
    pose proof (inode_sector_range k' Hk'). lia.
  - intros x Hx1 Hx2. rewrite Hv5 by lia. by apply Hv4.
Qed.

Lemma do_touch_ok s blk path nm :
  wd_ok s blk -> file_name path nm -> absent (dir_view s blk) nm -> free_inode_left s ->
  (exists j, unused_slot (dir_view s blk) j) ->
  exists k j s', do_touch timer path s = Ok (0, s') /\ fs_ok s' /\
    0 <= k < 4096 /\ bit (vw s IMAP_SECTOR) k = false /\ k <> i_ino (wd_inode s) /\
    unused_slot (dir_view s blk) j /\
    wd_inode s' = wd_grown s (u64 (timer (S (fticks s)))) /\
    dir_view s' blk = put_entry (dir_view s blk) j nm k IT_FILE /\
    disk_inode s' k = fresh_inode k IT_FILE 0 (u64 (timer (fticks s))) 0 /\
    disk_inode s' (i_ino (wd_inode s)) = wd_inode s' /\
    (forall k', 0 <= k' < 4096 -> k' <> k -> k' <> i_ino (wd_inode s) ->
       disk_inode s' k' = disk_inode s k') /\
    vw s' IMAP_SECTOR = set_bit (vw s IMAP_SECTOR) k /\
    (forall x, ~ (blk <= x < blk + 8) -> ~ (290 <= x < 802) -> x <> IMAP_SECTOR -> vw s' x = vw s x).
Proof.
  intros Hw Hp Ha Hfree Hslot. destruct (data_block_range _ _ Hw) as [Hr Hd].
  destruct (new_name_ok s blk path nm Hw Hp Ha Hfree)
    as (s1 & k & s2 & E1 & E2 & E3 & Hok2 & Hf2 & Ht2 & Hdb2 & Hk & Hkb & Hkw & Hvi & Hvo).
  unfold do_touch. rewrite (bind_ok _ _ _ _ _ (lift_ok _ _ _ (strlen_name _ _ Hp))).
  rewrite (proj2 (geb_lt _ _)) by (destruct Hp as (t & _ & _ & ?); lia).
  rewrite (bind_ok _ _ _ _ _ eq_refl), (bind_ok _ _ _ _ _ (block_ptr_ok _ _ 0 _ (wd_block _ _ Hw))).
  rewrite (bind_ok _ _ _ _ _ E1), (bind_ok _ _ _ _ _ E2), (bind_ok _ _ _ _ _ E3).
  rewrite (proj2 (Z.eqb_neq _ _)) by (unfold MINUS1; lia).
  destruct (bread_inode s2 k Hok2) as (s3 & E4 & Hok3 & Hb3 & Hf3 & Ht3 & Hv3).
  rewrite (bind_ok _ _ _ _ _ E4), (bind_ok _ _ _ _ _ (fs_timer_ok _)).
  set (s3' := with_fticks (S (fticks s3)) s3).
  destruct (store_inode_ok s3' k (fresh_inode k IT_FILE 0 (u64 (timer (fticks s3))) 0))
    as (s4 & s5 & E5 & E6 & Hok5 & Hf5 & Ht5 & Hdi5 & Hdo5 & Hv5); [done | lia | | | ].
  { apply fresh_inode_wf; unfold IT_FILE; lia. } { simpl. rewrite Hb3. symmetry. apply Hv3. }
  rewrite (bind_ok _ _ _ _ _ E5), (bind_ok _ _ _ _ _ E6).
  assert (getb DBUF (mem s5) = dir_view s blk) as Hdb5.
  { rewrite (frame_get _ _ _ _ Hf5) by by_computation. simpl.
    by rewrite (frame_get _ _ _ _ Hf3) by by_computation. }
  destruct (dentry_unused s5 (dir_view s blk) Hdb5) as (j & Hju & Hjf & E7);
    [apply dir_view_length, Hw | done |].
  rewrite (bind_ok _ _ _ _ _ E7).
  assert (wd_inode s5 = wd_inode s) as Hwd5.
  { destruct Hf5 as (-> & _), Hf3 as (Hf3 & _), Hf2 as (Hf2 & _). simpl. congruence. }
  destruct (add_entry_ok s5 blk j path nm k IT_FILE Hok5 Hr Hd (proj1 Hju) Hp)
    as (s6 & s7 & s8 & s9 & s10 & E8 & E9 & E10 & E11 & Ht9 & Hwd9 & E12 & Hok10 & Hwd10 & _ & Hdv & _ & Ht10 & Hdw & Hdo & Hvx);
    [rewrite Hwd5; apply Hw .. |].
  rewrite (bind_ok _ _ _ _ _ E8), (bind_ok _ _ _ _ _ E9), (bind_ok _ _ _ _ _ E10),
    (bind_ok _ _ _ _ _ E11), (bind_ok _ _ _ _ _ (fs_timer_ok _)).
  erewrite bind_ok; [|unfold modify; simpl; rewrite Hwd9, Ht9; fold (wd_grown s5 (u64 (timer (fticks s5)))); reflexivity].
  rewrite (bind_ok _ _ _ _ _ E12).
  pose proof (inode_sector_range k Hk) as Hsk.
  assert (IMAP_SECTOR = 289) as HIM by done.
  assert (fticks s5 = S (fticks s)) as Hft by (rewrite Ht5; simpl; congruence).
  exists k, j, s10. split; [done|]. split; [done|]. split; [done|]. split; [done|]. split; [done|].
  split; [done|]. split; [|split; [|split; [|split; [|split; [|split]]]]].
  - rewrite Hwd10, Hft. unfold wd_grown. by rewrite Hwd5.
  - by rewrite Hdv, Hdb5.
  - rewrite Hdo by (rewrite ?Hwd5; done). rewrite Hdi5. by rewrite Ht3, Ht2.
  - rewrite <- Hwd5. exact Hdw.
  - intros k' Hk' Hne1 Hne2. rewrite Hdo by (rewrite ?Hwd5; done). rewrite Hdo5 by (lia || done).
    apply disk_inode_view. change (vw s3' ?x) with (vw s3 x). rewrite Hv3. apply Hvo.
    pose proof (inode_sector_range k' Hk'). lia.
  - rewrite Hvx by lia. rewrite Hv5 by lia. change (vw s3' ?x) with (vw s3 x). by rewrite Hv3.
  - intros x Hx1 Hx2 Hx3. rewrite Hvx by done. rewrite Hv5 by lia.
    change (vw s3' x) with (vw s3 x). rewrite Hv3. by apply Hvo.
Qed.

End Clock.

(** ** Path resolution *)

(** The first entry of a directory block with the name [nm]. *)
Definition lookup_name (m nm : list Z) : option nat :=
  List.find (fun j => bool_decide (entry_name m j = nm)) (seq 0 DENTRIES).

(** Resolution of a path from the directory [i], as the kernel sees directories:
    in [dir_view], stale slots included. *)
Fixpoint resolve s (i : inode_t) (cs : list (list Z)) : option inode_t :=
  match cs with
  | [] => Some i
  | c :: cs' =>
    match i_blocks i !! 0%nat with
    | None => None
    | Some blk =>
      match lookup_name (dir_view s blk) c with
      | None => None
      | Some j => resolve s (disk_inode s (entry_ino (dir_view s blk) j)) cs'
      end
    end
  end.

(** The directories on the way are well formed. *)
Fixpoint path_ok s (i : inode_t) (cs : list (list Z)) : Prop :=
  match cs with
  | [] => True
  | c :: cs' =>
    exists blk, i_blocks i !! 0%nat = Some blk /\ dir_ok s blk /\
      match lookup_name (dir_view s blk) c with
      | None => True
      | Some j => path_ok s (disk_inode s (entry_ino (dir_view s blk) j)) cs'
      end
  end.

Lemma find_first_seq (f : nat -> bool) n a :
  match List.find f (seq a n) with
  | Some j => (a <= j < a + n)%nat /\ f j = true /\ forall i, (a <= i < j)%nat -> f i = false
  | None => forall i, (a <= i < a + n)%nat -> f i = false
  end.
Proof.
  revert a; induction n as [|n IH]; intros a; simpl; [lia|].
  destruct (f a) eqn:E; [split; [lia|]; split; [done|]; lia|].
  specialize (IH (S a)). destruct (List.find f (seq (S a) n)) as [j|].
  - destruct IH as (? & ? & H). split; [lia|]. split; [done|]. intros i Hi.
    destruct (decide (i = a)) as [->|]; [done|]. apply H. lia.
  - intros i Hi. destruct (decide (i = a)) as [->|]; [done|]. apply IH. lia.
Qed.

Lemma lookup_name_first m nm j : first_named m nm j -> lookup_name m nm = Some j.
Proof.
  intros (Hj & Hn & Hf). unfold lookup_name.
  pose proof (find_first_seq (fun j => bool_decide (entry_name m j = nm)) DENTRIES 0) as H.
  destruct (List.find _ _) as [k|].
  - destruct H as (Hk & Hkn & Hkf). apply bool_decide_eq_true in Hkn.
    destruct (lt_eq_lt_dec j k) as [[Hlt| ->]|Hlt]; [|done|].
    + specialize (Hkf j ltac:(lia)). apply bool_decide_eq_false in Hkf. done.
    + by destruct (Hf k Hlt).
  - specialize (H j ltac:(lia)). apply bool_decide_eq_false in H. done.
Qed.
Lemma lookup_name_absent m nm : absent m nm -> lookup_name m nm = None.
Proof.
  intros Ha. unfold lookup_name.
  pose proof (find_first_seq (fun j => bool_decide (entry_name m j = nm)) DENTRIES 0) as H.
  destruct (List.find _ _) as [k|]; [|done].
  destruct H as (Hk & Hkn & _). apply bool_decide_eq_true in Hkn. by destruct (Ha k ltac:(lia)).
Qed.

(** Reads leave the directories as they were. *)
Lemma dir_view_same s s' blk :
  (forall x, vw s' x = vw s x) ->
  drop SECTOR_SIZE (getb DBUF (mem s')) = drop SECTOR_SIZE (getb DBUF (mem s)) ->
  dir_view s' blk = dir_view s blk.
Proof. intros Hv Hd. unfold dir_view. by rewrite Hv, Hd. Qed.

(** One level: the inode the name stands for is in [inode_buffer]. *)
Lemma lookup_level_resolves s i c name :
  fs_ok s -> path_ok s i [c] -> c_str name = c -> terminated name ->
  exists blk r s', i_blocks i !! 0%nat = Some blk /\ lookup_level blk name s = Ok (r, s') /\
    fs_ok s' /\ frame [DBUF; IBUF] s s' /\ (forall x, vw s' x = vw s x) /\
    (forall b, dir_view s' b = dir_view s b) /\
    match lookup_name (dir_view s blk) c with
    | None => r = None
    | Some j => exists off, r = Some off /\
        get_inode off s' = Ok (disk_inode s (entry_ino (dir_view s blk) j), s')
    end.
Proof.
  intros Hok (blk & Hb & Hd & _) Hc Ht.
  destruct (lookup_level_ok s blk name Hok Hd Ht) as (r & s' & E & Hok' & Hf & Hdb & Hv & Hr).
  exists blk, r, s'. split; [done|]. split; [done|]. split; [done|]. split; [done|]. split; [done|].
  split.
  { intros b. apply dir_view_same; [done|]. rewrite Hdb. unfold dir_view.
    rewrite drop_app_length' by (symmetry; by apply vw_length). done. }
  rewrite Hc in Hr. destruct r as [off|].
  - destruct Hr as (j & Hj & -> & Hib). rewrite (lookup_name_first _ _ _ Hj).
    eexists. split; [done|]. unfold get_inode, buf. rewrite (bind_ok _ _ _ _ _ eq_refl).
    rewrite Hib. done.
  - by rewrite (lookup_name_absent _ _ Hr).
Qed.

Lemma resolve_same s s' i cs :
  (forall x, vw s' x = vw s x) -> (forall b, dir_view s' b = dir_view s b) ->
  resolve s' i cs = resolve s i cs /\ (path_ok s i cs -> path_ok s' i cs).
Proof.
  intros Hv Hd. revert i; induction cs as [|c cs IH]; intros i; simpl; [done|].
  assert (forall k, disk_inode s' k = disk_inode s k) as Hdi by (intros; by apply disk_inode_view).
  split.
  - destruct (i_blocks i !! 0%nat) as [blk|]; [|done]. rewrite Hd.
    destruct (lookup_name _ _); [|done]. rewrite Hdi. apply IH.
  - intros (blk & Hb & [Hr He] & Hp). exists blk. split; [done|]. unfold dir_ok. rewrite Hd.
    split; [done|]. destruct (lookup_name _ _); [|done]. rewrite Hdi. by apply IH.
Qed.

Lemma path_ok_one s i c cs : path_ok s i (c :: cs) -> path_ok s i [c].
Proof. intros (blk & Hb & Hd & _). exists blk. split_and!; try done. by case_match. Qed.

Lemma path_ok_next s i c cs blk j :
  path_ok s i (c :: cs) -> i_blocks i !! 0%nat = Some blk -> lookup_name (dir_view s blk) c = Some j ->
  path_ok s (disk_inode s (entry_ino (dir_view s blk) j)) cs.
Proof. intros (blk' & Hb & _ & Hp) Hb' Hl. simplify_eq. by rewrite Hl in Hp. Qed.

Lemma hd_c_str l : terminated l -> (List.hd 0 l =? 0) = bool_decide (c_str l = []).
Proof.
  destruct l as [|c l]; [intros []%not_elem_of_nil|]. intros _. simpl.
  destruct (Z.eqb_spec c 0) as [->|]; [by rewrite bool_decide_true|].
  by rewrite bool_decide_false.
Qed.

(** A path of one to three components, none empty and none too long. *)
Definition good_path (path : list Z) (cs : list (list Z)) : Prop :=
  (exists t, path = join_path cs ++ 0 :: t) /\ (1 <= length cs <= 3)%nat /\
  Forall (fun c => component c /\ c <> [] /\ (length c < 27)%nat) cs.

Lemma good_path_parse path cs :
  good_path path cs ->
  List.hd 0 path <> 0 /\
  exists d1 d2 d3, parse_path path new_dir new_dir new_dir = Ok (d1, d2, d3) /\
    c_str d1 = default [] (cs !! 0%nat) /\ c_str d2 = default [] (cs !! 1%nat) /\
    c_str d3 = default [] (cs !! 2%nat) /\ terminated d1 /\ terminated d2 /\ terminated d3.
Proof.
  intros ((t & ->) & Hl & Hcs). split.
  - destruct cs as [|[|x c] cs]; [simpl in Hl; lia|..]; rewrite Forall_cons in Hcs;
      destruct Hcs as [([_ Hz] & Hne & _) _]; [done|].
    destruct cs; simpl; intros ->; apply Hz; left.
  - apply parse_path_ok; [by destruct cs; [simpl in Hl; lia|]|].
    eapply Forall_impl; [exact Hcs|]. simpl. tauto.
Qed.

Lemma find_inode_ok s path cs p i :
  fs_ok s -> good_path path cs -> deref p s = Ok (i, s) -> path_ok s i cs ->
  exists r s', find_inode path p s = Ok (r, s') /\ fs_ok s' /\ frame [DBUF; IBUF] s s' /\
    (forall x, vw s' x = vw s x) /\ (forall b, dir_view s' b = dir_view s b) /\
    match resolve s i cs with
    | None => r = None
    | Some j => exists off, r = Some (PBuf off) /\ get_inode off s' = Ok (j, s')
    end.
Proof.
  intros Hok Hgp Hde Hpo.
  destruct (good_path_parse _ _ Hgp) as (Hne & d1 & d2 & d3 & Ep & H1 & H2 & H3 & T1 & T2 & T3).
  destruct Hgp as (_ & Hl & Hcs).
  unfold find_inode. rewrite (proj2 (Z.eqb_neq _ _) Hne).
  rewrite (bind_ok _ _ _ _ _ (lift_ok _ _ _ Ep)), (bind_ok _ _ _ _ _ Hde).
  rewrite (hd_c_str d2 T2), (hd_c_str d3 T3).
  destruct cs as [|c1 cs]; [simpl in Hl; lia|]. simpl in H1.
  destruct (lookup_level_resolves s i c1 d1 Hok (path_ok_one _ _ _ _ Hpo) H1 T1)
    as (b1 & r1 & s1 & Hb1 & E1 & Hok1 & Hf1 & Hv1 & Hd1 & Hr1).
  rewrite (bind_ok _ _ _ _ _ (block_ptr_ok _ _ 0 _ Hb1)), (bind_ok _ _ _ _ _ E1).
  cbn [resolve]. rewrite Hb1.
  destruct (lookup_name (dir_view s b1) c1) as [j1|] eqn:L1; [|subst r1; by eauto 8].
  destruct Hr1 as (o1 & -> & G1).
  pose proof (path_ok_next _ _ _ _ _ _ Hpo Hb1 L1) as Hpo1.
  set (i1 := disk_inode s (entry_ino (dir_view s b1) j1)) in *.
  rewrite (bind_ok _ _ _ _ _ G1).
  destruct cs as [|c2 cs]; simpl in H2; rewrite H2.
  { rewrite bool_decide_true by done. exists (Some (PBuf o1)), s1. do 5 (split; [done|]). cbn [resolve]. by exists o1. }
  rewrite !Forall_cons in Hcs. destruct Hcs as (_ & (_ & Hn2 & _) & Hcs).
  rewrite bool_decide_false by done.
  destruct (resolve_same s s1 i1 (c2 :: cs) Hv1 Hd1) as [Hrs1 Hpk1].
  specialize (Hpk1 Hpo1). rewrite <- Hrs1.
  destruct (lookup_level_resolves s1 i1 c2 d2 Hok1 (path_ok_one _ _ _ _ Hpk1) H2 T2)
    as (b2 & r2 & s2 & Hb2 & E2 & Hok2 & Hf2 & Hv2 & Hd2 & Hr2).
  assert (frame [DBUF; IBUF] s s2) as Hf02 by (by eapply fs_frame_trans).
  assert (forall x, vw s2 x = vw s x) as Hv02 by (intros; by rewrite Hv2).
  assert (forall b, dir_view s2 b = dir_view s b) as Hd02 by (intros; by rewrite Hd2).
  rewrite (bind_ok _ _ _ _ _ (block_ptr_ok _ _ 0 _ Hb2)), (bind_ok _ _ _ _ _ E2).
  cbn [resolve]. rewrite Hb2.
  destruct (lookup_name (dir_view s1 b2) c2) as [j2|] eqn:L2; [|subst r2; by eauto 8].
  destruct Hr2 as (o2 & -> & G2).
  pose proof (path_ok_next _ _ _ _ _ _ Hpk1 Hb2 L2) as Hpo2.
  set (i2 := disk_inode s1 (entry_ino (dir_view s1 b2) j2)) in *.
  rewrite (bind_ok _ _ _ _ _ G2).
  destruct cs as [|c3 cs]; simpl in H3; rewrite H3.
  { rewrite bool_decide_true by done. exists (Some (PBuf o2)), s2. do 5 (split; [done|]). cbn [resolve]. by exists o2. }
  rewrite !Forall_cons in Hcs. destruct Hcs as ((_ & Hn3 & _) & _).
  rewrite bool_decide_false by done.
  destruct cs; [|simpl in Hl; lia].
  destruct (resolve_same s1 s2 i2 [c3] Hv2 Hd2) as [Hrs2 Hpk2].
  specialize (Hpk2 Hpo2). rewrite <- Hrs2.
  destruct (lookup_level_resolves s2 i2 c3 d3 Hok2 Hpk2 H3 T3)
    as (b3 & r3 & s3 & Hb3 & E3 & Hok3 & Hf3 & Hv3 & Hd3 & Hr3).
  rewrite (bind_ok _ _ _ _ _ (block_ptr_ok _ _ 0 _ Hb3)), (bind_ok _ _ _ _ _ E3).
  cbn [resolve]. rewrite Hb3.
  assert (frame [DBUF; IBUF] s s3) as Hf03 by (by eapply fs_frame_trans).
  assert (forall x, vw s3 x = vw s x) as Hv03 by (intros; by rewrite Hv3).
  assert (forall b, dir_view s3 b = dir_view s b) as Hd03 by (intros; by rewrite Hd3).
  destruct (lookup_name (dir_view s2 b3) c3) as [j3|] eqn:L3; [|subst r3; by eauto 8].
  destruct Hr3 as (o3 & -> & G3). exists (Some (PBuf o3)), s3. do 5 (split; [done|]). by exists o3.
Qed.

End Facts.
