(* ===== verification/FsDir.v ===== *)
(** * Directories: creating, entering and looking up (kernel/fs/fs.c)

    What [do_touch], [do_mkdir], [do_cd] and [find_inode] do to the directory
    tree, on the facts of [FsFacts]. *)
From Stdlib Require String.
From S2P Require Import Prelude CString BCache FsLayout Fs FsFacts.
Import String.StringSyntax.
Delimit Scope string_scope with string.

(** The block of a new directory. *)
Definition new_dir_block (self parent : Z) : list Z :=
  put_entry (put_entry (replicate BLOCK_SIZE 0) 0 (codes "."%string) self IT_DIR) 1
    (codes ".."%string) parent IT_DIR.

(** The inode number a name stands for in a directory block. *)
Definition lookup_ino (m nm : list Z) : option Z := entry_ino m <$> lookup_name m nm.

(** ** Names and [put_entry] *)

Lemma lookup_name_cases m nm :
  match lookup_name m nm with Some j => first_named m nm j | None => absent m nm end.
Proof.
  unfold lookup_name.
  pose proof (find_first_seq (fun j => bool_decide (entry_name m j = nm)) DENTRIES 0) as H.
  destruct (List.find _ _) as [k|].
  - destruct H as (Hk & Hkn & Hkf). apply bool_decide_eq_true in Hkn. split; [lia|]. split; [done|].
    intros i Hi. specialize (Hkf i ltac:(lia)). by apply bool_decide_eq_false in Hkf.
  - intros i Hi. specialize (H i ltac:(lia)). by apply bool_decide_eq_false in H.
Qed.

Section PutEntry.
Context (m : list Z) (j : nat) (nm : list Z) (ino ty : Z).
Hypothesis Hm : length m = BLOCK_SIZE.
Hypothesis Hj : (j < DENTRIES)%nat.
Hypothesis Hnm : (length nm < 27)%nat.
Hypothesis Hz : 0 ∉ nm.
Hypothesis Hino : 0 <= ino < 2 ^ 32.
Hypothesis Hty : 0 <= ty < 2 ^ 8.

Lemma put_fits : (32 * j + 32 <= length m)%nat.
Proof. rewrite Hm. unfold DENTRIES, BLOCK_SIZE in *. clear -Hj. lia. Qed.

Lemma put_entry_name_other i : i <> j -> entry_name (put_entry m j nm ino ty) i = entry_name m i.
Proof.
  intros Hne. unfold entry_name. pose proof (put_entry_other m j nm ino ty put_fits Hnm i 27 0 Hne) as E.
  rewrite Nat.add_0_r in E. by rewrite E by lia.
Qed.
Lemma put_entry_ino_other i : i <> j -> entry_ino (put_entry m j nm ino ty) i = entry_ino m i.
Proof.
  intros Hne. unfold entry_ino.
  by rewrite (put_entry_other m j nm ino ty put_fits Hnm i 4 28 Hne) by lia.
Qed.

Lemma put_entry_wf : entries_wf m DENTRIES -> entries_wf (put_entry m j nm ino ty) DENTRIES.
Proof.
  intros Hwf i Hi. destruct (decide (i = j)) as [->|Hne].
  - by apply put_entry_name; [apply put_fits|..].
  - pose proof (put_entry_other m j nm ino ty put_fits Hnm i 27 0 Hne) as E.
    rewrite Nat.add_0_r in E. rewrite E by lia. by apply Hwf.
Qed.

(** The new name stands for the new inode. *)
Lemma put_entry_lookup :
  absent m nm -> lookup_name (put_entry m j nm ino ty) nm = Some j /\
  lookup_ino (put_entry m j nm ino ty) nm = Some ino.
Proof.
  intros Ha. assert (lookup_name (put_entry m j nm ino ty) nm = Some j) as E.
  { apply lookup_name_first. split; [done|]. split; [by apply put_entry_name; [apply put_fits|..]|].
    intros i Hi. rewrite put_entry_name_other by lia. apply Ha. lia. }
  split; [done|]. unfold lookup_ino. rewrite E. simpl. f_equal.
  apply put_entry_ino; [apply put_fits|done..].
Qed.

(** Every other name keeps its meaning when the slot was unnamed. *)
Lemma put_entry_lookup_other nm' :
  entry_name m j = [] -> nm' <> nm -> nm' <> [] ->
  lookup_ino (put_entry m j nm ino ty) nm' = lookup_ino m nm'.
Proof.
  intros He Hne Hne'.
  assert (entry_name (put_entry m j nm ino ty) j = nm) as Hjn
    by (by apply put_entry_name; [apply put_fits|..]).
  unfold lookup_ino. pose proof (lookup_name_cases m nm') as H.
  destruct (lookup_name m nm') as [i|].
  - destruct H as (Hi & Hn & Hf). assert (i <> j) by (intros ->; congruence).
    rewrite (lookup_name_first _ _ i); [simpl; by rewrite put_entry_ino_other|].
    split; [done|]. split; [by rewrite put_entry_name_other|]. intros i' Hi'.
    destruct (decide (i' = j)) as [->|]; [congruence|]. rewrite put_entry_name_other by done. auto.
  - rewrite lookup_name_absent; [done|]. intros i Hi.
    destruct (decide (i = j)) as [->|]; [congruence|]. rewrite put_entry_name_other by done. auto.
Qed.
End PutEntry.

Lemma unused_unnamed m j :
  List.hd 0 (slice (32 * j) 27 m) = 0 -> entry_name m j = [].
Proof. intros H. unfold entry_name. destruct (slice _ _ _) as [|c l]; [done|]. simpl in *. by subst. Qed.

(** ** Blocks of which one sector is kept *)

(** The first sector of [a], then the rest of [b]. *)
Definition patched (a b : list Z) : list Z := take SECTOR_SIZE a ++ drop SECTOR_SIZE b.

Section Patched.
Context (a b : list Z).
Hypothesis Ha : length a = BLOCK_SIZE.
Hypothesis Hb : length b = BLOCK_SIZE.

Lemma patched_slice off n :
  slice off n (patched a b) =
  if decide (off + n <= SECTOR_SIZE)%nat then slice off n a
  else if decide (SECTOR_SIZE <= off)%nat then slice off n b else slice off n (patched a b).
Proof.
  assert (length (take SECTOR_SIZE a) = SECTOR_SIZE) as Hl
    by (rewrite length_take, Ha; unfold SECTOR_SIZE, BLOCK_SIZE; lia).
  unfold patched. case_decide; [|case_decide; [|done]].
  - rewrite slice_app_prefix by lia. unfold slice. rewrite skipn_firstn_comm, take_take. f_equal. lia.
  - unfold slice. rewrite drop_app_ge by lia. rewrite Hl, drop_drop. do 2 f_equal. lia.
Qed.

Lemma patched_low j off n :
  (j < 16)%nat -> (off + n <= 32)%nat ->
  slice (32 * j + off) n (patched a b) = slice (32 * j + off) n a.
Proof. intros Hj Hn. rewrite patched_slice. rewrite decide_True; [done|]. unfold SECTOR_SIZE. lia. Qed.
Lemma patched_high j off n :
  (16 <= j)%nat -> (0 < n)%nat ->
  slice (32 * j + off) n (patched a b) = slice (32 * j + off) n b.
Proof.
  intros Hj Hn. rewrite patched_slice. unfold SECTOR_SIZE.
  rewrite decide_False by lia. rewrite decide_True by lia. done.
Qed.

Lemma patched_names j :
  slice (32 * j) 27 (patched a b) = if decide (j < 16)%nat then slice (32 * j) 27 a else slice (32 * j) 27 b.
Proof.
  case_decide.
  - pose proof (patched_low j 0 27) as E. rewrite Nat.add_0_r in E. apply E; lia.
  - pose proof (patched_high j 0 27) as E. rewrite Nat.add_0_r in E. apply E; lia.
Qed.

Lemma patched_wf :
  entries_wf a DENTRIES -> entries_wf b DENTRIES -> entries_wf (patched a b) DENTRIES.
Proof. intros H1 H2 j Hj. rewrite patched_names. case_decide; auto. Qed.

Lemma patched_first nm j :
  (j < 16)%nat -> first_named a nm j -> first_named (patched a b) nm j /\
    entry_ino (patched a b) j = entry_ino a j.
Proof.
  intros Hj (Hlt & Hn & Hf). split; [|unfold entry_ino; by rewrite patched_low by lia].
  split; [done|]. unfold entry_name in *. rewrite patched_names, decide_True by done.
  split; [done|]. intros i Hi. rewrite patched_names, decide_True by lia. auto.
Qed.
End Patched.

(** ** The block of a new directory *)

Lemma zero_block_names j : entry_name (replicate BLOCK_SIZE 0) j = [].
Proof.
  unfold entry_name, slice. rewrite drop_replicate, take_replicate. by destruct (min _ _).
Qed.
Lemma zero_block_wf : entries_wf (replicate BLOCK_SIZE 0) DENTRIES.
Proof.
  intros j Hj. unfold slice. rewrite drop_replicate, take_replicate. unfold terminated, DENTRIES, BLOCK_SIZE in *.
  replace (min 27 (4096 - 32 * j)) with 27%nat by lia. by_computation.
Qed.

Section NewDir.
Context (self parent : Z).
Hypothesis Hself : 0 <= self < 2 ^ 32.
Hypothesis Hparent : 0 <= parent < 2 ^ 32.

Let dot := codes "."%string.
Let dotdot := codes ".."%string.
Let m1 := put_entry (replicate BLOCK_SIZE 0) 0 dot self IT_DIR.

Local Ltac side := first [assumption | by_computation].

Lemma new_dir_m1 : length m1 = BLOCK_SIZE /\ entries_wf m1 DENTRIES /\
  lookup_ino m1 dot = Some self /\ absent m1 dotdot /\ entry_name m1 1 = [].
Proof.
  assert (length (replicate BLOCK_SIZE 0) = BLOCK_SIZE) as H0 by apply length_replicate.
  assert (32 * 0 + 32 <= length (replicate BLOCK_SIZE 0%Z))%nat as Hfit by (rewrite H0; unfold BLOCK_SIZE; lia).
  assert (forall i, (i <> 0)%nat -> entry_name m1 i = []) as Hn.
  { intros i Hi. unfold m1. rewrite put_entry_name_other; [apply zero_block_names|side..]. }
  split; [unfold m1; rewrite put_entry_length; side|].
  split; [apply put_entry_wf; [side..|apply zero_block_wf]|].
  split; [apply put_entry_lookup; [side..|]; intros i _; by rewrite zero_block_names|].
  split; [|by apply Hn]. intros i Hi. destruct (decide (i = 0)%nat) as [->|]; [|by rewrite Hn].
  unfold m1. destruct (put_entry_name (replicate BLOCK_SIZE 0) 0 dot self IT_DIR) as [-> _]; [side..|done].
Qed.

Lemma new_dir_block_ok :
  length (new_dir_block self parent) = BLOCK_SIZE /\ entries_wf (new_dir_block self parent) DENTRIES /\
  lookup_ino (new_dir_block self parent) dot = Some self /\
  lookup_ino (new_dir_block self parent) dotdot = Some parent.
Proof.
  destruct new_dir_m1 as (Hl & Hwf & Hd & Ha & He).
  assert (32 * 1 + 32 <= length m1)%nat as Hfit by (rewrite Hl; unfold BLOCK_SIZE; lia).
  change (new_dir_block self parent) with (put_entry m1 1 dotdot parent IT_DIR). clearbody m1.
  split; [rewrite put_entry_length; side|].
  split; [apply put_entry_wf; side|]. split.
  - rewrite put_entry_lookup_other; side.
  - apply put_entry_lookup; side.
Qed.
End NewDir.

(** The side conditions on an entry. *)
Ltac entry_side := first [done | lia | unfold IT_FILE, IT_DIR; lia].

(** parse_path splits a path at its separators; a component of 27 bytes or more is
    written past the end of its array. *)
Theorem parse_path_splits cs t :
  cs <> [] -> Forall component cs ->
  (Forall (fun c => (length c < 27)%nat) cs ->
   exists d1 d2 d3, parse_path (join_path cs ++ 0 :: t) new_dir new_dir new_dir = Ok (d1, d2, d3) /\
     c_str d1 = default [] (cs !! 0%nat) /\ c_str d2 = default [] (cs !! 1%nat) /\
     c_str d3 = default [] (cs !! 2%nat)) /\
  ((27 <= length (default [] (cs !! 0%nat)))%nat ->
   parse_path (join_path cs ++ 0 :: t) new_dir new_dir new_dir = Err Fault).
Proof.
  intros Hne Hc. split.
  - intros Hl. destruct (parse_path_ok cs t Hne) as (d1 & d2 & d3 & E & H1 & H2 & H3 & _);
      [by apply Forall_and|by eauto 8].
  - destruct cs as [|c cs]; [done|]. simpl default. intros Hl. apply Forall_cons in Hc as [Hc _].
    assert (exists d rest, join_path (c :: cs) ++ 0 :: t = c ++ d :: rest) as (d & rest & ->).
    { destruct cs as [|c' cs]; [by exists 0, t|]. rewrite join_path_cons, <- app_assoc. by eexists 47, _. }
    unfold parse_path. rewrite copy_component_overflow; [done|done|lia|]. rewrite new_dir_length. lia.
Qed.


Section Dir.
Context {St : Type} `{!SectorStore St}.
Variable timer : nat -> Z.
Abbreviation fsst := (@Fs.fsst St).
Implicit Types s : fsst.

(** *** What the disk alone says

    A sector holds 16 entries; the other slots of [dentry_buffer] are stale. *)
Definition SECTOR_DENTRIES : nat := 16.
Definition disk_lookup s (blk : Z) (nm : list Z) : option nat :=
  List.find (fun j => bool_decide (entry_name (vw s (blk + 7)) j = nm)) (seq 0 SECTOR_DENTRIES).
Fixpoint disk_resolve s (i : inode_t) (cs : list (list Z)) : option inode_t :=
  match cs with
  | [] => Some i
  | c :: cs' =>
    blk ← i_blocks i !! 0%nat;
    j ← disk_lookup s blk c;
    disk_resolve s (disk_inode s (entry_ino (vw s (blk + 7)) j)) cs'
  end.
(** No stale slot has the name of a component. *)
Definition no_stale s (cs : list (list Z)) : Prop :=
  Forall (fun c => forall j, (SECTOR_DENTRIES <= j < DENTRIES)%nat ->
    entry_name (getb DBUF (mem s)) j <> c) cs.

Lemma dir_view_low s blk j off n :
  fs_ok s -> (j < SECTOR_DENTRIES)%nat -> (off + n <= 32)%nat ->
  slice (32 * j + off) n (dir_view s blk) = slice (32 * j + off) n (vw s (blk + 7)).
Proof.
  intros Hok Hj Hn. unfold dir_view. apply slice_app_prefix. rewrite vw_length by done.
  unfold SECTOR_SIZE, SECTOR_DENTRIES in *. lia.
Qed.
Lemma dir_view_low_name s blk j :
  fs_ok s -> (j < SECTOR_DENTRIES)%nat -> entry_name (dir_view s blk) j = entry_name (vw s (blk + 7)) j.
Proof.
  intros Hok Hj. unfold entry_name. pose proof (dir_view_low s blk j 0 27 Hok Hj ltac:(lia)) as E.
  rewrite Nat.add_0_r in E. by rewrite E.
Qed.
Lemma dir_view_high_name s blk j :
  fs_ok s -> (SECTOR_DENTRIES <= j)%nat -> entry_name (dir_view s blk) j = entry_name (getb DBUF (mem s)) j.
Proof.
  intros Hok Hj. unfold entry_name, dir_view, slice.
  rewrite drop_app_ge by (rewrite vw_length by done; unfold SECTOR_SIZE, SECTOR_DENTRIES in *; lia).
  rewrite vw_length, drop_drop by done. do 3 f_equal. unfold SECTOR_SIZE, SECTOR_DENTRIES in *. lia.
Qed.

Lemma find_ext {A} (f g : A -> bool) l : (forall x, x ∈ l -> f x = g x) -> List.find f l = List.find g l.
Proof.
  induction l as [|x l IH]; intros H; [done|]. simpl. rewrite (H x) by set_solver.
  rewrite IH; [done|]. intros y Hy. apply H. set_solver.
Qed.
Lemma find_app {A} (f : A -> bool) l1 l2 :
  (forall x, x ∈ l2 -> f x = false) -> List.find f (l1 ++ l2) = List.find f l1.
Proof.
  intros H. induction l1 as [|x l1 IH]; simpl; [|by rewrite IH].
  induction l2 as [|x l2 IH]; [done|]. simpl. rewrite (H x) by set_solver. apply IH. set_solver.
Qed.

Lemma lookup_disk s blk nm :
  fs_ok s -> (forall j, (SECTOR_DENTRIES <= j < DENTRIES)%nat -> entry_name (getb DBUF (mem s)) j <> nm) ->
  lookup_name (dir_view s blk) nm = disk_lookup s blk nm.
Proof.
  intros Hok Hst. unfold lookup_name, disk_lookup.
  change (seq 0 DENTRIES) with (seq 0 SECTOR_DENTRIES ++ seq SECTOR_DENTRIES (DENTRIES - SECTOR_DENTRIES)).
  rewrite find_app.
  - apply find_ext. intros j Hj%elem_of_seq. by rewrite dir_view_low_name by lia || done.
  - intros j Hj%elem_of_seq. rewrite dir_view_high_name by lia || done.
    apply bool_decide_eq_false_2, Hst. unfold SECTOR_DENTRIES, DENTRIES in *. lia.
Qed.

Lemma resolve_disk s cs : forall i, fs_ok s -> no_stale s cs -> resolve s i cs = disk_resolve s i cs.
Proof.
  induction cs as [|c cs IH]; intros i Hok Hst; [done|]. apply Forall_cons in Hst as [Hc Hst].
  cbn [resolve disk_resolve]. destruct (i_blocks i !! 0%nat) as [blk|]; [|done]. simpl.
  rewrite lookup_disk by done. destruct (disk_lookup s blk c) as [j|] eqn:Ej; [|done]. simpl.
  pose proof (List.find_some _ _ Ej) as [Hj _]. apply in_seq in Hj.
  rewrite IH by done. unfold entry_ino. by rewrite dir_view_low by (lia || done).
Qed.

(** What find_inode gives, against the result of a resolution. *)
Definition finds (o : option inode_t) (r : option iptr) s' : Prop :=
  match o with
  | None => r = None
  | Some j => exists q, r = Some q /\ deref q s' = Ok (j, s')
  end.

(** C11.  find_inode, for paths of one to three components, returns the inode that
    resolution of the path in the directories as the kernel sees them gives, and
    NULL exactly when there is none; the disk is unchanged.  The kernel sees the 16
    entries of a directory that the disk holds and, behind them, stale slots of
    dentry_buffer: if none of these has the name of a component of the path, the
    result is that of the resolution on the disk alone. *)
Theorem find_inode_resolves s path cs p i :
  fs_ok s -> good_path path cs -> deref p s = Ok (i, s) -> path_ok s i cs ->
  exists r s', find_inode path p s = Ok (r, s') /\ fs_ok s' /\ (forall x, vw s' x = vw s x) /\
    finds (resolve s i cs) r s' /\
    (no_stale s cs -> finds (disk_resolve s i cs) r s').
Proof.
  intros Hok Hp Hd Hpo.
  destruct (find_inode_ok s path cs p i Hok Hp Hd Hpo) as (r & s' & E & Hok' & _ & Hv & _ & Hr).
  assert (finds (resolve s i cs) r s') as Hf.
  { destruct (resolve s i cs); [|done]. destruct Hr as (off & -> & Hg). by exists (PBuf off). }
  exists r, s'. do 4 (split; [done|]). intros Hst. by rewrite <- resolve_disk.
Qed.

(** C14. do_touch of a new name allocates a free inode that the name then resolves to; every
    other name and inode keeps its meaning and the directory stays well formed.  (Names are
    those the kernel sees, [dir_view]: an entry in a slot from 16 on is in dentry_buffer
    only.) *)
Theorem touch_creates s blk path nm :
  wd_ok s blk -> file_name path nm -> absent (dir_view s blk) nm -> free_inode_left s ->
  (exists j, unused_slot (dir_view s blk) j) ->
  exists k s', do_touch timer path s = Ok (0, s') /\ wd_ok s' blk /\
    bit (vw s IMAP_SECTOR) k = false /\ bit (vw s' IMAP_SECTOR) k = true /\
    resolve s' (wd_inode s') [nm] = Some (fresh_inode k IT_FILE 0 (u64 (timer (fticks s))) 0) /\
    (forall nm', nm' <> nm -> nm' <> [] ->
       lookup_ino (dir_view s' blk) nm' = lookup_ino (dir_view s blk) nm') /\
    (forall k', 0 <= k' < 4096 -> k' <> k -> k' <> i_ino (wd_inode s) ->
       disk_inode s' k' = disk_inode s k').
Proof.
  intros Hw Hp Ha Hfree Hslot.
  destruct (do_touch_ok timer s blk path nm Hw Hp Ha Hfree Hslot) as
    (k & j & s' & E & Hok & Hk & Hkb & Hkw & (Hj & _ & Hun) & Hwd & Hdv & Hdk & Hdw & Hdo & Him & Hvx).
  destruct Hp as (t & Hpath & [Hsl Hz] & Hl).
  pose proof (dir_view_length s blk (wd_fs _ _ Hw)) as Hm.
  pose proof (vw_length s IMAP_SECTOR (wd_fs _ _ Hw)) as Hil.
  assert (0 <= k < 8 * Z.of_nat (length (vw s IMAP_SECTOR))) as Hkr
    by (rewrite Hil; unfold SECTOR_SIZE; lia).
  destruct (put_entry_lookup (dir_view s blk) j nm k IT_FILE) as [Hln Hli]; [entry_side..|].
  assert (i_ino (wd_inode s') = i_ino (wd_inode s)) as Hino by (by rewrite Hwd).
  assert (i_blocks (wd_inode s') !! 0%nat = Some blk) as Hblk by (rewrite Hwd; apply Hw).
  exists k, s'. split; [done|]. split; [|split; [done|split; [|split; [|split]]]].
  - split; try done.
    + rewrite Him. apply is_bytes_set_bit, Hw.
    + rewrite Hino. apply Hw.
    + rewrite Him, Hino. pose proof (wd_ino _ _ Hw). rewrite bit_set by (done || lia).
      case_decide; [done|]. apply Hw.
    + rewrite Hwd. apply wd_grown_wf, Hw.
    + apply (wd_data _ _ Hw).
    + rewrite Hdv. apply put_entry_wf; [entry_side..|apply Hw].
  - rewrite Him, bit_set by (done || lia). by case_decide.
  - cbn [resolve]. rewrite Hblk, Hdv, Hln. f_equal. rewrite <- Hdk. f_equal.
    apply put_entry_ino; [|entry_side..]. rewrite Hm. unfold DENTRIES, BLOCK_SIZE in *. lia.
  - intros nm' Hn1 Hn2. rewrite Hdv. apply put_entry_lookup_other; [entry_side..| |done|done]. by apply unused_unnamed.
  - done.
Qed.

(** *** Making a directory *)

Definition unnamed_slot (m : list Z) (j : nat) : Prop := List.hd 0 (slice (32 * j) 27 m) = 0.

Lemma dentry_unnamed s m j0 :
  getb DBUF (mem s) = m -> (j0 < DENTRIES)%nat -> unnamed_slot m j0 ->
  exists j, (j <= j0)%nat /\ unnamed_slot m j /\ dentry_that no_name s = Ok (Some j, s).
Proof.
  intros Hm Hj0 Hu0. unfold dentry_that, buf. rewrite (bind_ok _ _ _ _ _ eq_refl). rewrite Hm.
  assert (forall i, no_name (decode_dentry (slice (32 * i) 32 m)) = true <-> unnamed_slot m i) as Hs.
  { intros i. unfold no_name, name0, unnamed_slot. rewrite Z.eqb_eq. cbn [decode_dentry d_name].
    by rewrite slice_slice, Nat.add_0_r by lia. }
  pose proof (find_entry_ok DENTRIES 0 m no_name) as Hf.
  destruct (find_entry DENTRIES 0 m no_name) as [j|].
  - destruct Hf as (Hj & Hu & Hfirst). exists j. split; [|split; [by apply Hs|done]].
    destruct (decide (j <= j0)%nat); [done|]. apply Hs in Hu0. rewrite Hfirst in Hu0 by lia. done.
  - apply Hs in Hu0. rewrite Hf in Hu0 by lia. done.
Qed.

Lemma init_dentries_ok s self parent :
  fs_ok s ->
  exists s', init_dentries self parent s = Ok (tt, s') /\ fs_ok s' /\ frame [DBUF] s s' /\
    fticks s' = fticks s /\ store s' = store s /\ getb DBUF (mem s') = new_dir_block self parent.
Proof.
  intros Hok. unfold init_dentries.
  erewrite bind_ok by (apply bzero_buf_ok; destruct Hok as [_ Hl]; by rewrite (Hl DBUF)).
  set (s0 := with_mem _ s).
  assert (getb DBUF (mem s0) = replicate BLOCK_SIZE 0) as Hg0.
  { unfold s0. cbn [mem with_mem]. rewrite getb_setb_eq, drop_ge, app_nil_r; [done|].
    destruct Hok as [_ Hl]. by rewrite (Hl DBUF). }
  assert (fs_ok s0) as Hok0.
  { apply fs_ok_put; [done|]. rewrite length_app, length_replicate, length_drop.
    destruct Hok as [_ Hl]. by rewrite (Hl DBUF). }
  assert (frame [DBUF] s s0) as Hf0.
  { split; [done|]. do 3 (split; [done|]). intros b Hb. unfold s0. cbn [mem with_mem].
    rewrite getb_setb_ne; [done|]. intros ->. apply Hb, list_elem_of_here. }
  destruct (set_entry_ok s0 0 (cstr "."%string) (codes "."%string) [] self IT_DIR Hok0)
    as (s1 & s2 & E1 & E2 & E3 & Hok3 & Hf3 & Ht3 & Hst3 & Hg3); [by_computation..|].
  rewrite (bind_ok _ _ _ _ _ E1), (bind_ok _ _ _ _ _ E2), (bind_ok _ _ _ _ _ E3).
  set (s3 := with_mem _ s2) in *.
  destruct (set_entry_ok s3 1 (cstr ".."%string) (codes ".."%string) [] parent IT_DIR Hok3)
    as (s4 & s5 & E4 & E5 & E6 & Hok6 & Hf6 & Ht6 & Hst6 & Hg6); [by_computation..|].
  rewrite (bind_ok _ _ _ _ _ E4), (bind_ok _ _ _ _ _ E5), E6.
  eexists. split; [reflexivity|]. split; [exact Hok6|].
  split; [eapply fs_frame_trans; [exact Hf0|]; eapply fs_frame_trans; [exact Hf3|exact Hf6]|].
  split; [rewrite Ht6, Ht3; done|]. split; [rewrite Hst6, Hst3; done|].
  rewrite Hg6, Hg3, Hg0. done.
Qed.

(** The block of the working directory is allocated, and there is a free one. *)
Definition blocks_ok s (blk : Z) : Prop :=
  is_bytes (block_bits s) /\
  (exists k, 0 <= k < DATA_BLOCKS /\ blk = block_sector k /\ bit (block_bits s) k = true).
Definition free_block_left s : Prop := exists k, 0 <= k < DATA_BLOCKS /\ bit (block_bits s) k = false.

(** A data block [nb] is not the block [blk]. *)
Definition apart (nb blk : Z) : Prop := 802 <= nb /\ (nb + 8 <= blk \/ blk + 8 <= nb).

(** The first half of [do_mkdir]: a free inode and a fresh block are allocated and
    the inode of the new directory is stored. *)
Lemma mkdir_alloc s blk path nm :
  wd_ok s blk -> blocks_ok s blk -> file_name path nm -> absent (dir_view s blk) nm ->
  free_inode_left s -> free_block_left s ->
  exists k kb s1 s2 s3 s4 s5 s6,
    Fs.bread DBUF BLOCK_SECTORS blk s = Ok (tt, s1) /\ dentry_named path s1 = Ok (None, s1) /\
    find_free_inode s1 = Ok (k, s2) /\ find_free_block s2 = Ok (block_sector kb, s3) /\
    Fs.bread IBUF 1 (inodeidx2sector k) s3 = Ok (tt, s4) /\ fticks s4 = fticks s /\
    set_inode (inodeidx2offset k)
      (fresh_inode k IT_DIR 64 (u64 (timer (fticks s))) (block_sector kb))
      (with_fticks (S (fticks s)) s4) = Ok (tt, s5) /\
    Fs.bwrite IBUF 1 (inodeidx2sector k) s5 = Ok (tt, s6) /\
    fs_ok s6 /\ frame [DBUF; IMAP; BMAP; RBUF; IBUF] s s6 /\ fticks s6 = S (fticks s) /\
    0 <= k < 4096 /\ bit (vw s IMAP_SECTOR) k = false /\ k <> i_ino (wd_inode s) /\
    0 <= kb < DATA_BLOCKS /\ bit (block_bits s) kb = false /\ apart (block_sector kb) blk /\
    getb DBUF (mem s6) = dir_view s blk /\
    vw s6 IMAP_SECTOR = set_bit (vw s IMAP_SECTOR) k /\ block_bits s6 = set_bit (block_bits s) kb /\
    disk_inode s6 k = fresh_inode k IT_DIR 64 (u64 (timer (fticks s))) (block_sector kb) /\
    (forall k', 0 <= k' < 4096 -> k' <> k -> disk_inode s6 k' = disk_inode s k') /\
    (forall x, 802 <= x -> ~ (block_sector kb <= x < block_sector kb + 8) -> vw s6 x = vw s x).
Proof.
  intros Hw [Hbb (kw & Hkw & Hblk & Hbit)] Hp Ha Hfree (kf & Hkf & Hfb).
  destruct (new_name_ok s blk path nm Hw Hp Ha Hfree)
    as (s1 & k & s2 & E1 & E2 & E3 & Hok2 & Hf2 & Ht2 & Hdb2 & Hk & Hkb & Hkn & Hvi & Hvo).
  assert (IMAP_SECTOR = 289) as HIM by done. pose proof BMAP_SECTOR_val as HBM.
  assert (block_bits s2 = block_bits s) as Hbb2.
  { unfold block_bits. rewrite Hvo by lia. by rewrite (frame_get _ _ _ _ Hf2) by by_computation. }
  destruct (find_free_block_ok s2 Hok2 ltac:(by rewrite Hbb2)) as (r & s3 & E4 & Hok3 & Hf3 & Ht3 & Hres).
  rewrite Hbb2 in Hres.
  destruct Hres as [(_ & _ & _ & Hall)|(kb & Hkbr & -> & Hkbb & _ & Hbb3 & Hrb & Hz & Hv3)].
  { rewrite Hall in Hfb by done. done. }
  pose proof (block_sector_val kb) as Hbs. pose proof (block_sector_val kw) as Hbw.
  assert (kb <> kw) as Hne by (intros ->; congruence).
  pose proof (inode_sector_range k Hk) as Hsk.
  destruct (bread_inode s3 k Hok3) as (s4 & E5 & Hok4 & Hb4 & Hf4 & Ht4 & Hv4).
  set (i := fresh_inode k IT_DIR 64 (u64 (timer (fticks s))) (block_sector kb)).
  set (s4' := with_fticks (S (fticks s)) s4).
  destruct (store_inode_ok s4' k i)
    as (s5 & s6 & E6 & E7 & Hok6 & Hf6 & Ht6 & Hdi6 & Hdo6 & Hv6); [done | lia | | | ].
  { pose proof DATA_BLOCKS_val. apply fresh_inode_wf; unfold IT_DIR; rewrite ?Hbs; lia. }
  { change (getb IBUF (mem s4) = vw s4 (inodeidx2sector k)). by rewrite Hb4, Hv4. }
  assert (forall x, x <> inodeidx2sector k -> vw s6 x = vw s3 x) as Hv63
    by (intros x Hx; rewrite Hv6 by done; apply Hv4).
  exists k, kb, s1, s2, s3, s4, s5, s6. do 5 (split; [done|]). split; [congruence|].
  split; [exact E6|]. split; [exact E7|]. split; [done|]. split.
  { eapply fs_frame_trans; [eapply fs_frame_weaken; [exact Hf2|by_computation]|].
    eapply fs_frame_trans; [eapply fs_frame_weaken; [exact Hf3|by_computation]|].
    eapply fs_frame_trans; [eapply fs_frame_weaken; [exact Hf4|by_computation]|].
    eapply fs_frame_trans; [apply (frame_ticks _ _ (S (fticks s)))|].
    eapply fs_frame_weaken; [exact Hf6|by_computation]. }
  split; [by rewrite Ht6|]. do 5 (split; [done|]). split; [unfold apart; lia|].
  split; [|split; [|split; [|split; [done|split]]]].
  - rewrite (frame_get _ _ _ _ Hf6) by by_computation. change (mem s4') with (mem s4).
    rewrite (frame_get _ _ _ _ Hf4) by by_computation.
    by rewrite (frame_get _ _ _ _ Hf3) by by_computation.
  - rewrite Hv63 by lia. rewrite Hv3 by lia. done.
  - rewrite <- Hbb3. unfold block_bits. rewrite Hv63 by lia. do 2 f_equal.
    rewrite (frame_get _ _ _ _ Hf6) by by_computation. change (mem s4') with (mem s4).
    by rewrite (frame_get _ _ _ _ Hf4) by by_computation.
  - intros k' Hk' Hne'. rewrite Hdo6 by (lia || done). apply disk_inode_view.
    pose proof (inode_sector_range k' Hk'). change (vw s4' ?x) with (vw s4 x).
    rewrite Hv4, Hv3 by lia. apply Hvo. lia.
  - intros x Hx1 Hx2. rewrite Hv63 by lia. rewrite Hv3 by lia. apply Hvo. lia.
Qed.

Lemma do_mkdir_ok s blk path nm j0 :
  wd_ok s blk -> blocks_ok s blk -> file_name path nm -> absent (dir_view s blk) nm ->
  free_inode_left s -> free_block_left s -> (j0 < 16)%nat -> unnamed_slot (dir_view s blk) j0 ->
  exists k kb j s', do_mkdir timer path s = Ok (0, s') /\ fs_ok s' /\
    0 <= k < 4096 /\ bit (vw s IMAP_SECTOR) k = false /\ k <> i_ino (wd_inode s) /\
    0 <= kb < DATA_BLOCKS /\ bit (block_bits s) kb = false /\ apart (block_sector kb) blk /\
    (j < 16)%nat /\ unnamed_slot (dir_view s blk) j /\
    wd_inode s' = wd_grown s (u64 (timer (S (fticks s)))) /\
    vw s' (blk + 7) = take SECTOR_SIZE (put_entry (dir_view s blk) j nm k IT_DIR) /\
    getb DBUF (mem s') = new_dir_block k (i_ino (wd_inode s)) /\
    vw s' (block_sector kb + 7) = take SECTOR_SIZE (new_dir_block k (i_ino (wd_inode s))) /\
    vw s' IMAP_SECTOR = set_bit (vw s IMAP_SECTOR) k /\ block_bits s' = set_bit (block_bits s) kb /\
    disk_inode s' k = fresh_inode k IT_DIR 64 (u64 (timer (fticks s))) (block_sector kb) /\
    disk_inode s' (i_ino (wd_inode s)) = wd_inode s' /\
    (forall k', 0 <= k' < 4096 -> k' <> k -> k' <> i_ino (wd_inode s) ->
       disk_inode s' k' = disk_inode s k').
Proof.
  intros Hw Hbo Hp Ha Hfi Hfb Hj0 Hu. destruct (data_block_range _ _ Hw) as [Hr Hd].
  destruct (mkdir_alloc s blk path nm Hw Hbo Hp Ha Hfi Hfb)
    as (k & kb & s1 & s2 & s3 & s4 & s5 & s6 & E1 & E2 & E3 & E4 & E5 & Ht4 & E6 & E7 & Hok6 & Hf6 & Ht6 &
        Hk & Hkb & Hkn & Hkbr & Hkbb & Hap & Hdb6 & Hvi6 & Hbb6 & Hdi6 & Hdo6 & Hv6).
  pose proof (block_sector_val kb) as Hbs. pose proof DATA_BLOCKS_val as HDB.
  assert (IMAP_SECTOR = 289) as HIM by done. pose proof BMAP_SECTOR_val as HBM.
  unfold do_mkdir. rewrite (bind_ok _ _ _ _ _ (lift_ok _ _ _ (strlen_name _ _ Hp))).
  rewrite (proj2 (geb_lt _ _)) by (destruct Hp as (t & _ & _ & ?); lia).
  rewrite (bind_ok _ _ _ _ _ eq_refl), (bind_ok _ _ _ _ _ (block_ptr_ok _ _ 0 _ (wd_block _ _ Hw))).
  rewrite (bind_ok _ _ _ _ _ E1), (bind_ok _ _ _ _ _ E2), (bind_ok _ _ _ _ _ E3).
  rewrite (proj2 (Z.eqb_neq k _)) by (unfold MINUS1; lia). rewrite (bind_ok _ _ _ _ _ E4).
  rewrite (proj2 (Z.eqb_neq (block_sector kb) _)) by (unfold MINUS1; lia).
  rewrite (bind_ok _ _ _ _ _ E5), (bind_ok _ _ _ _ _ (fs_timer_ok _ _)), Ht4.
  rewrite (bind_ok _ _ _ _ _ E6), (bind_ok _ _ _ _ _ E7).
  destruct (bread_dir s6 blk Hok6 Hr) as (s7 & E8 & Hok7 & Hdb7 & Hf7 & Ht7 & Hv7).
  rewrite (bind_ok _ _ _ _ _ E8).
  assert (dir_view s6 blk = dir_view s blk) as Hdv6.
  { unfold dir_view at 1. rewrite Hv6 by (unfold apart in Hap; lia). rewrite Hdb6. unfold dir_view.
    by rewrite drop_app_length' by (symmetry; apply vw_length, Hw). }
  rewrite Hdv6 in Hdb7.
  destruct (dentry_unnamed s7 _ j0 Hdb7) as (j & Hj & Huj & E9); [unfold DENTRIES; lia|done|].
  rewrite (bind_ok _ _ _ _ _ E9).
  assert (wd_inode s7 = wd_inode s) as Hwd7 by (rewrite (proj1 Hf7); apply Hf6).
  destruct (add_entry_ok timer s7 blk j path nm k IT_DIR Hok7 Hr Hd ltac:(unfold DENTRIES; lia) Hp)
    as (t1 & t2 & t3 & t4 & t5 & F1 & F2 & F3 & F4 & Ht8 & Hwd8 & F5 & Hok8 & Hwd9 & _ & Hdv8 & Hbuf8 &
        Ht9 & Hdw & Hdo8 & Hvx8); [rewrite Hwd7; apply Hw .. |].
  rewrite (bind_ok _ _ _ _ _ F1), (bind_ok _ _ _ _ _ F2), (bind_ok _ _ _ _ _ F3),
    (bind_ok _ _ _ _ _ F4), (bind_ok _ _ _ _ _ (fs_timer_ok _ _)).
  erewrite bind_ok; [|unfold modify; simpl; rewrite Hwd8, Ht8; fold (wd_grown s7 (u64 (timer (fticks s7)))); reflexivity].
  rewrite (bind_ok _ _ _ _ _ F5), (bind_ok _ _ _ _ _ eq_refl).
  assert (i_ino (wd_inode t5) = i_ino (wd_inode s)) as -> by (rewrite Hwd9; simpl; by rewrite Hwd7).
  destruct (init_dentries_ok t5 k (i_ino (wd_inode s)) Hok8) as (s9 & E10 & Hok9 & Hf9 & Ht10 & Hst9 & Hg9).
  rewrite (bind_ok _ _ _ _ _ E10).
  destruct (store_dir_ok s9 (block_sector kb) Hok9) as (s10 & E11 & Hok10 & Hf10 & Hm10 & Ht11 & Hd10 & Hv10).
  { rewrite Hbs. unfold in_range. lia. }
  rewrite (bind_ok _ _ _ _ _ E11).
  assert (forall x, ~ (block_sector kb <= x < block_sector kb + 8) -> vw s10 x = vw t5 x) as Hv.
  { intros x Hx. rewrite Hv10 by done. unfold vw. by rewrite Hst9. }
  assert (forall s x l, fs_ok s -> vw s x ++ drop SECTOR_SIZE (getb DBUF (mem s)) = l ->
            vw s x = take SECTOR_SIZE l) as Htake.
  { intros s' x l Hok' <-. by rewrite take_app_length' by (symmetry; by apply vw_length). }
  assert (forall k', 0 <= k' < 4096 -> disk_inode s10 k' = disk_inode t5 k') as Hd510.
  { intros k' Hk'. apply disk_inode_view, Hv. pose proof (inode_sector_range k' Hk'). lia. }
  unfold apart in Hap.
  exists k, kb, j, s10. split; [done|]. split; [done|]. do 6 (split; [done|]). split; [lia|]. split; [done|].
  split; [|split; [|split; [|split; [|split; [|split; [|split; [|split]]]]]]].
  - rewrite (proj1 Hf10), (proj1 Hf9), Hwd9, Ht7, Ht6. unfold wd_grown. by rewrite Hwd7.
  - rewrite Hv by lia. apply Htake; [done|]. rewrite <- Hdb7. exact Hdv8.
  - by rewrite Hm10.
  - apply Htake; [done|]. by rewrite <- Hg9.
  - rewrite Hv by lia. rewrite Hvx8 by lia. by rewrite Hv7.
  - rewrite <- Hbb6. unfold block_bits. rewrite Hv by lia. rewrite Hvx8, Hv7 by lia. do 2 f_equal.
    rewrite Hm10, (frame_get _ _ _ _ Hf9), Hbuf8 by by_computation. by rewrite (frame_get _ _ _ _ Hf7) by by_computation.
  - rewrite Hd510 by done. rewrite Hdo8 by (rewrite ?Hwd7; done). rewrite <- Hdi6. apply disk_inode_view, Hv7.
  - rewrite Hd510 by apply Hw. rewrite <- Hwd7, Hdw. by rewrite (proj1 Hf10), (proj1 Hf9).
  - intros k' Hk' Hn1 Hn2. rewrite Hd510 by done. rewrite Hdo8 by (rewrite ?Hwd7; done).
    rewrite (disk_inode_view s6 s7) by apply Hv7. by apply Hdo6.
Qed.

Lemma file_name_good path nm : file_name path nm -> good_path path [nm].
Proof.
  intros (t & -> & Hc & Hl). split; [by exists t|]. split; [simpl; lia|]. constructor; [|done].
  split; [done|]. split; [intros ->; simpl in Hl; lia|lia].
Qed.

(** [cd] to a name of the working directory. *)
Lemma do_cd_ok s blk path nm :
  wd_ok s blk -> file_name path nm ->
  match resolve s (wd_inode s) [nm] with
  | Some i => i_type i = IT_DIR ->
      exists s', do_cd path s = Ok (0, s') /\ fs_ok s' /\ wd_inode s' = i /\
        (forall x, vw s' x = vw s x) /\ (forall b, dir_view s' b = dir_view s b) /\
        block_bits s' = block_bits s
  | None => exists s', do_cd path s = Ok (-1, s')
  end.
Proof.
  intros Hw Hp. destruct (data_block_range _ _ Hw) as [Hr _].
  assert (path_ok s (wd_inode s) [nm]) as Hpo.
  { exists blk. split; [apply Hw|]. split; [split; [done|apply Hw]|]. by case_match. }
  destruct (find_inode_ok s path [nm] PWd (wd_inode s) (wd_fs _ _ Hw) (file_name_good _ _ Hp) eq_refl Hpo)
    as (r & s' & E & Hok & Hf & Hv & Hd & Hres).
  unfold do_cd. rewrite (bind_ok _ _ _ _ _ E).
  destruct (resolve s (wd_inode s) [nm]) as [i|]; [|subst r; by exists s'].
  intros Hty. destruct Hres as (off & -> & Hg). cbn [deref]. rewrite (bind_ok _ _ _ _ _ Hg).
  rewrite Hty, Z.eqb_refl. exists (with_wd i s'). split; [done|]. split; [done|]. split; [done|].
  split; [done|]. split; [done|].
  unfold block_bits. change (vw (with_wd i s') ?x) with (vw s' x). rewrite Hv. do 2 f_equal.
  change (mem (with_wd i s')) with (mem s'). by rewrite (frame_get _ _ _ _ Hf) by by_computation.
Qed.

Lemma lookup_ino_inv m nm k :
  lookup_ino m nm = Some k -> exists j, lookup_name m nm = Some j /\ entry_ino m j = k.
Proof. unfold lookup_ino. intros (j & -> & ?)%fmap_Some. by eauto. Qed.

(** C15. do_mkdir then do_cd enters a well-formed directory on a fresh inode and block, whose
    . is itself and whose .. is the directory it was made in. *)
Theorem mkdir_cd s blk path nm j0 :
  wd_ok s blk -> blocks_ok s blk -> file_name path nm -> absent (dir_view s blk) nm ->
  free_inode_left s -> free_block_left s -> (j0 < 16)%nat -> unnamed_slot (dir_view s blk) j0 ->
  exists k kb s1 s2, do_mkdir timer path s = Ok (0, s1) /\ do_cd path s1 = Ok (0, s2) /\
    bit (vw s IMAP_SECTOR) k = false /\ bit (block_bits s) kb = false /\
    wd_inode s2 = fresh_inode k IT_DIR 64 (u64 (timer (fticks s))) (block_sector kb) /\
    wd_ok s2 (block_sector kb) /\ blocks_ok s2 (block_sector kb) /\
    resolve s2 (wd_inode s2) [codes "."%string] = Some (wd_inode s2) /\
    resolve s2 (wd_inode s2) [codes ".."%string] = Some (wd_inode s1).
Proof.
  intros Hw Hbo Hp Ha Hfi Hfb Hj0 Hu.
  destruct (do_mkdir_ok s blk path nm j0 Hw Hbo Hp Ha Hfi Hfb Hj0 Hu)
    as (k & kb & j & s1 & E1 & Hok1 & Hk & Hkb & Hkn & Hkbr & Hkbb & Hap & Hj & Huj & Hwd1 & Hvb & Hdb &
        Hvn & Him & Hbb & Hdk & Hdw & Hdo).
  pose proof (vw_length s IMAP_SECTOR (wd_fs _ _ Hw)) as Hil.
  pose proof (block_bits_length s (wd_fs _ _ Hw)) as Hbl. pose proof DATA_BLOCKS_val as HDB.
  assert (0 <= k < 8 * Z.of_nat (length (vw s IMAP_SECTOR))) as Hkr by (rewrite Hil; unfold SECTOR_SIZE; lia).
  assert (0 <= kb < 8 * Z.of_nat (length (block_bits s))) as Hkbr' by (rewrite Hbl; unfold SECTOR_SIZE; lia).
  pose proof (wd_ino _ _ Hw) as Hino. set (w := i_ino (wd_inode s)) in *.
  assert (i_ino (wd_inode s1) = w) as Hino1 by (by rewrite Hwd1).
  assert (i_blocks (wd_inode s1) !! 0%nat = Some blk) as Hblk by (rewrite Hwd1; apply Hw).
  pose proof (dir_view_length s blk (wd_fs _ _ Hw)) as Hm.
  destruct (new_dir_block_ok k w ltac:(lia) ltac:(lia)) as (Hnl & Hnwf & Hndot & Hndd).
  destruct Hp as (t & Hpath & Hcomp & Hl) eqn:Hpe. clear Hpe.
  assert (length (put_entry (dir_view s blk) j nm k IT_DIR) = BLOCK_SIZE) as Hpl.
  { rewrite put_entry_length; [done|rewrite Hm; unfold BLOCK_SIZE; lia|lia]. }
  assert (dir_view s1 blk = patched (put_entry (dir_view s blk) j nm k IT_DIR) (new_dir_block k w)) as Hdv1.
  { unfold dir_view at 1. by rewrite Hvb, Hdb. }
  destruct (put_entry_lookup (dir_view s blk) j nm k IT_DIR) as [Hln Hli];
    [done|unfold DENTRIES; lia|lia|apply Hcomp|lia|unfold IT_DIR; lia|done|].
  pose proof (lookup_name_cases (put_entry (dir_view s blk) j nm k IT_DIR) nm) as Hfn. rewrite Hln in Hfn.
  destruct (patched_first _ (new_dir_block k w) Hpl Hnl nm j Hj Hfn) as [Hfn1 Hin1].
  assert (wd_ok s1 blk) as Hw1.
  { split; try done.
    - rewrite Him. apply is_bytes_set_bit, Hw.
    - by rewrite Hino1.
    - rewrite Hino1, Him, bit_set by (done || lia). case_decide; [done|]. apply Hw.
    - rewrite Hwd1. apply wd_grown_wf, Hw.
    - apply (wd_data _ _ Hw).
    - rewrite Hdv1. apply patched_wf; [done|done| |done].
      apply put_entry_wf; [done|unfold DENTRIES; lia|lia|apply Hcomp|lia|unfold IT_DIR; lia|apply Hw]. }
  assert (resolve s1 (wd_inode s1) [nm] = Some (disk_inode s1 k)) as Hres.
  { cbn [resolve]. rewrite Hblk, Hdv1, (lookup_name_first _ _ _ Hfn1), Hin1.
    unfold lookup_ino in Hli. rewrite Hln in Hli. simpl in Hli. by injection Hli as ->. }
  pose proof (do_cd_ok s1 blk path nm Hw1 ltac:(by exists t)) as Hcd. rewrite Hres, Hdk in Hcd.
  destruct (Hcd eq_refl) as (s2 & E2 & Hok2 & Hwd2 & Hv2 & Hd2 & Hbb2).
  assert (dir_view s2 (block_sector kb) = new_dir_block k w) as Hdv2.
  { rewrite Hd2. unfold dir_view. rewrite Hvn, Hdb. apply take_drop. }
  assert (block_sector kb + 8 <= 2 ^ 32) as Hbs by (rewrite block_sector_val; lia).
  assert (i_blocks (wd_inode s2) !! 0%nat = Some (block_sector kb)) as Hbl2 by (by rewrite Hwd2).
  exists k, kb, s1, s2. do 5 (split; [done|]).
  split; [|split; [|split]].
  - split; rewrite ?Hwd2; try done.
    + rewrite Hv2, Him. apply is_bytes_set_bit, Hw.
    + rewrite Hv2, Him, bit_set by (simpl; done || lia). by rewrite decide_True.
    + unfold apart in Hap. apply fresh_inode_wf; unfold IT_DIR; lia.
    + by exists kb.
    + by rewrite Hdv2.
  - split; [rewrite Hbb2, Hbb; apply is_bytes_set_bit, Hbo|]. exists kb. split; [done|]. split; [done|].
    rewrite Hbb2, Hbb, bit_set by (done || lia). by rewrite decide_True.
  - destruct (lookup_ino_inv _ _ _ Hndot) as (jd & Hjd & Hjk). cbn [resolve].
    rewrite Hbl2, Hdv2, Hjd, Hjk. f_equal. rewrite (disk_inode_view s1 s2) by apply Hv2. congruence.
  - destruct (lookup_ino_inv _ _ _ Hndd) as (jd & Hjd & Hjk). cbn [resolve].
    rewrite Hbl2, Hdv2, Hjd, Hjk. f_equal. rewrite (disk_inode_view s1 s2) by apply Hv2. congruence.
Qed.


End Dir.
