(* ===== verification/FsFile.v ===== *)
(** * Blocks, inodes and files (kernel/fs/fs.c)

    Allocation and release of blocks and inodes, termination of [free_inode],
    the file descriptor table, and reading back what was written. *)
From S2P Require Import Prelude CString BCache FsLayout Fs FsFacts.

Section File.
Context {St : Type} `{!SectorStore St}.
Abbreviation fsst := (@Fs.fsst St).
Implicit Types s : fsst.

(** ** Termination of [free_inode]

    [total m]: from a good state, [m] ends in a good state, or faults or panics
    on a corrupt pointer; it does not run out of fuel. *)
Definition total {A} (m : M fsst A) (Q : A -> Prop) : Prop :=
  forall s, fs_ok s ->
    match m s with
    | Ok (a, s') => fs_ok s' /\ Q a
    | Err e => e <> OutOfFuel
    end.
Abbreviation anything := (fun _ => True).

Lemma total_bind {A B} (m : M fsst A) (f : A -> M fsst B) (P : A -> Prop) (Q : B -> Prop) :
  total m P -> (forall a, P a -> total (f a) Q) -> total (m ≫= f) Q.
Proof.
  intros Hm Hf s Hok. specialize (Hm s Hok). unfold mbind, M_bind.
  destruct (m s) as [[a s1]|e]; [|done]. destruct Hm as [Hok1 Ha]. by apply Hf.
Qed.
Lemma total_ret {A} (a : A) (Q : A -> Prop) : Q a -> total (mret a) Q.
Proof. by intros Ha s Hok. Qed.
Lemma total_fail {A} e (Q : A -> Prop) : e <> OutOfFuel -> total (fail e) Q.
Proof. by intros He s Hok. Qed.
Lemma total_buf b : total (buf b) (fun m => length m = buf_size b).
Proof. intros s Hok. split; [done|]. apply Hok. Qed.
Lemma total_put b v : length v = buf_size b -> total (put_buf b v) anything.
Proof. intros Hv s Hok. split; [|done]. by apply fs_ok_put. Qed.
Lemma total_bread b n sid : 0 < n -> total (Fs.bread b n sid) anything.
Proof.
  intros Hn s Hok. pose proof Hok as [Hst Hl].
  destruct (s_bread_total (store s) (getb b (mem s)) n sid Hst) as (v & st & E & Hst' & Hv); [|done|].
  { rewrite Hl. apply sector_le_buf. }
  unfold Fs.bread. rewrite (bind_ok _ _ _ _ _ eq_refl). unfold on_store, zoom.
  erewrite bind_ok by (by rewrite E). split; [|done]. split; [done|]. intros b'.
  simpl. rewrite getb_setb. case_decide; [subst; congruence|apply Hl].
Qed.
Lemma total_bwrite b n sid : 0 <= n -> in_range sid n -> total (Fs.bwrite b n sid) anything.
Proof.
  intros Hn Hr s Hok. by destruct (fs_bwrite_ok s b n sid Hok Hn Hr) as (st & -> & Hok' & _).
Qed.
Lemma total_block_ptr i k : total (block_ptr i k) anything.
Proof.
  intros s Hok. unfold block_ptr, lift, idx, of_option.
  destruct (0 <=? k); [|done]. by destruct (_ !! _).
Qed.
Lemma total_read_ptr sec k : total (read_ptr sec k) anything.
Proof.
  eapply total_bind; [by apply total_bread|]. intros _ _.
  eapply total_bind; [apply total_buf|]. intros m _. by apply total_ret.
Qed.
Lemma total_get_inode off : total (get_inode off) anything.
Proof. eapply total_bind; [apply total_buf|]. intros m _. by apply total_ret. Qed.

Lemma total_free_block sec : total (free_block sec) anything.
Proof.
  unfold free_block. destruct (_ <? _); [by apply total_fail|].
  eapply total_bind; [by apply total_bread|]. intros _ _.
  eapply total_bind; [apply total_buf|]. intros m Hm.
  eapply total_bind; [|intros; apply total_bwrite; by_computation].
  instantiate (1 := anything). destruct (_ <? _); [|by apply total_fail].
  apply total_put. by rewrite length_clear_bit.
Qed.
Lemma total_free_block_if sec : total (free_block_if sec) anything.
Proof. unfold free_block_if. case_match; [by apply total_ret|apply total_free_block]. Qed.

Local Ltac total_step :=
  lazymatch goal with
  | |- total (block_ptr _ _ ≫= _) _ => eapply total_bind; [apply total_block_ptr | intros ? _]
  | |- total (read_ptr _ _ ≫= _) _ => eapply total_bind; [apply total_read_ptr | intros ? _]
  | |- total (free_block_if _ ≫= _) _ => eapply total_bind; [apply total_free_block_if | intros ? _]
  | |- total ((if ?b then free_block _ else mret tt) ≫= _) _ =>
      eapply (total_bind _ _ anything); [destruct b; [apply total_free_block|by apply total_ret] | intros ? _]
  | |- total (mret _) _ => apply total_ret
  end.

(** One turn of the loop never moves forward. *)
Lemma total_free_inode_step inode i :
  0 <= i -> total (free_inode_step inode i) (fun i' => i' <= i).
Proof.
  intros Hi. unfold free_inode_step.
  assert (forall a b, 0 < b -> 0 <= a mod b) as Hmod by (intros; by apply Z.mod_pos_bound).
  assert (0 < NBLOCK_LV1 /\ 0 < NBLOCK_LV2) as [H1 H2] by done.
  destruct (Z.ltb_spec i DIRECT_BLOCK_NUM); [repeat total_step; lia|].
  destruct (Z.ltb_spec i (DIRECT_BLOCK_NUM + NBLOCK_LV1)).
  { total_step. case_match; [total_step; lia|]. repeat total_step; lia. }
  destruct (Z.ltb_spec i (DIRECT_BLOCK_NUM + NBLOCK_LV1 + NBLOCK_LV2)).
  { set (index := i - (DIRECT_BLOCK_NUM + NBLOCK_LV1)). pose proof (Hmod index _ H1).
    total_step. case_match; [total_step; lia|]. total_step.
    eapply (total_bind _ _ (fun i' => i' <= i)); [|intros i' Hi'; cbv beta in Hi'; repeat total_step; lia].
    case_match; [total_step; lia|]. repeat total_step; lia. }
  destruct (Z.ltb_spec i (DIRECT_BLOCK_NUM + NBLOCK_LV1 + NBLOCK_LV2 + NBLOCK_LV3)); [|total_step; lia].
  set (index := i - (DIRECT_BLOCK_NUM + NBLOCK_LV1 + NBLOCK_LV2)).
  pose proof (Hmod index _ H1). pose proof (Hmod index _ H2).
  total_step. case_match; [total_step; lia|]. total_step.
  eapply (total_bind _ _ (fun i' => i' <= i)); [|intros i' Hi'; cbv beta in Hi'; repeat total_step; lia].
  case_match; [total_step; lia|]. total_step.
  eapply (total_bind _ _ (fun i' => i' <= i)); [|intros i' Hi'; cbv beta in Hi'; repeat total_step; lia].
  case_match; [total_step; lia|]. repeat total_step; lia.
Qed.

Lemma total_free_inode_loop fuel off i :
  i < Z.of_nat fuel -> total (free_inode_loop fuel (PBuf off) i) anything.
Proof.
  revert i; induction fuel as [|fuel IH]; intros i Hi; cbn [free_inode_loop];
    destruct (Z.ltb_spec i 0); try by apply total_ret.
  - lia.
  - eapply total_bind; [apply total_get_inode|]. intros inode _.
    eapply total_bind; [by apply total_free_inode_step|]. intros i' Hi'. cbv beta in Hi'. apply IH. lia.
Qed.

Lemma total_free_inode k : total (free_inode k) anything.
Proof.
  unfold free_inode. eapply total_bind; [by apply total_bread|]. intros _ _.
  eapply total_bind; [apply total_get_inode|]. intros inode _.
  eapply total_bind; [apply total_free_inode_loop; pose proof (u32_range (ROUND (i_size inode) 4096 / 4096)); lia|].
  intros _ _. eapply (total_bind _ _ anything).
  { eapply total_bind; [apply total_buf|]. intros m Hm. apply total_put.
    rewrite length_splice; [done|]. rewrite Hm, length_replicate. pose proof (inode_offset_range k).
    simpl. unfold INODE_BYTES, SECTOR_SIZE. lia. }
  intros _ _. eapply total_bind.
  { apply total_bwrite; [done|]. unfold in_range, inodeidx2sector.
    pose proof (u32_range (FS_START_SECTOR + INODE_OFFSET + ROUNDDOWN (k * 64) 512 / 512)). lia. }
  intros _ _. eapply total_bind; [by apply total_bread|]. intros _ _.
  eapply total_bind; [apply total_buf|]. intros m Hm. eapply (total_bind _ _ anything).
  - destruct (_ <? _); [|by apply total_fail]. apply total_put. by rewrite length_clear_bit.
  - intros _ _. apply total_bwrite; by_computation.
Qed.

(** *** Freeing a file *)

(** The blocks of a file, and the sector a freed inode is filled with. *)
Definition file_blocks (i : inode_t) : nat := Z.to_nat (u32 (ROUND (i_size i) 4096 / 4096)).
Definition zero_inode : inode_t := decode_inode (replicate INODE_BYTES 0).

(** An inode without indirect blocks, its pointers unused or to data blocks. *)
Definition direct_only (i : inode_t) : Prop :=
  (file_blocks i <= 7)%nat /\ length (i_blocks i) = 10%nat /\
  forall b sec, (b < file_blocks i)%nat -> i_blocks i !! b = Some sec ->
    sec = 0 \/ exists k, 0 <= k < DATA_BLOCKS /\ sec = block_sector k.

Lemma free_block_if_ok s sec :
  fs_ok s -> (sec = 0 \/ exists k, 0 <= k < DATA_BLOCKS /\ sec = block_sector k) ->
  exists s', free_block_if sec s = Ok (tt, s') /\ fs_ok s' /\ frame [BMAP] s s' /\
    (forall j, 0 <= j -> bit (block_bits s') j =
       if decide (block_sector j = sec) then false else bit (block_bits s) j) /\
    forall x, ~ (BMAP_SECTOR <= x < BMAP_SECTOR + 32) -> vw s' x = vw s x.
Proof.
  intros Hok [->|(k & Hk & ->)]; unfold free_block_if.
  - exists s. do 2 (split; [done|]). split; [apply frame_refl|]. split; [|done].
    intros j Hj. rewrite decide_False; [done|]. rewrite block_sector_val. lia.
  - rewrite (proj2 (Z.eqb_neq _ 0)) by (rewrite block_sector_val; lia).
    destruct (free_block_ok s k Hok Hk) as (s' & E & Hok' & Hf & _ & Hb & Hv).
    exists s'. do 3 (split; [done|]). split; [|done]. intros j Hj.
    pose proof (block_bits_length s Hok) as Hl. pose proof DATA_BLOCKS_val.
    rewrite Hb, bit_unset by (rewrite ?Hl; unfold SECTOR_SIZE; lia).
    rewrite !block_sector_val. repeat case_decide; (done || lia).
Qed.

Definition inode_at (off : Z) s : inode_t :=
  decode_inode (slice (INODE_BYTES * Z.to_nat off) INODE_BYTES (getb IBUF (mem s))).
Lemma get_inode_at off s : get_inode off s = Ok (inode_at off s, s).
Proof. reflexivity. Qed.

Lemma free_inode_loop_ok off i n : forall fuel s,
  fs_ok s -> inode_at off s = i -> (n <= fuel)%nat -> (n <= 7)%nat -> length (i_blocks i) = 10%nat ->
  (forall b sec, (b < n)%nat -> i_blocks i !! b = Some sec ->
    sec = 0 \/ exists k, 0 <= k < DATA_BLOCKS /\ sec = block_sector k) ->
  exists s', free_inode_loop fuel (PBuf off) (Z.of_nat n - 1) s = Ok (tt, s') /\ fs_ok s' /\
    frame [BMAP] s s' /\
    (forall j, 0 <= j -> bit (block_bits s') j =
       if decide (block_sector j ∈ take n (i_blocks i)) then false else bit (block_bits s) j) /\
    forall x, ~ (BMAP_SECTOR <= x < BMAP_SECTOR + 32) -> vw s' x = vw s x.
Proof.
  induction n as [|n IH]; intros fuel s Hok Hg Hfu H7 Hlen Hptr.
  - exists s. split; [by destruct fuel|]. split; [done|]. split; [apply frame_refl|]. split; [|done].
    intros j _. by rewrite decide_False by (apply not_elem_of_nil).
  - destruct fuel as [|fuel]; [lia|].
    destruct (lookup_lt_is_Some_2 (i_blocks i) n) as [sec Hsec]; [lia|].
    destruct (free_block_if_ok s sec Hok) as (s1 & E1 & Hok1 & Hf1 & Hb1 & Hv1); [by apply (Hptr n); [lia|]|].
    assert (inode_at off s1 = i) as Hg1.
    { unfold inode_at. by rewrite (frame_get _ _ _ IBUF Hf1) by by_computation. }
    destruct (IH fuel s1) as (s2 & E2 & Hok2 & Hf2 & Hb2 & Hv2); [done|done|lia|lia|done| |].
    { intros b x Hb. apply Hptr. lia. }
    exists s2. split; [|split; [done|split; [by eapply fs_frame_trans|split]]].
    + cbn [free_inode_loop]. rewrite (proj2 (Z.ltb_ge _ _)) by lia. cbn [deref].
      rewrite (bind_ok _ _ _ _ _ (get_inode_at off s)), Hg. replace (Z.of_nat (S n) - 1) with (Z.of_nat n) by lia.
      rewrite (bind_ok _ _ _ (Z.of_nat n) s1); [done|].
      unfold free_inode_step. rewrite (proj2 (Z.ltb_lt _ _)) by (unfold DIRECT_BLOCK_NUM; lia).
      unfold block_ptr. rewrite (bind_ok _ _ _ _ _ (lift_ok _ _ _ (idx_ok _ _ _ Hsec))).
      by rewrite (bind_ok _ _ _ _ _ E1).
    + intros j Hj. rewrite Hb2, Hb1, (take_S_r _ _ _ Hsec) by done.
      repeat case_decide; set_solver.
    + intros x Hx. by rewrite Hv2, Hv1.
Qed.

(** The end of free_inode: the bit of the inode in the inode map. *)
Lemma clear_imap_ok s k :
  fs_ok s -> 0 <= k < 4096 ->
  exists s', (Fs.bread IMAP INODE_MAP_SIZE (INODE_MAP_OFFSET + FS_START_SECTOR);;
    m ← buf IMAP;
    (if k / 8 <? Z.of_nat (length m) then put_buf IMAP (clear_bit m k) else fail Fault);;
    Fs.bwrite IMAP INODE_MAP_SIZE (INODE_MAP_OFFSET + FS_START_SECTOR)) s = Ok (tt, s') /\ fs_ok s' /\
    frame [IMAP] s s' /\ vw s' IMAP_SECTOR = clear_bit (vw s IMAP_SECTOR) k /\
    forall x, x <> IMAP_SECTOR -> vw s' x = vw s x.
Proof.
  intros Hok Hk. fold IMAP_SECTOR. pose proof (vw_length s IMAP_SECTOR Hok) as Hl.
  destruct (fs_bread_ok s IMAP INODE_MAP_SIZE IMAP_SECTOR Hok) as (st & E & Hok1 & Hv1); [done|by_computation|].
  rewrite (bind_ok _ _ _ _ _ E). set (s1 := with_store _ _) in *.
  assert (getb IMAP (mem s1) = vw s IMAP_SECTOR) as Hm.
  { simpl. rewrite getb_setb_eq. unfold INODE_MAP_SIZE. replace (IMAP_SECTOR + 1 - 1) with IMAP_SECTOR by lia.
    rewrite drop_ge, app_nil_r; [done|]. destruct Hok as [_ Hlen]. by rewrite (Hlen IMAP). }
  rewrite (bind_ok _ _ _ (vw s IMAP_SECTOR) s1) by (unfold buf, gets; by rewrite Hm).
  rewrite (proj2 (Z.ltb_lt _ _)) by (rewrite Hl; apply Z.div_lt_upper_bound; unfold SECTOR_SIZE; lia).
  set (v := clear_bit (vw s IMAP_SECTOR) k). set (s2 := with_mem (setb IMAP v (mem s1)) s1).
  rewrite (bind_ok _ _ _ tt s2 eq_refl).
  assert (length v = SECTOR_SIZE) as Hlv by (unfold v; by rewrite length_clear_bit).
  destruct (fs_bwrite_ok s2 IMAP INODE_MAP_SIZE IMAP_SECTOR) as (st3 & E3 & Hok3 & Hv3);
    [by apply fs_ok_put|done|by_computation|].
  eexists. split; [exact E3|]. split; [exact Hok3|]. split; [|split].
  - split_and!; try done. intros b Hb. simpl. rewrite !getb_setb_ne; [done|..]; intros ->; apply Hb; by_computation.
  - rewrite Hv3. unfold written_range. rewrite decide_True by (unfold INODE_MAP_SIZE; lia).
    simpl. rewrite getb_setb_eq. apply firstn_all2. lia.
  - intros x Hx. rewrite Hv3. unfold written_range. rewrite decide_False by (unfold INODE_MAP_SIZE; lia).
    apply Hv1.
Qed.


(** ** Allocation *)

Definition data_full s : Prop := forall j, 0 <= j < DATA_BLOCKS -> bit (block_bits s) j = true.

(** C32. find_free_block returns the least free data block, zeroed, and changes nothing else;
    free_block undoes it; a full disk gives -1. *)
Theorem block_alloc_free s :
  fs_ok s -> is_bytes (block_bits s) ->
  exists r s1, find_free_block s = Ok (r, s1) /\
    ((r = MINUS1 /\ data_full s /\ forall x, vw s1 x = vw s x) \/
     exists k s2, 0 <= k < DATA_BLOCKS /\ r = block_sector k /\
       bit (block_bits s) k = false /\ (forall j, 0 <= j < k -> bit (block_bits s) j = true) /\
       bit (block_bits s1) k = true /\
       (forall x, r <= x < r + 8 -> vw s1 x = zero_sector) /\
       (forall x, ~ (BMAP_SECTOR <= x < BMAP_SECTOR + 32) -> ~ (r <= x < r + 8) -> vw s1 x = vw s x) /\
       free_block r s1 = Ok (tt, s2) /\
       (forall j, 0 <= j -> bit (block_bits s2) j = bit (block_bits s) j)).
Proof.
  intros Hok Hby. destruct (find_free_block_ok s Hok Hby) as (r & s1 & E & Hok1 & _ & _ & H).
  exists r, s1. split; [done|]. destruct H as [(-> & Hv & _ & Hfull)|(k & Hk & -> & Hb & Hl & Hbb & _ & Hz & Hv)];
    [by left|right].
  destruct (free_block_ok s1 k Hok1 Hk) as (s2 & E2 & _ & _ & _ & Hbb2 & _).
  pose proof (block_bits_length s Hok) as Hlen. pose proof DATA_BLOCKS_val.
  assert (0 <= k < 8 * Z.of_nat (length (block_bits s))) as Hr by (rewrite Hlen; unfold SECTOR_SIZE; lia).
  exists k, s2. do 4 (split; [done|]). split; [rewrite Hbb, bit_set by lia; by rewrite decide_True|].
  split; [done|]. split; [done|]. split; [done|]. intros j Hj.
  rewrite Hbb2, bit_unset by (rewrite ?Hbb, ?length_set_bit; lia).
  case_decide; [congruence|]. rewrite Hbb, bit_set by lia. by rewrite decide_False.
Qed.

(** [n] inodes allocated one after the other. *)
Fixpoint alloc_inodes (n : nat) : M fsst (list Z) :=
  match n with
  | O => mret []
  | S n' => k ← find_free_inode; l ← alloc_inodes n'; mret (k :: l)
  end.

(** C38.  Inodes that find_free_inode allocates one after the other are pairwise
    distinct, were free before and are marked after; it returns -1 only when all
    4096 are used, and no sector but the inode map changes. *)
Theorem inodes_distinct n s :
  fs_ok s -> is_bytes (vw s IMAP_SECTOR) ->
  exists l s', alloc_inodes n s = Ok (l, s') /\
    NoDup (filter (fun k => k <> MINUS1) l) /\
    (forall k, k ∈ l -> k <> MINUS1 -> 0 <= k < 4096 /\ bit (vw s IMAP_SECTOR) k = false) /\
    (forall k, 0 <= k < 4096 ->
       bit (vw s' IMAP_SECTOR) k = (bit (vw s IMAP_SECTOR) k || bool_decide (k ∈ l))) /\
    (MINUS1 ∈ l -> forall k, 0 <= k < 4096 -> bit (vw s' IMAP_SECTOR) k = true) /\
    (forall x, x <> IMAP_SECTOR -> vw s' x = vw s x).
Proof.
  revert s; induction n as [|n IH]; intros s Hok Hby; cbn [alloc_inodes].
  { exists [], s. split; [done|]. split; [constructor|]. split; [set_solver|].
    split; [intros; by rewrite bool_decide_false, orb_false_r by set_solver|]. by split; [set_solver|]. }
  destruct (find_free_inode_ok s Hok Hby) as (r & s1 & E1 & Hok1 & _ & _ & Hr).
  rewrite (bind_ok _ _ _ _ _ E1). pose proof (vw_length s IMAP_SECTOR Hok) as Hl.
  destruct Hr as [(-> & Hv1 & Hfull)|(Hr & Hb & _ & Hset & Hv1)].
  - destruct (IH s1 Hok1) as (l & s' & E & Hnd & Hin & Hbit & Hm & Hv); [by rewrite Hv1|].
    rewrite (bind_ok _ _ _ _ _ E). exists (MINUS1 :: l), s'. rewrite !Hv1 in *.
    assert (forall k, 0 <= k < 4096 -> bit (vw s' IMAP_SECTOR) k = true) as Hall
      by (intros k Hk; rewrite Hbit, Hfull by done; done).
    split; [done|]. split; [rewrite filter_cons_False by auto; done|].
    split; [intros k [->|Hk]%elem_of_cons ?; [done|by apply Hin]|].
    split; [intros k Hk; rewrite Hall, Hfull by done; done|]. split; [done|].
    intros x Hx. by rewrite Hv, Hv1.
  - assert (is_bytes (vw s1 IMAP_SECTOR)) as Hby1 by (rewrite Hset; by apply is_bytes_set_bit).
    destruct (IH s1 Hok1 Hby1) as (l & s' & E & Hnd & Hin & Hbit & Hm & Hv).
    rewrite (bind_ok _ _ _ _ _ E). exists (r :: l), s'.
    assert (forall k, 0 <= k -> bit (vw s1 IMAP_SECTOR) k =
              if decide (k = r) then true else bit (vw s IMAP_SECTOR) k) as Hs1.
    { intros k Hk. rewrite Hset. apply bit_set; [rewrite Hl; unfold SECTOR_SIZE; lia|done]. }
    split; [done|]. split; [|split; [|split; [|split]]].
    + rewrite filter_cons_True by (unfold MINUS1; lia). constructor; [|done].
      rewrite list_elem_of_filter. intros [Hne Hrl]. destruct (Hin r Hrl Hne) as [_ Hrb].
      rewrite Hs1 in Hrb by lia. by rewrite decide_True in Hrb.
    + intros k [->|Hk]%elem_of_cons Hne; [done|]. destruct (Hin k Hk Hne) as [Hkr Hkb].
      split; [done|]. rewrite Hs1 in Hkb by lia. by case_decide.
    + intros k Hk. rewrite Hbit, Hs1 by (done || lia). destruct (decide (k = r)) as [->|Hne].
      * rewrite Hb, (bool_decide_true (r ∈ r :: l)) by left. done.
      * f_equal. apply bool_decide_ext. rewrite elem_of_cons. tauto.
    + intros [?|Hin']%elem_of_cons; [unfold MINUS1 in *; lia|by apply Hm].
    + intros x Hx. by rewrite Hv, Hv1.
Qed.


(** ** File descriptors *)

Lemma get_fd_ok s fd d : fdesc_array s !! fd = Some d -> get_fd (Z.of_nat fd) s = Ok (d, s).
Proof. intros E. unfold get_fd. rewrite (bind_ok _ _ _ _ _ eq_refl). by apply lift_ok, idx_ok. Qed.
Lemma set_fd_ok s fd d f :
  fdesc_array s !! fd = Some d ->
  set_fd (Z.of_nat fd) f s = Ok (tt, with_fdescs (<[fd := f d]> (fdesc_array s)) s).
Proof.
  intros E. unfold set_fd. rewrite (bind_ok _ _ _ _ _ eq_refl).
  rewrite (bind_ok _ _ _ _ _ (lift_ok _ _ _ (idx_ok _ _ _ E))). by rewrite Nat2Z.id.
Qed.

Definition set_wpos (w : Z) (d : fdesc_t) : fdesc_t :=
  mkFdesc (f_mode d) (f_valid d) (f_ino d) (f_read_pos d) w.
Definition set_rpos (r : Z) (d : fdesc_t) : fdesc_t :=
  mkFdesc (f_mode d) (f_valid d) (f_ino d) r (f_write_pos d).

(** [s'] is [s] with descriptor [fd] replaced and buffer [b] changed. *)
Definition moved (fd : nat) (d' : fdesc_t) (b : bname) (v : list Z) s s' : Prop :=
  store s' = store s /\ wd_inode s' = wd_inode s /\ fticks s' = fticks s /\
  fdesc_array s' = <[fd := d']> (fdesc_array s) /\ getb b (mem s') = v /\
  forall b', b' <> b -> getb b' (mem s') = getb b' (mem s).

Lemma moved_fs_ok fd d' b v s s' : moved fd d' b v s s' -> fs_ok s -> length v = buf_size b -> fs_ok s'.
Proof.
  intros (Hs & _ & _ & _ & Hb & Ho) [H1 H2] Hv. split; [by rewrite Hs|].
  intros b'. destruct (decide (b' = b)) as [->|]; [by rewrite Hb|by rewrite Ho].
Qed.
Lemma moved_vw fd d' b v s s' : moved fd d' b v s s' -> forall x, vw s' x = vw s x.
Proof. intros (Hs & _) x. unfold vw. by rewrite Hs. Qed.
Lemma moved_trans fd d1 d2 b v1 v2 s s1 s2 :
  moved fd d1 b v1 s s1 -> moved fd d2 b v2 s1 s2 -> moved fd d2 b v2 s s2.
Proof.
  intros (A1 & A2 & A3 & A4 & A5 & A6) (B1 & B2 & B3 & B4 & B5 & B6).
  split; [congruence|]. split; [congruence|]. split; [congruence|].
  split; [by rewrite B4, A4, list_insert_insert_eq|]. split; [done|].
  intros b' Hb. by rewrite B6, A6.
Qed.

Lemma splice_insert pos (c : Z) v l :
  (S pos + length v <= length l)%nat -> splice (S pos) v (<[pos := c]> l) = splice pos (c :: v) l.
Proof.
  intros Hl. unfold splice. rewrite (take_S_r _ _ c) by (apply list_lookup_insert_eq; lia).
  rewrite take_insert_ge by lia. rewrite drop_insert_lt by lia.
  rewrite <- app_assoc. simpl. do 4 f_equal. lia.
Qed.
Lemma splice_nil pos (l : list Z) : splice pos [] l = l.
Proof. unfold splice. simpl. rewrite Nat.add_0_r. apply take_drop. Qed.

Lemma slice_cons i n (l : list Z) c : l !! i = Some c -> slice i (S n) l = c :: slice (S i) n l.
Proof. intros E. unfold slice. by rewrite (drop_S _ _ _ E). Qed.

(** One turn inside a block: the byte goes to [wdata_buffer]. *)
Lemma write_turn s fd d c pos p (k : M fsst unit) :
  fs_ok s -> fdesc_array s !! fd = Some d -> f_write_pos d = Z.of_nat pos -> (pos < 4095)%nat ->
  exists s', ((m ← buf WBUF; put_buf WBUF (<[Z.to_nat (f_write_pos d mod 4096) := c]> m));;
     (if f_write_pos d mod 4096 =? 4095 then
        sec ← blockid2sector (f_write_pos d / 4096) p; Fs.bwrite WBUF BLOCK_SECTORS sec
      else mret tt);;
     set_fd (Z.of_nat fd) (fun d => mkFdesc (f_mode d) (f_valid d) (f_ino d) (f_read_pos d)
       (u32 (f_write_pos d + 1)));; k) s = k s' /\
    moved fd (set_wpos (Z.of_nat (S pos)) d) WBUF (<[pos := c]> (getb WBUF (mem s))) s s'.
Proof.
  intros Hok Hd Hpos Hlt. rewrite Hpos, Z.mod_small, Nat2Z.id by lia.
  rewrite (proj2 (Z.eqb_neq _ _)) by lia.
  rewrite (bind_ok _ _ _ _ _ eq_refl), (bind_ok _ _ _ _ _ eq_refl).
  erewrite bind_ok by (by apply set_fd_ok). eexists. split; [reflexivity|].
  rewrite Hpos, u32_small by lia. split; [done|]. split; [done|]. split; [done|].
  split; [unfold set_wpos; cbn [fdesc_array with_fdescs]; by rewrite Nat2Z.inj_succ, <- Z.add_1_r|].
  cbn [mem with_fdescs with_mem]. split; [by rewrite getb_setb_eq|].
  intros b' Hb. by rewrite getb_setb_ne.
Qed.

Lemma moved_lookup fd d d' b v s s' :
  fdesc_array s !! fd = Some d -> moved fd d' b v s s' -> fdesc_array s' !! fd = Some d'.
Proof.
  intros Hd (_ & _ & _ & -> & _). apply list_lookup_insert_eq. by apply lookup_lt_Some in Hd.
Qed.

Lemma moved_refl fd d b s : fdesc_array s !! fd = Some d -> moved fd d b (getb b (mem s)) s s.
Proof. intros Hd. split; [done|]. split; [done|]. split; [done|]. split; [by rewrite list_insert_id|done]. Qed.

Lemma set_wpos_set a b d : set_wpos a (set_wpos b d) = set_wpos a d.
Proof. done. Qed.
Lemma set_wpos_id a d : f_write_pos d = a -> set_wpos a d = d.
Proof. destruct d. by intros <-. Qed.

(** The loop inside a block. *)
Lemma write_loop_ok n i fd d p buff pos s :
  fs_ok s -> fdesc_array s !! fd = Some d -> f_write_pos d = Z.of_nat pos ->
  (0 < pos)%nat -> (pos + n <= 4095)%nat -> (i + n <= length buff)%nat ->
  exists s', write_loop n i (Z.of_nat fd) p buff s = Ok (tt, s') /\
    moved fd (set_wpos (Z.of_nat (pos + n)) d) WBUF
      (splice pos (slice i n buff) (getb WBUF (mem s))) s s'.
Proof.
  revert i d pos s; induction n as [|n IH]; intros i d pos s Hok Hd Hpos H0 Hn Hi; cbn [write_loop].
  { exists s. split; [done|]. unfold slice. rewrite take_0, splice_nil, Nat.add_0_r, set_wpos_id by done.
    by apply moved_refl. }
  rewrite (bind_ok _ _ _ _ _ (get_fd_ok _ _ _ Hd)). rewrite (proj2 (Z.eqb_neq (_ mod _) 0)).
  2:{ rewrite Hpos, Z.mod_small; lia. }
  rewrite (bind_ok _ _ _ _ _ eq_refl).
  destruct (buff !! i) as [c|] eqn:Ec; [|apply lookup_ge_None in Ec; lia].
  rewrite (bind_ok _ _ _ _ _ (lift_ok (of_option Fault (Some c)) _ c eq_refl)).
  destruct (write_turn s fd d c pos p (write_loop n (S i) (Z.of_nat fd) p buff) Hok Hd Hpos ltac:(lia))
    as (s1 & E1 & Hm1).
  rewrite E1. clear E1. assert (length (getb WBUF (mem s)) = BLOCK_SIZE) as Hw by apply Hok.
  unfold BLOCK_SIZE in Hw.
  destruct (IH (S i) (set_wpos (Z.of_nat (S pos)) d) (S pos) s1) as (s' & E' & Hm'); try done; try lia.
  - eapply moved_fs_ok; [exact Hm1|done|]. by rewrite length_insert.
  - by eapply moved_lookup.
  - exists s'. split; [done|]. rewrite (slice_cons _ _ _ _ Ec), <- splice_insert.
    2:{ unfold slice. rewrite length_take, Hw. lia. }
    destruct Hm1 as (M1 & M2 & M3 & M4 & M5 & M6) eqn:EM. clear EM. rewrite M5, set_wpos_set in Hm'.
    replace (pos + S n)%nat with (S pos + n)%nat by lia.
    eapply moved_trans; [|exact Hm']. exact Hm1.
Qed.

(** One turn of the loop of [do_read] inside a block. *)
Lemma read_turn s fd d pos i (buff : list Z) c (k : list Z -> M fsst (list Z)) :
  fdesc_array s !! fd = Some d -> f_read_pos d = Z.of_nat pos -> (pos < 4096)%nat ->
  getb RBUF (mem s) !! pos = Some c -> (i < length buff)%nat ->
  exists s', (m ← buf RBUF; c ← lift (idx m (f_read_pos d mod 4096));
     (if decide (i < length buff)%nat then mret tt else fail Fault);;
     set_fd (Z.of_nat fd) (fun d => mkFdesc (f_mode d) (f_valid d) (f_ino d) (u32 (f_read_pos d + 1))
       (f_write_pos d));; k (<[i := c]> buff)) s = k (<[i := c]> buff) s' /\
    moved fd (set_rpos (Z.of_nat (S pos)) d) RBUF (getb RBUF (mem s)) s s'.
Proof.
  intros Hd Hpos Hlt Hc Hi. rewrite Hpos, Z.mod_small by lia. rewrite (bind_ok _ _ _ _ _ eq_refl).
  rewrite (bind_ok _ _ _ _ _ (lift_ok _ _ _ (idx_ok _ _ _ Hc))). rewrite decide_True by done.
  rewrite (bind_ok _ _ _ _ _ eq_refl). erewrite bind_ok by (by apply set_fd_ok).
  eexists. split; [reflexivity|]. rewrite Hpos, u32_small by lia.
  split; [done|]. split; [done|]. split; [done|].
  split; [unfold set_rpos; cbn [fdesc_array with_fdescs]; by rewrite Nat2Z.inj_succ, <- Z.add_1_r|]. done.
Qed.

Lemma set_rpos_id a d : f_read_pos d = a -> set_rpos a d = d.
Proof. destruct d. by intros <-. Qed.

Lemma read_loop_ok n i fd d inode buff pos s :
  fs_ok s -> fdesc_array s !! fd = Some d -> f_read_pos d = Z.of_nat pos ->
  (0 < pos)%nat -> (pos + n <= 4096)%nat -> (i + n <= length buff)%nat ->
  exists s', read_loop n i (Z.of_nat fd) inode buff s =
      Ok (splice i (slice pos n (getb RBUF (mem s))) buff, s') /\
    moved fd (set_rpos (Z.of_nat (pos + n)) d) RBUF (getb RBUF (mem s)) s s'.
Proof.
  revert i d buff pos s; induction n as [|n IH]; intros i d buff pos s Hok Hd Hpos H0 Hn Hi; cbn [read_loop].
  { exists s. unfold slice. rewrite take_0, splice_nil, Nat.add_0_r, set_rpos_id by done.
    split; [done|]. by apply moved_refl. }
  assert (length (getb RBUF (mem s)) = BLOCK_SIZE) as Hw by apply Hok. unfold BLOCK_SIZE in Hw.
  rewrite (bind_ok _ _ _ _ _ (get_fd_ok _ _ _ Hd)). rewrite (proj2 (Z.eqb_neq (_ mod _) 0)).
  2:{ rewrite Hpos, Z.mod_small; lia. }
  rewrite (bind_ok _ _ _ _ _ eq_refl).
  destruct (getb RBUF (mem s) !! pos) as [c|] eqn:Ec; [|apply lookup_ge_None in Ec; lia].
  destruct (read_turn s fd d pos i buff c (read_loop n (S i) (Z.of_nat fd) inode) Hd Hpos ltac:(lia) Ec ltac:(lia))
    as (s1 & E1 & Hm1).
  assert (fs_ok s1) as Hok1 by (by eapply moved_fs_ok; [exact Hm1|done|rewrite Hw]).
  destruct (IH (S i) (set_rpos (Z.of_nat (S pos)) d) (<[i := c]> buff) (S pos) s1) as (s' & E' & Hm');
    try done; try lia; [by eapply moved_lookup|rewrite length_insert; lia|].
  exists s'. destruct Hm1 as (M1 & M2 & M3 & M4 & M5 & M6) eqn:EM. clear EM. rewrite M5 in *. split.
  - rewrite (slice_cons _ _ _ _ Ec), <- splice_insert by (unfold slice; rewrite length_take; lia).
    rewrite E1. exact E'.
  - replace (pos + S n)%nat with (S pos + n)%nat by lia. eapply moved_trans; [exact Hm1|exact Hm'].
Qed.


(** ** The first block of a file *)

Lemma set_get_inode s off i :
  fs_ok s -> 0 <= off < 8 -> inode_wf i ->
  exists s', set_inode off i s = Ok (tt, s') /\ fs_ok s' /\ get_inode off s' = Ok (i, s') /\
    frame [IBUF] s s' /\ store s' = store s /\ fticks s' = fticks s.
Proof.
  intros Hok Ho Hi. unfold set_inode, buf. rewrite (bind_ok _ _ _ _ _ eq_refl).
  assert (length (getb IBUF (mem s)) = SECTOR_SIZE) as Hl by apply Hok.
  pose proof (length_encode_inode i ltac:(apply Hi)) as He.
  assert (INODE_BYTES * Z.to_nat off + length (encode_inode i) <= length (getb IBUF (mem s)))%nat as Hfit
    by (rewrite He, Hl; unfold INODE_BYTES, SECTOR_SIZE; lia).
  eexists. split; [reflexivity|]. split; [|split; [|split; [|done]]].
  - apply fs_ok_put; [done|]. by rewrite length_splice.
  - unfold get_inode, buf. rewrite (bind_ok _ _ _ _ _ eq_refl). cbn [mem with_mem].
    rewrite getb_setb_eq, slice_splice_eq' by (rewrite ?He in *; done).
    by rewrite decode_encode_inode.
  - split; [done|]. do 3 (split; [done|]). intros b Hb. cbn [mem with_mem]. rewrite getb_setb_ne; [done|].
    intros ->. apply Hb. left.
Qed.

Lemma get_inode_same s s' off i :
  getb IBUF (mem s') = getb IBUF (mem s) -> get_inode off s = Ok (i, s) -> get_inode off s' = Ok (i, s').
Proof.
  assert (forall s, get_inode off s =
    Ok (decode_inode (slice (INODE_BYTES * Z.to_nat off) INODE_BYTES (getb IBUF (mem s))), s)) as H by done.
  intros Hm. rewrite !H, Hm. generalize (decode_inode
    (slice (INODE_BYTES * Z.to_nat off) INODE_BYTES (getb IBUF (mem s)))). congruence.
Qed.

(** The inode with [blocks[0]] set. *)
Definition set_block0 (b : Z) (i : inode_t) : inode_t :=
  mkInode (i_mode i) (i_type i) (i_nlink i) (i_ino i) (i_size i) (i_atime i) (i_mtime i) (i_ctime i)
    (<[0%nat := b]> (i_blocks i)).

Lemma set_block0_wf b i : 0 <= b < 2 ^ 32 -> inode_wf i -> inode_wf (set_block0 b i).
Proof.
  intros Hb (H1 & H2 & H3 & H4 & H5 & H6). do 4 (split; [done|]). cbn [i_blocks set_block0]. split.
  - by apply Forall_insert.
  - by rewrite length_insert.
Qed.
Lemma set_block0_lookup b i : inode_wf i -> i_blocks (set_block0 b i) !! 0%nat = Some b.
Proof. intros (_ & _ & _ & _ & _ & H6). apply list_lookup_insert_eq. lia. Qed.
Lemma set_block0_id b i : i_blocks i !! 0%nat = Some b -> set_block0 b i = i.
Proof. destruct i. intros E. unfold set_block0. simpl in *. by rewrite list_insert_id. Qed.

Lemma blockid2sector0 s p i b :
  deref p s = Ok (i, s) -> i_blocks i !! 0%nat = Some b -> blockid2sector 0 p s = Ok (b, s).
Proof.
  intros Hg Hb. unfold blockid2sector. rewrite (bind_ok _ _ _ _ _ Hg).
  apply (block_ptr_ok s i 0 b Hb).
Qed.

(** The first block is there, or can be allocated. *)
Definition has_block0 s (b : Z) : Prop :=
  (b = 0 /\ is_bytes (block_bits s) /\ ~ data_full s) \/
  (exists k, 0 <= k < DATA_BLOCKS /\ b = block_sector k).

Lemma ensure_block0_ok s off i b :
  fs_ok s -> 0 <= off < 8 -> get_inode off s = Ok (i, s) -> inode_wf i -> i_blocks i !! 0%nat = Some b ->
  has_block0 s b ->
  exists k s', ensure_block 0 (PBuf off) s = Ok (block_sector k, s') /\ fs_ok s' /\ 0 <= k < DATA_BLOCKS /\
    get_inode off s' = Ok (set_block0 (block_sector k) i, s') /\ inode_wf (set_block0 (block_sector k) i) /\
    frame [BMAP; RBUF; IBUF] s s' /\ fticks s' = fticks s.
Proof.
  intros Hok Ho Hg Hwf Hb Hhas. unfold ensure_block.
  rewrite (bind_ok _ _ _ _ _ (blockid2sector0 _ (PBuf off) _ _ Hg Hb)).
  destruct Hhas as [(-> & Hby & Hfull)|(k & Hk & ->)].
  - change (0 =? 0) with true. cbv iota.
    destruct (find_free_block_ok s Hok Hby) as (r & s1 & E1 & Hok1 & Hf1 & Ht1 & H).
    destruct H as [(_ & _ & _ & Hall)|(k & Hk & -> & _)]; [done|].
    assert (get_inode off s1 = Ok (i, s1)) as Hg1.
    { eapply get_inode_same; [|exact Hg]. by rewrite (frame_get _ _ _ _ Hf1) by by_computation. }
    pose proof (block_sector_val k) as Hbs. pose proof DATA_BLOCKS_val as HDB.
    assert (inode_wf (set_block0 (block_sector k) i)) as Hwf' by (apply set_block0_wf; [lia|done]).
    destruct (set_get_inode s1 off (set_block0 (block_sector k) i) Hok1 Ho Hwf')
      as (s2 & E2 & Hok2 & Hg2 & Hf2 & Hst2 & Ht2).
    exists k, s2. split; [|split; [done|split; [done|split; [done|split; [done|split; [|congruence]]]]]].
    2:{ eapply frame_step; [eapply fs_frame_weaken; [exact Hf1|by_computation]|exact Hf2|by_computation]. }
    unfold alloc_inode_block. change (0 <? DIRECT_BLOCK_NUM) with true. cbv iota. rewrite !bind_bind.
    rewrite (bind_ok _ _ _ _ _ E1). unfold set_block_ptr. rewrite !bind_bind. cbn [deref].
    rewrite (bind_ok _ _ _ _ _ Hg1). cbn [store_inode]. change (Z.to_nat 0) with 0%nat.
    change (mkInode _ _ _ _ _ _ _ _ _) with (set_block0 (block_sector k) i).
    rewrite (bind_ok _ _ _ _ _ E2), (bind_ok _ _ _ _ _ eq_refl).
    apply blockid2sector0 with (i := set_block0 (block_sector k) i); [done|]. by apply set_block0_lookup.
  - pose proof (block_sector_val k) as Hbs.
    rewrite (proj2 (Z.eqb_neq _ _)) by lia. exists k, s. rewrite (set_block0_id _ _ Hb). done.
Qed.


Lemma bread_block_ok s b k :
  fs_ok s -> 0 <= k < DATA_BLOCKS ->
  exists s', Fs.bread b BLOCK_SECTORS (block_sector k) s = Ok (tt, s') /\ fs_ok s' /\ frame [b] s s' /\
    fticks s' = fticks s /\ (forall x, vw s' x = vw s x) /\
    getb b (mem s') = vw s (block_sector k + 7) ++ drop SECTOR_SIZE (getb b (mem s)).
Proof.
  intros Hok Hk. pose proof (block_sector_val k) as Hbs. pose proof DATA_BLOCKS_val as HDB.
  destruct (fs_bread_ok s b BLOCK_SECTORS (block_sector k) Hok) as (st & E & Hok' & Hv); [done| |].
  { unfold in_range, BLOCK_SECTORS. lia. }
  replace (block_sector k + BLOCK_SECTORS - 1) with (block_sector k + 7) in * by (unfold BLOCK_SECTORS; lia).
  eexists. split; [exact E|]. split; [done|]. split; [|split; [done|split; [done|apply getb_setb_eq]]].
  split; [done|]. do 3 (split; [done|]). intros b' Hb. cbn [mem with_store with_mem].
  rewrite getb_setb_ne; [done|]. intros ->. apply Hb. left.
Qed.

Lemma get_inode_disk s k :
  getb IBUF (mem s) = vw s (inodeidx2sector k) -> get_inode (inodeidx2offset k) s = Ok (disk_inode s k, s).
Proof. intros E. unfold get_inode, buf. rewrite (bind_ok _ _ _ _ _ eq_refl). by rewrite E. Qed.

(** The loop of [do_write] from the start of a file, at most one sector. *)
Lemma write_loop_start s fd d off i k buff n :
  fs_ok s -> fdesc_array s !! fd = Some d -> f_write_pos d = 0 -> 0 <= off < 8 ->
  get_inode off s = Ok (i, s) -> inode_wf i -> i_blocks i !! 0%nat = Some (block_sector k) ->
  0 <= k < DATA_BLOCKS -> (0 < n <= 512)%nat -> (n <= length buff)%nat ->
  exists s', write_loop n 0 (Z.of_nat fd) (PBuf off) buff s = Ok (tt, s') /\ fs_ok s' /\
    get_inode off s' = Ok (i, s') /\ fdesc_array s' = <[fd := set_wpos (Z.of_nat n) d]> (fdesc_array s) /\
    wd_inode s' = wd_inode s /\ fticks s' = fticks s /\
    (forall x, vw s' x = vw s x) /\
    take n (getb WBUF (mem s')) = take n buff /\
    (forall b, b <> WBUF -> b <> IBUF -> b <> RBUF -> b <> BMAP -> getb b (mem s') = getb b (mem s)).
Proof.
  intros Hok Hd Hpos Ho Hg Hwf Hb Hk Hn Hlen. destruct n as [|n]; [lia|]. cbn [write_loop].
  rewrite (bind_ok _ _ _ _ _ (get_fd_ok _ _ _ Hd)).
  destruct (bread_block_ok s WBUF k Hok Hk) as (s1 & E1 & Hok1 & Hf1 & Ht1 & Hv1 & Hw1).
  assert ((if f_write_pos d mod 4096 =? 0 then
             sec ← ensure_block (f_write_pos d / 4096) (PBuf off); Fs.bread WBUF BLOCK_SECTORS sec
           else mret tt) s = Ok (tt, s1)) as E0.
  { rewrite Hpos. change (0 mod 4096 =? 0) with true. cbv iota. change (0 / 4096) with 0.
    unfold ensure_block. rewrite bind_bind, (bind_ok _ _ _ _ _ (blockid2sector0 _ (PBuf off) _ _ Hg Hb)).
    pose proof (block_sector_val k) as Hbs. rewrite (proj2 (Z.eqb_neq _ 0)) by lia. done. }
  rewrite (bind_ok _ _ _ _ _ E0).
  destruct buff as [|c buff]; [simpl in Hlen; lia|]. simpl in Hlen.
  erewrite (bind_ok (lift _)) by (apply lift_ok; reflexivity).
  assert (fdesc_array s1 !! fd = Some d) as Hd1 by (rewrite (proj1 (proj2 Hf1)); done).
  destruct (write_turn s1 fd d c 0 (PBuf off) (write_loop n 1 (Z.of_nat fd) (PBuf off) (c :: buff)) Hok1 Hd1 Hpos
    ltac:(lia)) as (s2 & E2 & Hm2).
  rewrite E2. clear E2. assert (length (getb WBUF (mem s1)) = 4096%nat) as Hl1 by apply Hok1.
  assert (fs_ok s2) as Hok2 by (eapply moved_fs_ok; [exact Hm2|done|by rewrite length_insert]).
  destruct (write_loop_ok n 1 fd (set_wpos 1 d) (PBuf off) (c :: buff) 1 s2) as (s3 & E3 & Hm3);
    [done|by eapply moved_lookup|done|lia|lia|simpl; lia|].
  pose proof (moved_vw _ _ _ _ _ _ Hm2) as Hv2. pose proof (moved_vw _ _ _ _ _ _ Hm3) as Hv3.
  destruct Hm2 as (A1 & A2 & A3 & A4 & A5 & A6), Hm3 as (B1 & B2 & B3 & B4 & B5 & B6).
  assert (length (getb WBUF (mem s2)) = 4096%nat) as Hl2 by apply Hok2.
  exists s3. split; [done|]. split; [|split; [|split; [|split; [|split; [|split; [|split]]]]]].
  - destruct Hok2 as [Hs2 Hb2]. split; [by rewrite B1|]. intros b'. destruct (decide (b' = WBUF)) as [->|].
    + rewrite B5, length_splice; [done|]. unfold slice. rewrite length_take, length_drop. simpl. lia.
    + by rewrite B6.
  - eapply get_inode_same; [|exact Hg]. by rewrite B6, A6, (frame_get _ _ _ _ Hf1) by by_computation.
  - rewrite B4, A4, (proj1 (proj2 Hf1)), list_insert_insert_eq, set_wpos_set. done.
  - rewrite B2, A2. apply Hf1.
  - congruence.
  - intros x. by rewrite Hv3, Hv2, Hv1.
  - rewrite B5, A5. unfold splice. rewrite (take_S_r _ 0 c) by (apply list_lookup_insert_eq; lia).
    simpl. f_equal. unfold slice. cbn [drop]. rewrite drop_0.
    rewrite take_app_le by (rewrite length_take; lia). rewrite take_take. f_equal. lia.
  - intros b' H1 H2 H3 H4. rewrite B6, A6 by done. apply (frame_get _ _ _ _ Hf1). rewrite list_elem_of_singleton. done.
Qed.


(** ** Reading back what was written *)

(** The inode after a write of [n] bytes at its start, at time [t]. *)
Definition grown (n : Z) (t : Z) (i : inode_t) : inode_t :=
  mkInode (i_mode i) (i_type i) (i_nlink i) (i_ino i) (if n >? i_size i then n else i_size i)
    (u32 t) (u32 t) (i_ctime i) (i_blocks i).

Lemma grown_wf n t i : 0 <= n < 2 ^ 32 -> inode_wf i -> inode_wf (grown n t i).
Proof.
  intros Hn (H1 & H2 & H3 & H4 & H5 & H6). do 3 (split; [done|]). split; [|done].
  unfold u32_range_list in *. rewrite !Forall_cons in *. pose proof (u32_range t). cbn [grown i_ino i_size i_atime i_mtime i_ctime].
  destruct H4 as (? & ? & ? & ? & ? & _). destruct (n >? i_size i); repeat split; try lia; by constructor.
Qed.

(** A descriptor of file [k], whose inode is on the disk. *)
Record open_file s (fd : nat) (d : fdesc_t) (k : Z) : Prop := {
  of_fs : fs_ok s;
  of_fd : fdesc_array s !! fd = Some d;
  of_num : (fd < NUM_FDESCS)%nat;
  of_valid : f_valid d <> 0;
  of_ino : f_ino d = k;
  of_range : 0 <= k < 4040;
  of_wf : inode_wf (disk_inode s k) }.

Section Clock.
Variable timer : nat -> Z.

Lemma do_write_ok s fd d k b data n :
  open_file s fd d k -> f_write_pos d = 0 ->
  i_blocks (disk_inode s k) !! 0%nat = Some b -> has_block0 s b ->
  (0 < n <= 512)%nat -> (n <= length data)%nat ->
  exists kb s', do_write timer (Z.of_nat fd) data (Z.of_nat n) s = Ok (Z.of_nat n, s') /\
    open_file s' fd (set_wpos (Z.of_nat n) d) k /\ 0 <= kb < DATA_BLOCKS /\
    disk_inode s' k = grown (Z.of_nat n) (u64 (timer (fticks s))) (set_block0 (block_sector kb) (disk_inode s k)) /\
    take n (vw s' (block_sector kb + 7)) = take n data.
Proof.
  intros [Hok Hd Hnum Hval Hino Hk Hwf] Hpos Hb Hhas Hn Hlen. unfold do_write.
  rewrite (bind_ok _ _ _ _ _ (get_fd_ok _ _ _ Hd)). rewrite Hino, Hpos. change (0 / 4096) with 0. cbv zeta.
  pose proof (inode_offset_range k) as Hoff0.
  assert (0 <= inodeidx2offset k < 8) as Ho by (unfold inodeidx2offset; by apply Z.mod_pos_bound).
  pose proof DATA_BLOCKS_val as HDB.
  assert (290 <= inodeidx2sector k <= 794) as Hsec.
  { rewrite inode_sector_val by lia. pose proof (Z.div_pos k 8 ltac:(lia) ltac:(lia)).
    pose proof (Z.div_lt_upper_bound k 8 505 ltac:(lia) ltac:(lia)). lia. }
  destruct (bread_inode s k Hok) as (s1 & E1 & Hok1 & Hb1 & Hf1 & Ht1 & Hv1).
  rewrite (bind_ok _ _ _ _ _ E1).
  assert (get_inode (inodeidx2offset k) s1 = Ok (disk_inode s k, s1)) as Hg1.
  { rewrite get_inode_disk by (by rewrite Hv1). do 2 f_equal. by apply disk_inode_view. }
  assert (block_bits s1 = block_bits s) as Hbb1.
  { unfold block_bits. rewrite Hv1. by rewrite (frame_get _ _ _ _ Hf1) by by_computation. }
  destruct (ensure_block0_ok s1 _ _ b Hok1 Ho Hg1 Hwf Hb) as (kb & s2 & E2 & Hok2 & Hkb & Hg2 & Hwf2 & Hf2 & Ht2).
  { unfold has_block0, data_full in *. by rewrite Hbb1. }
  rewrite (bind_ok _ _ _ _ _ E2).
  destruct (bread_block_ok s2 WBUF kb Hok2 Hkb) as (s3 & E3 & Hok3 & Hf3 & Ht3 & Hv3 & Hw3).
  rewrite (bind_ok _ _ _ _ _ E3).
  assert (fdesc_array s3 = fdesc_array s) as Hfd3.
  { destruct Hf1 as (_ & F1 & _), Hf2 as (_ & F2 & _), Hf3 as (_ & F3 & _). congruence. }
  assert (get_inode (inodeidx2offset k) s3 = Ok (set_block0 (block_sector kb) (disk_inode s k), s3)) as Hg3.
  { eapply get_inode_same; [|exact Hg2]. by rewrite (frame_get _ _ _ _ Hf3) by by_computation. }
  set (i := set_block0 (block_sector kb) (disk_inode s k)) in *.
  assert (i_blocks i !! 0%nat = Some (block_sector kb)) as Hib by (by apply set_block0_lookup).
  destruct (write_loop_start s3 fd d (inodeidx2offset k) i kb data n Hok3 ltac:(by rewrite Hfd3) Hpos Ho Hg3 Hwf2 Hib Hkb Hn Hlen)
    as (s4 & E4 & Hok4 & Hg4 & Hfd4 & _ & Ht4 & Hv4 & Hw4 & _).
  rewrite Nat2Z.id, (bind_ok _ _ _ _ _ E4).
  assert (fdesc_array s4 !! fd = Some (set_wpos (Z.of_nat n) d)) as Hd4.
  { rewrite Hfd4. apply list_lookup_insert_eq. rewrite Hfd3. by apply lookup_lt_Some in Hd. }
  rewrite (bind_ok _ _ _ _ _ (get_fd_ok _ _ _ Hd4)). cbn [f_write_pos set_wpos].
  rewrite Z.mod_small, (Z.div_small (Z.of_nat n)) by lia. rewrite (proj2 (Z.eqb_neq _ 0)) by lia. cbn [negb].
  rewrite bind_bind, (bind_ok _ _ _ _ _ (blockid2sector0 _ (PBuf _) _ _ Hg4 Hib)).
  pose proof (block_sector_val kb) as Hbs.
  destruct (fs_bwrite_ok s4 WBUF BLOCK_SECTORS (block_sector kb) Hok4) as (st5 & E5 & Hok5 & Hv5);
    [done|unfold in_range, BLOCK_SECTORS; lia|].
  rewrite (bind_ok _ _ _ _ _ E5). set (s5 := with_store st5 s4) in *.
  assert (get_inode (inodeidx2offset k) s5 = Ok (i, s5)) as Hg5 by (by eapply get_inode_same; [|exact Hg4]).
  cbn [deref]. rewrite (bind_ok _ _ _ _ _ Hg5), (bind_ok _ _ _ _ _ (fs_timer_ok _ _)). cbn [store_inode].
  assert (fticks s5 = fticks s) as Ht5 by (change (fticks s5) with (fticks s4); congruence).
  rewrite Ht5. fold (grown (Z.of_nat n) (u64 (timer (fticks s))) i).
  set (i' := grown (Z.of_nat n) (u64 (timer (fticks s))) i).
  assert (inode_wf i') as Hwf' by (apply grown_wf; [lia|done]).
  destruct (set_get_inode (with_fticks (S (fticks s)) s5) (inodeidx2offset k) i' Hok5 Ho Hwf')
    as (s6 & E6 & Hok6 & Hg6 & Hf6 & Hst6 & _).
  rewrite (bind_ok _ _ _ _ _ E6).
  destruct (fs_bwrite_ok s6 IBUF BLOCK_SECTORS (inodeidx2sector k) Hok6) as (st7 & E7 & Hok7 & Hv7);
    [done|unfold in_range, BLOCK_SECTORS; lia|].
  rewrite (bind_ok _ _ _ _ _ E7). unfold written_range, BLOCK_SECTORS in Hv5, Hv7.
  exists kb, (with_store st7 s6). split; [done|].
  assert (disk_inode (with_store st7 s6) k = i') as Hdi.
  { unfold disk_inode. rewrite Hv7, decide_True by lia.
    rewrite firstn_all2 by (destruct Hok6 as [_ Hl]; by rewrite (Hl IBUF)).
    unfold get_inode, buf in Hg6. rewrite (bind_ok _ _ _ _ _ eq_refl) in Hg6. unfold mret, M_ret in Hg6. congruence. }
  split; [|split; [done|split; [done|]]].
  - split; try done; [|by rewrite Hdi].
    change (fdesc_array (with_store st7 s6)) with (fdesc_array s6).
    rewrite (proj1 (proj2 Hf6)). exact Hd4.
  - rewrite Hv7, decide_False by lia. change (vw s6 ?x) with (s_view (store s6) x). rewrite Hst6.
    change (s_view _ ?x) with (vw s5 x). rewrite Hv5, decide_True by lia. rewrite take_take.
    replace (min n SECTOR_SIZE) with n by (unfold SECTOR_SIZE; lia). done.
Qed.


Lemma bad_fd_ok s fd d k : open_file s fd d k -> bad_fd (Z.of_nat fd) s = Ok (false, s).
Proof.
  intros [Hok Hd Hnum Hval _ _ _]. unfold bad_fd.
  rewrite (proj2 (Z.ltb_ge _ _)), (proj2 (geb_lt _ _)) by lia. cbn [orb].
  rewrite (bind_ok _ _ _ _ _ (get_fd_ok _ _ _ Hd)). by rewrite (proj2 (Z.eqb_neq _ _) Hval).
Qed.

(** The loop of [do_read] from the start of a file, at most one sector. *)
Lemma read_loop_start s fd d i k buff n :
  fs_ok s -> fdesc_array s !! fd = Some d -> f_read_pos d = 0 ->
  i_blocks i !! 0%nat = Some (block_sector k) -> 0 <= k < DATA_BLOCKS ->
  (0 < n <= 512)%nat -> (n <= length buff)%nat ->
  exists s', read_loop n 0 (Z.of_nat fd) i buff s =
      Ok (take n (vw s (block_sector k + 7)) ++ drop n buff, s') /\ fs_ok s' /\
    getb IBUF (mem s') = getb IBUF (mem s) /\ forall x, vw s' x = vw s x.
Proof.
  intros Hok Hd Hpos Hb Hk Hn Hlen. destruct n as [|n]; [lia|]. cbn [read_loop].
  rewrite (bind_ok _ _ _ _ _ (get_fd_ok _ _ _ Hd)).
  destruct (bread_block_ok s RBUF k Hok Hk) as (s1 & E1 & Hok1 & Hf1 & Ht1 & Hv1 & Hw1).
  assert ((if f_read_pos d mod 4096 =? 0 then
             sec ← blockid2sector (f_read_pos d / 4096) (PVal i); Fs.bread RBUF BLOCK_SECTORS sec
           else mret tt) s = Ok (tt, s1)) as E0.
  { rewrite Hpos. change (0 mod 4096 =? 0) with true. cbv iota. change (0 / 4096) with 0.
    by rewrite (bind_ok _ _ _ _ _ (blockid2sector0 _ (PVal i) _ _ eq_refl Hb)). }
  rewrite (bind_ok _ _ _ _ _ E0).
  assert (fdesc_array s1 !! fd = Some d) as Hd1 by (rewrite (proj1 (proj2 Hf1)); done).
  pose proof (vw_length s (block_sector k + 7) Hok) as Hvl. unfold SECTOR_SIZE in Hvl.
  destruct (vw s (block_sector k + 7)) as [|c v] eqn:Ev; [done|].
  assert (getb RBUF (mem s1) !! 0%nat = Some c) as Hc by (by rewrite Hw1).
  destruct buff as [|c0 buff]; [simpl in Hlen; lia|].
  destruct (read_turn s1 fd d 0 0 (c0 :: buff) c (read_loop n 1 (Z.of_nat fd) i) Hd1 Hpos ltac:(lia) Hc
    ltac:(simpl; lia)) as (s2 & E2 & Hm2).
  assert (length (getb RBUF (mem s1)) = 4096%nat) as Hl1 by apply Hok1.
  assert (fs_ok s2) as Hok2 by (by eapply moved_fs_ok; [exact Hm2|done|]).
  destruct (read_loop_ok n 1 fd (set_rpos 1 d) i (c :: buff) 1 s2) as (s3 & E3 & Hm3);
    [done|by eapply moved_lookup|done|lia|lia|simpl in *; lia|].
  pose proof (moved_vw _ _ _ _ _ _ Hm2) as Hv2. pose proof (moved_vw _ _ _ _ _ _ Hm3) as Hv3.
  destruct Hm2 as (A1 & A2 & A3 & A4 & A5 & A6).
  assert (length (getb RBUF (mem s2)) = 4096%nat) as Hl2 by (by rewrite A5).
  pose proof (moved_fs_ok _ _ _ _ _ _ Hm3 Hok2 Hl2) as Hok3. destruct Hm3 as (B1 & B2 & B3 & B4 & B5 & B6).
  exists s3. split; [|split; [done|split]].
  - rewrite E2. change (<[0%nat:=c]> (c0 :: buff)) with (c :: buff). rewrite E3, A5, Hw1.
    simpl in Hvl. rewrite slice_app_prefix by (simpl; lia). unfold slice, splice. simpl.
    rewrite length_take, drop_0. replace (min n (length v)) with n by lia. done.
  - by rewrite B6, A6, (frame_get _ _ _ _ Hf1) by by_computation.
  - intros x. by rewrite Hv3, Hv2, Hv1.
Qed.

Lemma do_read_ok s fd d k kb buff n :
  open_file s fd d k -> f_read_pos d = 0 -> f_mode d <> O_WRONLY ->
  i_blocks (disk_inode s k) !! 0%nat = Some (block_sector kb) -> 0 <= kb < DATA_BLOCKS ->
  (0 < n <= 512)%nat -> (n <= length buff)%nat ->
  exists s', do_read timer (Z.of_nat fd) buff (Z.of_nat n) s =
    Ok ((Z.of_nat n, take n (vw s (block_sector kb + 7)) ++ drop n buff), s').
Proof.
  intros Hof Hpos Hmode Hb Hkb Hn Hlen. unfold do_read. rewrite (bind_ok _ _ _ _ _ (bad_fd_ok _ _ _ _ Hof)).
  destruct Hof as [Hok Hd Hnum Hval Hino Hk Hwf]. rewrite (bind_ok _ _ _ _ _ (get_fd_ok _ _ _ Hd)).
  rewrite (proj2 (Z.eqb_neq _ _) Hmode), Hino, Hpos. change (0 / 4096) with 0.
  destruct (bread_inode s k Hok) as (s1 & E1 & Hok1 & Hb1 & Hf1 & Ht1 & Hv1).
  rewrite (bind_ok _ _ _ _ _ E1).
  assert (get_inode (inodeidx2offset k) s1 = Ok (disk_inode s k, s1)) as Hg1.
  { rewrite get_inode_disk by (by rewrite Hv1). do 2 f_equal. by apply disk_inode_view. }
  rewrite (bind_ok _ _ _ _ _ Hg1).
  rewrite (bind_ok _ _ _ _ _ (blockid2sector0 _ (PVal _) _ _ eq_refl Hb)).
  pose proof (block_sector_val kb) as Hbs. pose proof DATA_BLOCKS_val as HDB.
  destruct (fs_bread_ok s1 RBUF 1 (block_sector kb) Hok1) as (st2 & E2 & Hok2 & Hv2);
    [done|unfold in_range; lia|].
  rewrite (bind_ok _ _ _ _ _ E2). set (s2 := with_store _ _) in *.
  assert (fdesc_array s2 !! fd = Some d) as Hd2 by (change (fdesc_array s2) with (fdesc_array s1); by rewrite (proj1 (proj2 Hf1))).
  destruct (read_loop_start s2 fd d (disk_inode s k) kb buff n Hok2 Hd2 Hpos Hb Hkb Hn Hlen)
    as (s3 & E3 & Hok3 & Hib3 & Hv3).
  rewrite Nat2Z.id, (bind_ok _ _ _ _ _ E3), (bind_ok _ _ _ _ _ (fs_timer_ok _ _)).
  destruct (fs_bwrite_ok (with_mem (setb IBUF (splice (INODE_BYTES * Z.to_nat (inodeidx2offset k))
      (encode_inode (mkInode (i_mode (disk_inode s k)) (i_type (disk_inode s k)) (i_nlink (disk_inode s k))
        (i_ino (disk_inode s k)) (i_size (disk_inode s k)) (u32 (u64 (timer (fticks s3)))) (i_mtime (disk_inode s k))
        (i_ctime (disk_inode s k)) (i_blocks (disk_inode s k)))) (getb IBUF (mem s3)))
      (mem (with_fticks (S (fticks s3)) s3))) (with_fticks (S (fticks s3)) s3)) IBUF 1 (inodeidx2sector k))
    as (st4 & E4 & _); [|done| |].
  { apply fs_ok_put; [done|]. assert (length (getb IBUF (mem s3)) = SECTOR_SIZE) as Hl by apply Hok3.
    pose proof (inode_offset_range k). rewrite length_splice; [done|].
    rewrite length_encode_inode by apply Hwf. rewrite Hl. unfold INODE_BYTES, SECTOR_SIZE. lia. }
  { pose proof (inode_sector_range k ltac:(lia)). unfold in_range. lia. }
  unfold set_inode, buf. rewrite bind_bind, (bind_ok _ _ _ _ _ eq_refl).
  rewrite (bind_ok _ _ _ _ _ eq_refl), (bind_ok _ _ _ _ _ E4).
  eexists. rewrite Hv2, Hv1. done.
Qed.

(** C16. What do_write stores at the start of a file (up to one sector) do_read gives back,
    the block being allocated on demand. *)
Theorem write_read s fd d k b data buff n :
  open_file s fd d k -> f_write_pos d = 0 -> f_read_pos d = 0 -> f_mode d <> O_WRONLY ->
  i_blocks (disk_inode s k) !! 0%nat = Some b -> has_block0 s b ->
  (0 < n <= 512)%nat -> (n <= length data)%nat -> (n <= length buff)%nat ->
  exists s1 s2, do_write timer (Z.of_nat fd) data (Z.of_nat n) s = Ok (Z.of_nat n, s1) /\
    Z.of_nat n <= i_size (disk_inode s1 k) /\
    do_read timer (Z.of_nat fd) buff (Z.of_nat n) s1 = Ok ((Z.of_nat n, take n data ++ drop n buff), s2).
Proof.
  intros Hof Hw Hr Hm Hb Hhas Hn Hld Hlb.
  destruct (do_write_ok s fd d k b data n Hof Hw Hb Hhas Hn Hld) as (kb & s1 & E1 & Hof1 & Hkb & Hdi & Hv).
  assert (i_blocks (disk_inode s1 k) !! 0%nat = Some (block_sector kb)) as Hb1.
  { rewrite Hdi. apply set_block0_lookup. apply (of_wf _ _ _ _ Hof). }
  destruct (do_read_ok s1 fd _ k kb buff n Hof1 Hr Hm Hb1 Hkb Hn Hlb) as (s2 & E2).
  exists s1, s2. split; [done|]. split; [|by rewrite E2, Hv].
  rewrite Hdi. cbn [grown i_size]. destruct (Z.gtb_spec (Z.of_nat n) (i_size (set_block0 (block_sector kb) (disk_inode s k)))); lia.
Qed.


End Clock.

(** ** The descriptor table *)

(** The least free descriptor. *)
Definition free_fd (l : list fdesc_t) (fd : nat) : Prop :=
  (exists d, l !! fd = Some d /\ f_valid d = 0) /\
  forall j d, (j < fd)%nat -> l !! j = Some d -> f_valid d <> 0.
Definition fds_full (l : list fdesc_t) : Prop := Forall (fun d => f_valid d <> 0) l.

Lemma first_free_fd l :
  let fd := first_index (fun d => f_valid d =? 0) l 0 in
  (fd >=? Z.of_nat (length l)) = true /\ fds_full l \/
  (fd >=? Z.of_nat (length l)) = false /\ exists n, fd = Z.of_nat n /\ free_fd l n.
Proof.
  cbv zeta.
  destruct (first_index_least (fun d => f_valid d =? 0) l 0) as [[Hf ->]|(k & x & Hk & Hx & Hl & ->)].
  - left. split; [apply geb_le; lia|]. eapply Forall_impl; [exact Hf|]. intros d. by rewrite Z.eqb_neq.
  - right. pose proof (lookup_lt_Some _ _ _ Hk). split; [apply geb_lt; lia|]. exists k. split; [lia|].
    split; [exists x; by rewrite <- Z.eqb_eq|]. intros j d Hj Hd. by rewrite <- Z.eqb_neq, (Hl j).
Qed.

Lemma do_close_ok s fd d :
  fdesc_array s !! fd = Some d ->
  do_close (Z.of_nat fd) s = Ok (0, with_fdescs (<[fd := mkFdesc (f_mode d) 0 (f_ino d) (f_read_pos d)
    (f_write_pos d)]> (fdesc_array s)) s).
Proof. intros Hd. unfold do_close. by rewrite (bind_ok _ _ _ _ _ (set_fd_ok _ _ _ _ Hd)). Qed.

(** do_open takes the least free descriptor at position 0 and returns -1 only when the
    table is full; do_close makes that descriptor free again. *)
Theorem open_close s path cs mode i :
  fs_ok s -> good_path path cs -> path_ok s (wd_inode s) cs -> resolve s (wd_inode s) cs = Some i ->
  i_type i <> IT_DIR ->
  (fds_full (fdesc_array s) /\ exists s', do_open path mode s = Ok (-1, s') /\ fdesc_array s' = fdesc_array s) \/
  (exists fd s1 s2, free_fd (fdesc_array s) fd /\ do_open path mode s = Ok (Z.of_nat fd, s1) /\
     fdesc_array s1 = <[fd := mkFdesc (u8 mode) 1 (i_ino i) 0 0]> (fdesc_array s) /\
     (forall x, vw s1 x = vw s x) /\
     do_close (Z.of_nat fd) s1 = Ok (0, s2) /\ free_fd (fdesc_array s2) fd).
Proof.
  intros Hok Hp Hpo Hres Hty.
  destruct (find_inode_ok s path cs PWd (wd_inode s) Hok Hp eq_refl Hpo) as (r & s1 & E1 & _ & Hf & Hv & _ & Hr).
  rewrite Hres in Hr. destruct Hr as (off & -> & Hg). unfold do_open. rewrite (bind_ok _ _ _ _ _ E1).
  cbn [deref]. rewrite (bind_ok _ _ _ _ _ Hg), (proj2 (Z.eqb_neq _ _) Hty), (bind_ok _ _ _ _ _ eq_refl).
  assert (fdesc_array s1 = fdesc_array s) as Hfd by apply Hf. rewrite Hfd.
  destruct (first_free_fd (fdesc_array s)) as [[-> Hfull]|[-> (fd & -> & Hfree)]]; [left; eauto|right].
  destruct Hfree as [(d & Hd & Hvd) Hleast]. pose proof (lookup_lt_Some _ _ _ Hd) as Hlt.
  rewrite <- Hfd in Hd. rewrite (bind_ok _ _ _ _ _ (set_fd_ok _ _ _ _ Hd)).
  set (l' := <[fd := mkFdesc (u8 mode) 1 (i_ino i) 0 0]> (fdesc_array s1)). rewrite Hfd in Hd.
  assert (l' !! fd = Some (mkFdesc (u8 mode) 1 (i_ino i) 0 0)) as Hl'
    by (apply list_lookup_insert_eq; by rewrite Hfd).
  eexists fd, _, _. split; [split; [by exists d|done]|]. split; [done|].
  split; [unfold l'; cbn [fdesc_array with_fdescs]; by rewrite Hfd|]. split; [done|].
  split; [apply (do_close_ok (with_fdescs l' s1) _ _ Hl')|]. cbn [fdesc_array with_fdescs]. unfold l'. rewrite Hfd.
  rewrite list_insert_insert_eq. split.
  - eexists. split; [apply list_lookup_insert_eq; done|done].
  - intros j d' Hj Hd'. rewrite list_lookup_insert_ne in Hd' by lia. by eapply Hleast.
Qed.

(** do_lseek moves both positions as SEEK_SET, SEEK_CUR and SEEK_END say, modulo 2^32,
    and refuses bad descriptors and other values of whence. *)
Theorem lseek_positions s fd d k offset whence :
  open_file s fd d k ->
  exists s', do_lseek (Z.of_nat fd) offset whence s =
      Ok (if decide (whence ∈ [SEEK_SET; SEEK_CUR; SEEK_END]) then 0 else -1, s') /\
    (forall x, vw s' x = vw s x) /\
    fdesc_array s' !! fd = Some
      (if decide (whence = SEEK_SET) then mkFdesc (f_mode d) (f_valid d) (f_ino d) (u32 offset) (u32 offset)
       else if decide (whence = SEEK_CUR) then
         mkFdesc (f_mode d) (f_valid d) (f_ino d) (u32 (f_read_pos d + offset)) (u32 (f_write_pos d + offset))
       else if decide (whence = SEEK_END) then
         mkFdesc (f_mode d) (f_valid d) (f_ino d) (u32 (i_size (disk_inode s k) + offset))
           (u32 (i_size (disk_inode s k) + offset))
       else d) /\
    (forall j, j <> fd -> fdesc_array s' !! j = fdesc_array s !! j) /\
    (forall bad, bad < 0 \/ Z.of_nat NUM_FDESCS <= bad -> do_lseek bad offset whence s = Ok (-1, s)).
Proof.
  intros Hof. pose proof (bad_fd_ok _ _ _ _ Hof) as Hbad. destruct Hof as [Hok Hd Hnum Hval Hino Hk Hwf].
  unfold do_lseek. rewrite (bind_ok _ _ _ _ _ Hbad), (bind_ok _ _ _ _ _ (get_fd_ok _ _ _ Hd)). subst k. set (k := f_ino d) in *.
  destruct (bread_inode s k Hok) as (s1 & E1 & Hok1 & Hb1 & Hf1 & Ht1 & Hv1).
  rewrite (bind_ok _ _ _ _ _ E1).
  assert (get_inode (inodeidx2offset k) s1 = Ok (disk_inode s k, s1)) as Hg1.
  { rewrite get_inode_disk by (by rewrite Hv1). do 2 f_equal. by apply disk_inode_view. }
  rewrite (bind_ok _ _ _ _ _ Hg1).
  assert (fdesc_array s1 = fdesc_array s) as Hfd by apply Hf1.
  pose proof (lookup_lt_Some _ _ _ Hd) as Hlt.
  assert (forall bad A (a b : M fsst A), bad < 0 \/ Z.of_nat NUM_FDESCS <= bad ->
    (x ← bad_fd bad; if x : bool then a else b) s = a s) as Hb.
  { intros bad A a b H. unfold bad_fd. assert ((bad <? 0) || (bad >=? Z.of_nat NUM_FDESCS) = true) as ->; [|done].
    rewrite orb_true_iff, Z.ltb_lt, geb_le. lia. }
  assert (forall f, set_fd (Z.of_nat fd) f s1 = Ok (tt, with_fdescs (<[fd := f d]> (fdesc_array s)) s1)) as Hset
    by (intros f; rewrite <- Hfd in *; by apply set_fd_ok).
  assert (forall r w, exists s', (set_fd (Z.of_nat fd)
      (fun d => mkFdesc (f_mode d) (f_valid d) (f_ino d) (u32 r) (u32 w));; mret 0) s1 = Ok (0, s') /\
      (forall x, vw s' x = vw s x) /\
      fdesc_array s' !! fd = Some (mkFdesc (f_mode d) (f_valid d) (f_ino d) (u32 r) (u32 w)) /\
      forall j, j <> fd -> fdesc_array s' !! j = fdesc_array s !! j) as Hcase.
  { intros r w. rewrite (bind_ok _ _ _ _ _ (Hset _)). eexists. split; [done|]. split; [done|].
    cbn [fdesc_array with_fdescs]. split; [by apply list_lookup_insert_eq|].
    intros j Hj. by apply list_lookup_insert_ne. }
  destruct (Z.eqb_spec whence SEEK_SET) as [->|H1]; [|destruct (Z.eqb_spec whence SEEK_CUR) as [->|H2];
    [|destruct (Z.eqb_spec whence SEEK_END) as [->|H3]]].
  1: destruct (Hcase offset offset) as (s' & E & Hv & Hfd' & Ho).
  2: destruct (Hcase (f_read_pos d + offset) (f_write_pos d + offset)) as (s' & E & Hv & Hfd' & Ho).
  3: destruct (Hcase (i_size (disk_inode s k) + offset) (i_size (disk_inode s k) + offset)) as (s' & E & Hv & Hfd' & Ho).
  1-3: exists s'; split; [exact E|]; split; [done|]; split; [exact Hfd'|]; split; [done|]; intros; by rewrite Hb.
  exists s1. rewrite (decide_False (P := whence = SEEK_SET)), (decide_False (P := whence = SEEK_CUR)),
    (decide_False (P := whence = SEEK_END)) by done.
  rewrite decide_False by (rewrite !elem_of_cons, elem_of_nil; tauto).
  split; [done|]. split; [done|]. rewrite Hfd. split; [done|]. split; [done|]. intros; by rewrite Hb.
Qed.


(** ** Counting *)

(** How many of the [n] numbers from [a] on satisfy [f]. *)
Fixpoint nset (f : Z -> bool) (a : Z) (n : nat) : Z :=
  match n with
  | O => 0
  | S n' => (if f a then 1 else 0) + nset f (a + 1) n'
  end.

Lemma nset_ext f g a n : (forall j, a <= j < a + Z.of_nat n -> f j = g j) -> nset f a n = nset g a n.
Proof.
  revert a; induction n as [|n IH]; intros a H; [done|]. simpl. rewrite (H a) by lia. f_equal.
  apply IH. intros. apply H. lia.
Qed.
Lemma nset_false f a n : (forall j, a <= j < a + Z.of_nat n -> f j = false) -> nset f a n = 0.
Proof.
  revert a; induction n as [|n IH]; intros a H; [done|]. simpl. rewrite (H a) by lia.
  rewrite IH; [done|]. intros. apply H. lia.
Qed.
Lemma nset_app f a n m : nset f a (n + m) = nset f a n + nset f (a + Z.of_nat n) m.
Proof.
  revert a; induction n as [|n IH]; intros a; simpl; [by rewrite Z.add_0_r|]. rewrite IH.
  replace (a + 1 + Z.of_nat n) with (a + Z.of_nat (S n)) by lia. lia.
Qed.
Lemma nset_shift f c a n : nset (fun j => f (c + j)) a n = nset f (c + a) n.
Proof. revert a; induction n as [|n IH]; intros a; simpl; [done|]. rewrite IH. by rewrite Z.add_assoc. Qed.

Definition below (limit : option Z) (j : Z) : bool :=
  match limit with Some m => j <? m | None => true end.

Lemma count_bits_spec n b i k limit :
  0 <= k -> count_bits n b i k limit = nset (fun j => Z.testbit b j && below limit (i * 8 + j)) k n.
Proof.
  revert k; induction n as [|n IH]; intros k Hk; [done|]. cbn [count_bits nset].
  rewrite bit_clear_spec by done. destruct limit as [m|]; cbn [below] in *.
  - destruct (i * 8 + k >=? m) eqn:E; [apply geb_le in E | apply geb_lt in E].
    + rewrite (proj2 (Z.ltb_ge _ _)), andb_false_r by lia. rewrite nset_false; [done|].
      intros j Hj. rewrite (proj2 (Z.ltb_ge _ _)) by lia. apply andb_false_r.
    + rewrite IH, (proj2 (Z.ltb_lt _ _)), andb_true_r by lia. by destruct (Z.testbit b k).
  - rewrite IH, andb_true_r by lia. by destruct (Z.testbit b k).
Qed.

Lemma count_used_spec pre l limit :
  count_used l (Z.of_nat (length pre)) limit =
  nset (fun j => bit (pre ++ l) j && below limit j) (8 * Z.of_nat (length pre)) (8 * length l).
Proof.
  revert pre; induction l as [|b l IH]; intros pre; [done|]. cbn [count_used].
  replace (8 * length (b :: l))%nat with (8 + 8 * length l)%nat by (simpl; lia). rewrite nset_app. f_equal.
  - set (q := Z.of_nat (length pre)).
    assert ((pre ++ b :: l) !! length pre = Some b) as Hb by (by apply list_lookup_middle).
    transitivity (nset (fun j => Z.testbit b j && below limit (q * 8 + j)) 0 8).
    { destruct (Z.eqb_spec b 0) as [->|]; [|by apply count_bits_spec].
      symmetry. apply nset_false. intros j _. by rewrite Z.testbit_0_l. }
    transitivity (nset (fun j => bit (pre ++ b :: l) (8 * q + j) && below limit (8 * q + j)) 0 8).
    { apply nset_ext. intros j Hj. unfold q. rewrite (Z.mul_comm 8), (bit_at _ _ _ b) by (done || lia). done. }
    rewrite (nset_shift (fun j => bit (pre ++ b :: l) j && below limit j)). f_equal. lia.
  - specialize (IH (pre ++ [b])). rewrite <- app_assoc in IH. simpl app in IH.
    rewrite length_app in IH. simpl length in IH.
    replace (Z.of_nat (length pre) + 1) with (Z.of_nat (length pre + 1)) by lia. rewrite IH. f_equal; lia.
Qed.

(** do_statfs counts exactly the allocated data blocks and inodes. *)
Theorem statfs_counts s :
  fs_ok s -> u32_at (vw s FS_START_SECTOR) 0 = SUPERBLOCK_MAGIC ->
  exists s', do_statfs s = Ok ((0, nset (bit (block_bits s)) 0 (Z.to_nat DATA_BLOCKS),
      nset (bit (vw s IMAP_SECTOR)) 0 4096), s') /\
    fs_ok s' /\ forall x, vw s' x = vw s x.
Proof.
  intros Hok Hmagic. unfold do_statfs.
  destruct (fs_bread_ok s SUPER 1 FS_START_SECTOR Hok) as (st1 & E1 & Hok1 & Hv1); [done|by_computation|].
  rewrite (bind_ok _ _ _ _ _ E1). set (s1 := with_store _ _) in *.
  replace (FS_START_SECTOR + 1 - 1) with FS_START_SECTOR in s1 by lia.
  assert (getb SUPER (mem s1) = vw s FS_START_SECTOR ++ drop SECTOR_SIZE (getb SUPER (mem s))) as Hs1
    by apply getb_setb_eq.
  assert (getb BMAP (mem s1) = getb BMAP (mem s)) as Hb1 by (by apply getb_setb_ne). clearbody s1.
  rewrite (bind_ok _ _ _ _ _ eq_refl), Hs1.
  pose proof (vw_length s FS_START_SECTOR Hok) as Hl.
  assert (u32_at (vw s FS_START_SECTOR ++ drop SECTOR_SIZE (getb SUPER (mem s))) 0 = SUPERBLOCK_MAGIC) as ->.
  { rewrite <- Hmagic. unfold u32_at. rewrite slice_app_prefix; [done|]. rewrite Hl. unfold SECTOR_SIZE. simpl. lia. }
  rewrite Z.eqb_refl. cbn [negb]. fold BMAP_SECTOR.
  destruct (bread_bmap s1 Hok1) as (st2 & E2 & Hok2 & Hv2). rewrite (bind_ok _ _ _ _ _ E2).
  set (s2 := with_store _ _) in *.
  assert (block_bits s1 = block_bits s) as Hbb by (unfold block_bits; by rewrite Hv1, Hb1).
  assert (getb BMAP (mem s2) = block_bits s) as Hb2 by (rewrite <- Hbb; apply getb_setb_eq). clearbody s2.
  rewrite (bind_ok _ _ _ (block_bits s) s2) by (unfold buf, gets; by rewrite Hb2).
  fold IMAP_SECTOR.
  destruct (fs_bread_ok s2 IMAP INODE_MAP_SIZE IMAP_SECTOR Hok2) as (st3 & E3 & Hok3 & Hv3); [done|by_computation|].
  rewrite (bind_ok _ _ _ _ _ E3). set (s3 := with_store _ _) in *.
  assert (getb IMAP (mem s3) = vw s IMAP_SECTOR) as Him.
  { unfold s3. cbn [mem with_store with_mem]. rewrite getb_setb_eq. unfold INODE_MAP_SIZE.
    replace (IMAP_SECTOR + 1 - 1) with IMAP_SECTOR by lia. rewrite Hv2, Hv1.
    rewrite drop_ge, app_nil_r; [done|]. destruct Hok2 as [_ Hlen]. by rewrite (Hlen IMAP). }
  rewrite (bind_ok _ _ _ (vw s IMAP_SECTOR) s3) by (unfold buf, gets; by rewrite Him).
  exists s3. split; [|split; [done|intros x; by rewrite Hv3, Hv2, Hv1]].
  unfold mret, M_ret. do 3 f_equal; [f_equal|].
  - change (count_used (block_bits s) 0) with (count_used (block_bits s) (Z.of_nat (@length Z []))).
    rewrite count_used_spec. simpl app. change (8 * Z.of_nat (@length Z [])) with 0.
    rewrite (block_bits_length s Hok). fold DATA_BLOCKS. pose proof DATA_BLOCKS_val as HDB.
    assert (Z.to_nat DATA_BLOCKS <= 8 * (32 * SECTOR_SIZE))%nat as Hle by (rewrite HDB; unfold SECTOR_SIZE; lia).
    rewrite (Nat.le_add_sub _ _ Hle).
    rewrite nset_app. rewrite (nset_false _ (0 + Z.of_nat (Z.to_nat DATA_BLOCKS))).
    + rewrite Z.add_0_r. apply nset_ext. intros j Hj. cbn [below].
      rewrite (proj2 (Z.ltb_lt _ _)) by lia. apply andb_true_r.
    + intros j Hj. cbn [below]. rewrite (proj2 (Z.ltb_ge _ _)) by lia. apply andb_false_r.
  - change (count_used (vw s IMAP_SECTOR) 0) with (count_used (vw s IMAP_SECTOR) (Z.of_nat (@length Z []))).
    rewrite count_used_spec. simpl app. rewrite (vw_length s IMAP_SECTOR Hok).
    apply nset_ext. intros j Hj. cbn [below]. apply andb_true_r.
Qed.


End File.
