(* ===== verification/FsWitness.v ===== *)
(** * The file system on a concrete disk

    A file system made by [do_mkfs] on an empty disk behind a cache of two
    buffers, the theorems of [FsDir] and [FsFile] at that state, and the
    behaviours of fs.c that lose data. *)
From Stdlib Require String.
From S2P Require Import Prelude CString BCache FsLayout Fs FsFacts FsDir FsFile.
Import String.StringSyntax.
Delimit Scope string_scope with string.

(** ** Decidable forms of the hypotheses *)

#[global] Instance inode_wf_dec i : Decision (inode_wf i).
Proof. unfold inode_wf, u32_range_list. apply _. Defined.
#[global] Instance is_bytes_dec l : Decision (is_bytes l).
Proof. unfold is_bytes. apply _. Defined.
#[global] Instance component_dec c : Decision (component c).
Proof. unfold component. apply _. Defined.
#[global] Instance in_range_dec a n : Decision (in_range a n).
Proof. unfold in_range. apply _. Defined.

Lemma by_seq (P : nat -> Prop) n : Forall P (seq 0 n) -> forall j, (j < n)%nat -> P j.
Proof. intros H j Hj. eapply Forall_forall in H; [exact H|]. apply elem_of_seq. lia. Qed.

(** ** The sample disk *)

Abbreviation fs_state := (@fsst (@cache (gmap Z (list Z)))).
Definition fs_clock (n : nat) : Z := 1000 + Z.of_nat n.

Definition blank : fs_state :=
  mkFs (small_cache BWRITE_BACK ∅) (replicate 16 (mkFdesc 0 0 0 0 0))
    (mkBuffers (replicate 512 0) (replicate 512 0) (replicate (32 * 512) 0) (replicate 512 0)
       (replicate 4096 0) (replicate 4096 0) (replicate 4096 0))
    (mkInode 0 0 0 0 0 0 0 0 (replicate 10 0)) 0 0 0 [].

(** The state [m] ends in, with the cache written back and emptied. *)
Definition settled {A} (m : M fs_state A) (s : fs_state) : fs_state :=
  match m s with
  | Ok (_, s1) =>
    match bflush (store s1) with
    | Ok (_, c) => with_store (small_cache BWRITE_BACK (disk c)) s1
    | Err _ => s
    end
  | Err _ => s
  end.

Definition sample_fs : fs_state := settled (init_fs fs_clock) blank.
(** After [touch x] and [open x]. *)
Definition sample_open : fs_state :=
  settled (do_touch fs_clock (cstr "x"%string);; do_open (cstr "x"%string) O_RDWR) sample_fs.

Definition lengths_ok (s : fs_state) : Prop :=
  Forall (fun b => length (getb b (mem s)) = buf_size b) [SUPER; IMAP; BMAP; IBUF; DBUF; RBUF; WBUF].

Lemma settled_ok {A} (m : M fs_state A) s :
  s_ok (store s) -> lengths_ok (settled m s) -> fs_ok (settled m s).
Proof.
  intros Hs Hl. split.
  - unfold settled in *. destruct (m s) as [[a s1]|]; [|done].
    destruct (bflush (store s1)) as [[u c]|]; [|done]. apply small_cache_ok.
  - intros b. unfold lengths_ok in Hl. rewrite Forall_forall in Hl. apply Hl. by destruct b; by_computation.
Qed.

Lemma sample_fs_ok : fs_ok sample_fs.
Proof. apply settled_ok; [apply small_cache_ok|]. unfold lengths_ok. by_computation. Qed.
Lemma sample_open_ok : fs_ok sample_open.
Proof. apply settled_ok; [apply sample_fs_ok|]. unfold lengths_ok. by_computation. Qed.

Lemma sample_wd_ok : wd_ok sample_fs (block_sector 0).
Proof.
  split; [apply sample_fs_ok | by_computation .. | exists 0; by_computation |].
  intros j Hj. revert j Hj. apply by_seq. unfold terminated. by_computation.
Qed.

(** ** Witnesses *)

Lemma parse_path_splits_witness :
  exists d1 d2 d3, parse_path (cstr "proc/sys/vm"%string) new_dir new_dir new_dir = Ok (d1, d2, d3) /\
    c_str d1 = codes "proc"%string /\ c_str d2 = codes "sys"%string /\ c_str d3 = codes "vm"%string.
Proof.
  apply (parse_path_splits [codes "proc"%string; codes "sys"%string; codes "vm"%string] []);
    [done | by_computation | by_computation].
Defined.

(** The directories on a path, as a computation. *)
Fixpoint path_okb (s : fs_state) (i : inode_t) (cs : list (list Z)) : bool :=
  match cs with
  | [] => true
  | c :: cs' =>
    match i_blocks i !! 0%nat with
    | None => false
    | Some blk =>
      let m := dir_view s blk in
      bool_decide (in_range blk 8 /\ Forall (fun j => terminated (slice (32 * j) 27 m)) (seq 0 DENTRIES)) &&
      match lookup_name m c with
      | None => true
      | Some j => path_okb s (disk_inode s (entry_ino m j)) cs'
      end
    end
  end.
Lemma path_okb_sound s i cs : path_okb s i cs = true -> path_ok s i cs.
Proof.
  revert i; induction cs as [|c cs IH]; intros i; [done|]. cbn [path_okb path_ok].
  destruct (i_blocks i !! 0%nat) as [blk|]; [|done]. cbv zeta. rewrite andb_true_iff.
  intros [[Hr Hf]%bool_decide_eq_true Hm]. exists blk. split; [done|].
  split; [split; [done|]; intros j Hj; revert j Hj; by apply by_seq|].
  destruct (lookup_name _ _); [|done]. by apply IH.
Qed.

Definition vm_path : list (list Z) := [codes "proc"%string; codes "sys"%string; codes "vm"%string].
Lemma vm_path_good : good_path (cstr "proc/sys/vm"%string) vm_path.
Proof. split; [by exists []|]. split; [simpl; lia|]. by_computation. Qed.
Lemma vm_path_ok : path_ok sample_fs (wd_inode sample_fs) vm_path.
Proof. apply path_okb_sound. vm_compute. reflexivity. Qed.

Lemma vm_path_no_stale : no_stale sample_fs vm_path.
Proof.
  assert (Forall (fun c => Forall (fun j => entry_name (getb DBUF (mem sample_fs)) j <> c)
    (seq SECTOR_DENTRIES (DENTRIES - SECTOR_DENTRIES))) vm_path) as H by by_computation.
  eapply Forall_impl; [exact H|]. intros c Hc j Hj. rewrite Forall_forall in Hc. apply Hc.
  apply elem_of_seq. unfold SECTOR_DENTRIES, DENTRIES in *. lia.
Qed.

Lemma find_inode_resolves_witness :
  exists r s', find_inode (cstr "proc/sys/vm"%string) PWd sample_fs = Ok (r, s') /\
    (forall x, vw s' x = vw sample_fs x) /\ finds (disk_resolve sample_fs (wd_inode sample_fs) vm_path) r s'.
Proof.
  destruct (find_inode_resolves sample_fs (cstr "proc/sys/vm"%string) vm_path PWd (wd_inode sample_fs))
    as (r & s' & E & _ & Hv & _ & Hf);
    [apply sample_fs_ok | apply vm_path_good | done | apply vm_path_ok |].
  exists r, s'. split; [exact E|]. split; [exact Hv|]. exact (Hf vm_path_no_stale).
Defined.

Lemma new_name : file_name (cstr "x"%string) (codes "x"%string).
Proof. exists []. split; [done|]. by_computation. Qed.
Lemma new_name_absent : absent (dir_view sample_fs (block_sector 0)) (codes "x"%string).
Proof. intros j Hj. revert j Hj. apply by_seq. by_computation. Qed.

Lemma touch_creates_witness :
  exists k s', do_touch fs_clock (cstr "x"%string) sample_fs = Ok (0, s') /\ wd_ok s' (block_sector 0) /\
    bit (vw sample_fs IMAP_SECTOR) k = false /\ bit (vw s' IMAP_SECTOR) k = true /\
    resolve s' (wd_inode s') [codes "x"%string] =
      Some (fresh_inode k IT_FILE 0 (u64 (fs_clock (fticks sample_fs))) 0) /\
    (forall nm', nm' <> codes "x"%string -> nm' <> [] ->
       lookup_ino (dir_view s' (block_sector 0)) nm' = lookup_ino (dir_view sample_fs (block_sector 0)) nm') /\
    (forall k', 0 <= k' < 4096 -> k' <> k -> k' <> i_ino (wd_inode sample_fs) ->
       disk_inode s' k' = disk_inode sample_fs k').
Proof.
  apply (touch_creates fs_clock sample_fs); [apply sample_wd_ok | apply new_name | apply new_name_absent | |].
  - exists 4. by_computation.
  - exists 3%nat. unfold unused_slot. by_computation.
Defined.

Lemma sample_blocks_ok : blocks_ok sample_fs (block_sector 0).
Proof. split; [by_computation|]. exists 0. by_computation. Qed.

Lemma mkdir_cd_witness :
  exists k kb s1 s2, do_mkdir fs_clock (cstr "x"%string) sample_fs = Ok (0, s1) /\
    do_cd (cstr "x"%string) s1 = Ok (0, s2) /\
    bit (vw sample_fs IMAP_SECTOR) k = false /\ bit (block_bits sample_fs) kb = false /\
    wd_inode s2 = fresh_inode k IT_DIR 64 (u64 (fs_clock (fticks sample_fs))) (block_sector kb) /\
    wd_ok s2 (block_sector kb) /\ blocks_ok s2 (block_sector kb) /\
    resolve s2 (wd_inode s2) [codes "."%string] = Some (wd_inode s2) /\
    resolve s2 (wd_inode s2) [codes ".."%string] = Some (wd_inode s1).
Proof.
  apply (mkdir_cd fs_clock sample_fs (block_sector 0) (cstr "x"%string) (codes "x"%string) 3);
    [apply sample_wd_ok | apply sample_blocks_ok | apply new_name | apply new_name_absent | | | lia |].
  - exists 4. by_computation.
  - exists 10. by_computation.
  - unfold unnamed_slot. by_computation.
Defined.

Lemma direct_only_check i :
  (file_blocks i <= 7)%nat /\ length (i_blocks i) = 10%nat /\
  Forall (fun sec => sec = 0 \/
    (0 <= (sec - 802) / 8 < DATA_BLOCKS /\ sec = block_sector ((sec - 802) / 8)))
    (take (file_blocks i) (i_blocks i)) -> direct_only i.
Proof.
  intros (H7 & Hl & Hf). split; [done|]. split; [done|]. intros b sec Hb E.
  rewrite Forall_forall in Hf. destruct (Hf sec) as [?|[? ?]]; [|by left|right; by eexists].
  apply list_elem_of_lookup_2 with b. by rewrite lookup_take_lt.
Qed.


Lemma block_alloc_free_witness :
  exists r s1, find_free_block sample_fs = Ok (r, s1) /\
    ((r = MINUS1 /\ data_full sample_fs /\ forall x, vw s1 x = vw sample_fs x) \/
     exists k s2, 0 <= k < DATA_BLOCKS /\ r = block_sector k /\
       bit (block_bits sample_fs) k = false /\ (forall j, 0 <= j < k -> bit (block_bits sample_fs) j = true) /\
       bit (block_bits s1) k = true /\
       (forall x, r <= x < r + 8 -> vw s1 x = zero_sector) /\
       (forall x, ~ (BMAP_SECTOR <= x < BMAP_SECTOR + 32) -> ~ (r <= x < r + 8) -> vw s1 x = vw sample_fs x) /\
       free_block r s1 = Ok (tt, s2) /\
       (forall j, 0 <= j -> bit (block_bits s2) j = bit (block_bits sample_fs) j)).
Proof. apply (block_alloc_free sample_fs); [apply sample_fs_ok | apply sample_blocks_ok]. Defined.

Lemma inodes_distinct_witness :
  exists l s', alloc_inodes 3 sample_fs = Ok (l, s') /\ NoDup (filter (fun k => k <> MINUS1) l).
Proof.
  destruct (inodes_distinct 3 sample_fs sample_fs_ok (wd_imap _ _ sample_wd_ok)) as (l & s' & E & H & _).
  exists l, s'. split; [exact E|exact H].
Defined.

(** The descriptor [open x] returned. *)
Definition sample_fd : fdesc_t := mkFdesc O_RDWR 1 4 0 0.
Lemma sample_open_file : open_file sample_open 0 sample_fd 4.
Proof. split; [apply sample_open_ok | vm_compute; reflexivity | by_computation ..]. Qed.

Lemma write_read_witness :
  let data := codes "hello"%string in
  exists s1 s2, do_write fs_clock 0 data 5 sample_open = Ok (5, s1) /\
    5 <= i_size (disk_inode s1 4) /\
    do_read fs_clock 0 (replicate 8 7) 5 s1 = Ok ((5, data ++ [7; 7; 7]), s2).
Proof.
  intros data. apply (write_read fs_clock sample_open 0 sample_fd 4 0 data (replicate 8 7) 5);
    [apply sample_open_file | done | done | done | by_computation | | lia | | ].
  - left. split; [done|]. split; [by_computation|]. intros H. specialize (H 10 ltac:(by_computation)).
    vm_compute in H. discriminate H.
  - simpl; lia.
  - simpl; lia.
Defined.

Lemma open_close_witness :
  exists fd s1 s2, free_fd (fdesc_array sample_fs) fd /\
    do_open (cstr "proc/sys/vm"%string) O_RDWR sample_fs = Ok (Z.of_nat fd, s1) /\
    do_close (Z.of_nat fd) s1 = Ok (0, s2) /\ free_fd (fdesc_array s2) fd.
Proof.
  destruct (resolve sample_fs (wd_inode sample_fs) vm_path) as [i|] eqn:E;
    [|exfalso; vm_compute in E; discriminate E].
  destruct (open_close sample_fs (cstr "proc/sys/vm"%string) vm_path O_RDWR i sample_fs_ok vm_path_good vm_path_ok E)
    as [[Hf _]|(fd & s1 & s2 & H1 & H2 & _ & _ & H3 & H4)].
  - intros Ht. assert (i_type <$> resolve sample_fs (wd_inode sample_fs) vm_path = Some IT_FILE) as Hty by by_computation.
    rewrite E in Hty. simpl in Hty. rewrite Ht in Hty. discriminate Hty.
  - exfalso. assert (~ fds_full (fdesc_array sample_fs)) as Hn by (unfold fds_full; by_computation). exact (Hn Hf).
  - exists fd, s1, s2. split; [exact H1|]. split; [exact H2|]. split; [exact H3|exact H4].
Defined.

Lemma lseek_positions_witness :
  exists s', do_lseek 0 7 SEEK_SET sample_open = Ok (0, s') /\
    fdesc_array s' !! 0%nat = Some (mkFdesc O_RDWR 1 4 7 7).
Proof.
  destruct (lseek_positions sample_open 0 sample_fd 4 7 SEEK_SET sample_open_file) as (s' & E & _ & Hd & _).
  exists s'. split; [exact E|exact Hd].
Defined.

Lemma statfs_counts_witness :
  exists s', do_statfs sample_fs = Ok ((0, nset (bit (block_bits sample_fs)) 0 (Z.to_nat DATA_BLOCKS),
      nset (bit (vw sample_fs IMAP_SECTOR)) 0 4096), s') /\
    fs_ok s' /\ forall x, vw s' x = vw sample_fs x.
Proof. apply (statfs_counts sample_fs); [apply sample_fs_ok | vm_compute; reflexivity]. Defined.

(** ** Behaviours that lose data *)

(** The root directory with [proc] (inode 1) and the directories [a] to [f]
    (inodes 4 to 9); inodes 8 and up lie in the next sector. *)
Definition six_dirs : fs_state :=
  settled (do_mkdir fs_clock (cstr "a"%string);; do_mkdir fs_clock (cstr "b"%string);;
           do_mkdir fs_clock (cstr "c"%string);; do_mkdir fs_clock (cstr "d"%string);;
           do_mkdir fs_clock (cstr "e"%string);; do_mkdir fs_clock (cstr "f"%string)) sample_fs.

(** On the root directory with proc and six more directories, do_rmdir of f reports
    success but leaves f in place and removes proc and its inode: the pointer it keeps into
    inode_buffer shows another inode once the sector of the working directory was loaded. *)
Theorem rmdir_removes_another :
  let m := dir_view six_dirs (block_sector 0) in
  lookup_ino m (codes "f"%string) = Some 9 /\ lookup_ino m (codes "proc"%string) = Some 1 /\
  match do_rmdir fs_clock 8 (cstr "f"%string) six_dirs with
  | Ok (r, s') =>
    let m' := dir_view s' (block_sector 0) in
    r = 0 /\ lookup_ino m' (codes "f"%string) = Some 9 /\ lookup_ino m' (codes "proc"%string) = None /\
    bit (vw s' IMAP_SECTOR) 9 = true /\ bit (vw s' IMAP_SECTOR) 1 = false
  | Err _ => False
  end.
Proof. vm_compute. repeat split. Qed.

(** A write of 600 bytes and the read of them: the bytes after the first sector
    are not the ones written. *)
Theorem long_write_lost :
  match (do_write fs_clock 0 (replicate 600 5) 600;; do_read fs_clock 0 (replicate 600 7) 600) sample_open with
  | Ok ((n, out), _) => n = 600 /\ take 512 out = replicate 512 5 /\ drop 512 out = replicate 88 0
  | Err _ => False
  end.
Proof. vm_compute. repeat split. Qed.
