(* ===== verification/PageTable.v ===== *)
(** * Sv39 page tables (arch/riscv/include/pgtable.h, kernel/mm/mm.c)

    Page table entries, the three-level walk and what storing one entry does to
    the translation of every address. *)
From S2P Require Import Prelude.

(** ** Constants *)

Definition NORMAL_PAGE_SHIFT : Z := 12.
Definition PPN_BITS : Z := 9.
Definition NUM_PTE_ENTRY : nat := 512.
Definition PAGE_SIZE : Z := 4096.
Definition VA_MASK : Z := 2 ^ 39 - 1.
Definition PGDIR_VA : Z := 0xffffffc051000000.
Definition KVA_BASE : Z := 0xffffffc000000000.
Definition PAGE_PFN_SHIFT : Z := 10.
Definition PFN_MASK : Z := 2 ^ 44 - 1.
Definition PAGE_PRESENT : Z := 1.
Definition PAGE_READ : Z := 2.
Definition PAGE_WRITE : Z := 4.
Definition PAGE_EXEC : Z := 8.
Definition PAGE_USER : Z := 16.
Definition PAGE_ACCESSED : Z := 64.
Definition PAGE_DIRTY : Z := 128.
(** The attributes of a user page. *)
Definition USER_ATTR : Z := 1 + 2 + 4 + 8 + 16 + 128.

(** ** Entries and addresses *)

Definition kva2pa (kva : Z) : Z := u64 (kva - KVA_BASE).
Definition pa2kva (pa : Z) : Z := u64 (pa + KVA_BASE).

Definition get_pfn (entry : Z) : Z := Z.land (Z.shiftr entry PAGE_PFN_SHIFT) PFN_MASK.
Definition get_pa (entry : Z) : Z := u64 (Z.shiftl (get_pfn entry) NORMAL_PAGE_SHIFT).
Definition set_pfn (entry pfn : Z) : Z :=
  Z.lor (Z.land entry (Z.lnot (Z.shiftl PFN_MASK PAGE_PFN_SHIFT))) (u64 (Z.shiftl pfn PAGE_PFN_SHIFT)).
Definition get_attribute (entry mask : Z) : Z := Z.land entry mask.
Definition set_attribute (entry bits : Z) : Z := Z.lor entry bits.
Definition clear_attribute (entry bits : Z) : Z := Z.land entry (Z.lnot bits).

(** The indices [alloc_page_helper], [uva2pte] and the others compute. *)
Definition vpn2 (va : Z) : Z :=
  Z.shiftr (Z.land va VA_MASK) (NORMAL_PAGE_SHIFT + PPN_BITS + PPN_BITS).
Definition vpn1 (va : Z) : Z :=
  Z.lxor (Z.shiftl (vpn2 va) PPN_BITS) (Z.shiftr (Z.land va VA_MASK) (NORMAL_PAGE_SHIFT + PPN_BITS)).
Definition vpn0 (va : Z) : Z :=
  Z.lxor (Z.lxor (Z.shiftr (Z.land va VA_MASK) NORMAL_PAGE_SHIFT) (Z.shiftl (vpn2 va) (2 * PPN_BITS)))
    (Z.shiftl (vpn1 va) PPN_BITS).

(** ** Memory: 64-bit words by address *)

Abbreviation words := (gmap Z Z).
Definition ld64 (m : words) (a : Z) : Z := default 0 (m !! a).
Definition st64 (m : words) (a v : Z) : words := <[a := v]> m.
(** [&table[i]] *)
Definition slot (table i : Z) : Z := table + 8 * i.

Fixpoint clear_words (n : nat) (a : Z) (m : words) : words :=
  match n with
  | O => m
  | S n' => clear_words n' (a + 8) (st64 m a 0)
  end.
Definition clear_pgdir (pgdir_addr : Z) (m : words) : words := clear_words NUM_PTE_ENTRY pgdir_addr m.

(** [PTE *uva2pte(uva, pgdir)]; [None] is NULL. *)
Definition uva2pte (m : words) (uva pgdir : Z) : option Z :=
  let e3 := ld64 m (slot pgdir (vpn2 uva)) in
  if e3 =? 0 then None else
  let lv2_pgdir := pa2kva (get_pa e3) in
  let e2 := ld64 m (slot lv2_pgdir (vpn1 uva)) in
  if e2 =? 0 then None else
  let lv1_pgdir := pa2kva (get_pa e2) in
  Some (slot lv1_pgdir (vpn0 uva)).

(** ** Bits *)

Lemma lxor_low a b k : 0 <= k -> 0 <= b < 2 ^ k -> Z.lxor (Z.shiftl a k) (a * 2 ^ k + b) = b.
Proof.
  intros Hk Hb. rewrite Z.shiftl_mul_pow2 by done.
  rewrite Z.add_nocarry_lxor.
  - by rewrite <- Z.lxor_assoc, Z.lxor_nilpotent, Z.lxor_0_l.
  - apply Z.bits_inj'. intros n Hn. rewrite Z.land_spec, Z.bits_0.
    destruct (decide (n < k)); [by rewrite Z.mul_pow2_bits_low by lia|].
    rewrite (Z.testbit_eqb b) by done. rewrite Z.div_small; [by rewrite andb_false_r|].
    split; [lia|]. eapply Z.lt_le_trans; [apply Hb|]. apply Z.pow_le_mono_r; lia.
Qed.

Section Indices.
Variable va : Z.
Let x := Z.land va VA_MASK.

Lemma masked_range : 0 <= x < 2 ^ 39.
Proof. unfold x. change VA_MASK with (Z.ones 39). rewrite Z.land_ones by lia. by apply Z.mod_pos_bound. Qed.

Lemma vpn2_spec : vpn2 va = x / 2 ^ 30.
Proof. unfold vpn2. fold x. by rewrite Z.shiftr_div_pow2. Qed.
Lemma vpn1_spec : vpn1 va = x / 2 ^ 21 mod 512.
Proof.
  unfold vpn1. fold x. rewrite vpn2_spec, Z.shiftr_div_pow2 by done.
  change (NORMAL_PAGE_SHIFT + PPN_BITS) with 21. change PPN_BITS with 9.
  rewrite (Z.div_mod (x / 2 ^ 21) 512) at 1 by lia. rewrite Z.div_div by lia.
  change (2 ^ 21 * 512) with (2 ^ 30). change 512 with (2 ^ 9) at 1. rewrite (Z.mul_comm (2 ^ 9)).
  apply lxor_low; [done|]. by apply Z.mod_pos_bound.
Qed.
Lemma vpn0_spec : vpn0 va = x / 2 ^ 12 mod 512.
Proof.
  unfold vpn0. fold x. rewrite vpn1_spec, vpn2_spec, Z.shiftr_div_pow2 by done.
  change NORMAL_PAGE_SHIFT with 12. change (2 * PPN_BITS) with 18. change PPN_BITS with 9.
  rewrite (Z.lxor_comm (x / 2 ^ 12)). rewrite Z.lxor_assoc.
  set (a := x / 2 ^ 30). set (b := x / 2 ^ 21 mod 512). set (c := x / 2 ^ 12 mod 512).
  pose proof (Z.mod_pos_bound (x / 2 ^ 21) 512 ltac:(lia)) as Hb. fold b in Hb.
  pose proof (Z.mod_pos_bound (x / 2 ^ 12) 512 ltac:(lia)) as Hc. fold c in Hc.
  assert (x / 2 ^ 12 = a * 2 ^ 18 + (b * 2 ^ 9 + c)) as ->.
  { pose proof (Z.div_mod (x / 2 ^ 12) 512 ltac:(lia)) as E1. rewrite Z.div_div in E1 by lia.
    change (2 ^ 12 * 512) with (2 ^ 21) in E1.
    pose proof (Z.div_mod (x / 2 ^ 21) 512 ltac:(lia)) as E2. rewrite Z.div_div in E2 by lia.
    change (2 ^ 21 * 512) with (2 ^ 30) in E2. fold a in E2. fold b in E2. fold c in E1. lia. }
  rewrite <- Z.lxor_assoc. rewrite lxor_low by lia. rewrite Z.lxor_comm. by apply lxor_low.
Qed.

Lemma vpn_ranges : 0 <= vpn2 va < 512 /\ 0 <= vpn1 va < 512 /\ 0 <= vpn0 va < 512.
Proof.
  rewrite vpn2_spec, vpn1_spec, vpn0_spec. pose proof masked_range.
  split; [|split; by apply Z.mod_pos_bound]. split; [apply Z.div_pos; lia|apply Z.div_lt_upper_bound; lia].
Qed.

(** The indices say which page the address is on. *)
Lemma vpn_page : x / PAGE_SIZE = vpn2 va * 2 ^ 18 + vpn1 va * 2 ^ 9 + vpn0 va.
Proof.
  rewrite vpn2_spec, vpn1_spec, vpn0_spec. unfold PAGE_SIZE. change 4096 with (2 ^ 12).
  pose proof (Z.div_mod (x / 2 ^ 12) 512 ltac:(lia)) as E1. rewrite Z.div_div in E1 by lia.
  pose proof (Z.div_mod (x / 2 ^ 21) 512 ltac:(lia)) as E2. rewrite Z.div_div in E2 by lia.
  change (2 ^ 12 * 512) with (2 ^ 21) in E1. change (2 ^ 21 * 512) with (2 ^ 30) in E2. lia.
Qed.
End Indices.

(** ** The fields of an entry *)

Lemma bits_above b k n : 0 <= b < 2 ^ k -> 0 <= k <= n -> Z.testbit b n = false.
Proof.
  intros Hb Hn. rewrite Z.testbit_eqb by lia. rewrite Z.div_small; [done|].
  split; [lia|]. eapply Z.lt_le_trans; [apply Hb|]. apply Z.pow_le_mono_r; lia.
Qed.
Lemma mask_bit k n : 0 <= k -> 0 <= n -> Z.testbit (2 ^ k - 1) n = bool_decide (n < k).
Proof.
  intros Hk Hn. replace (2 ^ k - 1) with (Z.ones k) by (rewrite Z.ones_equiv; lia).
  case_bool_decide; [apply Z.ones_spec_low; lia | apply Z.ones_spec_high; lia].
Qed.

Lemma get_pfn_bit e n : 0 <= n -> Z.testbit (get_pfn e) n = Z.testbit e (n + 10) && bool_decide (n < 44).
Proof.
  intros Hn. unfold get_pfn. rewrite Z.land_spec, Z.shiftr_spec by done. unfold PFN_MASK.
  by rewrite mask_bit by lia.
Qed.

(** The frame number is in bits 10 to 53 of the new entry, the rest is kept. *)
Lemma set_pfn_bit e p n :
  0 <= p < 2 ^ 44 -> 0 <= n ->
  Z.testbit (set_pfn e p) n =
  if decide (10 <= n < 54) then Z.testbit p (n - 10) else Z.testbit e n.
Proof.
  intros Hp Hn. unfold set_pfn. rewrite Z.lor_spec, Z.land_spec, Z.lnot_spec by done.
  change PAGE_PFN_SHIFT with 10. rewrite Z.shiftl_spec by done.
  assert (u64 (Z.shiftl p 10) = Z.shiftl p 10) as ->.
  { apply u64_small. rewrite Z.shiftl_mul_pow2 by lia. lia. }
  rewrite Z.shiftl_spec by done.
  destruct (decide (10 <= n)).
  - unfold PFN_MASK. rewrite mask_bit by lia. case_decide as Hd.
    + rewrite bool_decide_true by lia. simpl. rewrite andb_false_r. done.
    + rewrite bool_decide_false by lia. simpl. rewrite andb_true_r.
      rewrite (bits_above p 44) by lia. apply orb_false_r.
  - rewrite decide_False by lia. rewrite !(Z.testbit_neg_r _ (n - 10)) by lia. simpl.
    by rewrite andb_true_r, orb_false_r.
Qed.

Lemma get_set_pfn e p : 0 <= p < 2 ^ 44 -> get_pfn (set_pfn e p) = p.
Proof.
  intros Hp. apply Z.bits_inj'. intros n Hn. rewrite get_pfn_bit, set_pfn_bit by (done || lia).
  destruct (decide (n < 44)).
  - rewrite decide_True, bool_decide_true by lia. rewrite andb_true_r. f_equal. lia.
  - rewrite bool_decide_false, andb_false_r by done. symmetry. apply (bits_above p 44); lia.
Qed.

Lemma get_pfn_set_attr e b : 0 <= b < 2 ^ 10 -> get_pfn (set_attribute e b) = get_pfn e.
Proof.
  intros Hb. apply Z.bits_inj'. intros n Hn. rewrite !get_pfn_bit by done. unfold set_attribute.
  rewrite Z.lor_spec, (bits_above b 10) by lia. by rewrite orb_false_r.
Qed.
Lemma get_pfn_clear_attr e b : 0 <= b < 2 ^ 10 -> get_pfn (clear_attribute e b) = get_pfn e.
Proof.
  intros Hb. apply Z.bits_inj'. intros n Hn. rewrite !get_pfn_bit by done. unfold clear_attribute.
  rewrite Z.land_spec, Z.lnot_spec, (bits_above b 10) by lia. by rewrite andb_true_r.
Qed.
Lemma attr_set_pfn e p mask :
  0 <= p < 2 ^ 44 -> 0 <= mask < 2 ^ 10 -> get_attribute (set_pfn e p) mask = get_attribute e mask.
Proof.
  intros Hp Hm. apply Z.bits_inj'. intros n Hn. unfold get_attribute. rewrite !Z.land_spec.
  destruct (decide (n < 10)).
  - rewrite set_pfn_bit by done. by rewrite decide_False by lia.
  - by rewrite (bits_above mask 10), !andb_false_r by lia.
Qed.
Lemma attr_set_attr e b mask :
  get_attribute (set_attribute e b) mask = Z.lor (get_attribute e mask) (Z.land b mask).
Proof. apply Z.land_lor_distr_l. Qed.
Lemma attr_clear_attr e b mask :
  get_attribute (clear_attribute e b) mask = Z.land (get_attribute e mask) (Z.lnot b).
Proof. unfold get_attribute, clear_attribute. by rewrite <- !Z.land_assoc, (Z.land_comm mask). Qed.

(** ** Entries that point to a page *)

(** A page the kernel reaches through its linear mapping. *)
Definition kpage (kva : Z) : Prop :=
  kva mod PAGE_SIZE = 0 /\ KVA_BASE <= kva < KVA_BASE + 2 ^ 38.

(** [set_pfn(&e, kva2pa(kva) >> NORMAL_PAGE_SHIFT); set_attribute(&e, bits)] *)
Definition point_to (e kva bits : Z) : Z :=
  set_attribute (set_pfn e (Z.shiftr (kva2pa kva) NORMAL_PAGE_SHIFT)) bits.

Lemma kva2pa_kpage kva : kpage kva -> kva2pa kva = kva - KVA_BASE.
Proof. intros [_ Hr]. unfold kva2pa. apply u64_small. lia. Qed.

Lemma kpage_pfn kva :
  kpage kva ->
  let p := Z.shiftr (kva2pa kva) NORMAL_PAGE_SHIFT in 0 <= p < 2 ^ 26 /\ kva = KVA_BASE + p * 4096.
Proof.
  intros Hk. rewrite kva2pa_kpage by done. destruct Hk as [Ha Hr].
  rewrite Z.shiftr_div_pow2 by done. change (2 ^ NORMAL_PAGE_SHIFT) with 4096. cbv zeta.
  assert ((kva - KVA_BASE) mod 4096 = 0) as Hz.
  { rewrite Zminus_mod. unfold PAGE_SIZE in Ha. rewrite Ha. done. }
  pose proof (Z.div_mod (kva - KVA_BASE) 4096 ltac:(lia)). split; [|lia].
  split; [apply Z.div_pos; lia|apply Z.div_lt_upper_bound; lia].
Qed.

(** The walk follows the entry to the page. *)
Lemma point_to_page e kva bits :
  kpage kva -> 0 <= bits < 2 ^ 10 -> pa2kva (get_pa (point_to e kva bits)) = kva.
Proof.
  intros Hk Hb. destruct (kpage_pfn kva Hk) as [Hp Hv]. set (p := Z.shiftr (kva2pa kva) NORMAL_PAGE_SHIFT) in *.
  unfold point_to. fold p. unfold get_pa. rewrite get_pfn_set_attr, get_set_pfn by lia.
  rewrite Z.shiftl_mul_pow2 by done. change (2 ^ NORMAL_PAGE_SHIFT) with 4096.
  rewrite u64_small by lia. unfold pa2kva. rewrite u64_small by (unfold KVA_BASE; lia). lia.
Qed.

Lemma point_to_attr e kva bits mask :
  kpage kva -> 0 <= mask < 2 ^ 10 ->
  get_attribute (point_to e kva bits) mask = Z.lor (get_attribute e mask) (Z.land bits mask).
Proof.
  intros Hk Hm. destruct (kpage_pfn kva Hk) as [Hp _]. unfold point_to.
  by rewrite attr_set_attr, attr_set_pfn by lia.
Qed.

Lemma point_to_nonzero e kva bits : Z.testbit bits 0 = true -> point_to e kva bits <> 0.
Proof.
  intros Hb E. assert (Z.testbit (point_to e kva bits) 0 = true) as H.
  { unfold point_to, set_attribute. rewrite Z.lor_spec, Hb. apply orb_true_r. }
  by rewrite E, Z.bits_0 in H.
Qed.

(** ** Tables *)

Inductive level := Root | Lv2 (i : Z) | Lv1 (i j : Z).

(** [T]: the table pages of a part of an address space, the slots [lo] to [hi] of its
    root, with the place of each in the tree. *)
Record pt_wf_in {lo hi : Z} (m : words) (pgdir : Z) (T : gmap Z level) : Prop := {
  pt_range : 0 <= lo /\ hi <= 512;
  pt_root : T !! pgdir = Some Root;
  pt_pages : forall p l, T !! p = Some l -> kpage p;
  pt_lv3 : forall i, lo <= i < hi -> let e := ld64 m (slot pgdir i) in
    e = 0 \/ T !! pa2kva (get_pa e) = Some (Lv2 i);
  pt_lv2 : forall p i j, T !! p = Some (Lv2 i) -> 0 <= j < 512 -> let e := ld64 m (slot p j) in
    e = 0 \/ T !! pa2kva (get_pa e) = Some (Lv1 i j) }.

Arguments pt_wf_in : clear implicits.
(** The user half. *)
Abbreviation pt_wf := (pt_wf_in 0 256).

(** Slots of different pages, and different slots of a page, are different words. *)
Lemma slot_inj p q i j :
  kpage p -> kpage q -> 0 <= i < 512 -> 0 <= j < 512 -> slot p i = slot q j -> p = q /\ i = j.
Proof.
  intros Hp Hq Hi Hj E. destruct (kpage_pfn p Hp) as [_ Ep], (kpage_pfn q Hq) as [_ Eq].
  unfold slot in E. lia.
Qed.

Lemma ld_st_eq m a v : ld64 (st64 m a v) a = v.
Proof. unfold ld64, st64. by rewrite lookup_insert_eq. Qed.
Lemma ld_st_ne m a b v : a <> b -> ld64 (st64 m a v) b = ld64 m b.
Proof. intros. unfold ld64, st64. by rewrite lookup_insert_ne. Qed.

(** The [n] words from [a] on. *)
Definition in_words (n : nat) (a b : Z) : Prop := a <= b < a + 8 * Z.of_nat n /\ (b - a) mod 8 = 0.
#[global] Instance in_words_dec n a b : Decision (in_words n a b).
Proof. unfold in_words. apply _. Defined.

Lemma in_words_slot a i : 0 <= i < 512 -> in_words NUM_PTE_ENTRY a (slot a i).
Proof.
  intros Hi. unfold in_words, slot, NUM_PTE_ENTRY. split; [lia|].
  replace (a + 8 * i - a) with (i * 8) by lia. apply Z.mod_mul. lia.
Qed.
Lemma in_words_inv a b : in_words NUM_PTE_ENTRY a b -> exists i, 0 <= i < 512 /\ b = slot a i.
Proof.
  unfold in_words, slot, NUM_PTE_ENTRY. intros [Hr Hm]. exists ((b - a) / 8).
  pose proof (Z.div_mod (b - a) 8 ltac:(lia)). lia.
Qed.

Lemma clear_words_ld n a m b :
  ld64 (clear_words n a m) b = if decide (in_words n a b) then 0 else ld64 m b.
Proof.
  revert a m; induction n as [|n IH]; intros a m; cbn [clear_words].
  { rewrite decide_False by (unfold in_words; lia). done. }
  rewrite IH. destruct (decide (b = a)) as [->|Hne].
  - rewrite (decide_True (P := in_words (S n) a a)) by (unfold in_words; rewrite Z.sub_diag; split; [lia|done]).
    case_decide; [done|]. apply ld_st_eq.
  - rewrite ld_st_ne by done. apply decide_ext. unfold in_words.
    replace (b - a) with ((b - (a + 8)) + 1 * 8) by lia. rewrite Z.mod_add by lia.
    split; [intros [? ?]; split; [lia|done]|]. intros [Hr Hm]. split; [|done].
    pose proof (Z.div_mod (b - (a + 8)) 8 ltac:(lia)). lia.
Qed.

(** ** The walk *)

(** An address of the part. *)
Definition in_window (lo hi va : Z) : Prop := lo <= vpn2 va < hi.
Abbreviation user_va := (in_window 0 256).

Lemma walk_table {lo hi} m pgdir T va a :
  pt_wf_in lo hi m pgdir T -> in_window lo hi va -> uva2pte m va pgdir = Some a ->
  exists p, T !! p = Some (Lv1 (vpn2 va) (vpn1 va)) /\ a = slot p (vpn0 va).
Proof.
  intros Hwf Hu. destruct (vpn_ranges va) as (H2 & H1 & H0). unfold uva2pte, in_window in *.
  destruct (pt_lv3 _ _ _ Hwf (vpn2 va) ltac:(lia)) as [->|HT2]; [done|].
  destruct (Z.eqb_spec (ld64 m (slot pgdir (vpn2 va))) 0); [done|].
  destruct (pt_lv2 _ _ _ Hwf _ _ (vpn1 va) HT2 H1) as [->|HT1]; [done|].
  case_match; [done|]. intros [= <-]. by eauto.
Qed.

(** Two addresses with the same entry are on the same page. *)
Lemma walk_inj {lo hi} m pgdir T va va' a :
  pt_wf_in lo hi m pgdir T -> in_window lo hi va -> in_window lo hi va' ->
  uva2pte m va pgdir = Some a -> uva2pte m va' pgdir = Some a ->
  Z.land va VA_MASK / PAGE_SIZE = Z.land va' VA_MASK / PAGE_SIZE.
Proof.
  intros Hwf Hu Hu' (p & Hp & ->)%(walk_table _ _ _ _ _ Hwf Hu) (p' & Hp' & E)%(walk_table _ _ _ _ _ Hwf Hu').
  destruct (vpn_ranges va) as (_ & _ & H0), (vpn_ranges va') as (_ & _ & H0').
  apply slot_inj in E as [-> E]; [|by eapply pt_pages|by eapply pt_pages|done|done].
  rewrite !vpn_page. congruence.
Qed.

(** The entry that maps [va]: 0 when there is none. *)
Definition leaf (m : words) (pgdir va : Z) : Z :=
  match uva2pte m va pgdir with Some a => ld64 m a | None => 0 end.

(** [m'] has more tables than [m]; every entry found is found again and every
    address is mapped as it was. *)
Definition pt_ext_in {lo hi : Z} (pgdir : Z) (m : words) (T : gmap Z level) (m' : words) (T' : gmap Z level) : Prop :=
  T ⊆ T' /\ pt_wf_in lo hi m' pgdir T' /\
  (forall va a, in_window lo hi va -> uva2pte m va pgdir = Some a -> uva2pte m' va pgdir = Some a) /\
  (forall va, in_window lo hi va -> leaf m' pgdir va = leaf m pgdir va).

Arguments pt_ext_in : clear implicits.
Abbreviation pt_ext := (pt_ext_in 0 256).

Lemma pt_ext_refl {lo hi} pgdir m T : pt_wf_in lo hi m pgdir T -> pt_ext_in lo hi pgdir m T m T.
Proof. intros H. by split. Qed.
Lemma pt_ext_trans {lo hi} pgdir m1 T1 m2 T2 m3 T3 :
  pt_ext_in lo hi pgdir m1 T1 m2 T2 -> pt_ext_in lo hi pgdir m2 T2 m3 T3 -> pt_ext_in lo hi pgdir m1 T1 m3 T3.
Proof.
  intros (A1 & A2 & A3 & A4) (B1 & B2 & B3 & B4). split; [by etrans|]. split; [done|]. split; [by auto|].
  intros va Hu. by rewrite B4, A4.
Qed.

(** A new, empty table [q] entered at slot [i] of the table [t], which was 0. *)
Definition add_table (m : words) (t i q : Z) : words :=
  clear_pgdir q (st64 m (slot t i) (point_to 0 q PAGE_PRESENT)).

Section AddTable.
Context {lo hi : Z} (m : words) (pgdir : Z) (T : gmap Z level) (t i q : Z) (lt : level).
Hypothesis Hwf : pt_wf_in lo hi m pgdir T.
Hypothesis Ht : T !! t = Some lt.
Hypothesis Hi : 0 <= i < 512.
Hypothesis Hz : ld64 m (slot t i) = 0.
Hypothesis Hq : kpage q.
Hypothesis Hfresh : T !! q = None.

Let m' := add_table m t i q.

Lemma add_table_new j : 0 <= j < 512 -> ld64 m' (slot q j) = 0.
Proof. intros Hj. unfold m', add_table, clear_pgdir. rewrite clear_words_ld, decide_True; [done|by apply in_words_slot]. Qed.

Lemma add_table_old p l j :
  T !! p = Some l -> 0 <= j < 512 ->
  ld64 m' (slot p j) = if decide (p = t /\ j = i) then point_to 0 q PAGE_PRESENT else ld64 m (slot p j).
Proof.
  intros Hp Hj. unfold m', add_table, clear_pgdir. rewrite clear_words_ld, decide_False.
  2:{ intros (k & Hk & E)%in_words_inv. apply slot_inj in E as [-> _]; try done; [congruence|by eapply pt_pages]. }
  case_decide as Hd; [destruct Hd as [-> ->]; apply ld_st_eq|]. apply ld_st_ne. intros E.
  apply slot_inj in E as [-> ->]; [by destruct Hd| | |done|done]; by eapply pt_pages.
Qed.

Lemma add_table_entry : pa2kva (get_pa (point_to 0 q PAGE_PRESENT)) = q.
Proof. by apply point_to_page. Qed.
Lemma add_table_present : point_to 0 q PAGE_PRESENT <> 0.
Proof. by apply point_to_nonzero. Qed.
End AddTable.

Lemma fresh_ext (T : gmap Z level) q l p x : T !! q = None -> T !! p = Some x -> (<[q := l]> T) !! p = Some x.
Proof. intros Hq Hp. rewrite lookup_insert_ne; [done|]. intros ->. congruence. Qed.

(** Adding a second-level table. *)
Lemma add_lv2_ext {lo hi} m pgdir T i q :
  pt_wf_in lo hi m pgdir T -> lo <= i < hi -> ld64 m (slot pgdir i) = 0 -> kpage q -> T !! q = None ->
  pt_ext_in lo hi pgdir m T (add_table m pgdir i q) (<[q := Lv2 i]> T).
Proof.
  intros Hwf Hi Hz Hq Hf. pose proof (pt_root _ _ _ Hwf) as Hroot. pose proof (pt_range _ _ _ Hwf) as Hr.
  pose proof (add_table_old m pgdir T pgdir i q Root Hwf Hroot ltac:(lia) Hz Hq Hf) as Hold.
  pose proof (add_table_new m pgdir i q) as Hnew.
  assert (forall va, in_window lo hi va -> uva2pte (add_table m pgdir i q) va pgdir = uva2pte m va pgdir) as Hwalk.
  { intros va Hu. unfold in_window in Hu. destruct (vpn_ranges va) as (H2 & H1 & H0). unfold uva2pte.
    rewrite (Hold pgdir Root (vpn2 va)) by (done || lia).
    destruct (decide (pgdir = pgdir /\ vpn2 va = i)) as [[_ ->]|Hne].
    - rewrite Hz, add_table_entry, Hnew by done. by rewrite (proj2 (Z.eqb_neq _ _) (add_table_present q)).
    - destruct (pt_lv3 _ _ _ Hwf (vpn2 va) ltac:(lia)) as [->|HT]; [done|].
      rewrite (Hold _ _ (vpn1 va) HT H1), decide_False; [done|]. intros [E _]. rewrite E in HT. congruence. }
  split; [by apply insert_subseteq|]. split; [split|split].
  - done.
  - by apply fresh_ext.
  - intros p l [[<- _]|[_ Hp]]%lookup_insert_Some; [done|by eapply pt_pages].
  - intros k Hk. cbv zeta. rewrite (Hold pgdir Root k) by (done || lia).
    destruct (decide (pgdir = pgdir /\ k = i)) as [[_ ->]|_].
    + right. rewrite add_table_entry by done. apply lookup_insert_eq.
    + destruct (pt_lv3 _ _ _ Hwf k Hk) as [->|HT]; [by left|right; by apply fresh_ext].
  - intros p k j [[<- [= <-]]|[Hne Hp]]%lookup_insert_Some Hj; cbv zeta; [left; by apply Hnew|].
    rewrite (Hold p (Lv2 k) j Hp Hj). rewrite decide_False by (intros [-> _]; congruence).
    destruct (pt_lv2 _ _ _ Hwf p k j Hp Hj) as [->|HT]; [by left|right; by apply fresh_ext].
  - intros va a Hu. by rewrite Hwalk.
  - intros va Hu. unfold leaf. rewrite Hwalk by done. destruct (uva2pte m va pgdir) as [a|] eqn:Ea; [|done].
    destruct (walk_table _ _ _ _ _ Hwf Hu Ea) as (p & Hp & ->). rewrite (Hold _ _ _ Hp) by apply vpn_ranges.
    rewrite decide_False; [done|]. intros [-> _]. congruence.
Qed.

(** Adding a first-level table. *)
Lemma add_lv1_ext {lo hi} m pgdir T t i j q :
  pt_wf_in lo hi m pgdir T -> T !! t = Some (Lv2 i) -> 0 <= j < 512 -> ld64 m (slot t j) = 0 -> kpage q -> T !! q = None ->
  pt_ext_in lo hi pgdir m T (add_table m t j q) (<[q := Lv1 i j]> T).
Proof.
  intros Hwf Ht Hj Hz Hq Hf. pose proof (pt_root _ _ _ Hwf) as Hroot. pose proof (pt_range _ _ _ Hwf) as Hr.
  pose proof (add_table_old m pgdir T t j q _ Hwf Ht Hj Hz Hq Hf) as Hold.
  pose proof (add_table_new m t j q) as Hnew.
  assert (forall va, in_window lo hi va -> uva2pte (add_table m t j q) va pgdir = uva2pte m va pgdir \/
    uva2pte m va pgdir = None /\ uva2pte (add_table m t j q) va pgdir = Some (slot q (vpn0 va)) /\
    ld64 (add_table m t j q) (slot q (vpn0 va)) = 0) as Hwalk.
  { intros va Hu. unfold in_window in Hu. destruct (vpn_ranges va) as (H2 & H1 & H0). unfold uva2pte.
    rewrite (Hold pgdir Root (vpn2 va)) by (done || lia).
    rewrite (decide_False (P := pgdir = t /\ _)) by (intros [-> _]; congruence).
    destruct (pt_lv3 _ _ _ Hwf (vpn2 va) ltac:(lia)) as [->|HT]; [by left|].
    destruct (Z.eqb_spec (ld64 m (slot pgdir (vpn2 va))) 0); [by left|].
    rewrite (Hold _ _ (vpn1 va) HT H1). case_decide as Hd; [|by left]. destruct Hd as [-> ->]. right.
    rewrite Hz, add_table_entry, (proj2 (Z.eqb_neq _ _) (add_table_present q)), Z.eqb_refl by done.
    split; [done|]. split; [done|]. by apply Hnew. }
  split; [by apply insert_subseteq|]. split; [split|split].
  - done.
  - by apply fresh_ext.
  - intros p l [[<- _]|[_ Hp]]%lookup_insert_Some; [done|by eapply pt_pages].
  - intros k Hk. cbv zeta. rewrite (Hold pgdir Root k) by (done || lia).
    rewrite decide_False by (intros [-> _]; congruence).
    destruct (pt_lv3 _ _ _ Hwf k Hk) as [->|HT]; [by left|right; by apply fresh_ext].
  - intros p k n [[<- [=]]|[Hne Hp]]%lookup_insert_Some Hn; cbv zeta.
    rewrite (Hold p (Lv2 k) n Hp Hn). case_decide as Hd.
    + destruct Hd as [-> ->]. rewrite Ht in Hp. injection Hp as ->. right. rewrite add_table_entry by done.
      apply lookup_insert_eq.
    + destruct (pt_lv2 _ _ _ Hwf p k n Hp Hn) as [->|HT]; [by left|right; by apply fresh_ext].
  - intros va a Hu Ha. destruct (Hwalk va Hu) as [E|(E & _)]; congruence.
  - intros va Hu. unfold leaf. destruct (Hwalk va Hu) as [E|(E0 & E & H0)].
    + rewrite E. destruct (uva2pte m va pgdir) as [a|] eqn:Ea; [|done].
      destruct (walk_table _ _ _ _ _ Hwf Hu Ea) as (p & Hp & ->). rewrite (Hold _ _ _ Hp) by apply vpn_ranges.
      rewrite decide_False; [done|]. intros [-> _]. congruence.
    + by rewrite E0, E.
Qed.

(** The page an address is on. *)
Definition page_of (va : Z) : Z := Z.land va VA_MASK / PAGE_SIZE.

(** Storing a leaf changes the mapping of one page. *)
Lemma set_leaf_ok {lo hi} m pgdir T va a v :
  pt_wf_in lo hi m pgdir T -> in_window lo hi va -> uva2pte m va pgdir = Some a ->
  let m' := st64 m a v in
  pt_wf_in lo hi m' pgdir T /\ leaf m' pgdir va = v /\
  (forall va', in_window lo hi va' -> uva2pte m' va' pgdir = uva2pte m va' pgdir) /\
  (forall va', in_window lo hi va' -> page_of va' <> page_of va -> leaf m' pgdir va' = leaf m pgdir va').
Proof.
  intros Hwf Hu Ha. destruct (walk_table _ _ _ _ _ Hwf Hu Ha) as (p1 & Hp1 & Ea).
  assert (forall p l k, T !! p = Some l -> p <> p1 -> 0 <= k < 512 ->
            ld64 (st64 m a v) (slot p k) = ld64 m (slot p k)) as Hold.
  { intros p l k Hp Hne Hk. apply ld_st_ne. rewrite Ea. intros E.
    apply slot_inj in E as [-> _]; [done| | |apply vpn_ranges|done]; by eapply pt_pages. }
  pose proof (pt_root _ _ _ Hwf) as Hroot. pose proof (pt_range _ _ _ Hwf) as Hr.
  assert (forall va', in_window lo hi va' -> uva2pte (st64 m a v) va' pgdir = uva2pte m va' pgdir) as Hwalk.
  { intros va' Hu'. unfold in_window in Hu'. destruct (vpn_ranges va') as (H2 & H1 & H0). unfold uva2pte.
    rewrite (Hold pgdir Root) by (done || congruence || lia).
    destruct (pt_lv3 _ _ _ Hwf (vpn2 va') ltac:(lia)) as [->|HT]; [done|].
    by rewrite (Hold _ _ (vpn1 va') HT) by (done || congruence). }
  cbv zeta. split; [split|split; [|split; [done|]]].
  - done.
  - done.
  - apply Hwf.
  - intros i Hi. cbv zeta. rewrite (Hold pgdir Root) by (done || congruence || lia). by apply Hwf.
  - intros p i j Hp Hj. cbv zeta. rewrite (Hold p _ j Hp) by (done || congruence). by apply Hwf.
  - unfold leaf. rewrite Hwalk, Ha by done. apply ld_st_eq.
  - intros va' Hu' Hne. unfold leaf. rewrite Hwalk by done. destruct (uva2pte m va' pgdir) as [a'|] eqn:Ea'; [|done].
    apply ld_st_ne. intros <-. apply Hne. symmetry. by eapply walk_inj.
Qed.

(** ** Properties *)

(** The fields of a page table entry are independent: set_pfn changes the frame number
    only, set_attribute and clear_attribute the attribute bits only. *)
Theorem pte_fields e p b mask :
  0 <= p < 2 ^ 44 -> 0 <= b < 2 ^ 10 -> 0 <= mask < 2 ^ 10 ->
  get_pfn (set_pfn e p) = p /\ get_attribute (set_pfn e p) mask = get_attribute e mask /\
  get_pfn (set_attribute e b) = get_pfn e /\ get_pfn (clear_attribute e b) = get_pfn e /\
  get_attribute (set_attribute e b) mask = Z.lor (get_attribute e mask) (Z.land b mask) /\
  get_attribute (clear_attribute e b) mask = Z.land (get_attribute e mask) (Z.lnot b).
Proof.
  intros Hp Hb Hm. split; [by apply get_set_pfn|]. split; [by apply attr_set_pfn|].
  split; [by apply get_pfn_set_attr|]. split; [by apply get_pfn_clear_attr|].
  split; [apply attr_set_attr|apply attr_clear_attr].
Qed.

Lemma pte_fields_witness :
  get_pfn (set_pfn 255 0x52000) = 0x52000 /\ get_attribute (set_pfn 255 0x52000) 1 = 1.
Proof.
  destruct (pte_fields 255 0x52000 0 1 ltac:(lia) ltac:(lia) ltac:(lia)) as (H1 & H2 & _).
  split; [exact H1|exact H2].
Defined.

(** The shifts and exclusive ors of the walk compute the Sv39 indices: each is below 512
    and together they are the page number. *)
Theorem vpn_indices va :
  0 <= vpn2 va < 512 /\ 0 <= vpn1 va < 512 /\ 0 <= vpn0 va < 512 /\
  vpn2 va * 2 ^ 18 + vpn1 va * 2 ^ 9 + vpn0 va = va mod 2 ^ 39 / 4096.
Proof.
  destruct (vpn_ranges va) as (H2 & H1 & H0). do 3 (split; [done|]). rewrite <- vpn_page.
  change VA_MASK with (Z.ones 39). by rewrite Z.land_ones by lia.
Qed.
