(* ===== verification/Mm.v ===== *)
(** * Memory management (kernel/mm/mm.c, kernel/mm/ioremap.c, include/os/mm.h)

    The page bitmaps, the page nodes and their lists, allocation and mapping of
    pages, swapping, shared pages, protection and the program break.  [do_exit]
    ends the current process; a routine that calls it returns [Exits].  The SD
    card is a parameter, with the laws of a store of pages. *)
From S2P Require Import Prelude DList Sched FsLayout PageTable.

(** ** Constants *)

Definition INIT_KERNEL_STACK : Z := 0xffffffc052000000.
Definition FREE_KERNEL_PAGE_NUM : Z := 0x2000.
Definition USER_MEM_BASE : Z := 0xffffffc054000000.
Definition FREE_USER_PAGE_NUM : Z := 0x9000.
Definition USER_STACK_ADDR : Z := 0xf00010000.
Definition USER_STACK_END : Z := USER_STACK_ADDR - 5 * PAGE_SIZE.
Definition IO_ADDR_START : Z := 0xffffffe000000000.
Definition IO_ADDR_END : Z := 0xffffffe400000000.
Definition SHM_PAGE_NUM : nat := 16.
Definition EXCC_INST_PAGE_FAULT : Z := 12.
Definition EXCC_LOAD_PAGE_FAULT : Z := 13.
Definition EXCC_STORE_PAGE_FAULT : Z := 15.
Definition PAGE_SECTORS : Z := 8.     (* PAGE_SIZE / SECTOR_SIZE *)

Definition NPAGES2BITMAPCH (npages : Z) : nat :=
  Z.to_nat (npages / 8 + (if npages mod 8 =? 0 then 0 else 1)).
Definition NBYTES2PAGE (nbytes : Z) : Z := nbytes / PAGE_SIZE + (if nbytes mod PAGE_SIZE =? 0 then 0 else 1).
(** [x & ~(PAGE_SIZE - 1)] *)
Definition page_base (x : Z) : Z := Z.land x (Z.lnot (PAGE_SIZE - 1)).

(** ** Data *)

Inductive PageNode_status_t := PN_INACTIVE | PN_ACTIVE.
#[global] Instance PageNode_status_eq_dec : EqDecision PageNode_status_t.
Proof. solve_decision. Defined.

(** [PageNode_t], less the links.  [pn_addr] is the union of the kernel address
    and the sector number. *)
Record PageNode_t := mkPN {
  pn_status : PageNode_status_t; pte_entry : option Z; pn_pid : Z; pn_addr : Z; pn_uva : Z }.

(** A [PageNode_t *]: an element of [pn_list] or one of the list heads. *)
Inductive pnref := PN (i : nat) | kernel_page_head | user_page_mem_head | user_page_sd_head.
#[global] Instance pnref_eq_dec : EqDecision pnref.
Proof. solve_decision. Defined.
#[global] Instance pnref_countable : Countable pnref.
Proof.
  refine (inj_countable'
    (fun r => match r with PN i => inl i | kernel_page_head => inr 0%nat
              | user_page_mem_head => inr 1%nat | user_page_sd_head => inr 2%nat end)
    (fun x => match x with inl i => PN i | inr 0%nat => kernel_page_head
              | inr 1%nat => user_page_mem_head | inr _ => user_page_sd_head end) _).
  by intros [].
Defined.

Inductive shm_status_t := SHM_UNUSED | SHM_USING.
#[global] Instance shm_status_eq_dec : EqDecision shm_status_t.
Proof. solve_decision. Defined.
Record shm_page_t := mkShm { shm_key : Z; shm_status : shm_status_t; shm_kva : Z; user_num : Z }.

Inductive prot := PROT_NONE | PROT_READ | PROT_WRITE | PROT_EXEC.
(** The [int] argument of [do_mprotect] as a value of the enumeration. *)
Definition prot_of (v : Z) : option prot :=
  if v =? 0 then Some PROT_NONE else if v =? 1 then Some PROT_READ
  else if v =? 2 then Some PROT_WRITE else if v =? 3 then Some PROT_EXEC else None.

(** Whether a routine returns to its caller or ends the process. *)
Inductive outcome := Returns | Exits.

(** [sd_read] and [sd_write] of one page (eight sectors). *)
Class SwapDevice (D : Type) := {
  sd_page : D -> Z -> list Z;
  sd_put : D -> Z -> list Z -> D;
  sd_page_length d s : length (sd_page d s) = NUM_PTE_ENTRY;
  sd_page_put d s v : length v = NUM_PTE_ENTRY -> sd_page (sd_put d s v) s = v;
  sd_page_put_ne d s s' v : s + 8 <= s' \/ s' + 8 <= s -> sd_page (sd_put d s v) s' = sd_page d s' }.

Section Mm.
Context {D : Type} `{!SwapDevice D}.

Record mmst := mkMm {
  ram : words; user_bitmap : list Z; kernel_bitmap : list Z;
  pn_list : list PageNode_t; pn_links : gmap pnref (@node pnref);
  sd_sector_end : Z; swap : D;
  shm_pages : list shm_page_t; userMemCurr : Z; io_base : Z; cur : pcb_t }.

Definition with_ram v s := mkMm v (user_bitmap s) (kernel_bitmap s) (pn_list s) (pn_links s)
  (sd_sector_end s) (swap s) (shm_pages s) (userMemCurr s) (io_base s) (cur s).
Definition with_ubitmap v s := mkMm (ram s) v (kernel_bitmap s) (pn_list s) (pn_links s)
  (sd_sector_end s) (swap s) (shm_pages s) (userMemCurr s) (io_base s) (cur s).
Definition with_kbitmap v s := mkMm (ram s) (user_bitmap s) v (pn_list s) (pn_links s)
  (sd_sector_end s) (swap s) (shm_pages s) (userMemCurr s) (io_base s) (cur s).
Definition with_pns v s := mkMm (ram s) (user_bitmap s) (kernel_bitmap s) v (pn_links s)
  (sd_sector_end s) (swap s) (shm_pages s) (userMemCurr s) (io_base s) (cur s).
Definition with_links v s := mkMm (ram s) (user_bitmap s) (kernel_bitmap s) (pn_list s) v
  (sd_sector_end s) (swap s) (shm_pages s) (userMemCurr s) (io_base s) (cur s).
Definition with_sd e d s := mkMm (ram s) (user_bitmap s) (kernel_bitmap s) (pn_list s) (pn_links s)
  e d (shm_pages s) (userMemCurr s) (io_base s) (cur s).
Definition with_shm v s := mkMm (ram s) (user_bitmap s) (kernel_bitmap s) (pn_list s) (pn_links s)
  (sd_sector_end s) (swap s) v (userMemCurr s) (io_base s) (cur s).
Definition with_umem v s := mkMm (ram s) (user_bitmap s) (kernel_bitmap s) (pn_list s) (pn_links s)
  (sd_sector_end s) (swap s) (shm_pages s) v (io_base s) (cur s).
Definition with_io v s := mkMm (ram s) (user_bitmap s) (kernel_bitmap s) (pn_list s) (pn_links s)
  (sd_sector_end s) (swap s) (shm_pages s) (userMemCurr s) v (cur s).
Definition with_cur v s := mkMm (ram s) (user_bitmap s) (kernel_bitmap s) (pn_list s) (pn_links s)
  (sd_sector_end s) (swap s) (shm_pages s) (userMemCurr s) (io_base s) v.

Abbreviation K := (M mmst).

(** ** Accesses *)

Definition load (a : Z) : K Z := m ← gets ram; mret (ld64 m a).
Definition store64 (a v : Z) : K unit := modify (fun s => with_ram (st64 (ram s) a v) s).
(** [*pte] and its update, through a pointer that may be NULL. *)
Definition load_pte (p : option Z) : K Z := a ← lift (of_option Fault p); load a.
Definition update_pte (p : option Z) (f : Z -> Z) : K unit :=
  a ← lift (of_option Fault p); e ← load a; store64 a (f e).
Definition walk (uva pgdir : Z) : K (option Z) := m ← gets ram; mret (uva2pte m uva pgdir).

Definition on_links (f : gmap pnref (@node pnref) -> res (gmap pnref (@node pnref))) : K unit :=
  h ← gets pn_links; h' ← lift (f h); modify (with_links h').
Definition get_pn (i : nat) : K PageNode_t := l ← gets pn_list; lift (of_option Fault (l !! i)).
Definition set_pn (i : nat) (f : PageNode_t -> PageNode_t) : K unit :=
  n ← get_pn i; modify (fun s => with_pns (<[i := f n]> (pn_list s)) s).
(** A pointer to a page node; the list heads have no other fields the code reads. *)
Definition node_of (r : option pnref) : K nat :=
  match r with Some (PN i) => mret i | _ => fail Fault end.

Definition set_pn_status (v : PageNode_status_t) (n : PageNode_t) : PageNode_t :=
  mkPN v (pte_entry n) (pn_pid n) (pn_addr n) (pn_uva n).
Definition set_pn_addr (v : Z) (n : PageNode_t) : PageNode_t :=
  mkPN (pn_status n) (pte_entry n) (pn_pid n) v (pn_uva n).

(** ** Bitmaps *)

Definition find_free_pages (bitmap : list Z) (page_num : Z) : Z :=
  match scan_bytes (take (NPAGES2BITMAPCH page_num) bitmap) 0 (Some page_num) with
  | Some k => k
  | None => u64 (-1)
  end.
Definition mark_page_allocated (page_idx : Z) (bitmap : list Z) : res (list Z) :=
  if page_idx / 8 <? Z.of_nat (length bitmap) then Ok (set_bit bitmap page_idx) else Err Fault.
Definition unmark_page_free (page_idx : Z) (bitmap : list Z) : res (list Z) :=
  if page_idx / 8 <? Z.of_nat (length bitmap) then Ok (clear_bit bitmap page_idx) else Err Fault.

(** [nsectors]: the [short] at [nsectors_image_loc]. *)
Definition init_mem_manager (nsectors : Z) : K unit :=
  modify (fun s => with_sd (u64 nsectors) (swap s) s);;
  modify (fun s => with_pns (set_pn_status PN_INACTIVE <$> pn_list s) s);;
  on_links (fun h => init_list_head h kernel_page_head);;
  on_links (fun h => init_list_head h user_page_mem_head);;
  on_links (fun h => init_list_head h user_page_sd_head);;
  modify (fun s => with_kbitmap (alter (fun b => Z.lor b 0x0f) 0%nat (kernel_bitmap s)) s).

(** ** Page nodes *)

Definition kva2pte (kva : Z) : K (option Z) :=
  m ← gets ram; c ← gets cur;
  let e3 := ld64 m (slot (pgdir c) (vpn2 kva)) in
  mret (if e3 =? 0 then None else Some (slot (pa2kva (get_pa e3)) (vpn1 kva))).

Definition get_free_PageNode : K Z :=
  l ← gets pn_list;
  let i := first_index (fun n => bool_decide (pn_status n = PN_INACTIVE)) l 0 in
  mret (if i <? Z.of_nat (length l) then i else -1).

(** [search_list_node(head, uva, pcb)] *)
Definition search_list_node (head : pnref) (uva pid : Z) : K (option pnref) :=
  h ← gets pn_links;
  l ← gets pn_list;
  first ← lift (ld_next h (Some head));
  lift (list_search (size h) h head first (fun r =>
    match r with
    | PN i => match l !! i with
              | Some n => (pn_uva n =? uva) && (pn_pid n =? pid)
              | None => false
              end
    | _ => false
    end)).

Definition create_PageNode (kva uva pgdir : Z) (pcb : pcb_t) : K unit :=
  if uva =? 0 then fail Panic else
  iz ← get_free_PageNode;
  if iz <? 0 then fail Fault else
  let i := Z.to_nat iz in
  set_pn i (fun n => mkPN PN_ACTIVE (pte_entry n) (pid pcb) kva uva);;
  if uva =? kva then
    p ← kva2pte kva;
    set_pn i (fun n => mkPN (pn_status n) p (pn_pid n) (pn_addr n) (pn_uva n));;
    on_links (fun h => insert_list_tail h (PN i) kernel_page_head)
  else
    p ← walk uva pgdir;
    set_pn i (fun n => mkPN (pn_status n) p (pn_pid n) (pn_addr n) (pn_uva n));;
    on_links (fun h => insert_list_tail h (PN i) user_page_mem_head).

(** ** Swapping *)

(** The words of the page at [kva]. *)
Definition page_words (m : words) (kva : Z) : list Z :=
  (fun i => ld64 m (slot kva (Z.of_nat i))) <$> seq 0 NUM_PTE_ENTRY.
Fixpoint put_words (a : Z) (l : list Z) (m : words) : words :=
  match l with
  | [] => m
  | v :: l' => put_words (a + 8) l' (st64 m a v)
  end.

Definition ACC_DIRTY : Z := PAGE_ACCESSED + PAGE_DIRTY.

(** The loop of [swap_page_out]: the first node whose page was not used lately. *)
Fixpoint second_chance (fuel : nat) : K nat :=
  match fuel with
  | O => fail OutOfFuel
  | S fuel' =>
    h ← gets pn_links;
    first ← lift (ld_next h (Some user_page_mem_head));
    i ← node_of first;
    n ← get_pn i;
    e ← load_pte (pte_entry n);
    if negb (get_attribute e ACC_DIRTY =? 0) then
      update_pte (pte_entry n) (fun e => clear_attribute e ACC_DIRTY);;
      on_links (fun h => forward_list_head h user_page_mem_head);;
      second_chance fuel'
    else mret i
  end.

Definition swap_page_out : K Z :=
  h ← gets pn_links;
  first ← lift (ld_next h (Some user_page_mem_head));
  if decide (first = Some user_page_mem_head) then fail Panic else
  i ← second_chance (S (size h));
  on_links (fun h => delete_list_node h (PN i));;
  n ← get_pn i;
  update_pte (pte_entry n) (fun e => clear_attribute e PAGE_PRESENT);;
  let kva := pn_addr n in
  if pn_uva n =? 0 then fail Panic else
  modify (fun s => with_sd (sd_sector_end s)
    (sd_put (swap s) (u32 (sd_sector_end s)) (page_words (ram s) kva)) s);;
  e ← gets sd_sector_end;
  set_pn i (set_pn_addr e);;
  modify (fun s => with_sd (u64 (sd_sector_end s + PAGE_SECTORS)) (swap s) s);;
  on_links (fun h => insert_list_tail h (PN i) user_page_sd_head);;
  mret kva.

(** ** Allocation *)

Definition alloc_kernel_page : K Z :=
  b ← gets kernel_bitmap;
  let page_idx := find_free_pages b FREE_KERNEL_PAGE_NUM in
  if page_idx =? u64 (-1) then swap_page_out else
  b ← lift (mark_page_allocated page_idx b);
  modify (with_kbitmap b);;
  mret (u64 (INIT_KERNEL_STACK + PAGE_SIZE * page_idx)).
Definition alloc_user_page : K Z :=
  b ← gets user_bitmap;
  let page_idx := find_free_pages b FREE_USER_PAGE_NUM in
  if page_idx =? u64 (-1) then swap_page_out else
  b ← lift (mark_page_allocated page_idx b);
  modify (with_ubitmap b);;
  mret (u64 (USER_MEM_BASE + PAGE_SIZE * page_idx)).

(** [if (table[i] == 0) { ... }] and [pa2kva(get_pa(table[i]))]: the table the
    slot points to, a new empty one if it was 0.  [note] is what is done with the
    new page before it is entered. *)
Definition ensure_table (note : Z -> K unit) (table i : Z) : K Z :=
  e ← load (slot table i);
  (if e =? 0 then
     q ← alloc_kernel_page;
     note q;;
     e ← load (slot table i);
     store64 (slot table i) (point_to e q PAGE_PRESENT);;
     modify (fun s => with_ram (clear_pgdir q (ram s)) s)
   else mret tt);;
  e ← load (slot table i);
  mret (pa2kva (get_pa e)).

Definition table_node (pcb : pcb_t) (q : Z) : K unit := create_PageNode q q PGDIR_VA pcb.

Definition alloc_page_helper (va pgdir_ : Z) (pcb : pcb_t) : K Z :=
  let va := Z.land va VA_MASK in
  lv2_pgdir ← ensure_table (table_node pcb) pgdir_ (vpn2 va);
  lv1_pgdir ← ensure_table (table_node pcb) lv2_pgdir (vpn1 va);
  kva ← alloc_user_page;
  create_PageNode kva va (pgdir pcb) pcb;;
  e ← load (slot lv1_pgdir (vpn0 va));
  store64 (slot lv1_pgdir (vpn0 va)) (point_to e kva USER_ATTR);;
  mret kva.

(** The mapping of [va] to the frame of [pa]. *)
Definition umap_page (va pa pgdir_ : Z) (pcb : pcb_t) : K Z :=
  let va := Z.land va VA_MASK in
  lv2_pgdir ← ensure_table (table_node pcb) pgdir_ (vpn2 va);
  lv1_pgdir ← ensure_table (table_node pcb) lv2_pgdir (vpn1 va);
  create_PageNode (pa2kva pa) va (pgdir pcb) pcb;;
  e ← load (slot lv1_pgdir (vpn0 va));
  store64 (slot lv1_pgdir (vpn0 va))
    (set_attribute (set_pfn e (Z.shiftr pa NORMAL_PAGE_SHIFT)) USER_ATTR);;
  mret 1.

(** ** Releasing pages *)

Definition page_idx (kva base : Z) : Z := u64 (kva - base) / PAGE_SIZE.
Definition release_user_page (kva : Z) : K unit :=
  b ← gets user_bitmap; b ← lift (unmark_page_free (page_idx kva USER_MEM_BASE) b); modify (with_ubitmap b).
Definition release_kernel_page (kva : Z) : K unit :=
  b ← gets kernel_bitmap; b ← lift (unmark_page_free (page_idx kva INIT_KERNEL_STACK) b);
  modify (with_kbitmap b).

(** The bit of the page of a node is cleared, if the node is on a list of pages in memory. *)
Definition release_page (is_in_mem : bool) (n : PageNode_t) : K unit :=
  if is_in_mem then
    if negb (pn_uva n =? pn_addr n) then release_user_page (pn_addr n)
    else release_kernel_page (pn_addr n)
  else mret tt.
Fixpoint recycle_loop (fuel : nat) (pcb : pcb_t) (head : pnref) (is_in_mem : bool) (p : option pnref) : K unit :=
  match fuel with
  | O => fail OutOfFuel
  | S fuel' =>
    if decide (p = Some head) then mret tt else
    i ← node_of p;
    h ← gets pn_links;
    pnext ← lift (ld_next h p);
    n ← get_pn i;
    (if pn_pid n =? pid pcb then
       set_pn i (set_pn_status PN_INACTIVE);;
       release_page is_in_mem n;;
       on_links (fun h => delete_list_node h (PN i))
     else mret tt);;
    recycle_loop fuel' pcb head is_in_mem pnext
  end.
Definition recycle_node_from_list (pcb : pcb_t) (head : pnref) (is_in_mem : bool) : K unit :=
  h ← gets pn_links;
  first ← lift (ld_next h (Some head));
  recycle_loop (size h) pcb head is_in_mem first.
Definition release_process_page (pcb : pcb_t) : K unit :=
  recycle_node_from_list pcb kernel_page_head true;;
  recycle_node_from_list pcb user_page_mem_head true;;
  recycle_node_from_list pcb user_page_sd_head false.

Definition share_pgtable (dest_pgdir src_pgdir : Z) : K unit :=
  modify (fun s => with_ram (put_words dest_pgdir (page_words (ram s) src_pgdir) (ram s)) s).

Definition swap_page_in (p : pnref) : K unit :=
  i ← node_of (Some p);
  n ← get_pn i;
  if pn_uva n =? 0 then fail Panic else
  on_links (fun h => delete_list_node h (PN i));;
  kva ← alloc_user_page;
  n ← get_pn i;
  modify (fun s => with_ram (put_words kva (sd_page (swap s) (u32 (pn_addr n))) (ram s)) s);;
  set_pn i (set_pn_addr kva);;
  update_pte (pte_entry n) (fun e => point_to e kva USER_ATTR);;
  on_links (fun h => insert_list_tail h (PN i) user_page_mem_head).

(** [while (vpn <= uva_begin + len)]: at most [len / PAGE_SIZE + 2] turns. *)
Fixpoint check_uva_loop (fuel : nat) (vpn last : Z) (pcb : pcb_t) : K unit :=
  if vpn >? last then mret tt else
  match fuel with
  | O => fail OutOfFuel
  | S fuel' =>
    r ← search_list_node user_page_sd_head vpn (pid pcb);
    (match r with None => mret tt | Some p => swap_page_in p end);;
    check_uva_loop fuel' (u64 (vpn + PAGE_SIZE)) last pcb
  end.
Definition check_uva_mem (uva_begin len : Z) (pcb : pcb_t) : K unit :=
  check_uva_loop (Z.to_nat (len / PAGE_SIZE + 2)) (page_base uva_begin) (u64 (uva_begin + len)) pcb.

(** ** Protection and the break *)

Definition protect (p : prot) (e : Z) : Z :=
  let e := clear_attribute e (PAGE_READ + PAGE_WRITE + PAGE_EXEC) in
  match p with
  | PROT_NONE => e
  | PROT_READ => set_attribute e PAGE_READ
  | PROT_WRITE => set_attribute e PAGE_WRITE
  | PROT_EXEC => set_attribute e PAGE_EXEC
  end.
Fixpoint mprotect_loop (n : nat) (uva v : Z) : K Z :=
  match n with
  | O => mret 0
  | S n' =>
    c ← gets cur;
    pte ← walk uva (pgdir c);
    match prot_of v with
    | None => mret (-1)
    | Some p => update_pte pte (protect p);; mprotect_loop n' (u64 (uva + PAGE_SIZE)) v
    end
  end.
Definition do_mprotect (addr len v : Z) : K Z :=
  if negb (Z.land addr 0xFFF =? 0) then mret (-1) else
  mprotect_loop (Z.to_nat (i32 (NBYTES2PAGE len))) addr v.

Definition check_mprotect (stval scause : Z) : K outcome :=
  c ← gets cur;
  pte ← walk stval (pgdir c);
  match pte with
  | None => mret Returns
  | Some a =>
    e ← load a;
    let code := Z.land scause (2 ^ 63 - 1) in
    mret (if (code =? EXCC_INST_PAGE_FAULT) && (get_attribute e PAGE_EXEC =? 0) then Exits
          else if (code =? EXCC_LOAD_PAGE_FAULT) && (get_attribute e PAGE_READ =? 0) then Exits
          else if (code =? EXCC_STORE_PAGE_FAULT) && (get_attribute e PAGE_WRITE =? 0) then Exits
          else Returns)
  end.

Definition set_brk (v : Z) (p : pcb_t) : pcb_t :=
  mkPcb (kernel_sp p) (user_sp p) (kernel_stack_base p) (user_stack_base p) (pid p) (status p)
    (cursor_x p) (cursor_y p) (remain_length p) (wakeup_time p) (entry_point p) (taskname p)
    (current_cpu_id p) (cpu_mask p) (pgdir p) (thread_type p) (pthread_id p) v.
Definition update_brk (v : Z) : K unit := modify (fun s => with_cur (set_brk v (cur s)) s).

Definition do_getbrk (bss_end : Z) : K unit :=
  update_brk (ROUNDDOWN (u64 (bss_end + PAGE_SIZE)) PAGE_SIZE).
Definition check_brk (vpn : Z) : K outcome :=
  c ← gets cur;
  mret (if (vpn >? brk c) && (vpn <? USER_STACK_END) then Exits else Returns).
Definition do_brk (addr : Z) : K Z :=
  let vpn := page_base addr in
  c ← gets cur;
  if (vpn >? brk c) && (vpn <? USER_STACK_END) then update_brk addr;; mret 0 else mret (-1).
Definition do_sbrk (increment : Z) : K Z :=
  let increment := ROUND (u64 increment) PAGE_SIZE in
  c ← gets cur;
  if u64 (brk c + increment) <? USER_STACK_END then
    update_brk (u64 (brk c + increment));; mret (brk c)
  else mret (u64 (-1)).

(** ** Page faults *)

Definition handle_page_fault (stval scause : Z) : K outcome :=
  if stval =? 0 then fail Panic else
  let vpn := page_base stval in
  r ← check_mprotect stval scause;
  match r with
  | Exits => mret Exits
  | Returns =>
    c ← gets cur;
    p ← search_list_node user_page_mem_head vpn (pid c);
    match p with
    | Some p =>
      i ← node_of (Some p); n ← get_pn i;
      update_pte (pte_entry n) (fun e => set_attribute e ACC_DIRTY);;
      mret Returns
    | None =>
      p ← search_list_node user_page_sd_head vpn (pid c);
      match p with
      | Some p => swap_page_in p;; mret Returns
      | None =>
        r ← check_brk vpn;
        match r with
        | Exits => mret Exits
        | Returns => alloc_page_helper vpn (pgdir c) c;; mret Returns
        end
      end
    end
  end.

(** ** Shared pages *)

Definition allocFreeUva (numPage : Z) : K Z :=
  c ← gets userMemCurr;
  let ret := ROUND c PAGE_SIZE in
  modify (with_umem (u64 (ret + numPage * PAGE_SIZE)));;
  mret ret.
Definition init_shmpage : K unit :=
  modify (fun s => with_shm ((fun p => mkShm 0 SHM_UNUSED (shm_kva p) 0) <$> shm_pages s) s).

(** [do uva = allocFreeUva(1); while (uva2pte(uva, current_running->pgdir) != NULL);] *)
Fixpoint fresh_uva (fuel : nat) : K Z :=
  match fuel with
  | O => fail OutOfFuel
  | S fuel' =>
    uva ← allocFreeUva 1;
    c ← gets cur;
    pte ← walk uva (pgdir c);
    match pte with None => mret uva | Some _ => fresh_uva fuel' end
  end.

Definition set_shm (i : nat) (f : shm_page_t -> shm_page_t) : K unit :=
  l ← gets shm_pages;
  p ← lift (of_option Fault (l !! i));
  modify (with_shm (<[i := f p]> l)).
Definition shm_using (p : shm_page_t) : bool := bool_decide (shm_status p = SHM_USING).

Definition shm_page_get (fuel : nat) (key : Z) : K Z :=
  l ← gets shm_pages;
  c ← gets cur;
  let i := first_index (fun p => shm_using p && (shm_key p =? key)) l 0 in
  if i <? Z.of_nat (length l) then
    p ← lift (idx l i);
    uva ← fresh_uva fuel;
    umap_page uva (kva2pa (shm_kva p)) (pgdir c) c;;
    set_shm (Z.to_nat i) (fun p => mkShm (shm_key p) (shm_status p) (shm_kva p) (i32 (user_num p + 1)));;
    mret uva
  else
    let i := first_index (fun p => negb (shm_using p)) l 0 in
    uva ← fresh_uva fuel;
    kva ← alloc_page_helper uva (pgdir c) c;
    set_shm (Z.to_nat i) (fun p => mkShm key SHM_USING kva (i32 (user_num p + 1)));;
    mret uva.

Definition delete_uva_page (vpn : Z) (pcb : pcb_t) : K unit :=
  r ← search_list_node user_page_mem_head vpn (pid pcb);
  (match r with
   | None => mret tt
   | Some p =>
     i ← node_of (Some p); n ← get_pn i;
     release_user_page (pn_addr n);;
     set_pn i (set_pn_status PN_INACTIVE);;
     on_links (fun h => delete_list_node h (PN i))
   end);;
  r ← search_list_node user_page_sd_head vpn (pid pcb);
  match r with
  | None => mret tt
  | Some p =>
    i ← node_of (Some p);
    set_pn i (set_pn_status PN_INACTIVE);;
    on_links (fun h => delete_list_node h (PN i))
  end.

Definition shm_page_dt (addr : Z) : K unit :=
  let uva := Z.land addr VA_MASK in
  c ← gets cur;
  pte ← walk uva (pgdir c);
  e ← load_pte pte;
  let kva := pa2kva (get_pa e) in
  l ← gets shm_pages;
  let i := first_index (fun p => shm_using p && (shm_kva p =? kva)) l 0 in
  if i <? Z.of_nat (length l) then
    delete_uva_page (page_base uva) c;;
    update_pte pte (fun e => clear_attribute e PAGE_PRESENT);;
    set_shm (Z.to_nat i) (fun p =>
      let n := i32 (user_num p - 1) in
      if n =? 0 then mkShm 0 SHM_UNUSED 0 n else mkShm (shm_key p) (shm_status p) (shm_kva p) n)
  else mret tt.

(** ** Device memory (ioremap.c) *)

Definition iomap_page (va pa pgdir_ : Z) : K Z :=
  let va := Z.land va VA_MASK in
  lv2_pgdir ← ensure_table (fun _ => mret tt) pgdir_ (vpn2 va);
  lv1_pgdir ← ensure_table (fun _ => mret tt) lv2_pgdir (vpn1 va);
  e ← load (slot lv1_pgdir (vpn0 va));
  store64 (slot lv1_pgdir (vpn0 va))
    (set_attribute (set_pfn e (Z.shiftr pa NORMAL_PAGE_SHIFT)) USER_ATTR);;
  mret 1.

Fixpoint ioremap_loop (n : nat) (pa : Z) : K unit :=
  match n with
  | O => mret tt
  | S n' =>
    b ← gets io_base;
    iomap_page b pa PGDIR_VA;;
    modify (fun s => with_io (u64 (io_base s + PAGE_SIZE)) s);;
    ioremap_loop n' (pa + PAGE_SIZE)
  end.
(** The address, or NULL (0). *)
Definition ioremap (phys_addr size : Z) : K Z :=
  let pa_start := ROUNDDOWN phys_addr PAGE_SIZE in
  let pa_end := ROUND (u64 (phys_addr + size)) PAGE_SIZE in
  let size := u64 (pa_end - pa_start) in
  b ← gets io_base;
  if u64 (b + size) <=? IO_ADDR_END then
    ioremap_loop (Z.to_nat ((pa_end - pa_start) / PAGE_SIZE)) pa_start;; mret b
  else mret 0.
Definition iounmap (io_addr : Z) : K unit :=
  c ← gets cur;
  pte ← walk io_addr (pgdir c);
  update_pte pte (fun e => clear_attribute e PAGE_PRESENT).

End Mm.
