(* ===== verification/MmFacts.v ===== *)
(** * Properties of memory management

    The invariant of the page nodes and their lists, the page allocator, the
    mapping of pages, swapping and the release of the pages of a process. *)
From stdpp Require Import functions.
From S2P Require Import Prelude DList Sched FsLayout PageTable Mm.

(** ** The three lists of page nodes *)

Definition is_head (r : pnref) : Prop := match r with PN _ => False | _ => True end.

(** [L]: the indices on each list, in order. *)
Definition links_wf (h : gmap pnref (@node pnref)) (L : pnref -> list nat) : Prop :=
  (forall hd, is_head hd -> is_dll h hd (PN <$> L hd)) /\
  (forall hd hd' i, is_head hd -> is_head hd' -> i ∈ L hd -> i ∈ L hd' -> hd = hd').

Definition on_list (L : pnref -> list nat) (i : nat) : Prop := exists hd, is_head hd /\ i ∈ L hd.

Lemma PN_inj i j : PN i = PN j -> i = j.
Proof. by intros [=]. Qed.
Lemma elem_PN i (l : list nat) : PN i ∈ PN <$> l <-> i ∈ l.
Proof. rewrite list_elem_of_fmap. split; [intros (j & [= ->] & ?); done|eauto]. Qed.
Lemma head_PN hd (l : list nat) : is_head hd -> hd ∉ PN <$> l.
Proof. intros Hh (j & -> & _)%list_elem_of_fmap. done. Qed.

(** The list of another head is outside what an operation on [hd] touches. *)
Lemma other_list L hd hd' ps x :
  is_head hd -> is_head hd' -> hd <> hd' ->
  (forall i, i ∈ ps -> ~ on_list L i \/ i ∈ L hd) ->
  (forall a b i, is_head a -> is_head b -> i ∈ L a -> i ∈ L b -> a = b) ->
  x ∈ hd' :: (PN <$> L hd') -> x ∉ hd :: (PN <$> ps).
Proof.
  intros Hh Hh' Hne Hps Hd [->|Hx]%elem_of_cons.
  - rewrite not_elem_of_cons. split; [done|]. by apply head_PN.
  - apply list_elem_of_fmap in Hx as (i & -> & Hi). rewrite not_elem_of_cons, elem_PN.
    split; [by intros <-|]. intros [Hn|Hl]%Hps; [by apply Hn; exists hd'|]. by apply Hne, (Hd _ _ i).
Qed.

(** One list changes, from [L hd] to [l], on the nodes [ps] and the head only. *)
Lemma links_wf_update h h' L hd l ps :
  links_wf h L -> is_head hd -> is_dll h' hd (PN <$> l) -> frame_except (hd :: (PN <$> ps)) h h' ->
  (forall i, i ∈ ps -> ~ on_list L i \/ i ∈ L hd) -> (forall i, i ∈ l -> i ∈ ps) ->
  links_wf h' (<[hd := l]> L).
Proof.
  intros [Hl Hd] Hh Hdll Hf Hps Hin. split.
  - intros hd' Hh'. destruct (decide (hd' = hd)) as [->|Hne]; [by rewrite fn_lookup_insert|].
    rewrite fn_lookup_insert_ne by done. apply (is_dll_frame _ _ _ _ _ Hf); [|by apply Hl].
    intros x Hx. by apply (other_list L hd hd').
  - assert (forall a i, is_head a -> a <> hd -> i ∈ l -> i ∈ L a -> False) as Hout.
    { intros a i Ha Hne Hi HL. destruct (Hps i (Hin i Hi)) as [Hn|Hn]; [apply Hn; by exists a|].
      by apply Hne, (Hd _ _ i). }
    intros a b i Ha Hb. destruct (decide (a = hd)) as [->|Hna], (decide (b = hd)) as [->|Hnb];
      rewrite ?fn_lookup_insert, ?fn_lookup_insert_ne by done; [done|..].
    + intros. exfalso. by apply (Hout b i).
    + intros. exfalso. by apply (Hout a i).
    + by apply Hd.
Qed.

Lemma links_insert h L hd i :
  links_wf h L -> is_head hd -> ~ on_list L i -> mapped h (PN i) ->
  exists h', insert_list_tail h (PN i) hd = Ok h' /\ links_wf h' (<[hd := L hd ++ [i]]> L) /\
    (forall r, mapped h r <-> mapped h' r).
Proof.
  intros Hw Hh Hn Hm. pose proof Hw as [Hl _].
  destruct (insert_list_tail_dll h hd (PN <$> L hd) (PN i)) as (h' & E & Hdll & Hf); [by apply Hl| |done|].
  { rewrite not_elem_of_cons, elem_PN. split; [by intros <-|]. intros Hi. apply Hn. by exists hd. }
  exists h'. split; [done|]. split; [|apply Hf].
  apply (links_wf_update h h' L hd _ (i :: L hd)); [done|done|by rewrite fmap_app| | |].
  - apply (frame_weaken _ _ _ _ Hf). intros q. rewrite fmap_cons. set_solver.
  - intros j [->|Hj]%elem_of_cons; [by left|by right].
  - intros j. rewrite elem_of_app, list_elem_of_singleton, elem_of_cons. tauto.
Qed.

Lemma links_delete h L hd l1 i l2 :
  links_wf h L -> is_head hd -> L hd = l1 ++ i :: l2 ->
  exists h', delete_list_node h (PN i) = Ok h' /\ links_wf h' (<[hd := l1 ++ l2]> L) /\
    (forall r, mapped h r <-> mapped h' r).
Proof.
  intros Hw Hh HL. pose proof Hw as [Hl _]. specialize (Hl hd Hh). rewrite HL, fmap_app, fmap_cons in Hl.
  destruct (delete_list_node_dll h hd _ (PN i) _ Hl) as (h' & E & Hdll & _ & _ & Hf).
  exists h'. split; [done|]. split; [|apply Hf].
  apply (links_wf_update h h' L hd _ (L hd)); [done|done|by rewrite fmap_app| | |].
  - apply (frame_weaken _ _ _ _ Hf). intros q. rewrite HL, fmap_app, fmap_cons. set_solver.
  - by right.
  - intros j. rewrite HL. set_solver.
Qed.

Lemma links_forward h L hd i l :
  links_wf h L -> is_head hd -> L hd = i :: l ->
  exists h', forward_list_head h hd = Ok h' /\ links_wf h' (<[hd := l ++ [i]]> L) /\
    (forall r, mapped h r <-> mapped h' r).
Proof.
  intros Hw Hh HL. pose proof Hw as [Hl _]. specialize (Hl hd Hh). rewrite HL in Hl.
  destruct l as [|j l].
  { exists h. split; [apply (forward_list_head_short h hd [PN i]); [done|simpl; lia]|]. split; [|done].
    apply (links_wf_update h h L hd _ (L hd)); try done; [by right|]. by rewrite HL. }
  destruct (forward_list_head_rotate h hd (PN i) (PN j) (fmap (M:=list) PN l) Hl) as (h' & E & Hdll & Hf).
  exists h'. split; [done|]. split; [|apply Hf].
  apply (links_wf_update h h' L hd _ (L hd)); [done|done| | | |].
  - by rewrite fmap_app.
  - by rewrite HL.
  - by right.
  - intros k. rewrite HL. set_solver.
Qed.

Lemma links_first h L hd :
  links_wf h L -> is_head hd ->
  ld_next h (Some hd) = Ok (Some (match L hd with [] => hd | i :: _ => PN i end)).
Proof.
  intros [Hl _] Hh. rewrite (ld_next_spec _ _ _ (is_dll_next _ _ _ (Hl hd Hh))). by destruct (L hd).
Qed.

(** ** Page bitmaps *)

(** A bitmap of exactly [n] pages. *)
Definition bm_wf (n : Z) (bm : list Z) : Prop := is_bytes bm /\ 8 * Z.of_nat (length bm) = n.
Definition free_in (n : Z) (bm : list Z) (k : Z) : Prop := 0 <= k < n /\ bit bm k = false.

Lemma bm_wf_set n bm k : bm_wf n bm -> bm_wf n (set_bit bm k).
Proof. intros [Hb Hl]. split; [by apply is_bytes_alter|]. by rewrite length_set_bit. Qed.
Lemma bm_wf_clear n bm k : bm_wf n bm -> bm_wf n (clear_bit bm k).
Proof. intros [Hb Hl]. split; [by apply is_bytes_alter|]. by rewrite length_clear_bit. Qed.

(** The least free page, or -1 when there is none. *)
Lemma find_free_spec n bm :
  bm_wf n bm ->
  (exists k, find_free_pages bm n = k /\ free_in n bm k /\ (forall j, 0 <= j < k -> bit bm j = true)) \/
  (find_free_pages bm n = u64 (-1) /\ forall k, ~ free_in n bm k).
Proof.
  intros [Hb Hl]. unfold find_free_pages.
  assert (NPAGES2BITMAPCH n = length bm) as ->.
  { unfold NPAGES2BITMAPCH. rewrite <- Hl, (Z.mul_comm 8), Z.div_mul, Z.mod_mul by lia. simpl. lia. }
  rewrite firstn_all. pose proof (scan_bytes_spec [] bm (Some n) Hb ltac:(simpl; lia)) as H.
  change (Z.of_nat (length (@nil Z))) with 0 in H. rewrite app_nil_l in H.
  destruct (scan_bytes bm 0 (Some n)) as [k|].
  - left. destruct H as (Hk & Hf & Hj & Hm). exists k. split; [done|]. split; [|done].
    split; [|done]. specialize (Hm n eq_refl). lia.
  - right. split; [done|]. intros k [Hk Hf]. rewrite H in Hf; [done|lia|]. intros m [= <-]. lia.
Qed.

Lemma mark_ok n bm k : bm_wf n bm -> 0 <= k < n -> mark_page_allocated k bm = Ok (set_bit bm k).
Proof.
  intros [_ Hl] Hk. unfold mark_page_allocated. rewrite (proj2 (Z.ltb_lt _ _)); [done|].
  apply Z.div_lt_upper_bound; lia.
Qed.
Lemma unmark_ok n bm k : bm_wf n bm -> 0 <= k < n -> unmark_page_free k bm = Ok (clear_bit bm k).
Proof.
  intros [_ Hl] Hk. unfold unmark_page_free. rewrite (proj2 (Z.ltb_lt _ _)); [done|].
  apply Z.div_lt_upper_bound; lia.
Qed.

(** Taking a page makes no other page free. *)
Lemma free_in_set n bm k j : bm_wf n bm -> 0 <= k < n -> free_in n (set_bit bm k) j <-> free_in n bm j /\ j <> k.
Proof.
  intros [Hb Hl] Hk. unfold free_in. split.
  - intros [Hj Hf]. rewrite bit_set in Hf by lia. by case_decide.
  - intros [[Hj Hf] Hne]. split; [done|]. rewrite bit_set by lia. by rewrite decide_False.
Qed.

Definition kernel_kva (k : Z) : Z := INIT_KERNEL_STACK + PAGE_SIZE * k.
Definition user_kva (k : Z) : Z := USER_MEM_BASE + PAGE_SIZE * k.

Lemma kernel_kva_page k : 0 <= k < FREE_KERNEL_PAGE_NUM -> kpage (kernel_kva k).
Proof.
  unfold FREE_KERNEL_PAGE_NUM, kernel_kva, kpage, PAGE_SIZE. intros Hk. split.
  - rewrite (Z.mul_comm 4096), Z.mod_add by lia. done.
  - unfold KVA_BASE, INIT_KERNEL_STACK. lia.
Qed.
Lemma user_kva_page k : 0 <= k < FREE_USER_PAGE_NUM -> kpage (user_kva k).
Proof.
  unfold FREE_USER_PAGE_NUM, user_kva, kpage, PAGE_SIZE. intros Hk. split.
  - rewrite (Z.mul_comm 4096), Z.mod_add by lia. done.
  - unfold KVA_BASE, USER_MEM_BASE. lia.
Qed.
Lemma kpage_u64 a : kpage a -> u64 a = a.
Proof. intros [_ Hr]. apply u64_small. unfold KVA_BASE in Hr. lia. Qed.
(** The two pools do not meet. *)
Lemma pools_disjoint i j : 0 <= i < FREE_KERNEL_PAGE_NUM -> 0 <= j -> kernel_kva i <> user_kva j.
Proof. unfold FREE_KERNEL_PAGE_NUM, kernel_kva, user_kva, INIT_KERNEL_STACK, USER_MEM_BASE, PAGE_SIZE. lia. Qed.

Lemma page_idx_user k : 0 <= k < FREE_USER_PAGE_NUM -> page_idx (user_kva k) USER_MEM_BASE = k.
Proof.
  unfold FREE_USER_PAGE_NUM, page_idx, user_kva, PAGE_SIZE. intros Hk.
  rewrite u64_small by lia. replace (USER_MEM_BASE + 4096 * k - USER_MEM_BASE) with (k * 4096) by lia.
  apply Z.div_mul. lia.
Qed.
Lemma page_idx_kernel k : 0 <= k < FREE_KERNEL_PAGE_NUM -> page_idx (kernel_kva k) INIT_KERNEL_STACK = k.
Proof.
  unfold FREE_KERNEL_PAGE_NUM, page_idx, kernel_kva, PAGE_SIZE. intros Hk.
  rewrite u64_small by lia. replace (INIT_KERNEL_STACK + 4096 * k - INIT_KERNEL_STACK) with (k * 4096) by lia.
  apply Z.div_mul. lia.
Qed.

(** [n] different values that satisfy [P]. *)
Definition at_least {A} (n : nat) (P : A -> Prop) : Prop :=
  exists l, NoDup l /\ length l = n /\ forall x, x ∈ l -> P x.

Lemma at_least_some {A} n (P : A -> Prop) : at_least (S n) P -> exists x, P x.
Proof. intros ([|x l] & _ & Hl & HP); [done|]. exists x. apply HP. set_solver. Qed.
Lemma at_least_impl {A} n (P Q : A -> Prop) : (forall x, P x -> Q x) -> at_least n P -> at_least n Q.
Proof. intros HPQ (l & Hn & Hl & HP). exists l. auto. Qed.
Lemma at_least_S {A} n (P : A -> Prop) : at_least (S n) P -> at_least n P.
Proof.
  intros ([|x l] & Hn & Hl & HP); [done|]. apply NoDup_cons in Hn as [_ Hn]. exists l.
  split; [done|]. split; [simpl in Hl; lia|]. intros y Hy. apply HP. set_solver.
Qed.
(** One value is used up. *)
Lemma at_least_use {A} `{EqDecision A} n (P : A -> Prop) (x : A) :
  at_least (S n) P -> at_least n (fun y => P y /\ y <> x).
Proof.
  intros (l & Hn & Hl & HP). destruct (decide (x ∈ l)) as [Hx|Hx].
  - apply list_elem_of_split in Hx as (l1 & l2 & ->). exists (l1 ++ l2).
    rewrite length_app in *. simpl in Hl. apply NoDup_app in Hn as (Hn1 & Hd & Hn2).
    apply NoDup_cons in Hn2 as [Hx2 Hn2]. split; [|split; [lia|]].
    + apply NoDup_app. split; [done|]. split; [|done]. set_solver.
    + intros y Hy. split; [apply HP; set_solver|]. intros ->. set_solver.
  - destruct l as [|y l]; [done|]. apply NoDup_cons in Hn as [_ Hn]. exists l.
    split; [done|]. split; [simpl in Hl; lia|]. intros z Hz. split; [apply HP; set_solver|]. set_solver.
Qed.

Section Facts.
Context {D : Type} `{!SwapDevice D}.
Implicit Types s : @mmst D.

(** ** The invariant *)

Record mm_wf s (L : pnref -> list nat) : Prop := {
  wf_links : links_wf (pn_links s) L;
  wf_mapped : forall i n, pn_list s !! i = Some n -> mapped (pn_links s) (PN i);
  wf_status : forall i n, pn_list s !! i = Some n -> (pn_status n = PN_ACTIVE <-> on_list L i);
  wf_node : forall i, on_list L i -> is_Some (pn_list s !! i);
  wf_user : bm_wf FREE_USER_PAGE_NUM (user_bitmap s);
  wf_kernel : bm_wf FREE_KERNEL_PAGE_NUM (kernel_bitmap s) }.

Definition user_free s : Z -> Prop := free_in FREE_USER_PAGE_NUM (user_bitmap s).
Definition kernel_free s : Z -> Prop := free_in FREE_KERNEL_PAGE_NUM (kernel_bitmap s).
Definition node_free s (i : nat) : Prop := exists n, pn_list s !! i = Some n /\ pn_status n = PN_INACTIVE.

Lemma alloc_user_page_ok s :
  bm_wf FREE_USER_PAGE_NUM (user_bitmap s) -> (exists k, user_free s k) ->
  exists k, user_free s k /\ alloc_user_page s = Ok (user_kva k, with_ubitmap (set_bit (user_bitmap s) k) s).
Proof.
  intros Hw [k0 Hk0]. destruct (find_free_spec _ _ Hw) as [(k & E & Hf & _)|[_ Hn]]; [|by destruct (Hn k0)].
  exists k. split; [done|]. destruct Hf as [Hk Hf]. unfold alloc_user_page.
  erewrite bind_ok by done. cbv beta zeta. rewrite E.
  destruct (Z.eqb_spec k (u64 (-1))) as [E1|_].
  { exfalso. rewrite E1 in Hk. clear -Hk. unfold FREE_USER_PAGE_NUM in Hk. vm_compute in Hk. by destruct Hk. }
  erewrite bind_ok by (rewrite (mark_ok _ _ _ Hw Hk); done). erewrite bind_ok by done.
  change (u64 (USER_MEM_BASE + PAGE_SIZE * k)) with (u64 (user_kva k)).
  by rewrite (kpage_u64 (user_kva k)) by (by apply user_kva_page).
Qed.

Lemma alloc_kernel_page_ok s :
  bm_wf FREE_KERNEL_PAGE_NUM (kernel_bitmap s) -> (exists k, kernel_free s k) ->
  exists k, kernel_free s k /\
    alloc_kernel_page s = Ok (kernel_kva k, with_kbitmap (set_bit (kernel_bitmap s) k) s).
Proof.
  intros Hw [k0 Hk0]. destruct (find_free_spec _ _ Hw) as [(k & E & Hf & _)|[_ Hn]]; [|by destruct (Hn k0)].
  exists k. split; [done|]. destruct Hf as [Hk Hf]. unfold alloc_kernel_page.
  erewrite bind_ok by done. cbv beta zeta. rewrite E.
  destruct (Z.eqb_spec k (u64 (-1))) as [E1|_].
  { exfalso. rewrite E1 in Hk. clear -Hk. unfold FREE_KERNEL_PAGE_NUM in Hk. vm_compute in Hk. by destruct Hk. }
  erewrite bind_ok by (rewrite (mark_ok _ _ _ Hw Hk); done). erewrite bind_ok by done.
  change (u64 (INIT_KERNEL_STACK + PAGE_SIZE * k)) with (u64 (kernel_kva k)).
  by rewrite (kpage_u64 (kernel_kva k)) by (by apply kernel_kva_page).
Qed.

(** ** Page nodes *)

Lemma on_list_insert L hd i j : is_head hd -> on_list (<[hd := L hd ++ [i]]> L) j <-> on_list L j \/ j = i.
Proof.
  intros Hh. split.
  - intros (a & Ha & Hj). destruct (decide (a = hd)) as [->|Hne].
    + rewrite fn_lookup_insert in Hj. apply elem_of_app in Hj as [Hj|Hj%list_elem_of_singleton]; [|by right].
      left. by exists hd.
    + rewrite fn_lookup_insert_ne in Hj by done. left. by exists a.
  - intros [(a & Ha & Hj)| ->].
    + exists a. split; [done|]. destruct (decide (a = hd)) as [->|Hne].
      * rewrite fn_lookup_insert. set_solver.
      * by rewrite fn_lookup_insert_ne.
    + exists hd. split; [done|]. rewrite fn_lookup_insert. set_solver.
Qed.

Lemma on_list_delete h L hd l1 i l2 j :
  links_wf h L -> is_head hd -> L hd = l1 ++ i :: l2 ->
  on_list (<[hd := l1 ++ l2]> L) j <-> on_list L j /\ j <> i.
Proof.
  intros [Hl Hd] Hh HL.
  assert (i ∉ l1 ++ l2) as Hi.
  { specialize (Hl hd Hh) as [Hn _]. apply NoDup_cons in Hn as [_ Hn]. rewrite HL in Hn.
    apply (NoDup_fmap_1 PN) in Hn. apply NoDup_app in Hn as (_ & Hd1 & Hn2).
    apply NoDup_cons in Hn2 as [Hn2 _]. rewrite elem_of_app. intros [Hx|Hx]; [|done].
    apply (Hd1 i Hx). set_solver. }
  assert (forall a, is_head a -> i ∈ L a -> a = hd) as Hia.
  { intros a Ha Hx. apply (Hd _ _ i); [done|done|done|]. rewrite HL. set_solver. }
  split.
  - intros (a & Ha & Hj). destruct (decide (a = hd)) as [->|Hne].
    + rewrite fn_lookup_insert in Hj. split; [|by intros ->]. exists hd. split; [done|]. rewrite HL. set_solver.
    + rewrite fn_lookup_insert_ne in Hj by done. split; [by exists a|]. intros ->. by apply Hne, Hia.
  - intros [(a & Ha & Hj) Hne]. exists a. split; [done|]. destruct (decide (a = hd)) as [->|Hna].
    + rewrite fn_lookup_insert. rewrite HL in Hj. set_solver.
    + by rewrite fn_lookup_insert_ne.
Qed.

Lemma set_pn_ok s i n f :
  pn_list s !! i = Some n -> set_pn i f s = Ok (tt, with_pns (<[i := f n]> (pn_list s)) s).
Proof. intros E. unfold set_pn, get_pn, gets, mbind, M_bind, lift. by rewrite E. Qed.
Lemma get_pn_ok s i n : pn_list s !! i = Some n -> get_pn i s = Ok (n, s).
Proof. intros E. unfold get_pn, gets, mbind, M_bind, lift. by rewrite E. Qed.
Lemma pn_links_ok s f h' : f (pn_links s) = Ok h' -> on_links f s = Ok (tt, with_links h' s).
Proof. intros E. unfold on_links, gets, mbind, M_bind, lift. by rewrite E. Qed.

Lemma get_free_ok s :
  (exists i, node_free s i) -> exists i, node_free s i /\ get_free_PageNode s = Ok (Z.of_nat i, s).
Proof.
  intros (i0 & n0 & E0 & Hs0). unfold get_free_PageNode, gets, mbind, M_bind.
  destruct (first_index_spec (fun n => bool_decide (pn_status n = PN_INACTIVE)) (pn_list s) 0)
    as [[Hf _]|(k & n & Hk & Hs & ->)].
  - eapply Forall_lookup_1 in Hf; [|exact E0]. by apply bool_decide_eq_false in Hf.
  - exists k. apply bool_decide_eq_true in Hs. split; [by exists n|].
    apply lookup_lt_Some in Hk. by rewrite (proj2 (Z.ltb_lt _ _)) by lia.
Qed.

Lemma node_free_off s L i : mm_wf s L -> node_free s i -> ~ on_list L i.
Proof. intros Hw (n & E & Hs) Ho. apply (wf_status s L Hw i n E) in Ho. congruence. Qed.

Lemma mm_wf_insert s L hd i n h' :
  mm_wf s L -> is_head hd -> is_Some (pn_list s !! i) -> pn_status n = PN_ACTIVE ->
  links_wf h' (<[hd := L hd ++ [i]]> L) -> (forall r, mapped (pn_links s) r <-> mapped h' r) ->
  mm_wf (with_links h' (with_pns (<[i := n]> (pn_list s)) s)) (<[hd := L hd ++ [i]]> L).
Proof.
  intros Hw Hh Hi Hn Hl Hm. split; simpl; try apply Hw; [done| | |].
  - intros j m [(<- & _ & _)|[_ E]]%list_lookup_insert_Some.
    + destruct Hi as [x Hx]. by apply Hm, (wf_mapped _ _ Hw _ _ Hx).
    + by apply Hm, (wf_mapped _ _ Hw _ _ E).
  - intros j m E. rewrite on_list_insert by done.
    apply list_lookup_insert_Some in E as [(<- & <- & _)|[Hne E]]; [tauto|].
    rewrite (wf_status _ _ Hw _ _ E). naive_solver.
  - intros j [Hj| ->]%on_list_insert; [|by rewrite list_lookup_insert_is_Some|done].
    apply list_lookup_insert_is_Some. by apply (wf_node _ _ Hw).
Qed.

Lemma create_PageNode_ok s L kva uva pg pcb :
  mm_wf s L -> uva <> 0 -> (exists i, node_free s i) ->
  let hd := if uva =? kva then kernel_page_head else user_page_mem_head in
  exists i h' pte, node_free s i /\
    let s' := with_links h' (with_pns (<[i := mkPN PN_ACTIVE pte (pid pcb) kva uva]> (pn_list s)) s) in
    create_PageNode kva uva pg pcb s = Ok (tt, s') /\ mm_wf s' (<[hd := L hd ++ [i]]> L) /\
    (uva <> kva -> pte = uva2pte (ram s) uva pg).
Proof.
  intros Hw Hu Hfree hd. assert (is_head hd) as Hh by (unfold hd; by destruct (uva =? kva)).
  destruct (get_free_ok s Hfree) as (i & Hi & Eg). pose proof Hi as (n & En & _).
  pose proof (node_free_off s L i Hw Hi) as Hoff.
  destruct (links_insert _ _ hd i (wf_links _ _ Hw) Hh Hoff (wf_mapped _ _ Hw _ _ En)) as (h' & El & Hl & Hm).
  assert (forall m p, <[i := mkPN PN_ACTIVE p (pid pcb) kva uva]> (<[i := m]> (pn_list s)) =
            <[i := mkPN PN_ACTIVE p (pid pcb) kva uva]> (pn_list s)) as Hins
    by (intros; apply list_insert_insert_eq).
  assert (forall m, <[i := m]> (pn_list s) !! i = Some m) as Hlk
    by (intros; apply list_lookup_insert_eq; by eapply lookup_lt_Some).
  exists i, h', (if uva =? kva
                 then let e3 := ld64 (ram s) (slot (pgdir (cur s)) (vpn2 kva)) in
                      if e3 =? 0 then None else Some (slot (pa2kva (get_pa e3)) (vpn1 kva))
                 else uva2pte (ram s) uva pg).
  split; [done|]. cbv zeta. split; [|split].
  - unfold create_PageNode. rewrite (proj2 (Z.eqb_neq _ _)) by done. erewrite bind_ok by exact Eg.
    rewrite (proj2 (Z.ltb_ge _ _)) by lia. cbv zeta. rewrite Nat2Z.id.
    erewrite bind_ok by (by apply set_pn_ok). destruct (uva =? kva).
    + unfold kva2pte. rewrite bind_bind. erewrite bind_ok by done. rewrite bind_bind. erewrite bind_ok by done.
      cbv zeta. erewrite bind_ok by done. erewrite bind_ok by (apply set_pn_ok, Hlk). cbn.
      rewrite Hins. by apply pn_links_ok.
    + unfold walk. rewrite bind_bind. erewrite bind_ok by done. erewrite bind_ok by done.
      erewrite bind_ok by (apply set_pn_ok, Hlk). cbn. rewrite Hins. by apply pn_links_ok.
  - by apply mm_wf_insert.
  - intros Hne. by rewrite (proj2 (Z.eqb_neq _ _)) by done.
Qed.


(** ** Mapping a page *)

(** The table pages of an address space, none of which the allocator may give out. *)
Definition tables_ok s (pgdir : Z) (T : gmap Z level) : Prop :=
  pt_wf (ram s) pgdir T /\ forall p k, is_Some (T !! p) -> kernel_free s k -> p <> kernel_kva k.

(** The parts of the state that building tables does not touch. *)
Definition same_rest s s' : Prop :=
  user_bitmap s' = user_bitmap s /\ swap s' = swap s /\ sd_sector_end s' = sd_sector_end s /\
  shm_pages s' = shm_pages s /\ userMemCurr s' = userMemCurr s /\ io_base s' = io_base s /\ cur s' = cur s.
(** Nodes in use keep their contents, and the two user lists their members. *)
Definition same_nodes s (L : pnref -> list nat) s' (L' : pnref -> list nat) : Prop :=
  (forall i, ~ node_free s i -> pn_list s' !! i = pn_list s !! i) /\
  (forall i, node_free s' i -> node_free s i) /\
  (forall hd, hd <> kernel_page_head -> L' hd = L hd).

(** Address [a] lies in the page at [p]. *)
Definition in_page (p a : Z) : Prop := p <= a < p + PAGE_SIZE.
(** [a] lies in no table of the address space and in no free page of the kernel. *)
Definition untouched s (T : gmap Z level) (a : Z) : Prop :=
  (forall p, is_Some (T !! p) -> ~ in_page p a) /\ (forall k, kernel_free s k -> ~ in_page (kernel_kva k) a).
(** New tables come from free pages, and memory changes in tables only. *)
Definition table_frame s (T : gmap Z level) s' (T' : gmap Z level) : Prop :=
  (forall k, kernel_free s' k -> kernel_free s k) /\
  (forall p, is_Some (T' !! p) -> is_Some (T !! p) \/ exists k, kernel_free s k /\ p = kernel_kva k) /\
  (forall a, untouched s T a -> ld64 (ram s') a = ld64 (ram s) a).

Lemma table_frame_refl s T : table_frame s T s T.
Proof. split; [done|]. split; [by left|done]. Qed.
Lemma untouched_step s T s' T' a : table_frame s T s' T' -> untouched s T a -> untouched s' T' a.
Proof.
  intros (Hk & HT & _) [H1 H2]. split; [|by intros k Hf; apply H2, Hk].
  intros p [Hp|(k & Hf & ->)]%HT; [by apply H1|by apply H2].
Qed.
Lemma table_frame_trans s1 T1 s2 T2 s3 T3 : table_frame s1 T1 s2 T2 -> table_frame s2 T2 s3 T3 -> table_frame s1 T1 s3 T3.
Proof.
  intros HA HB. pose proof HA as (A1 & A2 & A3). destruct HB as (B1 & B2 & B3). split; [by intros k Hk; apply A1, B1|]. split.
  - intros p [Hp|(k & Hk & ->)]%B2; [by apply A2|]. right. exists k. split; [by apply A1|done].
  - intros a Ha. rewrite B3 by (by eapply untouched_step). by apply A3.
Qed.
Lemma slot_in_page t i : 0 <= i < 512 -> in_page t (slot t i).
Proof. unfold in_page, slot, PAGE_SIZE. lia. Qed.
Lemma add_table_frame m t i q a : 0 <= i < 512 -> ~ in_page t a -> ~ in_page q a -> ld64 (add_table m t i q) a = ld64 m a.
Proof.
  intros Hi Ht Hq. unfold add_table, clear_pgdir. rewrite clear_words_ld, decide_False, ld_st_ne; [done| |].
  - intros E. apply Ht. rewrite <- E. by apply slot_in_page.
  - intros [Hr _]. apply Hq. unfold in_page, PAGE_SIZE. unfold NUM_PTE_ENTRY in Hr. lia.
Qed.

Definition table_step pgdir s L T s' L' T' : Prop :=
  mm_wf s' L' /\ tables_ok s' pgdir T' /\ pt_ext pgdir (ram s) T (ram s') T' /\
  same_rest s s' /\ same_nodes s L s' L' /\ table_frame s T s' T'.

Lemma table_step_refl pgdir s L T : mm_wf s L -> tables_ok s pgdir T -> table_step pgdir s L T s L T.
Proof. intros Hw [Hp Hf]. split; [done|]. split; [done|]. split; [by apply pt_ext_refl|]. split; [by repeat split|]. split; [by repeat split|]. apply table_frame_refl. Qed.

Lemma same_nodes_trans s1 L1 s2 L2 s3 L3 :
  same_nodes s1 L1 s2 L2 -> same_nodes s2 L2 s3 L3 -> same_nodes s1 L1 s3 L3.
Proof.
  intros (A1 & A2 & A3) (B1 & B2 & B3). split; [|split].
  - intros i Hi. rewrite B1, A1; [done|done|]. intros H. by apply Hi, A2.
  - intros i Hi. by apply A2, B2.
  - intros hd Hh. by rewrite B3, A3.
Qed.
Lemma table_step_trans pgdir s1 L1 T1 s2 L2 T2 s3 L3 T3 :
  table_step pgdir s1 L1 T1 s2 L2 T2 -> table_step pgdir s2 L2 T2 s3 L3 T3 ->
  table_step pgdir s1 L1 T1 s3 L3 T3.
Proof.
  intros (A1 & A2 & A3 & A4 & A5 & A6) (B1 & B2 & B3 & B4 & B5 & B6). split; [done|]. split; [done|].
  split; [by eapply pt_ext_trans|]. split; [|split; [by eapply same_nodes_trans|by eapply table_frame_trans]].
  unfold same_rest in *. destruct_and!. split_and!; congruence.
Qed.

Lemma load_ok s a : load a s = Ok (ld64 (ram s) a, s).
Proof. done. Qed.

(** [ensure_table] gives the table a slot points to, taking a fresh page for it
    when there is none. *)
Lemma ensure_table_ok pcb s L T pgdir_ t i lv n m :
  mm_wf s L -> tables_ok s pgdir_ T ->
  (let e := ld64 (ram s) (slot t i) in e = 0 \/ T !! pa2kva (get_pa e) = Some lv) ->
  (forall q, kpage q -> T !! q = None -> ld64 (ram s) (slot t i) = 0 ->
     pt_ext pgdir_ (ram s) T (add_table (ram s) t i q) (<[q := lv]> T)) ->
  (exists lt, T !! t = Some lt) -> 0 <= i < 512 ->
  at_least (S n) (kernel_free s) -> at_least (S m) (node_free s) ->
  exists q s' L' T', ensure_table (table_node pcb) t i s = Ok (q, s') /\
    table_step pgdir_ s L T s' L' T' /\ T' !! q = Some lv /\
    (let e := ld64 (ram s') (slot t i) in e <> 0 /\ pa2kva (get_pa e) = q) /\
    (forall p l j, T !! p = Some l -> 0 <= j < 512 -> p <> t -> ld64 (ram s') (slot p j) = ld64 (ram s) (slot p j)) /\
    at_least n (kernel_free s') /\ at_least m (node_free s').
Proof.
  intros Hw Ht He Hext [lt Hlt] Hi Hk Hm. cbv zeta in He. unfold ensure_table.
  erewrite bind_ok by apply load_ok. destruct (Z.eqb_spec (ld64 (ram s) (slot t i)) 0) as [Hz|Hnz].
  2:{ destruct He as [He|He]; [done|]. erewrite bind_ok by done. erewrite bind_ok by apply load_ok.
      eexists _, s, L, T. split; [reflexivity|]. split; [by apply table_step_refl|]. split; [done|].
      split; [done|]. split; [done|]. split; by apply at_least_S. }
  destruct (alloc_kernel_page_ok s (wf_kernel _ _ Hw) (at_least_some _ _ Hk)) as (k & Hfk & Ek).
  set (q := kernel_kva k) in *. assert (kpage q) as Hq by apply kernel_kva_page, Hfk.
  set (s1 := with_kbitmap (set_bit (kernel_bitmap s) k) s) in *.
  assert (mm_wf s1 L) as Hw1 by (split; try apply Hw; apply bm_wf_set, Hw).
  assert (forall j, kernel_free s1 j <-> kernel_free s j /\ j <> k) as Hfree
    by (intros j; apply free_in_set; [apply Hw|apply Hfk]).
  destruct (create_PageNode_ok s1 L q q PGDIR_VA pcb Hw1) as (j & h' & pte & Hj & Ec & Hw2 & _).
  { intros E0. destruct Hq as [_ Hq]. rewrite E0 in Hq. unfold KVA_BASE in Hq. lia. }
  { exact (at_least_some _ _ Hm). }
  rewrite Z.eqb_refl in Hw2. set (L2 := <[kernel_page_head := _]> L) in Hw2.
  set (s2 := with_links h' _) in *.
  assert (T !! q = None) as Hfresh.
  { destruct (T !! q) as [l|] eqn:E; [|done]. exfalso. by apply (proj2 Ht q k). }
  set (s3 := with_ram (add_table (ram s) t i q) s2).
  rewrite bind_bind. erewrite bind_ok by exact Ek. rewrite bind_bind.
  erewrite bind_ok by exact Ec. rewrite bind_bind. erewrite bind_ok by apply load_ok.
  change (ld64 (ram s2) (slot t i)) with (ld64 (ram s) (slot t i)). rewrite Hz.
  rewrite bind_bind. erewrite bind_ok by done. erewrite bind_ok by done.
  change (with_ram _ _) with s3. erewrite bind_ok by apply load_ok.
  specialize (Hext q Hq Hfresh Hz).
  assert (ld64 (ram s3) (slot t i) = point_to 0 q PAGE_PRESENT) as Ee.
  { unfold s3. simpl. rewrite (add_table_old (ram s) pgdir_ T t i q lt) with (l := lt) by (done || apply Ht).
    by rewrite decide_True. }
  rewrite Ee, add_table_entry by done.
  exists q, s3, L2, (<[q := lv]> T). split; [done|]. split; [|split; [apply lookup_insert_eq|]].
  - split; [|split; [|split; [done|]]].
    + split; apply Hw2.
    + split; [apply Hext|]. intros p a. simpl. intros Hp (Ha & Hne)%Hfree.
      destruct (decide (p = q)) as [->|Hpq].
      * unfold q. intros E. apply Hne. unfold kernel_kva, PAGE_SIZE in E. lia.
      * rewrite lookup_insert_ne in Hp by done. by apply (proj2 Ht).
    + split; [done|]. split; [split; [|split]|split; [|split]].
      * intros x Hx. simpl. rewrite list_lookup_insert_ne; [done|]. intros <-. by apply Hx.
      * intros x (nx & Ex & Hsx). simpl in Ex. apply list_lookup_insert_Some in Ex as [(_ & <- & _)|[_ Ex]]; [done|].
        by exists nx.
      * intros hd Hh. unfold L2. by rewrite fn_lookup_insert_ne.
      * by intros a (Ha & _)%Hfree.
      * intros p Hp. destruct (decide (p = q)) as [->|Hpq]; [right; by exists k|left]. by rewrite lookup_insert_ne in Hp.
      * intros a [Ha Hb]. simpl. apply add_table_frame; [done|apply Ha; by eexists|by apply Hb].
  - cbv zeta. rewrite Ee. split; [by split; [apply add_table_present|apply add_table_entry]|]. split; [|split].
    + intros p l x Hp Hx Hne. simpl. rewrite (add_table_old (ram s) pgdir_ T t i q lt) with (l := l) by (done || apply Ht).
      rewrite decide_False; [done|]. by intros [-> _].
    + apply (at_least_impl _ _ _ (fun x => proj2 (Hfree x))). by apply at_least_use.
    + apply (at_least_impl _ (fun y => node_free s y /\ y <> j)); [|by apply at_least_use].
      intros y [(ny & Ey & Hsy) Hne]. exists ny. simpl. by rewrite list_lookup_insert_ne.
Qed.


Lemma vpn_masked va :
  let va' := Z.land va VA_MASK in vpn2 va' = vpn2 va /\ vpn1 va' = vpn1 va /\ vpn0 va' = vpn0 va.
Proof.
  assert (Z.land (Z.land va VA_MASK) VA_MASK = Z.land va VA_MASK) as E
    by (by rewrite <- Z.land_assoc, Z.land_diag).
  unfold vpn0, vpn1, vpn2. by rewrite E.
Qed.

(** The two levels above the entry of [va]. *)
Lemma build_tables pcb s L T pgdir_ va nk m :
  mm_wf s L -> tables_ok s pgdir_ T -> user_va va ->
  at_least (2 + nk) (kernel_free s) -> at_least (S (S m)) (node_free s) ->
  exists lv2 s1 lv1 s2 L2 T2,
    ensure_table (table_node pcb) pgdir_ (vpn2 va) s = Ok (lv2, s1) /\
    ensure_table (table_node pcb) lv2 (vpn1 va) s1 = Ok (lv1, s2) /\
    table_step pgdir_ s L T s2 L2 T2 /\ uva2pte (ram s2) va pgdir_ = Some (slot lv1 (vpn0 va)) /\
    is_Some (T2 !! lv1) /\ at_least nk (kernel_free s2) /\ at_least m (node_free s2).
Proof.
  intros Hw Ht Hu Hk Hm. destruct (vpn_ranges va) as (H2 & H1 & H0). unfold in_window in Hu.
  pose proof (pt_root _ _ _ (proj1 Ht)) as Hroot.
  destruct (ensure_table_ok pcb s L T pgdir_ pgdir_ (vpn2 va) (Lv2 (vpn2 va)) (S nk) (S m))
    as (lv2 & s1 & L1 & T1 & E1 & S1 & HT2 & Hw1 & _ & Hk1 & Hm1); [done|done| | |by eauto|lia|done|done|].
  { apply (pt_lv3 _ _ _ (proj1 Ht)). lia. }
  { intros q Hq Hf Hz. apply add_lv2_ext; [apply Ht|lia|done|done|done]. }
  pose proof S1 as (W1 & O1 & _).
  destruct (ensure_table_ok pcb s1 L1 T1 pgdir_ lv2 (vpn1 va) (Lv1 (vpn2 va) (vpn1 va)) nk m)
    as (lv1 & s2 & L2 & T2 & E2 & S2 & HT1 & Hw2 & Hfr & Hk2 & Hm2); [done|done| | |by eauto|lia|done|done|].
  { apply (pt_lv2 _ _ _ (proj1 O1) _ _ _ HT2 H1). }
  { intros q Hq Hf Hz. by apply add_lv1_ext; [apply O1|..]. }
  exists lv2, s1, lv1, s2, L2, T2. split; [done|]. split; [done|].

  split; [by eapply table_step_trans|]. split; [|split; [by eexists|split; done]].
  assert (pa2kva (get_pa (ld64 (ram s2) (slot pgdir_ (vpn2 va)))) = lv2 /\
          ld64 (ram s2) (slot pgdir_ (vpn2 va)) <> 0) as [Ea Ez].
  { cbv zeta in Hw1. rewrite (Hfr pgdir_ Root); [by destruct Hw1| |lia|].
    - apply (pt_root _ _ _ (proj1 O1)).
    - intros ->. rewrite (pt_root _ _ _ (proj1 O1)) in HT2. done. }
  unfold uva2pte. cbv zeta in Hw2. destruct Hw2 as [Hz2 Ha2].
  rewrite (proj2 (Z.eqb_neq _ _) Ez), Ea, (proj2 (Z.eqb_neq _ _) Hz2), Ha2. done.
Qed.


Lemma walk_masked m va pgdir : uva2pte m (Z.land va VA_MASK) pgdir = uva2pte m va pgdir.
Proof. destruct (vpn_masked va) as (E2 & E1 & E0). unfold uva2pte. by rewrite E2, E1, E0. Qed.

(** A node for a user page in use is appended to the memory list, in a state that
    differs from [s] in the bitmap and the nodes only. *)
Lemma map_user_page pcb s L va :
  mm_wf s L -> 0 < Z.land va VA_MASK -> (exists k, user_free s k) -> (exists i, node_free s i) ->
  exists k i h' s',
    user_free s k /\ ~ on_list L i /\
    (kva ← alloc_user_page; create_PageNode kva (Z.land va VA_MASK) (pgdir pcb) pcb;; mret kva) s =
      Ok (user_kva k, s') /\
    mm_wf s' (<[user_page_mem_head := L user_page_mem_head ++ [i]]> L) /\
    s' = with_links h' (with_pns (<[i := mkPN PN_ACTIVE (uva2pte (ram s) va (pgdir pcb)) (pid pcb)
           (user_kva k) (Z.land va VA_MASK)]> (pn_list s)) (with_ubitmap (set_bit (user_bitmap s) k) s)).
Proof.
  intros Hw Hva Hk Hi. destruct (alloc_user_page_ok s (wf_user _ _ Hw) Hk) as (k & Hfk & Ek).
  set (s1 := with_ubitmap (set_bit (user_bitmap s) k) s) in *.
  assert (mm_wf s1 L) as Hw1 by (split; try apply Hw; apply bm_wf_set, Hw).
  pose proof (user_kva_page k ltac:(apply Hfk)) as [_ Hr].
  pose proof (masked_range va) as Hm. set (va' := Z.land va VA_MASK) in *.
  assert (va' <> user_kva k) as Hne by (unfold KVA_BASE in Hr; lia).
  destruct (create_PageNode_ok s1 L (user_kva k) va' (pgdir pcb) pcb Hw1) as (i & h' & pte & Hj & Ec & Hw2 & Hp);
    [lia|done|]. rewrite (proj2 (Z.eqb_neq _ _) Hne) in Hw2. specialize (Hp Hne). subst pte.
  unfold va' in Ec, Hw2. rewrite walk_masked in Ec, Hw2. fold va' in Ec, Hw2.
  exists k, i, h'. eexists. split; [done|]. split; [by apply (node_free_off s1)|]. split; [|split; [exact Hw2|done]].
  erewrite bind_ok by exact Ek. erewrite bind_ok by exact Ec. done.
Qed.

Lemma point_to_all e kva bits :
  kpage kva -> 0 <= bits < 2 ^ 10 -> get_attribute (point_to e kva bits) bits = bits.
Proof.
  intros Hk Hb. rewrite point_to_attr, Z.land_diag by done. unfold get_attribute.
  apply Z.bits_inj'. intros b _. rewrite Z.lor_spec, Z.land_spec. by destruct (Z.testbit e b), (Z.testbit bits b).
Qed.

(** What [alloc_page_helper] does: page [k] of the user pool and node [i] are taken. *)
Record page_added (pcb : pcb_t) (va k : Z) (i : nat) s L T s' L' T' : Prop := {
  pa_free : user_free s k;
  pa_bitmap : user_bitmap s' = set_bit (user_bitmap s) k;
  pa_wf : mm_wf s' L';
  pa_tables : tables_ok s' (pgdir pcb) T';
  pa_sub : T ⊆ T';
  pa_leaf : let e := leaf (ram s') (pgdir pcb) va in
    pa2kva (get_pa e) = user_kva k /\ get_attribute e USER_ATTR = USER_ATTR;
  pa_others : forall va', user_va va' -> page_of va' <> page_of va ->
    leaf (ram s') (pgdir pcb) va' = leaf (ram s) (pgdir pcb) va';
  pa_mem : L' user_page_mem_head = L user_page_mem_head ++ [i];
  pa_sd : L' user_page_sd_head = L user_page_sd_head;
  pa_node : pn_list s' !! i = Some (mkPN PN_ACTIVE (uva2pte (ram s') va (pgdir pcb)) (pid pcb) (user_kva k)
                              (Z.land va VA_MASK));
  pa_frame : table_frame s T s' T';
  pa_rest : cur s' = cur s /\ swap s' = swap s;
  pa_new : ~ on_list L i;
  pa_nodes : forall j, on_list L j -> pn_list s' !! j = pn_list s !! j }.

Lemma alloc_page_ok s L T va pcb nk nu nn :
  mm_wf s L -> tables_ok s (pgdir pcb) T -> user_va va -> 0 < Z.land va VA_MASK ->
  at_least (2 + nk) (kernel_free s) -> at_least (S nu) (user_free s) -> at_least (3 + nn) (node_free s) ->
  exists k i s' L' T', alloc_page_helper va (pgdir pcb) pcb s = Ok (user_kva k, s') /\
    page_added pcb va k i s L T s' L' T' /\
    at_least nk (kernel_free s') /\ at_least nu (user_free s') /\ at_least nn (node_free s').
Proof.
  intros Hw Ht Hu Hva Hk Huf Hn.
  destruct (build_tables pcb s L T (pgdir pcb) va nk (S nn)) as (lv2 & s1 & lv1 & s2 & L2 & T2 & E1 & E2 & St & Ew & Hlv1 & Hk2 & Hn2);
    [done..|]. destruct St as (W2 & [P2 F2] & (Hsub & _ & _ & Hleaf) & R2 & (HN & HF & HL) & Fr).
  destruct (map_user_page pcb s2 L2 va W2 Hva) as (k & i & h' & s3 & Hfk & Hi & E3 & W3 & Es3).
  { destruct (at_least_some _ _ Huf) as [k0 Hk0]. exists k0. unfold user_free. by rewrite (proj1 R2). }
  { exact (at_least_some _ _ Hn2). }
  assert (forall j, on_list L j -> ~ node_free s j) as Hnf by (intros j Hj Hf; by apply (node_free_off s L j)).
  assert (forall j, on_list L j -> on_list L2 j) as Hon2.
  { intros j Hj. destruct (wf_node _ _ Hw j Hj) as [n En]. apply (wf_status _ _ W2 j n); [by rewrite HN by auto|].
    by apply (wf_status _ _ Hw j n). }
  set (e := leaf (ram s) (pgdir pcb) va). set (v := point_to e (user_kva k) USER_ATTR).
  assert (kpage (user_kva k)) as Hkp by apply user_kva_page, Hfk.
  destruct (set_leaf_ok (ram s2) (pgdir pcb) T2 va _ v P2 Hu Ew) as (P4 & Hl4 & Hw4 & Ho4).
  exists k, i, (with_ram (st64 (ram s2) (slot lv1 (vpn0 va)) v) s3), (<[user_page_mem_head := L2 user_page_mem_head ++ [i]]> L2), T2.
  destruct (vpn_masked va) as (M2 & M1 & M0).
  assert (ram s3 = ram s2) as Er by (by rewrite Es3).
  assert (ld64 (ram s2) (slot lv1 (vpn0 va)) = e) as Ee.
  { pose proof (Hleaf va Hu) as E. unfold leaf in E at 1. by rewrite Ew in E. }
  split; [|split; [split|split; [|split]]].
  - unfold alloc_page_helper. cbv zeta. rewrite M2, M1, M0. erewrite bind_ok by exact E1.
    erewrite bind_ok by exact E2. apply bind_inv in E3 as (kva & s3' & Ea & E3).
    apply bind_inv in E3 as ([] & s3'' & Eb & [= -> ->]).
    erewrite bind_ok by exact Ea. erewrite bind_ok by exact Eb. erewrite bind_ok by apply load_ok.
    rewrite Er, Ee. erewrite bind_ok by done. rewrite Er. done.
  - unfold user_free in *. by rewrite <- (proj1 R2).
  - rewrite Es3. simpl. by rewrite (proj1 R2).
  - split; apply W3.
  - split; [done|]. intros p j Hp Hj. apply F2; [done|]. revert Hj. unfold kernel_free. by rewrite Es3.
  - done.
  - cbv zeta. change (ram (with_ram ?m _)) with m. rewrite Hl4. unfold v. split; [by apply point_to_page|].
    by apply point_to_all.
  - intros va' Hu' Hne. change (ram (with_ram ?m _)) with m. by rewrite Ho4, Hleaf.
  - rewrite fn_lookup_insert. by rewrite HL.
  - rewrite fn_lookup_insert_ne by done. by rewrite HL.
  - change (ram (with_ram ?m _)) with m. rewrite Hw4 by done. rewrite Es3. simpl. apply list_lookup_insert_eq.
    destruct (wf_node _ _ W3 i) as [x Hx]; [apply on_list_insert; [done|by right]|].
    rewrite Es3 in Hx. simpl in Hx. apply lookup_lt_Some in Hx. by rewrite length_insert in Hx.
  - eapply table_frame_trans; [exact Fr|]. split; [unfold kernel_free; by rewrite Es3|]. split; [by left|].
    intros a [Ha _]. simpl. apply ld_st_ne. intros E. apply (Ha lv1); [done|]. rewrite <- E.
    apply slot_in_page, vpn_ranges.
  - rewrite Es3. split; apply R2.
  - intros Hon. apply Hi. by apply Hon2.
  - intros j Hon. rewrite Es3. simpl. rewrite list_lookup_insert_ne; [by apply HN, Hnf|]. intros <-. by apply Hi, Hon2.
  - rewrite Es3. exact Hk2.
  - unfold user_free. rewrite Es3. simpl. eapply at_least_impl; [|apply (at_least_use _ _ k Huf)].
    intros y [Hy Hne]. apply free_in_set; [apply W2|apply Hfk|]. rewrite (proj1 R2). by split.
  - rewrite Es3. eapply at_least_impl; [|apply (at_least_use _ _ i Hn2)]. intros y [(n & En & Hst) Hne].
    exists n. simpl. by rewrite list_lookup_insert_ne.
Qed.

(** C9. alloc_page_helper takes a free user page, builds the missing tables from fresh
    kernel pages and maps the page of va to it; every other page keeps its mapping, the lists
    and the page table stay well formed and a node records the entry. *)
Theorem alloc_page_maps s L T va pcb :
  mm_wf s L -> tables_ok s (pgdir pcb) T -> user_va va -> 0 < Z.land va VA_MASK ->
  at_least 2 (kernel_free s) -> (exists k, user_free s k) -> at_least 3 (node_free s) ->
  exists k i s' L' T', alloc_page_helper va (pgdir pcb) pcb s = Ok (user_kva k, s') /\
    user_free s k /\ user_bitmap s' = set_bit (user_bitmap s) k /\
    mm_wf s' L' /\ tables_ok s' (pgdir pcb) T' /\ T ⊆ T' /\
    (let e := leaf (ram s') (pgdir pcb) va in
     pa2kva (get_pa e) = user_kva k /\ get_attribute e USER_ATTR = USER_ATTR) /\
    (forall va', user_va va' -> page_of va' <> page_of va ->
       leaf (ram s') (pgdir pcb) va' = leaf (ram s) (pgdir pcb) va') /\
    L' user_page_mem_head = L user_page_mem_head ++ [i] /\ L' user_page_sd_head = L user_page_sd_head /\
    pn_list s' !! i = Some (mkPN PN_ACTIVE (uva2pte (ram s') va (pgdir pcb)) (pid pcb) (user_kva k)
                              (Z.land va VA_MASK)).
Proof.
  intros Hw Ht Hu Hva Hk [k0 Hk0] Hn. assert (at_least 1 (user_free s)) as Huf.
  { exists [k0]. split; [apply NoDup_singleton|]. split; [done|]. by intros x ->%list_elem_of_singleton. }
  destruct (alloc_page_ok s L T va pcb 0 0 0 Hw Ht Hu Hva Hk Huf Hn) as (k & i & s' & L' & T' & E & [] & _). exists k, i, s', L', T'. tauto.
Qed.


(** ** Swapping out *)

(** The part of the invariant that holds also while a node is between two lists. *)
Definition nodes_ok s (L : pnref -> list nat) : Prop :=
  links_wf (pn_links s) L /\ (forall i n, pn_list s !! i = Some n -> mapped (pn_links s) (PN i)) /\
  (forall i, on_list L i -> is_Some (pn_list s !! i)).

Lemma mm_wf_nodes_ok s L : mm_wf s L -> nodes_ok s L.
Proof. intros Hw. split; [apply Hw|]. split; apply Hw. Qed.

(** [ent]: the entry each node of the memory list points to. *)
Definition entries_ok s (ent : nat -> Z) (l : list nat) : Prop :=
  NoDup (ent <$> l) /\ forall j, j ∈ l -> exists n, pn_list s !! j = Some n /\ pte_entry n = Some (ent j) /\ pn_uva n <> 0.

Definition used (m : words) (a : Z) : Prop := get_attribute (ld64 m a) ACC_DIRTY <> 0.
#[global] Instance used_dec m a : Decision (used m a).
Proof. unfold used. apply _. Defined.

Definition clear_used (a : Z) (m : words) : words := st64 m a (clear_attribute (ld64 m a) ACC_DIRTY).
(** What the loop leaves in memory after passing over the entries [l]. *)
Definition clear_all (l : list Z) (m : words) : words := foldl (fun m a => clear_used a m) m l.

Lemma clear_used_same m a : ~ used (clear_used a m) a.
Proof.
  unfold used, clear_used. rewrite ld_st_eq, attr_clear_attr. intros H. apply H.
  unfold get_attribute. by rewrite <- Z.land_assoc, Z.land_lnot_diag, Z.land_0_r.
Qed.
Lemma clear_used_ld m a b : a <> b -> ld64 (clear_used a m) b = ld64 m b.
Proof. apply ld_st_ne. Qed.
Lemma clear_used_other m a b : a <> b -> used (clear_used a m) b <-> used m b.
Proof. intros Hne. unfold used. by rewrite clear_used_ld. Qed.
Lemma clear_all_ld l m b : b ∉ l -> ld64 (clear_all l m) b = ld64 m b.
Proof.
  revert m; induction l as [|a l IH]; intros m Hb; [done|]. simpl. apply not_elem_of_cons in Hb as [Hne Hb].
  unfold clear_all in *. simpl. rewrite IH by done. by apply clear_used_ld.
Qed.

Lemma update_pte_ok s a f : update_pte (Some a) f s = Ok (tt, with_ram (st64 (ram s) a (f (ld64 (ram s) a))) s).
Proof. done. Qed.

(** One turn of the loop that passes over the first node. *)
Lemma second_chance_skip fuel s L ent i l :
  nodes_ok s L -> entries_ok s ent (L user_page_mem_head) ->
  L user_page_mem_head = i :: l -> used (ram s) (ent i) ->
  exists h', nodes_ok (with_links h' (with_ram (clear_used (ent i) (ram s)) s)) (<[user_page_mem_head := l ++ [i]]> L) /\
    second_chance (S fuel) s = second_chance fuel (with_links h' (with_ram (clear_used (ent i) (ram s)) s)).
Proof.
  intros (Hl & Hm & Hn) [_ Hent] HL Hu. destruct (Hent i) as (n & En & Ep & _); [rewrite HL; set_solver|].
  destruct (links_forward _ _ user_page_mem_head i l Hl I HL) as (h' & Ef & Hl' & Hm').
  exists h'. split.
  - split; [done|]. split.
    + intros j nj Ej. by apply Hm', (Hm _ nj).
    + intros j (a & Ha & Hj). apply Hn. destruct (decide (a = user_page_mem_head)) as [->|Hne].
      * rewrite fn_lookup_insert in Hj. exists user_page_mem_head. split; [done|]. rewrite HL. set_solver.
      * rewrite fn_lookup_insert_ne in Hj by done. by exists a.
  - cbn [second_chance]. erewrite bind_ok by done. erewrite bind_ok by (apply lift_ok, (links_first _ _ user_page_mem_head Hl I)).
    rewrite HL. erewrite bind_ok by done. erewrite bind_ok by (by apply get_pn_ok).
    rewrite Ep. erewrite bind_ok by done. unfold used in Hu. rewrite (proj2 (Z.eqb_neq _ _) Hu). cbn [negb].
    erewrite bind_ok by apply update_pte_ok. erewrite bind_ok by (by apply pn_links_ok). done.
Qed.

Lemma second_chance_stop fuel s L ent i l :
  nodes_ok s L -> entries_ok s ent (L user_page_mem_head) ->
  L user_page_mem_head = i :: l -> ~ used (ram s) (ent i) -> second_chance (S fuel) s = Ok (i, s).
Proof.
  intros (Hl & Hm & Hn) [_ Hent] HL Hu. destruct (Hent i) as (n & En & Ep & _); [rewrite HL; set_solver|].
  cbn [second_chance]. erewrite bind_ok by done. erewrite bind_ok by (apply lift_ok, (links_first _ _ user_page_mem_head Hl I)).
  rewrite HL. erewrite bind_ok by done. erewrite bind_ok by (by apply get_pn_ok).
  rewrite Ep. erewrite bind_ok by done. destruct (Z.eqb_spec (get_attribute (ld64 (ram s) (ent i)) ACC_DIRTY) 0); [done|].
  by destruct Hu.
Qed.

Lemma entries_ok_perm s s' ent l l' :
  l ≡ₚ l' -> pn_list s' = pn_list s -> entries_ok s ent l -> entries_ok s' ent l'.
Proof.
  intros Hp E [Hn He]. split; [by rewrite <- Hp|]. intros j Hj. rewrite E. apply He. by rewrite Hp.
Qed.

(** Nodes whose page was used are passed over, in order, until one was not. *)
Lemma second_chance_from s L ent l i l' fuel :
  nodes_ok s L -> entries_ok s ent (L user_page_mem_head) ->
  L user_page_mem_head = l ++ i :: l' -> Forall (fun j => used (ram s) (ent j)) l -> ~ used (ram s) (ent i) ->
  (length l < fuel)%nat ->
  exists h' L', let s' := with_links h' (with_ram (clear_all (ent <$> l) (ram s)) s) in
    second_chance fuel s = Ok (i, s') /\ nodes_ok s' L' /\ L' user_page_mem_head = i :: l' ++ l /\
    (forall hd, hd <> user_page_mem_head -> L' hd = L hd).
Proof.
  revert s L l' fuel. induction l as [|j l IH]; intros s L l' [|fuel] Hn He HL Hu Hi Hf; simpl in Hf; try lia.
  - exists (pn_links s), L. cbv zeta. split; [|split; [done|split; [by rewrite app_nil_r|done]]].
    replace (with_links _ _) with s by (by destruct s). by apply (second_chance_stop _ _ L ent i l').
  - apply Forall_cons in Hu as [Hj Hu].
    destruct (second_chance_skip fuel s L ent j (l ++ i :: l') Hn He HL Hj) as (h1 & Hn1 & E1).
    set (s1 := with_links h1 _) in *. set (L1 := <[user_page_mem_head := _]> L) in *.
    assert (L1 user_page_mem_head = l ++ i :: (l' ++ [j])) as HL1.
    { unfold L1. rewrite fn_lookup_insert, <- app_assoc. done. }
    assert (forall x, x ∈ l ++ i :: l' -> ent j <> ent x) as Hne.
    { destruct He as [Hd _]. rewrite HL in Hd. simpl in Hd. apply NoDup_cons in Hd as [Hd _].
      intros x Hx E. apply Hd. rewrite E. by apply list_elem_of_fmap_2. }
    destruct (IH s1 L1 (l' ++ [j]) fuel) as (h' & L' & E2 & Hn2 & HL2 & Ho2); [done| |done| | |lia|].
    { apply (entries_ok_perm s _ _ (L user_page_mem_head)); [|done|done].
      rewrite HL, HL1. rewrite <- app_comm_cons, Permutation_cons_append, <- app_assoc. done. }
    { apply Forall_forall. intros x Hx. simpl. rewrite clear_used_other by (apply Hne; set_solver).
      by eapply Forall_forall in Hu. }
    { simpl. rewrite clear_used_other; [done|]. apply Hne. set_solver. }
    exists h', L'. cbv zeta in *. rewrite E1. split; [exact E2|]. split; [exact Hn2|].
    split; [rewrite HL2, <- app_assoc; done|]. intros hd Hh. rewrite Ho2 by done. unfold L1. by rewrite fn_lookup_insert_ne.
Qed.


(** The choice: the first node whose page was not used lately, or the first node
    when all were; [passed] are the nodes that lose their second chance, [rest] is
    the list that remains. *)
Definition victim (m : words) (ent : nat -> Z) (lm : list nat) (i : nat) (passed rest : list nat) : Prop :=
  (exists l', lm = passed ++ i :: l' /\ Forall (fun j => used m (ent j)) passed /\ ~ used m (ent i) /\ rest = l' ++ passed) \/
  (lm = i :: rest /\ Forall (fun j => used m (ent j)) lm /\ passed = lm).

Lemma victim_perm m ent lm i passed rest : victim m ent lm i passed rest -> i :: rest ≡ₚ lm.
Proof.
  intros [(l' & -> & _ & _ & ->)|(-> & _)]; [|done]. by rewrite <- Permutation_middle, Permutation_app_comm.
Qed.

Lemma first_unused m (ent : nat -> Z) (lm : list nat) :
  Forall (fun j => used m (ent j)) lm \/
  exists l i l', lm = l ++ i :: l' /\ Forall (fun j => used m (ent j)) l /\ ~ used m (ent i).
Proof.
  induction lm as [|j lm [IH|(l & i & l' & -> & Hu & Hi)]]; [by left| |]; destruct (decide (used m (ent j))).
  - left. by constructor.
  - right. by exists [], j, lm.
  - right. exists (j :: l), i, l'. split; [done|]. split; [by constructor|done].
  - right. by exists [], j, (l ++ i :: l').
Qed.

Lemma nodes_fuel s L hd : nodes_ok s L -> is_head hd -> (length (L hd) < size (pn_links s))%nat.
Proof. intros [[Hl _] _] Hh. specialize (Hl hd Hh). apply is_dll_fuel in Hl. by rewrite length_fmap in Hl. Qed.

(** The loop ends, within two visits of each node. *)
Lemma second_chance_ok s L ent :
  nodes_ok s L -> entries_ok s ent (L user_page_mem_head) -> L user_page_mem_head <> [] ->
  exists i passed rest h' L', let s' := with_links h' (with_ram (clear_all (ent <$> passed) (ram s)) s) in
    victim (ram s) ent (L user_page_mem_head) i passed rest /\
    second_chance (S (size (pn_links s))) s = Ok (i, s') /\ nodes_ok s' L' /\
    L' user_page_mem_head = i :: rest /\ (forall hd, hd <> user_page_mem_head -> L' hd = L hd).
Proof.
  intros Hn He Hne. pose proof (nodes_fuel s L user_page_mem_head Hn I) as Hfuel.
  destruct (first_unused (ram s) ent (L user_page_mem_head)) as [Hall|(l & i & l' & HL & Hu & Hi)].
  - destruct (L user_page_mem_head) as [|i l] eqn:HL; [done|]. apply Forall_cons in Hall as [Hi Hu].
    rewrite <- HL in He. destruct (second_chance_skip (size (pn_links s)) s L ent i l Hn He HL Hi) as (h1 & Hn1 & E1).
    set (s1 := with_links h1 _) in *. set (L1 := <[user_page_mem_head := _]> L) in *.
    assert (L1 user_page_mem_head = l ++ i :: []) as HL1 by (unfold L1; by rewrite fn_lookup_insert).
    destruct (second_chance_from s1 L1 ent l i [] (size (pn_links s))) as (h' & L' & E2 & Hn2 & HL2 & Ho2).
    + done.
    + apply (entries_ok_perm s _ _ (L user_page_mem_head)); [|done|done].
      rewrite HL, HL1. apply Permutation_cons_append.
    + done.
    + apply Forall_forall. intros x Hx. simpl. rewrite clear_used_other; [by eapply Forall_forall in Hu|].
      destruct He as [Hd _]. rewrite HL in Hd. apply NoDup_cons in Hd as [Hd _]. intros E. apply Hd. rewrite E.
      by apply list_elem_of_fmap_2.
    + apply clear_used_same.
    + simpl in Hfuel. lia.
    + exists i, (i :: l), l, h', L'. cbv zeta in *. split; [right; split; [done|split; [by constructor|done]]|].
      rewrite E1. split; [exact E2|]. split; [exact Hn2|]. split; [done|].
      intros hd Hh. rewrite Ho2 by done. unfold L1. by rewrite fn_lookup_insert_ne.
  - destruct (second_chance_from s L ent l i l' (S (size (pn_links s)))) as (h' & L' & E2 & Hn2 & HL2 & Ho2); try done.
    { rewrite HL, length_app in Hfuel. lia. }
    exists i, l, (l' ++ l), h', L'. split; [left; by eauto|]. done.
Qed.

(** What [swap_page_out] does: [e] is the sector the page goes to. *)
Definition swapped_out s (ent : nat -> Z) (i : nat) n (passed : list nat) h : mmst :=
  let m := clear_all (ent <$> passed) (ram s) in
  let m := st64 m (ent i) (clear_attribute (ld64 m (ent i)) PAGE_PRESENT) in
  with_links h (with_pns (<[i := set_pn_addr (sd_sector_end s) n]> (pn_list s))
    (with_sd (u64 (sd_sector_end s + PAGE_SECTORS))
       (sd_put (swap s) (u32 (sd_sector_end s)) (page_words m (pn_addr n))) (with_ram m s))).

Lemma links_move h L hd hd' i l1 l2 :
  links_wf h L -> is_head hd -> is_head hd' -> hd <> hd' -> L hd = l1 ++ i :: l2 ->
  mapped h (PN i) ->
  exists h1 h2, delete_list_node h (PN i) = Ok h1 /\ insert_list_tail h1 (PN i) hd' = Ok h2 /\
    links_wf h2 (<[hd' := L hd' ++ [i]]> (<[hd := l1 ++ l2]> L)) /\ (forall r, mapped h r <-> mapped h2 r).
Proof.
  intros Hw Hh Hh' Hne HL Hm. destruct (links_delete h L hd l1 i l2 Hw Hh HL) as (h1 & E1 & Hw1 & Hm1).
  destruct (links_insert h1 (<[hd := l1 ++ l2]> L) hd' i Hw1 Hh') as (h2 & E2 & Hw2 & Hm2).
  - rewrite (on_list_delete h L hd l1 i l2) by done. tauto.
  - by apply Hm1.
  - exists h1, h2. split; [done|]. split; [done|]. rewrite fn_lookup_insert_ne in Hw2 by done. split; [done|].
    intros r. by rewrite Hm1.
Qed.

Lemma on_list_move h L hd hd' i l1 l2 j :
  links_wf h L -> is_head hd -> is_head hd' -> hd <> hd' -> L hd = l1 ++ i :: l2 ->
  on_list (<[hd' := L hd' ++ [i]]> (<[hd := l1 ++ l2]> L)) j <-> on_list L j.
Proof.
  intros Hw Hh Hh' Hne HL.
  assert (L hd' = (<[hd := l1 ++ l2]> L) hd') as -> by (by rewrite fn_lookup_insert_ne).
  rewrite on_list_insert, (on_list_delete h L hd l1 i l2) by done. split; [intros [[? _]| ->]|].
  - done.
  - exists hd. split; [done|]. rewrite HL. set_solver.
  - intros Hj. destruct (decide (j = i)); [by right|by left].
Qed.


Lemma swap_page_out_ok s L ent :
  nodes_ok s L -> entries_ok s ent (L user_page_mem_head) -> L user_page_mem_head <> [] ->
  exists i passed rest n h' L', let s' := swapped_out s ent i n passed h' in
    victim (ram s) ent (L user_page_mem_head) i passed rest /\ pn_list s !! i = Some n /\
    swap_page_out s = Ok (pn_addr n, s') /\ nodes_ok s' L' /\
    L' user_page_mem_head = rest /\ L' user_page_sd_head = L user_page_sd_head ++ [i] /\
    L' kernel_page_head = L kernel_page_head /\ (forall j, on_list L' j <-> on_list L j).
Proof.
  intros Hn He Hne. destruct (second_chance_ok s L ent Hn He Hne) as (i & passed & rest & h1 & L1 & Hv & E1 & Hn1 & HL1 & Ho1).
  set (s1 := with_links h1 _) in *. pose proof (victim_perm _ _ _ _ _ _ Hv) as Hp.
  destruct He as [_ He]. destruct (He i) as (n & En & Ep & Hu); [rewrite <- Hp; set_solver|].
  pose proof Hn1 as (Hl1 & Hm1 & Hs1).
  destruct (links_move h1 L1 user_page_mem_head user_page_sd_head i [] rest Hl1 I I) as (h2 & h3 & E2 & E3 & Hl3 & Hm3);
    [done|done|by apply (Hm1 _ n)|].
  set (L' := <[user_page_sd_head := _]> _) in Hl3.
  assert (forall j, on_list L' j <-> on_list L1 j) as Hon by (intros j; by apply (on_list_move h1)).
  assert (forall j, on_list L1 j <-> on_list L j) as Hon1.
  { intros j. split; intros (a & Ha & Hj); exists a; (split; [done|]); destruct (decide (a = user_page_mem_head)) as [->|Hna];
      [by rewrite <- Hp, <- HL1|by rewrite <- Ho1|by rewrite HL1, Hp|by rewrite Ho1]. }
  exists i, passed, rest, n, h3, L'. cbv zeta. split; [done|]. split; [done|]. split; [|split; [|split_and!]].
  - unfold swap_page_out. erewrite bind_ok by done.
    erewrite bind_ok by (apply lift_ok, (links_first _ _ user_page_mem_head (proj1 Hn) I)).
    rewrite decide_False by (destruct (L user_page_mem_head); [done|by intros [=]]).
    erewrite bind_ok by exact E1. erewrite bind_ok by (apply pn_links_ok; exact E2).
    erewrite bind_ok by (apply get_pn_ok; exact En). rewrite Ep. erewrite bind_ok by apply update_pte_ok. cbv zeta.
    rewrite (proj2 (Z.eqb_neq _ _) Hu). erewrite bind_ok by done. erewrite bind_ok by done.
    erewrite bind_ok by (apply set_pn_ok; exact En). erewrite bind_ok by done.
    erewrite bind_ok by (apply pn_links_ok; exact E3). done.
  - split; [exact Hl3|]. split.
    + intros j m. unfold swapped_out. simpl. intros Hj. apply Hm3. apply list_lookup_insert_Some in Hj as [(<- & _)|[_ Hj]].
      * by apply (Hm1 _ n).
      * by apply (Hm1 _ m).
    + intros j Hj%Hon%Hs1. unfold swapped_out. simpl. by apply list_lookup_insert_is_Some.
  - unfold L'. by rewrite fn_lookup_insert_ne, fn_lookup_insert.
  - unfold L'. rewrite fn_lookup_insert. by rewrite Ho1.
  - unfold L'. by rewrite !fn_lookup_insert_ne, Ho1.
  - intros j. by rewrite Hon.
Qed.

(** Statuses, bitmaps: the invariant is kept. *)
Lemma mm_wf_nodes s L s' L' :
  mm_wf s L -> nodes_ok s' L' -> (forall j, on_list L' j <-> on_list L j) ->
  (forall j, (pn_status <$> pn_list s' !! j) = (pn_status <$> pn_list s !! j)) ->
  bm_wf FREE_USER_PAGE_NUM (user_bitmap s') -> kernel_bitmap s' = kernel_bitmap s -> mm_wf s' L'.
Proof.
  intros Hw (Hl & Hm & Hn) Hon Hst Hu Hk. split; [done|done| |done|done|rewrite Hk; apply Hw].
  intros j n E. rewrite Hon. specialize (Hst j). rewrite E in Hst. simpl in Hst.
  destruct (pn_list s !! j) as [n0|] eqn:E0; [|done]. injection Hst as ->. by apply Hw.
Qed.
Lemma status_set_addr (l : list PageNode_t) (i : nat) n a (j : nat) :
  l !! i = Some n -> (pn_status <$> <[i := set_pn_addr a n]> l !! j) = (pn_status <$> (l !! j)).
Proof.
  intros E. destruct (decide (j = i)) as [->|Hne]; [|by rewrite list_lookup_insert_ne].
  rewrite list_lookup_insert_eq by (by eapply lookup_lt_Some). by rewrite E.
Qed.

(** C29. swap_page_out ends and takes the page the second-chance rule says: the first page
    not used lately, or the first of the list when all were; the page is stored on the card, its
    entry is not present and the lists stay well formed. *)
Theorem swap_out_second_chance s L ent :
  mm_wf s L -> entries_ok s ent (L user_page_mem_head) -> L user_page_mem_head <> [] ->
  exists i passed rest n s' L',
    victim (ram s) ent (L user_page_mem_head) i passed rest /\ pn_list s !! i = Some n /\
    swap_page_out s = Ok (pn_addr n, s') /\ mm_wf s' L' /\
    L' user_page_mem_head = rest /\ L' user_page_sd_head = L user_page_sd_head ++ [i] /\
    pn_list s' !! i = Some (set_pn_addr (sd_sector_end s) n) /\
    sd_page (swap s') (u32 (sd_sector_end s)) = page_words (ram s') (pn_addr n) /\
    get_attribute (ld64 (ram s') (ent i)) PAGE_PRESENT = 0 /\
    (forall a, a ∉ ent <$> L user_page_mem_head -> ld64 (ram s') a = ld64 (ram s) a).
Proof.
  intros Hw He Hne.
  destruct (swap_page_out_ok s L ent (mm_wf_nodes_ok _ _ Hw) He Hne) as
    (i & passed & rest & n & h' & L' & Hv & En & E & Hn' & Hm & Hs & Hk & Hon).
  pose proof (victim_perm _ _ _ _ _ _ Hv) as Hp. apply (fmap_Permutation ent) in Hp.
  exists i, passed, rest, n, (swapped_out s ent i n passed h'), L'.
  split; [done|]. split; [done|]. split; [done|]. split; [|split; [done|split; [done|split; [|split; [|split]]]]].
  - apply (mm_wf_nodes s L); [done|done|done| |apply Hw|done]. intros j. by apply status_set_addr.
  - unfold swapped_out. simpl. apply list_lookup_insert_eq. by eapply lookup_lt_Some.
  - unfold swapped_out. cbv zeta. simpl. apply sd_page_put. unfold page_words. by rewrite length_fmap, length_seq.
  - unfold swapped_out. cbv zeta. simpl. rewrite ld_st_eq, attr_clear_attr. unfold get_attribute.
    by rewrite <- Z.land_assoc, Z.land_lnot_diag, Z.land_0_r.
  - intros a Ha. unfold swapped_out. cbv zeta. simpl. rewrite <- Hp in Ha. rewrite ld_st_ne by set_solver.
    apply clear_all_ld. intros Hx. apply Ha. rewrite Hp.
    destruct Hv as [(l' & -> & _)|(_ & _ & ->)]; [rewrite fmap_app; set_solver|done].
Qed.


(** ** Swapping in *)

Lemma in_words_S n a b : b <> a -> in_words n (a + 8) b <-> in_words (S n) a b.
Proof.
  intros Hne. unfold in_words. replace (b - a) with ((b - (a + 8)) + 1 * 8) by lia. rewrite Z.mod_add by lia.
  pose proof (Z.div_mod (b - (a + 8)) 8 ltac:(lia)). split; intros [? ?]; split; (done || lia).
Qed.
Lemma put_words_ld a l m b :
  ld64 (put_words a l m) b =
  if decide (in_words (length l) a b) then default 0 (l !! Z.to_nat ((b - a) / 8)) else ld64 m b.
Proof.
  revert a m; induction l as [|v l IH]; intros a m; cbn [put_words length].
  { rewrite decide_False by (unfold in_words; lia). done. }
  rewrite IH. destruct (decide (b = a)) as [->|Hne].
  - rewrite decide_False by (unfold in_words; lia).
    rewrite decide_True by (unfold in_words; rewrite Z.sub_diag; split; [lia|done]).
    rewrite Z.sub_diag. simpl. apply ld_st_eq.
  - rewrite ld_st_ne by done. rewrite (decide_ext _ _ _ _ (in_words_S (length l) a b Hne)).
    case_decide as H1; [|done]. apply in_words_S in H1 as [H1 _]; [|done].
    replace (b - a) with ((b - (a + 8)) + 1 * 8) by lia. rewrite Z.div_add by lia.
    pose proof (Z.div_pos (b - (a + 8)) 8 ltac:(lia) ltac:(lia)).
    rewrite Z2Nat.inj_add by lia. by rewrite Nat.add_comm.
Qed.

Lemma page_words_length m kva : length (page_words m kva) = NUM_PTE_ENTRY.
Proof. unfold page_words. by rewrite length_fmap, length_seq. Qed.
Lemma page_words_ext m m' kva :
  (forall b, in_words NUM_PTE_ENTRY kva b -> ld64 m b = ld64 m' b) -> page_words m kva = page_words m' kva.
Proof.
  intros H. unfold page_words. apply list_fmap_ext. intros j i [-> Hi]%lookup_seq. apply H, in_words_slot.
  unfold NUM_PTE_ENTRY in Hi. lia.
Qed.
Lemma page_words_put l m kva : length l = NUM_PTE_ENTRY -> page_words (put_words kva l m) kva = l.
Proof.
  intros Hl. apply list_eq. intros i. unfold page_words. rewrite list_lookup_fmap.
  destruct (decide (i < NUM_PTE_ENTRY)%nat) as [Hi|Hi].
  - rewrite lookup_seq_lt by done. simpl. rewrite put_words_ld, Hl.
    rewrite decide_True by (apply in_words_slot; unfold NUM_PTE_ENTRY in Hi; lia).
    unfold slot. replace (kva + 8 * Z.of_nat i - kva) with (Z.of_nat i * 8) by lia.
    rewrite Z.div_mul, Nat2Z.id by lia. destruct (lookup_lt_is_Some_2 l i) as [x ->]; [lia|done].
  - rewrite lookup_seq_ge by lia. symmetry. apply lookup_ge_None. lia.
Qed.

(** The pages of the memory list are pages of the user pool, and no entry lies in
    such a page. *)
Definition in_pool (kva : Z) : Prop := exists k, 0 <= k < FREE_USER_PAGE_NUM /\ kva = user_kva k.
Definition apart (a : Z) : Prop := forall kva, in_pool kva -> ~ in_words NUM_PTE_ENTRY kva a.
Definition pool_ok s (ent : nat -> Z) (l : list nat) : Prop :=
  forall j, j ∈ l -> apart (ent j) /\ forall n, pn_list s !! j = Some n -> in_pool (pn_addr n).

(** A page from the bitmap or, when all are taken, from the memory list. *)
Lemma alloc_user_page_any s L ent :
  nodes_ok s L -> bm_wf FREE_USER_PAGE_NUM (user_bitmap s) ->
  entries_ok s ent (L user_page_mem_head) -> pool_ok s ent (L user_page_mem_head) ->
  (exists k, user_free s k) \/ L user_page_mem_head <> [] ->
  exists kva s' L', alloc_user_page s = Ok (kva, s') /\ in_pool kva /\ nodes_ok s' L' /\
    bm_wf FREE_USER_PAGE_NUM (user_bitmap s') /\ kernel_bitmap s' = kernel_bitmap s /\
    (forall j, (pn_status <$> pn_list s' !! j) = (pn_status <$> pn_list s !! j)) /\
    (forall j, j ∉ L user_page_mem_head -> pn_list s' !! j = pn_list s !! j) /\
    (forall j, on_list L' j <-> on_list L j) /\
    (forall p, p + 8 <= u32 (sd_sector_end s) -> sd_page (swap s') p = sd_page (swap s) p).
Proof.
  intros Hn Hb He Hp Hor. destruct (find_free_spec _ _ Hb) as [(k & _ & Hf & _)|[Ef Hnone]].
  - destruct (alloc_user_page_ok s Hb (ex_intro _ k Hf)) as (k' & Hf' & E). eexists _, _, L. split; [exact E|].
    split; [exists k'; split; [apply Hf'|done]|]. split; [done|]. split; [by apply bm_wf_set|done].
  - destruct Hor as [[k Hk]|Hne]; [by destruct (Hnone k)|].
    destruct (swap_page_out_ok s L ent Hn He Hne) as (i & passed & rest & n & h' & L' & Hv & En & E & Hn' & Hm & Hs & Hk & Hon).
    assert (i ∈ L user_page_mem_head) as Hi by (rewrite <- (victim_perm _ _ _ _ _ _ Hv); set_solver).
    exists (pn_addr n), (swapped_out s ent i n passed h'), L'. split; [|split; [by apply (Hp i Hi)|]].
    { unfold alloc_user_page. erewrite bind_ok by done. cbv zeta. by rewrite Ef, Z.eqb_refl. }
    split; [done|]. split; [done|]. split; [done|]. split; [intros j; by apply status_set_addr|]. split.
    + intros j Hj. unfold swapped_out. simpl. rewrite list_lookup_insert_ne; [done|]. by intros <-.
    + split; [done|]. intros p Hpp. unfold swapped_out. simpl. apply sd_page_put_ne. by right.
Qed.

Lemma nodes_ok_delete s L hd i l1 l2 :
  nodes_ok s L -> is_head hd -> L hd = l1 ++ i :: l2 ->
  exists h', delete_list_node (pn_links s) (PN i) = Ok h' /\ nodes_ok (with_links h' s) (<[hd := l1 ++ l2]> L) /\
    (forall j, on_list (<[hd := l1 ++ l2]> L) j <-> on_list L j /\ j <> i).
Proof.
  intros (Hl & Hm & Hn) Hh HL. destruct (links_delete _ _ hd l1 i l2 Hl Hh HL) as (h' & E & Hl' & Hm').
  assert (forall j, on_list (<[hd := l1 ++ l2]> L) j <-> on_list L j /\ j <> i) as Hon
    by (intros j; by apply (on_list_delete _ _ _ _ _ _ _ Hl)).
  exists h'. split; [done|]. split; [|done]. split; [done|]. split.
  - intros j n Ej. by apply Hm', (Hm _ n).
  - intros j [Hj _]%Hon. by apply Hn.
Qed.

Lemma swap_page_in_ok s L ent i l1 l2 n a :
  mm_wf s L -> L user_page_sd_head = l1 ++ i :: l2 ->
  pn_list s !! i = Some n -> pte_entry n = Some a -> pn_uva n <> 0 -> apart a ->
  entries_ok s ent (L user_page_mem_head) -> pool_ok s ent (L user_page_mem_head) ->
  (exists k, user_free s k) \/ L user_page_mem_head <> [] ->
  u32 (pn_addr n) + 8 <= u32 (sd_sector_end s) ->
  exists kva s' L', swap_page_in (PN i) s = Ok (tt, s') /\ mm_wf s' L' /\ i ∈ L' user_page_mem_head /\
    pn_list s' !! i = Some (set_pn_addr kva n) /\
    page_words (ram s') kva = sd_page (swap s) (u32 (pn_addr n)) /\
    pa2kva (get_pa (ld64 (ram s') a)) = kva /\ get_attribute (ld64 (ram s') a) USER_ATTR = USER_ATTR.
Proof.
  intros Hw HL En Ea Hu Hap He Hp Hor Hsec.
  destruct (nodes_ok_delete s L user_page_sd_head i l1 l2 (mm_wf_nodes_ok _ _ Hw) I HL) as (h1 & E1 & Hn1 & Hon1).
  set (L1 := <[user_page_sd_head := _]> L) in *. set (s1 := with_links h1 s) in *.
  assert (L1 user_page_mem_head = L user_page_mem_head) as HL1 by (unfold L1; by rewrite fn_lookup_insert_ne).
  assert (i ∉ L user_page_mem_head) as Hi.
  { rewrite <- HL1. intros Hi. destruct (proj1 (Hon1 i)) as [_ ?]; [by exists user_page_mem_head|done]. }
  destruct (alloc_user_page_any s1 L1 ent Hn1 (wf_user _ _ Hw)) as
    (kva & s2 & L2 & E2 & Hpool & Hn2 & Hb2 & Hk2 & Hst2 & Hsame2 & Hon2 & Hsd2);
    [by rewrite HL1|by rewrite HL1|by rewrite HL1|].
  assert (pn_list s2 !! i = Some n) as En2 by (rewrite Hsame2; [done|by rewrite HL1]).
  destruct Hpool as (k & Hk & ->). assert (kpage (user_kva k)) as Hkp by (by apply user_kva_page).
  set (v := point_to (ld64 (put_words (user_kva k) (sd_page (swap s2) (u32 (pn_addr n))) (ram s2)) a) (user_kva k) USER_ATTR).
  pose proof Hn2 as (Hl2 & Hm2 & Hx2).
  destruct (links_insert (pn_links s2) L2 user_page_mem_head i Hl2 I) as (h3 & E3 & Hl3 & Hm3).
  { rewrite Hon2, Hon1. tauto. } { by apply (Hm2 _ n). }
  set (m := st64 (put_words (user_kva k) (sd_page (swap s2) (u32 (pn_addr n))) (ram s2)) a v).
  set (s3 := with_links h3 (with_pns (<[i := set_pn_addr (user_kva k) n]> (pn_list s2)) (with_ram m s2))).
  set (L3 := <[user_page_mem_head := _]> L2) in *.
  assert (forall j, on_list L3 j <-> on_list L j) as Hon3.
  { intros j. unfold L3. rewrite on_list_insert, Hon2, Hon1 by done. split; [intros [[? _]| ->]; [done|]|].
    - exists user_page_sd_head. split; [done|]. rewrite HL. set_solver.
    - intros Hj. destruct (decide (j = i)); [by right|by left]. }
  exists (user_kva k), s3, L3. split; [|split; [|split_and!]].
  - unfold swap_page_in. erewrite bind_ok by done. erewrite bind_ok by (by apply get_pn_ok).
    rewrite (proj2 (Z.eqb_neq _ _) Hu). erewrite bind_ok by (apply pn_links_ok; exact E1).
    erewrite bind_ok by exact E2. erewrite bind_ok by (by apply get_pn_ok). erewrite bind_ok by done.
    erewrite bind_ok by (by apply set_pn_ok). rewrite Ea. erewrite bind_ok by apply update_pte_ok.
    by apply pn_links_ok.
  - apply (mm_wf_nodes s L); [done| |done| |done|done].
    + split; [done|]. split.
      * intros j nj Ej. simpl in Ej. apply Hm3. apply list_lookup_insert_Some in Ej as [(<- & _)|[_ Ej]]; by eapply Hm2.
      * intros j Hj. simpl. apply list_lookup_insert_is_Some. apply on_list_insert in Hj as [Hj| ->]; [by apply Hx2|by rewrite En2|done].
    + intros j. simpl. rewrite status_set_addr by done. apply Hst2.
  - unfold L3. rewrite fn_lookup_insert. set_solver.
  - simpl. apply list_lookup_insert_eq. by eapply lookup_lt_Some.
  - simpl. unfold m. rewrite (page_words_ext _ (put_words (user_kva k) (sd_page (swap s2) (u32 (pn_addr n))) (ram s2))).
    + rewrite page_words_put by apply sd_page_length. by apply Hsd2.
    + intros b Hb. apply ld_st_ne. intros <-. by apply (Hap (user_kva k)); [exists k|].
  - simpl. unfold m. rewrite ld_st_eq. by apply point_to_page.
  - simpl. unfold m. rewrite ld_st_eq. by apply point_to_all.
Qed.


Lemma rest_ok s s' ent lm i rest :
  i :: rest ≡ₚ lm -> (forall j, j <> i -> pn_list s' !! j = pn_list s !! j) ->
  entries_ok s ent lm -> pool_ok s ent lm -> entries_ok s' ent rest /\ pool_ok s' ent rest.
Proof.
  intros Hp Hsame [Hd He] Hpool. rewrite <- Hp in Hd. apply NoDup_cons in Hd as [Hi Hd].
  assert (forall j, j ∈ rest -> j <> i /\ j ∈ lm) as Hr.
  { intros j Hj. split; [|rewrite <- Hp; set_solver]. intros ->. apply Hi. by apply list_elem_of_fmap_2. }
  split; [split; [done|]|].
  - intros j [Hne Hj]%Hr. rewrite Hsame by done. by apply He.
  - intros j [Hne Hj]%Hr. rewrite Hsame by done. by apply Hpool.
Qed.

(** C4. A page that is swapped out and swapped in again has its contents back and is mapped,
    also when memory is full and another page has to make room for it. *)
Theorem swap_roundtrip s L ent :
  mm_wf s L -> entries_ok s ent (L user_page_mem_head) -> pool_ok s ent (L user_page_mem_head) ->
  (1 < length (L user_page_mem_head))%nat -> 0 <= sd_sector_end s < 2 ^ 32 - 8 ->
  exists i n a kva s1 kva' s2,
    swap_page_out s = Ok (kva, s1) /\ pn_list s !! i = Some n /\ pte_entry n = Some a /\ pn_addr n = kva /\
    swap_page_in (PN i) s1 = Ok (tt, s2) /\ pn_list s2 !! i = Some (set_pn_addr kva' n) /\
    page_words (ram s2) kva' = page_words (ram s) kva /\
    pa2kva (get_pa (ld64 (ram s2) a)) = kva' /\ get_attribute (ld64 (ram s2) a) USER_ATTR = USER_ATTR.
Proof.
  intros Hw He Hp Hlen Hsec.
  destruct (swap_page_out_ok s L ent (mm_wf_nodes_ok _ _ Hw) He) as
    (i & passed & rest & n & h' & L1 & Hv & En & E & Hn' & Hm & Hs & Hk & Hon).
  { intros H0. rewrite H0 in Hlen. simpl in Hlen. lia. }
  pose proof (victim_perm _ _ _ _ _ _ Hv) as Hperm. set (s1 := swapped_out s ent i n passed h') in *.
  assert (i ∈ L user_page_mem_head) as Hi by (rewrite <- Hperm; set_solver).
  destruct (rest_ok s s1 ent _ i rest Hperm) as [He1 Hp1]; [|done|done|].
  { intros j Hne. unfold s1, swapped_out. simpl. by rewrite list_lookup_insert_ne. }
  destruct (proj2 He i Hi) as (n0 & En0 & Ep & Hu). rewrite En in En0. injection En0 as <-.
  destruct (Hp i Hi) as [Hap Hpn]. specialize (Hpn n En).
  assert (mm_wf s1 L1) as Hw1.
  { apply (mm_wf_nodes s L); [done|done|done| |apply Hw|done]. intros j. by apply status_set_addr. }
  destruct (swap_page_in_ok s1 L1 ent i (L user_page_sd_head) [] (set_pn_addr (sd_sector_end s) n) (ent i) Hw1)
    as (kva' & s2 & L2 & E2 & _ & _ & En2 & Hc & Ha & Hat); [done| |done|done|done|by rewrite Hm|by rewrite Hm| | |].
  { unfold s1, swapped_out. simpl. apply list_lookup_insert_eq. by eapply lookup_lt_Some. }
  { right. rewrite Hm. intros ->. apply Permutation_length in Hperm. simpl in Hperm. lia. }
  { simpl. unfold PAGE_SECTORS. rewrite (u64_small (sd_sector_end s + 8)), !u32_small by lia. lia. }
  exists i, n, (ent i), (pn_addr n), s1, kva', s2. do 5 (split; [done|]). split; [exact En2|]. split; [|done].
  rewrite Hc. simpl. rewrite sd_page_put by apply page_words_length.
  apply page_words_ext. intros b Hb.
  assert (b ∉ ent <$> L user_page_mem_head) as Hbn.
  { intros (j & -> & Hj)%list_elem_of_fmap. by apply (proj1 (Hp j Hj) (pn_addr n)). }
  rewrite ld_st_ne by (intros <-; apply Hbn; by apply list_elem_of_fmap_2). apply clear_all_ld.
  intros Hx. apply Hbn. destruct Hv as [(l' & -> & _)|(_ & _ & ->)]; [rewrite fmap_app; set_solver|done].
Qed.


(** ** Releasing the pages of a process *)

Definition own s (p : Z) (i : nat) : bool :=
  match pn_list s !! i with Some n => pn_pid n =? p | None => false end.
(** The user page [k], or the kernel page [k], belongs to a node of [l] the process owns. *)
Definition gives_user s (p : Z) (l : list nat) (k : Z) : Prop :=
  exists i n, i ∈ l /\ pn_list s !! i = Some n /\ pn_pid n = p /\ pn_uva n <> pn_addr n /\ pn_addr n = user_kva k.
Definition gives_kernel s (p : Z) (l : list nat) (k : Z) : Prop :=
  exists i n, i ∈ l /\ pn_list s !! i = Some n /\ pn_pid n = p /\ pn_uva n = pn_addr n /\ pn_addr n = kernel_kva k.
(** The node's page is a page of the pool its bit is in. *)
Definition addr_ok (n : PageNode_t) : Prop :=
  if pn_uva n =? pn_addr n then exists k, 0 <= k < FREE_KERNEL_PAGE_NUM /\ pn_addr n = kernel_kva k
  else in_pool (pn_addr n).
Definition addrs_ok s (l : list nat) : Prop := forall i n, i ∈ l -> pn_list s !! i = Some n -> addr_ok n.

(** [s'] is [s] after the nodes of [l] that [p] owns were recycled from the list
    [hd], which was [pre ++ l]. *)
Record released (mem : bool) (p : Z) (hd : pnref) (pre l : list nat) s L s' L' : Prop := {
  rel_wf : mm_wf s' L';
  rel_list : L' hd = pre ++ filter (fun i => own s p i = false) l;
  rel_other : forall hd', hd' <> hd -> L' hd' = L hd';
  rel_nodes : forall i, pn_list s' !! i =
    if decide (i ∈ l /\ own s p i = true) then set_pn_status PN_INACTIVE <$> pn_list s !! i else pn_list s !! i;
  rel_user : forall k, user_free s' k <-> user_free s k \/ mem = true /\ gives_user s p l k /\ 0 <= k < FREE_USER_PAGE_NUM;
  rel_kernel : forall k, kernel_free s' k <->
    kernel_free s k \/ mem = true /\ gives_kernel s p l k /\ 0 <= k < FREE_KERNEL_PAGE_NUM;
  rel_rest : ram s' = ram s /\ swap s' = swap s /\ sd_sector_end s' = sd_sector_end s /\ shm_pages s' = shm_pages s /\
    cur s' = cur s }.

Arguments rel_wf {_ _ _ _ _ _ _ _ _} _.
Arguments rel_list {_ _ _ _ _ _ _ _ _} _.
Arguments rel_other {_ _ _ _ _ _ _ _ _} _ _ _.
Arguments rel_nodes {_ _ _ _ _ _ _ _ _} _ _.
Arguments rel_user {_ _ _ _ _ _ _ _ _} _ _.
Arguments rel_kernel {_ _ _ _ _ _ _ _ _} _ _.
Arguments rel_rest {_ _ _ _ _ _ _ _ _} _.

Lemma free_in_clear n bm k j :
  bm_wf n bm -> 0 <= k < n -> free_in n (clear_bit bm k) j <-> free_in n bm j \/ j = k.
Proof.
  intros [Hb Hl] Hk. unfold free_in. split.
  - intros [Hj Hf]. rewrite bit_unset in Hf by lia. case_decide; [by right|by left].
  - intros [[Hj Hf]| ->]; (split; [done|]); rewrite bit_unset by lia; by case_decide.
Qed.

Lemma user_kva_inj i j : user_kva i = user_kva j -> i = j.
Proof. unfold user_kva, PAGE_SIZE. lia. Qed.
Lemma kernel_kva_inj i j : kernel_kva i = kernel_kva j -> i = j.
Proof. unfold kernel_kva, PAGE_SIZE. lia. Qed.

Lemma release_page_ok mem n s :
  bm_wf FREE_USER_PAGE_NUM (user_bitmap s) -> bm_wf FREE_KERNEL_PAGE_NUM (kernel_bitmap s) ->
  (mem = true -> addr_ok n) ->
  exists ub kb, release_page mem n s = Ok (tt, with_kbitmap kb (with_ubitmap ub s)) /\
    bm_wf FREE_USER_PAGE_NUM ub /\ bm_wf FREE_KERNEL_PAGE_NUM kb /\
    (forall k, free_in FREE_USER_PAGE_NUM ub k <->
       user_free s k \/ mem = true /\ pn_uva n <> pn_addr n /\ pn_addr n = user_kva k /\ 0 <= k < FREE_USER_PAGE_NUM) /\
    (forall k, free_in FREE_KERNEL_PAGE_NUM kb k <->
       kernel_free s k \/ mem = true /\ pn_uva n = pn_addr n /\ pn_addr n = kernel_kva k /\ 0 <= k < FREE_KERNEL_PAGE_NUM).
Proof.
  intros Hu Hk Ha. unfold release_page. destruct mem.
  2:{ exists (user_bitmap s), (kernel_bitmap s). split; [by destruct s|]. split; [done|]. split; [done|].
      split; intros k; (split; [by left|by intros [?|[? _]]]). }
  specialize (Ha eq_refl). unfold addr_ok in Ha. destruct (Z.eqb_spec (pn_uva n) (pn_addr n)) as [E|E].
  - destruct Ha as (k & Hr & Ea). rewrite Ea in E |- *. exists (user_bitmap s), (clear_bit (kernel_bitmap s) k). cbn [negb].
    unfold release_kernel_page. rewrite page_idx_kernel by done. erewrite bind_ok by done.
    erewrite bind_ok by (apply lift_ok, (unmark_ok _ _ _ Hk Hr)). split; [by destruct s|].
    split; [done|]. split; [by apply bm_wf_clear|]. split; [intros j; split; [by left|intros [?|(_ & Hx & _)]; [done|by destruct Hx]]|].
    intros j. rewrite free_in_clear by done. unfold kernel_free. split; [intros [?| ->]; [by left|by right]|].
    intros [?|(_ & _ & ->%kernel_kva_inj & _)]; [by left|by right].
  - destruct Ha as (k & Hr & Ea). rewrite Ea in E |- *. exists (clear_bit (user_bitmap s) k), (kernel_bitmap s). cbn [negb].
    unfold release_user_page. rewrite page_idx_user by done. erewrite bind_ok by done.
    erewrite bind_ok by (apply lift_ok, (unmark_ok _ _ _ Hu Hr)). split; [by destruct s|].
    split; [by apply bm_wf_clear|]. split; [done|]. split; [|intros j; split; [by left|intros [?|(_ & Hx & _)]; [done|by destruct E]]].
    intros j. rewrite free_in_clear by done. unfold user_free. split; [intros [?| ->]; [by left|by right]|].
    intros [?|(_ & _ & ->%user_kva_inj & _)]; [by left|by right].
Qed.

Lemma mm_wf_delete s L hd i n l1 l2 :
  mm_wf s L -> is_head hd -> L hd = l1 ++ i :: l2 -> pn_list s !! i = Some n ->
  exists h', delete_list_node (pn_links s) (PN i) = Ok h' /\
    mm_wf (with_links h' (with_pns (<[i := set_pn_status PN_INACTIVE n]> (pn_list s)) s)) (<[hd := l1 ++ l2]> L).
Proof.
  intros Hw Hh HL En.
  destruct (nodes_ok_delete s L hd i l1 l2 (mm_wf_nodes_ok _ _ Hw) Hh HL) as (h' & E & (Hl & Hm & Hn) & Hon).
  exists h'. split; [done|]. split; simpl; try apply Hw; [done| | |].
  - intros j m [(<- & _)|[_ Ej]]%list_lookup_insert_Some; by eapply Hm.
  - intros j m Ej. rewrite Hon. apply list_lookup_insert_Some in Ej as [(<- & <- & _)|[Hne Ej]].
    + simpl. split; [done|tauto].
    + rewrite (wf_status _ _ Hw _ _ Ej). naive_solver.
  - intros j Hj. apply list_lookup_insert_is_Some. by apply Hn.
Qed.


Lemma released_nil mem p hd pre s L : mm_wf s L -> L hd = pre -> released mem p hd pre [] s L s L.
Proof.
  intros Hw HL. split; [done|by rewrite app_nil_r|done| | | |done].
  - intros i. rewrite decide_False; [done|]. intros [H _]. by apply elem_of_nil in H.
  - intros k. split; [by left|]. intros [?|(_ & (i & n & Hi & _) & _)]; [done|]. by apply elem_of_nil in Hi.
  - intros k. split; [by left|]. intros [?|(_ & (i & n & Hi & _) & _)]; [done|]. by apply elem_of_nil in Hi.
Qed.

Lemma released_skip mem p hd pre i l s L s' L' :
  own s p i = false -> released mem p hd (pre ++ [i]) l s L s' L' -> released mem p hd pre (i :: l) s L s' L'.
Proof.
  intros Ho [H1 H2 H3 H4 H5 H6 H7]. split; [done| |done| | | |done].
  - rewrite filter_cons_True, H2, <- app_assoc by done. done.
  - intros j. rewrite H4. apply decide_ext. rewrite elem_of_cons. split; [tauto|].
    intros [[->|?] Hj]; [congruence|done].
  - intros k. rewrite H5. unfold gives_user. split; (intros [?|(? & (j & n & Hj & En & Hp & ?) & ?)]; [by left|right]).
    + split; [done|]. split; [|done]. exists j, n. set_solver.
    + split; [done|]. split; [|done]. exists j, n. apply elem_of_cons in Hj as [->|Hj]; [|done].
      unfold own in Ho. rewrite En in Ho. by apply Z.eqb_neq in Ho.
  - intros k. rewrite H6. unfold gives_kernel. split; (intros [?|(? & (j & n & Hj & En & Hp & ?) & ?)]; [by left|right]).
    + split; [done|]. split; [|done]. exists j, n. set_solver.
    + split; [done|]. split; [|done]. exists j, n. apply elem_of_cons in Hj as [->|Hj]; [|done].
      unfold own in Ho. rewrite En in Ho. by apply Z.eqb_neq in Ho.
Qed.

(** One node recycled, then the others. *)
Lemma released_step mem p hd pre i n l s L h ub kb s' L' :
  let s1 := with_links h (with_kbitmap kb (with_ubitmap ub
              (with_pns (<[i := set_pn_status PN_INACTIVE n]> (pn_list s)) s))) in
  pn_list s !! i = Some n -> pn_pid n = p -> i ∉ l ->
  (forall k, free_in FREE_USER_PAGE_NUM ub k <->
     user_free s k \/ mem = true /\ pn_uva n <> pn_addr n /\ pn_addr n = user_kva k /\ 0 <= k < FREE_USER_PAGE_NUM) ->
  (forall k, free_in FREE_KERNEL_PAGE_NUM kb k <->
     kernel_free s k \/ mem = true /\ pn_uva n = pn_addr n /\ pn_addr n = kernel_kva k /\ 0 <= k < FREE_KERNEL_PAGE_NUM) ->
  released mem p hd pre l s1 (<[hd := pre ++ l]> L) s' L' -> released mem p hd pre (i :: l) s L s' L'.
Proof.
  intros s1 En Hp Hi Hub Hkb [H1 H2 H3 H4 H5 H6 H7].
  assert (forall j, j <> i -> pn_list s1 !! j = pn_list s !! j) as Hsame
    by (intros j Hne; simpl; by rewrite list_lookup_insert_ne).
  assert (own s p i = true) as Hoi by (unfold own; rewrite En; by apply Z.eqb_eq).
  assert (forall j, own s1 p j = own s p j) as Hown.
  { intros j. destruct (decide (j = i)) as [->|Hne]; [|unfold own; by rewrite Hsame].
    unfold own. simpl. rewrite list_lookup_insert_eq by (by eapply lookup_lt_Some). by rewrite En. }
  assert (forall j, j ∈ l -> j <> i) as Hne by (intros j Hj ->; done).
  split; [done| | | | | |done].
  - rewrite H2, filter_cons_False by congruence. f_equal. apply list_filter_iff. intros j. by rewrite Hown.
  - intros hd' Hh. rewrite H3 by done. by rewrite fn_lookup_insert_ne.
  - intros j. rewrite H4, Hown. destruct (decide (j = i)) as [->|Hn].
    + rewrite decide_False by (intros [? _]; done). rewrite decide_True by (split; [set_solver|done]).
      simpl. rewrite list_lookup_insert_eq by (by eapply lookup_lt_Some). by rewrite En.
    + rewrite Hsame by done. apply decide_ext. rewrite elem_of_cons. naive_solver.
  - intros k. rewrite H5. unfold user_free at 1. simpl. rewrite Hub. split.
    + intros [[?|(? & ? & ? & ?)]|(? & (j & m & Hj & Em & ?) & ?)]; [by left|right..].
      * split; [done|]. split; [|done]. exists i, n. set_solver.
      * split; [done|]. split; [|done]. exists j, m. rewrite Hsame in Em by auto. set_solver.
    + intros [?|(? & (j & m & Hj & Em & ? & ? & ?) & ?)]; [by left; left|].
      apply elem_of_cons in Hj as [->|Hj]; [left; right; simplify_eq; done|]. right. split; [done|]. split; [|done].
      exists j, m. rewrite Hsame by auto. done.
  - intros k. rewrite H6. unfold kernel_free at 1. simpl. rewrite Hkb. split.
    + intros [[?|(? & ? & ? & ?)]|(? & (j & m & Hj & Em & ?) & ?)]; [by left|right..].
      * split; [done|]. split; [|done]. exists i, n. set_solver.
      * split; [done|]. split; [|done]. exists j, m. rewrite Hsame in Em by auto. set_solver.
    + intros [?|(? & (j & m & Hj & Em & ? & ? & ?) & ?)]; [by left; left|].
      apply elem_of_cons in Hj as [->|Hj]; [left; right; simplify_eq; done|]. right. split; [done|]. split; [|done].
      exists j, m. rewrite Hsame by auto. done.
Qed.

Lemma recycle_loop_ok mem pcb hd l : forall fuel pre s L,
  mm_wf s L -> is_head hd -> L hd = pre ++ l -> (length l < fuel)%nat -> (mem = true -> addrs_ok s l) ->
  exists s' L', recycle_loop fuel pcb hd mem (Some (match l with [] => hd | i :: _ => PN i end)) s = Ok (tt, s') /\
    released mem (pid pcb) hd pre l s L s' L'.
Proof.
  induction l as [|i l IH]; intros [|fuel] pre s L Hw Hh HL Hf Ha; simpl in Hf; try lia; cbn [recycle_loop].
  { rewrite decide_True by done. exists s, L. split; [done|]. rewrite app_nil_r in HL. by apply released_nil. }
  rewrite decide_False by (intros [= E]; by rewrite <- E in Hh). erewrite bind_ok by done. erewrite bind_ok by done.
  destruct (wf_node _ _ Hw i) as [n En]; [exists hd; split; [done|]; rewrite HL; set_solver|].
  pose proof (proj1 (wf_links _ _ Hw) hd Hh) as Hdll. rewrite HL, fmap_app, fmap_cons in Hdll.
  destruct (is_dll_elem _ _ _ _ _ Hdll) as (Hnx & _).
  assert (List.hd hd (PN <$> l) = match l with [] => hd | j :: _ => PN j end) as Ehd by (by destruct l).
  erewrite bind_ok by (apply lift_ok, (ld_next_spec _ _ _ Hnx)). rewrite Ehd.
  erewrite bind_ok by (by apply get_pn_ok). destruct (Z.eqb_spec (pn_pid n) (pid pcb)) as [Hp|Hp].
  2:{ erewrite bind_ok by done. destruct (IH fuel (pre ++ [i]) s L) as (s' & L' & E & Hr); [done|done| |lia| |].
      { by rewrite <- app_assoc. } { intros Hm j nj Hj. apply (Ha Hm). set_solver. }
      exists s', L'. split; [exact E|]. apply released_skip; [|done]. unfold own. rewrite En. by apply Z.eqb_neq. }
  assert (i ∉ l) as Hi.
  { destruct Hdll as [Hd _]. apply NoDup_cons in Hd as [_ Hd]. apply NoDup_app in Hd as (_ & _ & Hd).
    apply NoDup_cons in Hd as [Hd _]. by rewrite elem_PN in Hd. }
  destruct (mm_wf_delete s L hd i n pre l Hw Hh HL En) as (h' & Ed & Hw1).
  destruct (release_page_ok mem n (with_pns (<[i := set_pn_status PN_INACTIVE n]> (pn_list s)) s)
              (wf_user _ _ Hw) (wf_kernel _ _ Hw)) as (ub & kb & Er & Hbu & Hbk & Hub & Hkb).
  { intros Hm. apply (Ha Hm i); [set_solver|done]. }
  rewrite bind_bind. erewrite bind_ok by (by apply set_pn_ok). rewrite bind_bind. erewrite bind_ok by exact Er.
  erewrite bind_ok by (apply pn_links_ok; exact Ed). set (s1 := with_links h' _).
  destruct (IH fuel pre s1 (<[hd := pre ++ l]> L)) as (s' & L' & E & Hr).
  - split; try apply Hw1; done.
  - done.
  - by rewrite fn_lookup_insert.
  - lia.
  - intros Hm j nj Hj Ej. apply (Ha Hm j); [set_solver|]. simpl in Ej. rewrite list_lookup_insert_ne in Ej; [done|].
    by intros ->.
  - exists s', L'. split; [exact E|]. eapply released_step; done.
Qed.


Lemma recycle_node_ok mem pcb hd s L :
  mm_wf s L -> is_head hd -> (mem = true -> addrs_ok s (L hd)) ->
  exists s' L', recycle_node_from_list pcb hd mem s = Ok (tt, s') /\ released mem (pid pcb) hd [] (L hd) s L s' L'.
Proof.
  intros Hw Hh Ha.
  destruct (recycle_loop_ok mem pcb hd (L hd) (size (pn_links s)) [] s L) as (s' & L' & E & Hr); try done.
  { by apply nodes_fuel, Hh; apply mm_wf_nodes_ok. }
  exists s', L'. split; [|done]. unfold recycle_node_from_list. erewrite bind_ok by done.
  erewrite bind_ok by (apply lift_ok, (links_first _ _ hd (wf_links _ _ Hw) Hh)). exact E.
Qed.

(** What recycling leaves of a node. *)
Definition view (n : PageNode_t) : Z * Z * Z := (pn_pid n, pn_uva n, pn_addr n).
Definition same_view s s' : Prop := forall i, (view <$> pn_list s' !! i) = (view <$> pn_list s !! i).

Lemma released_view mem p hd pre l s L s' L' : released mem p hd pre l s L s' L' -> same_view s s'.
Proof. intros Hr i. rewrite (rel_nodes Hr). case_decide; [|done]. by destruct (pn_list s !! i). Qed.

Lemma same_view_node s s' i n :
  same_view s s' -> pn_list s' !! i = Some n -> exists n0, pn_list s !! i = Some n0 /\ view n0 = view n.
Proof. intros Hv E. specialize (Hv i). rewrite E in Hv. destruct (pn_list s !! i) as [n0|]; [|done]. exists n0. simpl in Hv. split; congruence. Qed.
Lemma same_view_sym s s' : same_view s s' -> same_view s' s.
Proof. intros H i. by rewrite H. Qed.
Lemma same_view_trans s1 s2 s3 : same_view s1 s2 -> same_view s2 s3 -> same_view s1 s3.
Proof. intros H1 H2 i. by rewrite H2. Qed.
Lemma own_view s s' p i : same_view s s' -> own s' p i = own s p i.
Proof.
  intros Hv. unfold own. specialize (Hv i). destruct (pn_list s' !! i), (pn_list s !! i); try done.
  by injection Hv as -> _ _.
Qed.
Lemma gives_user_view s s' p l k : same_view s s' -> gives_user s p l k -> gives_user s' p l k.
Proof.
  intros Hv%same_view_sym (i & n & Hi & E & H). destruct (same_view_node _ _ _ _ Hv E) as (n0 & E0 & [= H1 H2 H3]).
  exists i, n0. by rewrite H1, H2, H3.
Qed.
Lemma gives_kernel_view s s' p l k : same_view s s' -> gives_kernel s p l k -> gives_kernel s' p l k.
Proof.
  intros Hv%same_view_sym (i & n & Hi & E & H). destruct (same_view_node _ _ _ _ Hv E) as (n0 & E0 & [= H1 H2 H3]).
  exists i, n0. by rewrite H1, H2, H3.
Qed.
Lemma addrs_ok_view s s' l : same_view s s' -> addrs_ok s l -> addrs_ok s' l.
Proof.
  intros Hv Ha i n Hi E. destruct (same_view_node _ _ _ _ Hv E) as (n0 & E0 & [= H1 H2 H3]).
  specialize (Ha i n0 Hi E0). unfold addr_ok in *. by rewrite H2, H3 in Ha.
Qed.
Lemma gives_user_app s p l l' k : gives_user s p (l ++ l') k <-> gives_user s p l k \/ gives_user s p l' k.
Proof. unfold gives_user. setoid_rewrite elem_of_app. naive_solver. Qed.
Lemma gives_kernel_app s p l l' k : gives_kernel s p (l ++ l') k <-> gives_kernel s p l k \/ gives_kernel s p l' k.
Proof. unfold gives_kernel. setoid_rewrite elem_of_app. naive_solver. Qed.

Lemma release_process_page_ok s L pcb :
  mm_wf s L -> addrs_ok s (L kernel_page_head ++ L user_page_mem_head) ->
  let p := pid pcb in let inmem := L kernel_page_head ++ L user_page_mem_head in
  exists s' L', release_process_page pcb s = Ok (tt, s') /\ mm_wf s' L' /\
    (forall hd, is_head hd -> L' hd = filter (fun i => own s p i = false) (L hd)) /\
    (forall i, on_list L i -> own s p i = true -> node_free s' i) /\
    (forall i, own s p i = false -> pn_list s' !! i = pn_list s !! i) /\
    (forall k, user_free s' k <-> user_free s k \/ gives_user s p inmem k /\ 0 <= k < FREE_USER_PAGE_NUM) /\
    (forall k, kernel_free s' k <-> kernel_free s k \/ gives_kernel s p inmem k /\ 0 <= k < FREE_KERNEL_PAGE_NUM) /\
    ram s' = ram s /\ swap s' = swap s /\ cur s' = cur s.
Proof.
  intros Hw Ha p inmem.
  destruct (recycle_node_ok true pcb kernel_page_head s L Hw I) as (s1 & L1 & E1 & R1).
  { intros _ i n Hi. apply Ha. set_solver. }
  pose proof (released_view _ _ _ _ _ _ _ _ _ R1) as V1.
  pose proof (rel_other R1) as O1.
  destruct (recycle_node_ok true pcb user_page_mem_head s1 L1 (rel_wf R1) I) as (s2 & L2 & E2 & R2).
  { intros _. rewrite O1 by done. apply (addrs_ok_view s); [done|]. intros i n Hi. apply Ha. set_solver. }
  pose proof (same_view_trans _ _ _ V1 (released_view _ _ _ _ _ _ _ _ _ R2)) as V2.
  pose proof (rel_other R2) as O2.
  destruct (recycle_node_ok false pcb user_page_sd_head s2 L2 (rel_wf R2) I) as (s3 & L3 & E3 & R3); [done|].
  pose proof (rel_other R3) as O3.
  pose proof (rel_nodes R1) as N1. pose proof (rel_nodes R2) as N2.
  pose proof (rel_nodes R3) as N3.
  assert (forall i, own s1 p i = own s p i) as W1 by (intros; by apply own_view).
  assert (forall i, own s2 p i = own s p i) as W2 by (intros; by apply own_view).
  exists s3, L3. split; [|split; [apply R3|split; [|split; [|split; [|split; [|split]]]]]].
  - unfold release_process_page. erewrite bind_ok by exact E1. erewrite bind_ok by exact E2. exact E3.
  - intros [] Hh; try done.
    + rewrite O3, O2 by done. apply R1.
    + rewrite O3, (rel_list R2), O1 by done. apply list_filter_iff. intros i. by rewrite W1.
    + rewrite (rel_list R3), O2, O1 by done. apply list_filter_iff. intros i. by rewrite W2.
  - intros i (hd & Hh & Hi) Ho. destruct (wf_node _ _ Hw i) as [n En]; [by exists hd|].
    exists (set_pn_status PN_INACTIVE n). split; [|done]. rewrite N3, N2, N1. rewrite W1, W2, O1, O2, O1, En, Ho by done.
    destruct hd; try done; repeat case_decide; naive_solver.
  - intros i Ho. rewrite N3, W2, Ho. rewrite decide_False by (by intros [_ ?]). rewrite N2, W1, Ho.
    rewrite decide_False by (by intros [_ ?]). rewrite N1. fold p. rewrite Ho. by rewrite decide_False by (by intros [_ ?]).
  - intros k. rewrite (rel_user R3), (rel_user R2), (rel_user R1), O1 by done.
    unfold inmem. rewrite gives_user_app. pose proof (gives_user_view s s1 p (L user_page_mem_head) k V1).
    pose proof (gives_user_view s1 s p (L user_page_mem_head) k (same_view_sym _ _ V1)). fold p. naive_solver.
  - intros k. rewrite (rel_kernel R3), (rel_kernel R2), (rel_kernel R1), O1 by done.
    unfold inmem. rewrite gives_kernel_app. pose proof (gives_kernel_view s s1 p (L user_page_mem_head) k V1).
    pose proof (gives_kernel_view s1 s p (L user_page_mem_head) k (same_view_sym _ _ V1)). fold p. naive_solver.
  - pose proof (rel_rest R1) as (? & ? & _ & _ & ?). pose proof (rel_rest R2) as (? & ? & _ & _ & ?).
    pose proof (rel_rest R3) as (? & ? & _ & _ & ?). split_and!; congruence.
Qed.

(** C8. release_process_page gives back exactly the pages of the process: its nodes leave
    the three lists and become inactive, the bits of its pages in memory are cleared, nothing of
    another process changes and the invariant of the lists holds. *)
Theorem release_exact s L pcb :
  mm_wf s L -> addrs_ok s (L kernel_page_head ++ L user_page_mem_head) ->
  let p := pid pcb in let inmem := L kernel_page_head ++ L user_page_mem_head in
  exists s' L', release_process_page pcb s = Ok (tt, s') /\ mm_wf s' L' /\
    (forall hd, is_head hd -> L' hd = filter (fun i => own s p i = false) (L hd)) /\
    (forall i, on_list L i -> own s p i = true -> node_free s' i) /\
    (forall i, own s p i = false -> pn_list s' !! i = pn_list s !! i) /\
    (forall k, user_free s' k <-> user_free s k \/ gives_user s p inmem k /\ 0 <= k < FREE_USER_PAGE_NUM) /\
    (forall k, kernel_free s' k <-> kernel_free s k \/ gives_kernel s p inmem k /\ 0 <= k < FREE_KERNEL_PAGE_NUM) /\
    ram s' = ram s /\ swap s' = swap s.
Proof.
  intros Hw Ha p inmem.
  destruct (release_process_page_ok s L pcb Hw Ha) as (s' & L' & E & W & HL & Hn & Hs & Hu & Hk & Hr & Hsw & _).
  exists s', L'. done.
Qed.


(** ** Protection *)

Lemma user_va_small va : 0 <= va < 2 ^ 38 -> user_va va /\ page_of va = va / PAGE_SIZE.
Proof.
  intros Hv. assert (Z.land va VA_MASK = va) as E.
  { change VA_MASK with (Z.ones 39). rewrite Z.land_ones by lia. apply Z.mod_small. lia. }
  unfold in_window, page_of. rewrite vpn2_spec, E. split; [|done]. split; [apply Z.div_pos; lia|apply Z.div_lt_upper_bound; lia].
Qed.

Lemma leaf_same_page m pg va va' :
  0 <= va < 2 ^ 38 -> 0 <= va' < 2 ^ 38 -> va / 4096 = va' / 4096 -> leaf m pg va = leaf m pg va'.
Proof.
  intros Hv Hv' Hd. assert (vpn2 va = vpn2 va' /\ vpn1 va = vpn1 va' /\ vpn0 va = vpn0 va') as (E2 & E1 & E0).
  { rewrite !vpn2_spec, !vpn1_spec, !vpn0_spec.
    assert (Z.land va VA_MASK = va /\ Z.land va' VA_MASK = va') as [-> ->]
      by (change VA_MASK with (Z.ones 39); rewrite !Z.land_ones, !Z.mod_small by lia; done).
    assert (forall x, x / 2 ^ 21 = x / 4096 / 512 /\ x / 2 ^ 30 = x / 4096 / 2 ^ 18) as Hdd
      by (intros x; rewrite !Z.div_div by lia; done).
    change (2 ^ 12) with 4096. destruct (Hdd va) as [-> ->], (Hdd va') as [-> ->]. by rewrite Hd. }
  unfold leaf, uva2pte. by rewrite E2, E1, E0.
Qed.

(** The accesses a value of [prot] allows, by the cause of the page fault. *)
Definition allows (p : prot) (cause : Z) : bool :=
  match p with
  | PROT_NONE => false
  | PROT_READ => cause =? EXCC_LOAD_PAGE_FAULT
  | PROT_WRITE => cause =? EXCC_STORE_PAGE_FAULT
  | PROT_EXEC => cause =? EXCC_INST_PAGE_FAULT
  end.
Definition RWX : Z := PAGE_READ + PAGE_WRITE + PAGE_EXEC.

Lemma protect_attr p e mask :
  Z.land mask (Z.lnot RWX) = 0 ->
  get_attribute (protect p e) mask =
  Z.land mask (match p with PROT_NONE => 0 | PROT_READ => PAGE_READ | PROT_WRITE => PAGE_WRITE | PROT_EXEC => PAGE_EXEC end).
Proof.
  intros Hm.
  assert (get_attribute (clear_attribute e RWX) mask = 0) as H0.
  { rewrite attr_clear_attr. unfold get_attribute. by rewrite <- Z.land_assoc, Hm, Z.land_0_r. }
  unfold protect. fold RWX. destruct p; rewrite ?attr_set_attr, H0, ?Z.lor_0_l; [by rewrite Z.land_0_r|apply Z.land_comm..].
Qed.

Lemma mprotect_loop_ok v p T : prot_of v = Some p ->
  forall n s uva, let pg := pgdir (cur s) in
  pt_wf (ram s) pg T -> uva mod PAGE_SIZE = 0 -> 0 <= uva -> uva + PAGE_SIZE * Z.of_nat n <= 2 ^ 38 ->
  (forall va, uva <= va < uva + PAGE_SIZE * Z.of_nat n -> uva2pte (ram s) va pg <> None) ->
  exists m', mprotect_loop n uva v s = Ok (0, with_ram m' s) /\ pt_wf m' pg T /\
    (forall va, 0 <= va < 2 ^ 38 -> uva2pte m' va pg = uva2pte (ram s) va pg) /\
    (forall va, 0 <= va < 2 ^ 38 -> leaf m' pg va =
       if decide (uva <= va < uva + PAGE_SIZE * Z.of_nat n) then protect p (leaf (ram s) pg va) else leaf (ram s) pg va).
Proof.
  intros Hv. induction n as [|n IH]; intros s uva pg Hwf Hal H0 Hr Hmap.
  { exists (ram s). cbn [mprotect_loop]. split; [by destruct s|]. split; [done|]. split; [done|].
    intros va _. rewrite decide_False by lia. done. }
  unfold PAGE_SIZE in *. destruct (user_va_small uva ltac:(lia)) as [Hu Hpg].
  destruct (uva2pte (ram s) uva pg) as [a|] eqn:Ea; [|by destruct (Hmap uva ltac:(lia))].
  set (w := protect p (leaf (ram s) pg uva)).
  destruct (set_leaf_ok (ram s) pg T uva a w Hwf Hu Ea) as (W1 & Hl1 & Hw1 & Ho1).
  set (s1 := with_ram (st64 (ram s) a w) s).
  destruct (IH s1 (uva + 4096)) as (m' & E & W2 & Hw2 & Hl2); [done| |lia|lia| |].
  { rewrite Zplus_mod, Hal. done. }
  { intros va Hva. simpl. rewrite Hw1 by (apply user_va_small; lia). apply Hmap. lia. }
  assert (forall va, 0 <= va < 2 ^ 38 -> uva2pte m' va pg = uva2pte (ram s) va pg) as Hw'.
  { intros va Hva. rewrite Hw2 by done. simpl. apply Hw1. apply user_va_small; lia. }
  exists m'. split; [|split; [done|split; [done|]]].
  - cbn [mprotect_loop]. erewrite bind_ok by done. unfold walk. rewrite bind_bind. erewrite bind_ok by done.
    erewrite bind_ok by done. fold pg. rewrite Hv, Ea. erewrite bind_ok by apply update_pte_ok.
    assert (ld64 (ram s) a = leaf (ram s) pg uva) as -> by (unfold leaf; by rewrite Ea).
    rewrite u64_small by (unfold PAGE_SIZE; lia). fold w. change (with_ram (st64 (ram s) a w) s) with s1.
    unfold PAGE_SIZE. rewrite E. by destruct s.
  - intros va Hva. rewrite Hl2 by done. simpl. fold pg. destruct (user_va_small va Hva) as [Hu' Hpg'].
    destruct (decide (va / 4096 = uva / 4096)) as [Hd|Hd].
    + assert (uva <= va < uva + 4096) as Hin.
      { pose proof (Z.div_mod va 4096 ltac:(lia)). pose proof (Z.div_mod uva 4096 ltac:(lia)).
        pose proof (Z.mod_pos_bound va 4096 ltac:(lia)). lia. }
      rewrite decide_False, decide_True by lia.
      rewrite (leaf_same_page (st64 (ram s) a w) pg va uva), (leaf_same_page (ram s) pg va uva) by lia. exact Hl1.
    + rewrite Ho1 by (done || (unfold page_of in *; rewrite Hpg, Hpg'; done)).
      apply decide_ext.
      assert (~ (uva <= va < uva + 4096)).
      { intros Hin. apply Hd. pose proof (Z.div_mod uva 4096 ltac:(lia)).
        symmetry. apply Z.div_unique with (va - uva); lia. }
      lia.
Qed.


Lemma check_mprotect_protected s va cause p e0 :
  user_va va -> uva2pte (ram s) va (pgdir (cur s)) <> None ->
  leaf (ram s) (pgdir (cur s)) va = protect p e0 ->
  cause = EXCC_INST_PAGE_FAULT \/ cause = EXCC_LOAD_PAGE_FAULT \/ cause = EXCC_STORE_PAGE_FAULT ->
  check_mprotect va cause s = Ok (if allows p cause then Returns else Exits, s).
Proof.
  intros Hu Hw Hl Hc. unfold check_mprotect. erewrite bind_ok by done. unfold walk. rewrite bind_bind.
  erewrite bind_ok by done. erewrite bind_ok by done. unfold leaf in Hl.
  destruct (uva2pte (ram s) va (pgdir (cur s))) as [a|]; [|done]. erewrite bind_ok by apply load_ok.
  rewrite Hl. cbv zeta. rewrite !protect_attr by done. by destruct Hc as [-> |[-> | ->]], p.
Qed.

(** C30. What do_mprotect sets on a range of pages is what check_mprotect enforces on every
    address of the range; the frames and all other pages are unchanged. *)
Theorem mprotect_enforced s T addr len v p :
  let pg := pgdir (cur s) in let last := addr + PAGE_SIZE * NBYTES2PAGE len in
  pt_wf (ram s) pg T -> addr mod PAGE_SIZE = 0 -> 0 <= addr -> 0 <= len -> last <= 2 ^ 38 ->
  prot_of v = Some p -> (forall va, addr <= va < last -> uva2pte (ram s) va pg <> None) ->
  exists m', do_mprotect addr len v s = Ok (0, with_ram m' s) /\ pt_wf m' pg T /\
    (forall va, 0 <= va < 2 ^ 38 -> ~ addr <= va < last -> leaf m' pg va = leaf (ram s) pg va) /\
    (forall va cause, addr <= va < last ->
       cause = EXCC_INST_PAGE_FAULT \/ cause = EXCC_LOAD_PAGE_FAULT \/ cause = EXCC_STORE_PAGE_FAULT ->
       check_mprotect va cause (with_ram m' s) = Ok (if allows p cause then Returns else Exits, with_ram m' s)) /\
    (forall va, addr <= va < last -> get_pa (leaf m' pg va) = get_pa (leaf (ram s) pg va)).
Proof.
  intros pg last Hwf Hal H0 Hlen Hlast Hp Hmap.
  assert (0 <= NBYTES2PAGE len) as Hn.
  { unfold NBYTES2PAGE, PAGE_SIZE. pose proof (Z.div_pos len 4096 Hlen ltac:(lia)). case_match; lia. }
  set (n := Z.to_nat (NBYTES2PAGE len)). assert (last = addr + PAGE_SIZE * Z.of_nat n) as El by (unfold n, last; by rewrite Z2Nat.id).
  rewrite El in Hlast, Hmap |- *.
  destruct (mprotect_loop_ok v p T Hp n s addr Hwf Hal H0 Hlast Hmap) as (m' & E & W & Hw & Hl).
  unfold PAGE_SIZE in *. exists m'. split; [|split; [done|split; [|split]]].
  - unfold do_mprotect. change 0xFFF with (Z.ones 12). rewrite Z.land_ones by lia. change (2 ^ 12) with 4096. rewrite Hal. cbn [Z.eqb negb].
    rewrite i32_small by (unfold last in *; lia). exact E.
  - intros va Hva Hout. rewrite Hl by done. by rewrite decide_False.
  - intros va cause Hin Hc. apply (check_mprotect_protected _ _ _ _ (leaf (ram s) pg va)); [apply user_va_small; lia| | |done].
    + simpl. rewrite Hw by lia. by apply Hmap.
    + simpl. rewrite Hl by lia. by rewrite decide_True.
  - intros va Hin. rewrite Hl, decide_True by lia. unfold get_pa. f_equal. f_equal. unfold protect.
    destruct p; rewrite ?get_pfn_set_attr, get_pfn_clear_attr by (vm_compute; done); done.
Qed.

(** ** The break *)

(** do_brk only raises the break and do_sbrk never moves it into the stack; a refused
    call changes nothing; check_brk lets exactly the addresses up to the break and above the end
    of the stack through. *)
Theorem brk_bounds s :
  0 <= brk (cur s) ->
  (forall addr r s', 0 <= addr -> do_brk addr s = Ok (r, s') ->
     r = 0 /\ brk (cur s) < brk (cur s') < USER_STACK_END + PAGE_SIZE /\ brk (cur s') = addr \/ r = -1 /\ s' = s) /\
  (forall inc r s', do_sbrk inc s = Ok (r, s') ->
     r = brk (cur s) /\ brk (cur s') = u64 (brk (cur s) + ROUND (u64 inc) PAGE_SIZE) /\ brk (cur s') < USER_STACK_END \/
     r = u64 (-1) /\ s' = s) /\
  (forall vpn, check_brk vpn s = Ok (Returns, s) <-> vpn <= brk (cur s) \/ USER_STACK_END <= vpn).
Proof.
  intros Hb. split; [|split].
  - intros addr r s' Ha. unfold do_brk. erewrite bind_ok by done. cbv zeta.
    assert (page_base addr <= addr < page_base addr + 4096) as Hpb.
    { unfold page_base. change (PAGE_SIZE - 1) with (Z.ones 12).
      rewrite <- Z.ldiff_land, Z.ldiff_ones_r, Z.shiftl_mul_pow2, Z.shiftr_div_pow2 by lia.
      pose proof (Z.div_mod addr (2 ^ 12) ltac:(lia)). pose proof (Z.mod_pos_bound addr (2 ^ 12) ltac:(lia)). lia. }
    destruct (_ && _) eqn:E; [|intros [= <- <-]; by right].
    apply andb_true_iff in E as [E1%Z.gtb_lt E2%Z.ltb_lt]. erewrite bind_ok by done. intros [= <- <-]. left.
    simpl. unfold PAGE_SIZE. split; [done|]. split; [lia|done].
  - intros inc r s'. unfold do_sbrk. erewrite bind_ok by done.
    destruct (Z.ltb_spec (u64 (brk (cur s) + ROUND (u64 inc) PAGE_SIZE)) USER_STACK_END).
    + erewrite bind_ok by done. intros [= <- <-]. by left.
    + intros [= <- <-]. by right.
  - intros vpn. unfold check_brk. erewrite bind_ok by done. destruct (_ && _) eqn:E.
    + apply andb_true_iff in E as [E1%Z.gtb_lt E2%Z.ltb_lt]. split; [done|lia].
    + apply andb_false_iff in E. rewrite Z.gtb_ltb, !Z.ltb_ge in E. by split.
Qed.


(** ** The kernel pool when it is used up *)

(** When no kernel page is free, alloc_kernel_page hands out a page of the user pool,
    and releasing it as a kernel page writes past the end of kernel_bitmap. *)
Theorem kernel_pool_overflow s L ent :
  mm_wf s L -> entries_ok s ent (L user_page_mem_head) -> pool_ok s ent (L user_page_mem_head) ->
  L user_page_mem_head <> [] -> (forall k, ~ kernel_free s k) ->
  exists kva s1, alloc_kernel_page s = Ok (kva, s1) /\ in_pool kva /\
    forall s2, length (kernel_bitmap s2) = length (kernel_bitmap s) -> release_kernel_page kva s2 = Err Fault.
Proof.
  intros Hw He Hp Hne Hfull.
  destruct (find_free_spec _ _ (wf_kernel _ _ Hw)) as [(k & _ & Hf & _)|[Ef _]]; [by destruct (Hfull k)|].
  destruct (swap_page_out_ok s L ent (mm_wf_nodes_ok _ _ Hw) He Hne) as
    (i & passed & rest & n & h' & L' & Hv & En & E & _).
  assert (i ∈ L user_page_mem_head) as Hi by (rewrite <- (victim_perm _ _ _ _ _ _ Hv); set_solver).
  destruct (proj2 (Hp i Hi) n En) as (k & Hk & Ea). exists (pn_addr n), (swapped_out s ent i n passed h').
  split; [unfold alloc_kernel_page; erewrite bind_ok by done; cbv zeta; by rewrite Ef, Z.eqb_refl|].
  split; [by exists k|]. intros s2 Hlen.
  assert (page_idx (pn_addr n) INIT_KERNEL_STACK = FREE_KERNEL_PAGE_NUM + k) as Eidx.
  { rewrite Ea. unfold page_idx, user_kva, PAGE_SIZE, USER_MEM_BASE, INIT_KERNEL_STACK, FREE_KERNEL_PAGE_NUM, FREE_USER_PAGE_NUM in *.
    rewrite u64_small by lia. symmetry. apply Z.div_unique with 0; lia. }
  unfold release_kernel_page. erewrite bind_ok by done. rewrite Eidx. unfold unmark_page_free.
  rewrite (proj2 (Z.ltb_ge _ _)); [done|]. destruct (wf_kernel _ _ Hw) as [_ Hl].
  rewrite Hlen. apply Z.div_le_lower_bound; lia.
Qed.


End Facts.
