(* ===== verification/MmWitness.v ===== *)
(** * Concrete states of memory management

    A card as a store of words, a decidable form of the invariant, states built by
    running the code, and the instances of the theorems there. *)
From stdpp Require Import functions.
From S2P Require Import Prelude DList Sched FsLayout PageTable Mm MmFacts.

(** ** A card *)

Definition card : Type := words.
#[global] Instance card_device : SwapDevice card.
Proof.
  refine {| sd_page d p := page_words d (512 * p); sd_put d p v := put_words (512 * p) (take NUM_PTE_ENTRY v) d |}.
  - intros. apply page_words_length.
  - intros d p v Hv. rewrite take_ge by lia. by apply page_words_put.
  - intros d p p' v Hne. apply page_words_ext. intros b [Hb _]. rewrite put_words_ld, decide_False; [done|].
    intros [Hb' _]. rewrite length_take in Hb'. unfold NUM_PTE_ENTRY in *. lia.
Defined.

(** ** Deciding the invariant *)

#[global] Instance linked_dec (h : gmap pnref (@node pnref)) p q : Decision (linked h p q).
Proof. unfold linked. apply _. Defined.
#[global] Instance chain_dec (h : gmap pnref (@node pnref)) p l q : Decision (chain h p l q).
Proof. revert p. induction l as [|r l IH]; intros p; simpl; [apply _|]. by apply and_dec; [apply _|]. Defined.
#[global] Instance is_dll_dec (h : gmap pnref (@node pnref)) p l : Decision (is_dll h p l).
Proof. unfold is_dll. apply _. Defined.

(** The three lists as one function. *)
Definition lists (lk lm ls : list nat) (r : pnref) : list nat :=
  match r with kernel_page_head => lk | user_page_mem_head => lm | user_page_sd_head => ls | PN _ => [] end.

Definition mm_check (s : @mmst card) (lk lm ls : list nat) : Prop :=
  is_dll (pn_links s) kernel_page_head (PN <$> lk) /\ is_dll (pn_links s) user_page_mem_head (PN <$> lm) /\
  is_dll (pn_links s) user_page_sd_head (PN <$> ls) /\ NoDup (lk ++ lm ++ ls) /\
  Forall (fun i => mapped (pn_links s) (PN i)) (seq 0 (length (pn_list s))) /\
  Forall (fun '(i, n) => bool_decide (pn_status n = PN_ACTIVE) = bool_decide (i ∈ lk ++ lm ++ ls))
    (imap (fun i n => (i, n)) (pn_list s)) /\
  Forall (fun i => i < length (pn_list s))%nat (lk ++ lm ++ ls) /\
  Forall (fun b => 0 <= b < 2 ^ 8) (user_bitmap s) /\ 8 * Z.of_nat (length (user_bitmap s)) = FREE_USER_PAGE_NUM /\
  Forall (fun b => 0 <= b < 2 ^ 8) (kernel_bitmap s) /\ 8 * Z.of_nat (length (kernel_bitmap s)) = FREE_KERNEL_PAGE_NUM.
#[global] Instance mapped_dec (h : gmap pnref (@node pnref)) p : Decision (mapped h p).
Proof. unfold mapped. apply _. Defined.
#[global] Instance mm_check_dec s lk lm ls : Decision (mm_check s lk lm ls).
Proof. unfold mm_check. repeat apply and_dec; apply _. Defined.

Lemma on_lists lk lm ls i : on_list (lists lk lm ls) i <-> i ∈ lk ++ lm ++ ls.
Proof.
  rewrite !elem_of_app. split.
  - intros ([] & Hh & Hi); simpl in *; tauto.
  - intros [H|[H|H]]; [exists kernel_page_head|exists user_page_mem_head|exists user_page_sd_head]; done.
Qed.

Lemma mm_check_wf s lk lm ls : mm_check s lk lm ls -> mm_wf s (lists lk lm ls).
Proof.
  intros (Dk & Dm & Ds & Hnd & Hmap & Hst & Hlt & Hub & Hul & Hkb & Hkl). split.
  - split; [by intros [] Hh|]. rewrite !NoDup_app in Hnd. destruct Hnd as (_ & H1 & _ & H2 & _).
    intros [j1| | |] [j2| | |] i Ha Hb Hi Hi'; simpl in *; try done; exfalso; set_solver.
  - intros i n E. eapply Forall_forall in Hmap; [exact Hmap|]. apply elem_of_seq. apply lookup_lt_Some in E. lia.
  - intros i n E. rewrite on_lists. eapply (Forall_lookup_1 _ _ i (i, n)) in Hst.
    + cbv beta iota in Hst. by rewrite <- (bool_decide_eq_true (pn_status n = PN_ACTIVE)), Hst, bool_decide_eq_true.
    + by rewrite list_lookup_imap, E.
  - intros i Hi%on_lists. eapply Forall_forall in Hlt; [|exact Hi]. by apply lookup_lt_is_Some_2.
  - done.
  - done.
Qed.

(** ** States *)

Definition proc (p pg : Z) : pcb_t := mkPcb 0 0 0 0 p TASK_RUNNING 0 0 0 0 0 [] 0 0 pg MTHREAD 0 0x40000.
Definition pgA : Z := kernel_kva 4.
Definition pgB : Z := kernel_kva 5.
Definition procA : pcb_t := proc 1 pgA.
Definition procB : pcb_t := proc 2 pgB.

Definition raw : @mmst card := {|
  ram := ∅; user_bitmap := replicate 4608 0; kernel_bitmap := replicate 1024 0;
  pn_list := replicate 8 (mkPN PN_INACTIVE None 0 0 0);
  pn_links := list_to_map ((fun r => (r, Node None None)) <$>
    [kernel_page_head; user_page_mem_head; user_page_sd_head] ++ (PN <$> seq 0 8));
  sd_sector_end := 0; swap := ∅; shm_pages := replicate 16 (mkShm 0 SHM_UNUSED 0 0);
  userMemCurr := USER_STACK_ADDR; io_base := IO_ADDR_START; cur := procA |}.

Definition st_of {A} (r : res (A * @mmst card)) : @mmst card := match r with Ok (_, s) => s | Err _ => raw end.

(** After [init_mem_manager] and the allocation of the two root tables. *)
Definition boot : @mmst card :=
  Eval vm_compute in st_of ((init_mem_manager 200;; alloc_kernel_page;; alloc_kernel_page) raw).
(** Process 1 has touched two pages. *)
Definition two : @mmst card :=
  st_of ((alloc_page_helper 0x10000 pgA procA;; alloc_page_helper 0x20000 pgA procA) boot).
(** The entries of the nodes of [two]. *)
Definition ent2 (i : nat) : Z := default 0 (n ← pn_list two !! i; pte_entry n).

Lemma boot_wf : mm_wf boot (lists [] [] []).
Proof. apply mm_check_wf. by_computation. Qed.
Lemma boot_tables : tables_ok boot pgA {[pgA := Root]}.
Proof.
  split; [split|].
  - lia.
  - done.
  - intros p l [<- _]%lookup_singleton_Some. by apply kernel_kva_page.
  - intros i _. by left.
  - intros p i j [_ [=]]%lookup_singleton_Some.
  - intros p k [l [<- _]%lookup_singleton_Some] Hf E. apply kernel_kva_inj in E as <-. by destruct Hf as [_ Hf].
Qed.
Lemma boot_kfree : at_least 2 (kernel_free boot).
Proof. exists [6; 7]. split; [by_computation|]. split; [done|]. intros x Hx. repeat (apply elem_of_cons in Hx as [->|Hx]; [done|]). by apply elem_of_nil in Hx. Qed.
Lemma boot_nfree : at_least 3 (node_free boot).
Proof.
  exists [0; 1; 2]%nat. split; [by_computation|]. split; [done|].
  intros x Hx. repeat (apply elem_of_cons in Hx as [->|Hx]; [by eexists|]). by apply elem_of_nil in Hx.
Qed.

Lemma two_wf : mm_wf two (lists [0; 1]%nat [2; 3]%nat []).
Proof. apply mm_check_wf. by_computation. Qed.

Definition entries_check (s : @mmst card) (ent : nat -> Z) (l : list nat) : Prop :=
  NoDup (ent <$> l) /\
  Forall (fun j => match pn_list s !! j with
    | Some n => pte_entry n = Some (ent j) /\ pn_uva n <> 0 /\ ent j < USER_MEM_BASE /\
        pn_addr n = user_kva (page_idx (pn_addr n) USER_MEM_BASE) /\
        0 <= page_idx (pn_addr n) USER_MEM_BASE < FREE_USER_PAGE_NUM
    | None => False end) l.
#[global] Instance entries_check_dec s ent l : Decision (entries_check s ent l).
Proof. unfold entries_check. apply and_dec; [apply _|]. apply Forall_dec. intros j. destruct (pn_list s !! j); apply _. Defined.

Lemma apart_below a : a < USER_MEM_BASE -> apart a.
Proof. intros Ha kva (k & Hk & ->) [Hin _]. unfold user_kva, PAGE_SIZE in Hin. lia. Qed.

Lemma entries_check_ok s ent l : entries_check s ent l -> entries_ok s ent l /\ pool_ok s ent l.
Proof.
  intros [Hnd Hf]. split; [split; [done|]|]; intros j Hj; eapply Forall_forall in Hf; try exact Hj.
  - destruct (pn_list s !! j) as [n|] eqn:E; [|done]. exists n. tauto.
  - destruct (pn_list s !! j) as [n|] eqn:E; [|done]. destruct Hf as (_ & _ & Ha & Hu & Hr).
    split; [by apply apart_below|]. intros m [= <-]. by exists (page_idx (pn_addr n) USER_MEM_BASE).
Qed.
Definition addr_check (n : PageNode_t) : bool :=
  if pn_uva n =? pn_addr n
  then let k := page_idx (pn_addr n) INIT_KERNEL_STACK in
       (pn_addr n =? kernel_kva k) && (0 <=? k) && (k <? FREE_KERNEL_PAGE_NUM)
  else let k := page_idx (pn_addr n) USER_MEM_BASE in
       (pn_addr n =? user_kva k) && (0 <=? k) && (k <? FREE_USER_PAGE_NUM).
Definition addrs_check (s : @mmst card) (l : list nat) : bool :=
  forallb (fun i => match pn_list s !! i with Some n => addr_check n | None => true end) l.
Lemma addrs_check_ok s l : addrs_check s l = true -> addrs_ok s l.
Proof.
  intros Hc i n Hi En. unfold addrs_check in Hc. rewrite forallb_forall in Hc.
  specialize (Hc i (proj1 (list_elem_of_In _ _) Hi)). cbv beta in Hc. rewrite En in Hc. unfold addr_check, addr_ok in *.
  destruct (pn_uva n =? pn_addr n); cbv zeta in Hc; rewrite !andb_true_iff, Z.eqb_eq, Z.leb_le, Z.ltb_lt in Hc;
    destruct Hc as [[Ha H0] H1]; eexists; (split; [split; [exact H0|exact H1]|exact Ha]).
Qed.
Lemma two_entries : entries_ok two ent2 [2; 3]%nat /\ pool_ok two ent2 [2; 3]%nat.
Proof. apply entries_check_ok. by_computation. Qed.

(** Deciding the shape of a page table. *)
#[global] Instance level_eq_dec : EqDecision level.
Proof. solve_decision. Defined.
#[global] Instance kpage_dec p : Decision (kpage p).
Proof. unfold kpage. apply _. Defined.
Definition points (m : words) (T : gmap Z level) (a : Z) (l : level) : Prop :=
  ld64 m a = 0 \/ T !! pa2kva (get_pa (ld64 m a)) = Some l.
#[global] Instance points_dec m T a l : Decision (points m T a l).
Proof. unfold points. apply _. Defined.
Definition pt_check (m : words) (pgdir : Z) (T : gmap Z level) : Prop :=
  T !! pgdir = Some Root /\ map_Forall (fun p _ => kpage p) T /\
  Forall (fun i => points m T (slot pgdir i) (Lv2 i)) (seqZ 0 256) /\
  map_Forall (fun p l => match l with
    | Lv2 i => Forall (fun j => points m T (slot p j) (Lv1 i j)) (seqZ 0 512)
    | _ => True end) T.
#[global] Instance pt_check_dec m pgdir T : Decision (pt_check m pgdir T).
Proof. unfold pt_check. repeat apply and_dec; try apply _. apply map_Forall_dec. intros p []; apply _. Defined.
Lemma pt_check_wf m pgdir T : pt_check m pgdir T -> pt_wf m pgdir T.
Proof.
  intros (H1 & H2 & H3 & H4). split; [lia|done| | |].
  - intros p l E. by apply (H2 p l).
  - intros i Hi. eapply Forall_forall in H3; [exact H3|]. apply elem_of_seqZ. lia.
  - intros p i j E Hj. specialize (H4 p _ E). simpl in H4. eapply Forall_forall in H4; [exact H4|].
    apply elem_of_seqZ. lia.
Qed.
Definition T2 : gmap Z level := {[pgA := Root; kernel_kva 6 := Lv2 0; kernel_kva 7 := Lv1 0 0]}.
Lemma two_tables : pt_wf (ram two) pgA T2.
Proof. apply pt_check_wf. by_computation. Qed.
Lemma two_cur : cur two = procA.
Proof. vm_compute. reflexivity. Qed.
Lemma page_mapped m pg va va' :
  0 <= va < 2 ^ 38 -> va' / 4096 = va / 4096 -> 0 <= va' < 2 ^ 38 -> leaf m pg va <> 0 -> uva2pte m va' pg <> None.
Proof.
  intros Hv Hd Hv' Hl Hn. apply Hl. rewrite <- (leaf_same_page m pg va' va Hv' Hv Hd). unfold leaf. by rewrite Hn.
Qed.
Lemma two_mapped va : 0x10000 <= va < 0x11000 -> uva2pte (ram two) va pgA <> None.
Proof.
  intros Hv. apply (page_mapped _ _ 0x10000); [lia| |lia|].
  - change (0x10000 / 4096) with 16. symmetry. apply Z.div_unique with (va - 0x10000); lia.
  - vm_compute. discriminate.
Qed.

(** ** Instances of the theorems *)

Lemma alloc_page_maps_witness :
  exists k s', alloc_page_helper 0x10000 pgA procA boot = Ok (user_kva k, s') /\
    pa2kva (get_pa (leaf (ram s') pgA 0x10000)) = user_kva k /\
    leaf (ram s') pgA 0x20000 = leaf (ram boot) pgA 0x20000.
Proof.
  destruct (alloc_page_maps boot (lists [] [] []) {[pgA := Root]} 0x10000 procA boot_wf boot_tables)
    as (k & i & s' & L' & T' & E & _ & _ & _ & _ & _ & [Ha _] & Ho & _).
  - by_computation.
  - by_computation.
  - exact boot_kfree.
  - by exists 3.
  - exact boot_nfree.
  - exists k, s'. split; [exact E|]. split; [exact Ha|]. apply Ho; by_computation.
Defined.

Lemma swap_out_second_chance_witness :
  exists i n s', swap_page_out two = Ok (pn_addr n, s') /\ pn_list two !! i = Some n /\
    get_attribute (ld64 (ram s') (ent2 i)) PAGE_PRESENT = 0.
Proof.
  destruct (swap_out_second_chance two _ ent2 two_wf (proj1 two_entries) ltac:(discriminate))
    as (i & passed & rest & n & s' & L' & _ & En & E & _ & _ & _ & _ & _ & Hp & _).
  exists i, n, s'. split; [exact E|]. split; [exact En|exact Hp].
Defined.

Lemma swap_roundtrip_witness :
  exists i kva s1 kva' s2, swap_page_out two = Ok (kva, s1) /\ swap_page_in (PN i) s1 = Ok (tt, s2) /\
    page_words (ram s2) kva' = page_words (ram two) kva.
Proof.
  destruct (swap_roundtrip two _ ent2 two_wf (proj1 two_entries) (proj2 two_entries))
    as (i & n & a & kva & s1 & kva' & s2 & E1 & _ & _ & _ & E2 & _ & Hc & _); [by_computation|by_computation|].
  exists i, kva, s1, kva', s2. split; [exact E1|]. split; [exact E2|exact Hc].
Defined.

Lemma release_exact_witness :
  exists s', release_process_page procA two = Ok (tt, s') /\ node_free s' 2.
Proof.
  destruct (release_exact two _ procA two_wf) as (s' & L' & E & _ & _ & Hn & _).
  - apply addrs_check_ok. by_computation.
  - exists s'. split; [exact E|]. apply Hn; [|by_computation]. apply on_lists. by_computation.
Defined.

Lemma mprotect_enforced_witness :
  exists m', do_mprotect 0x10000 4096 1 two = Ok (0, with_ram m' two) /\
    check_mprotect 0x10008 EXCC_STORE_PAGE_FAULT (with_ram m' two) = Ok (Exits, with_ram m' two).
Proof.
  destruct (mprotect_enforced two T2 0x10000 4096 1 PROT_READ) as (m' & E & _ & _ & Hc & _).
  - rewrite two_cur. exact two_tables.
  - reflexivity.
  - lia.
  - lia.
  - by_computation.
  - reflexivity.
  - intros va Hva. rewrite two_cur. apply two_mapped. exact Hva.
  - exists m'. split; [exact E|]. apply (Hc 0x10008 EXCC_STORE_PAGE_FAULT); [by_computation|]. right. right. reflexivity.
Defined.

Lemma brk_bounds_witness : check_brk 0x30000 boot = Ok (Returns, boot).
Proof.
  assert (0 <= brk (cur boot)) as Hb by by_computation.
  destruct (brk_bounds boot Hb) as (_ & _ & H). apply (H 0x30000). left. by_computation.
Defined.

(** [two] with every kernel page taken. *)
Definition two_full : @mmst card := with_kbitmap (replicate 1024 255) two.
Lemma two_full_wf : mm_wf two_full (lists [0; 1]%nat [2; 3]%nat []).
Proof. apply mm_check_wf. by_computation. Qed.
Lemma two_full_entries : entries_ok two_full ent2 [2; 3]%nat /\ pool_ok two_full ent2 [2; 3]%nat.
Proof. apply entries_check_ok. by_computation. Qed.
Lemma two_full_none k : ~ kernel_free two_full k.
Proof.
  intros [Hk Hf]. change (kernel_bitmap two_full) with (replicate 1024 255) in Hf.
  unfold bit, FREE_KERNEL_PAGE_NUM in *.
  pose proof (Z.mod_pos_bound k 8 ltac:(lia)). rewrite lookup_replicate_2 in Hf.
  - simpl in Hf. assert (255 = Z.ones 8) as E by done. rewrite E, Z.ones_spec_low in Hf by lia. discriminate.
  - pose proof (Z.div_pos k 8 ltac:(lia) ltac:(lia)). pose proof (Z.div_lt_upper_bound k 8 1024 ltac:(lia) ltac:(lia)). lia.
Qed.
Lemma kernel_pool_overflow_witness :
  exists kva s1, alloc_kernel_page two_full = Ok (kva, s1) /\ release_kernel_page kva two_full = Err Fault.
Proof.
  destruct (kernel_pool_overflow two_full _ ent2 two_full_wf) as (kva & s1 & E & _ & Hf).
  - exact (proj1 two_full_entries).
  - exact (proj2 two_full_entries).
  - discriminate.
  - exact two_full_none.
  - exists kva, s1. split; [exact E|]. apply Hf. reflexivity.
Defined.

(** ** A shared page is freed while it is attached *)

(** Process 1 and process 2 attach the page of key 7, then process 1 detaches it. *)
Definition shared_run : M (@mmst card) (Z * Z) :=
  uvaA ← shm_page_get 4 7;
  modify (with_cur procB);;
  uvaB ← shm_page_get 4 7;
  modify (with_cur procA);;
  shm_page_dt uvaA;;
  mret (uvaA, uvaB).
Definition shared : @mmst card := st_of (shared_run boot).
Definition shared_uva : Z := match shared_run boot with Ok ((_, uvaB), _) => uvaB | Err _ => 0 end.

(** Two processes attach a shared page and one detaches it: the bit of the page is
    cleared and the page can be allocated again although the other process still has it mapped.
    *)
Theorem shared_page_freed_early :
  user_free shared 0 /\
  pa2kva (get_pa (leaf (ram shared) pgB shared_uva)) = user_kva 0 /\
  get_attribute (leaf (ram shared) pgB shared_uva) PAGE_PRESENT = PAGE_PRESENT /\
  (user_num <$> shm_pages shared !! 0%nat) = Some 1 /\
  (fst <$> match alloc_user_page shared with Ok r => Some r | Err _ => None end) = Some (user_kva 0).
Proof.
  split; [by_computation|]. split; [by_computation|]. split; [by_computation|].
  split; vm_compute; reflexivity.
Qed.
