(* ===== verification/UserMem.v ===== *)
(** * Bytes of memory and user addresses

    The kernel reads the memory of the running process through its page table
    (the bit SUM of sstatus is set) and all physical memory through the linear
    mapping.  A byte is a part of a 64-bit word of [words], little endian. *)
From S2P Require Import Prelude CString DList Sched FsLayout PageTable Mm.

Definition ld8 (m : words) (a : Z) : Z := Z.land (Z.shiftr (ld64 m (a - a mod 8)) (8 * (a mod 8))) 255.
Definition put_byte (w k v : Z) : Z :=
  Z.lor (Z.land w (Z.lnot (Z.shiftl 255 (8 * k)))) (Z.shiftl (u8 v) (8 * k)).
Definition st8 (m : words) (a v : Z) : words := st64 m (a - a mod 8) (put_byte (ld64 m (a - a mod 8)) (a mod 8) v).

(** The kernel address of the byte at [va], if its page is present. *)
Definition translate (m : words) (pgdir va : Z) : option Z :=
  if KVA_BASE <=? va then Some va else
  let e := leaf m pgdir va in
  if get_attribute e PAGE_PRESENT =? 0 then None else Some (pa2kva (get_pa e) + va mod PAGE_SIZE).

Definition uld8 (m : words) (pgdir va : Z) : res Z := a ← of_option Fault (translate m pgdir va); Ok (ld8 m a).
Definition uld64 (m : words) (pgdir va : Z) : res Z := a ← of_option Fault (translate m pgdir va); Ok (ld64 m a).
Definition ust8 (m : words) (pgdir va v : Z) : res words :=
  a ← of_option Fault (translate m pgdir va); Ok (st8 m a v).

(** The bytes from [va] up to and with the terminator. *)
Fixpoint ustr (fuel : nat) (m : words) (pgdir va : Z) : res (list Z) :=
  match fuel with
  | O => Err OutOfFuel
  | S fuel' =>
    c ← uld8 m pgdir va;
    if c =? 0 then Ok [0] else r ← ustr fuel' m pgdir (u64 (va + 1)); Ok (c :: r)
  end.

(** The bytes [l] stored from the kernel address [a] on. *)
Fixpoint put_bytes (a : Z) (l : list Z) (m : words) : words :=
  match l with
  | [] => m
  | c :: l' => put_bytes (a + 1) l' (st8 m a c)
  end.

(** ** Bytes of a word *)

Lemma byte_range v : 0 <= Z.land v 255 < 2 ^ 8.
Proof. change 255 with (Z.ones 8). rewrite Z.land_ones by lia. by apply Z.mod_pos_bound. Qed.

Lemma get_put_byte w k j v :
  0 <= k < 8 -> 0 <= j < 8 ->
  Z.land (Z.shiftr (put_byte w k v) (8 * j)) 255 = if decide (j = k) then u8 v else Z.land (Z.shiftr w (8 * j)) 255.
Proof.
  intros Hk Hj. apply Z.bits_inj'. intros n Hn. change 255 with (Z.ones 8).
  assert (forall x, Z.testbit (Z.land (Z.shiftr x (8 * j)) (Z.ones 8)) n = bool_decide (n < 8) && Z.testbit x (n + 8 * j)) as Hx.
  { intros x. rewrite Z.land_spec, Z.shiftr_spec by done. rewrite andb_comm. f_equal.
    case_bool_decide; [apply Z.ones_spec_low; lia|apply Z.ones_spec_high; lia]. }
  rewrite Hx. unfold put_byte. rewrite Z.lor_spec, Z.land_spec, Z.lnot_spec by lia.
  rewrite !Z.shiftl_spec by lia. destruct (decide (n < 8)) as [Hn8|Hn8].
  - rewrite (bool_decide_true (n < 8)) by done. simpl. destruct (decide (j = k)) as [->|E].
    + replace (n + 8 * k - 8 * k) with n by lia. change 255 with (Z.ones 8).
      rewrite Z.ones_spec_low by lia. simpl. by rewrite andb_false_r.
    + rewrite Hx, (bool_decide_true (n < 8)) by done. simpl.
      assert (forall x, 0 <= x < 2 ^ 8 -> Z.testbit x (n + 8 * j - 8 * k) = false) as Hz.
      { intros x Hb. destruct (decide (n + 8 * j - 8 * k < 0)); [by apply Z.testbit_neg_r|]. apply (bits_above x 8); lia. }
      rewrite (Hz 255), (Hz (u8 v)) by (lia || by apply Z.mod_pos_bound). simpl. by rewrite andb_true_r, orb_false_r.
  - rewrite (bool_decide_false (n < 8)) by done. simpl. destruct (decide (j = k)) as [->|E].
    + symmetry. apply (bits_above _ 8); [by apply Z.mod_pos_bound|lia].
    + by rewrite Hx, (bool_decide_false (n < 8)) by done.
Qed.

Lemma mod8_split a b : a - a mod 8 = b - b mod 8 -> a mod 8 = b mod 8 -> a = b.
Proof. lia. Qed.

Lemma ld8_st8 m a b v : ld8 (st8 m a v) b = if decide (a = b) then u8 v else ld8 m b.
Proof.
  pose proof (Z.mod_pos_bound a 8 ltac:(lia)). pose proof (Z.mod_pos_bound b 8 ltac:(lia)).
  unfold ld8, st8. destruct (decide (a - a mod 8 = b - b mod 8)) as [E|E].
  - rewrite <- E, ld_st_eq, get_put_byte by lia. case_decide as E1; case_decide as E2; [done| |by subst|by rewrite E].
    destruct E2. apply mod8_split; lia.
  - rewrite ld_st_ne by done. rewrite decide_False; [done|]. by intros ->.
Qed.
Lemma ld8_range m a : 0 <= ld8 m a < 2 ^ 8.
Proof. apply byte_range. Qed.

(** A word at an aligned address, apart from the byte. *)
Lemma ld64_st8 m a b v : a mod 8 = 0 -> ~ a <= b < a + 8 -> ld64 (st8 m b v) a = ld64 m a.
Proof.
  intros Ha Hb. unfold st8. apply ld_st_ne. intros E. apply Hb. pose proof (Z.mod_pos_bound b 8 ltac:(lia)). lia.
Qed.
Lemma ld8_st64 m a b v : a mod 8 = 0 -> ~ a <= b < a + 8 -> ld8 (st64 m a v) b = ld8 m b.
Proof.
  intros Ha Hb. unfold ld8. rewrite ld_st_ne; [done|]. intros E. apply Hb. pose proof (Z.mod_pos_bound b 8 ltac:(lia)). lia.
Qed.

Lemma put_bytes_ld8 l a m b :
  ld8 (put_bytes a l m) b =
  if decide (a <= b < a + Z.of_nat (length l)) then u8 (default 0 (l !! Z.to_nat (b - a))) else ld8 m b.
Proof.
  revert a m; induction l as [|c l IH]; intros a m; cbn [put_bytes length]; [by rewrite decide_False by lia|].
  rewrite IH, ld8_st8. destruct (decide (a = b)) as [->|Hne].
  - rewrite decide_False, decide_True by lia. by rewrite Z.sub_diag.
  - case_decide as E1; case_decide as E2; try done; [|lia..].
    replace (b - a) with (Z.succ (b - (a + 1))) by lia. by rewrite Z2Nat.inj_succ by lia.
Qed.
Lemma put_bytes_ld64 l a m b :
  b mod 8 = 0 -> b + 8 <= a \/ a + Z.of_nat (length l) <= b -> ld64 (put_bytes a l m) b = ld64 m b.
Proof.
  intros Hb. revert a m; induction l as [|c l IH]; intros a m Hd; cbn [put_bytes length] in *; [done|].
  rewrite IH by lia. apply ld64_st8; [done|lia].
Qed.
