(* ===== verification/Process.v ===== *)
(** * Processes and threads (kernel/sched/sched.c, kernel/loader/loader.c)

    Creation (exec, pthread_create), termination (exit, kill) and waiting, on top
    of the scheduler, the locks and memory management, whose states are parts of
    one kernel state.  A routine that ends in [do_scheduler] is modelled up to the
    switch. *)
From S2P Require Import Prelude CString DList Sched Lock FsLayout PageTable Mm UserMem.

(** ** Data (include/os/task.h, arch/riscv/include/csr.h) *)

Definition MAX_NAME_LEN : nat := 64.
Definition SECTOR_BYTES : Z := 512.          (* SECTOR_SIZE *)
Definition SR_SPIE : Z := 0x20.
Definition SR_SUM : Z := 0x40000.
Definition SIZEOF_REGS : Z := 36 * 8.       (* sizeof(regs_context_t) *)
Definition SIZEOF_SWITCHTO : Z := 14 * 8.   (* sizeof(switchto_context_t) *)

Record task_info_t := mkTask {
  t_name : list Z; entrypoint : Z; sector_num : Z; firstsector : Z; offset : Z; memsize : Z }.

Section Process.
Context {D : Type} `{!SwapDevice D}.
(** The addresses the linker gives to the PCBs and to [ret_from_exception], the
    longest string the kernel reads, the clock. *)
Variable pcb_addr : pcbref -> Z.
Variable ret_from_exception : Z.
Variable strmax : nat.
Variable rdtime : nat -> Z.
Variable time_base : Z.

Record kern := mkKern { locks : lockst; mm : @mmst D; tasks : list task_info_t; tasknum : Z }.

Definition with_locks v k := mkKern v (mm k) (tasks k) (tasknum k).
Definition with_mm v k := mkKern (locks k) v (tasks k) (tasknum k).
Abbreviation P := (M kern).
Abbreviation K := (M (@mmst D)).

Definition on_locks {A} (m : M lockst A) : P A := zoom locks with_locks m.
Definition on_sched {A} (m : M sched A) : P A := on_locks (sys m).

Definition current : P pcb_t := on_sched (c ← gets current_running; read_pcb c).
(** Memory management works on the PCB of the running process, a part of its
    state; it may change the field [brk]. *)
Definition on_mm {A} (m : K A) : P A :=
  c ← current;
  r ← on_sched (gets current_running);
  modify (fun k => with_mm (with_cur c (mm k)) k);;
  a ← zoom mm with_mm m;
  c ← gets (fun k => cur (mm k));
  on_sched (upd_pcb r (fun _ => c));;
  mret a.
(** A memory operation that works for the PCB [r]. *)
Definition for_pcb {A} (r : pcbref) (f : pcb_t -> K A) : P A := p ← on_sched (read_pcb r); on_mm (f p).
Definition set_pcb (r : pcbref) (f : pcb_t -> pcb_t) : P unit := on_sched (upd_pcb r f).

(** ** Searches *)

(** First index whose task has this name; [None] is -1. *)
Fixpoint taskname_loop (l : list task_info_t) (name : list Z) (i : Z) : res Z :=
  match l with
  | [] => Ok (-1)
  | t :: l' => c ← strcmp name (t_name t); if c =? 0 then Ok i else taskname_loop l' name (i + 1)
  end.
Definition taskname_to_taskid (name : list Z) : P Z :=
  l ← gets tasks; n ← gets tasknum; lift (taskname_loop (take (Z.to_nat n) l) name 0).

(** First index [i] below [NUM_MAX_TASK] with [f pcb[i]], or -1. *)
Fixpoint search_loop (f : pcb_t -> bool) (m : gmap pcbref pcb_t) (n : nat) (i : nat) : res Z :=
  match n with
  | O => Ok (-1)
  | S n' => p ← of_option Fault (m !! Pcb i); if f p then Ok (Z.of_nat i) else search_loop f m n' (S i)
  end.
Definition search_pcb (f : pcb_t -> bool) : P Z :=
  m ← on_sched (gets pcbs); lift (search_loop f m NUM_MAX_TASK 0).

Definition exited (p : pcb_t) : bool := bool_decide (status p = TASK_EXITED).
Definition pid_to_pcb_id (pid_ : Z) : P Z := search_pcb (fun p => (pid p =? pid_) && negb (exited p)).
Definition get_free_pcb : P Z := search_pcb exited.
Definition search_pthread_pcb (pid_ thread : Z) : P Z :=
  search_pcb (fun p => (pid p =? pid_) && (pthread_id p =? thread) && negb (exited p)).

(** ** Creation *)

(** [pcb->kernel_sp = alloc_kernel_page() + PAGE_SIZE; create_PageNode(...)] *)
Definition alloc_kernel_stack (r : pcbref) : P unit :=
  a ← on_mm alloc_kernel_page;
  set_pcb r (fun p => mkPcb (u64 (a + PAGE_SIZE)) (user_sp p) (kernel_stack_base p) (user_stack_base p) (pid p)
    (status p) (cursor_x p) (cursor_y p) (remain_length p) (wakeup_time p) (entry_point p) (taskname p)
    (current_cpu_id p) (cpu_mask p) (pgdir p) (thread_type p) (pthread_id p) (brk p));;
  for_pcb r (fun p => create_PageNode (u64 (kernel_sp p - PAGE_SIZE)) (u64 (kernel_sp p - PAGE_SIZE)) PGDIR_VA p).

Definition set_pid (v : Z) (p : pcb_t) : pcb_t :=
  mkPcb (kernel_sp p) (user_sp p) (kernel_stack_base p) (user_stack_base p) v (status p)
    (cursor_x p) (cursor_y p) (remain_length p) (wakeup_time p) (entry_point p) (taskname p)
    (current_cpu_id p) (cpu_mask p) (pgdir p) (thread_type p) (pthread_id p) (brk p).
Definition set_pgdir (v : Z) (p : pcb_t) : pcb_t :=
  mkPcb (kernel_sp p) (user_sp p) (kernel_stack_base p) (user_stack_base p) (pid p) (status p)
    (cursor_x p) (cursor_y p) (remain_length p) (wakeup_time p) (entry_point p) (taskname p)
    (current_cpu_id p) (cpu_mask p) v (thread_type p) (pthread_id p) (brk p).
Definition set_sps (ksp usp : Z) (p : pcb_t) : pcb_t :=
  mkPcb ksp usp (kernel_stack_base p) (user_stack_base p) (pid p) (status p)
    (cursor_x p) (cursor_y p) (remain_length p) (wakeup_time p) (entry_point p) (taskname p)
    (current_cpu_id p) (cpu_mask p) (pgdir p) (thread_type p) (pthread_id p) (brk p).
(** The fields from [kernel_stack_base] to [pthread_id] that both kinds of
    creation fill in. *)
Definition fill_pcb (usp entry mask : Z) (name : list Z) (ty : thread_type_t) (tid brk_ : Z) (p : pcb_t) : pcb_t :=
  mkPcb (kernel_sp p) usp (kernel_sp p) usp (pid p) (status p)
    (cursor_x p) (cursor_y p) (remain_length p) (wakeup_time p) entry name
    (current_cpu_id p) mask (pgdir p) ty tid brk_.

Definition setup_process_pcb (r : pcbref) (task : task_info_t) : P unit :=
  n ← on_sched (gets process_id);
  on_sched (modify (with_process_id (i32 (n + 1))));;
  set_pcb r (set_pid (i32 (n + 1)));;
  alloc_kernel_stack r;;
  on_sched (Sched.on_links (fun h => init_list_head h (PcbWaitQ r)));;
  c ← current;
  p ← on_sched (read_pcb r);
  name ← lift (strcpy (taskname p) (t_name task));
  set_pcb r (fill_pcb USER_STACK_ADDR (entrypoint task) (cpu_mask c) name MTHREAD 0 (brk p)).

(** A store of the kernel, through the linear mapping. *)
Definition store_words (a : Z) (l : list Z) : K unit :=
  modify (fun s => with_ram (put_words a l (ram s)) s).
Definition store_bytes (a : Z) (l : list Z) : K unit :=
  modify (fun s => with_ram (put_bytes a l (ram s)) s).
(** Loads through the page table [root]. *)
Definition load_user64 (root va : Z) : K Z := m ← gets ram; lift (uld64 m root va).
Definition load_user_str (root va : Z) : K (list Z) := m ← gets ram; lift (ustr strmax m root va).

(** The registers on the kernel stack: [pt_regs] and, below, the context
    [switch_to] restores. *)
Definition regs_words (reg : nat -> Z) (sepc : Z) : list Z :=
  (reg <$> seq 0 32) ++ [Z.lor SR_SPIE SR_SUM; sepc].
Definition switchto_words (ksp : Z) : list Z := ret_from_exception :: ksp :: replicate 12 0.
Definition setup_kernel_stack (r : pcbref) (reg : pcb_t -> nat -> Z) : P unit :=
  set_pcb r (fun p => set_sps (u64 (kernel_sp p - SIZEOF_REGS - SIZEOF_SWITCHTO)) (user_sp p) p);;
  for_pcb r (fun p =>
    store_words (kernel_sp p + SIZEOF_SWITCHTO) (regs_words (reg p) (entry_point p));;
    store_words (kernel_sp p) (switchto_words (kernel_sp p))).

(** The loop over [argv]: [sp] is [user_sp_kva], [base] the array [my_argv]. *)
Fixpoint push_args (n : nat) (i argv base off sp : Z) : K Z :=
  match n with
  | O => mret sp
  | S n' =>
    c ← gets cur;
    a ← load_user64 (pgdir c) (u64 (argv + 8 * i));
    check_uva_mem a 64 c;;
    a ← load_user64 (pgdir c) (u64 (argv + 8 * i));
    s ← load_user_str (pgdir c) a;
    let sp := u64 (sp - Z.of_nat (length s)) in
    store64 (base + 8 * i) (u64 (sp - off));;
    store_bytes sp s;;
    push_args n' (i + 1) argv base off sp
  end.

Definition process_regs (r : pcbref) (argc argv_base : Z) (p : pcb_t) (i : nat) : Z :=
  match i with
  | 1%nat => entry_point p | 2%nat => user_sp p | 4%nat => pcb_addr r
  | 10%nat => u64 argc | 11%nat => argv_base | _ => 0
  end.

Definition setup_user_stack (argc argv : Z) (p : pcb_t) : K (Z * Z) :=
  kva ← alloc_page_helper (USER_STACK_ADDR - PAGE_SIZE) (pgdir p) p;
  let top := u64 (kva + PAGE_SIZE) in
  let off := u64 (top - USER_STACK_ADDR) in
  let sp := u64 (top - 8) in
  store64 sp (u64 argc);;
  c ← gets cur;
  check_uva_mem argv (u64 (8 * argc)) c;;
  let base := u64 (sp - 8 * argc) in
  sp ← push_args (Z.to_nat argc) 0 argv base off base;
  mret (ROUNDDOWN (u64 (sp - off)) 16, u64 (base - off)).

Definition setup_process_stack (r : pcbref) (argc argv : Z) : P unit :=
  ua ← for_pcb r (setup_user_stack argc argv);
  let '(usp, argv_base) := ua in
  set_pcb r (fun p => set_sps (kernel_sp p) usp p);;
  setup_kernel_stack r (process_regs r argc argv_base).

(** ** Loading a program (loader.c) *)

(** [*dest++ = *src++] with both pages brought into memory, in the address space
    of [pcb]. *)
Fixpoint my_memcpy (len : nat) (dest src : Z) (pcb : pcb_t) : K unit :=
  match len with
  | O => mret tt
  | S len' =>
    check_uva_mem dest 1 pcb;;
    check_uva_mem src 1 pcb;;
    m ← gets ram;
    c ← lift (uld8 m (pgdir pcb) src);
    m' ← lift (ust8 m (pgdir pcb) dest c);
    modify (with_ram m');;
    my_memcpy len' (u64 (dest + 1)) (u64 (src + 1)) pcb
  end.

(** [bios_sd_read(kva2pa(kva), n, sector)] for at most a page. *)
Definition read_sectors (kva n sector : Z) : K unit :=
  modify (fun s => with_ram (put_words kva (take (Z.to_nat (n * 64)) (sd_page (swap s) sector)) (ram s)) s).

Fixpoint load_pages (n : nat) (uva sectors sector : Z) (p : pcb_t) : K unit :=
  match n with
  | O => mret tt
  | S n' =>
    kva ← alloc_page_helper uva (pgdir p) p;
    let uva := u64 (uva + 0x1000) in
    if u32 (sectors * SECTOR_BYTES) >=? PAGE_SIZE then
      read_sectors kva PAGE_SECTORS sector;;
      load_pages n' uva (u32 (sectors - PAGE_SECTORS)) (u32 (sector + PAGE_SECTORS)) p
    else if sectors >? 0 then
      read_sectors kva sectors sector;;
      load_pages n' uva 0 sector p
    else load_pages n' uva sectors sector p
  end.
Definition load_task_img (task : task_info_t) (p : pcb_t) : K unit :=
  let pagenum := u32 (NBYTES2PAGE (u32 (memsize task + SECTOR_BYTES))) in
  load_pages (Z.to_nat pagenum) (entrypoint task) (sector_num task) (firstsector task) p;;
  my_memcpy (Z.to_nat (u32 (SECTOR_BYTES * sector_num task - offset task)))
    (entrypoint task) (u64 (entrypoint task + offset task)) p.

Definition do_exec (name argc argv : Z) : P Z :=
  c ← current;
  on_mm (check_uva_mem name 32 c);;
  nm ← on_mm (load_user_str (pgdir c) name);
  taskid ← taskname_to_taskid nm;
  if taskid =? -1 then mret (-1) else
  pcb_id ← get_free_pcb;
  if pcb_id =? -1 then mret (-1) else
  let r := Pcb (Z.to_nat pcb_id) in
  l ← gets tasks;
  task ← lift (idx l taskid);
  setup_process_pcb r task;;
  pg ← on_mm alloc_kernel_page;
  set_pcb r (set_pgdir pg);;
  for_pcb r (fun p =>
    create_PageNode (pgdir p) (pgdir p) PGDIR_VA p;;
    modify (fun s => with_ram (clear_pgdir (pgdir p) (ram s)) s);;
    share_pgtable (pgdir p) PGDIR_VA;;
    load_task_img task p);;
  setup_process_stack r argc argv;;
  on_sched (add_readyqueue r);;
  p ← on_sched (read_pcb r);
  mret (pid p).

(** ** Termination and waiting *)

(** What [do_exit] and [do_kill] do for the PCB [r]: wake the processes that wait
    for it, release the locks of its pid, recycle its memory. *)
Definition reap (r : pcbref) : P unit :=
  on_sched (unblock_all (PcbWaitQ r));;
  p ← on_sched (read_pcb r);
  on_locks (release_process_mutex (pid p));;
  (if pthread_id p =? 0 then on_mm (release_process_page p) else mret tt);;
  set_pcb r (set_status TASK_EXITED).

Definition do_exit : P unit :=
  r ← on_sched (gets current_running);
  reap r;;
  on_locks (schedule rdtime time_base).

(** The loop of [do_kill]: each turn ends one PCB of the process.  [Exits]: the
    caller killed itself. *)
Fixpoint do_kill_loop (fuel : nat) (pid_ : Z) : P outcome :=
  match fuel with
  | O => fail OutOfFuel
  | S fuel' =>
    i ← pid_to_pcb_id pid_;
    if i =? -1 then mret Returns else
    let r := Pcb (Z.to_nat i) in
    c ← on_sched (gets current_running);
    if decide (r = c) then do_exit;; mret Exits
    else
      reap r;;
      on_sched (remove_pcb_queue r);;
      do_kill_loop fuel' pid_
  end.
(** The value the source returns is 1 in every case. *)
Definition do_kill (pid_ : Z) : P outcome := do_kill_loop (S NUM_MAX_TASK) pid_.

(** [while (...) break;] leaves [NUM_MAX_TASK] when no PCB has the pid. *)
Definition do_waitpid (pid_ : Z) : P Z :=
  i ← pid_to_pcb_id pid_;
  if i =? -1 then mret 0 else
  c ← on_sched (gets current_running);
  on_sched (do_block (PcbList c) (PcbWaitQ (Pcb (Z.to_nat i))));;
  on_locks (schedule rdtime time_base);;
  mret i.

(** [frame]: the address of the local array [argv] on the kernel stack. *)
Definition do_taskset (frame name pid_ mask mod_ : Z) : P Z :=
  if mod_ =? 0 then
    on_mm (store64 frame name);;
    p ← do_exec name 1 frame;
    if p =? -1 then mret (-1) else
    i ← pid_to_pcb_id p;
    set_pcb (Pcb (if i =? -1 then NUM_MAX_TASK else Z.to_nat i)) (set_cpu_mask mask);;
    mret 0
  else
    i ← pid_to_pcb_id pid_;
    if i =? -1 then mret (-1) else
    set_pcb (Pcb (Z.to_nat i)) (set_cpu_mask mask);;
    mret 0.

(** ** Threads *)

Definition init_pthread_pcb (r : pcbref) (thread start_routine : Z) : P unit :=
  c ← current;
  set_pcb r (set_pid (pid c));;
  alloc_kernel_stack r;;
  on_sched (Sched.on_links (fun h => init_list_head h (PcbWaitQ r)));;
  c ← current;
  p ← on_sched (read_pcb r);
  name ← lift (strcpy (taskname p) (taskname c));
  set_pcb r (fill_pcb (u64 (user_stack_base c + PAGE_SIZE * thread)) start_routine (cpu_mask c) name PTHREAD thread (brk c)).

Definition pthread_regs (r : pcbref) (arg exit_funt : Z) (p : pcb_t) (i : nat) : Z :=
  match i with
  | 1%nat => exit_funt | 2%nat => user_sp p | 4%nat => pcb_addr r | 10%nat => arg | _ => 0
  end.
Definition setup_pthread_stack (r : pcbref) (arg exit_funt : Z) : P unit :=
  for_pcb r (fun p => alloc_page_helper (u64 (user_stack_base p - PAGE_SIZE)) (pgdir p) p);;
  setup_kernel_stack r (pthread_regs r arg exit_funt).

Definition do_pthread_create (thread start_routine arg exit_funt : Z) : P unit :=
  pcb_id ← get_free_pcb;
  if pcb_id =? -1 then mret tt else
  let r := Pcb (Z.to_nat pcb_id) in
  init_pthread_pcb r thread start_routine;;
  c ← current;
  set_pcb r (set_pgdir (pgdir c));;
  setup_pthread_stack r arg exit_funt;;
  on_sched (add_readyqueue r).

Definition do_pthread_join (thread : Z) : P unit :=
  c ← current;
  i ← search_pthread_pcb (pid c) thread;
  if i =? -1 then mret tt else
  r ← on_sched (gets current_running);
  on_sched (do_block (PcbList r) (PcbWaitQ (Pcb (Z.to_nat i))));;
  on_locks (schedule rdtime time_base).

(** ** Page faults: memory management ends the process through [do_exit] *)
Definition page_fault (stval scause : Z) : P outcome :=
  o ← on_mm (handle_page_fault stval scause);
  match o with Exits => do_exit;; mret Exits | Returns => mret Returns end.

(** One line of [do_process_show]: index, pid, status, mask, and the hart of a
    running process. *)
Definition process_rows (m : gmap pcbref pcb_t) : list (nat * Z * task_status_t * Z * option Z) :=
  omap (fun i => p ← m !! Pcb i;
    if exited p then None
    else Some (i, pid p, status p, cpu_mask p,
               match status p with TASK_RUNNING => Some (current_cpu_id p) | _ => None end)) (seq 0 NUM_MAX_TASK).
Definition do_process_show : P (list (nat * Z * task_status_t * Z * option Z)) :=
  m ← on_sched (gets pcbs); mret (process_rows m).

End Process.
