(* ===== verification/ProcessFacts.v ===== *)
(** * Properties of processes

    The composition of the scheduler, the locks and memory management when a
    process is killed. *)
From stdpp Require Import functions.
From S2P Require Import Prelude CString DList Sched Lock Exclusion FsLayout PageTable Mm MmFacts UserMem Process.

(** ** Removing a PCB from its queue *)

Lemma queued_dec (Q : gmap laddr (list pcbref)) r :
  unqueued Q r \/ exists a l1 l2, Q !! a = Some (l1 ++ r :: l2).
Proof.
  destruct (decide (map_Forall (fun _ l => r ∉ l) Q)) as [H|H]; [left; exact H|right].
  apply map_not_Forall in H as (a & l & Hl & Hr); [|apply _]. apply dec_stable in Hr.
  apply list_elem_of_split in Hr as (l1 & l2 & ->). by exists a, l1, l2.
Qed.

(** The queues of [Q'] are those of [Q] without [r]. *)
Definition without (r : pcbref) (Q Q' : gmap laddr (list pcbref)) : Prop :=
  unqueued Q' r /\ (forall r', unqueued Q r' -> unqueued Q' r') /\
  forall a l, Q !! a = Some l -> exists l', Q' !! a = Some l' /\ (l = [] -> l' = []).

(** [pcb[i].status = TASK_EXITED; remove_pcb_queue(&pcb[i]);] *)
Lemma exit_pcb_ok s Q r p p' :
  sched_inv s Q -> pcbs s !! r = Some p ->
  exists s' Q', remove_pcb_queue r (put_pcb r p' s) = Ok (tt, s') /\ sched_inv s' Q' /\ without r Q Q' /\
    pcbs s' = <[r := p']> (pcbs s) /\ same_cpu s s'.
Proof.
  intros Hi Hp. destruct (queued_dec Q r) as [Hu|(a & l1 & l2 & Hl)].
  - exists (put_pcb r p' s), Q. split; [|split; [|split; [|done]]].
    + apply (remove_pcb_queue_none (put_pcb r p' s) Q); [|by eexists; apply lookup_insert_eq|done].
      apply (inv_put s Q r p); [done|done|by left].
    + apply (inv_put s Q r p); [done|done|by left].
    + split; [done|]. split; [done|]. by eauto.
  - destruct (remove_pcb_queue_ok s Q a l1 r l2 Hi Hl) as (h' & E & Hi' & Hu).
    exists (put_pcb r p' (Sched.with_links h' s)), (<[a := l1 ++ l2]> Q). split; [|split; [|split; [|done]]].
    + revert E. unfold remove_pcb_queue, load_next, Sched.on_links, mbind, M_bind.
      change (links (put_pcb r p' s)) with (links s).
      destruct (ld_next (links s) (Some (PcbList r))) as [[nx|]|] eqn:En; [| |done].
      * change (links (put_pcb r p' s)) with (links s). destruct (dequeue (links s) (PcbList r)) as [g|]; [|done]. intros E.
        apply (f_equal (fun x => match x with Ok (_, t) => links t | Err _ => ∅ end)) in E. simpl in E. by subst.
      * intros E. apply (f_equal (fun x => match x with Ok (_, t) => links t | Err _ => ∅ end)) in E. simpl in E. subst. by destruct s.
    + apply (inv_put _ _ r p); [done|done|by left].
    + split; [done|]. split.
      * intros r' Hr' b l Hb. apply lookup_insert_Some in Hb as [[<- <-]|[_ Hb]]; [|by apply (Hr' b)].
        specialize (Hr' _ _ Hl). set_solver.
      * intros b l Hb. destruct (decide (b = a)) as [->|Hne].
        -- rewrite lookup_insert_eq. eexists. split; [done|]. rewrite Hl in Hb. intros ->. simplify_eq. by destruct l1.
        -- rewrite lookup_insert_ne by done. by eauto.
Qed.

Lemma lock_inv_without s Q t r Q' :
  lock_inv s Q -> sched_inv t Q' -> without r Q Q' -> same_pcbs (sch s) t ->
  is_Some (pcbs t !! current_running t) -> lock_inv (with_sch t s) Q'.
Proof.
  intros [H1 H2 H3 [H4 H4'] H5 H6 H7 H8 H9 H10] Ht (_ & _ & HQ) Hp Hc.
  assert (forall a, is_Some (Q !! a) -> is_Some (Q' !! a)) as Hdom.
  { intros a [l Hl]. destruct (HQ a l Hl) as (l' & -> & _). by eexists. }
  split; simpl; auto.
  - split; by apply Hp.
  - intros i m E. destruct (H7 i m E) as (l & Hl & Hu). destruct (HQ _ _ Hl) as (l' & Hl' & Hn). exists l'. auto.
  - intros i Hi. destruct (H10 i Hi). auto.
Qed.

(** ** The kernel state *)

Section Kernel.
Context {D : Type} `{!SwapDevice D}.
Implicit Types k : @kern D.

Definition kpcbs k : gmap pcbref pcb_t := pcbs (sch (locks k)).
Definition kcur k : pcbref := current_running (sch (locks k)).

Record kern_inv k (Q : gmap laddr (list pcbref)) (L : pnref -> list nat) : Prop := {
  ki_locks : lock_inv (locks k) Q;
  ki_mm : mm_wf (mm k) L;
  ki_addrs : addrs_ok (mm k) (L kernel_page_head ++ L user_page_mem_head);
  ki_pcbs : forall i, (i < NUM_MAX_TASK)%nat -> exists p, kpcbs k !! Pcb i = Some p /\
    (status p <> TASK_EXITED -> is_Some (Q !! PcbWaitQ (Pcb i))) }.

Lemma on_locks_ok {A} (m : M lockst A) k a s : m (locks k) = Ok (a, s) -> on_locks m k = Ok (a, with_locks s k).
Proof. intros E. unfold on_locks, zoom. by rewrite E. Qed.
Lemma on_sched_ok {A} (m : M sched A) k a t :
  m (sch (locks k)) = Ok (a, t) -> on_sched m k = Ok (a, with_locks (with_sch t (locks k)) k).
Proof. intros E. apply on_locks_ok. by apply sys_ok. Qed.
Lemma on_sched_same {A} (m : M sched A) k a : m (sch (locks k)) = Ok (a, sch (locks k)) -> on_sched m k = Ok (a, k).
Proof. intros E. rewrite (on_sched_ok _ _ _ _ E). by destruct k as [[] ? ? ?]. Qed.

(** A memory operation that leaves the running PCB as it is. *)
Lemma on_mm_ok {A} (m : M (@mmst D) A) k c a s :
  kpcbs k !! kcur k = Some c -> m (with_cur c (mm k)) = Ok (a, s) -> cur s = c ->
  on_mm m k = Ok (a, with_mm s k).
Proof.
  intros Hc E Hs. unfold on_mm, current.
  erewrite bind_ok by (apply on_sched_same; erewrite bind_ok by done; by apply read_pcb_ok).
  erewrite bind_ok by (by apply on_sched_same). erewrite bind_ok by done.
  erewrite bind_ok by (unfold zoom; simpl; by rewrite E). erewrite bind_ok by done. simpl. rewrite Hs.
  erewrite bind_ok.
  2:{ apply on_sched_ok. simpl. apply upd_pcb_ok. exact Hc. }
  unfold mret, M_ret. do 2 f_equal. destruct k as [[sc] ? ? ?]. unfold with_mm, with_locks, with_sch, put_pcb, with_pcbs. simpl.
  do 2 f_equal. destruct sc. simpl in *. by rewrite insert_id.
Qed.

(** The PCBs of [k'] are those of [k], but for processes that were woken. *)
Definition others_woken k k' (r : pcbref) : Prop :=
  forall r', r' <> r -> kpcbs k' !! r' = kpcbs k !! r' \/
    exists p, kpcbs k !! r' = Some p /\ status p = TASK_BLOCKED /\ kpcbs k' !! r' = Some (set_status TASK_READY p).

Lemma woke_pcb s Q s' Q' r p :
  woke s Q s' Q' -> pcbs s !! r = Some p ->
  exists p', pcbs s' !! r = Some p' /\ pid p' = pid p /\ pthread_id p' = pthread_id p.
Proof.
  intros W E. destruct (wk_pcbs _ _ _ _ W r) as [->|(q & Eq & _ & ->)]; [by exists p|].
  rewrite E in Eq. injection Eq as <-. by eexists.
Qed.
Lemma woke_same_pcbs s Q s' Q' : woke s Q s' Q' -> same_pcbs s s'.
Proof.
  intros W r. destruct (wk_pcbs _ _ _ _ W r) as [->|(p & Ep & _ & Ep')]; [done|]. rewrite Ep, Ep'. by split; eexists.
Qed.

(** The wake-ups: those who wait for [r], and those who wait for a lock of [r]. *)
Lemma wake_waiters_ok s Q r p :
  lock_inv s Q -> pcbs (sch s) !! r = Some p -> is_Some (Q !! PcbWaitQ r) ->
  exists t s2 Q2, unblock_all (PcbWaitQ r) (sch s) = Ok (tt, t) /\
    (exists p1, pcbs t !! r = Some p1 /\ pid p1 = pid p /\ pthread_id p1 = pthread_id p) /\
    release_process_mutex (pid p) (with_sch t s) = Ok (tt, s2) /\
    lock_inv s2 Q2 /\ woke (sch s) Q (sch s2) Q2 /\ last_lockid s2 = last_lockid s /\
    forall j m, Z.of_nat j < last_lockid s -> mlocks s2 !! j = Some m -> ~ held_by (pid p) m.
Proof.
  intros Hi Hp [l Hl]. destruct (li_ready _ _ Hi) as [rdy Hrdy].
  destruct (unblock_all_ok (sch s) Q (PcbWaitQ r) l rdy (li_sched _ _ Hi) Hl) as (t & E & Ht & Hr & Hc & _); [done|done|].
  pose proof (woke_readied _ _ _ (PcbWaitQ r) l rdy (li_sched _ _ Hi) Hl ltac:(done) Hrdy Hr Hc) as W1.
  assert (lock_inv (with_sch t s) (<[ReadyQ := rdy ++ l]> (<[PcbWaitQ r := []]> Q))) as Hi1.
  { apply lock_inv_sch with Q; [done|done|by eapply woke_same_pcbs| |apply W1|].
    - destruct Hc as (-> & _). by apply (woke_same_pcbs _ _ _ _ W1), (li_current _ _ Hi).
    - intros i. left. by rewrite !lookup_insert_ne. }
  destruct (release_process_mutex_ok (pid p) _ _ Hi1) as (s2 & Q2 & E2 & Hi2 & W2 & [_ R2 _ _] & H2).
  exists t, s2, Q2. split; [done|]. split; [by eapply woke_pcb|]. split; [done|]. split; [done|].
  split; [by eapply woke_trans|]. done.
Qed.

Definition gone k (L : pnref -> list nat) (p : Z) : Prop := forall i, on_list L i -> own (mm k) p i = false.

(** The memory of a process that is not a thread. *)
Lemma reap_memory_ok k L c p :
  mm_wf (mm k) L -> addrs_ok (mm k) (L kernel_page_head ++ L user_page_mem_head) -> kpcbs k !! kcur k = Some c ->
  exists s' L', on_mm (release_process_page p) k = Ok (tt, with_mm s' k) /\ mm_wf s' L' /\
    addrs_ok s' (L' kernel_page_head ++ L' user_page_mem_head) /\
    (forall i, on_list L' i -> own s' (pid p) i = false).
Proof.
  intros Hw Ha Hc.
  destruct (release_process_page_ok (with_cur c (mm k)) L p) as (s' & L' & E & W & HL & _ & Hs & _ & _ & _ & _ & Hcur).
  { split; apply Hw. } { exact Ha. }
  assert (forall hd i, is_head hd -> i ∈ L' hd -> i ∈ L hd /\ own (mm k) (pid p) i = false) as Hin.
  { intros hd i Hh Hi. rewrite HL in Hi by done. by apply list_elem_of_filter in Hi as [? ?]. }
  exists s', L'. split; [by apply on_mm_ok with c|]. split; [done|]. split.
  - intros i n Hi En.
    assert (i ∈ L kernel_page_head ++ L user_page_mem_head /\ own (mm k) (pid p) i = false) as [Hi' Ho].
    { apply elem_of_app in Hi as [Hi|Hi]; apply Hin in Hi as [? ?]; try done; (split; [set_solver|done]). }
    rewrite Hs in En by done. by apply (Ha i n).
  - intros i (hd & Hh & Hi). apply Hin in Hi as [_ Ho]; [|done]. unfold own in *. rewrite Hs by done. exact Ho.
Qed.


Definition mutexes_free k (p : Z) : Prop :=
  forall j m, Z.of_nat j < last_lockid (locks k) -> mlocks (locks k) !! j = Some m -> ~ held_by p m.

Lemma upd_pcb_on_sched k r f p :
  kpcbs k !! r = Some p ->
  set_pcb r f k = Ok (tt, with_locks (with_sch (put_pcb r (f p) (sch (locks k))) (locks k)) k).
Proof. intros E. apply on_sched_ok. by apply upd_pcb_ok. Qed.

(** The memory of [p] is given back unless [p] is a thread. *)
Lemma reap_memory_any k L c p :
  mm_wf (mm k) L -> addrs_ok (mm k) (L kernel_page_head ++ L user_page_mem_head) -> kpcbs k !! kcur k = Some c ->
  exists s' L', (if pthread_id p =? 0 then on_mm (release_process_page p) else mret tt) k = Ok (tt, with_mm s' k) /\
    mm_wf s' L' /\ addrs_ok s' (L' kernel_page_head ++ L' user_page_mem_head) /\
    (pthread_id p = 0 \/ gone k L (pid p) -> forall i, on_list L' i -> own s' (pid p) i = false).
Proof.
  intros Hw Ha Hc. destruct (Z.eqb_spec (pthread_id p) 0) as [E0|E0].
  - destruct (reap_memory_ok k L c p Hw Ha Hc) as (s' & L' & E & W & A & G). by exists s', L'.
  - exists (mm k), L. split; [by destruct k|]. split; [done|]. split; [done|]. by intros [?|H].
Qed.

(** One PCB is ended and taken off its queue. *)
Lemma kill_one_ok k Q L r p :
  kern_inv k Q L -> kpcbs k !! r = Some p -> is_Some (Q !! PcbWaitQ r) -> r <> kcur k ->
  exists k' Q' L' p', (reap r;; on_sched (remove_pcb_queue r)) k = Ok (tt, k') /\ kern_inv k' Q' L' /\
    kpcbs k' !! r = Some p' /\ status p' = TASK_EXITED /\ pid p' = pid p /\ others_woken k k' r /\ kcur k' = kcur k /\
    unqueued Q' r /\ (forall r', unqueued Q r' -> unqueued Q' r') /\ mutexes_free k' (pid p) /\
    (pthread_id p = 0 \/ gone k L (pid p) -> gone k' L' (pid p)).
Proof.
  intros [Hi Hw Ha HP] Hp Hq Hne.
  destruct (wake_waiters_ok (locks k) Q r p Hi Hp Hq) as (t & s2 & Q2 & E1 & (p1 & Ep1 & Epid & Ethr) & E2 & Hi2 & W2 & Hlast & Hm).
  destruct (woke_pcb _ _ _ _ _ _ W2 Hp) as (p2 & Ep2 & Epid2 & _).
  destruct (wk_cpu _ _ _ _ W2) as (Hcur & _).
  destruct (li_current _ _ Hi2) as [c Hc]. set (k2 := with_locks s2 k).
  destruct (reap_memory_any k2 L c p1 Hw Ha Hc) as (mm' & L' & E3 & W3 & A3 & G3).
  set (p' := set_status TASK_EXITED p2).
  destruct (exit_pcb_ok (sch s2) Q2 r p2 p' (li_sched _ _ Hi2) Ep2) as (t' & Q' & E4 & Ht' & Hwo & Epcbs & Hcpu').
  set (k' := with_locks (with_sch t' s2) (with_mm mm' k)).
  assert (same_pcbs (sch s2) t') as Hsame.
  { intros x. rewrite Epcbs, lookup_insert_is_Some'. split; [by right|]. intros [<-|?]; [by eexists|done]. }
  pose proof (wk_pcbs _ _ _ _ W2) as Hwk. destruct Hcpu' as (Hcur' & _).
  exists k', Q', L', p'. split; [|split; [split|]].
  - unfold reap. rewrite bind_bind. erewrite bind_ok by (by apply on_sched_ok). rewrite bind_bind.
    erewrite bind_ok by (apply on_sched_same; by apply read_pcb_ok). rewrite Epid, bind_bind.
    erewrite bind_ok by (by apply on_locks_ok).
    change (with_locks s2 (with_locks (with_sch t (locks k)) k)) with k2. rewrite bind_bind.
    erewrite bind_ok by exact E3. erewrite bind_ok by (by apply upd_pcb_on_sched).
    unfold on_sched. erewrite on_locks_ok by (by apply sys_ok). done.
  - apply (lock_inv_without s2 Q2 t' r); [done|done|done|done|].
    rewrite Hcur'. apply Hsame. by eexists.
  - done.
  - done.
  - intros i Hi16. destruct (HP i Hi16) as (pi & Epi & Hpi). unfold kpcbs. simpl. rewrite Epcbs.
    destruct (decide (Pcb i = r)) as [<-|Hri]; [exists p'; rewrite lookup_insert_eq; by split|].
    rewrite lookup_insert_ne by congruence.
    assert (status pi <> TASK_EXITED -> is_Some (Q' !! PcbWaitQ (Pcb i))) as Hdom.
    { intros Hs. destruct (wk_dom _ _ _ _ W2 _ (Hpi Hs)) as [l Hl]. destruct (proj2 (proj2 Hwo) _ _ Hl) as (l' & -> & _). by eexists. }
    destruct (Hwk (Pcb i)) as [->|(pb & Epb & Hb & ->)]; [by exists pi|]. eexists. split; [done|]. intros _. apply Hdom.
    unfold kpcbs in Epi. rewrite Epi in Epb. injection Epb as <-. by rewrite Hb.
  - unfold kpcbs, kcur, others_woken, mutexes_free. simpl. rewrite Epcbs, lookup_insert_eq, Epid in *.
    split_and!; [done|done|done| |congruence|exact (proj1 Hwo)| | |].
    + intros r' Hr'. unfold kpcbs. simpl. rewrite Epcbs, lookup_insert_ne by done. apply Hwk.
    + intros r' Hu. apply (proj1 (proj2 Hwo)). by apply (wk_queued _ _ _ _ W2).
    + rewrite Hlast. exact Hm.
    + rewrite Ethr in G3. intros Hor. exact (G3 Hor).
Qed.


(** ** Searching the PCBs *)

Lemma search_loop_ok f m n i :
  (forall j, (i <= j < i + n)%nat -> is_Some (m !! Pcb j)) ->
  (search_loop f m n i = Ok (-1) /\ forall j p, (i <= j < i + n)%nat -> m !! Pcb j = Some p -> f p = false) \/
  exists j p, (i <= j < i + n)%nat /\ m !! Pcb j = Some p /\ f p = true /\ search_loop f m n i = Ok (Z.of_nat j).
Proof.
  revert i; induction n as [|n IH]; intros i Hm; cbn [search_loop]; [left; split; [done|intros; lia]|].
  destruct (Hm i ltac:(lia)) as [p Ep]. rewrite Ep. simpl. destruct (f p) eqn:Ef.
  { right. exists i, p. split; [lia|done]. }
  destruct (IH (S i)) as [[E Hn]|(j & q & Hj & Eq & Hf & E)]; [intros j Hj; apply Hm; lia| |].
  - left. split; [done|]. intros j q Hj Eq. destruct (decide (j = i)) as [->|Hne]; [congruence|]. apply (Hn j q); [lia|done].
  - right. exists j, q. split; [lia|done].
Qed.

Definition livep (pid_ : Z) (o : option pcb_t) : bool :=
  match o with Some p => (pid p =? pid_) && negb (exited p) | None => false end.
(** The PCBs of the process that are not ended. *)
Definition live k (pid_ : Z) : list nat := filter (fun i => livep pid_ (kpcbs k !! Pcb i) = true) (seq 0 NUM_MAX_TASK).

Lemma elem_live k pid_ i :
  i ∈ live k pid_ <-> (i < NUM_MAX_TASK)%nat /\ exists p, kpcbs k !! Pcb i = Some p /\ pid p = pid_ /\ status p <> TASK_EXITED.
Proof.
  unfold live. rewrite list_elem_of_filter, elem_of_seq. unfold livep, exited. split.
  - intros [Hl Hi]. split; [lia|]. destruct (kpcbs k !! Pcb i) as [p|]; [|done]. exists p.
    apply andb_true_iff in Hl as [Hp%Z.eqb_eq Hs]. apply negb_true_iff, bool_decide_eq_false in Hs. done.
  - intros (Hi & p & -> & Hp & Hs). split; [|lia]. rewrite (proj2 (Z.eqb_eq _ _) Hp). simpl. by rewrite bool_decide_false.
Qed.

(** When [j] ends and the others are woken at most, one PCB less is live. *)
Lemma live_killed k k' pid_ j p' :
  others_woken k k' (Pcb j) -> kpcbs k' !! Pcb j = Some p' -> status p' = TASK_EXITED ->
  live k' pid_ = filter (fun i => i <> j) (live k pid_).
Proof.
  intros Ho Hj Hs. unfold live. rewrite list_filter_filter. apply list_filter_iff. intros i.
  destruct (decide (i = j)) as [->|Hne].
  - rewrite Hj. simpl. unfold exited. rewrite bool_decide_true by done. rewrite andb_false_r. split; [done|tauto].
  - destruct (Ho (Pcb i)) as [->|(p & -> & Hb & ->)]; [by intros [= ->]|tauto|].
    simpl. unfold exited. simpl. rewrite Hb. rewrite !bool_decide_false by done. tauto.
Qed.

Lemma pid_to_pcb_id_ok k Q L pid_ :
  kern_inv k Q L ->
  (live k pid_ = [] /\ pid_to_pcb_id pid_ k = Ok (-1, k)) \/
  (exists j p, j ∈ live k pid_ /\ kpcbs k !! Pcb j = Some p /\ pid p = pid_ /\ pid_to_pcb_id pid_ k = Ok (Z.of_nat j, k)).
Proof.
  intros Hk. unfold pid_to_pcb_id, search_pcb.
  destruct (search_loop_ok (fun p => (pid p =? pid_) && negb (exited p)) (kpcbs k) NUM_MAX_TASK 0)
    as [[E Hn]|(j & p & Hj & Ep & Hf & E)].
  - intros j Hj. destruct (ki_pcbs _ _ _ Hk j ltac:(lia)) as (p & -> & _). by eexists.
  - left. erewrite bind_ok by (by apply on_sched_same). split; [|by apply lift_ok].
    destruct (live k pid_) as [|i l] eqn:El; [done|].
    assert (i ∈ live k pid_) as Hi by (rewrite El; set_solver).
    unfold live in Hi. apply list_elem_of_filter in Hi as [Hl Hi%elem_of_seq].
    destruct (kpcbs k !! Pcb i) as [p|] eqn:Ep; [|done]. simpl in Hl. rewrite (Hn i p) in Hl by (done || lia). done.
  - right. exists j, p. erewrite bind_ok by (by apply on_sched_same).
    apply andb_true_iff in Hf as [Hp%Z.eqb_eq Hs]. apply negb_true_iff, bool_decide_eq_false in Hs.
    split; [apply elem_live; split; [lia|by exists p]|]. split; [done|]. split; [done|]. by apply lift_ok.
Qed.

Variable rdtime : nat -> Z.
Variable time_base : Z.

Lemma kill_loop_ok pid_ fuel : forall k Q L,
  kern_inv k Q L -> (forall c, kpcbs k !! kcur k = Some c -> pid c <> pid_) -> (length (live k pid_) < fuel)%nat ->
  exists k' Q' L', do_kill_loop rdtime time_base fuel pid_ k = Ok (Returns, k') /\ kern_inv k' Q' L' /\
    live k' pid_ = [] /\ kcur k' = kcur k /\
    (forall r, unqueued Q r -> unqueued Q' r) /\ (forall i, i ∈ live k pid_ -> unqueued Q' (Pcb i)) /\
    (live k pid_ <> [] \/ mutexes_free k pid_ -> mutexes_free k' pid_) /\
    ((exists i p, i ∈ live k pid_ /\ kpcbs k !! Pcb i = Some p /\ pthread_id p = 0) \/ gone k L pid_ -> gone k' L' pid_).
Proof.
  induction fuel as [|fuel IH]; intros k Q L Hk Hcur Hf; [lia|]. cbn [do_kill_loop].
  destruct (pid_to_pcb_id_ok k Q L pid_ Hk) as [[El E]|(j & p & Hj & Ep & Hpid & E)]; erewrite bind_ok by exact E.
  { exists k, Q, L. split; [done|]. split; [done|]. split; [done|]. split; [done|]. split; [done|]. rewrite El.
    split; [intros i Hi; by apply elem_of_nil in Hi|]. split; [by intros [?|?]|].
    intros [(i & q & Hi & _)|?]; [by apply elem_of_nil in Hi|done]. }
  rewrite (proj2 (Z.eqb_neq _ _)) by lia. rewrite Nat2Z.id. cbv zeta. erewrite bind_ok by (by apply on_sched_same).
  assert (Pcb j <> kcur k) as Hne by (intros E1; apply (Hcur p); [by rewrite <- E1|done]).
  rewrite decide_False by done.
  destruct (kill_one_ok k Q L (Pcb j) p Hk Ep) as
    (k1 & Q1 & L1 & p1 & E1 & Hk1 & Ep1 & Hs1 & _ & Ho1 & Hc1 & Hu1 & Hq1 & Hm1 & Hg1); [|done|].
  { apply elem_live in Hj as (Hj & pj & Epj & _ & Hsj). destruct (ki_pcbs _ _ _ Hk j Hj) as (p0 & Ep0 & Hq0). apply Hq0. congruence. }
  rewrite Hpid in Hm1, Hg1. pose proof (live_killed k k1 pid_ j p1 Ho1 Ep1 Hs1) as El.
  destruct (IH k1 Q1 L1 Hk1) as (k' & Q' & L' & E2 & Hk' & Hl' & Hc' & Hq' & Hu' & Hm' & Hg').
  - intros c. rewrite Hc1. intros Ec. destruct (Ho1 (kcur k)) as [E3|(q & Eq & _ & Eq')]; [congruence| |].
    + rewrite E3 in Ec. by apply Hcur.
    + rewrite Eq' in Ec. injection Ec as <-. by apply (Hcur q).
  - rewrite El. apply list_elem_of_split in Hj as (l1 & l2 & El2). rewrite El2 in Hf |- *.
    rewrite filter_app, filter_cons_False by tauto. rewrite length_app in *. simpl in Hf.
    pose proof (length_filter (fun i => i <> j) l1). pose proof (length_filter (fun i => i <> j) l2). lia.
  - exists k', Q', L'. split; [|split; [done|split; [done|split; [congruence|split; [|split; [|split]]]]]].
    + apply bind_inv in E1 as ([] & ka & Ea & Eb). erewrite bind_ok by exact Ea. erewrite bind_ok by exact Eb. exact E2.
    + auto.
    + intros i Hi. destruct (decide (i = j)) as [->|Hij]; [by apply Hq'|]. apply Hu'. rewrite El. by apply list_elem_of_filter.
    + intros _. apply Hm'. by right.
    + intros [(i & q & Hi & Eq & Hz)|Hg].
      * apply Hg'. destruct (decide (i = j)) as [->|Hij]; [right; apply Hg1; left; congruence|].
        left. destruct (Ho1 (Pcb i)) as [E3|(q' & Eq' & _ & Eq'')]; [by intros [= ->]| |].
        -- exists i, q. rewrite El, E3. split; [by apply list_elem_of_filter|done].
        -- rewrite Eq in Eq'. injection Eq' as <-. exists i, (set_status TASK_READY q).
           rewrite El. split; [by apply list_elem_of_filter|done].
      * apply Hg'. right. apply Hg1. by right.
Qed.

(** C5. do_kill of another process ends, within one turn per PCB, and leaves nothing of it:
    no live PCB with the pid, none of its PCBs on a queue, no lock held by the pid and, if its
    main thread was alive, no page; the invariants of the scheduler, the locks and memory
    management hold afterwards. *)
Theorem kill_cleans k Q L pid_ :
  kern_inv k Q L -> (forall c, kpcbs k !! kcur k = Some c -> pid c <> pid_) -> live k pid_ <> [] ->
  exists k' Q' L', do_kill rdtime time_base pid_ k = Ok (Returns, k') /\ kern_inv k' Q' L' /\ kcur k' = kcur k /\
    live k' pid_ = [] /\ (forall i, i ∈ live k pid_ -> unqueued Q' (Pcb i)) /\ mutexes_free k' pid_ /\
    ((exists i p, i ∈ live k pid_ /\ kpcbs k !! Pcb i = Some p /\ pthread_id p = 0) -> gone k' L' pid_).
Proof.
  intros Hk Hc Hl. destruct (kill_loop_ok pid_ (S NUM_MAX_TASK) k Q L Hk Hc) as
    (k' & Q' & L' & E & Hk' & Hl' & Hcur & _ & Hu & Hm & Hg).
  { pose proof (length_filter (fun i => livep pid_ (kpcbs k !! Pcb i) = true) (seq 0 NUM_MAX_TASK)) as H.
    rewrite length_seq in H. unfold live. lia. }
  exists k', Q', L'. split; [done|]. split; [done|]. split; [done|]. split; [done|]. split; [done|].
  split; [by apply Hm; left|]. intros H. by apply Hg; left.
Qed.


End Kernel.
