(* ===== verification/ProcessWitness.v ===== *)
(** * A concrete kernel state

    Process 2 runs; process 1, which owns the pages of the state [two] and a lock,
    runs on the other hart. *)
From S2P Require Import Prelude CString DList Sched Lock FsLayout PageTable Mm MmFacts MmWitness UserMem Process ProcessFacts.

Definition dead : pcb_t := mkPcb 0 0 0 0 0 TASK_EXITED 0 0 0 0 0 [] 0 0 0 MTHREAD 0 0.
Definition demo_pcbs : gmap pcbref pcb_t :=
  list_to_map ((Pcb 0, procB) :: (Pcb 1, procA) :: (MasterPid0, dead) :: (SlavePid0, dead) ::
    ((fun i => (Pcb i, dead)) <$> seq 2 14)).
Definition demo_heads : list laddr := [ReadyQ; SleepQ; MutexQ 0] ++ ((fun i => PcbWaitQ (Pcb i)) <$> seq 0 16).
Definition demo_queues : gmap laddr (list pcbref) := idle_queues demo_heads.
Definition demo : @kern card := {|
  locks := mkLockst (mkSched (idle_links demo_heads demo_pcbs) demo_pcbs (Pcb 0) 0 0 2) [mkMutex LOCKED 1 7] 1 [] [] [];
  mm := two; tasks := []; tasknum := 0 |}.

Lemma below_16 (P : nat -> Prop) `{forall i, Decision (P i)} :
  bool_decide (Forall P (seq 0 16)) = true -> forall i, (i < NUM_MAX_TASK)%nat -> P i.
Proof. intros Hb i Hi. apply bool_decide_eq_true in Hb. eapply Forall_forall in Hb; [exact Hb|]. apply elem_of_seq. unfold NUM_MAX_TASK in Hi. lia. Qed.

Lemma demo_inv : kern_inv demo demo_queues (lists [0; 1]%nat [2; 3]%nat []).
Proof.
  split.
  - split.
    + apply idle_sched_inv. by repeat constructor.
    + by_computation.
    + by_computation.
    + split; by_computation.
    + by_computation.
    + by_computation.
    + intros [|i] m E; [|done]. exists []. split; [by_computation|done].
    + intros i Hi. by apply Nat.nlt_0_r in Hi.
    + intros i Hi. by apply Nat.nlt_0_r in Hi.
    + intros i Hi. by apply Nat.nlt_0_r in Hi.
  - exact two_wf.
  - apply addrs_check_ok. by_computation.
  - intros i Hi. assert (is_Some (kpcbs demo !! Pcb i) /\ is_Some (demo_queues !! PcbWaitQ (Pcb i))) as [[p Hp] Hq].
    { revert i Hi. apply (below_16 (fun i => is_Some (kpcbs demo !! Pcb i) /\ is_Some (demo_queues !! PcbWaitQ (Pcb i)))).
      vm_compute. reflexivity. }
    exists p. by split.
Qed.

Lemma kill_cleans_witness :
  exists k', do_kill (fun _ => 100) 10 1 demo = Ok (Returns, k') /\ live k' 1 = [] /\ mutexes_free k' 1.
Proof.
  destruct (kill_cleans (fun _ => 100) 10 demo demo_queues _ 1 demo_inv) as (k' & Q' & L' & E & _ & _ & Hl & _ & Hm & _).
  - intros c Hc. assert (kpcbs demo !! kcur demo = Some procB) as E by (vm_compute; reflexivity).
    rewrite E in Hc. injection Hc as <-. discriminate.
  - assert (live demo 1 = [1%nat]) as -> by (vm_compute; reflexivity). discriminate.
  - exists k'. split; [exact E|]. split; [exact Hl|exact Hm].
Defined.
