(* ===== verification/Exec.v ===== *)
(** * The arguments of a new process (kernel/sched/sched.c: setup_process_stack)

    The words and strings of the caller's [argv] are copied to the stack of the process
    that [do_exec] makes; what the process finds there through its own page table. *)
From S2P Require Import Prelude CString DList Sched Lock FsLayout PageTable Mm MmFacts MmWitness UserMem.
From S2P Require Import Process ProcessFacts.

(** ** Strings and vectors in an address space *)

(** A string with its terminator. *)
Definition cstring (w : list Z) : Prop := exists l, w = l ++ [0] /\ Forall (fun c => 0 < c < 2 ^ 8) l.
Definition str_at (m : words) (root a : Z) (w : list Z) : Prop :=
  0 <= a /\ a + Z.of_nat (length w) <= 2 ^ 64 /\ cstring w /\
  forall j c, w !! j = Some c -> uld8 m root (a + Z.of_nat j) = Ok c.
(** [argv] is a vector of the strings [ws], which lie between [lo] and the vector. *)
Definition args_at (m : words) (root lo argv : Z) (ws : list (list Z)) : Prop :=
  forall i w, ws !! i = Some w -> exists a, uld64 m root (argv + 8 * Z.of_nat i) = Ok a /\ str_at m root a w /\
    lo <= a /\ a + Z.of_nat (length w) <= argv.

Lemma cstring_byte w j c : cstring w -> w !! j = Some c -> 0 <= c < 2 ^ 8.
Proof.
  intros (l & -> & Hl) [Hj|[_ Hj]]%lookup_app_Some.
  - eapply Forall_lookup_1 in Hl; [|exact Hj]. simpl in Hl. lia.
  - apply list_lookup_singleton_Some in Hj as [_ <-]. lia.
Qed.
Lemma cstring_cons c w : cstring (c :: w) -> (c = 0 /\ w = []) \/ (0 < c /\ cstring w).
Proof.
  intros ([|x l] & [= -> ->] & Hl); [by left|right]. apply Forall_cons in Hl as [Hx Hl]. split; [lia|by exists l].
Qed.
Lemma ustr_str_at fuel m root a w : str_at m root a w -> (length w <= fuel)%nat -> ustr fuel m root a = Ok w.
Proof.
  revert fuel a. induction w as [|c w IH]; intros fuel a (Ha & Hlen & Hw & Hb) Hf.
  { destruct Hw as (l & E & _). by destruct l. }
  destruct fuel as [|fuel]; [simpl in Hf; lia|]. cbn [ustr]. cbn [length] in *.
  pose proof (Hb 0%nat c eq_refl) as H0. rewrite Z.add_0_r in H0. rewrite H0. cbn [mbind res_bind].
  destruct (cstring_cons _ _ Hw) as [[-> ->]|[Hc Hw']]; [done|]. rewrite (proj2 (Z.eqb_neq _ _)) by lia.
  assert (w <> []) as Hne by (destruct Hw' as ([] & -> & _); done).
  assert (0 < Z.of_nat (length w)) by (destruct w; [done|simpl; lia]).
  rewrite u64_small by lia. rewrite IH; [done| |lia]. split; [lia|]. split; [lia|]. split; [done|].
  intros j x Hj. rewrite <- (Hb (S j) x Hj). f_equal. lia.
Qed.

(** ** The loop as a function of memory *)

(** The address of the last string and memory, after the strings [ws] from index [i] on. *)
Fixpoint args_mem (base off sp i : Z) (ws : list (list Z)) (m : words) : Z * words :=
  match ws with
  | [] => (sp, m)
  | w :: ws' =>
    let sp := sp - Z.of_nat (length w) in
    args_mem base off sp (i + 1) ws' (put_bytes sp w (st64 m (base + 8 * i) (sp - off)))
  end.
Definition total (ws : list (list Z)) : Z := Z.of_nat (length (concat ws)).

Lemma total_cons w ws : total (w :: ws) = Z.of_nat (length w) + total ws.
Proof. unfold total. simpl. rewrite length_app. lia. Qed.
Lemma total_nonneg ws : 0 <= total ws.
Proof. unfold total. lia. Qed.

Lemma args_mem_sp base off sp i ws m : (args_mem base off sp i ws m).1 = sp - total ws.
Proof.
  revert sp i m. induction ws as [|w ws IH]; intros sp i m; cbn [args_mem]; [unfold total; simpl; lia|].
  rewrite IH, total_cons. lia.
Qed.

(** Stores inside a page. *)
Lemma st8_out pg m a v b : pg mod 8 = 0 -> in_page pg a -> ~ in_page pg b -> ld64 (st8 m a v) b = ld64 m b.
Proof.
  intros Hp Ha Hb. unfold st8. apply ld_st_ne. intros <-. apply Hb. unfold in_page in *.
  pose proof (Z.mod_pos_bound a 8 ltac:(lia)). pose proof (Z.div_mod a 8 ltac:(lia)). pose proof (Z.div_mod pg 8 ltac:(lia)). lia.
Qed.
Lemma put_bytes_out pg a l m b :
  pg mod 8 = 0 -> pg <= a -> a + Z.of_nat (length l) <= pg + PAGE_SIZE -> ~ in_page pg b ->
  ld64 (put_bytes a l m) b = ld64 m b.
Proof.
  intros Hp. revert a m. induction l as [|c l IH]; intros a m Ha Hl Hb; cbn [put_bytes length] in *; [done|].
  rewrite IH by (done || lia). apply (st8_out pg); [done|unfold in_page; lia|done].
Qed.

Lemma kpage_mod8 p : kpage p -> p mod 8 = 0.
Proof.
  unfold kpage, PAGE_SIZE. intros [Hp _]. pose proof (Z.div_mod p 4096 ltac:(lia)).
  replace p with (p / 4096 * 512 * 8) by lia. by apply Z.mod_mul.
Qed.

Section ArgsMem.
Context (pg base off : Z).
Hypotheses (Hpg : pg mod 8 = 0) (Hbase : base mod 8 = 0) (Hlow : pg <= base).

Lemma args_mem_out sp i ws m b :
  0 <= i -> sp <= base -> pg <= sp - total ws -> base + 8 * (i + Z.of_nat (length ws)) <= pg + PAGE_SIZE ->
  ~ in_page pg b -> ld64 (args_mem base off sp i ws m).2 b = ld64 m b.
Proof.
  revert sp i m. induction ws as [|w ws IH]; intros sp i m Hi Hsp Ht Hn Hb; cbn [args_mem length] in *; [done|].
  rewrite total_cons in Ht. pose proof (total_nonneg ws). rewrite IH by (done || lia).
  rewrite (put_bytes_out pg) by (done || lia). apply ld_st_ne. intros <-. apply Hb. unfold in_page. lia.
Qed.
Lemma args_mem_word sp i ws m b :
  sp <= base -> sp <= b -> b mod 8 = 0 -> b < base + 8 * i \/ base + 8 * (i + Z.of_nat (length ws)) <= b ->
  ld64 (args_mem base off sp i ws m).2 b = ld64 m b.
Proof.
  revert sp i m. induction ws as [|w ws IH]; intros sp i m Hsp Hb Hm Hd; cbn [args_mem length] in *; [done|].
  rewrite IH by (done || lia). rewrite put_bytes_ld64 by (done || lia). apply ld_st_ne. lia.
Qed.
Lemma args_mem_byte sp i ws m b :
  0 <= i -> sp <= base -> sp <= b < base -> ld8 (args_mem base off sp i ws m).2 b = ld8 m b.
Proof.
  revert sp i m. induction ws as [|w ws IH]; intros sp i m Hi Hsp Hb; cbn [args_mem]; [done|].
  rewrite IH by lia. rewrite put_bytes_ld8, decide_False by lia. apply ld8_st64; [|lia].
  replace (base + 8 * i) with (base + i * 8) by lia. by rewrite Z.mod_add by lia.
Qed.

(** The strings lie one below the other and the vector points to them. *)
Lemma args_mem_at sp i ws m j w :
  0 <= i -> sp <= base -> Forall cstring ws -> ws !! j = Some w ->
  exists a, ld64 (args_mem base off sp i ws m).2 (base + 8 * (i + Z.of_nat j)) = a - off /\
    sp - total ws <= a /\ a + Z.of_nat (length w) <= sp /\
    forall x c, w !! x = Some c -> ld8 (args_mem base off sp i ws m).2 (a + Z.of_nat x) = c.
Proof.
  revert sp i m j. induction ws as [|v ws IH]; intros sp i m j Hi Hsp Hws Hj; [done|].
  apply Forall_cons in Hws as [Hv Hws]. cbn [args_mem]. rewrite total_cons. pose proof (total_nonneg ws).
  set (sp1 := sp - Z.of_nat (length v)). destruct j as [|j]; simpl in Hj.
  - injection Hj as ->. exists sp1. split.
    { rewrite Z.add_0_r, args_mem_word; [|lia|lia| |lia].
      - rewrite put_bytes_ld64; [apply ld_st_eq| |lia]. replace (base + 8 * i) with (base + i * 8) by lia. by rewrite Z.mod_add by lia.
      - replace (base + 8 * i) with (base + i * 8) by lia. by rewrite Z.mod_add by lia. }
    split; [lia|]. split; [lia|]. intros x c Hx. pose proof (lookup_lt_Some _ _ _ Hx).
    rewrite args_mem_byte by lia. rewrite put_bytes_ld8, decide_True by lia.
    replace (Z.to_nat (sp1 + Z.of_nat x - sp1)) with x by lia. rewrite Hx. simpl.
    apply Z.mod_small. by apply (cstring_byte w x).
  - destruct (IH sp1 (i + 1) (put_bytes sp1 v (st64 m (base + 8 * i) (sp1 - off))) j) as (a & E & H1 & H2 & H3);
      [lia|lia|done|done|]. exists a. split; [|split; [lia|split; [lia|done]]].
    rewrite <- E. f_equal. lia.
Qed.
End ArgsMem.

Section Exec.
Context {D : Type} `{!SwapDevice D}.
Variable strmax : nat.
Implicit Types (s : @mmst D) (T Tc : gmap Z level).

(** ** Pages brought in *)

(** No page of the process [p] is on the card. *)
Definition paged_in s (L : pnref -> list nat) (p : Z) : Prop :=
  forall i n, i ∈ L user_page_sd_head -> pn_list s !! i = Some n -> pn_pid n <> p.

Lemma search_none s L uva p : mm_wf s L -> paged_in s L p -> search_list_node user_page_sd_head uva p s = Ok (None, s).
Proof.
  intros Hw Hp. unfold search_list_node, gets, lift. unfold mbind at 1, M_bind at 1. unfold mbind at 1, M_bind at 1.
  unfold mbind at 1, M_bind at 1. pose proof (wf_links _ _ Hw) as Hl. rewrite (links_first _ _ user_page_sd_head Hl) by done.
  replace (match L user_page_sd_head with [] => user_page_sd_head | i :: _ => PN i end)
    with (List.hd user_page_sd_head (PN <$> L user_page_sd_head)) by (by destruct (L user_page_sd_head)).
  rewrite list_search_dll by (by apply Hl). set (f := fun r : pnref => _).
  destruct (List.find f (PN <$> L user_page_sd_head)) as [r|] eqn:E; [|done].
  apply List.find_some in E as [Hin Hf]. apply list_elem_of_In, list_elem_of_fmap in Hin as (i & -> & Hi). unfold f in Hf.
  destruct (pn_list s !! i) as [n|] eqn:En; [|done]. apply andb_true_iff in Hf as [_ Hf%Z.eqb_eq]. by destruct (Hp i n Hi En).
Qed.

Lemma check_uva_loop_none s L fuel vpn last c :
  mm_wf s L -> paged_in s L (pid c) -> 0 <= vpn -> last + PAGE_SIZE < 2 ^ 64 ->
  last < vpn + PAGE_SIZE * Z.of_nat fuel -> check_uva_loop fuel vpn last c s = Ok (tt, s).
Proof.
  intros Hw Hp. revert vpn. induction fuel as [|fuel IH]; intros vpn Hv Hl Hf; cbn [check_uva_loop];
    rewrite Z.gtb_ltb; destruct (Z.ltb_spec last vpn); try done; [lia|].
  erewrite bind_ok by (by eapply search_none). erewrite bind_ok by done. unfold PAGE_SIZE in *.
  rewrite u64_small by lia. apply IH; lia.
Qed.
Lemma page_base_range x : 0 <= x -> 0 <= page_base x <= x /\ x < page_base x + PAGE_SIZE.
Proof.
  intros Hx. unfold page_base, PAGE_SIZE. change (Z.lnot (4096 - 1)) with (Z.lnot (Z.ones 12)).
  rewrite <- Z.ldiff_land, Z.ldiff_ones_r, Z.shiftl_mul_pow2, Z.shiftr_div_pow2 by lia. change (2 ^ 12) with 4096.
  pose proof (Z.div_mod x 4096 ltac:(lia)). pose proof (Z.mod_pos_bound x 4096 ltac:(lia)). lia.
Qed.
Lemma check_uva_mem_none s L va len c :
  mm_wf s L -> paged_in s L (pid c) -> 0 <= va -> 0 <= len -> va + len + PAGE_SIZE < 2 ^ 64 ->
  check_uva_mem va len c s = Ok (tt, s).
Proof.
  intros Hw Hp Hv Hl Hb. unfold check_uva_mem. destruct (page_base_range va Hv). pose proof (Z.div_pos len PAGE_SIZE Hl ltac:(done)).
  pose proof (Z.div_mod len PAGE_SIZE ltac:(done)). pose proof (Z.mod_pos_bound len PAGE_SIZE ltac:(done)). unfold PAGE_SIZE in *.
  rewrite u64_small by lia. eapply check_uva_loop_none; [exact Hw|exact Hp|lia|unfold PAGE_SIZE; lia|unfold PAGE_SIZE; lia].
Qed.

(** ** What the caller reads *)

(** A word that exec does not write: in no table of the new process and in no free page. *)
Definition stable s T (a : Z) : Prop := untouched s T a /\ forall k, user_free s k -> ~ in_page (user_kva k) a.
(** The running process reads such a word at [va]. *)
Definition safe s T (va : Z) : Prop :=
  (KVA_BASE <= va \/ user_va va) /\ exists a, translate (ram s) (pgdir (cur s)) va = Some a /\ stable s T a.
(** No table is a free page of the pool for user pages. *)
Definition off_pool s T : Prop := forall p k, is_Some (T !! p) -> user_free s k -> p <> user_kva k.

Lemma pages_apart p q a : kpage p -> kpage q -> in_page p a -> in_page q a -> p = q.
Proof.
  unfold kpage, in_page, PAGE_SIZE. intros [Hp _] [Hq _] Ha Hb.
  pose proof (Z.div_mod p 4096 ltac:(lia)). pose proof (Z.div_mod q 4096 ltac:(lia)). lia.
Qed.
Lemma leaf_frame m m' root Tc va :
  pt_wf m root Tc -> user_va va ->
  (forall p i, is_Some (Tc !! p) -> 0 <= i < 512 -> ld64 m' (slot p i) = ld64 m (slot p i)) -> leaf m' root va = leaf m root va.
Proof.
  intros Hwf Hu Hs. destruct (vpn_ranges va) as (H2 & H1 & H0). pose proof (pt_root _ _ _ Hwf) as Hroot. unfold in_window in Hu.
  unfold leaf, uva2pte. cbv zeta. rewrite (Hs root) by (lia || (eexists; eassumption)).
  destruct (pt_lv3 _ _ _ Hwf (vpn2 va) Hu) as [->|HT2]; [done|].
  destruct (ld64 m (slot root (vpn2 va)) =? 0); [done|]. rewrite (Hs (pa2kva _)) by (lia || (eexists; eassumption)).
  destruct (pt_lv2 _ _ _ Hwf _ _ _ HT2 H1) as [->|HT1]; [done|].
  destruct (ld64 m (slot (pa2kva _) (vpn1 va)) =? 0); [done|]. apply Hs; [eexists; eassumption|done].
Qed.
Lemma page_word p a : kpage p -> in_page p (a - a mod 8) -> in_page p a.
Proof.
  unfold kpage, in_page, PAGE_SIZE. intros [Hp _] Ha. pose proof (Z.mod_pos_bound a 8 ltac:(lia)).
  pose proof (Z.div_mod a 8 ltac:(lia)). pose proof (Z.div_mod p 4096 ltac:(lia)). lia.
Qed.
Lemma stable_byte s T a : (forall p, is_Some (T !! p) -> kpage p) -> stable s T a -> stable s T (a - a mod 8).
Proof.
  intros HT [[H1 H2] H3]. split; [split|].
  - intros p Hp Ha. apply (H1 p Hp), page_word; [by apply HT|done].
  - intros k Hk Ha. apply (H2 k Hk), page_word; [apply kernel_kva_page, Hk|done].
  - intros k Hk Ha. apply (H3 k Hk), page_word; [apply user_kva_page, Hk|done].
Qed.

(** Memory that agrees where exec does not write gives the caller the same bytes. *)
Section Reads.
Context s T Tc (m' : words).
Hypothesis (HT : forall p, is_Some (T !! p) -> kpage p) (Hc : tables_ok s (pgdir (cur s)) Tc).
Hypothesis (Hdisj : Tc ##ₘ T) (Hpool : off_pool s Tc).
Hypothesis Hagree : forall a, stable s T a -> ld64 m' a = ld64 (ram s) a.

Lemma caller_table p i : is_Some (Tc !! p) -> 0 <= i < 512 -> stable s T (slot p i).
Proof.
  intros Hp Hi. pose proof (slot_in_page p i Hi) as Hin. destruct Hc as [Hwf Hfree].
  assert (kpage p) as Hk by (destruct Hp as [l Hl]; by eapply pt_pages).
  split; [split|].
  - intros q Hq Ha. assert (p = q) as <- by (apply (pages_apart _ _ (slot p i)); auto). destruct Hp as [l Hl], Hq as [l' Hl'].
    by eapply map_disjoint_spec in Hdisj.
  - intros k Hf Ha. apply (Hfree p k Hp Hf), (pages_apart _ _ (slot p i)); [done|apply kernel_kva_page, Hf|done|done].
  - intros k Hf Ha. apply (Hpool p k Hp Hf), (pages_apart _ _ (slot p i)); [done|apply user_kva_page, Hf|done|done].
Qed.
Lemma translate_same va : KVA_BASE <= va \/ user_va va ->
  translate m' (pgdir (cur s)) va = translate (ram s) (pgdir (cur s)) va.
Proof.
  intros Hv. unfold translate. destruct (Z.leb_spec KVA_BASE va); [done|]. destruct Hv as [Hv|Hv]; [lia|].
  rewrite (leaf_frame (ram s) m' _ Tc); [done|apply Hc|done|]. intros p i Hp Hi. by apply Hagree, caller_table.
Qed.
Lemma uld64_same va : safe s T va -> uld64 m' (pgdir (cur s)) va = uld64 (ram s) (pgdir (cur s)) va.
Proof.
  intros (Hv & a & Ea & Ha). unfold uld64. rewrite translate_same, Ea by done. simpl. by rewrite Hagree.
Qed.
Lemma uld8_same va : safe s T va -> uld8 m' (pgdir (cur s)) va = uld8 (ram s) (pgdir (cur s)) va.
Proof.
  intros (Hv & a & Ea & Ha). unfold uld8. rewrite translate_same, Ea by done. simpl. unfold ld8.
  by rewrite Hagree by (by apply stable_byte).
Qed.

(** ** The loop *)

(** The string at [a], and the vector of strings at [argv], of the caller. *)
Definition arg_src (a : Z) (w : list Z) : Prop :=
  str_at (ram s) (pgdir (cur s)) a w /\ a + 64 + PAGE_SIZE < 2 ^ 64 /\ (length w <= strmax)%nat /\
  forall j, (j < length w)%nat -> safe s T (a + Z.of_nat j).
Definition args_src (argv : Z) (ws : list (list Z)) : Prop :=
  0 <= argv /\ argv + 8 * Z.of_nat (length ws) + PAGE_SIZE < 2 ^ 64 /\
  forall i w, ws !! i = Some w -> safe s T (argv + 8 * Z.of_nat i) /\
    exists a, uld64 (ram s) (pgdir (cur s)) (argv + 8 * Z.of_nat i) = Ok a /\ arg_src a w.

Lemma arg_src_same a w : arg_src a w -> ustr strmax m' (pgdir (cur s)) a = Ok w.
Proof.
  intros ((H1 & H2 & H3 & H4) & _ & Hl & Hs). apply ustr_str_at; [|done]. split; [done|]. split; [done|]. split; [done|].
  intros j c Hj. rewrite <- (H4 j c Hj). apply uld8_same, Hs. by eapply lookup_lt_Some.
Qed.
End Reads.

Lemma push_args_ok s T Tc s1 L1 k argv base off ws0 ws sp m :
  (forall p, is_Some (T !! p) -> kpage p) -> tables_ok s (pgdir (cur s)) Tc -> Tc ##ₘ T -> off_pool s Tc ->
  mm_wf s1 L1 -> paged_in s1 L1 (pid (cur s)) -> cur s1 = cur s -> user_free s k ->
  args_src s T argv (ws0 ++ ws) ->
  base mod 8 = 0 -> sp <= base -> user_kva k <= sp - total ws -> 0 <= off <= user_kva k ->
  base + 8 * Z.of_nat (length (ws0 ++ ws)) <= user_kva k + PAGE_SIZE ->
  (forall a, stable s T a -> ld64 m a = ld64 (ram s) a) ->
  let r := args_mem base off sp (Z.of_nat (length ws0)) ws m in
  push_args strmax (length ws) (Z.of_nat (length ws0)) argv base off sp (with_ram m s1) = Ok (r.1, with_ram r.2 s1).
Proof.
  intros HT Hc Hd Hpool Hw1 Hp1 Ecur Hk. pose proof (user_kva_page k ltac:(apply Hk)) as [Hal [Hk0 Hk1]].
  revert ws0 sp m. induction ws as [|w ws IH]; intros ws0 sp m Hsrc Hb Hsp Ht Hoff Htop Hag; [done|].
  cbn [length push_args args_mem]. destruct Hsrc as (Ha0 & Ha1 & Hsrc). rewrite length_app in Ha1, Htop. cbn [length] in Ha1, Htop.
  rewrite total_cons in Ht. pose proof (total_nonneg ws). unfold PAGE_SIZE, KVA_BASE in *.
  destruct (Hsrc (length ws0) w) as (Hs & a & Ea & Hsa); [by rewrite lookup_app_r, Nat.sub_diag by lia|].
  pose proof Hsa as ((Haa & _ & _) & Hab & _ & _).
  set (s2 := with_ram m s1). assert (cur s2 = cur s) as Ec by done.
  assert (mm_wf s2 L1) as Hw2 by (split; apply Hw1).
  assert (load_user64 (pgdir (cur s2)) (u64 (argv + 8 * Z.of_nat (length ws0))) s2 = Ok (a, s2)) as El.
  { unfold load_user64. rewrite gets_bind. rewrite Ec, u64_small by lia. change (ram s2) with m.
    unfold lift. by rewrite (uld64_same s T Tc m HT Hc Hd Hpool Hag _ Hs), Ea. }
  rewrite gets_bind. erewrite bind_ok by exact El.
  erewrite bind_ok by (apply (check_uva_mem_none s2 L1); [exact Hw2|by rewrite Ec|exact Haa|lia|exact Hab]).
  erewrite bind_ok by exact El.
  erewrite bind_ok.
  2:{ unfold load_user_str. rewrite gets_bind. rewrite Ec. unfold lift. change (ram s2) with m.
      rewrite (arg_src_same s T Tc m HT Hc Hd Hpool Hag a w Hsa). reflexivity. }
  cbv zeta. assert (user_kva k + 4096 <= 2 ^ 64) by (pose proof (Z.div_mod (user_kva k) 4096 ltac:(lia)); lia).
  assert (0 <= sp - Z.of_nat (length w) < 2 ^ 64) by lia.
  rewrite (u64_small (sp - _)), (u64_small (sp - _ - off)) by lia.
  erewrite bind_ok by reflexivity. erewrite bind_ok by reflexivity.
  set (sp1 := sp - Z.of_nat (length w)). set (m1 := put_bytes _ _ _).
  change (with_ram m1 (with_ram _ s2)) with (with_ram m1 s1).
  assert (Z.of_nat (length (ws0 ++ [w])) = Z.of_nat (length ws0) + 1) as El1 by (rewrite length_app; simpl; lia).
  specialize (IH (ws0 ++ [w]) sp1 m1). rewrite El1 in IH. apply IH; try done; try lia.
  - split; [done|]. rewrite <- app_assoc, length_app. cbn [app length]. split; [unfold PAGE_SIZE; lia|done].
  - rewrite <- app_assoc, length_app. cbn [app length]. lia.
  - intros b Hb'. assert (~ in_page (user_kva k) b) as Hn by (by apply Hb').
    unfold m1. rewrite (put_bytes_out (user_kva k)); [|by apply kpage_mod8, user_kva_page, Hk|unfold sp1; lia|unfold sp1, PAGE_SIZE; lia|done].
    rewrite <- (Hag b Hb'). unfold s2. cbn [ram with_ram]. apply ld_st_ne. intros <-. apply Hn. unfold in_page, PAGE_SIZE. lia.
Qed.

(** ** The stack page *)

Lemma present_attr e : get_attribute e USER_ATTR = USER_ATTR -> (get_attribute e PAGE_PRESENT =? 0) = false.
Proof.
  intros Hu. apply Z.eqb_neq. intros E.
  assert (Z.testbit (get_attribute e USER_ATTR) 0 = Z.testbit (get_attribute e PAGE_PRESENT) 0) as Eb
    by (unfold get_attribute; by rewrite !Z.land_spec).
  by rewrite Hu, E in Eb.
Qed.
Lemma stack_translate m m1 root T kva va :
  pt_wf m1 root T ->
  (forall q i, is_Some (T !! q) -> 0 <= i < 512 -> ld64 m (slot q i) = ld64 m1 (slot q i)) ->
  (let e := leaf m1 root (USER_STACK_ADDR - PAGE_SIZE) in
   pa2kva (get_pa e) = kva /\ get_attribute e USER_ATTR = USER_ATTR) ->
  USER_STACK_ADDR - PAGE_SIZE <= va < USER_STACK_ADDR ->
  translate m root va = Some (va + (kva + PAGE_SIZE - USER_STACK_ADDR)).
Proof.
  intros Hwf Hag [Ha Hu] Hva. unfold translate.
  rewrite (proj2 (Z.leb_gt KVA_BASE va)) by (unfold USER_STACK_ADDR, KVA_BASE in *; lia).
  assert (va / 4096 = 0xf0000f) as Ed.
  { symmetry. apply Z.div_unique with (va - 0xf0000f000); unfold USER_STACK_ADDR, PAGE_SIZE in *; lia. }
  assert (leaf m root va = leaf m1 root (USER_STACK_ADDR - PAGE_SIZE)) as ->.
  { rewrite (leaf_same_page m root va (USER_STACK_ADDR - PAGE_SIZE)); [|unfold USER_STACK_ADDR, PAGE_SIZE in *; lia..|done].
    by apply (leaf_frame _ _ _ T). }
  rewrite present_attr, Ha by done. f_equal. rewrite Z.mod_eq by done. unfold PAGE_SIZE in *. rewrite Ed.
  unfold USER_STACK_ADDR. lia.
Qed.

(** The state in which [setup_process_stack] may copy the arguments [ws] of the running
    process to the process of [p]: its tables and those of the caller are apart, there is
    room for the stack page and its tables, and the arguments fit into the page. *)
Record exec_ready s (L : pnref -> list nat) T Tc (p : pcb_t) (argv : Z) (ws : list (list Z)) : Prop := {
  er_wf : mm_wf s L;
  er_tables : tables_ok s (pgdir p) T;
  er_caller : tables_ok s (pgdir (cur s)) Tc;
  er_disj : Tc ##ₘ T;
  er_pool : off_pool s T /\ off_pool s Tc;
  er_kernel : at_least 2 (kernel_free s);
  er_user : at_least 1 (user_free s);
  er_nodes : at_least 3 (node_free s);
  er_in : paged_in s L (pid (cur s));
  er_src : args_src s T argv ws;
  er_fits : 8 + 8 * Z.of_nat (length ws) + total ws <= PAGE_SIZE }.

Lemma user_kva_bounds k : 0 <= k < FREE_USER_PAGE_NUM -> KVA_BASE <= user_kva k /\ user_kva k + PAGE_SIZE < 2 ^ 64.
Proof. unfold FREE_USER_PAGE_NUM, user_kva, USER_MEM_BASE, KVA_BASE, PAGE_SIZE. lia. Qed.

(** What the process finds when it starts: [argc] below the end of the stack page, below it
    the vector, then the strings. *)
Definition stack_args (m : words) (root usp base : Z) (ws : list (list Z)) : Prop :=
  uld64 m root (USER_STACK_ADDR - 8) = Ok (Z.of_nat (length ws)) /\ args_at m root usp base ws.

Lemma stack_args_mem root kva ws m m' :
  let n := Z.of_nat (length ws) in let off := kva + PAGE_SIZE - USER_STACK_ADDR in
  let base := kva + PAGE_SIZE - 8 - 8 * n in
  kpage kva -> Forall cstring ws -> 8 + 8 * n + total ws <= PAGE_SIZE ->
  (forall va, USER_STACK_ADDR - PAGE_SIZE <= va < USER_STACK_ADDR -> translate m' root va = Some (va + off)) ->
  (forall a, in_page kva a -> ld64 m' a = ld64 (args_mem base off base 0 ws (st64 m (kva + PAGE_SIZE - 8) n)).2 a) ->
  forall usp, usp <= base - total ws - off -> stack_args m' root usp (base - off) ws.
Proof.
  intros n off base Hk Hws Hfit Htr Hm usp Husp. set (mm := (args_mem base off base 0 ws _).2) in *.
  pose proof (kpage_mod8 _ Hk) as H8. pose proof (total_nonneg ws). assert (0 <= n) by (unfold n; lia).
  assert (base mod 8 = 0) as Hb.
  { unfold base, PAGE_SIZE. replace (kva + 4096 - 8 - 8 * n) with (kva + (511 - n) * 8) by lia. by rewrite Z.mod_add. }
  split.
  - unfold uld64. rewrite Htr by (unfold PAGE_SIZE; lia). cbn [of_option mbind res_bind].
    replace (USER_STACK_ADDR - 8 + off) with (kva + PAGE_SIZE - 8) by (unfold off; lia).
    rewrite Hm by (unfold in_page, PAGE_SIZE; lia). unfold mm. rewrite args_mem_word; [by rewrite ld_st_eq|lia|unfold base; lia| |unfold base, n; lia].
    unfold PAGE_SIZE. replace (kva + 4096 - 8) with (kva + 511 * 8) by lia. by rewrite Z.mod_add.
  - intros i w Hi. pose proof (lookup_lt_Some _ _ _ Hi) as Hlt.
    destruct (args_mem_at base off Hb base 0 ws (st64 m (kva + PAGE_SIZE - 8) n) i w) as (a & Ea & Ha1 & Ha2 & Hbytes);
      [done|done|done|done|]. fold mm in Ea, Hbytes.
    assert (base = kva + 4096 - 8 - 8 * n) as Eb by done. assert (off = kva + 4096 - 0xf00010000) as Eo by done.
    assert (n = Z.of_nat (length ws)) as En by done. clearbody mm base off n.
    assert (forall x, base - total ws <= x < base + 8 * n -> USER_STACK_ADDR - PAGE_SIZE <= x - off < USER_STACK_ADDR) as Hin
      by (unfold USER_STACK_ADDR, PAGE_SIZE in *; lia).
    assert (forall x, USER_STACK_ADDR - PAGE_SIZE <= x - off < USER_STACK_ADDR -> in_page kva (x - x mod 8)) as Hpg.
    { intros x Hx. unfold in_page, USER_STACK_ADDR, PAGE_SIZE in *. pose proof (Z.mod_pos_bound x 8 ltac:(lia)).
      pose proof (Z.div_mod x 8 ltac:(lia)). pose proof (Z.div_mod kva 8 ltac:(lia)). lia. }
    exists (a - off). split; [|split; [split; [|split; [|split]]|split; lia]].
    + unfold uld64. replace (base - off + 8 * Z.of_nat i) with (base + 8 * (0 + Z.of_nat i) - off) by lia.
      rewrite Htr by (apply Hin; lia). cbn [of_option mbind res_bind]. rewrite Z.sub_add, Hm, Ea; [done|].
      unfold in_page, PAGE_SIZE in *. lia.
    + unfold USER_STACK_ADDR, PAGE_SIZE in *. lia.
    + unfold USER_STACK_ADDR, PAGE_SIZE in *. lia.
    + by eapply Forall_lookup_1 in Hi.
    + intros j c Hj. pose proof (lookup_lt_Some _ _ _ Hj). unfold uld8.
      replace (a - off + Z.of_nat j) with (a + Z.of_nat j - off) by lia.
      rewrite Htr by (apply Hin; lia). cbn [of_option mbind res_bind]. rewrite <- (Hbytes j c Hj). f_equal. unfold ld8.
      rewrite Z.sub_add, Hm; [done|]. apply Hpg, Hin. lia.
Qed.

Lemma args_src_cstring s T argv ws : args_src s T argv ws -> Forall cstring ws.
Proof. intros (_ & _ & H). apply Forall_lookup_2. intros i w Hi. by destruct (H i w Hi) as (_ & a & _ & (_ & _ & Hw & _) & _). Qed.

Lemma rounddown_16 x : 0 <= x -> ROUNDDOWN x 16 mod 16 = 0 /\ ROUNDDOWN x 16 <= x /\ forall y, 16 * y <= x -> 16 * y <= ROUNDDOWN x 16.
Proof.
  intros Hx. assert (ROUNDDOWN x 16 = x - x mod 16) as -> by (apply (rounddown_pow2 x 4); lia).
  pose proof (Z.div_mod x 16 ltac:(lia)). pose proof (Z.mod_pos_bound x 16 ltac:(lia)).
  replace (x - x mod 16) with (x / 16 * 16) by lia. split; [by apply Z.mod_mul|]. split; [lia|]. intros y Hy.
  pose proof (Z.div_le_lower_bound x 16 y ltac:(lia) Hy). lia.
Qed.

(** Everything the new process finds lies where nothing was in use before. *)
Lemma setup_user_stack_ok s L T Tc p argv ws :
  exec_ready s L T Tc p argv ws ->
  let n := Z.of_nat (length ws) in let base := USER_STACK_ADDR - 8 - 8 * n in
  exists usp s', setup_user_stack strmax n argv p s = Ok ((usp, base), s') /\ cur s' = cur s /\
    usp mod 16 = 0 /\ USER_STACK_ADDR - PAGE_SIZE <= usp <= base /\
    (forall a, stable s T a -> ld64 (ram s') a = ld64 (ram s) a) /\
    (forall m, (forall a, ~ stable s T a -> ld64 m a = ld64 (ram s') a) -> stack_args m (pgdir p) usp base ws).
Proof.
  intros [Hw Ht Hc Hd [Hp1 Hp2] Hk Hu Hn Hin Hsrc Hfit] n base0.
  destruct (alloc_page_ok s L T (USER_STACK_ADDR - PAGE_SIZE) p 0 0 0 Hw Ht) as (k & i & s1 & L1 & T1 & E1 & Pa & _); [done..|].
  destruct Pa as [Hfk _ Hw1 Ht1 Hsub Hleaf _ _ Esd _ (Fk & FT & Fr) [Ecur _] _ Hnodes].
  set (kva := user_kva k) in *. pose proof (user_kva_page k ltac:(apply Hfk)) as Hkp. fold kva in Hkp.
  destruct (user_kva_bounds k ltac:(apply Hfk)) as [Hb0 Hb1]. fold kva in Hb0, Hb1.
  set (off := kva + PAGE_SIZE - USER_STACK_ADDR). set (base := kva + PAGE_SIZE - 8 - 8 * n).
  set (m1 := st64 (ram s1) (kva + PAGE_SIZE - 8) n). set (r := args_mem base off base 0 ws m1).
  assert (n = Z.of_nat (length ws)) as En by done. pose proof (total_nonneg ws). pose proof (args_src_cstring _ _ _ _ Hsrc) as Hws.
  assert (base = base0 + off) as Eb by (unfold base, base0, off; lia).
  assert (forall q, is_Some (T !! q) -> kpage q) as HTp by (intros q [l Hl]; by eapply (pt_pages _ _ _ (proj1 Ht))).
  assert (base mod 8 = 0) as Hb8.
  { unfold base, PAGE_SIZE. replace (kva + 4096 - 8 - 8 * n) with (kva + (511 - n) * 8) by lia. rewrite Z.mod_add by lia. by apply kpage_mod8. }
  assert (forall a, ~ in_page kva a -> ld64 r.2 a = ld64 (ram s1) a) as Hout.
  { intros a Ha. unfold r. rewrite (args_mem_out kva); [|by apply kpage_mod8|unfold base, PAGE_SIZE in *; lia|done|done
      |unfold base, PAGE_SIZE in *; lia|unfold base, PAGE_SIZE, n in *; lia|done].
    apply ld_st_ne. intros <-. apply Ha. unfold in_page, PAGE_SIZE. lia. }
  assert (forall a, stable s T a -> ld64 r.2 a = ld64 (ram s) a) as Hst.
  { intros a Ha. rewrite Hout by (by apply Ha). by apply Fr, Ha. }
  exists (ROUNDDOWN (base0 - total ws) 16), (with_ram r.2 s1).
  assert (0 <= base0 - total ws) as Hpos by (unfold base0, USER_STACK_ADDR, PAGE_SIZE in *; lia).
  destruct (rounddown_16 _ Hpos) as (R1 & R2 & R3). split; [|split; [done|split; [done|split; [|split; [done|]]]]].
  - unfold setup_user_stack. erewrite bind_ok by exact E1. fold kva. cbv zeta.
    assert (u64 (kva + PAGE_SIZE) = kva + PAGE_SIZE /\ u64 (kva + PAGE_SIZE - USER_STACK_ADDR) = off /\
      u64 (kva + PAGE_SIZE - 8) = kva + PAGE_SIZE - 8 /\ u64 (kva + PAGE_SIZE - 8 - 8 * n) = base /\ u64 (base - off) = base0 /\
      u64 n = n /\ u64 (8 * n) = 8 * n /\ u64 (base - total ws - off) = base0 - total ws) as (U1 & U2 & U3 & U4 & U5 & U6 & U7 & U8).
    { unfold base, base0, off, KVA_BASE, USER_STACK_ADDR, PAGE_SIZE in *. rewrite !u64_small by lia. repeat split; lia. }
    rewrite U1, U2, U3, U4, U6, U7. erewrite bind_ok by reflexivity. rewrite gets_bind. fold m1.
    assert (mm_wf (with_ram m1 s1) L1) as Hw2 by (split; apply Hw1).
    assert (paged_in (with_ram m1 s1) L1 (pid (cur s))) as Hp2'.
    { intros j x. rewrite Esd. intros Hj. simpl. rewrite Hnodes; [by apply Hin|]. by exists user_page_sd_head. }
    erewrite bind_ok.
    2:{ eapply (check_uva_mem_none _ L1); [exact Hw2| |apply Hsrc|lia|destruct Hsrc as (_ & Hsrc & _); unfold n; lia].
        simpl. by rewrite Ecur. }
    erewrite bind_ok.
    2:{ unfold n at 1. rewrite Nat2Z.id. apply (push_args_ok s T Tc s1 L1 k argv base off [] ws base m1); try done;
          unfold base, off, kva, KVA_BASE, USER_STACK_ADDR, PAGE_SIZE, n in *; simpl; try lia.
        intros a Ha. unfold m1. rewrite ld_st_ne; [by apply Fr, Ha|]. intros <-. destruct Ha as [_ Ha]. apply (Ha k Hfk).
        unfold in_page, PAGE_SIZE. lia. }
    cbn [length Z.of_nat]. fold r. unfold r at 1. rewrite args_mem_sp, U5, U8. done.
  - specialize (R3 0xf0000f00). unfold base0, USER_STACK_ADDR, PAGE_SIZE in *. lia.
  - intros m Hm. set (usp := ROUNDDOWN _ _) in *. assert (base0 = base - off) as Eb' by lia. rewrite Eb'.
    apply (stack_args_mem (pgdir p) kva ws (ram s1) m); try done.
    + intros va Hva. apply (stack_translate m (ram s1) (pgdir p) T1); [apply Ht1| |done|done].
      intros q j Hq Hj. pose proof (slot_in_page q j Hj) as Hqj.
      assert (kpage q) as Hkq by (destruct Hq as [l Hl]; by eapply (pt_pages _ _ _ (proj1 Ht1))).
      rewrite Hm; [simpl; apply Hout|].
      * intros Hqk. assert (q = kva) as -> by (by apply (pages_apart _ _ (slot q j))).
        apply FT in Hq as [Hq|(x & Hx & Ex)]; [by apply (Hp1 kva k)|]. symmetry in Ex. revert Ex. apply pools_disjoint; [apply Hx|apply Hfk].
      * intros [[Hs1 Hs2] _]. apply FT in Hq as [Hq|(x & Hx & ->)]; [by apply (Hs1 q)|by apply (Hs2 x)].
    + intros a Ha. apply Hm. intros [_ Hs]. by apply (Hs k).
    + fold base off. lia.
Qed.

(** ** The kernel stack and the PCB *)

Variable pcb_addr : pcbref -> Z.
Variable ret_from_exception : Z.
Implicit Type k : @kern D.

Lemma for_pcb_ok {A} r (f : pcb_t -> M (@mmst D) A) k c p a s :
  kpcbs k !! r = Some p -> kpcbs k !! kcur k = Some c -> f p (with_cur c (mm k)) = Ok (a, s) -> cur s = c ->
  for_pcb r f k = Ok (a, with_mm s k).
Proof.
  intros Hp Hc E Hs. unfold for_pcb. erewrite bind_ok by (apply on_sched_ok; unfold read_pcb; unfold kpcbs in Hp; by rewrite Hp).
  destruct k as [[]]. by apply on_mm_ok with c.
Qed.

(** The words [l] from [a] on. *)
Lemma put_words_at a l m (i : nat) v : l !! i = Some v -> ld64 (put_words a l m) (a + 8 * Z.of_nat i) = v.
Proof.
  intros Hi. pose proof (lookup_lt_Some _ _ _ Hi). rewrite put_words_ld, decide_True.
  - replace (a + 8 * Z.of_nat i - a) with (Z.of_nat i * 8) by lia. by rewrite Z.div_mul, Nat2Z.id, Hi by lia.
  - split; [lia|]. replace (a + 8 * Z.of_nat i - a) with (Z.of_nat i * 8) by lia. by apply Z.mod_mul.
Qed.
Lemma put_words_off a l m b : ~ a <= b < a + 8 * Z.of_nat (length l) -> ld64 (put_words a l m) b = ld64 m b.
Proof. intros Hb. rewrite put_words_ld, decide_False; [done|]. by intros [? _]. Qed.

Lemma setup_kernel_stack_ok r reg k c p :
  kpcbs k !! r = Some p -> kpcbs k !! kcur k = Some c -> r <> kcur k -> 400 <= kernel_sp p < 2 ^ 64 ->
  let ksp := kernel_sp p - SIZEOF_REGS - SIZEOF_SWITCHTO in let p' := set_sps ksp (user_sp p) p in
  exists k', setup_kernel_stack ret_from_exception r reg k = Ok (tt, k') /\ kpcbs k' = <[r := p']> (kpcbs k) /\
    (forall i, (i < 32)%nat -> ld64 (ram (mm k')) (ksp + SIZEOF_SWITCHTO + 8 * Z.of_nat i) = reg p' i) /\
    ld64 (ram (mm k')) (ksp + SIZEOF_SWITCHTO + 8 * 33) = entry_point p /\
    ld64 (ram (mm k')) ksp = ret_from_exception /\ ld64 (ram (mm k')) (ksp + 8) = ksp /\
    (forall a, ~ ksp <= a < kernel_sp p -> ld64 (ram (mm k')) a = ld64 (ram (mm k)) a).
Proof.
  intros Hp Hc Hne Hsp ksp p'. unfold SIZEOF_REGS, SIZEOF_SWITCHTO in *.
  unfold setup_kernel_stack. erewrite bind_ok by (by apply upd_pcb_on_sched).
  unfold SIZEOF_REGS, SIZEOF_SWITCHTO. rewrite u64_small by lia. fold ksp p'.
  set (k1 := with_locks _ k). assert (kpcbs k1 = <[r := p']> (kpcbs k)) as Ek1 by done. assert (kcur k1 = kcur k) as Ec1 by done.
  set (l1 := regs_words (reg p') (entry_point p')). set (l2 := switchto_words ret_from_exception ksp).
  set (mem := put_words ksp l2 (put_words (ksp + 14 * 8) l1 (ram (mm k)))).
  exists (with_mm (with_ram mem (with_cur c (mm k))) k1). split.
  { apply for_pcb_ok with c p'; [by rewrite Ek1, lookup_insert_eq|by rewrite Ec1, Ek1, lookup_insert_ne| |done]. done. }
  split; [done|]. cbn [mm with_mm ram with_ram].
  assert (length l2 = 14%nat) as L2 by done. assert (length l1 = 34%nat) as L1 by done.
  assert (forall a, ksp + 112 <= a -> ld64 mem a = ld64 (put_words (ksp + 14 * 8) l1 (ram (mm k))) a) as Hm.
  { intros a Ha. unfold mem. apply put_words_off. rewrite L2. lia. }
  split; [|split; [|split; [|split]]].
  - intros i Hi. rewrite Hm by lia. apply put_words_at. unfold l1, regs_words.
    rewrite lookup_app_l, list_lookup_fmap, lookup_seq_lt by (rewrite ?length_fmap, ?length_seq; lia). done.
  - rewrite Hm by lia. by apply (put_words_at _ _ _ 33).
  - replace ksp with (ksp + 8 * Z.of_nat 0) at 1 by lia. by apply put_words_at.
  - by apply (put_words_at ksp l2 _ 1).
  - intros a Ha. unfold mem, ksp in *. rewrite !put_words_off; [done| |]; rewrite ?L1, ?L2; lia.
Qed.

(** The kernel stack of [p] is a page in use that is no table of [p]. *)
Definition kstack_ok s T (p : pcb_t) : Prop :=
  KVA_BASE + PAGE_SIZE <= kernel_sp p < 2 ^ 64 /\ forall a, in_page (kernel_sp p - PAGE_SIZE) a -> stable s T a.

(** C6. The new process of do_exec finds the arguments of the caller: through its own page
    table it reads argc at the end of its stack page, a vector of argc pointers below and behind
    each pointer the string the caller passed; the saved registers send it to the entry point of
    the program with argc in a0, the vector in a1 and an aligned sp below all of it, and the
    stack of switch_to returns to ret_from_exception. Memory in use, and so the caller, is
    unchanged. *)
Theorem exec_passes_args k r c p L T Tc argv ws :
  kpcbs k !! r = Some p -> kpcbs k !! kcur k = Some c -> r <> kcur k ->
  exec_ready (with_cur c (mm k)) L T Tc p argv ws -> kstack_ok (with_cur c (mm k)) T p ->
  let n := Z.of_nat (length ws) in let base := USER_STACK_ADDR - 8 - 8 * n in
  let ksp := kernel_sp p - SIZEOF_REGS - SIZEOF_SWITCHTO in
  let regs i k' := ld64 (ram (mm k')) (ksp + SIZEOF_SWITCHTO + 8 * i) in
  exists usp k', setup_process_stack pcb_addr ret_from_exception strmax r n argv k = Ok (tt, k') /\
    kpcbs k' = <[r := set_sps ksp usp p]> (kpcbs k) /\
    usp mod 16 = 0 /\ USER_STACK_ADDR - PAGE_SIZE <= usp <= base /\
    stack_args (ram (mm k')) (pgdir p) usp base ws /\
    regs 2 k' = usp /\ regs 10 k' = n /\ regs 11 k' = base /\ regs 33 k' = entry_point p /\
    ld64 (ram (mm k')) ksp = ret_from_exception /\ ld64 (ram (mm k')) (ksp + 8) = ksp /\
    (forall a, stable (with_cur c (mm k)) T a -> ~ ksp <= a < kernel_sp p -> ld64 (ram (mm k')) a = ld64 (ram (mm k)) a).
Proof.
  intros Hp Hc Hne Hr [Hks Hpg] n base ksp regs. pose proof (er_fits _ _ _ _ _ _ _ Hr) as Hfit.
  destruct (setup_user_stack_ok _ _ _ _ _ _ _ Hr) as (usp & s' & E & Ecur & H16 & Hu & Hst & Hargs). fold n base in E, Hu, Hargs.
  set (p1 := set_sps (kernel_sp p) usp p).
  set (k1 := with_mm s' k). set (k2 := with_locks (with_sch (put_pcb r p1 (sch (locks k))) (locks k)) k1).
  assert (kpcbs k2 = <[r := p1]> (kpcbs k)) as Ek2 by done.
  destruct (setup_kernel_stack_ok r (process_regs pcb_addr r n base) k2 c p1) as (k3 & E3 & Ek3 & R1 & R2 & R3 & R4 & Hm).
  { by rewrite Ek2, lookup_insert_eq. } { change (kcur k2) with (kcur k). by rewrite Ek2, lookup_insert_ne. } { done. }
  { unfold p1. simpl. unfold KVA_BASE, PAGE_SIZE in Hks. lia. }
  change (kernel_sp p1) with (kernel_sp p) in *. fold ksp in R1, R2, R3, R4, Hm, Ek3.
  exists usp, k3. split; [|split; [|split; [done|split; [done|split; [|split; [|split; [|split; [|split; [done|split; [done|split; [done|]]]]]]]]]]].
  - unfold setup_process_stack. erewrite bind_ok by (by apply for_pcb_ok with c p). cbn [Z.to_nat].
    erewrite bind_ok by (by apply upd_pcb_on_sched). exact E3.
  - rewrite Ek3, Ek2, insert_insert_eq. done.
  - apply Hargs. intros a Ha. rewrite Hm; [done|]. intros Hin. apply Ha, Hpg. unfold in_page, PAGE_SIZE. unfold ksp, SIZEOF_REGS, SIZEOF_SWITCHTO in Hin. lia.
  - by apply (R1 2%nat); lia.
  - rewrite <- (u64_small n); [by apply (R1 10%nat); lia|]. pose proof (total_nonneg ws). unfold n, PAGE_SIZE in *. lia.
  - by apply (R1 11%nat); lia.
  - intros a Ha Hn. rewrite Hm by done. by apply Hst.
Qed.
End Exec.
