(* ===== verification/ExecWitness.v ===== *)
(** * A process that executes another with two arguments

    Process 1 holds a vector of two strings in a page of its own; the PCB of the new process
    has a root table and a kernel stack. *)
From S2P Require Import Prelude CString DList Sched Lock FsLayout PageTable Mm MmFacts MmWitness UserMem.
From S2P Require Import Process ProcessFacts ProcessWitness Exec.

(** ** Deciding the conditions on tables *)

#[global] Instance level_eq_dec : EqDecision level.
Proof. solve_decision. Defined.
#[global] Instance kpage_dec p : Decision (kpage p).
Proof. unfold kpage. apply _. Defined.

Definition entry_ok (T : gmap Z level) (e : Z) (l : level) : Prop := e = 0 \/ T !! pa2kva (get_pa e) = Some l.
Definition lv2_check (m : words) (T : gmap Z level) (p : Z) (l : level) : Prop :=
  match l with Lv2 i => Forall (fun j => entry_ok T (ld64 m (slot p j)) (Lv1 i j)) (seqZ 0 512) | _ => True end.
#[global] Instance lv2_check_dec m T p l : Decision (lv2_check m T p l).
Proof. unfold lv2_check, entry_ok. destruct l; apply _. Defined.
Definition tables_check (s : @mmst card) (root : Z) (T : gmap Z level) : Prop :=
  T !! root = Some Root /\ Forall (fun i => entry_ok T (ld64 (ram s) (slot root i)) (Lv2 i)) (seqZ 0 256) /\
  map_Forall (fun p l => kpage p /\ lv2_check (ram s) T p l /\ p < USER_MEM_BASE /\
    let k := page_idx p INIT_KERNEL_STACK in p = kernel_kva k /\ bit (kernel_bitmap s) k = true) T.
#[global] Instance tables_check_dec s root T : Decision (tables_check s root T).
Proof. unfold tables_check, entry_ok. apply _. Defined.

Lemma tables_check_ok s root T : tables_check s root T -> tables_ok s root T /\ off_pool s T.
Proof.
  intros (Hroot & H3 & HT). split; [split; [split|]|].
  - lia.
  - done.
  - intros p l Hl. by destruct (HT p l Hl).
  - intros i Hi. eapply Forall_forall in H3; [exact H3|]. apply elem_of_seqZ. lia.
  - intros p i j Hl Hj. destruct (HT p _ Hl) as (_ & H2 & _). eapply Forall_forall in H2; [exact H2|]. apply elem_of_seqZ. lia.
  - intros p k [l Hl] [_ Hf] ->. destruct (HT _ _ Hl) as (_ & _ & _ & E & Hb). apply kernel_kva_inj in E. congruence.
  - intros p k [l Hl] [Hk _] ->. destruct (HT _ _ Hl) as (_ & _ & Hlt & _). unfold user_kva, PAGE_SIZE in Hlt. lia.
Qed.

(** ** The state *)

Definition kstack : Z := kernel_kva 6.
Definition argpage : Z := user_kva 0.
Definition caller_tables : gmap Z level := {[pgA := Root; kernel_kva 7 := Lv2 0; kernel_kva 8 := Lv1 0 0]}.
Definition new_tables : gmap Z level := {[pgB := Root]}.
Definition args : list (list Z) := [[108; 115; 0]; [45; 108; 0]].     (* "ls", "-l" *)
Definition caller_mm : @mmst card := Eval vm_compute in
  let s := st_of ((alloc_kernel_page;; alloc_page_helper 0x10000 pgA procA) boot) in
  with_ram (put_bytes (argpage + 0x24) [45; 108; 0] (put_bytes (argpage + 0x20) [108; 115; 0]
    (st64 (st64 (ram s) argpage 0x10020) (argpage + 8) 0x10024))) s.
Definition new_pcb : pcb_t := mkPcb (kstack + PAGE_SIZE) 0 0 0 2 TASK_READY 0 0 0 0 0x50000 [] 0 0 pgB MTHREAD 0 0.
Definition caller_kern : @kern card := {|
  locks := mkLockst (mkSched ∅ {[Pcb 0 := procA; Pcb 1 := new_pcb]} (Pcb 0) 0 0 2) [] 0 [] [] [];
  mm := caller_mm; tasks := []; tasknum := 0 |}.

Lemma caller_wf : mm_wf caller_mm (lists [0; 1]%nat [2]%nat []).
Proof. apply mm_check_wf. by_computation. Qed.
Lemma caller_tables_ok : tables_ok caller_mm pgA caller_tables /\ off_pool caller_mm caller_tables.
Proof. apply tables_check_ok. by_computation. Qed.
Lemma new_tables_ok : tables_ok caller_mm pgB new_tables /\ off_pool caller_mm new_tables.
Proof. apply tables_check_ok. by_computation. Qed.

(** ** Pages in use *)

(** An address in a page in use, of either pool, that is not the new root table. *)
Lemma page_stable p a :
  kpage p -> in_page p a -> p <> pgB ->
  (forall k, kernel_free caller_mm k -> p <> kernel_kva k) -> (forall k, user_free caller_mm k -> p <> user_kva k) ->
  stable caller_mm new_tables a.
Proof.
  intros Hp Ha Hne Hk Hu. split; [split|].
  - intros q [l Hl] Hq. unfold new_tables in Hl. apply lookup_singleton_Some in Hl as [<- _]. apply Hne, (pages_apart _ _ a); [done|by apply kernel_kva_page|done|done].
  - intros k Hf Hq. apply (Hk k Hf), (pages_apart _ _ a); [done|apply kernel_kva_page, Hf|done|done].
  - intros k Hf Hq. apply (Hu k Hf), (pages_apart _ _ a); [done|apply user_kva_page, Hf|done|done].
Qed.
Lemma argpage_stable a : in_page argpage a -> stable caller_mm new_tables a.
Proof.
  intros Ha. apply (page_stable argpage); [by apply user_kva_page|done|done| |].
  - intros k [Hk _] E. symmetry in E. revert E. by apply pools_disjoint.
  - intros k [_ Hf] E. apply user_kva_inj in E as <-. revert Hf. vm_compute. done.
Qed.
Lemma kstack_stable a : in_page kstack a -> stable caller_mm new_tables a.
Proof.
  intros Ha. apply (page_stable kstack); [by apply kernel_kva_page|done|done| |].
  - intros k [_ Hf] E. apply kernel_kva_inj in E as <-. revert Hf. vm_compute. done.
  - intros k [Hk _]. apply pools_disjoint; [done|lia].
Qed.
Definition arg_leaf : Z := Eval vm_compute in leaf (ram caller_mm) pgA 0x10000.
Lemma arg_leaf_ok : leaf (ram caller_mm) pgA 0x10000 = arg_leaf.
Proof. vm_compute. reflexivity. Qed.
Lemma arg_translate va : 0x10000 <= va < 0x11000 -> translate (ram caller_mm) pgA va = Some (argpage + (va - 0x10000)).
Proof.
  intros Hv. unfold translate. rewrite (proj2 (Z.leb_gt KVA_BASE va)) by (unfold KVA_BASE; lia).
  assert (va / 4096 = 0x10) as Ed by (symmetry; apply Z.div_unique with (va - 0x10000); lia).
  rewrite (leaf_same_page _ _ va 0x10000) by (done || lia).
  rewrite arg_leaf_ok. change (get_attribute arg_leaf PAGE_PRESENT =? 0) with false.
  change (pa2kva (get_pa arg_leaf)) with argpage. cbv iota. f_equal. unfold PAGE_SIZE. rewrite Z.mod_eq, Ed by lia. lia.
Qed.
Lemma arg_safe va : 0x10000 <= va < 0x11000 -> safe caller_mm new_tables va.
Proof.
  intros Hv. split; [right; apply user_va_small; lia|]. exists (argpage + (va - 0x10000)).
  split; [by apply arg_translate|]. apply argpage_stable. unfold in_page, PAGE_SIZE. lia.
Qed.

Definition str_check (a : Z) (w : list Z) : Prop :=
  last w = Some 0 /\ Forall (fun c => 0 < c < 2 ^ 8) (removelast w) /\
  Forall (fun j => uld8 (ram caller_mm) pgA (a + Z.of_nat j) = Ok (default 0 (w !! j))) (seq 0 (length w)).
Lemma str_check_at a w : 0x10000 <= a -> a + Z.of_nat (length w) <= 0x11000 -> (length w <= 64)%nat -> str_check a w ->
  arg_src 64 caller_mm new_tables a w.
Proof.
  intros Ha Hl Hlen (Hlast & Hc & Hb). split; [split; [|split; [|split]]|split; [|split]].
  - lia.
  - lia.
  - exists (removelast w). split; [|done]. apply last_Some in Hlast as [l ->]. by rewrite removelast_last.
  - intros j c Hj. eapply Forall_forall in Hb; [|apply elem_of_seq; split; [|by eapply lookup_lt_Some]; lia].
    by rewrite Hj in Hb.
  - unfold PAGE_SIZE. lia.
  - done.
  - intros j Hj. apply arg_safe. lia.
Qed.
Lemma caller_args : args_src 64 caller_mm new_tables 0x10000 args.
Proof.
  split; [done|]. split; [done|]. intros i w Hi. pose proof (lookup_lt_Some _ _ _ Hi) as Hlt. simpl in Hlt.
  split; [apply arg_safe; lia|]. exists (if decide (i = 0%nat) then 0x10020 else 0x10024).
  destruct i as [|[|i]]; [| |lia]; injection Hi as <-; (split; [vm_compute; reflexivity|]);
    (apply str_check_at; [done|done|simpl; lia|]); repeat split; by_computation.
Qed.
Lemma caller_cur : with_cur procA (mm caller_kern) = caller_mm.
Proof. reflexivity. Qed.
Lemma caller_ready : exec_ready 64 (with_cur procA (mm caller_kern)) (lists [0; 1]%nat [2]%nat []) new_tables caller_tables new_pcb 0x10000 args.
Proof.
  rewrite caller_cur. split.
  - apply caller_wf.
  - apply new_tables_ok.
  - apply caller_tables_ok.
  - by_computation.
  - split; [apply new_tables_ok|apply caller_tables_ok].
  - exists [9; 10]. split; [by_computation|]. split; [done|]. intros x Hx.
    repeat (apply elem_of_cons in Hx as [->|Hx]; [by vm_compute|]). by apply elem_of_nil in Hx.
  - exists [1]. split; [by_computation|]. split; [done|]. intros x ->%list_elem_of_singleton. by vm_compute.
  - exists [3; 4; 5]%nat. split; [by_computation|]. split; [done|].
    intros x Hx. repeat (apply elem_of_cons in Hx as [->|Hx]; [by eexists|]). by apply elem_of_nil in Hx.
  - intros i n Hi. by apply elem_of_nil in Hi.
  - exact caller_args.
  - done.
Qed.

Lemma exec_passes_args_witness :
  exists usp k', setup_process_stack (fun _ => 0) 0x50201000 64 (Pcb 1) 2 0x10000 caller_kern = Ok (tt, k') /\
    stack_args (ram (mm k')) pgB usp (USER_STACK_ADDR - 24) args.
Proof.
  destruct (exec_passes_args 64 (fun _ => 0) 0x50201000 caller_kern (Pcb 1) procA new_pcb
    (lists [0; 1]%nat [2]%nat []) new_tables caller_tables 0x10000 args) as (usp & k' & E & _ & _ & _ & Ha & _).
  - vm_compute. reflexivity.
  - vm_compute. reflexivity.
  - vm_compute. discriminate.
  - exact caller_ready.
  - rewrite caller_cur. split; [vm_compute; split; [discriminate|reflexivity]|]. exact kstack_stable.
  - exists usp, k'. split; [exact E|exact Ha].
Defined.
