(* ===== verification/Load.v ===== *)
(** * Loading a program (kernel/loader/loader.c)

    [load_task_img] maps the pages of a program, reads its sectors into them and moves the
    bytes to the entry point. *)
From S2P Require Import Prelude CString DList Sched Lock FsLayout PageTable Mm MmFacts MmWitness UserMem.
From S2P Require Import Process Exec.

(** Byte [x] of the card from [sector] on. *)
Definition byte_of (w i : Z) : Z := Z.land (Z.shiftr w (8 * i)) 255.
Definition card_byte {D} `{!SwapDevice D} (d : D) (sector x : Z) : Z :=
  byte_of (default 0 (sd_page d (sector + 8 * (x / PAGE_SIZE)) !! Z.to_nat (x mod PAGE_SIZE / 8))) (x mod 8).

Lemma put_words_ld8 a l m x :
  a mod 8 = 0 -> 0 <= x < 8 * Z.of_nat (length l) ->
  ld8 (put_words a l m) (a + x) = byte_of (default 0 (l !! Z.to_nat (x / 8))) (x mod 8).
Proof.
  intros Ha Hx. unfold ld8. assert ((a + x) mod 8 = x mod 8) as Em.
  { pose proof (Z.div_mod a 8 ltac:(lia)). replace (a + x) with (x + a / 8 * 8) by lia. by rewrite Z.mod_add. }
  pose proof (Z.div_mod x 8 ltac:(lia)). pose proof (Z.mod_pos_bound x 8 ltac:(lia)). pose proof (Z.div_pos x 8 ltac:(lia) ltac:(lia)).
  rewrite Em. replace (a + x - x mod 8) with (a + 8 * Z.of_nat (Z.to_nat (x / 8))) by lia.
  destruct (lookup_lt_is_Some_2 l (Z.to_nat (x / 8))) as [v Hv]; [lia|]. by rewrite (put_words_at _ _ _ _ _ Hv), Hv.
Qed.
Lemma put_words_page pg l m b :
  kpage pg -> (length l <= 512)%nat -> ~ in_page pg b -> ld64 (put_words pg l m) b = ld64 m b.
Proof. intros Hk Hl Hb. apply put_words_off. intros Hin. apply Hb. unfold in_page, PAGE_SIZE. lia. Qed.
Lemma pt_wf_frame m m' root T :
  pt_wf m root T -> (forall q i, is_Some (T !! q) -> 0 <= i < 512 -> ld64 m' (slot q i) = ld64 m (slot q i)) -> pt_wf m' root T.
Proof.
  intros H Hs. split; [apply H|apply H|apply H| |].
  - intros i Hi. cbv zeta. rewrite Hs by (lia || (eexists; apply (pt_root _ _ _ H))). by apply (pt_lv3 _ _ _ H).
  - intros q i j Hq Hj. cbv zeta. rewrite Hs by (done || (eexists; exact Hq)). by apply (pt_lv2 _ _ _ H).
Qed.
Lemma page_of_small va : 0 <= va < 2 ^ 38 -> page_of va = va / 4096.
Proof. intros H. by apply user_va_small. Qed.

Lemma page_word_in p a x : kpage p -> in_page p (a + x) -> in_page p (a + x - (a + x) mod 8).
Proof.
  unfold in_page, PAGE_SIZE. intros Hp Ha. pose proof (kpage_mod8 p Hp). pose proof (Z.mod_pos_bound (a + x) 8 ltac:(lia)).
  pose proof (Z.div_mod (a + x) 8 ltac:(lia)). pose proof (Z.div_mod p 8 ltac:(lia)). lia.
Qed.

Section Load.
Context {D : Type} `{!SwapDevice D}.
Implicit Types (s : @mmst D) (T : gmap Z level).

Lemma card_byte_next (d : D) sector x : card_byte d (sector + 8) x = card_byte d sector (4096 + x).
Proof.
  unfold card_byte, PAGE_SIZE. replace (4096 + x) with (x + 1 * 4096) by lia. rewrite Z.div_add, Z.mod_add by lia.
  replace ((x + 1 * 4096) mod 8) with (x mod 8); [by replace (sector + 8 + 8 * (x / 4096)) with (sector + 8 * (x / 4096 + 1)) by lia|].
  replace (x + 1 * 4096) with (x + 512 * 8) by lia. by rewrite Z.mod_add.
Qed.

(** ** One page *)

(** The words read into a page, and what is left to read. *)
Definition page_part (d : D) (sectors sector : Z) : list Z := take (Z.to_nat (64 * Z.min 8 sectors)) (sd_page d sector).

Lemma page_part_length d sectors sector : 0 <= sectors -> Z.of_nat (length (page_part d sectors sector)) = 64 * Z.min 8 sectors.
Proof. intros H. unfold page_part. rewrite length_take, sd_page_length. unfold NUM_PTE_ENTRY. lia. Qed.

(** One turn of the loop. *)
Lemma load_pages_S n uva sectors sector p s kva s1 :
  0 <= sectors < 2 ^ 23 -> 0 <= sector -> sector + sectors < 2 ^ 32 -> 0 <= uva -> uva + 0x1000 < 2 ^ 64 ->
  alloc_page_helper uva (pgdir p) p s = Ok (kva, s1) ->
  load_pages (S n) uva sectors sector p s =
  load_pages n (uva + 0x1000) (sectors - Z.min 8 sectors) (if 8 <=? sectors then sector + 8 else sector) p
    (with_ram (put_words kva (page_part (swap s1) sectors sector) (ram s1)) s1).
Proof.
  intros Hs Hsec Hb Hu Hu' E. cbn [load_pages]. erewrite bind_ok by exact E. cbv zeta. rewrite (u64_small (uva + _)) by lia.
  unfold SECTOR_BYTES, PAGE_SIZE, PAGE_SECTORS. rewrite (u32_small (sectors * 512)) by lia. unfold page_part.
  destruct (Z.leb_spec 8 sectors).
  - rewrite (proj2 (Z.geb_le _ _)) by lia. rewrite !u32_small by lia. erewrite bind_ok by reflexivity.
    by rewrite Z.min_l by lia.
  - assert ((sectors * 512 >=? 4096) = false) as -> by (rewrite Z.geb_leb; apply Z.leb_gt; lia). rewrite Z.min_r by lia.
    destruct (Z.gtb_spec sectors 0).
    + erewrite bind_ok by reflexivity. by rewrite (Z.mul_comm sectors 64), Z.sub_diag.
    + assert (sectors = 0) as -> by lia. simpl. by destruct s1.
Qed.

(** ** All pages *)

(** [n] pages from [uva] on are mapped to the pages [ks] of the user pool and hold the
    sectors. *)
Record pages_loaded (p : pcb_t) (uva : Z) (n : nat) (sectors sector : Z) s L T s' L' T' (ks : list Z) : Prop := {
  pl_len : length ks = n;
  pl_nodup : NoDup ks;
  pl_free : forall k, k ∈ ks -> user_free s k;
  pl_wf : mm_wf s' L';
  pl_tables : tables_ok s' (pgdir p) T';
  pl_sd : L' user_page_sd_head = L user_page_sd_head;
  pl_nodes : forall j, on_list L j -> pn_list s' !! j = pn_list s !! j;
  pl_new : forall q, is_Some (T' !! q) -> is_Some (T !! q) \/ exists j, kernel_free s j /\ q = kernel_kva j;
  pl_stable : forall a, stable s T a -> ld64 (ram s') a = ld64 (ram s) a;
  pl_rest : cur s' = cur s /\ swap s' = swap s;
  pl_leaf : forall (i : nat) k, ks !! i = Some k -> let e := leaf (ram s') (pgdir p) (uva + PAGE_SIZE * Z.of_nat i) in
    pa2kva (get_pa e) = user_kva k /\ get_attribute e USER_ATTR = USER_ATTR;
  pl_others : forall va', user_va va' -> page_of va' < page_of uva \/ page_of uva + Z.of_nat n <= page_of va' ->
    leaf (ram s') (pgdir p) va' = leaf (ram s) (pgdir p) va';
  pl_bytes : forall (i : nat) k x, ks !! i = Some k -> 0 <= x < PAGE_SIZE -> PAGE_SIZE * Z.of_nat i + x < 512 * sectors ->
    ld8 (ram s') (user_kva k + x) = card_byte (swap s) sector (PAGE_SIZE * Z.of_nat i + x) }.

(** The state after a page was mapped and filled with [l]. *)
Section Filled.
Context (p : pcb_t) (uva k : Z) (i : nat) s (L : pnref -> list nat) T s1 (L1 : pnref -> list nat) T1 (l : list Z).
Hypothesis (Hw : mm_wf s L) (Pa : page_added p uva k i s L T s1 L1 T1) (Hpool : off_pool s T) (Hl : (length l <= 512)%nat).
Let s2 := with_ram (put_words (user_kva k) l (ram s1)) s1.

Lemma added_tables q : is_Some (T1 !! q) -> kpage q /\ forall j, user_free s j -> q <> user_kva j.
Proof.
  intros Hq. destruct Pa as [_ _ _ [Hwf _] _ _ _ _ _ _ (_ & FT & _) _ _ _]. split.
  - destruct Hq as [lv Hq]. by eapply pt_pages.
  - intros j Hj. apply FT in Hq as [Hq|(x & Hx & ->)]; [by apply Hpool|]. apply pools_disjoint; [apply Hx|apply Hj].
Qed.
Lemma filled_out a : ~ in_page (user_kva k) a -> ld64 (ram s2) a = ld64 (ram s1) a.
Proof. intros Ha. destruct Pa. apply put_words_page; [by apply user_kva_page, pa_free|done|done]. Qed.
Lemma filled_slot q j : is_Some (T1 !! q) -> 0 <= j < 512 -> ld64 (ram s2) (slot q j) = ld64 (ram s1) (slot q j).
Proof.
  intros Hq Hj. apply filled_out. intros Hin. destruct (added_tables q Hq) as [Hk Hne], Pa.
  apply (Hne k pa_free), (pages_apart _ _ (slot q j)); [done|apply user_kva_page, pa_free|by apply slot_in_page|done].
Qed.
Lemma filled_free j : user_free s2 j <-> user_free s j /\ j <> k.
Proof.
  destruct Pa. unfold user_free. simpl. rewrite pa_bitmap. apply free_in_set; [apply Hw|apply pa_free].
Qed.
Lemma filled_wf : mm_wf s2 L1.
Proof. destruct Pa. split; apply pa_wf. Qed.
Lemma filled_tables : tables_ok s2 (pgdir p) T1.
Proof.
  destruct Pa. split; [|apply pa_tables]. eapply pt_wf_frame; [apply pa_tables|]. exact filled_slot.
Qed.
Lemma filled_pool : off_pool s2 T1.
Proof. intros q j Hq [Hj _]%filled_free. by apply added_tables. Qed.
Lemma filled_leaf va : user_va va -> leaf (ram s2) (pgdir p) va = leaf (ram s1) (pgdir p) va.
Proof. intros Hu. eapply leaf_frame; [apply (pa_tables _ _ _ _ _ _ _ _ _ _ Pa)|done|]. exact filled_slot. Qed.
(** The page itself keeps its contents from here on. *)
Lemma filled_page a : in_page (user_kva k) a -> stable s2 T1 a.
Proof.
  intros Ha. pose proof Pa as []. pose proof (user_kva_page k ltac:(apply pa_free)) as Hkp. split; [split|].
  - intros q Hq Hin. destruct (added_tables q Hq) as [Hk Hne]. by apply (Hne k pa_free), (pages_apart _ _ a).
  - intros j Hj Hin. apply (pools_disjoint j k); [apply Hj|apply pa_free|].
    by apply (pages_apart _ _ a); [apply kernel_kva_page, Hj|..].
  - intros j Hj Hin. apply filled_free in Hj as [Hj Hne]. apply Hne, user_kva_inj.
    by apply (pages_apart _ _ a); [apply user_kva_page, Hj|..].
Qed.
Lemma filled_stable a : stable s T a -> stable s2 T1 a /\ ld64 (ram s2) a = ld64 (ram s) a.
Proof.
  intros [Hu Hk]. destruct Pa. split.
  - split; [by apply (untouched_step s T s1 T1)|]. intros j [Hj _]%filled_free. by apply Hk.
  - rewrite filled_out by (by apply Hk). by apply pa_frame.
Qed.
End Filled.

Lemma pages_loaded_nil p uva sectors sector s L T : mm_wf s L -> tables_ok s (pgdir p) T -> pages_loaded p uva 0 sectors sector s L T s L T [].
Proof. intros Hw Ht. split; try done; [apply NoDup_nil_2|by intros k ?%elem_of_nil|by left]. Qed.

Lemma page_of_next uva i : 0 <= uva -> uva mod PAGE_SIZE = 0 -> 0 <= i -> uva + PAGE_SIZE * i < 2 ^ 38 ->
  page_of (uva + PAGE_SIZE * i) = page_of uva + i.
Proof.
  unfold PAGE_SIZE. intros Hu Hm Hi Hb. rewrite !page_of_small by lia. replace (uva + 4096 * i) with (uva + i * 4096) by lia.
  by rewrite Z.div_add by lia.
Qed.

(** A page in front of loaded pages. *)
Lemma pages_loaded_cons p uva n sectors sector s L T k i s1 L1 T1 s' L' T' ks :
  let l := page_part (swap s1) sectors sector in
  let s2 := with_ram (put_words (user_kva k) l (ram s1)) s1 in
  mm_wf s L -> off_pool s T -> page_added p uva k i s L T s1 L1 T1 ->
  0 < uva -> uva mod PAGE_SIZE = 0 -> uva + PAGE_SIZE * Z.of_nat (S n) < 2 ^ 38 -> 0 <= sectors ->
  pages_loaded p (uva + 0x1000) n (sectors - Z.min 8 sectors) (if 8 <=? sectors then sector + 8 else sector) s2 L1 T1 s' L' T' ks ->
  pages_loaded p uva (S n) sectors sector s L T s' L' T' (k :: ks).
Proof.
  intros l s2 Hw Hpool Pa Hu0 Hal Hb Hsec [Hlen Hnd Hfr Hw' Ht' Hsd Hnodes Hnew Hst [Hcur Hsw] Hleaf Hoth Hbytes].
  pose proof (page_part_length (swap s1) sectors sector Hsec) as Hpl. fold l in Hpl.
  assert ((length l <= 512)%nat) as Hl by lia. pose proof Pa as [Pf Pb _ _ _ Pl Po _ Psd _ (Pk & PT & Pm) [Pc Ps] _ Pn].
  pose proof (page_of_next uva 1 ltac:(lia) Hal ltac:(lia) ltac:(unfold PAGE_SIZE in *; lia)) as Hp1. rewrite Z.mul_1_r in Hp1.
  change 4096 with PAGE_SIZE in *. change (uva + 0x1000) with (uva + PAGE_SIZE) in *.
  assert (user_va uva) as Huv by (apply user_va_small; unfold PAGE_SIZE in *; lia).
  split.
  - simpl. by rewrite Hlen.
  - apply NoDup_cons. split; [|done]. intros Hin. apply Hfr, (filled_free p uva k i s L T s1 L1 T1 l Hw Pa) in Hin as [_ Hin]. done.
  - intros j [->|Hj]%elem_of_cons; [done|]. apply Hfr in Hj. by eapply (filled_free p uva k i s L T s1 L1 T1 l Hw Pa) in Hj as [Hj _].
  - done.
  - done.
  - by rewrite Hsd, Psd.
  - intros j Hj. rewrite Hnodes; [by apply Pn|].
    destruct (wf_node _ _ Hw j Hj) as [nd En]. pose proof (pa_wf _ _ _ _ _ _ _ _ _ _ Pa) as Hw1.
    apply (wf_status _ _ Hw1 j nd); [by rewrite Pn|]. by apply (wf_status _ _ Hw j nd).
  - intros q [Hq|(j & Hj & ->)]%Hnew; [by apply PT|]. right. exists j. split; [by apply Pk|done].
  - intros a Ha. destruct (filled_stable p uva k i s L T s1 L1 T1 l Hw Pa Hl a Ha) as [Ha2 E]. by rewrite Hst.
  - split; [by rewrite Hcur|by rewrite Hsw].
  - intros [|j] kj Hj; cbn [lookup list_lookup] in Hj.
    + injection Hj as <-. rewrite Z.mul_0_r, Z.add_0_r. cbv zeta. rewrite Hoth by (done || lia).
      by rewrite (filled_leaf p uva k i s L T s1 L1 T1 l Pa Hpool Hl).
    + replace (uva + PAGE_SIZE * Z.of_nat (S j)) with (uva + PAGE_SIZE + PAGE_SIZE * Z.of_nat j) by lia. by apply Hleaf.
  - intros va' Hv Hd. rewrite Hoth by (done || lia). rewrite (filled_leaf p uva k i s L T s1 L1 T1 l Pa Hpool Hl) by done.
    apply Po; [done|lia].
  - intros [|j] kj x Hj Hx Hlt; cbn [lookup list_lookup] in Hj.
    + injection Hj as <-. rewrite Z.mul_0_r, Z.add_0_l in *. unfold ld8.
      rewrite Hst by (apply (filled_page p uva k i s L T s1 L1 T1 l Hw Pa Hpool), page_word_in; [apply user_kva_page, Pf|unfold in_page; lia]).
      pose proof (kpage_mod8 _ (user_kva_page k (proj1 Pf))) as H8. fold (ld8 (ram s2) (user_kva k + x)). unfold s2. cbn [ram with_ram].
      rewrite put_words_ld8 by (done || (unfold PAGE_SIZE in *; lia)). unfold card_byte, l, page_part. unfold PAGE_SIZE in *.
      rewrite (Z.div_small x 4096), (Z.mod_small x 4096), Z.mul_0_r, Z.add_0_r, lookup_take_lt, Ps; [done| |lia|lia].
      pose proof (Z.div_lt_upper_bound x 8 (64 * Z.min 8 sectors) ltac:(lia) ltac:(lia)). lia.
    + unfold PAGE_SIZE in *. assert (8 < sectors) by lia. rewrite (proj2 (Z.leb_le 8 sectors)), Z.min_l in Hbytes by lia.
      rewrite (Hbytes j kj x Hj Hx ltac:(lia)). change (swap s2) with (swap s1). rewrite Ps, card_byte_next. f_equal. lia.
Qed.

Lemma load_pages_ok p n : forall uva sectors sector s L T,
  mm_wf s L -> tables_ok s (pgdir p) T -> off_pool s T ->
  0 < uva -> uva mod PAGE_SIZE = 0 -> uva + PAGE_SIZE * Z.of_nat n < 2 ^ 38 ->
  0 <= sectors < 2 ^ 23 -> 0 <= sector -> sector + sectors < 2 ^ 32 ->
  at_least (2 * n) (kernel_free s) -> at_least n (user_free s) -> at_least (3 * n) (node_free s) ->
  exists s' L' T' ks, load_pages n uva sectors sector p s = Ok (tt, s') /\
    pages_loaded p uva n sectors sector s L T s' L' T' ks.
Proof.
  induction n as [|n IH]; intros uva sectors sector s L T Hw Ht Hpool Hu Hal Hb Hs Hsec Hb2 Hk Huf Hn.
  { exists s, L, T, []. split; [done|]. by apply pages_loaded_nil. }
  destruct (alloc_page_ok s L T uva p (2 * n) n (3 * n) Hw Ht) as (k & i & s1 & L1 & T1 & E & Pa & Hk1 & Hu1 & Hn1).
  { apply user_va_small. unfold PAGE_SIZE in *. lia. }
  { unfold PAGE_SIZE in *. change VA_MASK with (Z.ones 39). rewrite Z.land_ones, Z.mod_small by lia. lia. }
  { by replace (2 + 2 * n)%nat with (2 * S n)%nat by lia. } { done. } { by replace (3 + 3 * n)%nat with (3 * S n)%nat by lia. }
  pose proof (page_part_length (swap s1) sectors sector ltac:(lia)) as Hpl. set (l := page_part _ _ _) in *.
  assert ((length l <= 512)%nat) as Hl by lia.
  set (s2 := with_ram (put_words (user_kva k) l (ram s1)) s1).
  destruct (IH (uva + 0x1000) (sectors - Z.min 8 sectors) (if 8 <=? sectors then sector + 8 else sector) s2 L1 T1)
    as (s' & L' & T' & ks & E' & Pl'); try done; try (unfold PAGE_SIZE in *; lia).
  - by eapply filled_wf.
  - by eapply filled_tables.
  - by eapply filled_pool.
  - unfold PAGE_SIZE in *. replace (uva + 0x1000) with (uva + 1 * 4096) by lia. by rewrite Z.mod_add.
  - destruct (Z.leb_spec 8 sectors); lia.
  - destruct (Z.leb_spec 8 sectors); lia.
  - exists s', L', T', (k :: ks). split.
    + rewrite (load_pages_S n uva sectors sector p s (user_kva k) s1) by (done || (unfold PAGE_SIZE in *; lia)). exact E'.
    + by apply (pages_loaded_cons p uva n sectors sector s L T k i s1 L1 T1); try lia.
Qed.

(** ** Moving the bytes *)

Section Move.
Context (p : pcb_t) (base : Z) s (L : pnref -> list nat) T (ks : list Z).
Hypothesis (Hw : mm_wf s L) (Hin : paged_in s L (pid p)) (Ht : pt_wf (ram s) (pgdir p) T).
Hypothesis (Hks : forall k, k ∈ ks -> 0 <= k < FREE_USER_PAGE_NUM) (Hnd : NoDup ks).
Hypothesis (Hapart : forall q k, is_Some (T !! q) -> k ∈ ks -> q <> user_kva k).
Hypothesis (Hbase : 0 < base) (Hal : base mod PAGE_SIZE = 0) (Htop : base + PAGE_SIZE * Z.of_nat (length ks) < 2 ^ 38).
Hypothesis Hleaf : forall (i : nat) k, ks !! i = Some k -> let e := leaf (ram s) (pgdir p) (base + PAGE_SIZE * Z.of_nat i) in
  pa2kva (get_pa e) = user_kva k /\ get_attribute e USER_ATTR = USER_ATTR.

(** Where byte [x] of the program is. *)
Definition place (x : Z) : Z := user_kva (default 0 (ks !! Z.to_nat (x / PAGE_SIZE))) + x mod PAGE_SIZE.
Definition inside (x : Z) : Prop := 0 <= x < PAGE_SIZE * Z.of_nat (length ks).
(** Memory that agrees with that of [s] outside the pages of the program. *)
Definition same_tables (m : words) : Prop := forall a, (forall k, k ∈ ks -> ~ in_page (user_kva k) a) -> ld64 m a = ld64 (ram s) a.

Lemma inside_page x : inside x -> exists k, ks !! Z.to_nat (x / PAGE_SIZE) = Some k /\ place x = user_kva k + x mod PAGE_SIZE.
Proof.
  unfold inside, place, PAGE_SIZE. intros Hx. pose proof (Z.div_pos x 4096 ltac:(lia) ltac:(lia)).
  pose proof (Z.div_lt_upper_bound x 4096 (Z.of_nat (length ks)) ltac:(lia) ltac:(lia)).
  destruct (lookup_lt_is_Some_2 ks (Z.to_nat (x / 4096))) as [k Hk]; [lia|]. exists k. by rewrite Hk.
Qed.
Lemma place_in_page x k : ks !! Z.to_nat (x / PAGE_SIZE) = Some k -> in_page (user_kva k) (user_kva k + x mod PAGE_SIZE).
Proof. intros _. unfold in_page. pose proof (Z.mod_pos_bound x PAGE_SIZE ltac:(done)). lia. Qed.
Lemma place_inj x y : inside x -> inside y -> place x = place y -> x = y.
Proof.
  intros Hx Hy E. destruct (inside_page x Hx) as (k & Hk & Ex), (inside_page y Hy) as (j & Hj & Ey). rewrite Ex, Ey in E.
  assert (k = j) as ->.
  { apply user_kva_inj, (pages_apart _ _ (user_kva k + x mod PAGE_SIZE)).
    - by apply user_kva_page, Hks, (list_elem_of_lookup_2 _ _ _ Hk).
    - by apply user_kva_page, Hks, (list_elem_of_lookup_2 _ _ _ Hj).
    - by apply place_in_page.
    - rewrite E. by apply place_in_page. }
  pose proof (NoDup_lookup _ _ _ _ Hnd Hk Hj). unfold inside, PAGE_SIZE in *.
  pose proof (Z.div_mod x 4096 ltac:(lia)). pose proof (Z.div_mod y 4096 ltac:(lia)).
  pose proof (Z.div_pos x 4096 ltac:(lia) ltac:(lia)). pose proof (Z.div_pos y 4096 ltac:(lia) ltac:(lia)). lia.
Qed.
Lemma same_tables_slot m q j : same_tables m -> is_Some (T !! q) -> 0 <= j < 512 -> ld64 m (slot q j) = ld64 (ram s) (slot q j).
Proof.
  intros Hm Hq Hj. apply Hm. intros k Hk Hpg. apply (Hapart q k Hq Hk), (pages_apart _ _ (slot q j)).
  - destruct Hq as [lv Hq]. by eapply pt_pages.
  - by apply user_kva_page, Hks.
  - by apply slot_in_page.
  - done.
Qed.
Lemma place_translate m x : same_tables m -> inside x -> translate m (pgdir p) (base + x) = Some (place x).
Proof.
  intros Hm Hx. destruct (inside_page x Hx) as (k & Hk & Ex). unfold inside in Hx. unfold translate, PAGE_SIZE in *.
  rewrite (proj2 (Z.leb_gt KVA_BASE (base + x))) by (unfold KVA_BASE; lia).
  pose proof (Z.div_mod x 4096 ltac:(lia)). pose proof (Z.mod_pos_bound x 4096 ltac:(lia)). pose proof (Z.div_pos x 4096 ltac:(lia) ltac:(lia)).
  set (i := Z.to_nat (x / 4096)) in *. destruct (Hleaf i k Hk) as [Ha Hu]. pose proof (lookup_lt_Some _ _ _ Hk).
  assert ((base + x) / 4096 = (base + 4096 * Z.of_nat i) / 4096) as Ed.
  { replace (base + x) with (x mod 4096 + (base / 4096 + x / 4096) * 4096) by (pose proof (Z.div_mod base 4096 ltac:(lia)); lia).
    replace (base + 4096 * Z.of_nat i) with (0 + (base / 4096 + x / 4096) * 4096) by (pose proof (Z.div_mod base 4096 ltac:(lia)); lia).
    rewrite !Z.div_add, (Z.div_small (x mod 4096)) by lia. done. }
  rewrite (leaf_same_page m _ (base + x) (base + 4096 * Z.of_nat i)) by (done || lia).
  rewrite (leaf_frame (ram s) m (pgdir p) T); [|done|apply user_va_small; lia|by intros; apply same_tables_slot].
  rewrite present_attr, Ha, Ex by done. f_equal. f_equal.
  replace (base + x) with (x + base / 4096 * 4096) by (pose proof (Z.div_mod base 4096 ltac:(lia)); lia). by rewrite Z.mod_add.
Qed.

Lemma same_tables_st8 m x v : same_tables m -> inside x -> same_tables (st8 m (place x) v).
Proof.
  intros Hm Hx a Ha. destruct (inside_page x Hx) as (k & Hk & Ex). pose proof (list_elem_of_lookup_2 _ _ _ Hk) as Hk'.
  rewrite (st8_out (user_kva k)); [by apply Hm|by apply kpage_mod8, user_kva_page, Hks| |by apply Ha].
  rewrite Ex. by apply place_in_page.
Qed.
Lemma memcpy_check m va : 0 <= va < 2 ^ 38 -> check_uva_mem va 1 p (with_ram m s) = Ok (tt, with_ram m s).
Proof. intros Hv. apply (check_uva_mem_none _ L); [split; apply Hw|exact Hin|lia|lia|unfold PAGE_SIZE; lia]. Qed.

Lemma my_memcpy_ok off len : forall j m,
  0 <= off -> 0 <= j -> off + j + Z.of_nat len <= PAGE_SIZE * Z.of_nat (length ks) -> same_tables m ->
  exists m', my_memcpy len (base + j) (base + off + j) p (with_ram m s) = Ok (tt, with_ram m' s) /\ same_tables m' /\
    forall x, inside x -> ld8 m' (place x) = if decide (j <= x < j + Z.of_nat len) then ld8 m (place (x + off)) else ld8 m (place x).
Proof.
  induction len as [|len IH]; intros j m Hoff Hj Hlen Hm.
  { exists m. split; [done|]. split; [done|]. intros x _. by rewrite decide_False by lia. }
  assert (inside j /\ inside (off + j)) as [Hij Hioj] by (unfold inside; lia).
  set (c := ld8 m (place (off + j))). set (m1 := st8 m (place j) c).
  destruct (IH (j + 1) m1) as (m' & E & Hm' & Hx); [done|lia|lia|by apply same_tables_st8|].
  exists m'. split; [|split; [done|]].
  - cbn [my_memcpy]. erewrite bind_ok by (apply memcpy_check; lia). erewrite bind_ok by (apply memcpy_check; lia).
    rewrite gets_bind. cbn [ram with_ram]. erewrite bind_ok.
    2:{ unfold lift, uld8. rewrite <- Z.add_assoc, (place_translate m (off + j) Hm Hioj). reflexivity. }
    erewrite bind_ok.
    2:{ unfold lift, ust8. rewrite (place_translate m j Hm Hij). reflexivity. }
    erewrite bind_ok by reflexivity. rewrite !u64_small by lia.
    replace (base + j + 1) with (base + (j + 1)) by lia. replace (base + off + j + 1) with (base + off + (j + 1)) by lia. exact E.
  - intros x Hi. rewrite (Hx x Hi). unfold m1. destruct (decide (x = j)) as [->|Hne].
    + rewrite decide_False, decide_True by lia. rewrite ld8_st8, decide_True by done. unfold c. rewrite (Z.add_comm j).
      apply Z.mod_small, ld8_range.
    + destruct (decide (j + 1 <= x < j + 1 + Z.of_nat len)); [rewrite decide_True by lia|rewrite decide_False by lia];
        rewrite ld8_st8, decide_False; try done; intros E'; apply place_inj in E'; unfold inside in *; lia || done.
Qed.
End Move.

(** The state in which a program of [pages] pages may be loaded at [ep]: no page of the
    process is on the card, and there are pages and nodes for its pages and their tables. *)
Record load_ready s (L : pnref -> list nat) T (p : pcb_t) (ep pages : Z) : Prop := {
  lr_wf : mm_wf s L;
  lr_tables : tables_ok s (pgdir p) T;
  lr_pool : off_pool s T;
  lr_in : paged_in s L (pid p);
  lr_entry : 0 < ep /\ ep mod PAGE_SIZE = 0;
  lr_top : ep + PAGE_SIZE * pages < 2 ^ 38;
  lr_kernel : at_least (2 * Z.to_nat pages) (kernel_free s);
  lr_user : at_least (Z.to_nat pages) (user_free s);
  lr_nodes : at_least (3 * Z.to_nat pages) (node_free s) }.
(** An entry of the table the loader can use. *)
Definition entry_loads (t : task_info_t) : Prop :=
  0 <= memsize t < 2 ^ 31 /\ 0 <= sector_num t < 2 ^ 23 /\ 0 <= firstsector t /\ firstsector t + sector_num t < 2 ^ 32 /\
  0 <= offset t <= 512 * sector_num t /\ 512 * sector_num t <= PAGE_SIZE * NBYTES2PAGE (memsize t + SECTOR_BYTES).

Lemma load_task_img_ok s L T p task :
  let pages := NBYTES2PAGE (memsize task + SECTOR_BYTES) in let ep := entrypoint task in
  load_ready s L T p ep pages -> entry_loads task ->
  exists s' L' T', load_task_img task p s = Ok (tt, s') /\ mm_wf s' L' /\ tables_ok s' (pgdir p) T' /\
    (forall x, 0 <= x < PAGE_SIZE * pages -> exists c, uld8 (ram s') (pgdir p) (ep + x) = Ok c) /\
    (forall x, 0 <= x < 512 * sector_num task - offset task ->
       uld8 (ram s') (pgdir p) (ep + x) = Ok (card_byte (swap s) (firstsector task) (offset task + x))) /\
    (forall a, stable s T a -> ld64 (ram s') a = ld64 (ram s) a) /\ cur s' = cur s.
Proof.
  intros pages ep [Hw Ht Hpool Hin [Hep Hal] Htop Hk Hu Hn] (Hms & Hsn & Hfs & Hfs2 & Hof & Hfit). fold pages in Hfit.
  assert (0 <= pages < 2 ^ 27) as Hpg.
  { unfold pages, NBYTES2PAGE, SECTOR_BYTES, PAGE_SIZE in *. pose proof (Z.div_pos (memsize task + 512) 4096 ltac:(lia) ltac:(lia)).
    destruct (_ =? 0); lia. }
  destruct (load_pages_ok p (Z.to_nat pages) ep (sector_num task) (firstsector task) s L T) as (s1 & L1 & T1 & ks & E1 & Pl);
    try done; [by rewrite Z2Nat.id by lia|]. pose proof Pl as [Hlen Hnd Hfr Hw1 Ht1 Hsd Hnodes Hnew Hst [Hcur Hsw] Hleaf _ Hbytes].
  assert (Z.of_nat (length ks) = pages) as El by lia.
  assert (forall k, k ∈ ks -> 0 <= k < FREE_USER_PAGE_NUM) as Hks by (intros k Hk'; by apply Hfr).
  assert (forall q k, is_Some (T1 !! q) -> k ∈ ks -> q <> user_kva k) as Hap.
  { intros q k Hq Hk'. apply Hfr in Hk'. apply Hnew in Hq as [Hq|(j & Hj & ->)]; [by apply Hpool|]. apply pools_disjoint; [apply Hj|apply Hk']. }
  assert (paged_in s1 L1 (pid p)) as Hin1.
  { intros i n Hi. rewrite Hsd in Hi. rewrite Hnodes by (by exists user_page_sd_head). by apply Hin. }
  assert (ep + PAGE_SIZE * Z.of_nat (length ks) < 2 ^ 38) as Htop1 by (by rewrite El).
  destruct (my_memcpy_ok p ep s1 L1 T1 ks Hw1 Hin1 (proj1 Ht1) Hks Hnd Hap Hep Hal Htop1 Hleaf (offset task)
    (Z.to_nat (512 * sector_num task - offset task)) 0 (ram s1)) as (m' & E2 & Hm' & Hx); [lia|lia|lia|done|].
  assert (forall x, inside ks x -> translate m' (pgdir p) (ep + x) = Some (place ks x)) as Htr.
  { intros x Hix. apply (place_translate p ep s1 T1 ks); [apply Ht1|done..]. }
  exists (with_ram m' s1), L1, T1. split; [|split; [|split; [|split; [|split; [|split; [|done]]]]]].
  - unfold load_task_img. cbv zeta. rewrite (u32_small (memsize task + _)) by (unfold SECTOR_BYTES; lia). fold pages ep.
    rewrite (u32_small pages) by lia. erewrite bind_ok by exact E1. unfold SECTOR_BYTES. rewrite u32_small by lia.
    rewrite u64_small by (unfold PAGE_SIZE in *; lia). rewrite !Z.add_0_r in E2. by destruct s1.
  - split; apply Hw1.
  - split; [|apply Ht1]. apply (pt_wf_frame (ram s1)); [apply Ht1|]. intros q j Hq Hj.
    eapply same_tables_slot; [apply Ht1|done..].
  - intros x Hx'. eexists. unfold uld8. rewrite Htr by (unfold inside; lia). reflexivity.
  - intros x Hx'. unfold uld8. rewrite Htr by (unfold inside; lia). cbn [of_option mbind res_bind ram with_ram]. f_equal.
    rewrite Hx, decide_True by (unfold inside; lia). set (y := x + offset task). assert (inside ks y) as Hy by (unfold inside; lia).
    destruct (inside_page ks y Hy) as (k & Hk' & ->).
    pose proof (Z.div_mod y PAGE_SIZE ltac:(done)). pose proof (Z.mod_pos_bound y PAGE_SIZE ltac:(done)).
    pose proof (Z.div_pos y PAGE_SIZE ltac:(unfold inside in *; lia) ltac:(done)).
    assert (y = x + offset task) as Ey by done. rewrite (Hbytes (Z.to_nat (y / PAGE_SIZE)) k); [|done|done|]; rewrite Z2Nat.id by done; [|lia].
    f_equal. lia.
  - intros a Ha. cbn [ram with_ram]. rewrite Hm'; [by apply Hst|]. intros k Hk'. by apply Ha, Hfr.
Qed.
End Load.
