(* ===== verification/Printk.v ===== *)
(** * Formatted output (libs/printk.c)

    [mini_itoa], the bounded buffer and the format interpreter.  A format is the
    list of its bytes before the terminator; the variable arguments are the values
    the caller passed, an integer (a 64-bit register) or a string. *)
From S2P Require Import Prelude CString.

Inductive arg := AInt (z : Z) | AStr (s : list Z).

(** ASCII *)
Definition c_percent : Z := 37.
Definition c_0 : Z := 48.
Definition c_9 : Z := 57.
Definition c_X : Z := 88.
Definition c_c : Z := 99.
Definition c_d : Z := 100.
Definition c_l : Z := 108.
Definition c_s : Z := 115.
Definition c_u : Z := 117.
Definition c_x : Z := 120.
Definition c_space : Z := 32.
Definition c_minus : Z := 45.

(** [sizeof bf] *)
Definition BF_LEN : nat := 24.

(** ** Numbers *)

Definition digit_char (uppercase : bool) (digit : Z) : Z :=
  if digit <? 10 then u8 (c_0 + digit) else u8 ((if uppercase then 65 else 97) + digit - 10).

(** The do-while loop: the characters back to front. *)
Fixpoint itoa_loop (fuel : nat) (value radix : Z) (uppercase unsig : bool) : res (list Z) :=
  match fuel with
  | O => Err OutOfFuel
  | S fuel' =>
    let digit := if unsig then u64 value mod radix else Z.rem value radix in
    let value := if unsig then u64 value / radix else Z.quot value radix in
    let c := digit_char uppercase digit in
    if value =? 0 then Ok [c] else l ← itoa_loop fuel' value radix uppercase unsig; Ok (c :: l)
  end.

(** The text in [buffer]; its length is the value returned. *)
Definition mini_itoa (value radix : Z) (uppercase unsig : bool) (n_pad cpad : Z) : res (list Z) :=
  if radix >? 16 then Ok [] else
  let negative := (value <? 0) && negb unsig in
  let value := if negative then i64 (- value) else value in
  ds ← itoa_loop 64 value radix uppercase unsig;
  let l := ds ++ replicate (Z.to_nat n_pad - length ds) cpad ++ (if negative then [c_minus] else []) in
  if (length l <? BF_LEN)%nat then
    r ← strrev_loop (S (length l)) (l ++ [0]) 0 (Z.of_nat (length l) - 1);
    Ok (take (length l) r)
  else Err Fault.

(** ** The bounded buffer *)

(** [pbuffer - buffer] bytes were written; the rest of the buffer is not read. *)
Record mini_buff := mkBuff { written : list Z; buffer_len : Z }.
Definition used_len (b : mini_buff) : Z := Z.of_nat (length (written b)).

Definition putc (ch : Z) (b : mini_buff) : mini_buff :=
  if u32 (used_len b + 1) >=? buffer_len b then b else mkBuff (written b ++ [u8 ch]) (buffer_len b).

(** [_puts(s, len, b)]; [None] is NULL. *)
Definition puts (s : option (list Z)) (len : Z) (b : mini_buff) : mini_buff :=
  let room := buffer_len b - used_len b - 1 in
  let len := if room <? len then u32 room else len in
  let text := match s with
              | None => replicate (Z.to_nat len) c_space
              | Some s => take (Z.to_nat len) s
              end in
  mkBuff (written b ++ text) (buffer_len b).

(** ** The format interpreter *)

Definition is_digit (c : Z) : bool := (c_0 <=? c) && (c <=? c_9).

(** [while ((ch = *(fmt++))) ...]: the width, the character after it (0 at the
    end) and what follows. *)
Fixpoint parse_width (fmt : list Z) (n_pad : Z) : Z * Z * list Z :=
  match fmt with
  | [] => (n_pad, 0, [])
  | ch :: fmt' =>
    if ch =? 0 then (n_pad, 0, fmt')
    else if is_digit ch then parse_width fmt' (u32 (n_pad * 10 + ch - c_0))
    else (n_pad, ch, fmt')
  end.

(** [*(fmt++)] *)
Definition next_char (fmt : list Z) : Z * list Z :=
  match fmt with [] => (0, []) | c :: fmt' => (c, fmt') end.

Definition arg_int (va : list arg) : res (Z * list arg) :=
  match va with AInt z :: va' => Ok (z, va') | _ => Err Fault end.
Definition arg_str (va : list arg) : res (list Z * list arg) :=
  match va with AStr s :: va' => Ok (s, va') | _ => Err Fault end.

(** The conversion [ch] of the [switch]; the rest of the arguments. *)
Definition convert (ch : Z) (longflag : bool) (n_pad cpad : Z) (va : list arg) (b : mini_buff) :
    res (list arg * mini_buff) :=
  if ch =? c_l then Ok (va, b)
  else if ch =? c_u then
    '(z, va) ← arg_int va;
    l ← mini_itoa (i64 (if longflag then z else u32 z)) 10 false true n_pad cpad;
    Ok (va, puts (Some l) (Z.of_nat (length l)) b)
  else if ch =? c_d then
    '(z, va) ← arg_int va;
    l ← mini_itoa (i64 (if longflag then z else i32 z)) 10 false false n_pad cpad;
    Ok (va, puts (Some l) (Z.of_nat (length l)) b)
  else if (ch =? c_x) || (ch =? c_X) then
    '(z, va) ← arg_int va;
    l ← mini_itoa (i64 (if longflag then z else u32 z)) 16 (ch =? c_X) true n_pad cpad;
    Ok (va, puts (Some l) (Z.of_nat (length l)) b)
  else if ch =? c_c then
    '(z, va) ← arg_int va; Ok (va, putc z b)
  else if ch =? c_s then
    '(s, va) ← arg_str va;
    len ← strlen s;
    let b := puts (Some s) len b in
    Ok (va, if len <? n_pad then puts None (n_pad - len) b else b)
  else Ok (va, putc ch b).

(** After [%]: width, [l], conversion. *)
Definition directive (fmt : list Z) (va : list arg) (b : mini_buff) :
    res (option (list Z * list arg * mini_buff)) :=
  let '(ch, fmt1) := next_char fmt in
  let '(cpad, n_pad, ch, fmt) :=
    if is_digit ch then
      let '(n, c, f) := parse_width fmt 0 in (if ch =? c_0 then c_0 else c_space, n, c, f)
    else (c_space, 0, ch, fmt1) in
  let '(longflag, ch, fmt) :=
    if ch =? c_l then let '(c, f) := next_char fmt in (true, c, f) else (false, ch, fmt) in
  if ch =? 0 then Ok None
  else '(va, b) ← convert ch longflag n_pad cpad va b; Ok (Some (fmt, va, b)).

Fixpoint vsnprintf_loop (fuel : nat) (fmt : list Z) (va : list arg) (b : mini_buff) : res mini_buff :=
  match fuel with
  | O => Err OutOfFuel
  | S fuel' =>
    let '(ch, fmt) := next_char fmt in
    if ch =? 0 then Ok b
    else if u32 (used_len b + 1) >=? buffer_len b then Ok b
    else if negb (ch =? c_percent) then vsnprintf_loop fuel' fmt va (putc ch b)
    else
      r ← directive fmt va b;
      match r with
      | None => Ok b
      | Some (fmt, va, b) => vsnprintf_loop fuel' fmt va b
      end
  end.
Definition mini_vsnprintf (len : Z) (fmt : list Z) (va : list arg) : res (list Z) :=
  b ← vsnprintf_loop (S (length fmt)) fmt va (mkBuff [] len); Ok (written b).

(** The text [_vprint] hands to its output routine. *)
Definition vprint (fmt : list Z) (va : list arg) : res (list Z) := mini_vsnprintf 256 fmt va.

(** ** Numbers and their digits *)

Definition char_val (c : Z) : Z := if c <=? 57 then c - 48 else if c <=? 70 then c - 55 else c - 87.
(** The value of a numeral, most significant digit first. *)
Definition digits_val (radix : Z) (l : list Z) : Z := foldl (fun v c => v * radix + char_val c) 0 l.

Lemma digits_val_snoc radix l c : digits_val radix (l ++ [c]) = digits_val radix l * radix + char_val c.
Proof. unfold digits_val. by rewrite foldl_app. Qed.

Lemma digit_char_val up d : 0 <= d < 16 -> char_val (digit_char up d) = d.
Proof.
  intros Hd. unfold digit_char, char_val, u8, c_0.
  destruct (Z.ltb_spec d 10); [|destruct up]; rewrite Z.mod_small by lia; repeat case_match; lia.
Qed.
Lemma digit_char_zero up d : 0 <= d < 16 -> digit_char up d = c_0 <-> d = 0.
Proof.
  intros Hd. unfold digit_char, u8, c_0.
  destruct (Z.ltb_spec d 10); [|destruct up]; rewrite Z.mod_small by lia; lia.
Qed.

Definition in_long (unsig : bool) (v : Z) : Prop := 0 <= v /\ (if unsig then v < 2 ^ 64 else v < 2 ^ 63).

(** The loop gives the digits of [v], without leading zeros. *)
Lemma itoa_loop_ok radix up unsig fuel v :
  2 <= radix <= 16 -> in_long unsig v -> v < radix ^ Z.of_nat fuel -> (0 < fuel)%nat ->
  exists l, itoa_loop fuel v radix up unsig = Ok l /\ l <> [] /\ digits_val radix (reverse l) = v /\
    (v <> 0 -> head (reverse l) <> Some c_0) /\ (length l <= fuel)%nat.
Proof.
  intros Hr. revert v; induction fuel as [|fuel IH]; intros v [H0 Hl] Hv Hf; [lia|]. cbn [itoa_loop].
  pose proof (Z.mod_pos_bound v radix ltac:(lia)) as Hm. pose proof (Z.div_mod v radix ltac:(lia)) as Hdm.
  assert ((if unsig then u64 v mod radix else Z.rem v radix) = v mod radix) as ->.
  { destruct unsig; [by rewrite u64_small by lia|]. by rewrite Z.rem_mod_nonneg by lia. }
  assert ((if unsig then u64 v / radix else Z.quot v radix) = v / radix) as ->.
  { destruct unsig; [by rewrite u64_small by lia|]. by rewrite Z.quot_div_nonneg by lia. }
  destruct (Z.eqb_spec (v / radix) 0) as [Hz|Hz].
  - eexists. split; [done|]. split; [done|]. simpl. unfold digits_val. simpl.
    rewrite digit_char_val by lia. split; [lia|]. split; [|lia]. intros Hn [= E]. apply digit_char_zero in E; lia.
  - pose proof (Z.div_pos v radix H0 ltac:(lia)) as Hd.
    assert (v / radix < v) as Hlt by (apply Z.div_lt; [|lia]; destruct (decide (v = 0)) as [->|]; [by rewrite Z.div_0_l in Hz by lia|lia]).
    rewrite Nat2Z.inj_succ, Z.pow_succ_r in Hv by lia.
    destruct (IH (v / radix)) as (l & -> & Hne & Hval & Hh & Hlen).
    + split; [done|]. destruct unsig; lia.
    + apply Z.div_lt_upper_bound; lia.
    + destruct fuel; [|lia]. simpl in Hv. exfalso. apply Hz. apply Z.div_small. lia.
    + eexists. split; [done|]. split; [done|]. rewrite reverse_cons, digits_val_snoc, Hval, digit_char_val by lia.
      split; [lia|]. split; [|simpl; lia]. intros _. rewrite head_app. specialize (Hh Hz).
      destruct (reverse l) as [|x r] eqn:E; [|done]. apply (f_equal reverse) in E. by rewrite reverse_involutive in E.
Qed.

Lemma mini_itoa_text radix up unsig n_pad cpad v (neg : bool) ds :
  2 <= radix <= 16 ->
  neg = (v <? 0) && negb unsig -> itoa_loop 64 (if neg then i64 (- v) else v) radix up unsig = Ok ds ->
  mini_itoa v radix up unsig n_pad cpad =
  let text := (if neg then [c_minus] else []) ++ replicate (Z.to_nat n_pad - length ds) cpad ++ reverse ds in
  if (length text <? BF_LEN)%nat then Ok text else Err Fault.
Proof.
  intros Hr -> Hl. unfold mini_itoa. rewrite Z.gtb_ltb, (proj2 (Z.ltb_ge _ _)) by lia. cbv zeta. rewrite Hl. cbn [mbind res_bind].
  set (neg := (v <? 0) && negb unsig). set (pad := replicate _ cpad).
  set (l := ds ++ pad ++ _). set (text := _ ++ pad ++ reverse ds).
  assert (reverse l = text) as Hrev.
  { unfold l, text. rewrite !reverse_app, <- app_assoc. f_equal; [by destruct neg|]. f_equal. unfold pad. apply reverse_replicate. }
  assert (length text = length l) as Hlen by (rewrite <- Hrev; apply length_reverse). rewrite Hlen.
  destruct (length l <? BF_LEN)%nat; [|done].
  pose proof (strrev_loop_ok (S (length l)) [] l [0] ltac:(lia)) as E.
  cbn [app length Nat.add] in E. change (Z.of_nat 0) with 0 in E. rewrite E. cbn [mbind res_bind].
  rewrite Hrev, <- Hlen. by rewrite take_app_length.
Qed.

Lemma itoa_loop_u64 fuel v radix up : itoa_loop fuel v radix up true = itoa_loop fuel (u64 v) radix up true.
Proof. destruct fuel; [done|]. cbn [itoa_loop]. by rewrite (u64_small (u64 v)) by apply u64_range. Qed.

(** ** The interpreter *)

Lemma parse_width_suffix fmt n : (length (parse_width fmt n).2 <= length fmt)%nat.
Proof.
  revert n; induction fmt as [|c fmt IH]; intros n; simpl; [lia|]. destruct (c =? 0); [simpl; lia|].
  destruct (is_digit c); [|simpl; lia]. etrans; [apply IH|lia].
Qed.
Lemma next_char_suffix fmt : (length (next_char fmt).2 <= length fmt)%nat.
Proof. destruct fmt; simpl; lia. Qed.

(** The buffer is never filled up. *)
Definition buff_ok (n : Z) (b : mini_buff) : Prop := buffer_len b = n /\ used_len b + 1 <= n < 2 ^ 32.

Lemma putc_ok n ch b : buff_ok n b -> buff_ok n (putc ch b).
Proof.
  intros [Hn Hb]. unfold putc, used_len in *. rewrite u32_small, Hn by lia.
  destruct (_ >=? n) eqn:E; [done|]. apply geb_lt in E. split; [done|]. unfold used_len. simpl.
  rewrite length_app. simpl. lia.
Qed.
Lemma puts_ok n s len b : buff_ok n b -> 0 <= len -> buff_ok n (puts s len b).
Proof.
  intros [Hn Hb] Hlen. unfold puts, used_len in *. split; [done|]. unfold used_len. cbn [written]. rewrite Hn, length_app.
  set (room := n - _ - 1). set (len' := if room <? len then u32 room else len).
  assert (0 <= len' <= room) as Hl.
  { unfold len'. destruct (Z.ltb_spec room len); [rewrite u32_small by lia|]; lia. }
  destruct s as [s|]; [rewrite length_take|rewrite length_replicate]; lia.
Qed.

Lemma strlen_nonneg s n : strlen s = Ok n -> 0 <= n.
Proof.
  revert n; induction s as [|c s IH]; intros n; simpl; [done|]. destruct (c =? 0); [intros [= <-]; lia|].
  destruct (strlen s) as [k|]; [|done]. simpl. intros [= <-]. specialize (IH k eq_refl). lia.
Qed.

(** Whether a result is a value that satisfies [P], or a fault; never that the
    model ran out of fuel. *)
Definition sound {A} (P : A -> Prop) (r : res A) : Prop :=
  match r with Ok a => P a | Err e => e = Fault end.
Lemma sound_bind {A B : Type} (P : A -> Prop) (R : B -> Prop) (m : res A) (f : A -> res B) :
  sound P m -> (forall a : A, P a -> sound R (f a)) -> sound R (res_bind A B f m).
Proof. destruct m as [a|e]; simpl; auto. Qed.

Lemma itoa_loop_fuel (radix : Z) (up unsig : bool) (fuel : nat) (v : Z) :
  (radix = 10 \/ radix = 16) -> - 2 ^ 63 <= v < 2 ^ 64 -> Z.abs (if unsig then u64 v else v) < radix ^ Z.of_nat fuel ->
  exists l : list Z, itoa_loop (S fuel) v radix up unsig = Ok l.
Proof.
  intros Hr. revert v; induction fuel as [|fuel IH]; intros v Hv Hf.
  { cbn [itoa_loop]. destruct (Z.eqb_spec (if unsig then u64 v / radix else Z.quot v radix) 0) as [|Hz]; [by eexists|].
    exfalso. apply Hz. simpl in Hf. destruct unsig.
    - pose proof (u64_range v). replace (u64 v) with 0 by lia. apply Z.div_0_l. lia.
    - replace v with 0 by lia. apply Z.quot_0_l. lia. }
  set (v' := if unsig then u64 v / radix else Z.quot v radix).
  set (c := digit_char up (if unsig then u64 v mod radix else Z.rem v radix)).
  change (itoa_loop (S (S fuel)) v radix up unsig) with
    (if v' =? 0 then Ok [c] else l ← itoa_loop (S fuel) v' radix up unsig; Ok (c :: l)).
  destruct (v' =? 0); [by eexists|].
  rewrite Nat2Z.inj_succ, Z.pow_succ_r in Hf by lia. pose proof (u64_range v) as Hu.
  assert (- 2 ^ 63 <= v' < 2 ^ 64 /\ Z.abs (if unsig then u64 v' else v') < radix ^ Z.of_nat fuel) as [Hv' Hf'].
  { unfold v'. destruct unsig.
    - pose proof (Z.div_pos (u64 v) radix ltac:(lia) ltac:(lia)).
      pose proof (Z.div_le_upper_bound (u64 v) radix (u64 v) ltac:(lia) ltac:(nia)).
      rewrite (u64_small (u64 v / radix)) by lia. split; [lia|]. rewrite Z.abs_eq by lia.
      apply Z.div_lt_upper_bound; lia.
    - assert (Z.abs (Z.quot v radix) = Z.abs v / radix) as Hq.
      { rewrite <- Z.quot_abs by lia. rewrite (Z.abs_eq radix) by lia. apply Z.quot_div_nonneg; lia. }
      pose proof (Z.div_lt_upper_bound (Z.abs v) radix (radix ^ Z.of_nat fuel) ltac:(lia) ltac:(lia)).
      split; [|lia]. pose proof (Z.div_le_upper_bound (Z.abs v) radix (2 ^ 61) ltac:(lia) ltac:(lia)). lia. }
  destruct (IH v' Hv' Hf') as [l E]. rewrite E. by eexists.
Qed.

Lemma mini_itoa_sound (radix : Z) (up unsig : bool) (n_pad cpad v : Z) :
  radix = 10 \/ radix = 16 -> sound (fun _ => True) (mini_itoa (i64 v) radix up unsig n_pad cpad).
Proof.
  intros Hr. set (neg := (i64 v <? 0) && negb unsig). pose proof (i64_range v) as Hv.
  assert (- 2 ^ 63 <= (if neg then i64 (- i64 v) else i64 v) < 2 ^ 64) as Hw.
  { pose proof (i64_range (- i64 v)). destruct neg; lia. }
  destruct (itoa_loop_fuel radix up unsig 63 (if neg then i64 (- i64 v) else i64 v) Hr Hw) as [ds E].
  - eapply Z.lt_le_trans; [|apply (Z.pow_le_mono_l 10); lia]. change (10 ^ Z.of_nat 63) with (10 ^ 63).
    pose proof (u64_range (if neg then i64 (- i64 v) else i64 v)). destruct unsig; lia.
  - rewrite (mini_itoa_text radix up unsig n_pad cpad (i64 v) neg ds) by (done || lia).
    cbv zeta. by destruct (_ <? _)%nat.
Qed.

Lemma arg_int_sound va : sound (fun _ => True) (arg_int va).
Proof. by destruct va as [|[] ?]. Qed.
Lemma arg_str_sound va : sound (fun _ => True) (arg_str va).
Proof. by destruct va as [|[] ?]. Qed.
Lemma strlen_sound s : sound (fun n => 0 <= n) (strlen s).
Proof.
  destruct (strlen s) as [n|e] eqn:E; simpl; [by eapply strlen_nonneg|].
  revert e E; induction s as [|c s IH]; intros e; simpl; [by intros [= <-]|]. destruct (c =? 0); [done|].
  destruct (strlen s); [done|]. simpl. intros [= <-]. eauto.
Qed.

Lemma convert_sound n ch longflag n_pad cpad va b :
  buff_ok n b -> sound (fun r => buff_ok n r.2) (convert ch longflag n_pad cpad va b).
Proof.
  intros Hb. unfold convert.
  assert (forall (v radix : Z) up unsig va', radix = 10 \/ radix = 16 ->
    sound (fun r => buff_ok n r.2) (l ← mini_itoa (i64 v) radix up unsig n_pad cpad;
      Ok (va' : list arg, puts (Some l) (Z.of_nat (length l)) b))) as Hnum.
  { intros v radix up unsig va' Hr. eapply sound_bind; [by apply mini_itoa_sound|]. intros l _. apply puts_ok; [done|lia]. }
  repeat match goal with |- sound _ (if ?c then _ else _) => destruct c end; simpl; try done;
    try (eapply sound_bind; [apply arg_int_sound|]; intros [z va'] _; by (apply Hnum; auto) || by apply putc_ok).
  - eapply sound_bind; [apply arg_str_sound|]. intros [s va'] _.
    eapply sound_bind; [apply strlen_sound|]. intros len Hlen. simpl.
    destruct (Z.ltb_spec len n_pad); [apply puts_ok; [|lia]|]; by apply puts_ok.
  - by apply putc_ok.
Qed.

Lemma directive_sound n fmt va b :
  buff_ok n b ->
  sound (fun r => match r with
                  | None => True
                  | Some (fmt', _, b') => (length fmt' <= length fmt)%nat /\ buff_ok n b'
                  end) (directive fmt va b).
Proof.
  intros Hb. unfold directive. pose proof (next_char_suffix fmt) as H1. destruct (next_char fmt) as [ch fmt1].
  pose proof (parse_width_suffix fmt 0) as H2. destruct (parse_width fmt 0) as [[w c] f]. simpl in H1, H2.
  set (q := if is_digit ch then _ else _).
  assert (length q.2 <= length fmt)%nat as H3 by (unfold q; by destruct (is_digit ch)).
  destruct q as [[[cpad n_pad] ch2] fmt2]. simpl in H3.
  pose proof (next_char_suffix fmt2) as H4. destruct (next_char fmt2) as [ch3 fmt3]. simpl in H4.
  set (q := if ch2 =? c_l then _ else _).
  assert (length q.2 <= length fmt)%nat as H5 by (unfold q; destruct (ch2 =? c_l); simpl; lia).
  destruct q as [[longflag ch4] fmt4]. simpl in H5. destruct (ch4 =? 0); [done|].
  eapply sound_bind; [by apply (convert_sound n)|]. by intros [va' b'].
Qed.

Lemma vsnprintf_loop_sound n fuel fmt va b :
  buff_ok n b -> (length fmt < fuel)%nat -> sound (buff_ok n) (vsnprintf_loop fuel fmt va b).
Proof.
  revert fmt va b; induction fuel as [|fuel IH]; intros fmt va b Hb Hf; [lia|]. cbn [vsnprintf_loop].
  destruct fmt as [|ch fmt]; [done|]. cbn [next_char]. simpl in Hf. destruct (ch =? 0); [done|].
  destruct (_ >=? _); [done|]. destruct (ch =? c_percent); simpl.
  - eapply sound_bind; [by apply (directive_sound n)|].
    intros [[[fmt' va'] b']|]; [|done]. intros [Hl Hb']. apply IH; [done|lia].
  - apply IH; [by apply putc_ok|lia].
Qed.

(** Text without a directive is copied, cut at the end of the buffer. *)
Lemma vsnprintf_loop_plain n fuel fmt va b :
  buff_ok n b -> (length fmt < fuel)%nat -> Forall (fun c => 0 < c < 256 /\ c <> c_percent) fmt ->
  vsnprintf_loop fuel fmt va b = Ok (mkBuff (written b ++ take (Z.to_nat (n - 1 - used_len b)) fmt) n).
Proof.
  revert fmt b; induction fuel as [|fuel IH]; intros fmt b Hb Hf Hall; [lia|]. cbn [vsnprintf_loop].
  pose proof Hb as [Hn Hu]. destruct b as [w bl]. simpl in Hn. subst bl.
  destruct fmt as [|ch fmt]; [by rewrite take_nil, app_nil_r|]. cbn [next_char]. simpl in Hf.
  apply Forall_cons in Hall as [[Hc Hp] Hall].
  rewrite (proj2 (Z.eqb_neq ch 0)), (proj2 (Z.eqb_neq ch c_percent)) by (done || lia). cbn [negb].
  unfold used_len in *. cbn [written buffer_len] in *. rewrite u32_small by lia.
  destruct (_ >=? n) eqn:E.
  - apply geb_le in E. replace (Z.to_nat _) with O by lia. by rewrite take_0, app_nil_r.
  - rewrite IH by (try done; try lia; by apply putc_ok). unfold putc, used_len. cbn [written buffer_len].
    rewrite u32_small, E by lia. cbn [written]. apply geb_lt in E.
    replace (Z.to_nat (n - 1 - Z.of_nat (length w))) with (S (Z.to_nat (n - 1 - (Z.of_nat (length w) + 1)))) by lia.
    cbn [take]. rewrite length_app, <- app_assoc. cbn [app length].
    unfold u8. rewrite Z.mod_small by lia. repeat f_equal. lia.
Qed.

Lemma u64_nonzero v : - 2 ^ 63 < v < 2 ^ 63 -> v <> 0 -> u64 v <> 0.
Proof.
  intros Hv Hn E. apply Z.mod_divide in E as [k ->]; [|lia]. nia.
Qed.

(** ** Results *)

(** C40. mini_vsnprintf ends for every format and every arguments, never writes more than the
    buffer holds with its terminator, and copies text without directives, cut to that length. *)
Theorem vsnprintf_bounded (len : Z) (fmt : list Z) (va : list arg) :
  1 <= len < 2 ^ 32 ->
  mini_vsnprintf len fmt va <> Err OutOfFuel /\
  (forall text, mini_vsnprintf len fmt va = Ok text -> Z.of_nat (length text) < len) /\
  (Forall (fun c => 0 < c < 256 /\ c <> c_percent) fmt ->
   mini_vsnprintf len fmt va = Ok (take (Z.to_nat (len - 1)) fmt)).
Proof.
  intros Hlen. assert (buff_ok len (mkBuff [] len)) as Hb by (split; [done|]; unfold used_len; simpl; lia).
  unfold mini_vsnprintf.
  pose proof (vsnprintf_loop_sound len (S (length fmt)) fmt va (mkBuff [] len) Hb ltac:(lia)) as Hs.
  split; [|split].
  - intros E. destruct (vsnprintf_loop _ _ _ _) as [b|e]; simpl in *; [done|]. by simplify_eq.
  - intros text E. destruct (vsnprintf_loop _ _ _ _) as [b|e]; simpl in *; [|done]. simplify_eq.
    destruct Hs as [Hl Hu]. unfold used_len in Hu. lia.
  - intros Hall. rewrite (vsnprintf_loop_plain len) by (done || lia). cbn [mbind res_bind written app].
    unfold used_len. simpl. by rewrite Z.sub_0_r.
Qed.

(** [printk("%d+%s", 5, "ab")] in a buffer of four bytes *)
Lemma vsnprintf_bounded_witness :
  mini_vsnprintf 4 [37; 100; 43; 37; 115] [AInt 5; AStr [97; 98; 0]] = Ok [53; 43; 97] /\
  Z.of_nat (length [53; 43; 97]) < 4.
Proof.
  split; [by_computation|].
  apply (vsnprintf_bounded 4 [37; 100; 43; 37; 115] [AInt 5; AStr [97; 98; 0]]); [lia|by_computation].
Defined.

(** C39. The text mini_itoa makes of a value other than LONG_MIN is a sign, padding and a numeral without leading
    zeros that reads back as the value; it overruns the 24 bytes of the buffer exactly when the
    text has 24 characters or more. *)
Theorem itoa_roundtrip (v radix n_pad cpad : Z) (uppercase unsig : bool) :
  2 <= radix <= 16 -> - 2 ^ 63 < v < 2 ^ 63 ->
  exists ds,
    digits_val radix ds = (if unsig then u64 v else Z.abs v) /\ (v <> 0 -> head ds <> Some c_0) /\ ds <> [] /\
    let text := (if (v <? 0) && negb unsig then [c_minus] else []) ++
                replicate (Z.to_nat n_pad - length ds) cpad ++ ds in
    mini_itoa v radix uppercase unsig n_pad cpad =
      if (length text <? BF_LEN)%nat then Ok text else Err Fault.
Proof.
  intros Hr Hv. set (neg := (v <? 0) && negb unsig). pose proof (u64_range v) as Hu.
  set (w := if unsig then u64 v else Z.abs v).
  assert (itoa_loop 64 (if neg then i64 (- v) else v) radix uppercase unsig = itoa_loop 64 w radix uppercase unsig) as Hw.
  { unfold w, neg. destruct unsig; [rewrite andb_false_r; apply itoa_loop_u64|]. rewrite andb_true_r.
    assert ((if v <? 0 then i64 (- v) else v) = Z.abs v) as ->; [|reflexivity].
    destruct (Z.ltb_spec v 0); [rewrite i64_small by lia|]; lia. }
  assert (v <> 0 -> w <> 0) as Hnz by (pose proof (u64_nonzero v); unfold w; destruct unsig; lia).
  destruct (itoa_loop_ok radix uppercase unsig 64 w Hr) as (l & E & Hne & Hval & Hh & _); [| |lia|].
  - unfold in_long, w. destruct unsig; lia.
  - apply Z.lt_le_trans with (2 ^ 64); [unfold w; destruct unsig; lia|]. apply (Z.pow_le_mono_l 2 radix 64). lia.
  - exists (reverse l). split; [done|]. split; [by auto|]. split; [intros R; apply Hne; rewrite <- (reverse_involutive l), R; done|].
    rewrite length_reverse. apply mini_itoa_text; [done|done|]. by rewrite Hw.
Qed.

Lemma itoa_roundtrip_witness :
  mini_itoa (-255) 16 true false 6 c_0 = Ok [45; 48; 48; 48; 48; 70; 70] /\
  exists ds, digits_val 16 ds = 255 /\ ds <> [].
Proof.
  split; [by_computation|].
  destruct (itoa_roundtrip (-255) 16 6 c_0 true false) as (ds & Hv & _ & Hn & _); [lia|lia|]. by exists ds.
Defined.

(** The most negative value has no positive counterpart: its digits come out as
    the characters below ['0']. *)
Lemma itoa_min_garbled : mini_itoa (- 2 ^ 63) 10 false false 0 c_space <> Err Fault /\
  exists c, 0 < c < c_0 /\ c <> c_minus /\ forall text, mini_itoa (- 2 ^ 63) 10 false false 0 c_space = Ok text -> c ∈ text.
Proof.
  split; [by_computation|]. exists 39. split; [done|]. split; [done|].
  assert (mini_itoa (- 2 ^ 63) 10 false false 0 c_space =
    Ok [45; 39; 46; 46; 45; 45; 41; 46; 48; 45; 42; 40; 43; 44; 41; 41; 43; 40; 48; 40]) as -> by by_computation.
  intros text [= <-]. by_computation.
Qed.

(** A field of 24 or more characters overruns the 24 bytes of [bf]. *)
Lemma printk_width_overflow : mini_vsnprintf 256 [37; 50; 52; 100] [AInt 7] = Err Fault.
Proof. by_computation. Qed.
