(* ===== verification/Screen.v ===== *)
(** * The screen driver (drivers/screen.c)

    The two screen buffers, the cursor of [current_running] and the bytes sent to
    the serial port.  [Terminal] is the VT100 terminal at the other end of the
    line, the reference against which the driver is proved: it is not part of the
    kernel. *)
From S2P Require Import Prelude CString Sched Printk.

(** ** State *)

Definition SCREEN_CELLS : nat := 4000.
Definition SCREEN_LOC (x y : Z) : Z := y * SCREEN_WIDTH + x.

Record screen := mkScreen {
  new_screen : list Z; old_screen : list Z;
  scursor_x : Z; scursor_y : Z;   (* of [current_running] *)
  serial : list Z
}.
Definition with_new l (s : screen) := mkScreen l (old_screen s) (scursor_x s) (scursor_y s) (serial s).
Definition with_old l (s : screen) := mkScreen (new_screen s) l (scursor_x s) (scursor_y s) (serial s).
Definition with_cursor x y (s : screen) := mkScreen (new_screen s) (old_screen s) x y (serial s).
Definition emit l (s : screen) := mkScreen (new_screen s) (old_screen s) (scursor_x s) (scursor_y s) (serial s ++ l).

(** [buf[i] = c] *)
Definition put_cell (l : list Z) (i c : Z) : res (list Z) :=
  if (0 <=? i) && (i <? Z.of_nat (length l)) then Ok (<[Z.to_nat i := u8 c]> l) else Err Fault.

Definition set_new (i c : Z) : M screen unit :=
  l ← gets new_screen; l' ← lift (put_cell l i c); modify (with_new l').
Definition set_old (i c : Z) : M screen unit :=
  l ← gets old_screen; l' ← lift (put_cell l i c); modify (with_old l').

(** ** Output: [printv] sends the formatted text up to its NUL *)

Fixpoint until_nul (l : list Z) : list Z :=
  match l with [] => [] | c :: l' => if c =? 0 then [] else c :: until_nul l' end.
Definition printv (fmt : list Z) (va : list arg) : M screen unit :=
  text ← lift (vprint fmt va); modify (emit (until_nul text)).
Definition bios_putchar (c : Z) : M screen unit := modify (emit [c]).

(** ["%c[%d;%dH"], ["%c[2J"], ["%c[?25l"] *)
Definition vt100_move_cursor (x y : Z) : M screen unit :=
  printv [37; 99; 91; 37; 100; 59; 37; 100; 72] [AInt 27; AInt y; AInt x].
Definition vt100_clear : M screen unit := printv [37; 99; 91; 50; 74] [AInt 27].
Definition vt100_hidden_cursor : M screen unit := printv [37; 99; 91; 63; 50; 53; 108] [AInt 27].

(** ** Operations *)

Definition screen_write_ch (ch : Z) : M screen unit :=
  x ← gets scursor_x; y ← gets scursor_y;
  if ch =? 10 then
    modify (with_cursor 0 (if y <? SCREEN_HEIGHT then y + 1 else y))
  else if (ch =? 8) || (ch =? 127) then
    let '(x, y) := if x >? 0 then (x - 1, y) else if y >? 0 then (SCREEN_WIDTH - 1, y - 1) else (x, y) in
    modify (with_cursor x y);;
    set_new (SCREEN_LOC x y) 32
  else
    set_new (SCREEN_LOC x y) ch;;
    modify (if x + 1 >=? SCREEN_WIDTH then with_cursor 0 (if y <? SCREEN_HEIGHT then y + 1 else y)
            else with_cursor (x + 1) y).

(** [screen_write(buff)]; [buff] with its terminator. *)
Fixpoint write_chars (l : list Z) : M screen unit :=
  match l with [] => mret tt | c :: l' => screen_write_ch c;; write_chars l' end.
Definition screen_write (buff : list Z) : M screen unit :=
  l ← lift (strlen buff); write_chars (take (Z.to_nat l) buff).

Definition reflush_cell (i j : Z) : M screen unit :=
  nw ← gets new_screen; od ← gets old_screen;
  c ← lift (idx nw (SCREEN_LOC j i));
  o ← lift (idx od (SCREEN_LOC j i));
  if c =? o then mret tt
  else vt100_move_cursor (j + 1) (i + 1);; bios_putchar c;; set_old (SCREEN_LOC j i) c.

Definition recover_cursor : M screen unit :=
  x ← gets scursor_x; y ← gets scursor_y; vt100_move_cursor (x + 1) (y + 1).
Definition screen_reflush : M screen unit :=
  for_loop 50 0 (fun i => for_loop 80 0 (reflush_cell i));; recover_cursor.

Definition clear_cell (i j : Z) : M screen unit := set_new (SCREEN_LOC j i) 32;; set_old (SCREEN_LOC j i) 32.
Definition screen_clear : M screen unit :=
  vt100_clear;;
  for_loop 50 0 (fun i => for_loop 80 0 (clear_cell i));;
  modify (with_cursor 0 0);;
  screen_reflush.
Definition init_screen : M screen unit := vt100_hidden_cursor;; vt100_clear;; screen_clear.

Definition screen_move_cursor_tty (x y : Z) : M screen unit :=
  let x := clamp x SCREEN_WIDTH in
  let y := clamp y SCREEN_HEIGHT in
  modify (with_cursor x y);; vt100_move_cursor (x + 1) (y + 1).

(** [printk]: format, write to the screen buffer, refresh. *)
Definition printk (fmt : list Z) (va : list arg) : M screen Z :=
  text ← lift (vprint fmt va); screen_write (text ++ [0]);; screen_reflush;; mret (Z.of_nat (length text)).

(** ** The terminal *)

Module Terminal.
Inductive mode := Ground | Escape | Csi (params : list Z) (n : Z).
Record term := mkTerm { grid : list Z; tx : Z; ty : Z; tmode : mode }.

Definition put (c : Z) (t : term) : term :=
  mkTerm (<[Z.to_nat (SCREEN_LOC (tx t - 1) (ty t - 1)) := c]> (grid t)) (tx t + 1) (ty t) Ground.
(** The end of a control sequence with parameters [ps]. *)
Definition control (c : Z) (ps : list Z) (t : term) : term :=
  if c =? 72 then match ps with [y; x] => mkTerm (grid t) x y Ground | _ => mkTerm (grid t) 1 1 Ground end
  else if c =? 74 then
    match ps with [2] => mkTerm (replicate SCREEN_CELLS 32) (tx t) (ty t) Ground | _ => mkTerm (grid t) (tx t) (ty t) Ground end
  else mkTerm (grid t) (tx t) (ty t) Ground.
Definition feed (t : term) (c : Z) : term :=
  match tmode t with
  | Ground => if c =? 27 then mkTerm (grid t) (tx t) (ty t) Escape
              else if (32 <=? c) && (c <? 127) then put c t else t
  | Escape => mkTerm (grid t) (tx t) (ty t) (if c =? 91 then Csi [] 0 else Ground)
  | Csi ps n => if is_digit c then mkTerm (grid t) (tx t) (ty t) (Csi ps (n * 10 + (c - 48)))
                else if c =? 59 then mkTerm (grid t) (tx t) (ty t) (Csi (ps ++ [n]) 0)
                else if c =? 63 then mkTerm (grid t) (tx t) (ty t) (Csi ps n)
                else control c (ps ++ [n]) t
  end.
Definition run (t : term) (l : list Z) : term := foldl feed t l.
Definition power_on : term := mkTerm (replicate SCREEN_CELLS 32) 1 1 Ground.
End Terminal.
Import Terminal.

(** What the user sees. *)
Definition display (s : screen) : term := run power_on (serial s).

(** A redraw of every cell, the reference for [screen_reflush]. *)
Definition redraw_cell (i j : Z) : M screen unit :=
  nw ← gets new_screen; c ← lift (idx nw (SCREEN_LOC j i));
  vt100_move_cursor (j + 1) (i + 1);; bios_putchar c;; set_old (SCREEN_LOC j i) c.
Definition redraw : M screen unit :=
  for_loop 50 0 (fun i => for_loop 80 0 (redraw_cell i));; recover_cursor.

(** ** Escape sequences *)

(** A number below 100 in decimal. *)
Definition dec (n : Z) : list Z := if n <? 10 then [48 + n] else [48 + n / 10; 48 + n mod 10].
Definition move_text (x y : Z) : list Z := [27; 91] ++ dec y ++ [59] ++ dec x ++ [72].

Lemma move_text_ok x y :
  1 <= x <= 80 -> 1 <= y <= 51 ->
  vprint [37; 99; 91; 37; 100; 59; 37; 100; 72] [AInt 27; AInt y; AInt x] = Ok (move_text x y) /\
  until_nul (move_text x y) = move_text x y.
Proof.
  intros Hx Hy.
  assert (Forall (fun x => Forall (fun y =>
    vprint [37; 99; 91; 37; 100; 59; 37; 100; 72] [AInt 27; AInt y; AInt x] = Ok (move_text x y) /\
    until_nul (move_text x y) = move_text x y) (seqZ 1 51)) (seqZ 1 80)) as H by by_computation.
  rewrite Forall_forall in H. specialize (H x ltac:(apply elem_of_seqZ; lia)). rewrite Forall_forall in H.
  apply (H y). apply elem_of_seqZ. lia.
Qed.

Lemma run_app t l1 l2 : run t (l1 ++ l2) = run (run t l1) l2.
Proof. apply foldl_app. Qed.

Lemma is_digit_shift d : 0 <= d <= 9 -> is_digit (48 + d) = true.
Proof. intros H. unfold is_digit, c_0, c_9. apply andb_true_intro. split; apply Z.leb_le; lia. Qed.

Lemma feed_dec g x y ps n : 0 <= n < 100 -> run (mkTerm g x y (Csi ps 0)) (dec n) = mkTerm g x y (Csi ps n).
Proof.
  intros Hn. unfold dec. pose proof (Z.div_mod n 10 ltac:(lia)) as E. pose proof (Z.mod_pos_bound n 10 ltac:(lia)).
  assert (0 <= n / 10 <= 9) by (split; [apply Z.div_pos|apply Z.lt_succ_r, Z.div_lt_upper_bound]; lia).
  destruct (Z.ltb_spec n 10); unfold run; cbn [foldl]; unfold feed at 1; cbn [tmode grid tx ty];
    rewrite !is_digit_shift by lia.
  - do 2 f_equal. lia.
  - unfold feed. cbn [tmode grid tx ty]. rewrite is_digit_shift by lia. do 2 f_equal. lia.
Qed.

Lemma run_move g a b x y :
  1 <= x <= 80 -> 1 <= y <= 51 -> run (mkTerm g a b Ground) (move_text x y) = mkTerm g x y Ground.
Proof.
  intros Hx Hy. unfold move_text. rewrite run_app.
  change (run (mkTerm g a b Ground) [27; 91]) with (mkTerm g a b (Csi [] 0)).
  rewrite run_app, feed_dec by lia. rewrite run_app.
  change (run (mkTerm g a b (Csi [] y)) [59]) with (mkTerm g a b (Csi [y] 0)).
  rewrite run_app, feed_dec by lia. reflexivity.
Qed.

Lemma vt100_move_ok x y s :
  1 <= x <= 80 -> 1 <= y <= 51 -> vt100_move_cursor x y s = Ok (tt, emit (move_text x y) s).
Proof.
  intros Hx Hy. destruct (move_text_ok x y Hx Hy) as [E1 E2]. unfold vt100_move_cursor, printv.
  rewrite (bind_ok _ _ s (move_text x y) s) by (unfold lift; by rewrite E1). unfold modify. by rewrite E2.
Qed.

(** ** Refreshing *)

Definition printable (c : Z) : Prop := 32 <= c < 127.
Definition cursor_ok (s : screen) : Prop := 0 <= scursor_x s < SCREEN_WIDTH /\ 0 <= scursor_y s <= SCREEN_HEIGHT.
(** The terminal shows [old_screen]. *)
Definition synced (s : screen) : Prop := exists x y, display s = mkTerm (old_screen s) x y Ground.
Definition screen_inv (s : screen) : Prop :=
  length (new_screen s) = SCREEN_CELLS /\ length (old_screen s) = SCREEN_CELLS /\
  Forall printable (new_screen s) /\ cursor_ok s /\ synced s.

(** The row-major sweep of both loops. *)
Lemma sweep (I : Z -> screen -> Prop) (cell : Z -> Z -> M screen unit) s :
  (forall i j t, 0 <= i < 50 -> 0 <= j < 80 -> I (SCREEN_LOC j i) t ->
     exists t', cell i j t = Ok (tt, t') /\ I (SCREEN_LOC j i + 1) t') ->
  I 0 s -> exists s', for_loop 50 0 (fun i => for_loop 80 0 (cell i)) s = Ok (tt, s') /\ I 4000 s'.
Proof.
  intros Hc Hs. unfold SCREEN_LOC, SCREEN_WIDTH in Hc.
  apply (for_loop_inv (fun i => I (i * 80))); [|done]. intros i t Hi Ht. change (Z.of_nat 50) with 50 in Hi.
  destruct (for_loop_inv (fun j => I (i * 80 + j)) (cell i) 80 0 t) as (t' & E & Ht').
  - intros j u Hj Hu. change (Z.of_nat 80) with 80 in Hj. rewrite Z.add_assoc. apply Hc; [lia|lia|done].
  - by rewrite Z.add_0_r.
  - exists t'. split; [done|]. by replace ((i + 1) * 80) with (i * 80 + (0 + Z.of_nat 80)) by lia.
Qed.

(** Cells before [k] are up to date with [s0]. *)
Definition fresh_upto (s0 : screen) (k : Z) (s : screen) : Prop :=
  new_screen s = new_screen s0 /\ scursor_x s = scursor_x s0 /\ scursor_y s = scursor_y s0 /\
  length (old_screen s) = SCREEN_CELLS /\ synced s /\
  forall n : nat, Z.of_nat n < k -> old_screen s !! n = new_screen s0 !! n.

Lemma loc_range i j : 0 <= i < 50 -> 0 <= j < 80 -> 0 <= SCREEN_LOC j i < 4000.
Proof. unfold SCREEN_LOC, SCREEN_WIDTH. lia. Qed.

Lemma idx_cell (l : list Z) i : 0 <= i < Z.of_nat (length l) -> exists c, idx l i = Ok c /\ l !! Z.to_nat i = Some c.
Proof.
  intros Hi. destruct (lookup_lt_is_Some_2 l (Z.to_nat i) ltac:(lia)) as [c Hc]. exists c. split; [|done].
  rewrite <- (Z2Nat.id i) by lia. by apply idx_ok.
Qed.

Lemma paint_cell s0 s i j c :
  0 <= i < 50 -> 0 <= j < 80 -> fresh_upto s0 (SCREEN_LOC j i) s ->
  new_screen s0 !! Z.to_nat (SCREEN_LOC j i) = Some c -> printable c ->
  exists s', (vt100_move_cursor (j + 1) (i + 1);; bios_putchar c;; set_old (SCREEN_LOC j i) c) s = Ok (tt, s') /\
    fresh_upto s0 (SCREEN_LOC j i + 1) s'.
Proof.
  intros Hi Hj (Hn & Hx & Hy & Hl & (a & b & Hd) & Hf) Hc Hp. pose proof (loc_range i j Hi Hj) as Hk.
  unfold SCREEN_CELLS in Hl. assert (u8 c = c) as Hu by (unfold printable in Hp; apply Z.mod_small; lia).
  eexists. split.
  - rewrite (bind_ok _ _ _ _ _ (vt100_move_ok (j + 1) (i + 1) s ltac:(lia) ltac:(lia))).
    rewrite (bind_ok _ _ _ _ _ eq_refl). unfold set_old. rewrite (bind_ok _ _ _ _ _ eq_refl). simpl.
    unfold put_cell. rewrite (proj2 (andb_true_iff _ _)) by (split; [apply Z.leb_le|apply Z.ltb_lt]; lia).
    rewrite (bind_ok _ _ _ _ _ eq_refl). reflexivity.
  - split; [done|]. split; [done|]. split; [done|]. cbn [old_screen with_old]. rewrite length_insert. split; [done|].
    rewrite Hu. split.
    + exists (j + 1 + 1), (i + 1). unfold display in *. cbn [serial with_old emit old_screen]. rewrite !run_app, Hd, run_move by lia.
      unfold run, foldl, feed. cbn [tmode]. unfold printable in Hp.
      rewrite (proj2 (Z.eqb_neq c 27)), (proj2 (Z.leb_le 32 c)), (proj2 (Z.ltb_lt c 127)) by lia.
      unfold put. cbn [andb tx ty grid]. by replace (j + 1 - 1) with j by lia; replace (i + 1 - 1) with i by lia.
    + intros n Hlt. destruct (decide (n = Z.to_nat (SCREEN_LOC j i))) as [->|].
      * rewrite list_lookup_insert_eq by lia. done.
      * rewrite list_lookup_insert_ne by done. apply Hf. lia.
Qed.

Section Refresh.
Context (s0 : screen) (Hlen : length (new_screen s0) = SCREEN_CELLS) (Hp : Forall printable (new_screen s0)).

Lemma cell_of s i j :
  0 <= i < 50 -> 0 <= j < 80 -> new_screen s = new_screen s0 ->
  exists c, idx (new_screen s) (SCREEN_LOC j i) = Ok c /\ new_screen s0 !! Z.to_nat (SCREEN_LOC j i) = Some c /\ printable c.
Proof.
  intros Hi Hj ->. pose proof (loc_range i j Hi Hj). unfold SCREEN_CELLS in Hlen.
  destruct (idx_cell (new_screen s0) (SCREEN_LOC j i)) as (c & E & Hc); [lia|].
  exists c. repeat split; try done; by eapply (Forall_lookup_1 _ _ _ _ Hp Hc).
Qed.

Lemma reflush_cell_ok i j s :
  0 <= i < 50 -> 0 <= j < 80 -> fresh_upto s0 (SCREEN_LOC j i) s ->
  exists s', reflush_cell i j s = Ok (tt, s') /\ fresh_upto s0 (SCREEN_LOC j i + 1) s'.
Proof.
  intros Hi Hj Hs. pose proof (loc_range i j Hi Hj). pose proof Hs as (Hn & Hx & Hy & Hl & Hd & Hf).
  destruct (cell_of s i j Hi Hj Hn) as (c & Ec & Hc & Hpc). unfold SCREEN_CELLS in Hl.
  destruct (idx_cell (old_screen s) (SCREEN_LOC j i)) as (o & Eo & Ho); [lia|].
  unfold reflush_cell. rewrite (bind_ok _ _ _ _ _ eq_refl), (bind_ok _ _ _ _ _ eq_refl),
    (bind_ok _ _ _ _ _ (lift_ok _ _ _ Ec)), (bind_ok _ _ _ _ _ (lift_ok _ _ _ Eo)).
  destruct (Z.eqb_spec c o) as [<-|_]; [|by apply paint_cell].
  exists s. split; [done|]. do 5 (split; [done|]). intros n Hlt.
  destruct (decide (n = Z.to_nat (SCREEN_LOC j i))) as [->|]; [by rewrite Ho, Hc|apply Hf; lia].
Qed.

Lemma redraw_cell_ok i j s :
  0 <= i < 50 -> 0 <= j < 80 -> fresh_upto s0 (SCREEN_LOC j i) s ->
  exists s', redraw_cell i j s = Ok (tt, s') /\ fresh_upto s0 (SCREEN_LOC j i + 1) s'.
Proof.
  intros Hi Hj Hs. destruct (cell_of s i j Hi Hj (proj1 Hs)) as (c & Ec & Hc & Hpc).
  unfold redraw_cell. rewrite (bind_ok _ _ _ _ _ eq_refl), (bind_ok _ _ _ _ _ (lift_ok _ _ _ Ec)). by apply paint_cell.
Qed.

(** After a sweep the terminal shows [new_screen] and its cursor is in place. *)
Lemma refresh_end s :
  cursor_ok s0 -> fresh_upto s0 4000 s ->
  exists s', recover_cursor s = Ok (tt, s') /\
    new_screen s' = new_screen s0 /\ old_screen s' = new_screen s0 /\
    scursor_x s' = scursor_x s0 /\ scursor_y s' = scursor_y s0 /\
    display s' = mkTerm (new_screen s0) (scursor_x s0 + 1) (scursor_y s0 + 1) Ground.
Proof.
  intros [Hcx Hcy] (Hn & Hx & Hy & Hl & (a & b & Hd) & Hf). unfold SCREEN_WIDTH, SCREEN_HEIGHT in *.
  assert (old_screen s = new_screen s0) as Ho.
  { apply list_eq. intros n. destruct (decide (Z.of_nat n < 4000)) as [|Hge]; [by apply Hf|].
    unfold SCREEN_CELLS in *. by rewrite !lookup_ge_None_2 by lia. }
  eexists. split.
  - unfold recover_cursor. rewrite (bind_ok _ _ _ _ _ eq_refl), (bind_ok _ _ _ _ _ eq_refl).
    apply vt100_move_ok; rewrite ?Hx, ?Hy; lia.
  - repeat (split; [done|]). unfold display in *. cbn [serial emit]. rewrite run_app, Hd, run_move, Ho, Hx, Hy by lia. done.
Qed.
End Refresh.

Lemma fresh_start s : screen_inv s -> fresh_upto s 0 s.
Proof. intros (Hn & Ho & Hp & Hc & Hd). do 5 (split; [done|]). intros n Hlt. lia. Qed.

Lemma refresh_ok (cell : Z -> Z -> M screen unit) s :
  screen_inv s ->
  (forall i j t, 0 <= i < 50 -> 0 <= j < 80 -> fresh_upto s (SCREEN_LOC j i) t ->
     exists t', cell i j t = Ok (tt, t') /\ fresh_upto s (SCREEN_LOC j i + 1) t') ->
  exists s', (for_loop 50 0 (fun i => for_loop 80 0 (cell i));; recover_cursor) s = Ok (tt, s') /\
    new_screen s' = new_screen s /\ old_screen s' = new_screen s /\
    scursor_x s' = scursor_x s /\ scursor_y s' = scursor_y s /\
    display s' = mkTerm (new_screen s) (scursor_x s + 1) (scursor_y s + 1) Ground.
Proof.
  intros Hi Hc. pose proof Hi as (Hn & _ & Hp & Hcur & _).
  destruct (sweep (fresh_upto s) cell s Hc (fresh_start s Hi)) as (t & E & Ht).
  destruct (refresh_end s Hn t Hcur Ht) as (s' & E' & H'). exists s'. split; [|done]. by rewrite (bind_ok _ _ _ _ _ E).
Qed.

Lemma screen_reflush_ok s :
  screen_inv s -> exists s', screen_reflush s = Ok (tt, s') /\ screen_inv s' /\
    new_screen s' = new_screen s /\ old_screen s' = new_screen s /\
    scursor_x s' = scursor_x s /\ scursor_y s' = scursor_y s /\
    display s' = mkTerm (new_screen s) (scursor_x s + 1) (scursor_y s + 1) Ground.
Proof.
  intros Hi. pose proof Hi as (Hn & _ & Hp & Hcur & _).
  destruct (refresh_ok reflush_cell s Hi) as (s' & E & En & Eo & Ex & Ey & Ed); [by apply reflush_cell_ok|].
  exists s'. split; [exact E|]. split; [|done]. unfold screen_inv, cursor_ok, synced in *.
  rewrite En, Eo, Ex, Ey, Ed. repeat (split; [done|]). by eexists _, _.
Qed.

(** *** Clearing *)

Definition clear_upto (s0 : screen) (k : Z) (s : screen) : Prop :=
  length (new_screen s) = SCREEN_CELLS /\ length (old_screen s) = SCREEN_CELLS /\ serial s = serial s0 /\
  forall n : nat, Z.of_nat n < k -> new_screen s !! n = Some 32 /\ old_screen s !! n = Some 32.

Lemma clear_cell_ok s0 i j s :
  0 <= i < 50 -> 0 <= j < 80 -> clear_upto s0 (SCREEN_LOC j i) s ->
  exists s', clear_cell i j s = Ok (tt, s') /\ clear_upto s0 (SCREEN_LOC j i + 1) s'.
Proof.
  intros Hi Hj (Hn & Ho & Hs & Hf). pose proof (loc_range i j Hi Hj) as Hk. unfold SCREEN_CELLS in *.
  assert (forall l : list Z, length l = 4000%nat ->
    put_cell l (SCREEN_LOC j i) 32 = Ok (<[Z.to_nat (SCREEN_LOC j i) := 32]> l)) as Hput.
  { intros l Hl. unfold put_cell.
    by rewrite (proj2 (andb_true_iff _ _)) by (split; [apply Z.leb_le|apply Z.ltb_lt]; lia). }
  eexists. split.
  - unfold clear_cell, set_new, set_old. rewrite bind_bind, (bind_ok _ _ _ _ _ eq_refl).
    rewrite bind_bind, (bind_ok _ _ _ _ _ (lift_ok _ _ _ (Hput _ Hn))), (bind_ok _ _ _ _ _ eq_refl).
    rewrite (bind_ok _ _ _ _ _ eq_refl). cbn [old_screen with_new].
    rewrite (bind_ok _ _ _ _ _ (lift_ok _ _ _ (Hput _ Ho))). reflexivity.
  - unfold clear_upto. cbn [new_screen old_screen serial with_old with_new]. rewrite !length_insert.
    do 3 (split; [done|]). intros n Hlt. destruct (decide (n = Z.to_nat (SCREEN_LOC j i))) as [->|].
    + rewrite !list_lookup_insert_eq by lia. done.
    + rewrite !list_lookup_insert_ne by done. apply Hf. lia.
Qed.

Lemma blank_list (l : list Z) :
  length l = SCREEN_CELLS -> (forall n : nat, Z.of_nat n < 4000 -> l !! n = Some 32) -> l = replicate SCREEN_CELLS 32.
Proof.
  intros Hl Hf. unfold SCREEN_CELLS in *. apply list_eq. intros n. destruct (decide (Z.of_nat n < 4000)) as [Hlt|].
  - rewrite Hf by done. symmetry. apply lookup_replicate. split; [done|lia].
  - rewrite lookup_ge_None_2 by lia. symmetry. apply lookup_ge_None_2. rewrite length_replicate. lia.
Qed.

(** The control sequences of [vt100_clear] and [vt100_hidden_cursor]. *)
Definition clear_text : list Z := [27; 91; 50; 74].
Definition hide_text : list Z := [27; 91; 63; 50; 53; 108].
Lemma vt100_clear_ok s : vt100_clear s = Ok (tt, emit clear_text s).
Proof. reflexivity. Qed.
Lemma vt100_hidden_ok s : vt100_hidden_cursor s = Ok (tt, emit hide_text s).
Proof. reflexivity. Qed.

(** Whatever the terminal shows before, as long as it is not inside a sequence. *)
Lemma screen_clear_ok s g x y :
  length (new_screen s) = SCREEN_CELLS -> length (old_screen s) = SCREEN_CELLS -> display s = mkTerm g x y Ground ->
  exists s', screen_clear s = Ok (tt, s') /\ screen_inv s' /\ new_screen s' = replicate SCREEN_CELLS 32 /\
    display s' = power_on /\ scursor_x s' = 0 /\ scursor_y s' = 0.
Proof.
  intros Hn Ho Hd. unfold screen_clear. rewrite (bind_ok _ _ _ _ _ (vt100_clear_ok s)).
  set (s1 := emit clear_text s).
  destruct (sweep (clear_upto s1) clear_cell s1) as (s2 & E2 & H2n & H2o & H2s & H2f).
  { intros. by apply clear_cell_ok. } { do 3 (split; [done|]). intros; lia. }
  rewrite (bind_ok _ _ _ _ _ E2), (bind_ok _ _ _ _ _ eq_refl).
  assert (new_screen s2 = replicate SCREEN_CELLS 32) as Bn by (apply blank_list; [done|]; intros; by apply H2f).
  assert (old_screen s2 = replicate SCREEN_CELLS 32) as Bo by (apply blank_list; [done|]; intros; by apply H2f).
  destruct (screen_reflush_ok (with_cursor 0 0 s2)) as (s' & E & Hi & En & _ & Ex & Ey & Ed).
  - unfold screen_inv. cbn [new_screen old_screen with_cursor]. rewrite Bn, Bo, !length_replicate.
    do 2 (split; [done|]). split; [by apply Forall_replicate|]. split; [by split|].
    exists x, y. unfold display in *. cbn [serial with_cursor old_screen]. rewrite H2s, Bo. unfold s1. cbn [serial emit].
    rewrite run_app, Hd. reflexivity.
  - exists s'. split; [done|]. split; [done|]. rewrite En, Ed, Ex, Ey. cbn [new_screen with_cursor]. by rewrite Bn.
Qed.

(** *** Writing *)

(** A character at the cursor, on the screen. *)
Lemma write_ch_plain s c :
  screen_inv s -> printable c -> SCREEN_LOC (scursor_x s) (scursor_y s) < 4000 ->
  exists s', screen_write_ch c s = Ok (tt, s') /\ screen_inv s' /\
    new_screen s' = <[Z.to_nat (SCREEN_LOC (scursor_x s) (scursor_y s)) := c]> (new_screen s) /\
    SCREEN_LOC (scursor_x s') (scursor_y s') = SCREEN_LOC (scursor_x s) (scursor_y s) + 1.
Proof.
  intros (Hn & Ho & Hp & [Hx Hy] & Hd) Hc Hlt. unfold SCREEN_LOC, SCREEN_WIDTH, SCREEN_HEIGHT, SCREEN_CELLS in *.
  assert (u8 c = c) as Hu by (unfold printable in Hc; apply Z.mod_small; lia).
  eexists. split.
  - unfold screen_write_ch. rewrite (bind_ok _ _ _ _ _ eq_refl), (bind_ok _ _ _ _ _ eq_refl). unfold printable in Hc.
    rewrite (proj2 (Z.eqb_neq c 10)), (proj2 (Z.eqb_neq c 8)), (proj2 (Z.eqb_neq c 127)) by lia. cbn [orb].
    unfold set_new. rewrite bind_bind, (bind_ok _ _ _ _ _ eq_refl), bind_bind.
    unfold put_cell, SCREEN_LOC, SCREEN_WIDTH.
    rewrite (proj2 (andb_true_iff _ _)) by (split; [apply Z.leb_le|apply Z.ltb_lt]; lia).
    rewrite (bind_ok _ _ _ _ _ eq_refl), (bind_ok _ _ _ _ _ eq_refl). reflexivity.
  - rewrite Hu, (proj2 (Z.ltb_lt _ _) (ltac:(unfold SCREEN_HEIGHT; lia) : scursor_y s < SCREEN_HEIGHT)).
    rewrite Z.geb_leb. destruct (Z.leb_spec 80 (scursor_x s + 1)) as [Hw|Hw];
      unfold screen_inv, cursor_ok, SCREEN_WIDTH, SCREEN_HEIGHT, with_cursor, with_new;
      cbn [new_screen old_screen scursor_x scursor_y]; rewrite length_insert;
      (split; [|split; [done|lia]]); (do 2 (split; [done|])); (split; [by apply Forall_insert|]); (split; [lia|done]).
Qed.

(** Writing [text] from cell [k] on. *)
Definition splice (k : nat) (text l : list Z) : list Z := take k l ++ text ++ drop (k + length text) l.

Lemma splice_cons k c text l :
  (k < length l)%nat -> splice (S k) text (<[k := c]> l) = splice k (c :: text) l.
Proof.
  intros Hk. unfold splice. cbn [length]. rewrite drop_insert_lt by lia.
  rewrite (take_S_r _ k c) by (apply list_lookup_insert_eq; lia). rewrite take_insert_ge by lia.
  rewrite <- app_assoc. cbn [app]. do 3 f_equal. f_equal. lia.
Qed.

Lemma write_chars_plain text s :
  screen_inv s -> Forall printable text ->
  SCREEN_LOC (scursor_x s) (scursor_y s) + Z.of_nat (length text) <= 4000 ->
  exists s', write_chars text s = Ok (tt, s') /\ screen_inv s' /\
    new_screen s' = splice (Z.to_nat (SCREEN_LOC (scursor_x s) (scursor_y s))) text (new_screen s) /\
    SCREEN_LOC (scursor_x s') (scursor_y s') = SCREEN_LOC (scursor_x s) (scursor_y s) + Z.of_nat (length text).
Proof.
  revert s; induction text as [|c text IH]; intros s Hi Hp Hle.
  - exists s. split; [done|]. split; [done|]. unfold splice. cbn [length app]. rewrite Nat.add_0_r, take_drop. split; [done|lia].
  - apply Forall_cons in Hp as [Hc Hp]. cbn [length] in *.
    destruct (write_ch_plain s c Hi Hc ltac:(lia)) as (s1 & E1 & Hi1 & En & El).
    destruct (IH s1 Hi1 Hp ltac:(lia)) as (s' & E' & Hi' & En' & El'). exists s'.
    split; [cbn [write_chars]; by rewrite (bind_ok _ _ _ _ _ E1)|]. split; [done|].
    rewrite En', El', El, En. split; [|lia]. pose proof Hi as (Hl & _ & _ & [Hx Hy] & _).
    unfold SCREEN_LOC, SCREEN_WIDTH, SCREEN_HEIGHT, SCREEN_CELLS in *.
    rewrite <- splice_cons by lia. f_equal. lia.
Qed.

Lemma strlen_text text : Forall printable text -> strlen (text ++ [0]) = Ok (Z.of_nat (length text)).
Proof.
  induction 1 as [|c text Hc _ IH]; [done|]. cbn [app strlen]. unfold printable in Hc.
  rewrite (proj2 (Z.eqb_neq c 0)) by lia. rewrite IH. cbn [mbind res_bind length]. f_equal. lia.
Qed.

(** ** Results *)

(** C25. screen_reflush, which sends only the cells that changed, leaves the terminal as a
    redraw of all cells does: it shows new_screen, with the cursor in place, and the two buffers
    agree. *)
Theorem reflush_shows (s : screen) :
  screen_inv s ->
  exists s' r, screen_reflush s = Ok (tt, s') /\ redraw s = Ok (tt, r) /\
    display s' = display r /\ new_screen s' = new_screen r /\ old_screen s' = old_screen r /\
    grid (display s') = new_screen s /\ tx (display s') = scursor_x s + 1 /\ ty (display s') = scursor_y s + 1 /\
    screen_inv s'.
Proof.
  intros Hi. pose proof Hi as (Hn & _ & Hp & _ & _).
  destruct (screen_reflush_ok s Hi) as (s' & E & Hi' & En & Eo & Ex & Ey & Ed).
  destruct (refresh_ok redraw_cell s Hi) as (r & Er & Rn & Ro & Rx & Ry & Rd); [by apply redraw_cell_ok|].
  exists s', r. split; [done|]. split; [done|]. rewrite Ed, Rd, En, Rn, Eo, Ro. done.
Qed.

(** C26. printk of printable text without newlines that fits ends with the formatted text on the terminal at the cursor,
    every other cell as it was, the cursor behind the text, and returns its length. *)
Theorem printk_shows (fmt : list Z) (va : list arg) (text : list Z) (s : screen) :
  screen_inv s -> vprint fmt va = Ok text -> Forall printable text ->
  SCREEN_LOC (scursor_x s) (scursor_y s) + Z.of_nat (length text) <= 4000 ->
  exists s', printk fmt va s = Ok (Z.of_nat (length text), s') /\ screen_inv s' /\
    grid (display s') = splice (Z.to_nat (SCREEN_LOC (scursor_x s) (scursor_y s))) text (new_screen s) /\
    SCREEN_LOC (tx (display s') - 1) (ty (display s') - 1) =
      SCREEN_LOC (scursor_x s) (scursor_y s) + Z.of_nat (length text).
Proof.
  intros Hi Ev Hp Hle. destruct (write_chars_plain text s Hi Hp Hle) as (s1 & E1 & Hi1 & En1 & El1).
  destruct (screen_reflush_ok s1 Hi1) as (s' & E & Hi' & En & Eo & Ex & Ey & Ed). exists s'. split.
  - unfold printk, screen_write. rewrite (bind_ok _ _ _ _ _ (lift_ok _ _ _ Ev)), bind_bind.
    rewrite (bind_ok _ _ _ _ _ (lift_ok _ _ _ (strlen_text text Hp))), Nat2Z.id, take_app_length.
    rewrite (bind_ok _ _ _ _ _ E1), (bind_ok _ _ _ _ _ E). done.
  - split; [done|]. rewrite Ed. cbn [grid tx ty]. rewrite <- En1, <- El1. split; [done|]. f_equal; lia.
Qed.

(** The buffers have fifty rows; a line feed at the last one leaves the cursor on
    row 50, and the next character is written behind the end of [new_screen]. *)
Lemma write_ch_row50 s c :
  length (new_screen s) = SCREEN_CELLS -> 0 <= scursor_x s -> scursor_y s = 50 -> printable c ->
  screen_write_ch c s = Err Fault.
Proof.
  intros Hn Hx Ey Hc. unfold printable in Hc. unfold screen_write_ch, mbind, M_bind, gets.
  rewrite (proj2 (Z.eqb_neq c 10)), (proj2 (Z.eqb_neq c 8)), (proj2 (Z.eqb_neq c 127)) by lia. cbn [orb].
  unfold set_new, mbind, M_bind, gets, lift, put_cell. unfold SCREEN_CELLS in Hn. rewrite Hn, Ey. unfold SCREEN_LOC, SCREEN_WIDTH.
  by rewrite (proj2 (Z.ltb_ge (50 * 80 + scursor_x s) (Z.of_nat 4000))), andb_false_r by lia.
Qed.

Theorem write_below_screen (s : screen) (c : Z) :
  screen_inv s -> scursor_y s = 49 -> printable c -> write_chars [10; c] s = Err Fault.
Proof.
  intros (Hn & _ & _ & [Hx _] & _) Ey Hc. cbn [write_chars].
  rewrite (bind_ok _ _ s tt (with_cursor 0 50 s)) by (unfold screen_write_ch, mbind, M_bind, gets; by rewrite Ey).
  unfold mbind, M_bind. by rewrite (write_ch_row50 (with_cursor 0 50 s) c).
Qed.

(** [init_screen] establishes the invariant from the zeroed buffers of the boot image. *)
Lemma init_screen_ok :
  exists s, init_screen (mkScreen (replicate SCREEN_CELLS 0) (replicate SCREEN_CELLS 0) 0 0 []) = Ok (tt, s) /\
    screen_inv s /\ new_screen s = replicate SCREEN_CELLS 32 /\ display s = power_on /\ scursor_x s = 0 /\ scursor_y s = 0.
Proof.
  unfold init_screen. rewrite (bind_ok _ _ _ _ _ (vt100_hidden_ok _)), (bind_ok _ _ _ _ _ (vt100_clear_ok _)).
  eapply screen_clear_ok; [apply length_replicate|apply length_replicate|reflexivity].
Qed.

(** ** Witnesses *)

Definition blank_screen (x y : Z) (l : list Z) : screen := mkScreen l (replicate SCREEN_CELLS 32) x y [].
Lemma blank_inv x y l :
  length l = SCREEN_CELLS -> Forall printable l -> 0 <= x < 80 -> 0 <= y <= 50 -> screen_inv (blank_screen x y l).
Proof.
  intros Hl Hp Hx Hy. split; [done|]. split; [apply length_replicate|]. split; [done|].
  split; [done|]. by exists 1, 1.
Qed.
Lemma blank_line : length (replicate SCREEN_CELLS 32) = SCREEN_CELLS /\ Forall printable (replicate SCREEN_CELLS 32).
Proof. split; [by rewrite length_replicate|by apply Forall_replicate]. Qed.

(** One cell differs. *)
Lemma reflush_shows_witness :
  exists s', screen_reflush (blank_screen 3 2 (<[85%nat := 65]> (replicate SCREEN_CELLS 32))) = Ok (tt, s') /\
    grid (display s') = <[85%nat := 65]> (replicate SCREEN_CELLS 32).
Proof.
  destruct (reflush_shows (blank_screen 3 2 (<[85%nat := 65]> (replicate SCREEN_CELLS 32)))) as (s' & r & E & _ & _ & _ & _ & G & _).
  - apply blank_inv; [by rewrite length_insert, length_replicate| |lia|lia]. apply Forall_insert; [apply blank_line|by split].
  - exists s'. split; [exact E|exact G].
Defined.

(** [printk("%d", 42)] at the end of the first line *)
Lemma printk_shows_witness :
  exists s', printk [37; 100] [AInt 42] (blank_screen 79 0 (replicate SCREEN_CELLS 32)) = Ok (2, s') /\
    grid (display s') !! 79%nat = Some 52 /\ grid (display s') !! 80%nat = Some 50.
Proof.
  destruct (printk_shows [37; 100] [AInt 42] [52; 50] (blank_screen 79 0 (replicate SCREEN_CELLS 32))) as (s' & E & _ & G & _).
  - apply blank_inv; [apply blank_line|apply blank_line|lia|lia].
  - by_computation.
  - by repeat constructor.
  - by_computation.
  - exists s'. split; [exact E|]. rewrite G. split; by_computation.
Defined.

Lemma write_below_screen_witness : write_chars [10; 97] (blank_screen 0 49 (replicate SCREEN_CELLS 32)) = Err Fault.
Proof.
  apply (write_below_screen (blank_screen 0 49 (replicate SCREEN_CELLS 32)) 97); [|done|by split].
  apply blank_inv; [apply blank_line|apply blank_line|lia|lia].
Defined.
