(* ===== verification/Syscall.v ===== *)
(** * System calls (kernel/syscall/syscall.c, init/main.c, tiny_libc/syscall.c)

    The numbers of the calls in the header of the kernel (asm/unistd.h) and in that
    of the user library (tiny_libc/include/syscall.h), the table of the kernel, its
    dispatcher, and the wrappers of the user library.  The kernel functions the
    table points to are modelled in their components; the dispatcher only needs
    their names, and works for any behaviour [run] of them. *)
From S2P Require Import Prelude.

(** ** Numbers, in the kernel *)

Definition SYSCALL_EXEC : Z := 0.
Definition SYSCALL_EXIT : Z := 1.
Definition SYSCALL_SLEEP : Z := 2.
Definition SYSCALL_KILL : Z := 3.
Definition SYSCALL_WAITPID : Z := 4.
Definition SYSCALL_PS : Z := 5.
Definition SYSCALL_GETPID : Z := 6.
Definition SYSCALL_YIELD : Z := 7.
Definition SYSCALL_WRITE : Z := 20.
Definition SYSCALL_READCH : Z := 21.
Definition SYSCALL_CURSOR : Z := 22.
Definition SYSCALL_REFLUSH : Z := 23.
Definition SYSCALL_CLEAR : Z := 24.
Definition SYSCALL_GET_TIMEBASE : Z := 30.
Definition SYSCALL_GET_TICK : Z := 31.
Definition SYSCALL_TASKSET : Z := 32.
Definition SYSCALL_SEMA_INIT : Z := 36.
Definition SYSCALL_SEMA_UP : Z := 37.
Definition SYSCALL_SEMA_DOWN : Z := 38.
Definition SYSCALL_SEMA_DESTROY : Z := 39.
Definition SYSCALL_LOCK_INIT : Z := 40.
Definition SYSCALL_LOCK_ACQ : Z := 41.
Definition SYSCALL_LOCK_RELEASE : Z := 42.
Definition SYSCALL_SET_SCHE_WORKLOAD : Z := 35.
Definition SYSCALL_SHOW_TASK : Z := 43.
Definition SYSCALL_BARR_INIT : Z := 44.
Definition SYSCALL_BARR_WAIT : Z := 45.
Definition SYSCALL_BARR_DESTROY : Z := 46.
Definition SYSCALL_COND_INIT : Z := 47.
Definition SYSCALL_COND_WAIT : Z := 48.
Definition SYSCALL_COND_SIGNAL : Z := 49.
Definition SYSCALL_COND_BROADCAST : Z := 50.
Definition SYSCALL_COND_DESTROY : Z := 51.
Definition SYSCALL_MBOX_OPEN : Z := 52.
Definition SYSCALL_MBOX_CLOSE : Z := 53.
Definition SYSCALL_MBOX_SEND : Z := 54.
Definition SYSCALL_MBOX_RECV : Z := 55.
Definition SYSCALL_SHM_GET : Z := 56.
Definition SYSCALL_SHM_DT : Z := 57.
Definition SYSCALL_PTHREAD_CREATE : Z := 58.
Definition SYSCALL_PTHREAD_JOIN : Z := 59.
Definition SYSCALL_MPTOTECT : Z := 60.
Definition SYSCALL_GET_BRK : Z := 61.
Definition SYSCALL_BRK : Z := 62.
Definition SYSCALL_SBRK : Z := 63.
Definition SYSCALL_NET_SEND : Z := 64.
Definition SYSCALL_NET_RECV : Z := 65.
Definition SYSCALL_NET_MULISND : Z := 66.
Definition SYSCALL_FS_MKFS : Z := 80.
Definition SYSCALL_FS_STATFS : Z := 81.
Definition SYSCALL_FS_CD : Z := 67.
Definition SYSCALL_FS_MKDIR : Z := 68.
Definition SYSCALL_FS_RMDIR : Z := 69.
Definition SYSCALL_FS_LS : Z := 70.
Definition SYSCALL_FS_TOUCH : Z := 71.
Definition SYSCALL_FS_CAT : Z := 72.
Definition SYSCALL_FS_OPEN : Z := 73.
Definition SYSCALL_FS_READ : Z := 74.
Definition SYSCALL_FS_WRITE : Z := 75.
Definition SYSCALL_FS_CLOSE : Z := 76.
Definition SYSCALL_FS_LN : Z := 77.
Definition SYSCALL_FS_RM : Z := 78.
Definition SYSCALL_FS_LSEEK : Z := 79.
Definition SYSCALL_FS_PWD : Z := 82.
Definition SYSCALL_VMFLUSH : Z := 83.
Definition SYSCALL_INIT_BCAHCE : Z := 84.
Definition SYSCALL_BFLUSH : Z := 85.
Definition NUM_SYSCALLS : nat := 96.

(** ** Numbers, in the user library *)

Definition U_SYSCALL_EXEC : Z := 0.
Definition U_SYSCALL_EXIT : Z := 1.
Definition U_SYSCALL_SLEEP : Z := 2.
Definition U_SYSCALL_KILL : Z := 3.
Definition U_SYSCALL_WAITPID : Z := 4.
Definition U_SYSCALL_PS : Z := 5.
Definition U_SYSCALL_GETPID : Z := 6.
Definition U_SYSCALL_YIELD : Z := 7.
Definition U_SYSCALL_WRITE : Z := 20.
Definition U_SYSCALL_READCH : Z := 21.
Definition U_SYSCALL_CURSOR : Z := 22.
Definition U_SYSCALL_REFLUSH : Z := 23.
Definition U_SYSCALL_CLEAR : Z := 24.
Definition U_SYSCALL_GET_TIMEBASE : Z := 30.
Definition U_SYSCALL_GET_TICK : Z := 31.
Definition U_SYSCALL_TASKSET : Z := 32.
Definition U_SYSCALL_SEMA_INIT : Z := 36.
Definition U_SYSCALL_SEMA_UP : Z := 37.
Definition U_SYSCALL_SEMA_DOWN : Z := 38.
Definition U_SYSCALL_SEMA_DESTROY : Z := 39.
Definition U_SYSCALL_LOCK_INIT : Z := 40.
Definition U_SYSCALL_LOCK_ACQ : Z := 41.
Definition U_SYSCALL_LOCK_RELEASE : Z := 42.
Definition U_SYSCALL_SET_SCHE_WORKLOAD : Z := 35.
Definition U_SYSCALL_SHOW_TASK : Z := 43.
Definition U_SYSCALL_BARR_INIT : Z := 44.
Definition U_SYSCALL_BARR_WAIT : Z := 45.
Definition U_SYSCALL_BARR_DESTROY : Z := 46.
Definition U_SYSCALL_COND_INIT : Z := 47.
Definition U_SYSCALL_COND_WAIT : Z := 48.
Definition U_SYSCALL_COND_SIGNAL : Z := 49.
Definition U_SYSCALL_COND_BROADCAST : Z := 50.
Definition U_SYSCALL_COND_DESTROY : Z := 51.
Definition U_SYSCALL_MBOX_OPEN : Z := 52.
Definition U_SYSCALL_MBOX_CLOSE : Z := 53.
Definition U_SYSCALL_MBOX_SEND : Z := 54.
Definition U_SYSCALL_MBOX_RECV : Z := 55.
Definition U_SYSCALL_SHM_GET : Z := 56.
Definition U_SYSCALL_SHM_DT : Z := 57.
Definition U_SYSCALL_PTHREAD_CREATE : Z := 58.
Definition U_SYSCALL_PTHREAD_JOIN : Z := 59.
Definition U_SYSCALL_MPTOTECT : Z := 60.
Definition U_SYSCALL_GET_BRK : Z := 61.
Definition U_SYSCALL_BRK : Z := 62.
Definition U_SYSCALL_SBRK : Z := 63.
Definition U_SYSCALL_NET_SEND : Z := 64.
Definition U_SYSCALL_NET_RECV : Z := 65.
Definition U_SYSCALL_NET_MULISND : Z := 66.
Definition U_SYSCALL_FS_MKFS : Z := 80.
Definition U_SYSCALL_FS_STATFS : Z := 81.
Definition U_SYSCALL_FS_CD : Z := 67.
Definition U_SYSCALL_FS_MKDIR : Z := 68.
Definition U_SYSCALL_FS_RMDIR : Z := 69.
Definition U_SYSCALL_FS_LS : Z := 70.
Definition U_SYSCALL_FS_TOUCH : Z := 71.
Definition U_SYSCALL_FS_CAT : Z := 72.
Definition U_SYSCALL_FS_OPEN : Z := 73.
Definition U_SYSCALL_FS_READ : Z := 74.
Definition U_SYSCALL_FS_WRITE : Z := 75.
Definition U_SYSCALL_FS_CLOSE : Z := 76.
Definition U_SYSCALL_FS_LN : Z := 77.
Definition U_SYSCALL_FS_RM : Z := 78.
Definition U_SYSCALL_FS_LSEEK : Z := 79.
Definition U_SYSCALL_FS_PWD : Z := 82.
Definition U_SYSCALL_VMFLUSH : Z := 83.
Definition U_SYSCALL_INIT_BCACHE : Z := 84.
Definition U_SYSCALL_BFLUSH : Z := 85.

(** ** The table *)

(** The functions the table points to. *)
Inductive handler :=
| H_do_sleep | H_do_scheduler | H_screen_write | H_screen_move_cursor | H_screen_reflush
| H_get_time_base | H_get_ticks | H_do_mutex_lock_init | H_do_mutex_lock_acquire | H_do_mutex_lock_release
| H_set_sche_workload | H_bios_getchar | H_do_process_show | H_screen_clear | H_do_exec
| H_do_exit | H_do_kill | H_do_waitpid | H_do_getpid | H_do_barrier_init
| H_do_barrier_wait | H_do_barrier_destroy | H_do_condition_init | H_do_condition_wait | H_do_condition_signal
| H_do_condition_broadcast | H_do_condition_destroy | H_do_mbox_open | H_do_mbox_close | H_do_mbox_send
| H_do_mbox_recv | H_do_taskset | H_do_pthread_create | H_do_pthread_join | H_shm_page_get
| H_shm_page_dt | H_do_mprotect | H_do_getbrk | H_do_brk | H_do_sbrk
| H_do_net_send | H_do_net_recv | H_do_net_multisend | H_do_mkfs | H_do_statfs
| H_do_cd | H_do_mkdir | H_do_rmdir | H_do_ls | H_do_touch
| H_do_cat | H_do_open | H_do_read | H_do_write | H_do_close
| H_do_ln | H_do_rm | H_do_lseek | H_do_pwd | H_do_vmflush
| H_init_bcache | H_bflush.
#[global] Instance handler_eq_dec : EqDecision handler.
Proof. solve_decision. Defined.

(** [syscall]: a null pointer is [None]. *)
Definition set_syscall (n : Z) (h : handler) (t : list (option handler)) : list (option handler) :=
  <[Z.to_nat n := Some h]> t.
(** The assignments in their order. *)
Definition init_syscall (t : list (option handler)) : list (option handler) :=
  let t := set_syscall SYSCALL_SLEEP H_do_sleep t in
  let t := set_syscall SYSCALL_YIELD H_do_scheduler t in
  let t := set_syscall SYSCALL_WRITE H_screen_write t in
  let t := set_syscall SYSCALL_CURSOR H_screen_move_cursor t in
  let t := set_syscall SYSCALL_REFLUSH H_screen_reflush t in
  let t := set_syscall SYSCALL_GET_TIMEBASE H_get_time_base t in
  let t := set_syscall SYSCALL_GET_TICK H_get_ticks t in
  let t := set_syscall SYSCALL_LOCK_INIT H_do_mutex_lock_init t in
  let t := set_syscall SYSCALL_LOCK_ACQ H_do_mutex_lock_acquire t in
  let t := set_syscall SYSCALL_LOCK_RELEASE H_do_mutex_lock_release t in
  let t := set_syscall SYSCALL_SET_SCHE_WORKLOAD H_set_sche_workload t in
  let t := set_syscall SYSCALL_READCH H_bios_getchar t in
  let t := set_syscall SYSCALL_PS H_do_process_show t in
  let t := set_syscall SYSCALL_CLEAR H_screen_clear t in
  let t := set_syscall SYSCALL_EXEC H_do_exec t in
  let t := set_syscall SYSCALL_EXIT H_do_exit t in
  let t := set_syscall SYSCALL_KILL H_do_kill t in
  let t := set_syscall SYSCALL_WAITPID H_do_waitpid t in
  let t := set_syscall SYSCALL_GETPID H_do_getpid t in
  let t := set_syscall SYSCALL_BARR_INIT H_do_barrier_init t in
  let t := set_syscall SYSCALL_BARR_WAIT H_do_barrier_wait t in
  let t := set_syscall SYSCALL_BARR_DESTROY H_do_barrier_destroy t in
  let t := set_syscall SYSCALL_COND_INIT H_do_condition_init t in
  let t := set_syscall SYSCALL_COND_WAIT H_do_condition_wait t in
  let t := set_syscall SYSCALL_COND_SIGNAL H_do_condition_signal t in
  let t := set_syscall SYSCALL_COND_BROADCAST H_do_condition_broadcast t in
  let t := set_syscall SYSCALL_COND_DESTROY H_do_condition_destroy t in
  let t := set_syscall SYSCALL_MBOX_OPEN H_do_mbox_open t in
  let t := set_syscall SYSCALL_MBOX_CLOSE H_do_mbox_close t in
  let t := set_syscall SYSCALL_MBOX_SEND H_do_mbox_send t in
  let t := set_syscall SYSCALL_MBOX_RECV H_do_mbox_recv t in
  let t := set_syscall SYSCALL_TASKSET H_do_taskset t in
  let t := set_syscall SYSCALL_PTHREAD_CREATE H_do_pthread_create t in
  let t := set_syscall SYSCALL_PTHREAD_JOIN H_do_pthread_join t in
  let t := set_syscall SYSCALL_SHM_GET H_shm_page_get t in
  let t := set_syscall SYSCALL_SHM_DT H_shm_page_dt t in
  let t := set_syscall SYSCALL_MPTOTECT H_do_mprotect t in
  let t := set_syscall SYSCALL_GET_BRK H_do_getbrk t in
  let t := set_syscall SYSCALL_BRK H_do_brk t in
  let t := set_syscall SYSCALL_SBRK H_do_sbrk t in
  let t := set_syscall SYSCALL_NET_SEND H_do_net_send t in
  let t := set_syscall SYSCALL_NET_RECV H_do_net_recv t in
  let t := set_syscall SYSCALL_NET_MULISND H_do_net_multisend t in
  let t := set_syscall SYSCALL_FS_MKFS H_do_mkfs t in
  let t := set_syscall SYSCALL_FS_STATFS H_do_statfs t in
  let t := set_syscall SYSCALL_FS_CD H_do_cd t in
  let t := set_syscall SYSCALL_FS_MKDIR H_do_mkdir t in
  let t := set_syscall SYSCALL_FS_RMDIR H_do_rmdir t in
  let t := set_syscall SYSCALL_FS_LS H_do_ls t in
  let t := set_syscall SYSCALL_FS_TOUCH H_do_touch t in
  let t := set_syscall SYSCALL_FS_CAT H_do_cat t in
  let t := set_syscall SYSCALL_FS_OPEN H_do_open t in
  let t := set_syscall SYSCALL_FS_READ H_do_read t in
  let t := set_syscall SYSCALL_FS_WRITE H_do_write t in
  let t := set_syscall SYSCALL_FS_CLOSE H_do_close t in
  let t := set_syscall SYSCALL_FS_LN H_do_ln t in
  let t := set_syscall SYSCALL_FS_RM H_do_rm t in
  let t := set_syscall SYSCALL_FS_LSEEK H_do_lseek t in
  let t := set_syscall SYSCALL_FS_PWD H_do_pwd t in
  let t := set_syscall SYSCALL_VMFLUSH H_do_vmflush t in
  let t := set_syscall SYSCALL_INIT_BCAHCE H_init_bcache t in
  let t := set_syscall SYSCALL_BFLUSH H_bflush t in
  t.
Definition syscall : list (option handler) := init_syscall (replicate NUM_SYSCALLS None).

(** ** The dispatcher *)

Definition NO_REG_A0 : nat := 10.
Definition NO_REG_A1 : nat := 11.
Definition NO_REG_A2 : nat := 12.
Definition NO_REG_A3 : nat := 13.
Definition NO_REG_A4 : nat := 14.
Definition NO_REG_A7 : nat := 17.

(** The saved registers; those the dispatcher does not touch are left out but for
    the general ones. *)
Record regs_context_t := mkRegs { regs : list Z; sepc : Z }.
Definition reg (r : regs_context_t) (n : nat) : Z := default 0 (regs r !! n).
Definition set_reg (n : nat) (v : Z) (r : regs_context_t) : regs_context_t := mkRegs (<[n := u64 v]> (regs r)) (sepc r).

Section Syscall.
Context {K : Type} (run : handler -> list Z -> M K Z).

(** The kernel state and the registers of the running process. *)
Record ust := mkUst { ctx : regs_context_t; kst : K }.
Definition with_ctx c (s : ust) := mkUst c (kst s).

Definition handle_syscall : M ust unit :=
  r ← gets ctx;
  fn ← lift (idx syscall (reg r NO_REG_A7));
  h ← lift (of_option Fault fn);
  retval ← zoom kst (fun k s => mkUst (ctx s) k)
    (run h [reg r NO_REG_A0; reg r NO_REG_A1; reg r NO_REG_A2; reg r NO_REG_A3; reg r NO_REG_A4]);
  modify (fun s => with_ctx (mkRegs (regs (ctx s)) (u64 (sepc (ctx s) + 4))) s);;
  modify (fun s => with_ctx (set_reg NO_REG_A0 retval (ctx s)) s).

(** ** The user library *)

Definition IGNORE : Z := 0.
(** The registers are set, [ecall] traps into the kernel, and [a0] is the result. *)
Definition invoke_syscall (sysno arg0 arg1 arg2 arg3 arg4 : Z) : M ust Z :=
  modify (fun s => with_ctx (set_reg NO_REG_A4 arg4 (set_reg NO_REG_A3 arg3 (set_reg NO_REG_A2 arg2
    (set_reg NO_REG_A1 arg1 (set_reg NO_REG_A0 arg0 (set_reg NO_REG_A7 sysno (ctx s))))))) s);;
  handle_syscall;;
  r ← gets ctx;
  mret (i64 (reg r NO_REG_A0)).

(** Results of type [int] and [void *], and of functions without a result. *)
Definition ret_int (m : M ust Z) : M ust Z := v ← m; mret (i32 v).
Definition ret_ptr (m : M ust Z) : M ust Z := v ← m; mret (u64 v).
Definition ret_void (m : M ust Z) : M ust Z := m;; mret 0.

Definition sys_yield : M ust Z :=
  ret_void (invoke_syscall U_SYSCALL_YIELD IGNORE IGNORE IGNORE IGNORE IGNORE).
Definition sys_move_cursor (x y : Z) : M ust Z :=
  ret_void (invoke_syscall U_SYSCALL_CURSOR x y IGNORE IGNORE IGNORE).
Definition sys_screen_write (buff : Z) : M ust Z :=
  ret_void (invoke_syscall U_SYSCALL_WRITE buff IGNORE IGNORE IGNORE IGNORE).
Definition sys_reflush : M ust Z :=
  ret_void (invoke_syscall U_SYSCALL_REFLUSH IGNORE IGNORE IGNORE IGNORE IGNORE).
Definition sys_mutex_init (key : Z) : M ust Z :=
  ret_int (invoke_syscall U_SYSCALL_LOCK_INIT key IGNORE IGNORE IGNORE IGNORE).
Definition sys_mutex_acquire (mutex_idx : Z) : M ust Z :=
  ret_void (invoke_syscall U_SYSCALL_LOCK_ACQ mutex_idx IGNORE IGNORE IGNORE IGNORE).
Definition sys_mutex_release (mutex_idx : Z) : M ust Z :=
  ret_void (invoke_syscall U_SYSCALL_LOCK_RELEASE mutex_idx IGNORE IGNORE IGNORE IGNORE).
Definition sys_get_timebase : M ust Z :=
  invoke_syscall U_SYSCALL_GET_TIMEBASE IGNORE IGNORE IGNORE IGNORE IGNORE.
Definition sys_get_tick : M ust Z :=
  invoke_syscall U_SYSCALL_GET_TICK IGNORE IGNORE IGNORE IGNORE IGNORE.
Definition sys_sleep (time : Z) : M ust Z :=
  ret_void (invoke_syscall U_SYSCALL_SLEEP time IGNORE IGNORE IGNORE IGNORE).
Definition sys_set_sche_workload (remain_length : Z) : M ust Z :=
  ret_void (invoke_syscall U_SYSCALL_SET_SCHE_WORKLOAD remain_length IGNORE IGNORE IGNORE IGNORE).
Definition sys_exec (name_ argc argv : Z) : M ust Z :=
  ret_int (invoke_syscall U_SYSCALL_EXEC name_ argc argv IGNORE IGNORE).
Definition sys_exit : M ust Z :=
  ret_void (invoke_syscall U_SYSCALL_EXIT IGNORE IGNORE IGNORE IGNORE IGNORE).
Definition sys_kill (pid : Z) : M ust Z :=
  ret_int (invoke_syscall U_SYSCALL_KILL pid IGNORE IGNORE IGNORE IGNORE).
Definition sys_waitpid (pid : Z) : M ust Z :=
  ret_int (invoke_syscall U_SYSCALL_WAITPID pid IGNORE IGNORE IGNORE IGNORE).
Definition sys_ps : M ust Z :=
  ret_void (invoke_syscall U_SYSCALL_PS IGNORE IGNORE IGNORE IGNORE IGNORE).
Definition sys_screen_clear : M ust Z :=
  ret_void (invoke_syscall U_SYSCALL_CLEAR IGNORE IGNORE IGNORE IGNORE IGNORE).
Definition sys_getpid : M ust Z :=
  ret_int (invoke_syscall U_SYSCALL_GETPID IGNORE IGNORE IGNORE IGNORE IGNORE).
Definition sys_getchar : M ust Z :=
  ret_int (invoke_syscall U_SYSCALL_READCH IGNORE IGNORE IGNORE IGNORE IGNORE).
Definition sys_barrier_init (key goal : Z) : M ust Z :=
  ret_int (invoke_syscall U_SYSCALL_BARR_INIT key goal IGNORE IGNORE IGNORE).
Definition sys_barrier_wait (bar_idx : Z) : M ust Z :=
  ret_void (invoke_syscall U_SYSCALL_BARR_WAIT bar_idx IGNORE IGNORE IGNORE IGNORE).
Definition sys_barrier_destroy (bar_idx : Z) : M ust Z :=
  ret_void (invoke_syscall U_SYSCALL_BARR_DESTROY bar_idx IGNORE IGNORE IGNORE IGNORE).
Definition sys_condition_init (key : Z) : M ust Z :=
  ret_int (invoke_syscall U_SYSCALL_COND_INIT key IGNORE IGNORE IGNORE IGNORE).
Definition sys_condition_wait (cond_idx mutex_idx : Z) : M ust Z :=
  ret_void (invoke_syscall U_SYSCALL_COND_WAIT cond_idx mutex_idx IGNORE IGNORE IGNORE).
Definition sys_condition_signal (cond_idx : Z) : M ust Z :=
  ret_void (invoke_syscall U_SYSCALL_COND_SIGNAL cond_idx IGNORE IGNORE IGNORE IGNORE).
Definition sys_condition_broadcast (cond_idx : Z) : M ust Z :=
  ret_void (invoke_syscall U_SYSCALL_COND_BROADCAST cond_idx IGNORE IGNORE IGNORE IGNORE).
Definition sys_condition_destroy (cond_idx : Z) : M ust Z :=
  ret_void (invoke_syscall U_SYSCALL_COND_DESTROY cond_idx IGNORE IGNORE IGNORE IGNORE).
Definition sys_semaphore_init (key init : Z) : M ust Z := mret 0.
Definition sys_semaphore_up (sema_idx : Z) : M ust Z := mret 0.
Definition sys_semaphore_down (sema_idx : Z) : M ust Z := mret 0.
Definition sys_semaphore_destroy (sema_idx : Z) : M ust Z := mret 0.
Definition sys_mbox_open (name_ : Z) : M ust Z :=
  ret_int (invoke_syscall U_SYSCALL_MBOX_OPEN name_ IGNORE IGNORE IGNORE IGNORE).
Definition sys_mbox_close (mbox_id : Z) : M ust Z :=
  ret_void (invoke_syscall U_SYSCALL_MBOX_CLOSE mbox_id IGNORE IGNORE IGNORE IGNORE).
Definition sys_mbox_send (mbox_idx msg msg_length : Z) : M ust Z :=
  ret_int (invoke_syscall U_SYSCALL_MBOX_SEND mbox_idx msg msg_length IGNORE IGNORE).
Definition sys_mbox_recv (mbox_idx msg msg_length : Z) : M ust Z :=
  ret_int (invoke_syscall U_SYSCALL_MBOX_RECV mbox_idx msg msg_length IGNORE IGNORE).
Definition sys_taskset (name_ pid mask mod_ : Z) : M ust Z :=
  ret_int (invoke_syscall U_SYSCALL_TASKSET name_ pid mask mod_ IGNORE).
Definition sys_shmpageget (key : Z) : M ust Z :=
  ret_ptr (invoke_syscall U_SYSCALL_SHM_GET key IGNORE IGNORE IGNORE IGNORE).
Definition sys_shmpagedt (addr : Z) : M ust Z :=
  ret_void (invoke_syscall U_SYSCALL_SHM_DT addr IGNORE IGNORE IGNORE IGNORE).
Definition sys_pthread_create (thread start_routine arg exit_funct : Z) : M ust Z :=
  ret_void (invoke_syscall U_SYSCALL_PTHREAD_CREATE thread start_routine arg exit_funct IGNORE).
Definition sys_pthread_join (thread : Z) : M ust Z :=
  ret_void (invoke_syscall U_SYSCALL_PTHREAD_JOIN thread IGNORE IGNORE IGNORE IGNORE).
Definition sys_mprotect (addr len_ prot : Z) : M ust Z :=
  ret_int (invoke_syscall U_SYSCALL_MPTOTECT addr len_ prot IGNORE IGNORE).
Definition sys_getbrk (bss_end : Z) : M ust Z :=
  ret_void (invoke_syscall U_SYSCALL_GET_BRK bss_end IGNORE IGNORE IGNORE IGNORE).
Definition sys_brk (addr : Z) : M ust Z :=
  ret_int (invoke_syscall U_SYSCALL_BRK addr IGNORE IGNORE IGNORE IGNORE).
Definition sys_sbrk (increment : Z) : M ust Z :=
  ret_ptr (invoke_syscall U_SYSCALL_SBRK increment IGNORE IGNORE IGNORE IGNORE).
Definition sys_net_send (txpacket length : Z) : M ust Z :=
  ret_int (invoke_syscall U_SYSCALL_NET_SEND txpacket length IGNORE IGNORE IGNORE).
Definition sys_net_multisend (txpacket pkt_num pkt_len : Z) : M ust Z :=
  ret_int (invoke_syscall U_SYSCALL_NET_MULISND txpacket pkt_num pkt_len IGNORE IGNORE).
Definition sys_net_recv (rxbuffer pkt_num pkt_lens : Z) : M ust Z :=
  ret_int (invoke_syscall U_SYSCALL_NET_RECV rxbuffer pkt_num pkt_lens IGNORE IGNORE).
Definition sys_mkfs : M ust Z :=
  ret_int (invoke_syscall U_SYSCALL_FS_MKFS IGNORE IGNORE IGNORE IGNORE IGNORE).
Definition sys_statfs : M ust Z :=
  ret_int (invoke_syscall U_SYSCALL_FS_STATFS IGNORE IGNORE IGNORE IGNORE IGNORE).
Definition sys_cd (path : Z) : M ust Z :=
  ret_int (invoke_syscall U_SYSCALL_FS_CD path IGNORE IGNORE IGNORE IGNORE).
Definition sys_mkdir (path : Z) : M ust Z :=
  ret_int (invoke_syscall U_SYSCALL_FS_MKDIR path IGNORE IGNORE IGNORE IGNORE).
Definition sys_rmdir (path : Z) : M ust Z :=
  ret_int (invoke_syscall U_SYSCALL_FS_RMDIR path IGNORE IGNORE IGNORE IGNORE).
Definition sys_ls (path option : Z) : M ust Z :=
  ret_int (invoke_syscall U_SYSCALL_FS_LS path option IGNORE IGNORE IGNORE).
Definition sys_open (path mode : Z) : M ust Z :=
  ret_int (invoke_syscall U_SYSCALL_FS_OPEN path mode IGNORE IGNORE IGNORE).
Definition sys_read (fd buff length : Z) : M ust Z :=
  ret_int (invoke_syscall U_SYSCALL_FS_READ fd buff length IGNORE IGNORE).
Definition sys_write (fd buff length : Z) : M ust Z :=
  ret_int (invoke_syscall U_SYSCALL_FS_WRITE fd buff length IGNORE IGNORE).
Definition sys_close (fd : Z) : M ust Z :=
  ret_int (invoke_syscall U_SYSCALL_FS_CLOSE fd IGNORE IGNORE IGNORE IGNORE).
Definition sys_ln (src_path dst_path : Z) : M ust Z :=
  ret_int (invoke_syscall U_SYSCALL_FS_LN src_path dst_path IGNORE IGNORE IGNORE).
Definition sys_rm (path : Z) : M ust Z :=
  ret_int (invoke_syscall U_SYSCALL_FS_RM path IGNORE IGNORE IGNORE IGNORE).
Definition sys_lseek (fd offset whence : Z) : M ust Z :=
  ret_int (invoke_syscall U_SYSCALL_FS_LSEEK fd offset whence IGNORE IGNORE).
Definition sys_pwd : M ust Z :=
  ret_int (invoke_syscall U_SYSCALL_FS_PWD IGNORE IGNORE IGNORE IGNORE IGNORE).
Definition sys_cat (path : Z) : M ust Z :=
  ret_int (invoke_syscall U_SYSCALL_FS_CAT path IGNORE IGNORE IGNORE IGNORE).
Definition sys_touch (path : Z) : M ust Z :=
  ret_int (invoke_syscall U_SYSCALL_FS_TOUCH path IGNORE IGNORE IGNORE IGNORE).
Definition sys_vmflush : M ust Z :=
  ret_int (invoke_syscall U_SYSCALL_VMFLUSH IGNORE IGNORE IGNORE IGNORE IGNORE).
Definition sys_init_bcache : M ust Z :=
  ret_void (invoke_syscall U_SYSCALL_INIT_BCACHE IGNORE IGNORE IGNORE IGNORE IGNORE).
Definition sys_bflush : M ust Z :=
  ret_void (invoke_syscall U_SYSCALL_BFLUSH IGNORE IGNORE IGNORE IGNORE IGNORE).
End Syscall.

(** ** The interface of user programs *)

(** One constructor per wrapper that makes a call.  The four sys_semaphore_* wrappers
    are stubs that never enter the kernel: they return 0 or nothing. *)
Inductive api :=
| A_sys_yield
| A_sys_move_cursor (x y : Z)
| A_sys_screen_write (buff : Z)
| A_sys_reflush
| A_sys_mutex_init (key : Z)
| A_sys_mutex_acquire (mutex_idx : Z)
| A_sys_mutex_release (mutex_idx : Z)
| A_sys_get_timebase
| A_sys_get_tick
| A_sys_sleep (time : Z)
| A_sys_set_sche_workload (remain_length : Z)
| A_sys_exec (name_ argc argv : Z)
| A_sys_exit
| A_sys_kill (pid : Z)
| A_sys_waitpid (pid : Z)
| A_sys_ps
| A_sys_screen_clear
| A_sys_getpid
| A_sys_getchar
| A_sys_barrier_init (key goal : Z)
| A_sys_barrier_wait (bar_idx : Z)
| A_sys_barrier_destroy (bar_idx : Z)
| A_sys_condition_init (key : Z)
| A_sys_condition_wait (cond_idx mutex_idx : Z)
| A_sys_condition_signal (cond_idx : Z)
| A_sys_condition_broadcast (cond_idx : Z)
| A_sys_condition_destroy (cond_idx : Z)
| A_sys_mbox_open (name_ : Z)
| A_sys_mbox_close (mbox_id : Z)
| A_sys_mbox_send (mbox_idx msg msg_length : Z)
| A_sys_mbox_recv (mbox_idx msg msg_length : Z)
| A_sys_taskset (name_ pid mask mod_ : Z)
| A_sys_shmpageget (key : Z)
| A_sys_shmpagedt (addr : Z)
| A_sys_pthread_create (thread start_routine arg exit_funct : Z)
| A_sys_pthread_join (thread : Z)
| A_sys_mprotect (addr len_ prot : Z)
| A_sys_getbrk (bss_end : Z)
| A_sys_brk (addr : Z)
| A_sys_sbrk (increment : Z)
| A_sys_net_send (txpacket length : Z)
| A_sys_net_multisend (txpacket pkt_num pkt_len : Z)
| A_sys_net_recv (rxbuffer pkt_num pkt_lens : Z)
| A_sys_mkfs
| A_sys_statfs
| A_sys_cd (path : Z)
| A_sys_mkdir (path : Z)
| A_sys_rmdir (path : Z)
| A_sys_ls (path option : Z)
| A_sys_open (path mode : Z)
| A_sys_read (fd buff length : Z)
| A_sys_write (fd buff length : Z)
| A_sys_close (fd : Z)
| A_sys_ln (src_path dst_path : Z)
| A_sys_rm (path : Z)
| A_sys_lseek (fd offset whence : Z)
| A_sys_pwd
| A_sys_cat (path : Z)
| A_sys_touch (path : Z)
| A_sys_vmflush
| A_sys_init_bcache
| A_sys_bflush.

Definition run_api {K} (run : handler -> list Z -> M K Z) (a : api) : M ust Z :=
  match a with
  | A_sys_yield => sys_yield run
  | A_sys_move_cursor x y => sys_move_cursor run x y
  | A_sys_screen_write buff => sys_screen_write run buff
  | A_sys_reflush => sys_reflush run
  | A_sys_mutex_init key => sys_mutex_init run key
  | A_sys_mutex_acquire mutex_idx => sys_mutex_acquire run mutex_idx
  | A_sys_mutex_release mutex_idx => sys_mutex_release run mutex_idx
  | A_sys_get_timebase => sys_get_timebase run
  | A_sys_get_tick => sys_get_tick run
  | A_sys_sleep time => sys_sleep run time
  | A_sys_set_sche_workload remain_length => sys_set_sche_workload run remain_length
  | A_sys_exec name_ argc argv => sys_exec run name_ argc argv
  | A_sys_exit => sys_exit run
  | A_sys_kill pid => sys_kill run pid
  | A_sys_waitpid pid => sys_waitpid run pid
  | A_sys_ps => sys_ps run
  | A_sys_screen_clear => sys_screen_clear run
  | A_sys_getpid => sys_getpid run
  | A_sys_getchar => sys_getchar run
  | A_sys_barrier_init key goal => sys_barrier_init run key goal
  | A_sys_barrier_wait bar_idx => sys_barrier_wait run bar_idx
  | A_sys_barrier_destroy bar_idx => sys_barrier_destroy run bar_idx
  | A_sys_condition_init key => sys_condition_init run key
  | A_sys_condition_wait cond_idx mutex_idx => sys_condition_wait run cond_idx mutex_idx
  | A_sys_condition_signal cond_idx => sys_condition_signal run cond_idx
  | A_sys_condition_broadcast cond_idx => sys_condition_broadcast run cond_idx
  | A_sys_condition_destroy cond_idx => sys_condition_destroy run cond_idx
  | A_sys_mbox_open name_ => sys_mbox_open run name_
  | A_sys_mbox_close mbox_id => sys_mbox_close run mbox_id
  | A_sys_mbox_send mbox_idx msg msg_length => sys_mbox_send run mbox_idx msg msg_length
  | A_sys_mbox_recv mbox_idx msg msg_length => sys_mbox_recv run mbox_idx msg msg_length
  | A_sys_taskset name_ pid mask mod_ => sys_taskset run name_ pid mask mod_
  | A_sys_shmpageget key => sys_shmpageget run key
  | A_sys_shmpagedt addr => sys_shmpagedt run addr
  | A_sys_pthread_create thread start_routine arg exit_funct => sys_pthread_create run thread start_routine arg exit_funct
  | A_sys_pthread_join thread => sys_pthread_join run thread
  | A_sys_mprotect addr len_ prot => sys_mprotect run addr len_ prot
  | A_sys_getbrk bss_end => sys_getbrk run bss_end
  | A_sys_brk addr => sys_brk run addr
  | A_sys_sbrk increment => sys_sbrk run increment
  | A_sys_net_send txpacket length => sys_net_send run txpacket length
  | A_sys_net_multisend txpacket pkt_num pkt_len => sys_net_multisend run txpacket pkt_num pkt_len
  | A_sys_net_recv rxbuffer pkt_num pkt_lens => sys_net_recv run rxbuffer pkt_num pkt_lens
  | A_sys_mkfs => sys_mkfs run
  | A_sys_statfs => sys_statfs run
  | A_sys_cd path => sys_cd run path
  | A_sys_mkdir path => sys_mkdir run path
  | A_sys_rmdir path => sys_rmdir run path
  | A_sys_ls path option => sys_ls run path option
  | A_sys_open path mode => sys_open run path mode
  | A_sys_read fd buff length => sys_read run fd buff length
  | A_sys_write fd buff length => sys_write run fd buff length
  | A_sys_close fd => sys_close run fd
  | A_sys_ln src_path dst_path => sys_ln run src_path dst_path
  | A_sys_rm path => sys_rm run path
  | A_sys_lseek fd offset whence => sys_lseek run fd offset whence
  | A_sys_pwd => sys_pwd run
  | A_sys_cat path => sys_cat run path
  | A_sys_touch path => sys_touch run path
  | A_sys_vmflush => sys_vmflush run
  | A_sys_init_bcache => sys_init_bcache run
  | A_sys_bflush => sys_bflush run
  end.

(** What each wrapper is for: the kernel function and its arguments. *)
Definition intended (a : api) : handler * list Z :=
  match a with
  | A_sys_yield => (H_do_scheduler, [0; 0; 0; 0; 0])
  | A_sys_move_cursor x y => (H_screen_move_cursor, [x; y; 0; 0; 0])
  | A_sys_screen_write buff => (H_screen_write, [buff; 0; 0; 0; 0])
  | A_sys_reflush => (H_screen_reflush, [0; 0; 0; 0; 0])
  | A_sys_mutex_init key => (H_do_mutex_lock_init, [key; 0; 0; 0; 0])
  | A_sys_mutex_acquire mutex_idx => (H_do_mutex_lock_acquire, [mutex_idx; 0; 0; 0; 0])
  | A_sys_mutex_release mutex_idx => (H_do_mutex_lock_release, [mutex_idx; 0; 0; 0; 0])
  | A_sys_get_timebase => (H_get_time_base, [0; 0; 0; 0; 0])
  | A_sys_get_tick => (H_get_ticks, [0; 0; 0; 0; 0])
  | A_sys_sleep time => (H_do_sleep, [time; 0; 0; 0; 0])
  | A_sys_set_sche_workload remain_length => (H_set_sche_workload, [remain_length; 0; 0; 0; 0])
  | A_sys_exec name_ argc argv => (H_do_exec, [name_; argc; argv; 0; 0])
  | A_sys_exit => (H_do_exit, [0; 0; 0; 0; 0])
  | A_sys_kill pid => (H_do_kill, [pid; 0; 0; 0; 0])
  | A_sys_waitpid pid => (H_do_waitpid, [pid; 0; 0; 0; 0])
  | A_sys_ps => (H_do_process_show, [0; 0; 0; 0; 0])
  | A_sys_screen_clear => (H_screen_clear, [0; 0; 0; 0; 0])
  | A_sys_getpid => (H_do_getpid, [0; 0; 0; 0; 0])
  | A_sys_getchar => (H_bios_getchar, [0; 0; 0; 0; 0])
  | A_sys_barrier_init key goal => (H_do_barrier_init, [key; goal; 0; 0; 0])
  | A_sys_barrier_wait bar_idx => (H_do_barrier_wait, [bar_idx; 0; 0; 0; 0])
  | A_sys_barrier_destroy bar_idx => (H_do_barrier_destroy, [bar_idx; 0; 0; 0; 0])
  | A_sys_condition_init key => (H_do_condition_init, [key; 0; 0; 0; 0])
  | A_sys_condition_wait cond_idx mutex_idx => (H_do_condition_wait, [cond_idx; mutex_idx; 0; 0; 0])
  | A_sys_condition_signal cond_idx => (H_do_condition_signal, [cond_idx; 0; 0; 0; 0])
  | A_sys_condition_broadcast cond_idx => (H_do_condition_broadcast, [cond_idx; 0; 0; 0; 0])
  | A_sys_condition_destroy cond_idx => (H_do_condition_destroy, [cond_idx; 0; 0; 0; 0])
  | A_sys_mbox_open name_ => (H_do_mbox_open, [name_; 0; 0; 0; 0])
  | A_sys_mbox_close mbox_id => (H_do_mbox_close, [mbox_id; 0; 0; 0; 0])
  | A_sys_mbox_send mbox_idx msg msg_length => (H_do_mbox_send, [mbox_idx; msg; msg_length; 0; 0])
  | A_sys_mbox_recv mbox_idx msg msg_length => (H_do_mbox_recv, [mbox_idx; msg; msg_length; 0; 0])
  | A_sys_taskset name_ pid mask mod_ => (H_do_taskset, [name_; pid; mask; mod_; 0])
  | A_sys_shmpageget key => (H_shm_page_get, [key; 0; 0; 0; 0])
  | A_sys_shmpagedt addr => (H_shm_page_dt, [addr; 0; 0; 0; 0])
  | A_sys_pthread_create thread start_routine arg exit_funct => (H_do_pthread_create, [thread; start_routine; arg; exit_funct; 0])
  | A_sys_pthread_join thread => (H_do_pthread_join, [thread; 0; 0; 0; 0])
  | A_sys_mprotect addr len_ prot => (H_do_mprotect, [addr; len_; prot; 0; 0])
  | A_sys_getbrk bss_end => (H_do_getbrk, [bss_end; 0; 0; 0; 0])
  | A_sys_brk addr => (H_do_brk, [addr; 0; 0; 0; 0])
  | A_sys_sbrk increment => (H_do_sbrk, [increment; 0; 0; 0; 0])
  | A_sys_net_send txpacket length => (H_do_net_send, [txpacket; length; 0; 0; 0])
  | A_sys_net_multisend txpacket pkt_num pkt_len => (H_do_net_multisend, [txpacket; pkt_num; pkt_len; 0; 0])
  | A_sys_net_recv rxbuffer pkt_num pkt_lens => (H_do_net_recv, [rxbuffer; pkt_num; pkt_lens; 0; 0])
  | A_sys_mkfs => (H_do_mkfs, [0; 0; 0; 0; 0])
  | A_sys_statfs => (H_do_statfs, [0; 0; 0; 0; 0])
  | A_sys_cd path => (H_do_cd, [path; 0; 0; 0; 0])
  | A_sys_mkdir path => (H_do_mkdir, [path; 0; 0; 0; 0])
  | A_sys_rmdir path => (H_do_rmdir, [path; 0; 0; 0; 0])
  | A_sys_ls path option => (H_do_ls, [path; option; 0; 0; 0])
  | A_sys_open path mode => (H_do_open, [path; mode; 0; 0; 0])
  | A_sys_read fd buff length => (H_do_read, [fd; buff; length; 0; 0])
  | A_sys_write fd buff length => (H_do_write, [fd; buff; length; 0; 0])
  | A_sys_close fd => (H_do_close, [fd; 0; 0; 0; 0])
  | A_sys_ln src_path dst_path => (H_do_ln, [src_path; dst_path; 0; 0; 0])
  | A_sys_rm path => (H_do_rm, [path; 0; 0; 0; 0])
  | A_sys_lseek fd offset whence => (H_do_lseek, [fd; offset; whence; 0; 0])
  | A_sys_pwd => (H_do_pwd, [0; 0; 0; 0; 0])
  | A_sys_cat path => (H_do_cat, [path; 0; 0; 0; 0])
  | A_sys_touch path => (H_do_touch, [path; 0; 0; 0; 0])
  | A_sys_vmflush => (H_do_vmflush, [0; 0; 0; 0; 0])
  | A_sys_init_bcache => (H_init_bcache, [0; 0; 0; 0; 0])
  | A_sys_bflush => (H_bflush, [0; 0; 0; 0; 0])
  end.

(** The value a wrapper makes of the result of the kernel function. *)
Definition result_of (a : api) (v : Z) : Z :=
  match a with
  | A_sys_get_timebase | A_sys_get_tick => i64 v
  | A_sys_shmpageget _ | A_sys_sbrk _ => u64 v
  | A_sys_yield | A_sys_move_cursor _ _ | A_sys_screen_write _ | A_sys_reflush
  | A_sys_mutex_acquire _ | A_sys_mutex_release _ | A_sys_sleep _ | A_sys_set_sche_workload _
  | A_sys_exit | A_sys_ps | A_sys_screen_clear | A_sys_barrier_wait _
  | A_sys_barrier_destroy _ | A_sys_condition_wait _ _ | A_sys_condition_signal _ | A_sys_condition_broadcast _
  | A_sys_condition_destroy _ | A_sys_mbox_close _ | A_sys_shmpagedt _ | A_sys_pthread_create _ _ _ _
  | A_sys_pthread_join _ | A_sys_getbrk _ | A_sys_init_bcache | A_sys_bflush => 0
  | _ => i32 v
  end.

(** ** Conversions *)

Lemma mod_i64 v n : 0 <= n <= 64 -> i64 v mod 2 ^ n = v mod 2 ^ n.
Proof.
  intros Hn. unfold i64. replace (2 ^ 64) with (2 ^ n * 2 ^ (64 - n)) by (rewrite <- Z.pow_add_r by lia; f_equal; lia).
  pose proof (Z.div_mod (v + 2 ^ 63) (2 ^ n * 2 ^ (64 - n)) ltac:(nia)) as E.
  replace (_ mod _ - 2 ^ 63) with (v + (- 2 ^ (64 - n) * ((v + 2 ^ 63) / (2 ^ n * 2 ^ (64 - n)))) * 2 ^ n) by lia.
  apply Z_mod_plus_full.
Qed.
Lemma mod_u64 v n : 0 <= n <= 64 -> u64 v mod 2 ^ n = v mod 2 ^ n.
Proof.
  intros Hn. unfold u64. replace (2 ^ 64) with (2 ^ n * 2 ^ (64 - n)) by (rewrite <- Z.pow_add_r by lia; f_equal; lia).
  rewrite Z.rem_mul_r by nia. rewrite Z.mul_comm, Z_mod_plus_full. apply Z.mod_mod. nia.
Qed.
Lemma i32_mod v w : v mod 2 ^ 32 = w mod 2 ^ 32 -> i32 v = i32 w.
Proof. intros E. unfold i32. rewrite <- (Zplus_mod_idemp_l v), <- (Zplus_mod_idemp_l w). by rewrite E. Qed.
Lemma i64_u64 v : i64 (u64 v) = i64 v.
Proof. unfold i64, u64. by rewrite Zplus_mod_idemp_l. Qed.
Lemma u64_i64 v : u64 (i64 v) = u64 v.
Proof. apply (mod_i64 v 64). lia. Qed.
Lemma i32_i64 v : i32 (i64 v) = i32 v.
Proof. apply i32_mod, mod_i64. lia. Qed.
Lemma u64_idem v : u64 (u64 v) = u64 v.
Proof. apply u64_small, u64_range. Qed.

(** ** Facts *)

Lemma reg_set n m v r : (n < length (regs r))%nat -> reg (set_reg n v r) m = if decide (n = m) then u64 v else reg r m.
Proof.
  intros Hn. unfold reg, set_reg. simpl. case_decide as E; [subst; by rewrite list_lookup_insert_eq|by rewrite list_lookup_insert_ne].
Qed.
Lemma regs_set_length n v r : length (regs (set_reg n v r)) = length (regs r).
Proof. apply length_insert. Qed.

(** The registers after a call with result [v]. *)
Definition after_call (sysno a0 a1 a2 a3 a4 v : Z) (r : regs_context_t) : regs_context_t :=
  set_reg NO_REG_A0 v (mkRegs (regs (set_reg NO_REG_A4 a4 (set_reg NO_REG_A3 a3 (set_reg NO_REG_A2 a2
    (set_reg NO_REG_A1 a1 (set_reg NO_REG_A0 a0 (set_reg NO_REG_A7 sysno r))))))) (u64 (sepc r + 4))).

Lemma invoke_ok {K} (run : handler -> list Z -> M K Z) sysno a0 a1 a2 a3 a4 h s :
  length (regs (ctx s)) = 32%nat -> 0 <= sysno < 2 ^ 64 -> idx syscall sysno = Ok (Some h) ->
  invoke_syscall run sysno a0 a1 a2 a3 a4 s =
  match run h [u64 a0; u64 a1; u64 a2; u64 a3; u64 a4] (kst s) with
  | Ok (v, k) => Ok (i64 v, mkUst (after_call sysno a0 a1 a2 a3 a4 v (ctx s)) k)
  | Err e => Err e
  end.
Proof.
  intros Hl Hs Ei. unfold invoke_syscall. rewrite (bind_ok _ _ _ _ _ eq_refl). set (r := set_reg NO_REG_A4 _ _).
  assert (reg r NO_REG_A7 = sysno /\ reg r NO_REG_A0 = u64 a0 /\ reg r NO_REG_A1 = u64 a1 /\ reg r NO_REG_A2 = u64 a2 /\
    reg r NO_REG_A3 = u64 a3 /\ reg r NO_REG_A4 = u64 a4 /\ length (regs r) = 32%nat) as (E7 & E0 & E1 & E2 & E3 & E4 & Hr).
  { unfold r, reg, set_reg, NO_REG_A0, NO_REG_A1, NO_REG_A2, NO_REG_A3, NO_REG_A4, NO_REG_A7. cbn [regs].
    rewrite !length_insert. repeat split;
      repeat first [rewrite list_lookup_insert_eq by (rewrite ?length_insert, Hl; lia) | rewrite list_lookup_insert_ne by lia];
      cbn [default]; [by apply u64_small|reflexivity..|exact Hl]. }
  unfold handle_syscall. rewrite !bind_bind, (bind_ok _ _ _ _ _ eq_refl). cbn [ctx with_ctx].
  rewrite E7, E0, E1, E2, E3, E4, !bind_bind, (bind_ok _ _ _ _ _ (lift_ok _ _ _ Ei)), bind_bind, (bind_ok _ _ _ _ _ eq_refl), bind_bind.
  unfold zoom at 1, mbind at 1, M_bind at 1. cbn [kst with_ctx].
  destruct (run h _ (kst s)) as [[v k]|e]; [|done]. cbv beta iota.
  rewrite bind_bind, (bind_ok _ _ _ _ _ eq_refl), (bind_ok _ _ _ _ _ eq_refl), (bind_ok _ _ _ _ _ eq_refl). cbn [ctx with_ctx kst].
  unfold mret, M_ret, after_call. fold r. change (sepc r) with (sepc (ctx s)).
  rewrite (reg_set NO_REG_A0 NO_REG_A0) by (cbn [regs]; rewrite Hr; unfold NO_REG_A0; lia). rewrite decide_True by done. by rewrite i64_u64.
Qed.

(** A wrapper: a conversion [w] around the call. *)
Section Wrapper.
Context {K : Type} (run : handler -> list Z -> M K Z) (s : @ust K) (Hl : length (regs (ctx s)) = 32%nat).

Definition returns (w : M ust Z) (v res : Z) (k : K) : Prop :=
  exists r, w s = Ok (res, mkUst r k) /\ sepc r = u64 (sepc (ctx s) + 4) /\
    reg r NO_REG_A0 = u64 v /\ forall n, n ∉ [10; 11; 12; 13; 14; 17]%nat -> regs r !! n = regs (ctx s) !! n.

Lemma invoke_returns sysno h x0 x1 x2 x3 x4 v k :
  0 <= sysno < 2 ^ 64 -> idx syscall sysno = Ok (Some h) ->
  run h [u64 x0; u64 x1; u64 x2; u64 x3; u64 x4] (kst s) = Ok (v, k) ->
  returns (invoke_syscall run sysno x0 x1 x2 x3 x4) v (i64 v) k.
Proof.
  intros Hs Ei Er. eexists. rewrite (invoke_ok run sysno x0 x1 x2 x3 x4 h s Hl Hs Ei), Er. split; [reflexivity|]. split; [done|]. split.
  - unfold after_call. rewrite reg_set by (cbn [regs]; rewrite !regs_set_length, Hl; unfold NO_REG_A0; lia). by rewrite decide_True.
  - intros n Hn. unfold after_call, set_reg, NO_REG_A0, NO_REG_A1, NO_REG_A2, NO_REG_A3, NO_REG_A4, NO_REG_A7. cbn [regs].
    rewrite !list_lookup_insert_ne by (intros <-; apply Hn; repeat (first [by left | right])). done.
Qed.
Lemma invoke_fails sysno h x0 x1 x2 x3 x4 e :
  0 <= sysno < 2 ^ 64 -> idx syscall sysno = Ok (Some h) ->
  run h [u64 x0; u64 x1; u64 x2; u64 x3; u64 x4] (kst s) = Err e ->
  invoke_syscall run sysno x0 x1 x2 x3 x4 s = Err e.
Proof. intros Hs Ei Er. by rewrite (invoke_ok run sysno x0 x1 x2 x3 x4 h s Hl Hs Ei), Er. Qed.

Lemma returns_int m v k : returns m v (i64 v) k -> returns (ret_int m) v (i32 v) k.
Proof. intros (r & E & H). exists r. split; [|done]. unfold ret_int. rewrite (bind_ok _ _ _ _ _ E). by rewrite i32_i64. Qed.
Lemma returns_ptr m v k : returns m v (i64 v) k -> returns (ret_ptr m) v (u64 v) k.
Proof. intros (r & E & H). exists r. split; [|done]. unfold ret_ptr. rewrite (bind_ok _ _ _ _ _ E). by rewrite u64_i64. Qed.
Lemma returns_void m v k : returns m v (i64 v) k -> returns (ret_void m) v 0 k.
Proof. intros (r & E & H). exists r. split; [|done]. unfold ret_void. by rewrite (bind_ok _ _ _ _ _ E). Qed.
Lemma fails_wrapped (m : M ust Z) (f : Z -> M ust Z) e : m s = Err e -> (m ≫= f) s = Err e.
Proof. intros E. unfold mbind, M_bind. by rewrite E. Qed.
End Wrapper.

(** ** Results *)

(** C19. Every wrapper of the user library that makes a call (all but the four empty
    sys_semaphore_* stubs) reaches the kernel function of its name with its
    arguments in order, and returns its result as the wrapper declares. *)
Theorem syscall_dispatch {K} (run : handler -> list Z -> M K Z) (a : api) (s : ust) :
  length (regs (ctx s)) = 32%nat ->
  let '(h, args) := intended a in
  match run h (u64 <$> args) (kst s) with
  | Ok (v, k) => returns s (run_api run a) v (result_of a v) k
  | Err e => run_api run a s = Err e
  end.
Proof.
  intros Hl. destruct a; cbn [intended fmap list_fmap run_api result_of];
    match goal with |- match ?r with _ => _ end => destruct r as [[v k]|e] eqn:Er end;
    first [apply returns_int | apply returns_ptr | apply returns_void | apply fails_wrapped | idtac];
    first [eapply invoke_returns | eapply invoke_fails]; first [exact Hl | exact Er | by split | reflexivity].
Qed.

Lemma syscall_dispatch_witness :
  run_api (fun h args (k : list (handler * list Z)) => Ok (7, (h, args) :: k)) (A_sys_mbox_send 1 4096 5)
    (mkUst (mkRegs (replicate 32 0) 0x10000) []) =
  Ok (7, mkUst (after_call 54 1 4096 5 0 0 7 (mkRegs (replicate 32 0) 0x10000)) [(H_do_mbox_send, [1; 4096; 5; 0; 0])]).
Proof.
  pose proof (syscall_dispatch (fun h args (k : list (handler * list Z)) => Ok (7, (h, args) :: k)) (A_sys_mbox_send 1 4096 5)
    (mkUst (mkRegs (replicate 32 0) 0x10000) []) eq_refl) as (r & E & _).
  etransitivity; [exact E|]. vm_compute in E. injection E as <-. reflexivity.
Defined.

(** The number is not checked: outside the table, and at its holes, the kernel
    calls through memory that holds no function. *)
Theorem syscall_unchecked {K} (run : handler -> list Z -> M K Z) (s : ust) :
  (forall h, idx syscall (reg (ctx s) NO_REG_A7) <> Ok (Some h)) -> handle_syscall run s = Err Fault.
Proof.
  intros Hn. unfold handle_syscall. rewrite (bind_ok _ _ _ _ _ eq_refl). unfold mbind, M_bind, lift.
  destruct (idx syscall (reg (ctx s) NO_REG_A7)) as [[h|]|e] eqn:E; [by destruct (Hn h)|done|].
  unfold idx, of_option in E. destruct (0 <=? _); [|by simplify_eq]. by destruct (_ !! _); simplify_eq.
Qed.
Lemma syscall_unchecked_witness :
  handle_syscall (fun h args (k : unit) => Ok (0, k)) (mkUst (mkRegs (<[17%nat := 1000]> (replicate 32 0)) 0) tt) = Err Fault /\
  handle_syscall (fun h args (k : unit) => Ok (0, k)) (mkUst (mkRegs (<[17%nat := 36]> (replicate 32 0)) 0) tt) = Err Fault.
Proof. split; apply (syscall_unchecked (fun h args (k : unit) => Ok (0, k))); intros h; vm_compute; discriminate. Defined.
