(* ===== verification/Trap.v ===== *)
(** * Traps (kernel/irq/irq.c)

    The tables of handlers, the dispatcher and the clock interrupt, which writes the
    buffer cache back at regular intervals and reschedules. *)
From S2P Require Import Prelude DList CString Sched BCache Mm Syscall.

(** ** The tables *)

Definition IRQC_U_SOFT : Z := 0.
Definition IRQC_S_SOFT : Z := 1.
Definition IRQC_M_SOFT : Z := 3.
Definition IRQC_U_TIMER : Z := 4.
Definition IRQC_S_TIMER : Z := 5.
Definition IRQC_M_TIMER : Z := 7.
Definition IRQC_U_EXT : Z := 8.
Definition IRQC_S_EXT : Z := 9.
Definition IRQC_M_EXT : Z := 11.
Definition IRQC_COUNT : nat := 12.
Definition EXCC_INST_MISALIGNED : Z := 0.
Definition EXCC_INST_ACCESS : Z := 1.
Definition EXCC_BREAKPOINT : Z := 3.
Definition EXCC_LOAD_ACCESS : Z := 5.
Definition EXCC_STORE_ACCESS : Z := 7.
Definition EXCC_SYSCALL : Z := 8.
Definition EXCC_COUNT : nat := 16.
Definition SCAUSE_IRQ_FLAG : Z := 2 ^ 63.
Definition SCAUSE_EXC_CODE : Z := 2 ^ 63 - 1.

Inductive trap_handler :=
| T_handle_syscall | T_handle_other | T_handle_page_fault | T_handle_irq_timer | T_handle_s_soft | T_handle_irq_ext.
#[global] Instance trap_handler_eq_dec : EqDecision trap_handler.
Proof. solve_decision. Defined.

Definition set_handler (n : Z) (h : trap_handler) (t : list (option trap_handler)) := <[Z.to_nat n := Some h]> t.
(** The two tables [init_exception] fills, from zeroed ones. *)
Definition exc_table : list (option trap_handler) :=
  let t := replicate EXCC_COUNT None in
  let t := set_handler EXCC_SYSCALL T_handle_syscall t in
  let t := set_handler EXCC_INST_MISALIGNED T_handle_other t in
  let t := set_handler EXCC_INST_ACCESS T_handle_other t in
  let t := set_handler EXCC_BREAKPOINT T_handle_other t in
  let t := set_handler EXCC_LOAD_ACCESS T_handle_other t in
  let t := set_handler EXCC_STORE_ACCESS T_handle_other t in
  let t := set_handler EXCC_INST_PAGE_FAULT T_handle_page_fault t in
  let t := set_handler EXCC_LOAD_PAGE_FAULT T_handle_page_fault t in
  set_handler EXCC_STORE_PAGE_FAULT T_handle_page_fault t.
Definition irq_table : list (option trap_handler) :=
  let t := replicate IRQC_COUNT None in
  let t := set_handler IRQC_S_TIMER T_handle_irq_timer t in
  let t := set_handler IRQC_U_SOFT T_handle_other t in
  let t := set_handler IRQC_S_SOFT T_handle_s_soft t in
  let t := set_handler IRQC_M_SOFT T_handle_other t in
  let t := set_handler IRQC_U_TIMER T_handle_other t in
  let t := set_handler IRQC_M_TIMER T_handle_other t in
  let t := set_handler IRQC_U_EXT T_handle_other t in
  let t := set_handler IRQC_S_EXT T_handle_irq_ext t in
  set_handler IRQC_M_EXT T_handle_other t.

(** ** The dispatcher *)

Section Dispatch.
Context {K : Type} (current_status : K -> task_status_t) (resched : M K unit)
  (serve : trap_handler -> Z -> Z -> M K unit).

Definition interrupt_helper (stval scause : Z) : M K unit :=
  st ← gets current_status;
  (if decide (st = TASK_EXITED) then resched else mret tt);;
  h ← lift (idx (if negb (Z.land scause SCAUSE_IRQ_FLAG =? 0) then irq_table else exc_table) (Z.land scause SCAUSE_EXC_CODE));
  h ← lift (of_option Fault h);
  serve h stval scause.
End Dispatch.

(** [handle_other] prints the registers and stops at [assert(0)]; [handle_s_soft]
    does nothing. *)
Definition handle_other {K} (_ _ : Z) : M K unit := fail Panic.
Definition handle_s_soft {K} (_ _ : Z) : M K unit := mret tt.

(** ** The clock interrupt *)

Section Timer.
Context {D : Type} `{!BlockDevice D} (rdtime : nat -> Z) (time_base : Z).

(** [cnt]: the static counter; [timer_at]: what [bios_set_timer] was last given. *)
Record timer_st := mkTimer { cnt : Z; timer_at : Z; freq : Z; tcache : @cache D; tsched : sched }.
Definition with_cnt v s := mkTimer v (timer_at s) (freq s) (tcache s) (tsched s).
Definition with_timer v s := mkTimer (cnt s) v (freq s) (tcache s) (tsched s).
Definition with_tcache v s := mkTimer (cnt s) (timer_at s) (freq s) v (tsched s).
Definition with_tsched v s := mkTimer (cnt s) (timer_at s) (freq s) (tcache s) v.

(** [freq] is [write_back_freq]. *)
Definition handle_irq_timer : M timer_st unit :=
  t ← zoom tsched with_tsched (get_ticks rdtime);
  modify (with_timer (u64 (time_base / 100 + t)));;
  modify (fun s => with_cnt (i32 (cnt s + 1)) s);;
  c ← gets cnt;
  f ← gets freq;
  (if Z.rem c (i32 (f * 100)) =? 0 then
     zoom tcache with_tcache bflush;; modify (with_cnt 0)
   else mret tt);;
  zoom tsched with_tsched (do_scheduler rdtime time_base).

(** *** Properties *)

(** The disk holds what readers of the cache see. *)
Definition durable (c : @cache D) : Prop := forall s, sd_read (disk c) s = view c s.
(** The number of interrupts between two flushes. *)
Definition period (s : timer_st) : Z := freq s * 100.
Definition timer_ok (s : timer_st) : Prop :=
  store_ok (tcache s) /\ 1 <= freq s < 2 ^ 20 /\ 0 <= cnt s < 2 ^ 31 - 1.

(** One interrupt: the scheduler runs, readers see no difference, and the counter
    advances or, at a multiple of the period, the cache is flushed. *)
Lemma timer_tick s u :
  timer_ok s -> do_scheduler rdtime time_base (with_ticks (S (ticks (tsched s))) (tsched s)) = Ok (tt, u) ->
  exists s', handle_irq_timer s = Ok (tt, s') /\ store_ok (tcache s') /\ tsched s' = u /\ freq s' = freq s /\
    (forall sid, view (tcache s') sid = view (tcache s) sid) /\
    (if decide ((cnt s + 1) mod period s = 0) then cnt s' = 0 /\ durable (tcache s')
     else cnt s' = cnt s + 1 /\ tcache s' = tcache s).
Proof.
  intros (Hst & Hf & Hc) Hu. unfold period in *. unfold handle_irq_timer.
  rewrite (bind_ok _ _ s (u64 (rdtime (ticks (tsched s)))) (with_tsched (with_ticks (S (ticks (tsched s))) (tsched s)) s)) by reflexivity.
  rewrite (bind_ok _ _ _ _ _ eq_refl), (bind_ok _ _ _ _ _ eq_refl), (bind_ok _ _ _ _ _ eq_refl), (bind_ok _ _ _ _ _ eq_refl).
  cbn [cnt freq with_cnt with_timer with_tsched]. rewrite !i32_small by lia.
  rewrite Z.rem_mod_nonneg by lia. case_decide as E.
  - rewrite E. cbn [Z.eqb].
    destruct Hst as [Hne [l Hi]]. destruct (bflush_ok _ l Hi) as (c' & Eb & Hi' & Hcl & Hv & Hlen).
    eexists. split.
    + rewrite bind_bind. rewrite (bind_ok _ _ _ tt (with_tcache c' (with_cnt (cnt s + 1) (with_timer (u64 (time_base / 100 +
        u64 (rdtime (ticks (tsched s))))) (with_tsched (with_ticks (S (ticks (tsched s))) (tsched s)) s))))).
      2:{ unfold zoom. cbn [tcache with_cnt with_timer with_tsched]. by rewrite Eb. }
      rewrite (bind_ok _ _ _ _ _ eq_refl). unfold zoom. cbn [tsched with_cnt with_tcache with_timer with_tsched]. rewrite Hu. reflexivity.
    + cbn. split; [|split; [done|split; [done|split; [done|split; [done|]]]]].
      * split; [by eapply length_nonempty|by exists l].
      * intros sid. by eapply clean_view.
  - rewrite (proj2 (Z.eqb_neq _ 0) E). cbv iota.
    rewrite (bind_ok _ _ _ _ _ eq_refl). eexists. split.
    + unfold zoom. cbn [tsched with_cnt with_timer with_tsched]. rewrite Hu. reflexivity.
    + done.
Qed.

(** Other kernel code between two interrupts: it may do anything to the cache that
    keeps it well formed, and [do_vmflush] may set the frequency to any number;
    only the counter, a static variable of the handler, is out of its reach. *)
Definition others (s s' : timer_st) : Prop := cnt s' = cnt s /\ store_ok (tcache s').

(** The interrupts left until [c] is one short of a multiple of [p]. *)
Lemma mod_countdown c p i :
  0 < p -> 0 <= c -> 0 <= i <= p - 1 - c mod p -> ((c + i + 1) mod p = 0 <-> i = p - 1 - c mod p).
Proof.
  intros Hp Hc Hi. pose proof (Z.mod_pos_bound c p Hp). rewrite <- Z.add_assoc, <- Zplus_mod_idemp_l.
  split; intros E.
  - destruct (Z.eq_dec i (p - 1 - c mod p)); [done|]. rewrite Z.mod_small in E by lia. lia.
  - replace (c mod p + (i + 1)) with p by lia. apply Z_mod_same_full.
Qed.

Section Trace.
Variables tr mid : nat -> timer_st.
Hypothesis Hoth : forall i, others (tr i) (mid i).
Hypothesis Hsch : forall i, exists u,
  do_scheduler rdtime time_base (with_ticks (S (ticks (tsched (mid i)))) (tsched (mid i))) = Ok (tt, u).
Hypothesis Htr : forall i s', handle_irq_timer (mid i) = Ok (tt, s') -> tr (S i) = s'.

Lemma trace_tick f i :
  1 <= f < 2 ^ 20 -> freq (mid i) = f -> 0 <= cnt (tr i) < 2 ^ 31 - 1 ->
  handle_irq_timer (mid i) = Ok (tt, tr (S i)) /\
  (forall sid, view (tcache (tr (S i))) sid = view (tcache (mid i)) sid) /\
  (if decide ((cnt (tr i) + 1) mod (f * 100) = 0) then durable (tcache (tr (S i)))
   else cnt (tr (S i)) = cnt (tr i) + 1).
Proof.
  intros Hf Ef Hc. destruct (Hsch i) as [u Hu], (Hoth i) as [Ec Hst].
  destruct (timer_tick (mid i) u) as (s' & E & _ & _ & _ & Hv & Hif); [|done|].
  { split; [done|]. rewrite Ef, Ec. done. }
  rewrite (Htr i s' E). split; [done|]. split; [done|]. unfold period in Hif. rewrite Ec, Ef in Hif.
  case_decide; tauto.
Qed.

(** C23.  While write_back_freq is [f], which only do_vmflush changes, the cache is
    written back to the disk within [f * 100] clock interrupts, wherever the
    counter stood and whatever else the kernel does to the cache in between;
    readers see no difference. *)
Theorem timer_flushes f :
  1 <= f < 2 ^ 20 -> 0 <= cnt (tr 0%nat) < 2 ^ 30 ->
  (forall i, Z.of_nat i < f * 100 -> freq (mid i) = f) ->
  exists i, Z.of_nat i < f * 100 /\ handle_irq_timer (mid i) = Ok (tt, tr (S i)) /\
    durable (tcache (tr (S i))) /\ forall sid, view (tcache (tr (S i))) sid = view (tcache (mid i)) sid.
Proof.
  intros Hf Hc Hfr. pose proof (Z.mod_pos_bound (cnt (tr 0%nat)) (f * 100) ltac:(lia)) as Hm.
  destruct (ex_intro (fun k => k = f * 100 - 1 - cnt (tr 0%nat) mod (f * 100)) _ eq_refl) as [k Ek].
  assert (forall i, Z.of_nat i <= k -> cnt (tr i) = cnt (tr 0%nat) + Z.of_nat i) as Hind.
  { induction i as [|i IH]; intros Hi; [lia|]. specialize (IH ltac:(lia)).
    destruct (trace_tick f i Hf (Hfr i ltac:(lia))) as (_ & _ & Hif); [lia|].
    rewrite decide_False in Hif; [lia|]. rewrite IH, mod_countdown; lia. }
  exists (Z.to_nat k). specialize (Hind (Z.to_nat k) ltac:(lia)).
  destruct (trace_tick f (Z.to_nat k) Hf (Hfr (Z.to_nat k) ltac:(lia))) as (E & Hv & Hif); [lia|].
  rewrite decide_True in Hif by (rewrite Hind, mod_countdown; lia). split; [lia|done].
Qed.
End Trace.
End Timer.

(** ** Results *)

(** The handler of a cause, by the codes of the privileged architecture. *)
Definition exc_class (code : Z) : option trap_handler :=
  if bool_decide (code ∈ [0; 1; 3; 5; 7]) then Some T_handle_other
  else if code =? 8 then Some T_handle_syscall
  else if bool_decide (code ∈ [12; 13; 15]) then Some T_handle_page_fault else None.
Definition irq_class (code : Z) : option trap_handler :=
  if bool_decide (code ∈ [0; 3; 4; 7; 8; 11]) then Some T_handle_other
  else if code =? 1 then Some T_handle_s_soft
  else if code =? 5 then Some T_handle_irq_timer
  else if code =? 9 then Some T_handle_irq_ext else None.
Definition classify (scause : Z) : option trap_handler :=
  (if scause <? 2 ^ 63 then exc_class else irq_class) (scause mod 2 ^ 63).

Lemma table_lookup (t : list (option trap_handler)) (f : Z -> option trap_handler) n :
  Forall (fun i => idx t i = Ok (f i)) (seqZ 0 (Z.of_nat (length t))) -> (forall i, Z.of_nat (length t) <= i -> f i = None) -> 0 <= n ->
  match idx t n with Ok h => h = f n | Err e => e = Fault /\ f n = None end.
Proof.
  intros Ht Hf Hn. destruct (decide (n < Z.of_nat (length t))) as [Hlt|Hge].
  - rewrite Forall_forall in Ht. by rewrite (Ht n) by (apply elem_of_seqZ; lia).
  - unfold idx. rewrite (proj2 (Z.leb_le 0 n)) by done. rewrite lookup_ge_None_2 by lia. simpl. split; [done|]. apply Hf. lia.
Qed.

Theorem trap_dispatch {K} (current_status : K -> task_status_t) (resched : M K unit)
    (serve : trap_handler -> Z -> Z -> M K unit) (stval scause : Z) (k : K) :
  0 <= scause < 2 ^ 64 -> current_status k <> TASK_EXITED ->
  interrupt_helper current_status resched serve stval scause k =
  match classify scause with Some h => serve h stval scause k | None => Err Fault end.
Proof.
  intros Hs Hst. unfold interrupt_helper. rewrite (bind_ok _ _ _ _ _ eq_refl), decide_False by done.
  rewrite (bind_ok _ _ _ _ _ eq_refl).
  assert (Z.land scause SCAUSE_EXC_CODE = scause mod 2 ^ 63) as -> by (apply (Z.land_ones scause 63); lia).
  assert (negb (Z.land scause SCAUSE_IRQ_FLAG =? 0) = negb (scause <? 2 ^ 63)) as ->.
  { f_equal. unfold SCAUSE_IRQ_FLAG. destruct (Z.ltb_spec scause (2 ^ 63)) as [Hlt|Hge].
    - apply Z.eqb_eq. apply Z.bits_inj'. intros n Hn. rewrite Z.land_spec, Z.pow2_bits_eqb, Z.bits_0 by lia.
      destruct (Z.eqb_spec 63 n) as [<-|]; [|by rewrite andb_false_r].
      by rewrite (proj2 (Z.testbit_false scause 63 ltac:(lia))) by (by rewrite Z.div_small by lia).
    - apply Z.eqb_neq. intros E. apply (f_equal (fun z => Z.testbit z 63)) in E.
      rewrite Z.land_spec, Z.bits_0, Z.pow2_bits_true, andb_true_r in E by lia. apply Z.testbit_false in E; [|lia].
      assert (scause / 2 ^ 63 = 1) as Ed by (symmetry; apply (Z.div_unique scause (2 ^ 63) 1 (scause - 2 ^ 63)); lia).
      by rewrite Ed in E. }
  pose proof (Z.mod_pos_bound scause (2 ^ 63) ltac:(lia)) as Hm. set (n := scause mod 2 ^ 63) in *.
  unfold classify. fold n.
  assert (forall t f, match idx t n with Ok h => h = f n | Err e => e = Fault /\ f n = None end ->
    (h ← lift (idx t n); h ← lift (of_option Fault h); serve h stval scause) k =
    match f n with Some h => serve h stval scause k | None => Err Fault end) as Hgo.
  { intros t f H. unfold mbind, M_bind, lift. destruct (idx t n) as [h|e]; [subst h|destruct H as [-> ->]; done].
    by destruct (f n). }
  destruct (scause <? 2 ^ 63); cbn [negb].
  - apply (Hgo exc_table exc_class). apply table_lookup; [by_computation| |lia].
    intros i Hi. change (Z.of_nat (length exc_table)) with 16 in Hi. unfold exc_class.
    rewrite !bool_decide_eq_false_2, (proj2 (Z.eqb_neq i 8)) by (lia || (rewrite !elem_of_cons, elem_of_nil; lia)). done.
  - apply (Hgo irq_table irq_class). apply table_lookup; [by_computation| |lia].
    intros i Hi. change (Z.of_nat (length irq_table)) with 12 in Hi. unfold irq_class.
    rewrite bool_decide_eq_false_2, (proj2 (Z.eqb_neq i 1)), (proj2 (Z.eqb_neq i 5)), (proj2 (Z.eqb_neq i 9))
      by (lia || (rewrite !elem_of_cons, elem_of_nil; lia)). done.
Qed.

(** An illegal instruction (cause 2) has no handler. *)
Lemma trap_dispatch_witness :
  interrupt_helper (fun _ : unit => TASK_RUNNING) (mret tt) (fun _ _ _ => mret tt) 0 2 tt = Err Fault /\
  interrupt_helper (fun _ : unit => TASK_RUNNING) (mret tt) (fun _ _ _ => mret tt) 0 (2 ^ 63 + 5) tt = Ok (tt, tt).
Proof.
  split; rewrite (trap_dispatch (fun _ : unit => TASK_RUNNING) (mret tt) (fun _ _ _ => mret tt)) by (done || lia); reflexivity.
Defined.

(** An idle processor, interrupted again and again. *)
Definition idle_cpu : sched := with_current MasterPid0 sample_idle.
Definition clock : nat -> Z := fun _ => 100.
Definition idle_timer : timer_st := mkTimer 0 0 1 (small_cache BWRITE_BACK ∅) idle_cpu.
Fixpoint idle_trace (n : nat) : timer_st :=
  match n with
  | O => idle_timer
  | S n' => match handle_irq_timer clock 10 (idle_trace n') with Ok (_, s) => s | Err _ => idle_trace n' end
  end.

Lemma idle_scheduler t : do_scheduler clock 10 (with_ticks t idle_cpu) = Ok (tt, with_ticks t idle_cpu).
Proof. reflexivity. Qed.
Lemma idle_trace_ok n :
  store_ok (tcache (idle_trace n)) /\ freq (idle_trace n) = 1 /\ 0 <= cnt (idle_trace n) < 100 /\
  exists t, tsched (idle_trace n) = with_ticks t idle_cpu.
Proof.
  induction n as [|n (Hst & Hf & Hc & [t Et])].
  - split; [apply small_cache_ok|]. split; [done|]. simpl. split; [lia|by exists 0%nat].
  - destruct (timer_tick clock 10 (idle_trace n) (with_ticks (S t) idle_cpu)) as (s' & E & Hst' & Eu & Ef & _ & Hif).
    { split; [done|lia]. }
    { rewrite Et. apply idle_scheduler. }
    cbn [idle_trace]. rewrite E. split; [done|]. split; [congruence|]. split; [|by exists (S t)].
    unfold period in Hif. rewrite Hf in Hif. case_decide as Hd; destruct Hif as [-> _]; [lia|].
    assert (cnt (idle_trace n) + 1 <> 1 * 100) by (intros H; rewrite H in Hd; by apply Hd). lia.
Qed.

Lemma timer_flushes_witness :
  exists i, Z.of_nat i < 100 /\ durable (tcache (idle_trace (S i))).
Proof.
  destruct (timer_flushes clock 10 idle_trace idle_trace) with (f := 1) as (i & Hi & _ & Hd & _).
  - intros i. destruct (idle_trace_ok i) as [Hst _]. by split.
  - intros i. destruct (idle_trace_ok i) as (_ & _ & _ & t & Et). rewrite Et. eexists. apply idle_scheduler.
  - intros i s' E. cbn [idle_trace]. by rewrite E.
  - lia.
  - simpl. lia.
  - intros i _. apply (idle_trace_ok i).
  - exists i. split; [exact Hi|exact Hd].
Defined.
