(* ===== verification/Smp.v ===== *)
(** * Several harts (kernel/smp/smp.c, arch/riscv/kernel/entry.S)

    The lock of the whole kernel: every trap takes it before [interrupt_helper] and
    [ret_from_exception] releases it.  The other files model kernel operations one
    after the other; this file shows that the lock makes them run that way. *)
From S2P Require Import Prelude.

(** ** The lock word *)

(** [amoswap.w]: the old value and the new contents. *)
Definition atomic_swap (val mem : Z) : Z * Z := (mem, u32 val).
(** One turn of the loop of [lock_kernel]: whether the loop ends. *)
Definition lock_kernel_iter (lock : Z) : bool * Z :=
  let '(old, lock) := atomic_swap 1 lock in (old =? 0, lock).
Definition unlock_kernel (lock : Z) : Z := (atomic_swap 0 lock).2.
Definition smp_init (lock : Z) : Z := unlock_kernel lock.

(** The mask [wakeup_other_hart] sends an interrupt to. *)
Definition wakeup_mask (hartid : Z) : Z := u64 (Z.lnot (u64 (Z.shiftl 1 hartid))).

(** ** Harts *)

Inductive hart_pc := Outside | Spinning | InKernel.
#[global] Instance hart_pc_eq_dec : EqDecision hart_pc.
Proof. solve_decision. Defined.

(** A step of hart [i]: a trap, a turn of the spin loop, the return to the program. *)
Inductive hart_event := Trap (i : nat) | Spin (i : nat) | Return (i : nat).
(** What happens to critical sections. *)
Inductive section_event := Enter (i : nat) | Leave (i : nat).

Record smp := mkSmp { klock : Z; pcs : list hart_pc; log : list section_event }.

(** A trap and the return follow entry.S, which takes the lock before
    [interrupt_helper] and releases it before the return.  The start of the kernel is
    before these steps: there [main] runs on both harts without the lock. *)
Definition smp_step (e : hart_event) (s : smp) : option smp :=
  match e with
  | Trap i => if decide (pcs s !! i = Some Outside) then Some (mkSmp (klock s) (<[i := Spinning]> (pcs s)) (log s)) else None
  | Spin i =>
    if decide (pcs s !! i = Some Spinning) then
      let '(got, l) := lock_kernel_iter (klock s) in
      Some (if got : bool then mkSmp l (<[i := InKernel]> (pcs s)) (log s ++ [Enter i]) else mkSmp l (pcs s) (log s))
    else None
  | Return i =>
    if decide (pcs s !! i = Some InKernel) then
      Some (mkSmp (unlock_kernel (klock s)) (<[i := Outside]> (pcs s)) (log s ++ [Leave i]))
    else None
  end.
Fixpoint smp_run (es : list hart_event) (s : smp) : option smp :=
  match es with [] => Some s | e :: es' => s ← smp_step e s; smp_run es' s end.

(** [n] harts after [smp_init]. *)
Definition smp_start (n : nat) (lock : Z) : smp := mkSmp (smp_init lock) (replicate n Outside) [].

(** ** Facts *)

(** Sections one after the other; [open]: the hart whose section is not closed. *)
Inductive serial : list section_event -> option nat -> Prop :=
| serial_nil : serial [] None
| serial_enter l i : serial l None -> serial (l ++ [Enter i]) (Some i)
| serial_leave l i : serial l (Some i) -> serial (l ++ [Leave i]) None.

Definition smp_inv (s : smp) : Prop :=
  exists o, serial (log s) o /\ klock s = (match o with None => 0 | Some _ => 1 end) /\
    forall i, pcs s !! i = Some InKernel <-> o = Some i.

Lemma smp_step_inv e s s' : smp_inv s -> smp_step e s = Some s' -> smp_inv s'.
Proof.
  intros (o & Hs & Hl & Hp) E. destruct e as [i|i|i]; simpl in E; case_decide as Hi; try done.
  - injection E as <-. exists o. split; [done|]. split; [done|]. intros j. cbn. rewrite list_lookup_insert_Some, <- Hp.
    split; [intros [(_ & ? & _)|[_ ?]]; done|]. intros Hj. right. split; [|done]. intros <-. congruence.
  - unfold lock_kernel_iter, atomic_swap in E. rewrite Hl in E. destruct o as [j|]; simplify_eq/=.
    + exists (Some j). done.
    + exists (Some i). split; [by constructor|]. split; [done|]. intros j. cbn. rewrite list_lookup_insert_Some, Hp.
      split; [intros [(-> & _)|[_ ?]]; done|]. intros [= <-]. left. split; [done|]. split; [done|]. by eapply lookup_lt_Some.
  - injection E as <-. assert (o = Some i) as -> by (by apply Hp). exists None. split; [by constructor|]. split; [done|].
    intros j. cbn. rewrite list_lookup_insert_Some, Hp. split; [intros [(_ & ? & _)|[? ?]]; congruence|done].
Qed.
Lemma smp_run_inv es s s' : smp_inv s -> smp_run es s = Some s' -> smp_inv s'.
Proof.
  revert s; induction es as [|e es IH]; intros s Hi E; simpl in E; [by simplify_eq|].
  destruct (smp_step e s) as [s1|] eqn:E1; [|done]. simpl in E. eapply IH; [by eapply smp_step_inv|done].
Qed.
Lemma smp_start_inv n lock : smp_inv (smp_start n lock).
Proof.
  exists None. split; [constructor|]. split; [done|]. intros i. cbn. split; [intros [? _]%lookup_replicate; done|done].
Qed.

(** ** Results *)

(** C24. In every interleaving of the harts at most one is inside the kernel, and a hart that
    leaves lets another one in. *)
Theorem kernel_serial (n : nat) (lock : Z) (es : list hart_event) (s : smp) :
  smp_run es (smp_start n lock) = Some s ->
  (exists o, serial (log s) o) /\
  (forall i j, pcs s !! i = Some InKernel -> pcs s !! j = Some InKernel -> i = j) /\
  (forall i, pcs s !! i = Some Spinning ->
     (exists s', smp_step (Spin i) s = Some s' /\ pcs s' !! i = Some InKernel) \/
     (exists j s1 s2, pcs s !! j = Some InKernel /\ smp_step (Return j) s = Some s1 /\ smp_step (Spin i) s1 = Some s2 /\
        pcs s2 !! i = Some InKernel)).
Proof.
  intros E. destruct (smp_run_inv _ _ _ (smp_start_inv n lock) E) as (o & Hs & Hl & Hp). split; [by exists o|]. split.
  - intros i j Hi%Hp Hj%Hp. congruence.
  - intros i Hi. pose proof (lookup_lt_Some _ _ _ Hi) as Hlt. destruct o as [j|].
    + right. assert (pcs s !! j = Some InKernel) as Hj by (by apply Hp). assert (j <> i) as Hne by congruence.
      exists j. eexists _, _. split; [done|]. simpl. rewrite decide_True by done. split; [done|]. cbn.
      rewrite list_lookup_insert_ne by done. rewrite decide_True by done.
      split; [done|]. change (u32 0 =? 0) with true. cbn [pcs].
      by rewrite list_lookup_insert_eq by (by rewrite length_insert).
    + left. simpl. rewrite decide_True by done. unfold lock_kernel_iter, atomic_swap. rewrite Hl. eexists. split; [done|]. change (0 =? 0) with true. cbn [pcs].
      by rewrite list_lookup_insert_eq.
Qed.

(** Two harts trap at once; the second waits until the first has left. *)
Lemma kernel_serial_witness :
  exists s, smp_run [Trap 0; Trap 1; Spin 1; Spin 0; Spin 0; Return 1; Spin 0; Trap 1] (smp_start 2 7) = Some s /\
    log s = [Enter 1; Leave 1; Enter 0] /\ pcs s = [InKernel; Spinning] /\
    forall i j, pcs s !! i = Some InKernel -> pcs s !! j = Some InKernel -> i = j.
Proof.
  eexists. split; [reflexivity|]. split; [reflexivity|]. split; [reflexivity|].
  apply (kernel_serial 2 7 [Trap 0; Trap 1; Spin 1; Spin 0; Spin 0; Return 1; Spin 0; Trap 1]). reflexivity.
Defined.

(** The interrupt goes to every hart but the caller. *)
Lemma wakeup_mask_bits h i : 0 <= h < 64 -> 0 <= i < 64 -> Z.testbit (wakeup_mask h) i = negb (i =? h).
Proof.
  intros Hh Hi. unfold wakeup_mask. unfold u64 at 1. rewrite Z.mod_pow2_bits_low by lia. rewrite Z.lnot_spec by lia.
  rewrite Z.shiftl_1_l. rewrite u64_small by (split; [apply Z.pow_nonneg; lia|apply Z.pow_lt_mono_r; lia]).
  rewrite Z.pow2_bits_eqb by lia. by rewrite (Z.eqb_sym h i).
Qed.
