(* ===== verification/Net.v ===== *)
(** * The network card (drivers/e1000.c, kernel/net/net.c)

    The rings of transmit and receive descriptors, their buffers and the registers
    of the card that the driver uses.  [dev_send] and [dev_recv] are what the card
    does by its data sheet; they are not kernel code.  A packet or buffer argument
    is the list of the bytes from the pointer on; [check_uva_mem], which brings the
    pages of the argument into memory, leaves them as they are.  The flushes of the
    data cache have no counterpart. *)
From S2P Require Import Prelude DList CString Sched.

(** ** State *)

Definition TXDESCS : nat := 64.
Definition RXDESCS : nat := 64.
Definition TX_PKT_SIZE : Z := 2048.
Definition RX_PKT_SIZE : Z := 2048.
Definition E1000_RXD_STAT_DD : Z := 0x01.
Definition E1000_RXD_STAT_EOP : Z := 0x02.
Definition E1000_TXD_CMD_EOP : Z := 0x01.
Definition E1000_TXD_CMD_RS : Z := 0x08.
Definition E1000_TXD_STAT_DD : Z := 0x01.
Definition E1000_ICR_TXQE : Z := 0x02.
Definition E1000_ICR_RXDMT0 : Z := 0x10.
Definition E1000_TCTL_EN : Z := 0x02.
Definition E1000_TCTL_PSP : Z := 0x08.
Definition E1000_RCTL_EN : Z := 0x02.
Definition E1000_RCTL_BAM : Z := 0x8000.
Definition E1000_RCTL_SZ_2048 : Z := 0.
Definition E1000_RAH_AV : Z := 0x80000000.

(** [addr]: the number of the packet buffer the descriptor points to. *)
Record e1000_tx_desc := mkTx { tx_addr : nat; tx_length : Z; tx_cmd : Z; tx_status : Z }.
Record e1000_rx_desc := mkRx { rx_addr : nat; rx_length : Z; rx_csum : Z; rx_status : Z; rx_errors : Z; rx_special : Z }.

(** Registers that are only written, in the order the driver writes them. *)
Record base_regs := mkBase { TDBAL : Z; TDBAH : Z; TDLEN : Z; RAL : Z; RAH : Z; RDBAL : Z; RDBAH : Z; RDLEN : Z }.

Record net := mkNet {
  tx_desc_array : list e1000_tx_desc; tx_pkt_buffer : list (list Z);
  rx_desc_array : list e1000_rx_desc; rx_pkt_buffer : list (list Z);
  TDH : nat; TDT : nat; RDH : nat; RDT : nat; TCTL : Z; RCTL : Z; IMS : Z; ICR : Z;
  bases : base_regs;
  wire : list (list Z);   (* what the card has sent *)
  nsched : sched
}.
Definition with_txd v s := mkNet v (tx_pkt_buffer s) (rx_desc_array s) (rx_pkt_buffer s) (TDH s) (TDT s) (RDH s) (RDT s) (TCTL s) (RCTL s) (IMS s) (ICR s) (bases s) (wire s) (nsched s).
Definition with_txb v s := mkNet (tx_desc_array s) v (rx_desc_array s) (rx_pkt_buffer s) (TDH s) (TDT s) (RDH s) (RDT s) (TCTL s) (RCTL s) (IMS s) (ICR s) (bases s) (wire s) (nsched s).
Definition with_rxd v s := mkNet (tx_desc_array s) (tx_pkt_buffer s) v (rx_pkt_buffer s) (TDH s) (TDT s) (RDH s) (RDT s) (TCTL s) (RCTL s) (IMS s) (ICR s) (bases s) (wire s) (nsched s).
Definition with_rxb v s := mkNet (tx_desc_array s) (tx_pkt_buffer s) (rx_desc_array s) v (TDH s) (TDT s) (RDH s) (RDT s) (TCTL s) (RCTL s) (IMS s) (ICR s) (bases s) (wire s) (nsched s).
Definition with_tx_regs h t c s := mkNet (tx_desc_array s) (tx_pkt_buffer s) (rx_desc_array s) (rx_pkt_buffer s) h t (RDH s) (RDT s) c (RCTL s) (IMS s) (ICR s) (bases s) (wire s) (nsched s).
Definition with_rx_regs h t c s := mkNet (tx_desc_array s) (tx_pkt_buffer s) (rx_desc_array s) (rx_pkt_buffer s) (TDH s) (TDT s) h t (TCTL s) c (IMS s) (ICR s) (bases s) (wire s) (nsched s).
Definition with_irq m i s := mkNet (tx_desc_array s) (tx_pkt_buffer s) (rx_desc_array s) (rx_pkt_buffer s) (TDH s) (TDT s) (RDH s) (RDT s) (TCTL s) (RCTL s) m i (bases s) (wire s) (nsched s).
Definition with_bases v s := mkNet (tx_desc_array s) (tx_pkt_buffer s) (rx_desc_array s) (rx_pkt_buffer s) (TDH s) (TDT s) (RDH s) (RDT s) (TCTL s) (RCTL s) (IMS s) (ICR s) v (wire s) (nsched s).
Definition with_wire v s := mkNet (tx_desc_array s) (tx_pkt_buffer s) (rx_desc_array s) (rx_pkt_buffer s) (TDH s) (TDT s) (RDH s) (RDT s) (TCTL s) (RCTL s) (IMS s) (ICR s) (bases s) v (nsched s).
Definition with_nsched v s := mkNet (tx_desc_array s) (tx_pkt_buffer s) (rx_desc_array s) (rx_pkt_buffer s) (TDH s) (TDT s) (RDH s) (RDT s) (TCTL s) (RCTL s) (IMS s) (ICR s) (bases s) (wire s) v.

Definition on_nsched {A} (m : M sched A) : M net A := zoom nsched with_nsched m.
Definition at_idx {A} (l : list A) (i : nat) : M net A := lift (of_option Fault (l !! i)).

(** ** Initialisation *)

(** The card clears [ICR] when it is read, so that the loop reads it at most twice. *)
Definition e1000_reset : M net unit :=
  modify (fun s => with_rx_regs 0 0 0 s);;
  modify (fun s => with_tx_regs 0 0 0 s);;
  modify (fun s => with_irq 0 0 s).

Section Setup.
(** Where the two arrays of descriptors are, as physical addresses. *)
Context (tx_desc_base rx_desc_base : Z).

Definition enetaddr : list Z := [0x00; 0x0a; 0x35; 0x00; 0x1e; 0x53].
Definition sizeof_tx_desc : Z := 16.
Definition sizeof_rx_desc : Z := 16.
(** A little-endian number in memory. *)
Definition little_endian (l : list Z) : Z := foldr (fun b acc => b + 256 * acc) 0 l.

Definition e1000_configure_tx : M net unit :=
  modify (with_txd (map (fun i => mkTx i 0 E1000_TXD_CMD_RS E1000_TXD_STAT_DD) (seq 0 TXDESCS)));;
  modify (fun s => with_bases (mkBase (Z.land tx_desc_base (2 ^ 32 - 1)) (u32 (Z.shiftr tx_desc_base 32))
    (Z.of_nat TXDESCS * sizeof_tx_desc) (RAL (bases s)) (RAH (bases s))
    (RDBAL (bases s)) (RDBAH (bases s)) (RDLEN (bases s))) s);;
  modify (fun s => with_tx_regs 0 0 (TCTL s) s);;
  let tctl_val := Z.lor (Z.lor (Z.lor E1000_TCTL_EN E1000_TCTL_PSP) (Z.shiftl 0x10 4)) (Z.shiftl 0x40 12) in
  modify (fun s => with_tx_regs (TDH s) (TDT s) tctl_val s).
Definition e1000_configure_rx : M net unit :=
  modify (fun s => with_bases (mkBase (TDBAL (bases s)) (TDBAH (bases s)) (TDLEN (bases s))
    (little_endian (take 4 enetaddr)) (Z.lor (little_endian (drop 4 enetaddr)) E1000_RAH_AV)
    (RDBAL (bases s)) (RDBAH (bases s)) (RDLEN (bases s))) s);;
  modify (with_rxd (map (fun i => mkRx i 0 0 0 0 0) (seq 0 RXDESCS)));;
  modify (fun s => with_bases (mkBase (TDBAL (bases s)) (TDBAH (bases s)) (TDLEN (bases s)) (RAL (bases s)) (RAH (bases s))
    (Z.land rx_desc_base (2 ^ 32 - 1)) (u32 (Z.shiftr rx_desc_base 32)) (Z.of_nat TXDESCS * sizeof_rx_desc)) s);;
  modify (fun s => with_rx_regs 0 (RXDESCS - 1) (RCTL s) s);;
  let rctl_val := Z.lor (Z.lor E1000_RCTL_EN E1000_RCTL_BAM) E1000_RCTL_SZ_2048 in
  modify (fun s => with_rx_regs (RDH s) (RDT s) rctl_val s);;
  modify (fun s => with_irq (Z.lor (IMS s) E1000_ICR_RXDMT0) (ICR s) s).
Definition e1000_init : M net unit := e1000_reset;; e1000_configure_tx;; e1000_configure_rx.
End Setup.

(** ** Sending *)

Section Clock.
Context (rdtime : nat -> Z) (time_base : Z).

(** [do_block(&current_running->list, &queue); do_scheduler();] *)
Definition wait_on (q : laddr) : M net unit :=
  c ← on_nsched (gets current_running);
  on_nsched (do_block (PcbList c) q);;
  on_nsched (do_scheduler rdtime time_base).

(** Where a sender is: waiting for descriptor [index], or done. *)
Inductive tx_state := TxWait (index : nat) | TxDone (transmit_len : Z).

(** From the test of descriptor [index] on: a blocked process comes back to this test
    with the same [index]. *)
Definition transmit_at (index : nat) (txpacket : list Z) (length : Z) : M net tx_state :=
  t ← gets tx_desc_array;
  d ← at_idx t index;
  if Z.land (tx_status d) E1000_TXD_STAT_DD =? 0 then
    ims_val ← gets IMS;
    (if Z.land ims_val E1000_ICR_TXQE =? 0 then modify (fun s => with_irq (Z.lor (IMS s) E1000_ICR_TXQE) (ICR s) s) else mret tt);;
    wait_on SendQ;;
    mret (TxWait index)
  else
    let transmit_len := if length >? TX_PKT_SIZE then TX_PKT_SIZE else length in
    let cmd := if length >? TX_PKT_SIZE then E1000_TXD_CMD_RS else Z.lor E1000_TXD_CMD_RS E1000_TXD_CMD_EOP in
    modify (with_txd (<[index := mkTx (tx_addr d) (u16 transmit_len) cmd 0]> t));;
    b ← gets tx_pkt_buffer;
    buf ← at_idx b (tx_addr d);
    v ← lift (memcpy buf txpacket (Z.to_nat (u32 transmit_len)));
    modify (with_txb (<[tx_addr d := v]> b));;
    modify (fun s => with_tx_regs (TDH s) ((index + 1) mod TXDESCS) (TCTL s) s);;
    mret (TxDone transmit_len).
Definition e1000_transmit (txpacket : list Z) (length : Z) : M net tx_state :=
  index ← gets TDT; transmit_at index txpacket length.
Definition do_net_send (txpacket : list Z) (length : Z) : M net tx_state := e1000_transmit txpacket length.

(** The same packet [pkt_num] times; a blocked sender waits with [left] packets to go
    and the length sent so far. *)
Inductive multi_state := MultiWait (index left : nat) (total : Z) | MultiDone (total : Z).
Fixpoint multisend_loop (n : nat) (txbuffer : list Z) (pkt_len total : Z) : M net multi_state :=
  match n with
  | O => mret (MultiDone total)
  | S n' =>
    r ← e1000_transmit txbuffer pkt_len;
    match r with
    | TxWait index => mret (MultiWait index n total)
    | TxDone l => multisend_loop n' txbuffer pkt_len (i32 (total + l))
    end
  end.
Definition do_net_multisend (txbuffer : list Z) (pkt_num pkt_len : Z) : M net multi_state :=
  multisend_loop (Z.to_nat pkt_num) txbuffer pkt_len 0.

(** ** Receiving *)

(** [mymemcpy]: words of eight bytes until the unsigned counter is zero. *)
Fixpoint mymemcpy_loop (fuel : nat) (dest src : list Z) (off : nat) (len : Z) : res (list Z) :=
  if len =? 0 then Ok dest else
  match fuel with
  | O => Err OutOfFuel
  | S fuel' =>
    if (off + 8 <=? length dest)%nat && (off + 8 <=? length src)%nat then
      mymemcpy_loop fuel' (take off dest ++ take 8 (drop off src) ++ drop (off + 8) dest) src (off + 8) (u32 (len - 8))
    else Err Fault
  end.
Definition mymemcpy (dest src : list Z) (len : Z) : res (list Z) := mymemcpy_loop (S (length dest)) dest src 0 (u32 len).

(** Where a receiver is: waiting for descriptor [index], or done. *)
Inductive poll_state := PollWait (index : nat) (poll_len : Z) (rxbuffer : list Z) | PollDone (poll_len : Z) (rxbuffer : list Z).

(** The descriptor is given back to the card. *)
Definition recycle_rx (index : nat) : M net unit :=
  t ← gets rx_desc_array;
  d ← at_idx t index;
  modify (with_rxd (<[index := mkRx (rx_addr d) 0 0 0 0 0]> t));;
  modify (fun s => with_rx_regs (RDH s) index (RCTL s) s).
Definition next_rx : M net nat := t ← gets RDT; mret ((t + 1) mod RXDESCS)%nat.

Fixpoint poll_from (fuel : nat) (index : nat) (poll_len : Z) (rxbuffer : list Z) : M net poll_state :=
  match fuel with
  | O => fail OutOfFuel
  | S fuel' =>
    t ← gets rx_desc_array;
    d ← at_idx t index;
    if Z.land (rx_status d) E1000_RXD_STAT_DD =? 0 then
      wait_on RecvQ;; mret (PollWait index poll_len rxbuffer)
    else
      b ← gets rx_pkt_buffer;
      buf ← at_idx b index;
      kind ← at_idx buf 14;
      if negb (kind =? 43) then
        recycle_rx index;; i ← next_rx; poll_from fuel' i poll_len rxbuffer
      else
        let poll_len := i32 (poll_len + rx_length d) in
        v ← lift (mymemcpy rxbuffer buf poll_len);
        recycle_rx index;;
        if Z.land (rx_status d) E1000_RXD_STAT_EOP =? 0 then i ← next_rx; poll_from fuel' i poll_len v
        else mret (PollDone poll_len v)
  end.
Definition e1000_poll (rxbuffer : list Z) : M net poll_state := i ← next_rx; poll_from (S RXDESCS) i 0 rxbuffer.

(** [do_net_recv] fills [rxbuffer] packet after packet and stores the length of each in
    [pkt_lens]; [done] is the part of the buffer already passed. *)
Inductive recv_state :=
| RecvWait (index left : nat) (poll_len : Z) (done rxbuffer pkt_lens : list Z) (recv_len : Z)
| RecvDone (recv_len : Z) (rxbuffer pkt_lens : list Z).
Fixpoint recv_loop (n : nat) (done rxbuffer pkt_lens : list Z) (recv_len : Z) : M net recv_state :=
  match n with
  | O => mret (RecvDone recv_len (done ++ rxbuffer) pkt_lens)
  | S n' =>
    r ← e1000_poll rxbuffer;
    match r with
    | PollWait index l v => mret (RecvWait index n l done v pkt_lens recv_len)
    | PollDone l v =>
      recv_loop n' (done ++ take (Z.to_nat l) v) (drop (Z.to_nat l) v) (pkt_lens ++ [l]) (i32 (recv_len + l))
    end
  end.
Definition do_net_recv (rxbuffer : list Z) (pkt_num : Z) : M net recv_state :=
  recv_loop (Z.to_nat pkt_num) [] rxbuffer [] 0.

(** ** Interrupts *)

(** Reading [ICR] clears it. *)
Definition read_icr : M net Z := v ← gets ICR; modify (fun s => with_irq (IMS s) 0 s);; mret v.
Definition net_handle_irq : M net unit :=
  icr ← read_icr;
  ims ← gets IMS;
  (if negb (Z.land (Z.land icr E1000_ICR_TXQE) (Z.land ims E1000_ICR_TXQE) =? 0) then
     on_nsched (unblock_all SendQ);;
     modify (fun s => with_irq (Z.ldiff (IMS s) E1000_ICR_TXQE) (ICR s) s)
   else mret tt);;
  if negb (Z.land (Z.land icr E1000_ICR_RXDMT0) (Z.land ims E1000_ICR_RXDMT0) =? 0) then
    on_nsched (unblock_all RecvQ)
  else mret tt.
End Clock.

(** ** The card *)

(** It sends the descriptor at the head, unless head and tail agree. *)
Definition dev_send : M net unit :=
  h ← gets TDH; t ← gets TDT;
  if (h =? t)%nat then mret tt else
  ds ← gets tx_desc_array; d ← at_idx ds h;
  bs ← gets tx_pkt_buffer; b ← at_idx bs (tx_addr d);
  modify (fun s => with_wire (wire s ++ [take (Z.to_nat (tx_length d)) b]) s);;
  modify (with_txd (<[h := mkTx (tx_addr d) (tx_length d) (tx_cmd d)
    (if Z.land (tx_cmd d) E1000_TXD_CMD_RS =? 0 then tx_status d else Z.lor (tx_status d) E1000_TXD_STAT_DD)]> ds));;
  modify (fun s => with_tx_regs ((h + 1) mod TXDESCS) (TDT s) (TCTL s) s).
(** It stores a packet at the head of the receive ring; without room the packet is lost. *)
Definition dev_recv (p : list Z) : M net unit :=
  h ← gets RDH; t ← gets RDT;
  if (h =? t)%nat then mret tt else
  ds ← gets rx_desc_array; d ← at_idx ds h;
  bs ← gets rx_pkt_buffer; b ← at_idx bs (rx_addr d);
  modify (with_rxb (<[rx_addr d := p ++ drop (length p) b]> bs));;
  modify (with_rxd (<[h := mkRx (rx_addr d) (Z.of_nat (length p)) 0 (Z.lor E1000_RXD_STAT_DD E1000_RXD_STAT_EOP) 0 0]> ds));;
  modify (fun s => with_rx_regs ((h + 1) mod RXDESCS) (RDT s) (RCTL s) s).
