(* ===== verification/NetFacts.v ===== *)
(** * The network card: facts

    The transmit ring is a queue: what is submitted reaches the wire once and in
    order as long as fewer than [TXDESCS] packets are outstanding, and the ring is
    stuck for good when they are [TXDESCS].  The receive ring hands the packets of
    the protocol to the reader and drops the others. *)
From S2P Require Import Prelude DList CString Sched Net.

(** ** Positions of a ring *)

Definition slot (h k : nat) : nat := ((h + k) mod 64)%nat.

Lemma slot_lt h k : (slot h k < 64)%nat.
Proof. by apply Nat.mod_upper_bound. Qed.
Lemma slot_0 h : (h < 64)%nat -> slot h 0 = h.
Proof. intros H. unfold slot. rewrite Nat.add_0_r. by apply Nat.mod_small. Qed.
Lemma slot_add h j k : slot (slot h j) k = slot h (j + k).
Proof. unfold slot. rewrite Nat.Div0.add_mod_idemp_l. f_equal. lia. Qed.
Lemma slot_full h : (h < 64)%nat -> slot h 64 = h.
Proof.
  intros H. unfold slot. rewrite <- (Nat.mod_small h 64) at 2 by done.
  replace (h + 64)%nat with (h + 1 * 64)%nat by lia. apply Nat.Div0.mod_add.
Qed.
Lemma slot_next h k : ((slot h k + 1) mod 64)%nat = slot h (k + 1).
Proof. apply (slot_add h k 1). Qed.
Lemma ring_slot_inj h j k : (j < 64)%nat -> (k < 64)%nat -> slot h j = slot h k -> j = k.
Proof.
  unfold slot. intros Hj Hk E.
  pose proof (Nat.div_mod_eq (h + j) 64). pose proof (Nat.div_mod_eq (h + k) 64). lia.
Qed.

Lemma ring_slot_inj_S h j k : (j < 64)%nat -> (k < 64)%nat -> slot h (1 + j) = slot h (1 + k) -> j = k.
Proof. rewrite <- !slot_add. apply ring_slot_inj. Qed.

Lemma at_idx_ok {A} (l : list A) i x s : l !! i = Some x -> at_idx l i s = Ok (x, s).
Proof. intros E. unfold at_idx, lift. by rewrite E. Qed.

(** ** The transmit ring *)

(** [q]: the packets between head and tail, oldest first. *)
Record tx_inv (s : net) (q : list (list Z)) : Prop := {
  ti_descs : length (tx_desc_array s) = TXDESCS;
  ti_bufs : length (tx_pkt_buffer s) = TXDESCS;
  ti_size : Forall (fun b => length b = Z.to_nat TX_PKT_SIZE) (tx_pkt_buffer s);
  ti_head : (TDH s < 64)%nat;
  ti_tail : TDT s = slot (TDH s) (length q);
  ti_room : (length q <= 64)%nat;
  ti_addr : forall i d, tx_desc_array s !! i = Some d -> tx_addr d = i;
  ti_full : forall k p, q !! k = Some p -> exists d b,
    tx_desc_array s !! slot (TDH s) k = Some d /\ tx_pkt_buffer s !! slot (TDH s) k = Some b /\
    tx_length d = Z.of_nat (length p) /\ take (length p) b = p /\
    tx_status d = 0 /\ Z.land (tx_cmd d) E1000_TXD_CMD_RS <> 0;
  ti_free : forall k d, (length q <= k < 64)%nat ->
    tx_desc_array s !! slot (TDH s) k = Some d -> Z.land (tx_status d) E1000_TXD_STAT_DD <> 0
}.

Definition fresh_tx : list e1000_tx_desc := map (fun i => mkTx i 0 E1000_TXD_CMD_RS E1000_TXD_STAT_DD) (seq 0 TXDESCS).
Definition fresh_rx : list e1000_rx_desc := map (fun i => mkRx i 0 0 0 0 0) (seq 0 RXDESCS).

Lemma init_state bt br s :
  exists s', e1000_init bt br s = Ok (tt, s') /\
    tx_desc_array s' = fresh_tx /\ tx_pkt_buffer s' = tx_pkt_buffer s /\ TDH s' = 0%nat /\ TDT s' = 0%nat /\
    rx_desc_array s' = fresh_rx /\ rx_pkt_buffer s' = rx_pkt_buffer s /\ RDH s' = 0%nat /\ RDT s' = 63%nat /\
    IMS s' = E1000_ICR_RXDMT0 /\ wire s' = wire s /\ nsched s' = nsched s.
Proof.
  destruct s as [txd txb rxd rxb tdh tdt rdh rdt tc rc im ic bs w ns].
  unfold e1000_init, e1000_reset, e1000_configure_tx, e1000_configure_rx. fold fresh_tx fresh_rx.
  generalize fresh_tx fresh_rx. intros ft fr. cbv zeta.
  rewrite !bind_bind, !modify_bind, !bind_bind, !modify_bind, !bind_bind, !modify_bind.
  eexists. split; [reflexivity|].
  cbn -[Z.pow Z.lor Z.land]. repeat split.
Qed.

Lemma tx_init bt br s :
  length (tx_pkt_buffer s) = TXDESCS -> Forall (fun b => length b = Z.to_nat TX_PKT_SIZE) (tx_pkt_buffer s) ->
  exists s', e1000_init bt br s = Ok (tt, s') /\ tx_inv s' [] /\ wire s' = wire s /\ IMS s' = E1000_ICR_RXDMT0.
Proof.
  intros Hb Hs. destruct (init_state bt br s) as (s' & E & Ed & Eb & Eh & Et & _ & _ & _ & _ & Em & Ew & _).
  exists s'. split; [done|]. split; [|done].
  assert (forall i d, fresh_tx !! i = Some d -> d = mkTx i 0 E1000_TXD_CMD_RS E1000_TXD_STAT_DD) as Hd.
  { intros i d (j & -> & (-> & _)%lookup_seq)%list_lookup_fmap_Some. done. }
  constructor; rewrite ?Ed, ?Eb, ?Eh, ?Et; [done|done|done|lia|done|simpl; lia| |done|].
  - by intros i d ->%Hd.
  - intros k d _ ->%Hd. done.
Qed.

Section Clock.
Context (rdtime : nat -> Z) (time_base : Z).

Lemma transmit_ok s q p :
  tx_inv s q -> (length q < 64)%nat -> (length p <= 2048)%nat ->
  exists s', e1000_transmit rdtime time_base p (Z.of_nat (length p)) s = Ok (TxDone (Z.of_nat (length p)), s') /\
    tx_inv s' (q ++ [p]) /\ wire s' = wire s /\ IMS s' = IMS s.
Proof.
  intros Hi Hq Hp. pose proof Hi as [Hd Hb Hs Hh Ht Hr Ha Hf He].
  assert (slot (TDH s) (length q) < 64)%nat as Hlt by apply slot_lt.
  destruct (lookup_lt_is_Some_2 (tx_desc_array s) (TDT s)) as [d Ed]; [unfold TXDESCS in *; lia|].
  destruct (lookup_lt_is_Some_2 (tx_pkt_buffer s) (TDT s)) as [b Eb]; [unfold TXDESCS in *; lia|].
  pose proof (Ha _ _ Ed) as Ead.
  pose proof (proj1 (Forall_lookup _ _) Hs _ _ Eb) as Hlb. cbv beta in Hlb. change (Z.to_nat TX_PKT_SIZE) with 2048%nat in Hlb.
  assert (Z.land (tx_status d) E1000_TXD_STAT_DD <> 0) as Hst by (eapply (He (length q)); [lia|by rewrite <- Ht]).
  assert ((Z.of_nat (length p) >? TX_PKT_SIZE) = false) as Hsz by (unfold TX_PKT_SIZE; rewrite Z.gtb_ltb; apply Z.ltb_ge; lia).
  set (d' := mkTx (tx_addr d) (Z.of_nat (length p)) (Z.lor E1000_TXD_CMD_RS E1000_TXD_CMD_EOP) 0).
  set (b' := p ++ drop (length p) b).
  eexists. split.
  { unfold e1000_transmit, transmit_at. rewrite gets_bind.
    rewrite gets_bind, (bind_ok _ _ _ _ _ (at_idx_ok _ _ _ _ Ed)).
    rewrite (proj2 (Z.eqb_neq _ _) Hst), Hsz. cbv iota zeta.
    rewrite modify_bind, gets_bind. cbn [tx_pkt_buffer with_txd]. rewrite Ead, (bind_ok _ _ _ _ _ (at_idx_ok _ _ _ _ Eb)).
    rewrite u32_small, Nat2Z.id by lia.
    rewrite (bind_ok _ _ _ _ _ (lift_ok _ _ _ (memcpy_ok b p (length p) ltac:(lia) ltac:(lia)))), firstn_all.
    unfold u16. rewrite Z.mod_small by lia. reflexivity. }
  assert (length b' = 2048%nat) as Hb' by (unfold b'; rewrite length_app, length_drop; lia).
  split; [|done].
  constructor; cbn -[Nat.modulo TXDESCS Z.of_nat Z.to_nat];
    rewrite ?length_insert, ?length_app; try done.
  - apply Forall_insert; [done|]. unfold b' in Hb'. rewrite Hb'. done.
  - rewrite Ht. change TXDESCS with 64%nat. by rewrite slot_next.
  - simpl; lia.
  - intros i e [(<- & <- & _)|(_ & ?)]%list_lookup_insert_Some; [done|eauto].
  - intros k x [Ek|(Hk & Ek)]%lookup_app_Some.
    + destruct (Hf k x Ek) as (e & c & E1 & E2 & E3). apply lookup_lt_Some in Ek.
      exists e, c. rewrite !list_lookup_insert_ne; [done| |];
        rewrite Ht; intros ?%ring_slot_inj; lia.
    + assert (k = length q) as -> by (apply lookup_lt_Some in Ek; simpl in Ek; lia).
      rewrite Nat.sub_diag in Ek. simplify_eq/=. exists d', b'. rewrite <- Ht.
      rewrite !list_lookup_insert_eq by (unfold TXDESCS in *; lia).
      split; [by rewrite <- Ead|]. split; [done|]. split; [done|]. split; [|done].
      unfold b'. by rewrite take_app_length.
  - intros k e Hk. rewrite list_lookup_insert_ne; [apply He; simpl in *; lia|].
    rewrite Ht. intros ?%ring_slot_inj; simpl in *; lia.
Qed.

Lemma card_ok s p q :
  tx_inv s (p :: q) -> (length (p :: q) < 64)%nat ->
  exists s', dev_send s = Ok (tt, s') /\ tx_inv s' q /\ wire s' = wire s ++ [p].
Proof.
  intros Hi Hq. pose proof Hi as [Hd Hb Hs Hh Ht Hr Ha Hf He].
  destruct (Hf 0%nat p eq_refl) as (d & b & Ed & Eb & Hl & Hp & Hst & Hrs).
  rewrite slot_0 in Ed, Eb by done. pose proof (Ha _ _ Ed) as Ead.
  assert (TDH s <> TDT s) as Hne.
  { rewrite Ht, <- (slot_0 (TDH s)) at 1 by done. intros ?%ring_slot_inj; simpl in *; lia. }
  eexists. split.
  { unfold dev_send. rewrite gets_bind, gets_bind.
    rewrite (proj2 (Nat.eqb_neq _ _) Hne). cbv iota.
    rewrite gets_bind, (bind_ok _ _ _ _ _ (at_idx_ok _ _ _ _ Ed)).
    rewrite gets_bind, Ead, (bind_ok _ _ _ _ _ (at_idx_ok _ _ _ _ Eb)).
    rewrite Hl, Nat2Z.id, Hp, (proj2 (Z.eqb_neq _ _) Hrs). reflexivity. }
  change ((TDH s + 1) mod TXDESCS)%nat with (slot (TDH s) 1).
  split; [|done].
  constructor; cbn -[Nat.modulo TXDESCS slot]; rewrite ?length_insert; try done.
  - apply slot_lt.
  - rewrite Ht, slot_add. done.
  - simpl in *; lia.
  - intros i e [(<- & <- & _)|(_ & ?)]%list_lookup_insert_Some; [done|eauto].
  - intros k x Ek. destruct (Hf (S k) x Ek) as (e & c & E1 & E2 & E3).
    exists e, c. rewrite slot_add. apply lookup_lt_Some in Ek. rewrite list_lookup_insert_ne; [done|].
    rewrite <- (slot_0 (TDH s)) at 1 by done. intros ?%ring_slot_inj; simpl in *; lia.
  - intros k e Hk. rewrite slot_add.
    intros [(_ & <- & _)|(Hx & E1)]%list_lookup_insert_Some.
    + simpl. rewrite Hst. done.
    + destruct (decide (k = 63%nat)) as [->|]; [by rewrite slot_full in Hx|].
      eapply (He (1 + k)%nat); [simpl in *; lia|done].
Qed.

Lemma card_idle s : TDH s = TDT s -> dev_send s = Ok (tt, s).
Proof.
  intros E. unfold dev_send. rewrite gets_bind, gets_bind.
  by rewrite E, Nat.eqb_refl.
Qed.

(** *** Runs of senders and the card *)

Inductive tx_event := Submit (p : list Z) | Card.
Fixpoint tx_run (evs : list tx_event) : M net (list tx_state) :=
  match evs with
  | [] => mret []
  | Submit p :: evs' => r ← do_net_send rdtime time_base p (Z.of_nat (length p)); rs ← tx_run evs'; mret (r :: rs)
  | Card :: evs' => dev_send;; tx_run evs'
  end.
Definition submitted (evs : list tx_event) : list (list Z) := omap (fun e => match e with Submit p => Some p | Card => None end) evs.
(** Fewer than [TXDESCS] packets outstanding at all times, [n] of them at the start. *)
Fixpoint uncrowded (n : nat) (evs : list tx_event) : bool :=
  match evs with
  | [] => true
  | Submit _ :: evs' => (n + 1 <? TXDESCS)%nat && uncrowded (n + 1) evs'
  | Card :: evs' => uncrowded (n - 1) evs'
  end.
Definition all_sent (evs : list tx_event) : list tx_state := map (fun p => TxDone (Z.of_nat (length p))) (submitted evs).

Lemma tx_run_ok evs : forall s q,
  tx_inv s q -> (length q < 64)%nat -> uncrowded (length q) evs = true -> Forall (fun p => (length p <= 2048)%nat) (submitted evs) ->
  exists s' q', tx_run evs s = Ok (all_sent evs, s') /\ tx_inv s' q' /\ (length q' < 64)%nat /\
    wire s' ++ q' = wire s ++ q ++ submitted evs.
Proof.
  induction evs as [|[p|] evs IH]; intros s q Hi Hl Hu Hp; simpl in Hu.
  - exists s, q. simpl. by rewrite app_nil_r.
  - apply andb_true_iff in Hu as [Hn%Nat.ltb_lt Hu]. change TXDESCS with 64%nat in Hn. inversion Hp; subst.
    destruct (transmit_ok s q p Hi ltac:(lia) ltac:(done)) as (t & E & Ht & Hw & _).
    destruct (IH t (q ++ [p]) Ht) as (s' & q' & E' & Hi' & Hl' & Hw'); [rewrite length_app; simpl; lia|by rewrite length_app|done|].
    exists s', q'. split; [|split; [done|split; [done|]]].
    + cbn [tx_run]. unfold do_net_send. rewrite (bind_ok _ _ _ _ _ E), (bind_ok _ _ _ _ _ E'). done.
    + rewrite Hw', Hw, <- (assoc_L (++)). done.
  - destruct q as [|p q].
    + destruct (IH s [] Hi Hl Hu Hp) as (s' & q' & E' & Hi'). exists s', q'. split; [|done].
      cbn [tx_run]. rewrite (bind_ok dev_send _ s tt s); [done|]. apply card_idle. rewrite (ti_tail _ _ Hi). symmetry. apply slot_0, Hi.
    + destruct (card_ok s p q Hi Hl) as (t & E & Ht & Hw).
      destruct (IH t q Ht) as (s' & q' & E' & Hi' & Hl' & Hw'); [simpl in *; lia| |done|].
      { simpl in Hu. by rewrite Nat.sub_0_r in Hu. }
      exists s', q'. split; [|split; [done|split; [done|]]].
      * cbn [tx_run]. by rewrite (bind_ok _ _ _ _ _ E).
      * rewrite Hw', Hw, <- (assoc_L (++)). done.
Qed.

Lemma drain_ok q : forall s, tx_inv s q -> (length q < 64)%nat ->
  exists s', tx_run (replicate (length q) Card) s = Ok ([], s') /\ wire s' = wire s ++ q.
Proof.
  induction q as [|p q IH]; intros s Hi Hl.
  - exists s. by rewrite app_nil_r.
  - destruct (card_ok s p q Hi Hl) as (t & E & Ht & Hw).
    destruct (IH t Ht) as (s' & E' & Hw'); [simpl in *; lia|].
    exists s'. simpl. rewrite (bind_ok _ _ _ _ _ E), E', Hw', Hw, <- (assoc_L (++)). done.
Qed.

(** C18. The transmit ring is a queue: in every interleaving of senders, of packets of at
    most 2048 bytes, and card with fewer than 64 packets outstanding no sender blocks and the card sends exactly what was submitted,
    in order. *)
Theorem tx_fifo bt br s evs :
  length (tx_pkt_buffer s) = TXDESCS -> Forall (fun b => length b = Z.to_nat TX_PKT_SIZE) (tx_pkt_buffer s) ->
  uncrowded 0 evs = true -> Forall (fun p => (length p <= 2048)%nat) (submitted evs) ->
  exists s' n s'', (e1000_init bt br;; tx_run evs) s = Ok (all_sent evs, s') /\
    wire s' `prefix_of` wire s ++ submitted evs /\
    (n < TXDESCS)%nat /\ tx_run (replicate n Card) s' = Ok ([], s'') /\ wire s'' = wire s ++ submitted evs.
Proof.
  intros Hb Hs Hu Hp. destruct (tx_init bt br s Hb Hs) as (t & E & Ht & Hw & Hm).
  destruct (tx_run_ok evs t [] Ht ltac:(simpl; lia) Hu Hp) as (s' & q & E' & Hi & Hl & Hw').
  destruct (drain_ok q s' Hi Hl) as (s'' & E'' & Hw'').
  rewrite Hw in Hw'. exists s', (length q), s''. rewrite (bind_ok _ _ _ _ _ E). split; [done|].
  split; [by exists q|]. split; [done|]. split; [done|]. by rewrite Hw'', Hw'.
Qed.

Lemma submit_ok ps : forall s q, tx_inv s q -> (length q + length ps <= 64)%nat -> Forall (fun p => (length p <= 2048)%nat) ps ->
  exists s', tx_run (map Submit ps) s = Ok (map (fun p => TxDone (Z.of_nat (length p))) ps, s') /\
    tx_inv s' (q ++ ps) /\ wire s' = wire s /\ IMS s' = IMS s.
Proof.
  induction ps as [|p ps IH]; intros s q Hi Hl Hp.
  - exists s. by rewrite app_nil_r.
  - inversion Hp; subst. simpl in Hl. destruct (transmit_ok s q p Hi ltac:(lia) ltac:(done)) as (t & E & Ht & Hw & Hm).
    destruct (IH t (q ++ [p]) Ht) as (s' & E' & Hi' & Hw' & Hm'); [rewrite length_app; simpl; lia|done|].
    exists s'. rewrite <- (assoc_L (++)) in Hi'. split; [|split; [done|split; congruence]].
    cbn [tx_run map]. unfold do_net_send. rewrite (bind_ok _ _ _ _ _ E), (bind_ok _ _ _ _ _ E'). done.
Qed.

(** A full ring: the card does nothing and the next sender goes to wait. *)
Lemma full_stuck s q :
  tx_inv s q -> length q = 64%nat ->
  dev_send s = Ok (tt, s) /\
  (Z.land (IMS s) E1000_ICR_TXQE = 0 -> forall p len, e1000_transmit rdtime time_base p len s =
     (modify (fun s => with_irq (Z.lor (IMS s) E1000_ICR_TXQE) (ICR s) s);; wait_on rdtime time_base SendQ;; mret (TxWait (TDT s))) s).
Proof.
  intros Hi Hl. pose proof Hi as [Hd Hb Hs Hh Ht Hr Ha Hf He].
  rewrite Hl, slot_full in Ht by done. split; [by apply card_idle|]. intros Hm p len.
  destruct (lookup_lt_is_Some_2 q 0%nat ltac:(lia)) as [x Ex].
  destruct (Hf 0%nat x Ex) as (d & b & Ed & _ & _ & _ & Hst & _). rewrite slot_0 in Ed by done.
  unfold e1000_transmit, transmit_at. rewrite !gets_bind, Ht, (bind_ok _ _ _ _ _ (at_idx_ok _ _ _ _ Ed)), Hst.
  cbv [Z.land Z.eqb]. cbv iota. rewrite gets_bind. fold (Z.land (IMS s) E1000_ICR_TXQE). rewrite Hm. done.
Qed.

(** With 64 packets outstanding the tail has caught up with the head: the card takes the
    ring for empty, sends none of them, and the next sender waits for a descriptor that is never
    done. *)
Theorem tx_ring_wedge bt br s ps :
  length (tx_pkt_buffer s) = TXDESCS -> Forall (fun b => length b = Z.to_nat TX_PKT_SIZE) (tx_pkt_buffer s) ->
  length ps = TXDESCS -> Forall (fun p => (length p <= 2048)%nat) ps ->
  exists s', (e1000_init bt br;; tx_run (map Submit ps)) s = Ok (map (fun p => TxDone (Z.of_nat (length p))) ps, s') /\
    wire s' = wire s /\ (forall n, tx_run (replicate n Card) s' = Ok ([], s')) /\
    forall p len, e1000_transmit rdtime time_base p len s' =
      (modify (fun s => with_irq (Z.lor (IMS s) E1000_ICR_TXQE) (ICR s) s);; wait_on rdtime time_base SendQ;; mret (TxWait (TDT s'))) s'.
Proof.
  intros Hb Hs Hl Hp. destruct (tx_init bt br s Hb Hs) as (t & E & Ht & Hw & Hm).
  destruct (submit_ok ps t [] Ht ltac:(simpl; unfold TXDESCS in *; lia) Hp) as (s' & E' & Hi & Hw' & Hm').
  destruct (full_stuck s' ps Hi Hl) as [Hc Hn].
  exists s'. rewrite (bind_ok _ _ _ _ _ E). split; [done|]. split; [congruence|]. split.
  - intros n; induction n as [|n IH]; [done|]. simpl. by rewrite (bind_ok _ _ _ _ _ Hc).
  - apply Hn. by rewrite Hm', Hm.
Qed.
End Clock.

(** ** Copying by words *)

Lemma mymemcpy_loop_ok n : forall fuel dest src off,
  (n < fuel)%nat -> (off + 8 * n <= length dest)%nat -> (off + 8 * n <= length src)%nat -> 8 * Z.of_nat n < 2 ^ 32 ->
  mymemcpy_loop fuel dest src off (8 * Z.of_nat n) = Ok (take off dest ++ take (8 * n) (drop off src) ++ drop (off + 8 * n) dest).
Proof.
  induction n as [|n IH]; intros fuel dest src off Hf Hd Hs Hn; (destruct fuel as [|fuel]; [lia|]).
  - cbn [mymemcpy_loop]. rewrite Nat.mul_0_r, Nat.add_0_r. change (8 * Z.of_nat 0 =? 0) with true. cbv iota. simpl. by rewrite take_drop.
  - cbn [mymemcpy_loop]. rewrite (proj2 (Z.eqb_neq _ _)) by lia. rewrite !(proj2 (Nat.leb_le _ _)) by lia. cbn [andb].
    rewrite u32_small by lia. replace (8 * Z.of_nat (S n) - 8) with (8 * Z.of_nat n) by lia.
    assert (length (take off dest) = off) as Hl by (rewrite length_take; lia).
    assert (length (take 8 (drop off src)) = 8%nat) as Hl8 by (rewrite length_take, length_drop; lia).
    rewrite IH; [|lia|rewrite !length_app, length_drop; lia|lia|lia]. f_equal.
    set (w := take 8 (drop off src)) in *.
    rewrite (assoc_L (++) (take off dest) w), take_app_length' by (rewrite length_app; lia).
    rewrite <- !(assoc_L (++)). f_equal.
    replace (8 * S n)%nat with (8 + 8 * n)%nat by lia.
    rewrite <- (take_take_drop (drop off src) 8 (8 * n)), drop_drop, <- (assoc_L (++)). unfold w. f_equal. f_equal.
    rewrite (assoc_L (++)), drop_app_ge by (rewrite length_app; fold w; lia).
    rewrite length_app. fold w. rewrite Hl, Hl8, drop_drop. f_equal. lia.
Qed.

(** A length that is a multiple of eight is copied exactly. *)
Lemma mymemcpy_ok dest src n :
  Nat.divide 8 n -> (n <= length dest)%nat -> (n <= length src)%nat -> Z.of_nat n < 2 ^ 32 ->
  mymemcpy dest src (Z.of_nat n) = Ok (take n src ++ drop n dest).
Proof.
  intros [k ->] Hd Hs Hn. unfold mymemcpy. rewrite u32_small by lia.
  replace (Z.of_nat (k * 8)) with (8 * Z.of_nat k) by lia.
  rewrite mymemcpy_loop_ok by lia. rewrite drop_0. simpl. repeat f_equal; lia.
Qed.

Lemma mymemcpy_loop_odd fuel : forall dest src off len,
  (length dest < off + 8 * fuel)%nat -> len mod 8 <> 0 -> mymemcpy_loop fuel dest src off len = Err Fault \/ (length dest < off)%nat.
Proof.
  induction fuel as [|fuel IH]; intros dest src off len Hl Hm; [right; lia|].
  cbn [mymemcpy_loop]. destruct (Z.eqb_spec len 0) as [->|]; [done|].
  destruct (_ <=? length dest)%nat eqn:E1; [|by left]. destruct (_ <=? length src)%nat eqn:E2; [|by left]. cbn [andb].
  apply Nat.leb_le in E1, E2.
  assert (length (take off dest ++ take 8 (drop off src) ++ drop (off + 8) dest) = length dest) as Hk.
  { rewrite !length_app, !length_take, !length_drop. lia. }
  edestruct (IH (take off dest ++ take 8 (drop off src) ++ drop (off + 8) dest) src (off + 8)%nat (u32 (len - 8))) as [->|H];
    [lia| |by left|lia].
  unfold u32. change (2 ^ 32) with (8 * 2 ^ 29). rewrite Z.rem_mul_r by lia.
  rewrite (Z.mul_comm 8), Z.mod_add, Z.mod_mod by lia.
  rewrite Zminus_mod, Z_mod_same_full, Z.sub_0_r, Z.mod_mod by lia. done.
Qed.

(** Any other length: the counter never becomes zero and the copy runs out of both
    buffers. *)
Lemma mymemcpy_odd dest src len : len mod 8 <> 0 -> mymemcpy dest src len = Err Fault.
Proof.
  intros Hm. destruct (mymemcpy_loop_odd (S (length dest)) dest src 0 (u32 len)) as [E|H]; [lia| |done|lia].
  unfold u32. change (2 ^ 32) with (8 * 2 ^ 29). rewrite Z.rem_mul_r by lia.
  by rewrite (Z.mul_comm 8), Z.mod_add, Z.mod_mod by lia.
Qed.

(** ** The receive ring *)

(** [q]: the packets the card has stored and no reader has taken, oldest first. *)
Record rx_inv (s : net) (q : list (list Z)) : Prop := {
  ri_descs : length (rx_desc_array s) = RXDESCS;
  ri_bufs : length (rx_pkt_buffer s) = RXDESCS;
  ri_size : Forall (fun b => length b = Z.to_nat RX_PKT_SIZE) (rx_pkt_buffer s);
  ri_tail : (RDT s < 64)%nat;
  ri_head : RDH s = slot (RDT s) (1 + length q);
  ri_room : (length q < 64)%nat;
  ri_addr : forall i d, rx_desc_array s !! i = Some d -> rx_addr d = i;
  ri_full : forall k p, q !! k = Some p -> exists d b,
    rx_desc_array s !! slot (RDT s) (1 + k) = Some d /\ rx_pkt_buffer s !! slot (RDT s) (1 + k) = Some b /\
    rx_length d = Z.of_nat (length p) /\ take (length p) b = p /\
    rx_status d = Z.lor E1000_RXD_STAT_DD E1000_RXD_STAT_EOP;
  ri_free : forall k d, (length q <= k < 64)%nat ->
    rx_desc_array s !! slot (RDT s) (1 + k) = Some d -> Z.land (rx_status d) E1000_RXD_STAT_DD = 0
}.

Lemma rx_init bt br s :
  length (rx_pkt_buffer s) = RXDESCS -> Forall (fun b => length b = Z.to_nat RX_PKT_SIZE) (rx_pkt_buffer s) ->
  exists s', e1000_init bt br s = Ok (tt, s') /\ rx_inv s' [] /\ nsched s' = nsched s.
Proof.
  intros Hb Hs. destruct (init_state bt br s) as (s' & E & _ & _ & _ & _ & Ed & Eb & Eh & Et & _ & _ & Ew).
  exists s'. split; [done|]. split; [|done].
  assert (forall i d, fresh_rx !! i = Some d -> d = mkRx i 0 0 0 0 0) as Hd.
  { intros i d (j & -> & (-> & _)%lookup_seq)%list_lookup_fmap_Some. done. }
  constructor; rewrite ?Ed, ?Eb, ?Eh, ?Et; [done|done|done|lia|done|simpl; lia| |done|].
  - by intros i d ->%Hd.
  - intros k d _ ->%Hd. done.
Qed.

(** A packet that fits a buffer and reaches to the byte the driver looks at. *)
Definition frame (p : list Z) : Prop := (15 <= length p <= 2048)%nat.

Lemma card_stores s q p :
  rx_inv s q -> (length q < 63)%nat -> (length p <= 2048)%nat ->
  exists s', dev_recv p s = Ok (tt, s') /\ rx_inv s' (q ++ [p]) /\ nsched s' = nsched s.
Proof.
  intros Hi Hq Hp. pose proof Hi as [Hd Hb Hs Hh Ht Hr Ha Hf He].
  assert (slot (RDT s) (1 + length q) < 64)%nat as Hlt by apply slot_lt.
  destruct (lookup_lt_is_Some_2 (rx_desc_array s) (RDH s)) as [d Ed]; [unfold RXDESCS in *; lia|].
  destruct (lookup_lt_is_Some_2 (rx_pkt_buffer s) (RDH s)) as [b Eb]; [unfold RXDESCS in *; lia|].
  pose proof (Ha _ _ Ed) as Ead.
  pose proof (proj1 (Forall_lookup _ _) Hs _ _ Eb) as Hlb. cbv beta in Hlb. change (Z.to_nat RX_PKT_SIZE) with 2048%nat in Hlb.
  assert (RDH s <> RDT s) as Hne.
  { rewrite Ht. intros E. rewrite <- (slot_full (RDT s) Hh) in E at 2. apply (ring_slot_inj_S _ _ 63) in E; lia. }
  eexists. split.
  { unfold dev_recv. rewrite !gets_bind, (proj2 (Nat.eqb_neq _ _) Hne). cbv iota.
    rewrite gets_bind, (bind_ok _ _ _ _ _ (at_idx_ok _ _ _ _ Ed)), gets_bind, Ead, (bind_ok _ _ _ _ _ (at_idx_ok _ _ _ _ Eb)).
    rewrite !modify_bind. reflexivity. }
  split; [|done].
  constructor; cbn -[Nat.modulo RXDESCS Z.of_nat Z.to_nat slot];
    rewrite ?length_insert, ?length_app; try done.
  - apply Forall_insert; [done|]. rewrite length_app, length_drop. change (Z.to_nat RX_PKT_SIZE) with 2048%nat. lia.
  - rewrite Ht. change RXDESCS with 64%nat. rewrite slot_next. done.
  - simpl; lia.
  - intros i e [(<- & <- & _)|(_ & ?)]%list_lookup_insert_Some; [done|eauto].
  - intros k x [Ek|(Hk & Ek)]%lookup_app_Some.
    + destruct (Hf k x Ek) as (e & c & E1 & E2 & E3). apply lookup_lt_Some in Ek.
      exists e, c. rewrite !list_lookup_insert_ne; [done| |]; rewrite Ht; intros ?%ring_slot_inj_S; lia.
    + assert (k = length q) as -> by (apply lookup_lt_Some in Ek; simpl in Ek; lia).
      rewrite Nat.sub_diag in Ek. simplify_eq/=. eexists _, _. rewrite <- Ht.
      rewrite !list_lookup_insert_eq by (unfold RXDESCS in *; lia).
      split; [done|]. split; [done|]. split; [done|]. split; [|done]. by rewrite take_app_length.
  - intros k e Hk. rewrite list_lookup_insert_ne; [apply He; simpl in *; lia|].
    rewrite Ht. intros ?%ring_slot_inj_S; simpl in *; lia.
Qed.

Lemma recycle_ok s p q :
  rx_inv s (p :: q) ->
  exists s', recycle_rx (slot (RDT s) 1) s = Ok (tt, s') /\ rx_inv s' q /\ nsched s' = nsched s /\ RDT s' = slot (RDT s) 1.
Proof.
  intros Hi. pose proof Hi as [Hd Hb Hs Hh Ht Hr Ha Hf He].
  destruct (Hf 0%nat p eq_refl) as (d & b & Ed & Eb & _). pose proof (Ha _ _ Ed) as Ead.
  eexists. split.
  { unfold recycle_rx. rewrite gets_bind, (bind_ok _ _ _ _ _ (at_idx_ok _ _ _ _ Ed)), modify_bind. reflexivity. }
  split; [|done].
  constructor; cbn -[Nat.modulo RXDESCS slot]; rewrite ?length_insert; try done.
  - apply slot_lt.
  - rewrite Ht, slot_add. done.
  - simpl in *; lia.
  - intros i e [(<- & <- & _)|(_ & ?)]%list_lookup_insert_Some; [done|eauto].
  - intros k x Ek. destruct (Hf (S k) x Ek) as (e & c & E1 & E2 & E3).
    exists e, c. rewrite slot_add. apply lookup_lt_Some in Ek. rewrite list_lookup_insert_ne; [done|].
    replace (1 + S k)%nat with (1 + (1 + k))%nat by lia. rewrite <- (slot_add _ 1 (1 + k)).
    rewrite <- (slot_0 (slot (RDT s) 1)) at 1 by apply slot_lt. intros ?%ring_slot_inj; simpl in *; lia.
  - intros k e Hk. rewrite slot_add. intros [(_ & <- & _)|(Hx & E1)]%list_lookup_insert_Some; [done|].
    destruct (decide (k = 63%nat)) as [->|].
    + exfalso. apply Hx. by rewrite <- (slot_add _ 1 (1 + 63)), slot_full by apply slot_lt.
    + eapply (He (1 + k)%nat); [simpl in *; lia|done].
Qed.

(** The protocol of the reader: byte 14 of the frame. *)
Definition wanted (p : list Z) : Prop := p !! 14%nat = Some 43.
#[global] Instance wanted_dec p : Decision (wanted p).
Proof. unfold wanted. apply _. Defined.

Section Reader.
Context (rdtime : nat -> Z) (time_base : Z).

(** What the reader sees at the oldest packet. *)
Lemma poll_look s p q :
  rx_inv s (p :: q) -> frame p ->
  exists d b c, rx_desc_array s !! slot (RDT s) 1 = Some d /\ rx_pkt_buffer s !! slot (RDT s) 1 = Some b /\
    rx_length d = Z.of_nat (length p) /\ rx_status d = 3 /\ take (length p) b = p /\ length b = 2048%nat /\
    b !! 14%nat = Some c /\ p !! 14%nat = Some c.
Proof.
  intros Hi Hp. destruct (ri_full _ _ Hi 0%nat p eq_refl) as (d & b & Ed & Eb & Hl & Ht & Hs).
  pose proof (proj1 (Forall_lookup _ _) (ri_size _ _ Hi) _ _ Eb) as Hlb. cbv beta in Hlb.
  destruct (lookup_lt_is_Some_2 p 14%nat) as [c Ec]; [unfold frame in Hp; lia|].
  exists d, b, c. do 6 (split; [done|]). split; [|done].
  rewrite <- Ec, <- Ht at 1. rewrite lookup_take, decide_True; [done|]. unfold frame in Hp; lia.
Qed.

Lemma poll_skip fuel s p q len buf :
  rx_inv s (p :: q) -> frame p -> ~ wanted p ->
  exists s', rx_inv s' q /\ nsched s' = nsched s /\
    poll_from rdtime time_base (S fuel) (slot (RDT s) 1) len buf s = poll_from rdtime time_base fuel (slot (RDT s') 1) len buf s'.
Proof.
  intros Hi Hp Hw. destruct (poll_look s p q Hi Hp) as (d & b & c & Ed & Eb & Hl & Hs & _ & _ & Ec & Ec').
  destruct (recycle_ok s p q Hi) as (s' & E & Hi' & Hn & Hr).
  exists s'. split; [done|]. split; [done|]. cbn [poll_from].
  rewrite gets_bind, (bind_ok _ _ _ _ _ (at_idx_ok _ _ _ _ Ed)), Hs. change (Z.land 3 E1000_RXD_STAT_DD =? 0) with false. cbv iota.
  rewrite gets_bind, (bind_ok _ _ _ _ _ (at_idx_ok _ _ _ _ Eb)), (bind_ok _ _ _ _ _ (at_idx_ok _ _ _ _ Ec)).
  rewrite (proj2 (Z.eqb_neq c 43)) by (intros ->; by apply Hw). cbn [negb]. cbv iota.
  by rewrite (bind_ok _ _ _ _ _ E).
Qed.

Lemma poll_take fuel s p q buf :
  rx_inv s (p :: q) -> frame p -> wanted p -> Nat.divide 8 (length p) -> (length p <= length buf)%nat ->
  exists s', rx_inv s' q /\ nsched s' = nsched s /\ RDT s' = slot (RDT s) 1 /\
    poll_from rdtime time_base (S fuel) (slot (RDT s) 1) 0 buf s =
      Ok (PollDone (Z.of_nat (length p)) (p ++ drop (length p) buf), s').
Proof.
  intros Hi Hp Hw H8 Hb. destruct (poll_look s p q Hi Hp) as (d & b & c & Ed & Eb & Hl & Hs & Ht & Hlb & Ec & Ec').
  destruct (recycle_ok s p q Hi) as (s' & E & Hi' & Hn & Hr).
  exists s'. split; [done|]. split; [done|]. split; [done|]. cbn [poll_from].
  rewrite gets_bind, (bind_ok _ _ _ _ _ (at_idx_ok _ _ _ _ Ed)), Hs. change (Z.land 3 E1000_RXD_STAT_DD =? 0) with false. cbv iota.
  rewrite gets_bind, (bind_ok _ _ _ _ _ (at_idx_ok _ _ _ _ Eb)), (bind_ok _ _ _ _ _ (at_idx_ok _ _ _ _ Ec)).
  unfold wanted in Hw. assert (c = 43) as -> by congruence. change (negb (43 =? 43)) with false. cbv iota zeta.
  unfold frame in Hp. rewrite Hl, Z.add_0_l, i32_small by lia.
  rewrite (bind_ok _ _ _ _ _ (lift_ok _ _ _ (mymemcpy_ok buf b (length p) H8 Hb ltac:(lia) ltac:(lia)))), Ht.
  rewrite (bind_ok _ _ _ _ _ E). done.
Qed.

Lemma poll_ok junk : forall fuel s p q buf,
  (length junk < fuel)%nat -> rx_inv s (junk ++ p :: q) -> Forall frame (junk ++ [p]) -> Forall (fun p => ~ wanted p) junk ->
  wanted p -> Nat.divide 8 (length p) -> (length p <= length buf)%nat ->
  exists s', rx_inv s' q /\ nsched s' = nsched s /\
    poll_from rdtime time_base fuel (slot (RDT s) 1) 0 buf s = Ok (PollDone (Z.of_nat (length p)) (p ++ drop (length p) buf), s').
Proof.
  induction junk as [|x junk IH]; intros [|fuel] s p q buf Hf Hi Hfr Hj Hw H8 Hb; [simpl in Hf; lia| |simpl in Hf; lia|].
  - inversion Hfr; subst. destruct (poll_take fuel s p q buf Hi) as (s' & Hi' & Hn & _ & E); [done..|]. by exists s'.
  - cbn [app length] in Hf, Hi, Hfr. inversion Hfr; subst. inversion Hj; subst.
    destruct (poll_skip fuel s x (junk ++ p :: q) 0 buf Hi) as (t & Ht & Hn & ->); [done|done|].
    destruct (IH fuel t p q buf) as (s' & Hi' & Hn' & E); try done; [lia|].
    exists s'. split; [done|]. split; [congruence|done].
Qed.

Lemma poll_starts buf s : e1000_poll rdtime time_base buf s = poll_from rdtime time_base (S RXDESCS) (slot (RDT s) 1) 0 buf s.
Proof. reflexivity. Qed.

Lemma filter_first q p r :
  filter wanted q = p :: r ->
  exists junk q', q = junk ++ p :: q' /\ Forall (fun p => ~ wanted p) junk /\ wanted p /\ filter wanted q' = r.
Proof.
  induction q as [|x q IH]; [done|]. rewrite filter_cons. destruct (decide (wanted x)) as [Hx|Hx]; intros E.
  - simplify_eq. by exists [], q.
  - destruct (IH E) as (junk & q' & -> & Hj & Hp & Hr). exists (x :: junk), q'. split; [done|]. split; [by constructor|done].
Qed.

Definition total (ps : list (list Z)) : nat := length (concat ps).

Lemma recv_loop_ok ps : forall s q r buf past lens sum,
  rx_inv s q -> Forall frame q -> filter wanted q = ps ++ r ->
  Forall (fun p => Nat.divide 8 (length p)) ps -> (total ps <= length buf)%nat ->
  0 <= sum -> sum + Z.of_nat (total ps) < 2 ^ 31 ->
  exists s', recv_loop rdtime time_base (length ps) past buf lens sum s =
    Ok (RecvDone (sum + Z.of_nat (total ps)) (past ++ concat ps ++ drop (total ps) buf) (lens ++ map (fun p => Z.of_nat (length p)) ps), s') /\
    nsched s' = nsched s.
Proof.
  unfold total. induction ps as [|p ps IH]; intros s q r buf past lens sum Hi Hf Hq H8 Hb H0 Hs.
  - exists s. simpl. by rewrite Z.add_0_r, app_nil_r.
  - apply filter_first in Hq as (junk & q' & -> & Hj & Hp & Hr). inversion H8; subst.
    apply Forall_app in Hf as [Hfj Hfp]. inversion Hfp; subst.
    cbn [concat] in Hb, Hs. rewrite length_app in Hb, Hs.
    pose proof (ri_room _ _ Hi) as Hroom. rewrite length_app in Hroom. simpl in Hroom.
    destruct (poll_ok junk (S RXDESCS) s p q' buf) as (t & Ht & Hn & E); try done; [unfold RXDESCS; lia|by apply Forall_app; auto|lia|].
    destruct (IH t q' r (drop (length p) buf) (past ++ p) (lens ++ [Z.of_nat (length p)]) (sum + Z.of_nat (length p))) as (s' & E' & Hn');
      try done; [rewrite length_drop; lia|lia|lia|].
    exists s'. split; [|congruence].
    cbn [recv_loop length]. rewrite (bind_ok (e1000_poll rdtime time_base buf) _ s _ t E). cbv iota.
    rewrite Nat2Z.id, take_app_length, drop_app_length, i32_small by lia. rewrite E'.
    cbn [concat map]. rewrite length_app, <- !(assoc_L (++)), drop_drop.
    by replace (sum + Z.of_nat (length p) + Z.of_nat (length (concat ps))) with (sum + Z.of_nat (length p + length (concat ps))) by lia.
Qed.

Lemma total_bound ps : Forall frame ps -> (total ps <= 2048 * length ps)%nat.
Proof.
  unfold total, frame. induction 1 as [|p ps [_ Hp] _ IH]; [done|]. cbn [concat length]. rewrite length_app. lia.
Qed.

(** The card receives packets one after the other. *)
Definition dev_recv_all (ps : list (list Z)) : M net unit := foldr (fun p m => dev_recv p;; m) (mret tt) ps.

Lemma card_stores_all ps : forall s q, rx_inv s q -> (length q + length ps < 64)%nat -> Forall frame ps ->
  exists s', dev_recv_all ps s = Ok (tt, s') /\ rx_inv s' (q ++ ps) /\ nsched s' = nsched s.
Proof.
  induction ps as [|p ps IH]; intros s q Hi Hl Hp.
  - exists s. by rewrite app_nil_r.
  - inversion Hp as [|?? Hfp]; subst. unfold frame in Hfp. simpl in Hl.
    destruct (card_stores s q p Hi) as (t & E & Ht & Hn); [lia|lia|].
    destruct (IH t (q ++ [p]) Ht) as (s' & E' & Hi' & Hn'); [rewrite length_app; simpl; lia|done|].
    exists s'. rewrite <- (assoc_L (++)) in Hi'. split; [|split; [done|congruence]].
    simpl. by rewrite (bind_ok _ _ _ _ _ E).
Qed.

(** C27. do_net_recv returns the first n frames of the protocol one after the other with
    their lengths, dropping the frames between them, and does not block. *)
Theorem recv_delivers bt br s qs n buf :
  let ps := take n (filter wanted qs) in
  length (rx_pkt_buffer s) = RXDESCS -> Forall (fun b => length b = Z.to_nat RX_PKT_SIZE) (rx_pkt_buffer s) ->
  (length qs < RXDESCS)%nat -> Forall frame qs ->
  length ps = n -> Forall (fun p => Nat.divide 8 (length p)) ps -> (total ps <= length buf)%nat ->
  exists s', (e1000_init bt br;; dev_recv_all qs;; do_net_recv rdtime time_base buf (Z.of_nat n)) s =
    Ok (RecvDone (Z.of_nat (total ps)) (concat ps ++ drop (total ps) buf) (map (fun p => Z.of_nat (length p)) ps), s') /\
    nsched s' = nsched s.
Proof.
  intros ps Hb Hs Hl Hf Hn H8 Hbuf. destruct (rx_init bt br s Hb Hs) as (t & E & Ht & Hnt).
  destruct (card_stores_all qs t [] Ht) as (u & E' & Hu & Hnu); [done|done|].
  destruct (recv_loop_ok ps u qs (drop n (filter wanted qs)) buf [] [] 0) as (s' & E'' & Hns); try done.
  { unfold ps. by rewrite take_drop. }
  { assert (Forall frame ps) as Hfp.
    { apply Forall_take, Forall_forall. intros p [_ Hp]%list_elem_of_filter. by eapply Forall_forall in Hf. }
    pose proof (total_bound ps Hfp). pose proof (length_filter wanted qs). unfold ps in H at 2.
    rewrite length_take in H. unfold RXDESCS in Hl. lia. }
  exists s'. split; [|congruence]. rewrite (bind_ok _ _ _ _ _ E), (bind_ok _ _ _ _ _ E').
  unfold do_net_recv. rewrite Nat2Z.id, <- Hn at 1. apply E''.
Qed.

Lemma poll_odd fuel s p q buf :
  rx_inv s (p :: q) -> frame p -> wanted p -> Z.of_nat (length p) mod 8 <> 0 ->
  poll_from rdtime time_base (S fuel) (slot (RDT s) 1) 0 buf s = Err Fault.
Proof.
  intros Hi Hp Hw H8. destruct (poll_look s p q Hi Hp) as (d & b & c & Ed & Eb & Hl & Hs & _ & _ & Ec & Ec').
  cbn [poll_from]. rewrite gets_bind, (bind_ok _ _ _ _ _ (at_idx_ok _ _ _ _ Ed)), Hs.
  change (Z.land 3 E1000_RXD_STAT_DD =? 0) with false. cbv iota.
  rewrite gets_bind, (bind_ok _ _ _ _ _ (at_idx_ok _ _ _ _ Eb)), (bind_ok _ _ _ _ _ (at_idx_ok _ _ _ _ Ec)).
  unfold wanted in Hw. assert (c = 43) as -> by congruence. change (negb (43 =? 43)) with false. cbv iota zeta.
  unfold frame in Hp. rewrite Hl, Z.add_0_l, i32_small, mymemcpy_odd by (done || lia). done.
Qed.

(** A frame of the protocol whose length is not a multiple of eight: the copy to the
    reader does not stop and leaves both buffers, however large the reader's is. *)
Theorem recv_overruns bt br s p buf :
  length (rx_pkt_buffer s) = RXDESCS -> Forall (fun b => length b = Z.to_nat RX_PKT_SIZE) (rx_pkt_buffer s) ->
  frame p -> wanted p -> Z.of_nat (length p) mod 8 <> 0 ->
  (e1000_init bt br;; dev_recv p;; do_net_recv rdtime time_base buf 1) s = Err Fault.
Proof.
  intros Hb Hs Hp Hw H8. destruct (rx_init bt br s Hb Hs) as (t & E & Ht & _).
  destruct (card_stores t [] p Ht) as (u & E' & Hu & _); [simpl; lia|unfold frame in Hp; lia|].
  rewrite (bind_ok _ _ _ _ _ E), (bind_ok _ _ _ _ _ E').
  unfold do_net_recv. change (Z.to_nat 1) with 1%nat. cbn [recv_loop]. apply bind_err.
  rewrite poll_starts. by apply poll_odd with p [].
Qed.

(** Two readers wait for the same descriptor.  When the first has taken its packet and
    given the descriptor back, the second tests it again and goes on waiting, although
    the next packet is there: it does not read [RDT] again. *)
Lemma stale_reader s p p' q buf buf' fuel :
  rx_inv s (p :: p' :: q) -> frame p -> wanted p -> Nat.divide 8 (length p) -> (length p <= length buf)%nat ->
  exists s', e1000_poll rdtime time_base buf s = Ok (PollDone (Z.of_nat (length p)) (p ++ drop (length p) buf), s') /\
    rx_inv s' (p' :: q) /\
    poll_from rdtime time_base (S fuel) (slot (RDT s) 1) 0 buf' s' =
      (wait_on rdtime time_base RecvQ;; mret (PollWait (slot (RDT s) 1) 0 buf')) s'.
Proof.
  intros Hi Hp Hw H8 Hb. destruct (poll_take RXDESCS s p (p' :: q) buf Hi Hp Hw H8 Hb) as (s' & Hi' & _ & Et & E).
  exists s'. split; [exact E|]. split; [done|].
  destruct (lookup_lt_is_Some_2 (rx_desc_array s') (RDT s')) as [d Ed].
  { rewrite (ri_descs _ _ Hi'). apply (ri_tail _ _ Hi'). }
  assert (Z.land (rx_status d) E1000_RXD_STAT_DD = 0) as Hd.
  { eapply (ri_free _ _ Hi' 63%nat); [pose proof (ri_room _ _ Hi'); lia|]. by rewrite slot_full by apply Hi'. }
  rewrite <- Et. cbn [poll_from]. rewrite gets_bind, (bind_ok _ _ _ _ _ (at_idx_ok _ _ _ _ Ed)), Hd. done.
Qed.
End Reader.

(** ** The interrupt *)

(** The two conditions of [net_handle_irq]: pending and enabled. *)
Definition raised (s : net) (bit : Z) : bool := negb (Z.land (Z.land (ICR s) bit) (Z.land (IMS s) bit) =? 0).
Definition when (b : bool) (l : list pcbref) : list pcbref := if b then l else [].

Lemma wake_queue (b : bool) q l rdy s Q :
  sched_inv (nsched s) Q -> Q !! q = Some l -> q <> ReadyQ -> Q !! ReadyQ = Some rdy ->
  exists u, (if b then on_nsched (unblock_all q) else mret tt) s = Ok (tt, with_nsched u s) /\
    sched_inv u (<[ReadyQ := rdy ++ when b l]> (<[q := when (negb b) l]> Q)).
Proof.
  intros Hi Hl Hne Hr. destruct b; simpl.
  - destruct (unblock_all_ok _ _ _ _ _ Hi Hl Hne Hr) as (u & E & Hu & _).
    exists u. split; [|done]. unfold on_nsched, zoom. by rewrite E.
  - exists (nsched s). rewrite app_nil_r, (insert_id Q q l), (insert_id _ ReadyQ rdy) by done.
    by destruct s.
Qed.

(** [net_handle_irq] wakes every process that waits to send when the transmit queue
    has run empty and every process that waits for a packet when the receive ring
    runs low, in the order they went to sleep, and nobody else; the request is
    cleared and the transmit interrupt is masked again. *)
Theorem net_irq_wakes s Q senders readers rdy :
  sched_inv (nsched s) Q -> Q !! SendQ = Some senders -> Q !! RecvQ = Some readers -> Q !! ReadyQ = Some rdy ->
  let tx := raised s E1000_ICR_TXQE in let rx := raised s E1000_ICR_RXDMT0 in
  exists s', net_handle_irq s = Ok (tt, s') /\
    sched_inv (nsched s') (<[ReadyQ := rdy ++ when tx senders ++ when rx readers]>
      (<[RecvQ := when (negb rx) readers]> (<[SendQ := when (negb tx) senders]> Q))) /\
    ICR s' = 0 /\ IMS s' = (if tx then Z.ldiff (IMS s) E1000_ICR_TXQE else IMS s).
Proof.
  intros Hi Hs Hr Hrdy tx rx. unfold net_handle_irq, read_icr.
  rewrite bind_bind, gets_bind, bind_bind, modify_bind. change (mret ?x ≫= ?f) with (f x). cbv beta.
  rewrite gets_bind. cbn [IMS ICR with_irq].
  fold (raised s E1000_ICR_TXQE) (raised s E1000_ICR_RXDMT0). fold tx rx.
  destruct (wake_queue tx SendQ senders rdy (with_irq (IMS s) 0 s) Q Hi Hs ltac:(done) Hrdy) as (u & E & Hu).
  set (t := with_irq (if tx then Z.ldiff (IMS s) E1000_ICR_TXQE else IMS s) 0 (with_nsched u s)).
  destruct (wake_queue rx RecvQ readers (rdy ++ when tx senders) t _ Hu) as (v & E' & Hv);
    [by rewrite !lookup_insert_ne|done|by rewrite lookup_insert_eq|].
  exists (with_nsched v t). split; [|split; [|done]].
  - rewrite (bind_ok _ _ _ tt t); [done|]. destruct tx; [|exact E]. by rewrite (bind_ok _ _ _ _ _ E).
  - rewrite <- (assoc_L (++)), (insert_insert_ne _ RecvQ ReadyQ), insert_insert_eq in Hv by done. exact Hv.
Qed.

(** ** Sample runs *)

Definition boot_net (sc : sched) : net :=
  mkNet [] (replicate 64 (replicate 2048 0)) [] (replicate 64 (replicate 2048 0)) 0 0 0 0 0 0
    (Z.lor E1000_ICR_TXQE E1000_ICR_RXDMT0) E1000_ICR_TXQE (mkBase 0 0 0 0 0 0 0 0) [] sc.
Definition sample_clock : nat -> Z := fun _ => 100.
(** A frame of the protocol, [n] bytes, and one of another. *)
Definition sample_frame (kind : Z) (n : nat) : list Z := replicate 14 7 ++ kind :: replicate (n - 15) 9.

Lemma boot_buffers : Forall (fun b : list Z => length b = Z.to_nat 2048) (replicate 64 (replicate 2048 0)).
Proof. apply Forall_replicate. by rewrite length_replicate. Qed.

Lemma tx_fifo_witness :
  exists s' n s'', (e1000_init 0 0;; tx_run sample_clock 10 [Submit [1; 2; 3]; Card; Submit [4]]) (boot_net sample_idle) =
      Ok ([TxDone 3; TxDone 1], s') /\
    wire s' `prefix_of` [[1; 2; 3]; [4]] /\ (n < TXDESCS)%nat /\
    tx_run sample_clock 10 (replicate n Card) s' = Ok ([], s'') /\ wire s'' = [[1; 2; 3]; [4]].
Proof.
  apply (tx_fifo sample_clock 10 0 0 (boot_net sample_idle) [Submit [1; 2; 3]; Card; Submit [4]]);
    [done|exact boot_buffers|done|]. repeat constructor; simpl; lia.
Defined.

Lemma tx_ring_wedge_witness :
  exists s', (e1000_init 0 0;; tx_run sample_clock 10 (map Submit (replicate 64 [5]))) (boot_net sample_idle) =
      Ok (map (fun p => TxDone (Z.of_nat (length p))) (replicate 64 [5]), s') /\
    wire s' = [] /\ (forall n, tx_run sample_clock 10 (replicate n Card) s' = Ok ([], s')).
Proof.
  destruct (tx_ring_wedge sample_clock 10 0 0 (boot_net sample_idle) (replicate 64 [5])) as (s' & E & Hw & Hc & _);
    [done|exact boot_buffers|done|apply Forall_replicate; simpl; lia|].
  exists s'. split; [exact E|]. split; [exact Hw|exact Hc].
Defined.

(** A frame of another protocol, then one of 64 bytes for the reader. *)
Lemma recv_delivers_witness :
  exists s', (e1000_init 0 0;; dev_recv_all [sample_frame 6 60; sample_frame 43 64];;
      do_net_recv sample_clock 10 (replicate 100 0) 1) (boot_net sample_idle) =
    Ok (RecvDone 64 (sample_frame 43 64 ++ replicate 36 0) [64], s') /\ nsched s' = sample_idle.
Proof.
  apply (recv_delivers sample_clock 10 0 0 (boot_net sample_idle) [sample_frame 6 60; sample_frame 43 64] 1 (replicate 100 0)).
  - done.
  - exact boot_buffers.
  - simpl. unfold RXDESCS. lia.
  - unfold frame. repeat constructor; simpl; lia.
  - done.
  - repeat constructor. by exists 8%nat.
  - vm_compute. lia.
Defined.

Lemma recv_overruns_witness :
  (e1000_init 0 0;; dev_recv (sample_frame 43 60);; do_net_recv sample_clock 10 (replicate 4096 0) 1) (boot_net sample_idle) = Err Fault.
Proof.
  apply (recv_overruns sample_clock 10 0 0 (boot_net sample_idle) (sample_frame 43 60));
    [done|exact boot_buffers|unfold frame; simpl; lia|done|done].
Defined.

(** One process waits to send, one for a packet; the transmit queue has run empty. *)
Definition waiting_ops : list qop := [OpBlock (Pcb 1) SendQ; OpBlock (Pcb 2) RecvQ].
Definition waiting_queues : gmap laddr (list pcbref) :=
  <[RecvQ := [Pcb 2]]> (<[SendQ := [Pcb 1]]> (idle_queues sample_heads)).
Lemma waiting_sched : exists s, run_qops waiting_ops sample_idle = Ok (tt, s) /\ sched_inv s waiting_queues.
Proof.
  apply (qsteps_ok _ _ _ _ sample_idle_inv).
  - eapply Q_cons; [apply (Q_block _ _ _ []); [apply idle_unqueued | done | done]|].
    eapply Q_cons; [|apply Q_nil]. apply (Q_block _ _ _ []); [|done|done].
    apply unqueued_insert; [apply idle_unqueued | set_solver].
  - intros o r Ho Hr. repeat (apply elem_of_cons in Ho as [->|Ho]; [injection Hr as <-; by eexists|]).
    by apply elem_of_nil in Ho.
Qed.
Definition waiting : sched := match run_qops waiting_ops sample_idle with Ok (_, s) => s | Err _ => sample_idle end.

Lemma net_irq_wakes_witness :
  exists s', net_handle_irq (boot_net waiting) = Ok (tt, s') /\
    sched_inv (nsched s') (<[ReadyQ := [Pcb 1]]> (<[RecvQ := [Pcb 2]]> (<[SendQ := []]> waiting_queues))) /\
    ICR s' = 0 /\ IMS s' = E1000_ICR_RXDMT0.
Proof.
  apply (net_irq_wakes (boot_net waiting) waiting_queues [Pcb 1] [Pcb 2] []); [|done..].
  destruct waiting_sched as (s & E & Hs). simpl. unfold waiting. rewrite E. exact Hs.
Defined.
