(* ===== verification/Plic.v ===== *)
(** * The interrupt controller and the external interrupt (drivers/plic.c,
      kernel/irq/irq.c: handle_irq_ext)

    The registers of the controller as a map from addresses to 32-bit values, zero
    where nothing was written.  Reading the claim register gives the source the
    controller has put there; writing it completes the source, which [completed]
    records. *)
From S2P Require Import Prelude DList CString Sched Net NetFacts.

Definition PLIC_E1000_PYNQ_IRQ : Z := 3.
Definition PLIC_E1000_QEMU_IRQ : Z := 33.
Definition PRIORITY_BASE : Z := 0.
Definition PRIORITY_PER_ID : Z := 4.
Definition ENABLE_BASE : Z := 0x2000.
Definition CONTEXT_BASE : Z := 0x200000.
Definition CONTEXT_THRESHOLD : Z := 0x00.
Definition CONTEXT_CLAIM : Z := 0x04.

Record plic_handler := mkHandler { present : bool; hart_base : Z; enable_base : Z }.
Record plic := mkPlic { regs32 : gmap Z Z; plic_regs : Z; plic_handlers : plic_handler; completed : list Z }.

Definition readl (a : Z) : M plic Z := gets (fun s => default 0 (regs32 s !! a)).
Definition writel (v a : Z) : M plic unit :=
  modify (fun s => mkPlic (<[a := u32 v]> (regs32 s)) (plic_regs s) (plic_handlers s) (completed s)).

Definition plic_toggle (hwirq : Z) (enable : bool) : M plic unit :=
  h ← gets plic_handlers;
  let reg := enable_base h + hwirq / 32 * 4 in
  let hwirq_mask := u32 (Z.shiftl 1 (hwirq mod 32)) in
  v ← readl reg;
  if enable then writel (Z.lor v hwirq_mask) reg else writel (Z.ldiff v hwirq_mask) reg.

Definition plic_irq_unmask (hwirq : Z) : M plic unit :=
  r ← gets plic_regs;
  writel 1 (r + PRIORITY_BASE + hwirq * PRIORITY_PER_ID);;
  h ← gets plic_handlers;
  if present h then plic_toggle hwirq true else mret tt.

Definition plic_claim : M plic Z := h ← gets plic_handlers; readl (hart_base h + CONTEXT_CLAIM).
Definition plic_complete (hwirq : Z) : M plic unit :=
  h ← gets plic_handlers;
  writel hwirq (hart_base h + CONTEXT_CLAIM);;
  modify (fun s => mkPlic (regs32 s) (plic_regs s) (plic_handlers s) (completed s ++ [hwirq])).

(** [nr_irqs] is below 2^31: the loop compares its counter as an unsigned number. *)
Definition plic_init (plic_regs_addr nr_irqs : Z) : M plic Z :=
  modify (fun s => mkPlic (regs32 s) plic_regs_addr (plic_handlers s) (completed s));;
  h ← gets plic_handlers;
  let threshold := if present h then 0xffffffff else 0 in
  (if present h then mret tt else
     modify (fun s => mkPlic (regs32 s) (plic_regs s)
       (mkHandler true (plic_regs s + CONTEXT_BASE) (plic_regs s + ENABLE_BASE)) (completed s)));;
  h ← gets plic_handlers;
  writel threshold (hart_base h + CONTEXT_THRESHOLD);;
  for_loop (Z.to_nat nr_irqs) 1 (fun hwirq => plic_toggle hwirq false);;
  let hwirq := nr_irqs + 1 in
  (if hwirq >? PLIC_E1000_QEMU_IRQ then plic_irq_unmask PLIC_E1000_QEMU_IRQ else plic_irq_unmask PLIC_E1000_PYNQ_IRQ);;
  mret 0.

(** ** The external interrupt *)

Record ext_st := mkExt { eplic : plic; enet : net }.
Definition on_plic {A} (m : M plic A) : M ext_st A := zoom eplic (fun p s => mkExt p (enet s)) m.
Definition on_net {A} (m : M net A) : M ext_st A := zoom enet (fun n s => mkExt (eplic s) n) m.

Definition handle_irq_ext : M ext_st unit :=
  id ← on_plic plic_claim;
  if (id =? PLIC_E1000_QEMU_IRQ) || (id =? PLIC_E1000_PYNQ_IRQ) then
    on_net net_handle_irq;; on_plic (plic_complete id)
  else mret tt.

(** ** Properties *)

(** What the controller does with source [id]: enabled, and its priority. *)
Definition reg_at (s : plic) (a : Z) : Z := default 0 (regs32 s !! a).
Definition enabled (s : plic) (id : Z) : bool := Z.testbit (reg_at s (enable_base (plic_handlers s) + id / 32 * 4)) (id mod 32).
Definition priority (s : plic) (id : Z) : Z := reg_at s (plic_regs s + PRIORITY_BASE + id * PRIORITY_PER_ID).
Definition threshold_of (s : plic) : Z := reg_at s (hart_base (plic_handlers s) + CONTEXT_THRESHOLD).
(** The controller delivers a pending source that is enabled and above the threshold. *)
Definition delivers (s : plic) (id : Z) : bool := enabled s id && (priority s id >? threshold_of s).

Definition words32 (s : plic) : Prop := forall a v, regs32 s !! a = Some v -> 0 <= v < 2 ^ 32.

Lemma reg_word s a : words32 s -> 0 <= reg_at s a < 2 ^ 32.
Proof. intros H. unfold reg_at. destruct (regs32 s !! a) eqn:E; simpl; [eauto|lia]. Qed.

Lemma word_high w i : 0 <= w < 2 ^ 32 -> 32 <= i -> Z.testbit w i = false.
Proof. intros Hw Hi. destruct (decide (w = 0)) as [->|]; [apply Z.testbit_0_l|]. apply Z.bits_above_log2; [lia|]. apply Z.log2_lt_pow2; [lia|]. apply Z.lt_le_trans with (2 ^ 32); [lia|]. by apply Z.pow_le_mono_r. Qed.

Lemma irq_mask_bit id j : 0 <= j < 32 -> Z.testbit (u32 (Z.shiftl 1 (id mod 32))) j = (id mod 32 =? j).
Proof.
  intros Hj. pose proof (Z.mod_pos_bound id 32 ltac:(lia)). unfold u32.
  rewrite Z.mod_pow2_bits_low by lia. rewrite Z.shiftl_1_l. apply Z.pow2_bits_eqb. lia.
Qed.

(** One source is switched, nothing else changes. *)
Lemma toggle_ok s id e :
  words32 s -> 0 <= id ->
  exists s', plic_toggle id e s = Ok (tt, s') /\ words32 s' /\
    plic_regs s' = plic_regs s /\ plic_handlers s' = plic_handlers s /\
    (forall k, 0 <= k -> enabled s' k = if k =? id then e else enabled s k) /\
    (forall a, (a < enable_base (plic_handlers s) \/ enable_base (plic_handlers s) + id / 32 * 4 < a) -> reg_at s' a = reg_at s a).
Proof.
  intros Hw Hid. set (r := enable_base (plic_handlers s) + id / 32 * 4).
  set (m := u32 (Z.shiftl 1 (id mod 32))).
  set (v := if e then Z.lor (reg_at s r) m else Z.ldiff (reg_at s r) m).
  set (s' := mkPlic (<[r := u32 v]> (regs32 s)) (plic_regs s) (plic_handlers s) (completed s)).
  exists s'. split; [by unfold s', v; destruct e|].
  split. { intros a x E. cbn in E. apply lookup_insert_Some in E as [[_ <-]|[_ E]]; [apply u32_range|eauto]. }
  split; [done|]. split; [done|]. split.
  - intros k Hk. unfold enabled, reg_at, s'. cbn [plic_handlers regs32].
    pose proof (Z.mod_pos_bound k 32 ltac:(lia)). pose proof (Z.mod_pos_bound id 32 ltac:(lia)).
    destruct (decide (r = enable_base (plic_handlers s) + k / 32 * 4)) as [Er|Er].
    + rewrite <- Er, lookup_insert_eq. simpl. unfold u32 at 1. rewrite Z.mod_pow2_bits_low by lia.
      assert (k / 32 = id / 32) as Ed by (unfold r in Er; lia).
      assert (Z.testbit v (k mod 32) = if id mod 32 =? k mod 32 then e else Z.testbit (reg_at s r) (k mod 32)) as ->.
      { unfold v, m. destruct e; [rewrite Z.lor_spec|rewrite Z.ldiff_spec]; rewrite irq_mask_bit by lia;
          destruct (_ =? _); by rewrite ?orb_true_r, ?orb_false_r, ?andb_false_r, ?andb_true_r. }
      assert ((id mod 32 =? k mod 32) = (k =? id)) as ->.
      { pose proof (Z.div_mod k 32 ltac:(lia)). pose proof (Z.div_mod id 32 ltac:(lia)).
        destruct (Z.eqb_spec (id mod 32) (k mod 32)), (Z.eqb_spec k id); try done; subst; lia. }
      done.
    + rewrite lookup_insert_ne by done. destruct (Z.eqb_spec k id) as [->|]; [done|done].
  - intros a Ha. unfold reg_at, s'. cbn [regs32]. rewrite lookup_insert_ne; [done|]. unfold r.
    pose proof (Z.div_pos id 32 Hid ltac:(lia)). lia.
Qed.

Lemma disable_ok s n :
  words32 s -> (n < 1024)%nat ->
  exists s', for_loop n 1 (fun hwirq => plic_toggle hwirq false) s = Ok (tt, s') /\ words32 s' /\
    plic_regs s' = plic_regs s /\ plic_handlers s' = plic_handlers s /\
    (forall k, 0 <= k -> enabled s' k = if (1 <=? k) && (k <=? Z.of_nat n) then false else enabled s k) /\
    (forall a, (a < enable_base (plic_handlers s) \/ enable_base (plic_handlers s) + 128 <= a) -> reg_at s' a = reg_at s a).
Proof.
  intros Hw Hn.
  destruct (for_loop_inv (fun i t => words32 t /\ plic_regs t = plic_regs s /\ plic_handlers t = plic_handlers s /\
      (forall k, 0 <= k -> enabled t k = if (1 <=? k) && (k <? i) then false else enabled s k) /\
      (forall a, (a < enable_base (plic_handlers s) \/ enable_base (plic_handlers s) + 128 <= a) -> reg_at t a = reg_at s a))
    (fun hwirq => plic_toggle hwirq false) n 1 s) as (s' & E & Hw' & Hr & Hh & He & Ha).
  - intros i t Hi (Hwt & Hrt & Hht & Het & Hat).
    destruct (toggle_ok t i false Hwt ltac:(lia)) as (t' & E & Hw' & Hr & Hh & He & Ha).
    exists t'. split; [done|]. split; [done|]. split; [congruence|]. split; [congruence|]. split.
    + intros k Hk. rewrite He by done. destruct (Z.eqb_spec k i) as [->|Hne].
      * rewrite (proj2 (Z.leb_le 1 i)), (proj2 (Z.ltb_lt i (i + 1))) by lia. done.
      * rewrite Het by done. destruct (Z.leb_spec 1 k), (Z.ltb_spec k i), (Z.ltb_spec k (i + 1)); try done; lia.
    + intros a Hlt. rewrite Ha, Hat; [done|done|]. rewrite Hht. assert (i / 32 <= 31) by (apply Z.lt_succ_r, Z.div_lt_upper_bound; lia). lia.
  - split; [done|]. split; [done|]. split; [done|]. split; [|done].
    intros k Hk. destruct (Z.leb_spec 1 k), (Z.ltb_spec k 1); try done; lia.
  - exists s'. split; [done|]. split; [done|]. split; [done|]. split; [done|]. split; [|done].
    intros k Hk. rewrite He by done. destruct (Z.leb_spec 1 k), (Z.leb_spec k (Z.of_nat n)), (Z.ltb_spec k (1 + Z.of_nat n)); try done; lia.
Qed.

(** The source of the network card on the machine. *)
Definition net_irq (nr_irqs : Z) : Z := if nr_irqs >=? 33 then PLIC_E1000_QEMU_IRQ else PLIC_E1000_PYNQ_IRQ.

(** The registers a write to [a] leaves alone. *)
Lemma writel_ok s v a :
  words32 s ->
  exists s', writel v a s = Ok (tt, s') /\ words32 s' /\ plic_regs s' = plic_regs s /\ plic_handlers s' = plic_handlers s /\
    reg_at s' a = u32 v /\ forall b, a <> b -> reg_at s' b = reg_at s b.
Proof.
  intros Hw. eexists. split; [reflexivity|]. split.
  { intros b x E. cbn in E. apply lookup_insert_Some in E as [[_ <-]|[_ E]]; [apply u32_range|eauto]. }
  split; [done|]. split; [done|]. unfold reg_at. cbn [regs32]. split; [by rewrite lookup_insert_eq|].
  intros b Hb. by rewrite lookup_insert_ne.
Qed.

Lemma unmask_ok s id :
  words32 s -> 0 <= id < 1024 -> present (plic_handlers s) = true -> enable_base (plic_handlers s) = plic_regs s + ENABLE_BASE ->
  exists s', plic_irq_unmask id s = Ok (tt, s') /\ words32 s' /\ plic_regs s' = plic_regs s /\ plic_handlers s' = plic_handlers s /\
    priority s' id = 1 /\ (forall k, 0 <= k -> enabled s' k = if k =? id then true else enabled s k) /\
    (forall a, plic_regs s + CONTEXT_BASE <= a -> reg_at s' a = reg_at s a).
Proof.
  intros Hw Hid Hp Hb.
  destruct (writel_ok s 1 (plic_regs s + PRIORITY_BASE + id * PRIORITY_PER_ID) Hw) as (t & E & Hwt & Hrt & Hht & Hv & Ho).
  destruct (toggle_ok t id true Hwt ltac:(lia)) as (s' & E' & Hw' & Hr & Hh & He & Ha).
  assert (0 <= id / 32 <= 31) by (split; [apply Z.div_pos; lia|apply Z.lt_succ_r, Z.div_lt_upper_bound; lia]).
  rewrite Hht, Hb in Ha. unfold PRIORITY_BASE, PRIORITY_PER_ID, ENABLE_BASE, CONTEXT_BASE in *.
  exists s'. split.
  { unfold plic_irq_unmask. rewrite gets_bind, (bind_ok _ _ _ _ _ E), gets_bind, Hht, Hp. exact E'. }
  split; [done|]. split; [congruence|]. split; [congruence|]. split.
  { unfold priority, PRIORITY_BASE, PRIORITY_PER_ID. rewrite Ha; rewrite Hr, Hrt; [exact Hv|left; lia]. }
  split; [|intros a Hlt; rewrite Ha, Ho; [done|lia|lia]].
  intros k Hk. rewrite He by done. destruct (k =? id); [done|].
  unfold enabled. rewrite Hht, Ho; [done|]. rewrite Hb. pose proof (Z.div_pos k 32 Hk ltac:(lia)). lia.
Qed.

Definition wired (s : plic) : Prop :=
  plic_handlers s = mkHandler true (plic_regs s + CONTEXT_BASE) (plic_regs s + ENABLE_BASE).

(** From [done:] on. *)
Lemma setup_ok s th nr :
  words32 s -> 3 <= nr < 1024 -> wired s ->
  exists s', (h ← gets plic_handlers; writel th (hart_base h + CONTEXT_THRESHOLD);;
    for_loop (Z.to_nat nr) 1 (fun hwirq => plic_toggle hwirq false);;
    (if nr + 1 >? PLIC_E1000_QEMU_IRQ then plic_irq_unmask PLIC_E1000_QEMU_IRQ else plic_irq_unmask PLIC_E1000_PYNQ_IRQ);;
    mret 0) s = Ok (0, s') /\ words32 s' /\ wired s' /\ plic_regs s' = plic_regs s /\ threshold_of s' = u32 th /\
    priority s' (net_irq nr) = 1 /\ forall id, 1 <= id <= nr -> enabled s' id = (id =? net_irq nr).
Proof.
  intros Hw Hnr Hwi. unfold wired in *.
  assert (0 <= net_irq nr < 1024) as Hid by (unfold net_irq, PLIC_E1000_QEMU_IRQ, PLIC_E1000_PYNQ_IRQ; destruct (_ >=? _); lia).
  destruct (writel_ok s th (plic_regs s + CONTEXT_BASE + CONTEXT_THRESHOLD) Hw) as (t & E & Hwt & Hrt & Hht & Hv & _).
  destruct (disable_ok t (Z.to_nat nr) Hwt ltac:(lia)) as (u & E1 & Hwu & Hru & Hhu & He & Ha).
  destruct (unmask_ok u (net_irq nr) Hwu Hid) as (s' & E2 & Hw' & Hr & Hh & Hp & He' & Ha');
    [by rewrite Hhu, Hht, Hwi|by rewrite Hhu, Hht, Hwi, Hru, Hrt|].
  exists s'. split.
  { rewrite gets_bind, Hwi. cbn [hart_base]. rewrite (bind_ok _ _ _ _ _ E), (bind_ok _ _ _ _ _ E1).
    replace (if nr + 1 >? PLIC_E1000_QEMU_IRQ then _ else _) with (plic_irq_unmask (net_irq nr)).
    - by rewrite (bind_ok _ _ _ _ _ E2).
    - unfold net_irq, PLIC_E1000_QEMU_IRQ. rewrite Z.gtb_ltb, Z.geb_leb.
      destruct (Z.ltb_spec 33 (nr + 1)), (Z.leb_spec 33 nr); try done; lia. }
  split; [done|]. split; [by rewrite Hh, Hhu, Hht, Hwi, Hr, Hru, Hrt|]. split; [congruence|]. split.
  { unfold threshold_of. rewrite Hh, Hhu, Hht, Hwi. cbn [hart_base].
    rewrite Ha', Ha; [exact Hv| |rewrite Hru, Hrt; unfold CONTEXT_THRESHOLD; lia].
    rewrite Hht, Hwi. cbn [enable_base]. right. unfold ENABLE_BASE, CONTEXT_BASE, CONTEXT_THRESHOLD. lia. }
  split; [done|]. intros id Hr1. rewrite He', He by lia.
  rewrite (proj2 (Z.leb_le 1 id)), (proj2 (Z.leb_le id _)) by lia. by destruct (id =? _).
Qed.

(** The first call. *)
Lemma plic_init_first s base nr :
  words32 s -> 3 <= nr < 1024 -> present (plic_handlers s) = false ->
  exists s', plic_init base nr s = Ok (0, s') /\ words32 s' /\ wired s' /\ plic_regs s' = base /\
    forall id, 1 <= id <= nr -> delivers s' id = (id =? net_irq nr).
Proof.
  intros Hw Hnr Hp.
  set (t := mkPlic (regs32 s) base (mkHandler true (base + CONTEXT_BASE) (base + ENABLE_BASE)) (completed s)).
  destruct (setup_ok t 0 nr Hw Hnr eq_refl) as (s' & E & Hw' & Hwi & Hr & Ht & Hpr & He).
  exists s'. split; [|split; [done|split; [done|split; [done|]]]].
  - unfold plic_init. rewrite modify_bind, gets_bind. cbn [plic_handlers]. rewrite Hp. cbv iota zeta. rewrite modify_bind. exact E.
  - intros id Hid. unfold delivers. rewrite He, Ht by done. destruct (Z.eqb_spec id (net_irq nr)) as [->|]; [|done].
    by rewrite Hpr.
Qed.

(** C34. After plic_init the controller delivers exactly the interrupt of the network card; a
    second call masks every interrupt. *)
Theorem plic_init_delivers s base nr :
  words32 s -> 3 <= nr < 1024 -> present (plic_handlers s) = false ->
  exists s', plic_init base nr s = Ok (0, s') /\ (forall id, 1 <= id <= nr -> delivers s' id = (id =? net_irq nr)) /\
    exists s'', plic_init base nr s' = Ok (0, s'') /\ forall id, delivers s'' id = false.
Proof.
  intros Hw Hnr Hp. destruct (plic_init_first s base nr Hw Hnr Hp) as (s' & E & Hw' & Hwi & Hr & Hd).
  exists s'. split; [exact E|]. split; [exact Hd|].
  destruct (setup_ok s' 0xffffffff nr Hw' Hnr Hwi) as (s'' & E' & Hw'' & _ & _ & Ht' & _).
  exists s''. split.
  - unfold plic_init. rewrite modify_bind, gets_bind. cbn [plic_handlers].
    assert (present (plic_handlers s') = true) as -> by (by rewrite Hwi). cbv iota zeta.
    change (mret tt ≫= ?f) with (f tt). cbv beta.
    replace (mkPlic (regs32 s') base _ (completed s')) with s'; [exact E'|].
    destruct s'; cbn in Hr |- *. by rewrite Hr.
  - intros id. unfold delivers. rewrite Ht'. change (u32 0xffffffff) with (2 ^ 32 - 1).
    pose proof (reg_word s'' (plic_regs s'' + PRIORITY_BASE + id * PRIORITY_PER_ID) Hw'') as Hb.
    unfold priority. rewrite Z.gtb_ltb, (proj2 (Z.ltb_ge _ _)) by lia. apply andb_false_r.
Qed.

(** The interrupt of the card is served and completed, so that the controller can
    deliver the next one. *)
Lemma ext_irq_served s n' :
  (reg_at (eplic s) (hart_base (plic_handlers (eplic s)) + CONTEXT_CLAIM) = 33 \/ reg_at (eplic s) (hart_base (plic_handlers (eplic s)) + CONTEXT_CLAIM) = 3) ->
  net_handle_irq (enet s) = Ok (tt, n') ->
  exists s', handle_irq_ext s = Ok (tt, s') /\ enet s' = n' /\
    completed (eplic s') = completed (eplic s) ++ [reg_at (eplic s) (hart_base (plic_handlers (eplic s)) + CONTEXT_CLAIM)].
Proof.
  intros Hc Hn. set (c := reg_at _ _) in *.
  eexists. split.
  - unfold handle_irq_ext. rewrite (bind_ok (on_plic plic_claim) _ s c s); [|by destruct s].
    replace ((c =? PLIC_E1000_QEMU_IRQ) || (c =? PLIC_E1000_PYNQ_IRQ)) with true by (destruct Hc as [-> | ->]; done).
    rewrite (bind_ok (on_net net_handle_irq) _ s tt (mkExt (eplic s) n')); [|by unfold on_net, zoom; rewrite Hn].
    reflexivity.
  - done.
Qed.

Lemma plic_init_delivers_witness :
  exists s', plic_init 0x38000000 53 (mkPlic ∅ 0 (mkHandler false 0 0) []) = Ok (0, s') /\ delivers s' 33 = true.
Proof.
  destruct (plic_init_delivers (mkPlic ∅ 0 (mkHandler false 0 0) []) 0x38000000 53) as (s' & E & Hd & _); [done|lia|done|].
  exists s'. split; [exact E|]. apply (Hd 33). lia.
Defined.
