(* ===== verification/Bios.v ===== *)
(** * Calls into the firmware (arch/riscv/bios/common.c, include/os/kernel.h,
      init/main.c: init_jmptab)

    The kernel calls the firmware through a table of its own functions.  The firmware
    is a parameter: what it does with its eight arguments, the last of which is the
    number of the service; so are the other functions of the kernel in the table. *)
From S2P Require Import Prelude.

(** ** The table *)

Inductive jmptab_idx_t :=
| CONSOLE_PUTSTR | CONSOLE_PUTCHAR | CONSOLE_GETCHAR | SD_READ | SD_WRITE | QEMU_LOGGING | SET_TIMER | READ_FDT
| MOVE_CURSOR | PRINT | YIELD | MUTEX_INIT | MUTEX_ACQ | MUTEX_RELEASE | SCREEN_FLUSH | SCREEN_WRITE | NUM_ENTRIES.
Definition index_of (i : jmptab_idx_t) : nat :=
  match i with
  | CONSOLE_PUTSTR => 0 | CONSOLE_PUTCHAR => 1 | CONSOLE_GETCHAR => 2 | SD_READ => 3 | SD_WRITE => 4 | QEMU_LOGGING => 5
  | SET_TIMER => 6 | READ_FDT => 7 | MOVE_CURSOR => 8 | PRINT => 9 | YIELD => 10 | MUTEX_INIT => 11 | MUTEX_ACQ => 12
  | MUTEX_RELEASE => 13 | SCREEN_FLUSH => 14 | SCREEN_WRITE => 15 | NUM_ENTRIES => 16
  end%nat.

(** The functions in the table. *)
Inductive jfunc :=
| J_port_write | J_port_write_ch | J_port_read_ch | J_sd_read | J_sd_write | J_qemu_logging | J_set_timer | J_read_fdt
| J_screen_move_cursor | J_printk | J_do_scheduler | J_do_mutex_lock_init | J_do_mutex_lock_acquire
| J_do_mutex_lock_release | J_screen_reflush | J_screen_write.

Definition init_jmptab (jmptab : list (option jfunc)) : list (option jfunc) :=
  let set i f t := <[index_of i := Some f]> t in
  set SCREEN_WRITE J_screen_write (set SCREEN_FLUSH J_screen_reflush
  (set MUTEX_RELEASE J_do_mutex_lock_release (set MUTEX_ACQ J_do_mutex_lock_acquire (set MUTEX_INIT J_do_mutex_lock_init
  (set YIELD J_do_scheduler (set PRINT J_printk (set MOVE_CURSOR J_screen_move_cursor
  (set READ_FDT J_read_fdt (set SET_TIMER J_set_timer (set QEMU_LOGGING J_qemu_logging (set SD_WRITE J_sd_write
  (set SD_READ J_sd_read (set CONSOLE_GETCHAR J_port_read_ch (set CONSOLE_PUTCHAR J_port_write_ch
  (set CONSOLE_PUTSTR J_port_write jmptab))))))))))))))).

(** Numbers of the services (asm/biosdef.h). *)
Definition BIOS_SETTIMER : Z := 0.
Definition BIOS_PUTCHAR : Z := 1.
Definition BIOS_GETCHAR : Z := 2.
Definition BIOS_SEND_IPI : Z := 4.
Definition BIOS_PUTSTR : Z := 9.
Definition BIOS_SDWRITE : Z := 10.
Definition BIOS_SDREAD : Z := 11.
Definition BIOS_FDTREAD : Z := 12.
Definition BIOS_LOGGING : Z := 14.

Section Bios.
Context {S : Type} (bios_func : Z -> Z -> Z -> Z -> Z -> Z -> Z -> Z -> M S Z)
  (kernel_func : jfunc -> Z -> Z -> Z -> Z -> Z -> M S Z).

(** ** common.c *)

Definition call_bios (which arg0 arg1 arg2 arg3 arg4 : Z) : M S Z := bios_func arg0 arg1 arg2 arg3 arg4 0 0 which.
Definition port_write_ch (ch : Z) : M S Z := call_bios BIOS_PUTCHAR ch 0 0 0 0;; mret 0.
Definition port_write (str : Z) : M S Z := call_bios BIOS_PUTSTR str 0 0 0 0;; mret 0.
Definition port_read_ch : M S Z := r ← call_bios BIOS_GETCHAR 0 0 0 0 0; mret (i32 r).
Definition sd_read (mem_address num_of_blocks block_id : Z) : M S Z :=
  r ← call_bios BIOS_SDREAD mem_address num_of_blocks block_id 0 0; mret (i32 r).
Definition sd_write (mem_address num_of_blocks block_id : Z) : M S Z :=
  r ← call_bios BIOS_SDWRITE mem_address num_of_blocks block_id 0 0; mret (i32 r).
Definition set_timer (stime_value : Z) : M S Z := call_bios BIOS_SETTIMER (i64 stime_value) 0 0 0 0;; mret 0.
Definition read_fdt (type : Z) : M S Z := r ← call_bios BIOS_FDTREAD type 0 0 0 0; mret (u64 r).
Definition qemu_logging (str : Z) : M S Z := call_bios BIOS_LOGGING str 0 0 0 0;; mret 0.
Definition send_ipi (hart_mask : Z) : M S Z := call_bios BIOS_SEND_IPI hart_mask 0 0 0 0;; mret 0.

(** A call of a function of the table: its parameters have their own types, here those
    of the registers that are read. *)
Definition run_jfunc (f : jfunc) (arg0 arg1 arg2 arg3 arg4 : Z) : M S Z :=
  match f with
  | J_port_write => port_write arg0
  | J_port_write_ch => port_write_ch (u8 arg0)
  | J_port_read_ch => port_read_ch
  | J_sd_read => sd_read (u32 arg0) (u32 arg1) (u32 arg2)
  | J_sd_write => sd_write (u32 arg0) (u32 arg1) (u32 arg2)
  | J_qemu_logging => qemu_logging arg0
  | J_set_timer => set_timer (u64 arg0)
  | J_read_fdt => read_fdt (u32 arg0)
  | _ => kernel_func f arg0 arg1 arg2 arg3 arg4
  end.

(** ** kernel.h *)

Section Table.
Variable jmptab : list (option jfunc).

Definition call_jmptab (which : jmptab_idx_t) (arg0 arg1 arg2 arg3 arg4 : Z) : M S Z :=
  f ← lift (of_option Fault (mjoin (jmptab !! index_of which)));
  run_jfunc f arg0 arg1 arg2 arg3 arg4.
Definition bios_putstr (str : Z) : M S unit := call_jmptab CONSOLE_PUTSTR str 0 0 0 0;; mret tt.
Definition bios_putchar (ch : Z) : M S unit := call_jmptab CONSOLE_PUTCHAR ch 0 0 0 0;; mret tt.
Definition bios_getchar : M S Z := r ← call_jmptab CONSOLE_GETCHAR 0 0 0 0 0; mret (i32 r).
Definition bios_sd_read (mem_address num_of_blocks block_id : Z) : M S Z :=
  r ← call_jmptab SD_READ mem_address num_of_blocks block_id 0 0; mret (i32 r).
Definition bios_sd_write (mem_address num_of_blocks block_id : Z) : M S Z :=
  r ← call_jmptab SD_WRITE mem_address num_of_blocks block_id 0 0; mret (i32 r).
Definition bios_logging (str : Z) : M S unit := call_jmptab QEMU_LOGGING str 0 0 0 0;; mret tt.
Definition bios_set_timer (stime_value : Z) : M S unit := call_jmptab SET_TIMER (i64 stime_value) 0 0 0 0;; mret tt.
Definition bios_read_fdt (type : Z) : M S Z := r ← call_jmptab READ_FDT type 0 0 0 0; mret (u64 r).
End Table.
End Bios.

(** ** Properties *)

(** The kernel's requests. *)
Inductive request :=
| R_putstr (str : Z) | R_putchar (ch : Z) | R_getchar | R_sd_read (mem n block : Z) | R_sd_write (mem n block : Z)
| R_logging (str : Z) | R_set_timer (t : Z) | R_read_fdt (type : Z).
Definition request_ok (r : request) : Prop :=
  match r with
  | R_putchar c => 0 <= c < 2 ^ 8
  | R_sd_read a b c | R_sd_write a b c => 0 <= a < 2 ^ 32 /\ 0 <= b < 2 ^ 32 /\ 0 <= c < 2 ^ 32
  | R_set_timer t => 0 <= t < 2 ^ 63
  | R_read_fdt t => 0 <= t < 2 ^ 32
  | _ => True
  end.
Section Reach.
Context {S : Type} (bios_func : Z -> Z -> Z -> Z -> Z -> Z -> Z -> Z -> M S Z)
  (kernel_func : jfunc -> Z -> Z -> Z -> Z -> Z -> M S Z) (jmptab : list (option jfunc)).

Definition send_request (r : request) : M S Z :=
  let t := init_jmptab jmptab in
  match r with
  | R_putstr s => bios_putstr bios_func kernel_func t s;; mret 0
  | R_putchar c => bios_putchar bios_func kernel_func t c;; mret 0
  | R_getchar => bios_getchar bios_func kernel_func t
  | R_sd_read a n b => bios_sd_read bios_func kernel_func t a n b
  | R_sd_write a n b => bios_sd_write bios_func kernel_func t a n b
  | R_logging s => bios_logging bios_func kernel_func t s;; mret 0
  | R_set_timer v => bios_set_timer bios_func kernel_func t v;; mret 0
  | R_read_fdt k => bios_read_fdt bios_func kernel_func t k
  end.
(** The service and its arguments, and what the kernel makes of the result. *)
Definition service (r : request) : Z * Z * Z * Z * (Z -> Z) :=
  match r with
  | R_putstr s => (BIOS_PUTSTR, s, 0, 0, fun _ => 0)
  | R_putchar c => (BIOS_PUTCHAR, c, 0, 0, fun _ => 0)
  | R_getchar => (BIOS_GETCHAR, 0, 0, 0, i32)
  | R_sd_read a n b => (BIOS_SDREAD, a, n, b, i32)
  | R_sd_write a n b => (BIOS_SDWRITE, a, n, b, i32)
  | R_logging s => (BIOS_LOGGING, s, 0, 0, fun _ => 0)
  | R_set_timer v => (BIOS_SETTIMER, v, 0, 0, fun _ => 0)
  | R_read_fdt k => (BIOS_FDTREAD, k, 0, 0, u64)
  end.

Lemma i32_i32 z : i32 (i32 z) = i32 z.
Proof. apply i32_small. unfold i32. pose proof (Z.mod_pos_bound (z + 2 ^ 31) (2 ^ 32) ltac:(lia)). lia. Qed.
Lemma u8_small z : 0 <= z < 2 ^ 8 -> u8 z = z.
Proof. apply Z.mod_small. Qed.
Lemma u64_u64 z : u64 (u64 z) = u64 z.
Proof. apply u64_small, u64_range. Qed.

End Reach.

(** Every request of the kernel reaches the firmware as the service of that name, with
    the arguments the caller gave and the result as the caller's type has it, whatever
    was in the table's memory before. *)
Theorem bios_requests {S} (bios_func : Z -> Z -> Z -> Z -> Z -> Z -> Z -> Z -> M S Z) kernel_func jmptab r s :
  length jmptab = 16%nat -> request_ok r ->
  send_request bios_func kernel_func jmptab r s =
    (let '(which, a, b, c, f) := service r in v ← bios_func a b c 0 0 0 0 which; mret (f v)) s.
Proof.
  intros Hl Hr. do 16 (destruct jmptab as [|? jmptab]; [done|]). destruct jmptab; [|done].
  destruct r; cbn in Hr;
    cbv [send_request bios_putstr bios_putchar bios_getchar bios_sd_read bios_sd_write bios_logging bios_set_timer bios_read_fdt
      call_jmptab init_jmptab index_of insert list_insert lookup list_lookup mjoin option_join of_option lift run_jfunc service
      port_write port_write_ch port_read_ch sd_read sd_write qemu_logging set_timer read_fdt call_bios mbind M_bind mret M_ret];
    repeat match goal with
      | |- context [i64 ?x] => rewrite (i64_small x) by lia
      | |- context [u64 ?x] => rewrite (u64_small x) by lia
      | |- context [u32 ?x] => rewrite (u32_small x) by lia
      | |- context [u8 ?x] => rewrite (u8_small x) by lia
      end;
    destruct (bios_func _ _ _ _ _ _ _ _ _) as [[? ?]|]; rewrite ?i32_i32, ?u64_u64; done.
Qed.

Lemma bios_requests_witness :
  send_request (fun a b c _ _ _ _ w s => Ok (0, s ++ [(w, a, b, c)])) (fun _ _ _ _ _ _ => mret 0) (replicate 16 None) (R_sd_read 0x52000000 8 256) [] =
    Ok (0, [(BIOS_SDREAD, 0x52000000, 8, 256)]).
Proof.
  rewrite (bios_requests (fun a b c _ _ _ _ w s => Ok (0, s ++ [(w, a, b, c)])) (fun _ _ _ _ _ _ => mret 0) (replicate 16 None) (R_sd_read 0x52000000 8 256) []);
    [reflexivity|done|cbn; lia].
Defined.
