(* ===== verification/Boot.v ===== *)
(** * Start of the kernel (arch/riscv/kernel/boot.c, init/main.c)

    The first page table, made before address translation is on: all physical memory
    at its kernel address, and the boot code at its physical address until
    [cancel_temp_pgdir] takes that mapping away.  Memory holds the words that were
    written since the machine came up, by physical address; reading any other word is
    a fault, so that nothing depends on what memory held before. *)
From S2P Require Import Prelude DList CString Sched PageTable Mm.

Definition PGDIR_PA : Z := 0x51000000.
Definition SATP_MODE_SV39 : Z := 8.
Definition SATP_ASID_SHIFT : Z := 44.
Definition SATP_MODE_SHIFT : Z := 60.

Record bootst := mkBoot { bmem : words; pg_base : Z; satp : Z }.
Definition with_bmem v s := mkBoot v (pg_base s) (satp s).
Definition with_satp v s := mkBoot (bmem s) (pg_base s) v.

Definition pload (a : Z) : M bootst Z := m ← gets bmem; lift (of_option Fault (m !! a)).
Definition pstore (a v : Z) : M bootst unit := modify (fun s => with_bmem (st64 (bmem s) a v) s).

(** ** boot.c *)

Definition alloc_page : M bootst Z :=
  modify (fun s => mkBoot (bmem s) (u64 (pg_base s + 0x1000)) (satp s));;
  gets pg_base.

(** One page of 2 MB. *)
Definition map_page (va pa pgdir : Z) : M bootst unit :=
  e ← pload (slot pgdir (vpn2 va));
  (if e =? 0 then
     q ← alloc_page;
     pstore (slot pgdir (vpn2 va)) (set_pfn e (Z.shiftr q NORMAL_PAGE_SHIFT));;
     e ← pload (slot pgdir (vpn2 va));
     pstore (slot pgdir (vpn2 va)) (set_attribute e PAGE_PRESENT);;
     e ← pload (slot pgdir (vpn2 va));
     modify (fun s => with_bmem (clear_pgdir (get_pa e) (bmem s)) s)
   else mret tt);;
  e ← pload (slot pgdir (vpn2 va));
  let pmd := get_pa e in
  l ← pload (slot pmd (vpn1 va));
  pstore (slot pmd (vpn1 va)) (set_pfn l (Z.shiftr pa NORMAL_PAGE_SHIFT));;
  l ← pload (slot pmd (vpn1 va));
  pstore (slot pmd (vpn1 va))
    (set_attribute l (PAGE_PRESENT + PAGE_READ + PAGE_WRITE + PAGE_EXEC + PAGE_ACCESSED + PAGE_DIRTY)).

Definition set_satp (mode asid ppn : Z) : M bootst unit :=
  modify (with_satp (Z.lor (Z.lor (u64 (Z.shiftl mode SATP_MODE_SHIFT)) (u64 (Z.shiftl asid SATP_ASID_SHIFT))) ppn)).
Definition enable_vm : M bootst unit := set_satp SATP_MODE_SV39 0 (Z.shiftr PGDIR_PA NORMAL_PAGE_SHIFT).

(** [for (va = from; va < limit; va += 0x200000) map_page(va, pa(va), pgdir)] *)
Fixpoint map_range (fuel : nat) (va limit : Z) (pa : Z -> Z) (pgdir : Z) : M bootst unit :=
  if va <? limit then
    match fuel with
    | O => fail OutOfFuel
    | S fuel' => map_page va (pa va) pgdir;; map_range fuel' (u64 (va + 0x200000)) limit pa pgdir
    end
  else mret tt.
(** 128 pages and 8 pages. *)
Definition setup_vm : M bootst unit :=
  modify (fun s => with_bmem (clear_pgdir PGDIR_PA (bmem s)) s);;
  map_range 128 0xffffffc050000000 0xffffffc060000000 kva2pa PGDIR_PA;;
  map_range 8 0x50000000 0x51000000 (fun pa => pa) PGDIR_PA;;
  enable_vm.

(** The result is the address of the kernel that is called. *)
Definition boot_kernel (start mhartid : Z) : M bootst Z :=
  (if mhartid =? 0 then setup_vm else enable_vm);;
  mret (pa2kva start).

(** ** Address translation, by the architecture (Sv39) *)

Definition canonical (va : Z) : bool := (0 <=? va) && ((va <? 2 ^ 38) || ((2 ^ 64 - 2 ^ 38 <=? va) && (va <? 2 ^ 64))).
Definition RWX : Z := PAGE_READ + PAGE_WRITE + PAGE_EXEC.
(** The table of the second level at index [i], and the page at index [j] of a table;
    a larger page and a third level do not occur here. *)
Definition table_at (m : words) (root i : Z) : option Z :=
  e ← m !! slot root i;
  if (Z.land e PAGE_PRESENT =? 0) || negb (Z.land e RWX =? 0) then None else Some (get_pa e).
Definition page_at (m : words) (t j : Z) : option Z :=
  l ← m !! slot t j;
  if (Z.land l PAGE_PRESENT =? 0) || (Z.land l RWX =? 0) then None else Some (get_pa l).
Definition translate (s : bootst) (va : Z) : option Z :=
  if (satp s =? Z.lor (Z.shiftl SATP_MODE_SV39 60) (Z.shiftr PGDIR_PA 12)) && canonical va then
    t ← table_at (bmem s) PGDIR_PA (va mod 2 ^ 39 / 2 ^ 30);
    base ← page_at (bmem s) t (va mod 2 ^ 30 / 2 ^ 21);
    Some (base + va mod 2 ^ 21)
  else None.

(** ** main.c *)

(** Access to a virtual address. *)
Definition vload (va : Z) : M bootst Z := s ← get_st; a ← lift (of_option Fault (translate s va)); pload a.
Definition vstore (va v : Z) : M bootst unit := s ← get_st; a ← lift (of_option Fault (translate s va)); pstore a v.
Fixpoint vclear (n : nat) (va : Z) : M bootst unit :=
  match n with O => mret tt | S n' => vstore va 0;; vclear n' (va + 8) end.

Definition cancel_temp_pgdir : M bootst unit :=
  let va := 0x50000000 in
  let vpn2 := Z.shiftr va (NORMAL_PAGE_SHIFT + PPN_BITS + PPN_BITS) in
  e ← vload (slot PGDIR_VA vpn2);
  vclear NUM_PTE_ENTRY (pa2kva (get_pa e));;
  vstore (slot PGDIR_VA vpn2) 0.

(** [current_running] of hart 0 is the idle PCB of the master. *)
Definition init_pcb : M sched unit :=
  for_loop NUM_MAX_TASK 0 (fun i => upd_pcb (Pcb (Z.to_nat i)) (set_status TASK_EXITED));;
  modify (with_current MasterPid0).

(** ** Properties *)

Definition power_on : bootst := mkBoot ∅ PGDIR_PA 0.
(** The pages that should be there: 2 MB pages 128 to 255 of slot 257, and 128 to 135
    of slot 1 while the boot code is mapped at its physical address. *)
Definition wanted_page (boot : bool) (i j : Z) : option Z :=
  if ((i =? 257) && (128 <=? j) && (j <? 256)) || (boot && (i =? 1) && (128 <=? j) && (j <? 136))
  then Some (0x40000000 + j * 0x200000) else None.
Definition check_tables (boot : bool) (s : bootst) : bool :=
  (satp s =? Z.lor (Z.shiftl SATP_MODE_SV39 60) (Z.shiftr PGDIR_PA 12)) &&
  forallb (fun i => match table_at (bmem s) PGDIR_PA i with
    | None => negb (i =? 257) && negb (boot && (i =? 1))
    | Some t => forallb (fun j => bool_decide (page_at (bmem s) t j = wanted_page boot i j)) (map Z.of_nat (seq 0 512))
    end) (map Z.of_nat (seq 0 512)).

Lemma in_512 i : 0 <= i < 512 -> i ∈ map Z.of_nat (seq 0 512).
Proof. intros Hi. apply list_elem_of_fmap. exists (Z.to_nat i). split; [lia|]. apply elem_of_seq. lia. Qed.

Lemma check_tables_spec boot s i j :
  check_tables boot s = true -> 0 <= i < 512 -> 0 <= j < 512 ->
  (t ← table_at (bmem s) PGDIR_PA i; page_at (bmem s) t j) = wanted_page boot i j.
Proof.
  intros [_ Hc]%andb_true_iff Hi Hj. rewrite forallb_forall in Hc. specialize (Hc i). rewrite <- list_elem_of_In in Hc. specialize (Hc (in_512 i Hi)).
  destruct (table_at _ _ _) as [t|] eqn:E; cbn.
  - rewrite forallb_forall in Hc. specialize (Hc j). rewrite <- list_elem_of_In in Hc. exact (proj1 (bool_decide_eq_true _) (Hc (in_512 j Hj))).
  - apply andb_true_iff in Hc as [H1%negb_true_iff H2%negb_true_iff]. unfold wanted_page. rewrite H1. destruct boot; cbn in *; [by rewrite H2|done].
Qed.

(** What a virtual address stands for. *)
Definition meaning (boot : bool) (va : Z) : option Z :=
  if (0xffffffc050000000 <=? va) && (va <? 0xffffffc060000000) then Some (kva2pa va)
  else if boot && (0x50000000 <=? va) && (va <? 0x51000000) then Some va else None.

Lemma canonical_cases va : canonical va = true ->
  (0 <= va < 2 ^ 38 /\ va mod 2 ^ 39 = va) \/ (2 ^ 64 - 2 ^ 38 <= va < 2 ^ 64 /\ va mod 2 ^ 39 = va - (2 ^ 64 - 2 ^ 39)).
Proof.
  unfold canonical. intros [H0%Z.leb_le [H1%Z.ltb_lt|[H1%Z.leb_le H2%Z.ltb_lt]%andb_true_iff]%orb_true_iff]%andb_true_iff.
  - left. split; [lia|]. apply Z.mod_small. lia.
  - right. split; [lia|]. symmetry. apply (Z.mod_unique _ _ (2 ^ 25 - 1)); lia.
Qed.

Lemma translate_checked boot s va :
  check_tables boot s = true -> canonical va = true -> translate s va = meaning boot va.
Proof.
  intros Hc Hv. pose proof (canonical_cases va Hv) as Hva. pose proof Hc as [Hs _]%andb_true_iff.
  unfold translate. rewrite Hs, Hv. cbn [andb].
  pose proof (Z.mod_pos_bound va (2 ^ 39) ltac:(lia)). pose proof (Z.mod_pos_bound va (2 ^ 30) ltac:(lia)).
  pose proof (Z.mod_pos_bound va (2 ^ 21) ltac:(lia)).
  set (i := va mod 2 ^ 39 / 2 ^ 30). set (j := va mod 2 ^ 30 / 2 ^ 21).
  assert (0 <= i < 512) as Hi by (unfold i; split; [apply Z.div_pos; lia|apply Z.div_lt_upper_bound; lia]).
  assert (0 <= j < 512) as Hj by (unfold j; split; [apply Z.div_pos; lia|apply Z.div_lt_upper_bound; lia]).
  pose proof (check_tables_spec boot s i j Hc Hi Hj) as E.
  assert (va mod 2 ^ 39 = i * 2 ^ 30 + j * 2 ^ 21 + va mod 2 ^ 21) as Hsplit.
  { pose proof (Z.div_mod (va mod 2 ^ 39) (2 ^ 30) ltac:(lia)) as D1. fold i in D1.
    pose proof (Z.div_mod (va mod 2 ^ 30) (2 ^ 21) ltac:(lia)) as D2. fold j in D2.
    rewrite Z.mod_mod_divide in D1 by (exists (2 ^ 9); lia).
    rewrite Z.mod_mod_divide in D2 by (exists (2 ^ 9); lia). lia. }
  replace (t ← table_at (bmem s) PGDIR_PA i; base ← page_at (bmem s) t j; Some (base + va mod 2 ^ 21))
    with (base ← wanted_page boot i j; Some (base + va mod 2 ^ 21)) by (rewrite <- E; by destruct (table_at _ _ _)).
  set (r := va mod 2 ^ 21) in *. clearbody i j r. clear E Hc Hs.
  assert (kva2pa va = va - KVA_BASE \/ va < 2 ^ 38) as Hk.
  { destruct Hva as [Hlow|Hhigh]; [right; lia|left]. unfold kva2pa, KVA_BASE. apply u64_small. lia. }
  unfold wanted_page, meaning, KVA_BASE in *.
  destruct boot; cbn [andb];
    destruct (Z.eqb_spec i 257), (Z.eqb_spec i 1), (Z.leb_spec 128 j), (Z.ltb_spec j 256), (Z.ltb_spec j 136),
      (Z.leb_spec 0xffffffc050000000 va), (Z.ltb_spec va 0xffffffc060000000), (Z.leb_spec 0x50000000 va), (Z.ltb_spec va 0x51000000);
    cbn [andb orb]; try lia; try done; cbn; f_equal; lia.
Qed.

Lemma translate_all boot s va :
  check_tables boot s = true -> translate s va = if canonical va then meaning boot va else None.
Proof.
  intros Hc. destruct (canonical va) eqn:E; [by apply translate_checked|]. unfold translate. by rewrite E, andb_false_r.
Qed.

Lemma tables_computed :
  match setup_vm power_on with
  | Ok (_, s) => check_tables true s && match cancel_temp_pgdir s with Ok (_, s') => check_tables false s' | Err _ => false end
  | Err _ => false
  end = true.
Proof. vm_compute. reflexivity. Qed.

(** C20. After boot_kernel exactly the kernel window and the boot code are mapped;
    cancel_temp_pgdir removes the latter and nothing else. *)
Theorem boot_address_space start :
  exists s s', boot_kernel start 0 power_on = Ok (pa2kva start, s) /\ cancel_temp_pgdir s = Ok (tt, s') /\
    (forall va, translate s va = if canonical va then meaning true va else None) /\
    (forall va, translate s' va = if canonical va then meaning false va else None).
Proof.
  pose proof tables_computed as H. destruct (setup_vm power_on) as [[[] s]|] eqn:E; [|done].
  apply andb_true_iff in H as [H1 H2]. destruct (cancel_temp_pgdir s) as [[[] s']|] eqn:E'; [|done].
  exists s, s'. split; [unfold boot_kernel; cbn [Z.eqb]; by rewrite (bind_ok _ _ _ _ _ E)|]. split; [done|].
  split; intros va; by apply translate_all.
Qed.

(** A second hart that removes the mapping again finds an empty entry, takes address 0 for
    the table and faults. *)
Lemma cancel_twice :
  match (setup_vm;; cancel_temp_pgdir;; cancel_temp_pgdir) power_on with Err Fault => true | _ => false end = true.
Proof. vm_compute. reflexivity. Qed.

(** The pages the allocators hand out lie in the kernel's window. *)
Lemma pages_in_window k off :
  0 <= off < PAGE_SIZE ->
  (0 <= k < FREE_USER_PAGE_NUM -> meaning false (USER_MEM_BASE + k * PAGE_SIZE + off) = Some (kva2pa (USER_MEM_BASE + k * PAGE_SIZE + off))) /\
  (0 <= k < FREE_KERNEL_PAGE_NUM -> meaning false (INIT_KERNEL_STACK + k * PAGE_SIZE + off) = Some (kva2pa (INIT_KERNEL_STACK + k * PAGE_SIZE + off))).
Proof.
  unfold meaning, USER_MEM_BASE, INIT_KERNEL_STACK, PAGE_SIZE, FREE_USER_PAGE_NUM, FREE_KERNEL_PAGE_NUM.
  intros Ho. split; intros Hk; rewrite (proj2 (Z.leb_le _ _)), (proj2 (Z.ltb_lt _ _)) by lia; done.
Qed.
