(* ===== verification/IoMap.v ===== *)
(** * The window of the devices (kernel/mm/ioremap.c)

    What [ioremap] does to the page table of the kernel.  The window is the slots 384 to
    399 of the root table at [PGDIR_VA]; [io_base] walks through it page by page. *)
From S2P Require Import Prelude DList Sched FsLayout PageTable Mm MmFacts MmWitness.

Definition IO_LO : Z := 384.
Definition IO_HI : Z := 400.
Definition IO_PAGES : Z := 2 ^ 22.
(** Page [j] of the window. *)
Definition io_va (j : Z) : Z := IO_ADDR_START + PAGE_SIZE * j.

Lemma io_page j : 0 <= j < IO_PAGES -> page_of (io_va j) = IO_LO * 2 ^ 18 + j.
Proof.
  unfold page_of, io_va, IO_PAGES, IO_LO, IO_ADDR_START, PAGE_SIZE. intros Hj.
  change VA_MASK with (Z.ones 39). rewrite Z.land_ones by lia.
  replace (0xffffffe000000000 + 4096 * j) with (384 * 2 ^ 30 + 4096 * j + 0x1ffffff * 2 ^ 39) by lia.
  rewrite Z.mod_add, Z.mod_small by lia.
  replace (384 * 2 ^ 30 + 4096 * j) with ((384 * 2 ^ 18 + j) * 4096) by lia. by rewrite Z.div_mul.
Qed.
Lemma io_vpn j : 0 <= j < IO_PAGES ->
  vpn2 (io_va j) = IO_LO + j / 2 ^ 18 /\ vpn1 (io_va j) = j / 512 mod 512 /\ vpn0 (io_va j) = j mod 512.
Proof.
  intros Hj. pose proof (io_page j Hj) as E. unfold page_of in E. rewrite vpn_page in E.
  destruct (vpn_ranges (io_va j)) as (H2 & H1 & H0). unfold IO_PAGES, IO_LO in *.
  pose proof (Z.div_mod j 512 ltac:(lia)). pose proof (Z.div_mod (j / 512) 512 ltac:(lia)) as E2.
  rewrite Z.div_div in E2 by lia. change (512 * 512) with (2 ^ 18) in E2.
  pose proof (Z.mod_pos_bound j 512 ltac:(lia)). pose proof (Z.mod_pos_bound (j / 512) 512 ltac:(lia)).
  pose proof (Z.div_pos j (2 ^ 18) ltac:(lia) ltac:(lia)). lia.
Qed.
Lemma io_in_window j : 0 <= j < IO_PAGES -> in_window IO_LO IO_HI (io_va j).
Proof.
  intros Hj. unfold in_window. destruct (io_vpn j Hj) as (-> & _). unfold IO_HI, IO_LO, IO_PAGES in *.
  pose proof (Z.div_pos j (2 ^ 18) ltac:(lia) ltac:(lia)). pose proof (Z.div_lt_upper_bound j (2 ^ 18) 16 ltac:(lia) ltac:(lia)). lia.
Qed.
Lemma window_page va : in_window IO_LO IO_HI va -> exists j, 0 <= j < IO_PAGES /\ page_of va = page_of (io_va j).
Proof.
  unfold in_window, IO_LO, IO_HI. intros Hw. destruct (vpn_ranges va) as (_ & H1 & H0).
  exists ((vpn2 va - 384) * 2 ^ 18 + vpn1 va * 2 ^ 9 + vpn0 va).
  assert (0 <= (vpn2 va - 384) * 2 ^ 18 + vpn1 va * 2 ^ 9 + vpn0 va < IO_PAGES) as Hj by (unfold IO_PAGES; lia).
  split; [done|]. rewrite (io_page _ Hj). unfold page_of, IO_LO. rewrite vpn_page. lia.
Qed.

Section Io.
Context {D : Type} `{!SwapDevice D}.
Implicit Types (s : @mmst D) (T : gmap Z level).

(** ** Taking a table *)

Definition io_tables s T : Prop :=
  bm_wf FREE_KERNEL_PAGE_NUM (kernel_bitmap s) /\ pt_wf_in IO_LO IO_HI (ram s) PGDIR_VA T /\
  (forall p, is_Some (T !! p) -> p = PGDIR_VA \/ INIT_KERNEL_STACK <= p) /\
  forall p k, is_Some (T !! p) -> kernel_free s k -> p <> kernel_kva k.
(** Memory below the pool of kernel pages, the entries of the window apart. *)
Definition low_same (m m' : words) : Prop :=
  forall a, a < INIT_KERNEL_STACK -> (forall i, IO_LO <= i < IO_HI -> a <> slot PGDIR_VA i) -> ld64 m' a = ld64 m a.
(** The state changes in memory and in the bitmap of the kernel's pages only. *)
Definition io_step s T s' T' : Prop :=
  io_tables s' T' /\ pt_ext_in IO_LO IO_HI PGDIR_VA (ram s) T (ram s') T' /\ low_same (ram s) (ram s') /\
  s' = with_ram (ram s') (with_kbitmap (kernel_bitmap s') s).

Lemma io_step_refl s T : io_tables s T -> io_step s T s T.
Proof. intros Ht. split; [done|]. split; [apply pt_ext_refl, Ht|]. split; [done|]. by destruct s. Qed.
Lemma io_step_trans s1 T1 s2 T2 s3 T3 : io_step s1 T1 s2 T2 -> io_step s2 T2 s3 T3 -> io_step s1 T1 s3 T3.
Proof.
  intros (A1 & A2 & A3 & A4) (B1 & B2 & B3 & B4). split; [done|]. split; [by eapply pt_ext_trans|]. split.
  - intros a Ha Hn. by rewrite B3, A3.
  - rewrite B4, A4. done.
Qed.

Lemma take_page s : bm_wf FREE_KERNEL_PAGE_NUM (kernel_bitmap s) -> (exists k, kernel_free s k) ->
  exists k, kernel_free s k /\ alloc_kernel_page s = Ok (kernel_kva k, with_kbitmap (set_bit (kernel_bitmap s) k) s) /\
    bm_wf FREE_KERNEL_PAGE_NUM (set_bit (kernel_bitmap s) k) /\
    forall j, free_in FREE_KERNEL_PAGE_NUM (set_bit (kernel_bitmap s) k) j <-> kernel_free s j /\ j <> k.
Proof.
  intros Hb Hf. destruct (alloc_kernel_page_ok s Hb Hf) as (k & Hk & E). exists k. split; [done|]. split; [done|].
  split; [by apply bm_wf_set|]. intros j. apply free_in_set; [done|apply Hk].
Qed.

(** Whether the slot is empty decides whether a page is taken. *)
Lemma ensure_io s T t i lv lt n :
  io_tables s T -> T !! t = Some lt -> 0 <= i < 512 ->
  (let e := ld64 (ram s) (slot t i) in e = 0 \/ T !! pa2kva (get_pa e) = Some lv) ->
  (forall q, kpage q -> T !! q = None -> ld64 (ram s) (slot t i) = 0 ->
     pt_ext_in IO_LO IO_HI PGDIR_VA (ram s) T (add_table (ram s) t i q) (<[q := lv]> T)) ->
  (t = PGDIR_VA -> IO_LO <= i < IO_HI) ->
  at_least ((if ld64 (ram s) (slot t i) =? 0%Z then 1 else 0) + n) (kernel_free s) ->
  exists q s' T', ensure_table (fun _ => mret tt) t i s = Ok (q, s') /\ io_step s T s' T' /\ T' !! q = Some lv /\
    (let e := ld64 (ram s') (slot t i) in e <> 0 /\ pa2kva (get_pa e) = q) /\
    (forall p l j, T !! p = Some l -> 0 <= j < 512 -> p <> t -> ld64 (ram s') (slot p j) = ld64 (ram s) (slot p j)) /\
    (ld64 (ram s) (slot t i) = 0 -> forall j, 0 <= j < 512 -> ld64 (ram s') (slot q j) = 0) /\
    (ld64 (ram s) (slot t i) <> 0 -> s' = s) /\ at_least n (kernel_free s').
Proof.
  intros Ht Hlt Hi He Hext Hlow Hk. cbv zeta in He. unfold ensure_table. erewrite bind_ok by apply load_ok.
  destruct (Z.eqb_spec (ld64 (ram s) (slot t i)) 0) as [Hz|Hnz].
  2:{ destruct He as [He|He]; [done|]. erewrite bind_ok by done. erewrite bind_ok by apply load_ok.
      eexists _, s, T. split; [reflexivity|]. split; [by apply io_step_refl|]. by repeat split. }
  destruct Ht as (Hb & Hp & Hpool & Hf). destruct (take_page s Hb (at_least_some _ _ Hk)) as (k & Hfk & Ek & Hb' & Hfree).
  set (q := kernel_kva k) in *. assert (kpage q) as Hq by apply kernel_kva_page, Hfk.
  assert (T !! q = None) as Hfresh.
  { destruct (T !! q) as [l|] eqn:E; [|done]. exfalso. by apply (Hf q k). }
  set (s3 := with_ram (add_table (ram s) t i q) (with_kbitmap (set_bit (kernel_bitmap s) k) s)).
  specialize (Hext q Hq Hfresh Hz).
  pose proof (add_table_old (ram s) PGDIR_VA T t i q lt Hp Hlt Hi Hz Hq Hfresh) as Hold.
  assert (ld64 (ram s3) (slot t i) = point_to 0 q PAGE_PRESENT) as Ee.
  { unfold s3. simpl. rewrite (Hold t lt) by done. by rewrite decide_True. }
  exists q, s3, (<[q := lv]> T). split.
  { rewrite bind_bind. erewrite bind_ok by exact Ek. rewrite bind_bind. erewrite bind_ok by done.
    rewrite bind_bind. erewrite bind_ok by apply load_ok.
    change (ld64 (ram (with_kbitmap _ s)) (slot t i)) with (ld64 (ram s) (slot t i)). rewrite Hz.
    rewrite bind_bind. erewrite bind_ok by done. erewrite bind_ok by done.
    change (with_ram _ _) with s3. erewrite bind_ok by apply load_ok. rewrite Ee, add_table_entry by done. done. }
  split; [|split; [apply lookup_insert_eq|split; [|split; [|split; [|split; [done|]]]]]].
  - split; [split; [done|split; [apply Hext|split]]|split; [done|split; [|done]]].
    + intros p [l Hpl]. apply lookup_insert_Some in Hpl as [[<- _]|[_ Hpl]]; [|by apply Hpool].
      right. unfold q, kernel_kva, PAGE_SIZE. destruct Hfk. lia.
    + intros p a [l Hpl] (Ha & Hne)%Hfree. apply lookup_insert_Some in Hpl as [[<- _]|[_ Hpl]]; [|by apply Hf].
      intros E. apply Hne. symmetry. by apply kernel_kva_inj.
    + intros a Ha Hn. simpl. unfold add_table, clear_pgdir. rewrite clear_words_ld, decide_False, ld_st_ne; [done| |].
      * destruct (Hpool t ltac:(by eexists)) as [->|Ht]; [|unfold slot; lia]. intros E. by apply (Hn i); [apply Hlow|].
      * intros [Hr _]. unfold q, kernel_kva in Hr. destruct Hfk as [[Hk0 _] _]. unfold PAGE_SIZE in Hr. lia.
  - cbv zeta. rewrite Ee. split; [by apply add_table_present|by apply add_table_entry].
  - intros p l j Hpl Hj Hne. simpl. rewrite (Hold p l) by done. rewrite decide_False; [done|]. by intros [-> _].
  - intros _ j Hj. by apply add_table_new.
  - apply (at_least_impl _ _ _ (fun x => proj2 (Hfree x))). by apply at_least_use.
Qed.

(** ** Mapping one page *)

(** The number of tables missing on the way to the entry of [va]. *)
Definition missing (m : words) (va : Z) : nat :=
  let e3 := ld64 m (slot PGDIR_VA (vpn2 va)) in
  if e3 =? 0 then 2%nat else if ld64 m (slot (pa2kva (get_pa e3)) (vpn1 va)) =? 0 then 1%nat else 0%nat.

Lemma missing_same m va va' :
  uva2pte m va PGDIR_VA <> None -> vpn2 va' = vpn2 va -> (missing m va' <= 1)%nat /\ (vpn1 va' = vpn1 va -> missing m va' = 0%nat).
Proof.
  unfold missing, uva2pte. cbv zeta. intros Hw ->. destruct (ld64 m (slot PGDIR_VA (vpn2 va)) =? 0); [done|]. split.
  - destruct (ld64 _ (slot _ (vpn1 va')) =? 0); lia.
  - intros ->. by destruct (ld64 _ (slot _ (vpn1 va)) =? 0).
Qed.

Definition dev_entry (e pa : Z) : Z := set_attribute (set_pfn e (Z.shiftr pa NORMAL_PAGE_SHIFT)) USER_ATTR.


Lemma iomap_page_ok s T va pa n :
  io_tables s T -> in_window IO_LO IO_HI va -> at_least (missing (ram s) va + n) (kernel_free s) ->
  exists s1 T', io_step s T s1 T' /\ at_least n (kernel_free s1) /\
    exists a, uva2pte (ram s1) va PGDIR_VA = Some a /\ INIT_KERNEL_STACK <= a /\
    iomap_page va pa PGDIR_VA s = Ok (1, with_ram (st64 (ram s1) a (dev_entry (leaf (ram s) PGDIR_VA va) pa)) s1).
Proof.
  intros Ht Hw Hk. destruct (vpn_ranges va) as (H2 & H1 & H0). destruct (vpn_masked va) as (M2 & M1 & M0).
  pose proof Ht as (_ & Hp & Hpool & _). pose proof (pt_root _ _ _ Hp) as Hroot. unfold in_window in Hw.
  unfold missing in Hk. set (e3 := ld64 (ram s) (slot PGDIR_VA (vpn2 va))) in *.
  destruct (ensure_io s T PGDIR_VA (vpn2 va) (Lv2 (vpn2 va)) Root ((if e3 =? 0%Z then 1 else if ld64 (ram s) (slot (pa2kva (get_pa e3)) (vpn1 va)) =? 0%Z then 1 else 0) + n))
    as (lv2 & s1 & T1 & E1 & S1 & HT2 & Hw1 & _ & Hnew & Hsame & Hk1); [done|done|done| | |done| |].
  { by apply (pt_lv3 _ _ _ Hp). }
  { intros q Hq Hf Hz. by apply add_lv2_ext. }
  { fold e3. destruct (e3 =? 0); done. }
  pose proof S1 as (O1 & X1 & _). cbv zeta in Hw1. destruct Hw1 as [Hz1 Ha1].
  assert (lv2 <> PGDIR_VA) as Hne.
  { intros ->. rewrite (pt_root _ _ _ (proj1 (proj2 O1))) in HT2. done. }
  destruct (ensure_io s1 T1 lv2 (vpn1 va) (Lv1 (vpn2 va) (vpn1 va)) (Lv2 (vpn2 va)) n)
    as (lv1 & s2 & T2 & E2 & S2 & HT1 & Hw2 & Hfr & _ & _ & Hk2); [done|done|done| | |done| |].
  { apply (pt_lv2 _ _ _ (proj1 (proj2 O1)) _ _ _ HT2 H1). }
  { intros q Hq Hf Hz. apply add_lv1_ext; [apply O1|done..]. }
  { destruct (Z.eqb_spec e3 0) as [Hz|Hnz].
    - by rewrite (Hnew Hz) by done.
    - rewrite (Hsame Hnz) in *. by rewrite <- Ha1. }
  assert (io_step s T s2 T2) as S12 by (by eapply io_step_trans). exists s2, T2. split; [done|]. split; [done|].
  assert (uva2pte (ram s2) va PGDIR_VA = Some (slot lv1 (vpn0 va))) as Ew.
  { unfold uva2pte. cbv zeta in Hw2. destruct Hw2 as [Hz2 Ha2].
    rewrite (Hfr PGDIR_VA Root) by (done || apply (pt_root _ _ _ (proj1 (proj2 O1))) || congruence).
    by rewrite (proj2 (Z.eqb_neq _ _) Hz1), Ha1, (proj2 (Z.eqb_neq _ _) Hz2), Ha2. }
  exists (slot lv1 (vpn0 va)). split; [done|]. split.
  { destruct S12 as ((_ & P2 & Q2 & _) & _). destruct (Q2 lv1 ltac:(by eexists)) as [->|Hl]; [|unfold slot; lia].
    rewrite (pt_root _ _ _ P2) in HT1. done. }
  unfold iomap_page. cbv zeta. rewrite M2, M1, M0. erewrite bind_ok by exact E1. erewrite bind_ok by exact E2.
  erewrite bind_ok by apply load_ok. destruct S12 as (_ & (_ & _ & _ & Hleaf) & _). rewrite <- (Hleaf va) by done.
  unfold leaf. rewrite Ew. done.
Qed.

(** ** The pages of a device *)

(** [k] pages of the window are mapped, the others are empty. *)
Record io_state s T (k : Z) : Prop := {
  io_tabs : io_tables s T;
  io_pos : io_base s = io_va k;
  io_len : 0 <= k <= IO_PAGES;
  io_mapped : forall j, 0 <= j < k -> uva2pte (ram s) (io_va j) PGDIR_VA <> None;
  io_empty : forall j, k <= j < IO_PAGES -> leaf (ram s) PGDIR_VA (io_va j) = 0 }.

(** The tables [n] pages from page [k] on take. *)
Definition tables_at (k : Z) : nat := if k mod 2 ^ 18 =? 0 then 2%nat else if k mod 512 =? 0 then 1%nat else 0%nat.
Fixpoint tables_for (k : Z) (n : nat) : nat :=
  match n with O => 0%nat | S n' => (tables_at k + tables_for (k + 1) n')%nat end.

Lemma at_least_le {A} n m (P : A -> Prop) : (m <= n)%nat -> at_least n P -> at_least m P.
Proof.
  intros Hle (l & Hn & Hl & HP). exists (take m l). rewrite <- (take_drop m l) in Hn. apply NoDup_app in Hn as [Hn _].
  split; [done|]. split; [rewrite length_take; lia|]. intros x Hx. apply HP. rewrite <- (take_drop m l).
  apply elem_of_app. by left.
Qed.

Lemma missing_bound s T k : io_state s T k -> k < IO_PAGES -> (missing (ram s) (io_va k) <= tables_at k)%nat.
Proof.
  intros Hs Hk. pose proof (io_len _ _ _ Hs). unfold tables_at. destruct (Z.eqb_spec (k mod 2 ^ 18) 0) as [|Hn].
  { unfold missing. destruct (_ =? 0); [lia|]. destruct (_ =? 0); lia. }
  assert (0 < k) by (destruct (decide (k = 0)) as [->|]; [done|lia]).
  assert ((k - 1) / 2 ^ 18 = k / 2 ^ 18) as E2.
  { symmetry. apply Z.div_unique with ((k mod 2 ^ 18) - 1); [|pose proof (Z.div_mod k (2 ^ 18) ltac:(lia)); lia].
    pose proof (Z.mod_pos_bound k (2 ^ 18) ltac:(lia)). lia. }
  destruct (io_vpn k ltac:(lia)) as (V2 & V1 & _), (io_vpn (k - 1) ltac:(lia)) as (W2 & W1 & _).
  destruct (missing_same (ram s) (io_va (k - 1)) (io_va k)) as [Hle Hzero].
  { apply (io_mapped _ _ _ Hs). lia. }
  { by rewrite V2, W2, E2. }
  destruct (Z.eqb_spec (k mod 512) 0); [done|]. rewrite Hzero; [done|]. rewrite V1, W1. f_equal.
  apply Z.div_unique with (k mod 512 - 1); [|pose proof (Z.div_mod k 512 ltac:(lia)); lia].
  pose proof (Z.mod_pos_bound k 512 ltac:(lia)). lia.
Qed.

Lemma io_va_next k : 0 <= k < IO_PAGES -> u64 (io_va k + PAGE_SIZE) = io_va (k + 1).
Proof. unfold io_va, IO_PAGES, IO_ADDR_START, PAGE_SIZE. intros Hk. rewrite u64_small by lia. lia. Qed.

(** One turn of the loop of [ioremap]. *)
Lemma ioremap_turn s T k pa n :
  io_state s T k -> k < IO_PAGES -> at_least (tables_at k + n) (kernel_free s) ->
  exists s1 T', (iomap_page (io_va k) pa PGDIR_VA;; modify (fun s => with_io (u64 (io_base s + PAGE_SIZE)) s)) s = Ok (tt, s1) /\
    io_state s1 T' (k + 1) /\ at_least n (kernel_free s1) /\ low_same (ram s) (ram s1) /\
    s1 = with_io (io_va (k + 1)) (with_ram (ram s1) (with_kbitmap (kernel_bitmap s1) s)) /\
    leaf (ram s1) PGDIR_VA (io_va k) = dev_entry 0 pa /\
    forall va, in_window IO_LO IO_HI va -> page_of va <> page_of (io_va k) -> leaf (ram s1) PGDIR_VA va = leaf (ram s) PGDIR_VA va.
Proof.
  intros Hs Hk Hn. pose proof (io_len _ _ _ Hs) as Hl. assert (0 <= k < IO_PAGES) as Hr by lia.
  pose proof (io_in_window k Hr) as Hw.
  destruct (iomap_page_ok s T (io_va k) pa n (io_tabs _ _ _ Hs) Hw) as (s1 & T' & St & Hf & a & Ea & Ha & E).
  { eapply at_least_le; [|exact Hn]. pose proof (missing_bound s T k Hs Hk). lia. }
  destruct St as ((Hb & Hp & Hpool & Hfr) & (Hsub & _ & Hwalk & Hleaf) & Hlow & Es).
  rewrite (io_empty _ _ _ Hs k) in E by lia.
  destruct (set_leaf_ok (ram s1) PGDIR_VA T' (io_va k) a (dev_entry 0 pa) Hp Hw Ea) as (P4 & L4 & W4 & O4).
  set (m := st64 (ram s1) a (dev_entry 0 pa)) in *. exists (with_io (io_va (k + 1)) (with_ram m s1)), T'. split; [|split; [|split; [done|split; [|split]]]].
  - assert (io_base s1 = io_base s) as Eb by (by rewrite Es).
    erewrite bind_ok by exact E. unfold modify. simpl. by rewrite Eb, (io_pos _ _ _ Hs), io_va_next.
  - split.
    + by split.
    + done.
    + lia.
    + intros j Hj. simpl. rewrite W4 by (apply io_in_window; lia). destruct (decide (j = k)) as [->|Hne]; [by rewrite Ea|].
      pose proof (io_mapped _ _ _ Hs j ltac:(lia)) as Hm. destruct (uva2pte (ram s) (io_va j) PGDIR_VA) as [b|] eqn:Eb; [|done].
      rewrite (Hwalk _ b); [done|apply io_in_window; lia|done].
    + intros j Hj. simpl. rewrite O4, Hleaf; [apply (io_empty _ _ _ Hs); lia|apply io_in_window; lia..|].
      rewrite !io_page by lia. lia.
  - intros b Hb1 Hb2. simpl. unfold m. rewrite ld_st_ne by lia. by apply Hlow.
  - rewrite Es. done.
  - split; [done|]. intros va Hva Hne. simpl. by rewrite O4, Hleaf.
Qed.

Lemma ioremap_loop_ok n : forall s T k pa f,
  io_state s T k -> k + Z.of_nat n <= IO_PAGES -> at_least (tables_for k n + f) (kernel_free s) ->
  exists s' T', ioremap_loop n pa s = Ok (tt, s') /\ io_state s' T' (k + Z.of_nat n) /\ at_least f (kernel_free s') /\
    low_same (ram s) (ram s') /\ s' = with_io (io_va (k + Z.of_nat n)) (with_ram (ram s') (with_kbitmap (kernel_bitmap s') s)) /\
    (forall i, 0 <= i < Z.of_nat n -> leaf (ram s') PGDIR_VA (io_va (k + i)) = dev_entry 0 (pa + PAGE_SIZE * i)) /\
    (forall j, 0 <= j < k -> leaf (ram s') PGDIR_VA (io_va j) = leaf (ram s) PGDIR_VA (io_va j)).
Proof.
  induction n as [|n IH]; intros s T k pa f Hs Hk Hf.
  - exists s, T. change (Z.of_nat 0) with 0. rewrite Z.add_0_r. split; [done|]. split; [done|]. split; [done|]. split; [done|].
    split; [rewrite <- (io_pos _ _ _ Hs); by destruct s|]. split; [lia|done].
  - pose proof (io_len _ _ _ Hs) as Hl. cbn [tables_for] in Hf. rewrite <- Nat.add_assoc in Hf.
    destruct (ioremap_turn s T k pa _ Hs ltac:(lia) Hf) as (s1 & T1 & E & Hs1 & Hf1 & Hlow1 & Es1 & Hl1 & Ho1).
    destruct (IH s1 T1 (k + 1) (pa + PAGE_SIZE) f Hs1 ltac:(lia) Hf1) as (s' & T' & E' & Hs' & Hf' & Hlow' & Es' & Hm & Ho).
    exists s', T'. replace (k + Z.of_nat (S n)) with (k + 1 + Z.of_nat n) by lia. split; [|split; [done|split; [done|split; [|split; [|split]]]]].
    + cbn [ioremap_loop]. erewrite bind_ok by done. rewrite (io_pos _ _ _ Hs), <- bind_bind.
      erewrite bind_ok; [exact E'|exact E].
    + intros a Ha Hn. by rewrite Hlow', Hlow1.
    + rewrite Es', Es1. done.
    + intros i Hi. destruct (decide (i = 0)) as [->|Hne].
      * rewrite Z.add_0_r, Ho, Hl1, Z.mul_0_r, Z.add_0_r by lia. done.
      * replace (k + i) with (k + 1 + (i - 1)) by lia. rewrite Hm by lia. f_equal. lia.
    + intros j Hj. rewrite Ho by lia. apply Ho1; [apply io_in_window; lia|]. rewrite !io_page by lia. lia.
Qed.

(** What the hardware makes of an address of the window: the physical address and the
    attributes. *)
Definition device_at (m : words) (va : Z) : option (Z * Z) :=
  let e := leaf m PGDIR_VA va in
  if get_attribute e PAGE_PRESENT =? 0 then None else Some (get_pa e + va mod PAGE_SIZE, get_attribute e (2 ^ 10 - 1)).

Lemma io_byte k off : 0 <= k -> 0 <= off -> k + off / PAGE_SIZE < IO_PAGES ->
  page_of (io_va k + off) = page_of (io_va (k + off / PAGE_SIZE)) /\ (io_va k + off) mod PAGE_SIZE = off mod PAGE_SIZE.
Proof.
  intros Hk Ho Hb. assert (0 <= off / PAGE_SIZE) by (apply Z.div_pos; [done|unfold PAGE_SIZE; lia]).
  rewrite io_page by lia. unfold page_of, io_va, IO_PAGES, IO_LO, IO_ADDR_START, PAGE_SIZE in *.
  pose proof (Z.div_mod off 4096 ltac:(lia)). pose proof (Z.mod_pos_bound off 4096 ltac:(lia)). split.
  - change VA_MASK with (Z.ones 39). rewrite Z.land_ones by lia.
    replace (0xffffffe000000000 + 4096 * k + off) with (384 * 2 ^ 30 + 4096 * k + off + 0x1ffffff * 2 ^ 39) by lia.
    rewrite Z.mod_add, Z.mod_small by lia. symmetry. apply Z.div_unique with (off mod 4096); lia.
  - replace (0xffffffe000000000 + 4096 * k + off) with (off + (0xffffffe000000 + k) * 4096) by lia. by rewrite Z.mod_add.
Qed.

Lemma dev_entry_at pa : 0 <= pa < 2 ^ 56 -> pa mod PAGE_SIZE = 0 ->
  get_pa (dev_entry 0 pa) = pa /\ get_attribute (dev_entry 0 pa) (2 ^ 10 - 1) = USER_ATTR /\
  get_attribute (dev_entry 0 pa) PAGE_PRESENT = 1.
Proof.
  intros Hp Hm. unfold dev_entry. rewrite Z.shiftr_div_pow2 by done. change (2 ^ NORMAL_PAGE_SHIFT) with 4096.
  assert (0 <= pa / 4096 < 2 ^ 44) as Hr by (split; [apply Z.div_pos; lia|apply Z.div_lt_upper_bound; lia]).
  pose proof (Z.div_mod pa 4096 ltac:(lia)) as Ed. unfold PAGE_SIZE in Hm.
  split; [|split].
  - unfold get_pa. rewrite get_pfn_set_attr, get_set_pfn by (done || unfold USER_ATTR; lia).
    rewrite Z.shiftl_mul_pow2 by done. change (2 ^ NORMAL_PAGE_SHIFT) with 4096. rewrite u64_small by lia. lia.
  - rewrite attr_set_attr, attr_set_pfn by lia. done.
  - rewrite attr_set_attr, attr_set_pfn by (done || unfold PAGE_PRESENT; lia). done.
Qed.

Lemma leaf_page m pg va va' : page_of va = page_of va' -> leaf m pg va = leaf m pg va'.
Proof.
  unfold page_of. rewrite !vpn_page. destruct (vpn_ranges va) as (A2 & A1 & A0), (vpn_ranges va') as (B2 & B1 & B0). intros E.
  assert (vpn2 va = vpn2 va' /\ vpn1 va = vpn1 va' /\ vpn0 va = vpn0 va') as (E2 & E1 & E0) by lia.
  unfold leaf, uva2pte. by rewrite E2, E1, E0.
Qed.
Lemma device_page m k off : 0 <= k -> 0 <= off -> k + off / PAGE_SIZE < IO_PAGES ->
  device_at m (io_va k + off) =
  let e := leaf m PGDIR_VA (io_va (k + off / PAGE_SIZE)) in
  if get_attribute e PAGE_PRESENT =? 0 then None else Some (get_pa e + off mod PAGE_SIZE, get_attribute e (2 ^ 10 - 1)).
Proof. intros Hk Ho Hb. destruct (io_byte k off Hk Ho Hb) as [Ep Eo]. unfold device_at. by rewrite (leaf_page _ _ _ _ Ep), Eo. Qed.

(** The first page of a device and the number of its pages. *)
Definition dev_base (phys_addr : Z) : Z := PAGE_SIZE * (phys_addr / PAGE_SIZE).
Definition dev_pages (phys_addr size : Z) : Z := (phys_addr + size + PAGE_SIZE - 1) / PAGE_SIZE - phys_addr / PAGE_SIZE.

Lemma dev_rounding phys_addr size : 0 <= phys_addr -> 0 <= size -> phys_addr + size + PAGE_SIZE <= 2 ^ 56 ->
  ROUNDDOWN phys_addr PAGE_SIZE = dev_base phys_addr /\
  ROUND (u64 (phys_addr + size)) PAGE_SIZE = dev_base phys_addr + PAGE_SIZE * dev_pages phys_addr size /\
  0 <= dev_base phys_addr /\ 0 <= dev_pages phys_addr size /\ PAGE_SIZE * dev_pages phys_addr size < size + 2 * PAGE_SIZE /\
  dev_base phys_addr + PAGE_SIZE * dev_pages phys_addr size <= 2 ^ 56.
Proof.
  unfold dev_base, dev_pages. intros Hp Hs Hb.
  change (ROUND (u64 (phys_addr + size)) PAGE_SIZE) with (ROUNDDOWN (u64 (u64 (phys_addr + size) + PAGE_SIZE - 1)) (2 ^ 12)).
  change (ROUNDDOWN phys_addr PAGE_SIZE) with (ROUNDDOWN phys_addr (2 ^ 12)). rewrite !rounddown_pow2 by lia.
  unfold PAGE_SIZE in *. change (2 ^ 12) with 4096. rewrite !u64_small by (rewrite ?u64_small; lia).
  pose proof (Z.div_mod phys_addr 4096 ltac:(lia)). pose proof (Z.mod_pos_bound phys_addr 4096 ltac:(lia)).
  pose proof (Z.div_mod (phys_addr + size + 4096 - 1) 4096 ltac:(lia)).
  pose proof (Z.mod_pos_bound (phys_addr + size + 4096 - 1) 4096 ltac:(lia)). pose proof (Z.div_pos phys_addr 4096 ltac:(lia) ltac:(lia)).
  pose proof (Z.div_le_mono phys_addr (phys_addr + size + 4096 - 1) 4096 ltac:(lia) ltac:(lia)). lia.
Qed.

Lemma ioremap_ok s T k phys_addr size f :
  let n := dev_pages phys_addr size in
  io_state s T k -> 0 <= phys_addr -> 0 <= size <= 2 ^ 36 -> phys_addr + size + PAGE_SIZE <= 2 ^ 56 ->
  (k + n <= IO_PAGES -> at_least (tables_for k (Z.to_nat n) + f) (kernel_free s)) ->
  if k + n <=? IO_PAGES then
    exists s' T', ioremap phys_addr size s = Ok (io_va k, s') /\ io_state s' T' (k + n) /\ at_least f (kernel_free s') /\
      low_same (ram s) (ram s') /\ s' = with_io (io_va (k + n)) (with_ram (ram s') (with_kbitmap (kernel_bitmap s') s)) /\
      (forall off, 0 <= off < PAGE_SIZE * n -> device_at (ram s') (io_va k + off) = Some (dev_base phys_addr + off, USER_ATTR)) /\
      (forall off, 0 <= off < PAGE_SIZE * k -> device_at (ram s') (io_va 0 + off) = device_at (ram s) (io_va 0 + off))
  else ioremap phys_addr size s = Ok (0, s).
Proof.
  intros n Hs Hp Hz Hb Hf. destruct (dev_rounding phys_addr size Hp (proj1 Hz) Hb) as (E1 & E2 & H0 & Hn & Hsz & Ht). fold n in E2, Hn, Hsz, Ht.
  pose proof (io_len _ _ _ Hs) as Hk.
  assert (forall A (m1 m2 : M (@mmst D) A),
    (if u64 (io_va k + u64 (dev_base phys_addr + PAGE_SIZE * n - dev_base phys_addr)) <=? IO_ADDR_END then m1 else m2) =
    if k + n <=? IO_PAGES then m1 else m2) as Eif.
  { intros A m1 m2. replace (dev_base phys_addr + PAGE_SIZE * n - dev_base phys_addr) with (PAGE_SIZE * n) by lia.
    unfold PAGE_SIZE in *. unfold io_va, IO_ADDR_START, IO_ADDR_END, IO_PAGES, PAGE_SIZE in *.
    rewrite (u64_small (4096 * n)) by lia. rewrite u64_small by lia.
    destruct (Z.leb_spec (k + n) (2 ^ 22)); [by rewrite (proj2 (Z.leb_le _ _)) by lia|by rewrite (proj2 (Z.leb_gt _ _)) by lia]. }
  unfold ioremap. cbv zeta. rewrite E1, E2. erewrite gets_bind. rewrite (io_pos _ _ _ Hs), Eif.
  destruct (Z.leb_spec (k + n) IO_PAGES) as [Hle|Hgt]; [|done].
  replace (Z.to_nat ((dev_base phys_addr + PAGE_SIZE * n - dev_base phys_addr) / PAGE_SIZE)) with (Z.to_nat n).
  2:{ replace (dev_base phys_addr + PAGE_SIZE * n - dev_base phys_addr) with (n * PAGE_SIZE) by lia. by rewrite Z.div_mul by done. }
  destruct (ioremap_loop_ok (Z.to_nat n) s T k (dev_base phys_addr) f Hs ltac:(lia) (Hf Hle)) as (s' & T' & E & Hs' & Hf' & Hl & Es & Hm & Ho).
  rewrite Z2Nat.id in * by done. exists s', T'. split; [by erewrite bind_ok by exact E|]. split; [done|]. split; [done|]. split; [done|]. split; [done|].
  split; intros off Hoff.
  - assert (0 <= off / PAGE_SIZE < n) as Hd by (split; [apply Z.div_pos|apply Z.div_lt_upper_bound]; unfold PAGE_SIZE in *; lia).
    rewrite device_page by lia. cbv zeta. rewrite Hm by done. pose proof (Z.div_mod off PAGE_SIZE ltac:(done)).
    destruct (dev_entry_at (dev_base phys_addr + PAGE_SIZE * (off / PAGE_SIZE))) as (-> & -> & ->).
    + unfold PAGE_SIZE in *. lia.
    + unfold dev_base. replace (PAGE_SIZE * (phys_addr / PAGE_SIZE) + PAGE_SIZE * (off / PAGE_SIZE)) with ((phys_addr / PAGE_SIZE + off / PAGE_SIZE) * PAGE_SIZE) by lia.
      by apply Z.mod_mul.
    + simpl. do 2 f_equal. lia.
  - assert (0 <= off / PAGE_SIZE < k) as Hd by (split; [apply Z.div_pos|apply Z.div_lt_upper_bound]; unfold PAGE_SIZE in *; lia).
    rewrite !device_page by lia. by rewrite Ho by lia.
Qed.

(** C31. ioremap maps the pages of a device one after the other to the next pages of the
    window and returns the address of the first; earlier devices and all memory below the pool
    of kernel pages stay as they are. When the window is full it returns NULL and changes
    nothing. *)
Theorem ioremap_maps s T k phys_addr size f :
  let n := dev_pages phys_addr size in
  io_state s T k -> 0 <= phys_addr -> 0 <= size <= 2 ^ 36 -> phys_addr + size + PAGE_SIZE <= 2 ^ 56 ->
  (k + n <= IO_PAGES -> at_least (tables_for k (Z.to_nat n) + f) (kernel_free s)) ->
  if k + n <=? IO_PAGES then
    exists s' T', ioremap phys_addr size s = Ok (io_va k, s') /\ io_state s' T' (k + n) /\ at_least f (kernel_free s') /\
      low_same (ram s) (ram s') /\ s' = with_io (io_va (k + n)) (with_ram (ram s') (with_kbitmap (kernel_bitmap s') s)) /\
      (forall off, 0 <= off < PAGE_SIZE * n -> device_at (ram s') (io_va k + off) = Some (dev_base phys_addr + off, USER_ATTR)) /\
      (forall off, 0 <= off < PAGE_SIZE * k -> device_at (ram s') (io_va 0 + off) = device_at (ram s) (io_va 0 + off))
  else ioremap phys_addr size s = Ok (0, s).
Proof. apply ioremap_ok. Qed.
End Io.
