(* ===== verification/Start.v ===== *)
(** * The kernel comes up (init/main.c: main)

    The state of the whole kernel and [main], which runs the initialisers of all parts
    in order, starts the shell and sets the first timer.  The lines [main] prints are
    left out; what the boot code and the firmware hand over are parameters. *)
From S2P Require Import Prelude DList CString Sched Lock BCache FsLayout Fs PageTable Mm MmFacts MmWitness UserMem.
From S2P Require Import Process ProcessFacts Printk Screen Syscall Trap Smp Plic Bios Boot IoMap.

(** [enum FDT_TYPE] *)
Definition TIMEBASE : Z := 0.
Definition ETHERNET_ADDR : Z := 2.
Definition PLIC_ADDR : Z := 3.
Definition NR_IRQS : Z := 4.

Section Start.
Context {D : Type} `{!SwapDevice D} {St : Type} `{!SectorStore St}.
(** As in Process.v and Fs.v; the answers of the firmware, the words the boot block
    leaves at [nsectors_image_loc], [tasknum_loc] and [slave_hart_lock_loc], and the
    addresses of the string ["shell"], of the array [argv] of [main] and of that of
    [do_taskset]. *)
Variables (pcb_addr : pcbref -> Z) (ret_from_exception : Z) (strmax : nat) (rdtime timer : nat -> Z).
Variables (fdt : Z -> Z) (nsectors ntasks slave_hart_lock : Z) (shell argv frame : Z).

Record kernel := mkKernel {
  kproc : @kern D; kfs : @fsst St; kscr : screen; kplic : plic; whole_kernel_lock : Z;
  kjmptab : list (option jfunc); ksyscall : list (option handler);
  kexc : list (option trap_handler); kirq : list (option trap_handler);
  ktime_base : Z; ke1000 : Z; ipis : list Z; ktimer : Z }.

Definition with_proc v k := mkKernel v (kfs k) (kscr k) (kplic k) (whole_kernel_lock k) (kjmptab k) (ksyscall k) (kexc k) (kirq k) (ktime_base k) (ke1000 k) (ipis k) (ktimer k).
Definition with_fs v k := mkKernel (kproc k) v (kscr k) (kplic k) (whole_kernel_lock k) (kjmptab k) (ksyscall k) (kexc k) (kirq k) (ktime_base k) (ke1000 k) (ipis k) (ktimer k).
Definition with_scr v k := mkKernel (kproc k) (kfs k) v (kplic k) (whole_kernel_lock k) (kjmptab k) (ksyscall k) (kexc k) (kirq k) (ktime_base k) (ke1000 k) (ipis k) (ktimer k).
Definition with_plic v k := mkKernel (kproc k) (kfs k) (kscr k) v (whole_kernel_lock k) (kjmptab k) (ksyscall k) (kexc k) (kirq k) (ktime_base k) (ke1000 k) (ipis k) (ktimer k).
Definition with_klock v k := mkKernel (kproc k) (kfs k) (kscr k) (kplic k) v (kjmptab k) (ksyscall k) (kexc k) (kirq k) (ktime_base k) (ke1000 k) (ipis k) (ktimer k).
Definition with_jmptab v k := mkKernel (kproc k) (kfs k) (kscr k) (kplic k) (whole_kernel_lock k) v (ksyscall k) (kexc k) (kirq k) (ktime_base k) (ke1000 k) (ipis k) (ktimer k).
Definition with_syscall v k := mkKernel (kproc k) (kfs k) (kscr k) (kplic k) (whole_kernel_lock k) (kjmptab k) v (kexc k) (kirq k) (ktime_base k) (ke1000 k) (ipis k) (ktimer k).
Definition with_traps e i k := mkKernel (kproc k) (kfs k) (kscr k) (kplic k) (whole_kernel_lock k) (kjmptab k) (ksyscall k) e i (ktime_base k) (ke1000 k) (ipis k) (ktimer k).
Definition with_time_base v k := mkKernel (kproc k) (kfs k) (kscr k) (kplic k) (whole_kernel_lock k) (kjmptab k) (ksyscall k) (kexc k) (kirq k) v (ke1000 k) (ipis k) (ktimer k).
Definition with_e1000 v k := mkKernel (kproc k) (kfs k) (kscr k) (kplic k) (whole_kernel_lock k) (kjmptab k) (ksyscall k) (kexc k) (kirq k) (ktime_base k) v (ipis k) (ktimer k).
Definition with_ipis v k := mkKernel (kproc k) (kfs k) (kscr k) (kplic k) (whole_kernel_lock k) (kjmptab k) (ksyscall k) (kexc k) (kirq k) (ktime_base k) (ke1000 k) v (ktimer k).
Definition with_ktimer v k := mkKernel (kproc k) (kfs k) (kscr k) (kplic k) (whole_kernel_lock k) (kjmptab k) (ksyscall k) (kexc k) (kirq k) (ktime_base k) (ke1000 k) (ipis k) v.

Abbreviation N := (M kernel).

Definition on_proc {A} (m : M (@kern D) A) : N A := zoom kproc with_proc m.
Definition on_memory {A} (m : M (@mmst D) A) : N A := on_proc (zoom mm with_mm m).
(** The screen's code moves the cursor of the running process. *)
Definition on_screen {A} (m : M screen A) : N A :=
  c ← on_proc current;
  r ← on_proc (on_sched (gets current_running));
  modify (fun k => with_scr (with_cursor (cursor_x c) (cursor_y c) (kscr k)) k);;
  a ← zoom kscr with_scr m;
  s ← gets kscr;
  on_proc (set_pcb r (set_cursor (scursor_x s) (scursor_y s)));;
  mret a.

(** ** main.c *)

Definition init_task_info : N unit := on_proc (modify (fun k => mkKern (locks k) (mm k) (tasks k) ntasks)).
Definition init_exception : N unit := modify (with_traps exc_table irq_table).

(** [cancel_temp_pgdir] on memory by kernel address; Boot.v has it on the tables as the
    hardware sees them. *)
Definition drop_temp_pgdir : M (@mmst D) unit :=
  let va := 0x50000000 in
  let vpn2 := Z.shiftr va (NORMAL_PAGE_SHIFT + PPN_BITS + PPN_BITS) in
  e ← load (slot PGDIR_VA vpn2);
  modify (fun s => with_ram (clear_pgdir (pa2kva (get_pa e)) (ram s)) s);;
  store64 (slot PGDIR_VA vpn2) 0.

Definition wakeup_other_hart : N unit :=
  h ← on_proc (on_sched (gets hartid)); modify (fun k => with_ipis (ipis k ++ [wakeup_mask h]) k).
Definition set_first_timer : N unit :=
  t ← on_proc (on_sched (get_ticks rdtime)); modify (fun k => with_ktimer (u64 (ktime_base k / 100 + t)) k).

(** The master hart up to the shell. *)
Definition init_devices : N Z :=
  modify (with_time_base (u64 (fdt TIMEBASE)));;
  plic_addr ← on_memory (ioremap (u64 (fdt PLIC_ADDR)) (0x4000 * PAGE_SIZE));
  e1000 ← on_memory (ioremap (u64 (fdt ETHERNET_ADDR)) (8 * PAGE_SIZE));
  modify (with_e1000 e1000);;
  mret plic_addr.
Definition main_init : N unit :=
  on_memory (init_mem_manager nsectors);;
  on_memory init_shmpage;;
  modify (fun k => with_jmptab (init_jmptab (kjmptab k)) k);;
  modify (fun k => with_klock (smp_init (whole_kernel_lock k)) k);;
  init_task_info;;
  on_proc (on_sched init_pcb);;
  plic_addr ← init_devices;
  on_proc (on_locks init_locks);;
  on_proc (on_locks init_barriers);;
  on_proc (on_locks init_conditions);;
  on_proc (on_locks init_mbox);;
  init_exception;;
  zoom kplic with_plic (plic_init plic_addr (u32 (fdt NR_IRQS)));;
  modify (fun k => with_syscall (init_syscall (ksyscall k)) k);;
  zoom kfs with_fs (init_fs timer);;
  on_screen init_screen;;
  wakeup_other_hart;;
  if slave_hart_lock =? 0 then on_memory drop_temp_pgdir else mret tt.

(** The rest, up to the idle loop. *)
Definition main_shell : N Z :=
  pid ← on_proc (do_exec pcb_addr ret_from_exception strmax shell 1 argv);
  on_proc (do_taskset pcb_addr ret_from_exception strmax frame 0 pid 3 1);;
  set_first_timer;;
  mret pid.
Definition main : N Z := main_init;; main_shell.

(** The other hart, on its own [current_running] and [hartid]. *)
Definition main_slave : N unit :=
  on_memory drop_temp_pgdir;;
  c ← on_proc (on_sched (read_pcb MasterPid0));
  on_proc (set_pcb SlavePid0 (fun p => set_cursor (cursor_x p) (cursor_y c + 1) p));;
  on_proc (on_sched (modify (with_current SlavePid0)));;
  set_first_timer.
End Start.
