(* ===== verification/StartFacts.v ===== *)
(** * After [main] has run the initialisers

    From the image the linker makes and the tables the boot code leaves, [main_init]
    establishes the invariants on which the theorems of the parts rest. *)
From S2P Require Import Prelude DList CString Sched Lock BCache FsLayout Fs PageTable Mm MmFacts MmWitness UserMem.
From S2P Require Import Process ProcessFacts Printk Screen Syscall Trap Smp Plic Bios Boot IoMap Start.

(** ** The image *)

Definition zero_pcb : pcb_t := mkPcb 0 0 0 0 0 TASK_BLOCKED 0 0 0 0 0 (replicate MAX_NAME_LEN 0) 0 0 0 MTHREAD 0 0.
Definition pid0_stack : Z := INIT_KERNEL_STACK + PAGE_SIZE.
Definition pid1_stack : Z := INIT_KERNEL_STACK + PAGE_SIZE * 3.
Definition idle_pcb (stack mask : Z) : pcb_t :=
  mkPcb stack (stack + PAGE_SIZE) 0 0 0 TASK_BLOCKED 0 0 0 0 0 (replicate MAX_NAME_LEN 0) 0 mask PGDIR_VA MTHREAD 0 0.
Definition slave_pid0_pcb : pcb_t := idle_pcb pid0_stack 1.
Definition master_pid0_pcb : pcb_t := idle_pcb pid1_stack 2.
Definition image_pcbs : gmap pcbref pcb_t :=
  list_to_map ((MasterPid0, master_pid0_pcb) :: (SlavePid0, slave_pid0_pcb) :: ((fun i => (Pcb i, zero_pcb)) <$> seq 0 16)).

(** [LIST_HEAD]s, and the heads the initialisers set up. *)
Definition static_heads : list laddr := [ReadyQ; SleepQ; SendQ; RecvQ].
Definition table_heads : list laddr :=
  (MutexQ <$> seq 0 16) ++ (BarrierQ <$> seq 0 16) ++ (CondQ <$> seq 0 16) ++ (MboxFullQ <$> seq 0 16) ++ (MboxEmptyQ <$> seq 0 16).
Definition all_pcbs : list pcbref := MasterPid0 :: SlavePid0 :: (Pcb <$> seq 0 16).
Definition image_links : gmap laddr (@node laddr) :=
  list_to_map (((fun a => (a, Node (Some a) (Some a))) <$> static_heads) ++
    ((fun a => (a, Node None None)) <$> table_heads ++ (PcbList <$> all_pcbs) ++ (PcbWaitQ <$> all_pcbs))).
Definition image_locks : lockst := {|
  sch := mkSched image_links image_pcbs MasterPid0 0 0 0;
  mlocks := replicate LOCK_NUM (mkMutex UNLOCKED 0 0); last_lockid := 0;
  barrier := replicate BARRIER_NUM (mkBarrier 0 0 0 BAR_ACTIVE);
  condition := replicate CONDITION_NUM (mkCondition 0 COND_ACTIVE);
  mailbox := replicate MBOX_NUM (mkMailbox MBOX_ACTIVE MBOX_OPEN (replicate 32 0) (replicate 64 0) 0 0) |}.

(** ** The scheduler and the locks *)

Definition run_from {S} (m : M S unit) (s : S) : S := match m s with Ok (_, t) => t | Err _ => s end.
Definition runs {S} (m : M S unit) (s : S) : bool := match m s with Ok _ => true | Err _ => false end.
Lemma run_from_ok {S} (m : M S unit) s : runs m s = true -> m s = Ok (tt, run_from m s).
Proof. unfold runs, run_from. by destruct (m s) as [[[] t]|]. Qed.

Definition locks1 : lockst := run_from (sys init_pcb) image_locks.
Definition locks2 : lockst := run_from init_locks locks1.
Definition locks3 : lockst := run_from init_barriers locks2.
Definition locks4 : lockst := run_from init_conditions locks3.
Definition locks5 : lockst := run_from init_mbox locks4.

Lemma locks_run :
  sys init_pcb image_locks = Ok (tt, locks1) /\ init_locks locks1 = Ok (tt, locks2) /\ init_barriers locks2 = Ok (tt, locks3) /\
  init_conditions locks3 = Ok (tt, locks4) /\ init_mbox locks4 = Ok (tt, locks5).
Proof.
  split; [|split; [|split; [|split]]].
  - apply (run_from_ok (sys init_pcb) image_locks). vm_compute. reflexivity.
  - apply (run_from_ok init_locks locks1). vm_compute. reflexivity.
  - apply (run_from_ok init_barriers locks2). vm_compute. reflexivity.
  - apply (run_from_ok init_conditions locks3). vm_compute. reflexivity.
  - apply (run_from_ok init_mbox locks4). vm_compute. reflexivity.
Qed.

Definition start_queues : gmap laddr (list pcbref) := idle_queues (static_heads ++ table_heads).

(** *** Closed facts, decided by evaluation *)

Definition self_linked (h : gmap laddr (@node laddr)) (a : laddr) : bool :=
  match h !! a with Some (Node n p) => bool_decide (n = Some a /\ p = Some a) | None => false end.
Definition null_node (h : gmap laddr (@node laddr)) (a : laddr) : bool :=
  match h !! a with Some (Node None None) => true | _ => false end.
Definition exited_pcb (m : gmap pcbref pcb_t) (i : nat) : bool :=
  match m !! Pcb i with Some p => exited p | None => false end.

Lemma self_linked_ok h a : self_linked h a = true -> h !! a = Some (Node (Some a) (Some a)).
Proof. unfold self_linked. destruct (h !! a) as [[n p]|]; [|done]. intros [-> ->]%bool_decide_eq_true. done. Qed.
Lemma null_node_ok h a : null_node h a = true -> h !! a = Some (Node None None).
Proof. unfold null_node. by destruct (h !! a) as [[[|] [|]]|]. Qed.
Lemma forallb_all {A} (f : A -> bool) l x : forallb f l = true -> x ∈ l -> f x = true.
Proof. intros Hf Hx. eapply forallb_forall in Hf; [exact Hf|]. by apply list_elem_of_In. Qed.
Lemma below_all (f : nat -> bool) n i : forallb f (seq 0 n) = true -> (i < n)%nat -> f i = true.
Proof. intros Hf Hi. eapply forallb_all; [exact Hf|]. apply elem_of_seq. lia. Qed.
Lemma queue_in (hds : list laddr) a : bool_decide (a ∈ hds) = true -> idle_queues hds !! a = Some [].
Proof.
  intros Ha%bool_decide_eq_true. unfold idle_queues. induction hds as [|b hds IH]; simpl; [set_solver|].
  destruct (decide (a = b)) as [->|Hne]; [apply lookup_insert_eq|]. rewrite lookup_insert_ne by done. apply IH. set_solver.
Qed.

Lemma locks5_sched : sched_inv (sch locks5) start_queues.
Proof.
  assert (sch locks5 = mkSched (links (sch locks5)) (pcbs (sch locks5)) (current_running (sch locks5)) (hartid (sch locks5)) (ticks (sch locks5)) (process_id (sch locks5)))
    as -> by (by destruct (sch locks5)).
  apply idle_heap_inv.
  - by repeat constructor.
  - intros a Ha. apply self_linked_ok. revert a Ha. assert (forallb (self_linked (links (sch locks5))) (static_heads ++ table_heads) = true) as H by (vm_compute; reflexivity).
    intros a. by apply forallb_all.
  - intros r [p Hp%elem_of_map_to_list]. apply null_node_ok.
    assert (forallb (fun rp => null_node (links (sch locks5)) (PcbList rp.1)) (map_to_list (pcbs (sch locks5))) = true) as H by (vm_compute; reflexivity).
    exact (forallb_all _ _ (r, p) H Hp).
Qed.

Lemma start_queue a : bool_decide (a ∈ static_heads ++ table_heads) = true -> is_Some (start_queues !! a).
Proof. intros Ha. eexists. by apply queue_in. Qed.

Lemma locks5_sizes : length (mlocks locks5) = 16%nat /\ length (barrier locks5) = 16%nat /\ length (condition locks5) = 16%nat /\
  length (mailbox locks5) = 16%nat /\ last_lockid locks5 = 0 /\ current_running (sch locks5) = MasterPid0.
Proof. split_and!; vm_compute; reflexivity. Qed.
Definition pcb_there (m : gmap pcbref pcb_t) (r : pcbref) : bool := match m !! r with Some _ => true | None => false end.
Lemma pcb_there_ok m r : pcb_there m r = true -> is_Some (m !! r).
Proof. unfold pcb_there. by destruct (m !! r); [eexists|]. Qed.

Lemma table_queue (mk : nat -> laddr) i :
  forallb (fun i => bool_decide (mk i ∈ static_heads ++ table_heads)) (seq 0 16) = true -> (i < 16)%nat -> start_queues !! mk i = Some [].
Proof. intros H Hi. apply queue_in. exact (below_all _ 16 i H Hi). Qed.

Lemma locks5_inv : lock_inv locks5 start_queues.
Proof.
  destruct locks5_sizes as (Sm & Sb & Sc & Sx & Sl & Scur). split.
  - exact locks5_sched.
  - by apply start_queue.
  - by apply start_queue.
  - split; apply pcb_there_ok; vm_compute; reflexivity.
  - rewrite Scur. apply pcb_there_ok. vm_compute. reflexivity.
  - rewrite Sl. lia.
  - intros i m E%lookup_lt_Some. rewrite Sm in E. exists []. split; [by apply table_queue|done].
  - intros i Hi. rewrite Sb in Hi. eexists. by apply table_queue.
  - intros i Hi. rewrite Sc in Hi. eexists. by apply table_queue.
  - intros i Hi. rewrite Sx in Hi. split; eexists; by apply table_queue.
Qed.
Lemma locks5_pcbs i : (i < NUM_MAX_TASK)%nat -> exists p, pcbs (sch locks5) !! Pcb i = Some p /\ status p = TASK_EXITED.
Proof.
  intros Hi. assert (exited_pcb (pcbs (sch locks5)) i = true) as E.
  { revert i Hi. assert (forallb (exited_pcb (pcbs (sch locks5))) (seq 0 16) = true) as H by (vm_compute; reflexivity).
    intros i. exact (below_all _ 16 i H). }
  unfold exited_pcb in E. destruct (pcbs (sch locks5) !! Pcb i) as [p|]; [|done]. exists p. split; [done|]. by apply bool_decide_eq_true in E.
Qed.

(** ** Memory *)

(** The tables of [setup_vm], by physical address. *)
Definition boot_tables : words := bmem (run_from setup_vm Boot.power_on).
Definition boot_entry (i : Z) : Z := default 0 (boot_tables !! slot PGDIR_PA i).
(** The table of the temporary mapping, by kernel address. *)
Definition temp_table : Z := pa2kva (get_pa (boot_entry 1)).

Lemma boot_window i : IO_LO <= i < IO_HI -> boot_entry i = 0.
Proof.
  intros Hi. assert (forallb (fun i => boot_entry i =? 0) (seqZ IO_LO (IO_HI - IO_LO)) = true) as H by (vm_compute; reflexivity).
  apply Z.eqb_eq. apply (forallb_all (fun i => boot_entry i =? 0) _ i H). apply elem_of_seqZ. unfold IO_LO, IO_HI in *. lia.
Qed.
Lemma temp_table_at : temp_table = PGDIR_VA + 2 * PAGE_SIZE.
Proof. vm_compute. reflexivity. Qed.
#[local] Opaque boot_tables temp_table boot_entry.

Section Memory.
Context {D : Type} `{!SwapDevice D}.
Implicit Types s : @mmst D.

(** What the linker and the boot code leave: empty bitmaps, unlinked nodes, and in the
    root table of the kernel the entries of [setup_vm]. *)
Record mem_image s : Prop := {
  mi_user : user_bitmap s = replicate 4608 0;
  mi_kernel : kernel_bitmap s = replicate 1024 0;
  mi_heads : forall r, MmFacts.is_head r -> mapped (pn_links s) r;
  mi_nodes : forall i, (i < length (pn_list s))%nat -> mapped (pn_links s) (PN i);
  mi_io : io_base s = IO_ADDR_START;
  mi_root : forall i, 0 <= i < 512 -> ld64 (ram s) (slot PGDIR_VA i) = boot_entry i }.

Definition reset_head (hd : pnref) (h : gmap pnref (@node pnref)) := <[hd := Node (Some hd) (Some hd)]> h.
Definition reset_heads (h : gmap pnref (@node pnref)) :=
  reset_head user_page_sd_head (reset_head user_page_mem_head (reset_head kernel_page_head h)).
Definition mem_started (nsectors : Z) s : @mmst D :=
  mkMm (ram s) (user_bitmap s) (alter (fun b => Z.lor b 0x0f) 0%nat (kernel_bitmap s)) (set_pn_status PN_INACTIVE <$> pn_list s)
    (reset_heads (pn_links s)) (u64 nsectors) (swap s) ((fun p => mkShm 0 SHM_UNUSED (shm_kva p) 0) <$> shm_pages s) (userMemCurr s) (io_base s) (cur s).

Lemma reset_head_ok (h : gmap pnref (@node pnref)) hd : mapped h hd -> init_list_head h hd = Ok (reset_head hd h).
Proof.
  unfold mapped, init_list_head, st_next, st_prev. intros [n E]. simpl. rewrite E. simpl. rewrite lookup_insert_eq. simpl.
  unfold reset_head. by rewrite insert_insert_eq.
Qed.
Lemma reset_mapped (h : gmap pnref (@node pnref)) hd r : mapped h r -> mapped (reset_head hd h) r.
Proof. unfold mapped, reset_head. rewrite lookup_insert_is_Some'. by right. Qed.

Lemma init_mem_ok nsectors s :
  mem_image s -> exists s1, init_mem_manager nsectors s = Ok (tt, s1) /\ init_shmpage s1 = Ok (tt, mem_started nsectors s).
Proof.
  intros Hs. pose proof (mi_heads _ Hs) as Hm. eexists. split.
  - unfold init_mem_manager. rewrite !modify_bind.
    erewrite bind_ok by (apply pn_links_ok, reset_head_ok, Hm; done).
    erewrite bind_ok by (apply pn_links_ok, reset_head_ok, reset_mapped, Hm; done).
    erewrite bind_ok by (apply pn_links_ok, reset_head_ok, reset_mapped, reset_mapped, Hm; done).
    reflexivity.
  - reflexivity.
Qed.

(** *** The state after it *)

Lemma started_bitmap n s : mem_image s -> kernel_bitmap (mem_started n s) = 15 :: replicate 1023 0.
Proof. intros Hs. simpl. by rewrite (mi_kernel _ Hs). Qed.
Lemma zeros_bit n k : bit (replicate n 0) k = false.
Proof.
  unfold bit. destruct (replicate n 0 !! _) as [b|] eqn:E; [|apply Z.bits_0]. apply lookup_replicate in E as [-> _]. apply Z.bits_0.
Qed.
Lemma started_free n s k : mem_image s -> 4 <= k < FREE_KERNEL_PAGE_NUM -> kernel_free (mem_started n s) k.
Proof.
  intros Hs Hk. split; [lia|]. rewrite (started_bitmap n s Hs). destruct (decide (k < 8)) as [H8|H8].
  - assert (k = 4 \/ k = 5 \/ k = 6 \/ k = 7) as [->|[->|[->| ->]]] by lia; done.
  - pose proof (zeros_bit 1023 (k - 8)) as Hz. unfold bit in *.
    replace (k - 8) with (k + (-1) * 8) in Hz by lia. rewrite Z.mod_add, Z.div_add in Hz by lia.
    assert (1 <= k / 8) by (apply Z.div_le_lower_bound; lia).
    replace (Z.to_nat (k / 8)) with (S (Z.to_nat (k / 8 + -1))) by lia. exact Hz.
Qed.
Lemma started_pages n s : mem_image s -> at_least 8188 (kernel_free (mem_started n s)).
Proof.
  intros Hs. exists (seqZ 4 8188). split; [apply NoDup_seqZ|]. split; [by rewrite length_seqZ|].
  intros k Hk%elem_of_seqZ. apply started_free; [done|]. unfold FREE_KERNEL_PAGE_NUM. lia.
Qed.
Lemma started_user n s k : mem_image s -> 0 <= k < FREE_USER_PAGE_NUM -> user_free (mem_started n s) k.
Proof. intros Hs Hk. split; [done|]. simpl. rewrite (mi_user _ Hs). apply zeros_bit. Qed.

Definition no_nodes (r : pnref) : list nat := [].

Lemma started_wf n s : mem_image s -> mm_wf (mem_started n s) no_nodes.
Proof.
  intros Hs. split.
  - split; [|intros hd hd' i _ _ Hi; by apply elem_of_nil in Hi]. intros hd Hh. apply is_dll_nil; simpl; unfold nxt, prv, reset_heads, reset_head;
      destruct hd; [done|..]; by rewrite ?lookup_insert_eq, ?lookup_insert_ne, ?lookup_insert_eq by done.
  - intros i m E%lookup_lt_Some. simpl in E. rewrite length_fmap in E. do 3 apply reset_mapped. by apply (mi_nodes _ Hs).
  - intros i m E. simpl in E. rewrite list_lookup_fmap in E. destruct (pn_list s !! i); [|done]. injection E as <-. simpl.
    split; [done|]. intros (hd & _ & Hi). by apply elem_of_nil in Hi.
  - intros i (hd & _ & Hi). by apply elem_of_nil in Hi.
  - simpl. rewrite (mi_user _ Hs). split; [by apply Forall_replicate|done].
  - rewrite (started_bitmap n s Hs). split; [|done]. constructor; [lia|]. by apply Forall_replicate.
Qed.

Lemma started_io n s : mem_image s -> io_state (mem_started n s) {[PGDIR_VA := Root]} 0.
Proof.
  intros Hs.
  assert (forall i, IO_LO <= i < IO_HI -> ld64 (ram (mem_started n s)) (slot PGDIR_VA i) = 0) as Hz.
  { intros i Hi. simpl. rewrite (mi_root _ Hs) by (unfold IO_LO, IO_HI in *; lia). by apply boot_window. }
  split.
  - split; [apply (started_wf n s Hs)|]. split; [split|split].
    + done.
    + apply lookup_singleton_eq.
    + intros p l [<- _]%lookup_singleton_Some. done.
    + intros i Hi. left. by apply Hz.
    + intros p i j [_ [=]]%lookup_singleton_Some.
    + intros p [l [<- _]%lookup_singleton_Some]. by left.
    + intros p k [l [<- _]%lookup_singleton_Some] [Hk _]. unfold kernel_kva, PGDIR_VA, INIT_KERNEL_STACK, PAGE_SIZE. lia.
  - simpl. rewrite (mi_io _ Hs). done.
  - done.
  - lia.
  - intros j Hj. unfold leaf, uva2pte. rewrite Hz by (apply io_in_window; lia). done.
Qed.
End Memory.

(** ** The temporary mapping goes *)

Section Temp.
Context {D : Type} `{!SwapDevice D}.
Implicit Types s : @mmst D.

(** Memory that agrees on the entries of the window and on the kernel's pages has the
    same window. *)
Definition window_same (m m' : words) : Prop :=
  forall a, INIT_KERNEL_STACK <= a \/ (exists i, IO_LO <= i < IO_HI /\ a = slot PGDIR_VA i) -> ld64 m' a = ld64 m a.

Lemma window_walk m m' T va :
  pt_wf_in IO_LO IO_HI m PGDIR_VA T -> (forall p, is_Some (T !! p) -> p = PGDIR_VA \/ INIT_KERNEL_STACK <= p) ->
  window_same m m' -> in_window IO_LO IO_HI va ->
  uva2pte m' va PGDIR_VA = uva2pte m va PGDIR_VA /\ leaf m' PGDIR_VA va = leaf m PGDIR_VA va.
Proof.
  intros Hw Hp Hs Hv. destruct (vpn_ranges va) as (H2 & H1 & H0). pose proof (pt_root _ _ _ Hw) as Hroot.
  assert (forall p l j, T !! p = Some l -> l <> Root -> 0 <= j < 512 -> ld64 m' (slot p j) = ld64 m (slot p j)) as Hpool.
  { intros p l j Hl Hn Hj. apply Hs. left. destruct (Hp p ltac:(by eexists)) as [->|Hge]; [congruence|]. unfold slot. lia. }
  assert (uva2pte m' va PGDIR_VA = uva2pte m va PGDIR_VA) as Ew.
  { unfold uva2pte. rewrite (Hs (slot PGDIR_VA (vpn2 va))) by (right; by eexists).
    destruct (pt_lv3 _ _ _ Hw (vpn2 va) Hv) as [->|HT]; [done|]. by rewrite (Hpool _ _ _ HT). }
  split; [done|]. unfold leaf. rewrite Ew. destruct (uva2pte m va PGDIR_VA) as [a|] eqn:Ea; [|done].
  destruct (walk_table _ _ _ _ _ Hw Hv Ea) as (p & HT & ->). by apply (Hpool _ _ _ HT).
Qed.

Lemma window_kept s T k m' :
  io_state s T k -> window_same (ram s) m' ->
  io_state (with_ram m' s) T k /\ forall va, in_window IO_LO IO_HI va -> leaf m' PGDIR_VA va = leaf (ram s) PGDIR_VA va.
Proof.
  intros [(Hb & Hw & Hp & Hf) Hpos Hlen Hmap Hemp] Hs.
  assert (forall va, in_window IO_LO IO_HI va -> uva2pte m' va PGDIR_VA = uva2pte (ram s) va PGDIR_VA /\ leaf m' PGDIR_VA va = leaf (ram s) PGDIR_VA va)
    as Hwalk by (intros va Hv; by eapply window_walk).
  split; [|intros va Hv; by apply Hwalk]. split; [|done|done| |].
  - split; [done|]. split; [|split; [done|exact Hf]]. destruct Hw as [H1 H2 H3 H4 H5]. split; [done|done|done| |].
    + intros i Hi. cbv zeta. simpl. rewrite Hs by (right; by eexists). by apply H4.
    + intros p i j Hl Hj. cbv zeta. simpl. rewrite Hs; [by apply H5|]. left.
      destruct (Hp p ltac:(by eexists)) as [->|Hge]; [congruence|]. unfold slot. lia.
  - intros j Hj. simpl. rewrite (proj1 (Hwalk _ (io_in_window j ltac:(lia)))). by apply Hmap.
  - intros j Hj. simpl. rewrite (proj2 (Hwalk _ (io_in_window j ltac:(lia)))). by apply Hemp.
Qed.

Lemma drop_temp_ok s T k :
  io_state s T k -> ld64 (ram s) (slot PGDIR_VA 1) = boot_entry 1 ->
  exists m', drop_temp_pgdir s = Ok (tt, with_ram m' s) /\ io_state (with_ram m' s) T k /\
    (forall va, in_window IO_LO IO_HI va -> leaf m' PGDIR_VA va = leaf (ram s) PGDIR_VA va) /\
    forall i, 0 <= i < 512 -> ld64 m' (slot PGDIR_VA i) = if decide (i = 1) then 0 else ld64 (ram s) (slot PGDIR_VA i).
Proof.
  intros Hs E1. set (m' := st64 (clear_pgdir temp_table (ram s)) (slot PGDIR_VA 1) 0).
  assert (forall a, a <> slot PGDIR_VA 1 -> a < temp_table \/ temp_table + PAGE_SIZE <= a -> ld64 m' a = ld64 (ram s) a) as Hout.
  { intros a Ha Ht. unfold m'. rewrite ld_st_ne by done. unfold clear_pgdir. rewrite clear_words_ld, decide_False; [done|].
    intros [Hr _]. unfold NUM_PTE_ENTRY, PAGE_SIZE in *. lia. }
  rewrite temp_table_at in Hout. unfold PGDIR_VA, PAGE_SIZE, slot in Hout.
  destruct (window_kept s T k m' Hs) as [Hio Hleaf].
  { intros a [Ha|(i & Hi & ->)]; apply Hout; unfold INIT_KERNEL_STACK, slot, PGDIR_VA, IO_LO, IO_HI in *; lia. }
  exists m'. split; [|split; [done|split; [done|]]].
  - unfold drop_temp_pgdir. cbv zeta. erewrite bind_ok by apply load_ok.
    change (Z.shiftr _ _) with 1. rewrite E1, modify_bind. reflexivity.
  - intros i Hi. case_decide as Hd; [subst i; apply ld_st_eq|]. apply Hout; unfold slot, PGDIR_VA; lia.
Qed.
End Temp.

(** ** The whole kernel *)

#[local] Opaque locks1 locks2 locks3 locks4 locks5 image_locks.

Section Ready.
Context {D : Type} `{!SwapDevice D} {St : Type} `{!SectorStore St}.
Variables (timer : nat -> Z) (fdt : Z -> Z) (nsectors ntasks slave_hart_lock : Z).
Implicit Types k : @kernel D St.

Record image k : Prop := {
  im_locks : locks (kproc k) = image_locks;
  im_mm : mem_image (mm (kproc k));
  im_scr : kscr k = mkScreen (replicate SCREEN_CELLS 0) (replicate SCREEN_CELLS 0) 0 0 [];
  im_plic : words32 (kplic k) /\ present (plic_handlers (kplic k)) = false }.

(** The firmware names a device by the address of its first page. *)
Definition dev_addr (a : Z) : Prop := 0 <= a < 2 ^ 48 /\ a mod PAGE_SIZE = 0.
Definition fdt_ok : Prop := dev_addr (fdt PLIC_ADDR) /\ dev_addr (fdt ETHERNET_ADDR) /\ 3 <= fdt NR_IRQS < 1024.

Lemma dev_addr_pages a n : dev_addr a -> 0 <= n -> u64 a = a /\ dev_base a = a /\ dev_pages a (n * PAGE_SIZE) = n.
Proof.
  intros [Ha Hm] Hn. unfold dev_base, dev_pages, PAGE_SIZE in *. pose proof (Z.div_mod a 4096 ltac:(lia)) as E.
  split; [apply u64_small; lia|]. split; [lia|].
  replace (a + n * 4096 + 4096 - 1) with (4095 + (a / 4096 + n) * 4096) by lia. rewrite Z.div_add by lia. change (4095 / 4096) with 0. lia.
Qed.

Definition PLIC_VA : Z := io_va 0.
Definition E1000_VA : Z := io_va 0x4000.

(** Both devices after each other in the empty window. *)
Lemma devices_ok s T : fdt_ok -> io_state s T 0 -> at_least 8188 (kernel_free s) ->
  exists s1 s2 T', ioremap (u64 (fdt PLIC_ADDR)) (0x4000 * PAGE_SIZE) s = Ok (PLIC_VA, s1) /\
    ioremap (u64 (fdt ETHERNET_ADDR)) (8 * PAGE_SIZE) s1 = Ok (E1000_VA, s2) /\
    io_state s2 T' 0x4008 /\ at_least 8154 (kernel_free s2) /\ low_same (ram s) (ram s2) /\
    s2 = with_io (io_va 0x4008) (with_ram (ram s2) (with_kbitmap (kernel_bitmap s2) s)) /\
    (forall off, 0 <= off < 0x4000 * PAGE_SIZE -> device_at (ram s2) (PLIC_VA + off) = Some (fdt PLIC_ADDR + off, USER_ATTR)) /\
    (forall off, 0 <= off < 8 * PAGE_SIZE -> device_at (ram s2) (E1000_VA + off) = Some (fdt ETHERNET_ADDR + off, USER_ATTR)).
Proof.
  intros (Hp & He & _) Hs Hf.
  destruct (dev_addr_pages _ 0x4000 Hp ltac:(lia)) as (Up & Bp & Np), (dev_addr_pages _ 8 He ltac:(lia)) as (Ue & Be & Ne).
  rewrite Up, Ue. destruct Hp as [Hp _], He as [He _].
  pose proof (ioremap_ok s T 0 (fdt PLIC_ADDR) (0x4000 * PAGE_SIZE) 8155) as H1. cbv zeta in H1. rewrite Np, Bp in H1.
  destruct H1 as (s1 & T1 & E1 & Hs1 & Hf1 & Hl1 & Es1 & Hd1 & _); [done|lia|unfold PAGE_SIZE; lia|unfold PAGE_SIZE; lia| |].
  { intros _. change (Z.to_nat 0x4000) with (Z.to_nat 0x4000). replace (tables_for 0 (Z.to_nat 0x4000)) with 33%nat by (vm_compute; reflexivity). done. }
  change (0 + 0x4000) with 0x4000 in *.
  pose proof (ioremap_ok s1 T1 0x4000 (fdt ETHERNET_ADDR) (8 * PAGE_SIZE) 8154) as H2. cbv zeta in H2. rewrite Ne, Be in H2.
  destruct H2 as (s2 & T2 & E2 & Hs2 & Hf2 & Hl2 & Es2 & Hd2 & Ho2); [done|lia|unfold PAGE_SIZE; lia|unfold PAGE_SIZE; lia| |].
  { intros _. replace (tables_for 0x4000 (Z.to_nat 8)) with 1%nat by (vm_compute; reflexivity). done. }
  change (0x4000 + 8) with 0x4008 in *. exists s1, s2, T2. split; [done|]. split; [done|]. split; [done|]. split; [done|]. split.
  { intros a Ha Hn. by rewrite Hl2, Hl1. }
  split; [rewrite Es2, Es1; done|]. split.
  - intros off Hoff. unfold PLIC_VA. rewrite Ho2 by (unfold PAGE_SIZE in *; lia). apply Hd1. lia.
  - intros off Hoff. apply Hd2. lia.
Qed.

(** *** Steps of [main] *)

Lemma on_memory_ok {A} (m : M (@mmst D) A) k a s :
  m (mm (kproc k)) = Ok (a, s) -> on_memory m k = Ok (a, with_proc (with_mm s (kproc k)) k).
Proof. intros E. unfold on_memory, on_proc, zoom. by rewrite E. Qed.
Lemma on_proc_locks {A} (m : M lockst A) k a l :
  m (locks (kproc k)) = Ok (a, l) -> on_proc (on_locks m) k = Ok (a, with_proc (with_locks l (kproc k)) k).
Proof. intros E. unfold on_proc, on_locks, zoom. by rewrite E. Qed.

Definition idle_master : pcb_t := idle_pcb pid1_stack 2.
Lemma locks5_master : pcbs (sch locks5) !! MasterPid0 = Some idle_master.
Proof. vm_compute. reflexivity. Qed.

(** The screen is cleared at the cursor the image gives the idle process. *)
Lemma start_screen k :
  locks (kproc k) = locks5 -> kscr k = mkScreen (replicate SCREEN_CELLS 0) (replicate SCREEN_CELLS 0) 0 0 [] ->
  exists s, on_screen init_screen k = Ok (tt, with_scr s k) /\ screen_inv s /\ new_screen s = replicate SCREEN_CELLS 32 /\
    display s = Terminal.power_on.
Proof.
  intros Hl Hs. destruct init_screen_ok as (s & E & Hi & Hn & Hd & Hx & Hy).
  exists s. split; [|split; [exact Hi|split; [exact Hn|exact Hd]]].
  destruct locks5_sizes as (_ & _ & _ & _ & _ & Hc). pose proof locks5_master as Hm.
  assert (forall A (m : M sched A) a, m (sch locks5) = Ok (a, sch locks5) -> on_proc (on_sched m) k = Ok (a, k)) as Hsame.
  { intros A m a Em. unfold on_proc, zoom. rewrite (on_sched_same m (kproc k) a) by (by rewrite Hl). by destruct k. }
  assert (zoom kscr with_scr init_screen (with_scr (with_cursor 0 0 (kscr k)) k) = Ok (tt, with_scr s (with_scr (with_cursor 0 0 (kscr k)) k))) as Ez.
  { unfold zoom. cbn [kscr with_scr]. rewrite Hs. unfold with_cursor. cbn [new_screen old_screen Screen.serial]. by rewrite E. }
  unfold on_screen, current. rewrite (bind_ok (on_proc (on_sched _)) _ k idle_master k).
  2:{ apply Hsame. rewrite gets_bind, Hc. by apply read_pcb_ok. }
  rewrite (bind_ok (on_proc (on_sched _)) _ k MasterPid0 k) by (apply Hsame; unfold gets; by rewrite Hc).
  rewrite modify_bind, (bind_ok _ _ _ _ _ Ez), gets_bind. cbn [kscr with_scr]. rewrite Hx, Hy.
  erewrite bind_ok; [|unfold on_proc, zoom; cbn [kproc with_scr]; erewrite upd_pcb_on_sched by (unfold kpcbs; rewrite Hl; exact Hm); reflexivity].
  replace (with_sch (put_pcb MasterPid0 (set_cursor 0 0 idle_master) (sch (locks (kproc k)))) (locks (kproc k))) with (locks (kproc k)).
  - destruct k as [[] ? ? ? ? ? ? ? ? ? ? ? ?]; done.
  - rewrite Hl. unfold put_pcb. change (set_cursor 0 0 idle_master) with idle_master. rewrite insert_id by done. by destruct locks5 as [[] ? ? ? ? ?].
Qed.

Lemma addrs_none (s : @mmst D) : addrs_ok s (no_nodes kernel_page_head ++ no_nodes user_page_mem_head).
Proof. intros i n Hi. by apply elem_of_nil in Hi. Qed.

(** What holds when [main] is about to start the shell. *)
Record ready (f : @fsst St) k : Prop := {
  rd_inv : kern_inv (kproc k) start_queues no_nodes;
  rd_idle : kcur (kproc k) = MasterPid0 /\ (forall i, (i < NUM_MAX_TASK)%nat -> exists p, kpcbs (kproc k) !! Pcb i = Some p /\ status p = TASK_EXITED) /\ tasknum (kproc k) = ntasks;
  rd_pages : at_least 8154 (kernel_free (mm (kproc k))) /\ forall a, 0 <= a < FREE_USER_PAGE_NUM -> user_free (mm (kproc k)) a;
  rd_plic : forall off, 0 <= off < 0x4000 * PAGE_SIZE -> device_at (ram (mm (kproc k))) (PLIC_VA + off) = Some (fdt PLIC_ADDR + off, USER_ATTR);
  rd_e1000 : forall off, 0 <= off < 8 * PAGE_SIZE -> device_at (ram (mm (kproc k))) (ke1000 k + off) = Some (fdt ETHERNET_ADDR + off, USER_ATTR);
  rd_irq : plic_regs (kplic k) = PLIC_VA /\ forall id, 1 <= id <= fdt NR_IRQS -> delivers (kplic k) id = (id =? net_irq (fdt NR_IRQS));
  rd_root : forall i, 0 <= i < 512 -> ~ (IO_LO <= i < IO_HI) ->
    ld64 (ram (mm (kproc k))) (slot PGDIR_VA i) = if decide (i = 1 /\ slave_hart_lock = 0) then 0 else boot_entry i;
  rd_lock : whole_kernel_lock k = 0;
  rd_fs : kfs k = f;
  rd_screen : screen_inv (kscr k) /\ new_screen (kscr k) = replicate SCREEN_CELLS 32 /\ display (kscr k) = Terminal.power_on }.

(** The devices and the temporary mapping, on memory. *)
Lemma memory_ready s :
  fdt_ok -> mem_image s ->
  exists s1 s2 s3, ioremap (u64 (fdt PLIC_ADDR)) (0x4000 * PAGE_SIZE) (mem_started nsectors s) = Ok (PLIC_VA, s1) /\
    ioremap (u64 (fdt ETHERNET_ADDR)) (8 * PAGE_SIZE) s1 = Ok (E1000_VA, s2) /\
    (if slave_hart_lock =? 0 then drop_temp_pgdir else mret tt) s2 = Ok (tt, s3) /\
    mm_wf s3 no_nodes /\ at_least 8154 (kernel_free s3) /\ (forall a, 0 <= a < FREE_USER_PAGE_NUM -> user_free s3 a) /\
    (forall off, 0 <= off < 0x4000 * PAGE_SIZE -> device_at (ram s3) (PLIC_VA + off) = Some (fdt PLIC_ADDR + off, USER_ATTR)) /\
    (forall off, 0 <= off < 8 * PAGE_SIZE -> device_at (ram s3) (E1000_VA + off) = Some (fdt ETHERNET_ADDR + off, USER_ATTR)) /\
    (forall i, 0 <= i < 512 -> ~ (IO_LO <= i < IO_HI) ->
       ld64 (ram s3) (slot PGDIR_VA i) = if decide (i = 1 /\ slave_hart_lock = 0) then 0 else boot_entry i).
Proof.
  intros Hf Hs. set (s0 := mem_started nsectors s).
  destruct (devices_ok s0 _ Hf (started_io nsectors s Hs) (started_pages nsectors s Hs)) as (s1 & s2 & T & E1 & E2 & Hio & Hk & Hlow & Es2 & Hp & He).
  assert (forall i, 0 <= i < 512 -> ~ (IO_LO <= i < IO_HI) -> ld64 (ram s2) (slot PGDIR_VA i) = boot_entry i) as Hroot.
  { intros i Hi Hn. rewrite Hlow; [by apply (mi_root _ Hs)|unfold slot, PGDIR_VA, INIT_KERNEL_STACK; lia|].
    intros j Hj E. unfold slot in E. lia. }
  assert (forall m, mm_wf (with_ram m s2) no_nodes /\ forall a, 0 <= a < FREE_USER_PAGE_NUM -> user_free (with_ram m s2) a) as Hwf.
  { intros m. pose proof (started_wf nsectors s Hs) as W. fold s0 in W. split.
    - pose proof (proj1 (io_tabs _ _ _ Hio)) as Hb. rewrite Es2 in Hb |- *. split; [apply W..|exact Hb].
    - rewrite Es2. intros a Ha. by apply (started_user nsectors s a Hs). }
  destruct (Z.eqb_spec slave_hart_lock 0) as [Hz|Hz].
  - destruct (drop_temp_ok s2 T 0x4008 Hio) as (m' & E3 & _ & Hleaf & Hr3).
    { apply Hroot; unfold IO_LO, IO_HI; lia. }
    assert (forall j off, 0 <= j -> 0 <= off -> j + off / PAGE_SIZE < IO_PAGES -> device_at m' (io_va j + off) = device_at (ram s2) (io_va j + off)) as Hd.
    { intros j off Hj Ho Hb. rewrite !device_page by done. rewrite Hleaf; [done|]. apply io_in_window.
      pose proof (Z.div_pos off PAGE_SIZE Ho ltac:(unfold PAGE_SIZE; lia)). lia. }
    exists s1, s2, (with_ram m' s2). split; [exact E1|]. split; [exact E2|]. split; [exact E3|]. split; [apply Hwf|]. split; [exact Hk|]. split; [apply Hwf|].
    split; [|split].
    + intros off Hoff. simpl. unfold PLIC_VA in *. rewrite Hd; [by apply Hp|lia|lia|].
      pose proof (Z.div_lt_upper_bound off PAGE_SIZE 0x4000 ltac:(unfold PAGE_SIZE; lia) ltac:(lia)). unfold IO_PAGES. lia.
    + intros off Hoff. simpl. unfold E1000_VA in *. rewrite Hd; [by apply He|lia|lia|].
      pose proof (Z.div_lt_upper_bound off PAGE_SIZE 8 ltac:(unfold PAGE_SIZE; lia) ltac:(lia)). unfold IO_PAGES. lia.
    + intros i Hi Hn. simpl. rewrite Hr3 by done. destruct (decide (i = 1)) as [->|Hne].
      * by rewrite decide_True.
      * rewrite decide_False by tauto. by apply Hroot.
  - exists s1, s2, s2. split; [exact E1|]. split; [exact E2|]. split; [reflexivity|].
    pose proof (Hwf (ram s2)) as [W U]. replace (with_ram (ram s2) s2) with s2 in W, U by (by destruct s2).
    split; [exact W|]. split; [exact Hk|]. split; [exact U|]. split; [exact Hp|]. split; [exact He|].
    intros i Hi Hn. rewrite decide_False by tauto. by apply Hroot.
Qed.

End Ready.
