(* ===== verification/StartWitness.v ===== *)
(** * A machine that comes up

    The image of the kernel with the tables the boot code made, an empty disk and a card
    that holds a program; [main] up to the shell by the theorem, and all of it by
    evaluation. *)
From Stdlib Require String.
From S2P Require Import Prelude DList CString Sched Lock BCache FsLayout Fs FsWitness PageTable Mm MmFacts MmWitness UserMem.
From S2P Require Import Process ProcessFacts Printk Screen Syscall Trap Smp Plic Bios Boot IoMap Start StartFacts.
Import String.StringSyntax.
Delimit Scope string_scope with string.

Abbreviation machine := (@kernel card (@cache (gmap Z (list Z)))).

(** QEMU's addresses. *)
Definition qemu_fdt (type : Z) : Z :=
  if type =? TIMEBASE then 10000000 else if type =? ETHERNET_ADDR then 0x40000000 else if type =? PLIC_ADDR then 0xc000000 else 53.

(** The string and the pointer to it [main] passes to [do_exec], in the kernel's data. *)
Definition shell_at : Z := 0xffffffc050300000.
Definition argv_at : Z := 0xffffffc050300100.
Definition start_ram : words :=
  put_bytes shell_at (cstr "shell"%string)
    (<[argv_at := shell_at]> (list_to_map ((fun '(a, v) => (pa2kva a, v)) <$> map_to_list boot_tables))).
Definition shell_task : task_info_t :=
  mkTask (cstr "shell"%string ++ replicate 58 0) 0x10000 1 40 0 512.
Definition start_mm : @mmst card :=
  mkMm start_ram (user_bitmap raw) (kernel_bitmap raw)
    (replicate 32 (mkPN PN_INACTIVE None 0 0 0))
    (list_to_map ((fun r => (r, Node None None)) <$> [kernel_page_head; user_page_mem_head; user_page_sd_head] ++ (PN <$> seq 0 32)))
    0 ∅ (shm_pages raw) USER_STACK_ADDR IO_ADDR_START zero_pcb.
Definition start_kernel : machine :=
  mkKernel (mkKern image_locks start_mm [shell_task] 0) blank
    (mkScreen (replicate SCREEN_CELLS 0) (replicate SCREEN_CELLS 0) 0 0 []) (mkPlic ∅ 0 (mkHandler false 0 0) []) 7
    (replicate 16 None) (replicate NUM_SYSCALLS None) [] [] 0 0 [] 0.

Definition mapped_b (h : gmap pnref (@node pnref)) (r : pnref) : bool := match h !! r with Some _ => true | None => false end.
Lemma mapped_b_ok h r : mapped_b h r = true -> mapped h r.
Proof. unfold mapped_b, mapped. by destruct (h !! r); [eexists|]. Qed.

Lemma start_image : image start_kernel.
Proof.
  split.
  - reflexivity.
  - split.
    + reflexivity.
    + reflexivity.
    + intros [] Hr; [destruct Hr|..]; apply mapped_b_ok; vm_compute; reflexivity.
    + intros i Hi. apply mapped_b_ok. change (length (pn_list _)) with 32%nat in Hi.
      assert (forallb (fun i => mapped_b (pn_links start_mm) (PN i)) (seq 0 32) = true) as H by (vm_compute; reflexivity).
      exact (below_all _ 32 i H Hi).
    + reflexivity.
    + intros i Hi. assert (forallb (fun i => ld64 start_ram (slot PGDIR_VA i) =? boot_entry i) (seqZ 0 512) = true) as H by (vm_compute; reflexivity).
      apply Z.eqb_eq. apply (forallb_all _ _ i H). apply elem_of_seqZ. lia.
  - reflexivity.
  - split; [|reflexivity]. intros a v E. cbn [kplic start_kernel regs32] in E. by rewrite lookup_empty in E.
Qed.
Lemma qemu_ok : fdt_ok qemu_fdt.
Proof. unfold fdt_ok, dev_addr. cbn. unfold PAGE_SIZE. split_and!; lia || reflexivity. Qed.


Lemma ioremap_maps_witness :
  exists s', ioremap 0xc000000 0x5000 (mem_started 200 start_mm) = Ok (IO_ADDR_START, s') /\
    device_at (ram s') (IO_ADDR_START + 0x1004) = Some (0xc001004, USER_ATTR).
Proof.
  pose proof (im_mm _ start_image) as Him.
  destruct (ioremap_maps (mem_started 200 start_mm) {[PGDIR_VA := Root]} 0 0xc000000 0x5000 8186) as (s' & T & E & _ & _ & _ & _ & Hd & _).
  - exact (started_io 200 start_mm Him).
  - lia.
  - lia.
  - unfold PAGE_SIZE. lia.
  - intros _. change (tables_for 0 (Z.to_nat (dev_pages 0xc000000 0x5000))) with 2%nat. exact (started_pages 200 start_mm Him).
  - exists s'. split; [exact E|]. apply (Hd 0x1004). change (dev_pages 0xc000000 0x5000) with 5. unfold PAGE_SIZE. lia.
Defined.

(** The whole of [main]: the shell gets pid 1 and is the only ready process, runs on
    both harts and has its entry point, name and arguments. *)
Definition shell_started (r : res (Z * machine)) : bool :=
  match r with
  | Err _ => false
  | Ok (pid, k) =>
    match pcbs (sch (locks (kproc k))) !! Pcb 0, links (sch (locks (kproc k))) !! ReadyQ with
    | Some p, Some (Node (Some a) (Some b)) =>
      (pid =? 1) && (Sched.pid p =? 1) && bool_decide (a = PcbList (Pcb 0)) && bool_decide (b = PcbList (Pcb 0)) &&
      bool_decide (status p = TASK_READY) && (cpu_mask p =? 3) && (entry_point p =? 0x10000) &&
      let m := ram (mm (kproc k)) in
      match (a ← uld64 m (pgdir p) (USER_STACK_ADDR - 16); ustr 16 m (pgdir p) a) with
      | Ok l => bool_decide (l = cstr "shell"%string)
      | Err _ => false
      end
    | _, _ => false
    end
  end.
Example shell_starts :
  shell_started (main (fun _ => 0) 0xffffffc050201000 64 (fun n => Z.of_nat n) fs_clock qemu_fdt 200 1 0 shell_at argv_at 0 start_kernel) = true.
Proof. vm_compute. reflexivity. Qed.
