(* ===== verification/Image.v ===== *)
(** * The image tool (tools/createimage.c)

    It writes the boot block, the kernel and the user programs one after the other
    into the image the machine boots from, with a table of the programs after the
    kernel and the sizes in the last bytes of the boot block.  An ELF file is the list
    of its bytes; the structures of elf.h are read at the offsets the format gives
    their fields.  The messages of [--extended] have no counterpart. *)
From Stdlib Require String.
From S2P Require Import Prelude CString FsLayout Process.
Import String.StringSyntax.
Delimit Scope string_scope with string.

(** ** Data *)

Definition BOOT_LOADER_SIG_OFFSET : nat := 0x1fe.
Definition OS_SIZE_LOC : nat := BOOT_LOADER_SIG_OFFSET - 2.
Definition TASKNUM_LOC : nat := OS_SIZE_LOC - 6.
Definition SLAVE_HART_LOC : nat := TASKNUM_LOC - 2.
Definition IMAGE_SIZE_LOC : nat := SLAVE_HART_LOC - 2.
Definition NBYTES2SEC (nbytes : Z) : Z := Z.quot nbytes 512 + (if Z.rem nbytes 512 =? 0 then 0 else 1).
Definition TASK_MAXNUM : nat := 16.
Definition SIZEOF_TASK : Z := 88.        (* sizeof(task_info_t) *)
Definition PT_LOAD : Z := 1.

Record Elf64_Ehdr := mkEhdr { e_ident : list Z; e_entry : Z; e_phoff : Z; e_phentsize : Z; e_phnum : Z }.
Record Elf64_Phdr := mkPhdr { p_type : Z; p_offset : Z; p_filesz : Z; p_memsz : Z }.

(** The image file, the position after its last byte as the tool counts it, the two
    sizes and the table. *)
Record tool := mkTool { img : list Z; phyaddr : Z; nbytes_kernel : Z; nbytes_image : Z; taskinfo : list task_info_t }.
Definition with_img v s := mkTool v (phyaddr s) (nbytes_kernel s) (nbytes_image s) (taskinfo s).
Definition with_sizes k i s := mkTool (img s) (phyaddr s) k i (taskinfo s).
Definition with_taskinfo v s := mkTool (img s) (phyaddr s) (nbytes_kernel s) (nbytes_image s) v.

Definition i16 (z : Z) : Z := (z + 2 ^ 15) mod 2 ^ 16 - 2 ^ 15.

(** ** Reading ELF files *)

(** [fread] of a structure of [n] bytes at [off]; a short read fails the [assert]. *)
Definition fread_at (fp : list Z) (off n : nat) : res (list Z) :=
  if (off + n <=? length fp)%nat then Ok (slice off n fp) else Err Panic.
Definition read_ehdr (fp : list Z) : res Elf64_Ehdr :=
  h ← fread_at fp 0 64;
  let ident := slice 0 16 h in
  if bool_decide (ident !! 1%nat = Some 69) && bool_decide (ident !! 2%nat = Some 76) && bool_decide (ident !! 3%nat = Some 70)
  then Ok (mkEhdr ident (le_val (slice 24 8 h)) (le_val (slice 32 8 h)) (le_val (slice 54 2 h)) (le_val (slice 56 2 h)))
  else Err Panic.
Definition read_phdr (fp : list Z) (ph : Z) (ehdr : Elf64_Ehdr) : res Elf64_Phdr :=
  h ← fread_at fp (Z.to_nat (e_phoff ehdr + ph * e_phentsize ehdr)) 56;
  Ok (mkPhdr (le_val (slice 0 4 h)) (le_val (slice 8 8 h)) (le_val (slice 32 8 h)) (le_val (slice 40 8 h))).
Definition get_entrypoint (ehdr : Elf64_Ehdr) : Z := e_entry ehdr.
Definition get_filesz (phdr : Elf64_Phdr) : Z := u32 (p_filesz phdr).
Definition get_memsz (phdr : Elf64_Phdr) : Z := u32 (p_memsz phdr).

(** ** Writing the image *)

Definition fputc (c : Z) : M tool unit :=
  modify (fun s => mkTool (img s ++ [u8 c]) (i32 (phyaddr s + 1)) (nbytes_kernel s) (nbytes_image s) (taskinfo s)).
(** [fgetc] at the end of the file is -1. *)
Definition fgetc (fp : list Z) (pos : nat) : Z := default (-1) (fp !! pos).
Fixpoint copy_loop (n : nat) (fp : list Z) (pos : nat) : M tool unit :=
  match n with
  | O => mret tt
  | S n' => fputc (fgetc fp pos);; copy_loop n' fp (S pos)
  end.
Definition write_segment (phdr : Elf64_Phdr) (fp : list Z) : M tool unit :=
  if negb (p_memsz phdr =? 0) && (p_type phdr =? PT_LOAD)
  then copy_loop (Z.to_nat (p_filesz phdr)) fp (Z.to_nat (p_offset phdr)) else mret tt.
Fixpoint pad_loop (n : nat) : M tool unit :=
  match n with O => mret tt | S n' => fputc 0;; pad_loop n' end.
Definition write_padding (new_phyaddr : Z) : M tool unit :=
  a ← gets phyaddr; pad_loop (Z.to_nat (new_phyaddr - a)).

Definition bootblock_name : list Z := codes "bootblock"%string.
Definition main_name : list Z := codes "main"%string.

(** The program headers from [ph] on; the result is the memory size. *)
Fixpoint phdr_loop (n : nat) (ph : Z) (name fp : list Z) (ehdr : Elf64_Ehdr) (taskinfo_size mem : Z) : M tool Z :=
  match n with
  | O => mret mem
  | S n' =>
    phdr ← lift (read_phdr fp ph ehdr);
    if negb (p_type phdr =? PT_LOAD) then phdr_loop n' (ph + 1) name fp ehdr taskinfo_size mem else
    write_segment phdr fp;;
    (if decide (name = main_name) then
       modify (fun s => with_sizes (i32 (nbytes_kernel s + get_filesz phdr)) (i32 (nbytes_image s + (get_filesz phdr + taskinfo_size))) s)
     else if decide (name = bootblock_name) then
       modify (fun s => with_sizes (nbytes_kernel s) (i32 (nbytes_image s + 512)) s)
     else modify (fun s => with_sizes (nbytes_kernel s) (i32 (nbytes_image s + get_filesz phdr)) s));;
    phdr_loop n' (ph + 1) name fp ehdr taskinfo_size (i32 (mem + get_memsz phdr))
  end.

(** The entry of a user program. *)
Definition task_entry (name : list Z) (ehdr : Elf64_Ehdr) (mem fi_phyaddr_begin phyaddr : Z) : task_info_t :=
  mkTask (name ++ replicate (MAX_NAME_LEN - length name) 0) (get_entrypoint ehdr)
    (u32 ((ROUND phyaddr 512 - ROUNDDOWN fi_phyaddr_begin 512) / 512))
    (u32 (fi_phyaddr_begin / 512)) (u32 (fi_phyaddr_begin mod 512)) (u32 mem).

Section Host.
(** The files of the host, by name. *)
Context (fopen : list Z -> option (list Z)).

(** One turn of the loop over the files. *)
Definition add_file (fidx : nat) (name : list Z) (taskinfo_size : Z) : M tool unit :=
  fi_phyaddr_begin ← gets phyaddr;
  fp ← lift (of_option Panic (fopen name));
  ehdr ← lift (read_ehdr fp);
  mem ← phdr_loop (Z.to_nat (e_phnum ehdr)) 0 name fp ehdr taskinfo_size 0;
  (if decide (name = bootblock_name) then write_padding 512
   else if decide (name = main_name) then a ← gets phyaddr; write_padding (i32 (a + taskinfo_size))
   else mret tt);;
  if (2 <=? fidx)%nat then
    a ← gets phyaddr;
    t ← gets taskinfo;
    if (length name <? MAX_NAME_LEN)%nat && (fidx - 2 <? length t)%nat then
      modify (with_taskinfo (<[(fidx - 2)%nat := task_entry name ehdr mem fi_phyaddr_begin a]> t))
    else fail Fault
  else mret tt.
Fixpoint files_loop (fidx : nat) (files : list (list Z)) (taskinfo_size : Z) : M tool unit :=
  match files with
  | [] => mret tt
  | name :: files' => add_file fidx name taskinfo_size;; files_loop (S fidx) files' taskinfo_size
  end.

(** [fseek] and [fwrite]: beyond the end the file is filled with zeros. *)
Definition fwrite_at (pos : nat) (data : list Z) : M tool unit :=
  modify (fun s => with_img (splice pos data (img s ++ replicate (pos + length data - length (img s)) 0)) s).

Definition encode_task (t : task_info_t) : list Z :=
  t_name t ++ le_bytes 8 (entrypoint t) ++ le_bytes 4 (sector_num t) ++ le_bytes 4 (firstsector t) ++
  le_bytes 4 (offset t) ++ le_bytes 4 (memsize t).

Definition write_img_info (tasknum : Z) : M tool unit :=
  k ← gets nbytes_kernel;
  i ← gets nbytes_image;
  t ← gets taskinfo;
  (if tasknum >? Z.of_nat (length t) then fail Fault else
     fwrite_at (Z.to_nat (k + 512)) (mjoin (encode_task <$> take (Z.to_nat tasknum) t)));;
  fwrite_at OS_SIZE_LOC (le_bytes 2 (NBYTES2SEC (i32 (k + SIZEOF_TASK * tasknum))));;
  fwrite_at TASKNUM_LOC (le_bytes 2 tasknum);;
  fwrite_at (TASKNUM_LOC + 2) (le_bytes 4 k);;
  fwrite_at SLAVE_HART_LOC (le_bytes 2 0);;
  fwrite_at IMAGE_SIZE_LOC (le_bytes 2 (NBYTES2SEC i)).

Definition no_task : task_info_t := mkTask (replicate MAX_NAME_LEN 0) 0 0 0 0 0.
Definition create_image (files : list (list Z)) : res tool :=
  let tasknum := Z.of_nat (length files) - 2 in
  '(_, s) ← (files_loop 0 files (tasknum * SIZEOF_TASK);; write_img_info (i16 tasknum))
              (mkTool [] 0 0 0 (replicate TASK_MAXNUM no_task));
  Ok s.

(** [main], without the name of the program; [None]: it stops with a message. *)
Fixpoint parse_options (argv : list (list Z)) (vm : bool) : option (bool * list (list Z)) :=
  match argv with
  | (45 :: 45 :: option) :: argv' =>
    if decide (option = codes "vm"%string) then parse_options argv' true
    else if decide (option = codes "extended"%string) then parse_options argv' vm
    else None
  | _ => Some (vm, argv)
  end.
Definition tool_main (argv : list (list Z)) : option (res tool) :=
  match parse_options argv false with
  | Some (false, files) => if (length files <? 2)%nat then None else Some (create_image files)
  | _ => None
  end.
End Host.

(** ** What the image holds *)

(** A program header as the tool copies it. *)
Definition segment (fp : list Z) (p : Elf64_Phdr) : list Z :=
  map (fun k => u8 (fgetc fp (Z.to_nat (p_offset p) + k))) (seq 0 (Z.to_nat (p_filesz p))).
Definition contents (fp : list Z) (ps : list Elf64_Phdr) : list Z := mjoin (segment fp <$> ps).

(** An executable file: its header, its loadable segments [ps] and their memory size.
    No segment is larger in the file than in memory. *)
Definition phdr_wf (p : Elf64_Phdr) : Prop := 0 <= p_filesz p <= p_memsz p /\ p_memsz p < 2 ^ 31.
Definition headers (fp : list Z) (e : Elf64_Ehdr) (ph : Z) (all : list Elf64_Phdr) : Prop :=
  forall j p, all !! j = Some p -> read_phdr fp (ph + Z.of_nat j) e = Ok p.
Definition loadable (all : list Elf64_Phdr) : list Elf64_Phdr := filter (fun p => p_type p = PT_LOAD) all.
Definition executable (fp : list Z) (e : Elf64_Ehdr) (ps : list Elf64_Phdr) : Prop :=
  read_ehdr fp = Ok e /\ exists all, ps = loadable all /\ Forall phdr_wf all /\
    e_phnum e = Z.of_nat (length all) /\ headers fp e 0 all.

Definition sum_memsz (ps : list Elf64_Phdr) : Z := foldr (fun p n => p_memsz p + n) 0 ps.
Definition size_in (fp : list Z) (ps : list Elf64_Phdr) : Z := Z.of_nat (length (contents fp ps)).
(** What a file adds to [nbytes_kernel] and [nbytes_image]. *)
Definition kernel_part (name fp : list Z) (ps : list Elf64_Phdr) : Z := if decide (name = main_name) then size_in fp ps else 0.
Definition image_part (name fp : list Z) (ps : list Elf64_Phdr) (tsz : Z) : Z :=
  if decide (name = main_name) then size_in fp ps + Z.of_nat (length ps) * tsz
  else if decide (name = bootblock_name) then 512 * Z.of_nat (length ps) else size_in fp ps.

(** ** Facts *)

Definition in_step (s : tool) : Prop := phyaddr s = Z.of_nat (length (img s)).
Definition grow (data : list Z) (dk di : Z) (s : tool) : tool :=
  mkTool (img s ++ data) (phyaddr s + Z.of_nat (length data)) (nbytes_kernel s + dk) (nbytes_image s + di) (taskinfo s).

Lemma in_step_grow data dk di s : in_step s -> in_step (grow data dk di s).
Proof. unfold in_step. intros E. cbn. rewrite length_app, E. lia. Qed.
Lemma grow_grow a b k k' i i' s : grow b k' i' (grow a k i s) = grow (a ++ b) (k + k') (i + i') s.
Proof. unfold grow. cbn. rewrite length_app, (assoc_L (++)). f_equal; lia. Qed.
Lemma grow_nil s : grow [] 0 0 s = s.
Proof. destruct s. unfold grow. cbn. rewrite app_nil_r. f_equal; lia. Qed.

Lemma length_segment fp p : phdr_wf p -> Z.of_nat (length (segment fp p)) = p_filesz p.
Proof. intros [H _]. unfold segment. rewrite length_map, length_seq. lia. Qed.
Lemma contents_cons fp p ps : contents fp (p :: ps) = segment fp p ++ contents fp ps.
Proof. done. Qed.
Lemma size_cons fp p ps : phdr_wf p -> size_in fp (p :: ps) = p_filesz p + size_in fp ps.
Proof. intros Hp. unfold size_in. rewrite contents_cons, length_app, Nat2Z.inj_add, length_segment by done. done. Qed.
Lemma size_nonneg fp ps : 0 <= size_in fp ps.
Proof. unfold size_in. lia. Qed.

Lemma fputc_ok c s : in_step s -> phyaddr s + 1 < 2 ^ 31 -> fputc c s = Ok (tt, grow [u8 c] 0 0 s).
Proof.
  intros Hs Hb. unfold in_step in Hs. unfold fputc, modify, grow. rewrite i32_small by lia.
  cbn [length]. do 3 f_equal; lia.
Qed.

Lemma copy_loop_ok n : forall fp pos s, in_step s -> phyaddr s + Z.of_nat n < 2 ^ 31 ->
  copy_loop n fp pos s = Ok (tt, grow (map (fun k => u8 (fgetc fp (pos + k))) (seq 0 n)) 0 0 s).
Proof.
  induction n as [|n IH]; intros fp pos s Hs Hb; cbn [copy_loop].
  - simpl. by rewrite grow_nil.
  - rewrite (bind_ok _ _ _ _ _ (fputc_ok _ s Hs ltac:(lia))), IH; [|by apply in_step_grow|cbn; lia].
    rewrite grow_grow. cbn [seq map app]. rewrite Nat.add_0_r, <- seq_shift, map_map.
    do 4 f_equal. apply map_ext. intros k. do 2 f_equal. lia.
Qed.

Lemma pad_loop_ok n : forall s, in_step s -> phyaddr s + Z.of_nat n < 2 ^ 31 ->
  pad_loop n s = Ok (tt, grow (replicate n 0) 0 0 s).
Proof.
  induction n as [|n IH]; intros s Hs Hb; cbn [pad_loop].
  - simpl. by rewrite grow_nil.
  - rewrite (bind_ok _ _ _ _ _ (fputc_ok 0 s Hs ltac:(lia))), IH; [|by apply in_step_grow|cbn; lia].
    by rewrite grow_grow.
Qed.

Lemma write_segment_ok fp p s :
  in_step s -> phdr_wf p -> p_type p = PT_LOAD -> phyaddr s + p_filesz p < 2 ^ 31 ->
  write_segment p fp s = Ok (tt, grow (segment fp p) 0 0 s).
Proof.
  intros Hs [Hp _] Ht Hb. unfold write_segment. rewrite Ht, Z.eqb_refl, andb_true_r.
  destruct (Z.eqb_spec (p_memsz p) 0) as [E|E]; cbn [negb].
  - unfold segment. replace (p_filesz p) with 0 by lia. simpl. by rewrite grow_nil.
  - apply copy_loop_ok; [done|lia].
Qed.

(** One program header of a file. *)
Lemma sizes_ok name fp p tsz s :
  phdr_wf p -> 0 <= tsz -> 0 <= nbytes_kernel s -> 0 <= nbytes_image s ->
  nbytes_kernel s + kernel_part name fp [p] < 2 ^ 31 -> nbytes_image s + image_part name fp [p] tsz < 2 ^ 31 ->
  (if decide (name = main_name) then
     modify (fun s => with_sizes (i32 (nbytes_kernel s + get_filesz p)) (i32 (nbytes_image s + (get_filesz p + tsz))) s)
   else if decide (name = bootblock_name) then modify (fun s => with_sizes (nbytes_kernel s) (i32 (nbytes_image s + 512)) s)
   else modify (fun s => with_sizes (nbytes_kernel s) (i32 (nbytes_image s + get_filesz p)) s)) s =
  Ok (tt, grow [] (kernel_part name fp [p]) (image_part name fp [p] tsz) s).
Proof.
  intros Hp Ht Hk Hi. pose proof (size_cons fp p [] Hp) as Hs. pose proof Hp as [H1 H2].
  change (size_in fp []) with 0 in Hs. unfold kernel_part, image_part, get_filesz. rewrite u32_small, Hs by lia.
  unfold grow, modify, with_sizes. rewrite app_nil_r, !Z.add_0_r. cbn [length].
  repeat case_decide; intros Hbk Hbi; rewrite ?i32_small by lia; do 3 f_equal; lia.
Qed.

Lemma kernel_part_cons name fp p ps : kernel_part name fp (p :: ps) = kernel_part name fp [p] + kernel_part name fp ps.
Proof. unfold kernel_part, size_in. rewrite !contents_cons, !length_app. case_decide; [|done]. change (length (contents fp [])) with 0%nat. lia. Qed.
Lemma image_part_cons name fp p ps tsz : image_part name fp (p :: ps) tsz = image_part name fp [p] tsz + image_part name fp ps tsz.
Proof.
  unfold image_part, size_in. rewrite !contents_cons, !length_app. change (length (contents fp [])) with 0%nat. cbn [length].
  repeat case_decide; lia.
Qed.
Lemma kernel_part_nonneg name fp ps : 0 <= kernel_part name fp ps.
Proof. unfold kernel_part. case_decide; [apply size_nonneg|lia]. Qed.
Lemma image_part_nonneg name fp ps tsz : 0 <= tsz -> 0 <= image_part name fp ps tsz.
Proof. intros H. unfold image_part. pose proof (size_nonneg fp ps). repeat case_decide; lia. Qed.

Lemma sum_memsz_nonneg all : Forall phdr_wf all -> 0 <= sum_memsz (loadable all).
Proof.
  unfold loadable. induction 1 as [|x l [Hx _] _ IH]; [done|]. rewrite filter_cons. case_decide; [|done].
  cbn. unfold sum_memsz in IH. lia.
Qed.

Lemma phdr_loop_ok all : forall ph name fp e tsz mem s,
  headers fp e ph all -> Forall phdr_wf all -> in_step s -> 0 <= tsz -> 0 <= mem -> 0 <= nbytes_kernel s -> 0 <= nbytes_image s ->
  let ps := loadable all in
  phyaddr s + size_in fp ps < 2 ^ 31 -> nbytes_kernel s + kernel_part name fp ps < 2 ^ 31 ->
  nbytes_image s + image_part name fp ps tsz < 2 ^ 31 -> mem + sum_memsz ps < 2 ^ 31 ->
  phdr_loop (length all) ph name fp e tsz mem s =
    Ok (mem + sum_memsz ps, grow (contents fp ps) (kernel_part name fp ps) (image_part name fp ps tsz) s).
Proof.
  induction all as [|p all IH]; intros ph name fp e tsz mem s Hh Hw Hs Ht Hm Hk Hi ps Ha Hbk Hbi Hbm; cbn [length phdr_loop].
  - subst ps. assert (kernel_part name fp [] = 0 /\ image_part name fp [] tsz = 0) as [E1 E2].
    { unfold kernel_part, image_part, size_in. cbn. by repeat case_decide. }
    cbn [loadable filter list_filter]. unfold loadable. cbn. rewrite E1, E2. change (contents fp []) with (@nil Z).
    by rewrite grow_nil, Z.add_0_r.
  - inversion Hw as [|?? Hp Hw']; subst.
    assert (read_phdr fp ph e = Ok p) as Er by (rewrite <- (Z.add_0_r ph); by apply (Hh 0%nat)).
    assert (headers fp e (ph + 1) all) as Hh'.
    { intros j q Ej. replace (ph + 1 + Z.of_nat j) with (ph + Z.of_nat (S j)) by lia. by apply Hh. }
    rewrite (bind_ok _ _ _ _ _ (lift_ok _ _ _ Er)).
    unfold ps, loadable in *. rewrite filter_cons in *. fold (loadable all) in *.
    destruct (Z.eqb_spec (p_type p) PT_LOAD) as [Et|Et]; cbn [negb].
    + rewrite (decide_True (P := p_type p = PT_LOAD)) in * by done. set (qs := loadable all) in *.
      rewrite size_cons in Ha by done. rewrite kernel_part_cons in Hbk |- *. rewrite image_part_cons in Hbi |- *.
      pose proof (size_nonneg fp qs). pose proof (kernel_part_nonneg name fp qs). pose proof (image_part_nonneg name fp qs tsz Ht).
      pose proof (kernel_part_nonneg name fp [p]). pose proof (image_part_nonneg name fp [p] tsz Ht).
      cbn [sum_memsz foldr] in Hbm |- *. fold (sum_memsz qs) in Hbm |- *. pose proof Hp as [Hp1 Hp2].
      pose proof (sum_memsz_nonneg all Hw') as Hsm. fold qs in Hsm.
      rewrite (bind_ok _ _ _ _ _ (write_segment_ok fp p s Hs Hp Et ltac:(lia))).
      rewrite (bind_ok _ _ _ _ _ (sizes_ok name fp p tsz (grow (segment fp p) 0 0 s) Hp Ht ltac:(cbn; lia) ltac:(cbn; lia) ltac:(cbn; lia) ltac:(cbn; lia))).
      unfold get_memsz. rewrite u32_small, i32_small by lia.
      rewrite (IH (ph + 1) name fp e tsz (mem + p_memsz p)); try done;
        [|by repeat apply in_step_grow|lia|cbn; lia|cbn; lia| | | |]; fold qs.
      * rewrite !grow_grow, contents_cons. cbn [app]. apply (f_equal Ok), pair_equal_spec. split; [lia|]. f_equal; lia.
      * cbn. rewrite length_segment by done. lia.
      * cbn. lia.
      * cbn. lia.
      * lia.
    + rewrite (decide_False (P := p_type p = PT_LOAD)) in * by done. by apply IH.
Qed.
