(* ===== verification/ImageFacts.v ===== *)
(** * The image tool: what the machine finds in the image

    The boot block, the kernel, the table of programs and each program are where the
    code that reads them looks: bootblock.S and head.S for the kernel and the table,
    [load_task_img] for a program, [init_mem_manager] for the swap area. *)
From S2P Require Import Prelude CString FsLayout Process Image.

Section Layout.
Context (fopen : list Z -> option (list Z)).

(** A file the tool can read, with what it finds in it. *)
Record program := mkProgram { pr_name : list Z; pr_file : list Z; pr_ehdr : Elf64_Ehdr; pr_segs : list Elf64_Phdr }.
Definition readable (p : program) : Prop :=
  fopen (pr_name p) = Some (pr_file p) /\ executable (pr_file p) (pr_ehdr p) (pr_segs p) /\
  sum_memsz (pr_segs p) < 2 ^ 31 /\ 0 <= e_entry (pr_ehdr p) < 2 ^ 64.
Definition bytes (p : program) : list Z := contents (pr_file p) (pr_segs p).
Definition size (p : program) : Z := Z.of_nat (length (bytes p)).
Definition user (p : program) : Prop :=
  pr_name p <> main_name /\ pr_name p <> bootblock_name /\ (length (pr_name p) < MAX_NAME_LEN)%nat.
Definition entry_at (begin : Z) (p : program) : task_info_t :=
  task_entry (pr_name p) (pr_ehdr p) (sum_memsz (pr_segs p)) begin (begin + size p).

Lemma load_file p tsz s :
  readable p -> in_step s -> 0 <= tsz -> 0 <= nbytes_kernel s -> 0 <= nbytes_image s ->
  phyaddr s + size p < 2 ^ 31 -> nbytes_kernel s + kernel_part (pr_name p) (pr_file p) (pr_segs p) < 2 ^ 31 ->
  nbytes_image s + image_part (pr_name p) (pr_file p) (pr_segs p) tsz < 2 ^ 31 ->
  phdr_loop (Z.to_nat (e_phnum (pr_ehdr p))) 0 (pr_name p) (pr_file p) (pr_ehdr p) tsz 0 s =
    Ok (sum_memsz (pr_segs p), grow (bytes p) (kernel_part (pr_name p) (pr_file p) (pr_segs p)) (image_part (pr_name p) (pr_file p) (pr_segs p) tsz) s).
Proof.
  intros (_ & (_ & all & Hps & Hw & Hn & Hh) & Hm & _) Hs Ht Hk Hi Ha Hbk Hbi.
  rewrite Hn, Nat2Z.id. unfold bytes. unfold size, bytes in Ha. rewrite Hps in *.
  rewrite phdr_loop_ok; done.
Qed.

Lemma add_task p tsz s fidx :
  readable p -> user p -> (2 <= fidx)%nat -> (fidx - 2 < length (taskinfo s))%nat ->
  in_step s -> 0 <= tsz -> 0 <= nbytes_kernel s < 2 ^ 31 -> 0 <= nbytes_image s ->
  phyaddr s + size p < 2 ^ 31 -> nbytes_image s + size p < 2 ^ 31 ->
  add_file fopen fidx (pr_name p) tsz s =
    Ok (tt, with_taskinfo (<[(fidx - 2)%nat := entry_at (phyaddr s) p]> (taskinfo s)) (grow (bytes p) 0 (size p) s)).
Proof.
  intros Hr (Hm & Hb & Hl) Hf Hti Hs Ht Hk Hi Ha Hbi. pose proof Hr as (Hop & (Heh & _) & _).
  assert (kernel_part (pr_name p) (pr_file p) (pr_segs p) = 0) as Ek by (unfold kernel_part; by rewrite decide_False).
  assert (image_part (pr_name p) (pr_file p) (pr_segs p) tsz = size p) as Ei by (unfold image_part; by rewrite !decide_False).
  unfold add_file. rewrite (bind_ok (gets phyaddr) _ s (phyaddr s) s eq_refl), Hop.
  rewrite (bind_ok _ _ _ _ _ (lift_ok (of_option Panic (Some (pr_file p))) s _ eq_refl)), (bind_ok _ _ _ _ _ (lift_ok _ _ _ Heh)).
  rewrite (bind_ok _ _ _ _ _ (load_file p tsz s Hr Hs Ht ltac:(lia) Hi Ha ltac:(lia) ltac:(lia))), Ek, Ei, !decide_False by done.
  set (t := grow _ _ _ s).
  rewrite (bind_ok _ _ t tt t eq_refl), (proj2 (Nat.leb_le _ _) Hf). cbv iota.
  rewrite (bind_ok (gets phyaddr) _ t (phyaddr t) t eq_refl), (bind_ok (gets taskinfo) _ t (taskinfo t) t eq_refl).
  rewrite (proj2 (Nat.ltb_lt _ _) Hl). replace (fidx - 2 <? length (taskinfo t))%nat with true by (symmetry; by apply Nat.ltb_lt).
  reflexivity.
Qed.

(** The programs one after the other. *)
Definition body (ts : list program) : list Z := mjoin (bytes <$> ts).
Lemma body_snoc ts p : body (ts ++ [p]) = body ts ++ bytes p.
Proof. unfold body. rewrite fmap_app, join_app. cbn. by rewrite app_nil_r. Qed.
Lemma body_cons ts p : body (p :: ts) = bytes p ++ body ts.
Proof. done. Qed.

Lemma add_tasks ts : forall fidx tsz s,
  Forall readable ts -> Forall user ts -> (2 <= fidx)%nat -> (fidx - 2 + length ts <= length (taskinfo s))%nat ->
  in_step s -> 0 <= tsz -> 0 <= nbytes_kernel s < 2 ^ 31 -> 0 <= nbytes_image s ->
  phyaddr s + Z.of_nat (length (body ts)) < 2 ^ 31 -> nbytes_image s + Z.of_nat (length (body ts)) < 2 ^ 31 ->
  exists tab, files_loop fopen fidx (pr_name <$> ts) tsz s =
    Ok (tt, with_taskinfo tab (grow (body ts) 0 (Z.of_nat (length (body ts))) s)) /\ length tab = length (taskinfo s) /\
    (forall i, (i < fidx - 2)%nat -> tab !! i = taskinfo s !! i) /\
    forall i p, ts !! i = Some p -> tab !! (fidx - 2 + i)%nat = Some (entry_at (phyaddr s + Z.of_nat (length (body (take i ts)))) p).
Proof.
  induction ts as [|p ts IH]; intros fidx tsz s Hr Hu Hf Hti Hs Ht Hk Hi Ha Hbi.
  - exists (taskinfo s). split; [|done]. cbn. change (body []) with (@nil Z). rewrite grow_nil. by destruct s.
  - inversion Hr; subst. inversion Hu; subst. rewrite body_cons, length_app in Ha, Hbi. cbn [length] in Hti.
    pose proof (add_task p tsz s fidx ltac:(done) ltac:(done) Hf ltac:(lia) Hs Ht Hk Hi ltac:(unfold size; lia) ltac:(unfold size; lia)) as E.
    set (t := with_taskinfo _ _) in E.
    destruct (IH (S fidx) tsz t) as (tab & E' & Hlen & Hlow & Htab); try done; try (cbn; unfold size; lia).
    { cbn. rewrite length_insert. lia. }
    { by apply (in_step_grow (bytes p) 0 (size p)). }
    exists tab. cbn in Hlen. rewrite length_insert in Hlen. split; [|split; [done|split]].
    + cbn [fmap list_fmap files_loop]. rewrite (bind_ok _ _ _ _ _ E), E', body_cons, length_app. unfold t, with_taskinfo, grow.
      cbn [img phyaddr nbytes_kernel nbytes_image taskinfo]. rewrite length_app, (assoc_L (++)). unfold size. do 3 f_equal; lia.
    + intros i Hlt. rewrite Hlow by lia. cbn. by rewrite list_lookup_insert_ne by lia.
    + intros [|i] q Ei.
      * injection Ei as <-. rewrite Nat.add_0_r, Hlow by lia. cbn. rewrite list_lookup_insert_eq by lia. by rewrite Z.add_0_r.
      * replace (fidx - 2 + S i)%nat with (S fidx - 2 + i)%nat by lia. rewrite (Htab i q Ei), firstn_cons, body_cons, length_app.
        unfold t, size. cbn [phyaddr with_taskinfo grow]. do 2 f_equal. lia.
Qed.

Lemma write_padding_ok to s :
  in_step s -> phyaddr s <= to < 2 ^ 31 -> write_padding to s = Ok (tt, grow (replicate (Z.to_nat (to - phyaddr s)) 0) 0 0 s).
Proof.
  intros Hs Ht. unfold write_padding. rewrite (bind_ok (gets phyaddr) _ s (phyaddr s) s eq_refl).
  apply pad_loop_ok; [done|]. unfold in_step in Hs. lia.
Qed.

Definition start : tool := mkTool [] 0 0 0 (replicate TASK_MAXNUM no_task).
Definition padding (b : program) : list Z := replicate (Z.to_nat (512 - size b)) 0.

Lemma add_boot b tsz :
  readable b -> pr_name b = bootblock_name -> size b <= 512 -> 0 <= tsz -> 512 * Z.of_nat (length (pr_segs b)) < 2 ^ 31 ->
  add_file fopen 0 (pr_name b) tsz start = Ok (tt, grow (bytes b ++ padding b) 0 (512 * Z.of_nat (length (pr_segs b))) start).
Proof.
  intros Hr Hn Hsz Ht Hb. pose proof Hr as (Hop & (Heh & _) & _).
  assert (kernel_part (pr_name b) (pr_file b) (pr_segs b) = 0) as Ek by (unfold kernel_part; rewrite Hn; by rewrite decide_False).
  assert (image_part (pr_name b) (pr_file b) (pr_segs b) tsz = 512 * Z.of_nat (length (pr_segs b))) as Ei
    by (unfold image_part; rewrite Hn; by rewrite decide_False, decide_True).
  unfold add_file. rewrite (bind_ok (gets phyaddr) _ start 0 start eq_refl), Hop.
  rewrite (bind_ok _ _ _ _ _ (lift_ok (of_option Panic (Some (pr_file b))) start _ eq_refl)), (bind_ok _ _ _ _ _ (lift_ok _ _ _ Heh)).
  rewrite (bind_ok _ _ _ _ _ (load_file b tsz start Hr eq_refl Ht ltac:(done) ltac:(done) ltac:(cbn [phyaddr start]; lia) ltac:(cbn [nbytes_kernel start]; lia) ltac:(cbn [nbytes_image start]; lia))), Ek, Ei.
  rewrite decide_True by done.
  rewrite (bind_ok _ _ _ _ _ (write_padding_ok 512 _ (in_step_grow (bytes b) 0 _ start eq_refl) ltac:(cbn [phyaddr grow start]; fold (size b); lia))).
  rewrite grow_grow. cbn [phyaddr grow start Nat.leb]. fold (size b). rewrite Z.add_0_l. unfold padding. cbv iota. unfold mret, M_ret.
  do 3 f_equal. lia.
Qed.

Lemma add_main m tsz s :
  readable m -> pr_name m = main_name -> in_step s -> 0 <= tsz -> 0 <= nbytes_kernel s -> 0 <= nbytes_image s ->
  phyaddr s + size m + tsz < 2 ^ 31 -> nbytes_kernel s + size m < 2 ^ 31 ->
  nbytes_image s + size m + Z.of_nat (length (pr_segs m)) * tsz < 2 ^ 31 ->
  add_file fopen 1 (pr_name m) tsz s =
    Ok (tt, grow (bytes m ++ replicate (Z.to_nat tsz) 0) (size m) (size m + Z.of_nat (length (pr_segs m)) * tsz) s).
Proof.
  intros Hr Hn Hs Ht Hk Hi Ha Hbk Hbi. pose proof Hr as (Hop & (Heh & _) & _).
  assert (kernel_part (pr_name m) (pr_file m) (pr_segs m) = size m) as Ek by (unfold kernel_part; by rewrite decide_True).
  assert (image_part (pr_name m) (pr_file m) (pr_segs m) tsz = size m + Z.of_nat (length (pr_segs m)) * tsz) as Ei
    by (unfold image_part; by rewrite decide_True).
  unfold add_file. rewrite (bind_ok (gets phyaddr) _ s (phyaddr s) s eq_refl), Hop.
  rewrite (bind_ok _ _ _ _ _ (lift_ok (of_option Panic (Some (pr_file m))) s _ eq_refl)), (bind_ok _ _ _ _ _ (lift_ok _ _ _ Heh)).
  rewrite (bind_ok _ _ _ _ _ (load_file m tsz s Hr Hs Ht Hk Hi ltac:(lia) ltac:(lia) ltac:(lia))), Ek, Ei.
  rewrite decide_False by (rewrite Hn; done). rewrite decide_True by done.
  set (t := grow _ _ _ s). assert (in_step t) as Hst by (by apply in_step_grow).
  assert (phyaddr t = phyaddr s + size m) as Ep by done. unfold in_step in Hs.
  rewrite bind_bind, (bind_ok (gets phyaddr) _ t (phyaddr t) t eq_refl), Ep, i32_small by (unfold size in *; lia).
  rewrite (bind_ok _ _ _ _ _ (write_padding_ok (phyaddr s + size m + tsz) t Hst ltac:(rewrite Ep; lia))), Ep.
  unfold t. rewrite grow_grow. replace (phyaddr s + size m + tsz - (phyaddr s + size m)) with tsz by lia.
  cbn [Nat.leb]. unfold mret, M_ret. do 3 f_equal; lia.
Qed.

(** *** Writing over parts of the image *)

Definition stamps (l : list (nat * list Z)) (d : list Z) : list Z := foldr (fun x d => splice x.1 x.2 d) d l.
Definition fits (d : list Z) (x : nat * list Z) : Prop := (x.1 + length x.2 <= length d)%nat.
Definition apart (off n : nat) (x : nat * list Z) : Prop := (off + n <= x.1)%nat \/ (x.1 + length x.2 <= off)%nat.

Lemma length_stamps l d : Forall (fits d) l -> length (stamps l d) = length d.
Proof.
  induction 1 as [|x l Hx _ IH]; [done|]. cbn. rewrite length_splice; [done|]. unfold stamps in IH. rewrite IH. done.
Qed.
Lemma stamps_other l d off n : Forall (fits d) l -> Forall (apart off n) l -> slice off n (stamps l d) = slice off n d.
Proof.
  intros Hf. revert Hf. induction l as [|x l IH]; intros Hf Ha; [done|]. inversion Hf; subst. inversion Ha; subst.
  cbn. rewrite slice_splice_ne; [by apply IH| |done]. fold (stamps l d). by rewrite length_stamps.
Qed.
Lemma stamps_here a off v b d n :
  Forall (fits d) (a ++ (off, v) :: b) -> Forall (apart off n) a -> length v = n -> slice off n (stamps (a ++ (off, v) :: b) d) = v.
Proof.
  intros Hf Ha <-. unfold stamps. rewrite foldr_app. change (slice off (length v) (stamps a (splice off v (stamps b d))) = v).
  apply Forall_app in Hf as [Hfa Hfb]. inversion Hfb as [|?? Hx Hb]; subst. unfold fits in Hx. cbn in Hx.
  assert (length (splice off v (stamps b d)) = length d) as El by (rewrite length_splice; rewrite length_stamps; done).
  rewrite stamps_other; [apply slice_splice_eq; by rewrite length_stamps| |done].
  eapply Forall_impl; [exact Hfa|]. intros x. unfold fits. by rewrite El.
Qed.

Lemma stamps_at l k off v d n :
  Forall (fits d) l -> l !! k = Some (off, v) -> Forall (apart off n) (take k l) -> length v = n -> slice off n (stamps l d) = v.
Proof. intros Hf Hk Ha Hv. rewrite <- (take_drop_middle l k _ Hk) in *. apply stamps_here; [done| |done]. by rewrite take_drop_middle in Ha. Qed.

Lemma fwrite_at_ok pos data s :
  (pos + length data <= length (img s))%nat -> fwrite_at pos data s = Ok (tt, with_img (splice pos data (img s)) s).
Proof.
  intros H. unfold fwrite_at, modify. replace (pos + length data - length (img s))%nat with 0%nat by lia.
  cbn [replicate]. by rewrite app_nil_r.
Qed.

Definition table (tab : list task_info_t) (n : nat) : list Z := mjoin (encode_task <$> take n tab).
(** The writes of [write_img_info], the last one first. *)
Definition info (k i : Z) (tab : list task_info_t) (n : nat) : list (nat * list Z) :=
  [(IMAGE_SIZE_LOC, le_bytes 2 (NBYTES2SEC i)); (SLAVE_HART_LOC, le_bytes 2 0); ((TASKNUM_LOC + 2)%nat, le_bytes 4 k);
   (TASKNUM_LOC, le_bytes 2 (Z.of_nat n)); (OS_SIZE_LOC, le_bytes 2 (NBYTES2SEC (k + SIZEOF_TASK * Z.of_nat n)));
   (Z.to_nat (k + 512), table tab n)].

Lemma write_img_info_ok s n :
  (n <= length (taskinfo s))%nat -> Z.of_nat n < 2 ^ 15 -> 0 <= nbytes_kernel s -> nbytes_kernel s + SIZEOF_TASK * Z.of_nat n < 2 ^ 31 ->
  Forall (fits (img s)) (info (nbytes_kernel s) (nbytes_image s) (taskinfo s) n) ->
  write_img_info (Z.of_nat n) s = Ok (tt, with_img (stamps (info (nbytes_kernel s) (nbytes_image s) (taskinfo s) n) (img s)) s).
Proof.
  intros Hn Hs Hk Hb Hf. unfold write_img_info, info in *.
  repeat match goal with H : Forall _ (_ :: _) |- _ => apply Forall_cons in H as [? H] end. unfold fits in *. cbn [fst snd] in *.
  rewrite (bind_ok (gets nbytes_kernel) _ s _ s eq_refl), (bind_ok (gets nbytes_image) _ s _ s eq_refl), (bind_ok (gets taskinfo) _ s _ s eq_refl).
  replace (Z.of_nat n >? Z.of_nat (length (taskinfo s))) with false by (symmetry; rewrite Z.gtb_ltb; apply Z.ltb_ge; lia).
  rewrite Nat2Z.id, i32_small by (unfold SIZEOF_TASK in *; lia). fold (table (taskinfo s) n).
  rewrite (bind_ok _ _ _ _ _ (fwrite_at_ok _ _ s ltac:(done))).
  assert (forall off v t, (off + length v <= length (img s))%nat -> length (img t) = length (img s) -> length (img (with_img (splice off v (img t)) t)) = length (img s)) as Hl.
  { intros off v t Ho Ht. cbn. rewrite length_splice; [done|]. by rewrite Ht. }
  do 4 (match goal with |- (fwrite_at ?o ?v ≫= _) ?t = _ =>
    assert (length (img t) = length (img s)) as El by (repeat (apply Hl; [done|]); done);
    rewrite (bind_ok _ _ _ _ _ (fwrite_at_ok o v t ltac:(rewrite El; done))); clear El end).
  rewrite fwrite_at_ok; [done|].
  match goal with |- (_ <= length (img ?t))%nat => assert (length (img t) = length (img s)) as -> by (repeat (apply Hl; [done|]); done) end.
  done.
Qed.

(** *** The table *)

(** How the kernel, which declares the same structure, reads an entry. *)
Definition decode_task (l : list Z) : task_info_t :=
  mkTask (slice 0 64 l) (le_val (slice 64 8 l)) (le_val (slice 72 4 l)) (le_val (slice 76 4 l)) (le_val (slice 80 4 l)) (le_val (slice 84 4 l)).
Definition task_wf (t : task_info_t) : Prop :=
  length (t_name t) = 64%nat /\ 0 <= entrypoint t < 2 ^ 64 /\ 0 <= sector_num t < 2 ^ 32 /\ 0 <= firstsector t < 2 ^ 32 /\
  0 <= offset t < 2 ^ 32 /\ 0 <= memsize t < 2 ^ 32.

Lemma length_encode_task t : length (t_name t) = 64%nat -> length (encode_task t) = 88%nat.
Proof. intros H. unfold encode_task. rewrite !length_app, !length_le_bytes, H. done. Qed.

Lemma decode_encode_task t : task_wf t -> decode_task (encode_task t) = t.
Proof.
  intros (Hn & H1 & H2 & H3 & H4 & H5). destruct t as [nm en sn fs ofs me]. unfold decode_task, encode_task. cbn [t_name entrypoint sector_num firstsector offset memsize] in *.
  set (a := le_bytes 8 en). set (b := le_bytes 4 sn). set (c := le_bytes 4 fs). set (d := le_bytes 4 ofs). set (e := le_bytes 4 me).
  assert (length a = 8%nat /\ length b = 4%nat /\ length c = 4%nat /\ length d = 4%nat /\ length e = 4%nat) as (La & Lb & Lc & Ld & Le)
    by (unfold a, b, c, d, e; by rewrite !length_le_bytes).
  f_equal.
  - exact (slice_app_l [] nm _ 0 64 eq_refl Hn).
  - rewrite (slice_app_l nm a) by done. by apply (le_val_bytes 8).
  - rewrite (assoc_L (++)), slice_app_l by (rewrite ?length_app, ?Hn, ?La; done). by apply le_val4.
  - rewrite !(assoc_L (++)), <- (assoc_L (++) _ d e), <- (assoc_L (++) _ c). rewrite slice_app_l by (rewrite ?length_app, ?Hn, ?La, ?Lb; done). by apply le_val4.
  - rewrite !(assoc_L (++)), <- (assoc_L (++) _ d e). rewrite slice_app_l by (rewrite ?length_app, ?Hn, ?La, ?Lb, ?Lc; done). by apply le_val4.
  - rewrite !(assoc_L (++)), slice_app_here by (rewrite ?length_app, ?Hn, ?La, ?Lb, ?Lc, ?Ld; done). by apply le_val4.
Qed.

Lemma slice_join m ls i x : Forall (fun l : list Z => length l = m) ls -> ls !! i = Some x -> slice (m * i) m (mjoin ls) = x.
Proof.
  intros Hl. revert i. induction Hl as [|l ls Hl _ IH]; intros [|i] E; simplify_eq/=.
  - rewrite Nat.mul_0_r. exact (slice_app_l [] _ _ 0 _ eq_refl eq_refl).
  - rewrite <- (IH i E). unfold slice. rewrite Nat.mul_succ_r, drop_app_ge by lia. do 2 f_equal. lia.
Qed.
Lemma length_join m ls : Forall (fun l : list Z => length l = m) ls -> length (mjoin ls) = (m * length ls)%nat.
Proof. induction 1 as [|l ls Hl _ IH]; [cbn; lia|]. change (mjoin (l :: ls)) with (l ++ mjoin ls). rewrite length_app, IH. cbn [length]. lia. Qed.

(** *** Sectors *)

Lemma round_512 e : 0 <= e < 2 ^ 32 -> ROUND e 512 = 512 * ((e + 511) / 512).
Proof.
  intros He. change (ROUND e 512) with (ROUNDDOWN (u64 (e + 512 - 1)) (2 ^ 9)). rewrite u64_small, rounddown_pow2 by lia.
  change (2 ^ 9) with 512. replace (e + 512 - 1) with (e + 511) by lia. pose proof (Z.div_mod (e + 511) 512 ltac:(lia)). lia.
Qed.
Lemma rounddown_512 a : ROUNDDOWN a 512 = 512 * (a / 512).
Proof. change 512 with (2 ^ 9). rewrite rounddown_pow2 by lia. change (2 ^ 9) with 512. pose proof (Z.div_mod a 512 ltac:(lia)). lia. Qed.

(** The sectors of an entry cover the program. *)
Lemma entry_sectors begin p :
  0 <= begin -> begin + size p < 2 ^ 31 ->
  let t := entry_at begin p in
  512 * firstsector t + offset t = begin /\ 0 <= offset t < 512 /\ 0 <= firstsector t < 2 ^ 31 /\
  0 <= sector_num t < 2 ^ 31 /\ 512 * (firstsector t + sector_num t) = 512 * ((begin + size p + 511) / 512).
Proof.
  intros Hb He t. assert (0 <= size p) by (unfold size; lia).
  pose proof (Z.div_mod begin 512 ltac:(lia)). pose proof (Z.mod_pos_bound begin 512 ltac:(lia)).
  pose proof (Z.div_mod (begin + size p + 511) 512 ltac:(lia)). pose proof (Z.mod_pos_bound (begin + size p + 511) 512 ltac:(lia)).
  set (q := begin / 512) in *. set (r := (begin + size p + 511) / 512) in *.
  assert (sector_num t = r - q) as Hn.
  { unfold t, entry_at, task_entry. cbn [sector_num]. rewrite round_512, rounddown_512 by lia. fold q r.
    replace (512 * r - 512 * q) with ((r - q) * 512) by lia. rewrite Z.div_mul by lia. apply u32_small. lia. }
  assert (firstsector t = q) as Hf by (apply u32_small; fold q; lia).
  assert (offset t = begin mod 512) as Ho by (apply u32_small; lia).
  rewrite Hn, Hf, Ho. lia.
Qed.
Lemma nbytes2sec n : 0 <= n -> n <= 512 * NBYTES2SEC n < n + 512.
Proof.
  intros Hn. unfold NBYTES2SEC. rewrite Z.quot_div_nonneg, Z.rem_mod_nonneg by lia.
  pose proof (Z.div_mod n 512 ltac:(lia)). pose proof (Z.mod_pos_bound n 512 ltac:(lia)). destruct (Z.eqb_spec (n mod 512) 0); lia.
Qed.

(** *** The whole image *)

Definition table_size (ts : list program) : Z := 88 * Z.of_nat (length ts).
(** [nbytes_image] at the end: the table is counted once per segment of the kernel. *)
Definition total_size (b m : program) (ts : list program) : Z :=
  512 * Z.of_nat (length (pr_segs b)) + (size m + Z.of_nat (length (pr_segs m)) * table_size ts) + Z.of_nat (length (body ts)).
(** What the tool can handle: a boot block of one sector, at least one segment in boot
    block and kernel, up to 16 programs with names of less than 64 bytes, and sizes
    that fit the 16-bit fields. *)
Definition buildable (b m : program) (ts : list program) : Prop :=
  readable b /\ readable m /\ Forall readable ts /\ pr_name b = bootblock_name /\ pr_name m = main_name /\ Forall user ts /\
  size b <= 512 /\ (0 < length (pr_segs b))%nat /\ (0 < length (pr_segs m))%nat /\ (length ts <= TASK_MAXNUM)%nat /\
  total_size b m ts <= 512 * 32767.
Definition first_task (m : program) (ts : list program) : Z := 512 + size m + table_size ts.
Definition layout (b m : program) (ts : list program) : list Z :=
  ((bytes b ++ padding b) ++ (bytes m ++ replicate (Z.to_nat (table_size ts)) 0)) ++ body ts.

Lemma length_boot b : size b <= 512 -> length (bytes b ++ padding b) = 512%nat.
Proof. unfold size, padding. intros H. rewrite length_app, length_replicate. unfold size. lia. Qed.
Lemma length_layout b m ts : size b <= 512 -> Z.of_nat (length (layout b m ts)) = first_task m ts + Z.of_nat (length (body ts)).
Proof.
  intros H. unfold layout, first_task. rewrite !(length_app (_ ++ _)), (length_app (bytes m)), length_boot, length_replicate by done.
  unfold size, table_size. lia.
Qed.

Lemma layout_ok b m ts :
  buildable b m ts ->
  exists tab, files_loop fopen 0 (pr_name <$> b :: m :: ts) (table_size ts) start =
      Ok (tt, mkTool (layout b m ts) (Z.of_nat (length (layout b m ts))) (size m) (total_size b m ts) tab) /\
    length tab = TASK_MAXNUM /\
    forall i p, ts !! i = Some p -> tab !! i = Some (entry_at (first_task m ts + Z.of_nat (length (body (take i ts)))) p).
Proof.
  intros (Hb & Hm & Hts & Hnb & Hnm & Hu & Hsb & Hlb & Hlm & Hn & Hsz). unfold total_size in Hsz.
  assert (0 <= table_size ts) as Ht by (unfold table_size; lia). assert (0 <= size m) as Hm0 by (unfold size; lia).
  assert (table_size ts <= Z.of_nat (length (pr_segs m)) * table_size ts) as Htm by nia.
  pose proof (add_boot b (table_size ts) Hb Hnb Hsb Ht ltac:(lia)) as E1. set (s1 := grow _ _ _ start) in E1.
  assert (in_step s1) as Hs1 by (by apply in_step_grow).
  assert (phyaddr s1 = 512) as Ep1 by (rewrite Hs1; cbn [img s1 grow start app]; rewrite length_boot by done; done).
  pose proof (add_main m (table_size ts) s1 Hm Hnm Hs1 Ht ltac:(done) ltac:(cbn; lia) ltac:(lia) ltac:(cbn [nbytes_kernel s1 grow start]; lia) ltac:(cbn [nbytes_image s1 grow start]; lia)) as E2.
  set (s2 := grow _ _ _ s1) in E2. assert (in_step s2) as Hs2 by (by apply in_step_grow).
  assert (phyaddr s2 = first_task m ts) as Ep2.
  { cbn [phyaddr s2 grow]. rewrite Ep1, length_app, length_replicate. unfold first_task, size. lia. }
  assert (taskinfo s2 = replicate TASK_MAXNUM no_task) as Et by done. assert (nbytes_kernel s2 = size m) as Ek by done.
  assert (nbytes_image s2 = 512 * Z.of_nat (length (pr_segs b)) + (size m + Z.of_nat (length (pr_segs m)) * table_size ts)) as Ei by done.
  assert (img s2 = (bytes b ++ padding b) ++ bytes m ++ replicate (Z.to_nat (table_size ts)) 0) as Eim by done.
  destruct (add_tasks ts 2 (table_size ts) s2) as (tab & E3 & Hlen & _ & Htab); try done.
  - rewrite Ek. lia.
  - rewrite Ei. lia.
  - rewrite Ep2. unfold first_task. lia.
  - rewrite Ei. lia.
  - exists tab. rewrite Et, length_replicate in Hlen. split; [|split; [done|]].
    + change (pr_name <$> b :: m :: ts) with (pr_name b :: pr_name m :: (pr_name <$> ts)). cbn [files_loop].
      rewrite (bind_ok _ _ _ _ _ E1), (bind_ok _ _ _ _ _ E2), E3. rewrite length_layout by done. unfold with_taskinfo, grow.
      cbn [img phyaddr nbytes_kernel nbytes_image taskinfo]. rewrite Ep2, Ek, Ei, Eim. unfold layout, total_size. do 3 f_equal; lia.
    + intros i p Epi. rewrite <- Ep2. by apply (Htab i p).
Qed.

Definition word (d : list Z) (off n : nat) : Z := le_val (slice off n d).
(** The [i]-th entry of the table, found as head.S finds it. *)
Definition entry_in (d : list Z) (i : nat) : task_info_t :=
  decode_task (slice (512 + Z.to_nat (word d (TASKNUM_LOC + 2) 4) + 88 * i) 88 d).
(** [n] sectors from sector [first] on. *)
Definition sectors (d : list Z) (first n : Z) : list Z := slice (512 * Z.to_nat first) (512 * Z.to_nat n) d.

Lemma entry_wf begin p :
  readable p -> user p -> 0 <= begin -> begin + size p < 2 ^ 31 -> task_wf (entry_at begin p) /\ memsize (entry_at begin p) = sum_memsz (pr_segs p).
Proof.
  intros (_ & (_ & all & Hps & Hw & _) & Hm & He) (_ & _ & Hl) Hb Hs.
  destruct (entry_sectors begin p Hb Hs) as (_ & Ho & Hf & Hn & _).
  pose proof (sum_memsz_nonneg all Hw) as H0. rewrite <- Hps in H0.
  assert (memsize (entry_at begin p) = sum_memsz (pr_segs p)) as Em by (apply u32_small; lia).
  split; [|done]. split; [|split; [exact He|lia]].
  unfold entry_at, task_entry. cbn [t_name]. rewrite length_app, length_replicate. unfold MAX_NAME_LEN in *. lia.
Qed.

(** Where a program lies in the image. *)
Lemma body_slice pre ts i p :
  ts !! i = Some p -> slice (length pre + length (body (take i ts))) (length (bytes p)) (pre ++ body ts) = bytes p.
Proof.
  intros Ei. rewrite <- (take_drop_middle ts i p Ei) at 2. unfold body at 2. rewrite fmap_app, join_app. fold (body (take i ts)).
  change (mjoin (bytes <$> p :: drop (S i) ts)) with (bytes p ++ body (drop (S i) ts)).
  rewrite (assoc_L (++)). apply slice_app_l; [by rewrite length_app|done].
Qed.
Lemma body_fits ts i p : ts !! i = Some p -> (length (body (take i ts)) + length (bytes p) <= length (body ts))%nat.
Proof.
  intros Ei. rewrite <- (take_drop_middle ts i p Ei) at 2. unfold body at 2. rewrite fmap_app, join_app.
  change (mjoin (bytes <$> p :: drop (S i) ts)) with (bytes p ++ body (drop (S i) ts)). rewrite !length_app. unfold body. lia.
Qed.

Section Info.
Variables (b m : program) (ts : list program) (tab : list task_info_t).
Hypothesis Hok : buildable b m ts.
Hypothesis Hlen : length tab = TASK_MAXNUM.
Hypothesis Htab : forall i p, ts !! i = Some p -> tab !! i = Some (entry_at (first_task m ts + Z.of_nat (length (body (take i ts)))) p).
Let d0 := layout b m ts.
Let d := stamps (info (size m) (total_size b m ts) tab (length ts)) d0.

Lemma sizes_small : 0 <= size m /\ 0 <= table_size ts <= 88 * 16 /\ first_task m ts + Z.of_nat (length (body ts)) <= total_size b m ts /\ total_size b m ts <= 512 * 32767.
Proof using Hok.
  clear Hlen Htab.
  destruct Hok as (_ & _ & _ & _ & _ & _ & _ & Hlb & Hlm & Hn & Hsz). unfold TASK_MAXNUM in Hn.
  assert (0 <= table_size ts <= 88 * 16) by (unfold table_size; lia). assert (0 <= size m) by (unfold size; lia).
  assert (table_size ts <= Z.of_nat (length (pr_segs m)) * table_size ts) by nia.
  unfold first_task. unfold total_size in *. lia.
Qed.

Lemma program_at i p : ts !! i = Some p ->
  0 <= first_task m ts + Z.of_nat (length (body (take i ts))) /\
  first_task m ts + Z.of_nat (length (body (take i ts))) + size p <= first_task m ts + Z.of_nat (length (body ts)).
Proof using Hok. clear Hlen Htab. intros Ei. pose proof (body_fits ts i p Ei). pose proof sizes_small. unfold first_task, size in *. lia. Qed.

Lemma entries_wf : Forall (fun l => length l = 88%nat) (encode_task <$> take (length ts) tab).
Proof using Hok Hlen Htab.
  destruct Hok as (_ & _ & Hr & _ & _ & Hu & _). pose proof sizes_small.
  apply Forall_fmap, Forall_lookup. intros i t Et. apply lookup_take_Some in Et as [Et Hi].
  destruct (lookup_lt_is_Some_2 ts i Hi) as [p Ei]. rewrite (Htab i p Ei) in Et. injection Et as <-.
  pose proof (program_at i p Ei). apply length_encode_task.
  set (a := first_task m ts + Z.of_nat (length (body (take i ts)))) in *.
  destruct (entry_wf a p (proj1 (Forall_lookup _ _) Hr _ _ Ei) (proj1 (Forall_lookup _ _) Hu _ _ Ei) ltac:(lia) ltac:(lia)) as [[? _] _]. done.
Qed.
Lemma length_table : length (table tab (length ts)) = (88 * length ts)%nat.
Proof using Hok Hlen Htab.
  unfold table. rewrite (length_join 88 _ entries_wf), length_fmap, length_take, Hlen.
  destruct Hok as (_ & _ & _ & _ & _ & _ & _ & _ & _ & Hn & _). lia.
Qed.

Lemma info_fits : Forall (fits d0) (info (size m) (total_size b m ts) tab (length ts)).
Proof using Hok Hlen Htab.
  pose proof sizes_small. destruct Hok as (_ & _ & _ & _ & _ & _ & Hsb & _).
  pose proof (length_layout b m ts Hsb) as Hl. fold d0 in Hl. unfold first_task in Hl.
  unfold info, fits. rewrite ?Forall_cons, Forall_nil; cbn [fst snd]; rewrite ?length_le_bytes, ?length_table;
    unfold IMAGE_SIZE_LOC, SLAVE_HART_LOC, TASKNUM_LOC, OS_SIZE_LOC, BOOT_LOADER_SIG_OFFSET, table_size in *; lia.
Qed.

Ltac locs := unfold IMAGE_SIZE_LOC, SLAVE_HART_LOC, TASKNUM_LOC, OS_SIZE_LOC, BOOT_LOADER_SIG_OFFSET, table_size in *.
Ltac apart_tac := unfold apart, info; cbn [firstn take]; rewrite ?Forall_cons, Forall_nil; cbn [fst snd]; rewrite ?length_le_bytes, ?length_table; locs; lia.

Lemma word_image : word d IMAGE_SIZE_LOC 2 = NBYTES2SEC (total_size b m ts).
Proof using Hok Hlen Htab.
  pose proof sizes_small as (H1 & H2 & H3 & H4). unfold first_task in H3. pose proof (nbytes2sec (total_size b m ts) ltac:(lia)).
  unfold word, d. rewrite (stamps_at _ 0 IMAGE_SIZE_LOC _ d0 2 info_fits eq_refl); [apply le_val2; lia|done|apply length_le_bytes].
Qed.
Lemma word_offset : word d (TASKNUM_LOC + 2) 4 = size m.
Proof using Hok Hlen Htab.
  pose proof sizes_small as (H1 & H2 & H3 & H4). unfold first_task in H3. unfold word, d.
  rewrite (stamps_at _ 2 (TASKNUM_LOC + 2)%nat _ d0 4 info_fits eq_refl); [apply le_val4; lia|apart_tac|apply length_le_bytes].
Qed.
Lemma word_tasknum : word d TASKNUM_LOC 2 = Z.of_nat (length ts).
Proof using Hok Hlen Htab.
  pose proof sizes_small as (H1 & H2 & H3 & H4). unfold table_size in H2. unfold word, d.
  rewrite (stamps_at _ 3 TASKNUM_LOC _ d0 2 info_fits eq_refl); [apply le_val2; lia|apart_tac|apply length_le_bytes].
Qed.
Lemma word_os : word d OS_SIZE_LOC 2 = NBYTES2SEC (size m + table_size ts).
Proof using Hok Hlen Htab.
  pose proof sizes_small as (H1 & H2 & H3 & H4). unfold first_task in H3. pose proof (nbytes2sec (size m + table_size ts) ltac:(lia)).
  unfold word, d.
  rewrite (stamps_at _ 4 OS_SIZE_LOC _ d0 2 info_fits eq_refl); [apply le_val2; unfold SIZEOF_TASK, table_size in *; lia|apart_tac|apply length_le_bytes].
Qed.
Lemma table_read : slice (512 + Z.to_nat (size m)) (88 * length ts) d = table tab (length ts).
Proof using Hok Hlen Htab.
  pose proof sizes_small as (H1 & H2 & H3 & H4). unfold d.
  replace (512 + Z.to_nat (size m))%nat with (Z.to_nat (size m + 512)) by lia.
  apply (stamps_at _ 5 (Z.to_nat (size m + 512)) _ d0 _ info_fits eq_refl); [apart_tac|apply length_table].
Qed.
Lemma behind_read off n : (Z.to_nat (first_task m ts) <= off)%nat -> slice off n d = slice off n d0.
Proof using Hok Hlen Htab.
  intros Ho. pose proof sizes_small as (H1 & H2 & H3 & H4). apply stamps_other; [exact info_fits|].
  unfold first_task in Ho. unfold info. apart_tac.
Qed.
Lemma kernel_read : slice 512 (length (bytes m)) d = bytes m.
Proof using Hok Hlen Htab.
  pose proof sizes_small as (H1 & H2 & H3 & H4). unfold d. rewrite stamps_other; [|exact info_fits|unfold info, size; apart_tac].
  destruct Hok as (_ & _ & _ & _ & _ & _ & Hsb & _). unfold d0, layout. rewrite <- !(assoc_L (++)), (assoc_L (++) (bytes b)).
  apply slice_app_l; [by apply length_boot|done].
Qed.
Lemma boot_read : slice 0 IMAGE_SIZE_LOC d = take IMAGE_SIZE_LOC (bytes b ++ padding b).
Proof using Hok Hlen Htab.
  pose proof sizes_small as (H1 & H2 & H3 & H4). unfold d. rewrite stamps_other; [|exact info_fits|unfold info; apart_tac].
  destruct Hok as (_ & _ & _ & _ & _ & _ & Hsb & _). pose proof (length_boot b Hsb) as Hl.
  unfold d0, layout. rewrite <- (assoc_L (++)), slice_app_prefix by (rewrite Hl; locs; lia). done.
Qed.

Lemma entry_read i p : ts !! i = Some p -> entry_in d i = entry_at (first_task m ts + Z.of_nat (length (body (take i ts)))) p.
Proof using Hok Hlen Htab.
  intros Ei. destruct Hok as (_ & _ & Hr & _ & _ & Hu & _). pose proof sizes_small. pose proof (program_at i p Ei).
  pose proof (lookup_lt_Some _ _ _ Ei) as Hi.
  set (a := first_task m ts + Z.of_nat (length (body (take i ts)))) in *.
  destruct (entry_wf a p (proj1 (Forall_lookup _ _) Hr _ _ Ei) (proj1 (Forall_lookup _ _) Hu _ _ Ei) ltac:(lia) ltac:(lia)) as [Hw _].
  unfold entry_in. rewrite word_offset, <- (slice_slice _ (88 * length ts)) by lia. rewrite table_read.
  unfold table. rewrite (slice_join 88 _ i (encode_task (entry_at a p)) entries_wf); [by apply decode_encode_task|].
  apply list_lookup_fmap_Some. exists (entry_at a p). split; [done|]. apply lookup_take_Some. split; [by apply Htab|done].
Qed.

Lemma program_read i p : ts !! i = Some p ->
  let t := entry_in d i in
  slice (Z.to_nat (offset t)) (length (bytes p)) (sectors d (firstsector t) (sector_num t)) = bytes p /\
  firstsector t + sector_num t <= word d IMAGE_SIZE_LOC 2.
Proof using Hok Hlen Htab.
  intros Ei t. unfold t. rewrite (entry_read i p Ei), word_image. pose proof sizes_small as (H1 & H2 & H3 & H4). pose proof (program_at i p Ei) as [Ha He].
  set (a := first_task m ts + Z.of_nat (length (body (take i ts)))) in *.
  destruct (entry_sectors a p Ha ltac:(lia)) as (Hs & Ho & Hf & Hn & Hc). set (e := entry_at a p) in *.
  pose proof (Z.div_mod (a + size p + 511) 512 ltac:(lia)). pose proof (Z.mod_pos_bound (a + size p + 511) 512 ltac:(lia)).
  pose proof (nbytes2sec (total_size b m ts) ltac:(unfold first_task in *; lia)).
  assert (size p = Z.of_nat (length (bytes p))) as Ez by done. rewrite Ez in *. split; [|lia].
  unfold sectors. rewrite slice_slice by lia.
  destruct Hok as (_ & _ & _ & _ & _ & _ & Hsb & _).
  rewrite behind_read by (unfold a in *; lia). unfold d0, layout.
  replace (512 * Z.to_nat (firstsector e) + Z.to_nat (offset e))%nat with
    (length ((bytes b ++ padding b) ++ bytes m ++ replicate (Z.to_nat (table_size ts)) 0%Z) + length (body (take i ts)))%nat; [by apply body_slice|].
  rewrite (length_app (_ ++ _)), (length_app (bytes m)), length_boot, length_replicate by done. unfold a, first_task in *. unfold size in *. lia.
Qed.
End Info.

(** The tool ends, and the image is the layout with the table and the sizes stored in it. *)
Lemma create_image_ok b m ts :
  buildable b m ts ->
  exists s tab, create_image fopen (pr_name <$> b :: m :: ts) = Ok s /\
    img s = stamps (info (size m) (total_size b m ts) tab (length ts)) (layout b m ts) /\
    length tab = TASK_MAXNUM /\
    (forall i p, ts !! i = Some p -> tab !! i = Some (entry_at (first_task m ts + Z.of_nat (length (body (take i ts)))) p)).
Proof.
  intros Hok. destruct (layout_ok b m ts Hok) as (tab & E & Hlen & Htab).
  pose proof (sizes_small b m ts Hok) as (H1 & H2 & H3 & H4). pose proof Hok as (_ & _ & _ & _ & _ & _ & Hsb & _ & _ & Hn & _).
  pose proof (info_fits b m ts tab Hok Hlen Htab) as Hf. unfold TASK_MAXNUM in Hn. eexists _, tab. split; [|split; [|split; [exact Hlen|exact Htab]]].
  - unfold create_image. replace (Z.of_nat (length (pr_name <$> b :: m :: ts)) - 2) with (Z.of_nat (length ts)) by (rewrite length_fmap; cbn [length]; lia).
    replace (Z.of_nat (length ts) * SIZEOF_TASK) with (table_size ts) by (unfold table_size, SIZEOF_TASK; lia).
    replace (i16 (Z.of_nat (length ts))) with (Z.of_nat (length ts)) by (unfold i16; rewrite Z.mod_small; lia).
    fold start. rewrite (bind_ok _ _ _ _ _ E), write_img_info_ok;
      [reflexivity|cbn [taskinfo]; unfold TASK_MAXNUM in Hlen; lia|lia|done|cbn [nbytes_kernel]; unfold first_task, SIZEOF_TASK in *; unfold table_size in *; lia|exact Hf].
  - done.
Qed.

(** C12. The image createimage makes holds boot block, kernel, table and programs where the
    boot code, the loader and the swap area look for them. *)
Theorem image_loads b m ts :
  buildable b m ts ->
  exists s, create_image fopen (pr_name <$> b :: m :: ts) = Ok s /\
    let d := img s in
    slice 0 IMAGE_SIZE_LOC d = take IMAGE_SIZE_LOC (bytes b ++ padding b) /\
    slice 512 (length (bytes m)) d = bytes m /\
    word d TASKNUM_LOC 2 = Z.of_nat (length ts) /\
    size m + table_size ts <= 512 * word d OS_SIZE_LOC 2 /\
    Z.of_nat (length d) <= 512 * word d IMAGE_SIZE_LOC 2 /\
    forall i p, ts !! i = Some p ->
      let t := entry_in d i in
      t_name t = pr_name p ++ replicate (64 - length (pr_name p)) 0 /\ entrypoint t = e_entry (pr_ehdr p) /\
      memsize t = sum_memsz (pr_segs p) /\
      slice (Z.to_nat (offset t)) (length (bytes p)) (sectors d (firstsector t) (sector_num t)) = bytes p /\
      firstsector t + sector_num t <= word d IMAGE_SIZE_LOC 2.
Proof.
  intros Hok. destruct (create_image_ok b m ts Hok) as (s & tab & E & Ed & Hlen & Htab). exists s. split; [done|]. cbv zeta. rewrite Ed.
  pose proof (sizes_small b m ts Hok) as (H1 & H2 & H3 & H4). pose proof Hok as (_ & _ & Hr & _ & _ & Hu & Hsb & _ & _ & Hn & _).
  pose proof (info_fits b m ts tab Hok Hlen Htab) as Hf.
  pose proof (nbytes2sec (size m + table_size ts) ltac:(lia)). pose proof (nbytes2sec (total_size b m ts) ltac:(unfold first_task in *; lia)).
  split; [by apply boot_read|]. split; [by apply kernel_read|]. split; [by apply word_tasknum|].
  rewrite (word_os b m ts tab), (word_image b m ts tab), length_stamps, length_layout by done.
  split; [lia|]. split; [lia|]. intros i p Ei.
  destruct (program_read b m ts tab Hok Hlen Htab i p Ei) as [Hp1 Hp2]. cbv zeta in Hp1, Hp2.
  rewrite (word_image b m ts tab) in Hp2 by done.
  pose proof (program_at b m ts Hok i p Ei) as [Ha He].
  split; [by rewrite (entry_read b m ts tab Hok Hlen Htab i p Ei)|].
  split; [by rewrite (entry_read b m ts tab Hok Hlen Htab i p Ei)|].
  split; [|done]. rewrite (entry_read b m ts tab Hok Hlen Htab i p Ei).
  apply entry_wf; [by eapply Forall_lookup in Hr|by eapply Forall_lookup in Hu|done|lia].
Qed.
End Layout.

(** ** A sample image: boot block, kernel and two programs of one segment each *)

Definition sample_elf (entry : Z) (data : list Z) (mem : Z) : list Z :=
  [127; 69; 76; 70] ++ replicate 12 0 ++ replicate 8 0 ++ le_bytes 8 entry ++ le_bytes 8 64 ++ replicate 8 0 ++
  replicate 6 0 ++ le_bytes 2 56 ++ le_bytes 2 1 ++ replicate 6 0 ++
  le_bytes 4 PT_LOAD ++ replicate 4 0 ++ le_bytes 8 120 ++ replicate 16 0 ++ le_bytes 8 (Z.of_nat (length data)) ++ le_bytes 8 mem ++
  replicate 8 0 ++ data.
Definition sample_prog (name : list Z) (entry : Z) (data : list Z) (mem : Z) : program :=
  mkProgram name (sample_elf entry data mem)
    (mkEhdr ([127; 69; 76; 70] ++ replicate 12 0) entry 64 56 1) [mkPhdr PT_LOAD 120 (Z.of_nat (length data)) mem].
Definition sample_boot : program := sample_prog bootblock_name 0x50200000 [1; 2; 3] 3.
Definition sample_main : program := sample_prog main_name 0x50202000 (replicate 600 7) 700.
Definition sample_user1 : program := sample_prog [115; 104] 0x10000 [10; 11; 12; 13; 14] 8.
Definition sample_user2 : program := sample_prog [102; 108; 121] 0x10000 [20; 21] 2.
Definition sample_files : list program := [sample_boot; sample_main; sample_user1; sample_user2].
Definition sample_open (name : list Z) : option (list Z) :=
  pr_file <$> head (filter (fun p => pr_name p = name) sample_files).

Lemma sample_readable p : p ∈ sample_files -> readable sample_open p.
Proof.
  intros Hp. unfold sample_files in Hp. rewrite !elem_of_cons in Hp.
  destruct Hp as [-> | [-> | [-> | [-> | []%elem_of_nil]]]];
    (split; [reflexivity|]; split; [|by split]; split; [reflexivity|];
     match goal with |- exists all, ?ps = _ /\ _ => exists ps end; split; [reflexivity|];
     split; [by repeat constructor|]; split; [reflexivity|]; intros [|[]] q [= <-]; reflexivity).
Qed.

Lemma image_loads_witness :
  exists s, create_image sample_open (pr_name <$> sample_files) = Ok s /\
    slice 512 600 (img s) = replicate 600 7 /\ entrypoint (entry_in (img s) 1) = 0x10000.
Proof.
  destruct (image_loads sample_open sample_boot sample_main [sample_user1; sample_user2]) as (s & E & _ & Hk & _ & _ & _ & Ht).
  - unfold buildable. split; [apply sample_readable; set_solver|]. split; [apply sample_readable; set_solver|].
    split; [apply Forall_forall; intros p Hp; apply sample_readable; set_solver|].
    split; [done|]. split; [done|]. split; [by repeat constructor; simpl; try lia|].
    split; [by vm_compute|]. split; [simpl; lia|]. split; [simpl; lia|]. split; [simpl; unfold TASK_MAXNUM; lia|]. by vm_compute.
  - exists s. split; [exact E|]. split; [exact Hk|]. apply (Ht 1%nat sample_user2 eq_refl).
Defined.
