(* ===== verification/Program.v ===== *)
(** * From the file of a program to its process

    The image that tools/createimage.c makes, on the card, and the loader of the kernel:
    what the process finds at its entry point are the bytes of the file. *)
From S2P Require Import Prelude CString DList Sched Lock FsLayout PageTable Mm MmFacts MmWitness UserMem.
From S2P Require Import Process Exec Load Image ImageFacts.

(** The card holds the image [d] from its first sector on. *)
Definition card_holds {D} `{!SwapDevice D} (card : D) (d : list Z) : Prop :=
  forall sector x c, 0 <= sector -> 0 <= x -> d !! Z.to_nat (512 * sector + x) = Some c -> card_byte card sector x = c.

Lemma slice_lookup off n (d : list Z) i c : slice off n d !! i = Some c -> d !! (off + i)%nat = Some c.
Proof. unfold slice. intros [H _]%lookup_take_Some. by rewrite lookup_drop in H. Qed.

(** The pages of a program hold its sectors. *)
Lemma pages_cover mem off size :
  0 <= mem -> 0 <= off < 512 -> size <= mem -> 512 * ((off + size + 511) / 512) <= PAGE_SIZE * NBYTES2PAGE (mem + SECTOR_BYTES).
Proof.
  intros Hm Ho Hs. unfold NBYTES2PAGE, PAGE_SIZE, SECTOR_BYTES.
  pose proof (Z.div_mod (mem + 512) 4096 ltac:(lia)). pose proof (Z.mod_pos_bound (mem + 512) 4096 ltac:(lia)).
  pose proof (Z.div_mod (off + size + 511) 512 ltac:(lia)). pose proof (Z.mod_pos_bound (off + size + 511) 512 ltac:(lia)).
  destruct (Z.eqb_spec ((mem + 512) mod 4096) 0); lia.
Qed.

Section Program.
Variable fopen : list Z -> option (list Z).
Context {D : Type} `{!SwapDevice D}.

Lemma entry_loadable begin p :
  readable fopen p -> user p -> 0 <= begin -> begin + size p <= 512 * 32767 -> size p <= sum_memsz (pr_segs p) ->
  entry_loads (entry_at begin p).
Proof.
  intros Hr Hu Hb Hs Hm. assert (0 <= size p) by (unfold size; lia).
  destruct (entry_sectors begin p Hb ltac:(lia)) as (H1 & H2 & H3 & H4 & H5).
  destruct (entry_wf fopen begin p Hr Hu Hb ltac:(lia)) as [_ Em]. destruct Hr as (_ & _ & Hms & _).
  set (t := entry_at begin p) in *. unfold entry_loads. rewrite Em.
  pose proof (Z.div_mod (begin + size p + 511) 512 ltac:(lia)). pose proof (Z.mod_pos_bound (begin + size p + 511) 512 ltac:(lia)).
  assert (sector_num t = (offset t + size p + 511) / 512) as En.
  { replace (begin + size p + 511) with (offset t + size p + 511 + firstsector t * 512) in * by lia. rewrite Z.div_add in * by lia. lia. }
  pose proof (pages_cover (sum_memsz (pr_segs p)) (offset t) (size p) ltac:(lia) H2 Hm).
  pose proof (Z.div_mod (offset t + size p + 511) 512 ltac:(lia)). pose proof (Z.mod_pos_bound (offset t + size p + 511) 512 ltac:(lia)).
  rewrite En in *. repeat split; try lia.
Qed.

(** C7. From the file of a program to its process: createimage makes an image from boot
    block, kernel and programs such that, with the image on the card, load_task_img succeeds on
    the entry of the program in the table, and the new process reads the bytes of its file at
    its entry point, one after the other, through its own page table; memory in use is
    unchanged. *)
Theorem program_loads b m ts i pr :
  buildable fopen b m ts -> ts !! i = Some pr -> size pr <= sum_memsz (pr_segs pr) ->
  let ep := e_entry (pr_ehdr pr) in
  exists s, create_image fopen (pr_name <$> b :: m :: ts) = Ok s /\
    forall (k : @mmst D) L T p, card_holds (swap k) (img s) ->
      load_ready k L T p ep (NBYTES2PAGE (sum_memsz (pr_segs pr) + SECTOR_BYTES)) ->
      exists k', load_task_img (entry_in (img s) i) p k = Ok (tt, k') /\
        (forall x c, bytes pr !! x = Some c -> uld8 (ram k') (pgdir p) (ep + Z.of_nat x) = Ok c) /\
        (forall a, stable k T a -> ld64 (ram k') a = ld64 (ram k) a).
Proof.
  intros Hok Ei Hmem ep. destruct (create_image_ok fopen b m ts Hok) as (s & tab & E & Ed & Hlen & Htab). exists s. split; [done|].
  intros k L T p Hcard Hready. pose proof (entry_read fopen b m ts tab Hok Hlen Htab i pr Ei) as Ee.
  destruct (program_read fopen b m ts tab Hok Hlen Htab i pr Ei) as [Hbytes _]. cbv zeta in Hbytes. rewrite <- Ed in Ee, Hbytes.
  pose proof (program_at fopen b m ts Hok i pr Ei) as [Ha Hb]. pose proof (sizes_small fopen b m ts Hok) as (_ & _ & Ht1 & Ht2).
  set (a := first_task m ts + Z.of_nat (length (body (take i ts)))) in *. set (t := entry_in (img s) i) in *.
  destruct Hok as (_ & _ & Hr & _ & _ & Hu & _). pose proof (proj1 (Forall_lookup _ _) Hr _ _ Ei) as Hri. pose proof (proj1 (Forall_lookup _ _) Hu _ _ Ei) as Hui.
  pose proof (entry_loadable a pr Hri Hui Ha ltac:(lia) Hmem) as Hload. rewrite <- Ee in Hload.
  destruct (entry_wf fopen a pr Hri Hui Ha ltac:(lia)) as [_ Em]. rewrite <- Ee in Em.
  destruct (entry_sectors a pr Ha ltac:(lia)) as (H1 & H2 & H3 & H4 & H5). rewrite <- Ee in H1, H2, H3, H4, H5.
  assert (entrypoint t = ep) as Eep by (by rewrite Ee).
  destruct (load_task_img_ok k L T p t) as (k' & _ & _ & El & _ & _ & _ & Hx & Hst & _); [by rewrite Eep, Em|done|].
  exists k'. split; [done|]. split; [|done]. intros x c Hc. pose proof (lookup_lt_Some _ _ _ Hc) as Hlt.
  pose proof (Z.div_mod (a + size pr + 511) 512 ltac:(lia)). pose proof (Z.mod_pos_bound (a + size pr + 511) 512 ltac:(lia)).
  unfold size in *. rewrite <- Eep, Hx by lia. f_equal. apply Hcard; [lia|lia|]. rewrite <- Hbytes in Hc.
  apply slice_lookup in Hc. unfold sectors in Hc. apply slice_lookup in Hc. rewrite <- Hc. f_equal. lia.
Qed.
End Program.

(** ** The sample image on a card *)

Lemma card_byte_ld8 (d : card) sector x : 0 <= x -> card_byte d sector x = ld8 d (512 * sector + x).
Proof.
  intros Hx. unfold card_byte, PAGE_SIZE. cbn [sd_page card_device]. unfold page_words.
  pose proof (Z.mod_pos_bound x 4096 ltac:(lia)). pose proof (Z.div_mod x 4096 ltac:(lia)). pose proof (Z.div_pos (x mod 4096) 8 ltac:(lia) ltac:(lia)).
  pose proof (Z.div_lt_upper_bound (x mod 4096) 8 512 ltac:(lia) ltac:(lia)).
  pose proof (Z.div_mod (x mod 4096) 8 ltac:(lia)).
  assert (x mod 4096 mod 8 = x mod 8) as Em.
  { replace x with (x mod 4096 + (512 * (x / 4096)) * 8) at 2 by lia. by rewrite Z.mod_add by lia. }
  assert ((512 * sector + x) mod 8 = x mod 8) as Es.
  { replace (512 * sector + x) with (x + 64 * sector * 8) by lia. by rewrite Z.mod_add by lia. }
  set (i := Z.to_nat (x mod 4096 / 8)). assert (i < NUM_PTE_ENTRY)%nat as Hi by (unfold i, NUM_PTE_ENTRY; lia).
  rewrite list_lookup_fmap, lookup_seq_lt by done. unfold ld8, byte_of, slot. rewrite Es.
  replace (512 * sector + x - x mod 8) with (512 * (sector + 8 * (x / 4096)) + 8 * Z.of_nat (0 + i)) by lia. reflexivity.
Qed.
(** A card with the bytes [d] on it. *)
Definition card_of (d : list Z) : card := put_bytes 0 d ∅.
Lemma card_of_holds d : is_bytes d -> card_holds (card_of d) d.
Proof.
  intros Hd sector x c Hs Hx Hc. rewrite card_byte_ld8 by done. unfold card_of. pose proof (lookup_lt_Some _ _ _ Hc).
  rewrite put_bytes_ld8, decide_True by lia. rewrite Z.sub_0_r, Hc. simpl. apply Z.mod_small.
  by apply (Forall_lookup_1 _ _ _ _ Hd Hc).
Qed.

Definition sample_tasks : list program := [sample_user1; sample_user2].
Lemma sample_buildable : buildable sample_open sample_boot sample_main sample_tasks.
Proof.
  split; [apply sample_readable; set_solver|]. split; [apply sample_readable; set_solver|].
  split; [apply Forall_forall; intros p Hp; apply sample_readable; set_solver|].
  split; [done|]. split; [done|]. split; [by repeat constructor; simpl; try lia|].
  split; [by vm_compute|]. split; [simpl; lia|]. split; [simpl; lia|]. split; [simpl; unfold TASK_MAXNUM; lia|]. by vm_compute.
Qed.
Definition sample_image : list Z :=
  match create_image sample_open (pr_name <$> sample_files) with Ok s => img s | Err _ => [] end.
Definition loader_state : @mmst card := with_sd (sd_sector_end boot) (card_of sample_image) boot.
Lemma load_ready_sd {D} `{!SwapDevice D} (s : @mmst D) L T p ep pages e d :
  load_ready s L T p ep pages -> load_ready (with_sd e d s) L T p ep pages.
Proof. intros []. split; try done; split; by destruct lr_wf, lr_tables. Qed.
Lemma loader_ready : load_ready loader_state (lists [] [] []) {[pgA := Root]} procA 0x10000 1.
Proof.
  apply load_ready_sd. split.
  - exact boot_wf.
  - exact boot_tables.
  - intros q k Hq [Hk _]. destruct Hq as [l Hl]. apply lookup_singleton_Some in Hl as [<- _]. apply (pools_disjoint 4 k); [done|lia].
  - intros i n Hi. by apply elem_of_nil in Hi.
  - done.
  - done.
  - exact boot_kfree.
  - exists [3]. split; [by_computation|]. split; [done|]. by intros x ->%list_elem_of_singleton.
  - exact boot_nfree.
Qed.
Lemma program_loads_witness :
  exists s k', create_image sample_open (pr_name <$> sample_files) = Ok s /\
    load_task_img (entry_in (img s) 0) procA loader_state = Ok (tt, k') /\ uld8 (ram k') pgA 0x10004 = Ok 14.
Proof.
  destruct (program_loads (D := card) sample_open sample_boot sample_main sample_tasks 0 sample_user1 sample_buildable eq_refl) as (s & E & H).
  { vm_compute. discriminate. }
  assert (img s = sample_image) as Ei by (unfold sample_image; by rewrite (E : create_image sample_open (pr_name <$> sample_files) = Ok s)).
  destruct (H loader_state (lists [] [] []) {[pgA := Root]} procA) as (k' & E' & Hx & _).
  - rewrite Ei. apply card_of_holds. by_computation.
  - exact loader_ready.
  - exists s, k'. split; [exact E|]. split; [exact E'|]. apply (Hx 4%nat 14). reflexivity.
Defined.
