(* ===== verification/Malloc.v ===== *)
(** * The allocator of user programs (tiny_libc/malloc.c)

    The headers of the blocks as a store addressed by byte, the circular free list
    that starts at [base], [malloc], [free] and [morecore].  More memory comes from
    [sbrk]: what the allocator needs of it is the class [ProgramBreak], which the
    kernel's [do_sbrk] satisfies. *)
From stdpp Require Import sorting.
From S2P Require Import Prelude DList Sched FsLayout PageTable Mm MmWitness.

(** ** The program break *)

Class ProgramBreak (St : Type) := {
  sbrk : Z -> M St Z;
  the_brk : St -> Z;
  brk_ok : St -> Prop;
  brk_bound s : brk_ok s -> 0 < the_brk s < 2 ^ 62;
  sbrk_spec s n : brk_ok s -> 0 <= n < 2 ^ 63 ->
    exists r s', sbrk n s = Ok (r, s') /\ brk_ok s' /\
      ((r = u64 (-1) /\ the_brk s' = the_brk s) \/ (r = the_brk s /\ r + n <= the_brk s'))
}.

(** ** State *)

Record header := mkHeader { h_ptr : Z; h_size : Z }.
(** [sizeof(Header)] *)
Definition HSIZE : Z := 16.

Section Malloc.
Context {St : Type} `{!ProgramBreak St} (base : Z).

(** [hdr]: the headers that have been written; [freep] is 0 before the first call. *)
Record heap := mkHeap { hdr : gmap Z header; freep : Z; kern : St }.
Definition with_hdr h (s : heap) := mkHeap h (freep s) (kern s).
Definition with_freep p (s : heap) := mkHeap (hdr s) p (kern s).
Definition with_kern k (s : heap) := mkHeap (hdr s) (freep s) k.
Abbreviation U := (M heap).

Definition header_at (p : Z) : U header := h ← gets hdr; lift (of_option Fault (h !! p)).
Definition ptr_of (p : Z) : U Z := x ← header_at p; mret (h_ptr x).
Definition size_of (p : Z) : U Z := x ← header_at p; mret (h_size x).
(** [p->s.ptr = q], [p->s.size = n]; memory that was never written is zero. *)
Definition put_ptr (p q : Z) : U unit :=
  modify (fun s => with_hdr (<[p := mkHeader q (default 0 (h_size <$> hdr s !! p))]> (hdr s)) s).
Definition put_size (p n : Z) : U unit :=
  modify (fun s => with_hdr (<[p := mkHeader (default 0 (h_ptr <$> hdr s !! p)) n]> (hdr s)) s).
(** [p + n] for a [Header *] *)
Definition padd (p n : Z) : Z := u64 (p + HSIZE * n).

(** ** [free] *)

(** The place for [bp] in the list. *)
Fixpoint free_search (fuel : nat) (bp p : Z) : U Z :=
  match fuel with
  | O => fail OutOfFuel
  | S fuel' =>
    nx ← ptr_of p;
    if (bp >? p) && (bp <? nx) then mret p
    else if (p >=? nx) && ((bp >? p) || (bp <? nx)) then mret p
    else free_search fuel' bp nx
  end.

(** Joining [bp] to the block after it, and to the block [p] before it. *)
Definition join_next (bp nx : Z) : U unit :=
  bsz ← size_of bp;
  if padd bp bsz =? nx then
    nsz ← size_of nx;
    put_size bp (u64 (bsz + nsz));;
    nnx ← ptr_of nx;
    put_ptr bp nnx
  else put_ptr bp nx.
Definition join_prev (p bp : Z) : U unit :=
  psz ← size_of p;
  if padd p psz =? bp then
    bsz ← size_of bp;
    put_size p (u64 (psz + bsz));;
    bnx ← ptr_of bp;
    put_ptr p bnx
  else put_ptr p bp.

Definition free (ap : Z) : U unit :=
  let bp := padd ap (-1) in
  f ← gets freep;
  n ← gets (fun s => size (hdr s));
  p ← free_search (S (2 * n)) bp f;
  nx ← ptr_of p;
  join_next bp nx;;
  join_prev p bp;;
  modify (with_freep p).

(** ** [morecore], [malloc] *)

(** 0 is NULL. *)
Definition morecore (nu : Z) : U Z :=
  let nu := if nu <? 4096 then 4096 else nu in
  p ← zoom kern with_kern (sbrk (u64 (nu * HSIZE)));
  if p =? u64 (-1) then mret 0 else
  put_size p nu;;
  free (padd p 1);;
  gets freep.

(** Taking [nunits] units of the block [p], whose predecessor is [prevp]. *)
Definition carve (nunits prevp p sz : Z) : U Z :=
  p ← (if sz =? nunits then nx ← ptr_of p; put_ptr prevp nx;; mret p
       else
         put_size p (u64 (sz - nunits));;
         let q := padd p (u64 (sz - nunits)) in
         put_size q nunits;; mret q);
  modify (with_freep prevp);;
  mret (padd p 1).

Fixpoint malloc_loop (fuel : nat) (nunits prevp p : Z) : U Z :=
  match fuel with
  | O => fail OutOfFuel
  | S fuel' =>
    sz ← size_of p;
    if sz >=? nunits then carve nunits prevp p sz
    else
      f ← gets freep;
      r ← (if p =? f then morecore nunits else mret p);
      if (p =? f) && (r =? 0) then mret 0
      else nx ← ptr_of r; malloc_loop fuel' nunits r nx
  end.

Definition malloc (nbytes : Z) : U Z :=
  let nunits := u64 (u64 (nbytes + HSIZE - 1) / HSIZE + 1) in
  f ← gets freep;
  (if f =? 0 then put_ptr base base;; modify (with_freep base);; put_size base 0 else mret tt);;
  prevp ← gets freep;
  p ← ptr_of prevp;
  n ← gets (fun s => size (hdr s));
  malloc_loop (S (2 * (n + 2))) nunits prevp p.

(** ** Evaluation *)

Lemma ptr_of_ok s p x : hdr s !! p = Some x -> ptr_of p s = Ok (h_ptr x, s).
Proof. intros E. unfold ptr_of, header_at, mbind, M_bind, gets, lift. by rewrite E. Qed.
Lemma size_of_ok s p x : hdr s !! p = Some x -> size_of p s = Ok (h_size x, s).
Proof. intros E. unfold size_of, header_at, mbind, M_bind, gets, lift. by rewrite E. Qed.
Lemma put_ptr_ok s p q x :
  hdr s !! p = Some x -> put_ptr p q s = Ok (tt, with_hdr (<[p := mkHeader q (h_size x)]> (hdr s)) s).
Proof. intros E. unfold put_ptr, modify. by rewrite E. Qed.
Lemma put_size_ok s p n x :
  hdr s !! p = Some x -> put_size p n s = Ok (tt, with_hdr (<[p := mkHeader (h_ptr x) n]> (hdr s)) s).
Proof. intros E. unfold put_size, modify. by rewrite E. Qed.

(** ** Chains of headers *)

(** From [p] along the pointers, the blocks [L] (address and size), up to [q]. *)
Fixpoint hchain (h : gmap Z header) (p : Z) (L : list (Z * Z)) (q : Z) : Prop :=
  match L with
  | [] => p = q
  | (a, n) :: L' => p = a /\ exists nx, h !! a = Some (mkHeader nx n) /\ hchain h nx L' q
  end.

Lemma hchain_app h p L1 L2 q : hchain h p (L1 ++ L2) q <-> exists m, hchain h p L1 m /\ hchain h m L2 q.
Proof.
  revert p; induction L1 as [|[a n] L1 IH]; intros p; simpl.
  - split; [by eexists|]. by intros (m & -> & ?).
  - split.
    + intros (-> & nx & E & (m & H1 & H2)%IH). exists m. by eauto.
    + intros (m & (-> & nx & E & H1) & H2). split; [done|]. exists nx. split; [done|]. apply IH. by eauto.
Qed.
Lemma hchain_insert h p L q a x : a ∉ L.*1 -> hchain h p L q -> hchain (<[a := x]> h) p L q.
Proof.
  revert p; induction L as [|[b n] L IH]; intros p; simpl; [done|].
  intros [Hne Hn]%not_elem_of_cons (-> & nx & E & H). split; [done|]. exists nx. split; [by rewrite lookup_insert_ne|by apply IH].
Qed.
Lemma hchain_lookup h p L q a n : hchain h p L q -> (a, n) ∈ L -> exists nx, h !! a = Some (mkHeader nx n).
Proof.
  revert p; induction L as [|[b m] L IH]; intros p; simpl; [by intros ? ?%elem_of_nil|].
  intros (-> & nx & E & H) [[= -> ->]|Hin]%elem_of_cons; eauto.
Qed.
Lemma hchain_size h p L q : hchain h p L q -> NoDup L.*1 -> (length L <= size h)%nat.
Proof.
  intros H Hn. rewrite <- (length_fmap fst), <- (size_dom (D := gset Z)). rewrite <- (size_list_to_set (C := gset Z)) by done.
  apply subseteq_size. intros a Ha. apply elem_of_list_to_set, list_elem_of_fmap in Ha as ([b n] & -> & Hin).
  apply elem_of_dom. destruct (hchain_lookup _ _ _ _ _ _ H Hin) as [nx E]. by eexists.
Qed.

(** ** Where a block belongs *)

Definition block_end (x : Z * Z) : Z := x.1 + HSIZE * x.2.
(** Free blocks are apart: two that touch are merged. *)
Definition gap (x y : Z * Z) : Prop := block_end x < y.1.
Definition disj (x y : Z * Z) : Prop := block_end x <= y.1 \/ block_end y <= x.1.

(** The search walks over nodes below [bp] ... *)
Lemma search_below s b p L m f :
  hchain (hdr s) p L m -> Forall (fun x => x.1 < b) L -> m < b -> StronglySorted Z.lt (L.*1 ++ [m]) ->
  free_search (length L + f) b p s = free_search f b m s.
Proof.
  revert p; induction L as [|[a n] L IH]; intros p; simpl; [by intros ->|].
  intros (-> & nx & E & Hc) [Ha HL]%Forall_cons Hm Hs. simpl in Ha. apply StronglySorted_inv in Hs as [Hs Hlt].
  assert (a < nx < b) as [Hn1 Hn2].
  { destruct L as [|[c k] L]; simpl in *.
    - subst nx. by apply Forall_cons in Hlt as [? _].
    - destruct Hc as [-> _]. apply Forall_cons in Hlt as [? _]. apply Forall_cons in HL as [? _]. done. }
  rewrite (bind_ok _ _ _ _ _ (ptr_of_ok _ _ _ E)). cbn [h_ptr].
  rewrite (proj2 (Z.ltb_ge b nx)), andb_false_r by lia. rewrite (proj2 (geb_lt a nx)) by lia. by apply IH.
Qed.
(** ... and over nodes above it, down to [base]. *)
Lemma search_above s b p L f :
  hchain (hdr s) p L base -> Forall (fun x => b < x.1) L -> base < b -> StronglySorted Z.lt L.*1 ->
  free_search (length L + f) b p s = free_search f b base s.
Proof.
  revert p; induction L as [|[a n] L IH]; intros p; simpl; [by intros ->|].
  intros (-> & nx & E & Hc) [Ha HL]%Forall_cons Hm Hs. simpl in Ha. apply StronglySorted_inv in Hs as [Hs Hlt].
  rewrite (bind_ok _ _ _ _ _ (ptr_of_ok _ _ _ E)). cbn [h_ptr]. rewrite (Z.gtb_ltb b a), (proj2 (Z.ltb_ge a b)) by lia.
  cbn [andb orb]. destruct L as [|[c k] L]; simpl in Hc.
  - subst nx. rewrite (proj2 (Z.ltb_ge b base)), andb_false_r by lia. done.
  - destruct Hc as [-> Hc]. apply Forall_cons in Hlt as [Hac _]. rewrite (proj2 (geb_lt a c)) by done. by apply IH.
Qed.
(** It stops at the node before the place of [bp]. *)
Lemma search_stop s b x n L f :
  hchain (hdr s) x ((x, n) :: L) base -> x < b -> Forall (fun y => b < y.1) L -> base <= x ->
  free_search (S f) b x s = Ok (x, s).
Proof.
  intros (_ & nx & E & Hc) Hx HL Hb. cbn [free_search]. rewrite (bind_ok _ _ _ _ _ (ptr_of_ok _ _ _ E)). cbn [h_ptr].
  rewrite (Z.gtb_ltb b x), (proj2 (Z.ltb_lt x b)) by done. cbn [andb orb]. destruct L as [|[c k] L]; simpl in Hc.
  - subst nx. rewrite (proj2 (geb_le x base)) by done. by destruct (b <? base).
  - destruct Hc as [-> _]. apply Forall_cons in HL as [Hc' _]. simpl in Hc'. by rewrite (proj2 (Z.ltb_lt b c)) by done.
Qed.

Lemma sorted_split (l1 l2 : list Z) a :
  StronglySorted Z.lt (l1 ++ a :: l2) -> Forall (fun y => y < a) l1 /\ Forall (Z.lt a) l2.
Proof.
  intros Hs. split; [|apply StronglySorted_app_1_r in Hs; by apply StronglySorted_inv in Hs as [_ ?]].
  apply Forall_forall. intros y (k1 & k2 & ->)%list_elem_of_split.
  rewrite <- app_assoc in Hs. apply StronglySorted_app_1_r in Hs. simpl in Hs. apply StronglySorted_inv in Hs as [_ Hs].
  apply Forall_app in Hs as [_ Hs]. by apply Forall_cons in Hs as [? _].
Qed.

Section FreeSearch.
Context (s : heap) (b x n : Z) (M L2 : list (Z * Z)).
Context (Hc : hchain (hdr s) base (M ++ (x, n) :: L2) base) (Hs : StronglySorted Z.lt (M ++ (x, n) :: L2).*1)
  (Hhd : head (M ++ (x, n) :: L2).*1 = Some base) (Hx : x < b) (HL2 : Forall (fun y => b < y.1) L2).

Lemma base_le_x : base <= x.
Proof.
  clear - Hs Hhd. rewrite fmap_app in *. cbn [fmap list_fmap fst] in *.
  destruct M as [|[c k] M']; simpl in Hhd; injection Hhd as ->; [lia|].
  apply sorted_split in Hs as [Hs _]. apply Forall_cons in Hs as [? _]. simpl in *. lia.
Qed.

Lemma search_from_below A B k p :
  M = A ++ B -> hchain (hdr s) p (B ++ (x, n) :: L2) base -> (length B < k)%nat -> free_search k b p s = Ok (x, s).
Proof.
  intros EM Hp Hk. apply hchain_app in Hp as (m & HB & Hxc). pose proof Hxc as [-> _].
  replace k with (length B + S (k - length B - 1))%nat by lia.
  pose proof Hs as Hs'. rewrite EM, <- app_assoc, fmap_app in Hs'. apply StronglySorted_app_1_r in Hs'.
  rewrite fmap_app in Hs'. cbn [fmap list_fmap fst] in Hs'. pose proof (proj1 (sorted_split _ _ _ Hs')) as Hlt.
  rewrite cons_middle, app_assoc in Hs'. apply StronglySorted_app_1_l in Hs'.
  rewrite (search_below s b p B x); [by apply (search_stop s b x n L2); [| |done|apply base_le_x]|done| |done|done].
  apply Forall_fmap in Hlt. eapply Forall_impl; [exact Hlt|]. intros y Hy. simpl in Hy. lia.
Qed.

Lemma free_search_ok fuel :
  freep s ∈ (M ++ (x, n) :: L2).*1 -> (2 * length (M ++ (x, n) :: L2) <= fuel)%nat ->
  free_search (S fuel) b (freep s) s = Ok (x, s).
Proof.
  intros Hf Hfuel. apply list_elem_of_fmap in Hf as ([f fn] & -> & Hf). cbn [fst].
  rewrite length_app in Hfuel. cbn [length] in Hfuel.
  apply elem_of_app in Hf as [Hf|[[= -> ->]|Hf]%elem_of_cons].
  - apply list_elem_of_split in Hf as (A & B & EM). apply (search_from_below A ((f, fn) :: B)); [done| |].
    + pose proof Hc as Hc'. rewrite EM, <- app_assoc in Hc'. apply hchain_app in Hc' as (m & _ & Hm). pose proof Hm as [-> _]. done.
    + rewrite EM, length_app in Hfuel. cbn [length] in *. lia.
  - apply (search_from_below M []); [by rewrite app_nil_r| |simpl; lia].
    apply hchain_app in Hc as (m & _ & Hm). pose proof Hm as [-> _]. done.
  - apply list_elem_of_split in Hf as (A & B & EL).
    assert (hchain (hdr s) f ((f, fn) :: B) base) as HB.
    { pose proof Hc as Hc'. rewrite EL in Hc'. apply hchain_app in Hc' as (m & _ & _ & nx & _ & Hm).
      apply hchain_app in Hm as (m' & _ & Hm). pose proof Hm as [-> _]. done. }
    assert (length ((f, fn) :: B) <= length L2)%nat as Hlen by (rewrite EL, length_app; cbn [length]; lia).
    replace (S fuel) with (length ((f, fn) :: B) + (S fuel - length ((f, fn) :: B)))%nat by lia.
    rewrite (search_above s b f).
    + apply (search_from_below [] M); [done|done|lia].
    + done.
    + rewrite EL in HL2. by apply Forall_app in HL2 as [_ ?].
    + pose proof base_le_x. lia.
    + pose proof Hs as Hs'. rewrite EL in Hs'. change ((x, n) :: A ++ (f, fn) :: B) with (((x, n) :: A) ++ (f, fn) :: B) in Hs'.
      rewrite app_assoc, fmap_app in Hs'. by apply StronglySorted_app_1_r in Hs'.
Qed.
End FreeSearch.

(** ** Joining blocks *)

Definition blk_ok (bound : Z) (x : Z * Z) : Prop := base + HSIZE <= x.1 /\ 1 <= x.2 /\ block_end x <= bound.

(** The block [(b, n)] before the blocks [F], merged with the first if they touch. *)
Definition joined (b n : Z) (F : list (Z * Z)) : list (Z * Z) :=
  match F with
  | (c, m) :: F' => if b + HSIZE * n =? c then (b, n + m) :: F' else (b, n) :: F
  | [] => [(b, n)]
  end.
Lemma padd_small p n : 0 <= p + HSIZE * n < 2 ^ 64 -> padd p n = p + HSIZE * n.
Proof. apply u64_small. Qed.

Lemma insert_twice_hdr (h : gmap Z header) p x y s :
  with_hdr (<[p := x]> (hdr (with_hdr (<[p := y]> h) s))) (with_hdr (<[p := y]> h) s) = with_hdr (<[p := x]> h) s.
Proof. unfold with_hdr. simpl. by rewrite insert_insert_eq. Qed.

Lemma join_next_ok s b q n F nx B :
  hdr s !! b = Some (mkHeader q n) -> hchain (hdr s) nx F base -> b ∉ F.*1 -> Forall (blk_ok B) F ->
  blk_ok B (b, n) -> 0 < base -> B < 2 ^ 62 ->
  exists x, join_next b nx s = Ok (tt, with_hdr (<[b := x]> (hdr s)) s) /\
    hchain (<[b := x]> (hdr s)) b (joined b n F) base.
Proof.
  intros Eb Hc Hnb HF (Hb1 & Hb2 & Hb3) Hbase HB. unfold block_end, HSIZE in *. simpl in *.
  unfold join_next. rewrite (bind_ok _ _ _ _ _ (size_of_ok _ _ _ Eb)). cbn [h_size].
  rewrite padd_small by (unfold HSIZE; lia).
  destruct F as [|[c m] F]; simpl in Hc.
  - subst nx. rewrite (proj2 (Z.eqb_neq _ _)) by (unfold HSIZE; lia).
    rewrite (put_ptr_ok _ _ _ _ Eb). eexists. split; [done|]. simpl. split; [done|]. exists base.
    by rewrite lookup_insert_eq.
  - destruct Hc as (-> & n2 & Ec & Hc). apply not_elem_of_cons in Hnb as [Hne Hnb]. simpl in Hne.
    apply Forall_cons in HF as [(Hc1 & Hc2 & Hc3) HF]. unfold block_end in Hc3. simpl in *. unfold joined.
    destruct (Z.eqb_spec (b + HSIZE * n) c) as [E|E].
    + rewrite (bind_ok _ _ _ _ _ (size_of_ok _ _ _ Ec)). cbn [h_size].
      rewrite u64_small by (unfold HSIZE in *; lia).
      rewrite (bind_ok _ _ _ _ _ (put_size_ok _ _ (n + m) _ Eb)).
      rewrite (bind_ok _ _ _ _ _ (ptr_of_ok (with_hdr _ s) c (mkHeader n2 m) ltac:(simpl; by rewrite lookup_insert_ne))).
      rewrite (put_ptr_ok _ _ _ (mkHeader q (n + m))) by (simpl; by rewrite lookup_insert_eq).
      rewrite insert_twice_hdr. eexists. split; [done|]. simpl. split; [done|]. exists n2.
      rewrite lookup_insert_eq. split; [done|]. by apply hchain_insert.
    + rewrite (put_ptr_ok _ _ _ _ Eb). eexists. split; [done|]. simpl. split; [done|]. exists c.
      rewrite lookup_insert_eq. split; [done|]. split; [done|]. exists n2. rewrite lookup_insert_ne by done.
      split; [done|]. by apply hchain_insert.
Qed.

Lemma join_prev_ok s b n G x q xn B :
  hchain (hdr s) b ((b, n) :: G) base -> hdr s !! x = Some (mkHeader q xn) -> x ∉ ((b, n) :: G).*1 ->
  0 <= x -> 0 <= xn -> 0 <= n -> x + HSIZE * xn <= b -> b + HSIZE * n <= B -> B < 2 ^ 62 ->
  exists y, join_prev x b s = Ok (tt, with_hdr (<[x := y]> (hdr s)) s) /\
    hchain (<[x := y]> (hdr s)) x (joined x xn ((b, n) :: G)) base.
Proof.
  intros (_ & nx & Eb & Hc) Ex Hnx H1 H2 H3 H4 H5 H6. apply not_elem_of_cons in Hnx as [Hne Hnx]. simpl in Hne.
  unfold join_prev. rewrite (bind_ok _ _ _ _ _ (size_of_ok _ _ _ Ex)). cbn [h_size].
  rewrite padd_small by (unfold HSIZE in *; lia). unfold joined. destruct (Z.eqb_spec (x + HSIZE * xn) b) as [E|E].
  - rewrite (bind_ok _ _ _ _ _ (size_of_ok _ _ _ Eb)). cbn [h_size]. rewrite u64_small by (unfold HSIZE in *; lia).
    rewrite (bind_ok _ _ _ _ _ (put_size_ok _ _ (xn + n) _ Ex)).
    rewrite (bind_ok _ _ _ _ _ (ptr_of_ok (with_hdr _ s) b (mkHeader nx n) ltac:(simpl; by rewrite lookup_insert_ne))).
    rewrite (put_ptr_ok _ _ _ (mkHeader q (xn + n))) by (simpl; by rewrite lookup_insert_eq).
    rewrite insert_twice_hdr. eexists. split; [done|]. simpl. split; [done|]. exists nx.
    rewrite lookup_insert_eq. split; [done|]. by apply hchain_insert.
  - rewrite (put_ptr_ok _ _ _ _ Ex). eexists. split; [done|]. simpl. split; [done|]. exists b.
    rewrite lookup_insert_eq. split; [done|]. split; [done|]. exists nx. rewrite lookup_insert_ne by done.
    split; [done|]. by apply hchain_insert.
Qed.

(** The addresses in the blocks [F]. *)
Definition covers (F : list (Z * Z)) (v : Z) : Prop := exists y, y ∈ F /\ y.1 <= v < block_end y.

Lemma covers_cons x F v : covers (x :: F) v <-> x.1 <= v < block_end x \/ covers F v.
Proof.
  unfold covers. split.
  - intros (y & [->|Hy]%elem_of_cons & Hv); [by left|right; by eauto].
  - intros [Hv|(y & Hy & Hv)]; [exists x|exists y]; (split; [|done]); apply elem_of_cons; auto.
Qed.
Lemma covers_app F G v : covers (F ++ G) v <-> covers F v \/ covers G v.
Proof.
  induction F as [|x F IH]; simpl; [split; [by right|]; intros [(y & ?%elem_of_nil & _)|?]; done|].
  rewrite !covers_cons, IH. tauto.
Qed.

Lemma joined_ok B b n F :
  StronglySorted gap F -> Forall (blk_ok B) F -> blk_ok B (b, n) -> Forall (fun y => b + HSIZE * n <= y.1) F ->
  StronglySorted gap (joined b n F) /\ Forall (blk_ok B) (joined b n F) /\
  (forall v, covers (joined b n F) v <-> b <= v < b + HSIZE * n \/ covers F v) /\
  exists m G, joined b n F = (b, m) :: G /\ n <= m /\ (forall y, y ∈ G -> y ∈ F) /\ Forall (fun y => b + HSIZE * m < y.1) G.
Proof.
  intros Hs HF Hb Hle. unfold blk_ok, block_end in *. simpl in *. destruct F as [|[c m] F].
  - simpl. split; [by repeat constructor|]. split; [by apply Forall_singleton|]. split.
    + intros v. rewrite covers_cons. done.
    + exists n, []. split; [done|]. split; [lia|]. split; [done|constructor].
  - apply StronglySorted_inv in Hs as [Hs Hc]. apply Forall_cons in HF as [(Hc1 & Hc2 & Hc3) HF].
    apply Forall_cons in Hle as [Hcb Hle]. unfold gap, block_end in Hc. simpl in *.
    assert (Forall (fun y => c + HSIZE * m < y.1) F) as Hc' by exact Hc.
    destruct (Z.eqb_spec (b + HSIZE * n) c) as [E|E].
    + split; [constructor; [done|]; eapply Forall_impl; [exact Hc'|]; intros y Hy; unfold gap, block_end; simpl in *; unfold HSIZE in *; lia|].
      split; [constructor; [|done]; simpl; unfold HSIZE in *; lia|]. split.
      * intros v. rewrite !covers_cons. unfold block_end. simpl. unfold HSIZE in *.
        assert (b <= v < b + 16 * (n + m) <-> b <= v < b + 16 * n \/ c <= v < c + 16 * m) as -> by lia. tauto.
      * exists (n + m), F. split; [done|]. split; [lia|]. split; [intros; by right|].
        eapply Forall_impl; [exact Hc'|]. intros y Hy. simpl in *. unfold HSIZE in *. lia.
    + assert (Forall (fun y => b + HSIZE * n < y.1) ((c, m) :: F)) as Hgt.
      { constructor; [simpl; lia|]. eapply Forall_impl; [exact Hc'|]. intros y Hy. simpl in *. unfold HSIZE in *. lia. }
      split; [constructor; [by constructor|exact Hgt]|]. split; [by apply Forall_cons; split; [|by apply Forall_cons]|]. split.
      * intros v. by rewrite covers_cons.
      * exists n, ((c, m) :: F). done.
Qed.

Lemma joined_length b n F : (length (joined b n F) <= S (length F))%nat.
Proof. destruct F as [|[c m] F]; simpl; [lia|]. destruct (_ =? _); simpl; lia. Qed.

(** A new block divides the free blocks. *)
Lemma split_free B b n F :
  StronglySorted gap F -> Forall (blk_ok B) F -> Forall (disj (b, n)) F -> 1 <= n ->
  exists F1 F2, F = F1 ++ F2 /\ Forall (fun x => block_end x <= b) F1 /\ Forall (fun y => b + HSIZE * n <= y.1) F2.
Proof.
  induction F as [|x F IH]; intros Hs HF Hd Hn; [by exists [], []|].
  apply StronglySorted_inv in Hs as [Hs Hx]. apply Forall_cons in HF as [Hxo HF]. apply Forall_cons in Hd as [Hdx Hd].
  destruct (decide (block_end x <= b)) as [Hle|Hgt].
  - destruct (IH Hs HF Hd Hn) as (F1 & F2 & -> & H1 & H2). exists (x :: F1), F2. split; [done|]. split; [by constructor|done].
  - exists [], (x :: F). split; [done|]. split; [constructor|].
    assert (b + HSIZE * n <= x.1) as Hbx by (destruct Hdx as [H|H]; [done|]; by destruct Hgt).
    constructor; [done|]. eapply Forall_impl; [exact Hx|]. intros y Hy.
    unfold gap, blk_ok, block_end, HSIZE in *. lia.
Qed.

(** ** The free list *)

Record free_list (bound : Z) (F : list (Z * Z)) (s : heap) : Prop := {
  fl_ring : hchain (hdr s) base ((base, 0) :: F) base;
  fl_freep : freep s ∈ base :: F.*1;
  fl_gap : StronglySorted gap F;
  fl_blocks : Forall (blk_ok bound) F
}.
Context (Hbase : 0 < base).

Lemma blocks_above bound F a : Forall (blk_ok bound) F -> a ∈ F.*1 -> base < a.
Proof.
  rewrite Forall_forall. intros HF (y & -> & Hy)%list_elem_of_fmap. destruct (HF y Hy) as [H _]. unfold HSIZE in H. lia.
Qed.
Lemma gap_sorted bound F : StronglySorted gap F -> Forall (blk_ok bound) F -> StronglySorted Z.lt F.*1.
Proof.
  induction F as [|x F IH]; intros Hs HF; [constructor|].
  apply StronglySorted_inv in Hs as [Hs Hx]. apply Forall_cons in HF as [Hxo HF]. simpl. constructor; [by apply IH|].
  apply Forall_fmap. eapply Forall_impl; [exact Hx|]. intros y Hy. unfold gap, blk_ok, block_end, HSIZE in *. simpl. lia.
Qed.
Lemma ring_sorted bound F :
  StronglySorted gap F -> Forall (blk_ok bound) F -> StronglySorted Z.lt ((base, 0) :: F).*1.
Proof.
  intros Hs HF. rewrite fmap_cons. constructor; [by eapply gap_sorted|]. apply Forall_forall. intros a Ha. by eapply blocks_above.
Qed.
Lemma sorted_nodup (l : list Z) : StronglySorted Z.lt l -> NoDup l.
Proof.
  induction 1 as [|a l Hs IH Ha]; constructor; [|done]. intros Hin. rewrite Forall_forall in Ha. specialize (Ha a Hin). lia.
Qed.

(** The new free list, before it is known to be one: [b] goes between [x] and [F2]. *)
Lemma free_runs s M x xn F2 B b q n :
  hchain (hdr s) base (M ++ (x, xn) :: F2) base -> StronglySorted Z.lt (M ++ (x, xn) :: F2).*1 ->
  head (M ++ (x, xn) :: F2).*1 = Some base -> freep s ∈ (M ++ (x, xn) :: F2).*1 ->
  Forall (fun y => b + HSIZE * n <= y.1) F2 -> x + HSIZE * xn <= b -> x < b -> 0 <= xn ->
  hdr s !! b = Some (mkHeader q n) -> blk_ok B (b, n) -> Forall (blk_ok B) F2 -> StronglySorted gap F2 -> B < 2 ^ 62 ->
  exists s', free (padd b 1) s = Ok (tt, s') /\ kern s' = kern s /\ freep s' = x /\
    hchain (hdr s') base (M ++ joined x xn (joined b n F2)) base /\
    (forall a, a <> b -> a <> x -> hdr s' !! a = hdr s !! a).
Proof.
  intros Hc Hs Hhd Hf Hgt Hxe Hxb Hxn Eb Hb HF2 Hg2 HB. pose proof (base_le_x x xn M F2 Hs Hhd) as Hbx. pose proof Hb as (Hb1 & Hb2 & Hb3). unfold block_end in Hb3. simpl in *.
  assert (padd (padd b 1) (-1) = b) as Ebp.
  { unfold padd, HSIZE in *. rewrite (u64_small (b + 16 * 1)) by lia. rewrite u64_small by lia. lia. }
  unfold free. rewrite Ebp, (bind_ok _ _ _ _ _ eq_refl), (bind_ok _ _ _ _ _ eq_refl).
  pose proof (hchain_size _ _ _ _ Hc (sorted_nodup _ Hs)) as Hsz.
  rewrite (bind_ok _ _ s x s).
  2:{ apply (free_search_ok s b x xn M F2); [done|done|done|done| |done|lia].
      eapply Forall_impl; [exact Hgt|]. intros y Hy. simpl in Hy. unfold HSIZE in *. lia. }
  rewrite fmap_app in Hs. cbn [fmap list_fmap fst] in Hs. destruct (sorted_split _ _ _ Hs) as [HM HF].
  apply hchain_app in Hc as (m & HcM & -> & nx & Ex & Hc2).
  rewrite (bind_ok _ _ _ _ _ (ptr_of_ok _ _ _ Ex)). cbn [h_ptr].
  assert (b ∉ F2.*1) as Hbn.
  { intros (y & -> & Hy)%list_elem_of_fmap. rewrite Forall_forall in Hgt. specialize (Hgt y Hy). simpl in *. unfold HSIZE in *. lia. }
  destruct (join_next_ok s b q n F2 nx B Eb Hc2 Hbn HF2 Hb Hbase HB) as (h1 & E1 & C1).
  rewrite (bind_ok _ _ _ _ _ E1). set (s1 := with_hdr _ s) in *.
  destruct (joined_ok B b n F2 Hg2 HF2 Hb Hgt) as (_ & HJb & _ & n' & G & EJ & Hn' & HG & _).
  rewrite EJ in *. apply Forall_cons in HJb as [(_ & _ & HJe) _]. unfold block_end in HJe. simpl in HJe.
  assert (x ∉ ((b, n') :: G).*1) as Hxn'.
  { rewrite fmap_cons. apply not_elem_of_cons. split; [simpl; lia|]. intros (y & -> & Hy)%list_elem_of_fmap.
    rewrite Forall_forall in HF. specialize (HF y.1 (list_elem_of_fmap_2 fst _ _ (HG y Hy))). lia. }
  destruct (join_prev_ok s1 b n' G x nx xn B) as (h2 & E2 & C2); try done; try lia.
  { simpl. rewrite lookup_insert_ne by lia. done. }
  rewrite (bind_ok _ _ _ _ _ E2). eexists. split; [done|]. simpl. split; [done|]. split; [done|]. split.
  - apply hchain_app. exists x. split; [|exact C2]. rewrite Forall_forall in HM.
    apply hchain_insert; [intros Hx; specialize (HM x Hx); lia|]. apply hchain_insert; [intros Hx; specialize (HM b Hx); lia|done].
  - intros a H1 H2. rewrite !lookup_insert_ne by done. done.
Qed.

Lemma free_core s F B b q n :
  free_list B F s -> hdr s !! b = Some (mkHeader q n) -> blk_ok B (b, n) -> Forall (disj (b, n)) F -> B < 2 ^ 62 ->
  exists s' F', free (padd b 1) s = Ok (tt, s') /\ kern s' = kern s /\ free_list B F' s' /\
    (forall v, covers F' v <-> covers F v \/ b <= v < b + HSIZE * n) /\
    (exists y, y ∈ F' /\ n <= y.2) /\
    (forall a, a <> b -> a ∉ base :: F.*1 -> hdr s' !! a = hdr s !! a) /\ (length F' <= S (length F))%nat.
Proof.
  intros [Hr Hf Hg Hbl] Eb Hb Hd HB. pose proof Hb as (Hb1 & Hb2 & Hb3). unfold block_end, HSIZE in Hb1, Hb3. simpl in Hb1, Hb2, Hb3.
  destruct (split_free B b n F Hg Hbl Hd Hb2) as (F1 & F2 & -> & H1 & H2).
  pose proof (ring_sorted B _ Hg Hbl) as Hss. pose proof Hbl as [Hbl1 Hbl2]%Forall_app.
  pose proof Hg as (Hg12 & Hg1 & Hg2)%StronglySorted_app.
  destruct (joined_ok B b n F2 Hg2 Hbl2 Hb H2) as (HJs & HJb & HJc & m & G & EJ & Hm & HG & HGe).
  destruct F1 as [|[x xn] F1 _] using rev_ind.
  - destruct (free_runs s [] base 0 F2 B b q n) as (s' & E & Ek & Ef & Hc & Hh); try done; try (unfold HSIZE; lia).
    exists s', (joined b n F2). split; [done|]. split; [done|]. pose proof (joined_length b n F2). rewrite EJ in *. split; [|split; [|split; [|split]]]; [| | | |done].
    + constructor; [|rewrite Ef; by left|done|done]. cbn [app joined] in Hc.
      by rewrite (proj2 (Z.eqb_neq _ _)) in Hc by (unfold HSIZE; lia).
    + intros v. rewrite HJc. cbn [app]. tauto.
    + exists (b, m). split; [by left|done].
    + intros a Ha Hn. apply Hh; [done|]. by apply not_elem_of_cons in Hn as [? _].
  - apply Forall_app in H1 as [H1 [Hx _]%Forall_cons]. unfold block_end in Hx. simpl in Hx.
    apply Forall_app in Hbl1 as [Hbl1 [Hxo _]%Forall_cons]. pose proof Hxo as (Hx1 & Hx2 & _). simpl in Hx1, Hx2.
    apply StronglySorted_app in Hg1 as (Hg1x & Hg1 & _). rewrite <- app_assoc in *. cbn [app] in *.
    destruct (free_runs s ((base, 0) :: F1) x xn F2 B b q n) as (s' & E & Ek & Ef & Hc & Hh); try done; try (unfold HSIZE in *; lia).
    assert (Forall (fun y => x + HSIZE * xn <= y.1) (joined b n F2)) as Hxj.
    { rewrite EJ. constructor; [simpl; done|]. eapply Forall_impl; [exact HGe|]. intros y Hy. simpl in Hy. unfold HSIZE in *. lia. }
    destruct (joined_ok B x xn (joined b n F2) HJs HJb Hxo Hxj) as (HKs & HKb & HKc & k & G' & EK & Hk & HG' & HGe').
    pose proof (joined_length b n F2). pose proof (joined_length x xn (joined b n F2)).
    exists s', (F1 ++ joined x xn (joined b n F2)). split; [done|]. split; [done|].
    split; [|split; [|split; [|split]]]; [| | | |rewrite !length_app; cbn [length]; lia].
    + constructor; [done| | |by apply Forall_app].
      * rewrite Ef, EK, fmap_app. apply elem_of_cons. right. apply elem_of_app. right. by left.
      * apply StronglySorted_app. split; [|done]. rewrite EK. intros u v Hu [->|Hv]%elem_of_cons.
        -- apply (Hg1x u (x, xn)) in Hu; [exact Hu|by left].
        -- apply (Hg1x u (x, xn)) in Hu; [|by left]. rewrite Forall_forall in HGe'. specialize (HGe' v Hv).
           unfold gap, HSIZE in *. simpl in *. lia.
    + intros v. rewrite !covers_app, HKc, HJc, covers_cons. unfold block_end. simpl. tauto.
    + destruct (decide (x + HSIZE * xn = b)) as [Ej|Ej]; rewrite EJ; unfold joined.
      * exists (x, xn + m). rewrite (proj2 (Z.eqb_eq _ _)) by done. split; [apply elem_of_app; right; by left|simpl; lia].
      * exists (b, m). rewrite (proj2 (Z.eqb_neq _ _)) by done. split; [apply elem_of_app; right; right; by left|done].
    + intros a Ha Hn. apply Hh; [done|]. rewrite fmap_app in Hn. intros ->. apply Hn, elem_of_cons. right. apply elem_of_app. right. by left.
Qed.

(** ** First fit *)

Definition last_addr (p : Z) (L : list (Z * Z)) : Z := default p (last L.*1).

Lemma scan_small s nunits p L m prevp f :
  hchain (hdr s) p L m -> Forall (fun x => x.2 < nunits) L -> freep s ∉ L.*1 ->
  malloc_loop (length L + f) nunits prevp p s = malloc_loop f nunits (last_addr prevp L) m s.
Proof.
  revert p prevp; induction L as [|[a n] L IH]; intros p prevp; cbn [hchain length Nat.add]; [by intros ->|].
  intros (-> & nx & E & Hc) [Ha HL]%Forall_cons [Hf HnL]%not_elem_of_cons. cbn [fst snd] in *. cbn [malloc_loop].
  rewrite (bind_ok _ _ _ _ _ (size_of_ok _ _ _ E)). cbn [h_size]. rewrite (proj2 (geb_lt n nunits)) by done. cbv iota.
  rewrite (bind_ok (gets freep) _ s (freep s) s eq_refl). rewrite (proj2 (Z.eqb_neq a (freep s))) by done. cbv iota.
  rewrite (bind_ok (mret a) _ s a s eq_refl). cbn [andb]. cbv iota.
  rewrite (bind_ok _ _ _ _ _ (ptr_of_ok _ _ _ E)). cbn [h_ptr]. rewrite IH by done. f_equal.
  unfold last_addr. rewrite fmap_cons, last_cons. by destruct (last L.*1).
Qed.

(** The ring, read from the node after [freep]. *)
Lemma ring_from s F B :
  free_list B F s -> exists L1 fn L2 p, (base, 0) :: F = L1 ++ (freep s, fn) :: L2 /\
    hdr s !! freep s = Some (mkHeader p fn) /\ hchain (hdr s) p (L2 ++ L1 ++ [(freep s, fn)]) p /\
    freep s ∉ L1.*1 /\ freep s ∉ L2.*1.
Proof.
  intros [Hr Hf Hg Hb]. pose proof (sorted_nodup _ (ring_sorted B F Hg Hb)) as Hn.
  change (base :: F.*1) with ((base, 0) :: F).*1 in Hf.
  apply list_elem_of_fmap in Hf as ([f fn] & Ef & Hf). apply list_elem_of_split in Hf as (L1 & L2 & E).
  rewrite E in Hr, Hn |- *. simpl in Ef. subst f. exists L1, fn, L2.
  apply hchain_app in Hr as (m & H1 & -> & p & Ep & H2). exists p. split; [done|]. split; [done|]. split.
  - apply hchain_app. exists base. split; [done|]. apply hchain_app. exists (freep s). split; [done|]. simpl. by eauto.
  - rewrite fmap_app in Hn. cbn [fmap list_fmap fst] in Hn. apply NoDup_app in Hn as (_ & Hd & Hn).
    apply NoDup_cons in Hn as [Hn _]. split; [|done]. intros Hin. apply (Hd _ Hin). by left.
Qed.

Lemma first_big nunits (R : list (Z * Z)) :
  Forall (fun x => x.2 < nunits) R \/ exists S x T, R = S ++ x :: T /\ Forall (fun x => x.2 < nunits) S /\ nunits <= x.2.
Proof.
  induction R as [|x R IH]; [left; constructor|]. destruct (decide (nunits <= x.2)) as [Hx|Hx].
  - right. exists [], x, R. split; [done|]. split; [constructor|done].
  - destruct IH as [HR|(S & y & T & -> & HS & Hy)]; [left; constructor; [lia|done]|].
    right. exists (x :: S), y, T. split; [done|]. split; [constructor; [lia|done]|done].
Qed.

Lemma carve_reached s nunits prevp x xn f nx :
  hdr s !! x = Some (mkHeader nx xn) -> nunits <= xn ->
  malloc_loop (S f) nunits prevp x s = carve nunits prevp x xn s.
Proof.
  intros E Hn. cbn [malloc_loop]. rewrite (bind_ok _ _ _ _ _ (size_of_ok _ _ _ E)). cbn [h_size].
  by rewrite (proj2 (geb_le xn nunits)).
Qed.

Lemma last_addr_snoc p L x : last_addr p (L ++ [x]) = x.1.
Proof. unfold last_addr. rewrite fmap_app. change ([x].*1) with [x.1]. by rewrite last_snoc. Qed.

(** A block that is large enough is found, and [prevp] is the node before it. *)
Lemma malloc_fit s F B nunits p fn fuel :
  free_list B F s -> 1 <= nunits -> (exists y, y ∈ F /\ nunits <= y.2) -> hdr s !! freep s = Some (mkHeader p fn) ->
  (length F < fuel)%nat ->
  exists M1 y x xn M2, (base, 0) :: F = M1 ++ y :: (x, xn) :: M2 /\ nunits <= xn /\
    malloc_loop (S fuel) nunits (freep s) p s = carve nunits y.1 x xn s.
Proof.
  intros Hfl Hnu (big & Hbig & Hbn) Ep Hfuel.
  destruct (ring_from s F B Hfl) as (L1 & fn0 & L2 & p0 & EL & Ep' & Hc & Hf1 & Hf2).
  rewrite Ep in Ep'. injection Ep' as <- <-.
  assert (length F = length L1 + length L2)%nat as Hlen.
  { apply (f_equal length) in EL. rewrite length_app in EL. simpl in EL. lia. }
  set (f := freep s) in *.
  destruct (first_big nunits L2) as [HL2|(S & [x xn] & T & EL2 & HS & Hx)].
  - destruct (first_big nunits (L1 ++ [(f, fn)])) as [HL1|(S & [x xn] & T & EL1 & HS & Hx)].
    { exfalso. assert (big ∈ (base, 0) :: F) as Hin by (by right). rewrite EL in Hin.
      apply Forall_app in HL1 as [HL1 [Hfn _]%Forall_cons]. rewrite Forall_forall in HL1, HL2. simpl in Hfn.
      apply elem_of_app in Hin as [Hin|[->|Hin]%elem_of_cons]; [specialize (HL1 _ Hin)|simpl in Hbn|specialize (HL2 _ Hin)]; lia. }
    simpl in Hx. destruct S as [|y S _] using rev_ind.
    { exfalso. destruct L1 as [|z L1]; simpl in EL, EL1; simplify_eq/=; lia. }
    exists S, y, x, xn, (T ++ L2). split; [|split; [done|]].
    { rewrite EL, (cons_middle (f, fn)), app_assoc, EL1, <- !app_assoc. done. }
    rewrite EL1 in Hc. apply hchain_app in Hc as (m & HcL2 & Hc). rewrite <- app_assoc in Hc. pose proof Hc as Hc'.
    rewrite app_assoc in Hc. apply hchain_app in Hc as (m' & HcS & Hcx). destruct Hcx as (-> & nx & Ex & _).
    assert (length (S ++ [y]) <= length L1)%nat as Hl.
    { apply (f_equal length) in EL1. rewrite !length_app in *. simpl in *. lia. }
    replace (Datatypes.S fuel) with (length L2 + (length (S ++ [y]) + Datatypes.S (fuel - length L2 - length (S ++ [y]))))%nat by lia.
    rewrite (scan_small s nunits p L2 m) by done.
    rewrite (scan_small s nunits m (S ++ [y]) x); [|done|done|].
    + rewrite last_addr_snoc. by eapply carve_reached.
    + intros Hin. apply Hf1. assert (S ++ [y] = take (length (S ++ [y])) L1) as Et.
      { apply (f_equal (take (length (S ++ [y])))) in EL1. rewrite take_app_length in EL1.
        rewrite take_app_le in EL1 by done. done. }
      rewrite Et in Hin. apply list_elem_of_fmap in Hin as (z & Ez & Hin). unfold f. rewrite Ez. apply list_elem_of_fmap_2.
      rewrite <- (take_drop (length (S ++ [y])) L1). apply elem_of_app. by left.
  - simpl in Hx. assert (exists M1 y, L1 ++ (f, fn) :: S = M1 ++ [y] /\ y.1 = last_addr f S) as (M1 & y & EM & Ey).
    { destruct S as [|y S _] using rev_ind.
      - exists L1, (f, fn). done.
      - exists (L1 ++ (f, fn) :: S), y. rewrite <- app_assoc. split; [done|]. by rewrite last_addr_snoc. }
    exists M1, y, x, xn, T. split; [|split; [done|]].
    { rewrite EL, EL2. change (L1 ++ (f, fn) :: S ++ (x, xn) :: T) with (L1 ++ ((f, fn) :: S) ++ (x, xn) :: T).
      rewrite app_assoc, EM, <- app_assoc. done. }
    rewrite EL2, <- app_assoc in Hc. apply hchain_app in Hc as (m & HcS & Hcx). destruct Hcx as (-> & nx & Ex & _).
    rewrite EL2, length_app in Hlen. simpl in Hlen.
    replace (Datatypes.S fuel) with (length S + Datatypes.S (fuel - length S))%nat by lia.
    rewrite (scan_small s nunits p S x); [rewrite Ey; by eapply carve_reached|done|done|].
    intros Hin. apply Hf2. rewrite EL2, fmap_app. apply elem_of_app. by left.
Qed.

(** Without such a block the scan comes back to [freep] and asks for memory. *)
Lemma malloc_nofit s F B nunits p fn fuel :
  free_list B F s -> 1 <= nunits -> Forall (fun y => y.2 < nunits) F -> hdr s !! freep s = Some (mkHeader p fn) ->
  malloc_loop (length F + S fuel) nunits (freep s) p s =
  (r ← morecore nunits; if r =? 0 then mret 0 else nx ← ptr_of r; malloc_loop fuel nunits r nx) s.
Proof.
  intros Hfl Hnu HF Ep. destruct (ring_from s F B Hfl) as (L1 & fn0 & L2 & p0 & EL & Ep' & Hc & Hf1 & Hf2).
  rewrite Ep in Ep'. injection Ep' as <- <-.
  assert (Forall (fun y : Z * Z => y.2 < nunits) (L1 ++ (freep s, fn) :: L2)) as Hsm by (rewrite <- EL; constructor; [simpl; lia|done]).
  apply Forall_app in Hsm as [Hs1 [Hsf Hs2]%Forall_cons]. simpl in Hsf.
  apply (f_equal length) in EL. rewrite length_app in EL. simpl in EL.
  replace (length F + S fuel)%nat with (length (L2 ++ L1) + S fuel)%nat by (rewrite length_app; lia).
  rewrite app_assoc in Hc. apply hchain_app in Hc as (m & Hc & -> & _).
  rewrite (scan_small s nunits p (L2 ++ L1) (freep s)); [|done|by apply Forall_app|rewrite fmap_app; intros [?|?]%elem_of_app; auto].
  cbn [malloc_loop]. rewrite (bind_ok _ _ _ _ _ (size_of_ok _ _ _ Ep)). cbn [h_size]. rewrite (proj2 (geb_lt fn nunits)) by done. cbv iota.
  rewrite (bind_ok (gets freep) _ s (freep s) s eq_refl). by rewrite Z.eqb_refl.
Qed.

(** ** Taking a block *)

Lemma ring_tail F M1 y x M2 :
  (base, 0) :: F = M1 ++ y :: x :: M2 -> exists F1, M1 ++ [y] = (base, 0) :: F1 /\ F = F1 ++ x :: M2.
Proof.
  destruct M1 as [|z M1]; simpl; intros [= <- ->].
  - by exists [].
  - exists (M1 ++ [y]). split; [done|]. by rewrite <- app_assoc.
Qed.

Lemma disj_around B F1 x M2 :
  StronglySorted gap (F1 ++ x :: M2) -> Forall (blk_ok B) (F1 ++ x :: M2) ->
  Forall (fun y => block_end y < x.1) F1 /\ Forall (fun y => block_end x < y.1) M2.
Proof.
  intros (Hg & _ & Hs)%StronglySorted_app _. apply StronglySorted_inv in Hs as [_ Hs]. split; [|done].
  apply Forall_forall. intros y Hy. apply (Hg y x Hy). by left.
Qed.

Lemma carve_exact s F B M1 y x nunits M2 :
  free_list B F s -> (base, 0) :: F = M1 ++ y :: (x, nunits) :: M2 -> B < 2 ^ 62 ->
  exists s' F1, carve nunits y.1 x nunits s = Ok (padd x 1, s') /\ kern s' = kern s /\ F = F1 ++ (x, nunits) :: M2 /\
    free_list B (F1 ++ M2) s' /\ hdr s' !! x = hdr s !! x /\ (forall a, a ∉ base :: F.*1 -> hdr s' !! a = hdr s !! a).
Proof.
  intros [Hr Hf Hg Hb] EF HB. destruct (ring_tail F M1 y (x, nunits) M2 EF) as (F1 & E1 & E2).
  pose proof (sorted_nodup _ (ring_sorted B F Hg Hb)) as Hn. rewrite EF in Hr, Hn. destruct y as [y yn].
  apply hchain_app in Hr as (m & Hc1 & -> & nx & Ey & -> & nx' & Ex & Hc2).
  rewrite fmap_app in Hn. cbn [fmap list_fmap fst] in Hn. apply NoDup_app in Hn as (_ & Hd & Hn).
  apply NoDup_cons in Hn as [Hny Hn]. apply not_elem_of_cons in Hny as [Hyx Hny].
  eexists _, F1. split; [|split; [|split; [exact E2|split; [|split]]]].
  - unfold carve. rewrite Z.eqb_refl. cbv iota. rewrite bind_bind. cbn [fst].
    rewrite (bind_ok _ _ _ _ _ (ptr_of_ok _ _ _ Ex)), bind_bind, (bind_ok _ _ _ _ _ (put_ptr_ok _ _ _ _ Ey)).
    rewrite (bind_ok (mret x) _ _ x _ eq_refl), (bind_ok _ _ _ _ _ eq_refl). reflexivity.
  - done.
  - assert ((base, 0) :: F1 ++ M2 = M1 ++ (y, yn) :: M2) as ER.
    { change ((base, 0) :: F1 ++ M2) with (((base, 0) :: F1) ++ M2). rewrite <- E1, <- app_assoc. done. }
    constructor.
    + cbn [hdr with_freep with_hdr h_ptr h_size]. rewrite ER. apply hchain_app. exists y. split.
      * apply hchain_insert; [|done]. intros Hin. apply (Hd y Hin). by left.
      * simpl. split; [done|]. exists nx'. rewrite lookup_insert_eq. split; [done|]. by apply hchain_insert.
    + cbn [freep with_freep]. change (base :: (F1 ++ M2).*1) with (((base, 0) :: F1 ++ M2).*1). rewrite ER, fmap_app.
      apply elem_of_app. right. by left.
    + rewrite E2 in Hg. apply StronglySorted_app in Hg as (Hg & Hg1 & Hg2). apply StronglySorted_inv in Hg2 as [Hg2 _].
      apply StronglySorted_app. split; [|done]. intros u v Hu Hv. apply Hg; [done|by right].
    + rewrite E2 in Hb. apply Forall_app in Hb as [Hb1 [_ Hb2]%Forall_cons]. by apply Forall_app.
  - simpl. by rewrite lookup_insert_ne.
  - intros a Ha. simpl. rewrite lookup_insert_ne; [done|]. intros <-. apply Ha.
    change (base :: F.*1) with ((base, 0) :: F).*1. rewrite EF, fmap_app. apply elem_of_app. right. by left.
Qed.

Lemma carve_split s F B M1 y x xn nunits M2 :
  free_list B F s -> (base, 0) :: F = M1 ++ y :: (x, xn) :: M2 -> 1 <= nunits < xn -> B < 2 ^ 62 ->
  exists s' F1 q, carve nunits y.1 x xn s = Ok (padd (x + HSIZE * (xn - nunits)) 1, s') /\ kern s' = kern s /\
    F = F1 ++ (x, xn) :: M2 /\ free_list B (F1 ++ (x, xn - nunits) :: M2) s' /\
    hdr s' !! (x + HSIZE * (xn - nunits)) = Some (mkHeader q nunits) /\
    (forall a, a <> x + HSIZE * (xn - nunits) -> a ∉ base :: F.*1 -> hdr s' !! a = hdr s !! a).
Proof.
  intros [Hr Hf Hg Hb] EF Hn HB. destruct (ring_tail F M1 y (x, xn) M2 EF) as (F1 & E1 & E2).
  set (t := x + HSIZE * (xn - nunits)).
  pose proof Hg as Hg0. pose proof Hb as Hb0. rewrite E2 in Hg0, Hb0. destruct (disj_around B _ _ _ Hg0 Hb0) as [Hlo Hhi].
  apply Forall_app in Hb0 as [Hb1 [Hbx Hb2]%Forall_cons]. pose proof Hbx as (Hx1 & _ & Hx3). unfold block_end in Hx3. simpl in Hx1, Hx3.
  assert (t ∉ base :: F.*1) as Ht.
  { rewrite E2, fmap_app. cbn [fmap list_fmap fst]. intros [Ht|[Ht|[Ht|Ht]%elem_of_cons]%elem_of_app]%elem_of_cons.
    - unfold t, HSIZE in *. lia.
    - apply list_elem_of_fmap in Ht as (u & Eu & Hu). rewrite Forall_forall in Hlo, Hb1. specialize (Hlo u Hu). specialize (Hb1 u Hu).
      unfold blk_ok, block_end, t, HSIZE in *. simpl in *. lia.
    - unfold t, HSIZE in *. lia.
    - apply list_elem_of_fmap in Ht as (u & Eu & Hu). rewrite Forall_forall in Hhi. specialize (Hhi u Hu).
      unfold block_end, t, HSIZE in *. simpl in *. lia. }
  assert ((base, 0) :: F = ((base, 0) :: F1) ++ (x, xn) :: M2) as EF' by (by rewrite E2).
  pose proof (sorted_nodup _ (ring_sorted B F Hg Hb)) as Hnd. rewrite EF' in Hr, Hnd. destruct y as [y yn].
  apply hchain_app in Hr as (m & Hc1 & -> & nx & Ex & Hc2). rewrite fmap_app in Hnd. cbn [fmap list_fmap fst] in Hnd.
  apply NoDup_app in Hnd as (_ & Hd & Hnd). apply NoDup_cons in Hnd as [Hnx _].
  assert (x <> t) as Hxt by (unfold t, HSIZE in *; lia).
  change (base :: F.*1) with ((base, 0) :: F).*1 in Ht. rewrite EF', fmap_app in Ht. apply not_elem_of_app in Ht as [Ht1 [_ Ht2]%not_elem_of_cons].
  eexists _, F1, _. split; [|split; [|split; [exact E2|split; [|split]]]].
  - unfold carve. rewrite (proj2 (Z.eqb_neq xn nunits)) by lia. cbv iota. rewrite u64_small by (unfold HSIZE in *; lia).
    rewrite bind_bind, (bind_ok _ _ _ _ _ (put_size_ok _ _ _ _ Ex)). cbv zeta. rewrite padd_small by (unfold HSIZE in *; lia). fold t.
    rewrite bind_bind, (bind_ok _ _ _ _ _ eq_refl), (bind_ok (mret t) _ _ t _ eq_refl), (bind_ok _ _ _ _ _ eq_refl). reflexivity.
  - done.
  - constructor.
    + cbn [hdr with_freep with_hdr h_ptr]. change ((base, 0) :: F1 ++ (x, xn - nunits) :: M2) with (((base, 0) :: F1) ++ (x, xn - nunits) :: M2).
      apply hchain_insert; [by rewrite fmap_app; apply not_elem_of_app; split; [|apply not_elem_of_cons]|].
      apply hchain_app. exists x. split; [apply hchain_insert; [|done]; intros Hin; apply (Hd x Hin); by left|].
      simpl. split; [done|]. exists nx. rewrite lookup_insert_eq. split; [done|]. by apply hchain_insert.
    + cbn [freep with_freep]. change (base :: (F1 ++ (x, xn - nunits) :: M2).*1) with ((((base, 0) :: F1) ++ (x, xn - nunits) :: M2).*1).
      rewrite <- E1, !fmap_app. apply elem_of_app. left. apply elem_of_app. right. by left.
    + rewrite E2 in Hg. apply StronglySorted_app in Hg as (Hg & Hg1 & Hg2). apply StronglySorted_inv in Hg2 as [Hg2 Hgx].
      apply StronglySorted_app. split; [|split; [done|]].
      * intros u v Hu [->|Hv]%elem_of_cons; [|apply Hg; [done|by right]]. apply (Hg u (x, xn) Hu). by left.
      * constructor; [done|]. eapply Forall_impl; [exact Hgx|]. intros u Hu. unfold gap, block_end, HSIZE in *. simpl in *. lia.
    + apply Forall_app. split; [done|]. constructor; [|done]. unfold blk_ok, block_end, HSIZE in *. simpl. lia.
  - simpl. by rewrite lookup_insert_eq.
  - intros a Ha Hna. simpl. rewrite !lookup_insert_ne; [done| |done]. intros <-. apply Hna.
    change (base :: F.*1) with ((base, 0) :: F).*1. rewrite EF', fmap_app. apply elem_of_app. right. by left.
Qed.

(** ** The heap *)

(** [F]: the free blocks; [A]: the blocks handed out, by address. *)
Record heap_inv (F : list (Z * Z)) (A : gmap Z Z) (s : heap) : Prop := {
  hi_free : free_list (the_brk (kern s)) F s;
  hi_brk : brk_ok (kern s) /\ base + HSIZE <= the_brk (kern s);
  hi_alloc a n : A !! a = Some n ->
    blk_ok (the_brk (kern s)) (a, n) /\ (exists q, hdr s !! a = Some (mkHeader q n)) /\ Forall (disj (a, n)) F;
  hi_disj a n b m : A !! a = Some n -> A !! b = Some m -> a <> b -> disj (a, n) (b, m)
}.

Definition inside (a n v : Z) : Prop := a <= v < a + HSIZE * n.

Lemma disj_covers a n F v : Forall (disj (a, n)) F -> covers F v -> ~ inside a n v.
Proof.
  rewrite Forall_forall. intros Hd (y & Hy & Hv) Hi. specialize (Hd y Hy). unfold disj, inside, block_end in *. simpl in Hd. lia.
Qed.
Lemma covers_disj B a n F :
  Forall (blk_ok B) F -> 1 <= n -> (forall v, covers F v -> ~ inside a n v) -> Forall (disj (a, n)) F.
Proof.
  rewrite !Forall_forall. intros HF Hn Hc y Hy. destruct (HF y Hy) as (_ & Hy2 & _).
  destruct (decide (disj (a, n) y)) as [|Hnd]; [done|]. exfalso.
  apply (Hc (Z.max a y.1)); [exists y; split; [done|]|]; unfold disj, inside, block_end, HSIZE in *; simpl in *; lia.
Qed.

Lemma alloc_not_free F A s a n : heap_inv F A s -> A !! a = Some n -> a ∉ base :: F.*1.
Proof.
  intros Hi Ha. destruct (hi_alloc _ _ _ Hi a n Ha) as ((H1 & H2 & _) & _ & Hd). simpl in *.
  intros [->|(y & -> & Hy)%list_elem_of_fmap]%elem_of_cons; [unfold HSIZE in *; lia|].
  pose proof (fl_blocks _ _ _ (hi_free _ _ _ Hi)) as HF. rewrite Forall_forall in HF, Hd.
  destruct (HF y Hy) as (_ & Hy2 & _). specialize (Hd y Hy). unfold disj, block_end, HSIZE in *. simpl in *. lia.
Qed.

Lemma free_ok s F A a n :
  heap_inv F A s -> A !! a = Some n ->
  exists s' F', free (padd a 1) s = Ok (tt, s') /\ kern s' = kern s /\ heap_inv F' (delete a A) s' /\
    (forall v, covers F' v <-> covers F v \/ inside a n v).
Proof.
  intros Hi Ha. pose proof Hi as [Hfl [Hk Hbb] Hal Hdj]. destruct (Hal a n Ha) as (Hb & (q & Eq) & Hd).
  pose proof (brk_bound _ Hk) as HB.
  destruct (free_core s F _ a q n Hfl Eq Hb Hd ltac:(lia)) as (s' & F' & E & Ek & Hfl' & Hcov & _ & Hh & _).
  exists s', F'. split; [done|]. split; [done|]. split; [|done]. rewrite <- Ek in Hfl', Hk, Hbb, Hal. constructor; [done|done| |].
  - intros c m [Hne Hc]%lookup_delete_Some. destruct (Hal c m Hc) as (Hcb & (q' & Eq') & Hcd).
    split; [done|]. split; [exists q'; rewrite Hh; [done|done|by eapply alloc_not_free]|].
    apply (covers_disj _ _ _ _ (fl_blocks _ _ _ Hfl')); [apply Hcb|]. intros v [Hv|Hv]%Hcov.
    + by apply (disj_covers c m F).
    + specialize (Hdj a n c m Ha Hc Hne). unfold disj, inside, block_end in *. simpl in *. lia.
  - intros c m d k [_ Hc]%lookup_delete_Some [_ Hd']%lookup_delete_Some. by apply Hdj.
Qed.

(** *** Growing *)

Lemma blk_ok_mono B B' x : B <= B' -> blk_ok B x -> blk_ok B' x.
Proof. unfold blk_ok. lia. Qed.
Lemma free_list_mono B B' F s : B <= B' -> free_list B F s -> free_list B' F s.
Proof.
  intros HB [H1 H2 H3 H4]. constructor; [done|done|done|]. eapply Forall_impl; [exact H4|]. intros x. by apply blk_ok_mono.
Qed.

Lemma morecore_ok s F A nu :
  heap_inv F A s -> 1 <= nu < 2 ^ 58 ->
  exists r s', morecore nu s = Ok (r, s') /\
    ((r = 0 /\ heap_inv F A s' /\ hdr s' = hdr s /\ freep s' = freep s) \/
     (exists F', r = freep s' /\ 0 < r /\ heap_inv F' A s' /\ (exists y, y ∈ F' /\ nu <= y.2) /\ (length F' <= S (length F))%nat)).
Proof.
  intros Hi Hnu. pose proof Hi as [Hfl [Hk Hbb] Hal Hdj]. pose proof (brk_bound _ Hk) as HB. unfold morecore. cbv zeta.
  set (n := if nu <? 4096 then 4096 else nu).
  assert (nu <= n < 2 ^ 58) as Hn by (unfold n; destruct (Z.ltb_spec nu 4096); lia).
  rewrite (u64_small (n * HSIZE)) by (unfold HSIZE; lia).
  destruct (sbrk_spec (kern s) (n * HSIZE) Hk) as (r & k' & Es & Hk' & Hcase); [unfold HSIZE; lia|]. set (p := the_brk (kern s)) in *.
  rewrite (bind_ok _ _ s r (with_kern k' s)) by (unfold zoom; by rewrite Es).
  destruct Hcase as [[-> Eb]|[-> Hle]].
  { rewrite Z.eqb_refl. eexists 0, _. split; [done|]. left. split; [done|]. split; [|done].
    constructor; cbn [kern with_kern hdr]; rewrite ?Eb; [by destruct Hfl|done|done|done]. }
  rewrite (proj2 (Z.eqb_neq _ _)) by (unfold u64; rewrite <- (Z.mod_unique_pos (-1) (2 ^ 64) (-1) (2 ^ 64 - 1)); lia). cbv iota.
  pose proof (brk_bound _ Hk') as HB'. set (p' := the_brk k') in *.
  assert (p ∉ base :: F.*1) as Hp.
  { intros [->|(y & Ey & Hy)%list_elem_of_fmap]%elem_of_cons; [unfold HSIZE in *; lia|].
    pose proof (fl_blocks _ _ _ Hfl) as HF. rewrite Forall_forall in HF. specialize (HF y Hy).
    unfold blk_ok, block_end, HSIZE in *. lia. }
  set (q := default 0 (h_ptr <$> hdr s !! p)). set (s1 := with_hdr (<[p := mkHeader q n]> (hdr s)) (with_kern k' s)).
  rewrite (bind_ok (put_size p n) _ (with_kern k' s) tt s1 eq_refl).
  assert (free_list p' F s1) as Hfl1.
  { apply (free_list_mono p p'); [unfold HSIZE in *; lia|]. destruct Hfl as [R1 R2 R3 R4]. constructor; [|done|done|done].
    apply (hchain_insert _ _ ((base, 0) :: F)); [exact Hp|done]. }
  destruct (free_core s1 F p' p q n Hfl1) as (s' & F' & E & Ek & Hfl' & Hcov & Hbig & Hh & Hlen).
  { cbn. by rewrite lookup_insert_eq. } { unfold blk_ok, block_end, HSIZE in *. simpl. lia. }
  { apply Forall_forall. intros y Hy. pose proof (fl_blocks _ _ _ Hfl) as HF. rewrite Forall_forall in HF. specialize (HF y Hy).
    right. by destruct HF as (_ & _ & HF). } { lia. }
  rewrite (bind_ok _ _ _ _ _ E). exists (freep s'), s'. split; [done|]. right. exists F'. split; [done|].
  assert (kern s' = k') as Ek' by exact Ek. split; [|split; [|split; [|done]]].
  - pose proof (fl_freep _ _ _ Hfl') as [->|Hin]%elem_of_cons; [done|].
    pose proof (blocks_above _ _ _ (fl_blocks _ _ _ Hfl') Hin). lia.
  - constructor; rewrite ?Ek'; [done|split; [done|unfold HSIZE in *; lia]| |done].
    intros c m Hc. destruct (Hal c m Hc) as (Hcb & (q' & Eq') & Hcd). split; [eapply blk_ok_mono; [|done]; unfold HSIZE in *; lia|].
    destruct Hcb as (Hc1 & Hc2 & Hc3). unfold block_end in Hc3. simpl in Hc1, Hc2, Hc3. assert (c <> p) by (unfold HSIZE in *; lia). split.
    + exists q'. rewrite Hh by (done || by eapply alloc_not_free). cbn. by rewrite lookup_insert_ne.
    + apply (covers_disj _ _ _ _ (fl_blocks _ _ _ Hfl')); [done|]. intros v [Hv|Hv]%Hcov; [by apply (disj_covers c m F)|].
      unfold inside, HSIZE in *. lia.
  - destruct Hbig as (y & Hy & Hy2). exists y. split; [done|lia].
Qed.

(** *** Allocating *)

(** A block taken out of the free blocks is a new allocated block. *)
Lemma take_block s s' F F' A a n q :
  heap_inv F A s -> kern s' = kern s -> free_list (the_brk (kern s)) F' s' -> hdr s' !! a = Some (mkHeader q n) ->
  (forall c, c <> a -> c ∉ base :: F.*1 -> hdr s' !! c = hdr s !! c) ->
  blk_ok (the_brk (kern s)) (a, n) -> Forall (disj (a, n)) F' ->
  (forall v, covers F' v \/ inside a n v -> covers F v) ->
  heap_inv F' (<[a := n]> A) s' /\ A !! a = None.
Proof.
  intros Hi Ek Hfl' Ea Hh Hb Hd Hcov. pose proof Hi as [Hfl [Hk Hbb] Hal Hdj].
  assert (forall c m, A !! c = Some m -> disj (a, n) (c, m)) as Hsep.
  { intros c m Hc. destruct (Hal c m Hc) as ((_ & Hc2 & _) & _ & Hcd). destruct Hb as (_ & Ha2 & _). simpl in *.
    destruct (decide (disj (a, n) (c, m))) as [|Hnd]; [done|]. exfalso.
    apply (disj_covers c m F (Z.max a c) Hcd); [apply Hcov; right|]; unfold disj, inside, block_end, HSIZE in *; simpl in *; lia. }
  assert (A !! a = None) as Hnone.
  { destruct (A !! a) as [m|] eqn:E; [|done]. exfalso. specialize (Hsep a m E). destruct (Hal a m E) as ((_ & Hm & _) & _).
    destruct Hb as (_ & Hn & _). unfold disj, block_end, HSIZE in *. simpl in *. lia. }
  split; [|done]. constructor; rewrite ?Ek; [done|done| |].
  - intros c m [[<- <-]|[Hne Hc]]%lookup_insert_Some; [by eauto|]. destruct (Hal c m Hc) as (Hcb & (q' & Eq') & Hcd).
    split; [done|]. split; [exists q'; rewrite Hh; [done|done|by eapply alloc_not_free]|].
    apply (covers_disj _ _ _ _ (fl_blocks _ _ _ Hfl')); [apply Hcb|]. intros v Hv. apply (disj_covers c m F v Hcd). apply Hcov. by left.
  - intros c m d k [[<- <-]|[Hne Hc]]%lookup_insert_Some [[<- <-]|[Hne' Hd']]%lookup_insert_Some Hcd; [done|by apply Hsep| |by apply Hdj].
    specialize (Hsep c m Hc). unfold disj in *. tauto.
Qed.

Lemma carve_ok s F A M1 y x xn nunits M2 :
  heap_inv F A s -> (base, 0) :: F = M1 ++ y :: (x, xn) :: M2 -> 1 <= nunits <= xn ->
  exists s' F' a, carve nunits y.1 x xn s = Ok (padd a 1, s') /\ heap_inv F' (<[a := nunits]> A) s' /\ A !! a = None /\
    blk_ok (the_brk (kern s)) (a, nunits).
Proof.
  intros Hi EF Hn. pose proof Hi as [Hfl [Hk Hbb] Hal Hdj]. pose proof (brk_bound _ Hk) as HB.
  pose proof Hfl as [_ _ Hg Hb]. destruct (ring_tail F M1 y (x, xn) M2 EF) as (F1 & _ & E2).
  pose proof Hg as Hg0. pose proof Hb as Hb0. rewrite E2 in Hg0, Hb0. destruct (disj_around _ _ _ _ Hg0 Hb0) as [Hlo Hhi].
  apply Forall_app in Hb0 as [Hb1 [(Hx1 & Hx2 & Hx3) Hb2]%Forall_cons]. unfold block_end in Hx3. simpl in Hx1, Hx2, Hx3.
  assert (forall a k, x <= a -> a + HSIZE * k = x + HSIZE * xn -> Forall (disj (a, k)) F1 /\ Forall (disj (a, k)) M2) as Hd.
  { intros a k H1 H2. split; (eapply Forall_impl; [eassumption|]); intros u Hu; unfold disj, block_end in *; simpl in *; lia. }
  destruct (decide (nunits = xn)) as [->|Hne].
  - destruct (carve_exact s F _ M1 y x xn M2 Hfl EF ltac:(lia)) as (s' & F1' & E & Ek & E2' & Hfl' & Ehx & Hh).
    assert (F1' = F1) as -> by (by simplify_list_eq). exists s', (F1 ++ M2), x. split; [done|].
    destruct (hchain_lookup _ _ _ _ x xn (fl_ring _ _ _ Hfl)) as [q Eq].
    { right. rewrite E2. apply elem_of_app. right. by left. }
    destruct (take_block s s' F (F1 ++ M2) A x xn q Hi Ek Hfl') as [Hi' Hnone].
    + by rewrite Ehx.
    + intros c _ Hc. by apply Hh.
    + done.
    + destruct (Hd x xn) as [D1 D2]; [lia|done|]. by apply Forall_app.
    + intros v. rewrite E2, !covers_app, covers_cons. unfold inside, block_end. simpl. tauto.
    + split; [done|]. split; [done|]. split; [done|]. split; done.
  - set (a := x + HSIZE * (xn - nunits)).
    destruct (carve_split s F _ M1 y x xn nunits M2 Hfl EF ltac:(lia) ltac:(lia)) as (s' & F1' & q & E & Ek & E2' & Hfl' & Eq & Hh).
    assert (F1' = F1) as -> by (by simplify_list_eq). fold a in E, Eq, Hh. exists s', (F1 ++ (x, xn - nunits) :: M2), a. split; [done|].
    assert (blk_ok (the_brk (kern s)) (a, nunits)) as Ha by (unfold blk_ok, block_end, a, HSIZE in *; simpl; lia).
    destruct (take_block s s' F (F1 ++ (x, xn - nunits) :: M2) A a nunits q Hi Ek Hfl' Eq Hh Ha) as [Hi' Hnone].
    + destruct (Hd a nunits) as [D1 D2]; [unfold a, HSIZE; lia|unfold a, HSIZE; lia|]. apply Forall_app. split; [done|].
      constructor; [|done]. right. unfold block_end, a. simpl. lia.
    + intros v. rewrite E2, !covers_app, !covers_cons. unfold inside, block_end, a, HSIZE. simpl.
      intros [[?|[?|?]]|?]; [by left|right; left; lia|by right; right|right; left; lia].
    + done.
Qed.

(** Before the first call the list does not exist. *)
Definition heap_ok (F : list (Z * Z)) (A : gmap Z Z) (s : heap) : Prop :=
  heap_inv F A s \/
  (freep s = 0 /\ F = [] /\ A = ∅ /\ brk_ok (kern s) /\ base + HSIZE <= the_brk (kern s)).

Definition units (nbytes : Z) : Z := (nbytes + HSIZE - 1) / HSIZE + 1.

Lemma malloc_from s F A nunits p fn :
  heap_inv F A s -> 1 <= nunits < 2 ^ 58 -> hdr s !! freep s = Some (mkHeader p fn) ->
  exists r s', malloc_loop (S (2 * (size (hdr s) + 2))) nunits (freep s) p s = Ok (r, s') /\
    ((r = 0 /\ heap_inv F A s' /\ Forall (fun y => y.2 < nunits) F) \/
     (exists a F', r = padd a 1 /\ A !! a = None /\ heap_inv F' (<[a := nunits]> A) s')).
Proof.
  intros Hi Hn Ep. pose proof Hi as [Hfl _ _ _].
  pose proof (hchain_size _ _ _ _ (fl_ring _ _ _ Hfl) (sorted_nodup _ (ring_sorted _ F (fl_gap _ _ _ Hfl) (fl_blocks _ _ _ Hfl)))) as Hsz.
  cbn [length] in Hsz. set (k := (2 * (size (hdr s) + 2))%nat).
  assert (forall t G m p' gn, heap_inv G A t -> (exists y, y ∈ G /\ nunits <= y.2) -> hdr t !! freep t = Some (mkHeader p' gn) ->
    (length G < m)%nat -> exists r s', malloc_loop (S m) nunits (freep t) p' t = Ok (r, s') /\
      exists a F', r = padd a 1 /\ A !! a = None /\ heap_inv F' (<[a := nunits]> A) s') as Hfit.
  { intros t G m p' gn Ht Hbig Et Hm.
    destruct (malloc_fit t G _ nunits p' gn m (hi_free _ _ _ Ht) ltac:(lia) Hbig Et Hm) as (M1 & y & x & xn & M2 & EG & Hxn & E).
    destruct (carve_ok t G A M1 y x xn nunits M2 Ht EG ltac:(lia)) as (s' & F' & a & Ec & Hi' & Hnone & _).
    exists (padd a 1), s'. split; [by rewrite E|]. by exists a, F'. }
  destruct (first_big nunits F) as [Hsm|(S0 & y & T & EF & _ & Hy)].
  - replace (S k) with (length F + S (k - length F))%nat by lia. rewrite (malloc_nofit s F _ nunits p fn) by (done || lia).
    destruct (morecore_ok s F A nunits Hi Hn) as (r & s1 & E1 & [(-> & Hi1 & _)|(F1 & -> & Hpos & Hi1 & Hbig & Hlen)]).
    + rewrite (bind_ok _ _ _ _ _ E1). exists 0, s1. split; [done|]. by left.
    + rewrite (bind_ok _ _ _ _ _ E1). rewrite (proj2 (Z.eqb_neq (freep s1) 0)) by lia. cbv iota.
      destruct (ring_from s1 F1 _ (hi_free _ _ _ Hi1)) as (L1 & gn & L2 & p1 & _ & Ep1 & _).
      rewrite (bind_ok _ _ _ _ _ (ptr_of_ok _ _ _ Ep1)). cbn [h_ptr].
      replace (k - length F)%nat with (S (k - length F - 1)) by lia.
      destruct (Hfit s1 F1 (k - length F - 1)%nat p1 gn Hi1 Hbig Ep1 ltac:(lia)) as (r & s' & E & H). exists r, s'. split; [done|]. by right.
  - destruct (Hfit s F k p fn Hi) as (r & s' & E & H); [|done|lia|].
    + exists y. split; [rewrite EF; apply elem_of_app; right; by left|done].
    + exists r, s'. split; [done|]. by right.
Qed.

Lemma heap_init s F A :
  heap_ok F A s ->
  exists t p fn, (f ← gets freep;
    if f =? 0 then put_ptr base base;; modify (with_freep base);; put_size base 0 else mret tt) s = Ok (tt, t) /\
    heap_inv F A t /\ hdr t !! freep t = Some (mkHeader p fn).
Proof.
  intros [Hi|(Ef & -> & -> & Hk & Hbb)].
  - destruct (ring_from s F _ (hi_free _ _ _ Hi)) as (L1 & fn & L2 & p & _ & Ep & _). exists s, p, fn. split; [|done].
    rewrite (bind_ok (gets freep) _ s (freep s) s eq_refl). rewrite (proj2 (Z.eqb_neq (freep s) 0)); [done|].
    pose proof (fl_freep _ _ _ (hi_free _ _ _ Hi)) as [->|Hin]%elem_of_cons; [lia|].
    pose proof (blocks_above _ _ _ (fl_blocks _ _ _ (hi_free _ _ _ Hi)) Hin). lia.
  - eexists _, base, 0. split; [|split].
    + rewrite (bind_ok (gets freep) _ s (freep s) s eq_refl), Ef. cbv iota beta. reflexivity.
    + constructor; cbn; [|done|by intros a n ?%lookup_empty_Some|by intros a n b m ?%lookup_empty_Some].
      constructor; cbn; [|by left|constructor|constructor]. split; [done|]. exists base. rewrite !lookup_insert_eq. done.
    + cbn. by rewrite !lookup_insert_eq.
Qed.

Lemma units_ok nbytes :
  0 <= nbytes < 2 ^ 61 ->
  u64 (u64 (nbytes + HSIZE - 1) / HSIZE + 1) = units nbytes /\ 1 <= units nbytes < 2 ^ 58 /\ nbytes <= HSIZE * (units nbytes - 1).
Proof.
  intros Hn. unfold units, HSIZE. rewrite (u64_small (nbytes + 16 - 1)) by lia.
  pose proof (Z.div_mod (nbytes + 16 - 1) 16 ltac:(lia)). pose proof (Z.mod_pos_bound (nbytes + 16 - 1) 16 ltac:(lia)).
  rewrite u64_small by lia. lia.
Qed.

(** ** Results *)

(** C13. For sizes below 2^61, blocks handed out by malloc lie inside memory obtained from the kernel, do not
    overlap each other or the free list, and are at least as large as asked for. *)
Theorem malloc_separate (s : heap) (F : list (Z * Z)) (A : gmap Z Z) (nbytes : Z) :
  heap_ok F A s -> 0 <= nbytes < 2 ^ 61 ->
  exists r s', malloc nbytes s = Ok (r, s') /\
    ((r = 0 /\ heap_inv F A s' /\ Forall (fun y => HSIZE * (y.2 - 1) < nbytes) F) \/
     (exists a n F', r = a + HSIZE /\ r + nbytes <= a + HSIZE * n /\ A !! a = None /\ heap_inv F' (<[a := n]> A) s' /\
        forall b m, A !! b = Some m -> a + HSIZE * n <= b \/ b + HSIZE * m <= a)).
Proof.
  intros Hok Hn. destruct (units_ok nbytes Hn) as (Eu & Hu & Hfit).
  destruct (heap_init s F A Hok) as (t & p & fn & Et & Hi & Ep). unfold malloc. cbv zeta. rewrite Eu, <- bind_bind.
  rewrite (bind_ok _ _ _ _ _ Et), (bind_ok (gets freep) _ t (freep t) t eq_refl).
  rewrite (bind_ok _ _ _ _ _ (ptr_of_ok _ _ _ Ep)). cbn [h_ptr]. rewrite (bind_ok (gets (fun s => size (hdr s))) _ t (size (hdr t)) t eq_refl).
  destruct (malloc_from t F A (units nbytes) p fn Hi Hu Ep) as (r & s' & E & [(-> & Hi' & Hs)|(a & F' & -> & Hnone & Hi')]).
  - exists 0, s'. split; [done|]. left. split; [done|]. split; [done|]. eapply Forall_impl; [exact Hs|]. intros y Hy. simpl in Hy.
    unfold units, HSIZE in *. pose proof (Z.div_mod (nbytes + 16 - 1) 16 ltac:(lia)).
    pose proof (Z.mod_pos_bound (nbytes + 16 - 1) 16 ltac:(lia)). lia.
  - exists (padd a 1), s'. split; [done|]. right. exists a, (units nbytes), F'.
    destruct (hi_alloc _ _ _ Hi' a (units nbytes) ltac:(by rewrite lookup_insert_eq)) as ((Ha1 & Ha2 & Ha3) & _).
    pose proof (brk_bound _ (proj1 (hi_brk _ _ _ Hi'))). unfold block_end in Ha3. simpl in Ha1, Ha3.
    rewrite padd_small by (unfold HSIZE in *; lia). split; [unfold HSIZE; lia|]. split; [unfold HSIZE in *; lia|].
    split; [done|]. split; [done|]. intros b m Hb. assert (a <> b) as Hne by (intros ->; congruence).
    apply (hi_disj _ _ _ Hi' a (units nbytes) b m); [by rewrite lookup_insert_eq|by rewrite lookup_insert_ne|done].
Qed.

(** C28. free keeps the free list circular and sorted by address and joins neighbours, so
    that no two free blocks touch. *)
Theorem free_merges (s : heap) (F : list (Z * Z)) (A : gmap Z Z) (a n : Z) :
  heap_inv F A s -> A !! a = Some n ->
  exists s' F', free (a + HSIZE) s = Ok (tt, s') /\ kern s' = kern s /\ heap_inv F' (delete a A) s' /\
    (forall v, covers F' v <-> covers F v \/ inside a n v) /\ StronglySorted gap F'.
Proof.
  intros Hi Ha. destruct (free_ok s F A a n Hi Ha) as (s' & F' & E & Ek & Hi' & Hc).
  destruct (hi_alloc _ _ _ Hi a n Ha) as ((Ha1 & Ha2 & Ha3) & _). pose proof (brk_bound _ (proj1 (hi_brk _ _ _ Hi))).
  unfold block_end in Ha3. simpl in Ha1, Ha3, Ha2. rewrite padd_small, Z.mul_1_r in E by (unfold HSIZE in *; lia).
  exists s', F'. split; [done|]. split; [done|]. split; [done|]. split; [done|]. apply (fl_gap _ _ _ (hi_free _ _ _ Hi')).
Qed.
End Malloc.
Arguments heap _ : clear implicits.

(** ** [sbrk] as the kernel implements it *)

Lemma round_page n : 0 <= n < 2 ^ 63 -> n <= ROUND n PAGE_SIZE < n + PAGE_SIZE.
Proof.
  intros Hn. change (ROUND n PAGE_SIZE) with (ROUNDDOWN (u64 (n + PAGE_SIZE - 1)) (2 ^ 12)).
  rewrite rounddown_pow2, u64_small by (unfold PAGE_SIZE; lia). unfold PAGE_SIZE.
  pose proof (Z.mod_pos_bound (n + 4096 - 1) (2 ^ 12) ltac:(lia)). lia.
Qed.

#[export] Instance kernel_break {D} `{!SwapDevice D} : ProgramBreak (@mmst D).
Proof.
  refine {| sbrk := do_sbrk; the_brk s := brk (cur s); brk_ok s := 0 < brk (cur s) < USER_STACK_END |}.
  - intros s [H1 H2]. split; [done|]. eapply Z.lt_trans; [exact H2|]. by_computation.
  - intros s n [H1 H2] Hn. pose proof (round_page n Hn) as Hr. unfold do_sbrk. cbv zeta.
    rewrite (bind_ok _ _ _ _ _ eq_refl), (u64_small n) by lia. unfold PAGE_SIZE in *.
    assert (USER_STACK_END < 2 ^ 62) as He by by_computation.
    rewrite (u64_small (brk (cur s) + _)) by lia.
    destruct (Z.ltb_spec (brk (cur s) + ROUND n 4096) USER_STACK_END) as [Hlt|Hge].
    + eexists (brk (cur s)), _. split; [reflexivity|]. cbn. split; [lia|]. right. split; [done|lia].
    + eexists (u64 (-1)), s. split; [reflexivity|]. split; [done|]. by left.
Defined.

(** ** Witnesses *)

(** [base] at 0x30000 in the data of the program, the break at 0x40000. *)
Definition fresh_heap : heap (@mmst card) := mkHeap ∅ 0 (with_cur procA raw).
Lemma fresh_heap_ok : heap_ok 0x30000 [] ∅ fresh_heap.
Proof. right. split; [done|]. split; [done|]. split; [done|]. split; by_computation. Qed.

Lemma malloc_separate_witness :
  exists r s', malloc 0x30000 100 fresh_heap = Ok (r, s') /\ r = 0x40000 + HSIZE * (4096 - 8) + HSIZE.
Proof.
  destruct (malloc_separate 0x30000 ltac:(lia) fresh_heap [] ∅ 100 fresh_heap_ok ltac:(lia)) as (r & s' & E & _).
  exists r, s'. split; [exact E|].
  assert (fst <$> (match malloc 0x30000 100 fresh_heap with Ok p => Some p | Err _ => None end) =
    Some (0x40000 + HSIZE * (4096 - 8) + HSIZE)) as Ev by by_computation.
  rewrite E in Ev. by injection Ev.
Defined.

(** The block of the first call, given back. *)
Lemma free_merges_witness :
  exists r s1 s2, malloc 0x30000 100 fresh_heap = Ok (r, s1) /\ free r s1 = Ok (tt, s2) /\
    exists F, heap_inv 0x30000 F ∅ s2.
Proof.
  destruct (malloc_separate 0x30000 ltac:(lia) fresh_heap [] ∅ 100 fresh_heap_ok ltac:(lia)) as (r & s1 & E & H).
  destruct H as [(-> & _)|(a & n & F & -> & _ & _ & Hi & _)].
  - exfalso. assert (fst <$> (match malloc 0x30000 100 fresh_heap with Ok p => Some p | Err _ => None end) <> Some 0) as Ev by by_computation.
    by rewrite E in Ev.
  - destruct (free_merges 0x30000 ltac:(lia) s1 F (<[a := n]> ∅) a n Hi ltac:(by rewrite lookup_insert_eq)) as (s2 & F' & E2 & _ & Hi2 & _).
    exists (a + HSIZE), s1, s2. split; [exact E|]. split; [exact E2|]. exists F'. by rewrite delete_insert_id in Hi2.
Defined.

(** The number of units wraps for sizes close to 2^64: the largest request gets a
    block without a single byte. *)
Lemma malloc_wraps :
  exists r s', malloc 0x30000 (2 ^ 64 - 1) fresh_heap = Ok (r, s') /\ r <> 0 /\
    h_size <$> hdr s' !! (r - HSIZE) = Some 1.
Proof.
  assert (match malloc 0x30000 (2 ^ 64 - 1) fresh_heap with
          | Ok (r, s') => r <> 0 /\ h_size <$> hdr s' !! (r - HSIZE) = Some 1
          | Err _ => False end) as H.
  { vm_compute. split; done. }
  destruct (malloc 0x30000 (2 ^ 64 - 1) fresh_heap) as [[r s']|]; [|done]. by exists r, s'.
Qed.
