(* ===== verification/Printf.v ===== *)
(** * Formatted output of user programs (tiny_libc/printf.c)

    The same interpreter as the kernel's (Printk.v) in an older version: it pads with
    zeros only, a width has to start with [0], a string is not padded, and [mini_itoa]
    divides as a signed number also where it is asked to print an unsigned one. *)
From S2P Require Import Prelude CString Printk.

(** ** Numbers *)

Fixpoint itoa_loop (fuel : nat) (value radix : Z) (uppercase : bool) : res (list Z) :=
  match fuel with
  | O => Err OutOfFuel
  | S fuel' =>
    let digit := Z.rem value radix in
    let c := if digit <? 10 then u8 (c_0 + digit) else u8 ((if uppercase then 65 else 97) + digit - 10) in
    let value := Z.quot value radix in
    if value >? 0 then l ← itoa_loop fuel' value radix uppercase; Ok (c :: l) else Ok [c]
  end.
Definition mini_itoa (value radix : Z) (uppercase unsig : bool) (zero_pad : Z) : res (list Z) :=
  if radix >? 16 then Ok [] else
  let negative := (value <? 0) && negb unsig in
  let value := if negative then i64 (- value) else value in
  ds ← itoa_loop 64 value radix uppercase;
  let l := ds ++ replicate (Z.to_nat zero_pad - length ds) c_0 ++ (if negative then [c_minus] else []) in
  if (length l <? BF_LEN)%nat then
    r ← strrev_loop (S (length l)) (l ++ [0]) 0 (Z.of_nat (length l) - 1);
    Ok (take (length l) r)
  else Err Fault.

(** ** The buffer *)

Definition putc (ch : Z) (b : mini_buff) : mini_buff :=
  if u32 (used_len b + 1) >=? buffer_len b then b else mkBuff (written b ++ [u8 ch]) (buffer_len b).
Definition puts (s : list Z) (len : Z) (b : mini_buff) : mini_buff :=
  let room := buffer_len b - used_len b - 1 in
  let len := if room <? len then u32 room else len in
  mkBuff (written b ++ take (Z.to_nat len) s) (buffer_len b).

(** ** The interpreter *)

(** [zero_pad] is a [char]. *)
Fixpoint parse_width (fmt : list Z) (zero_pad : Z) : Z * Z * list Z :=
  match fmt with
  | [] => (zero_pad, 0, [])
  | ch :: fmt' =>
    if ch =? 0 then (zero_pad, 0, fmt')
    else if is_digit ch then parse_width fmt' (u8 (zero_pad * 10 + ch - c_0))
    else (zero_pad, ch, fmt')
  end.

Definition convert (ch : Z) (longflag : bool) (zero_pad : Z) (va : list arg) (b : mini_buff) : res (list arg * mini_buff) :=
  if ch =? c_l then Ok (va, b)
  else if ch =? c_u then
    '(z, va) ← arg_int va;
    l ← mini_itoa (i64 (if longflag then z else u32 z)) 10 false true zero_pad;
    Ok (va, puts l (Z.of_nat (length l)) b)
  else if ch =? c_d then
    '(z, va) ← arg_int va;
    l ← mini_itoa (i64 (if longflag then z else i32 z)) 10 false false zero_pad;
    Ok (va, puts l (Z.of_nat (length l)) b)
  else if (ch =? c_x) || (ch =? c_X) then
    '(z, va) ← arg_int va;
    l ← mini_itoa (i64 (if longflag then z else u32 z)) 16 (ch =? c_X) true zero_pad;
    Ok (va, puts l (Z.of_nat (length l)) b)
  else if ch =? c_c then
    '(z, va) ← arg_int va; Ok (va, putc z b)
  else if ch =? c_s then
    '(s, va) ← arg_str va;
    len ← strlen s;
    Ok (va, puts s len b)
  else Ok (va, putc ch b).

(** After [%]: zero padding, [l], conversion; [None] is [goto end]. *)
Definition directive (fmt : list Z) (va : list arg) (b : mini_buff) : res (option (list Z * list arg * mini_buff)) :=
  let '(ch, fmt) := next_char fmt in
  let '(zero_pad, ch, fmt) := if ch =? c_0 then parse_width fmt 0 else (0, ch, fmt) in
  let '(longflag, ch, fmt) :=
    if ch =? c_l then let '(c, f) := next_char fmt in (true, c, f) else (false, ch, fmt) in
  if ch =? 0 then Ok None
  else '(va, b) ← convert ch longflag zero_pad va b; Ok (Some (fmt, va, b)).

Fixpoint vsnprintf_loop (fuel : nat) (fmt : list Z) (va : list arg) (b : mini_buff) : res mini_buff :=
  match fuel with
  | O => Err OutOfFuel
  | S fuel' =>
    let '(ch, fmt) := next_char fmt in
    if ch =? 0 then Ok b
    else if u32 (used_len b + 1) >=? buffer_len b then Ok b
    else if negb (ch =? c_percent) then vsnprintf_loop fuel' fmt va (putc ch b)
    else
      r ← directive fmt va b;
      match r with
      | None => Ok b
      | Some (fmt, va, b) => vsnprintf_loop fuel' fmt va b
      end
  end.
Definition mini_vsnprintf (len : Z) (fmt : list Z) (va : list arg) : res (list Z) :=
  b ← vsnprintf_loop (S (length fmt)) fmt va (mkBuff [] len); Ok (written b).

(** The text that goes to [sys_screen_write], and its length. *)
Definition vprintf (fmt : list Z) (va : list arg) : res (list Z * Z) :=
  l ← mini_vsnprintf 256 fmt va; Ok (l, Z.of_nat (length l)).
Definition printf (fmt : list Z) (va : list arg) : res (list Z * Z) := vprintf fmt va.

(** ** Agreement with the kernel's version *)

Lemma putc_same ch b : putc ch b = Printk.putc ch b.
Proof. done. Qed.
Lemma puts_same s len b : puts s len b = Printk.puts (Some s) len b.
Proof. done. Qed.

Lemma itoa_loop_same fuel v radix up unsig :
  1 < radix -> 0 <= v < 2 ^ 63 -> itoa_loop fuel v radix up = Printk.itoa_loop fuel v radix up unsig.
Proof.
  intros Hr. revert v. induction fuel as [|fuel IH]; intros v Hv; [done|]. cbn [itoa_loop Printk.itoa_loop].
  assert (0 <= v / radix < 2 ^ 63) as Hq.
  { split; [apply Z.div_pos; lia|]. apply Z.le_lt_trans with v; [|lia]. apply Z.div_le_upper_bound; nia. }
  rewrite u64_small, Z.rem_mod_nonneg, Z.quot_div_nonneg by lia.
  replace (if unsig then v mod radix else v mod radix) with (v mod radix) by (by destruct unsig).
  replace (if unsig then v / radix else v / radix) with (v / radix) by (by destruct unsig).
  rewrite Z.gtb_ltb, <- IH by done. destruct (Z.ltb_spec 0 (v / radix)), (Z.eqb_spec (v / radix) 0); try done; lia.
Qed.

(** A number the two versions print alike: not a negative one printed as unsigned. *)
Definition printable (unsig : bool) (v : Z) : Prop := if unsig then 0 <= v < 2 ^ 63 else - 2 ^ 63 < v < 2 ^ 63.

Lemma mini_itoa_same v radix up unsig pad :
  1 < radix -> printable unsig v -> mini_itoa v radix up unsig pad = Printk.mini_itoa v radix up unsig pad c_0.
Proof.
  intros Hr Hv. unfold mini_itoa, Printk.mini_itoa. destruct (radix >? 16); [done|].
  rewrite (itoa_loop_same _ _ _ _ unsig); [done|done|].
  unfold printable in Hv. destruct unsig; cbn [negb]; [rewrite andb_false_r; lia|].
  rewrite andb_true_r. destruct (Z.ltb_spec v 0); [rewrite i64_small; lia|lia].
Qed.

(** A format and its arguments that use only what both versions have. *)
Definition common_arg (ch : Z) (longflag : bool) (width : Z) (va : list arg) : bool :=
  if (ch =? c_u) || (ch =? c_x) || (ch =? c_X) then
    match va with AInt z :: _ => negb longflag || ((0 <=? z) && (z <? 2 ^ 63)) | _ => true end
  else if ch =? c_d then match va with AInt z :: _ => negb longflag || ((- 2 ^ 63 <? z) && (z <? 2 ^ 63)) | _ => true end
  else if ch =? c_s then width =? 0 else true.
Definition common_directive (fmt : list Z) (va : list arg) : bool :=
  let '(ch, fmt1) := next_char fmt in
  let '(n, ch', fmt') := if ch =? c_0 then parse_width fmt1 0 else (0, ch, fmt1) in
  (negb (is_digit ch) || ((ch =? c_0) && bool_decide (Printk.parse_width fmt1 0 = (n, ch', fmt')))) &&
  let '(longflag, ch'', _) := if ch' =? c_l then let '(c, f) := next_char fmt' in (true, c, f) else (false, ch', fmt') in
  common_arg ch'' longflag n va.
(** Every directive the interpreter comes to is a common one. *)
Fixpoint common (fuel : nat) (fmt : list Z) (va : list arg) (b : mini_buff) : bool :=
  match fuel with
  | O => true
  | S fuel' =>
    let '(ch, fmt) := next_char fmt in
    if (ch =? 0) || (u32 (used_len b + 1) >=? buffer_len b) then true
    else if negb (ch =? c_percent) then common fuel' fmt va (putc ch b)
    else common_directive fmt va &&
      match directive fmt va b with Ok (Some (fmt, va, b)) => common fuel' fmt va b | _ => true end
  end.

Lemma itoa_pad0 v radix up unsig c : Printk.mini_itoa v radix up unsig 0 c = Printk.mini_itoa v radix up unsig 0 c_0.
Proof. unfold Printk.mini_itoa. destruct (radix >? 16); [done|]. by destruct (Printk.itoa_loop _ _ _ _ _). Qed.

Lemma convert_same ch longflag n cpad va b :
  common_arg ch longflag n va = true -> (cpad = c_0 \/ n = 0) -> convert ch longflag n va b = Printk.convert ch longflag n cpad va b.
Proof.
  intros Hc Hp.
  assert (forall v radix up unsig, 1 < radix -> printable unsig v -> mini_itoa v radix up unsig n = Printk.mini_itoa v radix up unsig n cpad) as Hi.
  { intros. rewrite mini_itoa_same by done. destruct Hp as [-> | ->]; [done|]. by rewrite (itoa_pad0 _ _ _ _ cpad). }
  assert (forall z, - 2 ^ 31 <= i32 z < 2 ^ 31) as Hi32.
  { intros z. unfold i32. pose proof (Z.mod_pos_bound (z + 2 ^ 31) (2 ^ 32) ltac:(lia)). lia. }
  unfold convert, Printk.convert, common_arg in *.
  destruct (ch =? c_l); [done|]. destruct (ch =? c_u); [|destruct (ch =? c_x) eqn:Ex; [|destruct (ch =? c_X) eqn:EX]]; cbn [orb] in *.
  all: try (destruct (ch =? c_d) eqn:Ed; [exfalso; apply Z.eqb_eq in Ed; subst; done|]).
  all: try (destruct va as [|[z|] va]; [done| |done]; cbn [arg_int mbind res_bind];
    rewrite Hi; [done|lia|]; destruct longflag; cbn [negb orb] in Hc;
    [apply andb_true_iff in Hc as [?%Z.leb_le ?%Z.ltb_lt]; rewrite i64_small by lia; cbn; lia
    |pose proof (u32_range z); rewrite i64_small by lia; cbn; lia]).
  destruct (ch =? c_d) eqn:Ed.
  - destruct va as [|[z|] va]; [done| |done]. cbn [arg_int mbind res_bind]. rewrite Hi; [done|lia|].
    destruct longflag; cbn [negb orb] in Hc.
    + apply andb_true_iff in Hc as [?%Z.ltb_lt ?%Z.ltb_lt]. rewrite i64_small by lia. cbn; lia.
    + specialize (Hi32 z). rewrite i64_small by lia. cbn; lia.
  - destruct (ch =? c_c); [done|]. destruct (ch =? c_s); [|done]. apply Z.eqb_eq in Hc as ->.
    destruct va as [|[|s] va]; [done|done|]. cbn [arg_str mbind res_bind].
    destruct (strlen s) as [len|] eqn:El; [|done]. apply strlen_nonneg in El. cbn [mbind res_bind].
    by rewrite (proj2 (Z.ltb_ge len 0)) by lia.
Qed.

Lemma directive_same fmt va b : common_directive fmt va = true -> directive fmt va b = Printk.directive fmt va b.
Proof.
  unfold common_directive, directive, Printk.directive. destruct fmt as [|ch fmt]; [done|]. cbn [next_char].
  destruct (is_digit ch) eqn:Hd; cbn [negb orb].
  - destruct (Z.eqb_spec ch c_0) as [->|]; [|done]. cbn [andb].
    destruct (parse_width fmt 0) as [[n c] f] eqn:E.
    intros [Hw%bool_decide_eq_true Hc]%andb_true_iff.
    cbn [Printk.parse_width]. change (c_0 =? 0) with false. rewrite Hd. cbv iota. change (u32 (0 * 10 + c_0 - c_0)) with 0. rewrite Hw.
    destruct (c =? c_l).
    + destruct (next_char f) as [c' f']. destruct (c' =? 0); [done|]. by rewrite (convert_same _ _ _ c_0) by auto.
    + destruct (c =? 0); [done|]. by rewrite (convert_same _ _ _ c_0) by auto.
  - assert ((ch =? c_0) = false) as ->.
    { apply Z.eqb_neq. intros ->. done. }
    cbn [andb]. intros Hc. destruct (ch =? c_l).
    + destruct (next_char fmt) as [c' f']. destruct (c' =? 0); [done|]. by rewrite (convert_same _ _ _ c_space) by auto.
    + destruct (ch =? 0); [done|]. by rewrite (convert_same _ _ _ c_space) by auto.
Qed.

Lemma loop_same fuel : forall fmt va b, common fuel fmt va b = true -> vsnprintf_loop fuel fmt va b = Printk.vsnprintf_loop fuel fmt va b.
Proof.
  induction fuel as [|fuel IH]; intros fmt va b; [done|]. cbn [common vsnprintf_loop Printk.vsnprintf_loop].
  destruct (next_char fmt) as [ch f]. destruct (ch =? 0); [done|]. cbn [orb].
  destruct (_ >=? _); [done|]. destruct (negb (ch =? c_percent)); [apply IH|].
  intros [Hd Hr]%andb_true_iff. rewrite <- (directive_same _ _ _ Hd).
  destruct (directive f va b) as [[[[f' va'] b']|]|]; [by apply IH|done|done].
Qed.

(** printf of user programs prints what the printk of the kernel prints, for formats
    that use only what both have and unsigned 64-bit arguments below 2^63. *)
Theorem printf_as_printk (fmt : list Z) (va : list arg) :
  common (S (length fmt)) fmt va (mkBuff [] 256) = true ->
  printf fmt va = (l ← vprint fmt va; Ok (l, Z.of_nat (length l))).
Proof.
  intros Hc. unfold printf, vprintf, vprint, mini_vsnprintf, Printk.mini_vsnprintf. by rewrite (loop_same _ _ _ _ Hc).
Qed.

(** "%ld:%s %04x%%" with the arguments -12, "ok" and 171. *)
Lemma printf_as_printk_witness :
  printf [37; 108; 100; 58; 37; 115; 32; 37; 48; 52; 120; 37; 37] [AInt (-12); AStr [111; 107; 0]; AInt 171] =
    Ok ([45; 49; 50; 58; 111; 107; 32; 48; 48; 97; 98; 37], 12).
Proof.
  rewrite (printf_as_printk [37; 108; 100; 58; 37; 115; 32; 37; 48; 52; 120; 37; 37] [AInt (-12); AStr [111; 107; 0]; AInt 171]);
    vm_compute; reflexivity.
Defined.

(** Every other 64-bit number comes out as one character. *)
Lemma printf_high_bit v radix up :
  1 < radix <= 16 -> - 2 ^ 63 <= v < 0 -> exists c, mini_itoa v radix up true 0 = Ok [c].
Proof.
  intros Hr Hv. unfold mini_itoa. rewrite Z.gtb_ltb, (proj2 (Z.ltb_ge _ _)), andb_false_r by lia.
  change 64%nat with (S 63). cbn [itoa_loop].
  assert (Z.quot v radix <= 0) as Hq by (apply Z.quot_le_upper_bound; lia).
  rewrite Z.gtb_ltb, (proj2 (Z.ltb_ge _ _)) by done. eexists. reflexivity.
Qed.
(** 0xffffffffffffffff prints as "/", the character before "0". *)
Lemma printf_lx_wrong :
  printf [37; 108; 120] [AInt (2 ^ 64 - 1)] = Ok ([47], 1) /\ vprint [37; 108; 120] [AInt (2 ^ 64 - 1)] = Ok (replicate 16 102).
Proof. split; vm_compute; reflexivity. Qed.
