(* ===== verification/Ulib.v ===== *)
(** * The rest of the user library (tiny_libc: atoi.c, itoa.c, rand.c, mailbox.c,
      pthread.c, time.c, include/ctype.h)

    A string is the list of the bytes of its object. *)
From Stdlib Require String.
From S2P Require Import Prelude CString FsLayout Printk Syscall.
Import String.StringSyntax.
Delimit Scope string_scope with string.

(** ** Characters (ctype.h) *)

Definition isupper (ch : Z) : bool := (65 <=? ch) && (ch <=? 90).
Definition islower (ch : Z) : bool := (97 <=? ch) && (ch <=? 122).
Definition isalpha (ch : Z) : bool := isupper ch || islower ch.
Definition isdigit (ch : Z) : bool := (48 <=? ch) && (ch <=? 57).
Definition isxdigit (ch : Z) : bool := isdigit ch || ((97 <=? ch) && (ch <=? 102)) || ((65 <=? ch) && (ch <=? 70)).
Definition isalnum (ch : Z) : bool := isalpha ch || isdigit ch.
Definition isspace (ch : Z) : bool :=
  (ch =? 32) || (ch =? 9) || (ch =? 10) || (ch =? 11) || (ch =? 12) || (ch =? 13).

(** ** Numbers from text (atoi.c) *)

Definition char_at (str : list Z) (i : nat) : res Z := of_option Fault (str !! i).

(** The loop over leading blanks does not advance. *)
Fixpoint skip_blanks (fuel : nat) (str : list Z) : res (list Z) :=
  c ← char_at str 0;
  if isspace c then match fuel with O => Err OutOfFuel | S fuel' => skip_blanks fuel' str end else Ok str.

(** [None]: a character that is not a digit, [return 0]. *)
Fixpoint convert_digits (str : list Z) (base ret : Z) : res (option Z) :=
  match str with
  | [] => Err Fault
  | c :: str' =>
    if c =? 0 then Ok (Some ret)
    else if isdigit c then convert_digits str' base (i64 (ret * base + (c - 48)))
    else if base =? 16 then
      if (97 <=? c) && (c <=? 102) then convert_digits str' base (i64 (ret * base + (c - 97 + 10)))
      else if (65 <=? c) && (c <=? 70) then convert_digits str' base (i64 (ret * base + (c - 65 + 10)))
      else Ok None
    else Ok None
  end.

(** [str = None] is NULL. *)
Definition atol (fuel : nat) (str : option (list Z)) : res Z :=
  match str with
  | None => Ok 0
  | Some str =>
    str ← skip_blanks fuel str;
    c ← char_at str 0;
    let sign := if c =? 43 then Some (false, drop 1 str) else if c =? 45 then Some (true, drop 1 str)
                else if isdigit c then Some (false, str) else None in
    match sign with
    | None => Ok 0
    | Some (negative, str) =>
      c0 ← char_at str 0;
      hex ← (if c0 =? 48 then c1 ← char_at str 1; Ok ((c1 =? 120) || (c1 =? 88)) else Ok false);
      let base := if hex : bool then 16 else 10 in
      r ← convert_digits (if hex : bool then drop 2 str else str) base 0;
      Ok (match r with None => 0 | Some ret => if negative : bool then i64 (- ret) else ret end)
    end
  end.
Definition atoi (fuel : nat) (str : option (list Z)) : res Z := v ← atol fuel str; Ok (i32 v).

(** ** Text from numbers (itoa.c) *)

Definition store (str : list Z) (i : Z) (c : Z) : res (list Z) :=
  if (0 <=? i) && (i <? Z.of_nat (length str)) then Ok (<[Z.to_nat i := u8 c]> str) else Err Fault.
(** The do-while loop: the string, the index and what is left of the number. *)
Fixpoint digits_loop (fuel : nat) (sum : Z) (str : list Z) (i len base : Z) : res (list Z * Z * Z) :=
  match fuel with
  | O => Err OutOfFuel
  | S fuel' =>
    let digit := Z.rem sum base in
    str ← store str i (if digit <? 10 then 48 + digit else 65 + digit - 10);
    let sum := Z.quot sum base in
    let i := i + 1 in
    if negb (sum =? 0) && (i <? len - 1) then digits_loop fuel' sum str i len base else Ok (str, i, sum)
  end.
(** The value returned and the string; a 32-bit number has at most 32 digits. *)
Definition itoa (num : Z) (str : list Z) (len base : Z) : res (Z * list Z) :=
  if len =? 0 then Ok (-1, str) else
  '(str, i, sum) ← digits_loop 33 num str 0 len base;
  if (i =? len - 1) && negb (sum =? 0) then Ok (-1, str) else
  str ← store str i 0;
  str ← strrev str;
  Ok (0, str).

(** ** Random numbers (rand.c) *)

Definition srand (seed : Z) : M Z unit := put_st (i32 seed).
Definition rand : M Z Z :=
  x ← get_st;
  let tmp := u64 (0x5deece66d * x + 0xb) in
  put_st (Z.land tmp 0x7fffffff);;
  get_st.

(** ** Messages (mailbox.c) *)

Definition MOD_ADLER : Z := 65521.
Definition adler_step (ab : Z * Z) (c : Z) : Z * Z :=
  let a := u32 (ab.1 + c) mod MOD_ADLER in (a, u32 (ab.2 + a) mod MOD_ADLER).
Definition adler32 (data : list Z) (len : nat) : res Z :=
  if (len <=? length data)%nat then
    let ab := foldl adler_step (1, 0) (take len data) in
    Ok (Z.lor (u32 (Z.shiftl ab.2 16)) ab.1)
  else Err Fault.

Definition alpha : list Z := cstr "abcdefghijklmnopqrstuvwxyzABCDEFGHIJKLMNOPQRSTUVWXYZ0123456789-={};|[],./<>?!@#$%^&*"%string.
Definition alphaSz : Z := Z.of_nat (length alpha).
(** From index [n - 1] down to 0. *)
Fixpoint random_loop (n : nat) (buf : list Z) : M Z (list Z) :=
  match n with
  | O => mret buf
  | S i =>
    r ← rand;
    c ← lift (idx alpha (Z.rem r alphaSz));
    buf ← lift (store buf (Z.of_nat i) c);
    random_loop i buf
  end.
Definition generateRandomString (buf : list Z) (len : Z) : M Z (list Z) :=
  buf ← lift (store buf (len - 1) 0);
  random_loop (Z.to_nat (len - 1)) buf.

(** ** Threads and time (pthread.c, time.c) *)

Section Threads.
Context {K : Type} (run : handler -> list Z -> M K Z).
(** The address of [sys_exit]. *)
Variable sys_exit_addr : Z.

(** The static counter and the machine. *)
Record thread_st := mkThreads { pthread_id : Z; machine : @ust K }.
Definition on_machine {A} (m : M (@ust K) A) : M thread_st A := zoom machine (fun u s => mkThreads (pthread_id s) u) m.

(** The result is what is stored in [*thread]. *)
Definition pthread_create (start_routine arg : Z) : M thread_st Z :=
  modify (fun s => mkThreads (u64 (pthread_id s + 1)) (machine s));;
  thread ← gets (fun s => i32 (pthread_id s));
  on_machine (sys_pthread_create run thread start_routine arg sys_exit_addr);;
  mret thread.
Definition pthread_join (thread : Z) : M thread_st Z := on_machine (sys_pthread_join run thread);; mret 0.
Definition clock : M thread_st Z := t ← on_machine (sys_get_tick run); mret (u64 t).
End Threads.

(** ** Properties *)

Definition decimal (l : list Z) : Prop := Forall (fun c => isdigit c = true) l.
Definition value_from (v : Z) (l : list Z) : Z := foldl (fun v c => v * 10 + (c - 48)) v l.

Lemma isdigit_range c : isdigit c = true -> 48 <= c <= 57.
Proof. unfold isdigit. intros [?%Z.leb_le ?%Z.leb_le]%andb_true_iff. lia. Qed.
Lemma value_from_ge v l : decimal l -> 0 <= v -> v <= value_from v l.
Proof.
  intros Hl. revert v. induction Hl as [|c l Hc%isdigit_range _ IH]; intros v Hv; [done|].
  cbn. etrans; [|apply IH; lia]. lia.
Qed.

Lemma convert_digits_ok l : forall v t, decimal l -> 0 <= v -> value_from v l < 2 ^ 63 ->
  convert_digits (l ++ 0 :: t) 10 v = Ok (Some (value_from v l)).
Proof.
  induction l as [|c l IH]; intros v t Hl Hv Hb; [done|]. inversion Hl as [|?? Hc Hl']; subst.
  pose proof (isdigit_range _ Hc). cbn [app convert_digits]. rewrite (proj2 (Z.eqb_neq c 0)), Hc by lia.
  cbn in Hb. pose proof (value_from_ge (v * 10 + (c - 48)) l Hl' ltac:(lia)) as Hge. unfold value_from in Hge.
  rewrite i64_small by lia. apply IH; [done|lia|done].
Qed.

(** Text of decimal digits reads as its value. *)
Lemma atol_decimal fuel l t :
  decimal l -> l <> [] -> value_from 0 l < 2 ^ 63 -> atol fuel (Some (l ++ 0 :: t)) = Ok (value_from 0 l).
Proof.
  intros Hl Hn Hb. destruct l as [|c l]; [done|]. pose proof Hl as Hl0. inversion Hl as [|?? Hc Hl']; subst. pose proof (isdigit_range _ Hc).
  unfold atol.
  assert (skip_blanks fuel ((c :: l) ++ 0 :: t) = Ok ((c :: l) ++ 0 :: t)) as ->.
  { assert (isspace c = false) as Hs.
    { unfold isspace. rewrite !(proj2 (Z.eqb_neq _ _)) by lia. done. }
    destruct fuel; cbn [skip_blanks app char_at]; cbn; by rewrite Hs. }
  cbn [mbind res_bind char_at app lookup list_lookup of_option]. rewrite !(proj2 (Z.eqb_neq c _)), Hc by lia. cbn [mbind res_bind].
  assert (exists c1 r, l ++ 0 :: t = c1 :: r /\ ((c1 =? 120) || (c1 =? 88)) = false) as (c1 & r & E & Hx).
  { destruct l as [|c1 l]; [by exists 0, t|]. inversion Hl' as [|?? H1%isdigit_range _]; subst.
    exists c1, (l ++ 0 :: t). split; [done|]. rewrite !(proj2 (Z.eqb_neq _ _)) by lia. done. }
  change (char_at (c :: l ++ 0 :: t) 0) with (Ok c). cbn [mbind res_bind].
  assert (char_at (c :: l ++ 0 :: t) 1 = Ok c1) as -> by (unfold char_at; rewrite E; reflexivity).
  replace (if c =? 48 then _ else Ok false) with (Ok false : res bool) by (cbn [mbind res_bind]; rewrite Hx; by destruct (c =? 48)).
  cbn [mbind res_bind]. pose proof (convert_digits_ok (c :: l) 0 t Hl0 ltac:(lia) Hb) as Ec. cbn [app] in Ec. rewrite Ec. done.
Qed.

(** The digits of a number, least significant first. *)
Lemma digits_loop_ok k : forall n pre rest fuel len,
  0 <= n < 10 ^ (Z.of_nat k + 1) -> (k < fuel)%nat -> (k < length rest)%nat -> Z.of_nat (length pre + k + 1) < len ->
  exists ds rest', digits_loop fuel n (pre ++ rest) (Z.of_nat (length pre)) len 10 = Ok (pre ++ ds ++ rest', Z.of_nat (length pre + length ds), 0) /\
    decimal ds /\ ds <> [] /\ (length ds <= k + 1)%nat /\ (length ds + length rest' = length rest)%nat /\ value_from 0 (reverse ds) = n.
Proof.
  induction k as [|k IH]; intros n pre rest fuel len Hn Hf Hr Hl; (destruct fuel as [|fuel]; [lia|]); (destruct rest as [|x rest]; [cbn in Hr; lia|]); cbn [digits_loop].
  all: rewrite Z.rem_mod_nonneg, Z.quot_div_nonneg by lia; pose proof (Z.mod_pos_bound n 10 ltac:(lia)) as Hm; pose proof (Z.div_mod n 10 ltac:(lia)) as Hd.
  all: rewrite (proj2 (Z.ltb_lt (n mod 10) 10)) by lia; unfold store at 1;
    rewrite (proj2 (Z.leb_le 0 _)), (proj2 (Z.ltb_lt (Z.of_nat (length pre)) (Z.of_nat (length (pre ++ x :: rest))))) by (rewrite ?length_app; cbn [length]; lia); cbn [andb mbind res_bind];
    unfold u8; rewrite (Z.mod_small (48 + _)), Nat2Z.id, insert_app_r_alt, Nat.sub_diag by lia; cbn [list_insert insert].
  - assert (n / 10 = 0) as -> by (apply Z.div_small; cbn in Hn; lia). cbn [Z.eqb negb andb].
    exists [48 + n mod 10], rest. split; [do 3 f_equal; cbn [length]; lia|].
    split; [repeat constructor; unfold isdigit; rewrite !(proj2 (Z.leb_le _ _)) by lia; done|].
    split; [done|]. split; [cbn; lia|]. split; [done|]. cbn. rewrite Z.mod_small by (cbn in Hn; lia). lia.
  - destruct (Z.eqb_spec (n / 10) 0) as [E|E]; cbn [negb andb].
    + rewrite E. exists [48 + n mod 10], rest. split; [do 3 f_equal; cbn [length]; lia|].
      split; [repeat constructor; unfold isdigit; rewrite !(proj2 (Z.leb_le _ _)) by lia; done|].
      split; [done|]. split; [cbn; lia|]. split; [done|]. cbn. lia.
    + rewrite (proj2 (Z.ltb_lt _ _)) by lia.
      destruct (IH (n / 10) (pre ++ [48 + n mod 10]) rest fuel len) as (ds & rest' & E' & Hds & Hne & Hle & Hlen & Hv).
      * split; [apply Z.div_pos; lia|]. apply Z.div_lt_upper_bound; [lia|]. rewrite <- Z.pow_succ_r by lia. replace (Z.succ (Z.of_nat k + 1)) with (Z.of_nat (S k) + 1) by lia. lia.
      * lia.
      * cbn in Hr. lia.
      * rewrite length_app. cbn [length]. lia.
      * exists ((48 + n mod 10) :: ds), rest'. rewrite length_app in E'. cbn [length] in E'. rewrite <- !(assoc_L (++)) in E'. cbn [app] in E'.
        split; [replace (Z.of_nat (length pre) + 1) with (Z.of_nat (length pre + 1)) by lia; rewrite E'; do 3 f_equal; cbn [length]; lia|].
        split; [constructor; [unfold isdigit; rewrite !(proj2 (Z.leb_le _ _)) by lia; done|done]|].
        split; [done|]. split; [cbn; lia|]. split; [cbn in *; lia|].
        rewrite reverse_cons. unfold value_from in *. rewrite foldl_app, Hv. cbn. lia.
Qed.

(** [itoa] in base 10 and [atoi] are inverse on the numbers that are not negative, with
    room for ten digits and the terminator. *)
Theorem itoa_atoi n buf len fuel :
  0 <= n < 2 ^ 31 -> 11 <= len <= Z.of_nat (length buf) ->
  exists buf', itoa n buf len 10 = Ok (0, buf') /\ length buf' = length buf /\ atoi fuel (Some buf') = Ok n.
Proof.
  intros Hn Hl. destruct (digits_loop_ok 9 n [] buf 33 len) as (ds & rest & E & Hds & Hne & Hle & Hlen & Hv);
    [cbn in *; lia|lia|lia|cbn; lia|].
  cbn [app length Nat.add] in E. change (Z.of_nat 0) with 0 in E. destruct rest as [|x rest]; [cbn in Hlen; lia|].
  assert (0 ∉ ds) as Hz.
  { intros Hin. eapply Forall_forall in Hds; [|done]. apply isdigit_range in Hds; lia. }
  exists (reverse ds ++ 0 :: rest). split; [|split].
  - unfold itoa. rewrite (proj2 (Z.eqb_neq len 0)) by lia. rewrite E. cbn [mbind res_bind]. rewrite andb_false_r.
    unfold store. rewrite (proj2 (Z.leb_le 0 _)), (proj2 (Z.ltb_lt _ _)) by (rewrite ?length_app; cbn [length]; lia). cbn [andb mbind res_bind].
    rewrite Nat2Z.id, insert_app_r_alt, Nat.sub_diag by lia. cbn [insert list_insert]. by rewrite strrev_ok.
  - rewrite length_app, length_reverse. cbn [length] in *. lia.
  - unfold atoi. rewrite atol_decimal; [cbn [mbind res_bind]; rewrite Hv, i32_small by lia; done| | |rewrite Hv; lia].
    + unfold decimal in *. by rewrite Forall_reverse.
    + intros E0. apply Hne. by apply (f_equal reverse) in E0; rewrite reverse_involutive in E0.
Qed.

Lemma itoa_atoi_witness :
  exists buf', itoa 2147483647 (replicate 16 0) 16 10 = Ok (0, buf') /\ length buf' = 16%nat /\ atoi 0 (Some buf') = Ok 2147483647.
Proof. apply (itoa_atoi 2147483647 (replicate 16 0) 16 0); [lia|]. rewrite length_replicate. lia. Defined.

(** A leading blank: [atol] never returns. *)
Lemma atol_blank fuel c str : isspace c = true -> atol fuel (Some (c :: str)) = Err OutOfFuel.
Proof.
  intros Hc. unfold atol. assert (skip_blanks fuel (c :: str) = Err OutOfFuel) as ->; [|done].
  induction fuel as [|fuel IH]; cbn [skip_blanks char_at]; cbn; rewrite Hc; [done|apply IH].
Qed.
(** A negative number has neither sign nor digits. *)
Lemma itoa_negative : itoa (-12) (replicate 8 0) 8 10 = Ok (0, [47; 46; 0; 0; 0; 0; 0; 0]).
Proof. vm_compute. reflexivity. Qed.
(** With a buffer of one byte the terminator is written behind it. *)
Lemma itoa_one_byte : itoa 5 [0] 1 10 = Err Fault.
Proof. reflexivity. Qed.

(** *** The checksum *)

Definition is_char (c : Z) : Prop := 0 <= c < 256.

Lemma adler_step_ok a b c : 0 <= a < MOD_ADLER -> 0 <= b < MOD_ADLER -> is_char c ->
  adler_step (a, b) c = ((a + c) mod MOD_ADLER, (b + (a + c) mod MOD_ADLER) mod MOD_ADLER).
Proof.
  intros Ha Hb Hc. unfold adler_step, is_char, MOD_ADLER in *. cbn [fst snd].
  pose proof (Z.mod_pos_bound (a + c) 65521 ltac:(lia)). rewrite (u32_small (a + c)) by lia. rewrite u32_small by lia. done.
Qed.

(** The low part is the sum of the bytes; both parts stay below [MOD_ADLER]. *)
Lemma adler_fold l : forall a b, Forall is_char l -> 0 <= a < MOD_ADLER -> 0 <= b < MOD_ADLER ->
  let ab := foldl adler_step (a, b) l in
  ab.1 = (a + foldr Z.add 0 l) mod MOD_ADLER /\ 0 <= ab.2 < MOD_ADLER.
Proof.
  induction l as [|c l IH]; intros a b Hl Ha Hb; cbn [foldl foldr].
  - rewrite Z.add_0_r, Z.mod_small by done. done.
  - inversion Hl; subst. rewrite adler_step_ok by done.
    pose proof (Z.mod_pos_bound (a + c) MOD_ADLER ltac:(done)).
    destruct (IH ((a + c) mod MOD_ADLER) ((b + (a + c) mod MOD_ADLER) mod MOD_ADLER)) as [E Hr]; [done|done|by apply Z.mod_pos_bound|].
    split; [|done]. rewrite E, Zplus_mod_idemp_l. f_equal. lia.
Qed.

Lemma adler_parts a b : 0 <= a < MOD_ADLER -> 0 <= b < MOD_ADLER -> Z.lor (u32 (Z.shiftl b 16)) a mod 2 ^ 16 = a.
Proof.
  intros Ha Hb. unfold MOD_ADLER in *. rewrite Z.shiftl_mul_pow2, u32_small by lia.
  rewrite <- Z.land_ones, Z.land_lor_distr_l, !Z.land_ones, Z.mod_mul by lia.
  rewrite (Z.mod_small a) by lia. apply Z.lor_0_l.
Qed.

Lemma sum_app l k : foldr Z.add 0 (l ++ k) = foldr Z.add 0 l + foldr Z.add 0 k.
Proof. induction l as [|c l IH]; cbn; [done|]. rewrite IH. lia. Qed.

(** A message in which one byte was changed has another checksum. *)
Theorem adler32_detects l x y r :
  Forall is_char (l ++ x :: r) -> Forall is_char (l ++ y :: r) -> x <> y ->
  exists v w, adler32 (l ++ x :: r) (length (l ++ x :: r)) = Ok v /\ adler32 (l ++ y :: r) (length (l ++ y :: r)) = Ok w /\ v <> w.
Proof.
  intros Hx Hy Hne. unfold adler32. rewrite !Nat.leb_refl, !firstn_all. eexists _, _. split; [reflexivity|]. split; [reflexivity|].
  assert (0 <= 1 < MOD_ADLER) as H1 by done. assert (0 <= 0 < MOD_ADLER) as H0 by done.
  destruct (adler_fold _ 1 0 Hx H1 H0) as [Ex Bx]. destruct (adler_fold _ 1 0 Hy H1 H0) as [Ey By].
  set (p := foldl adler_step (1, 0) (l ++ x :: r)) in *. set (q := foldl adler_step (1, 0) (l ++ y :: r)) in *.
  intros E. apply (f_equal (fun v => v mod 2 ^ 16)) in E.
  rewrite !adler_parts in E by (rewrite ?Ex, ?Ey; try apply Z.mod_pos_bound; done). rewrite Ex, Ey, !sum_app in E. cbn [foldr] in E.
  apply Forall_app in Hx as [_ Hx]. apply Forall_app in Hy as [_ Hy]. inversion Hx as [|?? Cx _]; inversion Hy as [|?? Cy _]; subst.
  unfold is_char, MOD_ADLER in *. set (s := 1 + (foldr Z.add 0 l + foldr Z.add 0 r)).
  replace (1 + (foldr Z.add 0 l + (x + foldr Z.add 0 r))) with (s + x) in E by (unfold s; lia).
  replace (1 + (foldr Z.add 0 l + (y + foldr Z.add 0 r))) with (s + y) in E by (unfold s; lia).
  pose proof (Z.div_mod (s + x) 65521 ltac:(lia)). pose proof (Z.div_mod (s + y) 65521 ltac:(lia)).
  assert (x - y = 65521 * ((s + x) / 65521 - (s + y) / 65521)) as Hd by lia.
  set (k := (s + x) / 65521 - (s + y) / 65521) in *. assert (k = 0 \/ 1 <= k \/ k <= -1) as [?|[?|?]] by lia; subst; nia.
Qed.

Lemma adler32_detects_witness :
  exists v w, adler32 [104; 105] 2 = Ok v /\ adler32 [104; 106] 2 = Ok w /\ v <> w.
Proof. apply (adler32_detects [104] 105 106 []); [by repeat constructor|by repeat constructor|done]. Defined.
(** The value of the algorithm for "Wikipedia". *)
Lemma adler32_wikipedia : adler32 [87; 105; 107; 105; 112; 101; 100; 105; 97] 9 = Ok 0x11e60398.
Proof. reflexivity. Qed.

(** *** Random strings *)

Lemma rand_range x : exists r, rand x = Ok (r, r) /\ 0 <= r < 2 ^ 31.
Proof.
  exists (Z.land (u64 (0x5deece66d * x + 0xb)) 0x7fffffff). split; [done|]. change 0x7fffffff with (Z.ones 31). rewrite Z.land_ones by lia. by apply Z.mod_pos_bound.
Qed.
(** [alphaSz] counts the terminator of [alpha], so that a NUL can be drawn: with this
    seed the string of nine characters has three. *)
Lemma random_string_cut :
  exists x, (srand 1;; generateRandomString (replicate 10 1) 10) 0 = Ok ([98; 116; 111; 0; 97; 47; 76; 123; 97; 0], x).
Proof. eexists. vm_compute. reflexivity. Qed.

(** *** Threads *)

(** The identifiers handed out are the successors of the counter: no two threads of a
    process share one. *)
Lemma pthread_ids {K} (run : handler -> list Z -> M K Z) ex start arg (s s' : @thread_st K) t :
  0 <= pthread_id s < 2 ^ 31 - 1 -> pthread_create run ex start arg s = Ok (t, s') -> t = pthread_id s + 1 /\ pthread_id s' = pthread_id s + 1.
Proof.
  intros Hs E. unfold pthread_create in E. apply bind_inv in E as (? & s1 & E1 & E). injection E1 as <- <-.
  apply bind_inv in E as (t' & s2 & E2 & E). injection E2 as <- <-. cbn [pthread_id] in E. rewrite u64_small, i32_small in E by lia.
  apply bind_inv in E as (? & s3 & E3 & E). unfold on_machine, zoom in E3. cbn [machine] in E3.
  destruct (sys_pthread_create _ _ _ _ _ _) as [[? u]|]; [|done]. injection E3 as <- <-. injection E as <- <-. done.
Qed.
